(* ===== verification/_CoqProject ===== *)
-Q . S2P
Prelude.v
PyLib.v
Models.v
PortalModels.v
EmuModels.v
World.v
TenancyGuard.v
Business.v
Trace.v
NicoSim.v
NicoMachine.v
VastSim.v
SharedSvc.v
Spec.v
Seed.v
StoreOps.v
Adapters.v
Polling.v
Tenancy.v
Binding.v
Partition.v
StateMachine.v
Placement.v
Topology.v
Views.v
Metrics.v
Saga.v
TrayEmu.v
NicoApi.v
NicoRest.v
CustomerOps.v
K8s.v
K8sApi.v
Orders.v
Reclaim.v
Incidents.v
Scenario.v
Reconcile.v
Day2.v
Handlers.v
Demo.v
Lawful.v
Isolation.v
Compensation.v
Api.v
TenancyThms.v
NicoThms.v
NicoApiThms.v
HttpThms.v
SagaThms.v
PlacementThms.v
ReconcileThms.v
TraceThms.v
SharedThms.v
MetricsThms.v
GuardThms.v
CustomerThms.v
BusinessThms.v
UpgradeThms.v
SeedThms.v
PortalFrame.v
ApprovalThms.v
AcceptanceThms.v
TerminationThms.v
IncidentThms.v
SlaThms.v
EmuThms.v
App.v
Assembly.v
AssemblyThms.v
Routes.v
RoutesThms.v
Integration.v
IntegrationThms.v
Findings.v
