(* ===== verification/Prelude.v ===== *)
(** * Verification of the NeoCloud OS control plane

    The program ([src/app/]) is the control plane of a GPU cloud: a FastAPI
    service that sells racks of GPU trays to tenants.  Its own logic is
    - an in-memory inventory and tenancy store ([store.py], [models.py]), filled
      from blueprints ([seed.py], [spec.py]) and edited by [topology.py];
    - the multi-tenancy service ([tenancy.py]): tenants with their network
      isolation (VNIs), allocations of racks, NVLink partitions, and a report
      that judges a tenant's isolation;
    - the lifecycle service ([lifecycle.py]): transition tables of nodes and
      orders, placement, the order saga with its approval gates and its
      compensation, Managed K8s installation in eight stages, the terminate
      pipeline, reconciliation with the site controller, the day-2 add-on;
    - the adapter seam ([adapters.py]) and, behind it, simulators of the site
      controller NICo ([nico_fake.py]) and of the storage VAST ([vast_fake.py]);
      the emulator of the compute trays ([tray_emu.py]);
    - shared services ([shared_services.py]: realms, secrets, PAM, audit) and
      the trace bus ([trace.py]) that every part reports to;
    - the customer plane: the gate that confines a request to its tenant
      ([tenancy_guard.py]), the tenant's own operations ([customer_ops.py]), the
      operation of Managed K8s clusters ([k8s_api.py]), acceptance, termination
      and incidents ([scenario_api.py]), tickets and billing ([business.py]);
    - what the consoles read: the fabric ([fabric.py]), the request metrics
      ([metrics.py]) and the state of the integration ([integration.py]);
    - process start and reset ([main.py]).

    ** How it is modelled

    A handler is a function of the monad [IO] over one record [World] (World.v):
    store, simulators, shared services, trace bus, emulator, customer records,
    environment.  An exception
    returns the world with the changes made so far, as in Python; nothing is
    rolled back that the code does not roll back.  A dictionary is the list of
    its entries in insertion order (PyLib.v).  A handler refers to an object of
    the store by its key and reads it afresh where the code reads an attribute,
    so aliasing of the shared objects is kept.  The routes hold the re-entrant
    [STORE.lock] while they change the store, so a request is one step.  A
    background thread is recorded where the code starts it; the installation
    threads and the wipe thread run to their end as one step ([Api.R_thread],
    [App.Termination_thread]), the upgrade threads take one step per acquisition of
    the lock ([App.Upgrade_thread]) so that requests come in between.  Clock, random tokens and
    draws, environment variables, the text of floats and the digest of a
    certificate are functions of [Env]: the theorems hold for all of them.

    What other processes answer is a parameter.  The order pipeline speaks to any
    site controller whose [ComputeAdapter] leaves the
    control plane's own state alone ([AdapterFrame]) and, where the claim needs
    it, raises only HTTP errors ([AdapterHttp]).  The in-process adapter is
    proved to satisfy both, and the witnesses use it; the REST client
    ([NicoRest.NicoHttpAdapter]) satisfies the first over every transport that
    does, and equals the in-process adapter when the other side serves the
    simulator's router (HttpThms.v); httpx, FastAPI and pydantic are the classes
    [Serves] and [Pydantic], FastAPI's choice of a route is [Routes.Dispatches].  The AI Infra emulator and
    the physical twin are functions that return JSON or nothing.

    ** Files

    Infrastructure: this file (record update, the monad, [Steps]: relations
    along which a program moves on every outcome, [Raises]: what it may raise,
    [wp]); PyLib.v (dictionaries, strings, sorting); World.v.

    One file per component, with operations named as in the source:
    - Models.v, PortalModels.v, EmuModels.v: [app/models.py] and the dictionaries
      of the customer plane and the emulator; StoreOps.v: the lookups of
      [app/store.py]; Spec.v and Seed.v: blueprints, VNI ranges and the expansion
      of a blueprint ([app/spec.py], [app/seed.py]); Trace.v: [app/trace.py];
    - NicoSim.v: [FakeNico] and its demo endpoints; NicoApi.v: its read API;
      NicoRest.v: its JSON, its router and the REST adapter;
      VastSim.v: [FakeVast];
      SharedSvc.v: [SharedServices]; Adapters.v: the protocols and [wait_job];
      TrayEmu.v: [app/tray_emu.py];
    - Tenancy.v: [app/tenancy.py]; Topology.v: [app/topology.py];
    - of [app/lifecycle.py]: StateMachine.v (tables, [advance_node],
      [advance_order], [bootstrap_nodes]), Placement.v ([select_racks]), Saga.v
      (the [_stage_*] functions up to acceptance, [_compensate]), K8s.v (the install and the
      delivery stage), Orders.v (acceptance of an order, gates, rejection), Reclaim.v
      (terminate, the order routes), Reconcile.v, Day2.v, Views.v (the read
      routes, with [app/fabric.py]);
    - TenancyGuard.v, CustomerOps.v, K8sApi.v, Business.v: the modules of these
      names; Scenario.v and Incidents.v: the two halves of [app/scenario_api.py];
    - Metrics.v: [app/metrics.py]; Integration.v: [app/integration.py];
      Assembly.v: [app/main.py] (start, reseed, resets), Routes.v: the table of all
      routes and the middlewares in front of them ([app/main.py] and the routers);
    - Api.v: one constructor per mutating route of the order pipeline and the
      tenancy service, and the world after any list of requests; App.v: the same
      for every route that changes state, with the steps of the threads.

    Theory: NicoMachine.v (the abstract machine of hosts), Polling.v, Binding.v
    (racks and allocations), Partition.v (NVLink partitions), Handlers.v (the
    interface [StoreRelOn]: what a relation on the store must satisfy at the primitive
    updates for every handler to move along it, with the assignments to an order it
    tolerates as a parameter; [StoreRel] tolerates all that keep identity, state and
    path), its instances Lawful.v and Isolation.v,
    Compensation.v, PortalFrame.v (what the pipeline leaves to the customer
    plane), Demo.v (a concrete site for the witnesses).  App.v extends [StoreRel]
    to [PlaneRel], which covers the customer plane, and proves the invariants of
    the whole application through it.

    ** Theorems

    - Api.v, App.v: every sequence of requests and thread steps moves nodes and
      orders only along their
      tables with faithful histories (App.v: except a rejected delivery); the states
      that hold a workload are left only through sanitizing; final orders stay; racks are exclusive, partitions inside
      their tenant and VNIs distinct, whatever route is called.
    - TenancyThms.v: every sequence of requests keeps isolation; the exact effect of each tenancy operation on
      every branch; the isolation report tells the truth.
    - SagaThms.v: compensation always completes and leaves nothing bound; what
      a rejection at a gate does; gates can be resumed; no dead ends.
    - ApprovalThms.v: an approval settles the order or moves its gate forward, so
      the loop over the remaining gates ends.
    - PlacementThms.v: placement is sound and complete, and what it offers the
      tenancy service admits.
    - NicoThms.v: under the operations on hosts, jobs and segments the simulator
      refines a machine of hosts in which hosts are exclusive; how sanitizing and polling end.  NicoApiThms.v: the read API
      counts and lists exactly what the simulator holds.  HttpThms.v: the REST
      adapter does what the in-process adapter does (CPU hosts without a number
      aside).
    - ReconcileThms.v: when the hosts can be listed, reconciliation reports and
      classifies every node and host exactly.
    - GuardThms.v, CustomerThms.v: the gate and the ownership checks separate
      the tenants.  RoutesThms.v: no route hides another, the gate judges a request
      by the parameter its function gets, and what a request meets on its way there.
      BusinessThms.v: tickets, and the bills add up.
    - AcceptanceThms.v, TerminationThms.v, IncidentThms.v, SlaThms.v: billing starts
      with acceptance, by the customer or by the clock; nothing is erased before
      the whole checklist is confirmed and a certificate never changes; one incident
      per fault, one credit per tenant and month; what the monthly SLA report says.
    - UpgradeThms.v: upgrades of a cluster exclude each other, never go back and
      can finish, whatever is interleaved.
    - EmuThms.v: the emulator mirrors the bindings and stays within bounds.
    - SeedThms.v, AssemblyThms.v: seeding and provisioning build a well-formed
      tree with the blueprints' numbers; start and reseed succeed and establish
      the invariants that the routes then keep.
    - TraceThms.v, SharedThms.v, MetricsThms.v, IntegrationThms.v: the bounded
      windows of trace bus, audit log and metrics; what revoking an order's
      credentials takes away; the comparison of the layers.
    - Findings.v: behaviours that differ from what the code means to do.

    ** Bounds

    Python integers are [Z], floats exact rationals [Q] (the modelled code
    compares, adds, scales and rounds them); rounding of binary floats is out of
    the model.  The loops that are not over
    a finite list are [wait_job], whose bound of 60 polls is the source's, the
    loop over the remaining gates of an order, for which nine rounds are proved
    enough (ApprovalThms.v), the split of
    the requested racks into scalable units, structural on a measure, and the search for a
    free VNI or index, which scans a finite range;
    the hexadecimal printer takes the binary size of its number as fuel.

    ** Not modelled

    The prose of trace events and log lines, and the fields of responses that
    restate the store; the sockets behind the REST clients and the
    probes (another process; parameters of the model); FastAPI itself, the CORS layer
    and the files of the static pages (parameters); the sleeps of the background
    threads; the scripts under [src/scripts], which only call the API.
    A route that takes the lock several times is still one step, except for the
    threads named above.  The routes of App.v leave out provisioning and reseed:
    growth of the inventory is the subject of SeedThms.v, starting over that of
    AssemblyThms.v. *)
From stdpp Require Import base decidable option list numbers strings pretty relations.

(** ** Record update

    [x <| f := v |>] and [x <| f ::= g |>] update one field of a record.  A
    record opts in with an [Eta] instance (its eta-expansion); the setter of a
    field is then built on demand from it. *)
Class Eta (R : Type) := eta : R → R.
Class Setter {R T : Type} (proj : R → T) := update : (T → T) → R → R.
Arguments update {R T} proj {_} _ _.

Ltac build_setter :=
  match goal with
  | |- @Setter ?R ?T ?proj =>
      let f := fresh "f" in
      let x := fresh "x" in
      intros f x;
      let body := eval cbv beta delta [eta] in (eta x) in
      let body := eval hnf in body in
      match eval pattern (proj x) in body with
      | ?F _ => let r := eval cbv beta in (F (f (proj x))) in exact r
      end
  end.
#[export] Hint Extern 1 (Setter _) => build_setter : typeclass_instances.

Declare Scope py_scope.
Delimit Scope py_scope with py.
Open Scope py_scope.

Notation "x <| f ::= g |>" := (update f g x)
  (at level 1, f at next level, left associativity, format "x <| f  ::=  g |>") : py_scope.
Notation "x <| f := v |>" := (update f (λ _, v) x)
  (at level 1, f at next level, left associativity, format "x <| f  :=  v |>") : py_scope.

(** ** Python exceptions and the state-and-exception monad

    A handler is a function of the world it runs in.  As in Python, an
    exception does not undo the state changes made before it was raised: the
    world is returned next to the outcome in both cases. *)
Inductive exn :=
  | HTTPException (status_code : Z) (detail : string)
  | KeyError (key : string)
  | IndexError
  | ValueError (what : string)
  | AttributeError (what : string)
  | TypeError (what : string).

Inductive outcome (A : Type) :=
  | Ok (a : A)
  | Raised (e : exn).
Arguments Ok {A} a.
Arguments Raised {A} e.

#[export] Instance exn_eq_dec : EqDecision exn.
Proof. solve_decision. Defined.

Definition M (W A : Type) : Type := W → outcome A * W.

Section monad.
Context {W : Type}.

#[export] Instance M_ret : MRet (M W) := λ A a w, (Ok a, w).
#[export] Instance M_bind : MBind (M W) := λ A B f m w,
  match m w with
  | (Ok a, w') => f a w'
  | (Raised e, w') => (Raised e, w')
  end.

Definition raise {A} (e : exn) : M W A := λ w, (Raised e, w).
Definition get_w : M W W := λ w, (Ok w, w).
Definition gets {A} (f : W → A) : M W A := λ w, (Ok (f w), w).
Definition modify (f : W → W) : M W unit := λ w, (Ok tt, f w).

(** [raise HTTPException(c, d)]. *)
Definition http {A} (c : Z) (d : string) : M W A := raise (HTTPException c d).

(** [try: m  except HTTPException as exc: h(exc)]; other exceptions pass. *)
Definition try_http {A} (m : M W A) (h : Z → string → M W A) : M W A := λ w,
  match m w with
  | (Raised (HTTPException c d), w') => h c d w'
  | r => r
  end.

(** [try: m  except Exception: h]. *)
Definition try_any {A} (m : M W A) (h : exn → M W A) : M W A := λ w,
  match m w with
  | (Raised e, w') => h e w'
  | r => r
  end.

(** [if b: m] *)
Definition when (b : bool) (m : M W unit) : M W unit := if b then m else mret tt.

(** [for x in l: body(x)] *)
Fixpoint for_each {A} (l : list A) (body : A → M W unit) : M W unit :=
  match l with
  | [] => mret tt
  | x :: l' => body x ;; for_each l' body
  end.

(** A loop that carries a value and may leave the function early: the body
    returns [inl r] for [return r] and [inr acc] to go on. *)
Fixpoint for_fold {A B R} (l : list A) (acc : B) (body : B → A → M W (R + B))
    : M W (R + B) :=
  match l with
  | [] => mret (inr acc)
  | x :: l' =>
      r ← body acc x;
      match r with
      | inl v => mret (inl v)
      | inr acc' => for_fold l' acc' body
      end
  end.

(** A loop that carries a value *)
Fixpoint fold_m {A B} (f : B → A → M W B) (acc : B) (l : list A) : M W B :=
  match l with
  | [] => mret acc
  | x :: l' => acc' ← f acc x; fold_m f acc' l'
  end.

(** [out = [f(x) for x in l]] with effects *)
Fixpoint map_m {A B} (f : A → M W B) (l : list A) : M W (list B) :=
  match l with
  | [] => mret []
  | x :: l' => y ← f x; ys ← map_m f l'; mret (y :: ys)
  end.
End monad.

(** Lift an optional value, raising [e] when it is absent. *)
Definition or_raise {W A} (o : option A) (e : exn) : M W A :=
  match o with
  | Some a => mret a
  | None => raise e
  end.

(** ** Weakest preconditions

    [wp m Q E w]: run from [w], [m] either returns a value and a world in [Q]
    or raises an exception in a world in [E]. *)
Definition wp {W A} (m : M W A) (Q : A → W → Prop) (E : exn → W → Prop) (w : W) : Prop :=
  match m w with
  | (Ok a, w') => Q a w'
  | (Raised e, w') => E e w'
  end.

Section wp.
Context {W : Type}.
Implicit Types w : W.

Lemma wp_mono {A} (m : M W A) (Q Q' : A → W → Prop) (E E' : exn → W → Prop) w :
  wp m Q E w → (∀ a w', Q a w' → Q' a w') → (∀ e w', E e w' → E' e w') → wp m Q' E' w.
Proof. unfold wp. destruct (m w) as [[a|e] w']; auto. Qed.

Lemma wp_bind {A B} (m : M W A) (f : A → M W B) Q E w :
  wp m (λ a w', wp (f a) Q E w') E w → wp (m ≫= f) Q E w.
Proof. unfold wp, mbind, M_bind. destruct (m w) as [[a|e] w']; auto. Qed.

Lemma wp_try_http {A} (m : M W A) h Q E w :
  wp m Q (λ e w', match e with
                  | HTTPException c d => wp (h c d) Q E w'
                  | _ => E e w'
                  end) w →
  wp (try_http m h) Q E w.
Proof. unfold wp, try_http. destruct (m w) as [[a|[]] w']; auto. Qed.

Lemma wp_conj {A} (m : M W A) Q Q' E E' w :
  wp m Q E w → wp m Q' E' w →
  wp m (λ a w', Q a w' ∧ Q' a w') (λ e w', E e w' ∧ E' e w') w.
Proof. unfold wp. destruct (m w) as [[a|e] w']; auto. Qed.

Lemma wp_for_each {A} (I : W → Prop) E (l : list A) (body : A → M W unit) w :
  I w →
  (∀ x w', x ∈ l → I w' → wp (body x) (λ _ w'', I w'') E w') →
  wp (for_each l body) (λ _ w', I w') E w.
Proof.
  revert w. induction l as [|x l IH]; intros w Hw Hbody; [exact Hw|].
  apply wp_bind. eapply wp_mono; [apply Hbody; [left|exact Hw]| |auto].
  intros [] w' Hw'. apply IH; [exact Hw'|]. intros y w'' Hy. apply Hbody. by right.
Qed.
End wp.

(** ** Two-state reasoning

    [Steps R m]: whatever the outcome, [m] moves the world along [R].  For a
    preorder [R] the property is compositional, so a handler inherits it from
    the primitives it calls; [solve_steps] does the composition. *)
Definition Steps {W A} (R : relation W) (m : M W A) : Prop := ∀ w, R w (m w).2.

Section steps.
Context {W : Type} (R : relation W) `{!PreOrder R}.

Lemma steps_ret {A} (a : A) : Steps R (mret (M := M W) a).
Proof. intros w. reflexivity. Qed.
Lemma steps_raise {A} e : Steps R (raise (A := A) e).
Proof. intros w. reflexivity. Qed.
Lemma steps_gets {A} (f : W → A) : Steps R (gets f).
Proof. intros w. reflexivity. Qed.
Lemma steps_get_w : Steps R get_w.
Proof. intros w. reflexivity. Qed.
Lemma steps_or_raise {A} (o : option A) e : Steps R (or_raise o e).
Proof. destruct o; [apply steps_ret|apply steps_raise]. Qed.
Lemma steps_bind_or_raise {A B} (o : option A) e (f : A → M W B) :
  (∀ a, o = Some a → Steps R (f a)) → Steps R (or_raise o e ≫= f).
Proof. destruct o; intros H w; [by apply H|reflexivity]. Qed.
Lemma steps_modify f : (∀ w, R w (f w)) → Steps R (modify f).
Proof. intros Hf w. apply Hf. Qed.
Lemma steps_bind {A B} (m : M W A) (f : A → M W B) :
  Steps R m → (∀ a, Steps R (f a)) → Steps R (m ≫= f).
Proof.
  intros Hm Hf w. unfold mbind, M_bind. specialize (Hm w).
  destruct (m w) as [[a|e] w']; [|exact Hm].
  etransitivity; [exact Hm|apply Hf].
Qed.
Lemma steps_try_http {A} (m : M W A) h :
  Steps R m → (∀ c d, Steps R (h c d)) → Steps R (try_http m h).
Proof.
  intros Hm Hh w. unfold try_http. specialize (Hm w).
  destruct (m w) as [[a|[]] w']; try exact Hm.
  etransitivity; [exact Hm|apply Hh].
Qed.
Lemma steps_try_any {A} (m : M W A) h :
  Steps R m → (∀ e, Steps R (h e)) → Steps R (try_any m h).
Proof.
  intros Hm Hh w. unfold try_any. specialize (Hm w).
  destruct (m w) as [[a|e] w']; [exact Hm|].
  etransitivity; [exact Hm|apply Hh].
Qed.
Lemma steps_for_each {A} (l : list A) body :
  (∀ x, x ∈ l → Steps R (body x)) → Steps R (for_each l body).
Proof.
  induction l as [|x l IH]; intros Hb; [apply steps_ret|].
  apply steps_bind; [apply Hb; left|]. intros _. apply IH. intros y Hy. apply Hb. by right.
Qed.
Lemma steps_for_fold {A B C} (l : list A) (acc : B) (body : B → A → M W (C + B)) :
  (∀ b x, x ∈ l → Steps R (body b x)) → Steps R (for_fold l acc body).
Proof.
  revert acc. induction l as [|x l IH]; intros acc Hb; [apply steps_ret|].
  apply steps_bind; [apply Hb; left|]. intros [v|acc']; [apply steps_ret|].
  apply IH. intros b y Hy. apply Hb. by right.
Qed.
Lemma steps_fold_m {A B} (f : B → A → M W B) acc (l : list A) :
  (∀ b x, x ∈ l → Steps R (f b x)) → Steps R (fold_m f acc l).
Proof.
  revert acc. induction l as [|x l IH]; intros acc Hb; [apply steps_ret|].
  apply steps_bind; [apply Hb; left|]. intros acc'.
  apply IH. intros b y Hy. apply Hb. by right.
Qed.
Lemma steps_map_m {A B} (f : A → M W B) (l : list A) :
  (∀ x, x ∈ l → Steps R (f x)) → Steps R (map_m f l).
Proof.
  induction l as [|x l IH]; intros Hb; [apply steps_ret|].
  apply steps_bind; [apply Hb; left|]. intros y.
  apply steps_bind; [|intros; apply steps_ret]. apply IH. intros z Hz. apply Hb. by right.
Qed.
Lemma steps_when b (m : M W unit) : Steps R m → Steps R (when b m).
Proof. destruct b; [auto|intros; apply steps_ret]. Qed.
End steps.

Lemma steps_weaken {W A} (R R' : relation W) (m : M W A) :
  (∀ w w', R w w' → R' w w') → Steps R m → Steps R' m.
Proof. intros H Hm w. apply H, Hm. Qed.

Create HintDb steps discriminated.
#[export] Hint Constants Opaque : steps.
#[export] Hint Projections Opaque : steps.

(** One structural step of a [Steps] goal; leaves are closed with the [steps]
    hints, which each file extends with its own operations. *)
Ltac steps_step :=
  lazymatch goal with
  | |- Steps _ (mret _) => apply steps_ret; apply _
  | |- Steps _ (raise _) => apply steps_raise; apply _
  | |- Steps _ (http _ _) => apply steps_raise; apply _
  | |- Steps _ (gets _) => apply steps_gets; apply _
  | |- Steps _ get_w => apply steps_get_w; apply _
  | |- Steps _ (or_raise _ _) => apply steps_or_raise; apply _
  | |- Steps _ (_ ≫= _) => apply steps_bind; [apply _| |intros ?]
  | |- Steps _ (try_http _ _) => apply steps_try_http; [apply _| |intros ? ?]
  | |- Steps _ (try_any _ _) => apply steps_try_any; [apply _| |intros ?]
  | |- Steps _ (for_each _ _) => apply steps_for_each; [apply _|intros ? ?]
  | |- Steps _ (for_fold _ _ _) => apply steps_for_fold; [apply _|intros ? ? ?]
  | |- Steps _ (fold_m _ _ _) => apply steps_fold_m; [apply _|intros ? ? ?]
  | |- Steps _ (map_m _ _) => apply steps_map_m; [apply _|intros ? ?]
  | |- Steps _ (when _ _) => apply steps_when; [apply _|]
  | |- Steps _ (match ?x with _ => _ end) => destruct x
  end.
Ltac solve_steps :=
  repeat first
    [ lazymatch goal with |- ∀ _, _ => intros ? end
    | progress cbv beta zeta
    | solve [eauto with steps typeclass_instances]
    | steps_step ].

(** ** Programs that start in a known state

    [Under I R m]: from a state in [I], [m] moves along [R].  The steps in front of
    the one that matters move along [K], which is within [R] and keeps [I]. *)
Definition Under {W A} (I : W → Prop) (R : relation W) (m : M W A) : Prop := ∀ w, I w → R w (m w).2.
(** Every value [m] returns satisfies [Q]. *)
Definition Returns {W A} (Q : A → Prop) (m : M W A) : Prop :=
  ∀ w, match (m w).1 with Ok a => Q a | Raised _ => True end.
Lemma returns_bind {W A B} (Q : B → Prop) (m : M W A) (f : A → M W B) :
  (∀ a, Returns Q (f a)) → Returns Q (m ≫= f).
Proof. intros Hf w. unfold mbind, M_bind. destruct (m w) as [[a|e] w']; [apply Hf|done]. Qed.
Lemma returns_fold {W A B} (f : B → A → M W B) (P : B → list A → Prop) acc l :
  (∀ b x l', P b (x :: l') → Returns (λ b', P b' l') (f b x)) → P acc l →
  Returns (λ b, P b []) (fold_m f acc l).
Proof.
  intros Hf. revert acc. induction l as [|x l IH]; intros acc Hp w; [exact Hp|].
  specialize (Hf acc x l Hp w). cbn. unfold mbind, M_bind.
  destruct (f acc x w) as [[b|e] w']; [|done]. by apply IH.
Qed.
Section under.
Context {W : Type} (R : relation W) `{!PreOrder R}.
Lemma under_steps {A} I (m : M W A) : Steps R m → Under I R m.
Proof. intros Hm w _. apply Hm. Qed.
Lemma under_keep {A B} I (K : relation W) (m : M W A) (f : A → M W B) :
  subrelation K R → (∀ w w', K w w' → I w → I w') →
  Steps K m → (∀ a, Under I R (f a)) → Under I R (m ≫= f).
Proof.
  intros HK HI Hm Hf w Hw. specialize (Hm w). unfold mbind, M_bind.
  destruct (m w) as [[a|e] w']; cbn in *; [|by apply HK].
  transitivity w'; [by apply HK|]. by apply Hf, (HI w).
Qed.
(** ... and what they return *)
Lemma under_keep_value {A B} I (K : relation W) (Q : A → Prop) (m : M W A) (f : A → M W B) :
  subrelation K R → (∀ w w', K w w' → I w → I w') →
  Steps K m → Returns Q m → (∀ a, Q a → Under I R (f a)) → Under I R (m ≫= f).
Proof.
  intros HK HI Hm Hq Hf w Hw. specialize (Hm w). specialize (Hq w). unfold mbind, M_bind.
  destruct (m w) as [[a|e] w']; cbn in *; [|by apply HK].
  transitivity w'; [by apply HK|]. by apply Hf, (HI w).
Qed.
Lemma under_last {A B} I (m : M W A) (f : A → M W B) :
  Under I R m → (∀ a, Steps R (f a)) → Under I R (m ≫= f).
Proof.
  intros Hm Hf w Hw. specialize (Hm w Hw). unfold mbind, M_bind.
  destruct (m w) as [[a|e] w']; [|done]. transitivity w'; [done|]. apply Hf.
Qed.
(** The result of a read decides how to go on. *)
Lemma under_gets {A B} I (g : W → A) (f : A → M W B) :
  (∀ a, Under (λ w, I w ∧ g w = a) R (f a)) → Under I R (gets g ≫= f).
Proof. intros Hf w Hw. by apply Hf. Qed.
Lemma under_weaken {A} (I J : W → Prop) (m : M W A) : (∀ w, I w → J w) → Under J R m → Under I R m.
Proof. intros HI Hm w Hw. by apply Hm, HI. Qed.
End under.

(** ** Which exceptions a program may raise

    [Raises P m]: every exception of [m] satisfies [P].  With [P] everywhere false
    [m] always returns; with [is_http] it only fails the way a route may. *)
Definition Raises {W A} (P : exn → Prop) (m : M W A) : Prop :=
  ∀ w, match (m w).1 with Ok _ => True | Raised e => P e end.
Abbreviation Total := (Raises (λ _, False)).
Definition is_http (e : exn) : Prop := match e with HTTPException _ _ => True | _ => False end.

Section raises.
Context {W : Type} (P : exn → Prop).
Lemma raises_ret {A} (a : A) : Raises P (mret (M := M W) a).
Proof. intros w. exact I. Qed.
Lemma raises_gets {A} (f : W → A) : Raises P (gets f).
Proof. intros w. exact I. Qed.
Lemma raises_modify (f : W → W) : Raises P (modify f).
Proof. intros w. exact I. Qed.
Lemma raises_raise {A} e : P e → Raises P (raise (W := W) (A := A) e).
Proof. intros H w. exact H. Qed.
Lemma raises_or_raise {A} (o : option A) e : P e → Raises P (or_raise (W := W) o e).
Proof. intros H w. by destruct o. Qed.
Lemma raises_bind {A B} (m : M W A) (f : A → M W B) :
  Raises P m → (∀ a, Raises P (f a)) → Raises P (m ≫= f).
Proof.
  intros Hm Hf w. unfold mbind, M_bind. specialize (Hm w).
  destruct (m w) as [[a|e] w']; [apply Hf|exact Hm].
Qed.
Lemma raises_try_http {A} (m : M W A) h :
  Raises (λ e, is_http e ∨ P e) m → (∀ c d, Raises P (h c d)) → Raises P (try_http m h).
Proof.
  intros Hm Hh w. unfold try_http. specialize (Hm w).
  destruct (m w) as [[a|[]] w']; cbn in *; try tauto. apply Hh.
Qed.
Lemma raises_for_each {A} (l : list A) body :
  (∀ x, x ∈ l → Raises P (body x)) → Raises P (for_each (W := W) l body).
Proof.
  induction l as [|x l IH]; intros Hb; [apply raises_ret|].
  apply raises_bind; [apply Hb; left|]. intros _. apply IH. intros y Hy. apply Hb. by right.
Qed.
Lemma raises_fold_m {A B} (f : B → A → M W B) acc (l : list A) :
  (∀ b x, x ∈ l → Raises P (f b x)) → Raises P (fold_m f acc l).
Proof.
  revert acc. induction l as [|x l IH]; intros acc Hb; [apply raises_ret|].
  apply raises_bind; [apply Hb; left|]. intros acc'. apply IH. intros b y Hy. apply Hb. by right.
Qed.
Lemma raises_when b (m : M W unit) : Raises P m → Raises P (when b m).
Proof. destruct b; [auto|intros; apply raises_ret]. Qed.
Lemma raises_weaken (Q : exn → Prop) {A} (m : M W A) :
  (∀ e, Q e → P e) → Raises Q m → Raises P m.
Proof. intros H Hm w. specialize (Hm w). destruct (m w).1; auto. Qed.
End raises.

Create HintDb raises discriminated.
#[export] Hint Constants Opaque : raises.
#[export] Hint Projections Opaque : raises.
Ltac raises_step :=
  lazymatch goal with
  | |- Raises _ (mret _) => apply raises_ret
  | |- Raises _ (raise _) => apply raises_raise; cbn; tauto
  | |- Raises _ (http _ _) => apply raises_raise; cbn; tauto
  | |- Raises _ (gets _) => apply raises_gets
  | |- Raises _ (modify _) => apply raises_modify
  | |- Raises _ (or_raise _ _) => apply raises_or_raise; cbn; tauto
  | |- Raises _ (_ ≫= _) => apply raises_bind; [|intros ?]
  | |- Raises _ (try_http _ _) => apply raises_try_http; [|intros ? ?]
  | |- Raises _ (for_each _ _) => apply raises_for_each; intros ? ?
  | |- Raises _ (fold_m _ _ _) => apply raises_fold_m; intros ? ? ?
  | |- Raises _ (when _ _) => apply raises_when
  | |- Raises _ (match ?x with _ => _ end) => destruct x
  end.
Ltac solve_raises :=
  repeat first
    [ lazymatch goal with |- ∀ _, _ => intros ? end
    | progress cbv beta zeta
    | solve [eauto with raises]
    | raises_step ].

(** A program that always returns, by its result. *)
Lemma total_run {W A} (m : M W A) w : Total m → ∃ a, m w = (Ok a, (m w).2).
Proof. intros Hm. specialize (Hm w). destruct (m w) as [[a|e] w']; [by exists a|done]. Qed.

Lemma ok_run {W A} (m : M W A) w a : (m w).1 = Ok a → m w = (Ok a, (m w).2).
Proof. intros <-. apply surjective_pairing. Qed.

Lemma bind_ok {W A B} (m : M W A) (f : A → M W B) w a w' :
  m w = (Ok a, w') → (m ≫= f) w = f a w'.
Proof. intros E. unfold mbind, M_bind. by rewrite E. Qed.

Lemma bind_inv {W A B} (m : M W A) (f : A → M W B) w b w' :
  (m ≫= f) w = (Ok b, w') → ∃ a w1, m w = (Ok a, w1) ∧ f a w1 = (Ok b, w').
Proof. unfold mbind, M_bind. destruct (m w) as [[a|e] w1]; [eauto|done]. Qed.
Lemma map_m_pure {W A B} (f : A → M W B) (g : A → B) l w :
  (∀ x, x ∈ l → f x w = (Ok (g x), w)) → map_m f l w = (Ok (g <$> l), w).
Proof.
  induction l as [|x l IH]; intros H; [done|]. cbn. unfold mbind, M_bind. rewrite (H x) by left.
  rewrite IH; [done|]. intros y Hy. apply H. by right.
Qed.
Lemma map_m_length {W A B} (f : A → M W B) l w ys w' :
  map_m f l w = (Ok ys, w') → length ys = length l.
Proof.
  revert w ys w'. induction l as [|x l IH]; intros w ys w'; cbn [map_m].
  { intros E. unfold mret, M_ret in E. by injection E as <- _. }
  intros (y & w1 & _ & (zs & w2 & E & E2)%bind_inv)%bind_inv.
  unfold mret, M_ret in E2. injection E2 as <- _. cbn. f_equal. by eapply IH.
Qed.

(** A loop whose body only looks at the world *)
Lemma for_each_pure {W A} (l : list A) (body : A → M W unit) (w : W) :
  (∀ x, x ∈ l → (body x w).2 = w) →
  (for_each l body w).2 = w
  ∧ ((for_each l body w).1 = Ok tt ↔ ∀ x, x ∈ l → (body x w).1 = Ok tt).
Proof.
  induction l as [|x l IH]; intros Hb; cbn.
  - split; [done|]. split; [|done]. intros _ x Hx. by apply elem_of_nil in Hx.
  - destruct IH as [Hw Hok]. { intros y Hy. apply Hb. by right. }
    unfold mbind, M_bind. specialize (Hb x (list_elem_of_here _ _)).
    destruct (body x w) as [[[]|e] w'] eqn:E; cbn in Hb; subst w'.
    + split; [done|]. rewrite Hok. split.
      * intros H y [->|Hy]%elem_of_cons; [by rewrite E|by apply H].
      * intros H y Hy. apply H. by right.
    + split; [done|]. split; [done|]. intros H. specialize (H x (list_elem_of_here _ _)).
      by rewrite E in H.
Qed.
