(* ===== verification/PyLib.v ===== *)
(** * Python data: insertion-ordered dictionaries, strings, sorting

    [dict V] is [dict[str, V]]: iteration follows insertion order, assigning an
    existing key keeps its position, [pop] removes it.  Also the string
    functions the program calls ([str], [join], [rsplit], [int], [hex], [re.sub]
    for slugs), truthiness, [sorted] (stable) and [min] by key. *)
From Stdlib Require Import Ascii String.
From Stdlib Require Import QArith_base.
From stdpp Require Import strings pretty base decidable option numbers sets list.
From S2P Require Import Prelude.
Local Open Scope string_scope.
Local Open Scope list_scope.
Local Open Scope py_scope.

(** ** Dictionaries *)
Definition dict (V : Type) : Type := list (string * V).

Section dict.
Context {V : Type}.
Implicit Types (d : dict V) (k : string) (v : V).

Fixpoint dget d k : option V :=
  match d with
  | [] => None
  | (k', v) :: d' => if String.eqb k k' then Some v else dget d' k
  end.

Fixpoint dset d k v : dict V :=
  match d with
  | [] => [(k, v)]
  | (k', v') :: d' => if String.eqb k k' then (k', v) :: d' else (k', v') :: dset d' k v
  end.

Fixpoint ddel d k : dict V :=
  match d with
  | [] => []
  | (k', v') :: d' => if String.eqb k k' then d' else (k', v') :: ddel d' k
  end.

(** Mutation of the object stored under [k]. *)
Definition dupd d k (f : V → V) : dict V :=
  match dget d k with
  | Some v => dset d k (f v)
  | None => d
  end.

Definition dkeys d : list string := d.*1.
Definition dvalues d : list V := d.*2.
Definition dmem d k : bool := match dget d k with Some _ => true | None => false end.
Definition dict_wf d : Prop := NoDup (dkeys d).

Lemma dget_dset d k v k' :
  dget (dset d k v) k' = if String.eqb k' k then Some v else dget d k'.
Proof.
  induction d as [|[k1 v1] d IH]; simpl; [done|].
  destruct (String.eqb_spec k k1); simpl; destruct (String.eqb_spec k' k1);
    destruct (String.eqb_spec k' k); subst; try done; rewrite IH;
    destruct (String.eqb_spec k' k); congruence.
Qed.
Lemma dget_dset_eq d k v : dget (dset d k v) k = Some v.
Proof. by rewrite dget_dset, String.eqb_refl. Qed.
Lemma dget_dset_ne d k v k' : k ≠ k' → dget (dset d k v) k' = dget d k'.
Proof. intros. rewrite dget_dset. by destruct (String.eqb_spec k' k); subst. Qed.

Lemma dget_dupd d k f k' :
  dget (dupd d k f) k' = if String.eqb k' k then f <$> dget d k else dget d k'.
Proof.
  unfold dupd. destruct (dget d k) eqn:E; [by rewrite dget_dset|].
  by destruct (String.eqb_spec k' k); subst.
Qed.
Lemma dget_dupd_eq d k f : dget (dupd d k f) k = f <$> dget d k.
Proof. by rewrite dget_dupd, String.eqb_refl. Qed.
Lemma dget_dupd_ne d k f k' : k ≠ k' → dget (dupd d k f) k' = dget d k'.
Proof. intros. rewrite dget_dupd. by destruct (String.eqb_spec k' k); subst. Qed.

Lemma dget_Some_in d k v : dget d k = Some v → (k, v) ∈ d.
Proof.
  induction d as [|[k1 v1] d IH]; simpl; [done|].
  destruct (String.eqb_spec k k1); [intros [= ->]; subst; left|].
  intros. right. by apply IH.
Qed.
Lemma dget_None_notin d k : dget d k = None ↔ k ∉ dkeys d.
Proof.
  unfold dkeys. induction d as [|[k1 v1] d IH]; simpl.
  - split; [intros _ H; inversion H|done].
  - rewrite not_elem_of_cons. destruct (String.eqb_spec k k1) as [->|Hne].
    + split; [done|]. by intros [].
    + rewrite IH. tauto.
Qed.
Lemma dmem_spec d k : dmem d k = true ↔ is_Some (dget d k).
Proof. unfold dmem, is_Some. destruct (dget d k) as [v|]; split; [eauto|done|done|by intros []]. Qed.
Lemma dmem_false d k : dmem d k = false ↔ dget d k = None.
Proof. unfold dmem. by destruct (dget d k). Qed.
Lemma dget_is_Some_in d k : is_Some (dget d k) ↔ k ∈ dkeys d.
Proof.
  destruct (dget d k) eqn:E.
  - split; [intros _|eauto]. apply dget_Some_in in E. apply list_elem_of_fmap. by exists (k, v).
  - apply dget_None_notin in E. split; [by intros []|done].
Qed.

Lemma in_dget d k v : dict_wf d → (k, v) ∈ d → dget d k = Some v.
Proof.
  unfold dict_wf, dkeys. induction d as [|[k1 v1] d IH]; simpl; [set_solver|].
  intros [Hn Hd]%NoDup_cons [[= -> ->]|Hin]%elem_of_cons; [by rewrite String.eqb_refl|].
  destruct (String.eqb_spec k k1); [subst|by apply IH].
  exfalso. apply Hn, list_elem_of_fmap. by exists (k1, v).
Qed.
Lemma dvalues_dget d v : dict_wf d → v ∈ dvalues d ↔ ∃ k, dget d k = Some v.
Proof.
  intros Hwf. unfold dvalues. rewrite list_elem_of_fmap. split.
  - intros ([k v'] & -> & Hin). exists k. by apply in_dget.
  - intros [k Hk]. exists (k, v). split; [done|by apply dget_Some_in].
Qed.
Lemma dget_dvalues d k v : dget d k = Some v → v ∈ dvalues d.
Proof. intros H%dget_Some_in. apply list_elem_of_fmap. by exists (k, v). Qed.

Lemma dkeys_dset d k v : dkeys (dset d k v) = if dmem d k then dkeys d else dkeys d ++ [k].
Proof.
  unfold dmem. induction d as [|[k1 v1] d IH]; simpl; [done|].
  destruct (String.eqb k k1); simpl; [done|].
  change (k1 :: dkeys (dset d k v) = if match dget d k with Some _ => true | None => false end
          then k1 :: dkeys d else k1 :: (dkeys d ++ [k])).
  rewrite IH. by destruct (dget d k).
Qed.
Lemma dkeys_dupd d k f : dkeys (dupd d k f) = dkeys d.
Proof.
  unfold dupd. destruct (dget d k) eqn:E; [|done]. by rewrite dkeys_dset; unfold dmem; rewrite E.
Qed.
Lemma dmem_dupd d k f k' : dmem (dupd d k f) k' = dmem d k'.
Proof. unfold dmem. rewrite dget_dupd. destruct (String.eqb_spec k' k); subst; [|done]. by destruct (dget d k). Qed.

Lemma dict_wf_nil : dict_wf ([] : dict V).
Proof. apply NoDup_nil_2. Qed.
Lemma dict_wf_dset d k v : dict_wf d → dict_wf (dset d k v).
Proof.
  unfold dict_wf. rewrite dkeys_dset. destruct (dmem d k) eqn:E; [done|].
  apply dmem_false, dget_None_notin in E. intros. apply NoDup_app.
  split_and!; [done| |apply NoDup_singleton].
  intros x Hx ->%list_elem_of_singleton. done.
Qed.
Lemma dict_wf_dupd d k f : dict_wf d → dict_wf (dupd d k f).
Proof. unfold dict_wf. by rewrite dkeys_dupd. Qed.
Lemma ddel_sublist d k : ddel d k `sublist_of` d.
Proof.
  induction d as [|[k1 v1] d IH]; simpl; [done|].
  destruct (String.eqb k k1); by constructor.
Qed.
Lemma dkeys_ddel_sublist d k : dkeys (ddel d k) `sublist_of` dkeys d.
Proof.
  induction d as [|[k1 v1] d IH]; simpl; [done|].
  destruct (String.eqb k k1); by constructor.
Qed.
Lemma dict_wf_ddel d k : dict_wf d → dict_wf (ddel d k).
Proof. intros H. exact (sublist_NoDup _ _ H (dkeys_ddel_sublist d k)). Qed.
Lemma dget_ddel_ne d k k' : k ≠ k' → dget (ddel d k) k' = dget d k'.
Proof.
  intros Hne. induction d as [|[k1 v1] d IH]; simpl; [done|].
  destruct (String.eqb_spec k k1); simpl; destruct (String.eqb_spec k' k1); subst; congruence.
Qed.
Lemma dget_ddel_eq d k : dict_wf d → dget (ddel d k) k = None.
Proof.
  unfold dict_wf, dkeys. induction d as [|[k1 v1] d IH]; simpl; [done|].
  intros [Hn Hd]%NoDup_cons. destruct (String.eqb_spec k k1); subst.
  - by apply dget_None_notin.
  - simpl. destruct (String.eqb_spec k k1); [done|by apply IH].
Qed.
Lemma dget_ddel_Some d k k' v :
  dict_wf d → dget (ddel d k) k' = Some v ↔ k ≠ k' ∧ dget d k' = Some v.
Proof.
  intros Hwf. destruct (decide (k = k')) as [->|Hne].
  - rewrite dget_ddel_eq by done. naive_solver.
  - rewrite dget_ddel_ne by done. naive_solver.
Qed.

Lemma dset_app d k v : dget d k = None → dset d k v = (d ++ [(k, v)])%list.
Proof.
  induction d as [|[k1 v1] d IH]; simpl; [done|].
  destruct (String.eqb_spec k k1); [done|]. intros. by rewrite IH.
Qed.
Lemma dvalues_dset_fresh d k v : dget d k = None → dvalues (dset d k v) = (dvalues d ++ [v])%list.
Proof. intros. unfold dvalues. by rewrite dset_app, fmap_app by done. Qed.

Lemma ddel_dset_fresh d k v : dget d k = None → ddel (dset d k v) k = d.
Proof.
  induction d as [|[k1 v1] d IH]; simpl; [by rewrite String.eqb_refl|].
  destruct (String.eqb_spec k k1) as [->|Hne]; [done|]. intros Hk. simpl.
  apply String.eqb_neq in Hne. by rewrite Hne, IH.
Qed.
Lemma dvalues_dset d k v x : x ∈ dvalues (dset d k v) → x ∈ dvalues d ∨ x = v.
Proof.
  unfold dvalues. induction d as [|[k1 v1] d IH]; cbn; [set_solver|].
  destruct (String.eqb k k1); cbn; rewrite !elem_of_cons; naive_solver.
Qed.
Lemma dvalues_dupd d k f x :
  x ∈ dvalues (dupd d k f) → x ∈ dvalues d ∨ ∃ y, y ∈ dvalues d ∧ x = f y.
Proof.
  unfold dupd. destruct (dget d k) as [v|] eqn:E; [|by left].
  intros [Hx| ->]%dvalues_dset; [by left|right]. exists v. split; [|done].
  apply dget_Some_in in E. apply list_elem_of_fmap. by exists (k, v).
Qed.
(** Deleting an entry that does not satisfy [f] *)
Lemma filter_values_ddel (f : V → bool) d k :
  (∀ v, dget d k = Some v → f v = false) →
  List.filter f (dvalues (ddel d k)) = List.filter f (dvalues d).
Proof.
  unfold dvalues. induction d as [|[k1 v1] d IH]; simpl; [done|].
  destruct (String.eqb_spec k k1) as [->|]; simpl; intros H.
  - by rewrite (H v1).
  - destruct (f v1); [f_equal|]; by apply IH.
Qed.
(** A predicate on all values survives an assignment, an update, a deletion. *)
Definition dict_all (P : V → Prop) d : Prop := ∀ k v, dget d k = Some v → P v.
Lemma dict_all_dset P d k v : dict_all P d → P v → dict_all P (dset d k v).
Proof. intros Hd Hv k' v'. rewrite dget_dset. case_match; [by intros [= <-]|apply Hd]. Qed.
Lemma dict_all_dupd P d k f :
  dict_all P d → (∀ v, dget d k = Some v → P v → P (f v)) → dict_all P (dupd d k f).
Proof.
  intros Hd Hf k' v'. rewrite dget_dupd. case_match; [|apply Hd].
  destruct (dget d k) eqn:E; simpl; [|done]. intros [= <-]. apply Hf; [done|]. by eapply Hd.
Qed.
Lemma dict_all_ddel P d k : dict_wf d → dict_all P d → dict_all P (ddel d k).
Proof. intros Hwf Hd k' v'. rewrite dget_ddel_Some by done. intros [_ H]. by eapply Hd. Qed.
End dict.

#[global] Arguments dkeys : simpl never.
#[global] Arguments dvalues : simpl never.
#[global] Arguments dget : simpl never.
#[global] Arguments dset : simpl never.
#[global] Arguments ddel : simpl never.
#[global] Arguments dupd : simpl never.
#[export] Hint Resolve dict_wf_nil dict_wf_dset dict_wf_dupd dict_wf_ddel : core.

(** ** Truthiness of an optional string: [None] and the empty string are false. *)
Definition truthy_str (s : string) : bool := negb (String.eqb s EmptyString).
Definition truthy (o : option string) : bool :=
  match o with Some s => truthy_str s | None => false end.

(** [o or d] on optional strings *)
Definition str_or (o : option string) (d : string) : string :=
  match o with Some s => if truthy_str s then s else d | None => d end.

(** ** Strings *)
Definition str_of_Z (z : Z) : string := pretty z.
Definition str_of_nat (n : nat) : string := pretty (N.of_nat n).

Fixpoint join (sep : string) (l : list string) : string :=
  match l with
  | [] => EmptyString
  | [s] => s
  | s :: l' => s +:+ sep +:+ join sep l'
  end.
(** [repr(s)] of a printable string: double quotes when [s] has an apostrophe and
    no double quote, otherwise apostrophes with [\\] and apostrophes escaped *)
Fixpoint has_char (c : ascii) (s : string) : bool :=
  match s with EmptyString => false | String c' s' => Ascii.eqb c c' || has_char c s' end.
Definition backslash : ascii := "092".
Definition dquote : string := String "034" EmptyString.
Fixpoint escape (esc_quote : bool) (s : string) : string :=
  match s with
  | EmptyString => EmptyString
  | String c s' =>
      if Ascii.eqb c backslash || (esc_quote && Ascii.eqb c "'")
      then String backslash (String c (escape esc_quote s')) else String c (escape esc_quote s')
  end.
Definition repr_str (s : string) : string :=
  if has_char "'" s && negb (has_char "034" s) then dquote +:+ escape false s +:+ dquote
  else "'" +:+ escape true s +:+ "'".
Definition repr_list (l : list string) : string := "[" +:+ join ", " (repr_str <$> l) +:+ "]".

(** [str(n).zfill(2)] for a natural number *)
Definition pad2 (n : nat) : string :=
  let s := str_of_nat n in if (String.length s <? 2)%nat then "0" +:+ s else s.

Definition is_digit (c : ascii) : bool :=
  let n := N_of_ascii c in (48 <=? n)%N && (n <=? 57)%N.

(** [int(s)] for a string of decimal digits (the only numerals the program
    parses); anything else is Python's [ValueError]. *)
Fixpoint parse_digits (acc : Z) (s : string) : option Z :=
  match s with
  | EmptyString => Some acc
  | String c s' =>
      if is_digit c then parse_digits (acc * 10 + (Z.of_N (N_of_ascii c) - 48))%Z s' else None
  end.
Definition parse_int (s : string) : option Z :=
  match s with EmptyString => None | _ => parse_digits 0 s end.

(** [s.rsplit(c, 1)]: the parts before and after the last [c], or [None] when
    [c] does not occur (then Python returns the one-element list [[s]]). *)
Fixpoint rsplit1 (c : ascii) (s : string) : option (string * string) :=
  match s with
  | EmptyString => None
  | String a s' =>
      match rsplit1 c s' with
      | Some (l, r) => Some (String a l, r)
      | None => if Ascii.eqb a c then Some (EmptyString, s') else None
      end
  end.

(** [s.rsplit("-", 1)[1]] followed by [int], with the exceptions they raise *)
Definition int_suffix (s : string) : Z + exn :=
  match rsplit1 "-" s with
  | None => inr IndexError
  | Some (_, r) => match parse_int r with Some z => inl z | None => inr (ValueError r) end
  end.

(** [hex(z)] for [z >= 0] *)
Definition hex_digit (n : N) : ascii :=
  if (n <? 10)%N then ascii_of_N (48 + n) else ascii_of_N (87 + n).
Fixpoint hex_digits (fuel : nat) (n : N) (acc : string) : string :=
  match fuel with
  | O => acc
  | S f =>
      let acc' := String (hex_digit (n mod 16)) acc in
      if (n <? 16)%N then acc' else hex_digits f (n / 16) acc'
  end.
Definition hex_text (z : Z) : string :=
  let n := Z.to_N z in hex_digits (S (N.to_nat (N.log2 n))) n EmptyString.
Definition hex (z : Z) : string := "0x" +:+ hex_text z.

(** [name.lower()] on ASCII letters *)
Definition lower_ascii (c : ascii) : ascii :=
  let n := N_of_ascii c in if ((65 <=? n) && (n <=? 90))%N then ascii_of_N (n + 32) else c.
Fixpoint lower (s : string) : string :=
  match s with
  | EmptyString => EmptyString
  | String c s' => String (lower_ascii c) (lower s')
  end.

(** [s.startswith(p)], and what follows the prefix *)
Fixpoint strip_prefix (p s : string) : option string :=
  match p with
  | EmptyString => Some s
  | String a p' =>
      match s with
      | String b s' => if Ascii.eqb a b then strip_prefix p' s' else None
      | EmptyString => None
      end
  end.
Definition starts_with (p s : string) : bool :=
  match strip_prefix p s with Some _ => true | None => false end.
(** [s.strip()]: the white space of the 8-bit character set of header values *)
Definition is_space (c : ascii) : bool :=
  let n := N_of_ascii c in
  ((9 <=? n) && (n <=? 13) || (28 <=? n) && (n <=? 32) || (n =? 133) || (n =? 160))%N.
Fixpoint strip_left (s : string) : string :=
  match s with
  | EmptyString => EmptyString
  | String c s' => if is_space c then strip_left s' else s
  end.
Fixpoint strip_right (s : string) : string :=
  match s with
  | EmptyString => EmptyString
  | String c s' =>
      match strip_right s' with
      | EmptyString => if is_space c then EmptyString else String c EmptyString
      | r => String c r
      end
  end.
Definition py_strip (s : string) : string := strip_right (strip_left s).

(** [s[n:]] and [s[:n]] *)
Fixpoint drop_str (n : nat) (s : string) : string :=
  match n, s with
  | S n', String _ s' => drop_str n' s'
  | O, _ => s
  | _, EmptyString => EmptyString
  end.
Fixpoint take_str (n : nat) (s : string) : string :=
  match n, s with
  | S n', String c s' => String c (take_str n' s')
  | _, _ => EmptyString
  end.
(** [s.zfill(w)] for a text without sign *)
Fixpoint zeros (n : nat) : string :=
  match n with O => EmptyString | S n' => String "0" (zeros n') end.
Definition zfill (w : nat) (s : string) : string := zeros (w - String.length s) +:+ s.

Definition slug_char (c : ascii) : bool :=
  let n := N_of_ascii c in ((97 <=? n) && (n <=? 122))%N || is_digit c.

(** [re.sub("[^a-z0-9]+", "-", s)]: each maximal run of other characters
    becomes one dash; [in_run] says the previous character was in a run. *)
Fixpoint sub_runs (in_run : bool) (s : string) : string :=
  match s with
  | EmptyString => EmptyString
  | String c s' =>
      if slug_char c then String c (sub_runs false s')
      else if in_run then sub_runs true s' else String "-" (sub_runs true s')
  end.

(** [s.strip("-")] *)
Fixpoint lstrip (s : string) : string :=
  match s with
  | String c s' => if Ascii.eqb c "-" then lstrip s' else s
  | EmptyString => EmptyString
  end.
Fixpoint rstrip (s : string) : string :=
  match s with
  | EmptyString => EmptyString
  | String c s' =>
      match rstrip s' with
      | EmptyString => if Ascii.eqb c "-" then EmptyString else String c EmptyString
      | r => String c r
      end
  end.
Definition strip (s : string) : string := rstrip (lstrip s).

Lemma str_of_nat_inj n m : str_of_nat n = str_of_nat m → n = m.
Proof. unfold str_of_nat. intros H%(inj pretty). lia. Qed.
Lemma str_of_Z_inj z z' : str_of_Z z = str_of_Z z' → z = z'.
Proof. unfold str_of_Z. by intros H%(inj pretty). Qed.
Lemma str_app_inj (p s s' : string) : p +:+ s = p +:+ s' → s = s'.
Proof. induction p; simpl; [done|intros [= ?]; auto]. Qed.

Fixpoint no_dash (s : string) : Prop :=
  match s with EmptyString => True | String c s' => c ≠ "-"%char ∧ no_dash s' end.

(** Splitting at the last dash: the suffix after it determines both parts. *)
Lemma rsplit1_none s : no_dash s → rsplit1 "-" s = None.
Proof.
  induction s as [|c s IH]; simpl; [done|]. intros [Hc Hs]. rewrite IH by done.
  by destruct (Ascii.eqb_spec c "-").
Qed.
Lemma rsplit1_dash p s : no_dash s → rsplit1 "-" (p +:+ "-" +:+ s) = Some (p, s).
Proof.
  intros Hs. induction p as [|c p IH]; simpl.
  - by rewrite rsplit1_none.
  - change (rsplit1 "-" (String.append p (String "-" s))) with (rsplit1 "-" (p +:+ "-" +:+ s)).
    by rewrite IH.
Qed.

(** The decimal text of a natural number has no dash. *)
Lemma no_dash_pretty_go (x : N) s : no_dash s → no_dash (pretty_N_go x s).
Proof.
  revert s. induction (N.lt_wf_0 x) as [x _ IH]. intros s Hs.
  destruct (decide (0 < x)%N) as [Hx|Hx].
  - rewrite pretty_N_go_step by done. apply IH; [by apply N.div_lt|]. split; [|done].
    unfold pretty_N_char. by repeat case_match.
  - assert (x = 0%N) as -> by lia. by rewrite pretty_N_go_0.
Qed.
Lemma no_dash_str_of_Z z : (0 ≤ z)%Z → no_dash (str_of_Z z).
Proof.
  intros Hz. unfold str_of_Z, pretty, pretty_Z. destruct z as [|q|q]; [by vm_compute| |lia].
  unfold pretty, pretty_positive, pretty, pretty_N.
  case_decide; [done|]. by apply no_dash_pretty_go.
Qed.
Lemma str_app_assoc (a b c : string) : (a +:+ b) +:+ c = a +:+ b +:+ c.
Proof. induction a as [|x a IH]; [done|]. exact (f_equal (String x) IH). Qed.
Lemma str_length_app (a b : string) :
  String.length (a +:+ b) = (String.length a + String.length b)%nat.
Proof. induction a as [|x a IH]; [done|]. exact (f_equal S IH). Qed.
Lemma str_app_inj_r (s a b : string) : a +:+ s = b +:+ s → a = b.
Proof.
  revert b. induction a as [|x a IH]; intros [|y b] E; [done| | |].
  - apply (f_equal String.length) in E. change (String.length s = S (String.length (b +:+ s))) in E.
    rewrite str_length_app in E. lia.
  - apply (f_equal String.length) in E. change (S (String.length (a +:+ s)) = String.length s) in E.
    rewrite str_length_app in E. lia.
  - change (String x (a +:+ s) = String y (b +:+ s)) in E. injection E as -> E.
    by rewrite (IH b E).
Qed.
(** A name [a-n] determines both [a] and the number [n]. *)
Lemma numbered_inj a b x y :
  (0 ≤ x)%Z → (0 ≤ y)%Z → a +:+ "-" +:+ str_of_Z x = b +:+ "-" +:+ str_of_Z y → a = b ∧ x = y.
Proof.
  intros Hx Hy E. apply (f_equal (rsplit1 "-")) in E.
  rewrite !rsplit1_dash in E by by apply no_dash_str_of_Z. injection E as -> E.
  split; [done|by apply str_of_Z_inj].
Qed.
(** A name [a-kind-x], where the number [x] is written without a dash, determines
    [a] and [x]. *)
Lemma name_inj (a b kind x y : string) :
  no_dash x → no_dash y → a +:+ kind +:+ "-" +:+ x = b +:+ kind +:+ "-" +:+ y → a = b ∧ x = y.
Proof.
  intros Hx Hy E. rewrite <-!(str_app_assoc _ kind) in E. apply (f_equal (rsplit1 "-")) in E.
  rewrite !rsplit1_dash in E by done. injection E as E ->. split; [by eapply str_app_inj_r|done].
Qed.

(** The decimal text of a positive number does not begin with a zero. *)
Definition no_lead_zero (s : string) : Prop :=
  match s with String c _ => c ≠ "0"%char | EmptyString => False end.
Lemma pretty_go_lead (x : N) s : (0 < x)%N → no_lead_zero (pretty_N_go x s).
Proof.
  revert s. induction (N.lt_wf_0 x) as [x _ IH]. intros s Hx. rewrite pretty_N_go_step by done.
  destruct (decide (0 < x `div` 10)%N) as [Hd|Hd]; [apply IH; [by apply N.div_lt|done]|].
  assert (x `div` 10 = 0)%N as E by (apply N.le_0_r; by apply N.nlt_ge). rewrite E, pretty_N_go_0. cbn.
  assert (x < 10)%N as Hlt by (by apply N.div_small_iff).
  rewrite N.mod_small by done. unfold pretty_N_char.
  destruct (decide (x = 1 ∨ x = 2 ∨ x = 3 ∨ x = 4 ∨ x = 5 ∨ x = 6 ∨ x = 7 ∨ x = 8 ∨ x = 9)%N) as [H|H]; [|lia].
  by destruct H as [->|[->|[->|[->|[->|[->|[->|[->| ->]]]]]]]].
Qed.
Lemma str_of_Z_lead z : (0 < z)%Z → no_lead_zero (str_of_Z z).
Proof.
  intros Hz. destruct z as [|q|q]; [lia| |lia].
  unfold str_of_Z, pretty, pretty_Z, pretty, pretty_positive, pretty, pretty_N.
  rewrite decide_False by done. by apply pretty_go_lead.
Qed.
Lemma str_of_nat_Z n : str_of_nat n = str_of_Z (Z.of_nat n).
Proof. by destruct n. Qed.
Lemma no_dash_pad2 n : no_dash (pad2 n).
Proof.
  assert (no_dash (str_of_nat n)) as H by (rewrite str_of_nat_Z; apply no_dash_str_of_Z; lia).
  unfold pad2. destruct (_ <? _)%nat; [by split|done].
Qed.
Lemma pad2_inj n m : pad2 n = pad2 m → n = m.
Proof.
  assert (∀ k s, (String.length (str_of_nat k) <? 2)%nat = false → "0" +:+ s = str_of_nat k → False) as Hno.
  { intros k s Hk E. assert (0 < k)%nat as Hpos by (destruct k; [done|lia]).
    pose proof (str_of_Z_lead (Z.of_nat k) ltac:(lia)) as H. rewrite <-str_of_nat_Z, <-E in H. by apply H. }
  unfold pad2. destruct (_ <? _)%nat eqn:En, (String.length (str_of_nat m) <? 2)%nat eqn:Em; intros E.
  - apply str_app_inj in E. by apply str_of_nat_inj.
  - by apply Hno in E.
  - symmetry in E. by apply Hno in E.
  - by apply str_of_nat_inj.
Qed.

(** ** Lists: [next(x for x in l if p(x))], [sorted], [min] *)
Definition find_first {A} (p : A → bool) (l : list A) : option A := List.find p l.

Lemma find_first_Some {A} (p : A → bool) l x : find_first p l = Some x → x ∈ l ∧ p x = true.
Proof. intros H. split; [apply list_elem_of_In|]; by eapply List.find_some in H as []. Qed.
Lemma find_first_None {A} (p : A → bool) l : find_first p l = None ↔ ∀ x, x ∈ l → p x = false.
Proof.
  split.
  - intros H x Hx. eapply List.find_none; [done|by apply list_elem_of_In].
  - unfold find_first. induction l as [|y l IH]; simpl; [done|]. intros H.
    rewrite (H y) by left. apply IH. intros. apply H. by right.
Qed.

Definition filterb {A} (p : A → bool) (l : list A) : list A := List.filter p l.
Lemma elem_of_filterb {A} (p : A → bool) l x : x ∈ filterb p l ↔ x ∈ l ∧ p x = true.
Proof. rewrite !list_elem_of_In. apply List.filter_In. Qed.
Lemma elem_of_concat {A} (ls : list (list A)) (x : A) : x ∈ concat ls ↔ ∃ l, l ∈ ls ∧ x ∈ l.
Proof.
  rewrite list_elem_of_In, List.in_concat. split; intros (l & H1 & H2); exists l;
    by rewrite !list_elem_of_In in *.
Qed.
Lemma elem_of_concat_map {A B} (f : A → list B) (l : list A) (y : B) :
  y ∈ concat (f <$> l) ↔ ∃ x, x ∈ l ∧ y ∈ f x.
Proof.
  rewrite elem_of_concat. split.
  - intros (ys & (x & -> & Hx)%list_elem_of_fmap & Hy). eauto.
  - intros (x & Hx & Hy). exists (f x). split; [|done]. apply list_elem_of_fmap. eauto.
Qed.
Definition count {A} (p : A → bool) (l : list A) : nat := length (filterb p l).
Definition anyb {A} (p : A → bool) (l : list A) : bool := List.existsb p l.
Definition allb {A} (p : A → bool) (l : list A) : bool := List.forallb p l.
Lemma anyb_spec {A} (p : A → bool) l : anyb p l = true ↔ ∃ x, x ∈ l ∧ p x = true.
Proof. unfold anyb. rewrite List.existsb_exists. by setoid_rewrite list_elem_of_In. Qed.
Lemma anyb_false {A} (p : A → bool) l : anyb p l = false ↔ ∀ x, x ∈ l → p x = false.
Proof.
  split.
  - intros H x Hx. destruct (p x) eqn:E; [|done].
    assert (anyb p l = true) by (apply anyb_spec; eauto). congruence.
  - intros H. destruct (anyb p l) eqn:E; [|done]. apply anyb_spec in E as (x & Hx & Hp).
    rewrite H in Hp; done.
Qed.
Lemma allb_spec {A} (p : A → bool) l : allb p l = true ↔ ∀ x, x ∈ l → p x = true.
Proof. unfold allb. rewrite List.forallb_forall. by setoid_rewrite list_elem_of_In. Qed.
(** A loop of checks: it passes when every element does, else it stops with the
    error of the first that fails; the world stays. *)
Lemma for_each_check {W A} (p : A → bool) (E : exn → Prop) (l : list A) (body : A → M W unit) (w : W) :
  (∀ x, if p x then body x w = (Ok tt, w) else ∃ e, E e ∧ body x w = (Raised e, w)) →
  (for_each l body w = (Ok tt, w) ∧ ∀ x, x ∈ l → p x = true)
  ∨ (∃ e x, E e ∧ for_each l body w = (Raised e, w) ∧ x ∈ l ∧ p x = false).
Proof.
  intros Hb. induction l as [|x l IH]; cbn.
  { left. split; [done|]. intros x Hx. by apply elem_of_nil in Hx. }
  unfold mbind, M_bind. specialize (Hb x). destruct (p x) eqn:Hp.
  - rewrite Hb. destruct IH as [[-> H]|(e & y & He & -> & Hy & Hpy)]; [left|right].
    + split; [done|]. intros y [->|Hy]%elem_of_cons; auto.
    + exists e, y. split_and!; [done|done|by right|done].
  - destruct Hb as (e & He & ->). right. exists e, x. split_and!; [done|done|left|done].
Qed.
Definition memb (s : string) (l : list string) : bool := anyb (String.eqb s) l.
Lemma memb_cons s x l : memb s (x :: l) = String.eqb s x || memb s l.
Proof. done. Qed.
Lemma memb_spec s l : memb s l = true ↔ s ∈ l.
Proof.
  unfold memb. rewrite anyb_spec. split.
  - intros (x & Hx & ->%String.eqb_eq). done.
  - intros. exists s. by rewrite String.eqb_refl.
Qed.
Lemma memb_false s l : memb s l = false ↔ s ∉ l.
Proof. rewrite <-memb_spec. by destruct (memb s l). Qed.

(** [l[:n]] *)
Definition take_n {A} (n : Z) (l : list A) : list A :=
  if (n <? 0)%Z then take (length l - Z.to_nat (- n)) l else take (Z.to_nat n) l.

(** [round(n / d)] of integers with [0 < d]: to the nearest, ties to even *)
Definition round_div (n d : Z) : Z :=
  let q := (n / d)%Z in
  let r := (n mod d)%Z in
  if (2 * r <? d)%Z then q
  else if (d <? 2 * r)%Z then (q + 1)%Z
  else if Z.even q then q else (q + 1)%Z.

(** [round(x, n)] of a rational, where [k] is [10 ** n] *)
Definition round_q (k : positive) (x : Q) : Q :=
  Qmake (round_div (Qnum x * Zpos k) (Zpos (Qden x))) k.

(** Rounding keeps the bounds that are integers. *)
Lemma round_div_le hi n d : (0 < d)%Z → (n ≤ hi * d)%Z → (round_div n d ≤ hi)%Z.
Proof.
  intros Hd H. unfold round_div. pose proof (Z.div_mod n d ltac:(lia)) as Hn.
  pose proof (Z.mod_pos_bound n d Hd) as Hr. set (q := (n / d)%Z) in *. set (r := (n mod d)%Z) in *.
  assert (q ≤ hi)%Z by nia. assert (r = 0 ∨ q < hi)%Z by (destruct (decide (r = 0)%Z); nia).
  destruct (Z.ltb_spec (2 * r) d); [lia|]. destruct (Z.ltb_spec d (2 * r)); [lia|]. destruct (Z.even q); lia.
Qed.
Lemma round_div_ge lo n d : (0 < d)%Z → (lo * d ≤ n)%Z → (lo ≤ round_div n d)%Z.
Proof.
  intros Hd H. unfold round_div. assert (lo ≤ n / d)%Z by (apply Z.div_le_lower_bound; lia).
  repeat (destruct (_ <? _)%Z; try lia). destruct (Z.even _); lia.
Qed.
Lemma round_q_le k hi x : (x <= inject_Z hi)%Q → (round_q k x <= inject_Z hi)%Q.
Proof.
  unfold Qle, round_q, inject_Z. cbn [Qnum Qden]. intros H. rewrite Z.mul_1_r in *. apply round_div_le; nia.
Qed.
Lemma round_q_ge k lo x : (inject_Z lo <= x)%Q → (inject_Z lo <= round_q k x)%Q.
Proof.
  unfold Qle, round_q, inject_Z. cbn [Qnum Qden]. intros H. rewrite Z.mul_1_r in *. apply round_div_ge; nia.
Qed.

(** Stable insertion sort by a boolean order: Python's [sorted(l, key=...)] *)
Section sorted.
Context {A : Type} (leb : A → A → bool).
Fixpoint insert_sorted (x : A) (l : list A) : list A :=
  match l with
  | [] => [x]
  | y :: l' => if leb x y then x :: l else y :: insert_sorted x l'
  end.
Fixpoint sorted (l : list A) : list A :=
  match l with
  | [] => []
  | x :: l' => insert_sorted x (sorted l')
  end.
Lemma insert_sorted_perm x l : insert_sorted x l ≡ₚ x :: l.
Proof.
  induction l as [|y l IH]; simpl; [done|]. case_match; [done|].
  rewrite IH. apply Permutation_swap.
Qed.
Lemma sorted_perm l : sorted l ≡ₚ l.
Proof. induction l as [|x l IH]; simpl; [done|]. by rewrite insert_sorted_perm, IH. Qed.
Lemma elem_of_sorted x l : x ∈ sorted l ↔ x ∈ l.
Proof. by rewrite sorted_perm. Qed.

(** Filtering and sorting by a total preorder commute. *)
Context (leb_total : ∀ x y, leb x y = true ∨ leb y x = true).
Context (leb_trans : ∀ x y z, leb x y = true → leb y z = true → leb x z = true).
Inductive ordered : list A → Prop :=
  | ordered_nil : ordered []
  | ordered_cons x l : ordered l → (∀ y, y ∈ l → leb x y = true) → ordered (x :: l).
Lemma ordered_insert x l : ordered l → ordered (insert_sorted x l).
Proof.
  induction 1 as [|y l Hl IH Hy]; simpl; [by repeat constructor; intros ? ?%elem_of_nil|].
  destruct (leb x y) eqn:E.
  - constructor; [by constructor|]. intros z [->|Hz]%elem_of_cons; [done|]. eauto.
  - constructor; [done|]. intros z. rewrite insert_sorted_perm. intros [->|Hz]%elem_of_cons; [|auto].
    destruct (leb_total x y); congruence.
Qed.
Lemma sorted_ordered l : ordered (sorted l).
Proof. induction l; simpl; [constructor|by apply ordered_insert]. Qed.
Lemma insert_sorted_least x l : (∀ y, y ∈ l → leb x y = true) → insert_sorted x l = x :: l.
Proof. destruct l as [|y l]; simpl; [done|]. intros H. by rewrite (H y) by left. Qed.
Lemma filter_insert (p : A → bool) x l :
  ordered l →
  filterb p (insert_sorted x l) = if p x then insert_sorted x (filterb p l) else filterb p l.
Proof.
  unfold filterb. induction 1 as [|y l Hl IH Hy]; simpl; [by destruct (p x)|].
  destruct (leb x y) eqn:E; simpl.
  - destruct (p x) eqn:Ex; [|done]. symmetry. apply insert_sorted_least. intros z Hz.
    assert (z ∈ y :: l) as [->|Hz']%elem_of_cons; [|done|eauto].
    destruct (p y); [apply elem_of_cons in Hz as [->|Hz]; [left|right]|right];
      apply list_elem_of_In in Hz; apply List.filter_In in Hz as [Hz _]; by apply list_elem_of_In.
  - rewrite IH. destruct (p x) eqn:Ex, (p y) eqn:Ey; simpl; rewrite ?E; done.
Qed.
Lemma filter_sorted (p : A → bool) l : filterb p (sorted l) = sorted (filterb p l).
Proof.
  unfold filterb in *. induction l as [|x l IH]; simpl; [done|].
  pose proof (filter_insert p x _ (sorted_ordered l)) as H. unfold filterb in H. rewrite H, IH.
  by destruct (p x).
Qed.
End sorted.
Lemma filterb_comm {A} (p q : A → bool) l : filterb p (filterb q l) = filterb q (filterb p l).
Proof.
  unfold filterb. induction l as [|x l IH]; simpl; [done|].
  destruct (p x) eqn:Ep, (q x) eqn:Eq; simpl; rewrite ?Ep, ?Eq, IH; done.
Qed.
(** The order of strings is a total preorder. *)
Lemma string_compare_trans_lt x y z :
  String.compare x y = Lt → String.compare y z = Lt → String.compare x z = Lt.
Proof.
  revert y z. induction x as [|a x IH]; intros [|b y] [|c z]; simpl; try done.
  unfold Ascii.compare. destruct (N.compare_spec (N_of_ascii a) (N_of_ascii b)) as [E|E|E]; [| |done];
    destruct (N.compare_spec (N_of_ascii b) (N_of_ascii c)) as [E'|E'|E']; try done; intros H1 H2.
  - rewrite (proj2 (N.compare_eq_iff _ _)) by congruence. by apply (IH y).
  - by rewrite (proj2 (N.compare_lt_iff _ _)) by lia.
  - by rewrite (proj2 (N.compare_lt_iff _ _)) by lia.
  - by rewrite (proj2 (N.compare_lt_iff _ _)) by lia.
Qed.
Lemma string_leb_trans x y z : String.leb x y = true → String.leb y z = true → String.leb x z = true.
Proof.
  unfold String.leb. destruct (String.compare x y) eqn:E1; [apply String.compare_eq_iff in E1 as ->; done| |done].
  destruct (String.compare y z) eqn:E2; [apply String.compare_eq_iff in E2 as <-; by rewrite E1| |done].
  by rewrite (string_compare_trans_lt x y z).
Qed.

(** [min(l, key=f)]: the first element with the least key *)
Section min_by.
Context {A : Type} (ltb : A → A → bool).
Fixpoint min_by_from (best : A) (l : list A) : A :=
  match l with
  | [] => best
  | x :: l' => min_by_from (if ltb x best then x else best) l'
  end.
Definition min_by (l : list A) : option A :=
  match l with [] => None | x :: l' => Some (min_by_from x l') end.
Lemma min_by_from_in best l : min_by_from best l ∈ best :: l.
Proof.
  revert best. induction l as [|x l IH]; intros best; simpl; [left|].
  specialize (IH (if ltb x best then x else best)). case_match; set_solver.
Qed.
Lemma min_by_in l x : min_by l = Some x → x ∈ l.
Proof. destruct l; [done|]. intros [= <-]. apply min_by_from_in. Qed.
Lemma min_by_None l : min_by l = None → l = [].
Proof. by destruct l. Qed.
End min_by.

(** [s.rsplit(sep, 1)[0]]: the part before the last [sep], or [s] itself *)
Fixpoint rpartition (sep s : string) : option string :=
  match s with
  | EmptyString => None
  | String c s' =>
      match rpartition sep s' with
      | Some l => Some (String c l)
      | None => match strip_prefix sep s with Some _ => Some EmptyString | None => None end
      end
  end.
Definition before_last (sep s : string) : string := default s (rpartition sep s).

(** The regular expression group [(\d+)] at the start of [s] *)
Fixpoint span_digits (s : string) : string * string :=
  match s with
  | String c s' =>
      if is_digit c then let '(d, r) := span_digits s' in (String c d, r) else (EmptyString, s)
  | EmptyString => (EmptyString, EmptyString)
  end.
Definition match_int (s : string) : option (Z * string) :=
  let '(d, r) := span_digits s in
  match parse_int d with Some z => Some (z, r) | None => None end.
