(* ===== verification/Models.v ===== *)
(** * Data model (app/models.py)

    The enumerations and records of [app/models.py] that the control plane
    keeps in its store, one Rocq record per pydantic model and one field per
    attribute.  [Optional[T]] is [option T], [int] is [Z], [float] is an exact
    rational [Q], a timestamp is the text the clock returned. *)
From Stdlib Require Import QArith.
From stdpp Require Import strings base decidable option numbers list.
From S2P Require Import Prelude PyLib.
Local Open Scope string_scope.
Local Open Scope list_scope.

(** ** Enumerations *)
(** [HwState]: state of a physical component *)
Inductive HwState :=
  | HW_provisioning | HW_ready | HW_allocated | HW_draining | HW_faulted | HW_maintenance.
#[export] Instance HwState_eq_dec : EqDecision HwState.
Proof. solve_decision. Defined.

(** The [str] value of the enum member *)
Definition HwState_value (x : HwState) : string :=
  match x with
  | HW_provisioning => "provisioning"
  | HW_ready => "ready"
  | HW_allocated => "allocated"
  | HW_draining => "draining"
  | HW_faulted => "faulted"
  | HW_maintenance => "maintenance"
  end.

(** [IsolationTier]: what a tenant bought *)
Inductive IsolationTier :=
  | IT_bare_metal_dedicated | IT_vm_multitenant | IT_k8s_namespace.
#[export] Instance IsolationTier_eq_dec : EqDecision IsolationTier.
Proof. solve_decision. Defined.

(** The [str] value of the enum member *)
Definition IsolationTier_value (x : IsolationTier) : string :=
  match x with
  | IT_bare_metal_dedicated => "bare_metal_dedicated"
  | IT_vm_multitenant => "vm_multitenant"
  | IT_k8s_namespace => "k8s_namespace"
  end.

(** [DPUMode]: operating mode of a BlueField DPU *)
Inductive DPUMode :=
  | DPU_nic | DPU_dpu | DPU_dpu_zero_trust.
#[export] Instance DPUMode_eq_dec : EqDecision DPUMode.
Proof. solve_decision. Defined.

(** [AllocationScope] *)
Inductive AllocationScope :=
  | SC_scalable_unit | SC_rack_set | SC_hac.
#[export] Instance AllocationScope_eq_dec : EqDecision AllocationScope.
Proof. solve_decision. Defined.

(** [NodeLifecycleState]: the control plane's state of a node *)
Inductive NodeLifecycleState :=
  | NS_discovered | NS_validating | NS_quarantined | NS_pool_ready | NS_reserved
  | NS_provisioning | NS_allocated | NS_in_service | NS_cordoned | NS_draining
  | NS_releasing | NS_sanitizing | NS_rma.
#[export] Instance NodeLifecycleState_eq_dec : EqDecision NodeLifecycleState.
Proof. solve_decision. Defined.

(** The [str] value of the enum member *)
Definition NodeLifecycleState_value (x : NodeLifecycleState) : string :=
  match x with
  | NS_discovered => "discovered"
  | NS_validating => "validating"
  | NS_quarantined => "quarantined"
  | NS_pool_ready => "pool_ready"
  | NS_reserved => "reserved"
  | NS_provisioning => "provisioning"
  | NS_allocated => "allocated"
  | NS_in_service => "in_service"
  | NS_cordoned => "cordoned"
  | NS_draining => "draining"
  | NS_releasing => "releasing"
  | NS_sanitizing => "sanitizing"
  | NS_rma => "rma"
  end.

(** [OrderKind] *)
Inductive OrderKind :=
  | OK_new | OK_expand | OK_shrink | OK_terminate.
#[export] Instance OrderKind_eq_dec : EqDecision OrderKind.
Proof. solve_decision. Defined.

(** The [str] value of the enum member *)
Definition OrderKind_value (x : OrderKind) : string :=
  match x with
  | OK_new => "new"
  | OK_expand => "expand"
  | OK_shrink => "shrink"
  | OK_terminate => "terminate"
  end.

(** [OrderState]: the stages of an order *)
Inductive OrderState :=
  | OS_received | OS_validated | OS_reserved | OS_provisioning | OS_isolating
  | OS_storage_binding | OS_acceptance | OS_k8s_installing | OS_delivered | OS_reclaiming
  | OS_closed | OS_rejected | OS_compensating | OS_failed.
#[export] Instance OrderState_eq_dec : EqDecision OrderState.
Proof. solve_decision. Defined.

(** The [str] value of the enum member *)
Definition OrderState_value (x : OrderState) : string :=
  match x with
  | OS_received => "received"
  | OS_validated => "validated"
  | OS_reserved => "reserved"
  | OS_provisioning => "provisioning"
  | OS_isolating => "isolating"
  | OS_storage_binding => "storage_binding"
  | OS_acceptance => "acceptance"
  | OS_k8s_installing => "k8s_installing"
  | OS_delivered => "delivered"
  | OS_reclaiming => "reclaiming"
  | OS_closed => "closed"
  | OS_rejected => "rejected"
  | OS_compensating => "compensating"
  | OS_failed => "failed"
  end.

(** [OrderState(s)]: the member with that value, or [ValueError] *)
Definition OrderState_of (s : string) : option OrderState :=
  find_first (λ x, String.eqb (OrderState_value x) s)
    [OS_received; OS_validated; OS_reserved; OS_provisioning; OS_isolating; OS_storage_binding; OS_acceptance; OS_k8s_installing; OS_delivered; OS_reclaiming; OS_closed; OS_rejected; OS_compensating; OS_failed].

(** ** Inventory *)
(** [GPU] *)
Record GPU := mkGPU {
  g_id : string;
  g_tray_id : string;
  g_index : Z;
  g_arch : string;
  g_hbm_gb : Z;
  g_hbm_type : string;
  g_dies : Z;
  g_state : HwState;
  g_tenant_id : option string
}.
#[export] Instance eta_GPU : Eta GPU := λ x,
  mkGPU x.(g_id) x.(g_tray_id) x.(g_index) x.(g_arch) x.(g_hbm_gb) x.(g_hbm_type) x.(g_dies)
    x.(g_state) x.(g_tenant_id).
(** [CPU] *)
Record CPU := mkCPU {
  c_id : string;
  c_tray_id : string;
  c_index : Z;
  c_arch : string;
  c_cores : Z;
  c_mem_tb : Q
}.
#[export] Instance eta_CPU : Eta CPU := λ x,
  mkCPU x.(c_id) x.(c_tray_id) x.(c_index) x.(c_arch) x.(c_cores) x.(c_mem_tb).
(** [BlueFieldDPU] *)
Record BlueFieldDPU := mkDPU {
  d_id : string;
  d_tray_id : string;
  d_sku : string;
  d_bandwidth_gbps : Z;
  d_mode : DPUMode;
  d_tenant_id : option string
}.
#[export] Instance eta_BlueFieldDPU : Eta BlueFieldDPU := λ x,
  mkDPU x.(d_id) x.(d_tray_id) x.(d_sku) x.(d_bandwidth_gbps) x.(d_mode) x.(d_tenant_id).
(** [ComputeTray] *)
Record ComputeTray := mkTray {
  t_id : string;
  t_rack_id : string;
  t_index : Z;
  t_gpu_ids : list string;
  t_cpu_ids : list string;
  t_dpu_id : option string;
  t_connectx_supernics : Z;
  t_state : HwState;
  t_tenant_id : option string
}.
#[export] Instance eta_ComputeTray : Eta ComputeTray := λ x,
  mkTray x.(t_id) x.(t_rack_id) x.(t_index) x.(t_gpu_ids) x.(t_cpu_ids) x.(t_dpu_id)
    x.(t_connectx_supernics) x.(t_state) x.(t_tenant_id).
(** [NVLinkSwitchTray] *)
Record NVLinkSwitchTray := mkNVTray {
  nv_id : string;
  nv_rack_id : string;
  nv_index : Z;
  nv_nvswitch_asics : Z
}.
#[export] Instance eta_NVLinkSwitchTray : Eta NVLinkSwitchTray := λ x,
  mkNVTray x.(nv_id) x.(nv_rack_id) x.(nv_index) x.(nv_nvswitch_asics).
(** [Rack]: one NVL72 rack, one NVLink domain *)
Record Rack := mkRack {
  rk_id : string;
  rk_su_id : string;
  rk_index : Z;
  rk_blueprint_key : string;
  rk_model : string;
  rk_generation : string;
  rk_gpu_arch : string;
  rk_hac_id : string;
  rk_tdp_kw : Z;
  rk_power_cap_kw : Z;
  rk_cooling : string;
  rk_tray_ids : list string;
  rk_nvlink_switch_tray_ids : list string;
  rk_state : HwState;
  rk_tenant_id : option string
}.
#[export] Instance eta_Rack : Eta Rack := λ x,
  mkRack x.(rk_id) x.(rk_su_id) x.(rk_index) x.(rk_blueprint_key) x.(rk_model)
    x.(rk_generation) x.(rk_gpu_arch) x.(rk_hac_id) x.(rk_tdp_kw) x.(rk_power_cap_kw)
    x.(rk_cooling) x.(rk_tray_ids) x.(rk_nvlink_switch_tray_ids) x.(rk_state)
    x.(rk_tenant_id).
(** [ScalableUnit] *)
Record ScalableUnit := mkSU {
  su_id : string;
  su_du_id : option string;
  su_index : Z;
  su_hac_id : string;
  su_blueprint_key : string;
  su_rack_ids : list string;
  su_cmx_racks : Z;
  su_state : HwState
}.
#[export] Instance eta_ScalableUnit : Eta ScalableUnit := λ x,
  mkSU x.(su_id) x.(su_du_id) x.(su_index) x.(su_hac_id) x.(su_blueprint_key)
    x.(su_rack_ids) x.(su_cmx_racks) x.(su_state).
(** [DeploymentUnit] *)
Record DeploymentUnit := mkDU {
  du_id : string;
  du_block_id : option string;
  du_index : Z;
  du_su_ids : list string
}.
#[export] Instance eta_DeploymentUnit : Eta DeploymentUnit := λ x,
  mkDU x.(du_id) x.(du_block_id) x.(du_index) x.(du_su_ids).
(** [ComputeBlock] *)
Record ComputeBlock := mkBlock {
  bk_id : string;
  bk_factory_id : string;
  bk_index : Z;
  bk_name : string;
  bk_power_mw : Q;
  bk_ready : string;
  bk_du_ids : list string
}.
#[export] Instance eta_ComputeBlock : Eta ComputeBlock := λ x,
  mkBlock x.(bk_id) x.(bk_factory_id) x.(bk_index) x.(bk_name) x.(bk_power_mw) x.(bk_ready)
    x.(bk_du_ids).
(** [AIFactory]: a site *)
Record AIFactory := mkFactory {
  f_id : string;
  f_name : string;
  f_site : string;
  f_design_power_mw : Q;
  f_block_ids : list string
}.
#[export] Instance eta_AIFactory : Eta AIFactory := λ x,
  mkFactory x.(f_id) x.(f_name) x.(f_site) x.(f_design_power_mw) x.(f_block_ids).

(** ** Tenancy *)
(** [Tenant] *)
Record Tenant := mkTenant {
  tn_id : string;
  tn_name : string;
  tn_isolation_tier : IsolationTier;
  tn_sla_tier : string;
  tn_notes : option string
}.
#[export] Instance eta_Tenant : Eta Tenant := λ x,
  mkTenant x.(tn_id) x.(tn_name) x.(tn_isolation_tier) x.(tn_sla_tier) x.(tn_notes).
(** [NetworkIsolation]: the tenant's VNIs, VRF and P_Key *)
Record NetworkIsolation := mkNet {
  ni_tenant_id : string;
  ni_compute_l3vni : Z;
  ni_converged_vni : Z;
  ni_oob_vni : Z;
  ni_vrf : string;
  ni_ib_pkey : option Z
}.
#[export] Instance eta_NetworkIsolation : Eta NetworkIsolation := λ x,
  mkNet x.(ni_tenant_id) x.(ni_compute_l3vni) x.(ni_converged_vni) x.(ni_oob_vni) x.(ni_vrf)
    x.(ni_ib_pkey).
(** [Allocation]: racks of one SU held by a tenant *)
Record Allocation := mkAlloc {
  al_id : string;
  al_tenant_id : string;
  al_scope : AllocationScope;
  al_su_id : string;
  al_rack_ids : list string;
  al_dpu_mode : DPUMode;
  al_state : HwState
}.
#[export] Instance eta_Allocation : Eta Allocation := λ x,
  mkAlloc x.(al_id) x.(al_tenant_id) x.(al_scope) x.(al_su_id) x.(al_rack_ids) x.(al_dpu_mode)
    x.(al_state).
(** [NVLinkPartition] *)
Record NVLinkPartition := mkPart {
  p_id : string;
  p_rack_id : string;
  p_partition_id : Z;
  p_tray_ids : list string;
  p_tenant_id : string;
  p_state : HwState
}.
#[export] Instance eta_NVLinkPartition : Eta NVLinkPartition := λ x,
  mkPart x.(p_id) x.(p_rack_id) x.(p_partition_id) x.(p_tray_ids) x.(p_tenant_id) x.(p_state).
(** Request body [TenantCreate] *)
Record TenantCreate := mkTenantCreate {
  tc_name : string;
  tc_isolation_tier : IsolationTier;
  tc_sla_tier : string;
  tc_notes : option string
}.
#[export] Instance eta_TenantCreate : Eta TenantCreate := λ x,
  mkTenantCreate x.(tc_name) x.(tc_isolation_tier) x.(tc_sla_tier) x.(tc_notes).
(** Request body [AllocationCreate] *)
Record AllocationCreate := mkAllocCreate {
  ac_tenant_id : string;
  ac_scope : AllocationScope;
  ac_su_id : string;
  ac_rack_ids : option (list string);
  ac_dpu_mode : option DPUMode
}.
#[export] Instance eta_AllocationCreate : Eta AllocationCreate := λ x,
  mkAllocCreate x.(ac_tenant_id) x.(ac_scope) x.(ac_su_id) x.(ac_rack_ids) x.(ac_dpu_mode).
(** Request body [PartitionCreate] *)
Record PartitionCreate := mkPartCreate {
  pc_rack_id : string;
  pc_tenant_id : string;
  pc_tray_ids : list string
}.
#[export] Instance eta_PartitionCreate : Eta PartitionCreate := λ x,
  mkPartCreate x.(pc_rack_id) x.(pc_tenant_id) x.(pc_tray_ids).
(** [IsolationFinding] *)
Record IsolationFinding := mkFinding {
  if_severity : string;
  if_layer : string;
  if_message : string
}.
#[export] Instance eta_IsolationFinding : Eta IsolationFinding := λ x,
  mkFinding x.(if_severity) x.(if_layer) x.(if_message).
(** [IsolationReport] *)
Record IsolationReport := mkReport {
  ir_tenant_id : string;
  ir_ok : bool;
  ir_findings : list IsolationFinding
}.
#[export] Instance eta_IsolationReport : Eta IsolationReport := λ x,
  mkReport x.(ir_tenant_id) x.(ir_ok) x.(ir_findings).

(** ** Service lifecycle *)
(** [LifecycleEvent]: one entry of a node's or order's history *)
Record LifecycleEvent := mkEvent {
  ev_state : string;
  ev_detail : string;
  ev_at : string
}.
#[export] Instance eta_LifecycleEvent : Eta LifecycleEvent := λ x,
  mkEvent x.(ev_state) x.(ev_detail) x.(ev_at).
(** [NodeInstance]: the control plane's mirror of one NICo host *)
Record NodeInstance := mkNode {
  n_id : string;
  n_tray_id : string;
  n_rack_id : string;
  n_su_id : string;
  n_blueprint_key : string;
  n_nico_host_id : string;
  n_nico_instance_id : option string;
  n_tenant_id : option string;
  n_order_id : option string;
  n_state : NodeLifecycleState;
  n_history : list LifecycleEvent
}.
#[export] Instance eta_NodeInstance : Eta NodeInstance := λ x,
  mkNode x.(n_id) x.(n_tray_id) x.(n_rack_id) x.(n_su_id) x.(n_blueprint_key)
    x.(n_nico_host_id) x.(n_nico_instance_id) x.(n_tenant_id) x.(n_order_id) x.(n_state)
    x.(n_history).
(** The kubeconfig section of the access package ([_k8s_access_entry]); its fixed prose entries are left out *)
Record K8sAccess := mkK8sAccess {
  ka_cluster_id : string;
  ka_name : string;
  ka_version : string;
  ka_api_server : string;
  ka_oidc_issuer : string;
  ka_control_plane_sla : string
}.
#[export] Instance eta_K8sAccess : Eta K8sAccess := λ x,
  mkK8sAccess x.(ka_cluster_id) x.(ka_name) x.(ka_version) x.(ka_api_server) x.(ka_oidc_issuer)
    x.(ka_control_plane_sla).
(** The access package an order hands over; its constant strings are left out *)
Record AccessPackage := mkAccess {
  ap_issued_at : string;
  ap_ssh_user : string;
  ap_token_url : string;
  ap_client_id : string;
  ap_client_secret : string;
  ap_storage_mounts : list string;
  ap_storage_vaults : list string;
  ap_vrf : option string;
  ap_compute_l3vni : option Z;
  ap_ib_pkey : option string;
  ap_managed_k8s : option K8sAccess
}.
#[export] Instance eta_AccessPackage : Eta AccessPackage := λ x,
  mkAccess x.(ap_issued_at) x.(ap_ssh_user) x.(ap_token_url) x.(ap_client_id)
    x.(ap_client_secret) x.(ap_storage_mounts) x.(ap_storage_vaults) x.(ap_vrf)
    x.(ap_compute_l3vni) x.(ap_ib_pkey) x.(ap_managed_k8s).
(** [ServiceOrder] *)
Record ServiceOrder := mkOrder {
  o_id : string;
  o_tenant_id : string;
  o_kind : OrderKind;
  o_blueprint_key : option string;
  o_racks : Z;
  o_allocation_id : option string;
  o_allocation_ids : list string;
  o_approval_mode : bool;
  o_pending_stage : option string;
  o_storage_mode : string;
  o_storage_tb : Q;
  o_storage_gbps : Q;
  o_managed_k8s : bool;
  o_k8s_version : string;
  o_k8s_cluster_id : option string;
  o_segment_id : option string;
  o_storage_ids : list string;
  o_node_ids : list string;
  o_state : OrderState;
  o_error : option string;
  o_access_package : option AccessPackage;
  o_history : list LifecycleEvent
}.
#[export] Instance eta_ServiceOrder : Eta ServiceOrder := λ x,
  mkOrder x.(o_id) x.(o_tenant_id) x.(o_kind) x.(o_blueprint_key) x.(o_racks)
    x.(o_allocation_id) x.(o_allocation_ids) x.(o_approval_mode) x.(o_pending_stage)
    x.(o_storage_mode) x.(o_storage_tb) x.(o_storage_gbps) x.(o_managed_k8s)
    x.(o_k8s_version) x.(o_k8s_cluster_id) x.(o_segment_id) x.(o_storage_ids)
    x.(o_node_ids) x.(o_state) x.(o_error) x.(o_access_package) x.(o_history).
(** [CpuNode]: a general-purpose CPU node *)
Record CpuNode := mkCpuNode {
  cn_id : string;
  cn_dpu_id : string;
  cn_dpu_sku : string;
  cn_cpu_arch : string;
  cn_cores : Z;
  cn_mem_tb : Q;
  cn_state : string;
  cn_role : string;
  cn_nico_host_id : option string;
  cn_tenant_id : option string;
  cn_order_id : option string;
  cn_host_ip : string;
  cn_segment_id : option string
}.
#[export] Instance eta_CpuNode : Eta CpuNode := λ x,
  mkCpuNode x.(cn_id) x.(cn_dpu_id) x.(cn_dpu_sku) x.(cn_cpu_arch) x.(cn_cores) x.(cn_mem_tb)
    x.(cn_state) x.(cn_role) x.(cn_nico_host_id) x.(cn_tenant_id) x.(cn_order_id)
    x.(cn_host_ip) x.(cn_segment_id).
(** An entry of [K8sCluster.addons] *)
Record Addon := mkAddon {
  ad_name : string;
  ad_version : string;
  ad_status : string;
  ad_channel : string
}.
#[export] Instance eta_Addon : Eta Addon := λ x,
  mkAddon x.(ad_name) x.(ad_version) x.(ad_status) x.(ad_channel).
(** An entry of [K8sCluster.conditions]; its [detail] prose is left out *)
Record Condition := mkCondition {
  cd_check : string;
  cd_result : string;
  cd_at : string
}.
#[export] Instance eta_Condition : Eta Condition := λ x,
  mkCondition x.(cd_check) x.(cd_result) x.(cd_at).
(** An entry of [stage_history] and of [K8sInstall.stages] *)
Record StageRow := mkStageRow {
  sr_name : string;
  sr_status : string;
  sr_ts : option string
}.
#[export] Instance eta_StageRow : Eta StageRow := λ x,
  mkStageRow x.(sr_name) x.(sr_status) x.(sr_ts).
(** A check of the burn-in report; its [detail] prose is left out *)
Record AcceptanceCheck := mkAccCheck {
  ak_name : string;
  ak_status : string;
  ak_value : string
}.
#[export] Instance eta_AcceptanceCheck : Eta AcceptanceCheck := λ x,
  mkAccCheck x.(ak_name) x.(ak_status) x.(ak_value).
(** [K8sCluster.acceptance] *)
Record BurnInReport := mkBurnIn {
  bi_status : string;
  bi_report_ts : string;
  bi_checks : list AcceptanceCheck
}.
#[export] Instance eta_BurnInReport : Eta BurnInReport := λ x,
  mkBurnIn x.(bi_status) x.(bi_report_ts) x.(bi_checks).
(** [K8sCluster]: a Managed K8s cluster *)
Record K8sCluster := mkCluster {
  k_id : string;
  k_tenant_id : string;
  k_order_id : string;
  k_allocation_id : option string;
  k_name : string;
  k_version : string;
  k_nkd_version : string;
  k_state : string;
  k_api_vip : string;
  k_oidc_issuer : string;
  k_cp_node_ids : list string;
  k_worker_node_ids : list string;
  k_gpus_total : Z;
  k_addons : list Addon;
  k_dcgm_mode : string;
  k_conditions : list Condition;
  k_stage : string;
  k_stage_history : list StageRow;
  k_progress_pct : Z;
  k_acceptance : option BurnInReport;
  k_quarantined_nodes : list string;
  k_node_versions : dict string;
  k_created_at : string;
  k_history : list LifecycleEvent
}.
#[export] Instance eta_K8sCluster : Eta K8sCluster := λ x,
  mkCluster x.(k_id) x.(k_tenant_id) x.(k_order_id) x.(k_allocation_id) x.(k_name) x.(k_version)
    x.(k_nkd_version) x.(k_state) x.(k_api_vip) x.(k_oidc_issuer) x.(k_cp_node_ids)
    x.(k_worker_node_ids) x.(k_gpus_total) x.(k_addons) x.(k_dcgm_mode) x.(k_conditions)
    x.(k_stage) x.(k_stage_history) x.(k_progress_pct) x.(k_acceptance)
    x.(k_quarantined_nodes) x.(k_node_versions) x.(k_created_at) x.(k_history).
(** [K8sInstall]: the record of one installation *)
Record K8sInstall := mkInstall {
  ki_install_id : string;
  ki_cluster_id : option string;
  ki_tenant_id : string;
  ki_allocation_id : option string;
  ki_order_id : option string;
  ki_k8s_version : string;
  ki_state : string;
  ki_stage : string;
  ki_stages : list StageRow;
  ki_created_at : string
}.
#[export] Instance eta_K8sInstall : Eta K8sInstall := λ x,
  mkInstall x.(ki_install_id) x.(ki_cluster_id) x.(ki_tenant_id) x.(ki_allocation_id)
    x.(ki_order_id) x.(ki_k8s_version) x.(ki_state) x.(ki_stage) x.(ki_stages)
    x.(ki_created_at).
(** [StorageAllocation] *)
Record StorageAllocation := mkStorage {
  sa_id : string;
  sa_tenant_id : string;
  sa_order_id : string;
  sa_allocation_id : option string;
  sa_view_path : string;
  sa_capacity_tb : Q;
  sa_qos_gbps : Q;
  sa_protocol : string;
  sa_state : string
}.
#[export] Instance eta_StorageAllocation : Eta StorageAllocation := λ x,
  mkStorage x.(sa_id) x.(sa_tenant_id) x.(sa_order_id) x.(sa_allocation_id) x.(sa_view_path)
    x.(sa_capacity_tb) x.(sa_qos_gbps) x.(sa_protocol) x.(sa_state).
(** Request body [OrderCreate] *)
Record OrderCreate := mkOrderCreate {
  oc_tenant_id : string;
  oc_kind : OrderKind;
  oc_blueprint_key : option string;
  oc_racks : Z;
  oc_allocation_id : option string;
  oc_approval_mode : bool;
  oc_storage_mode : string;
  oc_storage_tb : Q;
  oc_storage_gbps : Q;
  oc_managed_k8s : bool;
  oc_k8s_version : string
}.
#[export] Instance eta_OrderCreate : Eta OrderCreate := λ x,
  mkOrderCreate x.(oc_tenant_id) x.(oc_kind) x.(oc_blueprint_key) x.(oc_racks) x.(oc_allocation_id)
    x.(oc_approval_mode) x.(oc_storage_mode) x.(oc_storage_tb) x.(oc_storage_gbps)
    x.(oc_managed_k8s) x.(oc_k8s_version).
(** [ReconcileFinding] *)
Record ReconcileFinding := mkRFinding {
  rf_kind : string;
  rf_severity : string;
  rf_node_id : option string;
  rf_nico_host_id : option string;
  rf_message : string
}.
#[export] Instance eta_ReconcileFinding : Eta ReconcileFinding := λ x,
  mkRFinding x.(rf_kind) x.(rf_severity) x.(rf_node_id) x.(rf_nico_host_id) x.(rf_message).
(** [ReconcileReport] *)
Record ReconcileReport := mkRReport {
  rr_checked_nodes : Z;
  rr_checked_hosts : Z;
  rr_ghosts_registered : Z;
  rr_orphans_cordoned : Z;
  rr_mismatches : Z;
  rr_ok : bool;
  rr_findings : list ReconcileFinding
}.
#[export] Instance eta_ReconcileReport : Eta ReconcileReport := λ x,
  mkRReport x.(rr_checked_nodes) x.(rr_checked_hosts) x.(rr_ghosts_registered)
    x.(rr_orphans_cordoned) x.(rr_mismatches) x.(rr_ok) x.(rr_findings).

(** The enum values are distinct, so a stage name parses back to its stage. *)
Lemma OrderState_of_value x : OrderState_of (OrderState_value x) = Some x.
Proof. by destruct x. Qed.
Lemma OrderState_value_inj x y : OrderState_value x = OrderState_value y → x = y.
Proof.
  intros H. pose proof (OrderState_of_value x) as Hx. rewrite H, OrderState_of_value in Hx.
  by injection Hx.
Qed.
