(* ===== verification/PortalModels.v ===== *)
(** * Records of the customer plane

    The models of [app/models.py] and the dictionaries of [app/scenario_api.py]
    and [app/customer_ops.py] that the portals keep: tickets, kubeconfigs and
    cluster upgrades, acceptance and termination records, public inquiries,
    volumes, snapshots, API keys, members and node operations.  JSON values that
    the program receives and passes on are values of [json]. *)
From Stdlib Require Import QArith.
From stdpp Require Import strings base decidable option numbers list.
From S2P Require Import Prelude PyLib Models.
Local Open Scope string_scope.
Local Open Scope list_scope.
Local Open Scope py_scope.

(** ** JSON *)
Inductive json :=
  | J_null
  | J_bool (b : bool)
  | J_num (q : Q)
  | J_str (s : string)
  | J_list (l : list json)
  | J_dict (d : list (string * json)).

(** [x.get(key)] and [x.get(key, default)] of a JSON object *)
Definition jget (d : list (string * json)) (key : string) : json := default J_null (dget d key).
Definition jget_or (d : list (string * json)) (key : string) (dflt : json) : json :=
  default dflt (dget d key).
(** Comparison with a string, and with a string or [None] *)
Definition json_is_str (j : json) (s : string) : bool :=
  match j with J_str s' => String.eqb s' s | _ => false end.
Definition json_is_null (j : json) : bool := match j with J_null => true | _ => false end.
(** Truthiness *)
Definition json_truthy (j : json) : bool :=
  match j with
  | J_null => false
  | J_bool b => b
  | J_num q => negb (Qeq_bool q 0)
  | J_str s => truthy_str s
  | J_list l => match l with [] => false | _ => true end
  | J_dict d => match d with [] => false | _ => true end
  end.
(** Equality of dictionary keys: strings and numbers by value *)
Definition json_key_eqb (a b : json) : bool :=
  match a, b with
  | J_null, J_null => true
  | J_bool x, J_bool y => Bool.eqb x y
  | J_num x, J_num y => Qeq_bool x y
  | J_str x, J_str y => String.eqb x y
  | J_bool x, J_num y | J_num y, J_bool x => Qeq_bool (if x then 1 else 0)%Q y
  | _, _ => false
  end.
(** Lists and dictionaries are not hashable. *)
Definition json_hashable (j : json) : bool :=
  match j with J_list _ | J_dict _ => false | _ => true end.

(** ** Tickets *)
(** [TicketComment] *)
Record TicketComment := mkComment { tc_at : string; tc_author : string; tc_text : string }.
(** [Ticket] *)
Record Ticket := mkTicket {
  tk_id : string;
  tk_tenant_id : string;
  tk_subject : string;
  tk_body : string;
  tk_severity : string;
  tk_status : string;
  tk_type : string;
  tk_routed_to : string;
  tk_change_scope : option string;
  tk_policy : option string;
  tk_ref : option string;
  tk_created_at : string;
  tk_updated_at : string;
  tk_comments : list TicketComment
}.
#[export] Instance eta_Ticket : Eta Ticket := λ x,
  mkTicket x.(tk_id) x.(tk_tenant_id) x.(tk_subject) x.(tk_body) x.(tk_severity) x.(tk_status)
    x.(tk_type) x.(tk_routed_to) x.(tk_change_scope) x.(tk_policy) x.(tk_ref)
    x.(tk_created_at) x.(tk_updated_at) x.(tk_comments).
(** Request bodies [TicketCreate], [TicketUpdate] *)
Record TicketCreate := mkTicketCreate {
  tb_tenant_id : string;
  tb_subject : string;
  tb_body : string;
  tb_severity : string;
  tb_type : string;
  tb_change_scope : option string;
  tb_ref : option string
}.
Record TicketUpdate := mkTicketUpdate {
  tu_status : option string;
  tu_comment : option string;
  tu_author : string
}.

(** ** Managed K8s access and upgrades *)
(** [K8sKubeconfig]; the text of the kubeconfig is left out *)
Record K8sKubeconfig := mkKubeconfig {
  kc_id : string;
  kc_cluster_id : string;
  kc_tenant_id : string;
  kc_serial : string;
  kc_role : string;
  kc_ttl_h : Z;
  kc_issued_at : string;
  kc_expires_at : string;
  kc_revoked : bool;
  kc_revoked_at : option string;
  kc_yaml : string
}.
#[export] Instance eta_K8sKubeconfig : Eta K8sKubeconfig := λ x,
  mkKubeconfig x.(kc_id) x.(kc_cluster_id) x.(kc_tenant_id) x.(kc_serial) x.(kc_role)
    x.(kc_ttl_h) x.(kc_issued_at) x.(kc_expires_at) x.(kc_revoked) x.(kc_revoked_at) x.(kc_yaml).
(** An entry of [K8sUpgrade.events] *)
Record UpgradeEvent := mkUpEvent { ue_ts : string; ue_node : string; ue_step : string }.
(** [K8sUpgrade]; [node_progress] is its two entries *)
Record K8sUpgrade := mkUpgrade {
  ku_id : string;
  ku_cluster_id : string;
  ku_tenant_id : string;
  ku_from_version : string;
  ku_target_version : string;
  ku_state : string;
  ku_current_node : option string;
  ku_done : Z;
  ku_total : Z;
  ku_events : list UpgradeEvent;
  ku_created_at : string
}.
#[export] Instance eta_K8sUpgrade : Eta K8sUpgrade := λ x,
  mkUpgrade x.(ku_id) x.(ku_cluster_id) x.(ku_tenant_id) x.(ku_from_version)
    x.(ku_target_version) x.(ku_state) x.(ku_current_node) x.(ku_done) x.(ku_total)
    x.(ku_events) x.(ku_created_at).

(** An atomic piece of the upgrade thread, between two acquisitions of the lock *)
Inductive UpAction :=
  | UA_node (name : string)
  | UA_step (name step : string)
  | UA_done (name : string)
  | UA_finish.

(** ** Acceptance and termination records *)
(** The report of [_build_acceptance_report]; the prose of its checks is left out *)
Record AcceptanceReport := mkAccReport {
  rp_checks : list AcceptanceCheck;
  rp_nodes_tested : Z;
  rp_report_ts : string
}.
(** An entry of [STORE.acceptances] *)
Record AcceptanceRec := mkAcceptance {
  ar_order_id : string;
  ar_tenant_id : string;
  ar_status : string;
  ar_report : AcceptanceReport;
  ar_deemed_deadline : string;
  ar_billing_start_date : option string;
  ar_reject_reason : option string;
  ar_decided_at : option string;
  ar_decided_by : option string
}.
#[export] Instance eta_AcceptanceRec : Eta AcceptanceRec := λ x,
  mkAcceptance x.(ar_order_id) x.(ar_tenant_id) x.(ar_status) x.(ar_report)
    x.(ar_deemed_deadline) x.(ar_billing_start_date) x.(ar_reject_reason) x.(ar_decided_at)
    x.(ar_decided_by).
(** The line of the Secure Wipe certificate for one allocation *)
Record CertAlloc := mkCertAlloc {
  ca_allocation_id : string;
  ca_racks : list string;
  ca_nodes : Z;
  ca_terminate_order_id : string;
  ca_reclaim_state : string
}.
(** What the certificate signs *)
Record WipeBody := mkWipeBody {
  wb_tenant_id : string;
  wb_termination_id : string;
  wb_erase_method : string;
  wb_erase_steps : list string;
  wb_allocations : list CertAlloc;
  wb_issued_at : string
}.
Record WipeCert := mkWipeCert { wc_id : string; wc_sha256 : string; wc_body : WipeBody }.
(** An entry of [STORE.terminations]; [progress] is its two entries *)
Record TerminationRec := mkTermination {
  tm_id : string;
  tm_tenant_id : string;
  tm_state : string;
  tm_requested_at : string;
  tm_checklist : list (string * bool);
  tm_backup_confirmed_at : option string;
  tm_stage : string;
  tm_pct : Z;
  tm_allocations : list string;
  tm_orders : list string;
  tm_wipe_certificate : option WipeCert;
  tm_closed_at : option string
}.
#[export] Instance eta_TerminationRec : Eta TerminationRec := λ x,
  mkTermination x.(tm_id) x.(tm_tenant_id) x.(tm_state) x.(tm_requested_at) x.(tm_checklist)
    x.(tm_backup_confirmed_at) x.(tm_stage) x.(tm_pct) x.(tm_allocations) x.(tm_orders)
    x.(tm_wipe_certificate) x.(tm_closed_at).
(** An entry of [STORE.inquiries] *)
Record Inquiry := mkInquiry {
  iq_id : string;
  iq_company : string;
  iq_name : string;
  iq_email : string;
  iq_gpu_scale : string;
  iq_message : string;
  iq_status : string;
  iq_received_at : string
}.

(** ** Customer operations *)
(** An entry of [STORE.storage_volumes]: the tenant and the values it was made of,
    which come from the request or from the storage system *)
Record Volume := mkVolume {
  vo_id : string;
  vo_tenant_id : string;
  vo_path : json;
  vo_cluster : json;
  vo_protocols : json;
  vo_capacity_tb : json;
  vo_used_tb : json;
  vo_quota_tb : json;
  vo_qos : json;
  vo_state : json;
  vo_created_at : string
}.
#[export] Instance eta_Volume : Eta Volume := λ x,
  mkVolume x.(vo_id) x.(vo_tenant_id) x.(vo_path) x.(vo_cluster) x.(vo_protocols)
    x.(vo_capacity_tb) x.(vo_used_tb) x.(vo_quota_tb) x.(vo_qos) x.(vo_state) x.(vo_created_at).
(** An entry of [STORE.storage_snapshots] *)
Record Snapshot := mkSnapshot {
  sn_id : string;
  sn_tenant_id : string;
  sn_volume_id : string;
  sn_path : json;
  sn_size_tb : Q;
  sn_note : string;
  sn_created_at : string;
  sn_state : string
}.
(** An entry of [STORE.api_keys]; [ap_secret] is [None] in listings *)
Record ApiKey := mkApiKey {
  ap_id : string;
  ap_tenant_id : string;
  ap_name : string;
  ap_scope : string;
  ap_prefix : string;
  ap_secret : option string;
  ap_created_at : string;
  ap_state : string;
  ap_last_used : option string
}.
#[export] Instance eta_ApiKey : Eta ApiKey := λ x,
  mkApiKey x.(ap_id) x.(ap_tenant_id) x.(ap_name) x.(ap_scope) x.(ap_prefix) x.(ap_secret)
    x.(ap_created_at) x.(ap_state) x.(ap_last_used).
(** An entry of [STORE.members] *)
Record Member := mkMember {
  mb_id : string;
  mb_tenant_id : string;
  mb_email : string;
  mb_role : string;
  mb_state : string;
  mb_invited_at : string;
  mb_mfa : bool
}.
#[export] Instance eta_Member : Eta Member := λ x,
  mkMember x.(mb_id) x.(mb_tenant_id) x.(mb_email) x.(mb_role) x.(mb_state) x.(mb_invited_at)
    x.(mb_mfa).
(** An entry of [STORE.node_ops]: what the infrastructure answered, the tenant
    and the node *)
Record NodeOp := mkNodeOp {
  no_op : list (string * json);
  no_tenant_id : string;
  no_node_id : string
}.
