(* ===== verification/EmuModels.v ===== *)
(** * Records of the tray emulator and of the incident plane

    The runtime telemetry of [app/tray_emu.py], the fault episodes it logs, the
    feed items that the consoles read, and the incidents, root-cause reports and
    service credits that [app/scenario_api.py] derives from them.  Floating-point
    telemetry is modelled by exact rationals. *)
From Stdlib Require Import QArith.
From stdpp Require Import strings base decidable option numbers list.
From S2P Require Import Prelude PyLib.
Local Open Scope string_scope.
Local Open Scope list_scope.
Local Open Scope py_scope.

(** [GpuTelemetry] *)
Record GpuTelemetry := mkTelemetry {
  gt_index : Z;
  gt_state : string;
  gt_util_pct : Q;
  gt_hbm_used_gb : Q;
  gt_hbm_total_gb : Z;
  gt_temp_c : Q;
  gt_power_w : Q;
  gt_ecc_corrected : Z;
  gt_xid_events : list Z;
  gt_fault_ttl : Z
}.
#[export] Instance eta_GpuTelemetry : Eta GpuTelemetry := λ x,
  mkTelemetry x.(gt_index) x.(gt_state) x.(gt_util_pct) x.(gt_hbm_used_gb) x.(gt_hbm_total_gb)
    x.(gt_temp_c) x.(gt_power_w) x.(gt_ecc_corrected) x.(gt_xid_events) x.(gt_fault_ttl).
(** [TrayRuntime] *)
Record TrayRuntime := mkRuntime {
  rt_tray_id : string;
  rt_host_id : string;
  rt_rack_id : string;
  rt_tenant_id : option string;
  rt_workload : string;
  rt_job_name : option string;
  rt_cpu_util_pct : Q;
  rt_nvlink_tx_tbps : Q;
  rt_nvlink_rx_tbps : Q;
  rt_power_w : Q;
  rt_gpu_max_w : Q;
  rt_gpu_arch : string;
  rt_step : Z;
  rt_gpus : list GpuTelemetry
}.
#[export] Instance eta_TrayRuntime : Eta TrayRuntime := λ x,
  mkRuntime x.(rt_tray_id) x.(rt_host_id) x.(rt_rack_id) x.(rt_tenant_id) x.(rt_workload)
    x.(rt_job_name) x.(rt_cpu_util_pct) x.(rt_nvlink_tx_tbps) x.(rt_nvlink_rx_tbps) x.(rt_power_w)
    x.(rt_gpu_max_w) x.(rt_gpu_arch) x.(rt_step) x.(rt_gpus).
(** [ClusterSummary] *)
Record ClusterSummary := mkSummary {
  cs_tenant_id : string; cs_profile : string; cs_trays : Z; cs_gpus : Z; cs_avg_util_pct : Q;
  cs_power_kw : Q; cs_power_cap_kw : Z; cs_max_gpu_temp_c : Q; cs_nvlink_tbps : Q; cs_tokens_ks : Q;
  cs_ecc_corrected_total : Z; cs_fault_gpus : Z
}.
(** A point of the global time series *)
Record GlobalPoint := mkGlobalPoint {
  hg_at : string; hg_step : Z; hg_total_gpus : Z; hg_active_gpus : Z; hg_alloc_pct : Q;
  hg_avg_util_pct : Q; hg_power_kw : Q; hg_tokens_ks : Q; hg_max_gpu_temp_c : Q; hg_fault_gpus : Z
}.
(** A point of a tenant's time series *)
Record TenantPoint := mkTenantPoint {
  ht_at : string; ht_step : Z; ht_summary : ClusterSummary
}.
(** An entry of the fault log *)
Record Episode := mkEpisode {
  ep_tray_id : string;
  ep_host_id : string;
  ep_gpu : Z;
  ep_xid : Z;
  ep_tenant_id : option string;
  ep_started_at : string;
  ep_started_step : Z;
  ep_detail : option string;
  ep_tta_s : Z;
  ep_resolved_at : option string;
  ep_ttr_s : option Q;
  ep_state : string
}.
#[export] Instance eta_Episode : Eta Episode := λ x,
  mkEpisode x.(ep_tray_id) x.(ep_host_id) x.(ep_gpu) x.(ep_xid) x.(ep_tenant_id) x.(ep_started_at)
    x.(ep_started_step) x.(ep_detail) x.(ep_tta_s) x.(ep_resolved_at) x.(ep_ttr_s) x.(ep_state).
(** The attributes of [TrayEmulator] *)
Record TrayEmulator := mkEmulator {
  em_trays : dict TrayRuntime;
  em_cluster_profile : dict string;
  em_step : Z;
  em_history_global : list GlobalPoint;
  em_history_tenants : dict (list TenantPoint);
  em_fault_log : list Episode
}.
#[export] Instance eta_TrayEmulator : Eta TrayEmulator := λ x,
  mkEmulator x.(em_trays) x.(em_cluster_profile) x.(em_step) x.(em_history_global)
    x.(em_history_tenants) x.(em_fault_log).
Definition empty_emulator : TrayEmulator := mkEmulator [] [] 0 [] [] [].

(** An item of the fault feed: an episode of the emulator or a fault of the
    physical twin.  An XID is a number, or a label where there is none. *)
Inductive Xid := X_num (n : Z) | X_label (s : string).
Record Fault := mkFault {
  fa_tray_id : option string;
  fa_gpu : option Z;
  fa_xid : Xid;
  fa_kind : option string;
  fa_severity : option string;
  fa_detail : option string;
  fa_tenant_id : option string;
  fa_at : option string;
  fa_started_at : option string;
  fa_resolved : bool;
  fa_resolved_at : option string;
  fa_ttr_s : option Q
}.
(** A fault as the twin's REST surface reports it *)
Record TwinFault := mkTwinFault {
  tf_tray_id : option string;
  tf_xid : option Z;
  tf_kind : option string;
  tf_severity : option string;
  tf_detail : option string;
  tf_at : option string;
  tf_resolved : bool;
  tf_resolved_at : option string
}.

(** ** Incidents *)
(** An entry of [STORE.incidents] *)
Record Incident := mkIncident {
  in_id : string;
  in_key : string;
  in_severity : string;
  in_component : string;
  in_title : string;
  in_state : string;
  in_started_at : string;
  in_resolved_at : option string;
  in_tenant_id : option string;
  in_mttr_min : option Q;
  in_updates : list (string * string)
}.
#[export] Instance eta_Incident : Eta Incident := λ x,
  mkIncident x.(in_id) x.(in_key) x.(in_severity) x.(in_component) x.(in_title) x.(in_state)
    x.(in_started_at) x.(in_resolved_at) x.(in_tenant_id) x.(in_mttr_min) x.(in_updates).
(** An entry of [STORE.rcas] *)
Record Rca := mkRca {
  rc_id : string;
  rc_incident_id : string;
  rc_tenant_id : option string;
  rc_severity : string;
  rc_title : string;
  rc_published_at : string;
  rc_root_cause : string;
  rc_mttr_min : option Q
}.
(** An entry of [STORE.sla_credits] *)
Record SlaCredit := mkCredit {
  cr_id : string;
  cr_key : string;
  cr_tenant_id : string;
  cr_month : string;
  cr_incident_id : option string;
  cr_amount_usd : Q;
  cr_pct_of_monthly : Z;
  cr_status : string;
  cr_applied_invoice : option string
}.
