(* ===== verification/World.v ===== *)
(** * The world the control plane runs in

    Everything a handler can read or write: the in-memory store
    ([app/store.py]), the simulated NICo ([app/nico_fake.py]), the simulated
    VAST ([app/vast_fake.py]), the shared services ([app/shared_services.py]),
    the trace bus ([app/trace.py]), the tray emulator ([app/tray_emu.py]), the
    threads in the background (installations of [app/lifecycle.py], upgrades of
    [app/k8s_api.py], erasures of [app/scenario_api.py]), and the environment the
    process reads (clock, random tokens and draws, environment variables, the text
    of floats and times, digests).  The records of the customer plane are the
    [Portal] of the store.  Handlers are programs of the monad [IO] over this
    world; [STORE.lock] is re-entrant and held for a whole handler, so a handler is
    one atomic step. *)
From Stdlib Require Import QArith.
From stdpp Require Import strings base decidable option numbers list relations.
From S2P Require Import Prelude PyLib Models PortalModels EmuModels.
Local Open Scope string_scope.
Local Open Scope list_scope.
Local Open Scope py_scope.

(** ** The environment

    External inputs, as functions of how often they were consulted: the text of
    the n-th clock reading, the n-th random token, an environment variable,
    [str] of a float and [float] of a string, [datetime.fromisoformat] of a
    timestamp (its seconds) and [isoformat] back, and the SHA-256 of the canonical
    JSON of a certificate; the n-th draw of [random.random()] and of
    [randbelow]. *)
Record Env := mkEnv {
  env_clock : nat → string;
  env_token : nat → string;
  env_var : string → option string;
  env_float_str : Q → string;
  env_parse_float : string → option Q;
  env_fromiso : string → option Q;
  env_toiso : Q → string;
  env_digest : WipeBody → string;
  env_random : nat → Q;
  env_randbelow : nat → Z → Z
}.

(** ** NICo simulator state *)
(** [NicoHostState] *)
Inductive NicoHostState :=
  | HS_discovered | HS_quarantined | HS_pool_ready | HS_reserved | HS_provisioning
  | HS_provisioned | HS_allocated | HS_released | HS_sanitizing | HS_rma.
#[export] Instance NicoHostState_eq_dec : EqDecision NicoHostState.
Proof. solve_decision. Defined.

(** The [str] value of the enum member *)
Definition NicoHostState_value (x : NicoHostState) : string :=
  match x with
  | HS_discovered => "discovered"
  | HS_quarantined => "quarantined"
  | HS_pool_ready => "pool_ready"
  | HS_reserved => "reserved"
  | HS_provisioning => "provisioning"
  | HS_provisioned => "provisioned"
  | HS_allocated => "allocated"
  | HS_released => "released"
  | HS_sanitizing => "sanitizing"
  | HS_rma => "rma"
  end.
(** [NicoHost] *)
Record NicoHost := mkHost {
  h_id : string;
  h_tray_id : string;
  h_sku : string;
  h_site : string;
  h_state : NicoHostState;
  h_firmware_ok : bool;
  h_attested : bool;
  h_cordoned : bool;
  h_instance_id : option string;
  h_tenant_ref : option string;
  h_image_ref : option string;
  h_bmc_ip : string;
  h_dpu_ip : string;
  h_host_ip : string;
  h_segment_id : option string
}.
#[export] Instance eta_NicoHost : Eta NicoHost := λ x,
  mkHost x.(h_id) x.(h_tray_id) x.(h_sku) x.(h_site) x.(h_state) x.(h_firmware_ok)
    x.(h_attested) x.(h_cordoned) x.(h_instance_id) x.(h_tenant_ref) x.(h_image_ref)
    x.(h_bmc_ip) x.(h_dpu_ip) x.(h_host_ip) x.(h_segment_id).
(** [NicoSegment]: a tenant VPC *)
Record NicoSegment := mkSegment {
  sg_id : string;
  sg_tenant_ref : string;
  sg_vrf : string;
  sg_l3vni : Z;
  sg_converged_vni : Z;
  sg_virtualizer : string;
  sg_vrf_dataplane : string;
  sg_host_ids : list string;
  sg_allocation_id : option string;
  sg_ib_pkey : option Z;
  sg_state : string
}.
#[export] Instance eta_NicoSegment : Eta NicoSegment := λ x,
  mkSegment x.(sg_id) x.(sg_tenant_ref) x.(sg_vrf) x.(sg_l3vni) x.(sg_converged_vni)
    x.(sg_virtualizer) x.(sg_vrf_dataplane) x.(sg_host_ids) x.(sg_allocation_id)
    x.(sg_ib_pkey) x.(sg_state).
(** [NicoJob] *)
Record NicoJob := mkJob {
  j_id : string;
  j_op : string;
  j_host_id : string;
  j_state : string;
  j_detail : string;
  j_remaining_polls : Z
}.
#[export] Instance eta_NicoJob : Eta NicoJob := λ x,
  mkJob x.(j_id) x.(j_op) x.(j_host_id) x.(j_state) x.(j_detail) x.(j_remaining_polls).
(** [SanitizeReport] *)
Record SanitizeReport := mkSanitize {
  sz_host_id : string;
  sz_passed : bool;
  sz_steps : list (string * bool)
}.
#[export] Instance eta_SanitizeReport : Eta SanitizeReport := λ x,
  mkSanitize x.(sz_host_id) x.(sz_passed) x.(sz_steps).
(** The attributes of [FakeNico] *)
Record FakeNico := mkNico {
  nc_hosts : dict NicoHost;
  nc_jobs : dict NicoJob;
  nc_segments : dict NicoSegment;
  nc_sanitize_reports : dict SanitizeReport;
  nc_job_latency : Z;
  nc_fail_flags : dict (list string);
  nc_seq : Z
}.
#[export] Instance eta_FakeNico : Eta FakeNico := λ x,
  mkNico x.(nc_hosts) x.(nc_jobs) x.(nc_segments) x.(nc_sanitize_reports) x.(nc_job_latency)
    x.(nc_fail_flags) x.(nc_seq).

(** ** VAST simulator state *)
(** [VastView]; the constant [protocols] list is left out *)
Record VastView := mkView {
  vv_id : Z;
  vv_path : string;
  vv_tenant_ref : string;
  vv_allocation_id : option string;
  vv_capacity_tb : Q;
  vv_qos_gbps : Q;
  vv_qos_iops_k : Q;
  vv_export_subnet : string;
  vv_state : string
}.
#[export] Instance eta_VastView : Eta VastView := λ x,
  mkView x.(vv_id) x.(vv_path) x.(vv_tenant_ref) x.(vv_allocation_id) x.(vv_capacity_tb)
    x.(vv_qos_gbps) x.(vv_qos_iops_k) x.(vv_export_subnet) x.(vv_state).
(** The attributes of [FakeVast] *)
Record FakeVast := mkVast {
  va_views : dict VastView;
  va_seq : Z
}.
#[export] Instance eta_FakeVast : Eta FakeVast := λ x,
  mkVast x.(va_views) x.(va_seq).

(** ** Shared services state *)
(** [OidcClient] *)
Record OidcClient := mkClient {
  cl_client_id : string;
  cl_kind : string;
  cl_scope : string;
  cl_order_id : option string;
  cl_mfa : bool;
  cl_tokens_issued : Z;
  cl_secret_masked : string;
  cl_state : string;
  cl_created_at : string
}.
#[export] Instance eta_OidcClient : Eta OidcClient := λ x,
  mkClient x.(cl_client_id) x.(cl_kind) x.(cl_scope) x.(cl_order_id) x.(cl_mfa)
    x.(cl_tokens_issued) x.(cl_secret_masked) x.(cl_state) x.(cl_created_at).
(** [IamRealm] *)
Record IamRealm := mkRealm {
  rm_realm : string;
  rm_display : string;
  rm_roles : list string;
  rm_clients : list OidcClient;
  rm_state : string;
  rm_created_at : string
}.
#[export] Instance eta_IamRealm : Eta IamRealm := λ x,
  mkRealm x.(rm_realm) x.(rm_display) x.(rm_roles) x.(rm_clients) x.(rm_state)
    x.(rm_created_at).
(** [SecretEntry] *)
Record SecretEntry := mkSecret {
  se_path : string;
  se_kind : string;
  se_tenant_ref : string;
  se_order_id : option string;
  se_version : Z;
  se_value_masked : string;
  se_created_at : string
}.
#[export] Instance eta_SecretEntry : Eta SecretEntry := λ x,
  mkSecret x.(se_path) x.(se_kind) x.(se_tenant_ref) x.(se_order_id) x.(se_version)
    x.(se_value_masked) x.(se_created_at).
(** [PamSession] *)
Record PamSession := mkPam {
  pm_id : string;
  pm_operator : string;
  pm_target : string;
  pm_reason : string;
  pm_ttl_s : Z;
  pm_state : string;
  pm_opened_at : string;
  pm_closed_at : option string
}.
#[export] Instance eta_PamSession : Eta PamSession := λ x,
  mkPam x.(pm_id) x.(pm_operator) x.(pm_target) x.(pm_reason) x.(pm_ttl_s) x.(pm_state)
    x.(pm_opened_at) x.(pm_closed_at).
(** [AuditEntry] *)
Record AuditEntry := mkAudit {
  au_seq : Z;
  au_at : string;
  au_actor : string;
  au_action : string;
  au_target : string;
  au_result : string;
  au_tenant_ref : option string
}.
#[export] Instance eta_AuditEntry : Eta AuditEntry := λ x,
  mkAudit x.(au_seq) x.(au_at) x.(au_actor) x.(au_action) x.(au_target) x.(au_result)
    x.(au_tenant_ref).
(** The attributes of [FakeSharedServices] *)
Record SharedServices := mkShared {
  sh_realms : dict IamRealm;
  sh_secrets : dict SecretEntry;
  sh_pam_sessions : dict PamSession;
  sh_audit_log : list AuditEntry;
  sh_sa_secrets : dict string;
  sh_seq : Z
}.
#[export] Instance eta_SharedServices : Eta SharedServices := λ x,
  mkShared x.(sh_realms) x.(sh_secrets) x.(sh_pam_sessions) x.(sh_audit_log) x.(sh_sa_secrets)
    x.(sh_seq).

(** ** Trace bus *)
(** [TraceEvent]; the prose [detail] and the [payload] are left out *)
Record TraceEvent := mkTrace {
  te_seq : Z;
  te_at : string;
  te_src : string;
  te_dst : string;
  te_channel : string;
  te_op : string;
  te_order_id : option string;
  te_host_id : option string
}.
#[export] Instance eta_TraceEvent : Eta TraceEvent := λ x,
  mkTrace x.(te_seq) x.(te_at) x.(te_src) x.(te_dst) x.(te_channel) x.(te_op) x.(te_order_id)
    x.(te_host_id).
(** The attributes of [Tracer] *)
Record Tracer := mkTracer {
  tr_events : list TraceEvent;
  tr_seq : Z
}.
#[export] Instance eta_Tracer : Eta Tracer := λ x,
  mkTracer x.(tr_events) x.(tr_seq).

(** ** The store *)
(** The dictionaries that only the customer plane uses *)
Record Portal := mkPortal {
  pt_tickets : dict Ticket;
  pt_k8s_kubeconfigs : dict K8sKubeconfig;
  pt_k8s_upgrades : dict K8sUpgrade;
  pt_acceptances : dict AcceptanceRec;
  pt_terminations : dict TerminationRec;
  pt_inquiries : dict Inquiry;
  pt_storage_volumes : dict Volume;
  pt_storage_snapshots : dict Snapshot;
  pt_api_keys : dict ApiKey;
  pt_members : dict Member;
  pt_node_ops : list (json * NodeOp);
  pt_incidents : dict Incident;
  pt_rcas : dict Rca;
  pt_sla_credits : dict SlaCredit
}.
#[export] Instance eta_Portal : Eta Portal := λ x,
  mkPortal x.(pt_tickets) x.(pt_k8s_kubeconfigs) x.(pt_k8s_upgrades) x.(pt_acceptances)
    x.(pt_terminations) x.(pt_inquiries) x.(pt_storage_volumes) x.(pt_storage_snapshots)
    x.(pt_api_keys) x.(pt_members) x.(pt_node_ops)
    x.(pt_incidents) x.(pt_rcas) x.(pt_sla_credits).
Definition empty_portal : Portal := mkPortal [] [] [] [] [] [] [] [] [] [] [] [] [] [].

(** The dictionaries of [Store] that the modelled components use *)
Record Store := mkStore {
  st_factories : dict AIFactory;
  st_blocks : dict ComputeBlock;
  st_dus : dict DeploymentUnit;
  st_sus : dict ScalableUnit;
  st_racks : dict Rack;
  st_trays : dict ComputeTray;
  st_nvlink_trays : dict NVLinkSwitchTray;
  st_gpus : dict GPU;
  st_cpus : dict CPU;
  st_dpus : dict BlueFieldDPU;
  st_tenants : dict Tenant;
  st_allocations : dict Allocation;
  st_partitions : dict NVLinkPartition;
  st_netiso : dict NetworkIsolation;
  st_node_instances : dict NodeInstance;
  st_orders : dict ServiceOrder;
  st_storage_allocs : dict StorageAllocation;
  st_cpu_nodes : dict CpuNode;
  st_k8s_clusters : dict K8sCluster;
  st_k8s_installs : dict K8sInstall;
  st_counters : dict Z;
  st_portal : Portal
}.
#[export] Instance eta_Store : Eta Store := λ x,
  mkStore x.(st_factories) x.(st_blocks) x.(st_dus) x.(st_sus) x.(st_racks) x.(st_trays)
    x.(st_nvlink_trays) x.(st_gpus) x.(st_cpus) x.(st_dpus) x.(st_tenants)
    x.(st_allocations) x.(st_partitions) x.(st_netiso) x.(st_node_instances)
    x.(st_orders) x.(st_storage_allocs) x.(st_cpu_nodes) x.(st_k8s_clusters)
    x.(st_k8s_installs) x.(st_counters) x.(st_portal).

(** They are attributes of the store like the others. *)
Definition st_tickets (s : Store) : dict Ticket := pt_tickets (st_portal s).
Definition st_k8s_kubeconfigs (s : Store) : dict K8sKubeconfig := pt_k8s_kubeconfigs (st_portal s).
Definition st_k8s_upgrades (s : Store) : dict K8sUpgrade := pt_k8s_upgrades (st_portal s).
Definition st_acceptances (s : Store) : dict AcceptanceRec := pt_acceptances (st_portal s).
Definition st_terminations (s : Store) : dict TerminationRec := pt_terminations (st_portal s).
Definition st_inquiries (s : Store) : dict Inquiry := pt_inquiries (st_portal s).
Definition st_storage_volumes (s : Store) : dict Volume := pt_storage_volumes (st_portal s).
Definition st_storage_snapshots (s : Store) : dict Snapshot := pt_storage_snapshots (st_portal s).
Definition st_api_keys (s : Store) : dict ApiKey := pt_api_keys (st_portal s).
Definition st_members (s : Store) : dict Member := pt_members (st_portal s).
Definition st_node_ops (s : Store) : list (json * NodeOp) := pt_node_ops (st_portal s).
Definition st_incidents (s : Store) : dict Incident := pt_incidents (st_portal s).
Definition st_rcas (s : Store) : dict Rca := pt_rcas (st_portal s).
Definition st_sla_credits (s : Store) : dict SlaCredit := pt_sla_credits (st_portal s).
#[export] Instance set_tickets : Setter st_tickets := λ f s, s <| st_portal ::= λ p, p <| pt_tickets ::= f |> |>.
#[export] Instance set_k8s_kubeconfigs : Setter st_k8s_kubeconfigs := λ f s, s <| st_portal ::= λ p, p <| pt_k8s_kubeconfigs ::= f |> |>.
#[export] Instance set_k8s_upgrades : Setter st_k8s_upgrades := λ f s, s <| st_portal ::= λ p, p <| pt_k8s_upgrades ::= f |> |>.
#[export] Instance set_acceptances : Setter st_acceptances := λ f s, s <| st_portal ::= λ p, p <| pt_acceptances ::= f |> |>.
#[export] Instance set_terminations : Setter st_terminations := λ f s, s <| st_portal ::= λ p, p <| pt_terminations ::= f |> |>.
#[export] Instance set_inquiries : Setter st_inquiries := λ f s, s <| st_portal ::= λ p, p <| pt_inquiries ::= f |> |>.
#[export] Instance set_storage_volumes : Setter st_storage_volumes := λ f s, s <| st_portal ::= λ p, p <| pt_storage_volumes ::= f |> |>.
#[export] Instance set_storage_snapshots : Setter st_storage_snapshots := λ f s, s <| st_portal ::= λ p, p <| pt_storage_snapshots ::= f |> |>.
#[export] Instance set_api_keys : Setter st_api_keys := λ f s, s <| st_portal ::= λ p, p <| pt_api_keys ::= f |> |>.
#[export] Instance set_members : Setter st_members := λ f s, s <| st_portal ::= λ p, p <| pt_members ::= f |> |>.
#[export] Instance set_node_ops : Setter st_node_ops := λ f s, s <| st_portal ::= λ p, p <| pt_node_ops ::= f |> |>.
#[export] Instance set_incidents : Setter st_incidents := λ f s, s <| st_portal ::= λ p, p <| pt_incidents ::= f |> |>.
#[export] Instance set_rcas : Setter st_rcas := λ f s, s <| st_portal ::= λ p, p <| pt_rcas ::= f |> |>.
#[export] Instance set_sla_credits : Setter st_sla_credits := λ f s, s <| st_portal ::= λ p, p <| pt_sla_credits ::= f |> |>.

(** A background installation thread that has been started: its order, its
    install record, and whether it is the Day-2 add-on. *)
Record BgInstall := mkBg {
  bg_order : string;
  bg_install : string;
  bg_day2 : bool
}.

(** The whole process state; [w_upgrades] lists the upgrade threads, each
    with what it has left to do, [w_wipes] the termination threads. *)
Record World := mkWorld {
  w_env : Env;
  w_ticks : nat;
  w_draws : nat;
  w_store : Store;
  w_nico : FakeNico;
  w_vast : FakeVast;
  w_shared : SharedServices;
  w_tracer : Tracer;
  w_bg_orders : list string;
  w_threads : list BgInstall;
  w_upgrades : list (string * list UpAction);
  w_wipes : list string;
  w_emu : TrayEmulator
}.
#[export] Instance eta_World : Eta World := λ x,
  mkWorld x.(w_env) x.(w_ticks) x.(w_draws) x.(w_store) x.(w_nico) x.(w_vast) x.(w_shared)
    x.(w_tracer) x.(w_bg_orders) x.(w_threads) x.(w_upgrades) x.(w_wipes) x.(w_emu).

(** Programs over the world *)
Abbreviation IO := (M World).

(** ** Clock, randomness, trace *)
(** [_now()]: one reading of the clock *)
Definition now : IO string := λ w,
  (Ok (env_clock (w_env w) (w_ticks w)), w <| w_ticks ::= S |>).

(** [secrets.token_hex(..)]: one random token *)
Definition token : IO string := λ w,
  (Ok (env_token (w_env w) (w_draws w)), w <| w_draws ::= S |>).

(** [random.random()]: uniform in [[0, 1)], and [random.uniform(a, b)] *)
Definition random : IO Q := λ w,
  (Ok (env_random (w_env w) (w_draws w)), w <| w_draws ::= S |>).
Definition uniform (a b : Q) : IO Q := r ← random; mret (a + (b - a) * r)%Q.
(** [random.choice(l)] *)
Definition random_choice {A} (l : list A) : IO A := λ w,
  (match l !! Z.to_nat (env_randbelow (w_env w) (w_draws w) (Z.of_nat (length l))) with
   | Some x => Ok x
   | None => Raised IndexError
   end, w <| w_draws ::= S |>).

Definition getenv (name : string) : IO (option string) := gets (λ w, env_var (w_env w) name).
Definition parse_float (s : string) : IO (option Q) := gets (λ w, env_parse_float (w_env w) s).
Definition float_str (q : Q) : IO string := gets (λ w, env_float_str (w_env w) q).

(** [Tracer.emit]: number the event, stamp it, append it to the ring buffer of
    25000 events. *)
Definition trace_capacity : N := 25000.
Definition emit (src dst channel op : string) (order_id host_id : option string) : IO unit :=
  at_ ← now;
  modify (λ w,
    let seq := (tr_seq (w_tracer w) + 1)%Z in
    let evs := tr_events (w_tracer w) ++ [mkTrace seq at_ src dst channel op order_id host_id] in
    w <| w_tracer := mkTracer
           (if (trace_capacity <? N.of_nat (length evs))%N then tail evs else evs) seq |>).

(** ** Access to the store

    [p] is one of the dictionaries of [Store]. *)
Definition upd_store (f : Store → Store) : IO unit := modify (λ w, w <| w_store ::= f |>).
Definition upd_nico (f : FakeNico → FakeNico) : IO unit := modify (λ w, w <| w_nico ::= f |>).
Definition upd_vast (f : FakeVast → FakeVast) : IO unit := modify (λ w, w <| w_vast ::= f |>).
Definition upd_emu (f : TrayEmulator → TrayEmulator) : IO unit := modify (λ w, w <| w_emu ::= f |>).
Definition upd_shared (f : SharedServices → SharedServices) : IO unit :=
  modify (λ w, w <| w_shared ::= f |>).
Definition store : IO Store := gets w_store.

Section store_access.
Context {V : Type} (p : Store → dict V).
(** [d.get(k)] *)
Definition s_get (k : string) : IO (option V) := gets (λ w, dget (p (w_store w)) k).
(** [d[k]] *)
Definition s_idx (k : string) : IO V := v ← s_get k; or_raise v (KeyError k).
(** [d.values()] *)
Definition s_values : IO (list V) := gets (λ w, dvalues (p (w_store w))).
Context `{!Setter p}.
(** [d[k] = v] *)
Definition s_set (k : string) (v : V) : IO unit := upd_store (λ s, s <| p ::= λ d, dset d k v |>).
(** an attribute assignment on the object stored under [k] *)
Definition s_mut (k : string) (f : V → V) : IO unit :=
  upd_store (λ s, s <| p ::= λ d, dupd d k f |>).
(** [d.pop(k, None)] *)
Definition s_del (k : string) : IO unit := upd_store (λ s, s <| p ::= λ d, ddel d k |>).
End store_access.

(** [Store.next_seq]: the next value of a named counter, from 1 *)
Definition next_seq (name : string) : IO Z :=
  c ← s_get st_counters name;
  let n := (default 0 c + 1)%Z in
  s_set st_counters name n ;;
  mret n.

(** [Store.reset]: every dictionary and the counters are cleared. *)
Definition empty_store : Store :=
  mkStore [] [] [] [] [] [] [] [] [] [] [] [] [] [] [] [] [] [] [] [] [] empty_portal.
Definition store_reset : IO unit := upd_store (λ _, empty_store).

(** ** Frames

    [same f] relates two worlds that agree on [f]; [Steps (same f) m] says [m]
    leaves [f] unchanged, on every outcome. *)
Definition same {T} (f : World → T) : relation World := λ w w', f w' = f w.
#[export] Instance same_preorder {T} (f : World → T) : PreOrder (same f).
Proof. split; unfold same; [by intros w|intros w1 w2 w3 ? ?; congruence]. Qed.

(** An invariant of a projection [f] of the world is kept. *)
Definition keeps {T} (f : World → T) (P : T → Prop) : relation World := λ w w', P (f w) → P (f w').
#[export] Instance keeps_preorder {T} (f : World → T) P : PreOrder (keeps f P).
Proof. split; unfold keeps; [by intros w|intros w1 w2 w3; tauto]. Qed.

Lemma same_keeps {T} (f : World → T) P w w' : same f w w' → keeps f P w w'.
Proof. unfold same, keeps. by intros ->. Qed.
Lemma same_compose {T U} (f : World → T) (g : T → U) w w' :
  same f w w' → same (λ x, g (f x)) w w'.
Proof. unfold same. by intros ->. Qed.

Lemma steps_same_compose {T U A} (f : World → T) (g : T → U) (m : IO A) :
  Steps (same f) m → Steps (same (λ x, g (f x))) m.
Proof. apply steps_weaken, same_compose. Qed.
Lemma steps_same_keeps {T A} (f : World → T) P (m : IO A) :
  Steps (same f) m → Steps (keeps f P) m.
Proof. apply steps_weaken, same_keeps. Qed.
Lemma steps_same_elim {T A} (f : World → T) (m : IO A) w :
  Steps (same f) m → f (m w).2 = f w.
Proof. intros H. apply H. Qed.

(** [on_store R]: the world moves, and its store moves along [R]. *)
Definition on_store (R : relation Store) : relation World := λ w w', R (w_store w) (w_store w').
#[export] Instance on_store_preorder R : PreOrder R → PreOrder (on_store R).
Proof.
  intros [Hr Ht]. unfold on_store. split; [by intros w|intros w1 w2 w3; apply Ht].
Qed.
Lemma steps_store_frame {A} R `{!Reflexive R} (m : IO A) :
  Steps (same w_store) m → Steps (on_store R) m.
Proof.
  apply steps_weaken. unfold same, on_store. intros w w' ->. reflexivity.
Qed.
Lemma steps_upd_store R f : (∀ s, R s (f s)) → Steps (on_store R) (upd_store f).
Proof. intros Hf. apply steps_modify. intros w. apply Hf. Qed.

(** The primitives that do not touch the store, for every projection of the
    world they leave alone. *)
Lemma store_now : Steps (same w_store) now.
Proof. intros w. reflexivity. Qed.
Lemma store_token : Steps (same w_store) token.
Proof. intros w. reflexivity. Qed.
Lemma store_emit src dst ch op o h : Steps (same w_store) (emit src dst ch op o h).
Proof. intros w. reflexivity. Qed.
Lemma store_upd_nico f : Steps (same w_store) (upd_nico f).
Proof. intros w. reflexivity. Qed.
Lemma store_upd_vast f : Steps (same w_store) (upd_vast f).
Proof. intros w. reflexivity. Qed.
Lemma store_upd_shared f : Steps (same w_store) (upd_shared f).
Proof. intros w. reflexivity. Qed.
Lemma store_getenv n : Steps (same w_store) (getenv n).
Proof. intros w. reflexivity. Qed.
Lemma store_parse_float x : Steps (same w_store) (parse_float x).
Proof. intros w. reflexivity. Qed.
Lemma store_float_str x : Steps (same w_store) (float_str x).
Proof. intros w. reflexivity. Qed.
Lemma store_store : Steps (same w_store) store.
Proof. intros w. reflexivity. Qed.
Lemma store_s_get {V} (p : Store → dict V) k : Steps (same w_store) (s_get p k).
Proof. intros w. reflexivity. Qed.
Lemma store_s_values {V} (p : Store → dict V) : Steps (same w_store) (s_values p).
Proof. intros w. reflexivity. Qed.
Lemma store_s_idx {V} (p : Store → dict V) k : Steps (same w_store) (s_idx p k).
Proof. apply steps_bind; [apply _|apply store_s_get|intros; apply steps_or_raise; apply _]. Qed.

#[export] Hint Resolve store_now store_token store_emit store_upd_nico store_upd_vast
  store_upd_shared store_getenv store_parse_float store_float_str store_store store_s_get
  store_s_values store_s_idx : steps.
(** A frame fact serves every relation on the store. *)
#[export] Hint Extern 3 (Steps (on_store _) _) =>
  apply steps_store_frame; [typeclasses eauto|] : steps.

(** ** What lies outside the site controller

    [cplane w] is everything a compute adapter has no business with; it may only
    act on NICo, read the clock and report on the trace bus. *)
Record control_plane := mkControlPlane {
  cp_env : Env; cp_store : Store; cp_vast : FakeVast; cp_shared : SharedServices;
  cp_bg : list string; cp_threads : list BgInstall;
  cp_upgrades : list (string * list UpAction); cp_wipes : list string;
  cp_emu : TrayEmulator
}.
Definition cplane (w : World) : control_plane :=
  mkControlPlane (w_env w) (w_store w) (w_vast w) (w_shared w) (w_bg_orders w) (w_threads w)
    (w_upgrades w) (w_wipes w) (w_emu w).
Lemma steps_cplane_store {A} (m : IO A) : Steps (same cplane) m → Steps (same w_store) m.
Proof. exact (steps_same_compose cplane cp_store m). Qed.
Lemma cplane_now : Steps (same cplane) now.
Proof. intros w. reflexivity. Qed.
Lemma cplane_emit src dst ch op o h : Steps (same cplane) (emit src dst ch op o h).
Proof. intros w. reflexivity. Qed.
Lemma cplane_upd_nico f : Steps (same cplane) (upd_nico f).
Proof. intros w. reflexivity. Qed.
Lemma cplane_store : Steps (same cplane) store.
Proof. intros w. reflexivity. Qed.
#[export] Hint Resolve cplane_now cplane_emit cplane_upd_nico cplane_store : steps.
#[export] Hint Extern 4 (Steps (same w_store) _) => apply steps_cplane_store : steps.

(** The primitives of the world raise nothing; a missing key raises [KeyError]. *)
Lemma raises_now P : Raises P now.
Proof. intros w. exact I. Qed.
Lemma raises_token P : Raises P token.
Proof. intros w. exact I. Qed.
Lemma raises_emit P src dst ch op o h : Raises P (emit src dst ch op o h).
Proof. intros w. exact I. Qed.
Lemma raises_getenv P n : Raises P (getenv n).
Proof. intros w. exact I. Qed.
Lemma raises_store P : Raises P store.
Proof. apply raises_gets. Qed.
Lemma raises_upd_store P f : Raises P (upd_store f).
Proof. apply raises_modify. Qed.
Lemma raises_upd_nico P f : Raises P (upd_nico f).
Proof. apply raises_modify. Qed.
Lemma raises_upd_vast P f : Raises P (upd_vast f).
Proof. apply raises_modify. Qed.
Lemma raises_upd_shared P f : Raises P (upd_shared f).
Proof. apply raises_modify. Qed.
Lemma raises_s_get {V} (p : Store → dict V) k P : Raises P (s_get p k).
Proof. apply raises_gets. Qed.
Lemma raises_s_values {V} (p : Store → dict V) P : Raises P (s_values p).
Proof. apply raises_gets. Qed.
#[export] Hint Resolve raises_now raises_token raises_emit raises_getenv raises_store
  raises_upd_store raises_upd_nico raises_upd_vast raises_upd_shared raises_s_get
  raises_s_values : raises.
#[export] Hint Extern 1 (Raises _ (s_mut _ _ _)) => apply raises_modify : raises.
#[export] Hint Extern 1 (Raises _ (s_set _ _ _)) => apply raises_modify : raises.
#[export] Hint Extern 1 (Raises _ (s_del _ _)) => apply raises_modify : raises.
#[export] Hint Extern 1 (Raises _ (next_seq _)) => intros ?; exact I : raises.

(** Evaluate a straight-line program on a world. *)
Ltac run :=
  cbv [mbind M_bind mret M_ret now gets get_w modify upd_store upd_nico s_get s_set s_mut s_del
       s_idx store raise http or_raise when next_seq];
  cbn [fst snd].
Ltac run_in H :=
  cbv [mbind M_bind mret M_ret now gets get_w modify upd_store upd_nico s_get s_set s_mut s_del
       s_idx store raise http or_raise when next_seq] in H;
  cbn [fst snd] in H.
