(* ===== verification/TenancyGuard.v ===== *)
(** * The customer plane's gate (app/tenancy_guard.py)

    [TenancyGuardMiddleware]: what it does with a request before and after the
    application handles it.  [next] is the application behind it.  The query
    string is the list of its decoded pairs ([parse_qsl], [urlencode]), a body is
    its JSON value when it parses; headers other than the two the gate reads are
    left out. *)
From Stdlib Require Import QArith Ascii.
From stdpp Require Import strings base decidable option numbers list.
From S2P Require Import Prelude PyLib Models PortalModels World.
Local Open Scope string_scope.
Local Open Scope list_scope.
Local Open Scope py_scope.

Module Guard.

(** ** Requests and responses *)
Inductive Body := B_empty | B_text (s : string) | B_json (j : json).
Record Request := mkRequest {
  rq_method : string;
  rq_path : string;
  rq_tenant : option string;
  rq_role : option string;
  rq_query : list (string * string);
  rq_body : Body
}.
#[export] Instance eta_Request : Eta Request := λ x,
  mkRequest x.(rq_method) x.(rq_path) x.(rq_tenant) x.(rq_role) x.(rq_query) x.(rq_body).
Record Response := mkResponse { rs_status : Z; rs_body : Body }.
#[export] Instance eta_Response : Eta Response := λ x, mkResponse x.(rs_status) x.(rs_body).

(** ** Strings *)
(** The longest prefix without [/] *)
Fixpoint segment (s : string) : string :=
  match s with
  | EmptyString => EmptyString
  | String c s' => if Ascii.eqb c "/"%char then EmptyString else String c (segment s')
  end.
(** The group of the pattern [^p(?P<id>[^/]+)] *)
Definition path_id (p s : string) : option string :=
  match strip_prefix p s with
  | Some r => let g := segment r in if truthy_str g then Some g else None
  | None => None
  end.
(** ** The tables *)
Definition _PUBLIC_PREFIXES : list string :=
  ["/api/v1/status"; "/api/v1/public/"; "/api/v1/spec"].
Definition _TENANT_PATH : string := "/api/v1/tenants/".
Definition _ORDER_PATH : string := "/api/v1/orders/".
Definition _CLUSTER_PATH : string := "/api/v1/k8s/clusters/".
Definition _QUERY_SCOPED_LISTS : list string :=
  ["/api/v1/orders"; "/api/v1/k8s/clusters"; "/api/v1/k8s/installs"; "/api/v1/tickets";
   "/api/v1/billing/usage"; "/api/v1/nodes"; "/api/v1/cpu-nodes"; "/api/v1/nvlink-partitions"].
Definition _RESPONSE_FILTERED_LISTS : dict string :=
  [("/api/v1/tenants", "id"); ("/fake-vast/views", "tenant_ref"); ("/fake-nico/hosts", "tenant_ref")].
Definition _READ_METHODS : list string := ["GET"; "HEAD"; "OPTIONS"].

(** ** The checks *)
Definition _forbidden (detail : string) : Response :=
  mkResponse 403 (B_json (J_dict [("detail", J_str detail)])).

(** [_scope_violation] on the store it reads *)
Definition owned_elsewhere {V} (d : dict V) (owner : V → string) (id : option string) (tid : string) : bool :=
  match id with
  | None => false
  | Some k => match dget d k with Some v => negb (String.eqb (owner v) tid) | None => false end
  end.
Definition _scope_violation (s : Store) (path tid : string) : bool :=
  match path_id _TENANT_PATH path with Some t => negb (String.eqb t tid) | None => false end
  || owned_elsewhere (st_orders s) o_tenant_id (path_id _ORDER_PATH path) tid
  || owned_elsewhere (st_k8s_clusters s) k_tenant_id (path_id _CLUSTER_PATH path) tid.

(** [_force_tenant_query] *)
Definition dict_of_pairs (l : list (string * string)) : dict string :=
  foldl (λ d '(k, v), dset d k v) [] l.
Definition _force_tenant_query (rq : Request) (tid : string) : Request :=
  rq <| rq_query := dset (dict_of_pairs (rq_query rq)) "tenant_id" tid |>.

(** [_filter_json_list] *)
Definition item_of (key tid : string) (x : json) : bool :=
  match x with J_dict d => json_is_str (jget d key) tid | _ => false end.
Definition _filter_json_list (r : Response) (key tid : string) : Response :=
  if negb (rs_status r =? 200)%Z then r
  else match rs_body r with
       | B_json (J_list l) => r <| rs_body := B_json (J_list (filterb (item_of key tid) l)) |>
       | _ => r
       end.

(** [_body_tenant_mismatch] *)
Definition _body_tenant_mismatch (rq : Request) (tid : string) : bool :=
  if memb (rq_method rq) _READ_METHODS then false
  else match rq_body rq with
       | B_json (J_dict d) => dmem d "tenant_id" && negb (json_is_str (jget d "tenant_id") tid)
       | _ => false
       end.

Definition role_of (rq : Request) : string := lower (py_strip (str_or (rq_role rq) "member")).

(** ** [dispatch] *)
Definition exempt (rq : Request) : bool :=
  negb (truthy (rq_tenant rq))
  || negb (starts_with "/api/" (rq_path rq) || starts_with "/fake-" (rq_path rq))
  || anyb (λ p, starts_with p (rq_path rq)) _PUBLIC_PREFIXES.
Definition dispatch (next : Request → IO Response) (rq : Request) : IO Response :=
  let tid := default EmptyString (rq_tenant rq) in
  let path := rq_path rq in
  if exempt rq then next rq
  else if starts_with "/api/v1/admin" path
  then mret (_forbidden "admin surface not allowed for tenant scope")
  else
    s ← store;
    if _scope_violation s path tid then mret (_forbidden "tenant scope violation")
    else if String.eqb (role_of rq) "viewer" && negb (memb (rq_method rq) _READ_METHODS)
    then mret (_forbidden "read-only role")
    else if _body_tenant_mismatch rq tid then mret (_forbidden "tenant scope violation")
    else
      let get := String.eqb (rq_method rq) "GET" in
      let rq' := if get && memb path _QUERY_SCOPED_LISTS then _force_tenant_query rq tid else rq in
      response ← next rq';
      mret (match dget _RESPONSE_FILTERED_LISTS path with
            | Some key => if get then _filter_json_list response key tid else response
            | None => response
            end).

End Guard.
