(* ===== verification/Business.v ===== *)
(** * Tickets and the billing preview (app/business.py) *)
From Stdlib Require Import QArith.
From stdpp Require Import strings base decidable option numbers list.
From S2P Require Import Prelude PyLib Models PortalModels World.
Local Open Scope string_scope.
Local Open Scope list_scope.
Local Open Scope py_scope.

Module Business.

Definition RACK_HOUR_RATE_USD : dict Q :=
  [("vr-nvl72", 980%Q); ("gb300-nvl72", 720%Q); ("gb200-nvl72", 560%Q)].
Definition HOURS_PER_MONTH : Z := 720.
Definition TICKET_STATUSES : list string := ["open"; "in_progress"; "resolved"].
Definition TICKET_SEVERITIES : list string := ["low"; "medium"; "high"; "critical"].
Definition TICKET_TYPES : list string := ["tech"; "change"; "billing_dispute"].
Definition TICKET_ROUTING : dict string :=
  [("tech", "ops"); ("change", "ops"); ("billing_dispute", "biz")].
Definition CHANGE_SCOPES : list string := ["in_contract"; "contract_amendment"].
Definition BILLING_DISPUTE_POLICY : string :=
  "납기 유지·차기 청구 조정 원칙(명백한 금액 오류만 재발행)".
(** [repr] of a tuple of strings *)
Definition repr_tuple (l : list string) : string := "(" +:+ join ", " (repr_str <$> l) +:+ ")".

(** ** Tickets *)
(** The 422 of [create_ticket], in order *)
Definition ticket_error (b : TicketCreate) : option string :=
  if negb (memb (tb_severity b) TICKET_SEVERITIES)
  then Some ("severity must be one of " +:+ repr_tuple TICKET_SEVERITIES)
  else if negb (memb (tb_type b) TICKET_TYPES)
  then Some ("type must be one of " +:+ repr_tuple TICKET_TYPES)
  else match tb_change_scope b with
       | None => None
       | Some sc =>
           if negb (String.eqb (tb_type b) "change")
           then Some "change_scope는 type='change' 티켓 전용"
           else if negb (memb sc CHANGE_SCOPES)
           then Some ("change_scope must be one of " +:+ repr_tuple CHANGE_SCOPES)
           else None
       end.
Definition create_ticket (b : TicketCreate) : IO Ticket :=
  s ← store;
  if negb (dmem (st_tenants s) (tb_tenant_id b))
  then http 404 ("tenant '" +:+ tb_tenant_id b +:+ "' not found")
  else match ticket_error b with
  | Some e => http 422 e
  | None =>
      n ← next_seq "ticket";
      let tid := "tck-" +:+ str_of_Z n in
      at_ ← now;
      routed ← or_raise (dget TICKET_ROUTING (tb_type b)) (KeyError (tb_type b));
      let is_change := String.eqb (tb_type b) "change" in
      let scope := if truthy (tb_change_scope b) then tb_change_scope b
                   else if is_change then Some "in_contract" else None in
      let policy := if String.eqb (tb_type b) "billing_dispute" then Some BILLING_DISPUTE_POLICY
                    else None in
      let t := mkTicket tid (tb_tenant_id b) (tb_subject b) (tb_body b) (tb_severity b) "open"
                 (tb_type b) routed scope policy (tb_ref b) at_ at_ [] in
      s_set st_tickets tid t ;;
      mret t
  end.

(** A filter that applies when its value is given *)
Definition filter_by {A} (q : option string) (f : A → string) (l : list A) : list A :=
  if truthy q then filterb (λ x, bool_decide (Some (f x) = q)) l else l.
(** [sorted(l, key=k, reverse=True)]: stable, so equal keys keep their order *)
Definition sorted_rev {A} (k : A → string) (l : list A) : list A :=
  sorted (λ a b, String.leb (k b) (k a)) l.
Definition list_tickets (tenant_id status type routed_to : option string) : IO (list Ticket) :=
  l ← s_values st_tickets;
  mret (sorted_rev tk_id
          (filter_by routed_to tk_routed_to (filter_by type tk_type
             (filter_by status tk_status (filter_by tenant_id tk_tenant_id l))))).
Definition update_ticket (ticket_id : string) (b : TicketUpdate) : IO Ticket :=
  t ← s_get st_tickets ticket_id;
  match t with
  | None => http 404 ("ticket '" +:+ ticket_id +:+ "' not found")
  | Some _ =>
      (if truthy (tu_status b) then
         let st := default EmptyString (tu_status b) in
         if negb (memb st TICKET_STATUSES)
         then http 422 ("status must be one of " +:+ repr_tuple TICKET_STATUSES)
         else s_mut st_tickets ticket_id (λ t, t <| tk_status := st |>)
       else mret tt) ;;
      (if truthy (tu_comment b) then
         at_ ← now;
         s_mut st_tickets ticket_id (λ t,
           t <| tk_comments ::= λ l, l ++ [mkComment at_ (tu_author b) (default EmptyString (tu_comment b))] |>)
       else mret tt) ;;
      at_ ← now;
      s_mut st_tickets ticket_id (λ t, t <| tk_updated_at := at_ |>) ;;
      s_idx st_tickets ticket_id
  end.

(** ** Billing preview *)
(** [datetime.fromisoformat(s)], in seconds *)
Definition fromiso (s : string) : IO Q :=
  q ← gets (λ w, env_fromiso (w_env w) s); or_raise q (ValueError s).
(** [max(l)] of non-empty strings *)
Definition max_str (l : list string) : option string :=
  match l with
  | [] => None
  | x :: l' => Some (foldl (λ m y, if String.ltb m y then y else m) x l')
  end.
(** When the allocations were reclaimed: the last entry of a closed terminate order *)
Definition end_by_alloc (s : Store) : dict string :=
  foldl (λ d o,
    match o_allocation_id o, last (o_history o) with
    | Some a, Some ev =>
        if bool_decide (o_kind o = OK_terminate) && bool_decide (o_state o = OS_closed) && truthy_str a
        then dset d a (ev_at ev) else d
    | _, _ => d
    end) [] (dvalues (st_orders s)).
Record BillingLine := mkLine {
  bl_order_id : string; bl_tenant_id : string; bl_blueprint_key : option string; bl_racks : Z;
  bl_start : string; bl_end : option string; bl_hours : Q; bl_rack_hours : Q; bl_rate_usd : Q;
  bl_amount_usd : Q; bl_projected_monthly_usd : Q
}.
Definition rate_of (blueprint_key : option string) : Q :=
  default 600%Q (dget RACK_HOUR_RATE_USD (str_or blueprint_key EmptyString)).
Definition billable (tenant_id : option string) (o : ServiceOrder) : bool :=
  bool_decide (o_kind o = OK_new) && bool_decide (o_state o = OS_delivered)
  && (negb (truthy tenant_id) || bool_decide (Some (o_tenant_id o) = tenant_id)).
Definition delivered_at (o : ServiceOrder) : option string :=
  ev_at <$> find_first (λ e, String.eqb (ev_state e) "delivered") (o_history o).
Definition q_max0 (q : Q) : Q := if Qle_bool q 0 then 0%Q else q.
Definition billing_line (ends : dict string) (now_q : Q) (o : ServiceOrder) : IO (option BillingLine) :=
  match delivered_at o with
  | None => mret None
  | Some start =>
      if negb (truthy_str start) then mret None else
      let mine := omap (dget ends) (o_allocation_ids o) in
      let ended := match mine with [] => false | _ => (length mine =? length (o_allocation_ids o))%nat end in
      let end_at := if ended then max_str mine else None in
      end_q ← match end_at with
              | Some e => if truthy_str e then fromiso e else mret now_q
              | None => mret now_q
              end;
      start_q ← fromiso start;
      let hours := q_max0 ((end_q - start_q) / 3600) in
      let rate := rate_of (o_blueprint_key o) in
      let rack_hours := (inject_Z (o_racks o) * hours)%Q in
      mret (Some (mkLine (o_id o) (o_tenant_id o) (o_blueprint_key o) (o_racks o) start end_at
                    (round_q 10000 hours) (round_q 10000 rack_hours) rate
                    (round_q 100 (rack_hours * rate))
                    (if ended then 0
                     else round_q 100 (inject_Z (o_racks o) * rate * inject_Z HOURS_PER_MONTH))%Q))
  end.
Definition sum_q {A} (f : A → Q) (l : list A) : Q := foldr (λ x z, (f x + z)%Q) 0%Q l.
(** The lines, with the totals of rack hours, amount and projection *)
Definition billing_usage (tenant_id : option string) : IO (list BillingLine * Q * Q * Q) :=
  t ← now;
  now_q ← fromiso t;
  s ← store;
  lines ← map_m (billing_line (end_by_alloc s) now_q)
            (filterb (billable tenant_id)
               (sorted (λ a b, String.leb (o_id a) (o_id b)) (dvalues (st_orders s))));
  let lines := omap id lines in
  mret (lines, round_q 10000 (sum_q bl_rack_hours lines), round_q 100 (sum_q bl_amount_usd lines),
        round_q 100 (sum_q bl_projected_monthly_usd lines)).

End Business.
