(* ===== verification/Trace.v ===== *)
(** * The trace bus (app/trace.py)

    [emit] is in World.v, since every component calls it; here are the reading
    side of [Tracer] and the bound of its ring buffer. *)
From stdpp Require Import strings base decidable option numbers list relations.
From S2P Require Import Prelude PyLib World.
Local Open Scope string_scope.
Local Open Scope list_scope.
Local Open Scope py_scope.

Module Trace.

(** [l[-n:]] *)
Definition last_n {A} (n : Z) (l : list A) : list A :=
  if (n =? 0)%Z then l
  else if (0 <? n)%Z then drop (length l - Z.to_nat n) l
  else drop (Z.to_nat (- n)) l.

(** [Tracer.query].  The text search [q] looks into the prose of an event, which
    is not modelled: the search is given as the predicate it computes. *)
Definition event_matches (order_id channel : option string) (q : option (TraceEvent → bool))
    (since : Z) (ev : TraceEvent) : bool :=
  (since <? te_seq ev)%Z
  && (negb (truthy order_id) || bool_decide (te_order_id ev = order_id))
  && (negb (truthy channel) || bool_decide (Some (te_channel ev) = channel))
  && match q with Some f => f ev | None => true end.
Definition query (order_id channel : option string) (q : option (TraceEvent → bool))
    (since limit : Z) : IO (list TraceEvent) :=
  gets (λ w, last_n limit
    (filterb (event_matches order_id channel q since) (tr_events (w_tracer w)))).
Definition count : IO nat := gets (λ w, length (tr_events (w_tracer w))).
Definition clear : IO unit := modify (λ w, w <| w_tracer := mkTracer [] 0 |>).
Definition get_trace (order_id channel : option string) (q : option (TraceEvent → bool))
    (since limit : Z) : IO (list TraceEvent) := query order_id channel q since (Z.min limit 2000).

(** The buffer is a window on the event stream: consecutive sequence numbers
    that end at the counter, and at most [trace_capacity] of them. *)
Definition ring (t : Tracer) : Prop :=
  te_seq <$> tr_events t
    = (λ i, tr_seq t - Z.of_nat (length (tr_events t)) + Z.of_nat i + 1)%Z
        <$> seq 0 (length (tr_events t))
  ∧ (N.of_nat (length (tr_events t)) ≤ trace_capacity)%N.

End Trace.
