(* ===== verification/NicoSim.v ===== *)
(** * The simulated NICo site controller (app/nico_fake.py)

    Every method of [FakeNico]: host reservation, provisioning, allocation,
    release, sanitization, asynchronous jobs, fault injection, tenant segments,
    and the demo endpoints that stage reconcile scenarios. *)
From Stdlib Require Import QArith.
From stdpp Require Import strings base decidable option numbers list relations.
From S2P Require Import Prelude PyLib Models World.
Local Open Scope string_scope.
Local Open Scope list_scope.
Local Open Scope py_scope.

Module Nico.

(** [_ips_for_tray]: the management addresses derived from a tray id, if the id
    starts with [su-<n>-rack-<n>-tray-<n>]. *)
Record Ips := mkIps { ip_bmc : string; ip_dpu : string; ip_host : string }.
Definition match_tray (tray_id : string) : option (Z * Z * Z) :=
  r0 ← strip_prefix "su-" tray_id;
  '(su, r1) ← match_int r0;
  r2 ← strip_prefix "-rack-" r1;
  '(rack, r3) ← match_int r2;
  r4 ← strip_prefix "-tray-" r3;
  '(tray, _) ← match_int r4;
  Some (su, rack, tray).
Definition ips_for_tray (tray_id : string) : option Ips :=
  match match_tray tray_id with
  | None => None
  | Some (su, rack, tray) =>
      let net := str_of_Z (su * 16 + rack) in
      Some (mkIps ("10.99." +:+ net +:+ "." +:+ str_of_Z (tray + 1))
                  ("172.16." +:+ net +:+ "." +:+ str_of_Z (tray + 1))
                  ("10." +:+ str_of_Z (100 + su) +:+ "." +:+ str_of_Z rack +:+ "."
                     +:+ str_of_Z (tray * 4 + 2)))
  end.

Definition SANITIZE_STEPS : list string :=
  ["nvme_secure_erase"; "gpu_memory_wipe"; "system_memory_wipe"; "tpm_reset";
   "re_attestation"; "firmware_revalidation"; "network_state_clear"].

(** ** Attribute access on the simulator's objects *)
Definition n_get {A} (f : FakeNico → A) : IO A := gets (λ w, f (w_nico w)).
Definition host_mut (hid : string) (f : NicoHost → NicoHost) : IO unit :=
  upd_nico (λ n, n <| nc_hosts ::= λ d, dupd d hid f |>).
Definition job_mut (jid : string) (f : NicoJob → NicoJob) : IO unit :=
  upd_nico (λ n, n <| nc_jobs ::= λ d, dupd d jid f |>).
Definition seg_mut (sid : string) (f : NicoSegment → NicoSegment) : IO unit :=
  upd_nico (λ n, n <| nc_segments ::= λ d, dupd d sid f |>).
Definition next_nico_seq : IO Z :=
  upd_nico (λ n, n <| nc_seq ::= λ z, (z + 1)%Z |>) ;;
  n_get nc_seq.

(** [_host] *)
Definition _host (host_id : string) : IO NicoHost :=
  h ← n_get (λ n, dget (nc_hosts n) host_id);
  match h with
  | Some h => mret h
  | None => http 404 ("nico: host '" +:+ host_id +:+ "' not found")
  end.

(** [_require] *)
Definition in_states (s : NicoHostState) (states : list NicoHostState) : bool :=
  anyb (λ x, bool_decide (s = x)) states.
Definition _require (host : NicoHost) (states : list NicoHostState) : IO unit :=
  if in_states (h_state host) states then mret tt
  else http 409 ("nico: host '" +:+ h_id host +:+ "' is '" +:+ NicoHostState_value (h_state host)
         +:+ "', expected one of "
         +:+ repr_list (sorted String.leb (NicoHostState_value <$> states))).

(** [inject_failure], [_consume_failure] *)
Definition inject_failure (host_id op : string) : IO unit :=
  upd_nico (λ n, n <| nc_fail_flags ::= λ d,
    let flags := default [] (dget d host_id) in
    dset d host_id (if memb op flags then flags else flags ++ [op]) |>).
Definition _consume_failure (host_id op : string) : IO bool :=
  flags ← n_get (λ n, default [] (dget (nc_fail_flags n) host_id));
  if memb op flags then
    upd_nico (λ n, n <| nc_fail_flags ::= λ d,
      dupd d host_id (filterb (λ x, negb (String.eqb x op))) |>) ;;
    mret true
  else mret false.

(** The [for step in SANITIZE_STEPS] loop of [_finish_job]: it stops at the
    first failing step; [steps] accumulates the report. *)
Fixpoint sanitize_loop (host : NicoHost) (fail : bool) (todo : list string)
    (steps : list (string * bool)) : IO (list (string * bool) * bool) :=
  match todo with
  | [] => mret (steps, true)
  | step :: todo' =>
      let ok := negb (fail && String.eqb step "re_attestation") in
      let steps' := steps ++ [(step, ok)] in
      emit "NICo.Sanitizer" ("Host(" +:+ str_or (Some (h_tray_id host)) (h_id host) +:+ ")")
           "internal" ("sanitize: " +:+ step) None (Some (h_id host)) ;;
      if ok then sanitize_loop host fail todo' steps' else mret (steps', false)
  end.

(** [_finish_job] *)
Definition _finish_job (job : NicoJob) (fail : bool) : IO unit :=
  host ← _host (j_host_id job);
  let hid := h_id host in
  let jid := j_id job in
  if String.eqb (j_op job) "provision" then
    if fail then
      job_mut jid (λ j, j <| j_state := "failed" |> <| j_detail := "firmware mismatch during PXE" |>) ;;
      host_mut hid (λ h, h <| h_state := HS_quarantined |> <| h_host_ip := EmptyString |>) ;;
      emit "NICo.APIService" "NeoCloudOS.D1" "REST" ("job " +:+ jid +:+ " FAILED") None (Some hid)
    else
      job_mut jid (λ j, j <| j_state := "succeeded" |>) ;;
      host_mut hid (λ h, h <| h_state := HS_provisioned |>) ;;
      emit "NICo.APIService" "NeoCloudOS.D1" "REST" ("job " +:+ jid +:+ " succeeded") None (Some hid)
  else if String.eqb (j_op job) "release" then
    job_mut jid (λ j, j <| j_state := "succeeded" |>) ;;
    host_mut hid (λ h, h <| h_state := HS_released |>) ;;
    emit "NICo.APIService" "NeoCloudOS.D1" "REST" ("job " +:+ jid +:+ " succeeded") None (Some hid) ;;
    host_mut hid (λ h, h <| h_instance_id := None |> <| h_tenant_ref := None |>)
  else if String.eqb (j_op job) "sanitize" then
    '(steps, passed) ← sanitize_loop host fail SANITIZE_STEPS [];
    upd_nico (λ n, n <| nc_sanitize_reports ::= λ d, dset d hid (mkSanitize hid passed steps) |>) ;;
    if passed : bool then
      job_mut jid (λ j, j <| j_state := "succeeded" |>) ;;
      host_mut hid (λ h, h <| h_state := HS_pool_ready |> <| h_attested := true |>
                           <| h_image_ref := None |> <| h_host_ip := EmptyString |>)
    else
      job_mut jid (λ j, j <| j_state := "failed" |> <| j_detail := "re-attestation failed" |>) ;;
      host_mut hid (λ h, h <| h_state := HS_rma |>)
  else mret tt.

(** [_new_job] *)
Definition _new_job (op : string) (host : NicoHost) (fail : bool) : IO NicoJob :=
  seq ← next_nico_seq;
  latency ← n_get nc_job_latency;
  let jid := "job-" +:+ str_of_Z seq in
  let job := mkJob jid op (h_id host) "running" EmptyString latency in
  upd_nico (λ n, n <| nc_jobs ::= λ d, dset d jid job |>) ;;
  (if (latency <=? 0)%Z then _finish_job job fail
   else if fail then job_mut jid (λ j, j <| j_detail := "will-fail" |>)
   else mret tt) ;;
  j ← n_get (λ n, dget (nc_jobs n) jid);
  mret (default job j).

(** ** Public operations *)
Definition list_hosts : IO (list NicoHost) := n_get (λ n, dvalues (nc_hosts n)).
Definition get_host (host_id : string) : IO NicoHost := _host host_id.

Definition validate (host_id : string) : IO NicoHost :=
  host ← _host host_id;
  _require host [HS_discovered; HS_quarantined] ;;
  host_mut host_id (λ h, h <| h_state := if h_firmware_ok h then HS_pool_ready else HS_quarantined |>) ;;
  host_mut host_id (λ h, h <| h_attested := h_firmware_ok h |>) ;;
  _host host_id.

Definition reserve (host_id : string) : IO NicoHost :=
  host ← _host host_id;
  _require host [HS_pool_ready] ;;
  host_mut host_id (λ h, h <| h_state := HS_reserved |>) ;;
  _host host_id.

Definition unreserve (host_id : string) : IO NicoHost :=
  host ← _host host_id;
  _require host [HS_reserved] ;;
  host_mut host_id (λ h, h <| h_state := HS_pool_ready |>) ;;
  _host host_id.

(** [provision]: the Day-1 message sequence, then the asynchronous job.  The
    address of a CPU node comes from its numeric suffix. *)
Definition provision (host_id image_ref : string) : IO NicoJob :=
  host ← _host host_id;
  _require host [HS_reserved] ;;
  host_mut host_id (λ h, h <| h_state := HS_provisioning |> <| h_image_ref := Some image_ref |>) ;;
  let ips := ips_for_tray (h_tray_id host) in
  let bmc_addr := str_or (Some (h_bmc_ip host)) (h_id host) in
  let bmc := "BMC(" +:+ bmc_addr +:+ ")" in
  let hst := "Host(" +:+ h_tray_id host +:+ ")" in
  emit "NICo.APIService" ("DPU-BMC(" +:+ bmc_addr +:+ ")") "rshim"
       "DPU provisioning — BFB 이미지 푸시·검증" None (Some host_id) ;;
  emit ("DPU-Agent(" +:+ match ips with
                         | Some i => ip_dpu i
                         | None => str_or (Some (h_dpu_ip host)) "?"
                         end +:+ ")")
       "DPU(부트 서비스)" "internal" "DPU 서비스 구성 — DPU-DHCP 서버·부트 프록시 준비"
       None (Some host_id) ;;
  emit "NICo.APIService" bmc "Redfish" "PATCH /redfish/v1/Systems/Self" None (Some host_id) ;;
  emit "NICo.APIService" bmc "Redfish"
       "POST /redfish/v1/Systems/Self/Actions/ComputerSystem.Reset" None (Some host_id) ;;
  (if String.eqb (h_sku host) "cpu-epyc" then
     match int_suffix (h_tray_id host) with
     | inr e => raise e
     | inl idx => host_mut host_id (λ h, h <| h_host_ip := "10.250.1." +:+ str_of_Z idx |>)
     end
   else host_mut host_id (λ h, h <| h_host_ip := match ips with
                                                 | Some i => ip_host i
                                                 | None => EmptyString
                                                 end |>)) ;;
  emit ("DPU-DHCP(" +:+ h_dpu_ip host +:+ ")") hst "DHCP" "DISCOVER → OFFER → REQUEST → ACK"
       None (Some host_id) ;;
  emit hst "NICo.PXE" "PXE" "GET /boot.ipxe → kernel/initrd → 이미지 스트리밍"
       None (Some host_id) ;;
  emit "NICo.PXE" hst "cloud-init" "cloud-init meta/user-data 적용" None (Some host_id) ;;
  fail ← _consume_failure host_id "provision";
  _new_job "provision" host fail.

Definition allocate (host_id tenant_ref : string) : IO NicoHost :=
  host ← _host host_id;
  _require host [HS_provisioned] ;;
  seq ← next_nico_seq;
  host_mut host_id (λ h, h <| h_state := HS_allocated |>
                           <| h_instance_id := Some ("inst-" +:+ str_of_Z seq) |>
                           <| h_tenant_ref := Some tenant_ref |>) ;;
  emit "NICo.APIService" ("FMDS(" +:+ h_tray_id host +:+ ")") "internal" "인스턴스 메타데이터 등록"
       None (Some host_id) ;;
  _host host_id.

(** [release]: the first host that carries the instance *)
Definition release (instance_id : string) : IO NicoJob :=
  hosts ← list_hosts;
  match find_first (λ h, bool_decide (h_instance_id h = Some instance_id)) hosts with
  | Some host => _require host [HS_allocated] ;; _new_job "release" host false
  | None => http 404 ("nico: instance '" +:+ instance_id +:+ "' not found")
  end.

Definition abort_provision (host_id : string) : IO NicoHost :=
  host ← _host host_id;
  _require host [HS_provisioned; HS_provisioning] ;;
  host_mut host_id (λ h, h <| h_state := HS_released |>) ;;
  _host host_id.

Definition sanitize (host_id : string) : IO NicoJob :=
  host ← _host host_id;
  _require host [HS_released] ;;
  host_mut host_id (λ h, h <| h_state := HS_sanitizing |>) ;;
  fail ← _consume_failure host_id "sanitize";
  _new_job "sanitize" host fail.

(** [get_job]: a poll; a running job loses one poll and finishes at zero. *)
Definition get_job (job_id : string) : IO NicoJob :=
  j ← n_get (λ n, dget (nc_jobs n) job_id);
  match j with
  | None => http 404 ("nico: job '" +:+ job_id +:+ "' not found")
  | Some job =>
      (if String.eqb (j_state job) "running" then
         job_mut job_id (λ j, j <| j_remaining_polls ::= λ r, (r - 1)%Z |>) ;;
         (if (j_remaining_polls job - 1 <=? 0)%Z
          then _finish_job job (String.eqb (j_detail job) "will-fail") else mret tt)
       else mret tt) ;;
      j' ← n_get (λ n, dget (nc_jobs n) job_id);
      mret (default job j')
  end.

Definition cordon (host_id reason : string) : IO NicoHost :=
  _host host_id ≫= λ _,
  host_mut host_id (λ h, h <| h_cordoned := true |>) ;;
  _host host_id.

Definition get_sanitize_report (host_id : string) : IO SanitizeReport :=
  r ← n_get (λ n, dget (nc_sanitize_reports n) host_id);
  match r with
  | Some r => mret r
  | None => http 404 ("nico: no sanitize report for '" +:+ host_id +:+ "'")
  end.

(** ** Network segments: the tenant VPC *)
Definition dpu_agent (sample : option NicoHost) : string :=
  "DPU-Agent(" +:+ match sample with Some h => h_dpu_ip h | None => "fleet" end +:+ ")".
Definition sample_host (host_ids : list string) : IO (option NicoHost) :=
  match host_ids with
  | [] => mret None
  | hid :: _ => n_get (λ n, dget (nc_hosts n) hid)
  end.

(** One host joins a segment: the loop body that [create_segment] and
    [attach_hosts] share; a host that NICo does not know is skipped. *)
Definition join_segment (segment_id op hid : string) : IO unit :=
  host ← n_get (λ n, dget (nc_hosts n) hid);
  match host with
  | None => mret tt
  | Some host =>
      host_mut hid (λ h, h <| h_segment_id := Some segment_id |>) ;;
      emit ("DPU-Agent(" +:+ h_dpu_ip host +:+ ")") ("HBN(" +:+ h_tray_id host +:+ ")") "NVUE/HBN"
           op None (Some hid)
  end.

Definition create_segment (tenant_ref vrf : string) (l3vni converged_vni : Z)
    (host_ids : list string) (allocation_id : option string) (ib_pkey : option Z)
    : IO NicoSegment :=
  seq ← next_nico_seq;
  let sid := "seg-" +:+ str_of_Z seq in
  let seg := mkSegment sid tenant_ref vrf l3vni converged_vni "fnn" ("vpc_" +:+ str_of_Z l3vni)
               host_ids allocation_id ib_pkey "active" in
  upd_nico (λ n, n <| nc_segments ::= λ d, dset d sid seg |>) ;;
  emit "NICo.APIService(carbide)" "NICo.NetworkStore" "internal"
       ("VPC + network-segment " +:+ sid +:+ " 생성") None None ;;
  sample ← sample_host host_ids;
  emit (dpu_agent sample) "NICo.APIService(carbide)" "gRPC"
       "GetManagedHostNetworkConfig (periodic_config_fetcher)" None None ;;
  for_each host_ids (join_segment sid "FNN(L3 EVPN) NVUE 렌더 → HBN 적용 (폴링 수렴)") ;;
  emit "DPU-Agent(fleet)" "HBN(vtysh)" "internal" "BGP summary 수렴 검증" None None ;;
  mret seg.

Definition attach_hosts (segment_id : string) (host_ids : list string) (purpose : string)
    : IO NicoSegment :=
  seg ← n_get (λ n, dget (nc_segments n) segment_id);
  match seg with
  | None => http 404 ("nico: segment '" +:+ segment_id +:+ "' not found")
  | Some seg =>
      let new_ids := filterb (λ h, negb (memb h (sg_host_ids seg))) host_ids in
      seg_mut segment_id (λ sg, sg <| sg_host_ids ::= λ l, l ++ new_ids |>) ;;
      emit "NICo.APIService(carbide)" "NICo.NetworkStore" "internal"
           ("network-segment " +:+ segment_id +:+ " 호스트 추가 (" +:+ purpose +:+ ")") None None ;;
      for_each new_ids
        (join_segment segment_id "Converged Network 바인딩 — NVUE 렌더 → HBN 적용") ;;
      emit "DPU-Agent(fleet)" "HBN(vtysh)" "internal" "BGP summary 수렴 검증 (호스트 추가분)" None None ;;
      seg' ← n_get (λ n, dget (nc_segments n) segment_id);
      mret (default seg seg')
  end.

(** One host leaves a segment that is being deleted *)
Definition leave_segment (segment_id hid : string) : IO unit :=
  host ← n_get (λ n, dget (nc_hosts n) hid);
  match host with
  | None => mret tt
  | Some host =>
      when (bool_decide (h_segment_id host = Some segment_id))
           (host_mut hid (λ h, h <| h_segment_id := None |>)) ;;
      when (truthy_str (h_host_ip host))
           (emit ("DPU-DHCP(" +:+ h_dpu_ip host +:+ ")") (h_id host) "DHCP" "RELEASE" None (Some hid)) ;;
      emit ("DPU-Agent(" +:+ h_dpu_ip host +:+ ")") ("HBN(" +:+ h_tray_id host +:+ ")") "NVUE/HBN"
           "FNN NVUE 재렌더 — 테넌트 구성 제거" None (Some hid)
  end.

Definition delete_segment (segment_id : string) : IO NicoSegment :=
  seg ← n_get (λ n, dget (nc_segments n) segment_id);
  match seg with
  | None => http 404 ("nico: segment '" +:+ segment_id +:+ "' not found")
  | Some seg =>
      upd_nico (λ n, n <| nc_segments ::= λ d, ddel d segment_id |>) ;;
      emit "NICo.APIService(carbide)" "NICo.NetworkStore" "internal"
           ("network segment " +:+ segment_id +:+ " 해체") None None ;;
      sample ← sample_host (sg_host_ids seg);
      emit (dpu_agent sample) "NICo.APIService(carbide)" "gRPC"
           "GetManagedHostNetworkConfig (periodic_config_fetcher)" None None ;;
      for_each (sg_host_ids seg) (leave_segment segment_id) ;;
      emit "DPU-Agent(fleet)" "HBN(vtysh)" "internal" "EVPN withdraw 확인" None None ;;
      mret (seg <| sg_state := "deleted" |>)
  end.

Definition list_segments : IO (list NicoSegment) := n_get (λ n, dvalues (nc_segments n)).

(** ** Seeding and the demo endpoints *)
(** The [su_site] map of [seed_from_store]: the name of the factory of an SU *)
Definition su_site : IO (dict string) :=
  fs ← s_values st_factories;
  fold_m (λ acc f,
    fold_m (λ acc bid,
      b ← s_idx st_blocks bid;
      fold_m (λ acc did,
        du ← s_idx st_dus did;
        mret (foldl (λ d sid, dset d sid (f_name f)) acc (du_su_ids du))) acc (bk_du_ids b))
      acc (f_block_ids f)) [] fs.

Definition seed_host (site : dict string) (tray : ComputeTray) : IO unit :=
  rack ← s_get st_racks (t_rack_id tray);
  let hid := "nh-" +:+ t_id tray in
  let ips := ips_for_tray (t_id tray) in
  let su_id := before_last "-rack-" (t_rack_id tray) in
  upd_nico (λ n, n <| nc_hosts ::= λ d, dset d hid
    (mkHost hid (t_id tray)
       match rack with Some r => rk_blueprint_key r | None => EmptyString end
       (default EmptyString (dget site su_id)) HS_pool_ready true true false None None None
       match ips with Some i => ip_bmc i | None => EmptyString end
       match ips with Some i => ip_dpu i | None => EmptyString end EmptyString None) |>).

Definition seed_cpu_host (cn : CpuNode) : IO unit :=
  let hid := str_or (cn_nico_host_id cn) ("nh-" +:+ cn_id cn) in
  match int_suffix (cn_id cn) with
  | inr e => raise e
  | inl idx =>
      upd_nico (λ n, n <| nc_hosts ::= λ d, dset d hid
        (mkHost hid (cn_id cn) "cpu-epyc" EmptyString HS_pool_ready true true false None None None
           ("10.254.1." +:+ str_of_Z idx) ("10.255.1." +:+ str_of_Z idx) EmptyString None) |>)
  end.

Definition seed_from_store : IO unit :=
  upd_nico (λ n, mkNico [] [] [] [] (nc_job_latency n) [] 0) ;;
  site ← su_site;
  trays ← s_values st_trays;
  for_each trays (seed_host site) ;;
  cns ← s_values st_cpu_nodes;
  for_each cns seed_cpu_host.

Definition add_ghost (host_id sku : string) : IO NicoHost :=
  let host := mkHost host_id EmptyString sku EmptyString HS_pool_ready true true false None None None
                EmptyString EmptyString EmptyString None in
  upd_nico (λ n, n <| nc_hosts ::= λ d, dset d host_id host |>) ;;
  mret host.

(** [DELETE /hosts/{id}], [PATCH /hosts/{id}/state], [PATCH /config] *)
Definition delete_host (host_id : string) : IO unit :=
  hosts ← n_get nc_hosts;
  if dmem hosts host_id then upd_nico (λ n, n <| nc_hosts ::= λ d, ddel d host_id |>)
  else http 404 ("nico: host '" +:+ host_id +:+ "' not found").
Definition force_state (host_id : string) (state : NicoHostState) : IO NicoHost :=
  _host host_id ≫= λ _,
  host_mut host_id (λ h, h <| h_state := state |>) ;;
  _host host_id.
Definition set_config (job_latency : Z) : IO Z :=
  upd_nico (λ n, n <| nc_job_latency := Z.max 0 job_latency |>) ;;
  n_get nc_job_latency.

(** ** The simulator leaves the control plane alone *)
Section frame.
Local Ltac frame := solve_steps.
Lemma cplane_n_get {A} (f : FakeNico → A) : Steps (same cplane) (n_get f).
Proof. apply steps_gets; apply _. Qed.
Lemma cplane_host_mut h f : Steps (same cplane) (host_mut h f).
Proof. apply cplane_upd_nico. Qed.
Lemma cplane_job_mut h f : Steps (same cplane) (job_mut h f).
Proof. apply cplane_upd_nico. Qed.
Lemma cplane_seg_mut h f : Steps (same cplane) (seg_mut h f).
Proof. apply cplane_upd_nico. Qed.
Hint Resolve cplane_n_get cplane_host_mut cplane_job_mut cplane_seg_mut : steps.
Lemma cplane_seq : Steps (same cplane) next_nico_seq.
Proof. unfold next_nico_seq. frame. Qed.
Lemma cplane_host h : Steps (same cplane) (_host h).
Proof. unfold _host. frame. Qed.
Lemma cplane_require h l : Steps (same cplane) (_require h l).
Proof. unfold _require. frame. Qed.
Lemma cplane_consume h op : Steps (same cplane) (_consume_failure h op).
Proof. unfold _consume_failure. frame. Qed.
Hint Resolve cplane_seq cplane_host cplane_require cplane_consume : steps.
Lemma cplane_sanitize_loop h f todo steps : Steps (same cplane) (sanitize_loop h f todo steps).
Proof. revert steps. induction todo; intros; simpl; frame. Qed.
Hint Resolve cplane_sanitize_loop : steps.
Lemma cplane_finish j f : Steps (same cplane) (_finish_job j f).
Proof. unfold _finish_job. frame. Qed.
Hint Resolve cplane_finish : steps.
Lemma cplane_new_job op h f : Steps (same cplane) (_new_job op h f).
Proof. unfold _new_job. frame. Qed.
Hint Resolve cplane_new_job : steps.
Lemma cplane_list_hosts : Steps (same cplane) list_hosts.
Proof. unfold list_hosts. frame. Qed.
Hint Resolve cplane_list_hosts : steps.
Lemma cplane_get_host h : Steps (same cplane) (get_host h).
Proof. unfold get_host. frame. Qed.
Lemma cplane_reserve h : Steps (same cplane) (reserve h).
Proof. unfold reserve. frame. Qed.
Lemma cplane_unreserve h : Steps (same cplane) (unreserve h).
Proof. unfold unreserve. frame. Qed.
Lemma cplane_provision h i : Steps (same cplane) (provision h i).
Proof. unfold provision. frame. Qed.
Lemma cplane_allocate h t : Steps (same cplane) (allocate h t).
Proof. unfold allocate. frame. Qed.
Lemma cplane_release i : Steps (same cplane) (release i).
Proof. unfold release. frame. Qed.
Lemma cplane_abort h : Steps (same cplane) (abort_provision h).
Proof. unfold abort_provision. frame. Qed.
Lemma cplane_sanitize h : Steps (same cplane) (sanitize h).
Proof. unfold sanitize. frame. Qed.
Lemma cplane_get_job j : Steps (same cplane) (get_job j).
Proof. unfold get_job. frame. Qed.
Lemma cplane_report h : Steps (same cplane) (get_sanitize_report h).
Proof. unfold get_sanitize_report. frame. Qed.
Lemma cplane_cordon h r : Steps (same cplane) (cordon h r).
Proof. unfold cordon. frame. Qed.
Lemma cplane_join s o h : Steps (same cplane) (join_segment s o h).
Proof. unfold join_segment. frame. Qed.
Lemma cplane_leave s h : Steps (same cplane) (leave_segment s h).
Proof. unfold leave_segment. frame. Qed.
Lemma cplane_sample l : Steps (same cplane) (sample_host l).
Proof. unfold sample_host. frame. Qed.
Hint Resolve cplane_join cplane_leave cplane_sample : steps.
Lemma cplane_create_segment t v l c h al p : Steps (same cplane) (create_segment t v l c h al p).
Proof. unfold create_segment. frame. Qed.
Lemma cplane_attach s h p : Steps (same cplane) (attach_hosts s h p).
Proof. unfold attach_hosts. frame. Qed.
Lemma cplane_delete_segment s : Steps (same cplane) (delete_segment s).
Proof. unfold delete_segment. frame. Qed.
Lemma cplane_list_segments : Steps (same cplane) list_segments.
Proof. unfold list_segments. frame. Qed.
End frame.
#[global] Hint Resolve cplane_list_hosts cplane_get_host cplane_reserve cplane_unreserve
  cplane_provision cplane_allocate cplane_release cplane_abort cplane_sanitize cplane_get_job
  cplane_report cplane_cordon cplane_create_segment cplane_attach cplane_delete_segment
  cplane_list_segments : steps.

End Nico.
