(* ===== verification/NicoMachine.v ===== *)
(** * The site controller as a host state machine

    An abstract machine over the views of the hosts (state, instance, tenant),
    the proof that every operation of the simulator performs at most one of its
    transitions while no job is pending, and the invariant that follows: a host
    carries an instance and a tenant exactly while it is allocated, and no two
    hosts carry the same instance. *)
From Stdlib Require Import QArith.
From stdpp Require Import strings base decidable option numbers list relations.
From S2P Require Import Prelude PyLib Models World NicoSim.
Local Open Scope string_scope.
Local Open Scope list_scope.
Local Open Scope py_scope.
Import Nico.

Module NicoMachine.

(** ** Specifications of programs by their effect on NICo

    [triple n m Q]: run on a world whose site controller is [n], [m] ends with
    an outcome and a site controller in [Q]. *)
Definition triple {A} (n : FakeNico) (m : IO A) (Q : outcome A → FakeNico → Prop) : Prop :=
  ∀ w, w_nico w = n → Q (m w).1 (w_nico (m w).2).

Lemma triple_ret {A} n (a : A) Q : Q (Ok a) n → triple n (mret a) Q.
Proof. by intros H w <-. Qed.
Lemma triple_raise {A} n e (Q : outcome A → FakeNico → Prop) : Q (Raised e) n → triple n (raise e) Q.
Proof. by intros H w <-. Qed.
Lemma triple_bind {A B} n (m : IO A) (f : A → IO B) Q :
  triple n m (λ r n', match r with Ok a => triple n' (f a) Q | Raised e => Q (Raised e) n' end) →
  triple n (m ≫= f) Q.
Proof.
  intros H w Hw. specialize (H w Hw). unfold mbind, M_bind.
  destruct (m w) as [[a|e] w']; [by apply H|done].
Qed.
Lemma triple_get {A} n (f : FakeNico → A) Q : Q (Ok (f n)) n → triple n (n_get f) Q.
Proof. by intros H w <-. Qed.
Lemma triple_upd n f Q : Q (Ok tt) (f n) → triple n (upd_nico f) Q.
Proof. by intros H w <-. Qed.
Lemma triple_emit n a b c d e f Q : Q (Ok tt) n → triple n (emit a b c d e f) Q.
Proof. by intros H w <-. Qed.
Lemma triple_mono {A} n (m : IO A) (Q Q' : outcome A → FakeNico → Prop) :
  triple n m Q → (∀ r n', Q r n' → Q' r n') → triple n m Q'.
Proof. intros H HQ w Hw. by apply HQ, H. Qed.
Lemma triple_host n hid Q :
  match dget (nc_hosts n) hid with
  | Some h => Q (Ok h) n
  | None => ∀ d, Q (Raised (HTTPException 404 d)) n
  end → triple n (_host hid) Q.
Proof.
  intros H. unfold _host. apply triple_bind, triple_get. destruct (dget _ hid).
  - by apply triple_ret.
  - apply triple_raise, H.
Qed.
Lemma triple_require n h l Q :
  (if in_states (h_state h) l then Q (Ok tt) n else ∀ d, Q (Raised (HTTPException 409 d)) n) →
  triple n (_require h l) Q.
Proof. intros H. unfold _require. destruct (in_states _ _); [by apply triple_ret|apply triple_raise, H]. Qed.

Ltac triple_step :=
  cbv beta iota;
  lazymatch goal with
  | |- triple _ (mret _) _ => apply triple_ret
  | |- triple _ (raise _) _ => apply triple_raise
  | |- triple _ (http _ _) _ => apply triple_raise
  | |- triple _ (_ ≫= _) _ => apply triple_bind
  | |- triple _ (n_get _) _ => apply triple_get
  | |- triple _ (upd_nico _) _ => apply triple_upd
  | |- triple _ (host_mut _ _) _ => apply triple_upd
  | |- triple _ (job_mut _ _) _ => apply triple_upd
  | |- triple _ (seg_mut _ _) _ => apply triple_upd
  | |- triple _ (emit _ _ _ _ _ _) _ => apply triple_emit
  | |- triple _ (_host _) _ => apply triple_host
  | |- triple _ (_require _ _) _ => apply triple_require
  | |- triple _ next_nico_seq _ => apply triple_bind, triple_upd, triple_get
  end.
Ltac triple_run := repeat triple_step; cbv beta iota.

(** ** The abstract machine *)
Record hview := mkView { v_state : NicoHostState; v_instance : option string; v_tenant : option string }.
Definition view_of (h : NicoHost) : hview := mkView (h_state h) (h_instance_id h) (h_tenant_ref h).

(** The moves that concern no instance *)
Inductive edge : NicoHostState → NicoHostState → Prop :=
  | validate_ok s : s = HS_discovered ∨ s = HS_quarantined → edge s HS_pool_ready
  | validate_bad s : s = HS_discovered ∨ s = HS_quarantined → edge s HS_quarantined
  | reserved_by_order : edge HS_pool_ready HS_reserved
  | unreserved : edge HS_reserved HS_pool_ready
  | provisioned : edge HS_reserved HS_provisioned
  | provision_failed : edge HS_reserved HS_quarantined
  | provision_stuck : edge HS_reserved HS_provisioning
  | aborted s : s = HS_provisioned ∨ s = HS_provisioning → edge s HS_released
  | sanitized : edge HS_released HS_pool_ready
  | sanitize_failed : edge HS_released HS_rma.
Definition instance_name (z : Z) : string := "inst-" +:+ str_of_Z z.
(** [move lo hi v v']: one transition of a host while the counter of the
    controller goes from [lo] to [hi]; a new instance gets a number in between. *)
Inductive move (lo hi : Z) : hview → hview → Prop :=
  | move_edge s s' i t : edge s s' → move lo hi (mkView s i t) (mkView s' i t)
  | move_allocate z i t t' : (lo < z ≤ hi)%Z →
      move lo hi (mkView HS_provisioned i t) (mkView HS_allocated (Some (instance_name z)) (Some t'))
  | move_release i t : move lo hi (mkView HS_allocated i t) (mkView HS_released None None).

(** Each host by its id and view *)
Definition hv (n : FakeNico) (k : string) : option (string * hview) :=
  (λ h, (h_id h, view_of h)) <$> dget (nc_hosts n) k.
(** No job is pending: the latency is zero, as it is unless the demo endpoint
    raises it. *)
Definition quiet (n : FakeNico) : Prop :=
  (nc_job_latency n ≤ 0)%Z ∧ ∀ k j, dget (nc_jobs n) k = Some j → j_state j ≠ "running".
Record nico_step (n n' : FakeNico) : Prop := {
  ns_quiet : quiet n';
  ns_wf : dict_wf (nc_hosts n) → dict_wf (nc_hosts n');
  ns_seq : (nc_seq n ≤ nc_seq n')%Z;
  ns_hosts : (∀ k, hv n' k = hv n k)
    ∨ ∃ hid i v v', hv n hid = Some (i, v) ∧ hv n' hid = Some (i, v')
        ∧ move (nc_seq n) (nc_seq n') v v' ∧ ∀ k, k ≠ hid → hv n' k = hv n k
}.

(** ** Refinement: every operation is at most one move *)
(** Updates of one host *)
Definition host_update (hid : string) (h : NicoHost) (f : NicoHost → NicoHost)
    (d d' : dict NicoHost) : Prop :=
  dget d hid = Some h ∧ dget d' hid = Some (f h) ∧ (∀ k, k ≠ hid → dget d' k = dget d k)
  ∧ (dict_wf d → dict_wf d').
Lemma update_refl hid h d : dget d hid = Some h → host_update hid h (λ x, x) d d.
Proof. by intros H. Qed.
Lemma update_dupd hid h f g d d' :
  host_update hid h f d d' → host_update hid h (λ x, g (f x)) d (dupd d' hid g).
Proof.
  intros (H & H' & Hk & Hw). split_and!; [done| | |].
  - by rewrite dget_dupd_eq, H'.
  - intros k Hne. rewrite dget_dupd_ne by done. by apply Hk.
  - intros Hd. by apply dict_wf_dupd, Hw.
Qed.
Lemma update_conv hid h f g d d' : host_update hid h f d d' → f h = g h → host_update hid h g d d'.
Proof. intros (? & ? & ? & ?) E. split_and!; [done|by rewrite <-E|done|done]. Qed.
Ltac one_update :=
  cbn; eapply update_conv; [repeat eapply update_dupd; apply update_refl; eassumption|reflexivity].
Lemma step_none n n' :
  quiet n' → (nc_seq n ≤ nc_seq n')%Z → nc_hosts n' = nc_hosts n → nico_step n n'.
Proof. intros Hq Hs Hh. split; [done|by rewrite Hh|done|]. left. intros k. unfold hv. by rewrite Hh. Qed.
Lemma step_host hid h f n n' :
  host_update hid h f (nc_hosts n) (nc_hosts n') → quiet n' → (nc_seq n ≤ nc_seq n')%Z →
  h_id (f h) = h_id h → move (nc_seq n) (nc_seq n') (view_of h) (view_of (f h)) → nico_step n n'.
Proof.
  intros (H & H' & Hk & Hw) Hq Hs Hid Hm. split; [done..|]. right.
  exists hid, (h_id h), (view_of h), (view_of (f h)). unfold hv. rewrite H, H'. cbn.
  split_and!; [done|by rewrite Hid|done|]. intros k Hne. by rewrite Hk.
Qed.
Lemma quiet_jobs n n' :
  quiet n → nc_job_latency n' = nc_job_latency n → nc_jobs n' = nc_jobs n → quiet n'.
Proof. unfold quiet. by intros ? -> ->. Qed.
(** A job that is recorded and finished within the operation *)
Lemma quiet_new_job n n' jid j f :
  quiet n → nc_job_latency n' = nc_job_latency n →
  nc_jobs n' = dupd (dset (nc_jobs n) jid j) jid f → j_state (f j) ≠ "running" → quiet n'.
Proof.
  unfold quiet. intros [Hl Hj] -> -> Hf. split; [done|]. intros k x.
  rewrite dget_dupd. destruct (String.eqb_spec k jid) as [->|Hne].
  - rewrite dget_dset_eq. cbn. by intros [= <-].
  - rewrite dget_dset_ne by done. apply Hj.
Qed.

(** What an operation may do to a quiet site controller *)
Abbreviation Refines m := (∀ n, quiet n → triple n m (λ _ n', nico_step n n')).

Lemma step_refl n : quiet n → nico_step n n.
Proof. intros Hq. by apply step_none. Qed.
Lemma in_states_spec s l : in_states s l = true ↔ s ∈ l.
Proof.
  unfold in_states. rewrite anyb_spec. split.
  - by intros (x & Hx & ->%bool_decide_eq_true).
  - intros Hs. exists s. by rewrite bool_decide_eq_true.
Qed.
Lemma move_same lo hi h h' :
  edge (h_state h) (h_state h') → h_instance_id h' = h_instance_id h →
  h_tenant_ref h' = h_tenant_ref h → move lo hi (view_of h) (view_of h').
Proof. unfold view_of. intros He -> ->. by apply move_edge. Qed.

(** Look the host up again after an update of it. *)
Ltac lookup_host Hh := cbn; rewrite ?dget_dupd_eq, ?Hh; cbn [fmap option_fmap option_map].
Ltac one_host :=
  eapply step_host; [cbn; repeat apply update_dupd; by apply update_refl| |cbn; lia|reflexivity|].
Ltac known_state Hs := apply in_states_spec, list_elem_of_singleton in Hs.

Lemma refines_reserve hid : Refines (reserve hid).
Proof.
  intros n Hq. unfold reserve. triple_run.
  destruct (dget (nc_hosts n) hid) as [h|] eqn:Hh; [|intros; by apply step_refl].
  triple_run. destruct (in_states _ _) eqn:Hs; [|intros; by apply step_refl]. known_state Hs.
  triple_run. lookup_host Hh. one_host; [by apply (quiet_jobs n)|].
  apply move_same; [rewrite Hs; apply reserved_by_order|done..].
Qed.
Lemma refines_unreserve hid : Refines (unreserve hid).
Proof.
  intros n Hq. unfold unreserve. triple_run.
  destruct (dget (nc_hosts n) hid) as [h|] eqn:Hh; [|intros; by apply step_refl].
  triple_run. destruct (in_states _ _) eqn:Hs; [|intros; by apply step_refl]. known_state Hs.
  triple_run. lookup_host Hh. one_host; [by apply (quiet_jobs n)|].
  apply move_same; [rewrite Hs; apply unreserved|done..].
Qed.
Lemma refines_validate hid : Refines (validate hid).
Proof.
  intros n Hq. unfold validate. triple_run.
  destruct (dget (nc_hosts n) hid) as [h|] eqn:Hh; [|intros; by apply step_refl].
  triple_run. destruct (in_states _ _) eqn:Hs; [|intros; by apply step_refl].
  triple_run. lookup_host Hh. one_host; [by apply (quiet_jobs n)|].
  assert (h_state h = HS_discovered ∨ h_state h = HS_quarantined).
  { clear -Hs. apply in_states_spec in Hs. set_solver. }
  apply move_same; [|done..]. cbn. destruct (h_firmware_ok h); by constructor.
Qed.
Lemma refines_abort hid : Refines (abort_provision hid).
Proof.
  intros n Hq. unfold abort_provision. triple_run.
  destruct (dget (nc_hosts n) hid) as [h|] eqn:Hh; [|intros; by apply step_refl].
  triple_run. destruct (in_states _ _) eqn:Hs; [|intros; by apply step_refl].
  triple_run. lookup_host Hh. one_host; [by apply (quiet_jobs n)|].
  assert (h_state h = HS_provisioned ∨ h_state h = HS_provisioning).
  { clear -Hs. apply in_states_spec in Hs. set_solver. }
  apply move_same; [by apply aborted|done..].
Qed.
Lemma refines_allocate hid t : Refines (allocate hid t).
Proof.
  intros n Hq. unfold allocate. triple_run.
  destruct (dget (nc_hosts n) hid) as [h|] eqn:Hh; [|intros; by apply step_refl].
  triple_run. destruct (in_states _ _) eqn:Hs; [|intros; by apply step_refl]. known_state Hs.
  triple_run. lookup_host Hh. one_host; [by apply (quiet_jobs n)|].
  unfold view_of. rewrite Hs. cbn. constructor. lia.
Qed.


(** *** Jobs *)
Lemma triple_consume n hid op Q :
  (∀ b flags, (b = true ↔ op ∈ default [] (dget (nc_fail_flags n) hid)) →
     Q (Ok b) (n <| nc_fail_flags := flags |>)) →
  triple n (_consume_failure hid op) Q.
Proof.
  intros H. unfold _consume_failure. triple_run. destruct (memb op _) eqn:Hm; triple_run.
  - apply (H true). split; [|done]. intros _. by apply memb_spec.
  - destruct n. apply (H false). split; [done|]. intros Hin%memb_spec. congruence.
Qed.
(** The sanitization report: all steps, or up to the failing attestation *)
Definition sanitize_steps (fail : bool) : list (string * bool) :=
  if fail then [("nvme_secure_erase", true); ("gpu_memory_wipe", true); ("system_memory_wipe", true);
                ("tpm_reset", true); ("re_attestation", false)]
  else (λ s, (s, true)) <$> SANITIZE_STEPS.
Lemma triple_sanitize n h fail Q :
  Q (Ok (sanitize_steps fail, negb fail)) n → triple n (sanitize_loop h fail SANITIZE_STEPS []) Q.
Proof. intros HQ. destruct fail; cbn; triple_run; exact HQ. Qed.

(** What a job that finishes at once leaves *)
Definition finished (op : string) (fail : bool) (h : NicoHost) : NicoHost :=
  if String.eqb op "provision" then
    if fail then h <| h_state := HS_quarantined |> <| h_host_ip := EmptyString |>
    else h <| h_state := HS_provisioned |>
  else if String.eqb op "release" then
    h <| h_state := HS_released |> <| h_instance_id := None |> <| h_tenant_ref := None |>
  else if String.eqb op "sanitize" then
    if fail then h <| h_state := HS_rma |>
    else h <| h_state := HS_pool_ready |> <| h_attested := true |> <| h_image_ref := None |>
           <| h_host_ip := EmptyString |>
  else h.
Definition job_outcome (op : string) (fail : bool) (j : NicoJob) : NicoJob :=
  if fail then j <| j_state := "failed" |>
                 <| j_detail := if String.eqb op "provision" then "firmware mismatch during PXE"
                                else "re-attestation failed" |>
  else j <| j_state := "succeeded" |>.
Definition job_op (op : string) (fail : bool) : Prop :=
  op = "provision" ∨ (op = "release" ∧ fail = false) ∨ op = "sanitize".
(** The effect of [_finish_job] on a job of a host [h] *)
Record finishes (n n' : FakeNico) (job : NicoJob) (fail : bool) (h : NicoHost) : Prop := {
  fin_host : host_update (j_host_id job) h (finished (j_op job) fail) (nc_hosts n) (nc_hosts n');
  fin_jobs : nc_jobs n' = dupd (nc_jobs n) (j_id job) (job_outcome (j_op job) fail);
  fin_latency : nc_job_latency n' = nc_job_latency n;
  fin_seq : nc_seq n' = nc_seq n;
  fin_report : j_op job = "sanitize" → dget (nc_sanitize_reports n') (j_host_id job)
                = Some (mkSanitize (j_host_id job) (negb fail) (sanitize_steps fail))
}.
#[local] Arguments sanitize_loop : simpl never.
Lemma triple_finish n job h fail Q :
  dget (nc_hosts n) (j_host_id job) = Some h → h_id h = j_host_id job → job_op (j_op job) fail →
  (∀ n', finishes n n' job fail h → Q (Ok tt) n') → triple n (_finish_job job fail) Q.
Proof.
  intros Hh Hid Hop. destruct job as [jid op hid st de po]. cbn in *. unfold _finish_job. cbn.
  intros HQ. triple_run. rewrite Hh. cbn. rewrite Hid.
  destruct Hop as [->|[[-> ->]| ->]]; cbn.
  - destruct fail; triple_run; apply HQ; split; try done; one_update.
  - triple_run. apply HQ; split; try done; one_update.
  - apply triple_bind, triple_sanitize. destruct fail; triple_run; cbn [negb]; triple_run; apply HQ;
      split; try done; cbn; solve [one_update|by rewrite dget_dset_eq].
Qed.
(** A job that is started and finished by one operation *)
Record job_done (n n' : FakeNico) (op : string) (fail : bool) (h : NicoHost) (j : NicoJob) : Prop := {
  jd_host : host_update (h_id h) h (finished op fail) (nc_hosts n) (nc_hosts n');
  jd_job : j_state j = if fail then "failed" else "succeeded";
  jd_quiet : quiet n';
  jd_seq : nc_seq n' = (nc_seq n + 1)%Z;
  jd_report : op = "sanitize" → dget (nc_sanitize_reports n') (h_id h)
                = Some (mkSanitize (h_id h) (negb fail) (sanitize_steps fail))
}.
Lemma new_job_spec n op h h' fail :
  quiet n → job_op op fail → dget (nc_hosts n) (h_id h) = Some h' → h_id h' = h_id h →
  triple n (_new_job op h fail) (λ r n', ∃ j, r = Ok j ∧ job_done n n' op fail h' j).
Proof.
  intros Hq Hop Hh Hid. unfold _new_job. triple_run. cbn [nc_seq nc_job_latency].
  cbn -[_finish_job].
  destruct (nc_job_latency n <=? 0)%Z eqn:Hl; [|destruct Hq as [Hq _]; lia].
  eapply triple_finish; [exact Hh|exact Hid|exact Hop|]. intros n' [].
  triple_run. cbn in *. rewrite fin_jobs0, dget_dupd_eq, dget_dset_eq. cbn.
  eexists. split; [done|]. split; rewrite ?Hid; try done.
  - by destruct fail.
  - eapply quiet_new_job; [exact Hq|exact fin_latency0|exact fin_jobs0|]. by destruct fail.
Qed.

(** Operations that start a job *)
Lemma step_of_job n n1 n2 op fail hid h f j :
  quiet n → nc_seq n1 = nc_seq n → host_update hid h f (nc_hosts n) (nc_hosts n1) →
  h_id (f h) = h_id h → h_id h = hid →
  job_done n1 n2 op fail (f h) j →
  move (nc_seq n) (nc_seq n2) (view_of h) (view_of (finished op fail (f h))) →
  nico_step n n2.
Proof.
  intros Hq Hs (H0 & H1 & Hk & Hw1) Hid <- [(Ha & Hb & Hc & Hw2) _ Hq2 Hs2 _] Hm.
  rewrite Hid in *. eapply (step_host (h_id h) h (λ _, finished op fail (f h))); [|done|lia| |done].
  - split_and!; [done|done| |by auto]. intros k Hne. by rewrite Hc, Hk.
  - rewrite <-Hid. unfold finished. repeat case_match; reflexivity.
Qed.
Definition well_keyed (n : FakeNico) : Prop := ∀ k h, dget (nc_hosts n) k = Some h → h_id h = k.
(** What an operation may do to a quiet site controller whose hosts are stored
    under their ids *)
Lemma refines_sanitize hid n :
  quiet n → well_keyed n → triple n (sanitize hid) (λ _ n', nico_step n n').
Proof.
  intros Hq Hw. unfold sanitize. triple_run.
  destruct (dget (nc_hosts n) hid) as [h|] eqn:Hh; [|intros; by apply step_refl].
  triple_run. destruct (in_states _ _) eqn:Hs; [|intros; by apply step_refl]. known_state Hs.
  pose proof (Hw _ _ Hh) as Hid. triple_run. apply triple_consume. intros b flags _.
  set (n1 := _ <| nc_fail_flags := flags |>).
  assert (Hup : host_update hid h (λ x, x <| h_state := HS_sanitizing |>) (nc_hosts n) (nc_hosts n1))
    by one_update.
  eapply triple_mono; [eapply (new_job_spec n1)|].
  - by apply (quiet_jobs n).
  - by right; right.
  - rewrite Hid. apply Hup.
  - done.
  - intros r n2 (j & _ & Hj). eapply (step_of_job n n1); [done|done|exact Hup|done|done|exact Hj|].
    destruct b; apply move_same; cbn; try done; rewrite Hs; [apply sanitize_failed|apply sanitized].
Qed.

(** Finding the host of an instance *)
Lemma host_in_values n h :
  dict_wf (nc_hosts n) → well_keyed n → h ∈ dvalues (nc_hosts n) → dget (nc_hosts n) (h_id h) = Some h.
Proof. intros Hd Hw Hin. apply dvalues_dget in Hin as [k Hk]; [|done]. by rewrite (Hw _ _ Hk). Qed.
Lemma refines_release iid n :
  quiet n → dict_wf (nc_hosts n) → well_keyed n →
  triple n (release iid) (λ _ n', nico_step n n').
Proof.
  intros Hq Hd Hw. unfold release, list_hosts. triple_run.
  destruct (find_first _ _) as [h|] eqn:Hf; [|triple_run; by apply step_refl].
  apply find_first_Some in Hf as [Hin _]. pose proof (host_in_values n h Hd Hw Hin) as Hh.
  triple_run. destruct (in_states _ _) eqn:Hs; [|intros; by apply step_refl]. known_state Hs.
  eapply triple_mono; [eapply (new_job_spec n "release" h h); [done| |done|done]|].
  { right; left. done. }
  intros r n2 (j & _ & Hj).
  eapply (step_of_job n n _ _ _ _ h (λ x, x)); [done|done|by apply update_refl|done|done|exact Hj|].
  unfold view_of. rewrite Hs. apply move_release.
Qed.

(** *** Provisioning *)
Lemma refines_provision hid img n :
  quiet n → well_keyed n → triple n (provision hid img) (λ _ n', nico_step n n').
Proof.
  intros Hq Hw. unfold provision. triple_run.
  destruct (dget (nc_hosts n) hid) as [h|] eqn:Hh; [|intros; by apply step_refl].
  triple_run. destruct (in_states _ _) eqn:Hs; [|intros; by apply step_refl]. known_state Hs.
  pose proof (Hw _ _ Hh) as Hid. triple_run.
  set (n1 := n <| nc_hosts ::= _ |>).
  assert (Hrest : ∀ ip,
    triple (n1 <| nc_hosts ::= λ d, dupd d hid (λ h, h <| h_host_ip := ip |>) |>)
      (_consume_failure hid "provision")
      (λ r n', match r with
               | Ok fail => triple n' (_new_job "provision" h fail) (λ _ n'', nico_step n n'')
               | Raised _ => nico_step n n'
               end)).
  { intros ip. set (n2 := n1 <| nc_hosts ::= _ |>). apply triple_consume.
    intros b flags _. set (n3 := n2 <| nc_fail_flags := flags |>).
    set (f := λ x : NicoHost, x <| h_state := HS_provisioning |> <| h_image_ref := Some img |>
                                <| h_host_ip := ip |>).
    assert (Hup : host_update hid h f (nc_hosts n) (nc_hosts n3)) by one_update.
    eapply triple_mono; [eapply (new_job_spec n3 "provision" h (f h))|].
    - by apply (quiet_jobs n).
    - by left.
    - rewrite Hid. apply Hup.
    - done.
    - intros r n4 (j & _ & Hj). eapply (step_of_job n n3); [done|done|exact Hup|done|done|exact Hj|].
      destruct b; apply move_same; cbn; try done; rewrite Hs; [apply provision_failed|apply provisioned]. }
  destruct (String.eqb (h_sku h) "cpu-epyc"); [|triple_run; apply Hrest].
  destruct (int_suffix (h_tray_id h)) as [idx|e]; [triple_run; apply Hrest|].
  triple_run. one_host; [by apply (quiet_jobs n)|].
  apply move_same; [rewrite Hs; apply provision_stuck|done..].
Qed.

(** *** Operations that leave every view alone *)
Definition same_views (n n' : FakeNico) : Prop :=
  nc_job_latency n' = nc_job_latency n ∧ nc_jobs n' = nc_jobs n ∧ (nc_seq n ≤ nc_seq n')%Z
  ∧ (dict_wf (nc_hosts n) → dict_wf (nc_hosts n')) ∧ ∀ k, hv n' k = hv n k.
#[export] Instance same_views_preorder : PreOrder same_views.
Proof.
  split; unfold same_views.
  - intros n. split_and!; try done; lia.
  - intros n1 n2 n3 (-> & -> & ? & ? & E1) (-> & -> & ? & ? & E2). split_and!; try done; try lia; auto.
    intros k. by rewrite E2.
Qed.
Definition on_nico (R : relation FakeNico) : relation World := λ w w', R (w_nico w) (w_nico w').
#[export] Instance on_nico_preorder R : PreOrder R → PreOrder (on_nico R).
Proof. intros [Hr Ht]. unfold on_nico. split; [by intros w|intros w1 w2 w3; apply Ht]. Qed.
Lemma views_emit a b c d e f : Steps (on_nico same_views) (emit a b c d e f).
Proof. intros w. unfold on_nico. reflexivity. Qed.
Lemma views_get {A} (f : FakeNico → A) : Steps (on_nico same_views) (n_get f).
Proof. intros w. unfold on_nico. reflexivity. Qed.
Lemma views_host_mut hid f :
  (∀ h, h_id (f h) = h_id h ∧ view_of (f h) = view_of h) → Steps (on_nico same_views) (host_mut hid f).
Proof.
  intros Hf w. unfold on_nico. cbn. split_and!; try done.
  - apply dict_wf_dupd.
  - intros k. unfold hv. cbn. rewrite dget_dupd. destruct (String.eqb_spec k hid) as [->|]; [|done].
    destruct (dget _ hid) as [h|]; [|done]. cbn. by destruct (Hf h) as [-> ->].
Qed.
Lemma views_upd f :
  (∀ n, nc_job_latency (f n) = nc_job_latency n ∧ nc_jobs (f n) = nc_jobs n
        ∧ (nc_seq n ≤ nc_seq (f n))%Z ∧ nc_hosts (f n) = nc_hosts n) →
  Steps (on_nico same_views) (upd_nico f).
Proof.
  intros Hf w. unfold on_nico. cbn. destruct (Hf (w_nico w)) as (E1 & E2 & E3 & E4).
  unfold same_views, hv. by rewrite E1, E2, E4.
Qed.
#[local] Hint Resolve views_emit views_get : steps.
#[local] Hint Extern 2 (Steps (on_nico same_views) (host_mut _ _)) =>
  apply views_host_mut; intros ?; split; reflexivity : steps.
#[local] Hint Extern 2 (Steps (on_nico same_views) (upd_nico _)) =>
  apply views_upd; intros ?; cbn; split_and!; solve [reflexivity|lia] : steps.
#[local] Hint Extern 2 (Steps (on_nico same_views) (seg_mut _ _)) =>
  apply views_upd; intros ?; cbn; split_and!; solve [reflexivity|lia] : steps.
Lemma views_seq : Steps (on_nico same_views) next_nico_seq.
Proof. unfold next_nico_seq. solve_steps. Qed.
Lemma views_host hid : Steps (on_nico same_views) (_host hid).
Proof. unfold _host. solve_steps. Qed.
#[local] Hint Resolve views_seq views_host : steps.
Lemma views_cordon hid r : Steps (on_nico same_views) (cordon hid r).
Proof. unfold cordon. solve_steps. Qed.
Lemma views_inject hid op : Steps (on_nico same_views) (inject_failure hid op).
Proof. unfold inject_failure. solve_steps. Qed.
Lemma views_sample l : Steps (on_nico same_views) (sample_host l).
Proof. unfold sample_host. solve_steps. Qed.
#[local] Hint Resolve views_sample : steps.
Lemma views_create_segment t v l c h al p : Steps (on_nico same_views) (create_segment t v l c h al p).
Proof. unfold create_segment, join_segment. solve_steps. Qed.
Lemma views_attach sg h p : Steps (on_nico same_views) (attach_hosts sg h p).
Proof. unfold attach_hosts, join_segment. solve_steps. Qed.
Lemma views_delete_segment sg : Steps (on_nico same_views) (delete_segment sg).
Proof. unfold delete_segment, leave_segment. solve_steps. Qed.
Lemma step_of_views {A} (m : IO A) n :
  Steps (on_nico same_views) m → quiet n → triple n m (λ _ n', nico_step n n').
Proof.
  intros Hm Hq w <-. destruct (Hm w) as (El & Ej & Hs & Hw & Hh).
  split; [by apply (quiet_jobs (w_nico w))|done|done|by left].
Qed.
(** Polling finds no job to finish. *)
Lemma refines_get_job jid n : quiet n → triple n (get_job jid) (λ _ n', nico_step n n').
Proof.
  intros Hq. unfold get_job. triple_run.
  destruct (dget (nc_jobs n) jid) as [j|] eqn:Hj; [|triple_run; by apply step_refl].
  triple_run. destruct (String.eqb_spec (j_state j) "running") as [E|_].
  - by destruct (proj2 Hq jid j Hj).
  - triple_run. by apply step_refl.
Qed.

(** ** The invariant *)
Definition carries (v : hview) : Prop :=
  if bool_decide (v_state v = HS_allocated) then is_Some (v_instance v) ∧ is_Some (v_tenant v)
  else v_instance v = None ∧ v_tenant v = None.
Record nico_ok (n : FakeNico) : Prop := {
  no_quiet : quiet n;
  no_wf : dict_wf (nc_hosts n);
  no_keyed k i v : hv n k = Some (i, v) → i = k;
  (** an instance and a tenant exactly while allocated *)
  no_carries k i v : hv n k = Some (i, v) → carries v;
  no_numbered k i v x : hv n k = Some (i, v) → v_instance v = Some x →
    ∃ z, x = instance_name z ∧ (z ≤ nc_seq n)%Z;
  (** an instance names one host *)
  no_unique k k' i i' v v' x : hv n k = Some (i, v) → hv n k' = Some (i', v') →
    v_instance v = Some x → v_instance v' = Some x → k = k'
}.
Lemma instance_name_inj x y : instance_name x = instance_name y → x = y.
Proof. unfold instance_name. by intros E%(str_app_inj "inst-")%str_of_Z_inj. Qed.
Lemma move_carries lo hi v v' : move lo hi v v' → carries v → carries v'.
Proof.
  destruct 1 as [s s' i t He|z i t t' Hz|i t]; unfold carries; cbn; [|by eauto|done].
  destruct He; by repeat match goal with H : _ ∨ _ |- _ => destruct H as [->| ->] end.
Qed.
(** The instance after a move is the old one, a new one, or none. *)
Lemma move_instance lo hi v v' x : move lo hi v v' → v_instance v' = Some x →
  v_instance v = Some x ∨ ∃ z, (lo < z ≤ hi)%Z ∧ x = instance_name z.
Proof. destruct 1; cbn; [by left| |done]. intros [= <-]. right. eauto. Qed.
Lemma ok_keyed n : nico_ok n → well_keyed n.
Proof.
  intros Hn k h Hk. eapply (no_keyed _ Hn k _ (view_of h)). unfold hv. by rewrite Hk.
Qed.
Lemma nico_step_ok n n' : nico_step n n' → nico_ok n → nico_ok n'.
Proof.
  intros [Hq Hw Hs [Hsame|(hid & i & v & v' & H1 & H2 & Hm & Hother)]] Hn.
  - destruct Hn. split; [done|by apply Hw|..]; setoid_rewrite Hsame; eauto.
    intros k i v x Hk Hx. destruct (no_numbered0 k i v x Hk Hx) as (z & -> & ?). exists z. split; [done|lia].
  - assert (Hget : ∀ k j y, hv n' k = Some (j, y) → (k = hid ∧ j = i ∧ y = v') ∨ (k ≠ hid ∧ hv n k = Some (j, y))).
    { intros k j y Hk. destruct (decide (k = hid)) as [->|Hne]; [left|right; by rewrite <-Hother].
      rewrite H2 in Hk. by injection Hk as <- <-. }
    assert (Hnew : ∀ k j y x, k ≠ hid → hv n k = Some (j, y) → v_instance y = Some x →
                              v_instance v' = Some x → False).
    { intros k j y x Hne Hk Hy Hx. destruct (move_instance _ _ _ _ _ Hm Hx) as [Hv|(z & Hz & ->)].
      - apply Hne. by eapply (no_unique _ Hn k hid).
      - destruct (no_numbered _ Hn k j y _ Hk Hy) as (z' & ->%instance_name_inj & ?). lia. }
    split; [done|by apply Hw, Hn|..].
    + intros k j y [(-> & -> & ->)|[_ Hk]]%Hget; by eapply (no_keyed _ Hn).
    + intros k j y [(-> & -> & ->)|[_ Hk]]%Hget; [|by eapply (no_carries _ Hn)].
      eapply move_carries; [exact Hm|]. by eapply (no_carries _ Hn).
    + intros k j y x [(-> & -> & ->)|[_ Hk]]%Hget Hx.
      * destruct (move_instance _ _ _ _ _ Hm Hx) as [Hv|(z & Hz & ->)]; [|exists z; split; [done|lia]].
        destruct (no_numbered _ Hn _ _ _ _ H1 Hv) as (z & -> & ?). exists z. split; [done|lia].
      * destruct (no_numbered _ Hn _ _ _ _ Hk Hx) as (z & -> & ?). exists z. split; [done|lia].
    + intros k k' j j' y y' x [(-> & -> & ->)|[Hne Hk]]%Hget [(-> & -> & ->)|[Hne' Hk']]%Hget Hx Hx';
        [done| | |by eapply (no_unique _ Hn)].
      * by destruct (Hnew k' j' y' x).
      * by destruct (Hnew k j y x).
Qed.

(** ** Serving requests *)
Inductive request :=
  | R_validate (host_id : string) | R_reserve (host_id : string) | R_unreserve (host_id : string)
  | R_provision (host_id image_ref : string) | R_allocate (host_id tenant_ref : string)
  | R_release (instance_id : string) | R_abort (host_id : string) | R_sanitize (host_id : string)
  | R_get_job (job_id : string) | R_cordon (host_id reason : string)
  | R_inject (host_id op : string)
  | R_create_segment (tenant_ref vrf : string) (l3vni converged_vni : Z) (host_ids : list string)
      (allocation_id : option string) (ib_pkey : option Z)
  | R_attach (segment_id : string) (host_ids : list string) (purpose : string)
  | R_delete_segment (segment_id : string).
Definition run_quietly {A} (m : IO A) : IO unit := m ≫= λ _, mret tt.
Definition serve (r : request) : IO unit :=
  match r with
  | R_validate h => run_quietly (validate h)
  | R_reserve h => run_quietly (reserve h)
  | R_unreserve h => run_quietly (unreserve h)
  | R_provision h i => run_quietly (provision h i)
  | R_allocate h t => run_quietly (allocate h t)
  | R_release i => run_quietly (release i)
  | R_abort h => run_quietly (abort_provision h)
  | R_sanitize h => run_quietly (sanitize h)
  | R_get_job j => run_quietly (get_job j)
  | R_cordon h d => run_quietly (cordon h d)
  | R_inject h op => inject_failure h op
  | R_create_segment t v l c h al p => run_quietly (create_segment t v l c h al p)
  | R_attach sg h p => run_quietly (attach_hosts sg h p)
  | R_delete_segment sg => run_quietly (delete_segment sg)
  end.
Lemma triple_quietly {A} n (m : IO A) P :
  triple n m (λ _ n', P n') → triple n (run_quietly m) (λ _ n', P n').
Proof.
  intros H. apply triple_bind. eapply triple_mono; [exact H|]. intros [a|e] n' Hn'; [|done].
  by apply triple_ret.
Qed.
Lemma serve_refines r n : nico_ok n → triple n (serve r) (λ _ n', nico_step n n').
Proof.
  intros Hn. pose proof (no_quiet _ Hn) as Hq. pose proof (ok_keyed _ Hn) as Hk.
  pose proof (no_wf _ Hn) as Hd.
  destruct r; cbn [serve]; try apply triple_quietly.
  - by apply refines_validate.
  - by apply refines_reserve.
  - by apply refines_unreserve.
  - by apply refines_provision.
  - by apply refines_allocate.
  - by apply refines_release.
  - by apply refines_abort.
  - by apply refines_sanitize.
  - by apply refines_get_job.
  - by apply step_of_views; [apply views_cordon|].
  - by apply step_of_views; [apply views_inject|].
  - by apply step_of_views; [apply views_create_segment|].
  - by apply step_of_views; [apply views_attach|].
  - by apply step_of_views; [apply views_delete_segment|].
Qed.
Definition serve_all (rs : list request) (w : World) : World := foldl (λ w r, (serve r w).2) w rs.
Lemma serve_all_refines rs w :
  nico_ok (w_nico w) → rtc nico_step (w_nico w) (w_nico (serve_all rs w)) ∧ nico_ok (w_nico (serve_all rs w)).
Proof.
  revert w. induction rs as [|r rs IH]; intros w Hw; cbn; [by split|].
  pose proof (serve_refines r (w_nico w) Hw w eq_refl) as Hs.
  cbn in Hs.
  destruct (IH (serve r w).2) as [Hr Hok]; [exact (nico_step_ok _ _ Hs Hw)|].
  split; [by eapply rtc_l|done].
Qed.

End NicoMachine.
