(* ===== verification/VastSim.v ===== *)
(** * The simulated VAST storage controller (app/vast_fake.py) *)
From Stdlib Require Import QArith.
From stdpp Require Import strings base decidable option numbers list relations.
From S2P Require Import Prelude PyLib World.
Local Open Scope string_scope.
Local Open Scope list_scope.
Local Open Scope py_scope.

Module Vast.

Definition v_get {A} (f : FakeVast → A) : IO A := gets (λ w, f (w_vast w)).
Definition view_mut (path : string) (f : VastView → VastView) : IO unit :=
  upd_vast (λ v, v <| va_views ::= λ d, dupd d path f |>).

Definition reset : IO unit := upd_vast (λ _, mkVast [] 0).

Definition create_view (path tenant_ref export_subnet : string) (allocation_id : option string)
    : IO VastView :=
  views ← v_get va_views;
  if dmem views path then http 409 ("vast: view '" +:+ path +:+ "' already exists")
  else
    upd_vast (λ v, v <| va_seq ::= λ z, (z + 1)%Z |>) ;;
    seq ← v_get va_seq;
    let view := mkView seq path tenant_ref allocation_id 0%Q 0%Q 0%Q export_subnet "active" in
    upd_vast (λ v, v <| va_views ::= λ d, dset d path view |>) ;;
    emit "NeoCloudOS.D4" "VAST.VMS" "VAST-API" "POST /api/v3/views" None None ;;
    emit "VAST.VMS" "VAST.CNodes" "internal" "뷰 export 활성화" None None ;;
    mret view.

Definition _view (path : string) : IO VastView :=
  v ← v_get (λ v, dget (va_views v) path);
  match v with
  | Some v => mret v
  | None => http 404 ("vast: view '" +:+ path +:+ "' not found")
  end.

Definition set_quota (path : string) (capacity_tb : Q) : IO VastView :=
  _view path ≫= λ _,
  view_mut path (λ v, v <| vv_capacity_tb := capacity_tb |>) ;;
  emit "NeoCloudOS.D4" "VAST.VMS" "VAST-API" "POST /api/v3/quotas" None None ;;
  _view path.

Definition set_qos (path : string) (gbps iops_k : Q) : IO VastView :=
  _view path ≫= λ _,
  view_mut path (λ v, v <| vv_qos_gbps := gbps |> <| vv_qos_iops_k := iops_k |>) ;;
  emit "NeoCloudOS.D4" "VAST.VMS" "VAST-API" "POST /api/v3/qospolicies" None None ;;
  _view path.

Definition delete_view (path : string) : IO VastView :=
  v ← v_get (λ v, dget (va_views v) path);
  match v with
  | None => http 404 ("vast: view '" +:+ path +:+ "' not found")
  | Some view =>
      upd_vast (λ v, v <| va_views ::= λ d, ddel d path |>) ;;
      emit "NeoCloudOS.D4" "VAST.VMS" "VAST-API"
           ("DELETE /api/v3/views/" +:+ str_of_Z (vv_id view)) None None ;;
      emit "VAST.VMS" "VAST.CNodes" "internal" "export 회수·데이터 파기" None None ;;
      mret (view <| vv_state := "deleted" |>)
  end.

Definition list_views : IO (list VastView) := v_get (λ v, dvalues (va_views v)).

(** The storage controller has no access to the store. *)
Lemma store_create_view p t e a : Steps (same w_store) (create_view p t e a).
Proof. unfold create_view, v_get. solve_steps. Qed.
Lemma store_set_quota p c : Steps (same w_store) (set_quota p c).
Proof. unfold set_quota, _view, v_get, view_mut. solve_steps. Qed.
Lemma store_set_qos p g i : Steps (same w_store) (set_qos p g i).
Proof. unfold set_qos, _view, v_get, view_mut. solve_steps. Qed.
Lemma store_delete_view p : Steps (same w_store) (delete_view p).
Proof. unfold delete_view, v_get. solve_steps. Qed.
#[global] Hint Resolve store_create_view store_set_quota store_set_qos store_delete_view : steps.

End Vast.
