(* ===== verification/SharedSvc.v ===== *)
(** * The simulated shared services (app/shared_services.py)

    IAM realms and OIDC clients, the Vault of secrets, PAM sessions and the
    audit trail. *)
From Stdlib Require Import QArith.
From stdpp Require Import strings base decidable option numbers list relations.
From S2P Require Import Prelude PyLib World.
Local Open Scope string_scope.
Local Open Scope list_scope.
Local Open Scope py_scope.

Module Shared.

Definition DEFAULT_ROLES : list string := ["tenant-admin"; "ops-operator"; "viewer"].

Definition x_get {A} (f : SharedServices → A) : IO A := gets (λ w, f (w_shared w)).
Definition realm_mut (tid : string) (f : IamRealm → IamRealm) : IO unit :=
  upd_shared (λ s, s <| sh_realms ::= λ d, dupd d tid f |>).
Definition next_shared_seq : IO Z :=
  upd_shared (λ s, s <| sh_seq ::= λ z, (z + 1)%Z |>) ;; x_get sh_seq.

Definition reset : IO unit := upd_shared (λ _, mkShared [] [] [] [] [] 0).

(** [audit]: once the log exceeds 2000 entries its oldest 200 are dropped. *)
Definition audit_capacity : N := 2000.
Definition audit (actor action target result : string) (tenant_ref : option string) : IO unit :=
  seq ← next_shared_seq;
  at_ ← now;
  upd_shared (λ s, s <| sh_audit_log ::= λ l,
    let l' := l ++ [mkAudit seq at_ actor action target result tenant_ref] in
    if (audit_capacity <? N.of_nat (length l'))%N then drop 200 l' else l' |>).

Definition create_realm (tenant_id display : string) : IO IamRealm :=
  realms ← x_get sh_realms;
  match dget realms tenant_id with
  | Some r => mret r
  | None =>
      t1 ← now;
      t2 ← now;
      let realm := mkRealm tenant_id display DEFAULT_ROLES
        [mkClient (tenant_id +:+ "-portal") "portal" "openid profile tenant:self" None true 0
                  EmptyString "active" t2] "active" t1 in
      upd_shared (λ s, s <| sh_realms ::= λ d, dset d tenant_id realm |>) ;;
      emit "NeoCloudOS.Tenancy" "IAM(Keycloak)" "OIDC/IAM"
           ("POST /admin/realms → " +:+ tenant_id) None None ;;
      audit "neocloud-os" "iam.realm.create" tenant_id "success" (Some tenant_id) ;;
      mret realm
  end.

(** [_find_client]: the first client with that id, realm by realm, together with
    its realm *)
Definition has_client (client_id : string) (r : IamRealm) : option OidcClient :=
  find_first (λ c, String.eqb (cl_client_id c) client_id) (rm_clients r).
Fixpoint find_client_in (client_id : string) (rs : list IamRealm) : option (IamRealm * OidcClient) :=
  match rs with
  | [] => None
  | r :: rs' =>
      match has_client client_id r with
      | Some c => Some (r, c)
      | None => find_client_in client_id rs'
      end
  end.
Definition _find_client (client_id : string) : IO (option (IamRealm * OidcClient)) :=
  x_get (λ s, find_client_in client_id (dvalues (sh_realms s))).

(** Mutate the first element that satisfies [p] *)
Fixpoint upd_first {A} (p : A → bool) (f : A → A) (l : list A) : list A :=
  match l with
  | [] => []
  | x :: l' => if p x then f x :: l' else x :: upd_first p f l'
  end.

(** [issue_token] returns the access token; the constant members of its result
    are left out. *)
Definition issue_token (client_id actor : string) (order_id : option string) : IO string :=
  rc ← _find_client client_id;
  match rc with
  | Some (realm, client) =>
      if String.eqb (cl_state client) "active" then
        realm_mut (rm_realm realm) (λ r, r <| rm_clients ::=
          upd_first (λ c, String.eqb (cl_client_id c) client_id)
                    (λ c, c <| cl_tokens_issued ::= λ n, (n + 1)%Z |>) |>) ;;
        tok ← token;
        emit "NeoCloudOS.SharedSvc" "IAM(Keycloak)" "OIDC/IAM"
             ("POST /realms/" +:+ rm_realm realm +:+ "/protocol/openid-connect/token")
             order_id None ;;
        audit actor "iam.token.issue" client_id "success" (Some (rm_realm realm)) ;;
        mret ("eyJ.fake." +:+ tok)
      else
        audit actor "iam.token.issue" client_id "denied" None ;;
        http 403 ("iam: client '" +:+ client_id +:+ "' not active")
  | None =>
      audit actor "iam.token.issue" client_id "denied" None ;;
      http 403 ("iam: client '" +:+ client_id +:+ "' not active")
  end.

(** [s[-n:]] *)
Definition str_suffix (n : nat) (s : string) : string :=
  String.substring (String.length s - n) n s.

Definition issue_service_account (tenant_id order_id : string) : IO OidcClient :=
  realms ← x_get sh_realms;
  (match dget realms tenant_id with
   | Some r => mret r
   | None => create_realm tenant_id tenant_id
   end) ≫= λ _,
  tok ← token;
  let secret := "nc_" +:+ tok in
  t ← now;
  let client := mkClient ("sa-" +:+ order_id) "service-account"
                  "nodes:read storage:mount telemetry:write" (Some order_id) false 0
                  ("nc_****" +:+ str_suffix 4 secret) "active" t in
  realm_mut tenant_id (λ r, r <| rm_clients ::= λ l, l ++ [client] |>) ;;
  upd_shared (λ s, s <| sh_sa_secrets ::= λ d, dset d order_id secret |>) ;;
  emit "NeoCloudOS.M1" "IAM(Keycloak)" "OIDC/IAM"
       ("POST /admin/realms/" +:+ tenant_id +:+ "/clients → sa-" +:+ order_id)
       (Some order_id) None ;;
  issue_token (cl_client_id client) "neocloud-os" (Some order_id) ≫= λ _,
  r ← x_get (λ s, dget (sh_realms s) tenant_id);
  mret (default client (r ≫= λ r, last (rm_clients r))).

(** [pop_sa_secret]: the default is evaluated, so a token is always drawn. *)
Definition pop_sa_secret (order_id : string) : IO string :=
  tok ← token;
  secrets ← x_get sh_sa_secrets;
  upd_shared (λ s, s <| sh_sa_secrets ::= λ d, ddel d order_id |>) ;;
  mret (default ("nc_" +:+ tok) (dget secrets order_id)).

Definition write_secret (path kind tenant_ref : string) (order_id : option string)
    : IO SecretEntry :=
  prev ← x_get (λ s, dget (sh_secrets s) path);
  tok ← token;
  t ← now;
  let entry := mkSecret path kind tenant_ref order_id
                 match prev with Some p => se_version p + 1 | None => 1 end
                 (String.substring 0 3 kind +:+ "_****" +:+ tok) t in
  upd_shared (λ s, s <| sh_secrets ::= λ d, dset d path entry |>) ;;
  emit "NeoCloudOS.M1" "Vault" "Vault" ("PUT /v1/secret/" +:+ path) order_id None ;;
  audit "neocloud-os" "vault.secret.write" path "success" (Some tenant_ref) ;;
  mret entry.

(** [revoke_order_credentials]: the ids of the revoked clients and the paths of
    the purged secrets *)
Definition revocable (source_order_id : string) (c : OidcClient) : bool :=
  bool_decide (cl_order_id c = Some source_order_id) && String.eqb (cl_state c) "active".
Definition revoke_order_credentials (tenant_id source_order_id reclaim_order_id : string)
    : IO (list string * list string) :=
  realm ← x_get (λ s, dget (sh_realms s) tenant_id);
  let revoked := match realm with
                 | Some r => cl_client_id <$> filterb (revocable source_order_id) (rm_clients r)
                 | None => []
                 end in
  realm_mut tenant_id (λ r, r <| rm_clients ::= fmap (λ c,
    if revocable source_order_id c then c <| cl_state := "revoked" |> else c) |>) ;;
  secrets ← x_get sh_secrets;
  let purged := fst <$> filterb (λ pe, bool_decide (se_order_id pe.2 = Some source_order_id)) secrets in
  for_each purged (λ p, upd_shared (λ s, s <| sh_secrets ::= λ d, ddel d p |>)) ;;
  when (negb (bool_decide (revoked = []) && bool_decide (purged = [])))
    (emit "NeoCloudOS.M1" "IAM(Keycloak)" "OIDC/IAM"
          ("DELETE /admin/realms/" +:+ tenant_id +:+ "/clients") (Some reclaim_order_id) None ;;
     emit "NeoCloudOS.M1" "Vault" "Vault"
          ("DELETE /v1/secret/tenants/" +:+ tenant_id +:+ "/" +:+ source_order_id)
          (Some reclaim_order_id) None ;;
     audit "neocloud-os" "iam.credentials.revoke" (tenant_id +:+ "/" +:+ source_order_id)
           "success" (Some tenant_id)) ;;
  mret (revoked, purged).

Definition pam_open (operator target reason : string) (ttl_s : Z) : IO PamSession :=
  seq ← next_shared_seq;
  t ← now;
  let sess := mkPam ("pam-" +:+ str_of_Z seq) operator target reason ttl_s "active" t None in
  upd_shared (λ s, s <| sh_pam_sessions ::= λ d, dset d (pm_id sess) sess |>) ;;
  emit "Operator" "PAM" "PAM" ("POST /pam/sessions → " +:+ pm_id sess) None None ;;
  audit operator "pam.session.open" target "success" None ;;
  mret sess.

Definition pam_close (session_id : string) : IO PamSession :=
  sess ← x_get (λ s, dget (sh_pam_sessions s) session_id);
  match sess with
  | None => http 404 ("pam: session '" +:+ session_id +:+ "' not found")
  | Some sess =>
      t ← now;
      let sess' := sess <| pm_state := "closed" |> <| pm_closed_at := Some t |> in
      upd_shared (λ s, s <| sh_pam_sessions ::= λ d, dset d session_id sess' |>) ;;
      emit "Operator" "PAM" "PAM" ("POST /pam/sessions/" +:+ session_id +:+ "/close") None None ;;
      audit (pm_operator sess) "pam.session.close" (pm_target sess) "success" None ;;
      mret sess'
  end.

(** [GET /audit]: the latest [limit] entries, newest first *)
Definition audit_trail (tenant_ref : option string) (limit : Z) : IO (list AuditEntry) :=
  log ← x_get sh_audit_log;
  let items := if truthy tenant_ref
               then filterb (λ a, bool_decide (au_tenant_ref a = tenant_ref)) log else log in
  let keep := if (limit =? 0)%Z then items
              else if (0 <? limit)%Z then drop (length items - Z.to_nat limit) items
              else drop (Z.to_nat (- limit)) items in
  mret (reverse keep).

(** The other reads of the REST surface, and the token route *)
Definition list_realms : IO (list IamRealm) := x_get (λ s, dvalues (sh_realms s)).
Definition get_realm (tenant_id : string) : IO IamRealm :=
  r ← x_get (λ s, dget (sh_realms s) tenant_id);
  match r with
  | Some r => mret r
  | None => http 404 ("iam: realm '" +:+ tenant_id +:+ "' not found")
  end.
Definition token_route (client_id : string) : IO string := issue_token client_id "api" None.
Definition list_secrets (tenant_ref : option string) : IO (list SecretEntry) :=
  items ← x_get (λ s, dvalues (sh_secrets s));
  mret (if truthy tenant_ref
        then filterb (λ e, bool_decide (Some (se_tenant_ref e) = tenant_ref)) items else items).
Definition list_pam_sessions : IO (list PamSession) := x_get (λ s, dvalues (sh_pam_sessions s)).

(** Creating a realm raises nothing. *)
Lemma create_realm_total t d : Total (create_realm t d).
Proof. unfold create_realm, audit, next_shared_seq, x_get. solve_raises. Qed.

(** The shared services have no access to the store. *)
Lemma store_audit a c t r n : Steps (same w_store) (audit a c t r n).
Proof. unfold audit, next_shared_seq, x_get. solve_steps. Qed.
#[global] Hint Resolve store_audit : steps.
Lemma store_create_realm t d : Steps (same w_store) (create_realm t d).
Proof. unfold create_realm, x_get. solve_steps. Qed.
Lemma store_issue_token c a o : Steps (same w_store) (issue_token c a o).
Proof. unfold issue_token, _find_client, realm_mut, x_get. solve_steps. Qed.
#[global] Hint Resolve store_create_realm store_issue_token : steps.
Lemma store_issue_service_account t o : Steps (same w_store) (issue_service_account t o).
Proof. unfold issue_service_account, realm_mut, x_get. solve_steps. Qed.
Lemma store_pop_sa_secret o : Steps (same w_store) (pop_sa_secret o).
Proof. unfold pop_sa_secret, x_get. solve_steps. Qed.
Lemma store_write_secret p k t o : Steps (same w_store) (write_secret p k t o).
Proof. unfold write_secret, x_get. solve_steps. Qed.
Lemma store_revoke t s r : Steps (same w_store) (revoke_order_credentials t s r).
Proof. unfold revoke_order_credentials, realm_mut, x_get. solve_steps. Qed.
Lemma store_pam_open o t r n : Steps (same w_store) (pam_open o t r n).
Proof. unfold pam_open, next_shared_seq, x_get. solve_steps. Qed.
Lemma store_pam_close i : Steps (same w_store) (pam_close i).
Proof. unfold pam_close, x_get. solve_steps. Qed.
#[global] Hint Resolve store_pam_open store_pam_close : steps.
#[global] Hint Resolve store_issue_service_account store_pop_sa_secret store_write_secret
  store_revoke : steps.

End Shared.
