(* ===== verification/Spec.v ===== *)
(** * Hardware catalogue and address ranges (app/spec.py) *)
From Stdlib Require Import QArith.
From stdpp Require Import strings base decidable option numbers list relations.
From S2P Require Import Prelude PyLib World.
Local Open Scope string_scope.
Local Open Scope list_scope.
Local Open Scope py_scope.

Module Spec.

Definition RACKS_PER_SU : Z := 14.
Definition CMX_RACKS_PER_SU : Z := 2.

(** [RackBlueprint] *)
Record RackBlueprint := mkBlueprint {
  key : string; model : string; mgx_generation : string; gpu_arch : string; cpu_arch : string;
  compute_trays : Z; nvlink_switch_trays : Z; nvswitch_asics_per_tray : Z;
  gpu_per_tray : Z; cpu_per_tray : Z;
  gpu_hbm_gb : Z; gpu_hbm_type : string; gpu_dies : Z; cpu_cores : Z; cpu_mem_tb : Q;
  nvlink_gen : string; nvlink_per_gpu_tbps : Q;
  rack_tdp_kw : Z; maxq_rack_kw : Z; maxp_rack_kw : Z; power_shelf_kw : Z; power_shelves : Z;
  cooling : string;
  dpu_sku : string; dpu_bw_gbps : Z; dpu_per_tray : Z; connectx_supernics_per_tray : Z;
  racks_per_su : Z; hac_tdp_mw : Q; preliminary : bool
}.
Definition gpu_per_rack (b : RackBlueprint) : Z := compute_trays b * gpu_per_tray b.
Definition cpu_per_rack (b : RackBlueprint) : Z := compute_trays b * cpu_per_tray b.
Definition gpu_per_su (b : RackBlueprint) : Z := gpu_per_rack b * racks_per_su b.

Definition BLUEPRINTS : dict RackBlueprint :=
  [("gb200-nvl72",
    mkBlueprint "gb200-nvl72" "GB200 NVL72" "MGX Gen 1.1" "Blackwell (B200)" "Grace"
      18 9 2 4 2 192 "HBM3e" 2 72 (48 # 100) "NVLink5" (18 # 10)
      120 120 120 33 8 "hybrid" "BF3" 400 1 4 RACKS_PER_SU 0 false);
   ("gb300-nvl72",
    mkBlueprint "gb300-nvl72" "GB300 NVL72" "MGX Gen 1.1" "Blackwell Ultra (B300)" "Grace"
      18 9 2 4 2 288 "HBM3e" 2 72 (48 # 100) "NVLink5" (18 # 10)
      135 135 135 33 8 "liquid" "BF3" 800 1 8 RACKS_PER_SU 0 true);
   ("vr-nvl72",
    mkBlueprint "vr-nvl72" "Vera Rubin NVL72" "MGX Gen 1.2" "Rubin" "Vera"
      18 9 4 4 2 288 "HBM4" 2 88 (144 # 100) "NVLink6" (36 # 10)
      227 187 227 110 4 "liquid" "BF4-B4240V" 800 1 8 16 (39 # 10) false)].

Definition DEFAULT_BLUEPRINT : string := "vr-nvl72".

Definition get_blueprint (k : string) : IO RackBlueprint :=
  match dget BLUEPRINTS k with
  | Some b => mret b
  | None => raise (KeyError ("unknown rack blueprint '" +:+ k +:+ "'; choose from "
                             +:+ repr_list (sorted String.leb (dkeys BLUEPRINTS))))
  end.

(** The fabrics, the coolant limit and the layers of isolation *)
Record IbFabric := mkIb {
  ib_networks : list string; ib_rails_per_network : Z; ib_leaves_per_network_per_su : Z; ib_node_links_per_su : Z;
  ib_link_speed_gbps : Z; ib_tier2_max_su : Z; ib_tier3_max_su : Z; ib_spine_racks_per_su : Z; ib_spine_rack_kw : Z
}.
Definition IB_FABRIC : IbFabric := mkIb ["Fabric-A"; "Fabric-B"] 4 16 2304 800 9 32 4 56.
Record ConvergedFabric := mkConverged {
  cf_tier2_max_su : Z; cf_spines_per_su_tier3 : Z; cf_leaves_per_su_tier3 : Z
}.
Definition CONVERGED_FABRIC : ConvergedFabric := mkConverged 4 4 12.
Definition TCS_MAX_SUPPLY_C : Q := 45.
Definition ISOLATION_LAYERS : list string :=
  ["identity"; "process"; "compute_virtualization"; "compute_isolation"].
(** [get_spec] of topology.py *)
Record SpecReport := mkSpecReport {
  sp_racks_per_su : dict Z; sp_default_blueprint : string; sp_blueprints : list string;
  sp_ib_fabric : IbFabric; sp_converged_fabric : ConvergedFabric; sp_tcs_max_supply_c : Q;
  sp_isolation_layers : list string
}.
Definition get_spec : SpecReport :=
  mkSpecReport ((λ '(k, b), (k, racks_per_su b)) <$> BLUEPRINTS) DEFAULT_BLUEPRINT
    (sorted String.leb (dkeys BLUEPRINTS)) IB_FABRIC CONVERGED_FABRIC TCS_MAX_SUPPLY_C ISOLATION_LAYERS.

(** [VNI_RANGES[fabric]]: inclusive bounds *)
Definition VNI_RANGES : dict (Z * Z) :=
  [("compute", (10000, 19999)%Z); ("converged", (20000, 29999)%Z); ("oob", (30000, 39999)%Z)].

End Spec.
