(* ===== verification/Seed.v ===== *)
(** * Seeding and blueprint-based provisioning (app/seed.py)

    [provision_scalable_unit] expands a blueprint into a scalable unit with its
    racks, trays, GPUs, CPUs, DPUs and NVLink switch trays; [seed_default] builds
    the sites of phase 1, or one factory with the given blueprints, and the pool
    of CPU nodes.  The demo samples are in Assembly.v. *)
From Stdlib Require Import QArith.
From stdpp Require Import strings base decidable option numbers list.
From S2P Require Import Prelude PyLib Models PortalModels World Spec.
Local Open Scope string_scope.
Local Open Scope list_scope.
Local Open Scope py_scope.

Module Seed.
Import Spec.

(** [range(n)] *)
Definition range (n : Z) : list Z := seqZ 0 n.
(** [_pad(n)] for [n >= 0] *)
Definition _pad (n : Z) : string := pad2 (Z.to_nat n).

Definition rack_name (su_id : string) (r : Z) : string := su_id +:+ "-rack-" +:+ _pad r.
Definition tray_name (rack_id : string) (t : Z) : string := rack_id +:+ "-tray-" +:+ _pad t.
Definition gpu_name (tray_id : string) (g : Z) : string := tray_id +:+ "-gpu-" +:+ str_of_Z g.
Definition cpu_name (tray_id : string) (c : Z) : string := tray_id +:+ "-cpu-" +:+ str_of_Z c.
Definition dpu_name (tray_id : string) : string := tray_id +:+ "-dpu".
Definition nvsw_name (rack_id : string) (n : Z) : string := rack_id +:+ "-nvsw-" +:+ str_of_Z n.

(** One tray with what it holds *)
Definition new_gpu (bp : RackBlueprint) (tray_id : string) (g : Z) : GPU :=
  mkGPU (gpu_name tray_id g) tray_id g (gpu_arch bp) (gpu_hbm_gb bp) (gpu_hbm_type bp)
    (gpu_dies bp) HW_ready None.
Definition new_cpu (bp : RackBlueprint) (tray_id : string) (c : Z) : CPU :=
  mkCPU (cpu_name tray_id c) tray_id c (cpu_arch bp) (cpu_cores bp) (cpu_mem_tb bp).
Definition has_dpu (bp : RackBlueprint) : bool := negb (dpu_per_tray bp =? 0)%Z.
Definition new_tray (bp : RackBlueprint) (rack_id : string) (t : Z) : ComputeTray :=
  let tray_id := tray_name rack_id t in
  mkTray tray_id rack_id t (gpu_name tray_id <$> range (gpu_per_tray bp))
    (cpu_name tray_id <$> range (cpu_per_tray bp))
    (if has_dpu bp then Some (dpu_name tray_id) else None) (connectx_supernics_per_tray bp)
    HW_ready None.
Definition add_tray (bp : RackBlueprint) (rack_id : string) (t : Z) : IO unit :=
  let tray_id := tray_name rack_id t in
  for_each (range (gpu_per_tray bp)) (λ g, s_set st_gpus (gpu_name tray_id g) (new_gpu bp tray_id g)) ;;
  for_each (range (cpu_per_tray bp)) (λ c, s_set st_cpus (cpu_name tray_id c) (new_cpu bp tray_id c)) ;;
  when (has_dpu bp)
    (s_set st_dpus (dpu_name tray_id)
       (mkDPU (dpu_name tray_id) tray_id (dpu_sku bp) (dpu_bw_gbps bp) DPU_dpu None)) ;;
  s_set st_trays tray_id (new_tray bp rack_id t).

(** One rack *)
Definition new_rack (bp : RackBlueprint) (cap_kw : Z) (su_id : string) (r : Z) : Rack :=
  let rack_id := rack_name su_id r in
  mkRack rack_id su_id r (key bp) (model bp) (mgx_generation bp) (gpu_arch bp)
    (su_id +:+ "-hac") (rack_tdp_kw bp) cap_kw (cooling bp)
    (tray_name rack_id <$> range (compute_trays bp))
    (nvsw_name rack_id <$> range (nvlink_switch_trays bp)) HW_ready None.
Definition add_rack (bp : RackBlueprint) (cap_kw : Z) (su_id : string) (r : Z) : IO unit :=
  let rack_id := rack_name su_id r in
  for_each (range (compute_trays bp)) (add_tray bp rack_id) ;;
  for_each (range (nvlink_switch_trays bp)) (λ n,
    s_set st_nvlink_trays (nvsw_name rack_id n)
      (mkNVTray (nvsw_name rack_id n) rack_id n (nvswitch_asics_per_tray bp))) ;;
  s_set st_racks rack_id (new_rack bp cap_kw su_id r).

Definition su_name (su_index : Z) : string := "su-" +:+ str_of_Z su_index.
Definition new_su (bp : RackBlueprint) (du_id : option string) (su_index rack_count : Z)
    : ScalableUnit :=
  let su_id := su_name su_index in
  mkSU su_id du_id su_index (su_id +:+ "-hac") (key bp) (rack_name su_id <$> range rack_count)
    CMX_RACKS_PER_SU HW_ready.

(** [provision_scalable_unit]; [racks or bp.racks_per_su] *)
Definition provision_scalable_unit (factory_id : string) (du_id : option string) (su_index : Z)
    (blueprint_key power_policy : string) (racks : option Z) : IO ScalableUnit :=
  bp ← get_blueprint blueprint_key;
  let cap_kw := if String.eqb power_policy "maxq" then maxq_rack_kw bp else maxp_rack_kw bp in
  let rack_count := match racks with
                    | Some n => if (n =? 0)%Z then racks_per_su bp else n
                    | None => racks_per_su bp
                    end in
  let su := new_su bp du_id su_index rack_count in
  for_each (range rack_count) (add_rack bp cap_kw (su_id su)) ;;
  s_set st_sus (su_id su) su ;;
  match du_id with
  | Some d =>
      if truthy_str d then
        s_mut st_dus d (λ du, if memb (su_id su) (du_su_ids du) then du
                              else du <| du_su_ids ::= λ l, l ++ [su_id su] |>)
      else mret tt
  | None => mret tt
  end ;;
  mret su.

(** ** Phase 1 *)
Record Floor := mkFloor { fl_name : string; fl_power_mw : Q; fl_ready : string; fl_racks : Z }.
Record Site := mkSite {
  si_id : string; si_name : string; si_site : string; si_design_power_mw : Q;
  si_floors : list Floor
}.
Definition PHASE1_SITES : list Site :=
  [mkSite "aif-stt-gasan" "STT 가산" "Seoul · STT Gasan" 9
     [mkFloor "1층 · 6MW" 6 "2027-03" 24; mkFloor "2층 · 3MW" 3 "2027-09" 12];
   mkSite "aif-igis-ansan" "IGIS 안산" "Ansan · IGIS" (233 # 10)
     [mkFloor "1층 · 12.9MW" (129 # 10) "2027-11" 54; mkFloor "2층 · 10.4MW" (104 # 10) "2028-01" 50]].

(** [_su_sizes]: the loop [while racks > per_su], on [fuel] rounds *)
Fixpoint su_sizes_loop (fuel : nat) (racks per_su : Z) : option (list Z) :=
  match fuel with
  | O => None
  | S fuel' =>
      if (per_su <? racks)%Z then cons per_su <$> su_sizes_loop fuel' (racks - per_su) per_su
      else Some [racks]
  end.
Definition _su_sizes (racks per_su : Z) : option (list Z) :=
  su_sizes_loop (S (Z.to_nat racks)) racks per_su.

(** The legacy path: one factory, one DU *)
Definition seed_blueprints (blueprints : list string) : IO unit :=
  s_set st_factories "aif-skt-01"
    (mkFactory "aif-skt-01" "SKT NVL72 AI Factory 01" "Seoul Metro (Gasan)" 250 ["block-1"]) ;;
  s_set st_blocks "block-1" (mkBlock "block-1" "aif-skt-01" 1 EmptyString 0 EmptyString ["du-1"]) ;;
  s_set st_dus "du-1" (mkDU "du-1" (Some "block-1") 1 []) ;;
  fold_m (λ i bp_key,
    provision_scalable_unit "aif-skt-01" (Some "du-1") i bp_key "maxq" None ≫= λ _, mret (i + 1)%Z)
    1%Z blueprints ≫= λ _, mret tt.

(** The sites: [su_idx] and [blk_idx] run through all of them *)
Definition seed_sus (factory_id du_id : string) (su_idx : Z) (sizes : list Z) : IO Z :=
  fold_m (λ su_idx n_racks,
    provision_scalable_unit factory_id (Some du_id) (su_idx + 1) "vr-nvl72" "maxq" (Some n_racks)
      ≫= λ _, mret (su_idx + 1)%Z) su_idx sizes.
Definition seed_floor (site : Site) (acc : Z * Z * Z) (floor : Floor) : IO (Z * Z * Z) :=
  let '(fl_no, blk_idx, su_idx) := acc in
  let blk_idx := (blk_idx + 1)%Z in
  let block_id := si_id site +:+ "-f" +:+ str_of_Z fl_no in
  let du_id := "du-" +:+ str_of_Z blk_idx in
  s_set st_blocks block_id
    (mkBlock block_id (si_id site) blk_idx (fl_name floor) (fl_power_mw floor) (fl_ready floor)
       [du_id]) ;;
  s_mut st_factories (si_id site) (λ f, f <| f_block_ids ::= λ l, l ++ [block_id] |>) ;;
  s_set st_dus du_id (mkDU du_id (Some block_id) blk_idx []) ;;
  vr ← get_blueprint "vr-nvl72";
  sizes ← or_raise (_su_sizes (fl_racks floor) (racks_per_su vr)) (ValueError "does not return");
  su_idx ← seed_sus (si_id site) du_id su_idx sizes;
  mret (fl_no + 1, blk_idx, su_idx)%Z.
Definition seed_site (acc : Z * Z) (site : Site) : IO (Z * Z) :=
  let '(blk_idx, su_idx) := acc in
  s_set st_factories (si_id site)
    (mkFactory (si_id site) (si_name site) (si_site site) (si_design_power_mw site) []) ;;
  '(_, blk_idx, su_idx) ← fold_m (seed_floor site) (1%Z, blk_idx, su_idx) (si_floors site);
  mret (blk_idx, su_idx).

(** The pool of CPU nodes, 1 to 60 *)
Definition cpu_node_name (n : Z) : string := "cpu-node-" +:+ _pad n.
Definition new_cpu_node (n : Z) : CpuNode :=
  mkCpuNode (cpu_node_name n) (cpu_node_name n +:+ "-dpu") "BF3" "AMD EPYC 9654" 96 (3 # 2)
    "pool_ready" "general" (Some ("nh-" +:+ cpu_node_name n)) None None EmptyString None.
Definition seed_cpu_nodes : IO unit :=
  for_each (seqZ 1 60) (λ n, s_set st_cpu_nodes (cpu_node_name n) (new_cpu_node n)).

Definition seed_default (blueprints : option (list string)) : IO unit :=
  store_reset ;;
  match blueprints with
  | Some ((_ :: _) as l) => seed_blueprints l
  | _ => fold_m seed_site (0%Z, 0%Z) PHASE1_SITES ≫= λ _, mret tt
  end ;;
  seed_cpu_nodes.

End Seed.
