(* ===== verification/StoreOps.v ===== *)
(** * The store's convenience lookups (app/store.py) *)
From Stdlib Require Import QArith.
From stdpp Require Import strings base decidable option numbers list relations.
From S2P Require Import Prelude PyLib Models World.
Local Open Scope string_scope.
Local Open Scope list_scope.
Local Open Scope py_scope.

(** [[d[k] for k in ks if k in d]] *)
Definition lookup_all {V} (d : dict V) (ks : list string) : list V := omap (dget d) ks.
Lemma elem_of_lookup_all {V} (d : dict V) ks v :
  v ∈ lookup_all d ks ↔ ∃ k, k ∈ ks ∧ dget d k = Some v.
Proof. unfold lookup_all. apply list_elem_of_omap. Qed.

Lemma lookup_all_ext {V} (d d' : dict V) ks :
  (∀ k, k ∈ ks → dget d' k = dget d k) → lookup_all d' ks = lookup_all d ks.
Proof.
  unfold lookup_all. induction ks as [|k ks IH]; intros H; cbn; [done|].
  rewrite (H k) by left. rewrite IH; [done|]. intros x Hx. apply H. by right.
Qed.
Lemma lookup_all_keys {V} (d : dict V) : dict_wf d → lookup_all d (dkeys d) = dvalues d.
Proof.
  assert (∀ e : dict V, (∀ k v, (k, v) ∈ e → dget d k = Some v) → lookup_all d (dkeys e) = dvalues e) as H.
  { unfold lookup_all, dkeys, dvalues. induction e as [|[k v] e IH]; intros H; cbn; [done|].
    rewrite (H k v) by left. rewrite IH; [done|]. intros k' v' Hin. apply H. by right. }
  intros Hd. apply H. intros k v. by apply in_dget.
Qed.

Section lookups.
Implicit Types s : Store.

Definition block_has_su s (su_id did : string) : bool :=
  match dget (st_dus s) did with Some du => memb su_id (du_su_ids du) | None => false end.
Definition factory_has_su s (su_id : string) (f : AIFactory) : bool :=
  anyb (λ bid, match dget (st_blocks s) bid with
               | Some b => anyb (block_has_su s su_id) (bk_du_ids b)
               | None => false
               end) (f_block_ids f).
(** [factory_of_su]: the site of an SU *)
Definition factory_of_su s (su_id : string) : option AIFactory :=
  find_first (factory_has_su s su_id) (dvalues (st_factories s)).

Definition racks_of_su s (su_id : string) : list Rack :=
  match dget (st_sus s) su_id with
  | None => []
  | Some su => lookup_all (st_racks s) (su_rack_ids su)
  end.
Definition trays_of_rack s (rack_id : string) : list ComputeTray :=
  match dget (st_racks s) rack_id with
  | None => []
  | Some r => lookup_all (st_trays s) (rk_tray_ids r)
  end.
Definition gpus_of_rack s (rack_id : string) : list GPU :=
  concat ((λ t, lookup_all (st_gpus s) (t_gpu_ids t)) <$> trays_of_rack s rack_id).
Definition allocations_of_tenant s (tenant_id : string) : list Allocation :=
  filterb (λ a, String.eqb (al_tenant_id a) tenant_id) (dvalues (st_allocations s)).
Definition allocation_for_rack s (rack_id : string) : option Allocation :=
  find_first (λ a, memb rack_id (al_rack_ids a)) (dvalues (st_allocations s)).
Definition partitions_of_rack s (rack_id : string) : list NVLinkPartition :=
  filterb (λ p, String.eqb (p_rack_id p) rack_id) (dvalues (st_partitions s)).
Definition nodes_of_rack s (rack_id : string) : list NodeInstance :=
  filterb (λ n, String.eqb (n_rack_id n) rack_id) (dvalues (st_node_instances s)).
Definition node_by_nico_host s (nico_host_id : string) : option NodeInstance :=
  find_first (λ n, String.eqb (n_nico_host_id n) nico_host_id) (dvalues (st_node_instances s)).
End lookups.
