(* ===== verification/Adapters.v ===== *)
(** * The adapter seam (app/adapters.py)

    [ComputeAdapter] is the protocol the order pipeline speaks: a record of
    operations.  [LocalNicoAdapter] is the in-process instance; the REST
    instance [NicoHttpAdapter] is in NicoRest.v, and whoever uses an adapter takes
    it as a parameter.  [AdapterFrame] is what the pipeline may assume of either:
    an adapter acts on the site controller and reports on the trace bus, and
    never touches the control plane's own state. *)
From Stdlib Require Import QArith.
From stdpp Require Import strings base decidable option numbers list relations.
From S2P Require Import Prelude PyLib Models World NicoSim VastSim.
Local Open Scope string_scope.
Local Open Scope list_scope.
Local Open Scope py_scope.

(** ** The protocols *)
Record ComputeAdapter := mkAdapter {
  a_list_hosts : IO (list NicoHost);
  a_get_host : string → IO NicoHost;
  a_reserve : string → IO NicoHost;
  a_unreserve : string → IO NicoHost;
  a_provision : string → string → IO NicoJob;
  a_allocate : string → string → IO NicoHost;
  a_release : string → IO NicoJob;
  a_abort_provision : string → IO NicoHost;
  a_sanitize : string → IO NicoJob;
  a_get_sanitize_report : string → IO SanitizeReport;
  a_get_job : string → IO NicoJob;
  a_cordon : string → string → IO NicoHost;
  a_create_segment : string → string → Z → Z → list string → option string → option Z → IO NicoSegment;
  a_delete_segment : string → IO NicoSegment;
  a_list_segments : IO (list NicoSegment);
  a_attach_hosts : string → list string → string → IO NicoSegment
}.

Record StorageAdapter := mkStorageAdapter {
  v_create_view : string → string → string → option string → IO VastView;
  v_set_quota : string → Q → IO VastView;
  v_set_qos : string → Q → Q → IO VastView;
  v_delete_view : string → IO VastView;
  v_list_views : IO (list VastView)
}.

Definition LocalNicoAdapter : ComputeAdapter :=
  mkAdapter Nico.list_hosts Nico.get_host Nico.reserve Nico.unreserve Nico.provision
    Nico.allocate Nico.release Nico.abort_provision Nico.sanitize Nico.get_sanitize_report
    Nico.get_job Nico.cordon Nico.create_segment Nico.delete_segment Nico.list_segments
    Nico.attach_hosts.
Definition LocalVastAdapter : StorageAdapter :=
  mkStorageAdapter Vast.create_view Vast.set_quota Vast.set_qos Vast.delete_view Vast.list_views.

(** [get_adapter] and [get_storage_adapter] of lifecycle.py; [http] is the REST
    adapter for a base URL. *)
Definition get_adapter (http : string → ComputeAdapter) : IO ComputeAdapter :=
  url ← getenv "NOCP_NICO_URL";
  mret match url with
       | Some u => if truthy_str u then http u else LocalNicoAdapter
       | None => LocalNicoAdapter
       end.
Definition get_storage_adapter : StorageAdapter := LocalVastAdapter.

(** [wait_job]: poll a job until it leaves the running state; [max_polls] is the
    loop bound. *)
Fixpoint wait_job_loop (adapter : ComputeAdapter) (max_polls : nat) (n : nat) (job : NicoJob)
    : IO NicoJob :=
  match n with
  | O => http 504 ("nico job '" +:+ j_id job +:+ "' (" +:+ j_op job +:+ ") still running after "
                   +:+ str_of_nat max_polls +:+ " polls")
  | S n' =>
      if negb (String.eqb (j_state job) "running") then mret job
      else job' ← a_get_job adapter (j_id job); wait_job_loop adapter max_polls n' job'
  end.
Definition wait_job (adapter : ComputeAdapter) (job : NicoJob) : IO NicoJob :=
  wait_job_loop adapter 60 60 job.

(** ** What an adapter may touch *)
Class AdapterFrame (a : ComputeAdapter) : Prop := {
  af_list_hosts : Steps (same cplane) (a_list_hosts a);
  af_get_host h : Steps (same cplane) (a_get_host a h);
  af_reserve h : Steps (same cplane) (a_reserve a h);
  af_unreserve h : Steps (same cplane) (a_unreserve a h);
  af_provision h i : Steps (same cplane) (a_provision a h i);
  af_allocate h t : Steps (same cplane) (a_allocate a h t);
  af_release i : Steps (same cplane) (a_release a i);
  af_abort h : Steps (same cplane) (a_abort_provision a h);
  af_sanitize h : Steps (same cplane) (a_sanitize a h);
  af_report h : Steps (same cplane) (a_get_sanitize_report a h);
  af_get_job j : Steps (same cplane) (a_get_job a j);
  af_cordon h r : Steps (same cplane) (a_cordon a h r);
  af_create_segment t v l c h al p : Steps (same cplane) (a_create_segment a t v l c h al p);
  af_delete_segment sg : Steps (same cplane) (a_delete_segment a sg);
  af_list_segments : Steps (same cplane) (a_list_segments a);
  af_attach sg h p : Steps (same cplane) (a_attach_hosts a sg h p)
}.
#[export] Hint Resolve af_list_hosts af_get_host af_reserve af_unreserve af_provision af_allocate
  af_release af_abort af_sanitize af_report af_get_job af_cordon af_create_segment
  af_delete_segment af_list_segments af_attach : steps.

(** The in-process simulator keeps to it. *)
#[export] Instance LocalNico_frame : AdapterFrame LocalNicoAdapter.
Proof. split; intros; simpl; eauto with steps. Qed.
(** Whichever adapter is selected keeps to it. *)
Lemma with_adapter (http : string → ComputeAdapter) `{!∀ url, AdapterFrame (http url)} {A}
    (R : relation World) (k : ComputeAdapter → IO A) :
  (∀ a, AdapterFrame a → Steps R (k a)) → Steps R (a ← get_adapter http; k a).
Proof.
  intros Hk w. unfold get_adapter, getenv. run.
  destruct (env_var _ _) as [u|]; [destruct (truthy_str u)|]; apply Hk; apply _.
Qed.

Lemma wait_job_frame a `{!AdapterFrame a} j : Steps (same cplane) (wait_job a j).
Proof.
  unfold wait_job. generalize 60%nat at 2. intros n. revert j.
  induction n as [|n IH]; intros j; simpl; solve_steps.
Qed.
#[export] Hint Resolve wait_job_frame : steps.
