(* ===== verification/Polling.v ===== *)
(** * Waiting for the jobs of the site controller

    [wait_job] against the in-process simulator: how many polls a job may take,
    and what is returned. *)
From Stdlib Require Import QArith.
From stdpp Require Import strings base decidable option numbers list relations.
From S2P Require Import Prelude PyLib Models World NicoSim NicoMachine Adapters.
Local Open Scope string_scope.
Local Open Scope list_scope.
Local Open Scope py_scope.
Import Nico NicoMachine.

Module Polling.

(** A running job that needs [p] more polls, on a host that NICo knows *)
Record pending (n : FakeNico) (j : NicoJob) (h : NicoHost) (p : Z) : Prop := {
  pn_job : dget (nc_jobs n) (j_id j) = Some j;
  pn_running : j_state j = "running";
  pn_polls : j_remaining_polls j = p;
  pn_host : dget (nc_hosts n) (j_host_id j) = Some h;
  pn_keyed : h_id h = j_host_id j;
  pn_op : job_op (j_op j) (String.eqb (j_detail j) "will-fail")
}.
Definition ends (j : NicoJob) : string :=
  if String.eqb (j_detail j) "will-fail" then "failed" else "succeeded".
(** The job is recorded as finished, and its host has what the job does to it. *)
Record settled (n : FakeNico) (j : NicoJob) (h : NicoHost) (j' : NicoJob) : Prop := {
  st_job : dget (nc_jobs n) (j_id j) = Some j';
  st_state : j_state j' = ends j;
  st_host : dget (nc_hosts n) (j_host_id j)
              = Some (finished (j_op j) (String.eqb (j_detail j) "will-fail") h)
}.

Lemma poll_pending n j h p :
  pending n j h p → (1 < p)%Z →
  triple n (get_job (j_id j)) (λ r n', ∃ j', r = Ok j' ∧ pending n' j' h (p - 1)
    ∧ j_id j' = j_id j ∧ j_op j' = j_op j ∧ j_detail j' = j_detail j ∧ j_host_id j' = j_host_id j).
Proof.
  intros [Hj Hr Hp Hh Hk Hop] Hlt. unfold get_job. triple_run. rewrite Hj. triple_run. rewrite Hr.
  cbn -[_finish_job]. triple_run. rewrite Hp. destruct (p - 1 <=? 0)%Z eqn:E; [lia|].
  triple_run. cbn. rewrite dget_dupd_eq, Hj. cbn. eexists. split; [done|].
  split_and!; try done. split; cbn; try done.
  - by rewrite dget_dupd_eq, Hj.
  - by rewrite Hp.
Qed.
Lemma poll_last n j h p :
  pending n j h p → (p ≤ 1)%Z →
  triple n (get_job (j_id j)) (λ r n', ∃ j', r = Ok j' ∧ settled n' j h j').
Proof.
  intros [Hj Hr Hp Hh Hk Hop] Hle. unfold get_job. triple_run. rewrite Hj. triple_run. rewrite Hr.
  cbn -[_finish_job]. triple_run. rewrite Hp. destruct (p - 1 <=? 0)%Z eqn:E; [|lia].
  eapply triple_finish; [exact Hh|exact Hk|exact Hop|]. intros n' [Hhost Hjobs _ _ _]. cbn in *.
  triple_run. rewrite Hjobs, !dget_dupd_eq, Hj. cbn. eexists. split; [done|]. split.
  - by rewrite Hjobs, !dget_dupd_eq, Hj.
  - unfold ends, job_outcome. by destruct (String.eqb (j_detail j) "will-fail").
  - apply Hhost.
Qed.

Lemma ends_not_running j : String.eqb (ends j) "running" = false.
Proof. unfold ends. by destruct (String.eqb _ "will-fail"). Qed.
Lemma wait_loop_settled k m n j0 h j Q :
  settled n j0 h j → (0 < k)%nat → Q (Ok j) n →
  triple n (wait_job_loop LocalNicoAdapter m k j) Q.
Proof.
  intros Hs Hk HQ. destruct k as [|k]; [lia|]. cbn. rewrite (st_state _ _ _ _ Hs), ends_not_running.
  cbn. by apply triple_ret.
Qed.
(** [k] rounds see the end of a job that needs fewer than [k] polls. *)
Lemma wait_loop_spec m k p n j h :
  pending n j h (Z.of_nat p) → (0 < p)%nat →
  triple n (wait_job_loop LocalNicoAdapter m k j)
    (λ r n', if (p <? k)%nat then ∃ j', r = Ok j' ∧ settled n' j h j'
             else (∃ d, r = Raised (HTTPException 504 d))
                  ∧ (p = k → ∃ j', settled n' j h j')).
Proof.
  revert k n j. induction p as [|p IH]; intros k n j Hp H0; [lia|].
  destruct k as [|k].
  { cbn. apply triple_raise. cbn. split; [by eexists|done]. }
  cbn [wait_job_loop]. rewrite (pn_running _ _ _ _ Hp). cbn [negb String.eqb].
  change (a_get_job LocalNicoAdapter) with get_job. apply triple_bind.
  destruct p as [|p].
  - eapply triple_mono; [eapply poll_last; [exact Hp|lia]|]. intros r n' (j' & -> & Hs).
    destruct k as [|k].
    + cbn. apply triple_raise. cbn. split; [by eexists|eauto].
    + eapply wait_loop_settled; [exact Hs|lia|]. cbn. eauto.
  - eapply triple_mono; [eapply poll_pending; [exact Hp|lia]|].
    intros r n' (j' & -> & Hp' & Eid & Eop & Ed & Eh).
    replace (Z.of_nat (S (S p)) - 1)%Z with (Z.of_nat (S p)) in Hp' by lia.
    eapply triple_mono; [eapply IH; [exact Hp'|lia]|]. intros r2 n2.
    assert (∀ x, settled n2 j' h x → settled n2 j h x) as Hset.
    { intros x [A B C]. split; [by rewrite <-Eid|unfold ends in *; by rewrite <-Ed|].
      by rewrite <-Eh, <-Eop, <-Ed. }
    change (S (S p) <? S k)%nat with (S p <? k)%nat. destruct (S p <? k)%nat.
    + intros (x & -> & Hs). eauto.
    + intros [He Hs]. split; [done|]. intros [= E]. destruct Hs as [x Hs]; [lia|eauto].
Qed.

End Polling.
