(* ===== verification/Tenancy.v ===== *)
(** * Multi-tenancy and isolation (app/tenancy.py)

    Tenants with their network isolation, allocations of racks, NVLink
    partitions, and the isolation report. *)
From Stdlib Require Import QArith.
From stdpp Require Import strings base decidable option numbers list relations.
From S2P Require Import Prelude PyLib Models World SharedSvc Spec StoreOps.
Local Open Scope string_scope.
Local Open Scope list_scope.
Local Open Scope py_scope.

Module Tenancy.

Definition _slug (name : string) : string := strip (sub_runs false (lower name)).

(** ** VNI pool *)
Definition vnis_of (ni : NetworkIsolation) : list Z :=
  [ni_compute_l3vni ni; ni_converged_vni ni; ni_oob_vni ni].
Definition used_vnis (s : Store) : list Z := concat (vnis_of <$> dvalues (st_netiso s)).
(** [range(lo, hi + 1)] *)
Fixpoint count_from (lo : Z) (n : nat) : list Z :=
  match n with O => [] | S n' => lo :: count_from (lo + 1)%Z n' end.
Definition z_range (lo hi : Z) : list Z := count_from lo (Z.to_nat (hi - lo + 1)).
Definition vni_free (s : Store) (vni : Z) : bool := negb (List.existsb (Z.eqb vni) (used_vnis s)).

Definition _alloc_vni (fabric : string) : IO Z :=
  range ← or_raise (dget Spec.VNI_RANGES fabric) (KeyError fabric);
  s ← store;
  match find_first (vni_free s) (z_range range.1 range.2) with
  | Some vni => mret vni
  | None => http 507 ("VNI pool exhausted for fabric '" +:+ fabric +:+ "'")
  end.

Definition _default_dpu_mode (tier : IsolationTier) : DPUMode :=
  match tier with
  | IT_bare_metal_dedicated => DPU_dpu
  | IT_vm_multitenant => DPU_dpu_zero_trust
  | IT_k8s_namespace => DPU_dpu
  end.

(** ** Binding a rack

    [set_rack] is the shape [_bind_rack] and [_release_rack] share: the rack, its
    trays, their DPUs and their GPUs are given to a tenant or to nobody. *)
Definition set_rack (rack_id : string) (tenant : option string) (state : HwState)
    (dpu_mode : DPUMode) : IO unit :=
  rack ← s_idx st_racks rack_id;
  s_mut st_racks rack_id (λ r, r <| rk_tenant_id := tenant |> <| rk_state := state |>) ;;
  for_each (rk_tray_ids rack) (λ tid,
    tray ← s_get st_trays tid;
    match tray with
    | None => mret tt
    | Some tray =>
        s_mut st_trays tid (λ t, t <| t_tenant_id := tenant |>) ;;
        s ← store;
        match t_dpu_id tray with
        | Some did =>
            when (truthy_str did && dmem (st_dpus s) did)
              (s_mut st_dpus did (λ d, d <| d_tenant_id := tenant |> <| d_mode := dpu_mode |>))
        | None => mret tt
        end ;;
        for_each (t_gpu_ids tray) (λ gid,
          when (dmem (st_gpus s) gid)
            (s_mut st_gpus gid (λ g, g <| g_tenant_id := tenant |> <| g_state := state |>)))
    end).
Definition _bind_rack (rack_id tenant_id : string) (dpu_mode : DPUMode) : IO unit :=
  set_rack rack_id (Some tenant_id) HW_allocated dpu_mode.
Definition _release_rack (rack_id : string) : IO unit :=
  set_rack rack_id None HW_ready DPU_dpu.

(** ** Tenants *)
Definition create_tenant (body : TenantCreate) : IO Tenant :=
  let tid := "tnt-" +:+ _slug (tc_name body) in
  s ← store;
  if dmem (st_tenants s) tid then http 409 ("tenant '" +:+ tid +:+ "' already exists")
  else
    let tenant := mkTenant tid (tc_name body) (tc_isolation_tier body) (tc_sla_tier body)
                    (tc_notes body) in
    s_set st_tenants tid tenant ;;
    c ← _alloc_vni "compute";
    v ← _alloc_vni "converged";
    o ← _alloc_vni "oob";
    s_set st_netiso tid (mkNet tid c v o ("VRF-" +:+ _slug (tc_name body)) None) ;;
    Shared.create_realm tid (tc_name body) ≫= λ _,
    mret tenant.

Definition list_tenants : IO (list Tenant) := s_values st_tenants.
Definition get_tenant (tenant_id : string)
    : IO (Tenant * option NetworkIsolation * list Allocation) :=
  s ← store;
  match dget (st_tenants s) tenant_id with
  | None => http 404 ("tenant '" +:+ tenant_id +:+ "' not found")
  | Some t => mret (t, dget (st_netiso s) tenant_id, allocations_of_tenant s tenant_id)
  end.

(** ** Allocations *)
Definition resolve_racks (body : AllocationCreate) (su : ScalableUnit) : IO (list string) :=
  s ← store;
  match ac_scope body with
  | SC_scalable_unit => mret (su_rack_ids su)
  | SC_hac =>
      mret (rk_id <$> filterb (λ r, String.eqb (rk_hac_id r) (su_hac_id su))
                              (racks_of_su s (su_id su)))
  | SC_rack_set =>
      match ac_rack_ids body with
      | None | Some [] => http 422 "rack_set scope requires rack_ids"
      | Some rids =>
          for_each rids (λ rid,
            match dget (st_racks s) rid with
            | Some r =>
                if String.eqb (rk_su_id r) (su_id su) then mret tt
                else http 422 ("rack '" +:+ rid +:+ "' not in scalable unit '" +:+ su_id su +:+ "'")
            | None => http 422 ("rack '" +:+ rid +:+ "' not in scalable unit '" +:+ su_id su +:+ "'")
            end) ;;
          mret rids
      end
  end.

(** [r.tenant_id not in (None, tid)] *)
Definition held_by_other (tid : string) (r : Rack) : bool :=
  match rk_tenant_id r with Some o => negb (String.eqb o tid) | None => false end.

Definition check_conflicts (rack_ids : list string) : IO unit :=
  s ← store;
  for_each rack_ids (λ rid,
    match allocation_for_rack s rid with
    | Some existing =>
        http 409 ("rack '" +:+ rid +:+ "' already allocated to tenant '"
                  +:+ al_tenant_id existing +:+ "'")
    | None => mret tt
    end).
Definition check_dedicated (tenant : Tenant) (su : ScalableUnit) (rack_ids : list string) : IO unit :=
  s ← store;
  if bool_decide (tn_isolation_tier tenant = IT_bare_metal_dedicated) then
    for_each (racks_of_su s (su_id su)) (λ r,
      if negb (memb (rk_id r) rack_ids) && held_by_other (tn_id tenant) r then
        http 409 ("bare-metal-dedicated tenant cannot share SU '" +:+ su_id su +:+ "' (rack '"
                  +:+ rk_id r +:+ "' held by '" +:+ default EmptyString (rk_tenant_id r) +:+ "')")
      else mret tt)
  else mret tt.

Definition create_allocation (body : AllocationCreate) : IO Allocation :=
  s ← store;
  match dget (st_tenants s) (ac_tenant_id body) with
  | None => http 404 ("tenant '" +:+ ac_tenant_id body +:+ "' not found")
  | Some tenant =>
      match dget (st_sus s) (ac_su_id body) with
      | None => http 404 ("scalable unit '" +:+ ac_su_id body +:+ "' not found")
      | Some su =>
          rack_ids ← resolve_racks body su;
          check_conflicts rack_ids ;;
          check_dedicated tenant su rack_ids ;;
          let dpu_mode := default (_default_dpu_mode (tn_isolation_tier tenant)) (ac_dpu_mode body) in
          n ← next_seq "alloc";
          let aid := "alloc-" +:+ str_of_Z n in
          let alloc := mkAlloc aid (tn_id tenant) (ac_scope body) (su_id su) rack_ids dpu_mode
                         HW_allocated in
          for_each rack_ids (λ rid, _bind_rack rid (tn_id tenant) dpu_mode) ;;
          s_set st_allocations aid alloc ;;
          mret alloc
      end
  end.

Definition drop_partitions (rid tenant_id : string) : IO unit :=
  s ← store;
  for_each (partitions_of_rack s rid) (λ p,
    when (String.eqb (p_tenant_id p) tenant_id) (s_del st_partitions (p_id p))).
Definition delete_allocation (alloc_id : string) : IO (string * list string) :=
  alloc ← s_get st_allocations alloc_id;
  match alloc with
  | None => http 404 ("allocation '" +:+ alloc_id +:+ "' not found")
  | Some alloc =>
      for_each (al_rack_ids alloc) (λ rid,
        drop_partitions rid (al_tenant_id alloc) ;;
        _release_rack rid) ;;
      s_del st_allocations alloc_id ;;
      mret (alloc_id, al_rack_ids alloc)
  end.

(** ** NVLink partitions *)
Definition claimed_trays (s : Store) (rack_id : string) : list string :=
  concat (p_tray_ids <$> partitions_of_rack s rack_id).
Definition create_partition (body : PartitionCreate) : IO NVLinkPartition :=
  s ← store;
  match dget (st_racks s) (pc_rack_id body) with
  | None => http 404 ("rack '" +:+ pc_rack_id body +:+ "' not found")
  | Some rack =>
      if negb (dmem (st_tenants s) (pc_tenant_id body)) then
        http 404 ("tenant '" +:+ pc_tenant_id body +:+ "' not found")
      else if negb (bool_decide (rk_tenant_id rack = Some (pc_tenant_id body))) then
        http 409 ("rack '" +:+ rk_id rack +:+ "' is not allocated to tenant '"
                  +:+ pc_tenant_id body +:+ "'")
      else
        for_each (pc_tray_ids body) (λ tid,
          if memb tid (rk_tray_ids rack) then mret tt
          else http 422 ("tray '" +:+ tid +:+ "' not in rack '" +:+ rk_id rack +:+ "'")) ;;
        let overlap := remove_dups (filterb (λ t, memb t (claimed_trays s (rk_id rack)))
                                            (pc_tray_ids body)) in
        match overlap with
        | _ :: _ => http 409 ("trays already in a partition: "
                              +:+ repr_list (sorted String.leb overlap))
        | [] =>
            let pno := (Z.of_nat (length (partitions_of_rack s (rk_id rack))) + 1)%Z in
            let pid := rk_id rack +:+ "-part-" +:+ str_of_Z pno in
            let part := mkPart pid (rk_id rack) pno (pc_tray_ids body) (pc_tenant_id body)
                          HW_allocated in
            s_set st_partitions pid part ;;
            mret part
        end
  end.

Definition list_partitions (rack_id tenant_id : option string) : IO (list NVLinkPartition) :=
  parts ← s_values st_partitions;
  let parts := if truthy rack_id
               then filterb (λ p, bool_decide (Some (p_rack_id p) = rack_id)) parts else parts in
  mret (if truthy tenant_id
        then filterb (λ p, bool_decide (Some (p_tenant_id p) = tenant_id)) parts else parts).

Definition vni_map : IO (list NetworkIsolation) := s_values st_netiso.

(** ** The isolation report *)
Definition tenant_racks (s : Store) (tid : string) : list string :=
  concat (al_rack_ids <$> allocations_of_tenant s tid).
(** The racks of co-tenants in the SUs of a tenant's allocations *)
Definition shared_racks (s : Store) (tid : string) : list string :=
  concat ((λ a, match dget (st_sus s) (al_su_id a) with
                | None => []
                | Some su => rk_id <$> filterb (held_by_other tid) (racks_of_su s (su_id su))
                end) <$> allocations_of_tenant s tid).
(** [mine & theirs] is not empty *)
Definition vni_overlap (x y : NetworkIsolation) : bool :=
  anyb (λ v, List.existsb (Z.eqb v) (vnis_of y)) (vnis_of x).
Definition collisions (s : Store) (tid : string) (ni : NetworkIsolation) : list string :=
  concat ((λ '(other_id, other),
    if String.eqb other_id tid then []
    else (if vni_overlap ni other then [other_id] else [])
         ++ (if String.eqb (ni_vrf other) (ni_vrf ni) then [other_id] else []))
    <$> st_netiso s).

Definition physical_finding (s : Store) (t : Tenant) (tid : string) : IsolationFinding :=
  if bool_decide (tn_isolation_tier t = IT_bare_metal_dedicated) then
    match shared_racks s tid with
    | [] => mkFinding "pass" "physical" "Dedicated SU/HAC boundary — no co-tenant racks."
    | shared => mkFinding "fail" "physical"
        ("Dedicated tenant shares SU with others at racks " +:+ repr_list shared +:+ ".")
    end
  else mkFinding "pass" "physical"
    ("Tier '" +:+ IsolationTier_value (tn_isolation_tier t)
     +:+ "': shared SU permitted; isolation enforced at network/DPU layer.").
Definition network_finding (s : Store) (tid : string) : IsolationFinding :=
  match dget (st_netiso s) tid with
  | None => mkFinding "fail" "network" "No VNI/VRF binding for tenant."
  | Some ni =>
      match collisions s tid ni with
      | [] => mkFinding "pass" "network"
          ("Unique L3VNI=" +:+ str_of_Z (ni_compute_l3vni ni) +:+ ", VRF=" +:+ ni_vrf ni
           +:+ " across Compute/Converged/OOB fabrics.")
      | collide => mkFinding "fail" "network"
          ("VNI/VRF collision with tenants "
           +:+ repr_list (sorted String.leb (remove_dups collide)) +:+ ".")
      end
  end.
Definition dpu_findings (s : Store) (t : Tenant) (tid : string) : list IsolationFinding :=
  (λ a, mkFinding "warn" "process"
     ("Allocation " +:+ al_id a +:+ ": vm_multitenant on shared fabric should use DPU Zero-Trust mode."))
  <$> filterb (λ a, bool_decide (tn_isolation_tier t = IT_vm_multitenant)
                    && negb (bool_decide (al_dpu_mode a = DPU_dpu_zero_trust)))
              (allocations_of_tenant s tid).
Definition partitions_of_tenant (s : Store) (tid : string) : list NVLinkPartition :=
  filterb (λ p, String.eqb (p_tenant_id p) tid) (dvalues (st_partitions s)).
Definition partition_findings (s : Store) (tid : string) : list IsolationFinding :=
  ((λ p, mkFinding "fail" "compute_isolation"
      ("Partition " +:+ p_id p +:+ " on rack not allocated to tenant."))
   <$> filterb (λ p, negb (memb (p_rack_id p) (tenant_racks s tid))) (partitions_of_tenant s tid))
  ++ match partitions_of_tenant s tid with
     | [] => []
     | parts => [mkFinding "pass" "compute_isolation"
         (str_of_nat (length parts) +:+ " NVLink partition(s) bound within tenant domains.")]
     end.
Definition isolation_findings (s : Store) (t : Tenant) (tid : string) : list IsolationFinding :=
  [mkFinding "pass" "identity" "Tenant-scoped access control in effect.";
   physical_finding s t tid; network_finding s tid]
  ++ dpu_findings s t tid ++ partition_findings s tid.

Definition isolation_report (tenant_id : string) : IO IsolationReport :=
  s ← store;
  match dget (st_tenants s) tenant_id with
  | None => http 404 ("tenant '" +:+ tenant_id +:+ "' not found")
  | Some t =>
      let findings := isolation_findings s t tenant_id in
      let ok := negb (anyb (λ f, String.eqb (if_severity f) "fail") findings) in
      mret (mkReport tenant_id ok findings)
  end.

End Tenancy.
