(* ===== verification/Binding.v ===== *)
(** * Racks belong to at most one tenant

    The invariant that ties racks to allocations, and its preservation by every
    operation of the control plane. *)
From Stdlib Require Import QArith.
From stdpp Require Import strings base decidable option numbers list relations.
From S2P Require Import Prelude PyLib Models World SharedSvc Spec StoreOps Tenancy.
Local Open Scope string_scope.
Local Open Scope list_scope.
Local Open Scope py_scope.
Import Tenancy.

(** ** The invariant *)
Definition alloc_count (s : Store) : Z := default 0%Z (dget (st_counters s) "alloc").
(** Allocation [k] of the store holds rack [rid] for tenant [t]. *)
Definition holds (s : Store) (k rid t : string) : Prop :=
  ∃ a, dget (st_allocations s) k = Some a ∧ rid ∈ al_rack_ids a ∧ al_tenant_id a = t.

Record binding (s : Store) : Prop := {
  b_keys : dict_wf (st_allocations s);
  b_named k a : dget (st_allocations s) k = Some a → al_id a = k;
  b_count : (0 ≤ alloc_count s)%Z;
  b_fresh n : (alloc_count s < n)%Z → dget (st_allocations s) ("alloc-" +:+ str_of_Z n) = None;
  b_rack_id rid r : dget (st_racks s) rid = Some r → rk_id r = rid;
  b_su_racks k su rid : dget (st_sus s) k = Some su → rid ∈ su_rack_ids su →
    is_Some (dget (st_racks s) rid);
  b_racks_exist k rid t : holds s k rid t → is_Some (dget (st_racks s) rid);
  (** no rack is in two allocations *)
  b_exclusive k k' rid t t' : holds s k rid t → holds s k' rid t' → k = k';
  (** a rack carries the tenant of the allocation that holds it, and no other *)
  b_tenant rid r t : dget (st_racks s) rid = Some r →
    rk_tenant_id r = Some t ↔ ∃ k, holds s k rid t
}.

(** The part of the store the invariant speaks of *)
Record alloc_view := mkAllocView {
  av_sus : dict ScalableUnit; av_racks : dict Rack; av_allocs : dict Allocation;
  av_count : Z
}.
Definition aview (s : Store) : alloc_view :=
  mkAllocView (st_sus s) (st_racks s) (st_allocations s) (alloc_count s).
Lemma binding_view s s' : aview s' = aview s → binding s → binding s'.
Proof.
  unfold aview. intros [= Es Er Ea Ec] []. split; unfold holds in *; rewrite ?Es, ?Er, ?Ea, ?Ec; eauto.
Qed.

Definition keeps_binding (s s' : Store) : Prop := binding s → binding s'.
#[export] Instance keeps_binding_preorder : PreOrder keeps_binding.
Proof. unfold keeps_binding. split; [by intros s|intros s1 s2 s3; tauto]. Qed.
Lemma keeps_binding_view s s' : aview s' = aview s → keeps_binding s s'.
Proof. intros H ?. by eapply binding_view. Qed.
Abbreviation KeepsBinding := (Steps (on_store keeps_binding)).

(** ** What binding a rack does to the racks *)
Definition bind_of (t : option string) (st : HwState) (r : Rack) : Rack :=
  r <| rk_tenant_id := t |> <| rk_state := st |>.
(** Everything of the store that binding leaves alone *)
Record unbound_view := mkUnboundView {
  uv_sus : dict ScalableUnit; uv_allocs : dict Allocation; uv_counters : dict Z;
  uv_parts : dict NVLinkPartition; uv_tenants : dict Tenant; uv_netiso : dict NetworkIsolation;
  uv_nodes : dict NodeInstance; uv_orders : dict ServiceOrder; uv_cpus : dict CpuNode
}.
Definition uview (s : Store) : unbound_view :=
  mkUnboundView (st_sus s) (st_allocations s) (st_counters s) (st_partitions s) (st_tenants s)
    (st_netiso s) (st_node_instances s) (st_orders s) (st_cpu_nodes s).

Definition set_tray (tenant : option string) (state : HwState) (dpu_mode : DPUMode) (tid : string)
    : IO unit :=
  tray ← s_get st_trays tid;
  match tray with
  | None => mret tt
  | Some tray =>
      s_mut st_trays tid (λ t, t <| t_tenant_id := tenant |>) ;;
      s ← store;
      match t_dpu_id tray with
      | Some did =>
          when (truthy_str did && dmem (st_dpus s) did)
            (s_mut st_dpus did (λ d, d <| d_tenant_id := tenant |> <| d_mode := dpu_mode |>))
      | None => mret tt
      end ;;
      for_each (t_gpu_ids tray) (λ gid,
        when (dmem (st_gpus s) gid)
          (s_mut st_gpus gid (λ g, g <| g_tenant_id := tenant |> <| g_state := state |>)))
  end.
Lemma set_rack_unfold rid t st m :
  set_rack rid t st m =
  (rack ← s_idx st_racks rid;
   s_mut st_racks rid (bind_of t st) ;;
   for_each (rk_tray_ids rack) (set_tray t st m)).
Proof. reflexivity. Qed.

Definition tray_view (s : Store) := (uview s, st_racks s).
Lemma set_tray_total t st m tid : Total (set_tray t st m tid).
Proof. unfold set_tray. solve_raises. Qed.
Lemma set_tray_frame t st m tid : Steps (same (λ w, tray_view (w_store w))) (set_tray t st m tid).
Proof.
  assert (∀ {V} (p : Store → dict V) `{!Setter p} k f,
    (∀ s, tray_view (s <| p ::= λ d, dupd d k f |>) = tray_view s) →
    Steps (same (λ w, tray_view (w_store w))) (s_mut p k f)) as Hmut.
  { intros V p ? k f H w. unfold same. apply H. }
  unfold set_tray. solve_steps; try (by apply Hmut); intros w; reflexivity.
Qed.

(** A rack that exists is bound; the rest of [uview] stays. *)
Lemma set_rack_run rid t st m w r :
  dget (st_racks (w_store w)) rid = Some r →
  ∃ w', set_rack rid t st m w = (Ok tt, w')
    ∧ uview (w_store w') = uview (w_store w)
    ∧ st_racks (w_store w') = dupd (st_racks (w_store w)) rid (bind_of t st).
Proof.
  intros Hr. rewrite set_rack_unfold. run. rewrite Hr. cbn.
  set (w1 := w <| w_store ::= _ |>).
  destruct (total_run (for_each (rk_tray_ids r) (set_tray t st m)) w1) as [[] E].
  { apply raises_for_each. intros. apply set_tray_total. }
  rewrite E. eexists. split; [reflexivity|].
  assert (tray_view (w_store (for_each (rk_tray_ids r) (set_tray t st m) w1).2)
          = tray_view (w_store w1)) as Hv.
  { apply (steps_for_each (same (λ w, tray_view (w_store w)))). intros. apply set_tray_frame. }
  split; [exact (f_equal fst Hv)|exact (f_equal snd Hv)].
Qed.
Lemma set_rack_missing rid t st m w :
  dget (st_racks (w_store w)) rid = None → set_rack rid t st m w = (Raised (KeyError rid), w).
Proof. intros Hr. rewrite set_rack_unfold. run. by rewrite Hr. Qed.

(** Binding a list of racks, all of which exist *)
Lemma bind_racks_run (rids : list string) (body : string → IO unit) t st m w :
  (∀ rid, body rid = set_rack rid t st m) →
  (∀ rid, rid ∈ rids → is_Some (dget (st_racks (w_store w)) rid)) →
  ∃ w', for_each rids body w = (Ok tt, w')
    ∧ uview (w_store w') = uview (w_store w)
    ∧ ∀ k, dget (st_racks (w_store w')) k
           = if memb k rids then bind_of t st <$> dget (st_racks (w_store w)) k
             else dget (st_racks (w_store w)) k.
Proof.
  intros Hbody. revert w. induction rids as [|rid rids IH]; intros w Hex.
  - exists w. split_and!; [done|done|]. intros k. done.
  - destruct (Hex rid (list_elem_of_here _ _)) as [r Hr].
    destruct (set_rack_run rid t st m w r Hr) as (w1 & E1 & U1 & R1).
    destruct (IH w1) as (w2 & E2 & U2 & R2).
    { intros k Hk. rewrite R1, dget_dupd. destruct (String.eqb_spec k rid) as [->|].
      - rewrite Hr. by eexists.
      - apply Hex. by right. }
    exists w2. split_and!.
    + cbn. unfold mbind, M_bind. by rewrite Hbody, E1, E2.
    + congruence.
    + intros k. rewrite R2, R1, dget_dupd. unfold memb. cbn.
      destruct (String.eqb_spec k rid) as [->|]; cbn; [|done].
      rewrite Hr. cbn. by destruct (anyb _ rids).
Qed.

(** ** Binding reaches the devices

    The trays of the rack, their GPUs and their DPUs follow the rack. *)
Definition bind_tray (t : option string) (x : ComputeTray) : ComputeTray := x <| t_tenant_id := t |>.
Definition bind_gpu (t : option string) (st : HwState) (x : GPU) : GPU :=
  x <| g_tenant_id := t |> <| g_state := st |>.
Definition bind_dpu (t : option string) (m : DPUMode) (x : BlueFieldDPU) : BlueFieldDPU :=
  x <| d_tenant_id := t |> <| d_mode := m |>.
Definition tray_dpus (x : ComputeTray) : list string :=
  match t_dpu_id x with Some d => if truthy_str d then [d] else [] | None => [] end.
Definition gpus_under (s : Store) (tids : list string) : list string :=
  concat (t_gpu_ids <$> lookup_all (st_trays s) tids).
Definition dpus_under (s : Store) (tids : list string) : list string :=
  concat (tray_dpus <$> lookup_all (st_trays s) tids).
(** [d'] is [d] with [f] applied to the entries whose keys are in [ks]. *)
Definition mapped {V} (f : V → V) (ks : list string) (d d' : dict V) : Prop :=
  ∀ k, dget d' k = if memb k ks then f <$> dget d k else dget d k.
Lemma mapped_app {V} (f : V → V) ks ks' d d1 d2 :
  (∀ x, f (f x) = f x) → mapped f ks d d1 → mapped f ks' d1 d2 → mapped f (ks ++ ks') d d2.
Proof.
  intros Hf H1 H2 k. rewrite H2, H1. unfold memb, anyb. rewrite List.existsb_app.
  destruct (List.existsb _ ks), (List.existsb _ ks'); cbn; try done.
  destruct (dget d k); cbn; by rewrite ?Hf.
Qed.
Lemma mapped_nil {V} (f : V → V) d : mapped f [] d d.
Proof. by intros k. Qed.
Lemma mapped_dupd {V} (f : V → V) d k : mapped f [k] d (dupd d k f).
Proof.
  intros k'. rewrite dget_dupd. unfold memb. cbn. rewrite orb_false_r.
  by destruct (String.eqb_spec k' k) as [->|].
Qed.
Lemma mapped_missing {V} (f : V → V) d k : dmem d k = false → mapped f [k] d d.
Proof.
  intros Hk%dmem_false k'. unfold memb. cbn. rewrite orb_false_r.
  destruct (String.eqb_spec k' k) as [->|]; [by rewrite Hk|done].
Qed.

Definition devices (s : Store) := (st_trays s, st_dpus s, st_gpus s).
(** The loop over the GPUs of a tray *)
Lemma bind_gpus_run t st (s0 : Store) gids w :
  (∀ k, dmem (st_gpus s0) k = dmem (st_gpus (w_store w)) k) →
  ∃ w', for_each gids (λ gid, when (dmem (st_gpus s0) gid)
                                (s_mut st_gpus gid (bind_gpu t st))) w = (Ok tt, w')
    ∧ st_trays (w_store w') = st_trays (w_store w) ∧ st_dpus (w_store w') = st_dpus (w_store w)
    ∧ mapped (bind_gpu t st) gids (st_gpus (w_store w)) (st_gpus (w_store w')).
Proof.
  revert w. induction gids as [|g gids IH]; intros w Hm; cbn.
  { by eexists. }
  unfold mbind, M_bind. destruct (dmem (st_gpus s0) g) eqn:Hg; cbn.
  - destruct (IH (w <| w_store ::= λ s, s <| st_gpus ::= λ d, dupd d g (bind_gpu t st) |> |>))
      as (w' & E & Et & Ed & Hmap).
    { intros k. cbn. by rewrite Hm, dmem_dupd. }
    exists w'. split_and!; [exact E|exact Et|exact Ed|].
    by apply (mapped_app (bind_gpu t st) [g] gids _ _ _ (λ x, eq_refl) (mapped_dupd _ _ _)).
  - destruct (IH w Hm) as (w' & E & Et & Ed & Hmap). exists w'. split_and!; [done..|].
    apply (mapped_app (bind_gpu t st) [g] gids _ (st_gpus (w_store w)) _ (λ x, eq_refl)); [|done].
    apply mapped_missing. by rewrite <-Hm.
Qed.
Lemma set_tray_run t st m tid w :
  ∃ w', set_tray t st m tid w = (Ok tt, w')
    ∧ st_trays (w_store w') = dupd (st_trays (w_store w)) tid (bind_tray t)
    ∧ mapped (bind_gpu t st) (gpus_under (w_store w) [tid]) (st_gpus (w_store w)) (st_gpus (w_store w'))
    ∧ mapped (bind_dpu t m) (dpus_under (w_store w) [tid]) (st_dpus (w_store w)) (st_dpus (w_store w')).
Proof.
  unfold set_tray, gpus_under, dpus_under, lookup_all. run. cbn [omap list_omap].
  destruct (dget (st_trays (w_store w)) tid) as [tray|] eqn:Ht; cbn.
  2: { exists w. split_and!; [done| |apply mapped_nil..]. unfold dupd. by rewrite Ht. }
  rewrite !app_nil_r. unfold tray_dpus. set (w1 := w <| w_store ::= _ |>).
  destruct (t_dpu_id tray) as [did|];
    [destruct (truthy_str did); [destruct (dmem (st_dpus (w_store w)) did) eqn:Hd|]|]; cbn.
  - set (w2 := w1 <| w_store ::= _ |>).
    destruct (bind_gpus_run t st (w_store w1) (t_gpu_ids tray) w2) as (w' & E & Et & Ed & Hg); [done|].
    exists w'. split_and!; [exact E|exact Et|exact Hg|]. rewrite Ed. apply mapped_dupd.
  - destruct (bind_gpus_run t st (w_store w1) (t_gpu_ids tray) w1) as (w' & E & Et & Ed & Hg); [done|].
    exists w'. split_and!; [exact E|exact Et|exact Hg|]. rewrite Ed. by apply mapped_missing.
  - destruct (bind_gpus_run t st (w_store w1) (t_gpu_ids tray) w1) as (w' & E & Et & Ed & Hg); [done|].
    exists w'. split_and!; [exact E|exact Et|exact Hg|]. rewrite Ed. apply mapped_nil.
  - destruct (bind_gpus_run t st (w_store w1) (t_gpu_ids tray) w1) as (w' & E & Et & Ed & Hg); [done|].
    exists w'. split_and!; [exact E|exact Et|exact Hg|]. rewrite Ed. apply mapped_nil.
Qed.
(** The wiring of a tray does not change when it is bound. *)
Lemma under_dupd {B} (f : ComputeTray → list B) d t k tids :
  (∀ x, f (bind_tray t x) = f x) →
  concat (f <$> lookup_all (dupd d k (bind_tray t)) tids) = concat (f <$> lookup_all d tids).
Proof.
  intros Hf. unfold lookup_all. induction tids as [|x tids IH]; cbn; [done|]. rewrite dget_dupd.
  destruct (String.eqb_spec x k) as [->|]; destruct (dget d _); cbn; rewrite ?Hf, ?IH; done.
Qed.
Lemma set_trays_run t st m tids w :
  ∃ w', for_each tids (set_tray t st m) w = (Ok tt, w')
    ∧ mapped (bind_tray t) tids (st_trays (w_store w)) (st_trays (w_store w'))
    ∧ mapped (bind_gpu t st) (gpus_under (w_store w) tids) (st_gpus (w_store w)) (st_gpus (w_store w'))
    ∧ mapped (bind_dpu t m) (dpus_under (w_store w) tids) (st_dpus (w_store w)) (st_dpus (w_store w')).
Proof.
  revert w. induction tids as [|x tids IH]; intros w.
  { exists w. split_and!; [done|apply mapped_nil..]. }
  destruct (set_tray_run t st m x w) as (w1 & E1 & T1 & G1 & D1).
  destruct (IH w1) as (w2 & E2 & T2 & G2 & D2).
  exists w2. split_and!.
  - cbn. unfold mbind, M_bind. by rewrite E1, E2.
  - rewrite T1 in T2. by apply (mapped_app (bind_tray t) [x] tids _ _ _ (λ y, eq_refl) (mapped_dupd _ _ _)).
  - assert (gpus_under (w_store w) (x :: tids)
            = gpus_under (w_store w) [x] ++ gpus_under (w_store w1) tids) as ->.
    { unfold gpus_under. rewrite T1, under_dupd by done. unfold lookup_all. cbn.
      destruct (dget _ x); cbn; by rewrite ?app_nil_r. }
    by eapply mapped_app.
  - assert (dpus_under (w_store w) (x :: tids)
            = dpus_under (w_store w) [x] ++ dpus_under (w_store w1) tids) as ->.
    { unfold dpus_under. rewrite T1, under_dupd by done. unfold lookup_all. cbn.
      destruct (dget _ x); cbn; by rewrite ?app_nil_r. }
    by eapply mapped_app.
Qed.
Lemma set_rack_devices rid t st m w r :
  dget (st_racks (w_store w)) rid = Some r →
  ∃ w', set_rack rid t st m w = (Ok tt, w')
    ∧ mapped (bind_of t st) [rid] (st_racks (w_store w)) (st_racks (w_store w'))
    ∧ mapped (bind_tray t) (rk_tray_ids r) (st_trays (w_store w)) (st_trays (w_store w'))
    ∧ mapped (bind_gpu t st) (gpus_under (w_store w) (rk_tray_ids r)) (st_gpus (w_store w)) (st_gpus (w_store w'))
    ∧ mapped (bind_dpu t m) (dpus_under (w_store w) (rk_tray_ids r)) (st_dpus (w_store w)) (st_dpus (w_store w')).
Proof.
  intros Hr. destruct (set_rack_run rid t st m w r Hr) as (w' & E & _ & R). exists w'.
  split; [done|]. split; [rewrite R; apply mapped_dupd|].
  rewrite set_rack_unfold in E. run_in E. rewrite Hr in E.
  set (w1 := w <| w_store ::= _ |>) in E.
  destruct (set_trays_run t st m (rk_tray_ids r) w1) as (w2 & E2 & H). rewrite E2 in E.
  injection E as <-. exact H.
Qed.

(** ** Creating an allocation *)
Lemma in_allocation_for_rack s rid :
  allocation_for_rack s rid = None ↔ ∀ a, a ∈ dvalues (st_allocations s) → rid ∉ al_rack_ids a.
Proof.
  unfold allocation_for_rack. rewrite find_first_None.
  split; intros H a Ha; specialize (H a Ha); by apply memb_false.
Qed.
Lemma free_rack_spec s rid :
  allocation_for_rack s rid = None → ¬ ∃ k t, holds s k rid t.
Proof.
  intros H (k & t & a & Ha & Hin & _). pose proof (proj1 (in_allocation_for_rack _ _) H) as H'.
  eapply H'; [|exact Hin].
  by eapply dget_dvalues.
Qed.
Lemma racks_of_su_in s k r :
  binding s → r ∈ racks_of_su s k → dget (st_racks s) (rk_id r) = Some r.
Proof.
  intros Hb. unfold racks_of_su. destruct (dget _ _) as [su|]; [|intros H; by apply elem_of_nil in H].
  intros (rid & _ & Hr)%elem_of_lookup_all. by rewrite (b_rack_id _ Hb _ _ Hr).
Qed.

Ltac http_error := eexists; split; [|reflexivity]; exact I.
(** The racks that a request asks for, if it is well formed *)
Definition requested (s : Store) (body : AllocationCreate) (su : ScalableUnit) (rids : list string)
    : Prop :=
  match ac_scope body with
  | SC_scalable_unit => rids = su_rack_ids su
  | SC_hac => rids = rk_id <$> filterb (λ r, String.eqb (rk_hac_id r) (su_hac_id su))
                                       (racks_of_su s (su_id su))
  | SC_rack_set =>
      ac_rack_ids body = Some rids ∧ rids ≠ []
      ∧ ∀ rid, rid ∈ rids → ∃ r, dget (st_racks s) rid = Some r ∧ rk_su_id r = su_id su
  end.
Definition in_su (s : Store) (su : ScalableUnit) (rid : string) : bool :=
  match dget (st_racks s) rid with Some r => String.eqb (rk_su_id r) (su_id su) | None => false end.
Lemma resolve_racks_run body su w :
  (∃ rids, resolve_racks body su w = (Ok rids, w) ∧ requested (w_store w) body su rids)
  ∨ (∃ e, is_http e ∧ resolve_racks body su w = (Raised e, w)
          ∧ ∀ rids, ¬ requested (w_store w) body su rids).
Proof.
  unfold resolve_racks, requested. run. destruct (ac_scope body); [left; by eexists| |left; by eexists].
  destruct (ac_rack_ids body) as [[|x l]|];
    [right; eexists; split_and!; [|done|]; [done|by intros ? ([= <-] & ? & _)]| |
     right; eexists; split_and!; [|done|]; [done|by intros ? ([=] & _)]].
  set (body' := λ rid : string, _).
  destruct (for_each_check (in_su (w_store w) su) is_http (x :: l) body' w)
    as [[-> H]|(e & y & He & -> & Hy & Hpy)].
  - intros y. subst body'. unfold in_su. cbn. destruct (dget _ y) as [r|]; [destruct (String.eqb _ _)|]; [done|http_error..].
  - left. eexists. split_and!; [done..|]. intros y Hy%H. unfold in_su in Hy.
    destruct (dget _ y) as [r|]; [|done]. exists r. by apply String.eqb_eq in Hy.
  - right. exists e. split_and!; [done..|]. intros rids ([= <-] & _ & H).
    destruct (H y Hy) as (r & Hr & Hsu). unfold in_su in Hpy. rewrite Hr, Hsu in Hpy.
    by rewrite String.eqb_refl in Hpy.
Qed.
Lemma requested_exist s body k su rids rid :
  binding s → dget (st_sus s) k = Some su → requested s body su rids → rid ∈ rids →
  is_Some (dget (st_racks s) rid).
Proof.
  intros Hb Hsu. unfold requested. destruct (ac_scope body).
  - intros ->. by eapply b_su_racks.
  - intros (_ & _ & H) (r & -> & _)%H. by eexists.
  - intros -> (r & -> & [Hr _]%elem_of_filterb)%list_elem_of_fmap.
    rewrite (racks_of_su_in _ _ _ Hb Hr). by eexists.
Qed.

Lemma check_conflicts_run rids w :
  (check_conflicts rids w = (Ok tt, w)
   ∧ ∀ rid, rid ∈ rids → allocation_for_rack (w_store w) rid = None)
  ∨ (∃ e rid, is_http e ∧ check_conflicts rids w = (Raised e, w) ∧ rid ∈ rids
       ∧ is_Some (allocation_for_rack (w_store w) rid)).
Proof.
  unfold check_conflicts. run. set (body := λ rid : string, _).
  destruct (for_each_check (λ rid, bool_decide (allocation_for_rack (w_store w) rid = None)) is_http
              rids body w) as [[-> H]|(e & y & He & -> & Hy & Hpy)].
  - intros x. subst body. cbn. destruct (allocation_for_rack _ x); [http_error|done].
  - left. split; [done|]. intros rid Hin%H. by apply bool_decide_eq_true in Hin.
  - right. exists e, y. split_and!; [done..|]. apply bool_decide_eq_false in Hpy.
    destruct (allocation_for_rack _ y); [by eexists|done].
Qed.

(** A dedicated tenant shares its SU with nobody. *)
Definition undivided (s : Store) (t : Tenant) (su : ScalableUnit) (rids : list string) : Prop :=
  tn_isolation_tier t = IT_bare_metal_dedicated →
  ∀ r o, r ∈ racks_of_su s (su_id su) → rk_id r ∉ rids → rk_tenant_id r = Some o → o = tn_id t.
Lemma check_dedicated_run t su rids w :
  (check_dedicated t su rids w = (Ok tt, w) ∧ undivided (w_store w) t su rids)
  ∨ (∃ e, is_http e ∧ check_dedicated t su rids w = (Raised e, w)
          ∧ ¬ undivided (w_store w) t su rids).
Proof.
  unfold check_dedicated. run. destruct (bool_decide _) eqn:Ed;
    [apply bool_decide_eq_true in Ed|apply bool_decide_eq_false in Ed; left; split; [done|by intros ?]].
  set (body := λ r : Rack, _).
  destruct (for_each_check (λ r, negb (negb (memb (rk_id r) rids) && held_by_other (tn_id t) r))
              is_http (racks_of_su (w_store w) (su_id su)) body w)
    as [[-> H]|(e & r & He & -> & Hr & Hpr)].
  - intros r. subst body. cbn. destruct (_ && _); [http_error|done].
  - left. split; [done|]. intros _ r o Hr%H Hn Ho. apply memb_false in Hn. unfold held_by_other in Hr.
    rewrite Hn, Ho in Hr. cbn in Hr. destruct (String.eqb_spec o (tn_id t)); [done|discriminate Hr].
  - right. exists e. split_and!; [done..|]. intros Hu. apply negb_false_iff, andb_true_iff in Hpr as [Hn Ho].
    apply negb_true_iff, memb_false in Hn. unfold held_by_other in Ho.
    destruct (rk_tenant_id r) as [o|] eqn:E; [|done]. rewrite (Hu Ed r o Hr Hn E) in Ho.
    by rewrite String.eqb_refl in Ho.
Qed.

(** The bound racks and the new allocation, once the checks have passed *)
Definition new_alloc (body : AllocationCreate) (tenant : Tenant) (su : ScalableUnit)
    (rids : list string) (n : Z) : Allocation :=
  mkAlloc ("alloc-" +:+ str_of_Z n) (tn_id tenant) (ac_scope body) (su_id su) rids
    (default (_default_dpu_mode (tn_isolation_tier tenant)) (ac_dpu_mode body)) HW_allocated.
Definition allocated (s s' : Store) (a : Allocation) : Prop :=
  alloc_count s' = (alloc_count s + 1)%Z
  ∧ al_id a = "alloc-" +:+ str_of_Z (alloc_count s')
  ∧ st_sus s' = st_sus s
  ∧ st_allocations s' = dset (st_allocations s) (al_id a) a
  ∧ (∀ k, dget (st_racks s') k
          = if memb k (al_rack_ids a) then bind_of (Some (al_tenant_id a)) HW_allocated
                                            <$> dget (st_racks s) k
            else dget (st_racks s) k).

(** When an allocation is admitted, and for which racks *)
Record may_allocate (s : Store) (body : AllocationCreate) (t : Tenant) (su : ScalableUnit)
    (rids : list string) : Prop := {
  ma_tenant : dget (st_tenants s) (ac_tenant_id body) = Some t;
  ma_su : dget (st_sus s) (ac_su_id body) = Some su;
  ma_racks : requested s body su rids;
  ma_free rid : rid ∈ rids → allocation_for_rack s rid = None;
  ma_undivided : undivided s t su rids
}.
Lemma requested_unique s body su r r' : requested s body su r → requested s body su r' → r = r'.
Proof. unfold requested. destruct (ac_scope body); [congruence| |congruence]. intros [? _] [? _]. congruence. Qed.

(** Every branch of [create_allocation]: it fails exactly when the request is not
    admitted, with an HTTP error that leaves no trace; else it binds the racks. *)
Lemma create_allocation_run body w :
  binding (w_store w) →
  match create_allocation body w with
  | (Ok a, w') => ∃ t su, may_allocate (w_store w) body t su (al_rack_ids a)
      ∧ a = new_alloc body t su (al_rack_ids a) (alloc_count (w_store w) + 1)
      ∧ allocated (w_store w) (w_store w') a
      ∧ (∀ rid, rid ∈ al_rack_ids a → is_Some (dget (st_racks (w_store w)) rid))
  | (Raised e, w') => is_http e ∧ w' = w ∧ ∀ t su rids, ¬ may_allocate (w_store w) body t su rids
  end.
Proof.
  intros Hb. unfold create_allocation. run.
  destruct (dget (st_tenants (w_store w)) (ac_tenant_id body)) as [t|] eqn:Ht;
    [|split_and!; [done..|intros ??? []; congruence]].
  destruct (dget (st_sus (w_store w)) (ac_su_id body)) as [su|] eqn:Hsu;
    [|split_and!; [done..|intros ??? []; congruence]].
  assert (Huni : ∀ t' su' rids, may_allocate (w_store w) body t' su' rids → t' = t ∧ su' = su)
    by (intros ??? []; split; congruence).
  destruct (resolve_racks_run body su w) as [(rids & -> & Hreq)|(e & He & -> & Hno)].
  2: { split_and!; [done..|]. intros t' su' rids Hm. destruct (Huni _ _ _ Hm) as [-> ->].
       by apply (Hno rids), Hm. }
  assert (Hr : ∀ rids', may_allocate (w_store w) body t su rids' → rids' = rids)
    by (intros ? []; by eapply requested_unique).
  destruct (check_conflicts_run rids w) as [[-> Hfree]|(e & rid & He & -> & Hin & Hsome)].
  2: { split_and!; [done..|]. intros t' su' rids' Hm. destruct (Huni _ _ _ Hm) as [-> ->].
       rewrite (Hr _ Hm) in Hm. destruct Hsome as [x Hx].
       pose proof (ma_free _ _ _ _ _ Hm rid Hin). congruence. }
  destruct (check_dedicated_run t su rids w) as [[-> Hun]|(e & He & -> & Hun)].
  2: { split_and!; [done..|]. intros t' su' rids' Hm. destruct (Huni _ _ _ Hm) as [-> ->].
       rewrite (Hr _ Hm) in Hm. apply Hun, Hm. }
  assert (Hex : ∀ rid, rid ∈ rids → is_Some (dget (st_racks (w_store w)) rid))
    by (intros; by eapply requested_exist).
  set (w4 := w <| w_store ::= _ |>). set (n := (_ + 1)%Z) in *.
  destruct (bind_racks_run rids
              (λ rid, _bind_rack rid (tn_id t)
                        (default (_default_dpu_mode (tn_isolation_tier t)) (ac_dpu_mode body)))
              (Some (tn_id t)) HW_allocated
              (default (_default_dpu_mode (tn_isolation_tier t)) (ac_dpu_mode body)) w4)
    as (w5 & E5 & U5 & R5); [done|done|].
  rewrite E5. exists t, su. split; [by split|]. split; [done|]. split; [|done].
  unfold allocated, alloc_count. cbn.
  assert (st_counters (w_store w5) = dset (st_counters (w_store w)) "alloc" n) as Ec
    by exact (f_equal uv_counters U5).
  assert (st_sus (w_store w5) = st_sus (w_store w)) as Es by exact (f_equal uv_sus U5).
  assert (st_allocations (w_store w5) = st_allocations (w_store w)) as Ea
    by exact (f_equal uv_allocs U5).
  rewrite Ec, Ea, Es, dget_dset_eq. by cbn.
Qed.

Lemma create_allocation_parts body w :
  st_partitions (w_store (create_allocation body w).2) = st_partitions (w_store w).
Proof.
  assert (∀ rid t st m, Steps (same (λ w, st_partitions (w_store w))) (set_rack rid t st m)) as Hset.
  { intros rid t st m w0. destruct (dget (st_racks (w_store w0)) rid) as [r|] eqn:Hr.
    - destruct (set_rack_run rid t st m w0 r Hr) as (w' & E & U & _). unfold same.
      rewrite E. exact (f_equal uv_parts U).
    - by rewrite (set_rack_missing _ _ _ _ _ Hr). }
  assert (∀ rid t m, Steps (same (λ w, st_partitions (w_store w))) (_bind_rack rid t m)) as Hbind
    by (intros; apply Hset).
  assert (∀ n, Steps (same (λ w, st_partitions (w_store w))) (next_seq n)) as Hseq by (by intros n w0).
  assert (∀ k v, Steps (same (λ w, st_partitions (w_store w))) (s_set st_allocations k v)) as Hal
    by (by intros k v w0).
  assert (Steps (same (λ w, st_partitions (w_store w))) store) as Hst by (by intros w0).
  apply (steps_same_elim (λ w, st_partitions (w_store w))).
  unfold create_allocation, resolve_racks, check_conflicts, check_dedicated. solve_steps.
Qed.
Lemma create_allocation_keeps body : KeepsBinding (create_allocation body).
Proof.
  intros w Hb. pose proof (create_allocation_run body w Hb) as H.
  destruct (create_allocation body w) as [[a|e] w']; cbn; [|by destruct H as (_ & -> & _)].
  destruct H as (t0 & su0 & Hmay & _ & (Ec & Eid & Es & Ea & Er) & Hex).
  set (s := w_store w) in *. set (s' := w_store w') in *. clearbody s'.
  assert (dget (st_allocations s) (al_id a) = None) as Hnew.
  { rewrite Eid. apply b_fresh; [done|lia]. }
  (* who holds what after the allocation *)
  assert (Hholds : ∀ k rid t, holds s' k rid t ↔
    holds s k rid t ∨ (k = al_id a ∧ rid ∈ al_rack_ids a ∧ t = al_tenant_id a)).
  { intros k rid t. unfold holds. rewrite Ea. destruct (decide (k = al_id a)) as [->|Hne].
    - rewrite dget_dset_eq, Hnew. split.
      + intros (? & [= <-] & ? & <-). by right.
      + intros [(? & ? & _)|(_ & ? & ->)]; [done|]. by eexists.
    - rewrite dget_dset_ne by done. split; [by left|]. intros [?|(-> & _)]; [done|done]. }
  assert (Hrack : ∀ k, is_Some (dget (st_racks s') k) ↔ is_Some (dget (st_racks s) k)).
  { intros k. rewrite Er. destruct (memb k _); [|done]. by rewrite fmap_is_Some. }
  assert (Hdis : ∀ k rid t, holds s k rid t → rid ∉ al_rack_ids a).
  { intros k rid t Hh Hin. pose proof (ma_free _ _ _ _ _ Hmay rid Hin) as Hf.
    apply (free_rack_spec _ _ Hf). eauto. }
  destruct Hb. split.
  - rewrite Ea. auto.
  - intros k x. rewrite Ea. destruct (decide (k = al_id a)) as [->|].
    + rewrite dget_dset_eq. by intros [= ->].
    + rewrite dget_dset_ne by done. auto.
  - lia.
  - intros n Hn. rewrite Ea, dget_dset_ne; [apply b_fresh0; lia|]. rewrite Eid.
    intros E%(str_app_inj "alloc-")%str_of_Z_inj. lia.
  - intros rid r. rewrite Er. destruct (memb rid _); [|by apply b_rack_id0].
    destruct (dget (st_racks s) rid) eqn:Hr; cbn; [|done]. intros [= <-]. cbn. by apply b_rack_id0.
  - intros k su rid. rewrite Es, Hrack. apply b_su_racks0.
  - intros k rid t. rewrite Hholds, Hrack.
    intros [?|(_ & Hin & _)]; [by eapply b_racks_exist0|by apply Hex].
  - intros k k' rid t t'. rewrite !Hholds.
    intros [H1|(-> & H1 & _)] [H2|(-> & H2 & _)]; [by eapply b_exclusive0| | |done];
      exfalso; eapply Hdis; eauto.
  - intros rid r t Hr. setoid_rewrite Hholds. rewrite Er in Hr.
    destruct (memb rid (al_rack_ids a)) eqn:Hm.
    + apply memb_spec in Hm. destruct (dget (st_racks s) rid); [|done]. injection Hr as <-. cbn.
      split; [intros [= <-]; exists (al_id a); auto|].
      intros (k & [Hh|(_ & _ & ->)]); [|done]. exfalso. eapply Hdis; eauto.
    + apply memb_false in Hm. rewrite (b_tenant0 rid r t Hr).
      split; [intros (k & ?); eauto|]. intros (k & [?|(_ & ? & _)]); [eauto|done].
Qed.

(** ** Deleting an allocation *)
(** [uview] without the partitions *)
Definition dview (s : Store) : unbound_view := uview (s <| st_partitions := [] |>).
Lemma uview_dview s s' : uview s' = uview s → dview s' = dview s ∧ st_partitions s' = st_partitions s.
Proof. unfold dview, uview. cbn. intros [=]. split; congruence. Qed.

Definition drops (t : string) (p : NVLinkPartition) : bool := String.eqb (p_tenant_id p) t.
Definition drop_parts (d : dict NVLinkPartition) (l : list NVLinkPartition) (t : string)
    : dict NVLinkPartition :=
  foldl (λ d p, if drops t p then ddel d (p_id p) else d) d l.
Lemma drop_partitions_run rid t w :
  ∃ w', drop_partitions rid t w = (Ok tt, w')
    ∧ dview (w_store w') = dview (w_store w) ∧ st_racks (w_store w') = st_racks (w_store w)
    ∧ st_partitions (w_store w')
      = drop_parts (st_partitions (w_store w)) (partitions_of_rack (w_store w) rid) t.
Proof.
  unfold drop_partitions. run. generalize (partitions_of_rack (w_store w) rid) as l.
  intros l. revert w. induction l as [|p l IH]; intros w; [by exists w|].
  cbn. unfold mbind, M_bind. fold (drops t p). destruct (drops t p); cbn.
  - set (w1 := w <| w_store ::= _ |>). destruct (IH w1) as (w' & E & D & R & Pt).
    exists w'. rewrite E. split_and!; [done|by rewrite D|by rewrite R|by rewrite Pt].
  - destruct (IH w) as (w' & E & D & R & Pt). exists w'. by rewrite E.
Qed.

(** Dropping, by lookup *)
Lemma drop_parts_get d l t k p :
  dict_wf d →
  dget (drop_parts d l t) k = Some p ↔
  dget d k = Some p ∧ ∀ q, q ∈ l → drops t q = true → p_id q ≠ k.
Proof.
  revert d. induction l as [|q l IH]; intros d Hwf.
  - cbn. split; [|by intros []]. intros H. split; [done|]. intros q Hq. by apply elem_of_nil in Hq.
  - change (drop_parts d (q :: l) t)
      with (drop_parts (if drops t q then ddel d (p_id q) else d) l t).
    destruct (drops t q) eqn:Hq.
    + rewrite IH by auto. rewrite dget_ddel_Some by done. split.
      * intros [[Hne Hk] H]. split; [done|]. intros q' [->|Hq']%elem_of_cons; [done|by apply H].
      * intros [Hk H]. split_and!; [apply H; [left|done]|done|]. intros q' Hq'. apply H. by right.
    + rewrite IH by done. split; intros [Hk H]; (split; [done|]).
      * intros q' [->|Hq']%elem_of_cons; [congruence|by apply H].
      * intros q' Hq'. apply H. by right.
Qed.
Lemma drop_parts_filter d l t f :
  (∀ q v, q ∈ l → dget d (p_id q) = Some v → f v = false) →
  dict_wf d →
  List.filter f (dvalues (drop_parts d l t)) = List.filter f (dvalues d).
Proof.
  revert d. induction l as [|q l IH]; intros d Hf Hwf; [done|].
  change (drop_parts d (q :: l) t) with (drop_parts (if drops t q then ddel d (p_id q) else d) l t).
  destruct (drops t q).
  - rewrite IH; [|intros q' v Hq' Hv; apply dget_ddel_Some in Hv as [_ Hv]; [|done];
                  eapply Hf; [by right|done]|by auto].
    apply filter_values_ddel. intros v Hv. eapply Hf; [left|done].
  - apply IH; [|done]. intros q' v Hq'. apply Hf. by right.
Qed.
Lemma drop_parts_wf d l t : dict_wf d → dict_wf (drop_parts d l t).
Proof. revert d. induction l; intros d Hd; cbn; [done|]. apply IHl. destruct (drops t a); auto. Qed.
Lemma in_partitions_of_rack s rid p :
  p ∈ partitions_of_rack s rid ↔ p ∈ dvalues (st_partitions s) ∧ p_rack_id p = rid.
Proof. unfold partitions_of_rack. by rewrite elem_of_filterb, String.eqb_eq. Qed.

(** Well-formed partitions: stored under their id *)
Definition parts_keyed (s : Store) : Prop :=
  dict_wf (st_partitions s) ∧ ∀ k p, dget (st_partitions s) k = Some p → p_id p = k.
Lemma dropped_spec s rid t k p :
  parts_keyed s →
  dget (drop_parts (st_partitions s) (partitions_of_rack s rid) t) k = Some p ↔
  dget (st_partitions s) k = Some p ∧ ¬ (p_rack_id p = rid ∧ p_tenant_id p = t).
Proof.
  intros [Hwf Hkey]. rewrite drop_parts_get by done. split; intros [Hk H]; (split; [done|]).
  - intros [Hr Ht]. apply (H p); [|by apply String.eqb_eq|by apply Hkey].
    apply in_partitions_of_rack. split; [by eapply dget_dvalues|done].
  - intros q [Hq Hr]%in_partitions_of_rack Hd%String.eqb_eq <-. apply H.
    apply dvalues_dget in Hq as [k' Hk']; [|done]. pose proof (Hkey _ _ Hk') as E.
    rewrite E in Hk. assert (q = p) as -> by congruence. done.
Qed.

(** The effect of the whole loop of [delete_allocation] *)
Definition release_body (t rid : string) : IO unit :=
  drop_partitions rid t ;; _release_rack rid.
Lemma release_loop_run t rids w :
  (∀ rid, rid ∈ rids → is_Some (dget (st_racks (w_store w)) rid)) →
  ∃ w', for_each rids (release_body t) w = (Ok tt, w')
    ∧ dview (w_store w') = dview (w_store w)
    ∧ (∀ k, dget (st_racks (w_store w')) k
           = if memb k rids then bind_of None HW_ready <$> dget (st_racks (w_store w)) k
             else dget (st_racks (w_store w)) k)
    ∧ (parts_keyed (w_store w) →
       parts_keyed (w_store w')
       ∧ ∀ k p, dget (st_partitions (w_store w')) k = Some p ↔
           dget (st_partitions (w_store w)) k = Some p
           ∧ ¬ (p_rack_id p ∈ rids ∧ p_tenant_id p = t))
    ∧ (parts_keyed (w_store w) → ∀ k, k ∉ rids →
       partitions_of_rack (w_store w') k = partitions_of_rack (w_store w) k).
Proof.
  revert w. induction rids as [|rid rids IH]; intros w Hex.
  { exists w. split_and!; try done. intros Hk. split; [done|]. intros k p.
    split; [|by intros []]. intros H. split; [done|]. intros [Hin _]. by apply elem_of_nil in Hin. }
  destruct (drop_partitions_run rid t w) as (w1 & E1 & D1 & R1 & P1).
  destruct (Hex rid (list_elem_of_here _ _)) as [r Hr].
  destruct (set_rack_run rid None HW_ready DPU_dpu w1 r) as (w2 & E2 & U2 & R2);
    [by rewrite R1|].
  apply uview_dview in U2 as [D2 P2]. rewrite R1 in R2. rewrite P1 in P2. rewrite D1 in D2.
  destruct (IH w2) as (w3 & E3 & D3 & R3 & P3 & L3).
  { intros k Hk. rewrite R2, dget_dupd. destruct (String.eqb_spec k rid) as [->|].
    - rewrite Hr. by eexists.
    - apply Hex. by right. }
  assert (release_body t rid w = (Ok tt, w2)) as E.
  { unfold release_body, _release_rack, mbind, M_bind. by rewrite E1, E2. }
  assert (Hk2 : parts_keyed (w_store w) → parts_keyed (w_store w2)).
  { intros Hk. split; [rewrite P2; apply drop_parts_wf, Hk|]. intros k p.
    rewrite P2, dropped_spec by done. intros [? _]. by apply Hk. }
  exists w3. split_and!.
  - cbn. unfold mbind, M_bind. by rewrite E, E3.
  - congruence.
  - intros k. rewrite R3, R2, dget_dupd. unfold memb. cbn.
    destruct (String.eqb_spec k rid) as [->|]; cbn; [|done].
    rewrite Hr. cbn. by destruct (anyb _ rids).
  - intros Hk. destruct (P3 (Hk2 Hk)) as [Hk3 Hp3].
    split; [done|]. intros k p. rewrite Hp3, P2, dropped_spec by done.
    rewrite elem_of_cons. naive_solver.
  - intros Hk k [Hne Hni]%not_elem_of_cons. rewrite L3 by auto. unfold partitions_of_rack.
    rewrite P2. apply drop_parts_filter; [|apply Hk].
    intros q v [Hq Hqr]%in_partitions_of_rack Hv. apply dvalues_dget in Hq as [k' Hk']; [|apply Hk].
    pose proof (proj2 Hk _ _ Hk') as Eq. rewrite Eq in Hv. assert (v = q) as -> by congruence.
    rewrite Hqr. by apply String.eqb_neq.
Qed.

Definition deallocated (s s' : Store) (a : Allocation) : Prop :=
  st_sus s' = st_sus s ∧ st_counters s' = st_counters s
  ∧ st_allocations s' = ddel (st_allocations s) (al_id a)
  ∧ (∀ k, dget (st_racks s') k
          = if memb k (al_rack_ids a) then bind_of None HW_ready <$> dget (st_racks s) k
            else dget (st_racks s) k).

(** Every branch of [delete_allocation] *)
Lemma delete_allocation_run aid w :
  binding (w_store w) →
  match delete_allocation aid w with
  | (Ok r, w') => ∃ a, dget (st_allocations (w_store w)) aid = Some a
      ∧ r = (aid, al_rack_ids a) ∧ deallocated (w_store w) (w_store w') a
      ∧ (parts_keyed (w_store w) →
         parts_keyed (w_store w')
         ∧ ∀ k p, dget (st_partitions (w_store w')) k = Some p ↔
             dget (st_partitions (w_store w)) k = Some p
             ∧ ¬ (p_rack_id p ∈ al_rack_ids a ∧ p_tenant_id p = al_tenant_id a))
      ∧ (parts_keyed (w_store w) → ∀ k, k ∉ al_rack_ids a →
         partitions_of_rack (w_store w') k = partitions_of_rack (w_store w) k)
  | (Raised e, w') => dget (st_allocations (w_store w)) aid = None ∧ w' = w
      ∧ e = HTTPException 404 ("allocation '" +:+ aid +:+ "' not found")
  end.
Proof.
  intros Hb. unfold delete_allocation. run.
  destruct (dget (st_allocations (w_store w)) aid) as [a|] eqn:Ha; [|done].
  destruct (release_loop_run (al_tenant_id a) (al_rack_ids a) w) as (w' & E & D & R & P & L).
  { intros rid Hin. eapply (b_racks_exist _ Hb aid rid (al_tenant_id a)). by exists a. }
  change (for_each _ _ w) with (for_each (al_rack_ids a) (release_body (al_tenant_id a)) w).
  rewrite E. exists a. split_and!; [done|done| |exact P|exact L].
  pose proof (f_equal uv_sus D) as Ds. pose proof (f_equal uv_allocs D) as Da.
  pose proof (f_equal uv_counters D) as Dc. cbn in Ds, Da, Dc.
  unfold deallocated. cbn. rewrite (b_named _ Hb _ _ Ha), Ds, Da, Dc. split_and!; done.
Qed.

Lemma delete_allocation_keeps aid : KeepsBinding (delete_allocation aid).
Proof.
  intros w Hb. pose proof (delete_allocation_run aid w Hb) as H.
  destruct (delete_allocation aid w) as [[res|e] w']; cbn; [|by destruct H as (_ & -> & _)].
  destruct H as (a & Ha & _ & (Es & Ec & Ea & Er) & _).
  set (s := w_store w) in *. set (s' := w_store w') in *. clearbody s'.
  assert (al_id a = aid) as Hid by by apply (b_named _ Hb).
  assert (Hholds : ∀ k rid t, holds s' k rid t ↔ k ≠ aid ∧ holds s k rid t).
  { intros k rid t. unfold holds. rewrite Ea, Hid. setoid_rewrite dget_ddel_Some; [|apply Hb].
    naive_solver. }
  assert (Hrack : ∀ k, is_Some (dget (st_racks s') k) ↔ is_Some (dget (st_racks s) k)).
  { intros k. rewrite Er. destruct (memb k _); [|done]. by rewrite fmap_is_Some. }
  assert (Hc : alloc_count s' = alloc_count s) by (unfold alloc_count; by rewrite Ec).
  assert (Hin_own : ∀ rid, rid ∈ al_rack_ids a → holds s aid rid (al_tenant_id a))
    by (intros; by exists a).
  destruct Hb. split.
  - rewrite Ea. auto.
  - intros k x. rewrite Ea, dget_ddel_Some by done. intros [_ ?]. auto.
  - by rewrite Hc.
  - intros n. rewrite Hc, Ea. intros Hn. apply b_fresh0 in Hn.
    destruct (dget (ddel _ _) _) eqn:E; [|done]. apply dget_ddel_Some in E as [_ E]; [congruence|done].
  - intros rid r. rewrite Er. destruct (memb rid _); [|by apply b_rack_id0].
    destruct (dget (st_racks s) rid) eqn:Hr; cbn; [|done]. intros [= <-]. cbn. by apply b_rack_id0.
  - intros k su rid. rewrite Es, Hrack. apply b_su_racks0.
  - intros k rid t. rewrite Hholds, Hrack. intros [_ ?]. by eapply b_racks_exist0.
  - intros k k' rid t t'. rewrite !Hholds. intros [_ ?] [_ ?]. by eapply b_exclusive0.
  - intros rid r t Hr. setoid_rewrite Hholds. rewrite Er in Hr.
    destruct (memb rid (al_rack_ids a)) eqn:Hm.
    + apply memb_spec in Hm. destruct (dget (st_racks s) rid); [|done]. injection Hr as <-. cbn.
      split; [done|]. intros (k & Hne & Hh). exfalso. apply Hne. eapply b_exclusive0; [exact Hh|].
      by apply Hin_own.
    + apply memb_false in Hm. rewrite (b_tenant0 rid r t Hr). split; [|naive_solver].
      intros (k & Hh). exists k. split; [|done]. intros ->. destruct Hh as (a' & Ha' & Hin & _).
      congruence.
Qed.
