(* ===== verification/Partition.v ===== *)
(** * NVLink partitions stay inside their owner's racks

    The invariant of the partition table, its preservation by the tenancy
    operations together with the binding invariant, and the exact effect of
    creating a partition. *)
From Stdlib Require Import QArith.
From stdpp Require Import strings base decidable option numbers list relations.
From S2P Require Import Prelude PyLib Models World SharedSvc Spec StoreOps Tenancy Binding.
Local Open Scope string_scope.
Local Open Scope list_scope.
Local Open Scope py_scope.
Import Tenancy.

Definition part_name (rid : string) (n : Z) : string := rid +:+ "-part-" +:+ str_of_Z n.
Lemma part_name_inj a b x y :
  (0 ≤ x)%Z → (0 ≤ y)%Z → part_name a x = part_name b y → a = b ∧ x = y.
Proof.
  intros Hx Hy E. unfold part_name in E.
  change ("-part-" +:+ str_of_Z x) with ("-part" +:+ "-" +:+ str_of_Z x) in E.
  change ("-part-" +:+ str_of_Z y) with ("-part" +:+ "-" +:+ str_of_Z y) in E.
  rewrite <-!(str_app_assoc _ "-part") in E. apply numbered_inj in E as [E ->]; [|done|done].
  split; [|done]. by apply str_app_inj_r in E.
Qed.

(** [1; 2; ...; n] *)
Definition numbers (n : nat) : list Z := (λ i, Z.of_nat i + 1)%Z <$> seq 0 n.

Record partitioned (s : Store) : Prop := {
  pt_keyed : parts_keyed s;
  pt_name k p : dget (st_partitions s) k = Some p → p_id p = part_name (p_rack_id p) (p_partition_id p);
  (** a partition lies on a rack of its tenant and within the trays of that rack *)
  pt_owner k p : dget (st_partitions s) k = Some p →
    ∃ r, dget (st_racks s) (p_rack_id p) = Some r ∧ rk_tenant_id r = Some (p_tenant_id p)
         ∧ p_tray_ids p ⊆ rk_tray_ids r;
  (** no tray is in two partitions *)
  pt_disjoint k k' p q t :
    dget (st_partitions s) k = Some p → dget (st_partitions s) k' = Some q →
    p_rack_id p = p_rack_id q → t ∈ p_tray_ids p → t ∈ p_tray_ids q → k = k';
  (** the partitions of a rack are numbered from 1 without gaps *)
  pt_numbers rid : p_partition_id <$> partitions_of_rack s rid
                   = numbers (length (partitions_of_rack s rid))
}.

Lemma partitioned_view s s' :
  st_partitions s' = st_partitions s →
  (∀ k r, dget (st_racks s) k = Some r →
     ∃ r', dget (st_racks s') k = Some r' ∧ rk_tray_ids r' = rk_tray_ids r
           ∧ ∀ p k', dget (st_partitions s) k' = Some p → p_rack_id p = k →
               rk_tenant_id r = Some (p_tenant_id p) → rk_tenant_id r' = Some (p_tenant_id p)) →
  partitioned s → partitioned s'.
Proof.
  intros Ep Hr []. unfold parts_keyed, partitions_of_rack in *.
  split; unfold parts_keyed, partitions_of_rack; rewrite ?Ep; try done.
  intros k p Hp. destruct (pt_owner0 k p Hp) as (r & Hr0 & Ht & Hs).
  destruct (Hr _ _ Hr0) as (r' & ? & E & Ht'). exists r'. rewrite E. eauto.
Qed.

(** ** The combined invariant *)
Definition isolated (s : Store) : Prop := binding s ∧ partitioned s.
Definition keeps_isolated (s s' : Store) : Prop := isolated s → isolated s'.
#[export] Instance keeps_isolated_preorder : PreOrder keeps_isolated.
Proof. unfold keeps_isolated. split; [by intros s|intros s1 s2 s3; tauto]. Qed.
Lemma keeps_isolated_view s s' :
  aview s' = aview s → st_partitions s' = st_partitions s → keeps_isolated s s'.
Proof.
  intros Hv Hp [Hb Ht]. split; [by eapply binding_view|].
  apply (partitioned_view s); [done| |done]. intros k r Hr. exists r.
  pose proof (f_equal av_racks Hv) as E. cbn in E. by rewrite E.
Qed.
Abbreviation KeepsIsolated := (Steps (on_store keeps_isolated)).

Ltac isolated_frame :=
  apply steps_upd_store; intros ?; apply keeps_isolated_view; reflexivity.
#[export] Hint Extern 2 (Steps (on_store keeps_isolated) (s_mut _ _ _)) => isolated_frame : steps.
#[export] Hint Extern 2 (Steps (on_store keeps_isolated) (s_set _ _ _)) => isolated_frame : steps.
#[export] Hint Extern 2 (Steps (on_store keeps_isolated) (s_del _ _)) => isolated_frame : steps.
Lemma next_seq_isolated name : String.eqb "alloc" name = false → KeepsIsolated (next_seq name).
Proof.
  intros Hn w. unfold on_store. run. cbn. apply keeps_isolated_view; [|done].
  unfold aview, alloc_count. cbn. by rewrite dget_dset, Hn.
Qed.
#[export] Hint Extern 2 (Steps (on_store keeps_isolated) (next_seq _)) =>
  apply next_seq_isolated; reflexivity : steps.

(** ** Allocations *)
Lemma unheld_rack_bare s rid k p :
  isolated s → dget (st_partitions s) k = Some p → p_rack_id p = rid →
  allocation_for_rack s rid = None → False.
Proof.
  intros [Hb Ht] Hp <- Hf. destruct (pt_owner _ Ht _ _ Hp) as (r & Hr & Hten & _).
  apply (b_tenant _ Hb _ _ _ Hr) in Hten as [k' Hh]. eapply free_rack_spec; eauto.
Qed.
Lemma create_allocation_isolated body : KeepsIsolated (create_allocation body).
Proof.
  intros w [Hb Ht]. pose proof (create_allocation_keeps body w Hb) as Hb'.
  split; [exact Hb'|]. pose proof (create_allocation_run body w Hb) as H.
  pose proof (create_allocation_parts body w) as Hparts.
  destruct (create_allocation body w) as [[a|e] w']; cbn in *; [|by destruct H as (_ & -> & _)].
  destruct H as (t0 & su0 & Hm0 & _ & (_ & _ & _ & _ & Er) & _).
  apply (partitioned_view (w_store w)); [exact Hparts| |done]. intros k r Hr. rewrite Er, Hr.
  destruct (memb k (al_rack_ids a)) eqn:Hm; [|by exists r].
  eexists. split_and!; [done|done|]. intros p k' Hp Hk _. exfalso. apply memb_spec in Hm.
  eapply (unheld_rack_bare (w_store w)); [by split|done|done|]. by apply (ma_free _ _ _ _ _ Hm0).
Qed.
Lemma delete_allocation_isolated aid : KeepsIsolated (delete_allocation aid).
Proof.
  intros w [Hb Ht]. pose proof (delete_allocation_keeps aid w Hb) as Hb'.
  split; [exact Hb'|]. pose proof (delete_allocation_run aid w Hb) as H.
  destruct (delete_allocation aid w) as [[res|e] w']; cbn in *; [|by destruct H as (_ & -> & _)].
  destruct H as (a & Ha & _ & (_ & _ & _ & Er) & Hp & Hl).
  destruct (Hp (pt_keyed _ Ht)) as [Hk' Hp']. specialize (Hl (pt_keyed _ Ht)).
  (* every partition on a released rack belongs to the tenant of the allocation *)
  assert (Hgone : ∀ k p, dget (st_partitions (w_store w)) k = Some p → p_rack_id p ∈ al_rack_ids a →
                         p_tenant_id p = al_tenant_id a).
  { intros k p Hkp Hin. destruct (pt_owner _ Ht _ _ Hkp) as (r & Hr & Hten & _).
    apply (b_tenant _ Hb _ _ _ Hr) in Hten as [k' (a' & Ha' & Hin' & <-)].
    assert (k' = aid) as ->.
    { eapply (b_exclusive _ Hb k' aid); [exists a'|exists a]; eauto. }
    congruence. }
  assert (Hleft : ∀ k p, dget (st_partitions (w_store w')) k = Some p →
                         dget (st_partitions (w_store w)) k = Some p ∧ p_rack_id p ∉ al_rack_ids a).
  { intros k p [Hkp Hn]%Hp'. split; [done|]. intros Hin. apply Hn. split; [done|]. by eapply Hgone. }
  destruct Ht. split.
  - done.
  - intros k p [Hkp _]%Hleft. by eapply pt_name0.
  - intros k p [Hkp Hn]%Hleft. rewrite Er. apply memb_false in Hn. rewrite Hn. by eapply pt_owner0.
  - intros k k' p q t [Hkp _]%Hleft [Hkq _]%Hleft. by eapply pt_disjoint0.
  - intros rid. destruct (decide (rid ∈ al_rack_ids a)) as [Hin|Hn]; [|by rewrite Hl].
    destruct (partitions_of_rack (w_store w') rid) as [|p l] eqn:E; [done|].
    exfalso. assert (p ∈ partitions_of_rack (w_store w') rid) as Hpin by (rewrite E; left).
    apply in_partitions_of_rack in Hpin as [Hpin Hr]. apply dvalues_dget in Hpin as [k Hk]; [|apply Hk'].
    apply Hleft in Hk as [_ Hn]. by rewrite Hr in Hn.
Qed.

(** ** Partitions *)
(** What a new partition must satisfy, and what it becomes *)
Record may_partition (s : Store) (body : PartitionCreate) (r : Rack) : Prop := {
  mp_rack : dget (st_racks s) (pc_rack_id body) = Some r;
  mp_tenant : is_Some (dget (st_tenants s) (pc_tenant_id body));
  mp_owner : rk_tenant_id r = Some (pc_tenant_id body);
  mp_trays : pc_tray_ids body ⊆ rk_tray_ids r;
  mp_free t : t ∈ pc_tray_ids body → t ∉ claimed_trays s (rk_id r)
}.
Definition new_partition (s : Store) (body : PartitionCreate) (r : Rack) : NVLinkPartition :=
  let n := (Z.of_nat (length (partitions_of_rack s (rk_id r))) + 1)%Z in
  mkPart (part_name (rk_id r) n) (rk_id r) n (pc_tray_ids body) (pc_tenant_id body) HW_allocated.

Lemma create_partition_run body w :
  match create_partition body w with
  | (Ok p, w') => ∃ r, may_partition (w_store w) body r ∧ p = new_partition (w_store w) body r
      ∧ w' = w <| w_store ::= λ s, s <| st_partitions ::= λ d, dset d (p_id p) p |> |>
  | (Raised e, w') => is_http e ∧ w' = w ∧ ∀ r, ¬ may_partition (w_store w) body r
  end.
Proof.
  unfold create_partition. run.
  destruct (dget (st_racks (w_store w)) (pc_rack_id body)) as [r|] eqn:Hr;
    [|split_and!; [done|done|intros ? []; congruence]].
  destruct (dmem (st_tenants (w_store w)) (pc_tenant_id body)) eqn:Ht; cbn [negb];
    [|split_and!; [done|done|intros ? []; apply dmem_false in Ht; destruct mp_tenant0; congruence]].
  destruct (bool_decide (rk_tenant_id r = Some (pc_tenant_id body))) eqn:Ho; cbn [negb];
    [|split_and!; [done|done|intros r' []; apply bool_decide_eq_false in Ho; congruence]].
  apply bool_decide_eq_true in Ho. apply dmem_spec in Ht.
  set (body' := λ tid : string, if memb tid (rk_tray_ids r) then _ else _).
  destruct (for_each_pure (pc_tray_ids body) body' w) as [E Hok].
  { intros x _. subst body'. cbn. by destruct (memb x _). }
  destruct (for_each (pc_tray_ids body) body' w) as [[[]|e] w'] eqn:Ef; cbn in E; subst w'.
  - set (f := λ t, memb t (claimed_trays (w_store w) (rk_id r))).
    assert (Hsub : pc_tray_ids body ⊆ rk_tray_ids r).
    { intros t Hin. pose proof (proj1 Hok eq_refl t Hin) as H. subst body'. cbn in H.
      destruct (memb t _) eqn:Hm; [by apply memb_spec|done]. }
    destruct (remove_dups (filterb f (pc_tray_ids body))) as [|t l] eqn:Eo.
    + exists r. split_and!; [|done|done]. split; try done.
      intros t Hin Hc. assert (t ∈ remove_dups (filterb f (pc_tray_ids body))) as Hx.
      { apply elem_of_remove_dups, elem_of_filterb. split; [done|]. by apply memb_spec. }
      rewrite Eo in Hx. by apply elem_of_nil in Hx.
    + split_and!; [done|done|]. intros r' []. assert (r' = r) as -> by congruence.
      assert (t ∈ remove_dups (filterb f (pc_tray_ids body))) as Hx by (rewrite Eo; left).
      apply elem_of_remove_dups, elem_of_filterb in Hx as [Hin Hc].
      apply (mp_free0 t Hin). by apply memb_spec.
  - split_and!; [|done|].
    + assert (Raises is_http (for_each (W := World) (pc_tray_ids body) body')) as X.
      { subst body'. cbv beta. apply raises_for_each. intros x _. destruct (memb x _);
          [apply raises_ret|apply raises_raise; done]. }
      specialize (X w). by rewrite Ef in X.
    + intros r' []. assert (r' = r) as -> by congruence.
      assert (∀ t, t ∈ pc_tray_ids body → (body' t w).1 = Ok tt) as X; [|by apply Hok in X].
      intros t Hin. subst body'. cbn. by rewrite (proj2 (memb_spec _ _) (mp_trays0 t Hin)).
Qed.

Lemma numbers_S n : numbers (S n) = numbers n ++ [(Z.of_nat n + 1)%Z].
Proof. unfold numbers. by rewrite seq_S, fmap_app. Qed.
Lemma elem_of_numbers n z : z ∈ numbers n → (1 ≤ z ≤ Z.of_nat n)%Z.
Proof.
  unfold numbers. intros (i & -> & Hi)%list_elem_of_fmap. apply elem_of_seq in Hi. lia.
Qed.
(** The number of a stored partition is within the count of its rack. *)
Lemma partition_number s k p :
  partitioned s → dget (st_partitions s) k = Some p →
  (1 ≤ p_partition_id p ≤ Z.of_nat (length (partitions_of_rack s (p_rack_id p))))%Z.
Proof.
  intros Ht Hp. apply elem_of_numbers. rewrite <-(pt_numbers _ Ht). apply list_elem_of_fmap.
  exists p. split; [done|]. apply in_partitions_of_rack. split; [by eapply dget_dvalues|done].
Qed.
Lemma new_name_fresh s rid :
  partitioned s →
  dget (st_partitions s) (part_name rid (Z.of_nat (length (partitions_of_rack s rid)) + 1)) = None.
Proof.
  intros Ht. destruct (dget _ _) as [q|] eqn:Hq; [|done]. exfalso.
  pose proof (partition_number s _ q Ht Hq) as Hn.
  pose proof (pt_name _ Ht _ _ Hq) as E. rewrite (proj2 (pt_keyed _ Ht) _ _ Hq) in E.
  apply part_name_inj in E as [E1 E2]; [|lia|lia]. rewrite E1, <-E2 in *. lia.
Qed.

Lemma partition_added s body r :
  isolated s → may_partition s body r →
  let p := new_partition s body r in
  isolated (s <| st_partitions ::= λ d, dset d (p_id p) p |>).
Proof.
  intros [Hb Ht] Hm p. set (s' := s <| st_partitions ::= _ |>).
  assert (Hrid : rk_id r = pc_rack_id body) by exact (b_rack_id _ Hb _ _ (mp_rack _ _ _ Hm)).
  assert (Hnew : dget (st_partitions s) (p_id p) = None) by by apply new_name_fresh.
  assert (Hrack : ∀ rid, partitions_of_rack s' rid
      = partitions_of_rack s rid ++ (if String.eqb (rk_id r) rid then [p] else [])).
  { intros rid. unfold partitions_of_rack, filterb. cbn. rewrite dvalues_dset_fresh by done.
    rewrite List.filter_app. cbn. by destruct (String.eqb (rk_id r) rid). }
  assert (Hget : ∀ k q, dget (st_partitions s') k = Some q →
                        (k = p_id p ∧ q = p) ∨ (k ≠ p_id p ∧ dget (st_partitions s) k = Some q)).
  { intros k q. change (st_partitions s') with (dset (st_partitions s) (p_id p) p).
    rewrite dget_dset. destruct (String.eqb_spec k (p_id p)) as [->|]; [|by intros; right].
    intros [= <-]. by left. }
  split; [by apply (binding_view s)|].
  assert (Hclaim : ∀ k q t, dget (st_partitions s) k = Some q → p_rack_id q = rk_id r →
                            t ∈ p_tray_ids q → t ∉ pc_tray_ids body).
  { intros k q t Hq Hqr Htq Hin. apply (mp_free _ _ _ Hm t Hin). unfold claimed_trays.
    apply elem_of_concat_map. exists q. split; [|done]. apply in_partitions_of_rack. split; [by eapply dget_dvalues|done]. }
  split.
  - split; [apply dict_wf_dset, Ht|]. intros k q [[-> ->]|[_ Hq]]%Hget; [done|]. by apply (pt_keyed _ Ht).
  - intros k q [[-> ->]|[_ Hq]]%Hget; [done|]. by eapply (pt_name _ Ht).
  - intros k q [[-> ->]|[_ Hq]]%Hget; [|by eapply (pt_owner _ Ht)].
    exists r. cbn. rewrite Hrid. split_and!; apply Hm.
  - intros k k' q q' t [[-> ->]|[_ Hq]]%Hget [[-> ->]|[_ Hq']]%Hget Hrr H1 H2; [done| | |].
    + exfalso. eapply (Hclaim k' q'); eauto.
    + exfalso. eapply (Hclaim k q); eauto.
    + by eapply (pt_disjoint _ Ht).
  - intros rid. rewrite Hrack. destruct (String.eqb_spec (rk_id r) rid) as [<-|].
    + rewrite length_app, fmap_app, (pt_numbers _ Ht). cbn. rewrite Nat.add_1_r, numbers_S. done.
    + rewrite app_nil_r. apply (pt_numbers _ Ht).
Qed.
Lemma create_partition_isolated body : KeepsIsolated (create_partition body).
Proof.
  intros w Hw. pose proof (create_partition_run body w) as H.
  destruct (create_partition body w) as [[p|e] w']; [|by destruct H as (_ & -> & _)].
  destruct H as (r & Hm & -> & ->). by apply (partition_added (w_store w) body r).
Qed.
Lemma create_tenant_isolated b : KeepsIsolated (create_tenant b).
Proof. unfold create_tenant, _alloc_vni. solve_steps. Qed.
Lemma isolation_report_isolated t : KeepsIsolated (isolation_report t).
Proof. unfold isolation_report. solve_steps. Qed.
#[export] Hint Resolve create_allocation_isolated delete_allocation_isolated
  create_partition_isolated create_tenant_isolated isolation_report_isolated : steps.
