(* ===== verification/StateMachine.v ===== *)
(** * State machines of nodes and orders (app/lifecycle.py) *)
From Stdlib Require Import QArith.
From stdpp Require Import strings base decidable option numbers list relations.
From S2P Require Import Prelude PyLib Models World Adapters.
Local Open Scope string_scope.
Local Open Scope list_scope.
Local Open Scope py_scope.

(** [NODE_TRANSITIONS] *)
Definition NODE_TRANSITIONS (s : NodeLifecycleState) : list NodeLifecycleState :=
  match s with
  | NS_discovered => [NS_validating]
  | NS_validating => [NS_pool_ready; NS_quarantined]
  | NS_quarantined => [NS_validating; NS_rma]
  | NS_pool_ready => [NS_reserved; NS_validating; NS_cordoned]
  | NS_reserved => [NS_provisioning; NS_pool_ready; NS_cordoned]
  | NS_provisioning => [NS_allocated; NS_quarantined; NS_releasing]
  | NS_allocated => [NS_in_service; NS_releasing]
  | NS_in_service => [NS_cordoned; NS_draining]
  | NS_cordoned => [NS_draining; NS_in_service]
  | NS_draining => [NS_releasing]
  | NS_releasing => [NS_sanitizing]
  | NS_sanitizing => [NS_pool_ready; NS_rma]
  | NS_rma => []
  end.

(** [ORDER_TRANSITIONS] *)
Definition ORDER_TRANSITIONS (s : OrderState) : list OrderState :=
  match s with
  | OS_received => [OS_validated; OS_rejected]
  | OS_validated => [OS_reserved; OS_reclaiming; OS_rejected; OS_compensating]
  | OS_reserved => [OS_provisioning; OS_compensating]
  | OS_provisioning => [OS_isolating; OS_compensating]
  | OS_isolating => [OS_storage_binding; OS_compensating]
  | OS_storage_binding => [OS_acceptance; OS_compensating]
  | OS_acceptance => [OS_delivered; OS_k8s_installing; OS_compensating]
  | OS_k8s_installing => [OS_delivered; OS_compensating]
  | OS_delivered => [OS_closed; OS_k8s_installing]
  | OS_reclaiming => [OS_closed]
  | OS_compensating => [OS_failed]
  | OS_closed | OS_rejected | OS_failed => []
  end.

Definition node_allowed (s to : NodeLifecycleState) : bool :=
  anyb (λ x, bool_decide (to = x)) (NODE_TRANSITIONS s).
Definition order_allowed (s to : OrderState) : bool :=
  anyb (λ x, bool_decide (to = x)) (ORDER_TRANSITIONS s).

Definition node_mut (nid : string) (f : NodeInstance → NodeInstance) : IO unit :=
  s_mut st_node_instances nid f.
Definition order_mut (oid : string) (f : ServiceOrder → ServiceOrder) : IO unit :=
  s_mut st_orders oid f.
Definition node_log (nid st detail : string) : IO unit :=
  at_ ← now;
  node_mut nid (λ n, n <| n_history ::= λ l, l ++ [mkEvent st detail at_] |>).
Definition order_log (oid st detail : string) : IO unit :=
  at_ ← now;
  order_mut oid (λ o, o <| o_history ::= λ l, l ++ [mkEvent st detail at_] |>).

(** [advance_node], [advance_order]: a handler holds a node or an order by its
    id, the key it is stored under. *)
Definition advance_node (nid : string) (to : NodeLifecycleState) (detail : string) : IO unit :=
  node ← s_idx st_node_instances nid;
  if node_allowed (n_state node) to then
    node_mut nid (λ n, n <| n_state := to |>) ;;
    node_log nid (NodeLifecycleState_value to) detail
  else http 409 ("node '" +:+ n_id node +:+ "': illegal transition "
                 +:+ NodeLifecycleState_value (n_state node) +:+ " -> "
                 +:+ NodeLifecycleState_value to).
Definition advance_order (oid : string) (to : OrderState) (detail : string) : IO unit :=
  order ← s_idx st_orders oid;
  if order_allowed (o_state order) to then
    order_mut oid (λ o, o <| o_state := to |>) ;;
    order_log oid (OrderState_value to) detail
  else http 409 ("order '" +:+ o_id order +:+ "': illegal transition "
                 +:+ OrderState_value (o_state order) +:+ " -> " +:+ OrderState_value to).

(** [bootstrap_nodes]: mirror the NICo pool; the number of nodes created.  An
    unreachable site controller is logged (not modelled) and skipped. *)
Definition bootstrap_host (created : Z) (host : NicoHost) : IO Z :=
  tray ← s_get st_trays (h_tray_id host);
  match tray with
  | None => mret created
  | Some tray =>
      let nid := "ni-" +:+ t_id tray in
      s ← store;
      if dmem (st_node_instances s) nid then mret created
      else
        rack ← s_idx st_racks (t_rack_id tray);
        at_ ← now;
        s_set st_node_instances nid
          (mkNode nid (t_id tray) (rk_id rack) (rk_su_id rack) (rk_blueprint_key rack)
             (h_id host) None None None NS_pool_ready
             [mkEvent (NodeLifecycleState_value NS_pool_ready) "bootstrap: NICo Day-0 mirror" at_]) ;;
        mret (created + 1)%Z
  end.
Definition bootstrap_nodes (adapter : ComputeAdapter) : IO Z :=
  hosts ← try_any (hs ← a_list_hosts adapter; mret (Some hs)) (λ _, mret None);
  match hosts with
  | None => mret 0%Z
  | Some hosts => fold_m bootstrap_host 0%Z hosts
  end.
