(* ===== verification/Placement.v ===== *)
(** * Placement of orders on racks (app/lifecycle.py, M4-lite) *)
From Stdlib Require Import QArith.
From stdpp Require Import strings base decidable option numbers list relations.
From S2P Require Import Prelude PyLib Models World StoreOps.
Local Open Scope string_scope.
Local Open Scope list_scope.
Local Open Scope py_scope.

Module Placement.

(** [_rack_sellable]: unbound, ready, and every tray mirrored by a node that is
    in the pool *)
Definition _rack_sellable (s : Store) (rack : Rack) : bool :=
  bool_decide (rk_tenant_id rack = None) && bool_decide (rk_state rack = HW_ready)
  && let nodes := nodes_of_rack s (rk_id rack) in
     (length nodes =? length (rk_tray_ids rack))%nat
     && allb (λ n, bool_decide (n_state n = NS_pool_ready)) nodes.

(** [_su_allowed_for] *)
Definition su_owners (s : Store) (su : ScalableUnit) (tid : string) : list string :=
  omap (λ r, match rk_tenant_id r with
             | Some o => if truthy_str o && negb (String.eqb o tid) then Some o else None
             | None => None
             end) (racks_of_su s (su_id su)).
Definition owner_dedicated (s : Store) (o : string) : bool :=
  match dget (st_tenants s) o with
  | Some t => bool_decide (tn_isolation_tier t = IT_bare_metal_dedicated)
  | None => false
  end.
Definition _su_allowed_for (s : Store) (su : ScalableUnit) (tenant : option Tenant) : bool :=
  match tenant with
  | None => true
  | Some t =>
      match su_owners s su (tn_id t) with
      | [] => true
      | owners =>
          if bool_decide (tn_isolation_tier t = IT_bare_metal_dedicated) then false
          else negb (anyb (owner_dedicated s) owners)
      end
  end.

(** The [pools] of [select_racks]: for every SU that fits the order, its
    sellable racks and its site *)
Record Pool := mkPool { pl_su : ScalableUnit; pl_free : list Rack; pl_site : string }.
Definition su_fits (s : Store) (blueprint_key : string) (tenant : option Tenant)
    (su : ScalableUnit) : bool :=
  String.eqb (su_blueprint_key su) blueprint_key && _su_allowed_for s su tenant.
Definition site_id (s : Store) (su : ScalableUnit) : string :=
  match factory_of_su s (su_id su) with Some f => f_id f | None => "(unknown)" end.
Definition free_racks (s : Store) (su : ScalableUnit) : list Rack :=
  filterb (_rack_sellable s) (racks_of_su s (su_id su)).
Definition pools_for (s : Store) (blueprint_key : string) (tenant : option Tenant) : list Pool :=
  (λ su, mkPool su (free_racks s su) (site_id s su))
  <$> filterb (su_fits s blueprint_key tenant)
        (sorted (λ a b, String.leb (su_id a) (su_id b)) (dvalues (st_sus s))).

Definition len_z {A} (l : list A) : Z := Z.of_nat (length l).
(** [sum(len(f) for f in frees)] *)
Definition total_free (frees : list (list Rack)) : Z := foldr (λ f z, (len_z f + z)%Z) 0%Z frees.
(** [by_site.setdefault(fid, []).append(free)] over the pools *)
Definition group_by_site (pools : list Pool) : dict (list (list Rack)) :=
  foldl (λ d p, dset d (pl_site p) (default [] (dget d (pl_site p)) ++ [pl_free p])) [] pools.
(** The order of the tuples [(total, site)] *)
Definition cand_lt (a b : Z * string) : bool :=
  (a.1 <? b.1)%Z || ((a.1 =? b.1)%Z && String.ltb a.2 b.2).
(** Fill from the largest SU on; the list is complete when it has [count] racks. *)
Fixpoint fill (count : Z) (frees : list (list Rack)) (selected : list Rack) : option (list Rack) :=
  match frees with
  | [] => None
  | free :: rest =>
      let selected' := selected ++ take_n (count - len_z selected) free in
      if (len_z selected' =? count)%Z then Some selected' else fill count rest selected'
  end.
Definition spill (pools : list Pool) (count : Z) : option (list Rack) :=
  let by_site := group_by_site pools in
  let candidates := filterb (λ c, (count <=? c.1)%Z)
                      ((λ '(fid, frees), (total_free frees, fid)) <$> by_site) in
  match min_by cand_lt candidates with
  | None => None
  | Some (_, site) =>
      fill count (sorted (λ a b, (length b <=? length a)%nat) (default [] (dget by_site site))) []
  end.

(** [select_racks]: the smallest SU that suffices, else spill over the SUs of one
    site *)
Definition select_racks (s : Store) (blueprint_key : string) (count : Z)
    (tenant : option Tenant) : option (list Rack) :=
  let pools := pools_for s blueprint_key tenant in
  match min_by (λ p q, (length (pl_free p) <? length (pl_free q))%nat)
               (filterb (λ p, (count <=? len_z (pl_free p))%Z) pools) with
  | Some p => Some (take_n count (pl_free p))
  | None => spill pools count
  end.

(** [availability_by_site] *)
Definition availability_by_site (s : Store) (blueprint_key : string) (tenant : option Tenant)
    : dict Z :=
  foldl (λ out su,
    let name := match factory_of_su s (su_id su) with Some f => f_name f | None => "(unknown)" end in
    dset out name (default 0 (dget out name) + len_z (free_racks s su))%Z)
    [] (filterb (su_fits s blueprint_key tenant) (dvalues (st_sus s))).

(** [_nodes_for_racks] *)
Definition _nodes_for_racks (racks : list Rack) : IO (list NodeInstance) :=
  fold_m (λ nodes rack,
    s ← store;
    let rack_nodes := nodes_of_rack s (rk_id rack) in
    if negb (length rack_nodes =? length (rk_tray_ids rack))%nat then
      http 500 ("rack '" +:+ rk_id rack +:+ "': node mirror incomplete ("
                +:+ str_of_nat (length rack_nodes) +:+ "/"
                +:+ str_of_nat (length (rk_tray_ids rack)) +:+ ") — run reconcile")
    else mret (nodes ++ sorted (λ a b, String.leb (n_id a) (n_id b)) rack_nodes)) [] racks.

End Placement.
