(* ===== verification/Topology.v ===== *)
(** * Inventory and topology (app/topology.py)

    Aggregations over the inventory, equipment health and the operator's actions
    on equipment, provisioning of scalable units, power policy. *)
From Stdlib Require Import QArith.
From stdpp Require Import strings base decidable option numbers list.
From S2P Require Import Prelude PyLib Models PortalModels World Spec Seed StoreOps Placement.
Local Open Scope string_scope.
Local Open Scope list_scope.
Local Open Scope py_scope.

Module Topology.
Import Spec.

(** [Counter(l)]: the values in order of first appearance with their numbers *)
Definition Counter (l : list string) : dict Z :=
  foldl (λ d k, dset d k (default 0 (dget d k) + 1)%Z) [] l.
Definition sum_z {A} (f : A → Z) (l : list A) : Z := foldr (λ x z, (f x + z)%Z) 0%Z l.
Definition count_if {A} (f : A → bool) (l : list A) : Z := Placement.len_z (filterb f l).
(** [round(n / 1000, 2)] of an integer, as an exact rational *)
Definition thousandths (n : Z) : Q := round_div (n * 100) 1000 # 100.
Definition unhealthy (st : HwState) : bool :=
  bool_decide (st = HW_faulted) || bool_decide (st = HW_maintenance).

(** ** [inventory_summary] *)
Record InventorySummary := mkSummary {
  is_factories : Z; is_scalable_units : Z; is_racks : Z; is_compute_trays : Z; is_gpus : Z;
  is_cpus : Z; is_dpus : Z; is_hbm_total_tb : Q; is_design_power_mw : Q; is_capped_power_mw : Q;
  is_gpus_by_state : dict Z; is_gpus_by_arch : dict Z; is_racks_by_generation : dict Z
}.
Definition inventory_summary : IO InventorySummary :=
  s ← store;
  let racks := dvalues (st_racks s) in
  let gpus := dvalues (st_gpus s) in
  mret (mkSummary (Placement.len_z (st_factories s)) (Placement.len_z (st_sus s))
          (Placement.len_z (st_racks s)) (Placement.len_z (st_trays s)) (Placement.len_z (st_gpus s))
          (Placement.len_z (st_cpus s)) (Placement.len_z (st_dpus s))
          (thousandths (sum_z g_hbm_gb gpus)) (thousandths (sum_z rk_tdp_kw racks))
          (thousandths (sum_z rk_power_cap_kw racks))
          (Counter ((λ g, HwState_value (g_state g)) <$> gpus)) (Counter (g_arch <$> gpus))
          (Counter (rk_model <$> racks))).

(** ** [topology_tree] *)
Record RackNode := mkRackNode {
  tr_rack : Rack; tr_compute_trays : Z; tr_nvlink_switch_trays : Z; tr_gpus : Z;
  tr_gpus_allocated : Z
}.
Record SuNode := mkSuNode {
  ts_su : ScalableUnit; ts_model : option string; ts_gpu_count : Z; ts_racks : list RackNode
}.
Record FactoryNode := mkFactoryNode {
  tf_factory : AIFactory;
  tf_blocks : list (ComputeBlock * list (DeploymentUnit * list SuNode))
}.
Definition rack_node (s : Store) (r : Rack) : RackNode :=
  let gpus := gpus_of_rack s (rk_id r) in
  mkRackNode r (Placement.len_z (rk_tray_ids r)) (Placement.len_z (rk_nvlink_switch_tray_ids r))
    (Placement.len_z gpus) (count_if (λ g, truthy (g_tenant_id g)) gpus).
Definition su_node (su : ScalableUnit) : IO SuNode :=
  s ← store;
  let racks := racks_of_su s (su_id su) in
  model ← match su_rack_ids su with
          | [] => mret None
          | rid :: _ => r ← s_idx st_racks rid; mret (Some (rk_model r))
          end;
  mret (mkSuNode su model (sum_z (λ r, Placement.len_z (gpus_of_rack s (rk_id r))) racks)
          (rack_node s <$> racks)).
Definition topology_tree : IO (list FactoryNode) :=
  fs ← s_values st_factories;
  map_m (λ f,
    blocks ← map_m (λ bid,
      b ← s_idx st_blocks bid;
      dus ← map_m (λ did,
        d ← s_idx st_dus did;
        s ← store;
        sus ← map_m su_node (lookup_all (st_sus s) (du_su_ids d));
        mret (d, sus)) (bk_du_ids b);
      mret (b, dus)) (f_block_ids f);
    mret (mkFactoryNode f blocks)) fs.

(** ** [su_composition] *)
Definition IB_NETWORKS : Z := Placement.len_z (ib_networks IB_FABRIC).
Definition IB_LEAVES_PER_NETWORK : Z := ib_leaves_per_network_per_su IB_FABRIC.
Definition IB_SPINE_RACKS : Z := ib_spine_racks_per_su IB_FABRIC.
Definition IB_SPINE_RACK_KW : Z := ib_spine_rack_kw IB_FABRIC.
Definition CONVERGED_SPINES : Z := cf_spines_per_su_tier3 CONVERGED_FABRIC.
Definition CONVERGED_LEAVES : Z := cf_leaves_per_su_tier3 CONVERGED_FABRIC.
Definition CDU_PER_SU : Z := 2.
Definition CDU_CAPACITY_KW : Z := 2000.
Record SuComposition := mkComposition {
  sc_su : ScalableUnit; sc_site : option string; sc_blueprint : RackBlueprint;
  sc_racks : Z; sc_trays : Z; sc_gpus : Z; sc_cms_chassis : Z; sc_ib_leaves : Z; sc_node_links : Z;
  sc_cpu_total : Z; sc_cpu_allocated : Z
}.
Definition su_composition (id : string) : IO SuComposition :=
  s ← store;
  match dget (st_sus s) id with
  | None => http 404 ("scalable unit '" +:+ id +:+ "' not found")
  | Some su =>
      bp ← get_blueprint (su_blueprint_key su);
      let racks := Placement.len_z (su_rack_ids su) in
      let trays := (racks * compute_trays bp)%Z in
      mret (mkComposition su (f_name <$> factory_of_su s id) bp racks trays
              (racks * gpu_per_rack bp) (su_cmx_racks su * 16) (IB_LEAVES_PER_NETWORK * IB_NETWORKS)
              (trays * connectx_supernics_per_tray bp) (Placement.len_z (st_cpu_nodes s))
              (count_if (λ c, truthy (cn_tenant_id c)) (dvalues (st_cpu_nodes s))))
  end.

(** ** [inventory_sites] *)
Record SiteRow := mkSiteRow {
  sw_factory_id : string; sw_name : string; sw_racks_total : Z; sw_racks_sellable : Z;
  sw_racks_contractable : Z; sw_racks_locked : Z; sw_racks_allocated : Z; sw_racks_unhealthy : Z;
  sw_gpus_total : Z; sw_gpus_sellable : Z; sw_gpus_allocated : Z; sw_power_cap_kw : Z;
  sw_nodes_by_state : dict Z; sw_tenants : list string; sw_max_single_cluster_racks : Z;
  sw_floors : list ComputeBlock
}.
(** [{t.id for t in tenants if t.isolation_tier == "bare_metal_dedicated"}] *)
Definition dedicated_ids (s : Store) : list string :=
  tn_id <$> filterb (λ t, bool_decide (tn_isolation_tier t = IT_bare_metal_dedicated))
                    (dvalues (st_tenants s)).
(** The SU is locked: a dedicated tenant owns a rack of it *)
Definition su_locked (s : Store) (su : string) : bool :=
  anyb (λ r, truthy (rk_tenant_id r) && memb (default EmptyString (rk_tenant_id r)) (dedicated_ids s))
       (racks_of_su s su).
Definition contractable (s : Store) (sus : list string) : Z :=
  sum_z (λ su, if su_locked s su then 0%Z
               else count_if (Placement._rack_sellable s) (racks_of_su s su)) sus.
(** [[y for x in l for y in f(x)]] *)
Definition flat_map_m {A B} (f : A → IO (list B)) (l : list A) : IO (list B) :=
  ls ← map_m f l; mret (concat ls).
Definition du_sus (did : string) : IO (list string) := d ← s_idx st_dus did; mret (du_su_ids d).
Definition block_sus (bid : string) : IO (list string) :=
  b ← s_idx st_blocks bid; flat_map_m du_sus (bk_du_ids b).
Definition su_racks (id : string) : IO (list Rack) :=
  su ← s_idx st_sus id; map_m (s_idx st_racks) (su_rack_ids su).
Definition site_row (f : AIFactory) : IO SiteRow :=
  su_ids ← flat_map_m block_sus (f_block_ids f);
  racks ← flat_map_m su_racks su_ids;
  floors ← map_m (s_idx st_blocks) (f_block_ids f);
  s ← store;
  let nodes := filterb (λ n, memb (n_rack_id n) (rk_id <$> racks)) (dvalues (st_node_instances s)) in
  let sellable := filterb (Placement._rack_sellable s) racks in
  let allocated := filterb (λ r, truthy (rk_tenant_id r)) racks in
  let gpus_of (rs : list Rack) := sum_z (λ r, Placement.len_z (gpus_of_rack s (rk_id r))) rs in
  let free := contractable s su_ids in
  mret (mkSiteRow (f_id f) (f_name f) (Placement.len_z racks) (Placement.len_z sellable) free
          (Placement.len_z sellable - free) (Placement.len_z allocated)
          (count_if (λ r, unhealthy (rk_state r)) racks)
          (gpus_of racks) (gpus_of sellable) (gpus_of allocated) (sum_z rk_power_cap_kw racks)
          (Counter ((λ n, NodeLifecycleState_value (n_state n)) <$> nodes))
          (sorted String.leb (remove_dups ((λ r, default EmptyString (rk_tenant_id r)) <$> allocated)))
          free floors).
Definition inventory_sites : IO (list SiteRow) := fs ← s_values st_factories; map_m site_row fs.

(** ** Equipment health *)
Definition count_states {A} (st : A → HwState) (l : list A) : dict Z :=
  Counter ((λ x, HwState_value (st x)) <$> l).
Record FloorHealth := mkFloorHealth {
  fh_block : ComputeBlock; fh_racks : Z; fh_gpus : Z; fh_rack_states : dict Z;
  fh_gpu_states : dict Z; fh_unhealthy : Z
}.
Definition floor_health (bid : string) : IO FloorHealth :=
  b ← s_idx st_blocks bid;
  racks ← flat_map_m (λ did, ids ← du_sus did; flat_map_m su_racks ids) (bk_du_ids b);
  s ← store;
  let trays := concat ((λ r, trays_of_rack s (rk_id r)) <$> racks) in
  let gpus := concat ((λ r, gpus_of_rack s (rk_id r)) <$> racks) in
  mret (mkFloorHealth b (Placement.len_z racks) (Placement.len_z gpus) (count_states rk_state racks)
          (count_states g_state gpus)
          (count_if (λ r, unhealthy (rk_state r)) racks + count_if (λ t, unhealthy (t_state t)) trays)).
(** kind, id, state, tenant *)
Definition BadRow : Type := string * string * string * option string.
Definition bad_equipment (s : Store) : list BadRow :=
  ((λ r, ("rack", rk_id r, HwState_value (rk_state r), rk_tenant_id r))
     <$> filterb (λ r, unhealthy (rk_state r)) (dvalues (st_racks s)))
  ++ ((λ t, ("tray", t_id t, HwState_value (t_state t), t_tenant_id t))
     <$> filterb (λ t, unhealthy (t_state t)) (dvalues (st_trays s)))
  ++ ((λ g, ("gpu", g_id g, HwState_value (g_state g), g_tenant_id g))
     <$> filterb (λ g, unhealthy (g_state g)) (dvalues (st_gpus s))).
Record EquipmentHealth := mkHealth {
  eh_sites : list (AIFactory * list FloorHealth); eh_racks : dict Z; eh_trays : dict Z;
  eh_gpus : dict Z; eh_unhealthy_equipment : Z; eh_breakfix_nodes : Z;
  eh_faulted : list BadRow
}.
Definition breakfix (st : NodeLifecycleState) : bool :=
  memb (NodeLifecycleState_value st) ["quarantined"; "rma"; "cordoned"].
Definition equipment_health : IO EquipmentHealth :=
  fs ← s_values st_factories;
  sites ← map_m (λ f, floors ← map_m floor_health (f_block_ids f); mret (f, floors)) fs;
  s ← store;
  let bad := bad_equipment s in
  mret (mkHealth sites (count_states rk_state (dvalues (st_racks s)))
          (count_states t_state (dvalues (st_trays s))) (count_states g_state (dvalues (st_gpus s)))
          (Placement.len_z bad) (count_if (λ n, breakfix (n_state n)) (dvalues (st_node_instances s)))
          (take 100 (sorted (λ a b, String.leb a.1.1.2 b.1.1.2) bad))).

(** [set_equipment_state] *)
Record EquipmentStateUpdate := mkEquip { eq_kind : string; eq_id : string; eq_state : string }.
(** [HwState(s)] *)
Definition HwState_of (s : string) : option HwState :=
  find_first (λ x, String.eqb (HwState_value x) s)
    [HW_provisioning; HW_ready; HW_allocated; HW_draining; HW_faulted; HW_maintenance].
Definition operator_state (st : HwState) : bool :=
  match st with HW_ready | HW_faulted | HW_maintenance => true | _ => false end.
(** Equipment that a tenant holds comes back as allocated. *)
Definition equipped (st : HwState) (tenant : option string) : HwState :=
  if bool_decide (st = HW_ready) && truthy tenant then HW_allocated else st.
Definition set_equipment_state (body : EquipmentStateUpdate) : IO (string * string * HwState) :=
  match HwState_of (eq_state body) with
  | None => http 422 ("invalid state '" +:+ eq_state body +:+ "'")
  | Some st =>
      if negb (operator_state st) then http 422 "operator states: ready|faulted|maintenance"
      else
        let missing : IO (string * string * HwState) :=
          http 404 (eq_kind body +:+ " '" +:+ eq_id body +:+ "' not found") in
        s ← store;
        if String.eqb (eq_kind body) "rack" then
          match dget (st_racks s) (eq_id body) with
          | None => missing
          | Some r =>
              let st' := equipped st (rk_tenant_id r) in
              s_mut st_racks (eq_id body) (λ r, r <| rk_state := st' |>) ;;
              mret (eq_kind body, eq_id body, st')
          end
        else if String.eqb (eq_kind body) "tray" then
          match dget (st_trays s) (eq_id body) with
          | None => missing
          | Some t =>
              let st' := equipped st (t_tenant_id t) in
              s_mut st_trays (eq_id body) (λ t, t <| t_state := st' |>) ;;
              mret (eq_kind body, eq_id body, st')
          end
        else if String.eqb (eq_kind body) "gpu" then
          match dget (st_gpus s) (eq_id body) with
          | None => missing
          | Some g =>
              let st' := equipped st (g_tenant_id g) in
              s_mut st_gpus (eq_id body) (λ g, g <| g_state := st' |>) ;;
              mret (eq_kind body, eq_id body, st')
          end
        else http 422 "kind must be rack|tray|gpu"
  end.

(** ** Listings *)
Definition list_factories : IO (list AIFactory) := s_values st_factories.
Definition list_sus : IO (list ScalableUnit) := s_values st_sus.
Definition get_su (id : string) : IO ScalableUnit :=
  su ← s_get st_sus id;
  match su with Some su => mret su | None => http 404 ("scalable unit '" +:+ id +:+ "' not found") end.
Definition list_racks (su tenant_id : option string) : IO (list Rack) :=
  racks ← s_values st_racks;
  let racks := if truthy su then filterb (λ r, bool_decide (Some (rk_su_id r) = su)) racks else racks in
  mret (if truthy tenant_id then filterb (λ r, bool_decide (rk_tenant_id r = tenant_id)) racks
        else racks).
Definition get_rack (id : string) : IO Rack :=
  r ← s_get st_racks id;
  match r with Some r => mret r | None => http 404 ("rack '" +:+ id +:+ "' not found") end.
Definition get_rack_gpus (id : string) : IO (list GPU) :=
  s ← store;
  if dmem (st_racks s) id then mret (gpus_of_rack s id) else http 404 ("rack '" +:+ id +:+ "' not found").
Definition get_tray (id : string) : IO ComputeTray :=
  t ← s_get st_trays id;
  match t with Some t => mret t | None => http 404 ("tray '" +:+ id +:+ "' not found") end.

(** ** Provisioning and power policy *)
(** The loop that draws an index that no SU has, on [fuel] rounds *)
Fixpoint fresh_index (fuel : nat) (existing : list Z) : IO Z :=
  match fuel with
  | O => raise (ValueError "does not return")
  | S fuel' =>
      idx ← next_seq "su_index_provisioned";
      if bool_decide (idx ∈ existing) then fresh_index fuel' existing else mret idx
  end.
Definition provision_su (blueprint_key factory_id du_id : string) : IO (string * string * Z) :=
  s ← store;
  if negb (dmem (st_factories s) factory_id) then
    http 404 ("factory '" +:+ factory_id +:+ "' not found")
  else if negb (dmem BLUEPRINTS blueprint_key) then
    http 422 ("unknown blueprint '" +:+ blueprint_key +:+ "'; choose from "
              +:+ repr_list (sorted String.leb (dkeys BLUEPRINTS)))
  else
    let existing := su_index <$> dvalues (st_sus s) in
    idx ← fresh_index (S (length existing)) existing;
    su ← Seed.provision_scalable_unit factory_id (Some du_id) idx blueprint_key "maxq" None;
    bp ← get_blueprint blueprint_key;
    mret (su_id su, model bp, gpu_per_su bp).

Definition set_power_policy (rack_id policy : string) : IO (string * Z) :=
  r ← s_get st_racks rack_id;
  match r with
  | None => http 404 ("rack '" +:+ rack_id +:+ "' not found")
  | Some rack =>
      let policy := lower policy in
      if negb (memb policy ["maxq"; "maxp"]) then http 422 "policy must be 'maxq' or 'maxp'"
      else
        bp ← get_blueprint (rk_blueprint_key rack);
        let cap := if String.eqb policy "maxq" then maxq_rack_kw bp else maxp_rack_kw bp in
        s_mut st_racks rack_id (λ r, r <| rk_power_cap_kw := cap |>) ;;
        mret (rack_id, cap)
  end.

Definition list_blueprints : IO (list RackBlueprint) := mret (dvalues BLUEPRINTS).

End Topology.
