(* ===== verification/Views.v ===== *)
(** * Read routes of the orders, nodes and clusters, and the fabric view
    (app/lifecycle.py, app/fabric.py) *)
From Stdlib Require Import QArith Ascii.
From stdpp Require Import strings base decidable option numbers list.
From S2P Require Import Prelude PyLib Models PortalModels World StoreOps Spec Trace Placement Business.
From S2P Require Import Topology.
Local Open Scope string_scope.
Local Open Scope list_scope.
Local Open Scope py_scope.

Module Views.

(** ** Clusters and nodes (app/lifecycle.py) *)
Definition list_k8s_clusters (tenant_id : option string) : IO (list K8sCluster) :=
  l ← s_values st_k8s_clusters; mret (Business.filter_by tenant_id k_tenant_id l).
Definition get_k8s_cluster (id : string) : IO K8sCluster :=
  c ← s_get st_k8s_clusters id;
  match c with Some c => mret c | None => http 404 ("k8s cluster '" +:+ id +:+ "' not found") end.
Definition list_cpu_nodes (tenant_id : option string) : IO (list CpuNode) :=
  l ← s_values st_cpu_nodes;
  mret (sorted (λ a b, String.leb (cn_id a) (cn_id b))
          (if truthy tenant_id then filterb (λ c, bool_decide (cn_tenant_id c = tenant_id)) l else l)).
Definition get_node (id : string) : IO NodeInstance :=
  n ← s_get st_node_instances id;
  match n with Some n => mret n | None => http 404 ("node '" +:+ id +:+ "' not found") end.

(** ** The flow of an order: its trace events by stage *)
Record FlowStage := mkFlowStage { fs_event : LifecycleEvent; fs_by_channel : dict Z;
                                  fs_apis : list TraceEvent }.
Definition order_hosts (s : Store) (o : ServiceOrder) : list string :=
  omap (λ nid, n_nico_host_id <$> dget (st_node_instances s) nid) (o_node_ids o)
  ++ omap (λ cn, if bool_decide (cn_order_id cn = Some (o_id o)) && truthy (cn_nico_host_id cn)
                 then cn_nico_host_id cn else None) (dvalues (st_cpu_nodes s)).
(** The rules of attribution: the order's own events, those of its hosts, and
    those without order and host *)
Definition attributed (oid : string) (hosts : list string) (e : TraceEvent) : bool :=
  bool_decide (te_order_id e = Some oid)
  || (truthy (te_host_id e) && memb (default EmptyString (te_host_id e)) hosts)
  || (bool_decide (te_order_id e = None) && bool_decide (te_host_id e = None)).
Definition in_window (start stop : string) (e : TraceEvent) : bool :=
  String.leb start (te_at e) && String.ltb (te_at e) stop.
Fixpoint flow_stages (oid : string) (hosts : list string) (events : list TraceEvent)
    (hist : list LifecycleEvent) : IO (list FlowStage) :=
  match hist with
  | [] => mret []
  | h :: rest =>
      stop ← match rest with
             | h' :: _ => mret (ev_at h')
             | [] => q ← Business.fromiso (ev_at h); gets (λ w, env_toiso (w_env w) (q + 2)%Q)
             end;
      let apis := filterb (λ e, in_window (ev_at h) stop e && attributed oid hosts e) events in
      stages ← flow_stages oid hosts events rest;
      mret (mkFlowStage h (Topology.Counter (te_channel <$> apis)) apis :: stages)
  end.
Definition get_order_flow (oid : string) : IO (ServiceOrder * list FlowStage) :=
  o ← s_get st_orders oid;
  match o with
  | None => http 404 ("order '" +:+ oid +:+ "' not found")
  | Some o =>
      s ← store;
      events ← Trace.query None None None 0 25000;
      stages ← flow_stages oid (order_hosts s o) events (o_history o);
      mret (o, stages)
  end.

(** ** The fabric view (app/fabric.py) *)
Definition CORE_SPINES : Z := 4.
Record FabricRack := mkFabricRack { fr_rack_id : string; fr_tenant_id : option string;
                                    fr_trays : Z; fr_gpus : Z }.
Record FabricSu := mkFabricSu { fu_su : ScalableUnit; fu_rails : Z; fu_rails_per_network : Z;
                                fu_links_800g : Z; fu_racks : list FabricRack }.
Definition _su_view (s : Store) (su : ScalableUnit) : FabricSu :=
  let rails := match dget Spec.BLUEPRINTS (su_blueprint_key su) with
               | Some bp => Spec.connectx_supernics_per_tray bp
               | None => 8%Z
               end in
  let racks := (λ r, mkFabricRack (rk_id r) (rk_tenant_id r) (Placement.len_z (rk_tray_ids r))
                       (Topology.sum_z (λ t, Placement.len_z (t_gpu_ids t)) (trays_of_rack s (rk_id r))))
               <$> racks_of_su s (su_id su) in
  mkFabricSu su rails (Z.max 1 (rails / Topology.IB_NETWORKS)) (Topology.sum_z fr_trays racks * rails) racks.
Definition IB_TIER2_MAX_SU : Z := Spec.ib_tier2_max_su Spec.IB_FABRIC.
Definition CONVERGED_TIER2_MAX_SU : Z := Spec.cf_tier2_max_su Spec.CONVERGED_FABRIC.
Definition tier (max_su n : Z) : string := if (n <=? max_su)%Z then "2-tier" else "3-tier".
Record FabricSite := mkFabricSite { fi_factory : AIFactory; fi_ib_tier : string;
                                    fi_converged_tier : string; fi_sus : list FabricSu }.
Record FabricTenant := mkFabricTenant { ft_tenant_id : string; ft_pkey : option string; ft_racks : Z;
                                        ft_gpus : Z; ft_sus : list string; ft_site : string }.
Definition fabric_site (f : AIFactory) : IO FabricSite :=
  ids ← Topology.flat_map_m Topology.block_sus (f_block_ids f);
  s ← store;
  let sus := sorted (λ a b, (su_index (fu_su a) <=? su_index (fu_su b))%Z)
               (_su_view s <$> lookup_all (st_sus s) ids) in
  let n := Placement.len_z sus in
  mret (mkFabricSite f (tier IB_TIER2_MAX_SU n) (tier CONVERGED_TIER2_MAX_SU n) sus).
Definition site_of_su (sites : list FabricSite) (su : string) : string :=
  default "?" (dget (foldl (λ d '(k, v), dset d k v) []
    (concat ((λ st, (λ u, (su_id (fu_su u), f_name (fi_factory st))) <$> fi_sus st) <$> sites))) su).
Definition fabric_tenant (s : Store) (sites : list FabricSite) (t : Tenant) : option FabricTenant :=
  let racks := filterb (λ r, bool_decide (fr_tenant_id r = Some (tn_id t)))
                 (concat (fu_racks <$> concat (fi_sus <$> sites))) in
  match racks with
  | [] => None
  | _ =>
      let sus := sorted String.leb (remove_dups ((λ r, before_last "-rack-" (fr_rack_id r)) <$> racks)) in
      let pkey := dget (st_netiso s) (tn_id t) ≫= ni_ib_pkey in
      Some (mkFabricTenant (tn_id t)
              (pkey ≫= λ k, if (k =? 0)%Z then None else Some (hex k))
              (Placement.len_z racks) (Topology.sum_z fr_gpus racks) sus
              (join " / " (sorted String.leb (remove_dups (site_of_su sites <$> sus)))))
  end.
(** The selected tenant is given when a tenant was asked for. *)
Definition ib_fabric (tenant_id : option string)
    : IO (list FabricSite * list FabricTenant * option FabricTenant) :=
  fs ← s_values st_factories;
  sites ← map_m fabric_site fs;
  s ← store;
  let tenants := omap (fabric_tenant s sites) (dvalues (st_tenants s)) in
  mret (sites, tenants,
        if truthy tenant_id
        then find_first (λ t, bool_decide (Some (ft_tenant_id t) = tenant_id)) tenants else None).

End Views.
