(* ===== verification/Metrics.v ===== *)
(** * Request metrics (app/metrics.py)

    The counters per control-plane module and their sliding windows of 60
    seconds.  A time stamp is the rational number the caller passes. *)
From Stdlib Require Import QArith Ascii.
From stdpp Require Import strings base decidable option numbers list.
From S2P Require Import Prelude PyLib.
Local Open Scope string_scope.
Local Open Scope list_scope.
Local Open Scope py_scope.

Module Metrics.

Definition MODULES : list string :=
  ["cp-api"; "cp-intake"; "cp-fulfill"; "cp-policy"; "cp-model"; "cp-provision"; "cp-obs"; "cp-sla";
   "d-compute"; "d-sdn"; "d-storage"; "d-shared"; "cp-delivery"; "cp-reclaim"].
Definition WINDOW_S : Q := 60.

(** ** Which module a path belongs to *)
Definition starts_any (ps : list string) (p : string) : bool := anyb (λ x, starts_with x p) ps.
(** [p.rstrip("/")] *)
Fixpoint rstrip_slash (s : string) : string :=
  match s with
  | EmptyString => EmptyString
  | String c s' =>
      match rstrip_slash s' with
      | EmptyString => if Ascii.eqb c "047" then EmptyString else String c EmptyString
      | r => String c r
      end
  end.
Definition modules_for_path (path : string) : list string :=
  let p := str_or (Some (rstrip_slash (str_or (Some path) "/"))) "/" in
  if starts_any ["/api/v1/orders"; "/api/v1/k8s"] p then ["cp-intake"; "cp-fulfill"]
  else if starts_with "/api/v1/tenants" p then ["cp-intake"]
  else if starts_any ["/api/v1/fabric"; "/api/v1/network"; "/api/v1/nvlink"] p then ["d-sdn"]
  else if starts_with "/api/v1/reconcile" p then ["cp-policy"]
  else if starts_with "/api/v1/billing" p then ["cp-sla"]
  else if starts_with "/api/v1/tickets" p then ["cp-delivery"]
  else if starts_any ["/api/v1/racks"; "/api/v1/nodes"; "/api/v1/cpu-nodes"; "/api/v1/scalable-units";
                      "/api/v1/allocations"; "/api/v1/nvlink-partitions"; "/api/v1/factories";
                      "/api/v1/trays"; "/api/v1/inventory"; "/api/v1/blueprints";
                      "/api/v1/equipment"] p then ["cp-provision"]
  else if starts_any ["/api/v1/integration"; "/api/v1/trace"; "/api/v1/emu"; "/api/v1/topology"] p
  then ["cp-obs"]
  else if starts_with "/fake-nico" p then ["d-compute"]
  else if starts_with "/fake-vast" p then ["d-storage"]
  else if starts_with "/fake-shared" p then ["d-shared"]
  else if String.eqb p "/" || String.eqb p "/health" || starts_any ["/static"; "/api/v1/admin"] p
          || memb p ["/customer"; "/ops"; "/biz"; "/arch"; "/flow"; "/nico"; "/docs"; "/openapi.json"]
  then ["cp-api"]
  else ["other"].
Definition module_for_trace_src (src : string) : option string :=
  if negb (truthy_str src) then None
  else if starts_any ["NeoCloudOS.M1"; "NeoCloudOS.M6"] src then Some "cp-fulfill"
  else if starts_with "NeoCloudOS.M3" src then Some "cp-model"
  else if starts_with "NeoCloudOS.M4" src then Some "cp-policy"
  else if starts_with "NeoCloudOS.M5" src then Some "cp-obs"
  else if starts_with "NeoCloudOS.D1" src then Some "cp-provision"
  else if starts_with "NeoCloudOS.D2" src then Some "d-sdn"
  else if starts_with "NeoCloudOS.D4" src then Some "d-storage"
  else if starts_any ["Portal/API"; "Operator"] src then Some "cp-api"
  else if starts_with "NICo" src then Some "d-compute"
  else None.

(** ** [MetricsCollector]; the windows are queues, oldest first *)
Record Collector := mkCollector {
  mc_total : dict Z;
  mc_win : dict (list Q);
  mc_last : dict Q;
  mc_grand_total : Z;
  mc_grand_win : list Q
}.
#[export] Instance eta_Collector : Eta Collector := λ x,
  mkCollector x.(mc_total) x.(mc_win) x.(mc_last) x.(mc_grand_total) x.(mc_grand_win).
Definition empty_collector : Collector := mkCollector [] [] [] 0 [].

Definition record_module (now : Q) (c : Collector) (m : string) : Collector :=
  c <| mc_total ::= λ d, dset d m (default 0%Z (dget d m) + 1)%Z |>
    <| mc_win ::= λ d, dset d m (default [] (dget d m) ++ [now]) |>
    <| mc_last ::= λ d, dset d m now |>.
Definition record (path : string) (now : Q) (c : Collector) : Collector :=
  foldl (record_module now)
    (c <| mc_grand_total ::= λ z, (z + 1)%Z |> <| mc_grand_win ::= λ l, l ++ [now] |>)
    (modules_for_path path).

(** [_eps]: what is left of the window, and the rate *)
Fixpoint expire (cut : Q) (l : list Q) : list Q :=
  match l with
  | [] => []
  | t :: l' => if Qle_bool cut t then l else expire cut l'
  end.
Definition _eps (l : list Q) (now : Q) : list Q * Q :=
  let l' := expire (now - WINDOW_S) l in
  (l', round_q 1000 (inject_Z (Z.of_nat (length l')) / WINDOW_S)).

Record ModuleStat := mkStat { ms_id : string; ms_calls : Z; ms_eps : Q; ms_last_active_s : option Q }.
Definition snapshot_module (now : Q) (acc : Collector * list ModuleStat) (m : string)
    : Collector * list ModuleStat :=
  let '(c, out) := acc in
  let '(win, eps) := _eps (default [] (dget (mc_win c) m)) now in
  (c <| mc_win ::= λ d, dset d m win |>,
   out ++ [mkStat m (default 0%Z (dget (mc_total c) m)) eps
             ((λ last, round_q 10 (now - last)) <$> dget (mc_last c) m)]).
Definition snapshot (now : Q) (c : Collector) : Collector * (list ModuleStat * Z * Q) :=
  let '(c, mods) := foldl (snapshot_module now) (c, []) MODULES in
  let '(win, eps) := _eps (mc_grand_win c) now in
  (c <| mc_grand_win := win |>, (mods, mc_grand_total c, eps)).
Definition reset (c : Collector) : Collector := empty_collector.

End Metrics.
