(* ===== verification/Saga.v ===== *)
(** * The order saga: stages and compensation (app/lifecycle.py, F1)

    One definition per [_stage_*] function up to acceptance, with [_compensate],
    [_teardown_storage_and_segment] and [_sync_cpu_nodes].  A handler refers to
    an order, a node or a CPU node by its id and reads it afresh where the code
    reads an attribute of the object. *)
From Stdlib Require Import QArith Qround.
From stdpp Require Import strings base decidable option numbers list relations.
From S2P Require Import Prelude PyLib Models World NicoSim VastSim SharedSvc Spec StoreOps.
From S2P Require Import Adapters Tenancy StateMachine Placement.
Local Open Scope string_scope.
Local Open Scope list_scope.
Local Open Scope py_scope.

Module Saga.

Definition DEFAULT_IMAGE : string := "ubuntu-24.04-nvidia".
Definition STORAGE_TB_PER_RACK : Z := 500.
Definition STORAGE_GBPS_PER_RACK : Z := 40.
Definition STORAGE_KIOPS_PER_RACK : Z := 500.
Definition CPU_NODES_PER_TENANT : Z := 5.
Definition K8S_CP_NODES_PER_CLUSTER : Z := 3.
Definition K8S_SUPPORTED_VERSIONS : list string := ["v1.32.4"; "v1.33.2"].

(** ** Access by id *)
Definition order_of (oid : string) : IO ServiceOrder := s_idx st_orders oid.
Definition node_of (nid : string) : IO NodeInstance := s_idx st_node_instances nid.
Definition cpu_mut (cid : string) (f : CpuNode → CpuNode) : IO unit := s_mut st_cpu_nodes cid f.

(** A new order: its number, its record built from its id and the time of its
    first history entry *)
Definition open_order (mk : string → string → ServiceOrder) : IO string :=
  n ← next_seq "order";
  let oid := "ord-" +:+ str_of_Z n in
  at_ ← now;
  s_set st_orders oid (mk oid at_) ;;
  mret oid.

(** [order.history[-1].detail = d] *)
Definition set_last_detail (d : string) (l : list LifecycleEvent) : list LifecycleEvent :=
  match reverse l with
  | [] => []
  | e :: r => reverse ((e <| ev_detail := d |>) :: r)
  end.
(** [advance_order(order, rejected, d); order.error = order.history[-1].detail] *)
Definition reject (oid detail : string) : IO unit :=
  advance_order oid OS_rejected detail ;;
  order_mut oid (λ o, o <| o_error := ev_detail <$> last (o_history o) |>).

Definition _ctx_nodes (oid : string) : IO (list NodeInstance) :=
  o ← order_of oid;
  s ← store;
  mret (lookup_all (st_node_instances s) (o_node_ids o)).
(** [if n.rack_id not in seen: seen.append(n.rack_id)] *)
Definition first_seen (l : list string) : list string :=
  foldl (λ seen x, if memb x seen then seen else seen ++ [x]) [] l.
Definition _ctx_racks (oid : string) : IO (list Rack) :=
  nodes ← _ctx_nodes oid;
  s ← store;
  mret (lookup_all (st_racks s) (first_seen (n_rack_id <$> nodes))).

(** ** Teardown and compensation *)
Definition _teardown_storage_and_segment (order_id : string) (storage_ids : list string)
    (segment_id : option string) (adapter : ComputeAdapter) : IO unit :=
  for_each storage_ids (λ sid,
    sa ← s_get st_storage_allocs sid;
    match sa with
    | Some sa =>
        when (String.eqb (sa_state sa) "active")
          (try_http
             (v_delete_view get_storage_adapter (sa_view_path sa) ≫= λ _,
              s_mut st_storage_allocs sid (λ x, x <| sa_state := "reclaimed" |>))
             (λ _ _, emit "NeoCloudOS.D4" "VAST.VMS" "VAST-API" "뷰 회수 실패" (Some order_id) None))
    | None => mret tt
    end) ;;
  when (truthy segment_id)
    (try_http (a_delete_segment adapter (default EmptyString segment_id) ≫= λ _, mret tt)
       (λ _ _, emit "NeoCloudOS.D2" "NICo.APIService" "REST" "segment 해체 실패" (Some order_id) None)).

(** [_sync_cpu_nodes]: the ids of the tenant's CPU nodes.  A tenant with an
    allocation is filled up to [CPU_NODES_PER_TENANT] general nodes from the
    pool; a tenant without one returns them all. *)
Definition release_cpu (c : CpuNode) : CpuNode :=
  c <| cn_tenant_id := None |> <| cn_state := "pool_ready" |> <| cn_host_ip := EmptyString |>
    <| cn_segment_id := None |> <| cn_role := "general" |> <| cn_order_id := None |>.
Definition bind_cpu (tenant_id : string) (segment_id : option string) (cn : CpuNode) : IO unit :=
  match int_suffix (cn_id cn) with
  | inr e => raise e
  | inl idx =>
      cpu_mut (cn_id cn) (λ c, c <| cn_tenant_id := Some tenant_id |> <| cn_state := "allocated" |>
        <| cn_host_ip := "10.250.0." +:+ str_of_Z (idx + 1) |> <| cn_segment_id := segment_id |>) ;;
      emit ("DPU-DHCP(" +:+ cn_dpu_id cn +:+ ")") (cn_id cn) "DHCP" "DISCOVER → ACK" None None ;;
      emit "NeoCloudOS.D2" ("DPU-Agent(" +:+ cn_dpu_id cn +:+ ")") "NVUE/HBN"
           "CPU 노드 VPC 연결 (FNN NVUE 렌더)" None None
  end.
Definition _sync_cpu_nodes (tenant_id : string) (segment_id : option string) : IO (list string) :=
  s ← store;
  let has_gpu := anyb (λ a, String.eqb (al_tenant_id a) tenant_id) (dvalues (st_allocations s)) in
  let mine := filterb (λ c, bool_decide (cn_tenant_id c = Some tenant_id)) (dvalues (st_cpu_nodes s)) in
  if negb has_gpu then
    for_each mine (λ cn,
      emit "NeoCloudOS.D2" ("DPU-Agent(" +:+ cn_dpu_id cn +:+ ")") "NVUE/HBN"
           "CPU 노드 VPC 연결 해제" None None ;;
      cpu_mut (cn_id cn) release_cpu) ;;
    mret []
  else
    let need := (CPU_NODES_PER_TENANT
                 - Placement.len_z (filterb (λ c, String.eqb (cn_role c) "general") mine))%Z in
    let pool := filterb (λ c, String.eqb (cn_state c) "pool_ready") (dvalues (st_cpu_nodes s)) in
    let chosen := take (Z.to_nat need) pool in
    for_each chosen (bind_cpu tenant_id segment_id) ;;
    mret (cn_id <$> mine ++ chosen).

(** One node of the rollback loop of [_compensate] *)
Definition rollback_node (adapter : ComputeAdapter) (nid : string) : IO unit :=
  node ← node_of nid;
  if bool_decide (n_state node = NS_reserved) then
    a_unreserve adapter (n_nico_host_id node) ≫= λ _,
    advance_node nid NS_pool_ready "saga: unreserved"
  else if bool_decide (n_state node = NS_provisioning) || bool_decide (n_state node = NS_allocated)
  then
    (if truthy (n_nico_instance_id node) then
       job ← a_release adapter (default EmptyString (n_nico_instance_id node));
       wait_job adapter job ≫= λ _,
       node_mut nid (λ n, n <| n_nico_instance_id := None |>)
     else a_abort_provision adapter (n_nico_host_id node) ≫= λ _, mret tt) ;;
    advance_node nid NS_releasing "saga: rollback release" ;;
    job0 ← a_sanitize adapter (n_nico_host_id node);
    job ← wait_job adapter job0;
    advance_node nid NS_sanitizing "saga: sanitizing" ;;
    if String.eqb (j_state job) "succeeded"
    then advance_node nid NS_pool_ready "saga: sanitized, pool return"
    else advance_node nid NS_rma ("saga: sanitize failed — " +:+ j_detail job)
  else mret tt.
Definition rollback_failed (nid detail : string) : IO unit :=
  node ← node_of nid;
  if node_allowed (n_state node) NS_cordoned then
    advance_node nid NS_cordoned ("saga rollback failed: " +:+ detail +:+ " — reconcile 필요")
  else node_log nid (NodeLifecycleState_value (n_state node))
         ("saga rollback failed: " +:+ detail +:+ " — manual intervention").

Definition _compensate (oid : string) (nodes : list string) (adapter : ComputeAdapter)
    (reason : string) : IO ServiceOrder :=
  advance_order oid OS_compensating ("saga: " +:+ reason) ;;
  o ← order_of oid;
  _teardown_storage_and_segment oid (o_storage_ids o) (o_segment_id o) adapter ;;
  order_mut oid (λ o, o <| o_segment_id := None |>) ;;
  for_each (o_allocation_ids o) (λ aid,
    s ← store;
    when (dmem (st_allocations s) aid) (Tenancy.delete_allocation aid ≫= λ _, mret tt)) ;;
  order_mut oid (λ o, o <| o_allocation_ids := [] |>) ;;
  _sync_cpu_nodes (o_tenant_id o) None ≫= λ _,
  for_each nodes (λ nid,
    try_http (rollback_node adapter nid) (λ _ detail, rollback_failed nid detail) ;;
    node_mut nid (λ n, n <| n_tenant_id := None |> <| n_order_id := None |>)) ;;
  advance_order oid OS_failed reason ;;
  order_mut oid (λ o, o <| o_error := Some reason |>) ;;
  order_of oid.
Definition compensate_ (oid : string) (nodes : list string) (adapter : ComputeAdapter)
    (reason : string) : IO unit := _compensate oid nodes adapter reason ≫= λ _, mret tt.

(** ** Stage 1: validation and placement *)
Definition opt_text (o : option string) : string := default "None" o.
Definition pool_ready_cpus (s : Store) : Z :=
  Placement.len_z (filterb (λ c, String.eqb (cn_state c) "pool_ready") (dvalues (st_cpu_nodes s))).
(** The rejections of [_stage_validated], in order; [None] means the order is valid *)
Definition spec_error (s : Store) (o : ServiceOrder) : option string :=
  if negb (match o_blueprint_key o with Some k => dmem Spec.BLUEPRINTS k | None => false end)
     || (o_racks o <? 1)%Z
  then Some "invalid spec: blueprint_key/racks required"
  else if String.eqb (o_storage_mode o) "manual" && Qle_bool (o_storage_tb o) 0
  then Some "invalid storage spec: manual 모드는 용량(TB) 필수"
  else if o_managed_k8s o then
    if negb (memb (o_k8s_version o) K8S_SUPPORTED_VERSIONS) then
      Some ("invalid k8s spec: 지원 버전 " +:+ repr_list K8S_SUPPORTED_VERSIONS
            +:+ " (요청: '" +:+ o_k8s_version o +:+ "')")
    else if (pool_ready_cpus s <? CPU_NODES_PER_TENANT + K8S_CP_NODES_PER_CLUSTER)%Z then
      Some ("insufficient CPU pool: Managed K8s는 CP " +:+ str_of_Z K8S_CP_NODES_PER_CLUSTER
            +:+ "대 추가 필요 (pool_ready " +:+ str_of_Z (pool_ready_cpus s) +:+ "대)")
    else None
  else None.
Definition availability_text (avail : dict Z) : string :=
  str_or (Some (join " · " ((λ '(k, v), k +:+ " " +:+ str_of_Z v +:+ "랙")
    <$> sorted (λ a b, String.leb a.1 b.1) avail))) "없음".

Definition _stage_validated (oid : string) (adapter : ComputeAdapter) : IO unit :=
  o ← order_of oid;
  s ← store;
  match dget (st_tenants s) (o_tenant_id o) with
  | None => reject oid ("unknown tenant '" +:+ o_tenant_id o +:+ "'")
  | Some tenant =>
      match spec_error s o with
      | Some err => reject oid err
      | None =>
          advance_order oid OS_validated
            ("policy: tenant/spec ok"
             +:+ (if o_managed_k8s o then " · Managed K8s " +:+ o_k8s_version o +:+ " 옵션"
                  else EmptyString)) ;;
          s ← store;
          let key := opt_text (o_blueprint_key o) in
          match Placement.select_racks s key (o_racks o) (Some tenant) with
          | None =>
              reject oid
                ("insufficient capacity: " +:+ str_of_Z (o_racks o) +:+ "x " +:+ key
                 +:+ " rack(s) not available within a single site — 이 테넌트 기준 계약 가능: "
                 +:+ availability_text (Placement.availability_by_site s key (Some tenant))
                 +:+ " (사이트 스팬 불가 · dedicated SU 격리로 부분 점유 SU의 유휴 랙은 제외)")
          | Some racks =>
              nodes ← Placement._nodes_for_racks racks;
              order_mut oid (λ o, o <| o_node_ids := n_id <$> nodes |>) ;;
              emit "NeoCloudOS.M4" "NeoCloudOS.M1" "internal" "배치 결정" (Some oid) None
          end
      end
  end.

(** ** Stage 2: reservation.  The loop carries the reserved nodes and is left
    early ([inl]) once the order has been compensated. *)
Definition reserve_node (oid : string) (adapter : ComputeAdapter) (reserved : list string)
    (nid : string) : IO (unit + list string) :=
  node ← node_of nid;
  if negb (bool_decide (n_state node = NS_pool_ready)) then
    compensate_ oid reserved adapter ("node '" +:+ n_id node +:+ "' not pool_ready") ;;
    mret (inl tt)
  else
    emit "NeoCloudOS.D1" "NICo.APIService" "gRPC" "ReserveHost" (Some oid)
         (Some (n_nico_host_id node)) ;;
    r ← try_http (a_reserve adapter (n_nico_host_id node) ≫= λ _, mret true)
          (λ _ detail,
             advance_node nid NS_cordoned ("reserve failed: " +:+ detail +:+ " — break-fix track") ;;
             compensate_ oid reserved adapter
               ("reserve failed on '" +:+ n_id node +:+ "': " +:+ detail) ;;
             mret false);
    if r : bool then
      advance_node nid NS_reserved ("order " +:+ oid) ;;
      node_mut nid (λ n, n <| n_order_id := Some oid |>) ;;
      mret (inr (reserved ++ [nid]))
    else mret (inl tt).

Definition _stage_reserved (oid : string) (adapter : ComputeAdapter) : IO unit :=
  nodes ← _ctx_nodes oid;
  racks ← _ctx_racks oid;
  advance_order oid OS_reserved
    (str_of_nat (length nodes) +:+ " node(s) across " +:+ str_of_nat (length racks) +:+ " rack(s)") ;;
  for_fold (n_id <$> nodes) [] (reserve_node oid adapter) ≫= λ _, mret tt.

(** ** Stage 3: provisioning *)
Definition provision_node (oid tenant_id : string) (adapter : ComputeAdapter)
    (all : list string) (_ : unit) (nid : string) : IO (unit + unit) :=
  advance_node nid NS_provisioning "PXE: OS install + lockdown" ;;
  node ← node_of nid;
  let hid := n_nico_host_id node in
  emit "NeoCloudOS.D1" "NICo.APIService" "REST" ("POST /hosts/" +:+ hid +:+ "/provision")
       (Some oid) (Some hid) ;;
  r ← try_http
        (job0 ← a_provision adapter hid DEFAULT_IMAGE;
         job ← wait_job adapter job0;
         if negb (String.eqb (j_state job) "succeeded")
         then http 502 ("provision failed: " +:+ j_detail job)
         else
           emit "NeoCloudOS.D1" "NICo.APIService" "gRPC" "AllocateInstance" (Some oid) (Some hid) ;;
           host ← a_allocate adapter hid tenant_id;
           mret (Some host))
        (λ _ detail,
           advance_node nid NS_quarantined detail ;;
           compensate_ oid (filterb (λ x, negb (String.eqb x nid)) all) adapter
             ("provision failed on '" +:+ n_id node +:+ "': " +:+ detail) ;;
           mret None);
  match r : option NicoHost with
  | None => mret (inl tt)
  | Some host =>
      node_mut nid (λ n, n <| n_nico_instance_id := h_instance_id host |>
                           <| n_tenant_id := Some tenant_id |>) ;;
      advance_node nid NS_allocated ("nico instance " +:+ opt_text (h_instance_id host)) ;;
      mret (inr tt)
  end.

Definition _stage_provisioning (oid : string) (adapter : ComputeAdapter) : IO unit :=
  nodes ← _ctx_nodes oid;
  o ← order_of oid;
  tenant ← s_idx st_tenants (o_tenant_id o);
  advance_order oid OS_provisioning ("image=" +:+ DEFAULT_IMAGE) ;;
  for_fold (n_id <$> nodes) tt (provision_node oid (tn_id tenant) adapter (n_id <$> nodes))
    ≫= λ _, mret tt.

(** ** Stage 4: isolation *)
(** [by_su]: the rack ids of each SU, in order of first appearance *)
Definition racks_by_su (racks : list Rack) : dict (list string) :=
  foldl (λ d r, dset d (rk_su_id r) (default [] (dget d (rk_su_id r)) ++ [rk_id r])) [] racks.
(** The P_Key of a tenant: [ni.ib_pkey or (0x8000 + next_seq("pkey"))] *)
Definition tenant_pkey (ni : NetworkIsolation) : IO Z :=
  match ni_ib_pkey ni with
  | Some k => if (k =? 0)%Z then (n ← next_seq "pkey"; mret (32768 + n)%Z) else mret k
  | None => n ← next_seq "pkey"; mret (32768 + n)%Z
  end.
Definition first_allocation (oid : string) : IO string :=
  o ← order_of oid; or_raise (head (o_allocation_ids o)) IndexError.

Definition isolate_body (oid : string) (adapter : ComputeAdapter) (nodes : list NodeInstance)
    (racks : list Rack) (tenant : Tenant) : IO unit :=
  for_each (racks_by_su racks) (λ '(su_id, rack_ids),
    alloc ← Tenancy.create_allocation
              (mkAllocCreate (tn_id tenant) SC_rack_set su_id (Some rack_ids) None);
    order_mut oid (λ o, o <| o_allocation_ids ::= λ l, l ++ [al_id alloc] |>)) ;;
  ni ← s_idx st_netiso (tn_id tenant);
  pkey ← tenant_pkey ni;
  s_mut st_netiso (tn_id tenant) (λ n, n <| ni_ib_pkey := Some pkey |>) ;;
  emit "NeoCloudOS.D2" "NICo.APIService" "REST" "POST /segments" (Some oid) None ;;
  aid ← first_allocation oid;
  seg ← a_create_segment adapter (tn_id tenant) (ni_vrf ni) (ni_compute_l3vni ni)
          (ni_converged_vni ni) (n_nico_host_id <$> nodes) (Some aid) (Some pkey);
  order_mut oid (λ o, o <| o_segment_id := Some (sg_id seg) |>) ;;
  emit "NeoCloudOS.D2" "UFM" "UFM" "POST /ufmRest/resources/pkeys" (Some oid) None ;;
  for_each racks (λ rack,
    Tenancy.create_partition (mkPartCreate (rk_id rack) (tn_id tenant) (rk_tray_ids rack))
      ≫= λ _,
    emit "NeoCloudOS.D2" "NMX" "NMX" ("POST /nmx/v1/domains/" +:+ rk_id rack +:+ "/partitions")
         (Some oid) None) ;;
  cpu_nodes ← _sync_cpu_nodes (tn_id tenant) (Some (sg_id seg));
  order_mut oid (λ o, o <| o_history ::= set_last_detail
    ("VPC " +:+ sg_id seg +:+ " (VRF " +:+ ni_vrf ni +:+ "/VNI " +:+ str_of_Z (ni_compute_l3vni ni)
     +:+ ") · IB P_Key " +:+ hex pkey +:+ " · NVLink 파티션 " +:+ str_of_nat (length racks)
     +:+ "개 · CPU 노드 " +:+ str_of_nat (length cpu_nodes) +:+ "대(DPU) VPC 연결") |>).

Definition _stage_isolating (oid : string) (adapter : ComputeAdapter) : IO unit :=
  nodes ← _ctx_nodes oid;
  racks ← _ctx_racks oid;
  o ← order_of oid;
  tenant ← s_idx st_tenants (o_tenant_id o);
  advance_order oid OS_isolating "3-plane 격리 구성 (ETH/IB/NVLink)" ;;
  try_http (isolate_body oid adapter nodes racks tenant)
    (λ _ detail, compensate_ oid (n_id <$> nodes) adapter ("isolation failed: " +:+ detail)).

(** ** Stage 5: storage.  [round1] is [round(x, 1)] on exact rationals. *)
Definition round1 (x : Q) : Q := round_div (Qnum x * 10) (Zpos (Qden x)) # 10.
Record StorageSpec := mkStorageSpec {
  ss_tb : Q; ss_gbps : Q; ss_kiops : Q; ss_tb_text : string; ss_gbps_text : string
}.
Definition storage_spec (o : ServiceOrder) (n_racks : Z) : IO StorageSpec :=
  if String.eqb (o_storage_mode o) "manual" then
    let tb := o_storage_tb o in
    let gbps := if Qeq_bool (o_storage_gbps o) 0
                then round1 (tb / inject_Z STORAGE_TB_PER_RACK * inject_Z STORAGE_GBPS_PER_RACK)
                else o_storage_gbps o in
    tb_text ← float_str tb;
    gbps_text ← float_str gbps;
    mret (mkStorageSpec tb gbps
            (round1 (gbps / inject_Z STORAGE_GBPS_PER_RACK * inject_Z STORAGE_KIOPS_PER_RACK))
            tb_text gbps_text)
  else
    mret (mkStorageSpec (inject_Z (STORAGE_TB_PER_RACK * n_racks))
            (inject_Z (STORAGE_GBPS_PER_RACK * n_racks))
            (inject_Z (STORAGE_KIOPS_PER_RACK * n_racks))
            (str_of_Z (STORAGE_TB_PER_RACK * n_racks))
            (str_of_Z (STORAGE_GBPS_PER_RACK * n_racks))).

Definition bind_storage (oid view_path : string) (tenant : Tenant) (ni : NetworkIsolation)
    (sp : StorageSpec) : IO unit :=
  aid ← first_allocation oid;
  v_create_view get_storage_adapter view_path (tn_id tenant) ("vrf:" +:+ ni_vrf ni) (Some aid) ≫= λ _,
  v_set_quota get_storage_adapter view_path (ss_tb sp) ≫= λ _,
  v_set_qos get_storage_adapter view_path (ss_gbps sp) (ss_kiops sp) ≫= λ _,
  n ← next_seq "storage";
  let sid := "st-" +:+ str_of_Z n in
  s_set st_storage_allocs sid
    (mkStorage sid (tn_id tenant) oid (Some aid) view_path (ss_tb sp) (ss_gbps sp) "NFSoRDMA" "active") ;;
  order_mut oid (λ o, o <| o_storage_ids ::= λ l, l ++ [sid] |>).

Definition _stage_storage_binding (oid : string) (adapter : ComputeAdapter) : IO unit :=
  nodes ← _ctx_nodes oid;
  racks ← _ctx_racks oid;
  o ← order_of oid;
  tenant ← s_idx st_tenants (o_tenant_id o);
  ni ← s_idx st_netiso (tn_id tenant);
  sp ← storage_spec o (Placement.len_z racks);
  let view_path := "/tenants/" +:+ tn_id tenant +:+ "/" +:+ oid in
  advance_order oid OS_storage_binding
    ("VAST view " +:+ view_path +:+ " · " +:+ ss_tb_text sp +:+ "TB · QoS " +:+ ss_gbps_text sp
     +:+ "GB/s (" +:+ (if String.eqb (o_storage_mode o) "manual" then "수동 지정" else "자동 산정")
     +:+ ")") ;;
  try_http (bind_storage oid view_path tenant ni sp)
    (λ _ detail, compensate_ oid (n_id <$> nodes) adapter ("storage binding failed: " +:+ detail)).

(** ** Stage 6: acceptance *)
Definition _stage_acceptance (oid : string) (adapter : ComputeAdapter) : IO unit :=
  nodes ← _ctx_nodes oid;
  o ← order_of oid;
  tenant ← s_idx st_tenants (o_tenant_id o);
  advance_order oid OS_acceptance "running isolation verification" ;;
  for_each ["cross-vrf"; "ib-pkey"; "nvlink"] (λ check,
    emit "NeoCloudOS.D2" "IsolationVerifier" "internal" ("verify:" +:+ check +:+ " → PASS")
         (Some oid) None) ;;
  report ← Tenancy.isolation_report (tn_id tenant);
  if negb (ir_ok report) then
    compensate_ oid (n_id <$> nodes) adapter
      ("isolation verification failed: "
       +:+ repr_list (if_message <$> filterb (λ f, String.eqb (if_severity f) "fail")
                                             (ir_findings report)))
  else
    Shared.issue_service_account (tn_id tenant) oid ≫= λ _,
    Shared.write_secret ("tenants/" +:+ tn_id tenant +:+ "/" +:+ oid +:+ "/storage-s3")
      "s3-access-key" (tn_id tenant) (Some oid) ≫= λ _,
    Shared.write_secret ("tenants/" +:+ tn_id tenant +:+ "/" +:+ oid +:+ "/oob-redfish")
      "redfish-cred" (tn_id tenant) (Some oid) ≫= λ _, mret tt.

End Saga.
