(* ===== verification/TrayEmu.v ===== *)
(** * The compute-tray emulator (app/tray_emu.py)

    Per-tray telemetry that follows the store's bindings and advances by random
    walks, and the fault episodes of its GPUs from detection to recovery.  Each
    draw of [random] is a draw of the environment; times and sums are exact. *)
From Stdlib Require Import QArith.
From stdpp Require Import strings base decidable option numbers list.
From S2P Require Import Prelude PyLib Models EmuModels World Spec StoreOps Placement Saga Business.
Local Open Scope string_scope.
Local Open Scope list_scope.
Local Open Scope py_scope.

Module Emu.
Import Spec.

Definition GPU_IDLE_W : Q := 90.
Definition TRAY_BASE_W : Q := 800.
(** [PROFILES]: utilization range, NVLink range, checkpoint period *)
Record Profile := mkProfile { pf_util : Q * Q; pf_nvlink : Q * Q; pf_ckpt_every : Z }.
Definition PROFILES : dict Profile :=
  [("training", mkProfile (88, 99) (22 # 10, 34 # 10) 40);
   ("inference", mkProfile (35, 75) (1 # 2, 3 # 2) 0);
   ("idle", mkProfile (0, 4) (0, 1 # 20) 0)]%Q.
Definition TOKENS_K_PER_GPU : dict Q :=
  [("Rubin", 60); ("Blackwell Ultra (B300)", 38); ("Blackwell (B200)", 30)]%Q.
Definition XID_POOL : list Z := [63; 79; 48]%Z.
Definition HISTORY_LEN : nat := 240.
Definition FAULT_LOG_LEN : nat := 500.
Definition TICK_S : Z := 2.
Definition _random_faults_enabled : IO bool :=
  v ← getenv "NOCP_RANDOM_FAULTS"; mret (String.eqb (default EmptyString v) "1").

Definition emu : IO TrayEmulator := gets w_emu.
Definition q_of_len {A} (l : list A) : Q := inject_Z (Placement.len_z l).
Definition q_min (a b : Q) : Q := if Qle_bool a b then a else b.
Definition q_max (a b : Q) : Q := if Qle_bool a b then b else a.
(** [max(l, default=0)] *)
Definition q_max_list (l : list Q) : Q := match l with [] => 0%Q | x :: l' => foldl q_max x l' end.
(** [deque(maxlen=n).append(x)] *)
Definition push {A} (n : nat) (x : A) (l : list A) : list A :=
  let l' := l ++ [x] in drop (length l' - n) l'.
(** [l[-n:]] *)
Definition py_tail {A} (n : Z) (l : list A) : list A :=
  if (0 <? n)%Z then drop (length l - Z.to_nat n) l else drop (Z.to_nat (- n)) l.

(** ** [sync_from_store] *)
Definition new_telemetry (bp : option RackBlueprint) (i : nat) : GpuTelemetry :=
  mkTelemetry (Z.of_nat i) "idle" 0 0 (match bp with Some b => gpu_hbm_gb b | None => 192%Z end)
    34 GPU_IDLE_W 0 [] 0.
Definition new_runtime (s : Store) (t : ComputeTray) : TrayRuntime :=
  let rack := dget (st_racks s) (t_rack_id t) in
  let bp := rack ≫= λ r, dget BLUEPRINTS (rk_blueprint_key r) in
  let max_w := match rack, bp with
               | Some r, Some b => round_div (rk_tdp_kw r * 720) (gpu_per_rack b)
               | _, _ => 1200%Z
               end in
  mkRuntime (t_id t) ("nh-" +:+ t_id t) (t_rack_id t) None "standby" None 2 0 0 350 (inject_Z max_w)
    (match bp with Some b => gpu_arch b | None => EmptyString end) 0
    (new_telemetry bp <$> seq 0 (Z.to_nat (match bp with Some b => gpu_per_tray b | None => 4%Z end))).
(** The tenant whose workload the tray runs, with the order *)
Definition bound_to (s : Store) (tray_id : string) : option (string * option string) :=
  match dget (st_node_instances s) ("ni-" +:+ tray_id) with
  | Some n => if bool_decide (n_state n = NS_in_service)
              then match n_tenant_id n with
                   | Some t => if truthy_str t then Some (t, n_order_id n) else None
                   | None => None
                   end
              else None
  | None => None
  end.
Definition cleared (g : GpuTelemetry) : GpuTelemetry :=
  g <| gt_state := "idle" |> <| gt_util_pct := 0%Q |> <| gt_hbm_used_gb := 0%Q |> <| gt_xid_events := [] |>.
Definition set_default (d : dict string) (k v : string) : dict string := if dmem d k then d else dset d k v.
Definition sync_tray (s : Store) (e : TrayEmulator) (t : ComputeTray) : TrayEmulator :=
  let rt := default (new_runtime s t) (dget (em_trays e) (t_id t)) in
  match bound_to s (t_id t) with
  | Some (tenant, order) =>
      let new := negb (bool_decide (rt_tenant_id rt = Some tenant)) in
      let profile := if new then set_default (em_cluster_profile e) tenant "training"
                     else em_cluster_profile e in
      let rt := if new then rt <| rt_tenant_id := Some tenant |>
                                 <| rt_job_name := Some (tenant +:+ "-job-" +:+ Saga.opt_text order) |>
                else rt in
      e <| em_cluster_profile := profile |>
        <| em_trays ::= λ d, dset d (t_id t)
             (rt <| rt_workload := default "training" (dget profile tenant) |>) |>
  | None =>
      let rt := match rt_tenant_id rt with
                | Some _ => rt <| rt_tenant_id := None |> <| rt_job_name := None |>
                               <| rt_gpus ::= fmap cleared |>
                | None => rt
                end in
      e <| em_trays ::= λ d, dset d (t_id t) (rt <| rt_workload := "standby" |>) |>
  end.
Definition active_tenants (e : TrayEmulator) : list string := omap rt_tenant_id (dvalues (em_trays e)).
Definition sync_with (s : Store) (e : TrayEmulator) : TrayEmulator :=
  let e := foldl (sync_tray s) e (dvalues (st_trays s)) in
  let live := t_id <$> dvalues (st_trays s) in
  let e := e <| em_trays ::= filterb (λ kv, memb kv.1 live) |> in
  let tenants := filterb truthy_str (active_tenants e) in
  e <| em_cluster_profile ::= filterb (λ kv, memb kv.1 tenants) |>.
Definition sync_from_store : IO unit := s ← store; upd_emu (sync_with s).
Definition set_profile (tenant_id profile : string) : IO unit :=
  if negb (dmem PROFILES profile) then
    http 422 ("unknown profile '" +:+ profile +:+ "' (choose from "
              +:+ repr_list (sorted String.leb (dkeys PROFILES)) +:+ ")")
  else
    sync_from_store ;;
    e ← emu;
    if negb (dmem (em_cluster_profile e) tenant_id)
    then http 404 ("no active cluster for '" +:+ tenant_id +:+ "'")
    else upd_emu (λ e, e <| em_cluster_profile ::= λ d, dset d tenant_id profile |>).

(** ** [_advance] *)
(** The first entry that satisfies [p] is updated; [_advance] goes through the
    log backwards. *)
Fixpoint update_first {A} (p : A → bool) (f : A → A) (l : list A) : list A :=
  match l with
  | [] => []
  | x :: l' => if p x then f x :: l' else x :: update_first p f l'
  end.
Definition update_last {A} (p : A → bool) (f : A → A) (l : list A) : list A :=
  reverse (update_first p f (reverse l)).
Definition is_open (e : Episode) : bool := match ep_resolved_at e with None => true | Some _ => false end.
Definition open_of (tray_id : string) (gpu : Z) (e : Episode) : bool :=
  String.eqb (ep_tray_id e) tray_id && (ep_gpu e =? gpu)%Z && is_open e.
Definition close_episode (at_ : string) (step : Z) (e : Episode) : Episode :=
  e <| ep_resolved_at := Some at_ |> <| ep_ttr_s := Some (inject_Z ((step - ep_started_step e) * TICK_S)) |>
    <| ep_state := "resolved" |>.
(** A GPU that waits for its recovery; the last tick closes the latest episode. *)
Definition recover_gpu (rt : TrayRuntime) (g : GpuTelemetry) : IO GpuTelemetry :=
  let g := g <| gt_fault_ttl ::= λ t, (t - 1)%Z |> <| gt_state := "fault" |> <| gt_util_pct := 0%Q |>
             <| gt_power_w := GPU_IDLE_W |> <| gt_temp_c ::= λ t, q_max 40 (t - 3)%Q |> in
  (if (gt_fault_ttl g =? 0)%Z then
     e ← emu;
     if anyb (open_of (rt_tray_id rt) (gt_index g)) (em_fault_log e) then
       at_ ← now;
       upd_emu (λ e, e <| em_fault_log ::=
         update_last (open_of (rt_tray_id rt) (gt_index g)) (close_episode at_ (em_step e)) |>)
     else mret tt
   else mret tt) ;;
  mret g.
Definition log_fault (ep : Episode) : IO unit :=
  upd_emu (λ e, e <| em_fault_log ::= push FAULT_LOG_LEN ep |>).
Definition episode (rt : TrayRuntime) (gpu xid : Z) (detail : option string) (at_ : string) (step : Z) : Episode :=
  mkEpisode (rt_tray_id rt) (rt_host_id rt) gpu xid (rt_tenant_id rt) at_ step detail TICK_S None None "open".
Definition random_fault (rt : TrayRuntime) (g : GpuTelemetry) : IO GpuTelemetry :=
  xid ← random_choice XID_POOL;
  e ← emu;
  at_ ← now;
  log_fault (episode rt (gt_index g) xid None at_ (em_step e)) ;;
  emit ("DCGM(" +:+ rt_tray_id rt +:+ ")") "NVSentinel" "internal" ("XID " +:+ str_of_Z xid +:+ " 감지")
       None (Some (rt_host_id rt)) ;;
  mret (g <| gt_xid_events ::= λ l, l ++ [xid] |> <| gt_fault_ttl := 5%Z |> <| gt_state := "fault" |>).
Definition run_gpu (rt : TrayRuntime) (training : bool) (target : Q) (g : GpuTelemetry) : IO GpuTelemetry :=
  noise ← uniform (-3) 3;
  let util := round_q 10 (q_min 100 (q_max 0 (gt_util_pct g + (target - gt_util_pct g) * (35 # 100) + noise)))%Q in
  drift ← uniform (-(3 # 2)) (3 # 2);
  let temp := round_q 10 (q_min 92 (34 + util * (1 # 2) + drift))%Q in
  let st := if negb (Qle_bool temp 88) then "throttled" else if negb (Qle_bool util 8) then "active" else "idle" in
  let base := if training then (55 # 100)%Q else (35 # 100)%Q in
  let g := g <| gt_util_pct := util |> <| gt_state := st |> <| gt_temp_c := temp |>
             <| gt_power_w := round_q 1 (GPU_IDLE_W + util / 100 * (rt_gpu_max_w rt - GPU_IDLE_W))%Q |>
             <| gt_hbm_used_gb := round_q 10 (inject_Z (gt_hbm_total_gb g) * (base + (4 # 10) * util / 100))%Q |> in
  ecc ← (random : IO Q);
  let g := if Qle_bool (2 # 1000) ecc then g else g <| gt_ecc_corrected ::= λ z, (z + 1)%Z |> in
  (enabled ← _random_faults_enabled;
   if enabled : bool then
     r ← random;
     if Qle_bool (1 # 10000) r then mret g else random_fault rt g
   else mret g).
Definition advance_gpu (rt : TrayRuntime) (training : bool) (target : Q) (g : GpuTelemetry) : IO GpuTelemetry :=
  if (0 <? gt_fault_ttl g)%Z then recover_gpu rt g else run_gpu rt training target g.
Definition rest_gpu (g : GpuTelemetry) : IO GpuTelemetry :=
  t ← uniform 31 36;
  mret (g <| gt_state := "idle" |> <| gt_util_pct := 0%Q |> <| gt_temp_c := round_q 10 t |>
          <| gt_power_w := GPU_IDLE_W |>).
Definition sum_power (l : list GpuTelemetry) : Q := Business.sum_q gt_power_w l.
(** A tray without a tenant *)
Definition rest_tray (rt : TrayRuntime) : IO TrayRuntime :=
  d ← uniform (-(1 # 2)) (1 # 2);
  gpus ← map_m rest_gpu (rt_gpus rt);
  mret (rt <| rt_cpu_util_pct := q_max (1 # 2) (q_min 4 (rt_cpu_util_pct rt + d)%Q) |>
           <| rt_nvlink_tx_tbps := 0%Q |> <| rt_nvlink_rx_tbps := 0%Q |> <| rt_gpus := gpus |>
           <| rt_power_w := round_q 1 (TRAY_BASE_W / 2 + sum_power gpus)%Q |>).
Definition avg_util (l : list GpuTelemetry) : Q :=
  (Business.sum_q gt_util_pct l / inject_Z (Z.max 1 (Placement.len_z l)))%Q.
Definition run_tray (rt : TrayRuntime) (profile_name : string) (step : Z) : IO TrayRuntime :=
  prof ← or_raise (dget PROFILES profile_name) (KeyError profile_name);
  let in_ckpt := negb (pf_ckpt_every prof =? 0)%Z && (step mod pf_ckpt_every prof <? 4)%Z in
  let rt := rt <| rt_workload := if in_ckpt then "checkpoint" else profile_name |> in
  target ← (if in_ckpt then uniform 18 30 else uniform (pf_util prof).1 (pf_util prof).2);
  gpus ← map_m (advance_gpu rt (String.eqb profile_name "training") target) (rt_gpus rt);
  let scale := (avg_util gpus / 100)%Q in
  tx ← uniform (pf_nvlink prof).1 (pf_nvlink prof).2;
  rx ← uniform (pf_nvlink prof).1 (pf_nvlink prof).2;
  c ← uniform (-4) 4;
  mret (rt <| rt_gpus := gpus |> <| rt_nvlink_tx_tbps := round_q 100 (tx * scale)%Q |>
           <| rt_nvlink_rx_tbps := round_q 100 (rx * scale)%Q |>
           <| rt_cpu_util_pct := round_q 10 (q_min 100 (15 + avg_util gpus * (45 # 100) + c)%Q) |>
           <| rt_power_w := round_q 1 (TRAY_BASE_W + sum_power gpus)%Q |>).
Definition _advance (rt : TrayRuntime) : IO TrayRuntime :=
  e ← emu;
  let rt := rt <| rt_step := em_step e |> in
  match rt_tenant_id rt with
  | Some t => if String.eqb (rt_workload rt) "standby" then rest_tray rt
              else run_tray rt (default "training" (dget (em_cluster_profile e) t)) (em_step e)
  | None => rest_tray rt
  end.
Definition advance_tray (id : string) : IO unit :=
  e ← emu;
  rt ← or_raise (dget (em_trays e) id) (KeyError id);
  rt' ← _advance rt;
  upd_emu (λ e, e <| em_trays ::= λ d, dset d id rt' |>).

(** ** [_summaries_locked] *)
Definition summary (s : Store) (e : TrayEmulator) (tid : string) (trays : list TrayRuntime) : ClusterSummary :=
  let gpus := concat (rt_gpus <$> trays) in
  let racks := remove_dups (rt_rack_id <$> trays) in
  let coef := match trays with
              | rt :: _ => default 30%Q (dget TOKENS_K_PER_GPU (rt_gpu_arch rt))
              | [] => 30%Q
              end in
  mkSummary tid (default "training" (dget (em_cluster_profile e) tid)) (Placement.len_z trays)
    (Placement.len_z gpus)
    (round_q 10 (Business.sum_q gt_util_pct gpus / inject_Z (Z.max 1 (Placement.len_z gpus))))
    (round_q 10 (Business.sum_q rt_power_w trays / 1000))
    (foldr Z.add 0%Z (rk_power_cap_kw <$> lookup_all (st_racks s) racks))
    (q_max_list (gt_temp_c <$> gpus)) (round_q 10 (Business.sum_q rt_nvlink_tx_tbps trays))
    (round_q 10 (Business.sum_q (λ g, gt_util_pct g / 100 * coef)%Q gpus))
    (foldr Z.add 0%Z (gt_ecc_corrected <$> gpus))
    (Placement.len_z (filterb (λ g, String.eqb (gt_state g) "fault") gpus)).
Definition of_tenant (t : string) (rt : TrayRuntime) : bool := bool_decide (rt_tenant_id rt = Some t).
Definition _summaries_locked (s : Store) (e : TrayEmulator) : list ClusterSummary :=
  (λ t, summary s e t (filterb (of_tenant t) (dvalues (em_trays e))))
  <$> sorted String.leb (remove_dups (filterb truthy_str (active_tenants e))).
Definition clusters : IO (list ClusterSummary) := s ← store; e ← emu; mret (_summaries_locked s e).

(** ** [tick] *)
Definition global_point (e : TrayEmulator) (at_ : string) (summaries : list ClusterSummary) : GlobalPoint :=
  let active := foldr Z.add 0%Z (cs_gpus <$> summaries) in
  let total := foldr Z.add 0%Z ((λ rt, Placement.len_z (rt_gpus rt)) <$> dvalues (em_trays e)) in
  let util := if (active =? 0)%Z then 0%Q
              else (Business.sum_q (λ c, cs_avg_util_pct c * inject_Z (cs_gpus c))%Q summaries / inject_Z active)%Q in
  mkGlobalPoint at_ (em_step e) total active
    (if (total =? 0)%Z then 0%Q else round_q 10 (inject_Z active / inject_Z total * 100)%Q)
    (round_q 10 util) (round_q 10 (Business.sum_q cs_power_kw summaries))
    (round_q 10 (Business.sum_q cs_tokens_ks summaries)) (q_max_list (cs_max_gpu_temp_c <$> summaries))
    (foldr Z.add 0%Z (cs_fault_gpus <$> summaries)).
Definition record_point (at_ : string) (step : Z) (d : dict (list TenantPoint)) (c : ClusterSummary)
    : dict (list TenantPoint) :=
  dset d (cs_tenant_id c)
    (push HISTORY_LEN (mkTenantPoint at_ step c) (default [] (dget d (cs_tenant_id c)))).
Definition _record_locked : IO unit :=
  at_ ← now;
  s ← store;
  e ← emu;
  let summaries := _summaries_locked s e in
  let live := cs_tenant_id <$> summaries in
  upd_emu (λ e, e <| em_history_global ::= push HISTORY_LEN (global_point e at_ summaries) |>
    <| em_history_tenants ::= λ d,
         filterb (λ kv, memb kv.1 live) (foldl (record_point at_ (em_step e)) d summaries) |>).
Definition tick_once : IO unit :=
  upd_emu (λ e, e <| em_step ::= λ z, (z + 1)%Z |>) ;;
  e ← emu;
  for_each (dkeys (em_trays e)) advance_tray ;;
  _record_locked.
Definition tick (n : nat) : IO Z :=
  sync_from_store ;;
  for_each (seq 0 n) (λ _, tick_once) ;;
  e ← emu;
  mret (em_step e).

(** ** Read models *)
Definition history_global (limit : Z) : IO (list GlobalPoint) :=
  e ← emu; mret (py_tail limit (em_history_global e)).
Definition history_of (tenant_id : string) (limit : Z) : IO (list TenantPoint) :=
  e ← emu; mret (py_tail limit (default [] (dget (em_history_tenants e) tenant_id))).
Definition opt_is (o : option string) (v : string) : bool :=
  match o with None => true | Some x => String.eqb v x end.
Definition snapshot (tenant_id rack_id : option string) : IO (list TrayRuntime) :=
  e ← emu;
  mret (sorted (λ a b, String.leb (rt_tray_id a) (rt_tray_id b))
    (filterb (λ rt, match tenant_id with None => true | Some t => of_tenant t rt end
                    && opt_is rack_id (rt_rack_id rt)) (dvalues (em_trays e)))).
Definition tray (tray_id : string) : IO TrayRuntime :=
  e ← emu;
  match dget (em_trays e) tray_id with
  | Some rt => mret rt
  | None => http 404 ("emu: tray '" +:+ tray_id +:+ "' not found")
  end.
Definition reset : IO unit := upd_emu (λ _, empty_emulator).

(** [faults]: the totals and the latest episodes, open ones last in the log first *)
Record FaultReport := mkFaultReport {
  fr_gpus_total : Z; fr_dcgm_source : string; fr_faults_open : Z; fr_faults_resolved : Z;
  fr_availability_pct : option Q; fr_mtta_s : option Q; fr_mttr_s : option Q; fr_recent : list Fault
}.
Definition fault_of (e : Episode) : Fault :=
  mkFault (Some (ep_tray_id e)) (Some (ep_gpu e)) (X_num (ep_xid e)) None None (ep_detail e)
    (ep_tenant_id e) (Some (ep_started_at e)) (Some (ep_started_at e))
    (negb (is_open e)) (ep_resolved_at e) (ep_ttr_s e).
Definition tenant_is (tenant_id o : option string) : bool :=
  negb (truthy tenant_id) || bool_decide (o = tenant_id).
Definition mean (l : list Q) : option Q :=
  match l with [] => None | _ => Some (round_q 10 (Business.sum_q id l / q_of_len l)) end.
Definition running_tenants (s : Store) : list string :=
  k_tenant_id <$> filterb (λ c, String.eqb (k_state c) "running") (dvalues (st_k8s_clusters s)).
Definition dcgm_source (s : Store) (tenant_id : option string) : string :=
  if truthy tenant_id then
    if memb (default EmptyString tenant_id) (running_tenants s)
    then "in-band (dcgm-exporter via Managed K8s)" else "oob (BMC/Redfish)"
  else match remove_dups (running_tenants s) with
       | [] => "oob (BMC/Redfish)"
       | l => "mixed — in-band " +:+ str_of_nat (length l) +:+ " tenant(s) · 나머지 oob(Redfish)"
       end.
Definition faults (tenant_id : option string) (limit : Z) : IO FaultReport :=
  s ← store;
  e ← emu;
  let items := filterb (λ f, tenant_is tenant_id (ep_tenant_id f)) (em_fault_log e) in
  let gpus := foldr Z.add 0%Z ((λ rt, Placement.len_z (rt_gpus rt))
                <$> filterb (λ rt, tenant_is tenant_id (rt_tenant_id rt)) (dvalues (em_trays e))) in
  let open_ := filterb is_open items in
  let resolved := filterb (λ f, negb (is_open f)) items in
  mret (mkFaultReport gpus (dcgm_source s tenant_id) (Placement.len_z open_) (Placement.len_z resolved)
    (if (gpus =? 0)%Z then None else Some (round_q 1000 ((1 - q_of_len open_ / inject_Z gpus) * 100)%Q))
    (mean (inject_Z ∘ ep_tta_s <$> items)) (mean (omap ep_ttr_s resolved))
    (reverse (py_tail limit (fault_of <$> open_ ++ resolved)))).

(** ** [inject_fault] and the samples *)
Definition inject_fault (tray_id : string) (gpu xid ttl_ticks : Z) : IO Episode :=
  sync_from_store ;;
  e ← emu;
  match dget (em_trays e) tray_id with
  | None => http 404 ("emu: tray '" +:+ tray_id +:+ "' not found")
  | Some rt =>
      if negb ((0 <=? gpu) && (gpu <? Placement.len_z (rt_gpus rt)))%Z
      then http 422 ("emu: gpu index " +:+ str_of_Z gpu +:+ " out of range")
      else
        g ← or_raise (rt_gpus rt !! Z.to_nat gpu) IndexError;
        at_ ← now;
        let g' := g <| gt_xid_events ::= λ l, l ++ [xid] |> <| gt_state := "fault" |>
                    <| gt_fault_ttl := Z.max 1 (Z.min ttl_ticks 300) |> in
        let ep := episode rt (gt_index g) xid
                    (Some ("XID " +:+ str_of_Z xid +:+ " 수동 주입 (fault-injection)")) at_ (em_step e) in
        upd_emu (λ e, e <| em_trays ::= λ d, dset d tray_id (rt <| rt_gpus ::= <[Z.to_nat gpu := g']> |>) |>) ;;
        log_fault ep ;;
        emit ("DCGM(" +:+ tray_id +:+ ")") "NVSentinel" "internal" ("XID " +:+ str_of_Z xid +:+ " 감지 (주입)")
             None (Some (rt_host_id rt)) ;;
        mret ep
  end.
Definition sample (tray_id : string) (gpu xid : Z) (detail at_ : string) (step : Z)
    (resolved_at : option string) (ttr : option Q) (st : string) : Episode :=
  mkEpisode tray_id ("nh-" +:+ tray_id) gpu xid None at_ step (Some detail) TICK_S resolved_at ttr st.
Definition seed_sample_faults : IO unit :=
  s ← store;
  let ids := sorted String.leb (dkeys (st_trays s)) in
  match ids with
  | [] => mret tt
  | t_res :: _ =>
      at_ ← now;
      e ← emu;
      t_open ← or_raise (ids !! (1 mod length ids)%nat) IndexError;
      log_fault (sample t_res 0 63 "XID 63 row-remap — 자동 복구 완료 (sample)" at_ (em_step e)
                   (Some at_) (Some 10%Q) "resolved") ;;
      log_fault (sample t_open 1 79 "XID 79 GPU fallen off bus — 대응 중 (sample)" at_ (em_step e)
                   None None "open")
  end.

(** ** The feed of the physical twin, which only exists behind [NOCP_NICO_URL];
    [twin limit] is its answer, [None] when there is none *)
Section twin.
Context (twin : Z → IO (option (list TwinFault))).
Definition _XID_LBL : dict string :=
  [("reprovision", "REPROV"); ("gpu", "GPU"); ("cooling", "COOLING"); ("fabric", "FABRIC");
   ("storage", "STORAGE")].
Definition twin_fault (f : TwinFault) : Fault :=
  mkFault (tf_tray_id f) None
    (match tf_xid f with
     | Some n => if (n =? 0)%Z then X_label (default "TWIN" (tf_kind f ≫= dget _XID_LBL)) else X_num n
     | None => X_label (default "TWIN" (tf_kind f ≫= dget _XID_LBL))
     end)
    (Some (default "reprovision" (tf_kind f))) (tf_severity f) (Some (default EmptyString (tf_detail f)))
    None (tf_at f) (tf_at f) (tf_resolved f) (tf_resolved_at f) None.
Definition _emulator_reprov_faults (limit : Z) : IO (list Fault) :=
  url ← getenv "NOCP_NICO_URL";
  if truthy url then
    items ← twin limit;
    mret (twin_fault <$> default [] items)
  else mret [].
(** [GET /emu/faults] *)
Definition get_faults (tenant_id : option string) (limit : Z) : IO FaultReport :=
  out ← faults tenant_id limit;
  if truthy tenant_id then mret out
  else
    merged ← _emulator_reprov_faults limit;
    match merged with
    | [] => mret out
    | _ => let recent := Business.sorted_rev (λ f, default EmptyString (fa_at f)) (merged ++ fr_recent out) in
           mret (mkFaultReport (fr_gpus_total out) (fr_dcgm_source out) (fr_faults_open out)
                   (fr_faults_resolved out) (fr_availability_pct out) (fr_mtta_s out) (fr_mttr_s out)
                   (if (0 <=? limit)%Z then take (Z.to_nat limit) recent
                    else take (length recent - Z.to_nat (- limit)) recent))
    end.
End twin.

(** ** The remaining routes *)
Record EmuStatus := mkEmuStatus { es_step : Z; es_trays_total : Z; es_trays_active : Z }.
Definition status : IO EmuStatus :=
  e ← emu;
  mret (mkEmuStatus (em_step e) (Placement.len_z (em_trays e))
          (Placement.len_z (filterb (λ rt, truthy (rt_tenant_id rt)) (dvalues (em_trays e))))).
Definition clamp (lo hi n : Z) : Z := Z.min (Z.max n lo) hi.
Definition get_history_global (limit : Z) : IO (list GlobalPoint) := history_global (clamp 1 240 limit).
Definition get_history_of (tenant_id : string) (limit : Z) : IO (list TenantPoint) :=
  history_of tenant_id (clamp 1 240 limit).
Definition post_tick (n : Z) : IO Z := tick (Z.to_nat (clamp 1 200 n)).
Definition set_workload (tenant_id profile : string) : IO unit :=
  set_profile tenant_id profile ;;
  emit "Operator" ("EMU(" +:+ tenant_id +:+ ")") "internal" ("워크로드 프로파일 변경 → " +:+ profile) None None.

End Emu.
