(* ===== verification/NicoApi.v ===== *)
(** * The site controller's read API (app/nico_fake.py)

    The routes of the simulator that only read: the site, its instance types,
    instances, jobs, leases and sanitization reports, and per host its hardware,
    its sensors and its attestation.  The sensors of a tray in service come from
    the tray emulator. *)
From Stdlib Require Import QArith Ascii.
From stdpp Require Import strings base decidable option numbers list.
From S2P Require Import Prelude PyLib Models EmuModels World NicoSim Spec StoreOps Adapters.
From S2P Require Import Placement Topology TrayEmu.
Local Open Scope string_scope.
Local Open Scope list_scope.
Local Open Scope py_scope.

Module NicoApi.
Import Nico Spec Topology.

(** [s.split()[-1]], empty when there is no word; white space is that of ASCII *)
Definition is_blank (c : ascii) : bool :=
  let n := N_of_ascii c in ((9 <=? n) && (n <=? 13) || (28 <=? n) && (n <=? 32))%N.
Fixpoint last_word_from (last cur s : string) : string :=
  match s with
  | EmptyString => str_or (Some cur) last
  | String c s' => if is_blank c then last_word_from (str_or (Some cur) last) EmptyString s'
                   else last_word_from last (cur +:+ String c EmptyString) s'
  end.
Definition last_word (s : string) : string := last_word_from EmptyString EmptyString s.

(** ** [site_info] *)
Definition hosts : IO (list NicoHost) := n_get (λ n, dvalues (nc_hosts n)).
Definition state_counts (hs : list NicoHost) : dict Z :=
  Counter ((λ h, NicoHostState_value (h_state h)) <$> hs).
Definition has_instance (h : NicoHost) : bool := truthy (h_instance_id h).
Record NicoSite := mkNicoSite {
  ns_site_id : string; ns_name : string; ns_ha_nodes : Z; ns_hosts : Z;
  ns_hosts_by_state : dict Z; ns_instances : Z; ns_racks : Z
}.
Record SiteInfo := mkSiteInfo {
  si_site : string; si_controller_version : string; si_ha_nodes : Z;
  si_services : list (string * string); si_sites : list NicoSite;
  si_hosts_by_state : dict Z; si_instances : Z; si_segments : Z; si_jobs : Z
}.
(** The services with their protocols, all in state "ok" *)
Definition SITE_SERVICES : list (string * string) :=
  [("API Service", "gRPC/mTLS"); ("JSON API (REST)", "HTTPS/JWT"); ("DHCP", "UDP67→gRPC");
   ("PXE", "HTTP"); ("Hardware Health", "Redfish"); ("SSH Console", "SSH");
   ("DNS (authoritative)", "DNS"); ("DNS (recursive/unbound)", "DNS"); ("Site Agent", "Temporal")].
Definition site_names (hs : list NicoHost) : list string :=
  sorted String.leb (remove_dups (filterb truthy_str (h_site <$> hs))).
Definition hosts_at (name : string) (hs : list NicoHost) : list NicoHost :=
  filterb (λ h, String.eqb (h_site h) name) hs.
Definition rack_names (hs : list NicoHost) : list string :=
  remove_dups ((λ h, before_last "-tray-" (h_tray_id h)) <$> filterb (λ h, truthy_str (h_tray_id h)) hs).
Definition site_view (all : list NicoHost) (name : string) : IO NicoSite :=
  let hs := hosts_at name all in
  let word := last_word name in
  if truthy_str word then
    mret (mkNicoSite ("nico-" +:+ lower word) name 3 (Placement.len_z hs) (state_counts hs)
            (count_if has_instance hs) (Placement.len_z (rack_names hs)))
  else raise IndexError.
Definition site_info : IO SiteInfo :=
  hs ← hosts;
  sites ← map_m (site_view hs) (site_names hs);
  n ← gets w_nico;
  mret (mkSiteInfo "aif-skt-01" "fake-nico/1.0" 3 SITE_SERVICES sites (state_counts hs)
          (count_if has_instance hs) (Placement.len_z (nc_segments n)) (Placement.len_z (nc_jobs n))).

(** ** The catalogue *)
Record InstanceType := mkInstanceType {
  it_key : string; it_blueprint : RackBlueprint; it_hosts_total : Z; it_hosts_available : Z
}.
Definition free_host (h : NicoHost) : bool := bool_decide (h_state h = HS_pool_ready).
Definition instance_type (all : list NicoHost) (kb : string * RackBlueprint) : InstanceType :=
  let hs := filterb (λ h, String.eqb (h_sku h) kb.1) all in
  mkInstanceType kb.1 kb.2 (Placement.len_z hs) (count_if free_host hs).
Definition instance_types : IO (list InstanceType) :=
  hs ← hosts; mret (instance_type hs <$> BLUEPRINTS).

(** ** Instances, jobs, leases *)
Record InstanceRow := mkInstanceRow {
  ir_instance_id : option string; ir_host_id : string; ir_tray_id : string;
  ir_tenant_ref : option string; ir_host_ip : string; ir_instance_type : string;
  ir_segment_id : option string
}.
Definition instance_row (h : NicoHost) : InstanceRow :=
  mkInstanceRow (h_instance_id h) (h_id h) (h_tray_id h) (h_tenant_ref h) (h_host_ip h) (h_sku h)
    (h_segment_id h).
Definition list_instances : IO (list InstanceRow) :=
  hs ← hosts; mret (instance_row <$> filterb has_instance hs).

(** [int(j.job_id.split("-")[1])]: the part between the first and the second dash *)
Fixpoint before_dash (s : string) : string :=
  match s with
  | EmptyString => EmptyString
  | String c s' => if Ascii.eqb c "-" then EmptyString else String c (before_dash s')
  end.
Fixpoint after_dash (s : string) : option string :=
  match s with
  | EmptyString => None
  | String c s' => if Ascii.eqb c "-" then Some s' else after_dash s'
  end.
Definition job_number (j : NicoJob) : IO Z :=
  match after_dash (j_id j) with
  | None => raise IndexError
  | Some r => or_raise (parse_int (before_dash r)) (ValueError (before_dash r))
  end.
(** [sorted(..., reverse=True)[:min(limit, 200)]] *)
Definition newest_first (jk jk' : NicoJob * Z) : bool := (jk'.2 <=? jk.2)%Z.
Definition list_jobs (limit : Z) : IO (list NicoJob) :=
  jobs ← n_get (λ n, dvalues (nc_jobs n));
  keyed ← map_m (λ j, k ← job_number j; mret (j, k)) jobs;
  mret (take_n (Z.min limit 200) (fst <$> sorted newest_first keyed)).

(** [f"{z:02x}"] *)
Definition hex2 (z : Z) : string := zfill 2 (hex_text z).
Definition _mac_for_tray (tray_id : string) : string :=
  match match_tray tray_id with
  | None => "0c:42:a1:00:00:00"
  | Some (su, rack, tray) => "0c:42:a1:" +:+ hex2 su +:+ ":" +:+ hex2 rack +:+ ":" +:+ hex2 tray
  end.
Record Lease := mkLease {
  le_host_id : string; le_tray_id : string; le_ip : string; le_mac : string; le_lease_s : Z;
  le_dhcp_server : string
}.
Definition lease_of (h : NicoHost) : Lease :=
  mkLease (h_id h) (h_tray_id h) (h_host_ip h) (_mac_for_tray (h_tray_id h)) 86400 (h_dpu_ip h).
Definition dhcp_leases : IO (list Lease) :=
  hs ← hosts; mret (lease_of <$> filterb (λ h, truthy_str (h_host_ip h)) hs).
Definition sanitize_reports : IO (list SanitizeReport) := n_get (λ n, dvalues (nc_sanitize_reports n)).

(** ** One host *)
Definition _FIRMWARE : dict (dict string) :=
  [("vr-nvl72", [("bios", "VR01.04"); ("bmc", "3.02"); ("cpld", "0x21");
                 ("dpu_bfb", "bf-bundle-3.1.0"); ("gpu_vbios", "99.10.2F")]);
   ("gb300-nvl72", [("bios", "GB03.11"); ("bmc", "2.18"); ("cpld", "0x1c");
                    ("dpu_bfb", "bf-bundle-2.9.1"); ("gpu_vbios", "98.00.4A")]);
   ("gb200-nvl72", [("bios", "GB02.27"); ("bmc", "2.14"); ("cpld", "0x1a");
                    ("dpu_bfb", "bf-bundle-2.7.0"); ("gpu_vbios", "97.00.1A")])].
Record Hardware := mkHardware {
  hw_host_id : string; hw_sku : string; hw_gpus : list GPU; hw_cpus : list CPU;
  hw_dpu : option BlueFieldDPU; hw_connectx_supernics : Z; hw_firmware : dict string;
  hw_bmc_ip : string; hw_dpu_ip : string; hw_mac : string
}.
Definition host_hardware (host_id : string) : IO Hardware :=
  host ← Nico.get_host host_id;
  s ← store;
  match dget (st_trays s) (h_tray_id host) with
  | None => http 404 ("nico: no hardware map for '" +:+ host_id +:+ "'")
  | Some tray =>
      let dpu := if truthy (t_dpu_id tray) then dget (st_dpus s) (default EmptyString (t_dpu_id tray))
                 else None in
      mret (mkHardware host_id (h_sku host) (lookup_all (st_gpus s) (t_gpu_ids tray))
              (lookup_all (st_cpus s) (t_cpu_ids tray)) dpu (t_connectx_supernics tray)
              (default [] (dget _FIRMWARE (h_sku host))) (h_bmc_ip host) (h_dpu_ip host)
              (_mac_for_tray (h_tray_id host)))
  end.

(** *** Sensors *)
Record HealthRow := mkHealthRow {
  hl_host_id : string; hl_tray_id : string; hl_tenant_ref : option string;
  hl_instance_id : option string; hl_host_ip : string; hl_nico_state : string;
  hl_state : string; hl_power_w : Q; hl_gpu_temp_c : list Q; hl_cpu_temp_c : option Q;
  hl_coolant_supply_c : option Q; hl_coolant_return_c : option Q; hl_leak_detected : bool;
  hl_pump : string; hl_psu : list (Z * string)
}.
(** [{"id": i, "status": "ok"} for i in range(1, n + 1)] *)
Definition psu_rows (n : Z) : list (Z * string) := (λ i, (i, "ok")) <$> seqZ 1 n.
Definition cpu_node_health (h : NicoHost) : HealthRow :=
  let active := bool_decide (h_state h = HS_allocated) in
  mkHealthRow (h_id h) (h_tray_id h) (h_tenant_ref h) (h_instance_id h) (h_host_ip h)
    (NicoHostState_value (h_state h)) (if active then "ok" else "standby")
    (if active then 780 else 180)%Q [] (Some (if active then 58 else 34)%Q) None None false "n/a"
    (psu_rows 2).
(** GPU temperatures, power, coolant supply and state: of a tray at rest, and
    from the emulator for a tray in service *)
Definition rest_sensors : list Q * Q * Q * string :=
  ((λ i, round_q 10 (32 + inject_Z i * (7 # 10))%Q) <$> seqZ 0 4, 420%Q, 43%Q, "standby").
Definition live_sensors (rt : TrayRuntime) : list Q * Q * Q * string :=
  let temps := gt_temp_c <$> rt_gpus rt in
  let hot := match temps with [] => 40%Q | _ => Emu.q_max_list temps end in
  (temps, rt_power_w rt, round_q 10 (43 + hot * (2 # 100))%Q,
   if anyb (λ g, memb (gt_state g) ["fault"; "throttled"]) (rt_gpus rt) then "warning" else "ok").
Definition sensors (rt : option TrayRuntime) : list Q * Q * Q * string :=
  match rt with
  | Some rt => if truthy (rt_tenant_id rt) then live_sensors rt else rest_sensors
  | None => rest_sensors
  end.
Definition _health_payload (h : NicoHost) : IO HealthRow :=
  if String.eqb (h_sku h) "cpu-epyc" then mret (cpu_node_health h)
  else
    e ← Emu.emu;
    let '(temps, power, coolant, st) := sensors (dget (em_trays e) (h_tray_id h)) in
    mret (mkHealthRow (h_id h) (h_tray_id h) (h_tenant_ref h) (h_instance_id h) (h_host_ip h)
            (NicoHostState_value (h_state h)) st power temps None (Some coolant)
            (Some (round_q 10 (coolant + power / 1400)%Q)) false "ok" (psu_rows 4)).
Definition host_leb (a b : NicoHost) : bool := String.leb (h_id a) (h_id b).
Definition bulk_health (tenant_ref : option string) (limit : Z) : IO (list HealthRow) :=
  hs ← hosts;
  let mine := match tenant_ref with
              | None => hs
              | Some _ => filterb (λ h, bool_decide (h_tenant_ref h = tenant_ref)) hs
              end in
  map_m _health_payload (take_n (Z.min limit 3000) (sorted host_leb mine)).
Definition host_health (host_id : string) : IO HealthRow := h ← Nico.get_host host_id; _health_payload h.

(** *** Attestation; [sha256] is the hexadecimal digest of a text *)
Record Attestation := mkAttestation {
  at_host_id : string; at_attested : bool; at_measured_boot : string; at_tpm : dict string
}.
Definition pcr (sha256 : string → string) (host_id : string) (n : Z) : string :=
  take_str 32 (sha256 (host_id +:+ ":pcr" +:+ str_of_Z n)).
Definition host_attestation (sha256 : string → string) (host_id : string) : IO Attestation :=
  host ← Nico.get_host host_id;
  mret (mkAttestation host_id (h_attested host) (if h_attested host then "passed" else "pending")
          ((λ n, ("PCR" +:+ str_of_Z n, pcr sha256 host_id n)) <$> [0; 2; 4; 7]%Z)).

(** ** Hosts, through the adapter in force, or else the simulator itself *)
Section routes.
Context (http_adapter : string → ComputeAdapter).
Definition list_hosts : IO (list NicoHost) :=
  try_any (a ← get_adapter http_adapter; a_list_hosts a) (λ _, Nico.list_hosts).
Definition get_host (host_id : string) : IO NicoHost :=
  try_any (a ← get_adapter http_adapter; a_get_host a host_id) (λ _, Nico.get_host host_id).
End routes.

End NicoApi.
