(* ===== verification/NicoRest.v ===== *)
(** * The site controller over REST (app/nico_fake.py, app/adapters.py)

    The JSON of the site controller's objects, the routes of its router that the
    order pipeline speaks, and [NicoHttpAdapter], the REST client with the
    contract of [ComputeAdapter].  The transport (httpx, and FastAPI in the other
    process) is the parameter [send]; how pydantic reads the scalar values of a
    JSON document is the class [Pydantic]. *)
From Stdlib Require Import QArith Ascii.
From stdpp Require Import strings base decidable option numbers list.
From S2P Require Import Prelude PyLib Models PortalModels World NicoSim Adapters NicoApi.
Local Open Scope string_scope.
Local Open Scope list_scope.
Local Open Scope py_scope.

(** ** Reading JSON *)
(** What pydantic reads from a value as [str], [int] and [bool]: values of the type
    itself, and whatever else it may coerce *)
Class Pydantic := {
  read_str : json → option string;
  read_int : json → option Z;
  read_bool : json → option bool;
  read_str_ok s : read_str (J_str s) = Some s;
  read_int_ok z : read_int (J_num (inject_Z z)) = Some z;
  read_bool_ok b : read_bool (J_bool b) = Some b
}.

Module NicoRest.

(** [Optional[T]], [list[T]] and a field with or without a default *)
Definition read_opt {A} (rd : json → option A) (j : json) : option (option A) :=
  match j with J_null => Some None | _ => Some <$> rd j end.
Fixpoint read_all {A} (rd : json → option A) (l : list json) : option (list A) :=
  match l with
  | [] => Some []
  | j :: l' => x ← rd j; xs ← read_all rd l'; Some (x :: xs)
  end.
Definition read_list {A} (rd : json → option A) (j : json) : option (list A) :=
  match j with J_list l => read_all rd l | _ => None end.
Definition field {A} (rd : json → option A) (d : list (string * json)) (key : string) (dflt : option A) : option A :=
  match dget d key with Some j => rd j | None => dflt end.
Definition NicoHostState_of (s : string) : option NicoHostState :=
  find_first (λ x, String.eqb (NicoHostState_value x) s)
    [HS_discovered; HS_quarantined; HS_pool_ready; HS_reserved; HS_provisioning;
     HS_provisioned; HS_allocated; HS_released; HS_sanitizing; HS_rma].
Definition read_state (j : json) : option NicoHostState :=
  match j with J_str s => NicoHostState_of s | _ => None end.

(** ** The JSON of the objects *)
Definition j_opt {A} (f : A → json) (o : option A) : json := match o with Some x => f x | None => J_null end.
Definition j_int (z : Z) : json := J_num (inject_Z z).
Definition host_json (h : NicoHost) : json :=
  J_dict [("host_id", J_str (h_id h)); ("tray_id", J_str (h_tray_id h)); ("sku", J_str (h_sku h));
    ("site", J_str (h_site h)); ("state", J_str (NicoHostState_value (h_state h)));
    ("firmware_ok", J_bool (h_firmware_ok h)); ("attested", J_bool (h_attested h));
    ("cordoned", J_bool (h_cordoned h)); ("instance_id", j_opt J_str (h_instance_id h));
    ("tenant_ref", j_opt J_str (h_tenant_ref h)); ("image_ref", j_opt J_str (h_image_ref h));
    ("bmc_ip", J_str (h_bmc_ip h)); ("dpu_ip", J_str (h_dpu_ip h)); ("host_ip", J_str (h_host_ip h));
    ("segment_id", j_opt J_str (h_segment_id h))].
Definition job_json (j : NicoJob) : json :=
  J_dict [("job_id", J_str (j_id j)); ("op", J_str (j_op j)); ("host_id", J_str (j_host_id j));
    ("state", J_str (j_state j)); ("detail", J_str (j_detail j));
    ("remaining_polls", j_int (j_remaining_polls j))].
Definition segment_json (s : NicoSegment) : json :=
  J_dict [("segment_id", J_str (sg_id s)); ("tenant_ref", J_str (sg_tenant_ref s)); ("vrf", J_str (sg_vrf s));
    ("l3vni", j_int (sg_l3vni s)); ("converged_vni", j_int (sg_converged_vni s));
    ("virtualizer", J_str (sg_virtualizer s)); ("vrf_dataplane", J_str (sg_vrf_dataplane s));
    ("host_ids", J_list (J_str <$> sg_host_ids s)); ("allocation_id", j_opt J_str (sg_allocation_id s));
    ("ib_pkey", j_opt j_int (sg_ib_pkey s)); ("state", J_str (sg_state s))].
Definition step_json (st : string * bool) : json := J_dict [("step", J_str st.1); ("ok", J_bool st.2)].
Definition report_json (r : SanitizeReport) : json :=
  J_dict [("host_id", J_str (sz_host_id r)); ("passed", J_bool (sz_passed r));
    ("steps", J_list (step_json <$> sz_steps r))].

(** ** [NicoHost(double-star d)] and its like *)
Section models.
Context `{Pydantic}.
Definition opt_str := read_opt read_str.
Definition host_of (d : list (string * json)) : option NicoHost :=
  id ← field read_str d "host_id" None;
  tray ← field read_str d "tray_id" (Some EmptyString);
  sku ← field read_str d "sku" (Some EmptyString);
  site ← field read_str d "site" (Some EmptyString);
  state ← field read_state d "state" (Some HS_pool_ready);
  fw ← field read_bool d "firmware_ok" (Some true);
  att ← field read_bool d "attested" (Some true);
  cor ← field read_bool d "cordoned" (Some false);
  inst ← field opt_str d "instance_id" (Some None);
  tenant ← field opt_str d "tenant_ref" (Some None);
  image ← field opt_str d "image_ref" (Some None);
  bmc ← field read_str d "bmc_ip" (Some EmptyString);
  dpu ← field read_str d "dpu_ip" (Some EmptyString);
  ip ← field read_str d "host_ip" (Some EmptyString);
  seg ← field opt_str d "segment_id" (Some None);
  Some (mkHost id tray sku site state fw att cor inst tenant image bmc dpu ip seg).
Definition job_of (d : list (string * json)) : option NicoJob :=
  id ← field read_str d "job_id" None;
  op ← field read_str d "op" None;
  host ← field read_str d "host_id" None;
  state ← field read_str d "state" (Some "running");
  detail ← field read_str d "detail" (Some EmptyString);
  polls ← field read_int d "remaining_polls" (Some 0%Z);
  Some (mkJob id op host state detail polls).
Definition segment_of (d : list (string * json)) : option NicoSegment :=
  id ← field read_str d "segment_id" None;
  tenant ← field read_str d "tenant_ref" None;
  vrf ← field read_str d "vrf" None;
  l3 ← field read_int d "l3vni" None;
  conv ← field read_int d "converged_vni" None;
  virt ← field read_str d "virtualizer" (Some "fnn");
  dp ← field read_str d "vrf_dataplane" (Some EmptyString);
  hosts ← field (read_list read_str) d "host_ids" (Some []);
  alloc ← field opt_str d "allocation_id" (Some None);
  pkey ← field (read_opt read_int) d "ib_pkey" (Some None);
  state ← field read_str d "state" (Some "active");
  Some (mkSegment id tenant vrf l3 conv virt dp hosts alloc pkey state).
(** An entry of [steps]: the dictionaries that sanitization writes *)
Definition step_of (j : json) : option (string * bool) :=
  match j with
  | J_dict d => s ← field read_str d "step" None; ok ← field read_bool d "ok" None; Some (s, ok)
  | _ => None
  end.
Definition report_of (d : list (string * json)) : option SanitizeReport :=
  id ← field read_str d "host_id" None;
  passed ← field read_bool d "passed" None;
  steps ← field (read_list step_of) d "steps" (Some []);
  Some (mkSanitize id passed steps).
(** A pydantic model from a JSON value: a [TypeError] unless it is an object, a
    [ValidationError] unless the fields fit *)
Definition build {A} (of_fields : list (string * json) → option A) (j : json) : IO A :=
  match j with
  | J_dict d => or_raise (of_fields d) (ValueError "validation error")
  | _ => raise (TypeError "argument after ** must be a mapping")
  end.

(** ** The router *)
Inductive method := M_get | M_post | M_delete | M_patch.
(** What a route answers: a status code and a body *)
Definition answer {A} (st : Z) (enc : A → json) (m : IO A) : IO (Z * json) := x ← m; mret (st, enc x).
(** A request body that does not fit its model is refused with 422. *)
Definition body_of {A} (of_fields : list (string * json) → option A) (body : option json) : IO A :=
  match body with
  | Some (J_dict d) => or_raise (of_fields d) (HTTPException 422 "request validation")
  | _ => http 422 "request validation"
  end.
Definition allocate_body (d : list (string * json)) : option (string * string) :=
  h ← field read_str d "host_id" None; t ← field read_str d "tenant_ref" None; Some (h, t).
Definition image_body (d : list (string * json)) : option string := field read_str d "image_ref" None.
Definition inject_body (d : list (string * json)) : option string := field read_str d "op" None.
Definition attach_body (d : list (string * json)) : option (list string * string) :=
  hs ← field (read_list read_str) d "host_ids" (Some []);
  p ← field read_str d "purpose" (Some "converged");
  Some (hs, p).
Record SegmentBody := mkSegmentBody {
  sb_tenant_ref : string; sb_vrf : string; sb_l3vni : Z; sb_converged_vni : Z;
  sb_host_ids : list string; sb_allocation_id : option string; sb_ib_pkey : option Z
}.
Definition segment_body (d : list (string * json)) : option SegmentBody :=
  tenant ← field read_str d "tenant_ref" None;
  vrf ← field read_str d "vrf" None;
  l3 ← field read_int d "l3vni" None;
  conv ← field read_int d "converged_vni" None;
  hosts ← field (read_list read_str) d "host_ids" (Some []);
  alloc ← field opt_str d "allocation_id" (Some None);
  pkey ← field (read_opt read_int) d "ib_pkey" (Some None);
  Some (mkSegmentBody tenant vrf l3 conv hosts alloc pkey).
(** [(body or {}).get("reason", "")]; the reason is only text to the simulator *)
Definition reason_of (body : option json) : IO string :=
  match body with
  | None | Some J_null => mret EmptyString
  | Some (J_dict d) => mret (match jget_or d "reason" (J_str EmptyString) with J_str s => s | _ => EmptyString end)
  | Some _ => http 422 "request validation"
  end.

(** [http_adapter]: what [get_adapter] of the serving process returns for a URL *)
Definition router (http_adapter : string → ComputeAdapter) (m : method) (path : list string) (body : option json)
    : option (IO (Z * json)) :=
  match m, path with
  | M_get, [""; "hosts"] => Some (answer 200 (λ l, J_list (host_json <$> l)) (NicoApi.list_hosts http_adapter))
  | M_get, [""; "hosts"; id] => Some (answer 200 host_json (NicoApi.get_host http_adapter id))
  | M_post, [""; "hosts"; id; "reserve"] => Some (answer 200 host_json (Nico.reserve id))
  | M_post, [""; "hosts"; id; "unreserve"] => Some (answer 200 host_json (Nico.unreserve id))
  | M_post, [""; "hosts"; id; "provision"] =>
      Some (image ← body_of image_body body; answer 200 job_json (Nico.provision id image))
  | M_post, [""; "instances"] =>
      Some ('(h, t) ← body_of allocate_body body; answer 201 host_json (Nico.allocate h t))
  | M_delete, [""; "instances"; id] => Some (answer 200 job_json (Nico.release id))
  | M_post, [""; "hosts"; id; "abort-provision"] => Some (answer 200 host_json (Nico.abort_provision id))
  | M_post, [""; "hosts"; id; "cordon"] =>
      Some (reason ← reason_of body; answer 200 host_json (Nico.cordon id reason))
  | M_post, [""; "hosts"; id; "sanitize"] => Some (answer 200 job_json (Nico.sanitize id))
  | M_get, [""; "hosts"; id; "sanitize-report"] => Some (answer 200 report_json (Nico.get_sanitize_report id))
  | M_get, [""; "jobs"; id] => Some (answer 200 job_json (Nico.get_job id))
  | M_get, [""; "segments"] => Some (answer 200 (λ l, J_list (segment_json <$> l)) Nico.list_segments)
  | M_post, [""; "segments"] =>
      Some (b ← body_of segment_body body;
            answer 201 segment_json (Nico.create_segment (sb_tenant_ref b) (sb_vrf b) (sb_l3vni b)
              (sb_converged_vni b) (sb_host_ids b) (sb_allocation_id b) (sb_ib_pkey b)))
  | M_delete, [""; "segments"; id] => Some (answer 200 segment_json (Nico.delete_segment id))
  | M_patch, [""; "segments"; id; "hosts"] =>
      Some ('(hs, p) ← body_of attach_body body; answer 200 segment_json (Nico.attach_hosts id hs p))
  | M_post, [""; "hosts"; id; "inject"] =>
      Some (op ← body_of inject_body body;
            answer 200 (λ _, J_dict [("injected", J_str op); ("host_id", J_str id)]) (Nico.inject_failure id op))
  | _, _ => None
  end.

(** ** [NicoHttpAdapter] *)
Record Response := mkResponse { rs_status_code : Z; rs_json : option json; rs_text : string }.
(** [resp.json()]: a [ValueError] unless the body is JSON *)
Definition resp_json (resp : Response) : IO json := or_raise (rs_json resp) (ValueError "invalid JSON").

Section client.
Context (send : method → string → option json → IO Response).
(** The text of an error detail that is not a string *)
Context (show : json → string).
Definition detail_text (j : json) : string := match j with J_str s => s | _ => show j end.
Definition _unwrap (resp : Response) : IO json :=
  if (400 <=? rs_status_code resp)%Z then
    j ← resp_json resp;
    match j with
    | J_dict d => http (rs_status_code resp) (detail_text (jget_or d "detail" (J_str (rs_text resp))))
    | _ => raise (AttributeError "get")
    end
  else resp_json resp.
Definition call (m : method) (path : string) (body : option json) : IO json :=
  resp ← send m path body; _unwrap resp.
(** [[T(double-star x) for x in ...]]; a JSON string or object is also iterable in
    Python, its elements are strings *)
Definition build_all {A} (of_fields : list (string * json) → option A) (j : json) : IO (list A) :=
  match j with
  | J_list l => map_m (build of_fields) l
  | J_dict [] => mret []
  | J_str s => if truthy_str s then raise (TypeError "argument after ** must be a mapping") else mret []
  | _ => raise (TypeError "argument after ** must be a mapping")
  end.
Definition NicoHttpAdapter : ComputeAdapter := mkAdapter
  (j ← call M_get "/hosts" None; build_all host_of j)
  (λ h, j ← call M_get ("/hosts/" +:+ h) None; build host_of j)
  (λ h, j ← call M_post ("/hosts/" +:+ h +:+ "/reserve") None; build host_of j)
  (λ h, j ← call M_post ("/hosts/" +:+ h +:+ "/unreserve") None; build host_of j)
  (λ h image, j ← call M_post ("/hosts/" +:+ h +:+ "/provision") (Some (J_dict [("image_ref", J_str image)]));
              build job_of j)
  (λ h t, j ← call M_post "/instances" (Some (J_dict [("host_id", J_str h); ("tenant_ref", J_str t)]));
          build host_of j)
  (λ i, j ← call M_delete ("/instances/" +:+ i) None; build job_of j)
  (λ h, j ← call M_post ("/hosts/" +:+ h +:+ "/abort-provision") None; build host_of j)
  (λ h, j ← call M_post ("/hosts/" +:+ h +:+ "/sanitize") None; build job_of j)
  (λ h, j ← call M_get ("/hosts/" +:+ h +:+ "/sanitize-report") None; build report_of j)
  (λ i, j ← call M_get ("/jobs/" +:+ i) None; build job_of j)
  (λ h reason, j ← call M_post ("/hosts/" +:+ h +:+ "/cordon") (Some (J_dict [("reason", J_str reason)]));
               build host_of j)
  (λ t vrf l3 conv hs al pkey,
     j ← call M_post "/segments" (Some (J_dict [("tenant_ref", J_str t); ("vrf", J_str vrf); ("l3vni", j_int l3);
           ("converged_vni", j_int conv); ("host_ids", J_list (J_str <$> hs)); ("allocation_id", j_opt J_str al);
           ("ib_pkey", j_opt j_int pkey)]));
     build segment_of j)
  (λ i, j ← call M_delete ("/segments/" +:+ i) None; build segment_of j)
  (j ← call M_get "/segments" None; build_all segment_of j)
  (λ i hs p, j ← call M_patch ("/segments/" +:+ i +:+ "/hosts")
                   (Some (J_dict [("host_ids", J_list (J_str <$> hs)); ("purpose", J_str p)]));
             build segment_of j).
End client.
End models.

End NicoRest.
