(* ===== verification/CustomerOps.v ===== *)
(** * Customer operations (app/customer_ops.py)

    What a tenant's console does through the gate: node reboot and replacement,
    storage volumes and snapshots, API keys, members.  The tenant is the one of
    the request header.  [ai_get] and [ai_post] are the REST calls to the AI Infra
    emulator, another process: a GET yields [None] when it fails, a POST raises
    502. *)
From Stdlib Require Import QArith Ascii.
From stdpp Require Import strings base decidable option numbers list.
From S2P Require Import Prelude PyLib Models PortalModels World NicoSim Adapters Saga.
Local Open Scope string_scope.
Local Open Scope list_scope.
Local Open Scope py_scope.

Module Customer.

(** [_tenant]: the header is required *)
Definition _tenant (x_tenant_id : option string) : IO string :=
  if truthy x_tenant_id then mret (default EmptyString x_tenant_id)
  else http 400 "X-Tenant-Id header required (customer plane)".
Definition _tray_of (node_id : string) : string :=
  match strip_prefix "nh-" node_id with Some r => r | None => node_id end.
(** [f"{prefix}{n:04d}"] *)
Definition id04 (prefix : string) (n : Z) : string := prefix +:+ zfill 4 (str_of_Z n).

(** Request bodies *)
Record VolumeBody := mkVolumeBody {
  vb_name : string; vb_capacity_tb : Q; vb_protocol : string; vb_qos_bw_gbps : Q; vb_qos_iops_k : Q
}.
Record QosBody := mkQosBody { qb_bw_gbps : Q; qb_iops_k : Q }.
Record SnapBody := mkSnapBody { sb_volume_id : string; sb_note : string }.
Record ApiKeyBody := mkApiKeyBody { kb_name : string; kb_scope : string }.
Record MemberBody := mkMemberBody { mb_new_email : string; mb_new_role : string }.

Definition qos_json (bw iops : Q) : json :=
  J_dict [("bw_gbps", J_num bw); ("iops_k", J_num iops)].

Section ops.
Context (http_adapter : string → ComputeAdapter).
Context (ai_get : string → IO (option json)) (ai_post : string → IO json).

(** ** Nodes *)
Definition host_is (node_id : string) (h : NicoHost) : bool :=
  String.eqb (h_id h) node_id || String.eqb (h_id h) ("nh-" +:+ _tray_of node_id).
(** [_owns_node]: the site controller's host decides; else the node mirror *)
Definition _owns_node (node_id tid : string) : IO bool :=
  found ← try_any
    (a ← get_adapter http_adapter;
     hosts ← a_list_hosts a;
     mret ((λ h, bool_decide (h_tenant_ref h = Some tid)) <$> find_first (host_is node_id) hosts))
    (λ _, mret None);
  match found with
  | Some b => mret b
  | None =>
      s ← store;
      let n := match dget (st_node_instances s) node_id with
               | Some n => Some n
               | None => dget (st_node_instances s) ("nh-" +:+ _tray_of node_id)
               end in
      mret (match n with Some n => bool_decide (n_tenant_id n = Some tid) | None => false end)
  end.

(** [node_ops[key] = op]; keys are JSON values *)
Fixpoint ops_set (l : list (json * NodeOp)) (k : json) (op : NodeOp) : list (json * NodeOp) :=
  match l with
  | [] => [(k, op)]
  | (k', op') :: l' => if json_key_eqb k k' then (k', op) :: l' else (k', op') :: ops_set l' k op
  end.
Definition node_action (action node_id : string) (x_tenant_id : option string) : IO json :=
  tid ← _tenant x_tenant_id;
  owned ← _owns_node node_id tid;
  if negb owned then http 403 "tenant scope violation"
  else
    op ← ai_post ("/emulator/v1/trayops/" +:+ _tray_of node_id +:+ "/" +:+ action);
    match op with
    | J_dict d =>
        let key := jget_or d "op_id" (J_str node_id) in
        (if json_hashable key then
           upd_store (λ s, s <| st_node_ops ::= λ l, ops_set l key (mkNodeOp d tid node_id) |>)
         else raise (TypeError "unhashable")) ;;
        emit "customer" "ai-infra" "trayops" ("node." +:+ action) None None ;;
        mret op
    | _ => raise (AttributeError "get")
    end.
Definition node_reboot : string → option string → IO json := node_action "reboot".
Definition node_replace : string → option string → IO json := node_action "replace".

(** [node_lifecycle]: the operations of the emulator's feed on the node's tray *)
Definition as_list (j : json) : IO (list json) :=
  match j with J_list l => mret l | _ => raise (TypeError "list") end.
Definition field (j : json) (key : string) : IO json :=
  match j with J_dict d => mret (jget d key) | _ => raise (AttributeError "get") end.
Definition or_empty (j : json) : json := if json_truthy j then j else J_list [].
Definition select_m (f : json → IO bool) (l : list json) : IO (list json) :=
  bs ← map_m f l;
  mret ((λ p : bool * json, p.2) <$> filterb (λ p : bool * json, p.1) (zip bs l)).
Definition node_lifecycle (node_id : string) (x_tenant_id : option string)
    : IO (string * list json * list json) :=
  tid ← _tenant x_tenant_id;
  let tray := _tray_of node_id in
  feed ← ai_get "/emulator/v1/obs/tray-ops";
  let ops := match feed with Some j => if json_truthy j then j else J_dict [] | None => J_dict [] end in
  inflight ← (j ← field ops "inflight"; as_list (or_empty j));
  recent ← (r ← field ops "recent";
            h ← field ops "history";
            as_list (if json_truthy r then r else or_empty h));
  let on_tray (o : json) := (t ← field o "tray_id"; mret (json_is_str t tray)) in
  mine ← select_m (λ o, t ← on_tray o;
                        if t : bool then (x ← field o "tenant_id"; mret (json_is_str x tid || json_is_null x))
                        else mret false) (inflight ++ recent);
  active ← select_m on_tray inflight;
  mret (tray, active, take 10 mine).

(** ** Volumes *)
Definition volumes_of (s : Store) (tid : string) : list Volume :=
  filterb (λ v, String.eqb (vo_tenant_id v) tid) (dvalues (st_storage_volumes s)).
(** A volume from a view of the storage system *)
Definition volume_of_view (tid vid at_ : string) (v : list (string * json)) : Volume :=
  let capacity := jget_or v "capacity_tb" (J_num 100) in
  mkVolume vid tid (jget v "path") (jget v "cluster") (jget_or v "protocols" (J_list [J_str "NFS"]))
    capacity (jget_or v "used_tb" (J_num 0)) (jget_or v "quota_tb" capacity)
    (jget_or v "qos" (qos_json 1000 200)) (jget_or v "state" (J_str "active")) at_.
Definition seed_volume (tid : string) (v : json) : IO unit :=
  match v with
  | J_dict d =>
      if negb (json_is_str (jget d "tenant_id") tid) then mret tt
      else
        n ← next_seq "vol";
        at_ ← now;
        s_set st_storage_volumes (id04 "vol-" n) (volume_of_view tid (id04 "vol-" n) at_ d)
  | _ => raise (AttributeError "get")
  end.
(** [_seed_volumes]: once, while the tenant has no volume *)
Definition _seed_volumes (tid : string) : IO unit :=
  s ← store;
  match volumes_of s tid with
  | _ :: _ => mret tt
  | [] =>
      r ← ai_get "/vast/v1/views";
      let views := or_empty (default J_null r) in
      let views := match views with J_dict d => or_empty (jget d "views") | _ => views end in
      match views with
      | J_list l => for_each l (seed_volume tid)
      | J_dict d => for_each (fst <$> d) (λ k, seed_volume tid (J_str k))
      | J_str _ => raise (AttributeError "get")
      | _ => raise (TypeError "not iterable")
      end
  end.
Definition list_volumes (x_tenant_id : option string) : IO (list Volume) :=
  tid ← _tenant x_tenant_id;
  _seed_volumes tid ;;
  s ← store; mret (volumes_of s tid).
Definition create_volume (body : VolumeBody) (x_tenant_id : option string) : IO Volume :=
  tid ← _tenant x_tenant_id;
  n ← next_seq "vol";
  at_ ← now;
  let vid := id04 "vol-" n in
  let v := mkVolume vid tid (J_str ("/" +:+ tid +:+ "/" +:+ vb_name body)) (J_str "vast-ansan")
             (J_list [J_str (vb_protocol body)]) (J_num (vb_capacity_tb body)) (J_num 0)
             (J_num (vb_capacity_tb body)) (qos_json (vb_qos_bw_gbps body) (vb_qos_iops_k body))
             (J_str "active") at_ in
  s_set st_storage_volumes vid v ;;
  emit "customer" "vast" "storage" "volume.create" None None ;;
  mret v.
(** The volume [vid] of the tenant, or 404 *)
Definition own_volume (vid tid : string) : IO Volume :=
  v ← s_get st_storage_volumes vid;
  match v with
  | Some v => if String.eqb (vo_tenant_id v) tid then mret v else http 404 "volume not found"
  | None => http 404 "volume not found"
  end.
Definition set_qos (vid : string) (body : QosBody) (x_tenant_id : option string) : IO Volume :=
  tid ← _tenant x_tenant_id;
  v ← own_volume vid tid;
  let q := qos_json (qb_bw_gbps body) (qb_iops_k body) in
  s_mut st_storage_volumes vid (λ v, v <| vo_qos := q |>) ;;
  emit "customer" "vast" "storage" "volume.qos" None None ;;
  mret (v <| vo_qos := q |>).
Definition delete_volume (vid : string) (x_tenant_id : option string) : IO unit :=
  tid ← _tenant x_tenant_id;
  own_volume vid tid ≫= λ _,
  s_del st_storage_volumes vid.

(** ** Snapshots *)
Definition list_snapshots (x_tenant_id : option string) : IO (list Snapshot) :=
  tid ← _tenant x_tenant_id;
  l ← s_values st_storage_snapshots;
  mret (filterb (λ sn, String.eqb (sn_tenant_id sn) tid) l).
(** [round(x, 1)] of a JSON value *)
Definition json_round1 (j : json) : IO Q :=
  match j with
  | J_num q => mret (Saga.round1 q)
  | J_bool b => mret (if b then 1%Q else 0%Q)
  | _ => raise (TypeError "round")
  end.
Definition create_snapshot (body : SnapBody) (x_tenant_id : option string) : IO Snapshot :=
  tid ← _tenant x_tenant_id;
  v ← own_volume (sb_volume_id body) tid;
  n ← next_seq "snap";
  size ← json_round1 (vo_used_tb v);
  at_ ← now;
  let sid := id04 "snap-" n in
  let sn := mkSnapshot sid tid (sb_volume_id body) (vo_path v) size (sb_note body) at_ "ready" in
  s_set st_storage_snapshots sid sn ;;
  emit "customer" "vast" "storage" "snapshot.create" None None ;;
  mret sn.

(** ** API keys *)
Definition list_api_keys (x_tenant_id : option string) : IO (list ApiKey) :=
  tid ← _tenant x_tenant_id;
  l ← s_values st_api_keys;
  mret ((λ a, a <| ap_secret := None |>) <$> filterb (λ a, String.eqb (ap_tenant_id a) tid) l).
Definition secret_of (tid : string) (seq : Z) : string :=
  "nc_sk_" +:+ drop_str 4 tid +:+ "_" +:+ zfill 8 (hex_text seq) +:+ "a1b2c3d4e5f6".
Definition create_api_key (body : ApiKeyBody) (x_tenant_id : option string) : IO ApiKey :=
  tid ← _tenant x_tenant_id;
  n ← next_seq "apikey";
  seq ← next_seq "apikey_secret";
  at_ ← now;
  let kid := id04 "key-" n in
  let secret := secret_of tid seq in
  let a := mkApiKey kid tid (kb_name body) (kb_scope body) (take_str 14 secret +:+ "…") (Some secret)
             at_ "active" None in
  s_set st_api_keys kid a ;;
  emit "customer" "iam" "shared" "apikey.issue" None None ;;
  mret a.
Definition revoke_api_key (kid : string) (x_tenant_id : option string) : IO unit :=
  tid ← _tenant x_tenant_id;
  a ← s_get st_api_keys kid;
  match a with
  | Some a => if String.eqb (ap_tenant_id a) tid then s_del st_api_keys kid
              else http 404 "api key not found"
  | None => http 404 "api key not found"
  end.

(** ** Members *)
Definition list_members (x_tenant_id : option string) : IO (list Member) :=
  tid ← _tenant x_tenant_id;
  l ← s_values st_members;
  mret (filterb (λ m, String.eqb (mb_tenant_id m) tid) l).
Definition invite_member (body : MemberBody) (x_tenant_id : option string) : IO Member :=
  tid ← _tenant x_tenant_id;
  if negb (memb (mb_new_role body) ["admin"; "member"; "viewer"])
  then http 422 "role must be admin|member|viewer"
  else
    n ← next_seq "member";
    at_ ← now;
    let mid := id04 "mbr-" n in
    let m := mkMember mid tid (mb_new_email body) (mb_new_role body) "invited" at_ false in
    s_set st_members mid m ;;
    emit "customer" "iam" "shared" "member.invite" None None ;;
    mret m.
Definition own_member (mid tid : string) : IO Member :=
  m ← s_get st_members mid;
  match m with
  | Some m => if String.eqb (mb_tenant_id m) tid then mret m else http 404 "member not found"
  | None => http 404 "member not found"
  end.
Definition update_member (mid : string) (body : MemberBody) (x_tenant_id : option string) : IO Member :=
  tid ← _tenant x_tenant_id;
  m ← own_member mid tid;
  s_mut st_members mid (λ m, m <| mb_role := mb_new_role body |>) ;;
  mret (m <| mb_role := mb_new_role body |>).
Definition remove_member (mid : string) (x_tenant_id : option string) : IO unit :=
  tid ← _tenant x_tenant_id;
  own_member mid tid ≫= λ _,
  s_del st_members mid.

End ops.
End Customer.
