(* ===== verification/K8s.v ===== *)
(** * Managed K8s installation (app/lifecycle.py)

    The eight-stage installation saga with its records, the rollback of control
    plane CPU nodes, and the delivery stage with the access package.  The
    mutable [ctx] dictionary of the code becomes the record [Ctx] and the adapter
    argument; its ["cluster"] entry is assigned together with [inst.cluster_id] and is read
    from there. *)
From Stdlib Require Import QArith.
From stdpp Require Import strings base decidable option numbers list relations.
From S2P Require Import Prelude PyLib Models World NicoSim SharedSvc StoreOps Adapters Tenancy.
From S2P Require Import StateMachine Placement Saga.
Local Open Scope string_scope.
Local Open Scope list_scope.
Local Open Scope py_scope.

Module K8s.
Import Saga.

Definition K8S_NKD_VERSION : string := "25.06".
Definition K8S_CP_IMAGE : string := "ubuntu-24.04-k8s-cp".
Definition K8S_CP_SLA : string := "99.9%".
(** [K8S_MANAGED_ADDONS]: name and version *)
Definition K8S_MANAGED_ADDONS : list (string * string) :=
  [("cilium", "1.16.5"); ("multus", "4.1.3"); ("gpu-operator", "25.3.0");
   ("network-operator", "25.1.0"); ("dcgm-exporter", "3.3.9"); ("kube-vip", "0.8.7");
   ("local-path-csi", "0.0.30")].
(** [K8S_INSTALL_STAGES]: the stage names *)
Definition K8S_INSTALL_STAGES : list string :=
  ["cp-reserve"; "os-provision"; "net-attach"; "nkd-bootstrap"; "addons"; "acceptance";
   "telemetry"; "active"].

Definition cluster_mut (cid : string) (f : K8sCluster → K8sCluster) : IO unit :=
  s_mut st_k8s_clusters cid f.
Definition install_mut (iid : string) (f : K8sInstall → K8sInstall) : IO unit :=
  s_mut st_k8s_installs iid f.
Definition cluster_log (cid st detail : string) : IO unit :=
  at_ ← now;
  cluster_mut cid (λ k, k <| k_history ::= λ l, l ++ [mkEvent st detail at_] |>).
(** [str(cn.nico_host_id)] where the id is passed on as it is *)
Definition host_ref (cn : CpuNode) : string := opt_text (cn_nico_host_id cn).

(** ** Rollback *)
Definition rollback_host (adapter : ComputeAdapter) (hid : string) : IO unit :=
  host ← a_get_host adapter hid;
  if bool_decide (h_state host = HS_reserved) then a_unreserve adapter hid ≫= λ _, mret tt
  else if Nico.in_states (h_state host) [HS_provisioning; HS_provisioned; HS_allocated] then
    (if truthy (h_instance_id host) then
       job ← a_release adapter (default EmptyString (h_instance_id host));
       wait_job adapter job ≫= λ _, mret tt
     else a_abort_provision adapter hid ≫= λ _, mret tt) ;;
    job ← a_sanitize adapter hid;
    wait_job adapter job ≫= λ _, mret tt
  else mret tt.
Definition _rollback_k8s_cp (oid : string) (adapter : ComputeAdapter) : IO unit :=
  cns ← s_values st_cpu_nodes;
  for_each cns (λ cn,
    if negb (bool_decide (cn_order_id cn = Some oid)) || negb (String.eqb (cn_role cn) "k8s_cp")
    then mret tt
    else
      try_http (rollback_host adapter (host_ref cn)) (λ _ _, mret tt) ;;
      cpu_mut (cn_id cn) release_cpu).

(** ** Installation records *)
(** [_k8s_stage_delay] *)
Definition _k8s_stage_delay : IO Q :=
  raw ← getenv "NOCP_K8S_STAGE_DELAY";
  match raw with
  | Some raw =>
      f ← parse_float raw;
      mret match f with Some q => if Qle_bool q 0 then 0%Q else q | None => 0%Q end
  | None => url ← getenv "NOCP_NICO_URL"; mret (if truthy url then (5 # 2)%Q else 0%Q)
  end.

Definition _begin_k8s_install (oid : string) : IO string :=
  nodes ← _ctx_nodes oid;
  o ← order_of oid;
  advance_order oid OS_k8s_installing
    ("Managed K8s " +:+ o_k8s_version o +:+ " (NKD " +:+ K8S_NKD_VERSION +:+ ") — CP "
     +:+ str_of_Z K8S_CP_NODES_PER_CLUSTER +:+ "노드 + GPU 워커 " +:+ str_of_nat (length nodes)
     +:+ "대") ;;
  n ← next_seq "k8s_install";
  t ← now;
  let iid := "k8i-" +:+ str_of_Z n in
  s_set st_k8s_installs iid
    (mkInstall iid None (o_tenant_id o) (head (o_allocation_ids o)) (Some oid) (o_k8s_version o)
       "running" "cp-reserve" ((λ n, mkStageRow n "pending" None) <$> K8S_INSTALL_STAGES) t) ;;
  mret iid.

(** [_k8s_mark] *)
Definition mark_row (name status ts : string) (r : StageRow) : StageRow :=
  if String.eqb (sr_name r) name then r <| sr_status := status |> <| sr_ts := Some ts |> else r.
(** the first row of that name is updated, or a new row appended *)
Fixpoint mark_history (name status ts : string) (l : list StageRow) : list StageRow :=
  match l with
  | [] => [mkStageRow name status (Some ts)]
  | r :: l' =>
      if String.eqb (sr_name r) name then mark_row name status ts r :: l'
      else r :: mark_history name status ts l'
  end.
Definition progress (l : list StageRow) : Z :=
  round_div (Placement.len_z (filterb (λ r, String.eqb (sr_status r) "done") l) * 100)
            (Placement.len_z K8S_INSTALL_STAGES).
Definition sets_stage (status : string) : bool := memb status ["running"; "failed"].
Definition _k8s_mark (iid : string) (cluster : option string) (name status : string) : IO unit :=
  ts ← now;
  install_mut iid (λ i,
    let i' := i <| ki_stages ::= fmap (mark_row name status ts) |> in
    if sets_stage status then i' <| ki_stage := name |> else i') ;;
  match cluster with
  | None => mret tt
  | Some cid =>
      cluster_mut cid (λ k,
        let k' := k <| k_stage_history ::= mark_history name status ts |> in
        let k'' := if sets_stage status then k' <| k_stage := name |> else k' in
        k'' <| k_progress_pct := progress (k_stage_history k'') |>)
  end.

(** ** The stages *)
Record Ctx := mkCtx {
  cx_order : string; cx_tenant : Tenant;
  cx_nodes : list NodeInstance; cx_gpus_total : Z; cx_ni : option NetworkIsolation;
  cx_inst : string; cx_cp_nodes : list string
}.
#[export] Instance eta_Ctx : Eta Ctx := λ x,
  mkCtx x.(cx_order) x.(cx_tenant) x.(cx_nodes) x.(cx_gpus_total) x.(cx_ni)
    x.(cx_inst) x.(cx_cp_nodes).
Definition ctx_cluster (iid : string) : IO (option string) :=
  i ← s_get st_k8s_installs iid; mret (i ≫= ki_cluster_id).
Definition the_cluster (ctx : Ctx) : IO K8sCluster :=
  c ← ctx_cluster (cx_inst ctx);
  cid ← or_raise c (AttributeError "id");
  s_idx st_k8s_clusters cid.
Definition cpu_of (cid : string) : IO CpuNode := s_idx st_cpu_nodes cid.

(** The handler the first three stages share: roll the CP nodes back and report. *)
Definition cp_guard (adapter : ComputeAdapter) (ctx : Ctx) (m : IO unit) : IO unit :=
  try_http m (λ _ detail,
    _rollback_k8s_cp (cx_order ctx) adapter ;;
    http 502 ("k8s cp node setup failed: " +:+ detail)).

Definition _k8s_st_cp_reserve (adapter : ComputeAdapter) (ctx : Ctx) : IO Ctx :=
  let oid := cx_order ctx in
  let tid := tn_id (cx_tenant ctx) in
  s ← store;
  let pool := sorted (λ a b, String.leb (cn_id a) (cn_id b))
                (filterb (λ c, String.eqb (cn_state c) "pool_ready") (dvalues (st_cpu_nodes s))) in
  if (Placement.len_z pool <? K8S_CP_NODES_PER_CLUSTER)%Z then
    _rollback_k8s_cp oid adapter ;;
    http 409 ("k8s install failed: CPU pool 부족 (" +:+ str_of_nat (length pool) +:+ "/"
              +:+ str_of_Z K8S_CP_NODES_PER_CLUSTER +:+ ")")
  else
    let cp_nodes := take_n K8S_CP_NODES_PER_CLUSTER pool in
    emit "NeoCloudOS.M1" "NeoCloudOS.M4" "internal" "Managed K8s CP 배치 결정" (Some oid) None ;;
    n ← next_seq "k8s";
    let cid := "k8s-" +:+ str_of_Z n in
    o ← order_of oid;
    t1 ← now;
    t2 ← now;
    s_set st_k8s_clusters cid
      (mkCluster cid tid oid (head (o_allocation_ids o)) (tid +:+ "-mk8s") (o_k8s_version o)
         K8S_NKD_VERSION "installing" ("10.250.1." +:+ str_of_Z (200 + n))
         ("https://iam.neocloud.skt/realms/" +:+ tid) (cn_id <$> cp_nodes)
         (n_id <$> cx_nodes ctx) (cx_gpus_total ctx) [] "in-band" [] EmptyString [] 0 None [] [] t1
         [mkEvent "installing" ("NKD " +:+ K8S_NKD_VERSION +:+ " bootstrap") t2]) ;;
    order_mut oid (λ o, o <| o_k8s_cluster_id := Some cid |>) ;;
    install_mut (cx_inst ctx) (λ i, i <| ki_cluster_id := Some cid |>) ;;
    cp_guard adapter ctx (for_each cp_nodes (λ cn,
      emit "NeoCloudOS.D1" "NICo.APIService" "gRPC" "ReserveHost" (Some oid) (cn_nico_host_id cn) ;;
      a_reserve adapter (host_ref cn) ≫= λ _,
      cpu_mut (cn_id cn) (λ c, c <| cn_order_id := Some oid |> <| cn_role := "k8s_cp" |>
                                <| cn_state := "reserved" |>))) ;;
    mret (ctx <| cx_cp_nodes := cn_id <$> cp_nodes |>).
Definition provision_cp (adapter : ComputeAdapter) (ctx : Ctx) (cid : string) : IO unit :=
  let oid := cx_order ctx in
  let tid := tn_id (cx_tenant ctx) in
  cn ← cpu_of cid;
  emit "NeoCloudOS.D1" "NICo.APIService" "REST" ("POST /hosts/" +:+ host_ref cn +:+ "/provision")
       (Some oid) (cn_nico_host_id cn) ;;
  job0 ← a_provision adapter (host_ref cn) K8S_CP_IMAGE;
  job ← wait_job adapter job0;
  (if negb (String.eqb (j_state job) "succeeded")
   then http 502 ("cp provision failed: " +:+ j_detail job) else mret tt) ;;
  emit "NeoCloudOS.D1" "NICo.APIService" "gRPC" "AllocateInstance" (Some oid)
       (cn_nico_host_id cn) ;;
  host ← a_allocate adapter (host_ref cn) tid;
  cpu_mut cid (λ c, c <| cn_tenant_id := Some tid |> <| cn_state := "allocated" |>) ;;
  (if truthy_str (h_host_ip host) then cpu_mut cid (λ c, c <| cn_host_ip := h_host_ip host |>)
   else match int_suffix (cn_id cn) with
        | inr e => raise e
        | inl idx => cpu_mut cid (λ c, c <| cn_host_ip := "10.250.1." +:+ str_of_Z (idx + 100) |>)
        end) ;;
  o ← order_of oid;
  cpu_mut cid (λ c, c <| cn_segment_id := o_segment_id o |>).
Definition _k8s_st_os_provision (adapter : ComputeAdapter) (ctx : Ctx) : IO Ctx :=
  cp_guard adapter ctx (for_each (cx_cp_nodes ctx) (provision_cp adapter ctx)) ;; mret ctx.

Definition _k8s_st_net_attach (adapter : ComputeAdapter) (ctx : Ctx) : IO Ctx :=
  cp_guard adapter ctx
    (o ← order_of (cx_order ctx);
     cns ← map_m cpu_of (cx_cp_nodes ctx);
     a_attach_hosts adapter (opt_text (o_segment_id o)) (host_ref <$> cns)
       "k8s-control-plane" ≫= λ _,
     for_each (cx_cp_nodes ctx) (λ cid,
       cpu_mut cid (λ c, c <| cn_segment_id := o_segment_id o |>))) ;;
  mret ctx.

Definition _k8s_st_nkd_bootstrap (adapter : ComputeAdapter) (ctx : Ctx) : IO Ctx :=
  let oid := cx_order ctx in
  cluster ← the_cluster ctx;
  cns ← map_m cpu_of (cx_cp_nodes ctx);
  first ← or_raise (head cns) IndexError;
  emit "NeoCloudOS.M6(K8sMgr)" ("NKD(" +:+ cn_id first +:+ ")") "K8s"
       "kubeadm init — 컨트롤플레인 부트스트랩" (Some oid) (cn_nico_host_id first) ;;
  for_each (tail cns) (λ cn,
    emit "NeoCloudOS.M6(K8sMgr)" ("NKD(" +:+ cn_id cn +:+ ")") "K8s"
         "kubeadm join --control-plane" (Some oid) (cn_nico_host_id cn)) ;;
  cluster_log (k_id cluster) "installing"
    ("control plane HA up — VIP " +:+ k_api_vip cluster) ;;
  for_each (cx_nodes ctx) (λ node,
    emit "NeoCloudOS.M6(K8sMgr)" ("NKD(" +:+ n_tray_id node +:+ ")") "K8s"
         "kubeadm join — GPU 워커" (Some oid) (Some (n_nico_host_id node))) ;;
  o ← order_of oid;
  cluster_mut (k_id cluster) (λ k, k <| k_node_versions ::= λ d,
    foldl (λ d id, dset d id (o_k8s_version o)) d
      ((cn_id <$> cns) ++ (n_tray_id <$> cx_nodes ctx)) |>) ;;
  mret ctx.

Definition _k8s_st_addons (adapter : ComputeAdapter) (ctx : Ctx) : IO Ctx :=
  cluster ← the_cluster ctx;
  for_each K8S_MANAGED_ADDONS (λ '(name, version),
    emit "NeoCloudOS.M6(K8sMgr)" ("K8s(" +:+ k_id cluster +:+ ")") "K8s"
         ("addon install — " +:+ name +:+ " " +:+ version) (Some (cx_order ctx)) None ;;
    cluster_mut (k_id cluster) (λ k, k <| k_addons ::= λ l,
      l ++ [mkAddon name version "running" "nkd-bundle"] |>)) ;;
  mret ctx.

Definition K8S_CHECKS : list string :=
  ["nodes-ready"; "gpu-allocatable"; "rdma-resources"; "nccl-smoke"; "dcgm-diag"; "api-vip-ha"].
Definition _k8s_st_acceptance (adapter : ComputeAdapter) (ctx : Ctx) : IO Ctx :=
  cluster ← the_cluster ctx;
  let cid := k_id cluster in
  for_each K8S_CHECKS (λ check,
    emit "NeoCloudOS.M6(K8sMgr)" ("K8s(" +:+ cid +:+ ")") "K8s"
         ("verify:" +:+ check +:+ " → PASS") (Some (cx_order ctx)) None ;;
    t ← now;
    cluster_mut cid (λ k, k <| k_conditions ::= λ l, l ++ [mkCondition check "PASS" t] |>)) ;;
  o ← order_of (cx_order ctx);
  s ← store;
  let views := sa_view_path <$> lookup_all (st_storage_allocs s) (o_storage_ids o) in
  let workers := Placement.len_z (cx_nodes ctx) in
  let total := (K8S_CP_NODES_PER_CLUSTER + workers)%Z in
  t ← now;
  cluster_mut cid (λ k, k <| k_acceptance := Some (mkBurnIn "pass" t
    [mkAccCheck "node-ready" "pass" (str_of_Z total +:+ "/" +:+ str_of_Z total);
     mkAccCheck "nccl-allreduce" "pass" "742 GB/s";
     mkAccCheck "dcgm-diag" "pass" (str_of_Z workers +:+ "/" +:+ str_of_Z workers);
     mkAccCheck "storage-mount" "pass" (default "-" (head views))]) |>) ;;
  mret ctx.

Definition _k8s_st_telemetry (adapter : ComputeAdapter) (ctx : Ctx) : IO Ctx :=
  cluster ← the_cluster ctx;
  emit ("dcgm-exporter(" +:+ k_id cluster +:+ ")") "NeoCloudOS.M5(Telemetry)" "K8s"
       "DCGM in-band agent 활성 — 수집 경로 전환" (Some (cx_order ctx)) None ;;
  cluster_mut (k_id cluster) (λ k, k <| k_dcgm_mode := "in-band" |>) ;;
  mret ctx.

Definition _k8s_st_active (adapter : ComputeAdapter) (ctx : Ctx) : IO Ctx :=
  let oid := cx_order ctx in
  cluster ← the_cluster ctx;
  let cid := k_id cluster in
  let n_checks := str_of_nat (length (k_conditions cluster)) in
  let n_addons := str_of_nat (length (k_addons cluster)) in
  cluster_mut cid (λ k, k <| k_state := "running" |> <| k_stage := "active" |>) ;;
  cluster_log cid "running"
    ("install verified — " +:+ n_checks +:+ " checks PASS · addons " +:+ n_addons) ;;
  install_mut (cx_inst ctx) (λ i, i <| ki_state := "succeeded" |>) ;;
  o ← order_of oid;
  Shared.audit "neocloud-os" "k8s.cluster.install" cid "success" (Some (o_tenant_id o)) ;;
  order_mut oid (λ o, o <| o_history ::= set_last_detail
    ("Managed K8s " +:+ o_k8s_version o +:+ " — 클러스터 " +:+ cid +:+ " · CP "
     +:+ str_of_Z K8S_CP_NODES_PER_CLUSTER +:+ "노드(Converged) · 워커 "
     +:+ str_of_nat (length (cx_nodes ctx)) +:+ "대/GPU " +:+ str_of_Z (k_gpus_total cluster)
     +:+ "기 · 애드온 " +:+ n_addons +:+ "종 · 검증 " +:+ n_checks
     +:+ "건 PASS · DCGM in-band 전환") |>) ;;
  mret ctx.

Definition _K8S_STAGE_FNS : list (ComputeAdapter → Ctx → IO Ctx) :=
  [_k8s_st_cp_reserve; _k8s_st_os_provision; _k8s_st_net_attach; _k8s_st_nkd_bootstrap;
   _k8s_st_addons; _k8s_st_acceptance; _k8s_st_telemetry; _k8s_st_active].

(** ** The runner *)
Definition stage_failed (iid name detail : string) : IO unit :=
  c ← ctx_cluster iid;
  _k8s_mark iid c name "failed" ;;
  install_mut iid (λ i, i <| ki_state := "failed" |>) ;;
  match c with
  | None => mret tt
  | Some cid =>
      cluster_mut cid (λ k, k <| k_state := "failed" |>) ;;
      cluster_log cid "failed" detail
  end.
Definition run_stage (adapter : ComputeAdapter) (iid : string) (ctx : Ctx)
    (st : string * (ComputeAdapter → Ctx → IO Ctx)) : IO Ctx :=
  let '(name, fn) := st in
  c ← ctx_cluster iid;
  _k8s_mark iid c name "running" ;;
  ctx' ← try_http (fn adapter ctx) (λ code detail, stage_failed iid name detail ;; http code detail);
  c' ← ctx_cluster iid;
  _k8s_mark iid c' name "done" ;;
  mret ctx'.
Definition _run_k8s_install (oid : string) (adapter : ComputeAdapter) (iid : string) : IO unit :=
  o ← order_of oid;
  tenant ← s_idx st_tenants (o_tenant_id o);
  nodes ← _ctx_nodes oid;
  s ← store;
  let gpus_total := foldr Z.add 0%Z
    ((λ t, Placement.len_z (t_gpu_ids t)) <$> lookup_all (st_trays s) (n_tray_id <$> nodes)) in
  let ctx := mkCtx oid tenant nodes gpus_total (dget (st_netiso s) (tn_id tenant)) iid [] in
  fold_m (run_stage adapter iid) ctx (zip K8S_INSTALL_STAGES _K8S_STAGE_FNS) ≫= λ _, mret tt.
Definition _install_k8s (oid : string) (adapter : ComputeAdapter) : IO unit :=
  iid ← _begin_k8s_install oid;
  _run_k8s_install oid adapter iid.

(** ** Delivery *)
Definition _k8s_access_entry (k : K8sCluster) : K8sAccess :=
  mkK8sAccess (k_id k) (k_name k) (k_version k) ("https://" +:+ k_api_vip k +:+ ":6443")
    (k_oidc_issuer k) K8S_CP_SLA.
Definition _build_access_package (oid : string) : IO unit :=
  o ← order_of oid;
  s ← store;
  let tid := o_tenant_id o in
  let iso := dget (st_netiso s) tid in
  let views := lookup_all (st_storage_allocs s) (o_storage_ids o) in
  secret ← Shared.pop_sa_secret oid;
  t ← now;
  let k8s := if o_managed_k8s o
             then _k8s_access_entry <$> dget (st_k8s_clusters s) (default EmptyString (o_k8s_cluster_id o))
             else None in
  order_mut oid (λ o, o <| o_access_package := Some (mkAccess t tid
    ("https://iam.neocloud.skt/realms/" +:+ tid +:+ "/protocol/openid-connect/token")
    ("sa-" +:+ oid) secret
    ((λ v, "vast-vip.tenant-data:" +:+ sa_view_path v) <$> views)
    ((λ _, "secret/tenants/" +:+ tid +:+ "/" +:+ oid +:+ "/storage-s3") <$> views)
    (ni_vrf <$> iso) (ni_compute_l3vni <$> iso)
    (hex <$> (iso ≫= ni_ib_pkey)) k8s) |>) ;;
  emit "NeoCloudOS.M1" "CustomerPortal" "internal" ("deliver:access-package → " +:+ oid)
       (Some oid) None ;;
  Shared.audit "neocloud-os" "delivery.access-package.issue" oid "success" (Some tid).

Definition _stage_delivered (oid : string) (adapter : ComputeAdapter) : IO unit :=
  nodes ← _ctx_nodes oid;
  o ← order_of oid;
  report ← Tenancy.isolation_report (o_tenant_id o);
  for_each nodes (λ n, advance_node (n_id n) NS_in_service "acceptance passed") ;;
  _build_access_package oid ;;
  advance_order oid OS_delivered
    ("isolation ok (" +:+ str_of_nat (length (ir_findings report)) +:+ " checks)").

(** [_stage_k8s_install]: synchronous without a stage delay or in approval mode;
    otherwise the installation is handed to a background thread. *)
Definition _stage_k8s_install (oid : string) (adapter : ComputeAdapter) : IO unit :=
  delay ← _k8s_stage_delay;
  o ← order_of oid;
  if Qle_bool delay 0 || o_approval_mode o then
    try_http (_install_k8s oid adapter)
      (λ _ detail, nodes ← _ctx_nodes oid; compensate_ oid (n_id <$> nodes) adapter detail)
  else
    iid ← _begin_k8s_install oid;
    modify (λ w, w <| w_bg_orders ::= λ l, if memb oid l then l else l ++ [oid] |>
                   <| w_threads ::= λ l, l ++ [mkBg oid iid false] |>).

(** The body of that thread: the remaining stages, then delivery, or the
    compensation; the order leaves the background set on every outcome.  The
    lock is released between stages; this is the run without interleaving. *)
Definition bg_install (oid iid : string) (adapter : ComputeAdapter) : IO unit :=
  try_any
    (try_http (_run_k8s_install oid adapter iid ;; _stage_delivered oid adapter)
       (λ _ detail, nodes ← _ctx_nodes oid; compensate_ oid (n_id <$> nodes) adapter detail))
    (λ e, modify (λ w, w <| w_bg_orders ::= filterb (λ x, negb (String.eqb x oid)) |>) ;; raise e) ;;
  modify (λ w, w <| w_bg_orders ::= filterb (λ x, negb (String.eqb x oid)) |>).

End K8s.
