(* ===== verification/K8sApi.v ===== *)
(** * Operation of Managed K8s clusters (app/k8s_api.py)

    Overview and listings, node and pool views, optional add-ons, kubeconfigs,
    and rolling upgrades.  The upgrade thread is a sequence of atomic pieces, one
    per acquisition of the lock, so that requests may come in between.  [infra] is
    what the physical twin answers when asked for its faults. *)
From Stdlib Require Import QArith Ascii.
From stdpp Require Import strings base decidable option numbers list.
From S2P Require Import Prelude PyLib Models PortalModels EmuModels World VastSim Placement Saga TrayEmu K8s.
From S2P Require Import Topology Business.
Local Open Scope string_scope.
Local Open Scope list_scope.
Local Open Scope py_scope.

Module K8sApi.
Import Saga K8s.

Definition K8S_WORKER_IMAGE : string := "dgx-os-7.0".
(** [K8S_RBAC_TEMPLATES] *)
Record RbacTemplate := mkTemplate {
  rb_role : string; rb_cluster_role : string; rb_scope : string; rb_audience : string; rb_detail : string
}.
Definition K8S_RBAC_TEMPLATES : list RbacTemplate :=
  [mkTemplate "admin" "cluster-admin" "cluster" "테넌트 플랫폼 운영자" "전체 리소스 관리 — 노드·네임스페이스·CRD 포함";
   mkTemplate "edit" "edit" "namespace" "ML 엔지니어" "워크로드 배포·수정 — RBAC·ResourceQuota 변경 불가";
   mkTemplate "view" "view" "namespace" "감사·옵저버" "읽기 전용";
   mkTemplate "batch-operator" "edit + kueue-batch-admin" "namespace" "배치 잡 운영자"
     "Kueue 큐·잡 우선순위 관리 (GPU 쿼터 내)"].
(** [K8S_CVES], a static table; the score is a float *)
Record Cve := mkCve {
  cve_id : string; cve_component : string; cve_severity : string; cve_cvss : Q; cve_summary : string;
  cve_affected_versions : string; cve_affects_clusters : list string; cve_patched_in : string;
  cve_action : string; cve_published : string
}.
Definition K8S_CVES : list Cve :=
  [mkCve "CVE-2026-32871" "containerd" "critical" (91 # 10)
     "CRI 이미지 언팩 경로 탈출 — 악성 이미지 pull 시 호스트 파일시스템 쓰기 가능"
     "containerd < 2.0.4 (K8s v1.32.4 · NKD 25.06 번들)" ["v1.32.4"]
     "containerd 2.0.5 — K8s v1.33.2 / NKD 25.06.2" "v1.33.2 업그레이드 권고" "2026-05-18";
   mkCve "CVE-2025-1974" "ingress-nginx" "critical" (98 # 10)
     "IngressNightmare — admission webhook 경유 임의 설정 주입 → RCE" "ingress-nginx < 1.12.1"
     ["v1.32.4"; "v1.33.2"] "ingress-nginx 1.12.1 (선택 애드온 채널)"
     "admission webhook 외부 노출 차단 + 애드온 갱신" "2025-03-24";
   mkCve "CVE-2026-0192" "gpu-operator" "high" (78 # 10)
     "driver-daemonset 권한 상승 — hostPath 마운트 경합으로 컨테이너 탈출" "gpu-operator < 25.3.0" []
     "gpu-operator 25.3.0 (NKD 25.06 번들 — 기적용)" "조치 불필요 (번들 버전 이미 패치)" "2026-01-29";
   mkCve "CVE-2026-1288" "kube-apiserver" "medium" (53 # 10)
     "aggregated API 프록시 헤더 스머글링 — 감사 로그 우회" "K8s ≤ v1.32.4" ["v1.32.4"] "K8s v1.33.2"
     "v1.33.2 업그레이드 권고" "2026-04-07"].
(** [K8S_OPTIONAL_ADDONS]: name and version *)
Definition K8S_OPTIONAL_ADDONS : list (string * string) :=
  [("kube-prometheus-stack", "68.4.0"); ("kueue", "0.10.1"); ("volcano", "1.11.0");
   ("vast-csi", "2.5.1")].

Definition _cluster_or_404 (cluster_id : string) : IO K8sCluster :=
  c ← s_get st_k8s_clusters cluster_id;
  match c with
  | Some c => mret c
  | None => http 404 ("k8s cluster '" +:+ cluster_id +:+ "' not found")
  end.
Definition _pub_state (c : K8sCluster) : string :=
  if String.eqb (k_state c) "running" then "active" else k_state c.
Definition running_cluster (cluster_id what : string) : IO K8sCluster :=
  c ← _cluster_or_404 cluster_id;
  if String.eqb (k_state c) "running" then mret c
  else http 409 ("cluster '" +:+ cluster_id +:+ "'는 " +:+ k_state c +:+ " 상태 — " +:+ what).

(** ** Overview and listings *)
Record Overview := mkOverview {
  ov_clusters_total : Z; ov_by_state : dict Z; ov_installs_active : Z; ov_upgrades_active : Z;
  ov_health_events_open : Z; ov_tenants : dict Z
}.
Definition bump (d : dict Z) (k : string) : dict Z := dset d k (default 0 (dget d k) + 1)%Z.
Definition open_workers (s : Store) (open_trays : list string) (c : K8sCluster) : Z :=
  if memb (k_state c) ["running"; "installing"] then
    Topology.count_if (λ nid, match dget (st_node_instances s) nid with
                              | Some n => memb (n_tray_id n) open_trays
                              | None => false
                              end) (k_worker_node_ids c)
  else 0%Z.
Definition k8s_overview : IO Overview :=
  out ← Emu.faults None 200;
  let open_trays := omap fa_tray_id (filterb (λ f, negb (fa_resolved f)) (Emu.fr_recent out)) in
  s ← store;
  let live := filterb (λ c, negb (String.eqb (k_state c) "deleted")) (dvalues (st_k8s_clusters s)) in
  let by_state := foldl (λ d c, if dmem d (_pub_state c) then bump d (_pub_state c) else d)
                    [("installing", 0%Z); ("active", 0%Z); ("failed", 0%Z); ("deleting", 0%Z)] live in
  let tenants := foldl (λ d c, bump d (k_tenant_id c)) [] live in
  mret (mkOverview (Placement.len_z live) by_state
          (Topology.count_if (λ i, String.eqb (ki_state i) "running") (dvalues (st_k8s_installs s)))
          (Topology.count_if (λ u, String.eqb (ku_state u) "running") (dvalues (st_k8s_upgrades s)))
          (Topology.sum_z (open_workers s open_trays) live)
          (sorted (λ a b, String.leb a.1 b.1) tenants)).
Definition list_k8s_installs (tenant_id : option string) : IO (list K8sInstall) :=
  l ← s_values st_k8s_installs;
  mret (Business.sorted_rev ki_install_id (Business.filter_by tenant_id ki_tenant_id l)).

(** ** Health of the workers *)
(** [_worker_tray_map]: the nodes of the workers by tray *)
Definition _worker_tray_map (s : Store) (c : K8sCluster) : dict NodeInstance :=
  foldl (λ d n, dset d (n_tray_id n) n) [] (omap (dget (st_node_instances s)) (k_worker_node_ids c)).
Record HealthEvent := mkHealthEvent {
  he_ts : option string; he_node : string; he_severity : string; he_kind : string;
  he_message : string; he_action : string; he_hot_spare : option (string * string)
}.
#[export] Instance eta_HealthEvent : Eta HealthEvent := λ x,
  mkHealthEvent x.(he_ts) x.(he_node) x.(he_severity) x.(he_kind) x.(he_message) x.(he_action)
    x.(he_hot_spare).
Definition _AI_KIND : dict string :=
  [("gpu", "gpu-xid"); ("cooling", "thermal"); ("dlc", "thermal"); ("fabric", "link"); ("ufm", "link");
   ("netq", "link"); ("dpu", "dpu")].
Definition xid_text (x : Xid) : string := match x with X_num n => str_of_Z n | X_label l => l end.
(** An episode of the tray emulator as an event of the cluster, if it is on a worker *)
Definition local_event (trays : dict NodeInstance) (f : Fault) : option HealthEvent :=
  match fa_tray_id f with
  | None => None
  | Some tray =>
      if negb (dmem trays tray) then None
      else
        let open_ := negb (fa_resolved f) in
        Some (mkHealthEvent (if truthy (fa_at f) then fa_at f else fa_started_at f) tray
                (if open_ then "critical" else "info") "gpu-xid"
                (str_or (fa_detail f)
                   ("XID " +:+ xid_text (fa_xid f) +:+ " — GPU"
                    +:+ match fa_gpu f with Some g => str_of_Z g | None => "None" end
                    +:+ " (" +:+ (if open_ then "open" else "resolved") +:+ ")"))
                (if open_ then "quarantined" else "none") None)
  end.
(** The tray that a fault of the twin is about *)
Definition twin_tray (f : TwinFault) : string :=
  let raw := default EmptyString (tf_tray_id f) in
  match strip_prefix "GPU-" raw with Some r => before_last "-g" r | None => raw end.
Definition twin_event (trays : dict NodeInstance) (f : TwinFault) : option HealthEvent :=
  match dget _AI_KIND (default EmptyString (tf_kind f)) with
  | None => None
  | Some kind =>
      if negb (dmem trays (twin_tray f)) then None
      else
        let open_ := negb (tf_resolved f) in
        Some (mkHealthEvent (tf_at f) (twin_tray f)
                (str_or (tf_severity f) (if open_ then "critical" else "info")) kind
                (default EmptyString (tf_detail f))
                (if open_ then (if String.eqb kind "gpu-xid" then "quarantined" else "remediating")
                 else "none") None)
  end.
Section health.
Context (infra : Z → IO (option (list TwinFault))).
Definition _ai_infra_faults : IO (list TwinFault) :=
  url ← getenv "NOCP_NICO_URL";
  if truthy url then (items ← infra 100; mret (default [] items)) else mret [].
(** The events, latest first, and the workers with an open GPU fault, sorted *)
Definition _scan_health (trays : dict NodeInstance) : IO (list HealthEvent * list string) :=
  out ← Emu.faults None 200;
  twins ← _ai_infra_faults;
  let events := omap (local_event trays) (Emu.fr_recent out) ++ omap (twin_event trays) twins in
  let open_gpu := he_node <$> filterb (λ e, String.eqb (he_action e) "quarantined") events in
  mret (Business.sorted_rev (λ e, default EmptyString (he_ts e)) events,
        sorted String.leb (remove_dups open_gpu)).

(** ** Nodes, acceptance, node pools *)
Record NodeView := mkNodeView {
  nw_name : string; nw_role : string; nw_host_id : option string; nw_state : string;
  nw_version : string; nw_ip : string; nw_gpu_count : Z
}.
Definition version_of (c : K8sCluster) (name : string) : string :=
  default (k_version c) (dget (k_node_versions c) name).
(** The nodes that running upgrades of the cluster are at *)
Definition draining_nodes (s : Store) (cluster_id : string) : list string :=
  omap (λ u, if String.eqb (ku_cluster_id u) cluster_id && String.eqb (ku_state u) "running"
                && truthy (ku_current_node u) then ku_current_node u else None)
       (dvalues (st_k8s_upgrades s)).
Definition bootstrap_done (c : K8sCluster) : bool :=
  anyb (λ h, String.eqb (sr_name h) "nkd-bootstrap" && String.eqb (sr_status h) "done")
       (k_stage_history c).
Definition cp_view (s : Store) (c : K8sCluster) (draining : list string) (ready : bool) (id : string)
    : NodeView :=
  let cn := dget (st_cpu_nodes s) id in
  mkNodeView id "cp" (cn ≫= cn_nico_host_id)
    (if memb id draining then "Draining" else if ready then "Ready" else "NotReady")
    (version_of c id) (match cn with Some cn => cn_host_ip cn | None => EmptyString end) 0.
Definition worker_view (s : Store) (c : K8sCluster) (open_gpu draining : list string) (ready : bool)
    (i : nat) (nid : string) : option NodeView :=
  (λ node,
    let name := n_tray_id node in
    let st := if memb name open_gpu then "Quarantined"
              else if memb name draining || bool_decide (n_state node = NS_draining) then "Draining"
              else if ready then "Ready" else "NotReady" in
    mkNodeView name "gpu-worker" (Some (n_nico_host_id node)) st (version_of c name)
      ("10.250.2." +:+ str_of_nat (S i))
      (match dget (st_trays s) name with Some t => Placement.len_z (t_gpu_ids t) | None => 4%Z end))
  <$> dget (st_node_instances s) nid.
(** The trays of the workers that have a mirrored node *)
Definition _worker_trays (s : Store) (c : K8sCluster) : list string :=
  n_tray_id <$> omap (dget (st_node_instances s)) (k_worker_node_ids c).
Definition cluster_nodes (cluster_id : string) : IO (list NodeView) :=
  c ← _cluster_or_404 cluster_id;
  s ← store;
  '(_, open_gpu) ← _scan_health (_worker_tray_map s c);
  cluster_mut cluster_id (λ k, k <| k_quarantined_nodes := open_gpu |>) ;;
  let ready := String.eqb (k_state c) "running" || bootstrap_done c in
  let draining := draining_nodes s cluster_id in
  mret ((cp_view s c draining ready <$> k_cp_node_ids c)
        ++ omap id (imap (worker_view s c open_gpu draining ready) (k_worker_node_ids c))).

(** [cluster_acceptance]: the stored report, or a placeholder by state *)
Inductive AcceptanceView :=
  | AV_report (r : BurnInReport)
  | AV_pending (status : string) (checks : list string).
Definition cluster_acceptance (cluster_id : string) : IO AcceptanceView :=
  c ← _cluster_or_404 cluster_id;
  mret (match k_acceptance c with
        | Some r => AV_report r
        | None =>
            if String.eqb (k_state c) "installing"
            then AV_pending "running" ["node-ready"; "nccl-allreduce"; "dcgm-diag"; "storage-mount"]
            else if String.eqb (k_state c) "failed" then AV_pending "fail" []
            else AV_pending "n/a" []
        end).

Record NodePool := mkPool { np_name : string; np_role : string; np_count : Z; np_machine : string;
                            np_image : string; np_version : string }.
Definition cluster_nodepools (cluster_id : string) : IO (list NodePool) :=
  c ← _cluster_or_404 cluster_id;
  s ← store;
  machine_cp ← match find_first (dmem (st_cpu_nodes s)) (k_cp_node_ids c) with
               | Some i => cn ← s_idx st_cpu_nodes i;
                           mem ← float_str (cn_mem_tb cn);
                           mret (cn_cpu_arch cn +:+ " " +:+ str_of_Z (cn_cores cn) +:+ "c/" +:+ mem +:+ "TB")
               | None => mret "cpu-epyc"
               end;
  let rack := head (omap (λ nid, dget (st_node_instances s) nid ≫= λ n, dget (st_racks s) (n_rack_id n))
                         (k_worker_node_ids c)) in
  mret [mkPool "control-plane" "cp" (Placement.len_z (k_cp_node_ids c)) machine_cp K8S_CP_IMAGE
          (k_version c);
        mkPool "gpu-workers" "gpu-worker" (Placement.len_z (k_worker_node_ids c))
          (match rack with
           | Some r => rk_model r +:+ " 트레이 (4× " +:+ rk_gpu_arch r +:+ ")"
           | None => "NVL72 compute tray"
           end) K8S_WORKER_IMAGE (k_version c)].

(** ** Add-ons *)
(** [_addon_view]: name, version, status, channel *)
Definition _addon_view (a : Addon) : Addon :=
  if String.eqb (ad_status a) "running" then a <| ad_status := "installed" |> else a.
Definition cluster_addons (cluster_id : string) : IO (list Addon) :=
  c ← _cluster_or_404 cluster_id;
  let have := ad_name <$> k_addons c in
  mret ((_addon_view <$> k_addons c)
        ++ (if String.eqb (k_state c) "installing" then
              (λ '(n, v), mkAddon n v "pending" "nkd-bundle")
              <$> filterb (λ '(n, _), negb (memb n have)) K8S_MANAGED_ADDONS
            else [])).
Definition add_cluster_addon (cluster_id name : string) : IO (list Addon) :=
  c ← running_cluster cluster_id "애드온 추가 불가";
  match find_first (λ a, String.eqb (fst a) name) K8S_OPTIONAL_ADDONS with
  | None => http 404 ("선택 애드온 '" +:+ name +:+ "' 없음 — 카탈로그: "
                      +:+ repr_list (fst <$> K8S_OPTIONAL_ADDONS))
  | Some (n, v) =>
      if anyb (λ a, String.eqb (ad_name a) name) (k_addons c)
      then http 409 ("애드온 '" +:+ name +:+ "' 이미 설치됨")
      else
        emit "NeoCloudOS.M6(K8sMgr)" ("K8s(" +:+ k_id c +:+ ")") "K8s"
          ("addon install — " +:+ n +:+ " " +:+ v +:+ " (선택)") (Some (k_order_id c)) None ;;
        cluster_mut cluster_id (λ k, k <| k_addons ::= λ l, l ++ [mkAddon n v "running" "optional"] |>) ;;
        cluster_log cluster_id (k_state c) ("addon 추가 — " +:+ n +:+ " " +:+ v) ;;
        c' ← _cluster_or_404 cluster_id;
        mret (_addon_view <$> k_addons c')
  end.

(** ** Services and storage *)
Record ServiceEntry := mkService { se_name : string; se_type : string; se_host : string;
                                   se_ports : list Z; se_state : string }.
Definition cluster_services (cluster_id : string) : IO (string * list ServiceEntry) :=
  c ← _cluster_or_404 cluster_id;
  seq ← (if has_char "-" (k_id c)
         then match int_suffix (k_id c) with inl z => mret z | inr e => raise e end
         else mret 0%Z);
  let active := if String.eqb (k_state c) "running" then "active" else "pending" in
  let dns := k_name c +:+ ".k8s.neocloud.skt" in
  mret (k_api_vip c,
        [mkService "kube-apiserver" "LB" (k_api_vip c) [6443%Z] active;
         mkService dns "DNS" dns [] active;
         mkService "ingress-default" "Ingress" ("10.250.3." +:+ str_of_Z (seq mod 200 + 10))
           [80; 443]%Z active]).
(** PVC name, capacity and use of the tenant's active views *)
Definition last_segment (path : string) : string :=
  match rsplit1 "/" path with Some (_, r) => r | None => path end.
Definition cluster_storage (cluster_id : string) : IO (list (string * Q * Q)) :=
  c ← _cluster_or_404 cluster_id;
  views ← Vast.list_views;
  mret ((λ v, ("pvc-" +:+ last_segment (vv_path v), vv_capacity_tb v,
               round_q 10 (vv_capacity_tb v * inject_Z (vv_id v mod 40 + 25) / 100)%Q))
        <$> filterb (λ v, String.eqb (vv_tenant_ref v) (k_tenant_id c)
                          && String.eqb (vv_state v) "active") views).

(** ** Kubeconfigs *)
Definition list_kubeconfigs (cluster_id : string) : IO (list K8sKubeconfig) :=
  _cluster_or_404 cluster_id ≫= λ _,
  l ← s_values st_k8s_kubeconfigs;
  mret (Business.sorted_rev kc_id (filterb (λ k, String.eqb (kc_cluster_id k) cluster_id) l)).
Definition line (s : string) : string := s +:+ String "010" EmptyString.
Definition _kubeconfig_yaml (c : K8sCluster) (role serial : string) : string :=
  line "apiVersion: v1" +:+ line "kind: Config" +:+ line "clusters:"
  +:+ line ("- name: " +:+ k_name c) +:+ line "  cluster:"
  +:+ line ("    server: https://" +:+ k_api_vip c +:+ ":6443")
  +:+ line ("    certificate-authority-data: <mock-ca-bundle serial=" +:+ serial +:+ ">")
  +:+ line "contexts:" +:+ line ("- name: " +:+ k_name c +:+ "-" +:+ role)
  +:+ line ("  context: {cluster: " +:+ k_name c +:+ ", user: oidc-" +:+ role +:+ "}")
  +:+ line ("current-context: " +:+ k_name c +:+ "-" +:+ role)
  +:+ line "users:" +:+ line ("- name: oidc-" +:+ role) +:+ line "  user:" +:+ line "    exec:"
  +:+ line "      apiVersion: client.authentication.k8s.io/v1" +:+ line "      command: kubectl"
  +:+ line "      args: [oidc-login, get-token, "
  +:+ line ("--oidc-issuer-url=" +:+ k_oidc_issuer c +:+ "]").
(** [k8s_spec] of lifecycle.py, without the prose *)
Record K8sSpec := mkK8sSpec {
  ks_supported_versions : list string; ks_nkd_version : string; ks_cp_nodes_per_cluster : Z; ks_cp_sla : string;
  ks_cp_image : string; ks_managed_addons : list (string * string); ks_optional_addons : list (string * string);
  ks_install_stages : list string
}.
Definition k8s_spec : K8sSpec :=
  mkK8sSpec K8S_SUPPORTED_VERSIONS K8S_NKD_VERSION K8S_CP_NODES_PER_CLUSTER K8S_CP_SLA K8S_CP_IMAGE
    K8S_MANAGED_ADDONS K8S_OPTIONAL_ADDONS K8S_INSTALL_STAGES.
Definition rbac_templates : list RbacTemplate := K8S_RBAC_TEMPLATES.
Definition list_cves : list Cve := K8S_CVES.
Definition kubeconfig_ttl (ttl_h : Z) : Z := Z.max 1 (Z.min ttl_h 720).
Definition issue_kubeconfig (cluster_id role : string) (ttl_h : Z) : IO K8sKubeconfig :=
  c ← running_cluster cluster_id "발급 불가";
  let roles := rb_role <$> K8S_RBAC_TEMPLATES in
  if negb (memb role roles) then
    http 422 ("role '" +:+ role +:+ "' — 지원 템플릿: " +:+ repr_list (sorted String.leb roles))
  else
    let ttl := kubeconfig_ttl ttl_h in
    n ← next_seq "kubeconfig";
    let kid := "kc-" +:+ str_of_Z n in
    serial ← token;
    at_ ← now;
    issued ← Business.fromiso at_;
    expires ← gets (λ w, env_toiso (w_env w) (issued + inject_Z (ttl * 3600))%Q);
    let kc := mkKubeconfig kid cluster_id (k_tenant_id c) serial role ttl at_ expires false None
                (_kubeconfig_yaml c role serial) in
    s_set st_k8s_kubeconfigs kid kc ;;
    emit "NeoCloudOS.M6(K8sMgr)" "SharedServices.IAM" "internal" ("kubeconfig 발급 — " +:+ kid)
      (Some (k_order_id c)) None ;;
    mret kc.
Definition revoke_kubeconfig (cluster_id kubeconfig_id : string) : IO K8sKubeconfig :=
  _cluster_or_404 cluster_id ≫= λ _,
  kc ← s_get st_k8s_kubeconfigs kubeconfig_id;
  match kc with
  | None => http 404 ("kubeconfig '" +:+ kubeconfig_id +:+ "' not found")
  | Some kc =>
      if negb (String.eqb (kc_cluster_id kc) cluster_id)
      then http 404 ("kubeconfig '" +:+ kubeconfig_id +:+ "' not found")
      else if kc_revoked kc then http 409 ("'" +:+ kubeconfig_id +:+ "' 이미 폐기됨")
      else
        at_ ← now;
        s_mut st_k8s_kubeconfigs kubeconfig_id
          (λ k, k <| kc_revoked := true |> <| kc_revoked_at := Some at_ |>) ;;
        emit "NeoCloudOS.M6(K8sMgr)" "SharedServices.IAM" "internal"
          ("kubeconfig 폐기 — " +:+ kubeconfig_id) None None ;;
        s_idx st_k8s_kubeconfigs kubeconfig_id
  end.

(** ** Upgrades *)
Definition UPGRADE_STEPS : list string := ["cordon"; "drain"; "upgrade"; "uncordon"].
Definition upgrade_mut (uid : string) (f : K8sUpgrade → K8sUpgrade) : IO unit :=
  s_mut st_k8s_upgrades uid f.

(** [_run_upgrade]: its atomic pieces *)
Definition node_actions (name : string) : list UpAction :=
  UA_node name :: (UA_step name <$> UPGRADE_STEPS) ++ [UA_done name].
Definition upgrade_actions (node_names : list string) : list UpAction :=
  concat (node_actions <$> node_names) ++ [UA_finish].
Definition upgrade_action (uid : string) (a : UpAction) : IO unit :=
  up ← s_idx st_k8s_upgrades uid;
  let cid := ku_cluster_id up in
  match a with
  | UA_node name => upgrade_mut uid (λ u, u <| ku_current_node := Some name |>)
  | UA_step name step =>
      at_ ← now;
      upgrade_mut uid (λ u, u <| ku_events ::= λ l, l ++ [mkUpEvent at_ name step] |>) ;;
      c ← s_get st_k8s_clusters cid;
      emit "NeoCloudOS.M6(K8sMgr)" ("K8s(" +:+ cid +:+ ")") "K8s"
        ("upgrade:" +:+ step +:+ " — " +:+ name) (k_order_id <$> c) None
  | UA_done name =>
      upgrade_mut uid (λ u, u <| ku_done ::= λ z, (z + 1)%Z |>) ;;
      cluster_mut cid (λ k, k <| k_node_versions ::= λ d, dset d name (ku_target_version up) |>)
  | UA_finish =>
      upgrade_mut uid (λ u, u <| ku_state := "succeeded" |> <| ku_current_node := None |>) ;;
      c ← s_get st_k8s_clusters cid;
      match c with
      | None => mret tt
      | Some c =>
          cluster_mut cid (λ k, k <| k_version := ku_target_version up |>) ;;
          cluster_log cid (k_state c)
            ("upgraded " +:+ ku_from_version up +:+ " → " +:+ ku_target_version up +:+ " (노드 "
             +:+ str_of_Z (ku_total up) +:+ "대 롤링)") ;;
          emit "NeoCloudOS.M6(K8sMgr)" ("K8s(" +:+ k_id c +:+ ")") "K8s"
            ("upgrade complete — " +:+ ku_target_version up) (Some (k_order_id c)) None
      end
  end.
(** One piece of the first thread of that upgrade *)
Fixpoint pop_action (uid : string) (l : list (string * list UpAction))
    : option (UpAction * list (string * list UpAction)) :=
  match l with
  | [] => None
  | (u, acts) :: l' =>
      if String.eqb u uid then
        match acts with
        | [] => None
        | a :: rest => Some (a, match rest with [] => l' | _ => (u, rest) :: l' end)
        end
      else match pop_action uid l' with Some (a, l'') => Some (a, (u, acts) :: l'') | None => None end
  end.
Definition upgrade_tick (uid : string) : IO unit :=
  ts ← gets w_upgrades;
  match pop_action uid ts with
  | None => mret tt
  | Some (a, ts') => modify (λ w, w <| w_upgrades := ts' |>) ;; upgrade_action uid a
  end.

(** The position of a supported version *)
Definition version_index (v : string) : option nat :=
  fst <$> list_find (λ x, x = v) K8S_SUPPORTED_VERSIONS.
Definition downgrade (from to : string) : bool :=
  match version_index from, version_index to with
  | Some i, Some j => (j <? i)%nat
  | _, _ => false
  end.
Definition start_upgrade (cluster_id target_version : string) : IO K8sUpgrade :=
  c ← running_cluster cluster_id "업그레이드 불가";
  let tv := target_version in
  s ← store;
  if negb (memb tv K8S_SUPPORTED_VERSIONS) then
    http 422 ("지원 버전 " +:+ repr_list K8S_SUPPORTED_VERSIONS +:+ " (N/N-1 정책, 요청: '" +:+ tv
              +:+ "')")
  else if String.eqb tv (k_version c) then http 409 ("이미 " +:+ tv +:+ " — 업그레이드 대상 아님")
  else if downgrade (k_version c) tv then
    http 409 ("다운그레이드 불가: " +:+ k_version c +:+ " → " +:+ tv)
  else if anyb (λ u, String.eqb (ku_cluster_id u) cluster_id && String.eqb (ku_state u) "running")
               (dvalues (st_k8s_upgrades s))
  then http 409 "이미 진행 중인 업그레이드가 있음"
  else
    let names := k_cp_node_ids c ++ _worker_trays s c in
    n ← next_seq "k8s_upgrade";
    let uid := "k8u-" +:+ str_of_Z n in
    at_ ← now;
    let up := mkUpgrade uid cluster_id (k_tenant_id c) (k_version c) tv "running" None 0
                (Placement.len_z names) [] at_ in
    s_set st_k8s_upgrades uid up ;;
    emit "Portal/API" "NeoCloudOS.M6(K8sMgr)" "REST"
      ("POST /k8s/clusters/" +:+ cluster_id +:+ "/upgrades → " +:+ uid) (Some (k_order_id c)) None ;;
    modify (λ w, w <| w_upgrades ::= λ l, l ++ [(uid, upgrade_actions names)] |>) ;;
    mret up.
Definition list_upgrades (cluster_id : string) : IO (list K8sUpgrade) :=
  _cluster_or_404 cluster_id ≫= λ _,
  l ← s_values st_k8s_upgrades;
  mret (Business.sorted_rev ku_id (filterb (λ u, String.eqb (ku_cluster_id u) cluster_id) l)).

(** ** Health events: newly quarantined workers and hot-spare suggestions *)
Definition _hot_spare_for (s : Store) (node : NodeInstance) : option (string * string) :=
  (λ n, (n_tray_id n, n_nico_host_id n))
  <$> find_first (λ n, bool_decide (n_state n = NS_pool_ready)
                       && String.eqb (n_blueprint_key n) (n_blueprint_key node))
        (sorted (λ a b, String.leb (n_id a) (n_id b)) (dvalues (st_node_instances s))).
Definition with_spare (s : Store) (trays : dict NodeInstance) (e : HealthEvent) : HealthEvent :=
  if String.eqb (he_action e) "quarantined"
  then e <| he_hot_spare := dget trays (he_node e) ≫= _hot_spare_for s |> else e.
Definition cluster_health_events (cluster_id : string) : IO (list HealthEvent) :=
  c ← _cluster_or_404 cluster_id;
  s ← store;
  let trays := _worker_tray_map s c in
  '(events, open_gpu) ← _scan_health trays;
  let newly := filterb (λ t, negb (memb t (k_quarantined_nodes c))) open_gpu in
  cluster_mut cluster_id (λ k, k <| k_quarantined_nodes := open_gpu |>) ;;
  for_each newly (λ tray,
    emit "NVSentinel" "NeoCloudOS.M6(K8sMgr)" "internal" ("quarantine — " +:+ tray)
      (Some (k_order_id c)) None) ;;
  s ← store;
  mret (with_spare s trays <$> events).
End health.

(** ** [cluster_metrics] *)
Record ClusterMetrics := mkMetrics {
  cm_gpu_util_pct : Q; cm_gpu_temp_max_c : Q; cm_ecc_correctable : Z; cm_ib_bw_tbs : Q;
  cm_gpus_total : Z; cm_dcgm_mode : string; cm_ticks : list (string * Q * Q)
}.
Definition cluster_metrics (cluster_id : string) : IO ClusterMetrics :=
  c ← _cluster_or_404 cluster_id;
  l ← Emu.clusters;
  hist ← Emu.history_of (k_tenant_id c) 60;
  let m := find_first (λ x, String.eqb (cs_tenant_id x) (k_tenant_id c)) l in
  let get {A} (f : ClusterSummary → A) (d : A) : A := match m with Some x => f x | None => d end in
  mret (mkMetrics (get cs_avg_util_pct 0%Q) (get cs_max_gpu_temp_c 0%Q) (get cs_ecc_corrected_total 0%Z)
          (get cs_nvlink_tbps 0%Q) (k_gpus_total c) (k_dcgm_mode c)
          ((λ h, (ht_at h, cs_avg_util_pct (ht_summary h), cs_max_gpu_temp_c (ht_summary h))) <$> hist)).

End K8sApi.
