(* ===== verification/Orders.v ===== *)
(** * The order API (app/lifecycle.py)

    Acceptance of a new order, the approval gates, and rejection.  The routes
    pass the adapter that [get_adapter] returns. *)
From Stdlib Require Import QArith.
From stdpp Require Import strings base decidable option numbers list relations.
From S2P Require Import Prelude PyLib Models World NicoSim SharedSvc StoreOps Adapters Tenancy.
From S2P Require Import StateMachine Placement Saga K8s.
Local Open Scope string_scope.
Local Open Scope list_scope.
Local Open Scope py_scope.

Module Orders.
Import Saga K8s.

Definition Stage : Type := OrderState * (string → ComputeAdapter → IO unit).

(** [FULFILL_STAGES], [FULFILL_STAGES_K8S], [stages_for] *)
Definition FULFILL_STAGES : list Stage :=
  [(OS_validated, _stage_validated); (OS_reserved, _stage_reserved);
   (OS_provisioning, _stage_provisioning); (OS_isolating, _stage_isolating);
   (OS_storage_binding, _stage_storage_binding); (OS_acceptance, _stage_acceptance);
   (OS_delivered, _stage_delivered)].
Definition FULFILL_STAGES_K8S : list Stage :=
  take 6 FULFILL_STAGES ++ [(OS_k8s_installing, _stage_k8s_install)] ++ drop 6 FULFILL_STAGES.
Definition stages_for (managed_k8s : bool) : list Stage :=
  if managed_k8s then FULFILL_STAGES_K8S else FULFILL_STAGES.
(** [_TERMINAL_STATES] *)
Definition _TERMINAL_STATES : list OrderState := [OS_rejected; OS_failed; OS_closed; OS_delivered].
Definition is_terminal (s : OrderState) : bool := anyb (λ x, bool_decide (s = x)) _TERMINAL_STATES.

(** The loop of [run_new_order] over the stages: it stops when the order is
    rejected or failed, or continues in the background. *)
Fixpoint run_stages (oid : string) (adapter : ComputeAdapter) (stages : list Stage) : IO unit :=
  match stages with
  | [] => mret tt
  | (_, stage_fn) :: rest =>
      stage_fn oid adapter ;;
      o ← order_of oid;
      if bool_decide (o_state o = OS_rejected) || bool_decide (o_state o = OS_failed) then mret tt
      else
        bg ← gets w_bg_orders;
        if memb oid bg then mret tt else run_stages oid adapter rest
  end.

Definition new_order (oid : string) (body : OrderCreate) (at_ : string) : ServiceOrder :=
  mkOrder oid (oc_tenant_id body) (oc_kind body) (oc_blueprint_key body) (oc_racks body) None []
    (oc_approval_mode body) None (oc_storage_mode body) (oc_storage_tb body) (oc_storage_gbps body)
    (oc_managed_k8s body) (if oc_managed_k8s body then oc_k8s_version body else EmptyString)
    None None [] [] OS_received None None [mkEvent "received" EmptyString at_].

Definition run_new_order (body : OrderCreate) (adapter : ComputeAdapter) : IO ServiceOrder :=
  oid ← open_order (λ oid at_, new_order oid body at_);
  emit "Portal/API" "NeoCloudOS.M1" "REST" ("POST /orders → " +:+ oid) (Some oid) None ;;
  if oc_approval_mode body then
    order_mut oid (λ o, o <| o_pending_stage := Some (OrderState_value OS_validated) |>) ;;
    order_of oid
  else
    run_stages oid adapter (stages_for (oc_managed_k8s body)) ;;
    order_of oid.

(** The order an operator acts on: it must be waiting at a gate. *)
Definition pending_order (oid : string) : IO (ServiceOrder * string) :=
  o ← s_get st_orders oid;
  match o with
  | None => http 404 ("order '" +:+ oid +:+ "' not found")
  | Some o =>
      if negb (o_approval_mode o) || negb (truthy (o_pending_stage o))
      then http 409 ("order '" +:+ oid +:+ "'는 승인 대기 상태가 아님")
      else mret (o, default EmptyString (o_pending_stage o))
  end.

Definition stage_index (stages : list Stage) (st : OrderState) : option nat :=
  fst <$> list_find (λ x, fst x = st) stages.

(** [approve_next_stage]: run the pending stage; the next stage becomes pending
    unless the order is finished. *)
Definition approve_next_stage (oid : string) (adapter : ComputeAdapter) : IO ServiceOrder :=
  '(o, pending) ← pending_order oid;
  stage ← or_raise (OrderState_of pending) (ValueError pending);
  emit "Operator" "NeoCloudOS.M1" "internal" ("운영자 승인 → " +:+ OrderState_value stage)
       (Some oid) None ;;
  order_mut oid (λ o, o <| o_pending_stage := None |>) ;;
  let stages := stages_for (o_managed_k8s o) in
  fn ← or_raise (snd <$> find_first (λ x, bool_decide (fst x = stage)) stages)
         (KeyError (OrderState_value stage));
  fn oid adapter ;;
  o ← order_of oid;
  (if is_terminal (o_state o) then mret tt
   else
     idx ← or_raise (stage_index stages stage) (ValueError (OrderState_value stage));
     next ← or_raise (stages !! S idx) IndexError;
     order_mut oid (λ o, o <| o_pending_stage := Some (OrderState_value next.1) |>)) ;;
  order_of oid.

Definition reject_fulfillment (oid : string) (adapter : ComputeAdapter) (reason : string)
    : IO ServiceOrder :=
  '(o, _) ← pending_order oid;
  order_mut oid (λ o, o <| o_pending_stage := None |>) ;;
  emit "Operator" "NeoCloudOS.M1" "internal" "운영자 거절" (Some oid) None ;;
  if bool_decide (o_state o = OS_received) || bool_decide (o_state o = OS_validated) then
    reject oid ("운영자 거절: " +:+ reason) ;;
    order_of oid
  else
    nodes ← _ctx_nodes oid;
    _compensate oid (n_id <$> nodes) adapter ("운영자 거절: " +:+ reason).

(** ** Read routes *)
Definition list_orders (tenant_id : option string) : IO (list ServiceOrder) :=
  os ← s_values st_orders;
  mret (if truthy tenant_id
        then filterb (λ o, bool_decide (Some (o_tenant_id o) = tenant_id)) os else os).
Definition get_order (oid : string) : IO ServiceOrder :=
  o ← s_get st_orders oid;
  match o with Some o => mret o | None => http 404 ("order '" +:+ oid +:+ "' not found") end.
Definition list_nodes (state tenant_id : option string) : IO (list NodeInstance) :=
  ns ← s_values st_node_instances;
  let ns := if truthy state
            then filterb (λ n, bool_decide (Some (NodeLifecycleState_value (n_state n)) = state)) ns
            else ns in
  mret (if truthy tenant_id
        then filterb (λ n, bool_decide (n_tenant_id n = tenant_id)) ns else ns).
(** [nodes_summary]: the number of nodes and how many are in each state *)
Definition nodes_summary : IO (Z * dict Z) :=
  ns ← s_values st_node_instances;
  mret (Placement.len_z ns,
        foldl (λ d n, let k := NodeLifecycleState_value (n_state n) in
                      dset d k (default 0 (dget d k) + 1)%Z) [] ns).

End Orders.
