(* ===== verification/Reclaim.v ===== *)
(** * The terminate pipeline (app/lifecycle.py, F4) and [create_order] *)
From Stdlib Require Import QArith.
From stdpp Require Import strings base decidable option numbers list relations.
From S2P Require Import Prelude PyLib Models World NicoSim SharedSvc StoreOps Adapters Tenancy.
From S2P Require Import StateMachine Placement Saga K8s Orders.
Local Open Scope string_scope.
Local Open Scope list_scope.
Local Open Scope py_scope.

Module Reclaim.
Import Saga K8s Orders.

Definition terminate_order (oid : string) (body : OrderCreate) (at_ : string) : ServiceOrder :=
  mkOrder oid (oc_tenant_id body) (oc_kind body) None 0 (oc_allocation_id body) [] false None
    "auto" 0%Q 0%Q false EmptyString None None [] [] OS_received None None
    [mkEvent "received" EmptyString at_].

(** ** Teardown messages *)
Definition racks_ports (s : Store) (rids : list string) : Z :=
  (foldr Z.add 0 ((λ r, Placement.len_z (rk_tray_ids r)) <$> lookup_all (st_racks s) rids) * 8)%Z.
Definition other_racks (s : Store) (tid aid : string) : list string :=
  concat (al_rack_ids <$> filterb (λ a, String.eqb (al_tenant_id a) tid
                                        && negb (String.eqb (al_id a) aid))
                                  (dvalues (st_allocations s))).
Definition pkey_text (ni : option NetworkIsolation) : string :=
  match ni ≫= ni_ib_pkey with
  | Some k => if (k =? 0)%Z then "(미부여)" else hex k
  | None => "(미부여)"
  end.
Definition announce_teardown (oid tid : string) (alloc : Allocation) : IO unit :=
  for_each (al_rack_ids alloc) (λ rid,
    s ← store;
    for_each (partitions_of_rack s rid) (λ part,
      when (String.eqb (p_tenant_id part) tid)
        (emit "NeoCloudOS.D2" "NMX" "NMX"
           ("DELETE /nmx/v1/domains/" +:+ rid +:+ "/partitions/" +:+ str_of_Z (p_partition_id part))
           (Some oid) None))) ;;
  s ← store;
  let pkey := pkey_text (dget (st_netiso s) tid) in
  match other_racks s tid (al_id alloc) with
  | _ :: _ => emit "NeoCloudOS.D2" "UFM" "UFM" ("PATCH /ufmRest/resources/pkeys/" +:+ pkey)
                   (Some oid) None
  | [] => emit "NeoCloudOS.D2" "UFM" "UFM" ("DELETE /ufmRest/resources/pkeys/" +:+ pkey)
               (Some oid) None
  end.

(** The segment to delete: the allocation's, else any segment of the tenant *)
Definition segment_for (segs : list NicoSegment) (aid tid : string) : option string :=
  let own := sg_id <$> find_first (λ sg, bool_decide (sg_allocation_id sg = Some aid)) segs in
  if truthy own then own
  else sg_id <$> find_first (λ sg, String.eqb (sg_tenant_ref sg) tid) segs.

(** ** One node of the reclaim loop; it returns whether the node went to RMA. *)
Definition reclaim_node (adapter : ComputeAdapter) (nid : string) : IO bool :=
  node ← node_of nid;
  when (bool_decide (n_state node = NS_in_service))
    (advance_node nid NS_draining "reclaim: tenant workload drain") ;;
  node ← node_of nid;
  if bool_decide (n_state node = NS_draining) || bool_decide (n_state node = NS_cordoned) then
    when (bool_decide (n_state node = NS_cordoned)) (advance_node nid NS_draining "reclaim") ;;
    when (truthy (n_nico_instance_id node))
      (job ← a_release adapter (default EmptyString (n_nico_instance_id node));
       wait_job adapter job ≫= λ _,
       node_mut nid (λ n, n <| n_nico_instance_id := None |>)) ;;
    advance_node nid NS_releasing "reclaim: nico release" ;;
    job0 ← a_sanitize adapter (n_nico_host_id node);
    job ← wait_job adapter job0;
    advance_node nid NS_sanitizing "nvme erase / gpu+mem wipe / tpm reset / re-attest" ;;
    if String.eqb (j_state job) "succeeded" then
      report ← a_get_sanitize_report adapter (n_nico_host_id node);
      advance_node nid NS_pool_ready
        ("sanitized ok (" +:+ str_of_nat (length (sz_steps report)) +:+ " steps) — pool return") ;;
      mret false
    else
      advance_node nid NS_rma ("sanitize failed: " +:+ j_detail job) ;;
      mret true
  else mret false.

(** The loop body: a node whose reclaim fails keeps its tenant binding and is
    recorded as stuck; the accumulator is [(rma_nodes, stuck_nodes)]. *)
Definition reclaim_step (oid : string) (adapter : ComputeAdapter)
    (acc : list string * list string) (nid : string) : IO (list string * list string) :=
  r ← try_http (b ← reclaim_node adapter nid; mret (Some b)) (λ _ detail,
        node ← node_of nid;
        node_log nid (NodeLifecycleState_value (n_state node))
          ("reclaim step failed: " +:+ detail +:+ " — manual intervention / reconcile required") ;;
        node_mut nid (λ n, n <| n_order_id := Some oid |>) ;;
        mret None);
  match r : option bool with
  | None => mret (acc.1, acc.2 ++ [nid])
  | Some is_rma =>
      node_mut nid (λ n, n <| n_tenant_id := None |> <| n_order_id := Some oid |>) ;;
      mret (if is_rma then acc.1 ++ [nid] else acc.1, acc.2)
  end.

(** ** Managed K8s teardown *)
Definition release_cp (oid : string) (adapter : ComputeAdapter) (cid : string) : IO unit :=
  cn ← cpu_of cid;
  try_http
    (host ← a_get_host adapter (host_ref cn);
     when (truthy (h_instance_id host))
       (job ← a_release adapter (default EmptyString (h_instance_id host));
        wait_job adapter job ≫= λ _, mret tt) ;;
     job ← a_sanitize adapter (host_ref cn);
     wait_job adapter job ≫= λ _,
     emit "NeoCloudOS.D1" "NICo.APIService" "REST" ("POST /hosts/" +:+ host_ref cn +:+ "/sanitize")
          (Some oid) (cn_nico_host_id cn))
    (λ _ _, emit "NeoCloudOS.D1" "NICo.APIService" "internal" ("CP 반납 실패 — " +:+ cn_id cn)
                 (Some oid) None) ;;
  cpu_mut cid release_cpu.
Definition teardown_cluster (oid tid aid : string) (adapter : ComputeAdapter) (cluster : K8sCluster)
    : IO unit :=
  if negb (String.eqb (k_tenant_id cluster) tid)
     || negb (memb (k_state cluster) ["running"; "installing"])
     || negb (bool_decide (k_allocation_id cluster = Some aid)) then mret tt
  else
    let cid := k_id cluster in
    cluster_mut cid (λ k, k <| k_state := "deleting" |>) ;;
    emit "NeoCloudOS.M6(K8sMgr)" ("K8s(" +:+ cid +:+ ")") "K8s"
         "cluster teardown — 워커 drain·cordon" (Some oid) None ;;
    emit ("dcgm-exporter(" +:+ cid +:+ ")") "NeoCloudOS.M5(Telemetry)" "K8s"
         "DCGM in-band agent 해제 — 수집 경로 원복" (Some oid) None ;;
    order_mut (k_order_id cluster) (λ o, o <| o_k8s_cluster_id := None |>) ;;
    s ← store;
    for_each (filterb (dmem (st_cpu_nodes s)) (k_cp_node_ids cluster)) (release_cp oid adapter) ;;
    cluster_mut cid (λ k, k <| k_state := "deleted" |>) ;;
    cluster_log cid "deleted" ("reclaim by " +:+ oid) ;;
    Shared.audit "neocloud-os" "k8s.cluster.delete" cid "success" (Some tid).

(** ** The pipeline *)
Definition close_reclaim (oid : string) (rma stuck : list string) : IO unit :=
  let detail := "reclaim complete"
    +:+ (if bool_decide (rma = []) then EmptyString else "; RMA escalated: " +:+ repr_list rma)
    +:+ (if bool_decide (stuck = []) then EmptyString
         else "; stuck (NICo diverged): " +:+ repr_list stuck) in
  let errors :=
    (if bool_decide (rma = []) then []
     else ["sanitize failed on " +:+ repr_list rma +:+ " — physical disposal required"])
    ++ (if bool_decide (stuck = []) then []
        else ["reclaim incomplete on " +:+ repr_list stuck +:+ " — run reconcile"]) in
  when (negb (bool_decide (errors = [])))
    (order_mut oid (λ o, o <| o_error := Some (join "; " errors) |>)) ;;
  advance_order oid OS_closed detail.

Definition reclaim_allocation (oid : string) (body : OrderCreate) (alloc : Allocation)
    (adapter : ComputeAdapter) : IO unit :=
  let tid := oc_tenant_id body in
  let aid := al_id alloc in
  advance_order oid OS_validated ("reclaiming allocation " +:+ aid) ;;
  s ← store;
  let nodes := filterb (λ n, bool_decide (n_tenant_id n = Some tid))
                 (concat (nodes_of_rack s <$> al_rack_ids alloc)) in
  order_mut oid (λ o, o <| o_node_ids := n_id <$> nodes |>) ;;
  advance_order oid OS_reclaiming (str_of_nat (length nodes) +:+ " node(s)") ;;
  announce_teardown oid tid alloc ;;
  segs ← try_any (a_list_segments adapter) (λ _, Nico.list_segments);
  s ← store;
  let storage_ids := sa_id <$> filterb (λ sa, bool_decide (sa_allocation_id sa = Some aid)
                                              && String.eqb (sa_state sa) "active")
                                       (dvalues (st_storage_allocs s)) in
  _teardown_storage_and_segment oid storage_ids (segment_for segs aid tid) adapter ;;
  '(rma, stuck) ← fold_m (reclaim_step oid adapter) ([], [])
    (n_id <$> sorted (λ a b, String.leb (n_id a) (n_id b)) nodes);
  s ← store;
  match find_first (λ o, memb aid (o_allocation_ids o)) (dvalues (st_orders s)) with
  | Some src => Shared.revoke_order_credentials tid (o_id src) oid ≫= λ _, mret tt
  | None => mret tt
  end ;;
  s ← store;
  for_each (dvalues (st_k8s_clusters s)) (teardown_cluster oid tid aid adapter) ;;
  Tenancy.delete_allocation aid ≫= λ _,
  _sync_cpu_nodes tid None ≫= λ _,
  close_reclaim oid rma stuck.

Definition run_terminate_order (body : OrderCreate) (adapter : ComputeAdapter) : IO ServiceOrder :=
  oid ← open_order (λ oid at_, terminate_order oid body at_);
  emit "Portal/API" "NeoCloudOS.M1" "REST" ("POST /orders → " +:+ oid +:+ " (terminate)")
       (Some oid) None ;;
  alloc ← s_get st_allocations (default EmptyString (oc_allocation_id body));
  match alloc with
  | Some a =>
      if String.eqb (al_tenant_id a) (oc_tenant_id body)
      then reclaim_allocation oid body a adapter
      else reject oid ("allocation '" +:+ opt_text (oc_allocation_id body)
                       +:+ "' not found for tenant '" +:+ oc_tenant_id body +:+ "'")
  | None => reject oid ("allocation '" +:+ opt_text (oc_allocation_id body)
                        +:+ "' not found for tenant '" +:+ oc_tenant_id body +:+ "'")
  end ;;
  order_of oid.

(** [POST /orders] *)
Definition create_order (http_adapter : string → ComputeAdapter) (body : OrderCreate)
    : IO ServiceOrder :=
  adapter ← get_adapter http_adapter;
  match oc_kind body with
  | OK_new => run_new_order body adapter
  | OK_terminate => run_terminate_order body adapter
  | k => http 501 ("order kind '" +:+ OrderKind_value k
                   +:+ "' not implemented in this increment (expand/shrink: next)")
  end.
Definition approve_order (http_adapter : string → ComputeAdapter) (oid : string) : IO ServiceOrder :=
  adapter ← get_adapter http_adapter; approve_next_stage oid adapter.
Definition reject_order (http_adapter : string → ComputeAdapter) (oid reason : string)
    : IO ServiceOrder :=
  adapter ← get_adapter http_adapter; reject_fulfillment oid adapter reason.

End Reclaim.
