(* ===== verification/Incidents.v ===== *)
(** * Incidents, root-cause reports and service credits (app/scenario_api.py)

    The fault feed of the tray emulator and of the physical twin is folded into
    incidents; resolved major incidents get a root-cause report; the monthly SLA
    report measures a tenant's availability from its incidents and computes the
    service credit.  [twin] is the answer of the twin's REST surface. *)
From Stdlib Require Import QArith Ascii.
From stdpp Require Import strings base decidable option numbers list.
From S2P Require Import Prelude PyLib Models PortalModels EmuModels World Placement Saga TrayEmu Business.
Local Open Scope string_scope.
Local Open Scope list_scope.
Local Open Scope py_scope.

Module Incidents.

Definition STATUS_COMPONENTS : list string := ["Compute"; "GPU Fabric"; "Storage"; "Network"; "Portal"].
Definition _KIND_COMPONENT : dict string :=
  [("gpu", "Compute"); ("reprovision", "Compute"); ("cooling", "Compute"); ("fabric", "GPU Fabric");
   ("storage", "Storage"); ("network", "Network")].
Definition _fault_severity (f : Fault) : string :=
  let sev := default EmptyString (fa_severity f) in
  if memb sev ["critical"; "P0"] then "P0"
  else if (match fa_xid f with X_num n => (n =? 79)%Z || (n =? 48)%Z | X_label _ => false end)
          || memb sev ["major"; "P1"] then "P1"
  else "P2".
Definition _fault_component (f : Fault) : string :=
  default "Compute" (dget _KIND_COMPONENT (str_or (fa_kind f) "gpu")).
Definition opt_Z_text (o : option Z) : string := match o with Some z => str_of_Z z | None => "None" end.
(** The key of the fault that an incident stands for *)
Definition fault_key (f : Fault) (started : string) : string :=
  Saga.opt_text (fa_tray_id f) +:+ "|" +:+ opt_Z_text (fa_gpu f) +:+ "|" +:+ started.
Definition fault_title (f : Fault) : string :=
  match fa_xid f with
  | X_num n => "XID " +:+ str_of_Z n +:+ " — GPU 장애 (" +:+ Saga.opt_text (fa_tray_id f) +:+ ")"
  | X_label _ => str_or (fa_detail f) (default "infra" (fa_kind f) +:+ " 장애 ("
                                       +:+ Saga.opt_text (fa_tray_id f) +:+ ")")
  end.
Definition major (i : Incident) : bool := memb (in_severity i) ["P0"; "P1"].
Definition resolved (i : Incident) : bool := String.eqb (in_state i) "resolved".

(** ** [_publish_rca_locked] *)
Definition _publish_rca (inc : Incident) : IO unit :=
  s ← store;
  if anyb (λ r, String.eqb (rc_incident_id r) (in_id inc)) (dvalues (st_rcas s)) then mret tt
  else
    n ← next_seq "rca";
    let rca_id := "rca-" +:+ str_of_Z n in
    at_ ← now;
    s_set st_rcas rca_id
      (mkRca rca_id (in_id inc) (in_tenant_id inc) (in_severity inc) ("RCA — " +:+ in_title inc) at_
         (in_title inc +:+ " — GPU/트레이 하드웨어 이상 (DCGM 헬스 이벤트 기준)") (in_mttr_min inc)).

(** ** [_sync_incidents_locked] *)
Definition incident_mut (iid : string) (f : Incident → Incident) : IO unit := s_mut st_incidents iid f.
(** The minutes to recovery: as measured, else from the two times *)
Definition mttr_of (f : Fault) (started resolved_at : string) : IO Q :=
  match fa_ttr_s f with
  | Some t => mret (round_q 100 (t / 60)%Q)
  | None =>
      a ← gets (λ w, env_fromiso (w_env w) resolved_at);
      b ← gets (λ w, env_fromiso (w_env w) started);
      mret (match a, b with
            | Some a, Some b => round_q 100 ((a - b) / 60)%Q
            | _, _ => 0%Q
            end)
  end.
Definition started_of (f : Fault) : IO string :=
  if truthy (fa_started_at f) then mret (default EmptyString (fa_started_at f))
  else if truthy (fa_at f) then mret (default EmptyString (fa_at f)) else now.
Definition new_incident (iid key started : string) (f : Fault) : Incident :=
  mkIncident iid key (_fault_severity f) (_fault_component f) (fault_title f) "investigating" started None
    (fa_tenant_id f) None
    [(started, "장애 감지 — NVSentinel 조사 개시 (cordon/drain 후보 지정)")].
Definition resolve_incident (at_ : string) (mttr : Q) (i : Incident) : Incident :=
  i <| in_state := "resolved" |> <| in_resolved_at := Some at_ |> <| in_mttr_min := Some mttr |>
    <| in_updates ::= λ l, l ++ [(at_, "복구 완료 — 서비스 정상화 확인 (resolved)")] |>.
(** The incident of a fault, opened if there is none; [by_key] maps the key of each
    known fault to its incident. *)
Definition locate (by_key : dict string) (f : Fault) (started : string) : IO (string * dict string) :=
  let key := fault_key f started in
  match dget by_key key with
  | Some iid => mret (iid, by_key)
  | None =>
      n ← next_seq "incident";
      let iid := "inc-" +:+ str_of_Z n in
      s_set st_incidents iid (new_incident iid key started f) ;;
      mret (iid, dset by_key key iid)
  end.
Definition fault_over (f : Fault) : bool := fa_resolved f || truthy (fa_resolved_at f).
Definition over_at (f : Fault) : IO string :=
  if truthy (fa_resolved_at f) then mret (default EmptyString (fa_resolved_at f)) else now.
(** An incident whose fault is over is resolved, once. *)
Definition settle (f : Fault) (started iid : string) : IO unit :=
  inc ← s_idx st_incidents iid;
  when (fault_over f && negb (resolved inc))
    (at_ ← over_at f;
     mttr ← mttr_of f started at_;
     incident_mut iid (resolve_incident at_ mttr) ;;
     when (major inc) (_publish_rca (resolve_incident at_ mttr inc))).
(** One item of the feed *)
Definition sync_fault (by_key : dict string) (f : Fault) : IO (dict string) :=
  started ← started_of f;
  '(iid, by_key') ← locate by_key f started;
  settle f started iid ;;
  mret by_key'.

Section feed.
Context (twin : Z → IO (option (list TwinFault))).
Definition fault_feed : IO (list Fault) :=
  out ← Emu.faults None 500;
  more ← Emu._emulator_reprov_faults twin 100;
  mret (Emu.fr_recent out ++ more).
Definition known_faults (s : Store) : dict string :=
  foldl (λ d i, dset d (in_key i) (in_id i)) [] (dvalues (st_incidents s)).
Definition _sync_incidents : IO unit :=
  feed ← fault_feed;
  s ← store;
  fold_m sync_fault (known_faults s) feed ≫= λ _, mret tt.

(** ** The public status page *)
Record StatusPage := mkStatus {
  sp_generated_at : string; sp_components : list (string * string); sp_incidents : list Incident;
  sp_uptime_pct : Q
}.
Definition component_state (open : list Incident) (name : string) : string :=
  let sevs := in_severity <$> filterb (λ i, String.eqb (in_component i) name) open in
  if memb "P0" sevs then "outage" else match sevs with [] => "operational" | _ => "degraded" end.
(** The minutes an incident has lasted, so far or in all *)
Definition downtime (i : Incident) : IO Q :=
  if resolved i then mret (default 0%Q (in_mttr_min i))
  else
    t ← now;
    now_q ← Business.fromiso t;
    start_q ← Business.fromiso (in_started_at i);
    mret (Business.q_max0 ((now_q - start_q) / 60)%Q).
Definition status_page : IO StatusPage :=
  _sync_incidents ;;
  s ← store;
  let all := dvalues (st_incidents s) in
  let open := filterb (λ i, negb (resolved i)) all in
  down ← map_m downtime all;
  at_ ← now;
  mret (mkStatus at_ ((λ c, (c, component_state open c)) <$> STATUS_COMPONENTS)
          (take 20 (Business.sorted_rev in_started_at all))
          (round_q 1000 (Business.q_max0 (100 - Business.sum_q id down / inject_Z (90 * 24 * 60) * 100)%Q))).
Definition known_tenant (tenant_id : string) : IO unit :=
  s ← store;
  if dmem (st_tenants s) tenant_id then mret tt else http 404 ("tenant '" +:+ tenant_id +:+ "' not found").
Definition rca_reports (tenant_id : string) : IO (list Rca) :=
  known_tenant tenant_id ;;
  _sync_incidents ;;
  rs ← s_values st_rcas;
  mret (Business.sorted_rev rc_published_at
          (filterb (λ r, match rc_tenant_id r with Some t => String.eqb t tenant_id | None => true end) rs)).

(** ** The SLA report *)
(** [datetime.strptime(month, "%Y-%m")] *)
Definition parse_month (m : string) : option (Z * Z) :=
  match m with
  | String a (String b (String c (String d (String "-" r)))) =>
      y ← parse_int (String a (String b (String c (String d EmptyString))));
      mo ← (if (String.length r <=? 2)%nat then parse_int r else None);
      if ((1 <=? y) && (1 <=? mo) && (mo <=? 12))%Z then Some (y, mo) else None
  | _ => None
  end.
Definition leap (y : Z) : bool := ((y mod 4 =? 0) && (negb (y mod 100 =? 0) || (y mod 400 =? 0)))%Z.
Definition days_in_month (y m : Z) : Z :=
  if (m =? 2)%Z then (if leap y then 29 else 28)%Z
  else if memb (str_of_Z m) ["4"; "6"; "9"; "11"] then 30%Z else 31%Z.
(** The fifteenth of the month at three, as an ISO time *)
Definition synthetic_start (y m : Z) : string :=
  zfill 4 (str_of_Z y) +:+ "-" +:+ zfill 2 (str_of_Z m) +:+ "-15T03:00:00+00:00".
Definition SLA_TARGET_PCT : Q := 999 # 10.
Definition SLA_CREDIT_TABLE : list (Q * Z) := [(95%Q, 50%Z); (99%Q, 25%Z); (SLA_TARGET_PCT, 10%Z)].
Definition _credit_pct_for (avail : Q) : Z :=
  match find_first (λ row, negb (Qle_bool row.1 avail)) SLA_CREDIT_TABLE with
  | Some row => row.2
  | None => 0%Z
  end.
Definition _tenant_monthly_usd (s : Store) (tenant_id : string) : Q :=
  round_q 100 (Business.sum_q (λ o, inject_Z (o_racks o) * Business.rate_of (o_blueprint_key o) * inject_Z Business.HOURS_PER_MONTH)%Q
    (filterb (λ o, String.eqb (o_tenant_id o) tenant_id && bool_decide (o_kind o = OK_new)
                   && bool_decide (o_state o = OS_delivered)) (dvalues (st_orders s)))).
Definition SYNTHETIC_MTTR : Q := 526 # 10.
(** A made-up major incident of the month, once *)
Definition synthesize (tenant_id month : string) (y m : Z) : IO unit :=
  s ← store;
  let key := "synthetic|" +:+ tenant_id +:+ "|" +:+ month in
  if anyb (λ i, String.eqb (in_key i) key) (dvalues (st_incidents s)) then mret tt
  else
    n ← next_seq "incident";
    let iid := "inc-" +:+ str_of_Z n in
    let started := synthetic_start y m in
    start_q ← Business.fromiso started;
    end_ ← gets (λ w, env_toiso (w_env w) (start_q + SYNTHETIC_MTTR * 60)%Q);
    let inc := mkIncident iid key "P1" "Compute" "GPU Fabric 부분 장애 — 합성 데모 인시던트 (synthetic)"
                 "resolved" started (Some end_) (Some tenant_id) (Some SYNTHETIC_MTTR)
                 [(started, "장애 감지 (synthetic)"); (end_, "복구 완료 (synthetic)")] in
    s_set st_incidents iid inc ;;
    _publish_rca inc.
Record SlaLine := mkSlaLine { sl_id : string; sl_severity : string; sl_downtime_min : Q; sl_mttr_min : option Q }.
Record SlaReport := mkSlaReport {
  sr_tenant : string; sr_month : string; sr_availability_pct : Q; sr_violated : bool;
  sr_incidents : list SlaLine; sr_credits : list SlaCredit; sr_monthly_amount_usd : Q
}.
(** [max(incidents, key=mttr)]: the first of the worst *)
Definition worst (l : list Incident) : option Incident :=
  min_by (λ a b, negb (Qle_bool (default 0%Q (in_mttr_min a)) (default 0%Q (in_mttr_min b)))) l.
(** The credit of the month: the one already computed, or a new one *)
Definition credit_for (tenant_id month : string) (avail : Q) (incs : list Incident) : IO SlaCredit :=
  s ← store;
  let ckey := tenant_id +:+ "|" +:+ month in
  match find_first (λ c, String.eqb (cr_key c) ckey) (dvalues (st_sla_credits s)) with
  | Some c => mret c
  | None =>
      let pct := _credit_pct_for avail in
      let monthly := _tenant_monthly_usd s tenant_id in
      n ← next_seq "sla_credit";
      let cid := "crd-" +:+ str_of_Z n in
      let c := mkCredit cid ckey tenant_id month (in_id <$> worst incs)
                 (round_q 100 (monthly * inject_Z pct / 100)%Q) pct "calculated" None in
      s_set st_sla_credits cid c ;;
      emit "NeoCloudOS.M7" "BizPortal" "internal" ("service-credit:calculated → " +:+ cid) None None ;;
      mret c
  end.
Definition in_month (tenant_id month : string) (i : Incident) : bool :=
  bool_decide (in_tenant_id i = Some tenant_id) && String.eqb (take_str 7 (in_started_at i)) month.
(** [round(max(0, 100 - down / window * 100), 4)] *)
Definition availability (down : Q) (window_min : Z) : Q :=
  round_q 10000 (Business.q_max0 (100 - down / inject_Z window_min * 100)%Q).
Definition sla_report (tenant_id : string) (month : option string) (synthesize_violation : bool) : IO SlaReport :=
  known_tenant tenant_id ;;
  month ← (if truthy month then mret (default EmptyString month) else t ← now; mret (take_str 7 t));
  '(y, m) ← match parse_month month with Some p => mret p | None => http 422 "month must be 'YYYY-MM'" end;
  _sync_incidents ;;
  when synthesize_violation (synthesize tenant_id month y m) ;;
  s ← store;
  let incs := filterb (in_month tenant_id month) (dvalues (st_incidents s)) in
  down ← map_m downtime incs;
  let lines := zip_with (λ i d, mkSlaLine (in_id i) (in_severity i) (round_q 100 d) (in_mttr_min i)) incs down in
  if (y =? 9999)%Z && (m =? 12)%Z then raise (ValueError "year 10000 is out of range")
  else
    let avail := availability (Business.sum_q id down) (days_in_month y m * 1440) in
    let violated := negb (Qle_bool SLA_TARGET_PCT avail) in
    credits ← (if violated then c ← credit_for tenant_id month avail incs; mret [c] else mret []);
    mret (mkSlaReport tenant_id month avail violated lines credits (_tenant_monthly_usd s tenant_id)).
End feed.
End Incidents.
