(* ===== verification/Scenario.v ===== *)
(** * The customer's service scenarios (app/scenario_api.py)

    Acceptance of a delivered order (approval, rejection with re-test, deemed
    approval), the termination workflow up to the Secure Wipe certificate, and
    public inquiries.  The status page, root-cause reports and the SLA report are in
    Incidents.v. *)
From Stdlib Require Import QArith Ascii.
From stdpp Require Import strings base decidable option numbers list.
From S2P Require Import Prelude PyLib Models PortalModels World NicoSim StoreOps Adapters.
From S2P Require Import StateMachine Placement Saga K8s Orders Reclaim Business.
Local Open Scope string_scope.
Local Open Scope list_scope.
Local Open Scope py_scope.

Module Scenario.
Import Saga.

Definition acceptance_mut (oid : string) (f : AcceptanceRec → AcceptanceRec) : IO unit :=
  s_mut st_acceptances oid f.
Definition termination_mut (tid : string) (f : TerminationRec → TerminationRec) : IO unit :=
  s_mut st_terminations tid f.
(** [order.history.append(LifecycleEvent(state, detail, at))] *)
Definition append_event (oid st detail at_ : string) : IO unit :=
  order_mut oid (λ o, o <| o_history ::= λ l, l ++ [mkEvent st detail at_] |>).

(** ** Acceptance *)
Definition ACCEPTANCE_DEEMED_DAYS : Q := 7.
Definition _deemed_days : IO Q :=
  raw ← getenv "NOCP_ACCEPTANCE_DEEMED_DAYS";
  match raw with
  | Some raw => f ← parse_float raw;
                mret (match f with Some q => Business.q_max0 q | None => ACCEPTANCE_DEEMED_DAYS end)
  | None => mret ACCEPTANCE_DEEMED_DAYS
  end.
(** [_iso_plus(ts, days=d)] *)
Definition _iso_plus (ts : string) (days : Q) : IO string :=
  q ← Business.fromiso ts;
  gets (λ w, env_toiso (w_env w) (q + days * 86400)%Q).

Definition order_gbps (s : Store) (oid : string) : Q :=
  Business.sum_q sa_qos_gbps (filterb (λ sa, String.eqb (sa_order_id sa) oid)
                                      (dvalues (st_storage_allocs s))).
Definition _build_acceptance_report (order : ServiceOrder) (report_ts : string) : IO AcceptanceReport :=
  s ← store;
  let n := Placement.len_z (o_node_ids order) in
  let gbps := order_gbps s (o_id order) in
  text ← (if Qeq_bool gbps 0 then mret "40" else float_str gbps);
  let ratio := str_of_Z n +:+ "/" +:+ str_of_Z n in
  mret (mkAccReport
    [mkAccCheck "nccl-allreduce" "pass" "742 GB/s"; mkAccCheck "fio-storage" "pass" (text +:+ " GB/s");
     mkAccCheck "burn-in" "pass" ratio; mkAccCheck "node-ready" "pass" ratio] n report_ts).

(** [_ensure_acceptance_locked]: [None] while the order has not reached acceptance *)
Definition _ensure_acceptance (order : ServiceOrder) : IO (option AcceptanceRec) :=
  if negb (bool_decide (o_kind order = OK_new)) then http 409 "acceptance는 신규 개통 주문 전용"
  else
    rec ← s_get st_acceptances (o_id order);
    match rec with
    | Some r => mret (Some r)
    | None =>
        match find_first (λ e, String.eqb (ev_state e) (OrderState_value OS_acceptance))
                (o_history order) with
        | None => mret None
        | Some ev =>
            report ← _build_acceptance_report order (ev_at ev);
            days ← _deemed_days;
            deadline ← _iso_plus (ev_at ev) days;
            let r := mkAcceptance (o_id order) (o_tenant_id order) "pending" report deadline
                       None None None None in
            s_set st_acceptances (o_id order) r ;;
            mret (Some r)
        end
    end.

(** [while order.pending_stage and order.state not in (...): approve_next_stage].
    A stage list has at most eight entries and an approval moves the gate
    forward, so nine rounds are enough. *)
Definition settled (st : OrderState) : bool :=
  match st with OS_delivered | OS_failed | OS_rejected => true | _ => false end.
Fixpoint approve_all (fuel : nat) (oid : string) (adapter : ComputeAdapter) : IO unit :=
  o ← order_of oid;
  if truthy (o_pending_stage o) && negb (settled (o_state o)) then
    match fuel with
    | O => raise (ValueError "does not return")
    | S fuel' =>
        Orders.approve_next_stage oid adapter ≫= λ _, approve_all fuel' oid adapter
    end
  else mret tt.
Definition _finalize_delivery (oid : string) (adapter : ComputeAdapter) : IO unit :=
  o ← order_of oid;
  if bool_decide (o_state o = OS_delivered) then mret tt
  else if o_approval_mode o && truthy (o_pending_stage o) then approve_all 9 oid adapter
  else if bool_decide (o_state o = OS_acceptance) then
    for_each (o_node_ids o) (λ nid,
      node ← s_get st_node_instances nid;
      match node with
      | Some n => when (negb (bool_decide (n_state n = NS_in_service)))
                    (advance_node nid NS_in_service "customer acceptance passed")
      | None => mret tt
      end) ;;
    (match o_access_package o with
     | None => K8s._build_access_package oid
     | Some _ => mret tt
     end) ;;
    advance_order oid OS_delivered "고객 검수 승인 — delivered"
  else mret tt.

Definition deemable (st : OrderState) : bool :=
  match st with OS_acceptance | OS_k8s_installing | OS_delivered => true | _ => false end.
(** [_maybe_deem]: no answer until the deadline counts as approval *)
Definition _maybe_deem (oid : string) (adapter : ComputeAdapter) : IO unit :=
  rec ← s_get st_acceptances oid;
  match rec with
  | None => mret tt
  | Some r =>
      if negb (memb (ar_status r) ["pending"; "rejected"]) then mret tt
      else
        o ← order_of oid;
        if negb (deemable (o_state o)) then mret tt
        else
          t ← now;
          now_q ← Business.fromiso t;
          deadline_q ← Business.fromiso (ar_deemed_deadline r);
          if negb (Qle_bool deadline_q now_q) then mret tt
          else
            _finalize_delivery oid adapter ;;
            at_ ← now;
            acceptance_mut oid (λ r', r' <| ar_status := "deemed" |>
              <| ar_billing_start_date := Some (ar_deemed_deadline r) |>
              <| ar_decided_at := Some at_ |> <| ar_decided_by := Some "deemed" |>) ;;
            o ← order_of oid;
            append_event oid (OrderState_value (o_state o))
              ("AcceptanceDeemed — 간주 승인(기한 " +:+ ar_deemed_deadline r +:+ " 경과) · 청구 개시") at_ ;;
            emit "NeoCloudOS.M1" "BizPortal" "internal" ("AcceptanceDeemed → " +:+ oid) (Some oid) None
  end.

(** The routes answer with the order's record, if it has one. *)
Definition order_or_404 (oid : string) : IO ServiceOrder :=
  o ← s_get st_orders oid;
  match o with Some o => mret o | None => http 404 ("order '" +:+ oid +:+ "' not found") end.
Definition acceptance_report (adapter : ComputeAdapter) (oid : string) : IO (option AcceptanceRec) :=
  o ← order_or_404 oid;
  rec ← _ensure_acceptance o;
  match rec with Some _ => _maybe_deem oid adapter | None => mret tt end ;;
  s_get st_acceptances oid.

(** [_acceptance_view]: what the routes return of a record; before acceptance there is none *)
Record AcceptanceView := mkAccView {
  av_order_id : string; av_status : string; av_report : option AcceptanceReport;
  av_deemed_deadline : option string; av_billing_start_date : option string; av_reject_reason : option string
}.
Definition _acceptance_view (order_id : string) (rec : option AcceptanceRec) : AcceptanceView :=
  match rec with
  | None => mkAccView order_id "pending" None None None None
  | Some r => mkAccView order_id (ar_status r) (Some (ar_report r)) (Some (ar_deemed_deadline r))
                (ar_billing_start_date r) (ar_reject_reason r)
  end.

Definition undecidable (st : OrderState) : bool :=
  match st with
  | OS_failed | OS_rejected | OS_compensating | OS_reclaiming | OS_closed => true
  | _ => false
  end.
Definition blank (o : option string) : bool :=
  String.eqb (py_strip (default EmptyString o)) EmptyString.
(** The checks of [decide_acceptance]; the record that the decision is about *)
Definition acceptance_guards (oid decision : string) (reason : option string) : IO AcceptanceRec :=
  o ← order_or_404 oid;
  if negb (memb decision ["approve"; "reject"])
  then http 422 "decision must be 'approve' or 'reject'"
  else if String.eqb decision "reject" && blank reason then http 422 "reject 시 reason 필수"
  else if undecidable (o_state o)
  then http 409 ("주문 상태 " +:+ OrderState_value (o_state o) +:+ " — 검수 결정 불가")
  else
    rec ← _ensure_acceptance o;
    match rec with
    | None => http 409 "acceptance 단계 이전 — 검수 리포트가 아직 제공되지 않은 주문"
    | Some r =>
        if memb (ar_status r) ["approved"; "deemed"]
        then http 409 ("이미 " +:+ ar_status r +:+ " 처리된 주문 — 검수 재실행 불가")
        else mret r
    end.
Definition accept (oid : string) (adapter : ComputeAdapter) : IO (option AcceptanceRec) :=
  _finalize_delivery oid adapter ;;
  at_ ← now;
  acceptance_mut oid (λ r, r <| ar_status := "approved" |> <| ar_billing_start_date := Some at_ |>
    <| ar_reject_reason := None |> <| ar_decided_at := Some at_ |>
    <| ar_decided_by := Some "customer" |>) ;;
  o ← order_of oid;
  append_event oid (OrderState_value (o_state o))
    "AcceptanceApproved — 고객 검수 승인 · 청구 개시" at_ ;;
  emit "CustomerPortal" "NeoCloudOS.M1" "REST" ("POST /orders/" +:+ oid +:+ "/acceptance → approve")
    (Some oid) None ;;
  s_get st_acceptances oid.
(** The re-test loop; a delivered order goes back to acceptance, outside the
    transition table. *)
Definition decline (oid : string) (reason : option string) : IO (option AcceptanceRec) :=
  at_ ← now;
  o ← order_of oid;
  when (bool_decide (o_state o = OS_delivered)) (order_mut oid (λ o, o <| o_state := OS_acceptance |>)) ;;
  append_event oid (OrderState_value OS_acceptance)
    ("AcceptanceRejected — 고객 반려, acceptance 재실행: " +:+ default EmptyString reason) at_ ;;
  report_ts ← now;
  o ← order_of oid;
  report ← _build_acceptance_report o report_ts;
  days ← _deemed_days;
  deadline ← _iso_plus report_ts days;
  acceptance_mut oid (λ r, r <| ar_status := "rejected" |> <| ar_reject_reason := reason |>
    <| ar_billing_start_date := None |> <| ar_decided_at := Some at_ |>
    <| ar_decided_by := Some "customer" |> <| ar_report := report |>
    <| ar_deemed_deadline := deadline |>) ;;
  emit "CustomerPortal" "NeoCloudOS.M1" "REST" ("POST /orders/" +:+ oid +:+ "/acceptance → reject")
    (Some oid) None ;;
  s_get st_acceptances oid.
Definition decide_acceptance (adapter : ComputeAdapter) (oid decision : string)
    (reason : option string) : IO (option AcceptanceRec) :=
  acceptance_guards oid decision reason ≫= λ _,
  if String.eqb decision "approve" then accept oid adapter else decline oid reason.

(** ** Termination *)
Definition TERMINATION_CHECKLIST : list string :=
  ["테넌트 데이터 추출(export) 완료"; "외부 스토리지 이관(migration) 완료"; "최종 백업본 확인 완료"].
Definition ERASE_METHOD : string := "NVMe crypto-erase + GPU/DDR wipe + TPM reset".
Definition _termination_stage_delay : IO Q :=
  raw ← getenv "NOCP_TERMINATION_STAGE_DELAY";
  match raw with
  | Some raw => f ← parse_float raw;
                mret (match f with Some q => Business.q_max0 q | None => 0%Q end)
  | None => url ← getenv "NOCP_NICO_URL"; mret (if truthy url then (3 # 2)%Q else 0%Q)
  end.
(** [max(recs, key=requested_at)]: the first of the latest *)
Definition _latest_termination (s : Store) (tenant_id : string) : option TerminationRec :=
  min_by (λ a b, String.ltb (tm_requested_at b) (tm_requested_at a))
    (filterb (λ t, String.eqb (tm_tenant_id t) tenant_id) (dvalues (st_terminations s))).
Definition latest_or_404 (tenant_id : string) : IO TerminationRec :=
  s ← store;
  match _latest_termination s tenant_id with
  | Some r => mret r
  | None => http 404 ("tenant '" +:+ tenant_id +:+ "'의 종료 워크플로우 없음")
  end.
Definition request_termination (tenant_id : string) : IO TerminationRec :=
  s ← store;
  if negb (dmem (st_tenants s) tenant_id) then http 404 ("tenant '" +:+ tenant_id +:+ "' not found")
  else
    let busy := match _latest_termination s tenant_id with
                | Some a => if memb (tm_state a) ["awaiting_backup"; "erasing"] then Some a else None
                | None => None
                end in
    match busy with
    | Some a => http 409 ("이미 진행 중인 종료 워크플로우 (" +:+ tm_id a +:+ " · " +:+ tm_state a +:+ ")")
    | None =>
        n ← next_seq "termination";
        let term_id := "term-" +:+ str_of_Z n in
        at_ ← now;
        s ← store;
        let rec := mkTermination term_id tenant_id "awaiting_backup" at_
          ((λ i, (i, false)) <$> TERMINATION_CHECKLIST) None "awaiting_backup" 0
          (al_id <$> filterb (λ a, String.eqb (al_tenant_id a) tenant_id) (dvalues (st_allocations s)))
          [] None None in
        s_set st_terminations term_id rec ;;
        emit "CustomerPortal" "NeoCloudOS.M1" "REST"
          ("POST /tenants/" +:+ tenant_id +:+ "/termination → " +:+ term_id) None None ;;
        mret rec
    end.

(** [_term_progress] *)
Definition _term_progress (term_id stage : string) (done total : Z) : IO unit :=
  termination_mut term_id (λ r, r <| tm_stage := stage |>
    <| tm_pct := if (total =? 0)%Z then 100%Z else round_div (done * 100) total |>).
Definition stage_names : list string :=
  ["drain"; "release"]
  ++ imap (λ i s, "erase-" +:+ str_of_nat (S i) +:+ "/7 " +:+ s) Nico.SANITIZE_STEPS
  ++ ["pool-return"].
Definition erase_allocation (term_id tenant_id : string) (adapter : ComputeAdapter) (total : Z)
    (acc : Z * list CertAlloc) (aid : string) : IO (Z * list CertAlloc) :=
  s ← store;
  let rack_ids := match dget (st_allocations s) aid with Some a => al_rack_ids a | None => [] end in
  let node_cnt := foldr Z.add 0%Z ((λ r, Placement.len_z (rk_tray_ids r))
                                     <$> lookup_all (st_racks s) rack_ids) in
  done ← fold_m (λ done st,
    _term_progress term_id (aid +:+ ": " +:+ st) done total ;;
    emit "NeoCloudOS.M1" "NICo.APIService" "internal" ("termination:" +:+ st) None None ;;
    mret (done + 1)%Z) acc.1 (removelast stage_names);
  term_order ← Reclaim.run_terminate_order
    (mkOrderCreate tenant_id OK_terminate None 0 (Some aid) false "auto" 0%Q 0%Q false "v1.32.4") adapter;
  termination_mut term_id (λ r, r <| tm_orders ::= λ l, l ++ [o_id term_order] |>) ;;
  _term_progress term_id (aid +:+ ": pool-return") done total ;;
  mret (done + 1, acc.2 ++ [mkCertAlloc aid rack_ids node_cnt (o_id term_order)
                              (OrderState_value (o_state term_order))])%Z.
Definition tenant_allocations (s : Store) (tenant_id : string) : list string :=
  al_id <$> filterb (λ a, String.eqb (al_tenant_id a) tenant_id) (dvalues (st_allocations s)).
(** [_run_termination_saga], without its pauses *)
Definition _run_termination_saga (term_id : string) (adapter : ComputeAdapter) : IO unit :=
  rec ← s_idx st_terminations term_id;
  let tenant_id := tm_tenant_id rec in
  s ← store;
  let alloc_ids := tenant_allocations s tenant_id in
  termination_mut term_id (λ r, r <| tm_allocations := alloc_ids |>) ;;
  let total := (Z.max 1 (Placement.len_z alloc_ids) * Placement.len_z stage_names)%Z in
  '(_, cert_allocs) ← fold_m (erase_allocation term_id tenant_id adapter total) (0%Z, []) alloc_ids;
  at_ ← now;
  let body := mkWipeBody tenant_id term_id ERASE_METHOD Nico.SANITIZE_STEPS cert_allocs at_ in
  sha ← gets (λ w, env_digest (w_env w) body);
  n ← next_seq "wipe_cert";
  let cert := mkWipeCert ("wipe-" +:+ str_of_Z n) sha body in
  termination_mut term_id (λ r, r <| tm_wipe_certificate := Some cert |> <| tm_state := "wiped" |>) ;;
  _term_progress term_id "wiped" total total ;;
  emit "NeoCloudOS.M1" "CustomerPortal" "internal" ("termination:wiped → " +:+ term_id) None None.

(** [confirmed.get(item)] of the last entry with that item *)
Definition confirmed_items (checklist : list (string * bool)) : dict bool :=
  foldl (λ d '(i, b), dset d i b) [] checklist.
Definition missing_items (rec : TerminationRec) (checklist : list (string * bool)) : list string :=
  fst <$> filterb (λ '(i, _), negb (default false (dget (confirmed_items checklist) i)))
                  (tm_checklist rec).
Definition confirm_backup (adapter : ComputeAdapter) (tenant_id : string)
    (checklist : list (string * bool)) : IO (option TerminationRec) :=
  rec ← latest_or_404 tenant_id;
  let term_id := tm_id rec in
  if negb (String.eqb (tm_state rec) "awaiting_backup")
  then http 409 ("백업 확인 단계가 아님 (state=" +:+ tm_state rec +:+ ")")
  else match missing_items rec checklist with
  | (_ :: _) as missing =>
      http 409 ("백업 확인 전 종료 진행 불가 — 미확인 항목: " +:+ repr_list missing)
  | [] =>
      at_ ← now;
      termination_mut term_id (λ r, r <| tm_checklist ::= fmap (λ '(i, _), (i, true)) |>
        <| tm_backup_confirmed_at := Some at_ |> <| tm_state := "erasing" |>) ;;
      _term_progress term_id "erasing" 0 1 ;;
      emit "CustomerPortal" "NeoCloudOS.M1" "REST"
        ("POST /tenants/" +:+ tenant_id +:+ "/termination/backup-confirm") None None ;;
      delay ← _termination_stage_delay;
      (if Qle_bool delay 0 then _run_termination_saga term_id adapter
       else modify (λ w, w <| w_wipes ::= λ l, l ++ [term_id] |>)) ;;
      s_get st_terminations term_id
  end.
(** The thread of a paced termination runs to its end. *)
Definition wipe_thread (term_id : string) (adapter : ComputeAdapter) : IO unit :=
  ts ← gets w_wipes;
  if memb term_id ts then
    modify (λ w, w <| w_wipes ::= filterb (λ t, negb (String.eqb t term_id)) |>) ;;
    _run_termination_saga term_id adapter
  else mret tt.
Definition get_termination (tenant_id : string) : IO TerminationRec := latest_or_404 tenant_id.
Definition get_wipe_certificate (tenant_id : string) : IO (string * string * option WipeCert) :=
  rec ← latest_or_404 tenant_id;
  if negb (memb (tm_state rec) ["wiped"; "closed"])
  then http 409 ("소거 미완료 (state=" +:+ tm_state rec +:+ ") — 증명서는 wiped 이후 수령 가능")
  else
    (if String.eqb (tm_state rec) "wiped" then
       at_ ← now;
       termination_mut (tm_id rec) (λ r, r <| tm_state := "closed" |> <| tm_closed_at := Some at_ |>) ;;
       _term_progress (tm_id rec) "closed" 1 1 ;;
       cert ← or_raise (tm_wipe_certificate rec) (TypeError "certificate");
       emit "NeoCloudOS.M1" "BizPortal" "internal" ("termination:closed → " +:+ tm_id rec) None None
     else mret tt) ;;
    mret (tm_id rec, "closed", tm_wipe_certificate rec).

(** ** Public inquiries *)
Definition create_inquiry (company name email gpu_scale message : string) : IO Inquiry :=
  if negb (has_char "@" email) then http 422 "invalid email"
  else if String.eqb (py_strip company) EmptyString || String.eqb (py_strip name) EmptyString
  then http 422 "company/name 필수"
  else
    n ← next_seq "inquiry";
    let iid := "inq-" +:+ str_of_Z n in
    at_ ← now;
    let rec := mkInquiry iid company name email gpu_scale message "received" at_ in
    s_set st_inquiries iid rec ;;
    emit "PublicWeb" "NeoCloudOS.M1" "REST" ("POST /public/inquiries → " +:+ iid) None None ;;
    mret rec.
Definition list_inquiries : IO (list Inquiry) :=
  l ← s_values st_inquiries;
  mret (Business.sorted_rev iq_received_at l).

End Scenario.
