(* ===== verification/Reconcile.v ===== *)
(** * Reconciliation with NICo (app/lifecycle.py, M3) *)
From Stdlib Require Import QArith.
From stdpp Require Import strings base decidable option numbers list relations.
From S2P Require Import Prelude PyLib Models World Adapters StateMachine Placement.
Local Open Scope string_scope.
Local Open Scope list_scope.
Local Open Scope py_scope.

Module Reconcile.

(** [_MIRROR]: the node states that mirror a host state *)
Definition _MIRROR (h : NicoHostState) : list NodeLifecycleState :=
  match h with
  | HS_discovered => [NS_discovered; NS_validating]
  | HS_quarantined => [NS_quarantined; NS_rma]
  | HS_pool_ready => [NS_pool_ready; NS_discovered; NS_validating]
  | HS_reserved => [NS_reserved]
  | HS_provisioning => [NS_provisioning]
  | HS_provisioned => [NS_provisioning]
  | HS_allocated => [NS_allocated; NS_in_service; NS_cordoned; NS_draining]
  | HS_released => [NS_releasing]
  | HS_sanitizing => [NS_sanitizing]
  | HS_rma => [NS_rma]
  end.
Definition mirrors (h : NicoHostState) (n : NodeLifecycleState) : bool :=
  anyb (λ x, bool_decide (n = x)) (_MIRROR h).

(** The running state of the report: the hosts not yet matched, the findings and
    the three counters *)
Record Acc := mkAcc {
  ra_hosts : dict NicoHost; ra_findings : list ReconcileFinding;
  ra_ghosts : Z; ra_orphans : Z; ra_mismatches : Z
}.
#[export] Instance eta_Acc : Eta Acc := λ x,
  mkAcc x.(ra_hosts) x.(ra_findings) x.(ra_ghosts) x.(ra_orphans) x.(ra_mismatches).

Definition orphan_finding (n : NodeInstance) : ReconcileFinding :=
  mkRFinding "ORPHAN" "critical" (Some (n_id n)) (Some (n_nico_host_id n))
    ("node '" +:+ n_id n +:+ "' has no NICo host — hardware vanished or site controller out of sync").
Definition mismatch_severity (n : NodeInstance) (h : NicoHost) : string :=
  if bool_decide (n_state n = NS_in_service)
     && (bool_decide (h_state h = HS_pool_ready) || bool_decide (h_state h = HS_released))
  then "critical" else "major".
Definition mismatch_finding (n : NodeInstance) (h : NicoHost) : ReconcileFinding :=
  mkRFinding "STATE_MISMATCH" (mismatch_severity n h) (Some (n_id n)) (Some (h_id h))
    ("node '" +:+ n_id n +:+ "' is '" +:+ NodeLifecycleState_value (n_state n)
     +:+ "' but NICo host is '" +:+ NicoHostState_value (h_state h)
     +:+ "' — escalate, no destructive auto-fix").

Definition orphan_node (nid : string) : IO unit :=
  n ← s_idx st_node_instances nid;
  if bool_decide (n_state n = NS_rma) || bool_decide (n_state n = NS_cordoned) then mret tt
  else if node_allowed (n_state n) NS_cordoned
  then advance_node nid NS_cordoned "reconcile: host vanished from NICo"
  else node_log nid (NodeLifecycleState_value (n_state n))
         "reconcile: ORPHAN (host vanished from NICo)".

(** One node of the first loop; [nid] is the key of the node in the store. *)
Definition check_node (acc : Acc) (nid : string) : IO Acc :=
  n ← s_idx st_node_instances nid;
  let acc' := acc <| ra_hosts ::= λ d, ddel d (n_nico_host_id n) |> in
  match dget (ra_hosts acc) (n_nico_host_id n) with
  | None =>
      orphan_node nid ;;
      mret (acc' <| ra_orphans ::= λ z, (z + 1)%Z |>
                 <| ra_findings ::= λ l, l ++ [orphan_finding n] |>)
  | Some h =>
      if mirrors (h_state h) (n_state n) then mret acc'
      else mret (acc' <| ra_mismatches ::= λ z, (z + 1)%Z |>
                      <| ra_findings ::= λ l, l ++ [mismatch_finding n h] |>)
  end.

Definition ghost_id (h : NicoHost) : string := "ni-" +:+ str_or (Some (h_tray_id h)) (h_id h).
Definition ghost_finding (h : NicoHost) : ReconcileFinding :=
  mkRFinding "GHOST" "info" (Some (ghost_id h)) (Some (h_id h))
    ("NICo host '" +:+ h_id h +:+ "' unknown to control plane — registered as discovered").
Definition register_ghost (acc : Acc) (h : NicoHost) : IO Acc :=
  let nid := ghost_id h in
  s ← store;
  (if dmem (st_node_instances s) nid then mret tt
   else
     let rack := dget (st_trays s) (h_tray_id h) ≫= λ t, dget (st_racks s) (t_rack_id t) in
     at_ ← now;
     s_set st_node_instances nid
       (mkNode nid (h_tray_id h) (default EmptyString (rk_id <$> rack))
          (default EmptyString (rk_su_id <$> rack)) (h_sku h) (h_id h) None None None NS_discovered
          [mkEvent "discovered" "reconcile: registered from NICo (GHOST)" at_])) ;;
  mret (acc <| ra_ghosts ::= λ z, (z + 1)%Z |> <| ra_findings ::= λ l, l ++ [ghost_finding h] |>).

(** The hosts to match: those that NICo lists, less the CPU pool *)
Definition drop_cpu_hosts (cns : list CpuNode) (hosts : dict NicoHost) : dict NicoHost :=
  foldl (λ d cn, if truthy (cn_nico_host_id cn)
                 then ddel d (default EmptyString (cn_nico_host_id cn)) else d) hosts cns.

Definition reconcile (adapter : ComputeAdapter) : IO ReconcileReport :=
  listed ← a_list_hosts adapter;
  let hosts := foldl (λ d h, dset d (h_id h) h) [] listed in
  cns ← s_values st_cpu_nodes;
  s ← store;
  acc ← fold_m check_node (mkAcc (drop_cpu_hosts cns hosts) [] 0 0 0) (dkeys (st_node_instances s));
  acc ← fold_m register_ghost acc (dvalues (ra_hosts acc));
  s ← store;
  mret (mkRReport (Placement.len_z (st_node_instances s)) (Placement.len_z hosts) (ra_ghosts acc)
          (ra_orphans acc) (ra_mismatches acc)
          (negb (anyb (λ f, String.eqb (rf_severity f) "critical") (ra_findings acc)))
          (ra_findings acc)).
Definition run_reconcile (http_adapter : string → ComputeAdapter) : IO ReconcileReport :=
  adapter ← get_adapter http_adapter; reconcile adapter.

End Reconcile.
