(* ===== verification/Day2.v ===== *)
(** * Day-2 Managed K8s add-on (app/lifecycle.py, [POST /k8s/installs]) *)
From Stdlib Require Import QArith.
From stdpp Require Import strings base decidable option numbers list relations.
From S2P Require Import Prelude PyLib Models World Adapters StateMachine Placement Saga K8s.
Local Open Scope string_scope.
Local Open Scope list_scope.
Local Open Scope py_scope.

Module Day2.
Import Saga K8s.

(** [_K8sAddonBody] *)
Record AddonBody := mkAddonBody {
  ab_tenant_id : string; ab_allocation_id : string; ab_k8s_version : string
}.

(** The guards, in order: the order whose allocation gets the add-on *)
Definition addon_guards (body : AddonBody) : IO ServiceOrder :=
  s ← store;
  let aid := ab_allocation_id body in
  let missing := http 404 ("allocation '" +:+ aid +:+ "' not found for tenant '"
                           +:+ ab_tenant_id body +:+ "'") in
  match dget (st_allocations s) aid with
  | None => missing
  | Some alloc =>
      if negb (String.eqb (al_tenant_id alloc) (ab_tenant_id body)) then missing else
      match find_first (λ o, memb aid (o_allocation_ids o)) (dvalues (st_orders s)) with
      | None => http 409 "대상 allocation의 개통 주문이 delivered 상태가 아님"
      | Some src =>
          if negb (bool_decide (o_state src = OS_delivered))
          then http 409 "대상 allocation의 개통 주문이 delivered 상태가 아님"
          else if anyb (λ c, bool_decide (k_allocation_id c = Some (al_id alloc))
                             && memb (k_state c) ["installing"; "running"])
                       (dvalues (st_k8s_clusters s))
          then http 409 "이미 Managed K8s가 설치된 allocation"
          else if negb (memb (ab_k8s_version body) K8S_SUPPORTED_VERSIONS)
          then http 422 ("지원 버전 " +:+ repr_list K8S_SUPPORTED_VERSIONS +:+ " (요청: '"
                         +:+ ab_k8s_version body +:+ "')")
          else if (pool_ready_cpus s <? K8S_CP_NODES_PER_CLUSTER)%Z
          then http 409 ("insufficient CPU pool: CP " +:+ str_of_Z K8S_CP_NODES_PER_CLUSTER
                         +:+ "대 필요 (pool_ready " +:+ str_of_Z (pool_ready_cpus s) +:+ "대)")
          else mret src
      end
  end.

(** After the installation: back to delivered, with the kubeconfig section *)
Definition addon_done (oid : string) : IO unit :=
  o ← order_of oid;
  advance_order oid OS_delivered
    ("Managed K8s add-on 설치 완료 — " +:+ opt_text (o_k8s_cluster_id o)) ;;
  s ← store;
  match dget (st_k8s_clusters s) (default EmptyString (o_k8s_cluster_id o)) with
  | Some cluster =>
      order_mut oid (λ o, o <| o_access_package ::= fmap (λ p,
        p <| ap_managed_k8s := Some (_k8s_access_entry cluster) |>) |>)
  | None => mret tt
  end.
(** After a failed installation: the bare-metal resources stay. *)
Definition addon_undo (oid detail : string) : IO unit :=
  order_mut oid (λ o, o <| o_managed_k8s := false |> <| o_k8s_version := EmptyString |>) ;;
  advance_order oid OS_delivered ("k8s add-on 실패 원복 (BMaaS 자원 유지): " +:+ detail).

Definition install_k8s_addon (adapter : ComputeAdapter) (body : AddonBody) : IO ServiceOrder :=
  src ← addon_guards body;
  let oid := o_id src in
  order_mut oid (λ o, o <| o_managed_k8s := true |> <| o_k8s_version := ab_k8s_version body |>) ;;
  emit "Portal/API" "NeoCloudOS.M1" "REST" ("POST /k8s/installs → " +:+ oid +:+ " (add-on)")
       (Some oid) None ;;
  delay ← _k8s_stage_delay;
  if negb (Qle_bool delay 0) then
    iid ← _begin_k8s_install oid;
    modify (λ w, w <| w_threads ::= λ l, l ++ [mkBg oid iid true] |>) ;;
    order_of oid
  else
    try_http (_install_k8s oid adapter)
      (λ _ detail,
         addon_undo oid detail ;;
         http 502 ("k8s add-on install failed: " +:+ detail)) ;;
    addon_done oid ;;
    order_of oid.

(** The body of the background thread of the add-on *)
Definition bg_addon (oid iid : string) (adapter : ComputeAdapter) : IO unit :=
  try_http (_run_k8s_install oid adapter iid ;; addon_done oid)
    (λ _ detail, addon_undo oid detail).

End Day2.
