(* ===== verification/Handlers.v ===== *)
(** * Relations on the store that every handler respects

    [StoreRelOn harmless R] lists what a two-state relation [R] on the store must
    satisfy at the primitive updates of the lifecycle code: the tenancy operations,
    the guarded transitions, history entries, attribute assignments that are
    [harmless] to an order, new orders and new nodes; [StoreRel] takes the largest
    class of assignments, [quiet_order] leaves the approval gate alone.  Each handler
    then moves along [R] on every outcome, for
    any compute adapter that keeps to its frame.  Lawful.v and Isolation.v give
    the instances. *)
From Stdlib Require Import QArith.
From stdpp Require Import strings base decidable option numbers list relations.
From S2P Require Import Prelude PyLib Models World NicoSim VastSim SharedSvc Spec StoreOps Adapters.
From S2P Require Import Tenancy StateMachine Placement Saga K8s Orders Reclaim Reconcile Day2.
Local Open Scope string_scope.
Local Open Scope list_scope.
Local Open Scope py_scope.
Import Tenancy Placement Saga K8s Orders Reclaim Reconcile Day2.

(** Updates that keep identity, state and recorded path *)
Definition harmless_node (f : NodeInstance → NodeInstance) : Prop := ∀ n,
  n_id (f n) = n_id n ∧ n_tray_id (f n) = n_tray_id n ∧ n_rack_id (f n) = n_rack_id n
  ∧ n_nico_host_id (f n) = n_nico_host_id n ∧ n_history (f n) = n_history n
  ∧ n_state (f n) = n_state n.
Definition harmless_order (f : ServiceOrder → ServiceOrder) : Prop := ∀ o,
  o_id (f o) = o_id o ∧ o_tenant_id (f o) = o_tenant_id o ∧ o_kind (f o) = o_kind o
  ∧ ev_state <$> o_history (f o) = ev_state <$> o_history o ∧ o_state (f o) = o_state o.
Lemma states_set_last d h : ev_state <$> set_last_detail d h = ev_state <$> h.
Proof.
  unfold set_last_detail. rewrite <-(reverse_involutive h) at 2.
  destruct (reverse h) as [|e r]; [done|]. by rewrite !fmap_reverse.
Qed.

(** ... and the gate an order waits at *)
Definition quiet_order (f : ServiceOrder → ServiceOrder) : Prop :=
  harmless_order f ∧ ∀ o, o_pending_stage (f o) = o_pending_stage o.

(** [harmless] says which assignments to an order [R] tolerates. *)
Class StoreRelOn (harmless : (ServiceOrder → ServiceOrder) → Prop) (R : relation Store) : Prop := {
  sr_preorder :: PreOrder R;
  sr_create_tenant b : Steps (on_store R) (create_tenant b);
  sr_create_allocation b : Steps (on_store R) (create_allocation b);
  sr_delete_allocation a : Steps (on_store R) (delete_allocation a);
  sr_create_partition b : Steps (on_store R) (create_partition b);
  sr_pkey k v : Steps (on_store R) (s_mut st_netiso k (λ n, n <| ni_ib_pkey := v |>));
  sr_next_seq name : memb name ["alloc"; "order"] = false → Steps (on_store R) (next_seq name);
  sr_cpu k f : (∀ c, cn_id (f c) = cn_id c) → Steps (on_store R) (cpu_mut k f);
  sr_cluster k f : Steps (on_store R) (cluster_mut k f);
  sr_cluster_set k v : Steps (on_store R) (s_set st_k8s_clusters k v);
  sr_install k f : Steps (on_store R) (install_mut k f);
  sr_install_set k v : Steps (on_store R) (s_set st_k8s_installs k v);
  sr_storage k f : Steps (on_store R) (s_mut st_storage_allocs k f);
  sr_storage_set k v : Steps (on_store R) (s_set st_storage_allocs k v);
  sr_advance_node nid to detail : Steps (on_store R) (advance_node nid to detail);
  sr_advance_order oid to detail : Steps (on_store R) (advance_order oid to detail);
  sr_node nid f : harmless_node f → Steps (on_store R) (node_mut nid f);
  sr_order oid f : harmless f → Steps (on_store R) (order_mut oid f);
  sr_open_order mk : (∀ oid at_, o_id (mk oid at_) = oid) → Steps (on_store R) (open_order mk);
  sr_node_log nid st detail w :
    (∀ n, dget (st_node_instances (w_store w)) nid = Some n → n_state n = st) →
    on_store R w (node_log nid (NodeLifecycleState_value st) detail w).2;
  sr_node_new nid v s : dget (st_node_instances s) nid = None →
    R s (s <| st_node_instances ::= λ d, dset d nid v |>)
}.

#[export] Hint Mode StoreRelOn - ! : typeclass_instances.
Abbreviation StoreRel := (StoreRelOn harmless_order).
(** The stages of an order make quiet assignments only. *)
Class Tolerant (harmless : (ServiceOrder → ServiceOrder) → Prop) : Prop :=
  tolerates f : quiet_order f → harmless f.
#[export] Hint Mode Tolerant ! : typeclass_instances.
#[export] Instance harmless_tolerant : Tolerant harmless_order.
Proof. by intros f [H _]. Qed.
#[export] Instance quiet_tolerant : Tolerant quiet_order.
Proof. by intros f H. Qed.

Ltac harmless_assignment := first
  [ intros []; split_and!; first [reflexivity | apply states_set_last]
  | apply tolerates; split; [intros []; split_and!; first [reflexivity | apply states_set_last]|intros []; reflexivity] ].
#[export] Hint Resolve sr_create_tenant sr_create_allocation sr_delete_allocation
  sr_create_partition sr_pkey sr_cluster sr_cluster_set sr_install sr_install_set
  sr_storage sr_storage_set sr_advance_node sr_advance_order : steps.
#[export] Hint Extern 2 (Steps (on_store _) (open_order _)) =>
  apply sr_open_order; intros ? ?; reflexivity : steps.
#[export] Hint Extern 2 (Steps (on_store _) (next_seq _)) =>
  apply sr_next_seq; reflexivity : steps.
#[export] Hint Extern 2 (Steps (on_store _) (cpu_mut _ _)) =>
  apply sr_cpu; intros []; reflexivity : steps.
#[export] Hint Extern 2 (Steps (on_store _) (node_mut _ _)) =>
  apply sr_node; intros []; split_and!; reflexivity : steps.
#[export] Hint Extern 2 (Steps (on_store _) (order_mut _ _)) =>
  apply sr_order; harmless_assignment : steps.

(** What moves an order from gate to gate *)
Class Gated (R : relation Store) : Prop :=
  gate_set oid v : Steps (on_store R) (order_mut oid (λ o, o <| o_pending_stage := v |>)).
#[export] Instance store_gated R `{!StoreRel R} : Gated R.
Proof. intros oid v. solve_steps. Qed.

(** Reads change nothing. *)
Section reads.
Context (R : relation Store) `{!PreOrder R}.
Local Abbreviation Moves := (Steps (on_store R)).
Lemma handler_isolation_report t : Moves (isolation_report t).
Proof. unfold isolation_report. solve_steps. Qed.
Lemma handler_order_of o : Moves (order_of o).
Proof. unfold order_of. solve_steps. Qed.
Lemma handler_node_of n : Moves (node_of n).
Proof. unfold node_of. solve_steps. Qed.
Lemma handler_cpu_of n : Moves (cpu_of n).
Proof. unfold cpu_of. solve_steps. Qed.
End reads.

Section lifecycle.
Context (R : relation Store) {harmless} `{!StoreRelOn harmless R, !Tolerant harmless}.
Local Abbreviation Moves := (Steps (on_store R)).

Lemma handler_modify_world f : (∀ w, w_store (f w) = w_store w) → Moves (modify f).
Proof. intros Hf w. unfold on_store. cbn. rewrite Hf. reflexivity. Qed.
Hint Extern 2 (Steps (on_store R) (modify _)) => apply handler_modify_world; reflexivity : steps.
Hint Resolve handler_isolation_report handler_order_of handler_node_of handler_cpu_of : steps.

(** ** The saga, for any adapter that keeps to its frame *)
Context (a : ComputeAdapter) `{!AdapterFrame a}.

Lemma handler_reject o d : Moves (reject o d).
Proof. unfold reject. solve_steps. Qed.
Hint Resolve handler_reject : steps.
Lemma handler_ctx_nodes o : Moves (_ctx_nodes o).
Proof. unfold _ctx_nodes. solve_steps. Qed.
Hint Resolve handler_ctx_nodes : steps.
Lemma handler_ctx_racks o : Moves (_ctx_racks o).
Proof. unfold _ctx_racks. solve_steps. Qed.
Hint Resolve handler_ctx_racks : steps.
Lemma handler_teardown o sids seg : Moves (_teardown_storage_and_segment o sids seg a).
Proof. unfold _teardown_storage_and_segment, get_storage_adapter. simpl. solve_steps. Qed.
Lemma handler_bind_cpu t s cn : Moves (bind_cpu t s cn).
Proof. unfold bind_cpu. solve_steps. Qed.
Hint Resolve handler_teardown handler_bind_cpu : steps.
Lemma handler_sync_cpu t s : Moves (_sync_cpu_nodes t s).
Proof. unfold _sync_cpu_nodes. solve_steps. Qed.
Lemma handler_rollback_node n : Moves (rollback_node a n).
Proof. unfold rollback_node. solve_steps. Qed.

(** Recording the current state of a node: the read and the entry go together. *)
Lemma handler_log_current {B} nid (k : NodeInstance → IO B) (detail : string) :
  (∀ n, Moves (k n)) →
  Moves (node ← node_of nid;
          node_log nid (NodeLifecycleState_value (n_state node)) detail ;; k node).
Proof.
  intros Hk w. unfold node_of. run. cbn.
  destruct (dget (st_node_instances (w_store w)) nid) as [n|] eqn:Hn; cbn; [|reflexivity].
  assert (on_store R w (node_log nid (NodeLifecycleState_value (n_state n)) detail w).2) as H'
    by (apply sr_node_log; congruence).
  unfold node_log in *. run_in H'. unfold node_mut in *. run_in H'. run. etransitivity; [exact H'|].
  apply Hk.
Qed.
Lemma handler_rollback_failed n d : Moves (rollback_failed n d).
Proof.
  intros w. unfold rollback_failed, node_of. run.
  destruct (dget (st_node_instances (w_store w)) n) as [nd|] eqn:Hn; [|reflexivity]. cbn.
  destruct (node_allowed (n_state nd) NS_cordoned); [apply sr_advance_node|].
  apply sr_node_log. congruence.
Qed.
Hint Resolve handler_sync_cpu handler_rollback_node handler_rollback_failed : steps.
Lemma handler_compensate o ns r : Moves (_compensate o ns a r).
Proof. unfold _compensate. solve_steps. Qed.
Hint Resolve handler_compensate : steps.
Lemma handler_compensate_ o ns r : Moves (compensate_ o ns a r).
Proof. unfold compensate_. solve_steps. Qed.
Hint Resolve handler_compensate_ : steps.

Lemma handler_nodes_for_racks rs : Moves (_nodes_for_racks rs).
Proof. unfold _nodes_for_racks. solve_steps. Qed.
Hint Resolve handler_nodes_for_racks : steps.
Lemma handler_validated o : Moves (_stage_validated o a).
Proof. unfold _stage_validated. solve_steps. Qed.
Lemma handler_reserve_node o acc n : Moves (reserve_node o a acc n).
Proof. unfold reserve_node. solve_steps. Qed.
Hint Resolve handler_reserve_node : steps.
Lemma handler_reserved o : Moves (_stage_reserved o a).
Proof. unfold _stage_reserved. solve_steps. Qed.
Lemma handler_provision_node o t all u n : Moves (provision_node o t a all u n).
Proof. unfold provision_node. solve_steps. Qed.
Hint Resolve handler_provision_node : steps.
Lemma handler_provisioning o : Moves (_stage_provisioning o a).
Proof. unfold _stage_provisioning. solve_steps. Qed.
Lemma handler_first_allocation o : Moves (first_allocation o).
Proof. unfold first_allocation. solve_steps. Qed.
Hint Resolve handler_first_allocation : steps.
Lemma handler_isolate_body o ns rs t : Moves (isolate_body o a ns rs t).
Proof. unfold isolate_body, tenant_pkey. solve_steps. Qed.
Hint Resolve handler_isolate_body : steps.
Lemma handler_isolating o : Moves (_stage_isolating o a).
Proof. unfold _stage_isolating. solve_steps. Qed.
Lemma handler_bind_storage o p t ni sp : Moves (bind_storage o p t ni sp).
Proof. unfold bind_storage, get_storage_adapter. simpl. solve_steps. Qed.
Hint Resolve handler_bind_storage : steps.
Lemma handler_storage_binding o : Moves (_stage_storage_binding o a).
Proof. unfold _stage_storage_binding, storage_spec. solve_steps. Qed.
Lemma handler_acceptance o : Moves (_stage_acceptance o a).
Proof. unfold _stage_acceptance. solve_steps. Qed.
(** ** Managed K8s, orders, reclaim *)
Lemma handler_rollback_host h : Moves (rollback_host a h).
Proof. unfold rollback_host. solve_steps. Qed.
Hint Resolve handler_rollback_host : steps.
Lemma handler_rollback_cp o : Moves (_rollback_k8s_cp o a).
Proof. unfold _rollback_k8s_cp. solve_steps. Qed.
Hint Resolve handler_rollback_cp : steps.
Lemma handler_delay : Moves _k8s_stage_delay.
Proof. unfold _k8s_stage_delay. solve_steps. Qed.
Lemma handler_begin o : Moves (_begin_k8s_install o).
Proof. unfold _begin_k8s_install. solve_steps. Qed.
Lemma handler_mark i c n st : Moves (_k8s_mark i c n st).
Proof. unfold _k8s_mark. solve_steps. Qed.
Lemma handler_cluster_log c st d : Moves (cluster_log c st d).
Proof. unfold cluster_log. solve_steps. Qed.
Lemma handler_ctx_cluster i : Moves (ctx_cluster i).
Proof. unfold ctx_cluster. solve_steps. Qed.
Hint Resolve handler_delay handler_begin handler_mark handler_cluster_log handler_ctx_cluster : steps.
Lemma handler_the_cluster c : Moves (the_cluster c).
Proof. unfold the_cluster. solve_steps. Qed.
Hint Resolve handler_the_cluster : steps.

Lemma handler_cp_guard ctx m : Moves m → Moves (cp_guard a ctx m).
Proof. intros Hm. unfold cp_guard. solve_steps. Qed.
Hint Resolve handler_cp_guard | 9 : steps.
Ltac k8s_steps := repeat first [progress solve_steps | apply handler_cp_guard].
Lemma handler_cp_reserve ctx : Moves (_k8s_st_cp_reserve a ctx).
Proof. unfold _k8s_st_cp_reserve. k8s_steps. Qed.
Lemma handler_provision_cp ctx c : Moves (provision_cp a ctx c).
Proof. unfold provision_cp. solve_steps. Qed.
Hint Resolve handler_provision_cp : steps.
Lemma handler_stage_fn ctx fn : fn ∈ _K8S_STAGE_FNS → Moves (fn a ctx).
Proof.
  intros Hin. unfold _K8S_STAGE_FNS in Hin.
  repeat (apply elem_of_cons in Hin as [->|Hin]); [..|by apply elem_of_nil in Hin].
  - apply handler_cp_reserve.
  - unfold _k8s_st_os_provision. k8s_steps.
  - unfold _k8s_st_net_attach. k8s_steps.
  - unfold _k8s_st_nkd_bootstrap. solve_steps.
  - unfold _k8s_st_addons. solve_steps.
  - unfold _k8s_st_acceptance. solve_steps.
  - unfold _k8s_st_telemetry. solve_steps.
  - unfold _k8s_st_active. solve_steps.
Qed.
Lemma handler_stage_failed i n d : Moves (stage_failed i n d).
Proof. unfold stage_failed. solve_steps. Qed.
Hint Resolve handler_stage_failed : steps.
Lemma handler_run_k8s o i : Moves (_run_k8s_install o a i).
Proof.
  unfold _run_k8s_install. solve_steps.
  match goal with H : ?x ∈ zip _ _ |- _ => destruct x as [name fn]; apply elem_of_zip_r in H end.
  unfold run_stage. solve_steps. by apply handler_stage_fn.
Qed.
Hint Resolve handler_run_k8s : steps.
Lemma handler_install o : Moves (_install_k8s o a).
Proof. unfold _install_k8s. solve_steps. Qed.
Lemma handler_access o : Moves (_build_access_package o).
Proof. unfold _build_access_package. solve_steps. Qed.
Hint Resolve handler_install handler_access : steps.
Lemma handler_delivered o : Moves (_stage_delivered o a).
Proof. unfold _stage_delivered. solve_steps. Qed.
Lemma handler_k8s_install o : Moves (_stage_k8s_install o a).
Proof. unfold _stage_k8s_install. solve_steps. Qed.
Hint Resolve handler_delivered : steps.
Lemma handler_bg o i : Moves (bg_install o i a).
Proof. unfold bg_install. solve_steps. Qed.

(** ** Orders *)
Lemma handler_stages m st : st ∈ stages_for m → ∀ o, Moves (st.2 o a).
Proof.
  intros Hin o. unfold stages_for, FULFILL_STAGES_K8S, FULFILL_STAGES in Hin.
  destruct m; cbn [take drop app] in Hin;
    (repeat (apply elem_of_cons in Hin as [->|Hin]); [..|by apply elem_of_nil in Hin]);
    cbn [snd];
    first [ apply handler_validated | apply handler_reserved | apply handler_provisioning
          | apply handler_isolating | apply handler_storage_binding | apply handler_acceptance
          | apply handler_delivered | apply handler_k8s_install ].
Qed.
Lemma handler_run_stages o l m : l ⊆ stages_for m → Moves (run_stages o a l).
Proof.
  induction l as [|[st fn] l IH]; intros Hl; cbn [run_stages]; [solve_steps|].
  apply steps_bind; [apply _|apply (handler_stages m (st, fn)), Hl; left|]. intros [].
  solve_steps. apply IH. intros x Hx. apply Hl. by right.
Qed.
(** *** Gates *)
Context `{!Gated R}.
Hint Extern 1 (Steps (on_store _) (order_mut _ (λ o, o <| o_pending_stage := _ |>))) => apply gate_set : steps.
Lemma handler_run_new b : Moves (run_new_order b a).
Proof. unfold run_new_order. solve_steps. by apply (handler_run_stages _ _ (oc_managed_k8s b)). Qed.
Lemma handler_pending o : Moves (pending_order o).
Proof. unfold pending_order. solve_steps. Qed.
Hint Resolve handler_pending : steps.
Lemma handler_approve o : Moves (approve_next_stage o a).
Proof.
  unfold approve_next_stage. apply steps_bind; [apply _|apply handler_pending|]. intros [ord p].
  apply steps_bind; [apply _|solve_steps|]. intros st.
  do 2 (apply steps_bind; [apply _|solve_steps|intros []]).
  apply steps_bind_or_raise; [apply _|]. intros fn Hfn.
  apply fmap_Some in Hfn as ([st' fn'] & [Hin _]%find_first_Some & ->).
  apply steps_bind; [apply _|by apply (handler_stages _ _ Hin)|]. solve_steps.
Qed.
Lemma handler_reject_fulfillment o r : Moves (reject_fulfillment o a r).
Proof. unfold reject_fulfillment. solve_steps. Qed.

(** ** Reclaim *)
Lemma handler_announce o t al : Moves (announce_teardown o t al).
Proof. unfold announce_teardown. solve_steps. Qed.
Lemma handler_reclaim_node n : Moves (reclaim_node a n).
Proof. unfold reclaim_node. solve_steps. Qed.
Hint Resolve handler_announce handler_reclaim_node : steps.
Lemma handler_reclaim_step o acc n : Moves (reclaim_step o a acc n).
Proof.
  unfold reclaim_step. apply steps_bind; [apply _| |intros; solve_steps].
  apply steps_try_http; [apply _|solve_steps|]. intros c d.
  apply handler_log_current. intros nd. solve_steps.
Qed.
Lemma handler_release_cp o c : Moves (release_cp o a c).
Proof. unfold release_cp. solve_steps. Qed.
Hint Resolve handler_reclaim_step handler_release_cp handler_cluster_log : steps.
Lemma handler_teardown_cluster o t al k : Moves (teardown_cluster o t al a k).
Proof. unfold teardown_cluster. solve_steps. Qed.
Lemma handler_close o r s : Moves (close_reclaim o r s).
Proof. unfold close_reclaim. solve_steps. Qed.
Hint Resolve handler_teardown_cluster handler_close : steps.
Lemma handler_list_segments : Moves Nico.list_segments.
Proof. solve_steps. Qed.
Hint Resolve handler_list_segments : steps.
Lemma handler_reclaim_allocation o b al : Moves (reclaim_allocation o b al a).
Proof. unfold reclaim_allocation. solve_steps. Qed.
Hint Resolve handler_reclaim_allocation : steps.
Lemma handler_run_terminate b : Moves (run_terminate_order b a).
Proof. unfold run_terminate_order. solve_steps. Qed.

(** ** Reconciliation and bootstrap *)
Lemma handler_orphan nid : Moves (orphan_node nid).
Proof.
  intros w. unfold orphan_node. run.
  destruct (dget (st_node_instances (w_store w)) nid) as [n|] eqn:Hn; [|reflexivity].
  destruct (_ || _); [reflexivity|].
  destruct (node_allowed _ _); [apply sr_advance_node|].
  apply sr_node_log. congruence.
Qed.
Lemma handler_register_ghost acc h : Moves (register_ghost acc h).
Proof.
  intros w. unfold register_ghost. run.
  destruct (dmem (st_node_instances (w_store w)) _) eqn:E; [reflexivity|].
  by apply sr_node_new, dmem_false.
Qed.
Lemma handler_check_node acc n : Moves (check_node acc n).
Proof. unfold check_node. pose proof (handler_orphan n). solve_steps. Qed.
Hint Resolve handler_register_ghost handler_check_node : steps.
Lemma handler_reconcile : Moves (reconcile a).
Proof. unfold reconcile. solve_steps. Qed.
Lemma handler_bootstrap_host c h : Moves (bootstrap_host c h).
Proof.
  intros w. unfold bootstrap_host. run.
  destruct (dget _ _) as [t|]; [|reflexivity].
  destruct (dmem (st_node_instances (w_store w)) _) eqn:E; [reflexivity|].
  destruct (dget (st_racks (w_store w)) _) as [r|]; [|reflexivity].
  by apply sr_node_new, dmem_false.
Qed.
Hint Resolve handler_bootstrap_host : steps.
Lemma handler_bootstrap : Moves (bootstrap_nodes a).
Proof. unfold bootstrap_nodes. solve_steps. Qed.

(** ** The Day-2 add-on *)
Lemma handler_day2 b : Moves (install_k8s_addon a b).
Proof. unfold install_k8s_addon, addon_guards, addon_undo, addon_done. solve_steps. Qed.
Lemma handler_bg_addon o i : Moves (bg_addon o i a).
Proof. unfold bg_addon, addon_undo, addon_done. solve_steps. Qed.
End lifecycle.
