(* ===== verification/Demo.v ===== *)
(** * A small concrete site

    One site with two scalable units of two racks, one tray and one GPU per rack,
    and eight CPU nodes, brought up the way the program starts (NICo seeded from
    the store, nodes mirrored), with two tenants.  The witnesses evaluate the
    handlers on it. *)
From Stdlib Require Import QArith.
From stdpp Require Import strings base decidable option numbers list relations.
From S2P Require Import Prelude PyLib Models EmuModels World NicoSim Adapters Tenancy StateMachine Saga.
From S2P Require Import Orders Reclaim Reconcile.
Local Open Scope string_scope.
Local Open Scope list_scope.
Local Open Scope py_scope.

Module Demo.

Definition env : Env :=
  mkEnv (λ n, "t" +:+ str_of_nat n) (λ n, "tok" +:+ str_of_nat n) (λ _, None) (λ _, "q") (λ _, None)
    (λ s, match s with String _ r => inject_Z <$> parse_int r | EmptyString => None end)
    (λ q, "t" +:+ str_of_Z (Qnum q / Zpos (Qden q))) (λ _, "digest")
    (λ n, Z.of_nat (n mod 10) # 10) (λ n b, (Z.of_nat n mod b)%Z).

Definition rack_id (su n : Z) : string := "su-" +:+ str_of_Z su +:+ "-rack-0" +:+ str_of_Z n.
Definition tray_id (su n : Z) : string := rack_id su n +:+ "-tray-00".
Definition gpu_id (su n : Z) : string := tray_id su n +:+ "-gpu-0".
Definition dpu_id (su n : Z) : string := tray_id su n +:+ "-dpu".
Definition su_name (su : Z) : string := "su-" +:+ str_of_Z su.
Definition places : list (Z * Z) := [(1, 0); (1, 1); (2, 0); (2, 1)]%Z.

Definition racks : dict Rack := (λ '(su, n), (rack_id su n,
  mkRack (rack_id su n) (su_name su) n "vr-nvl72" "Vera Rubin NVL72" "MGX Gen 1.2" "Rubin"
    ("hac-" +:+ str_of_Z su) 227 187 "liquid" [tray_id su n] [] HW_ready None)) <$> places.
Definition trays : dict ComputeTray := (λ '(su, n), (tray_id su n,
  mkTray (tray_id su n) (rack_id su n) 0 [gpu_id su n] [] (Some (dpu_id su n)) 8 HW_ready None))
  <$> places.
Definition gpus : dict GPU := (λ '(su, n), (gpu_id su n,
  mkGPU (gpu_id su n) (tray_id su n) 0 "Rubin" 288 "HBM4" 2 HW_ready None)) <$> places.
Definition dpus : dict BlueFieldDPU := (λ '(su, n), (dpu_id su n,
  mkDPU (dpu_id su n) (tray_id su n) "BF4-B4240V" 800 DPU_dpu None)) <$> places.
Definition sus : dict ScalableUnit := (λ su, (su_name su,
  mkSU (su_name su) (Some "du-1") su ("hac-" +:+ str_of_Z su) "vr-nvl72"
    [rack_id su 0; rack_id su 1] 2 HW_ready)) <$> [1; 2]%Z.
Definition cpu_nodes : dict CpuNode := (λ i, let id := "cpu-node-" +:+ str_of_Z i in (id,
  mkCpuNode id (id +:+ "-dpu") "BF3" "AMD EPYC 9654" 96 (3 # 2) "pool_ready" "general"
    (Some ("nh-" +:+ id)) None None EmptyString None)) <$> [1; 2; 3; 4; 5; 6; 7; 8]%Z.

Definition site : Store :=
  empty_store
    <| st_factories := [("aif-1", mkFactory "aif-1" "SKT 가산" "gasan" 40%Q ["block-1"])] |>
    <| st_blocks := [("block-1", mkBlock "block-1" "aif-1" 0 "A" 10%Q "ready" ["du-1"])] |>
    <| st_dus := [("du-1", mkDU "du-1" (Some "block-1") 0 ["su-1"; "su-2"])] |>
    <| st_sus := sus |> <| st_racks := racks |> <| st_trays := trays |> <| st_gpus := gpus |>
    <| st_dpus := dpus |> <| st_cpu_nodes := cpu_nodes |>.
Definition cold : World :=
  mkWorld env 0 0 site (mkNico [] [] [] [] 0 [] 0) (mkVast [] 0) (mkShared [] [] [] [] [] 0)
    (mkTracer [] 0) [] [] [] [] empty_emulator.

Definition world_after {A} (m : IO A) (w : World) : World := (m w).2.
Definition booted : World :=
  world_after (Nico.seed_from_store ;; bootstrap_nodes LocalNicoAdapter) cold.
Definition with_tenants : World :=
  world_after
    (Tenancy.create_tenant (mkTenantCreate "Acme" IT_bare_metal_dedicated "gold" None) ≫= λ _,
     Tenancy.create_tenant (mkTenantCreate "Beta Labs" IT_vm_multitenant "silver" None)) booted.

Definition order_body (tid : string) (racks : Z) (k8s approval : bool) : OrderCreate :=
  mkOrderCreate tid OK_new (Some "vr-nvl72") racks None approval "auto" 0%Q 0%Q k8s
    (if k8s then "v1.32.4" else EmptyString).
Definition terminate_body (tid aid : string) : OrderCreate :=
  mkOrderCreate tid OK_terminate None 0 (Some aid) false "auto" 0%Q 0%Q false EmptyString.

(** A tenant served end to end: a two-rack order with Managed K8s *)
Definition delivered : World :=
  world_after (Orders.run_new_order (order_body "tnt-acme" 2 true false) LocalNicoAdapter) with_tenants.
Definition reclaimed : World :=
  world_after (Reclaim.run_terminate_order (terminate_body "tnt-acme" "alloc-1") LocalNicoAdapter) delivered.

(** An order with approval gates, approved up to the reservation of its nodes *)
Definition approved (oid : string) (w : World) : World :=
  world_after (Orders.approve_next_stage oid LocalNicoAdapter) w.
Definition gated : World :=
  world_after (Orders.run_new_order (order_body "tnt-acme" 2 false true) LocalNicoAdapter) with_tenants.
Definition reserved : World := approved "ord-1" (approved "ord-1" gated).
(** ... and up to its isolation: allocated, not yet delivered *)
Definition isolated_only : World := approved "ord-1" (approved "ord-1" reserved).

Definition order_states (w : World) : list (string * OrderState * option string) :=
  (λ o, (o_id o, o_state o, o_error o)) <$> dvalues (st_orders (w_store w)).
Definition node_states (w : World) : list (string * NodeLifecycleState * option string) :=
  (λ n, (n_id n, n_state n, n_tenant_id n)) <$> dvalues (st_node_instances (w_store w)).
Definition host_states (w : World) : list (string * NicoHostState) :=
  (λ h, (h_id h, h_state h)) <$> dvalues (nc_hosts (w_nico w)).

End Demo.
