(* ===== verification/Lawful.v ===== *)
(** * Lawful evolution of nodes and orders

    A two-state relation on the store that every handler of the control plane
    moves along, whatever its outcome: no node and no order disappears or changes
    identity, each moves along its transition table only, and its history
    records the path it took. *)
From Stdlib Require Import QArith.
From stdpp Require Import strings base decidable option numbers list relations.
From S2P Require Import Prelude PyLib Models World NicoSim SharedSvc StoreOps Adapters Tenancy.
From S2P Require Import StateMachine Saga K8s Handlers.
Local Open Scope string_scope.
Local Open Scope list_scope.
Local Open Scope py_scope.
Import Tenancy Saga K8s.

(** ** Paths and their record in a history *)
Section hist_path.
Context {S : Type} (step : S → S → Prop) (value : S → string).
Inductive hist_path : S → list string → S → Prop :=
  | hp_nil s : hist_path s [] s
  | hp_stay s l t : hist_path s l t → hist_path s (value s :: l) t
  | hp_step s s' l t : step s s' → hist_path s' l t → hist_path s (value s' :: l) t.
Lemma hist_path_app s l t l' u : hist_path s l t → hist_path t l' u → hist_path s (l ++ l') u.
Proof. induction 1; simpl; intros; [done|constructor; auto|econstructor; eauto]. Qed.
Lemma hist_path_rtc s l t : hist_path s l t → rtc step s t.
Proof. induction 1; [reflexivity|done|by econstructor]. Qed.
(** A path that starts in [P], cannot leave [P] except through [x], and ends
    outside [P], records [x]. *)
Lemma hist_path_through (P : S → Prop) x s l t :
  (∀ a b, step a b → P a → P b ∨ b = x) →
  hist_path s l t → P s → ¬ P t → value x ∈ l.
Proof.
  intros Hout. induction 1 as [s|s l t Hp IH|s s' l t Hs Hp IH]; intros HP Ht.
  - done.
  - right. by apply IH.
  - destruct (Hout _ _ Hs HP) as [HP'| ->]; [right; by apply IH|left].
Qed.
End hist_path.

Definition node_step (s t : NodeLifecycleState) : Prop := node_allowed s t = true.
Definition order_step (s t : OrderState) : Prop := order_allowed s t = true.
Definition node_path := hist_path node_step NodeLifecycleState_value.
Definition order_path := hist_path order_step OrderState_value.
Definition states_of (h : list LifecycleEvent) : list string := ev_state <$> h.

(** What never changes about a node, and how the rest may *)
Record node_evolves (n n' : NodeInstance) : Prop := {
  ne_id : n_id n' = n_id n;
  ne_tray : n_tray_id n' = n_tray_id n;
  ne_rack : n_rack_id n' = n_rack_id n;
  ne_host : n_nico_host_id n' = n_nico_host_id n;
  ne_path : ∃ l, states_of (n_history n') = states_of (n_history n) ++ l
                 ∧ node_path (n_state n) l (n_state n')
}.
Record order_evolves (o o' : ServiceOrder) : Prop := {
  oe_id : o_id o' = o_id o;
  oe_tenant : o_tenant_id o' = o_tenant_id o;
  oe_kind : o_kind o' = o_kind o;
  oe_path : ∃ l, states_of (o_history o') = states_of (o_history o) ++ l
                 ∧ order_path (o_state o) l (o_state o')
}.
#[export] Instance node_evolves_preorder : PreOrder node_evolves.
Proof.
  split.
  - intros n. split; try done. exists []. rewrite app_nil_r. split; [done|constructor].
  - intros n1 n2 n3 [? ? ? ? (l & E & H)] [? ? ? ? (l' & E' & H')].
    split; try congruence. exists (l ++ l').
    rewrite E', E, app_assoc. split; [done|by eapply hist_path_app].
Qed.
#[export] Instance order_evolves_preorder : PreOrder order_evolves.
Proof.
  split.
  - intros n. split; try done. exists []. rewrite app_nil_r. split; [done|constructor].
  - intros n1 n2 n3 [? ? ? (l & E & H)] [? ? ? (l' & E' & H')].
    split; try congruence. exists (l ++ l').
    rewrite E', E, app_assoc. split; [done|by eapply hist_path_app].
Qed.

(** Every entry of a dictionary stays and evolves. *)
Definition entries {V} (E : V → V → Prop) (d d' : dict V) : Prop :=
  ∀ k v, dget d k = Some v → ∃ v', dget d' k = Some v' ∧ E v v'.
#[export] Instance entries_preorder {V} (E : V → V → Prop) : PreOrder E → PreOrder (entries E).
Proof.
  intros [Hr Ht]. split.
  - intros d k v Hk. by exists v.
  - intros d1 d2 d3 H12 H23 k v Hk.
    destruct (H12 k v Hk) as (v2 & Hk2 & ?). destruct (H23 k v2 Hk2) as (v3 & ? & ?).
    exists v3. split; [done|by eapply Ht].
Qed.
Lemma entries_dupd {V} (E : V → V → Prop) `{!PreOrder E} d k f :
  (∀ v, E v (f v)) → entries E d (dupd d k f).
Proof.
  intros Hf k' v Hk. rewrite dget_dupd. destruct (String.eqb_spec k' k) as [->|].
  - rewrite Hk. by exists (f v).
  - by exists v.
Qed.
Lemma entries_dset_fresh {V} (E : V → V → Prop) `{!PreOrder E} d k x :
  dget d k = None → entries E d (dset d k x).
Proof.
  intros Hn k' v Hk. exists v. split; [|reflexivity]. rewrite dget_dset_ne; [done|].
  intros ->. congruence.
Qed.

(** Order numbers come from a counter, so a new order is a new entry. *)
Definition order_count (s : Store) : Z := default 0%Z (dget (st_counters s) "order").
Definition orders_numbered (s : Store) : Prop :=
  (0 ≤ order_count s)%Z ∧
  ∀ n, (order_count s < n)%Z → dget (st_orders s) ("ord-" +:+ str_of_Z n) = None.

Definition lawful (s s' : Store) : Prop :=
  orders_numbered s →
  orders_numbered s'
  ∧ entries node_evolves (st_node_instances s) (st_node_instances s')
  ∧ entries order_evolves (st_orders s) (st_orders s').
#[export] Instance lawful_preorder : PreOrder lawful.
Proof.
  split.
  - intros s Hs. split_and!; [done|reflexivity|reflexivity].
  - intros s1 s2 s3 H12 H23 H1. destruct (H12 H1) as (H2 & ? & ?).
    destruct (H23 H2) as (? & ? & ?). split_and!; [done|by etransitivity|by etransitivity].
Qed.

(** ** The primitives are lawful *)
Lemma lawful_frame s s' :
  st_node_instances s' = st_node_instances s → st_orders s' = st_orders s →
  order_count s' = order_count s → lawful s s'.
Proof.
  intros En Eo Ec Hs. unfold orders_numbered. rewrite En, Eo, Ec. split_and!; try done; apply Hs.
Qed.
Lemma orders_numbered_keys s s' :
  order_count s' = order_count s → dkeys (st_orders s') = dkeys (st_orders s) →
  orders_numbered s → orders_numbered s'.
Proof.
  intros Ec Ek [H0 Hn]. split; [by rewrite Ec|]. intros n Hlt. rewrite Ec in Hlt.
  apply dget_None_notin. rewrite Ek. by apply dget_None_notin, Hn.
Qed.
Lemma lawful_node_mut nid f :
  (∀ n, node_evolves n (f n)) → Steps (on_store lawful) (node_mut nid f).
Proof.
  intros Hf. apply steps_upd_store. intros s Hs. split_and!; [exact Hs| |reflexivity].
  by apply entries_dupd; [apply _|].
Qed.
Lemma lawful_order_mut oid f :
  (∀ o, order_evolves o (f o)) → Steps (on_store lawful) (order_mut oid f).
Proof.
  intros Hf. apply steps_upd_store. intros s Hs. split_and!; [|reflexivity|].
  - by apply (orders_numbered_keys s); [|apply dkeys_dupd|].
  - by apply entries_dupd; [apply _|].
Qed.
Lemma lawful_next_seq name : Steps (on_store lawful) (next_seq name).
Proof.
  intros w. unfold on_store. run. cbn. intros [H0 Hn].
  split_and!; [|reflexivity|reflexivity]. unfold orders_numbered, order_count. cbn.
  rewrite dget_dset. destruct (String.eqb_spec "order" name) as [<-|]; [|by split].
  cbn. split; [unfold order_count in H0; lia|]. intros n Hlt. apply Hn. unfold order_count in *. lia.
Qed.
(** The record of a node update that changes neither identity, state nor history *)
Lemma node_evolves_same n n' :
  n_id n' = n_id n → n_tray_id n' = n_tray_id n → n_rack_id n' = n_rack_id n →
  n_nico_host_id n' = n_nico_host_id n → n_history n' = n_history n → n_state n' = n_state n →
  node_evolves n n'.
Proof.
  intros ? ? ? ? Eh Es. split; try done. exists []. rewrite Eh, Es, app_nil_r.
  split; [done|constructor].
Qed.
Lemma order_evolves_same o o' :
  o_id o' = o_id o → o_tenant_id o' = o_tenant_id o → o_kind o' = o_kind o →
  states_of (o_history o') = states_of (o_history o) → o_state o' = o_state o →
  order_evolves o o'.
Proof.
  intros ? ? ? Eh Es. split; try done. exists []. rewrite Eh, Es, app_nil_r.
  split; [done|constructor].
Qed.
Lemma lawful_node_log nid detail (st : NodeLifecycleState) w :
  (∀ n, dget (st_node_instances (w_store w)) nid = Some n → n_state n = st) →
  on_store lawful w (node_log nid (NodeLifecycleState_value st) detail w).2.
Proof.
  intros Hst. unfold on_store, node_log, node_mut. run. cbn. intros Hs. split_and!; [exact Hs| |reflexivity].
  intros k n Hk. cbn. rewrite dget_dupd. destruct (String.eqb_spec k nid) as [->|]; [|by exists n].
  rewrite Hk. eexists; split; [done|]. split; try done.
  exists [NodeLifecycleState_value st]. cbn. unfold states_of. rewrite fmap_app. split; [done|].
  rewrite (Hst n Hk). apply hp_stay, hp_nil.
Qed.
Lemma lawful_advance_node nid to detail : Steps (on_store lawful) (advance_node nid to detail).
Proof.
  intros w. unfold advance_node, node_log, node_mut. run.
  destruct (dget (st_node_instances (w_store w)) nid) as [n|] eqn:Hn; [|reflexivity].
  destruct (node_allowed (n_state n) to) eqn:Ha; [|reflexivity].
  unfold on_store. cbn. intros Hs. split_and!; [exact Hs| |reflexivity].
  intros k n0 Hk. cbn. rewrite !dget_dupd.
  destruct (String.eqb_spec k nid) as [->|]; [|by exists n0].
  rewrite String.eqb_refl. rewrite Hn in *. injection Hk as <-.
  eexists; split; [done|]. split; try done. exists [NodeLifecycleState_value to]. cbn.
  unfold states_of. rewrite fmap_app. split; [done|]. by eapply hp_step, hp_nil.
Qed.
Lemma lawful_advance_order oid to detail : Steps (on_store lawful) (advance_order oid to detail).
Proof.
  intros w. unfold advance_order, order_log, order_mut. run.
  destruct (dget (st_orders (w_store w)) oid) as [o|] eqn:Ho; [|reflexivity].
  destruct (order_allowed (o_state o) to) eqn:Ha; [|reflexivity].
  unfold on_store. cbn. intros Hs. split_and!; [|reflexivity|].
  - apply (orders_numbered_keys (w_store w)); [done| |done]. cbn. by rewrite !dkeys_dupd.
  - intros k o0 Hk. cbn. rewrite !dget_dupd.
    destruct (String.eqb_spec k oid) as [->|]; [|by exists o0].
    rewrite String.eqb_refl. rewrite Ho in *. injection Hk as <-.
    eexists; split; [done|]. split; try done. exists [OrderState_value to]. cbn.
    unfold states_of. rewrite fmap_app. split; [done|]. by eapply hp_step, hp_nil.
Qed.
Lemma lawful_open_order mk : Steps (on_store lawful) (open_order mk).
Proof.
  intros w. unfold open_order, on_store. run. cbn. intros [H0 Hn].
  set (c := default 0%Z (dget (st_counters (w_store w)) "order")) in *.
  assert (Hfresh : dget (st_orders (w_store w)) ("ord-" +:+ str_of_Z (c + 1)) = None)
    by (apply Hn; unfold order_count, c; lia).
  split_and!; [|reflexivity|].
  - unfold orders_numbered, order_count. cbn. rewrite dget_dset_eq. cbn. split.
    { unfold order_count in H0. lia. }
    intros n Hlt. rewrite dget_dset_ne; [apply Hn; unfold order_count; lia|].
    intros E%(str_app_inj "ord-")%str_of_Z_inj. lia.
  - cbn. by apply entries_dset_fresh; [apply _|].
Qed.

(** Every handler is lawful. *)
Ltac lawful_store := apply steps_upd_store; intros ?; apply lawful_frame; reflexivity.
#[export] Hint Extern 2 (Steps (on_store lawful) (s_mut _ _ _)) => lawful_store : steps.
#[export] Hint Extern 2 (Steps (on_store lawful) (s_set _ _ _)) => lawful_store : steps.
#[export] Hint Extern 2 (Steps (on_store lawful) (s_del _ _)) => lawful_store : steps.
Lemma lawful_set_rack rid t st m : Steps (on_store lawful) (set_rack rid t st m).
Proof. unfold set_rack. solve_steps. Qed.
#[local] Hint Resolve lawful_next_seq lawful_set_rack : steps.
#[export] Instance lawful_rel : StoreRel lawful.
Proof.
  split; [apply _|..]; intros.
  - unfold create_tenant, _alloc_vni. solve_steps.
  - unfold create_allocation, resolve_racks, check_conflicts, check_dedicated, _bind_rack. solve_steps.
  - unfold delete_allocation, drop_partitions, _release_rack. solve_steps.
  - unfold create_partition. solve_steps.
  - solve_steps.
  - apply lawful_next_seq.
  - unfold cpu_mut. solve_steps.
  - unfold cluster_mut. solve_steps.
  - solve_steps.
  - unfold install_mut. solve_steps.
  - solve_steps.
  - solve_steps.
  - solve_steps.
  - apply lawful_advance_node.
  - apply lawful_advance_order.
  - apply lawful_node_mut. intros n. by apply node_evolves_same; apply (H n).
  - apply lawful_order_mut. intros o. by apply order_evolves_same; apply (H o).
  - apply lawful_open_order.
  - by apply lawful_node_log.
  - intros Hs. split_and!; [exact Hs| |reflexivity].
    by apply entries_dset_fresh; [apply _|].
Qed.
