(* ===== verification/Isolation.v ===== *)
(** * Tenant isolation as an invariant of the whole control plane

    The VNI pool and the network bindings; the instances of [StoreRel] for the
    rack/partition invariant of Partition.v and for the VNI invariant; and the
    isolation report judged against them. *)
From Stdlib Require Import QArith.
From stdpp Require Import strings base decidable option numbers list relations.
From S2P Require Import Prelude PyLib Models World SharedSvc Spec StoreOps Adapters Tenancy.
From S2P Require Import Binding Partition StateMachine Saga K8s Handlers.
Local Open Scope string_scope.
Local Open Scope list_scope.
Local Open Scope py_scope.
Import Tenancy Saga K8s.

(** ** The rack and partition invariant survives every handler *)
Lemma node_log_isolated nid st d : KeepsIsolated (node_log nid st d).
Proof. unfold node_log, node_mut. solve_steps. Qed.
Lemma order_log_isolated oid st d : KeepsIsolated (order_log oid st d).
Proof. unfold order_log, order_mut. solve_steps. Qed.
#[local] Hint Resolve node_log_isolated order_log_isolated : steps.
#[export] Instance isolated_rel : StoreRel keeps_isolated.
Proof.
  split; [apply _|..]; intros; try by solve_steps.
  - apply next_seq_isolated. apply memb_false in H. apply String.eqb_neq. set_solver.
  - unfold cpu_mut. solve_steps.
  - unfold cluster_mut. solve_steps.
  - unfold install_mut. solve_steps.
  - unfold advance_node, node_mut. solve_steps.
  - unfold advance_order, order_mut. solve_steps.
  - unfold node_mut. solve_steps.
  - unfold order_mut. solve_steps.
  - unfold open_order. solve_steps.
  - apply node_log_isolated.
  - by apply keeps_isolated_view.
Qed.

(** ** VNIs *)
Lemma elem_of_count_from lo n z : z ∈ count_from lo n ↔ (lo ≤ z < lo + Z.of_nat n)%Z.
Proof.
  revert lo. induction n as [|n IH]; intros lo; cbn [count_from].
  - rewrite elem_of_nil. lia.
  - rewrite elem_of_cons, IH. lia.
Qed.
Lemma elem_of_z_range lo hi z : z ∈ z_range lo hi ↔ (lo ≤ z ≤ hi)%Z.
Proof. unfold z_range. rewrite elem_of_count_from. lia. Qed.
Lemma vni_free_spec s v : vni_free s v = true ↔ v ∉ used_vnis s.
Proof.
  unfold vni_free. rewrite negb_true_iff, <-(not_true_iff_false (List.existsb _ _)), List.existsb_exists.
  setoid_rewrite list_elem_of_In. split.
  - intros H Hin. apply H. exists v. by rewrite Z.eqb_refl.
  - intros H (x & Hx & ->%Z.eqb_eq). done.
Qed.
(** The first free number of a range *)
Lemma find_count_from p lo n v :
  find_first p (count_from lo n) = Some v → ∀ u, (lo ≤ u < v)%Z → p u = false.
Proof.
  revert lo. induction n as [|n IH]; intros lo; cbn [count_from]; [done|].
  unfold find_first. cbn. destruct (p lo) eqn:E; [intros [= ->]; lia|].
  intros H u Hu. destruct (decide (u = lo)) as [->|]; [done|]. eapply IH; [exact H|lia].
Qed.

Definition exhausted (s : Store) (lo hi : Z) : Prop := ∀ u, (lo ≤ u ≤ hi)%Z → u ∈ used_vnis s.
Definition lowest_free (s : Store) (lo hi v : Z) : Prop :=
  (lo ≤ v ≤ hi)%Z ∧ (v ∉ used_vnis s) ∧ (∀ u, (lo ≤ u < v)%Z → u ∈ used_vnis s).

Lemma alloc_vni_run fabric lo hi w :
  dget Spec.VNI_RANGES fabric = Some (lo, hi) →
  (∃ v, _alloc_vni fabric w = (Ok v, w) ∧ lowest_free (w_store w) lo hi v)
  ∨ (∃ d, _alloc_vni fabric w = (Raised (HTTPException 507 d), w) ∧ exhausted (w_store w) lo hi).
Proof.
  intros Hr. unfold _alloc_vni. run. rewrite Hr. cbn.
  destruct (find_first _ _) as [v|] eqn:E.
  - left. exists v. split; [done|]. pose proof (find_count_from _ _ _ _ E) as Hlow.
    apply find_first_Some in E as [Hin Hf]. apply elem_of_z_range in Hin.
    split_and!; [lia|lia|by apply vni_free_spec|]. intros u Hu%Hlow.
    destruct (decide (u ∈ used_vnis (w_store w))); [done|]. exfalso.
    assert (vni_free (w_store w) u = true) by by apply vni_free_spec. congruence.
  - right. eexists. split; [done|]. intros u Hu.
    destruct (decide (u ∈ used_vnis (w_store w))) as [|Hn]; [done|]. exfalso.
    apply vni_free_spec in Hn. apply elem_of_z_range in Hu.
    rewrite find_first_None in E. specialize (E u Hu). congruence.
Qed.

(** ** Creating a tenant *)
Definition tenant_id_of (body : TenantCreate) : string := "tnt-" +:+ _slug (tc_name body).
Definition vrf_of (body : TenantCreate) : string := "VRF-" +:+ _slug (tc_name body).
Definition with_tenant (s : Store) (t : Tenant) : Store :=
  s <| st_tenants ::= λ d, dset d (tn_id t) t |>.
Definition new_tenant (body : TenantCreate) : Tenant :=
  mkTenant (tenant_id_of body) (tc_name body) (tc_isolation_tier body) (tc_sla_tier body)
    (tc_notes body).
Record tenant_network (s : Store) (body : TenantCreate) (ni : NetworkIsolation) : Prop := {
  tnn_id : ni_tenant_id ni = tenant_id_of body;
  tnn_vrf : ni_vrf ni = vrf_of body;
  tnn_compute : lowest_free s 10000 19999 (ni_compute_l3vni ni);
  tnn_converged : lowest_free s 20000 29999 (ni_converged_vni ni);
  tnn_oob : lowest_free s 30000 39999 (ni_oob_vni ni)
}.

Lemma create_tenant_run body w :
  let s := w_store w in
  match create_tenant body w with
  | (Ok t, w') =>
      dget (st_tenants s) (tenant_id_of body) = None ∧ t = new_tenant body
      ∧ ∃ ni, tenant_network s body ni
          ∧ w_store w' = (with_tenant s t) <| st_netiso ::= λ d, dset d (tenant_id_of body) ni |>
  | (Raised e, w') =>
      (is_Some (dget (st_tenants s) (tenant_id_of body)) ∧ w' = w
       ∧ ∃ d, e = HTTPException 409 d)
      ∨ (dget (st_tenants s) (tenant_id_of body) = None
         ∧ w_store w' = with_tenant s (new_tenant body)
         ∧ (∃ d, e = HTTPException 507 d)
         ∧ (exhausted s 10000 19999 ∨ exhausted s 20000 29999 ∨ exhausted s 30000 39999))
  end.
Proof.
  cbv zeta. unfold create_tenant. fold (tenant_id_of body) (vrf_of body). run.
  destruct (dmem (st_tenants (w_store w)) (tenant_id_of body)) eqn:Hm.
  { left. apply dmem_spec in Hm. eauto. }
  apply dmem_false in Hm. fold (new_tenant body). cbn [fst snd].
  set (w1 := w <| w_store ::= _ |>).
  destruct (alloc_vni_run "compute" 10000 19999 w1 eq_refl) as [(c & -> & Hc)|(d & -> & Hc)];
    [|right; split_and!; eauto].
  destruct (alloc_vni_run "converged" 20000 29999 w1 eq_refl) as [(v & -> & Hv)|(d & -> & Hv)];
    [|right; split_and!; eauto].
  destruct (alloc_vni_run "oob" 30000 39999 w1 eq_refl) as [(o & -> & Ho)|(d & -> & Ho)];
    [|right; split_and!; eauto].
  set (w2 := w1 <| w_store ::= _ |>).
  destruct (total_run _ w2 (Shared.create_realm_total (tenant_id_of body) (tc_name body))) as [r Hr].
  pose proof (Shared.store_create_realm (tenant_id_of body) (tc_name body) w2) as Hs.
  rewrite Hr. split_and!; [done|done|]. eexists. split; [|exact Hs]. by split.
Qed.

(** ** The VNI invariant *)
Record vnis_ok (s : Store) : Prop := {
  vn_wf : dict_wf (st_netiso s);
  vn_tenant k ni : dget (st_netiso s) k = Some ni → is_Some (dget (st_tenants s) k);
  vn_named k ni : dget (st_netiso s) k = Some ni →
    ni_tenant_id ni = k ∧ ∃ slug, k = "tnt-" +:+ slug ∧ ni_vrf ni = "VRF-" +:+ slug;
  vn_range k ni : dget (st_netiso s) k = Some ni →
    (10000 ≤ ni_compute_l3vni ni ≤ 19999)%Z ∧ (20000 ≤ ni_converged_vni ni ≤ 29999)%Z
    ∧ (30000 ≤ ni_oob_vni ni ≤ 39999)%Z;
  (** no VNI belongs to two tenants *)
  vn_unique k k' ni ni' v : dget (st_netiso s) k = Some ni → dget (st_netiso s) k' = Some ni' →
    v ∈ vnis_of ni → v ∈ vnis_of ni' → k = k'
}.
Definition keeps_vnis (s s' : Store) : Prop := vnis_ok s → vnis_ok s'.
#[export] Instance keeps_vnis_preorder : PreOrder keeps_vnis.
Proof. unfold keeps_vnis. split; [by intros s|intros s1 s2 s3; tauto]. Qed.
Lemma keeps_vnis_view s s' :
  st_netiso s' = st_netiso s → st_tenants s' = st_tenants s → keeps_vnis s s'.
Proof. intros En Et []. split; rewrite ?En, ?Et; eauto. Qed.

Lemma used_vnis_in s v :
  v ∈ used_vnis s ↔ ∃ ni, ni ∈ dvalues (st_netiso s) ∧ v ∈ vnis_of ni.
Proof. apply elem_of_concat_map. Qed.
Lemma lowest_free_new s lo hi v k ni :
  lowest_free s lo hi v → dget (st_netiso s) k = Some ni → v ∉ vnis_of ni.
Proof.
  intros (_ & Hn & _) Hk Hin. apply Hn, used_vnis_in. exists ni. split; [by eapply dget_dvalues|done].
Qed.
Lemma tenant_added_vnis s body t ni :
  dget (st_tenants s) (tenant_id_of body) = None → tn_id t = tenant_id_of body →
  tenant_network s body ni →
  keeps_vnis s ((with_tenant s t) <| st_netiso ::= λ d, dset d (tenant_id_of body) ni |>).
Proof.
  intros Ht Hid [Hi Hv Hc Hg Ho] [].
  assert (Hnew : ∀ k ni' v, dget (st_netiso s) k = Some ni' → v ∈ vnis_of ni → v ∉ vnis_of ni').
  { intros k ni' v Hk Hin. unfold vnis_of in Hin.
    repeat (apply elem_of_cons in Hin as [->|Hin]); [..|by apply elem_of_nil in Hin];
      by eapply lowest_free_new. }
  assert (Hget : ∀ k x, dget (dset (st_netiso s) (tenant_id_of body) ni) k = Some x →
    (k = tenant_id_of body ∧ x = ni) ∨ dget (st_netiso s) k = Some x).
  { intros k x. rewrite dget_dset. destruct (String.eqb_spec k (tenant_id_of body)) as [->|]; [|by right].
    intros [= <-]. by left. }
  split; cbn.
  - by apply dict_wf_dset.
  - intros k x [[-> ->]|Hk]%Hget; rewrite dget_dset, Hid; [by rewrite String.eqb_refl|].
    destruct (String.eqb _ _); [done|by eapply vn_tenant0].
  - intros k x [[-> ->]|Hk]%Hget; [|by eapply vn_named0]. split; [done|]. by eexists.
  - intros k x [[-> ->]|Hk]%Hget; [|by eapply vn_range0]. destruct Hc, Hg, Ho. done.
  - intros k k' x x' v [[-> ->]|Hk]%Hget [[-> ->]|Hk']%Hget H1 H2; [done|..|by eapply vn_unique0].
    + exfalso. by eapply Hnew.
    + exfalso. by eapply Hnew.
Qed.
Lemma create_tenant_vnis body : Steps (on_store keeps_vnis) (create_tenant body).
Proof.
  intros w Hw. pose proof (create_tenant_run body w) as H. cbv zeta in H.
  assert (Hadd : ∀ t, tn_id t = tenant_id_of body → vnis_ok (with_tenant (w_store w) t)).
  { intros t Ht. destruct Hw. split; cbn; eauto. intros k ni Hk. rewrite dget_dset.
    destruct (String.eqb _ _); [done|by eapply vn_tenant0]. }
  destruct (create_tenant body w) as [[t|e] w']; cbn.
  - destruct H as (Hn & -> & ni & Hni & ->). by apply tenant_added_vnis.
  - destruct H as [(_ & -> & _)|(_ & -> & _)]; [done|by apply Hadd].
Qed.
Ltac vnis_frame := apply steps_upd_store; intros ?; apply keeps_vnis_view; reflexivity.
#[export] Hint Extern 2 (Steps (on_store keeps_vnis) (s_mut _ _ _)) => vnis_frame : steps.
#[export] Hint Extern 2 (Steps (on_store keeps_vnis) (s_set _ _ _)) => vnis_frame : steps.
#[export] Hint Extern 2 (Steps (on_store keeps_vnis) (s_del _ _)) => vnis_frame : steps.
Lemma next_seq_vnis name : Steps (on_store keeps_vnis) (next_seq name).
Proof. intros w. by apply keeps_vnis_view. Qed.
Lemma node_log_vnis nid st d : Steps (on_store keeps_vnis) (node_log nid st d).
Proof. unfold node_log, node_mut. solve_steps. Qed.
Lemma order_log_vnis oid st d : Steps (on_store keeps_vnis) (order_log oid st d).
Proof. unfold order_log, order_mut. solve_steps. Qed.
Lemma set_rack_vnis rid t st m : Steps (on_store keeps_vnis) (set_rack rid t st m).
Proof. unfold set_rack. solve_steps. Qed.
#[local] Hint Resolve next_seq_vnis node_log_vnis order_log_vnis set_rack_vnis : steps.
(** The key of a tenant's IB partition is not a VNI. *)
Lemma set_pkey_vnis k v :
  Steps (on_store keeps_vnis) (s_mut st_netiso k (λ n, n <| ni_ib_pkey := v |>)).
Proof.
  apply steps_upd_store. intros s [].
  assert (Hget : ∀ k' x, dget (dupd (st_netiso s) k (λ n, n <| ni_ib_pkey := v |>)) k' = Some x →
    ∃ y, dget (st_netiso s) k' = Some y ∧ ni_tenant_id x = ni_tenant_id y ∧ ni_vrf x = ni_vrf y
         ∧ vnis_of x = vnis_of y).
  { intros k' x. rewrite dget_dupd. destruct (String.eqb_spec k' k) as [->|]; [|by exists x].
    destruct (dget _ k) as [y|]; [|done]. intros [= <-]. by exists y. }
  split; cbn.
  - by apply dict_wf_dupd.
  - intros k' x (y & Hy & _)%Hget. by eapply vn_tenant0.
  - intros k' x (y & Hy & -> & -> & _)%Hget. by eapply vn_named0.
  - intros k' x (y & Hy & _ & _ & [= -> -> ->])%Hget. by eapply vn_range0.
  - intros k1 k2 x1 x2 u (y1 & H1 & _ & _ & ->)%Hget (y2 & H2 & _ & _ & ->)%Hget.
    by eapply vn_unique0.
Qed.
#[export] Instance vnis_rel : StoreRel keeps_vnis.
Proof.
  split; [apply _|..]; intros; try by solve_steps.
  - apply create_tenant_vnis.
  - unfold create_allocation, resolve_racks, check_conflicts, check_dedicated, _bind_rack. solve_steps.
  - unfold delete_allocation, drop_partitions, _release_rack. solve_steps.
  - unfold create_partition. solve_steps.
  - apply set_pkey_vnis.
  - unfold cpu_mut. solve_steps.
  - unfold cluster_mut. solve_steps.
  - unfold install_mut. solve_steps.
  - unfold advance_node, node_mut. solve_steps.
  - unfold advance_order, order_mut. solve_steps.
  - unfold node_mut. solve_steps.
  - unfold order_mut. solve_steps.
  - unfold open_order. solve_steps.
  - apply node_log_vnis.
  - by apply keeps_vnis_view.
Qed.

(** ** The isolation report *)
Lemma collisions_nil s tid ni :
  vnis_ok s → dget (st_netiso s) tid = Some ni → collisions s tid ni = [].
Proof.
  intros Hv Hni. destruct (collisions s tid ni) as [|x l] eqn:E; [done|]. exfalso.
  assert (x ∈ collisions s tid ni) as Hx by (rewrite E; left).
  apply elem_of_concat_map in Hx as ([k other] & Hin & Hx).
  apply in_dget in Hin; [|apply Hv].
  destruct (String.eqb_spec k tid) as [->|Hne]; [by apply elem_of_nil in Hx|].
  apply elem_of_app in Hx as [Hx|Hx].
  - destruct (vni_overlap ni other) eqn:Ho; [|by apply elem_of_nil in Hx].
    apply anyb_spec in Ho as (v & Hv1 & (v' & Hv2 & ->%Z.eqb_eq)%List.existsb_exists).
    apply list_elem_of_In in Hv2. apply Hne. by eapply (vn_unique _ Hv).
  - destruct (String.eqb_spec (ni_vrf other) (ni_vrf ni)) as [Ev|]; [|by apply elem_of_nil in Hx].
    destruct (vn_named _ Hv _ _ Hin) as (_ & sl & -> & E1).
    destruct (vn_named _ Hv _ _ Hni) as (_ & sl' & -> & E2).
    rewrite E1, E2 in Ev. apply (str_app_inj "VRF-") in Ev as ->. done.
Qed.

(** A rack of another tenant in an SU in which the tenant has an allocation *)
Definition co_tenant (s : Store) (tid rid : string) : Prop :=
  ∃ al su r t, al ∈ allocations_of_tenant s tid ∧ dget (st_sus s) (al_su_id al) = Some su
    ∧ r ∈ racks_of_su s (su_id su) ∧ rk_id r = rid ∧ rk_tenant_id r = Some t ∧ t ≠ tid.
Lemma held_by_other_spec tid r :
  held_by_other tid r = true ↔ ∃ t, rk_tenant_id r = Some t ∧ t ≠ tid.
Proof.
  unfold held_by_other. destruct (rk_tenant_id r) as [o|]; [|split; [done|by intros (t & ? & _)]].
  rewrite negb_true_iff, String.eqb_neq. split; [by exists o|by intros (t & [= ->] & ?)].
Qed.
Lemma shared_racks_spec s tid rid : rid ∈ shared_racks s tid ↔ co_tenant s tid rid.
Proof.
  unfold shared_racks, co_tenant. rewrite elem_of_concat_map. split.
  - intros (al & Hal & Hin). destruct (dget _ _) as [su|] eqn:Hsu; [|by apply elem_of_nil in Hin].
    apply list_elem_of_fmap in Hin as (r & -> & (Hr & (t & Ht & Hne)%held_by_other_spec)%elem_of_filterb).
    by exists al, su, r, t.
  - intros (al & su & r & t & Hal & Hsu & Hr & <- & Ht & Hne). exists al. split; [done|].
    rewrite Hsu. apply list_elem_of_fmap. exists r. split; [done|]. apply elem_of_filterb.
    split; [done|]. apply held_by_other_spec. eauto.
Qed.

(** The findings of severity [fail] *)
Definition fails (l : list IsolationFinding) : bool := anyb (λ f, String.eqb (if_severity f) "fail") l.
Lemma fails_app l l' : fails (l ++ l') = fails l || fails l'.
Proof. apply List.existsb_app. Qed.
Lemma fails_fmap_warn {A} (d : A → string) c l : fails ((λ x, mkFinding "warn" c (d x)) <$> l) = false.
Proof. by induction l. Qed.
Lemma physical_fails s t tid :
  fails [physical_finding s t tid] = true ↔
  tn_isolation_tier t = IT_bare_metal_dedicated ∧ ∃ rid, co_tenant s tid rid.
Proof.
  unfold physical_finding. destruct (bool_decide _) eqn:E.
  - apply bool_decide_eq_true in E. destruct (shared_racks s tid) as [|x l] eqn:Es; cbn.
    + split; [done|]. intros (_ & rid & H%shared_racks_spec). rewrite Es in H.
      by apply elem_of_nil in H.
    + split; [|done]. intros _. split; [done|]. exists x. apply shared_racks_spec. rewrite Es. left.
  - apply bool_decide_eq_false in E. cbn. split; [done|]. by intros [? _].
Qed.
Lemma network_fails s tid :
  vnis_ok s → fails [network_finding s tid] = true ↔ dget (st_netiso s) tid = None.
Proof.
  intros Hv. unfold network_finding. destruct (dget _ tid) as [ni|] eqn:E; [|done].
  by rewrite (collisions_nil s tid ni Hv E).
Qed.
Lemma partition_in_domain s tid p :
  isolated s → p ∈ partitions_of_tenant s tid → p_rack_id p ∈ tenant_racks s tid.
Proof.
  intros [Hb Ht] [Hin <-%String.eqb_eq]%elem_of_filterb.
  apply dvalues_dget in Hin as [k Hk]; [|apply Ht].
  destruct (pt_owner _ Ht _ _ Hk) as (r & Hr & Hten & _).
  apply (b_tenant _ Hb _ _ _ Hr) in Hten as (k' & a & Ha & Hin & Hat).
  apply elem_of_concat_map. exists a. split; [|done]. apply elem_of_filterb.
  split; [by eapply dget_dvalues|]. by apply String.eqb_eq.
Qed.
Lemma partition_fails s tid : isolated s → fails (partition_findings s tid) = false.
Proof.
  intros Hi. unfold partition_findings. rewrite fails_app. apply orb_false_iff. split.
  - destruct (filterb _ _) as [|p l] eqn:E; [done|]. exfalso.
    assert (p ∈ filterb (λ p, negb (memb (p_rack_id p) (tenant_racks s tid)))
                        (partitions_of_tenant s tid)) as Hp by (rewrite E; left).
    apply elem_of_filterb in Hp as [Hp Hn]. apply negb_true_iff, memb_false in Hn.
    by apply Hn, partition_in_domain.
  - by destruct (partitions_of_tenant s tid).
Qed.

Lemma isolation_report_run tid w t :
  isolated (w_store w) → vnis_ok (w_store w) → dget (st_tenants (w_store w)) tid = Some t →
  ∃ rep, isolation_report tid w = (Ok rep, w)
    ∧ (ir_ok rep = true ↔
       is_Some (dget (st_netiso (w_store w)) tid)
       ∧ (tn_isolation_tier t = IT_bare_metal_dedicated → ∀ rid, ¬ co_tenant (w_store w) tid rid)).
Proof.
  intros Hi Hv Ht. unfold isolation_report. run. rewrite Ht. eexists. split; [done|]. cbn [ir_ok].
  fold (fails (isolation_findings (w_store w) t tid)). unfold isolation_findings.
  change (_ :: _ :: _ :: []) with ([mkFinding "pass" "identity" "Tenant-scoped access control in effect."]
    ++ [physical_finding (w_store w) t tid] ++ [network_finding (w_store w) tid]).
  rewrite !fails_app, partition_fails by done. unfold dpu_findings. rewrite fails_fmap_warn.
  rewrite orb_false_r, negb_true_iff. change (fails [mkFinding _ _ _]) with false. rewrite orb_false_l.
  pose proof (physical_fails (w_store w) t tid) as Hp.
  pose proof (network_fails (w_store w) tid Hv) as Hn.
  destruct (fails [physical_finding _ _ _]), (fails [network_finding _ _]); cbn.
  1,2: split; [done|]; intros [_ H]; destruct (proj1 Hp eq_refl) as [Hd [rid Hc]];
    by destruct (H Hd rid).
  - split; [done|]. intros [[x Hx] _]. pose proof (proj1 Hn eq_refl). congruence.
  - split; [|done]. intros _. split.
    + destruct (dget (st_netiso (w_store w)) tid) eqn:E; [by eexists|]. discriminate (proj2 Hn eq_refl).
    + intros Hd rid Hc. discriminate (proj2 Hp). eauto.
Qed.
