(* ===== verification/Compensation.v ===== *)
(** * Compensation always completes

    The saga's rollback: under the invariants of the store, and for any site
    controller that fails only with HTTP errors, [_compensate] never raises, ends
    the order as failed, and leaves neither allocations nor node bindings behind. *)
From Stdlib Require Import QArith.
From stdpp Require Import strings base decidable option numbers list relations.
From S2P Require Import Prelude PyLib Models World NicoSim VastSim StoreOps Adapters Tenancy.
From S2P Require Import Binding Partition StateMachine Placement Saga K8s Handlers Lawful Isolation.
Local Open Scope string_scope.
Local Open Scope list_scope.
Local Open Scope py_scope.
Import Tenancy Saga K8s.

Module Compensation.

(** ** CPU nodes keep usable ids *)
Definition cpus_ok (s : Store) : Prop :=
  ∀ c, c ∈ dvalues (st_cpu_nodes s) → ∃ z, int_suffix (cn_id c) = inl z.
Definition keeps_cpus (s s' : Store) : Prop := cpus_ok s → cpus_ok s'.
#[export] Instance keeps_cpus_preorder : PreOrder keeps_cpus.
Proof. unfold keeps_cpus. split; [by intros s|intros s1 s2 s3; tauto]. Qed.
Lemma cpu_mut_keeps k f :
  (∀ c, cn_id (f c) = cn_id c) → Steps (on_store keeps_cpus) (cpu_mut k f).
Proof.
  intros Hf. apply steps_upd_store. intros s Hs c Hc. cbn in Hc.
  apply dvalues_dupd in Hc as [Hc|(c' & Hc & ->)]; [by apply Hs|]. rewrite Hf. by apply Hs.
Qed.
Lemma keeps_cpus_view s s' : st_cpu_nodes s' = st_cpu_nodes s → keeps_cpus s s'.
Proof. unfold keeps_cpus, cpus_ok. by intros ->. Qed.
Ltac cpus_frame := apply steps_upd_store; intros ?; apply keeps_cpus_view; reflexivity.
#[local] Hint Extern 2 (Steps (on_store keeps_cpus) (s_mut _ _ _)) => cpus_frame : steps.
#[local] Hint Extern 2 (Steps (on_store keeps_cpus) (s_set _ _ _)) => cpus_frame : steps.
#[local] Hint Extern 2 (Steps (on_store keeps_cpus) (s_del _ _)) => cpus_frame : steps.
Lemma next_seq_cpus name : Steps (on_store keeps_cpus) (next_seq name).
Proof. intros w. by apply keeps_cpus_view. Qed.
#[local] Hint Resolve next_seq_cpus : steps.
Lemma node_log_cpus nid st d : Steps (on_store keeps_cpus) (node_log nid st d).
Proof. unfold node_log, node_mut. solve_steps. Qed.
Lemma set_rack_cpus rid t st m : Steps (on_store keeps_cpus) (set_rack rid t st m).
Proof. unfold set_rack. solve_steps. Qed.
#[local] Hint Resolve node_log_cpus set_rack_cpus : steps.
#[export] Instance cpus_rel : StoreRel keeps_cpus.
Proof.
  split; [apply _|..]; intros; try by solve_steps.
  - unfold create_tenant, _alloc_vni. solve_steps.
  - unfold create_allocation, resolve_racks, check_conflicts, check_dedicated, _bind_rack. solve_steps.
  - unfold delete_allocation, drop_partitions, _release_rack. solve_steps.
  - unfold create_partition. solve_steps.
  - by apply cpu_mut_keeps.
  - unfold cluster_mut. solve_steps.
  - unfold install_mut. solve_steps.
  - unfold advance_node, node_log, node_mut. solve_steps.
  - unfold advance_order, order_log, order_mut. solve_steps.
  - unfold node_mut. solve_steps.
  - unfold order_mut. solve_steps.
  - unfold open_order. solve_steps.
  - apply node_log_cpus.
  - by apply keeps_cpus_view.
Qed.

(** ** The invariants together *)
Definition sane (s s' : Store) : Prop := keeps_isolated s s' ∧ lawful s s' ∧ keeps_cpus s s'.
#[export] Instance sane_preorder : PreOrder sane.
Proof.
  unfold sane. split; [by intros s; split_and!|].
  intros s1 s2 s3 (?&?&?) (?&?&?). split_and!; by etransitivity.
Qed.
Lemma steps_sane {A} (m : IO A) :
  Steps (on_store keeps_isolated) m → Steps (on_store lawful) m → Steps (on_store keeps_cpus) m →
  Steps (on_store sane) m.
Proof. intros H1 H2 H3 w. split_and!; [apply H1|apply H2|apply H3]. Qed.
#[export] Instance sane_rel : StoreRel sane.
Proof.
  split; [apply _|..]; intros; try (apply steps_sane; by solve_steps).
  - by apply steps_sane; apply sr_next_seq.
  - by apply steps_sane; apply sr_cpu.
  - by apply steps_sane; apply sr_node.
  - by apply steps_sane; apply sr_order.
  - by apply steps_sane; apply sr_open_order.
  - split_and!; by apply sr_node_log.
  - split_and!; by apply sr_node_new.
Qed.

(** ** Programs that fail only in a given way, as long as an invariant holds *)
Definition Safe {A} (I : World → Prop) (P : exn → Prop) (m : IO A) : Prop :=
  ∀ w, I w → match (m w).1 with Ok _ => True | Raised e => P e end.
Definition keeping (I : World → Prop) : relation World := λ w w', I w → I w'.
#[export] Instance keeping_preorder I : PreOrder (keeping I).
Proof. unfold keeping. split; [by intros w|intros w1 w2 w3; tauto]. Qed.

Section safe.
Context (I : World → Prop) (P : exn → Prop).
Lemma safe_raises {A} (m : IO A) : Raises P m → Safe I P m.
Proof. intros Hm w _. apply Hm. Qed.
Lemma safe_bind {A B} (m : IO A) (f : A → IO B) :
  Safe I P m → Steps (keeping I) m → (∀ a, Safe I P (f a)) → Safe I P (m ≫= f).
Proof.
  intros Hm Hk Hf w Hw. specialize (Hm w Hw). specialize (Hk w Hw). unfold mbind, M_bind.
  destruct (m w) as [[a|e] w']; [by apply Hf|done].
Qed.
Lemma safe_for_each {A} (l : list A) body :
  (∀ x, x ∈ l → Safe I P (body x)) → (∀ x, x ∈ l → Steps (keeping I) (body x)) →
  Safe I P (for_each l body).
Proof.
  induction l as [|x l IH]; intros Hs Hk; [by intros w|].
  apply safe_bind; [apply Hs; left|apply Hk; left|]. intros _.
  apply IH; intros y Hy; [apply Hs|apply Hk]; by right.
Qed.
Lemma safe_try_http {A} (m : IO A) h :
  Safe I (λ e, is_http e ∨ P e) m → Steps (keeping I) m → (∀ c d, Safe I P (h c d)) →
  Safe I P (try_http m h).
Proof.
  intros Hm Hk Hh w Hw. specialize (Hm w Hw). specialize (Hk w Hw). unfold try_http.
  destruct (m w) as [[a|[]] w']; cbn in *; try tauto. by apply Hh.
Qed.
Lemma safe_when b (m : IO unit) : Safe I P m → Safe I P (when b m).
Proof. by destruct b. Qed.
Lemma safe_weaken (P' : exn → Prop) {A} (m : IO A) : (∀ e, P' e → P e) → Safe I P' m → Safe I P m.
Proof. intros H Hm w Hw. specialize (Hm w Hw). destruct (m w).1; auto. Qed.
Lemma safe_idx {V} (p : Store → dict V) k :
  (∀ w, I w → is_Some (dget (p (w_store w)) k)) → Safe I P (s_idx p k).
Proof. intros H w Hw. destruct (H w Hw) as [v Hv]. run. by rewrite Hv. Qed.
End safe.

(** ** Site controllers that fail only with HTTP errors *)
Class AdapterHttp (a : ComputeAdapter) : Prop := {
  ah_unreserve h : Raises is_http (a_unreserve a h);
  ah_release i : Raises is_http (a_release a i);
  ah_abort h : Raises is_http (a_abort_provision a h);
  ah_sanitize h : Raises is_http (a_sanitize a h);
  ah_get_job j : Raises is_http (a_get_job a j);
  ah_delete_segment sg : Raises is_http (a_delete_segment a sg)
}.
#[export] Hint Resolve ah_unreserve ah_release ah_abort ah_sanitize ah_get_job ah_delete_segment : raises.
Lemma raises_wait_job a `{!AdapterHttp a} j : Raises is_http (wait_job a j).
Proof.
  unfold wait_job. generalize 60%nat at 2. intros n. revert j.
  induction n as [|n IH]; intros j; simpl; solve_raises.
Qed.
#[export] Hint Resolve raises_wait_job : raises.

Section nico_http.
Import Nico.
Lemma http_n_get {A} (f : FakeNico → A) : Raises is_http (n_get f).
Proof. apply raises_gets. Qed.
Lemma http_host h : Raises is_http (_host h).
Proof. unfold _host, n_get. solve_raises. Qed.
Lemma http_require h l : Raises is_http (_require h l).
Proof. unfold _require. solve_raises. Qed.
Hint Resolve @http_n_get http_host http_require : raises.
Hint Extern 1 (Raises _ (host_mut _ _)) => apply raises_modify : raises.
Hint Extern 1 (Raises _ (job_mut _ _)) => apply raises_modify : raises.
Lemma http_sanitize_loop h f todo st : Raises is_http (sanitize_loop h f todo st).
Proof. revert st. induction todo; intros; simpl; solve_raises. Qed.
Hint Resolve http_sanitize_loop : raises.
Lemma http_finish j f : Raises is_http (_finish_job j f).
Proof. unfold _finish_job. solve_raises. Qed.
Hint Resolve http_finish : raises.
Lemma http_new_job op h f : Raises is_http (_new_job op h f).
Proof. unfold _new_job, next_nico_seq. solve_raises. Qed.
Lemma http_consume h op : Raises is_http (_consume_failure h op).
Proof. unfold _consume_failure. solve_raises. Qed.
Hint Resolve http_new_job http_consume : raises.
(** The simulator is such a controller. *)
#[export] Instance local_http : AdapterHttp LocalNicoAdapter.
Proof.
  split; intros; simpl.
  - unfold unreserve. solve_raises.
  - unfold release, list_hosts. solve_raises.
  - unfold abort_provision. solve_raises.
  - unfold sanitize. solve_raises.
  - unfold get_job. solve_raises.
  - unfold delete_segment, sample_host, leave_segment. solve_raises.
Qed.
End nico_http.

(** ** What compensation relies on *)
Record ready (oid : string) (nodes : list string) (w : World) : Prop := {
  rd_isolated : isolated (w_store w);
  rd_numbered : orders_numbered (w_store w);
  rd_cpus : cpus_ok (w_store w);
  rd_order : is_Some (dget (st_orders (w_store w)) oid);
  rd_nodes nid : nid ∈ nodes → is_Some (dget (st_node_instances (w_store w)) nid)
}.
(** A part of the store that stays *)
Definition keep {T} (p : Store → T) : relation Store := λ s s', p s' = p s.
#[export] Instance keep_preorder {T} (p : Store → T) : PreOrder (keep p).
Proof. unfold keep. split; [by intros s|intros s1 s2 s3; congruence]. Qed.
Ltac keep_frame := apply steps_upd_store; intros ?; reflexivity.
#[export] Hint Extern 3 (Steps (on_store (keep _)) (s_mut _ _ _)) => keep_frame : steps.
#[export] Hint Extern 3 (Steps (on_store (keep _)) (s_set _ _ _)) => keep_frame : steps.
#[export] Hint Extern 3 (Steps (on_store (keep _)) (s_del _ _)) => keep_frame : steps.

Section compensate.
Context (a : ComputeAdapter) `{!AdapterFrame a} `{!AdapterHttp a} (oid : string) (nodes : list string).
Local Abbreviation I := (ready oid nodes).
Lemma keeps_ready {A} (m : IO A) : Steps (on_store sane) m → Steps (keeping I) m.
Proof.
  intros Hm w []. destruct (Hm w) as (Hi & Hl & Hc). destruct (Hl rd_numbered0) as (Hn & Hnodes & Hords).
  split; [by apply Hi|done|by apply Hc| |].
  - destruct rd_order0 as [o Ho]. destruct (Hords _ _ Ho) as (o' & Ho' & _). by exists o'.
  - intros nid [n Hn']%rd_nodes0. destruct (Hnodes _ _ Hn') as (n' & H & _). by exists n'.
Qed.
Lemma total_teardown sids seg : Total (_teardown_storage_and_segment oid sids seg a).
Proof.
  unfold _teardown_storage_and_segment. simpl. unfold Vast.delete_view, Vast.v_get. solve_raises.
  apply raises_weaken with is_http; [by left|]. solve_raises.
Qed.
Lemma safe_sync t : Safe I (λ _, False) (_sync_cpu_nodes t None).
Proof.
  intros w Hw. unfold _sync_cpu_nodes. rewrite (bind_ok store _ w (w_store w) w eq_refl).
  cbv beta zeta. destruct (negb _).
  - apply (raises_bind (λ _, False)); [|intros; apply raises_ret].
    apply raises_for_each. intros x _. cbv beta. unfold cpu_mut. solve_raises.
  - set (l := take _ _). assert (∀ c, c ∈ l → ∃ z, int_suffix (cn_id c) = inl z) as Hl.
    { intros c Hc. eapply elem_of_sublist in Hc; [|apply sublist_take].
      apply elem_of_filterb in Hc as [Hc _]. by apply (rd_cpus _ _ _ Hw). }
    clearbody l. apply (raises_bind (λ _, False)); [|intros; apply raises_ret].
    apply raises_for_each. intros c Hc. destruct (Hl c Hc) as [z Hz]. unfold bind_cpu, cpu_mut. rewrite Hz.
    solve_raises.
Qed.
Lemma safe_advance_node nid to d : nid ∈ nodes → Safe I is_http (advance_node nid to d).
Proof.
  intros Hin. unfold advance_node. apply safe_bind.
  - apply safe_idx. intros w Hw. by apply (rd_nodes _ _ _ Hw).
  - apply keeps_ready. solve_steps.
  - intros n. apply safe_raises. unfold node_log, node_mut. solve_raises.
Qed.
Lemma safe_node_of nid : nid ∈ nodes → Safe I is_http (node_of nid).
Proof. intros Hin. apply safe_idx. intros w Hw. by apply (rd_nodes _ _ _ Hw). Qed.

#[local] Hint Resolve handler_node_of handler_order_of : steps.
Ltac safe_step :=
  cbv beta zeta;
  lazymatch goal with
  | |- Safe _ _ (advance_node _ _ _) => by apply safe_advance_node
  | |- Safe _ _ (node_of _) => by apply safe_node_of
  | |- Safe _ _ (_ ≫= _) => apply safe_bind; [|apply keeps_ready; solve_steps|intros ?]
  | |- Safe _ _ (match ?x with _ => _ end) => destruct x
  | |- Safe _ _ _ => apply safe_raises; solve [unfold node_log, node_mut; solve_raises]
  end.
Lemma safe_rollback_node nid : nid ∈ nodes → Safe I is_http (rollback_node a nid).
Proof. intros Hin. unfold rollback_node. repeat safe_step. Qed.
Lemma safe_rollback_failed nid d : nid ∈ nodes → Safe I (λ _, False) (rollback_failed nid d).
Proof.
  intros Hin w Hw. destruct (rd_nodes _ _ _ Hw nid Hin) as [n Hn].
  unfold rollback_failed, node_of, advance_node, node_log, node_mut. run. rewrite Hn. cbn.
  destruct (node_allowed (n_state n) NS_cordoned) eqn:Ha; [|done]. run. rewrite Hn. cbn. by rewrite Ha.
Qed.

(** *** What each part leaves alone *)
Lemma keep_orders_teardown sids seg :
  Steps (on_store (keep st_orders)) (_teardown_storage_and_segment oid sids seg a).
Proof. unfold _teardown_storage_and_segment. simpl. solve_steps. Qed.
Lemma keep_orders_delete aid : Steps (on_store (keep st_orders)) (delete_allocation aid).
Proof. unfold delete_allocation, drop_partitions, _release_rack, set_rack. solve_steps. Qed.
Lemma keep_sync {T} (p : Store → T) t :
  (∀ k f s, p (s <| st_cpu_nodes ::= λ d, dupd d k f |>) = p s) →
  Steps (on_store (keep p)) (_sync_cpu_nodes t None).
Proof.
  intros Hp. assert (∀ k f, Steps (on_store (keep p)) (cpu_mut k f)) as Hc.
  { intros k f. apply steps_upd_store. intros s. apply Hp. }
  unfold _sync_cpu_nodes, bind_cpu. solve_steps.
Qed.
(** The rollback of nodes moves nodes, and nothing else of the store. *)
Lemma keep_rollback {T} (p : Store → T) nid :
  (∀ k f s, p (s <| st_node_instances ::= λ d, dupd d k f |>) = p s) →
  Steps (on_store (keep p))
    (try_http (rollback_node a nid) (λ _ detail, rollback_failed nid detail) ;;
     node_mut nid (λ n, n <| n_tenant_id := None |> <| n_order_id := None |>)).
Proof.
  intros Hp. assert (∀ k f, Steps (on_store (keep p)) (node_mut k f)) as Hn.
  { intros k f. apply steps_upd_store. intros s. apply Hp. }
  unfold rollback_node, rollback_failed, advance_node, node_log, node_of. solve_steps.
Qed.

(** *** The loop that deletes the allocations of the order *)
Definition drop_allocation (aid : string) : IO unit :=
  s ← store; when (dmem (st_allocations s) aid) (delete_allocation aid ≫= λ _, mret tt).
Lemma drop_allocation_run aid w :
  binding (w_store w) →
  ∃ w', drop_allocation aid w = (Ok tt, w')
    ∧ (∀ k, dget (st_allocations (w_store w)) k = None → dget (st_allocations (w_store w')) k = None)
    ∧ dget (st_allocations (w_store w')) aid = None.
Proof.
  intros Hb. unfold drop_allocation. run. destruct (dmem _ aid) eqn:Hm; cbn.
  - apply dmem_spec in Hm as [al Hal]. pose proof (delete_allocation_run aid w Hb) as H.
    destruct (delete_allocation aid w) as [[r|e] w'] eqn:E; [|destruct H as (H & _); congruence].
    destruct H as (al' & Hal' & _ & (_ & _ & Ea & _) & _).
    exists w'. split; [done|]. rewrite Ea, (b_named _ Hb _ _ Hal'). split.
    + intros k Hk. destruct (dget (ddel _ _) k) eqn:Ek; [|done].
      apply dget_ddel_Some in Ek as [_ Ek]; [congruence|apply Hb].
    + apply dget_ddel_eq, Hb.
  - exists w. apply dmem_false in Hm. by split_and!.
Qed.
Lemma drop_allocations_run aids w :
  isolated (w_store w) →
  ∃ w', for_each aids drop_allocation w = (Ok tt, w')
    ∧ (∀ k, dget (st_allocations (w_store w)) k = None → dget (st_allocations (w_store w')) k = None)
    ∧ ∀ k, k ∈ aids → dget (st_allocations (w_store w')) k = None.
Proof.
  revert w. induction aids as [|aid aids IH]; intros w Hi; cbn [for_each].
  { exists w. split_and!; try done. intros k Hk. by apply elem_of_nil in Hk. }
  destruct (drop_allocation_run aid w) as (w1 & E & Hk & Ha); [apply Hi|].
  assert (isolated (w_store w1)) as Hi1.
  { assert (KeepsIsolated (drop_allocation aid)) as Hd by (unfold drop_allocation; solve_steps).
    specialize (Hd w Hi). by rewrite E in Hd. }
  destruct (IH w1 Hi1) as (w2 & E2 & Hk2 & Ha2). exists w2. rewrite (bind_ok _ _ _ _ _ E).
  split_and!; [done|auto|]. intros k [->|Hin]%elem_of_cons; auto.
Qed.

(** *** The loop over the nodes *)
Definition unbound (k : string) (s : Store) : Prop :=
  ∀ n, dget (st_node_instances s) k = Some n → n_tenant_id n = None ∧ n_order_id n = None.
Definition keeps_unbound (k : string) (s s' : Store) : Prop := unbound k s → unbound k s'.
#[export] Instance keeps_unbound_preorder k : PreOrder (keeps_unbound k).
Proof. unfold keeps_unbound. split; [by intros s|intros s1 s2 s3; tauto]. Qed.
Lemma unbound_node_mut k nid f :
  (∀ n, n_tenant_id n = None ∧ n_order_id n = None → n_tenant_id (f n) = None ∧ n_order_id (f n) = None) →
  Steps (on_store (keeps_unbound k)) (node_mut nid f).
Proof.
  intros Hf. apply steps_upd_store. intros s Hs n. cbn. rewrite dget_dupd.
  destruct (String.eqb_spec k nid) as [->|]; [|apply Hs].
  destruct (dget _ nid) as [n'|] eqn:E; [|done]. intros [= <-]. by apply Hf, Hs.
Qed.
#[local] Hint Extern 2 (Steps (on_store (keeps_unbound _)) (node_mut _ _)) =>
  apply unbound_node_mut; intros [] [? ?]; split; first [assumption|reflexivity] : steps.
Definition roll_back (nid : string) : IO unit :=
  try_http (rollback_node a nid) (λ _ detail, rollback_failed nid detail) ;;
  node_mut nid (λ n, n <| n_tenant_id := None |> <| n_order_id := None |>).
Lemma unbound_roll_back k nid : Steps (on_store (keeps_unbound k)) (roll_back nid).
Proof.
  unfold roll_back, rollback_node, rollback_failed, advance_node, node_log, node_of. solve_steps.
Qed.
Lemma sane_roll_back nid : Steps (on_store sane) (roll_back nid).
Proof.
  pose proof (handler_rollback_node sane a). pose proof (handler_rollback_failed sane).
  unfold roll_back. solve_steps.
Qed.
Lemma safe_roll_back nid : nid ∈ nodes → Safe I (λ _, False) (roll_back nid).
Proof.
  intros Hin. unfold roll_back. apply safe_bind.
  - apply safe_try_http.
    + eapply safe_weaken; [|by apply safe_rollback_node]. by left.
    + apply keeps_ready, (handler_rollback_node sane a).
    + intros _ d. by apply safe_rollback_failed.
  - apply keeps_ready. pose proof (handler_rollback_node sane a). pose proof (handler_rollback_failed sane).
    solve_steps.
  - intros _. apply safe_raises, raises_modify.
Qed.
Lemma roll_back_unbinds nid w :
  (roll_back nid w).1 = Ok tt → unbound nid (w_store (roll_back nid w).2).
Proof.
  unfold roll_back, mbind, M_bind. destruct (try_http _ _ w) as [[[]|e] w1]; [|done]. intros _ n.
  cbn. rewrite dget_dupd_eq. destruct (dget _ nid); [|done]. cbn. by intros [= <-].
Qed.
Lemma roll_backs_run l w :
  l ⊆ nodes → I w →
  ∃ w', for_each l roll_back w = (Ok tt, w') ∧ ∀ k, k ∈ l → unbound k (w_store w').
Proof.
  revert w. induction l as [|nid l IH]; intros w Hl Hw; cbn [for_each].
  { exists w. split; [done|]. intros k Hk. by apply elem_of_nil in Hk. }
  pose proof (safe_roll_back nid (Hl _ (list_elem_of_here _ _)) w Hw) as Hs.
  destruct ((roll_back nid w).1) as [[]|e] eqn:E; [|done].
  pose proof (roll_back_unbinds nid w E) as Hu. apply ok_run in E.
  destruct (IH (roll_back nid w).2) as (w' & E' & Hk).
  { intros x Hx. apply Hl. by right. }
  { by apply (keeps_ready _ (sane_roll_back nid)). }
  exists w'. rewrite (bind_ok _ _ _ _ _ E). split; [done|].
  intros k [->|Hin]%elem_of_cons; [|by apply Hk].
  assert (Steps (on_store (keeps_unbound nid)) (for_each l roll_back)) as Hkeep.
  { apply steps_for_each; [apply _|]. intros x _. apply unbound_roll_back. }
  specialize (Hkeep (roll_back nid w).2 Hu). by rewrite E' in Hkeep.
Qed.

(** *** The whole of it *)
Lemma advance_order_run k to d w o :
  dget (st_orders (w_store w)) k = Some o → order_allowed (o_state o) to = true →
  ∃ w' ev, advance_order k to d w = (Ok tt, w')
    ∧ dget (st_orders (w_store w')) k = Some (o <| o_state := to |> <| o_history ::= λ l, l ++ [ev] |>)
    ∧ st_allocations (w_store w') = st_allocations (w_store w)
    ∧ st_node_instances (w_store w') = st_node_instances (w_store w).
Proof.
  intros Ho Ha. unfold advance_order, order_log, order_mut. run. rewrite Ho. cbn. rewrite Ha.
  eexists _, _. split; [done|]. cbn. rewrite !dget_dupd_eq, Ho. done.
Qed.
(** A part that does not raise, in the invariant and away from the orders *)
Lemma run_part {A} (m : IO A) w :
  I w → Safe I (λ _, False) m → Steps (on_store sane) m →
  ∃ x w', m w = (Ok x, w') ∧ I w' ∧ (Steps (on_store (keep st_orders)) m →
                                     st_orders (w_store w') = st_orders (w_store w)).
Proof.
  intros Hw Hs Hk. specialize (Hs w Hw). pose proof (keeps_ready m Hk w Hw) as Hw'.
  destruct (m w) as [[x|e] w'] eqn:E; [|done]. exists x, w'. split_and!; [done|done|].
  intros Ho. specialize (Ho w). by rewrite E in Ho.
Qed.
Lemma order_mut_run f w o :
  I w → dget (st_orders (w_store w)) oid = Some o → harmless_order f →
  ∃ w', order_mut oid f w = (Ok tt, w') ∧ I w' ∧ dget (st_orders (w_store w')) oid = Some (f o)
    ∧ st_allocations (w_store w') = st_allocations (w_store w)
    ∧ st_node_instances (w_store w') = st_node_instances (w_store w).
Proof.
  intros Hw Ho Hf. eexists. split; [done|]. split.
  - refine (keeps_ready (order_mut oid f) _ w Hw). by apply sr_order.
  - cbn. by rewrite dget_dupd_eq, Ho.
Qed.
Definition tail_of (aids : list string) (tid reason : string) : IO ServiceOrder :=
  for_each aids drop_allocation ;;
  order_mut oid (λ o, o <| o_allocation_ids := [] |>) ;;
  _sync_cpu_nodes tid None ≫= λ _,
  for_each nodes roll_back ;;
  advance_order oid OS_failed reason ;;
  order_mut oid (λ o, o <| o_error := Some reason |>) ;;
  order_of oid.
(** How a compensated order and the store end *)
Record compensated (aids : list string) (reason : string) (w' : World) (o' : ServiceOrder) : Prop := {
  cm_order : dget (st_orders (w_store w')) oid = Some o';
  cm_state : o_state o' = OS_failed;
  cm_error : o_error o' = Some reason;
  cm_allocs : o_allocation_ids o' = [];
  cm_segment : o_segment_id o' = None;
  cm_deleted aid : aid ∈ aids → dget (st_allocations (w_store w')) aid = None;
  cm_unbound nid : nid ∈ nodes → unbound nid (w_store w');
  cm_isolated : isolated (w_store w')
}.
Lemma tail_run aids tid reason w o :
  I w → dget (st_orders (w_store w)) oid = Some o → o_state o = OS_compensating →
  o_segment_id o = None →
  ∃ o' w', tail_of aids tid reason w = (Ok o', w') ∧ compensated aids reason w' o'.
Proof.
  intros Hw Ho Hst Hseg. unfold tail_of.
  (* the allocations *)
  destruct (drop_allocations_run aids w (rd_isolated _ _ _ Hw)) as (w1 & E1 & _ & Hgone).
  rewrite (bind_ok _ _ _ _ _ E1).
  assert (Steps (on_store (keep st_orders)) (for_each aids drop_allocation)) as Hk1.
  { pose proof keep_orders_delete. unfold drop_allocation. solve_steps. }
  assert (Steps (on_store sane) (for_each aids drop_allocation)) as Hs1
    by (unfold drop_allocation; solve_steps).
  specialize (Hk1 w). pose proof (keeps_ready _ Hs1 w Hw) as Hw1. rewrite E1 in Hk1, Hw1.
  unfold on_store, keep in Hk1. cbn in Hk1, Hw1. rewrite <-Hk1 in Ho.
  destruct (order_mut_run (λ o, o <| o_allocation_ids := [] |>) w1 o Hw1 Ho)
    as (w2 & E2 & Hw2 & Ho2 & Ea2 & _); [by intros []|]. rewrite (bind_ok _ _ _ _ _ E2).
  (* the CPU nodes *)
  destruct (run_part (_sync_cpu_nodes tid None) w2 Hw2 (safe_sync tid) (handler_sync_cpu sane tid None))
    as (x & w3 & E3 & Hw3 & K3). rewrite (bind_ok _ _ _ _ _ E3).
  specialize (K3 (keep_sync st_orders tid (λ _ _ _, eq_refl))). rewrite <-K3 in Ho2.
  pose proof (keep_sync st_allocations tid (λ _ _ _, eq_refl) w2) as Ea3. rewrite E3 in Ea3.
  (* the nodes *)
  destruct (roll_backs_run nodes w3 (reflexivity _) Hw3) as (w4 & E4 & Hun). rewrite (bind_ok _ _ _ _ _ E4).
  assert (∀ T (p : Store → T), (∀ k f s, p (s <| st_node_instances ::= λ d, dupd d k f |>) = p s) →
            p (w_store w4) = p (w_store w3)) as Hk4.
  { intros T p Hp. assert (Steps (on_store (keep p)) (for_each nodes roll_back)) as H.
    { apply steps_for_each; [apply _|]. intros y _. by apply keep_rollback. }
    specialize (H w3). by rewrite E4 in H. }
  assert (Steps (on_store sane) (for_each nodes roll_back)) as Hs4
    by (apply steps_for_each; [apply _|]; intros; apply sane_roll_back).
  pose proof (keeps_ready _ Hs4 w3 Hw3) as Hw4. rewrite E4 in Hw4. cbn in Hw4.
  rewrite <-(Hk4 _ st_orders (λ _ _ _, eq_refl)) in Ho2.
  (* the end of the order *)
  destruct (advance_order_run oid OS_failed reason w4 _ Ho2) as (w5 & ev & E5 & Ho5 & Ea5 & En5);
    [cbn; by rewrite Hst|]. rewrite (bind_ok _ _ _ _ _ E5).
  pose proof (keeps_ready _ (sr_advance_order oid OS_failed reason) w4 Hw4) as Hw5. rewrite E5 in Hw5.
  destruct (order_mut_run (λ o, o <| o_error := Some reason |>) w5 _ Hw5 Ho5)
    as (w6 & E6 & Hw6 & Ho6 & Ea6 & En6); [by intros []|]. rewrite (bind_ok _ _ _ _ _ E6).
  eexists _, w6. split; [unfold order_of; run; by rewrite Ho6|]. split; try done.
  - intros aid Hin. rewrite Ea6, Ea5, (Hk4 _ st_allocations (λ _ _ _, eq_refl)).
    unfold on_store, keep in Ea3. cbn in Ea3. rewrite Ea3, Ea2. by apply Hgone.
  - intros nid Hin n. rewrite En6, En5. by apply Hun.
  - apply Hw6.
Qed.
Lemma compensate_run reason w o :
  I w → dget (st_orders (w_store w)) oid = Some o → order_allowed (o_state o) OS_compensating = true →
  ∃ o' w', _compensate oid nodes a reason w = (Ok o', w')
           ∧ compensated (o_allocation_ids o) reason w' o'.
Proof.
  intros Hw Ho Ha. unfold _compensate.
  destruct (advance_order_run oid OS_compensating ("saga: " +:+ reason) w o Ho Ha)
    as (w1 & ev & E1 & Ho1 & _ & _).
  assert (I w1) as Hw1.
  { pose proof (keeps_ready _ (sr_advance_order oid OS_compensating ("saga: " +:+ reason)) w Hw) as H.
    by rewrite E1 in H. }
  rewrite (bind_ok _ _ _ _ _ E1).
  assert (order_of oid w1 = (Ok (o <| o_state := OS_compensating |> <| o_history ::= λ l, l ++ [ev] |>), w1)) as Eo.
  { unfold order_of. run. by rewrite Ho1. }
  rewrite (bind_ok _ _ _ _ _ Eo). clear Eo.
  destruct (run_part (_teardown_storage_and_segment oid (o_storage_ids o) (o_segment_id o) a) w1)
    as ([] & w2 & E2 & Hw2 & K2); [done|apply safe_raises, total_teardown|apply (handler_teardown sane a)|].
  cbn [o_storage_ids o_segment_id]. rewrite (bind_ok _ _ _ _ _ E2).
  specialize (K2 (keep_orders_teardown _ _)). rewrite <-K2 in Ho1.
  destruct (order_mut_run (λ o, o <| o_segment_id := None |>) w2 _ Hw2 Ho1)
    as (w3 & E3 & Hw3 & Ho3 & _ & _); [by intros []|].
  rewrite (bind_ok _ _ _ _ _ E3).
  exact (tail_run (o_allocation_ids o) (o_tenant_id o) reason w3 _ Hw3 Ho3 eq_refl eq_refl).
Qed.
End compensate.
End Compensation.
