(* ===== verification/Api.v ===== *)
(** * The control plane as a machine that serves requests

    One constructor per mutating route of the modelled components (and per
    background thread that runs to its end), served as the routers do.  A request
    may fail; its effects up to the failure stay. *)
From Stdlib Require Import QArith.
From stdpp Require Import strings base decidable option numbers list relations.
From S2P Require Import Prelude PyLib Models World NicoSim Adapters Tenancy StateMachine Saga.
From S2P Require Import K8s Orders Reclaim Reconcile Day2 Handlers Lawful Demo.
Local Open Scope string_scope.
Local Open Scope list_scope.
Local Open Scope py_scope.

Module Api.

Inductive request :=
  | R_create_tenant (body : TenantCreate)
  | R_create_allocation (body : AllocationCreate)
  | R_delete_allocation (alloc_id : string)
  | R_create_partition (body : PartitionCreate)
  | R_isolation_report (tenant_id : string)
  | R_create_order (body : OrderCreate)
  | R_approve_order (order_id : string)
  | R_reject_order (order_id reason : string)
  | R_install_k8s_addon (body : Day2.AddonBody)
  | R_reconcile
  | R_bootstrap
  | R_thread (t : BgInstall).

Definition ignore {A} (m : IO A) : IO unit := m ≫= λ _, mret tt.

Section serve.
Context (http_adapter : string → ComputeAdapter).

Definition serve (r : request) : IO unit :=
  match r with
  | R_create_tenant b => ignore (Tenancy.create_tenant b)
  | R_create_allocation b => ignore (Tenancy.create_allocation b)
  | R_delete_allocation a => ignore (Tenancy.delete_allocation a)
  | R_create_partition b => ignore (Tenancy.create_partition b)
  | R_isolation_report t => ignore (Tenancy.isolation_report t)
  | R_create_order b => ignore (Reclaim.create_order http_adapter b)
  | R_approve_order o => ignore (Reclaim.approve_order http_adapter o)
  | R_reject_order o reason => ignore (Reclaim.reject_order http_adapter o reason)
  | R_install_k8s_addon b =>
      a ← get_adapter http_adapter; ignore (Day2.install_k8s_addon a b)
  | R_reconcile => ignore (Reconcile.run_reconcile http_adapter)
  | R_bootstrap => a ← get_adapter http_adapter; ignore (bootstrap_nodes a)
  | R_thread t =>
      a ← get_adapter http_adapter;
      if bg_day2 t then Day2.bg_addon (bg_order t) (bg_install t) a
      else K8s.bg_install (bg_order t) (bg_install t) a
  end.

(** The world after a sequence of requests, each of which may have failed *)
Definition serve_all (rs : list request) (w : World) : World := foldl (λ w r, (serve r w).2) w rs.

Lemma serve_all_steps (R : relation World) `{!PreOrder R} rs :
  (∀ r, Steps R (serve r)) → ∀ w, R w (serve_all rs w).
Proof.
  intros HR. induction rs as [|r rs IH]; intros w; cbn; [reflexivity|].
  etransitivity; [apply HR|apply IH].
Qed.

Context `{!∀ url, AdapterFrame (http_adapter url)}.

Lemma ignore_steps {A} R `{!PreOrder R} (m : IO A) : Steps R m → Steps R (ignore m).
Proof. unfold ignore. intros. solve_steps. Qed.

(** Every request moves the store along any relation that the primitive updates
    respect. *)
Lemma serve_steps R `{!StoreRel R} r : Steps (on_store R) (serve r).
Proof.
  destruct r; cbn [serve].
  all: try (apply ignore_steps; [apply _|solve [eauto with steps]]).
  - apply ignore_steps; [apply _|]. by apply handler_isolation_report, _.
  - apply ignore_steps; [apply _|]. unfold Reclaim.create_order. apply with_adapter; [assumption|].
    intros a Ha. destruct (oc_kind body);
      [apply (handler_run_new R); apply _| | |by apply (handler_run_terminate R)]; solve_steps.
  - apply ignore_steps; [apply _|]. apply with_adapter; [assumption|]. intros a Ha.
    apply (handler_approve R); apply _.
  - apply ignore_steps; [apply _|]. apply with_adapter; [assumption|]. intros a Ha.
    apply (handler_reject_fulfillment R); apply _.
  - apply with_adapter; [assumption|]. intros a Ha. apply ignore_steps; [apply _|]. by apply (handler_day2 R).
  - apply ignore_steps; [apply _|]. apply with_adapter; [assumption|]. intros a Ha.
    by apply (handler_reconcile R).
  - apply with_adapter; [assumption|]. intros a Ha. apply ignore_steps; [apply _|]. by apply (handler_bootstrap R).
  - apply with_adapter; [assumption|]. intros a Ha.
    destruct (bg_day2 t); [by apply (handler_bg_addon R)|by apply (handler_bg R)].
Qed.
Lemma serve_all_rel R `{!StoreRel R} rs w : R (w_store w) (w_store (serve_all rs w)).
Proof. apply (serve_all_steps (on_store R)). intros r. by apply serve_steps. Qed.
End serve.

End Api.

(** ** The life of nodes and orders *)
Module Lifecycle.
Import Api.

(** A node in one of these states carries a tenant's workload or data. *)
Definition tenant_held (s : NodeLifecycleState) : bool :=
  match s with
  | NS_allocated | NS_in_service | NS_cordoned | NS_draining | NS_releasing => true
  | _ => false
  end.
Definition final_order (s : OrderState) : bool :=
  match s with OS_closed | OS_rejected | OS_failed => true | _ => false end.
Definition orders_in (w : World) := st_orders (w_store w).
Definition nodes_in (w : World) := st_node_instances (w_store w).

Lemma held_exit a b :
  node_step a b → tenant_held a = true → tenant_held b = true ∨ b = NS_sanitizing.
Proof. unfold node_step. destruct a, b; vm_compute; auto; discriminate. Qed.
Lemma path_from_final (P : OrderState → bool) o l o' :
  (∀ a b, P a = true → order_step a b → False) → order_path o l o' → P o = true → o' = o.
Proof. intros HP. induction 1; intros; auto. exfalso. eauto. Qed.
Lemma final_stuck a b : final_order a = true → order_step a b → False.
Proof. unfold order_step. destruct a, b; vm_compute; discriminate. Qed.

Section requests.
Context (http_adapter : string → ComputeAdapter) `{!∀ url, AdapterFrame (http_adapter url)}.

(** C3: Whatever sequence of the twelve requests of the order pipeline and the
    tenancy service above ([request]; the acceptance of a delivery is not among
    them) is served, and whether or not they succeed, no node and no order
    disappears or changes its identity; each of them only moves along its
    transition table; and the entries its history gains are exactly the path it
    took (with repetitions of a state where a handler only logs). *)
Theorem requests_lawful rs w :
  orders_numbered (w_store w) →
  let w' := serve_all http_adapter rs w in
  orders_numbered (w_store w')
  ∧ entries node_evolves (nodes_in w) (nodes_in w')
  ∧ entries order_evolves (orders_in w) (orders_in w').
Proof.
  intros Hw. exact (serve_all_rel http_adapter lawful rs w Hw).
Qed.

(** The states allocated, in service, cordoned, draining and releasing are left only
    through sanitizing: if any of these requests take a node out of them (to the free
    pool in particular), then its history has gained a [sanitizing] entry on the way.
    This is about the node's state; the tenant field of an allocated node may be
    cleared without it ([Findings.early_termination_strands_nodes]). *)
Theorem held_states_end_sanitized rs w nid n n' :
  orders_numbered (w_store w) →
  dget (nodes_in w) nid = Some n → tenant_held (n_state n) = true →
  dget (nodes_in (serve_all http_adapter rs w)) nid = Some n' → tenant_held (n_state n') = false →
  ∃ l, states_of (n_history n') = states_of (n_history n) ++ l ∧ "sanitizing" ∈ l.
Proof.
  intros Hw Hn Hs Hn' Hs'.
  destruct (serve_all_rel http_adapter lawful rs w Hw) as (_ & He & _). destruct (He nid n Hn) as (n2 & Hn2 & Hev).
  unfold nodes_in in Hn'. rewrite Hn2 in Hn'. injection Hn' as ->.
  destruct (ne_path _ _ Hev) as (l & El & Hp). exists l. split; [done|].
  change "sanitizing" with (NodeLifecycleState_value NS_sanitizing).
  eapply (hist_path_through _ _ (λ s, tenant_held s = true) NS_sanitizing); [|exact Hp|done|].
  - apply held_exit.
  - by rewrite Hs'.
Qed.

(** A closed, rejected or failed order is final: no sequence of requests
    changes its state or adds a different state to its history. *)
Theorem final_order_stays rs w oid o :
  orders_numbered (w_store w) →
  dget (orders_in w) oid = Some o → final_order (o_state o) = true →
  ∃ o', dget (orders_in (serve_all http_adapter rs w)) oid = Some o' ∧ o_state o' = o_state o.
Proof.
  intros Hw Ho Hf.
  destruct (serve_all_rel http_adapter lawful rs w Hw) as (_ & _ & He). destruct (He oid o Ho) as (o' & Ho' & Hev).
  exists o'. split; [done|]. destruct (oe_path _ _ Hev) as (l & _ & Hp).
  by eapply path_from_final; [apply final_stuck| |].
Qed.
End requests.

(** ** On the concrete site *)
Definition demo_http (_ : string) : ComputeAdapter := LocalNicoAdapter.
Lemma booted_numbered : orders_numbered (w_store Demo.with_tenants).
Proof. split; [vm_compute; discriminate|]. intros n _. reflexivity. Qed.
Lemma delivered_numbered : orders_numbered (w_store Demo.delivered).
Proof.
  unfold Demo.delivered, Demo.world_after.
  by apply (handler_run_new lawful LocalNicoAdapter (Demo.order_body "tnt-acme" 2 true false) Demo.with_tenants),
    booted_numbered.
Qed.
Definition reclaim_request : list request :=
  [R_create_order (Demo.terminate_body "tnt-acme" "alloc-1"); R_reconcile].

Lemma requests_lawful_witness :
  orders_numbered (w_store (serve_all demo_http reclaim_request Demo.delivered)).
Proof.
  exact (proj1 (requests_lawful demo_http reclaim_request Demo.delivered delivered_numbered)).
Defined.

Definition node_dummy : NodeInstance :=
  mkNode EmptyString EmptyString EmptyString EmptyString EmptyString EmptyString None None None
    NS_rma [].
Definition demo_nid : string := "ni-su-1-rack-00-tray-00".
Definition node_at (w : World) : NodeInstance := default node_dummy (dget (nodes_in w) demo_nid).
Local Abbreviation after_reclaim := (serve_all demo_http reclaim_request Demo.delivered).
Lemma node_before : dget (nodes_in Demo.delivered) demo_nid = Some (node_at Demo.delivered).
Proof. vm_compute. reflexivity. Qed.
Lemma node_after : dget (nodes_in after_reclaim) demo_nid = Some (node_at after_reclaim).
Proof. vm_compute. reflexivity. Qed.
Lemma node_before_state : n_state (node_at Demo.delivered) = NS_in_service.
Proof. vm_compute. reflexivity. Qed.
Lemma node_after_state : n_state (node_at after_reclaim) = NS_pool_ready.
Proof. vm_compute. reflexivity. Qed.
Lemma held_states_end_sanitized_witness :
  ∃ l, states_of (n_history (node_at after_reclaim))
       = states_of (n_history (node_at Demo.delivered)) ++ l ∧ "sanitizing" ∈ l.
Proof.
  apply (held_states_end_sanitized demo_http reclaim_request Demo.delivered demo_nid
           (node_at Demo.delivered) (node_at after_reclaim) delivered_numbered node_before).
  - rewrite node_before_state. reflexivity.
  - exact node_after.
  - rewrite node_after_state. reflexivity.
Defined.

Definition order_dummy : ServiceOrder :=
  Orders.new_order EmptyString (Demo.order_body EmptyString 0 false false) EmptyString.
Definition reclaimed_order : ServiceOrder :=
  default order_dummy (dget (orders_in Demo.reclaimed) "ord-2").
Lemma reclaimed_numbered : orders_numbered (w_store Demo.reclaimed).
Proof.
  unfold Demo.reclaimed, Demo.world_after.
  by apply (handler_run_terminate lawful LocalNicoAdapter (Demo.terminate_body "tnt-acme" "alloc-1")
              Demo.delivered), delivered_numbered.
Qed.
Lemma reclaimed_order_eq : dget (orders_in Demo.reclaimed) "ord-2" = Some reclaimed_order.
Proof. vm_compute. reflexivity. Qed.
Lemma reclaimed_order_closed : o_state reclaimed_order = OS_closed.
Proof. vm_compute. reflexivity. Qed.
Lemma final_order_stays_witness :
  ∃ o', dget (orders_in (serve_all demo_http [R_approve_order "ord-2"; R_reconcile] Demo.reclaimed))
          "ord-2" = Some o' ∧ o_state o' = o_state reclaimed_order.
Proof.
  apply (final_order_stays demo_http _ Demo.reclaimed "ord-2" reclaimed_order
           reclaimed_numbered reclaimed_order_eq).
  rewrite reclaimed_order_closed. reflexivity.
Defined.

End Lifecycle.
