(* ===== verification/TenancyThms.v ===== *)
(** * Tenant isolation: the theorems

    What the multi-tenancy service promises, operation by operation, and that
    every sequence of requests to the control plane keeps the promise. *)
From Stdlib Require Import QArith Ascii.
From stdpp Require Import strings base decidable option numbers list relations.
From S2P Require Import Prelude PyLib Models World Spec StoreOps Adapters SharedSvc Tenancy Binding Partition.
From S2P Require Import Saga Orders Handlers Isolation Demo Api.
Local Open Scope string_scope.
Local Open Scope list_scope.
Local Open Scope py_scope.
Import Tenancy.

Module Isolation.

(** ** The operations *)

(** C19: Creating an allocation succeeds exactly when the tenant and the scalable
    unit exist, the racks asked for are well formed for the scope, none of them
    is in an allocation, and a bare-metal-dedicated tenant would share its SU
    with nobody.  It then records the allocation under the next number and binds
    exactly those racks to the tenant; otherwise it fails with an HTTP error and
    changes nothing. *)
Theorem create_allocation_spec body w :
  binding (w_store w) →
  match create_allocation body w with
  | (Ok a, w') => ∃ t su, may_allocate (w_store w) body t su (al_rack_ids a)
      ∧ a = new_alloc body t su (al_rack_ids a) (alloc_count (w_store w) + 1)
      ∧ allocated (w_store w) (w_store w') a
  | (Raised e, w') => is_http e ∧ w' = w ∧ ∀ t su rids, ¬ may_allocate (w_store w) body t su rids
  end.
Proof.
  intros Hb. pose proof (create_allocation_run body w Hb) as H.
  destruct (create_allocation body w) as [[a|e] w']; [|done].
  destruct H as (t & su & ? & ? & ? & _). eauto.
Qed.

(** C20: Deleting an allocation removes it, returns exactly its racks to the pool
    (no tenant, ready), and drops exactly the tenant's NVLink partitions on those
    racks; an unknown allocation is a 404 that changes nothing. *)
Theorem delete_allocation_spec aid w :
  isolated (w_store w) →
  match delete_allocation aid w with
  | (Ok r, w') => ∃ a, dget (st_allocations (w_store w)) aid = Some a ∧ r = (aid, al_rack_ids a)
      ∧ deallocated (w_store w) (w_store w') a
      ∧ ∀ k p, dget (st_partitions (w_store w')) k = Some p ↔
          dget (st_partitions (w_store w)) k = Some p
          ∧ ¬ (p_rack_id p ∈ al_rack_ids a ∧ p_tenant_id p = al_tenant_id a)
  | (Raised e, w') => dget (st_allocations (w_store w)) aid = None ∧ w' = w
      ∧ e = HTTPException 404 ("allocation '" +:+ aid +:+ "' not found")
  end.
Proof.
  intros [Hb Ht]. pose proof (delete_allocation_run aid w Hb) as H.
  destruct (delete_allocation aid w) as [[r|e] w']; [|done].
  destruct H as (a & Ha & Hr & Hd & Hp & _). exists a. split_and!; [done..|].
  apply (Hp (pt_keyed _ Ht)).
Qed.

(** C39: Deleting the allocation that was just created undoes it: it succeeds, the
    allocation table is what it was, and every rack is as it was before, except
    that the racks of the allocation end unbound and ready. *)
Theorem delete_undoes_create body w a w1 :
  binding (w_store w) → create_allocation body w = (Ok a, w1) →
  ∃ w2, delete_allocation (al_id a) w1 = (Ok (al_id a, al_rack_ids a), w2)
    ∧ st_allocations (w_store w2) = st_allocations (w_store w)
    ∧ ∀ k, dget (st_racks (w_store w2)) k
           = if memb k (al_rack_ids a) then bind_of None HW_ready <$> dget (st_racks (w_store w)) k
             else dget (st_racks (w_store w)) k.
Proof.
  intros Hb E. pose proof (create_allocation_run body w Hb) as H.
  pose proof (create_allocation_keeps body w Hb) as Hb1. rewrite E in H, Hb1. cbn in Hb1.
  destruct H as (_ & _ & _ & _ & (Ec & Eid & _ & Ea & Er) & _).
  pose proof (delete_allocation_run (al_id a) w1 Hb1) as Hd.
  assert (dget (st_allocations (w_store w1)) (al_id a) = Some a) as Ha
    by by rewrite Ea, dget_dset_eq.
  destruct (delete_allocation (al_id a) w1) as [[r|e] w2]; [|destruct Hd; congruence].
  destruct Hd as (a' & Ha' & -> & (_ & _ & Ea2 & Er2) & _).
  assert (a' = a) as -> by congruence. exists w2. split; [done|]. split.
  - rewrite Ea2, Ea. apply ddel_dset_fresh. rewrite Eid. apply (b_fresh _ Hb). lia.
  - intros k. rewrite Er2, Er. destruct (memb k _); [|done]. by destruct (dget _ k).
Qed.

(** Binding a rack reaches everything under it: the rack, its trays, their
    GPUs and their DPUs get the tenant, the state and the DPU mode, and every
    other rack, tray, GPU and DPU of the site stays as it is. *)
Theorem bind_rack_reaches rid tid mode w r :
  dget (st_racks (w_store w)) rid = Some r →
  let s := w_store w in
  ∃ w', _bind_rack rid tid mode w = (Ok tt, w')
    ∧ mapped (bind_of (Some tid) HW_allocated) [rid] (st_racks s) (st_racks (w_store w'))
    ∧ mapped (bind_tray (Some tid)) (rk_tray_ids r) (st_trays s) (st_trays (w_store w'))
    ∧ mapped (bind_gpu (Some tid) HW_allocated) (gpus_under s (rk_tray_ids r))
        (st_gpus s) (st_gpus (w_store w'))
    ∧ mapped (bind_dpu (Some tid) mode) (dpus_under s (rk_tray_ids r))
        (st_dpus s) (st_dpus (w_store w')).
Proof. intros Hr. by apply set_rack_devices. Qed.

(** A VNI is the lowest free number of its fabric's range; the allocation fails
    with 507 exactly when every number of the range is in use, and it changes
    nothing either way. *)
Theorem alloc_vni_spec fabric lo hi w :
  dget Spec.VNI_RANGES fabric = Some (lo, hi) →
  (∃ v, _alloc_vni fabric w = (Ok v, w) ∧ lowest_free (w_store w) lo hi v)
  ∨ (∃ d, _alloc_vni fabric w = (Raised (HTTPException 507 d), w) ∧ exhausted (w_store w) lo hi).
Proof. apply alloc_vni_run. Qed.

(** *** Creating a tenant *)
(** The maximal runs of lower-case letters and digits *)
Definition in_word (x : string) : bool := match x with String d _ => slug_char d | EmptyString => false end.
Fixpoint words (x : string) : list string :=
  match x with
  | EmptyString => []
  | String c x' =>
      if slug_char c then
        match words x' with
        | w :: ws => if in_word x' then String c w :: ws else String c EmptyString :: w :: ws
        | [] => [String c EmptyString]
        end
      else words x'
  end.
(** The words of the name in lower case, with a dash between them *)
Definition slug_of (name : string) : string := String.concat "-" (words (lower name)).
Lemma slug_char_dash c : slug_char c = true → Ascii.eqb c "-"%char = false.
Proof. intros H. destruct (Ascii.eqb_spec c "-"%char) as [->|]; [discriminate H|done]. Qed.
Lemma words_nonempty x w : w ∈ words x → w ≠ EmptyString.
Proof.
  induction x as [|c x IH]; cbn; [by intros ?%elem_of_nil|]. destruct (slug_char c); [|done].
  destruct (words x) as [|v ws]; [by intros ->%list_elem_of_singleton|].
  destruct (in_word x); rewrite elem_of_cons; intros [->|Hw]; try done; apply IH; [by right|done].
Qed.
Lemma concat_empty l : (∀ w, w ∈ l → w ≠ EmptyString) → String.concat "-" l = EmptyString → l = [].
Proof.
  destruct l as [|w l]; [done|]. intros Hw. assert (w ≠ EmptyString) as Hn by (apply Hw; left).
  destruct w as [|c w]; [done|]. by destruct l.
Qed.
Lemma concat_cons c w ws : String.concat "-" (String c w :: ws) = String c (String.concat "-" (w :: ws)).
Proof. by destruct ws. Qed.
Lemma rstrip_slug c x : slug_char c = true → rstrip (String c x) = String c (rstrip x).
Proof. intros H%slug_char_dash. cbn. rewrite H. by destruct (rstrip x). Qed.
Lemma rstrip_dash x : rstrip (String "-"%char x) = match rstrip x with EmptyString => EmptyString | r => String "-"%char r end.
Proof. done. Qed.
Lemma runs_words x : rstrip (sub_runs true x) = String.concat "-" (words x).
Proof.
  induction x as [|c x IH]; [done|]. cbn [sub_runs words]. destruct (slug_char c) eqn:Ec; [|done].
  rewrite rstrip_slug by done. destruct x as [|d x]; [done|].
  cbn [sub_runs in_word] in IH |- *. destruct (slug_char d) eqn:Ed.
  - rewrite IH. destruct (words (String d x)) as [|v ws]; [done|]. by rewrite concat_cons.
  - rewrite rstrip_dash, IH. destruct (words (String d x)) as [|v ws] eqn:Ew; [done|].
    rewrite concat_cons. f_equal. change (String.concat "-" (EmptyString :: v :: ws)) with (String "-"%char (String.concat "-" (v :: ws))).
    destruct (String.concat "-" (v :: ws)) eqn:E; [|done].
    apply concat_empty in E; [done|]. intros w Hw. apply (words_nonempty (String d x)). by rewrite Ew.
Qed.
Lemma lstrip_runs x : lstrip (sub_runs true x) = sub_runs true x ∧ lstrip (sub_runs false x) = sub_runs true x.
Proof.
  induction x as [|c x [IH1 IH2]]; [done|]. cbn [sub_runs]. destruct (slug_char c) eqn:Ec.
  - cbn. by rewrite slug_char_dash.
  - by split.
Qed.
Lemma slug_eq name : _slug name = slug_of name.
Proof. unfold _slug, strip, slug_of. by rewrite (proj2 (lstrip_runs _)), runs_words. Qed.
(** A VNI that some network binding uses, on whichever fabric *)
Definition taken (s : Store) (v : Z) : Prop :=
  ∃ ni, ni ∈ dvalues (st_netiso s) ∧ v ∈ [ni_compute_l3vni ni; ni_converged_vni ni; ni_oob_vni ni].
Definition first_untaken (s : Store) (lo hi v : Z) : Prop :=
  (lo ≤ v ≤ hi)%Z ∧ ¬ taken s v ∧ ∀ u, (lo ≤ u < v)%Z → taken s u.
Definition all_taken (s : Store) (lo hi : Z) : Prop := ∀ u, (lo ≤ u ≤ hi)%Z → taken s u.
Lemma taken_spec s v : v ∈ used_vnis s ↔ taken s v.
Proof. apply elem_of_concat_map. Qed.
Lemma first_untaken_eq s lo hi v : lowest_free s lo hi v ↔ first_untaken s lo hi v.
Proof. unfold lowest_free, first_untaken. by setoid_rewrite taken_spec. Qed.
Lemma all_taken_eq s lo hi : exhausted s lo hi ↔ all_taken s lo hi.
Proof. unfold exhausted, all_taken. by setoid_rewrite taken_spec. Qed.
(** The realm of a tenant, made if there is none *)
Record own_realm (tid name : string) (r : IamRealm) : Prop := {
  or_realm : rm_realm r = tid ∧ rm_display r = name ∧ rm_state r = "active";
  or_roles : rm_roles r = ["tenant-admin"; "ops-operator"; "viewer"];
  or_client : ∃ c, rm_clients r = [c] ∧ cl_client_id c = tid +:+ "-portal" ∧ cl_kind c = "portal"
    ∧ cl_mfa c = true ∧ cl_state c = "active"
}.
Definition realm_made (tid name : string) (old new : dict IamRealm) : Prop :=
  match dget old tid with
  | Some _ => new = old
  | None => ∃ r, own_realm tid name r ∧ new = dset old tid r
  end.
Lemma realm_run tid name w :
  realm_made tid name (sh_realms (w_shared w)) (sh_realms (w_shared (Shared.create_realm tid name w).2)).
Proof.
  unfold realm_made, Shared.create_realm, Shared.x_get. run. destruct (dget (sh_realms (w_shared w)) tid) eqn:E; [done|].
  run. eexists. split; [|reflexivity]. split; [done|done|]. eexists. by split_and!.
Qed.
Lemma tenant_realm body w t w' :
  create_tenant body w = (Ok t, w') →
  realm_made ("tnt-" +:+ _slug (tc_name body)) (tc_name body) (sh_realms (w_shared w)) (sh_realms (w_shared w')).
Proof.
  unfold create_tenant. run. destruct (dmem _ _); [done|]. set (w1 := w <| w_store ::= _ |>).
  destruct (alloc_vni_run "compute" 10000 19999 w1 eq_refl) as [(c & -> & _)|(d & -> & _)]; [|done].
  destruct (alloc_vni_run "converged" 20000 29999 w1 eq_refl) as [(v & -> & _)|(d & -> & _)]; [|done].
  destruct (alloc_vni_run "oob" 30000 39999 w1 eq_refl) as [(o & -> & _)|(d & -> & _)]; [|done].
  match goal with |- context [Shared.create_realm ?t ?n ?x] => set (w2 := x); pose proof (realm_run t n w2) as H end.
  destruct (Shared.create_realm _ _ w2) as [[r|e] w3]; [|done]. intros [= _ <-]. exact H.
Qed.
(** The network binding of a new tenant *)
Record bound_network (s : Store) (slug : string) (ni : NetworkIsolation) : Prop := {
  bn_tenant : ni_tenant_id ni = "tnt-" +:+ slug;
  bn_vrf : ni_vrf ni = "VRF-" +:+ slug;
  bn_compute : first_untaken s 10000 19999 (ni_compute_l3vni ni);
  bn_converged : first_untaken s 20000 29999 (ni_converged_vni ni);
  bn_oob : first_untaken s 30000 39999 (ni_oob_vni ni)
}.

(** C6: Creating a tenant records it, as asked for, under the slug of its name (the
    runs of letters and digits of the name in lower case, joined by dashes), binds
    it to a network made of the lowest VNI of each fabric's range that no binding
    uses, and makes its realm with the three roles and the portal client unless the
    realm exists; a second tenant of the same slug is a 409 that changes nothing;
    and when a range is used up the 507 leaves the tenant behind without a network
    binding. *)
Theorem create_tenant_spec body w :
  let s := w_store w in
  let tid := "tnt-" +:+ slug_of (tc_name body) in
  let t := mkTenant tid (tc_name body) (tc_isolation_tier body) (tc_sla_tier body) (tc_notes body) in
  match create_tenant body w with
  | (Ok r, w') => dget (st_tenants s) tid = None ∧ r = t
      ∧ (∃ ni, bound_network s (slug_of (tc_name body)) ni
           ∧ w_store w' = s <| st_tenants ::= λ d, dset d tid t |> <| st_netiso ::= λ d, dset d tid ni |>)
      ∧ realm_made tid (tc_name body) (sh_realms (w_shared w)) (sh_realms (w_shared w'))
  | (Raised e, w') =>
      (is_Some (dget (st_tenants s) tid) ∧ w' = w ∧ ∃ d, e = HTTPException 409 d)
      ∨ (dget (st_tenants s) tid = None ∧ w_store w' = s <| st_tenants ::= λ d, dset d tid t |>
         ∧ (∃ d, e = HTTPException 507 d)
         ∧ (all_taken s 10000 19999 ∨ all_taken s 20000 29999 ∨ all_taken s 30000 39999))
  end.
Proof.
  intros s tid t. subst s tid t. rewrite <- slug_eq. pose proof (create_tenant_run body w) as H.
  pose proof (tenant_realm body w) as Hr.
  destruct (create_tenant body w) as [[r|e] w']; [|by rewrite <- !all_taken_eq].
  destruct H as (Hd & -> & ni & [H1 H2 H3 H4 H5] & Ew). split_and!; [done|done| |by eapply Hr].
  exists ni. split; [|done]. apply first_untaken_eq in H3, H4, H5. by split.
Qed.

(** C21: A partition is created exactly on a rack bound to the requesting tenant,
    from trays of that rack that are in no partition; it gets the next number of
    the rack, the rest of the world stays, and the partition invariant holds
    afterwards. *)
Theorem create_partition_spec body w :
  isolated (w_store w) →
  match create_partition body w with
  | (Ok p, w') => ∃ r, may_partition (w_store w) body r ∧ p = new_partition (w_store w) body r
      ∧ w' = w <| w_store ::= λ s, s <| st_partitions ::= λ d, dset d (p_id p) p |> |>
      ∧ dget (st_partitions (w_store w)) (p_id p) = None ∧ isolated (w_store w')
  | (Raised e, w') => is_http e ∧ w' = w ∧ ∀ r, ¬ may_partition (w_store w) body r
  end.
Proof.
  intros Hi. pose proof (create_partition_run body w) as H.
  pose proof (create_partition_isolated body w Hi) as Hi'.
  destruct (create_partition body w) as [[p|e] w']; [|done].
  destruct H as (r & Hm & -> & ->). exists r. split_and!; try done. by apply new_name_fresh, Hi.
Qed.

(** C23: The isolation report tells the truth: on a store that satisfies the
    isolation invariants it is [ok] exactly when the tenant has a network binding
    and, if it is bare-metal-dedicated, no rack of another tenant stands in an SU
    in which it has an allocation. *)
Theorem isolation_report_spec tid w t :
  isolated (w_store w) → vnis_ok (w_store w) → dget (st_tenants (w_store w)) tid = Some t →
  ∃ rep, isolation_report tid w = (Ok rep, w)
    ∧ (ir_ok rep = true ↔
       is_Some (dget (st_netiso (w_store w)) tid)
       ∧ (tn_isolation_tier t = IT_bare_metal_dedicated → ∀ rid, ¬ co_tenant (w_store w) tid rid)).
Proof. apply isolation_report_run. Qed.

(** ** The control plane as a whole *)

(** Whatever requests are served, with whatever outcome and whatever
    site controller, the isolation invariants hold afterwards if they held
    before: no rack is in two allocations and a rack carries the tenant of the
    allocation that holds it and no other, every NVLink partition lies on racks
    and trays of its tenant and no tray is in two partitions, and no VNI belongs
    to two tenants. *)
Theorem requests_isolated (http_adapter : string → ComputeAdapter)
    `{!∀ url, AdapterFrame (http_adapter url)} rs w :
  isolated (w_store w) → vnis_ok (w_store w) →
  let w' := Api.serve_all http_adapter rs w in isolated (w_store w') ∧ vnis_ok (w_store w').
Proof.
  intros Hi Hv. split.
  - exact (Api.serve_all_rel http_adapter keeps_isolated rs w Hi).
  - exact (Api.serve_all_rel http_adapter keeps_vnis rs w Hv).
Qed.

(** ** On the concrete site *)
(** A store without allocations, partitions and network bindings is isolated when
    its racks are unbound and its SUs name racks that exist. *)
Definition unbound_site (s : Store) : bool :=
  allb (λ '(k, r), String.eqb (rk_id r) k && bool_decide (rk_tenant_id r = None)) (st_racks s)
  && allb (λ '(_, su), allb (dmem (st_racks s)) (su_rack_ids su)) (st_sus s)
  && bool_decide (st_allocations s = []) && bool_decide (st_partitions s = [])
  && bool_decide (st_netiso s = []) && (alloc_count s =? 0)%Z.
Lemma unbound_site_ok s : unbound_site s = true → isolated s ∧ vnis_ok s.
Proof.
  unfold unbound_site. rewrite !andb_true_iff. intros [[[[[Hr Hs] Ha] Hp] Hn] Hc].
  apply bool_decide_eq_true in Ha, Hp, Hn. apply Z.eqb_eq in Hc.
  assert (Hrack : ∀ k r, dget (st_racks s) k = Some r → rk_id r = k ∧ rk_tenant_id r = None).
  { intros k r Hk%dget_Some_in. rewrite allb_spec in Hr. specialize (Hr (k, r) Hk).
    apply andb_true_iff in Hr as [?%String.eqb_eq ?%bool_decide_eq_true]. done. }
  assert (Hno : ∀ k rid t, ¬ holds s k rid t).
  { intros k rid t (a & H & _). by rewrite Ha in H. }
  split; [split|].
  - split; rewrite ?Ha; try done; try apply dict_wf_nil.
    + by rewrite Hc.
    + intros k r Hk. by apply Hrack.
    + intros k su rid Hk%dget_Some_in Hin. rewrite allb_spec in Hs. specialize (Hs (k, su) Hk).
      cbn in Hs. rewrite allb_spec in Hs. by apply dmem_spec, Hs.
    + intros k rid t H. by destruct (Hno k rid t).
    + intros k k' rid t t' H. by destruct (Hno k rid t).
    + intros rid r t Hk. destruct (Hrack _ _ Hk) as [_ ->]. split; [done|]. intros [k H].
      by destruct (Hno k rid t).
  - split; unfold parts_keyed, partitions_of_rack; rewrite ?Hp; try done.
    all: split; [apply dict_wf_nil|done].
  - split; rewrite ?Hn; try done; apply dict_wf_nil.
Qed.

Lemma demo_isolated :
  (isolated (w_store Demo.with_tenants) ∧ vnis_ok (w_store Demo.with_tenants))
  ∧ isolated (w_store Demo.delivered) ∧ vnis_ok (w_store Demo.delivered).
Proof.
  assert (isolated (w_store Demo.booted) ∧ vnis_ok (w_store Demo.booted)) as [Hi Hv].
  { apply unbound_site_ok. vm_compute. reflexivity. }
  assert (∀ R `{!StoreRel R}, R (w_store Demo.booted) (w_store Demo.with_tenants)) as Hten.
  { intros R HR. unfold Demo.with_tenants, Demo.world_after.
    apply (steps_bind (on_store R)); [apply sr_create_tenant|intros; apply sr_create_tenant]. }
  assert (∀ R `{!StoreRel R}, R (w_store Demo.with_tenants) (w_store Demo.delivered)) as Hdel.
  { intros R HR. unfold Demo.delivered, Demo.world_after.
    apply (handler_run_new R LocalNicoAdapter). }
  pose proof (Hten keeps_isolated _ Hi) as Hi1. pose proof (Hten keeps_vnis _ Hv) as Hv1.
  split; [by split|].
  split; [exact (Hdel keeps_isolated _ Hi1)|exact (Hdel keeps_vnis _ Hv1)].
Qed.
Definition tenants_isolated := proj1 (proj1 demo_isolated).
Definition tenants_vnis := proj2 (proj1 demo_isolated).
Definition delivered_isolated := proj1 (proj2 demo_isolated).
Definition delivered_vnis := proj2 (proj2 demo_isolated).

Local Abbreviation site := Demo.with_tenants.
Definition demo_request : AllocationCreate :=
  mkAllocCreate "tnt-acme" SC_rack_set "su-1" (Some ["su-1-rack-00"]) None.
Definition demo_alloc : Allocation :=
  mkAlloc "alloc-1" "tnt-acme" SC_rack_set "su-1" ["su-1-rack-00"] DPU_dpu HW_allocated.
Local Abbreviation demo_allocated := (snd (create_allocation demo_request site)).
Lemma demo_create : create_allocation demo_request site = (Ok demo_alloc, demo_allocated).
Proof. apply ok_run. vm_compute. reflexivity. Qed.
Lemma demo_allocated_isolated : isolated (w_store demo_allocated).
Proof. exact (create_allocation_isolated demo_request site tenants_isolated). Qed.

Lemma create_allocation_spec_witness :
  ∃ t su, may_allocate (w_store site) demo_request t su ["su-1-rack-00"].
Proof.
  pose proof (create_allocation_spec demo_request site (proj1 tenants_isolated)) as H.
  rewrite demo_create in H. destruct H as (t & su & Hm & _). exists t, su. exact Hm.
Defined.
Local Abbreviation demo_released := (snd (delete_allocation "alloc-1" demo_allocated)).
Lemma demo_delete :
  delete_allocation "alloc-1" demo_allocated = (Ok ("alloc-1", ["su-1-rack-00"]), demo_released).
Proof. apply ok_run. vm_compute. reflexivity. Qed.
Lemma delete_allocation_spec_witness :
  ∃ a, dget (st_allocations (w_store demo_allocated)) "alloc-1" = Some a
       ∧ deallocated (w_store demo_allocated) (w_store demo_released) a.
Proof.
  pose proof (delete_allocation_spec "alloc-1" demo_allocated demo_allocated_isolated) as H.
  rewrite demo_delete in H. destruct H as (a & Ha & _ & Hd & _). exists a. split; [exact Ha|exact Hd].
Defined.
Lemma delete_undoes_create_witness :
  ∃ w2, delete_allocation "alloc-1" demo_allocated = (Ok ("alloc-1", ["su-1-rack-00"]), w2)
    ∧ st_allocations (w_store w2) = st_allocations (w_store site).
Proof.
  destruct (delete_undoes_create demo_request site demo_alloc demo_allocated (proj1 tenants_isolated)
              demo_create) as (w2 & E & Ea & _).
  exists w2. split; [exact E|exact Ea].
Defined.

Definition demo_rack : Rack := default (mkRack EmptyString EmptyString 0 EmptyString EmptyString
  EmptyString EmptyString EmptyString 0 0 EmptyString [] [] HW_ready None)
  (dget (st_racks (w_store site)) "su-1-rack-00").
Lemma demo_rack_eq : dget (st_racks (w_store site)) "su-1-rack-00" = Some demo_rack.
Proof. vm_compute. reflexivity. Qed.
Lemma bind_rack_reaches_witness :
  ∃ w', _bind_rack "su-1-rack-00" "tnt-acme" DPU_dpu site = (Ok tt, w')
    ∧ mapped (bind_gpu (Some "tnt-acme") HW_allocated)
        (gpus_under (w_store site) (rk_tray_ids demo_rack))
        (st_gpus (w_store site)) (st_gpus (w_store w')).
Proof.
  destruct (bind_rack_reaches "su-1-rack-00" "tnt-acme" DPU_dpu site demo_rack demo_rack_eq)
    as (w' & E & _ & _ & Hg & _).
  exists w'. split; [exact E|exact Hg].
Defined.

(** Two tenants hold the first two numbers. *)
Lemma alloc_vni_spec_witness :
  (∃ v, _alloc_vni "compute" site = (Ok v, site) ∧ lowest_free (w_store site) 10000 19999 v)
  ∨ (∃ d, _alloc_vni "compute" site = (Raised (HTTPException 507 d), site)
          ∧ exhausted (w_store site) 10000 19999).
Proof. apply (alloc_vni_spec "compute" 10000 19999). reflexivity. Defined.

Definition demo_partition_request : PartitionCreate :=
  mkPartCreate "su-1-rack-00" "tnt-acme" ["su-1-rack-00-tray-00"].
Definition demo_partition : NVLinkPartition :=
  mkPart "su-1-rack-00-part-1" "su-1-rack-00" 1 ["su-1-rack-00-tray-00"] "tnt-acme" HW_allocated.
Local Abbreviation demo_partitioned :=
  (snd (create_partition demo_partition_request demo_allocated)).
Lemma demo_partition_eq :
  create_partition demo_partition_request demo_allocated = (Ok demo_partition, demo_partitioned).
Proof. apply ok_run. vm_compute. reflexivity. Qed.
Lemma create_partition_spec_witness :
  ∃ r, may_partition (w_store demo_allocated) demo_partition_request r
       ∧ isolated (w_store demo_partitioned).
Proof.
  pose proof (create_partition_spec demo_partition_request demo_allocated demo_allocated_isolated) as H.
  rewrite demo_partition_eq in H. destruct H as (r & Hm & _ & _ & _ & Hi).
  exists r. split; [exact Hm|exact Hi].
Defined.

Definition demo_tenant : Tenant := mkTenant "tnt-acme" "Acme" IT_bare_metal_dedicated "gold" None.
Lemma demo_tenant_eq : dget (st_tenants (w_store Demo.delivered)) "tnt-acme" = Some demo_tenant.
Proof. vm_compute. reflexivity. Qed.
Lemma isolation_report_spec_witness :
  ∃ rep, isolation_report "tnt-acme" Demo.delivered = (Ok rep, Demo.delivered).
Proof.
  destruct (isolation_report_spec "tnt-acme" Demo.delivered demo_tenant delivered_isolated
              delivered_vnis demo_tenant_eq) as (rep & E & _).
  exists rep. exact E.
Defined.

Lemma requests_isolated_witness :
  isolated (w_store (Api.serve_all Lifecycle.demo_http Lifecycle.reclaim_request Demo.delivered)).
Proof.
  exact (proj1 (requests_isolated Lifecycle.demo_http Lifecycle.reclaim_request Demo.delivered
                  delivered_isolated delivered_vnis)).
Defined.
End Isolation.
