(* ===== verification/NicoThms.v ===== *)
(** * The site controller: the theorems *)
From Stdlib Require Import QArith.
From stdpp Require Import strings base decidable option numbers list relations.
From S2P Require Import Prelude PyLib Models World NicoSim NicoMachine Adapters Polling Demo.
Local Open Scope string_scope.
Local Open Scope list_scope.
Local Open Scope py_scope.
Import Nico NicoMachine Polling.

Module SiteController.

(** C7: The simulated site controller refines the host state machine.  The requests
    ([NicoMachine.request]) are the operations on hosts, jobs and segments and the
    injection of failures; the endpoints that add or delete a host, overwrite its
    state or set the configuration are not among them.
    While no job is pending, each request, whatever its outcome, performs at most
    one transition of one host, so any sequence of requests is a run of the
    machine; and it keeps the invariant. *)
Theorem nico_refines_machine rs w :
  nico_ok (w_nico w) →
  rtc nico_step (w_nico w) (w_nico (serve_all rs w)) ∧ nico_ok (w_nico (serve_all rs w)).
Proof. apply serve_all_refines. Qed.

(** The invariant spelled out: after any of these requests, a host in the free pool (or in any state but
    allocated) carries no instance and no tenant; an allocated host carries both;
    and no instance id is carried by two hosts. *)
Theorem hosts_are_exclusive rs w :
  nico_ok (w_nico w) →
  let hosts := nc_hosts (w_nico (serve_all rs w)) in
  (∀ k h, dget hosts k = Some h →
     if bool_decide (h_state h = HS_allocated)
     then is_Some (h_instance_id h) ∧ is_Some (h_tenant_ref h)
     else h_instance_id h = None ∧ h_tenant_ref h = None)
  ∧ ∀ k k' h h' i, dget hosts k = Some h → dget hosts k' = Some h' →
      h_instance_id h = Some i → h_instance_id h' = Some i → k = k'.
Proof.
  intros Hw hosts. destruct (serve_all_refines rs w Hw) as [_ Hn].
  assert (Hv : ∀ k h, dget hosts k = Some h → hv (w_nico (serve_all rs w)) k = Some (h_id h, view_of h))
    by (intros k h Hk; unfold hv; subst hosts; by rewrite Hk).
  split.
  - intros k h Hk. exact (no_carries _ Hn k _ _ (Hv k h Hk)).
  - intros k k' h h' i Hk Hk' Hi Hi'. by eapply (no_unique _ Hn _ _ _ _ _ _ i (Hv k h Hk) (Hv k' h' Hk')).
Qed.

(** Sanitizing a released host: the host goes back to the pool attested and
    wiped (no image, no address) with a report of seven passed steps, unless a
    failure was injected; then it goes to RMA and the report stops at the failed
    attestation.  No other host changes. *)
Theorem sanitize_spec hid h w :
  quiet (w_nico w) → well_keyed (w_nico w) →
  dget (nc_hosts (w_nico w)) hid = Some h → h_state h = HS_released →
  let fail := memb "sanitize" (default [] (dget (nc_fail_flags (w_nico w)) hid)) in
  ∃ j w', sanitize hid w = (Ok j, w')
    ∧ j_state j = (if fail then "failed" else "succeeded")
    ∧ host_update hid h
        (λ h, if fail then h <| h_state := HS_rma |>
              else h <| h_state := HS_pool_ready |> <| h_attested := true |> <| h_image_ref := None |>
                     <| h_host_ip := EmptyString |>)
        (nc_hosts (w_nico w)) (nc_hosts (w_nico w'))
    ∧ dget (nc_sanitize_reports (w_nico w')) hid
        = Some (mkSanitize hid (negb fail) (sanitize_steps fail)).
Proof.
  intros Hq Hk Hh Hs fail. pose proof (Hk _ _ Hh) as Hid.
  assert (triple (w_nico w) (sanitize hid) (λ r n', ∃ j, r = Ok j
    ∧ j_state j = (if fail then "failed" else "succeeded")
    ∧ host_update hid h
        (λ h, if fail then h <| h_state := HS_rma |>
              else h <| h_state := HS_pool_ready |> <| h_attested := true |> <| h_image_ref := None |>
                     <| h_host_ip := EmptyString |>) (nc_hosts (w_nico w)) (nc_hosts n')
    ∧ dget (nc_sanitize_reports n') hid
        = Some (mkSanitize hid (negb fail) (sanitize_steps fail)))) as H.
  { unfold sanitize. triple_run. rewrite Hh. triple_run.
    assert (in_states (h_state h) [HS_released] = true) as -> by by rewrite Hs. triple_run.
    apply triple_consume. intros b flags Hb. cbn in Hb.
    assert (b = fail) as ->.
    { unfold fail. destruct b, (memb _ _) eqn:E; try done.
      - apply memb_false in E. by destruct E; apply Hb.
      - by apply memb_spec, Hb in E. }
    set (n1 := _ <| nc_fail_flags := flags |>).
    assert (Hup : host_update hid h (λ x, x <| h_state := HS_sanitizing |>)
                    (nc_hosts (w_nico w)) (nc_hosts n1)) by one_update.
    eapply triple_mono; [eapply (new_job_spec n1 "sanitize" h (h <| h_state := HS_sanitizing |>))|].
    - by apply (quiet_jobs (w_nico w)).
    - by right; right.
    - rewrite Hid. apply Hup.
    - done.
    - intros r n2 (j & -> & [Hu Hj _ _ Hr]). exists j. cbn in Hu, Hr. rewrite Hid in Hu, Hr.
      split_and!; [done|done| |by apply Hr].
      destruct Hup as (A1 & A2 & A3 & A4), Hu as (B1 & B2 & B3 & B4). split_and!; [done| | |by auto].
      + rewrite B2. by destruct fail.
      + intros k Hne. by rewrite B3, A3. }
  specialize (H w eq_refl). destruct H as (j & E & H). exists j, (sanitize hid w).2.
  split; [by apply ok_run|exact H].
Qed.

(** C37: Waiting for a job that needs [p] more polls ends: with fewer than 60 polls
    the wait returns the finished job and the host shows its effect; with 60 or
    more it fails with 504, also for exactly 60, where the job is finished by the
    last poll but the result is not looked at. *)
Theorem wait_job_spec j h p w :
  pending (w_nico w) j h (Z.of_nat p) → (0 < p)%nat →
  let r := wait_job LocalNicoAdapter j w in
  if (p <? 60)%nat then ∃ j', r.1 = Ok j' ∧ settled (w_nico r.2) j h j'
  else (∃ d, r.1 = Raised (HTTPException 504 d)) ∧ (p = 60%nat → ∃ j', settled (w_nico r.2) j h j').
Proof. intros Hp H0. exact (wait_loop_spec 60 60 p (w_nico w) j h Hp H0 w eq_refl). Qed.

(** ** On the concrete site *)
Definition nico_ok_check (n : FakeNico) : bool :=
  (nc_job_latency n <=? 0)%Z && bool_decide (nc_jobs n = []) && bool_decide (NoDup (dkeys (nc_hosts n)))
  && allb (λ '(k, h), String.eqb (h_id h) k && negb (bool_decide (h_state h = HS_allocated))
                      && bool_decide (h_instance_id h = None) && bool_decide (h_tenant_ref h = None))
       (nc_hosts n).
Lemma nico_ok_check_ok n : nico_ok_check n = true → nico_ok n.
Proof.
  unfold nico_ok_check. rewrite !andb_true_iff, !bool_decide_eq_true, allb_spec.
  intros [[[Hl%Z.leb_le Hj] Hd] Hh].
  assert (∀ k i v, hv n k = Some (i, v) → i = k ∧ v_state v ≠ HS_allocated ∧ v_instance v = None
                                          ∧ v_tenant v = None) as Hv.
  { intros k i v Hk. unfold hv in Hk. destruct (dget _ k) as [h|] eqn:E; [|done].
    injection Hk as <- <-. specialize (Hh (k, h) (dget_Some_in _ _ _ E)).
    rewrite !andb_true_iff, negb_true_iff, bool_decide_eq_false, !bool_decide_eq_true in Hh.
    destruct Hh as [[[?%String.eqb_eq ?] ?] ?]. done. }
  split.
  - split; [done|]. by rewrite Hj.
  - done.
  - intros k i v Hk. by destruct (Hv k i v Hk).
  - intros k i v Hk. destruct (Hv k i v Hk) as (_ & Hs & ?). unfold carries.
    by rewrite bool_decide_eq_false_2.
  - intros k i v x Hk Hx. destruct (Hv k i v Hk) as (_ & _ & ? & _). congruence.
  - intros k k' i i' v v' x Hk _ Hx. destruct (Hv k i v Hk) as (_ & _ & ? & _). congruence.
Qed.
Lemma booted_ok : nico_ok (w_nico Demo.booted).
Proof. apply nico_ok_check_ok. vm_compute. reflexivity. Qed.

Definition demo_hid : string := "nh-su-1-rack-00-tray-00".
Definition demo_requests : list request :=
  [R_reserve demo_hid; R_provision demo_hid "ubuntu"; R_allocate demo_hid "tnt-acme"].
Lemma nico_refines_machine_witness :
  nico_ok (w_nico (serve_all demo_requests Demo.booted)).
Proof. exact (proj2 (nico_refines_machine demo_requests Demo.booted booted_ok)). Defined.
Definition host_dummy : NicoHost :=
  mkHost EmptyString EmptyString EmptyString EmptyString HS_rma false false false None None None
    EmptyString EmptyString EmptyString None.
Definition host_at (w : World) : NicoHost := default host_dummy (dget (nc_hosts (w_nico w)) demo_hid).
Local Abbreviation allocated_world := (serve_all demo_requests Demo.booted).
Lemma demo_host_eq : dget (nc_hosts (w_nico allocated_world)) demo_hid = Some (host_at allocated_world).
Proof. vm_compute. reflexivity. Qed.
Lemma demo_host_state : bool_decide (h_state (host_at allocated_world) = HS_allocated) = true.
Proof. vm_compute. reflexivity. Qed.
Lemma hosts_are_exclusive_witness :
  is_Some (h_instance_id (host_at allocated_world)) ∧ is_Some (h_tenant_ref (host_at allocated_world)).
Proof.
  pose proof (proj1 (hosts_are_exclusive demo_requests Demo.booted booted_ok) _ _ demo_host_eq) as H.
  rewrite demo_host_state in H. exact H.
Defined.

Local Abbreviation released_world :=
  (serve_all [R_release "inst-2"] (serve_all demo_requests Demo.booted)).
Lemma released_ok : nico_ok (w_nico released_world).
Proof. apply serve_all_refines, serve_all_refines, booted_ok. Qed.
Lemma released_host_eq : dget (nc_hosts (w_nico released_world)) demo_hid = Some (host_at released_world).
Proof. vm_compute. reflexivity. Qed.
Lemma released_host_state : h_state (host_at released_world) = HS_released.
Proof. vm_compute. reflexivity. Qed.
Lemma sanitize_spec_witness : ∃ j w', sanitize demo_hid released_world = (Ok j, w').
Proof.
  destruct (sanitize_spec demo_hid (host_at released_world) released_world (no_quiet _ released_ok)
              (ok_keyed _ released_ok) released_host_eq released_host_state) as (j & w' & E & _).
  exists j, w'. exact E.
Defined.

(** A provisioning job that needs exactly 60 polls *)
Definition slow_job : NicoJob := mkJob "job-1" "provision" "h" "running" EmptyString 60.
Definition slow_host : NicoHost := host_dummy <| h_id := "h" |> <| h_state := HS_provisioning |>.
Definition slow_world : World :=
  Demo.cold <| w_nico := mkNico [("h", slow_host)] [("job-1", slow_job)] [] [] 60 [] 1 |>.
Lemma slow_pending : pending (w_nico slow_world) slow_job slow_host (Z.of_nat 60).
Proof. split; try reflexivity. by left. Qed.
Lemma wait_job_spec_witness :
  (∃ d, (wait_job LocalNicoAdapter slow_job slow_world).1 = Raised (HTTPException 504 d))
  ∧ ∃ j', settled (w_nico (wait_job LocalNicoAdapter slow_job slow_world).2) slow_job slow_host j'.
Proof.
  destruct (wait_job_spec slow_job slow_host 60 slow_world slow_pending) as [Hd Hs]; [lia|].
  split; [exact Hd|]. apply Hs. reflexivity.
Defined.
End SiteController.
