(* ===== verification/NicoApiThms.v ===== *)
(** * The site controller's read API: theorems

    The counts of the site view are those of the hosts, its sites partition them,
    and the listings hold exactly what they should, in order. *)
From Stdlib Require Import QArith Ascii.
From stdpp Require Import strings base decidable option numbers list.
From S2P Require Import Prelude PyLib Models EmuModels World NicoSim NicoMachine Placement Topology NicoApi Demo NicoThms.
Local Open Scope string_scope.
Local Open Scope list_scope.
Local Open Scope py_scope.

Module NicoApiThms.
Import Nico NicoMachine Topology NicoApi.

(** ** Counting *)
Lemma count_if_cons {A} (p : A → bool) x l : count_if p (x :: l) = ((if p x then 1 else 0) + count_if p l)%Z.
Proof. unfold count_if, filterb, Placement.len_z. cbn. destruct (p x); cbn; lia. Qed.
Lemma count_if_ext {A} (p q : A → bool) l : (∀ x, x ∈ l → p x = q x) → count_if p l = count_if q l.
Proof.
  induction l as [|x l IH]; intros H; [done|]. rewrite !count_if_cons, IH, H; [done|left|].
  intros y Hy. apply H. by right.
Qed.
Lemma count_if_filterb {A} (p q : A → bool) l : count_if p (filterb q l) = count_if (λ x, q x && p x) l.
Proof.
  induction l as [|x l IH]; [done|]. rewrite count_if_cons, <-IH.
  change (filterb q (x :: l)) with (if q x then x :: filterb q l else filterb q l).
  destruct (q x); [by rewrite count_if_cons|done].
Qed.
Lemma count_if_fmap {A B} (f : A → B) p l : count_if p (f <$> l) = count_if (λ x, p (f x)) l.
Proof. induction l as [|x l IH]; [done|]. rewrite fmap_cons, !count_if_cons. by rewrite IH. Qed.
Lemma sum_z_cons {A} (f : A → Z) x l : sum_z f (x :: l) = (f x + sum_z f l)%Z.
Proof. done. Qed.
Lemma sum_z_ext {A} (f g : A → Z) l : (∀ x, f x = g x) → sum_z f l = sum_z g l.
Proof. intros H. induction l as [|x l IH]; [done|]. by rewrite !sum_z_cons, H, IH. Qed.
Lemma sum_z_add {A} (f g : A → Z) l : sum_z (λ x, (f x + g x)%Z) l = (sum_z f l + sum_z g l)%Z.
Proof. induction l as [|x l IH]; [done|]. rewrite !sum_z_cons, IH. lia. Qed.
Lemma sum_z_fmap {A B} (g : A → B) f l : sum_z f (g <$> l) = sum_z (λ x, f (g x)) l.
Proof. induction l as [|x l IH]; [done|]. by rewrite fmap_cons, !sum_z_cons, IH. Qed.
(** Counting a value [z] at each place where [s] stands *)
Lemma sum_z_indicator s z l :
  NoDup l → sum_z (λ n, if String.eqb s n then z else 0%Z) l = if memb s l then z else 0%Z.
Proof.
  induction 1 as [|x l Hx Hl IH]; [done|]. rewrite sum_z_cons, memb_cons, IH.
  destruct (String.eqb_spec s x) as [->|]; [|done]. rewrite (proj2 (memb_false x l) Hx). cbn. lia.
Qed.
Lemma len_count {A} (l : list A) : Placement.len_z l = count_if (λ _, true) l.
Proof. induction l as [|x l IH]; [done|]. rewrite count_if_cons, <-IH. unfold Placement.len_z. cbn. lia. Qed.
(** [Counter] counts. *)
Lemma Counter_spec l k : default 0%Z (dget (Counter l) k) = count_if (String.eqb k) l.
Proof.
  unfold Counter.
  enough (∀ d, default 0%Z (dget (foldl (λ d k, dset d k (default 0 (dget d k) + 1)%Z) d l) k)
               = (default 0 (dget d k) + count_if (String.eqb k) l)%Z) as -> by done.
  induction l as [|x l IH]; intros d; [symmetry; apply Z.add_0_r|]. cbn [foldl]. rewrite IH, count_if_cons, dget_dset.
  destruct (String.eqb_spec k x) as [->|]; cbn; lia.
Qed.

(** ** The site view *)
Lemma state_counts_spec hs st :
  default 0%Z (dget (state_counts hs) (NicoHostState_value st)) = count_if (λ h, bool_decide (h_state h = st)) hs.
Proof.
  unfold state_counts. rewrite Counter_spec, count_if_fmap. apply count_if_ext. intros h _.
  destruct (String.eqb_spec (NicoHostState_value st) (NicoHostState_value (h_state h))) as [E|E]; symmetry.
  - apply bool_decide_eq_true. by destruct st, (h_state h).
  - apply bool_decide_eq_false. congruence.
Qed.
(** Groups by distinct names cover what carries one of the names, once. *)
Lemma sum_groups p names hs :
  NoDup names →
  sum_z (λ n, count_if p (hosts_at n hs)) names = count_if (λ h, memb (h_site h) names && p h) hs.
Proof.
  intros Hn. unfold hosts_at. rewrite (sum_z_ext _ (λ n, count_if (λ h, String.eqb (h_site h) n && p h) hs))
    by (intros; apply count_if_filterb).
  induction hs as [|h hs IH]; [clear Hn; induction names as [|n l IH]; [done|]; rewrite sum_z_cons, IH; done|].
  rewrite (sum_z_ext _ (λ n, ((if String.eqb (h_site h) n then if p h then 1 else 0 else 0)
    + count_if (λ h, String.eqb (h_site h) n && p h) hs)%Z)).
  - rewrite sum_z_add, IH, count_if_cons, sum_z_indicator by done. by destruct (memb _ names).
  - intros n. rewrite count_if_cons. by destruct (String.eqb _ n).
Qed.
Lemma elem_of_site_names n hs : n ∈ site_names hs ↔ truthy_str n = true ∧ ∃ h, h ∈ hs ∧ h_site h = n.
Proof.
  unfold site_names. rewrite elem_of_sorted, elem_of_remove_dups, elem_of_filterb, list_elem_of_fmap. naive_solver.
Qed.
Lemma site_names_nodup hs : NoDup (site_names hs).
Proof. unfold site_names. rewrite sorted_perm. apply NoDup_remove_dups. Qed.
(** The sites hold every host that has a site, once. *)
Lemma sum_sites p hs :
  sum_z (λ n, count_if p (hosts_at n hs)) (site_names hs) = count_if (λ h, truthy_str (h_site h) && p h) hs.
Proof.
  rewrite sum_groups by apply site_names_nodup. apply count_if_ext. intros h Hh. f_equal.
  destruct (truthy_str (h_site h)) eqn:E.
  - apply memb_spec, elem_of_site_names. eauto.
  - apply memb_false. rewrite elem_of_site_names. intros [? _]. congruence.
Qed.
Definition view_at (all : list NicoHost) (name : string) : NicoSite :=
  let hs := hosts_at name all in
  mkNicoSite ("nico-" +:+ lower (last_word name)) name 3 (Placement.len_z hs) (state_counts hs)
    (count_if has_instance hs) (Placement.len_z (rack_names hs)).
Definition named (h : NicoHost) : Prop := h_site h = EmptyString ∨ last_word (h_site h) ≠ EmptyString.
Lemma site_info_run w :
  (∀ h, h ∈ dvalues (nc_hosts (w_nico w)) → named h) →
  let hs := dvalues (nc_hosts (w_nico w)) in
  site_info w = (Ok (mkSiteInfo "aif-skt-01" "fake-nico/1.0" 3 SITE_SERVICES (view_at hs <$> site_names hs)
    (state_counts hs) (count_if has_instance hs) (Placement.len_z (nc_segments (w_nico w)))
    (Placement.len_z (nc_jobs (w_nico w)))), w).
Proof.
  intros Hn hs. unfold site_info, hosts, n_get. run. fold hs.
  rewrite (map_m_pure _ (view_at hs)); [run; done|].
  intros n (Ht & h & Hh & <-)%elem_of_site_names. unfold site_view.
  assert (truthy_str (last_word (h_site h)) = true) as ->; [|done].
  unfold truthy_str in *. destruct (Hn h Hh) as [E|E]; [by rewrite E in Ht|].
  by destruct (String.eqb_spec (last_word (h_site h)) EmptyString).
Qed.

(** ** Instances *)
Lemma nodup_selected {V K} (f : V → K) (p : V → bool) (d : dict V) :
  dict_wf d →
  (∀ k k' v v', dget d k = Some v → dget d k' = Some v' → p v = true → p v' = true → f v = f v' → k = k') →
  NoDup (f <$> filterb p (dvalues d)).
Proof.
  intros Hd Hf. assert (∀ k v, (k, v) ∈ d → dget d k = Some v) as Hin by (intros; by apply in_dget).
  assert (∀ e, dict_wf e → (∀ kv, kv ∈ e → kv ∈ d) → NoDup (f <$> filterb p (dvalues e))) as H; [|by apply H].
  induction e as [|[k v] e IH]; intros He Hs; [constructor|].
  apply NoDup_cons in He as [Hk He]. assert (∀ kv, kv ∈ e → kv ∈ d) as Hs' by (intros; apply Hs; by right).
  change (dvalues ((k, v) :: e)) with (v :: dvalues e). cbn [filterb List.filter].
  destruct (p v) eqn:Hp; [|by apply IH]. rewrite fmap_cons. constructor; [|by apply IH].
  intros (v' & E & [Hv' Hp']%elem_of_filterb)%list_elem_of_fmap. apply (dvalues_dget e v' He) in Hv' as [k' Hk'].
  apply Hk. apply dget_Some_in in Hk'. rewrite (Hf k k' v v'); [| |apply Hin, Hs', Hk'|done..].
  - apply list_elem_of_fmap. by exists (k', v').
  - apply Hin, Hs. by left.
Qed.
(** In a controller that keeps its invariant, the hosts with an instance are the
    allocated ones. *)
Lemma instance_iff_allocated n h :
  nico_ok n → h ∈ dvalues (nc_hosts n) →
  has_instance h = bool_decide (h_state h = HS_allocated)
  ∧ (has_instance h = true → is_Some (h_instance_id h) ∧ is_Some (h_tenant_ref h)).
Proof.
  intros Hn [k Hk]%(dvalues_dget _ _ (no_wf _ Hn)).
  assert (hv n k = Some (h_id h, view_of h)) as Hv by (unfold hv; by rewrite Hk).
  pose proof (no_carries _ Hn _ _ _ Hv) as Hc. unfold carries, view_of in Hc; cbn in Hc. unfold has_instance.
  destruct (bool_decide_reflect (h_state h = HS_allocated)) as [_|_]; [|by destruct Hc as [-> _]].
  destruct Hc as [[x Hx] Ht]. destruct (no_numbered _ Hn _ _ _ x Hv Hx) as (z & -> & _). rewrite Hx. eauto.
Qed.

(** The views of the site agree.  In a site controller that keeps its invariant
    and whose sites have names, [site_info] and [list_instances] answer and change
    nothing: per state the counter is the number of hosts in it; the sites are
    distinct and hold every host that has a site exactly once, with its state and
    its instance; the instances counted are the hosts counted as allocated and the
    rows listed; and the rows have distinct instances, each with its tenant. *)
Theorem site_views_agree w :
  nico_ok (w_nico w) → (∀ h, h ∈ dvalues (nc_hosts (w_nico w)) → named h) →
  let hs := dvalues (nc_hosts (w_nico w)) in
  let in_state st h := bool_decide (h_state h = st) in
  let sited h := truthy_str (h_site h) in
  let counted d st := default 0%Z (dget d (NicoHostState_value st)) in
  ∃ si rows, site_info w = (Ok si, w) ∧ list_instances w = (Ok rows, w)
  ∧ (∀ st, counted (si_hosts_by_state si) st = count_if (in_state st) hs)
  ∧ NoDup (ns_name <$> si_sites si)
  ∧ sum_z ns_hosts (si_sites si) = count_if sited hs
  ∧ (∀ st, sum_z (λ x, counted (ns_hosts_by_state x) st) (si_sites si) = count_if (λ h, sited h && in_state st h) hs)
  ∧ sum_z ns_instances (si_sites si) = count_if (λ h, sited h && has_instance h) hs
  ∧ si_instances si = counted (si_hosts_by_state si) HS_allocated
  ∧ si_instances si = Placement.len_z rows
  ∧ NoDup (ir_instance_id <$> rows)
  ∧ ∀ r, r ∈ rows → is_Some (ir_instance_id r) ∧ is_Some (ir_tenant_ref r).
Proof.
  intros Hn Hs. cbv zeta. set (hs := dvalues (nc_hosts (w_nico w))) in *.
  eexists _, (instance_row <$> filterb has_instance hs). split_and!; [by apply site_info_run|done|..]; cbn [si_hosts_by_state si_sites si_instances].
  - apply state_counts_spec.
  - rewrite <-list_fmap_compose. rewrite (list_fmap_ext _ id) by done. rewrite list_fmap_id. apply site_names_nodup.
  - rewrite sum_z_fmap. cbn. rewrite (sum_z_ext _ (λ n, count_if (λ _, true) (hosts_at n hs))).
    + rewrite sum_sites. apply count_if_ext. intros h _. apply andb_true_r.
    + intros n. apply len_count.
  - intros st. rewrite sum_z_fmap, <-sum_sites. apply sum_z_ext. intros n. apply state_counts_spec.
  - rewrite sum_z_fmap. apply sum_sites.
  - rewrite state_counts_spec. apply count_if_ext. intros h Hh. by eapply instance_iff_allocated.
  - unfold Placement.len_z. by rewrite length_fmap.
  - rewrite <-list_fmap_compose. apply nodup_selected; [apply Hn|]. intros k k' h h' Hk Hk' Hp Hp' E. cbn in E.
    destruct (instance_iff_allocated _ h Hn (dget_dvalues _ _ _ Hk)) as [_ [[x Hx] _]]; [done|].
    apply (no_unique _ Hn k k' (h_id h) (h_id h') (view_of h) (view_of h') x); unfold hv; rewrite ?Hk, ?Hk'; cbn; congruence.
  - intros r (h & -> & [Hh Hp]%elem_of_filterb)%list_elem_of_fmap. by apply (instance_iff_allocated _ h Hn Hh).
Qed.

(** On the small site, with one host in use *)
Definition in_use : World := serve_all SiteController.demo_requests Demo.booted.
Definition named_check (h : NicoHost) : bool :=
  String.eqb (h_site h) EmptyString || negb (String.eqb (last_word (h_site h)) EmptyString).
Lemma in_use_named h : h ∈ dvalues (nc_hosts (w_nico in_use)) → named h.
Proof.
  assert (allb named_check (dvalues (nc_hosts (w_nico in_use))) = true) as H by (vm_compute; reflexivity).
  intros Hh. apply (proj1 (allb_spec _ _) H) in Hh. unfold named_check in Hh. unfold named.
  destruct (String.eqb_spec (h_site h) EmptyString); [by left|]. right. by destruct (String.eqb_spec (last_word (h_site h)) EmptyString).
Qed.
Lemma in_use_ok : nico_ok (w_nico in_use).
Proof. apply serve_all_refines, SiteController.booted_ok. Qed.
Lemma site_views_agree_witness :
  ∃ si rows, site_info in_use = (Ok si, in_use) ∧ list_instances in_use = (Ok rows, in_use)
    ∧ si_instances si = Placement.len_z rows
    ∧ count_if has_instance (dvalues (nc_hosts (w_nico in_use))) = 1%Z.
Proof.
  destruct (site_views_agree in_use in_use_ok in_use_named) as (si & rows & H1 & H2 & _ & _ & _ & _ & _ & _ & H3 & _).
  exists si, rows. split; [exact H1|]. split; [exact H2|]. split; [exact H3|]. vm_compute. reflexivity.
Defined.
End NicoApiThms.
