(* ===== verification/HttpThms.v ===== *)
(** * The REST adapter: theorems

    The JSON of the site controller's objects reads back as the same objects, and
    [NicoHttpAdapter] in front of the simulator's router is indistinguishable from
    the in-process adapter. *)
From Stdlib Require Import QArith Ascii.
From stdpp Require Import strings base decidable option numbers list relations.
From S2P Require Import Prelude PyLib Models PortalModels World NicoSim Adapters NicoApi NicoRest Demo.
Local Open Scope string_scope.
Local Open Scope list_scope.
Local Open Scope py_scope.

Module HttpThms.
Import NicoRest.

(** ** Round trips *)
Section roundtrip.
Context `{Pydantic}.
Lemma read_all_fmap {A} (rd : json → option A) enc l : (∀ x, rd (enc x) = Some x) → read_all rd (enc <$> l) = Some l.
Proof. intros He. induction l as [|x l IH]; [done|]. cbn. by rewrite He, IH. Qed.
Lemma read_opt_str o : opt_str (j_opt J_str o) = Some o.
Proof. destruct o; cbn; [by rewrite read_str_ok|done]. Qed.
Lemma read_opt_int o : read_opt read_int (j_opt j_int o) = Some o.
Proof. destruct o as [z|]; [|done]. change (Some <$> read_int (J_num (inject_Z z)) = Some (Some z)). by rewrite read_int_ok. Qed.
Lemma read_state_ok st : read_state (J_str (NicoHostState_value st)) = Some st.
Proof. by destruct st. Qed.
Lemma read_strs l : read_list read_str (J_list (J_str <$> l)) = Some l.
Proof. apply read_all_fmap, read_str_ok. Qed.
Lemma field_hit {A B} (rd : json → option A) d key dflt j x (f : A → option B) :
  dget d key = Some j → rd j = Some x → (x ← field rd d key dflt; f x) = f x.
Proof. intros Hj Hx. unfold field. by rewrite Hj, Hx. Qed.
End roundtrip.
Ltac read_field := first
  [ apply read_str_ok | apply read_bool_ok | apply read_int_ok | apply read_opt_str | apply read_opt_int
  | apply read_state_ok | apply read_strs | eassumption ].
Ltac read_fields := repeat (erewrite field_hit; [|reflexivity|read_field]; cbv beta).
Section codecs.
Context `{Pydantic}.
Lemma step_of_json st : step_of (step_json st) = Some st.
Proof. destruct st as [s b]. unfold step_of, step_json. cbn [fst snd]. read_fields. done. Qed.
Lemma read_steps l : read_list step_of (J_list (step_json <$> l)) = Some l.
Proof. apply read_all_fmap, step_of_json. Qed.

(** [enc] writes objects, and [rd] reads them back. *)
Definition codec {A} (enc : A → json) (rd : list (string * json) → option A) : Prop :=
  ∀ x, ∃ d, enc x = J_dict d ∧ rd d = Some x.
Lemma host_codec : codec host_json host_of.
Proof. intros h. eexists. split; [done|]. destruct h. unfold host_of. read_fields. done. Qed.
Lemma job_codec : codec job_json job_of.
Proof. intros j. eexists. split; [done|]. destruct j. unfold job_of. read_fields. done. Qed.
Lemma segment_codec : codec segment_json segment_of.
Proof. intros sg. eexists. split; [done|]. destruct sg. unfold segment_of. read_fields. done. Qed.
Lemma report_codec : codec report_json report_of.
Proof.
  intros r. eexists. split; [done|]. destruct r. unfold report_of. pose proof (read_steps sz_steps). read_fields. done.
Qed.
Lemma build_codec {A} enc (rd : list (string * json) → option A) x w :
  codec enc rd → build rd (enc x) w = (Ok x, w).
Proof. intros Hc. destruct (Hc x) as (d & -> & E). cbn. by rewrite E. Qed.
Lemma build_all_codec {A} enc (rd : list (string * json) → option A) l w :
  codec enc rd → build_all rd (J_list (enc <$> l)) w = (Ok l, w).
Proof.
  intros Hc. cbn. induction l as [|x l IH]; [done|]. cbn [fmap list_fmap map_m].
  rewrite (bind_ok _ _ _ _ _ (build_codec enc rd x w Hc)). by rewrite (bind_ok _ _ _ _ _ IH).
Qed.
End codecs.

(** ** URLs *)
(** The segments of a path *)
Fixpoint split_path (s : string) : list string :=
  match s with
  | EmptyString => [EmptyString]
  | String c s' =>
      if Ascii.eqb c "/" then EmptyString :: split_path s'
      else match split_path s' with x :: l => String c x :: l | [] => [String c EmptyString] end
  end.
(** The unreserved characters of a URL *)
Definition url_char (c : ascii) : bool :=
  let n := N_of_ascii c in
  ((48 <=? n) && (n <=? 57) || (65 <=? n) && (n <=? 90) || (97 <=? n) && (n <=? 122)
   || (n =? 45) || (n =? 46) || (n =? 95) || (n =? 126))%N.
Fixpoint url_chars (s : string) : bool :=
  match s with EmptyString => true | String c s' => url_char c && url_chars s' end.
(** A path segment that reaches the other side as it is *)
Definition safe_segment (s : string) : bool :=
  truthy_str s && url_chars s && negb (String.eqb s ".") && negb (String.eqb s "..").
Definition safe_path (path : string) : bool :=
  match split_path path with
  | EmptyString :: segs => allb safe_segment segs
  | _ => false
  end.
Lemma url_char_no_slash c : url_char c = true → Ascii.eqb c "/" = false.
Proof. intros H. destruct (Ascii.eqb_spec c "/") as [->|]; [done|done]. Qed.
#[local] Arguments Ascii.eqb : simpl never.
Lemma split_segment a : url_chars a = true → split_path a = [a].
Proof.
  induction a as [|c a IH]; cbn; [done|]. intros [Hc Ha]%andb_true_iff. by rewrite url_char_no_slash, IH.
Qed.
Lemma split_segment_app a b : url_chars a = true → split_path (a +:+ String "/" b) = a :: split_path b.
Proof.
  induction a as [|c a IH]; [done|]. cbn [url_chars]. intros [Hc Ha]%andb_true_iff.
  change (split_path (String c a +:+ String "/" b)) with
    (if Ascii.eqb c "/" then EmptyString :: split_path (a +:+ String "/" b)
     else match split_path (a +:+ String "/" b) with x :: l => String c x :: l | [] => [String c EmptyString] end).
  by rewrite url_char_no_slash, IH.
Qed.
Lemma safe_url_chars a : safe_segment a = true → url_chars a = true.
Proof. unfold safe_segment. rewrite !andb_true_iff. tauto. Qed.

(** ** The transport *)
(** [send] speaks to a process that serves the router: it delivers the answer of
    the route, or its refusal as the status with the detail, for every path that
    needs no quoting; the texts are left open. *)
Class Serves `{Pydantic} (http_adapter : string → ComputeAdapter)
    (send : method → string → option json → IO Response) : Prop := {
  sv_answers m path body h w st j w' :
    safe_path path = true → router http_adapter m (split_path path) body = Some h → h w = (Ok (st, j), w') →
    ∃ text, send m path body w = (Ok (mkResponse st (Some j) text), w');
  sv_refuses m path body h w c d w' :
    safe_path path = true → router http_adapter m (split_path path) body = Some h →
    h w = (Raised (HTTPException c d), w') →
    ∃ text, send m path body w = (Ok (mkResponse c (Some (J_dict [("detail", J_str d)])) text), w')
}.
(** A refusal that HTTP knows as an error *)
Definition refusal (e : exn) : Prop := match e with HTTPException c _ => (400 ≤ c)%Z | _ => False end.

(** *** What the simulator raises: refusals, except for a CPU node without a number *)
Section refusals.
Import Nico.
Lemma refuses {A} c d : (400 <=? c)%Z = true → Raises refusal (http (W := World) (A := A) c d).
Proof. intros Hc. apply raises_raise. by apply Z.leb_le. Qed.
Hint Extern 1 (Raises refusal (http _ _)) => apply refuses; reflexivity : raises.
Lemma refusal_get {A} (f : FakeNico → A) : Raises refusal (n_get f).
Proof. apply raises_gets. Qed.
Hint Resolve @refusal_get : raises.
Lemma refusal_host h : Raises refusal (_host h).
Proof. unfold _host. solve_raises. Qed.
Lemma refusal_require h l : Raises refusal (_require h l).
Proof. unfold _require. solve_raises. Qed.
Hint Resolve refusal_host refusal_require : raises.
Hint Extern 1 (Raises _ (host_mut _ _)) => apply raises_modify : raises.
Hint Extern 1 (Raises _ (job_mut _ _)) => apply raises_modify : raises.
Hint Extern 1 (Raises _ (seg_mut _ _)) => apply raises_modify : raises.
Lemma refusal_loop h f todo st : Raises refusal (sanitize_loop h f todo st).
Proof. revert st. induction todo; intros; simpl; solve_raises. Qed.
Hint Resolve refusal_loop : raises.
Lemma refusal_finish j f : Raises refusal (_finish_job j f).
Proof. unfold _finish_job. solve_raises. Qed.
Hint Resolve refusal_finish : raises.
Lemma refusal_new_job op h f : Raises refusal (_new_job op h f).
Proof. unfold _new_job, next_nico_seq. solve_raises. Qed.
Lemma refusal_consume h op : Raises refusal (_consume_failure h op).
Proof. unfold _consume_failure. solve_raises. Qed.
Lemma refusal_seq : Raises refusal next_nico_seq.
Proof. unfold next_nico_seq. solve_raises. Qed.
Hint Resolve refusal_new_job refusal_consume refusal_seq : raises.
Lemma refusal_reserve h : Raises refusal (reserve h).
Proof. unfold reserve. solve_raises. Qed.
Lemma refusal_unreserve h : Raises refusal (unreserve h).
Proof. unfold unreserve. solve_raises. Qed.
Lemma refusal_allocate h t : Raises refusal (allocate h t).
Proof. unfold allocate. solve_raises. Qed.
Lemma refusal_release i : Raises refusal (release i).
Proof. unfold release, list_hosts. solve_raises. Qed.
Lemma refusal_abort h : Raises refusal (abort_provision h).
Proof. unfold abort_provision. solve_raises. Qed.
Lemma refusal_sanitize h : Raises refusal (sanitize h).
Proof. unfold sanitize. solve_raises. Qed.
Lemma refusal_report h : Raises refusal (get_sanitize_report h).
Proof. unfold get_sanitize_report. solve_raises. Qed.
Lemma refusal_job j : Raises refusal (get_job j).
Proof. unfold get_job. solve_raises. Qed.
Lemma refusal_cordon h r : Raises refusal (cordon h r).
Proof. unfold cordon. solve_raises. Qed.
Lemma refusal_sample l : Raises refusal (sample_host l).
Proof. unfold sample_host. solve_raises. Qed.
Hint Resolve refusal_sample : raises.
Lemma refusal_create_segment t v l c h al p : Raises refusal (create_segment t v l c h al p).
Proof. unfold create_segment, join_segment. solve_raises. Qed.
Lemma refusal_attach sg h p : Raises refusal (attach_hosts sg h p).
Proof. unfold attach_hosts, join_segment. solve_raises. Qed.
Lemma refusal_delete_segment sg : Raises refusal (delete_segment sg).
Proof. unfold delete_segment, leave_segment. solve_raises. Qed.
Lemma host_bind {A} h (f : NicoHost → IO A) w :
  (_host h ≫= f) w = match dget (nc_hosts (w_nico w)) h with
                     | Some x => f x w
                     | None => (Raised (HTTPException 404 ("nico: host '" +:+ h +:+ "' not found")), w)
                     end.
Proof. unfold _host, n_get, gets, mbind, M_bind. by destruct (dget _ h). Qed.
Lemma refusal_provision h i w :
  (∀ x n, dget (nc_hosts (w_nico w)) h = Some x → h_sku x = "cpu-epyc" → int_suffix (h_tray_id x) ≠ inr n) →
  match (provision h i w).1 with Ok _ => True | Raised e => refusal e end.
Proof.
  intros Hx. unfold provision. rewrite host_bind. destruct (dget (nc_hosts (w_nico w)) h) as [x|] eqn:E; [|done].
  specialize (Hx x).
  match goal with |- match (?m w).1 with _ => _ end => enough (Raises refusal m) as Hm by apply Hm end.
  destruct (String.eqb_spec (h_sku x) "cpu-epyc") as [Es|Es]; [|solve_raises].
  destruct (int_suffix (h_tray_id x)) as [z|e] eqn:Ei; [solve_raises|by destruct (Hx e eq_refl Es)].
Qed.
End refusals.

Section parity.
Context `{Pydantic} (http_adapter : string → ComputeAdapter).
Context (send : method → string → option json → IO Response) (show : json → string) `{!Serves http_adapter send}.
(** One call: what the route answers comes back as the value. *)
Lemma call_spec {A} m path body (enc : A → json) (dec : json → IO A) st (local : IO A) h w :
  (∀ x w, dec (enc x) w = (Ok x, w)) → (st < 400)%Z →
  safe_path path = true → router http_adapter m (split_path path) body = Some h →
  h w = answer st enc local w →
  match (local w).1 with Ok _ => True | Raised e => refusal e end →
  (j ← call send show m path body; dec j) w = local w.
Proof.
  intros Hdec Hst Hp Hr Hh Hl. unfold answer, mbind, M_bind in Hh. unfold call, mbind, M_bind.
  destruct (local w) as [[x|e] w'] eqn:E; cbn in Hl, Hh.
  - destruct (sv_answers m path body h w st (enc x) w' Hp Hr Hh) as [text ->]. unfold _unwrap. cbn.
    destruct (Z.leb_spec 400 st); [lia|]. apply Hdec.
  - destruct e as [c d| | | | |]; try done. cbn in Hl.
    destruct (sv_refuses m path body h w c d w' Hp Hr Hh) as [text ->]. unfold _unwrap. cbn.
    destruct (Z.leb_spec 400 c); [done|lia].
Qed.
(** The paths of the client and how the router reads them *)
Lemma path_one a h : url_chars a = true →
  split_path (String "/" a +:+ String "/" h) = EmptyString :: a :: split_path h.
Proof. intros Ha. change (String "/" a +:+ String "/" h) with (EmptyString +:+ String "/" (a +:+ String "/" h)). by rewrite !split_segment_app. Qed.
Lemma path_item a h : url_chars a = true → safe_segment h = true →
  split_path (String "/" a +:+ String "/" h) = [EmptyString; a; h].
Proof. intros Ha Hh. by rewrite path_one, (split_segment h) by auto using safe_url_chars. Qed.
Lemma path_action a h b : url_chars a = true → safe_segment h = true → url_chars b = true →
  split_path (String "/" a +:+ String "/" (h +:+ String "/" b)) = [EmptyString; a; h; b].
Proof. intros Ha Hh Hb. by rewrite path_one, split_segment_app, (split_segment b) by auto using safe_url_chars. Qed.
Lemma safe_item a h : safe_segment a = true → safe_segment h = true → safe_path (String "/" a +:+ String "/" h) = true.
Proof.
  intros Ha Hh. unfold safe_path. rewrite path_item by auto using safe_url_chars. apply allb_spec. set_solver.
Qed.
Lemma safe_action a h b : safe_segment a = true → safe_segment h = true → safe_segment b = true →
  safe_path (String "/" a +:+ String "/" (h +:+ String "/" b)) = true.
Proof.
  intros Ha Hh Hb. unfold safe_path. rewrite path_action by auto using safe_url_chars. apply allb_spec. set_solver.
Qed.
Lemma safe_list a : safe_segment a = true → safe_path (String "/" a) = true.
Proof.
  intros Ha. unfold safe_path. change (String "/" a) with (EmptyString +:+ String "/" a).
  rewrite split_segment_app, (split_segment a) by auto using safe_url_chars. apply allb_spec. set_solver.
Qed.
Definition local_server (w : World) : Prop := env_var (w_env w) "NOCP_NICO_URL" = None.
Lemma served_hosts w : local_server w → NicoApi.list_hosts http_adapter w = Nico.list_hosts w.
Proof. intros Hw. unfold NicoApi.list_hosts, get_adapter, getenv, try_any. run. by rewrite Hw. Qed.
Lemma served_host h w : local_server w → NicoApi.get_host http_adapter h w = Nico.get_host h w.
Proof.
  intros Hw. unfold NicoApi.get_host, get_adapter, getenv, try_any. run. rewrite Hw. cbn.
  unfold Nico.get_host, Nico._host, Nico.n_get. run. destruct (dget (nc_hosts (w_nico w)) h) eqn:E; cbn; [done|]. by rewrite E.
Qed.
Ltac rest enc st :=
  eapply (call_spec _ _ _ enc _ st); [intros; by apply build_codec|done| | | |].
(** A collection, an item of it, an action on an item *)
Ltac posted enc st := rest enc st; [done|reflexivity| |].
Ltac served H :=
  lazymatch goal with |- router ?h ?m ?p ?b = _ =>
    let E := fresh in
    eassert (p = _) as E by (apply H; done); rewrite E; reflexivity
  end.
Ltac got enc a x :=
  rest enc 200%Z; [by apply (safe_item a x)|served (path_item a x)| |].
Ltac acted enc a x b :=
  rest enc 200%Z; [by apply (safe_action a x b)|served (path_action a x b)| |].

(** C33: The contract over REST is the contract in process.  Whatever the transport,
    as long as the other process serves the router of the simulator and itself
    uses the simulator (its NOCP_NICO_URL is not set), every operation of
    [NicoHttpAdapter] does exactly what [LocalNicoAdapter] does: same value or same
    refusal, same world; for every identifier that needs no quoting in a URL; and
    for provisioning unless the host is a CPU node whose tray id ends in no number.
    (Such a host can be made by [POST /fake-nico/hosts/ghost] with the sku of a CPU
    node.  Provisioning it raises a Python error in process, which over REST is an
    answer 500.) *)
Theorem rest_is_local w :
  local_server w →
  let A := NicoHttpAdapter send show in
  let L := LocalNicoAdapter in
  a_list_hosts A w = a_list_hosts L w
  ∧ a_list_segments A w = a_list_segments L w
  ∧ (∀ h t, a_allocate A h t w = a_allocate L h t w)
  ∧ (∀ t v l c hs al p, a_create_segment A t v l c hs al p w = a_create_segment L t v l c hs al p w)
  ∧ ∀ x, safe_segment x = true →
      a_get_host A x w = a_get_host L x w ∧ a_reserve A x w = a_reserve L x w
      ∧ a_unreserve A x w = a_unreserve L x w ∧ a_release A x w = a_release L x w
      ∧ a_abort_provision A x w = a_abort_provision L x w ∧ a_sanitize A x w = a_sanitize L x w
      ∧ a_get_sanitize_report A x w = a_get_sanitize_report L x w ∧ a_get_job A x w = a_get_job L x w
      ∧ (∀ reason, a_cordon A x reason w = a_cordon L x reason w)
      ∧ a_delete_segment A x w = a_delete_segment L x w
      ∧ (∀ hs p, a_attach_hosts A x hs p w = a_attach_hosts L x hs p w)
      ∧ ∀ image,
          (∀ h e, dget (nc_hosts (w_nico w)) x = Some h → h_sku h = "cpu-epyc" → int_suffix (h_tray_id h) ≠ inr e) →
          a_provision A x image w = a_provision L x image w.
Proof.
  intros Hw A L. pose proof host_codec. pose proof job_codec. pose proof segment_codec. pose proof report_codec.
  split_and!; [| |intros h t|intros t v l c hs al p|intros x Hx; split_and!; [| | | | | | | |intros reason| |intros hs p|intros image Hi]].
  - eapply (call_spec _ _ _ (λ l, J_list (host_json <$> l)) _ 200); [intros; by apply build_all_codec|done|done|reflexivity| |done].
    unfold answer, mbind, M_bind. by rewrite served_hosts.
  - eapply (call_spec _ _ _ (λ l, J_list (segment_json <$> l)) _ 200); [intros; by apply build_all_codec|done|done|reflexivity|done|done].
  - posted host_json 201%Z; [|apply refusal_allocate]. unfold body_of, allocate_body. read_fields. done.
  - posted segment_json 201%Z; [|apply refusal_create_segment].
    unfold body_of, segment_body. read_fields. done.
  - got host_json "hosts" x; [|by apply (refusal_host x)]. unfold answer, mbind, M_bind. by rewrite served_host.
  - acted host_json "hosts" x "reserve"; [done|apply refusal_reserve].
  - acted host_json "hosts" x "unreserve"; [done|apply refusal_unreserve].
  - got job_json "instances" x; [done|apply refusal_release].
  - acted host_json "hosts" x "abort-provision"; [done|apply refusal_abort].
  - acted job_json "hosts" x "sanitize"; [done|apply refusal_sanitize].
  - acted report_json "hosts" x "sanitize-report"; [done|apply refusal_report].
  - got job_json "jobs" x; [done|apply refusal_job].
  - acted host_json "hosts" x "cordon"; [done|apply refusal_cordon].
  - got segment_json "segments" x; [done|apply refusal_delete_segment].
  - acted segment_json "segments" x "hosts"; [|apply refusal_attach]. unfold body_of, attach_body. read_fields. done.
  - acted job_json "hosts" x "provision"; [|by apply refusal_provision]. unfold body_of.
    assert (image_body [("image_ref", J_str image)] = Some image) as -> by apply read_str_ok. done.
Qed.
End parity.

(** ** The adapter's frame, and a concrete transport *)
(** A transport that leaves the control plane alone makes an adapter that does. *)
#[export] Instance rest_frame `{Pydantic} (send : method → string → option json → IO Response) show :
  (∀ m p b, Steps (same cplane) (send m p b)) → AdapterFrame (NicoHttpAdapter send show).
Proof.
  intros Hs.
  assert (∀ r, Steps (same cplane) (_unwrap show r)) as Hu by (intros r; unfold _unwrap, resp_json; solve_steps).
  assert (∀ m p b, Steps (same cplane) (call send show m p b)) as Hc by (intros m p b; unfold call; solve_steps).
  assert (∀ A (rd : list (string * json) → option A) j, Steps (same cplane) (build rd j)) as Hb
    by (intros A rd j; unfold build; solve_steps).
  assert (∀ A (rd : list (string * json) → option A) j, Steps (same cplane) (build_all rd j)) as Ha
    by (intros A rd j; unfold build_all; solve_steps).
  split; intros; cbn; solve_steps.
Qed.
(** Values of the right type and nothing else *)
#[export] Instance strict : Pydantic := {|
  read_str j := match j with J_str s => Some s | _ => None end;
  read_int j := match j with J_num q => if (Qden q =? 1)%positive then Some (Qnum q) else None | _ => None end;
  read_bool j := match j with J_bool b => Some b | _ => None end;
  read_str_ok s := eq_refl; read_int_ok z := eq_refl; read_bool_ok b := eq_refl
|}.
(** The router behind a wire *)
Definition wire `{Pydantic} (http_adapter : string → ComputeAdapter) (m : method) (path : string) (body : option json)
    : IO Response := λ w,
  match router http_adapter m (split_path path) body with
  | None => (Ok (mkResponse 404 (Some (J_dict [("detail", J_str "Not Found")])) "Not Found"), w)
  | Some h =>
      match h w with
      | (Ok (st, j), w') => (Ok (mkResponse st (Some j) EmptyString), w')
      | (Raised (HTTPException c d), w') => (Ok (mkResponse c (Some (J_dict [("detail", J_str d)])) d), w')
      | (Raised _, w') => (Ok (mkResponse 500 None "Internal Server Error"), w')
      end
  end.
#[export] Instance wire_serves `{Pydantic} http_adapter : Serves http_adapter (wire http_adapter).
Proof. split; intros m path body h w ? ? w' _ Hr Hh; unfold wire; rewrite Hr, Hh; by eexists. Qed.

Definition no_url (_ : string) : ComputeAdapter := LocalNicoAdapter.
Definition no_text (_ : json) : string := EmptyString.
Definition remote : ComputeAdapter := NicoHttpAdapter (wire no_url) no_text.
Definition demo_hid : string := "nh-su-1-rack-00-tray-00".
Lemma booted_local : local_server Demo.booted.
Proof. vm_compute. reflexivity. Qed.
Definition value {A} (o : outcome A) : option A := match o with Ok a => Some a | Raised _ => None end.
Lemma reserved_remotely : h_state <$> value (a_reserve remote demo_hid Demo.booted).1 = Some HS_reserved.
Proof. vm_compute. reflexivity. Qed.
Lemma refused_remotely : (a_get_job remote "job-9" Demo.booted).1 = Raised (HTTPException 404 "nico: job 'job-9' not found").
Proof. vm_compute. reflexivity. Qed.
Lemma rest_is_local_witness :
  a_reserve remote demo_hid Demo.booted = a_reserve LocalNicoAdapter demo_hid Demo.booted
  ∧ a_get_job remote "job-9" Demo.booted = a_get_job LocalNicoAdapter "job-9" Demo.booted
  ∧ h_state <$> value (a_reserve remote demo_hid Demo.booted).1 = Some HS_reserved
  ∧ (a_get_job remote "job-9" Demo.booted).1 = Raised (HTTPException 404 "nico: job 'job-9' not found").
Proof.
  destruct (rest_is_local no_url (wire no_url) no_text Demo.booted booted_local) as (_ & _ & _ & _ & Hx).
  destruct (Hx demo_hid eq_refl) as (_ & Hr & _). destruct (Hx "job-9" eq_refl) as (_ & _ & _ & _ & _ & _ & _ & Hj & _).
  split; [exact Hr|]. split; [exact Hj|]. split; [exact reserved_remotely|exact refused_remotely].
Defined.
(** An identifier that needs quoting does not arrive: the slash ends it. *)
Lemma slash_breaks :
  (a_get_host remote "a/b" Demo.booted).1 = Raised (HTTPException 404 "Not Found").
Proof. vm_compute. reflexivity. Qed.
End HttpThms.
