(* ===== verification/SagaThms.v ===== *)
(** * Orders and the saga: the theorems *)
From Stdlib Require Import QArith.
From stdpp Require Import strings base decidable option numbers list relations.
From S2P Require Import Prelude PyLib Models World NicoSim StoreOps Adapters Tenancy Binding Partition.
From S2P Require Import StateMachine Saga Orders Reclaim Handlers Lawful Isolation Compensation.
From S2P Require Import NicoMachine Polling Demo Api TenancyThms.
Local Open Scope string_scope.
Local Open Scope list_scope.
Local Open Scope py_scope.
Import Saga Compensation.

Module SagaThms.

(** C4: Compensation always completes.  Under the store invariants, for any site
    controller that fails only with HTTP errors (in any of the calls of the
    rollback), [_compensate] raises nothing: it ends the order as failed with the
    given reason, with no segment and no allocations; the allocations are deleted;
    every node it was given is left without tenant and order, whether or not its
    rollback succeeded; and the isolation invariants still hold. *)
Theorem compensate_completes a `{!AdapterFrame a} `{!AdapterHttp a} oid nodes reason w o :
  ready oid nodes w → dget (st_orders (w_store w)) oid = Some o →
  order_allowed (o_state o) OS_compensating = true →
  ∃ o' w', _compensate oid nodes a reason w = (Ok o', w')
           ∧ compensated oid nodes (o_allocation_ids o) reason w' o'.
Proof. intros Hw Ho Ha. by apply compensate_run. Qed.

(** The nodes of an order, by the ids under which they are stored *)
Lemma ctx_nodes_run oid w o :
  dget (st_orders (w_store w)) oid = Some o →
  _ctx_nodes oid w = (Ok (lookup_all (st_node_instances (w_store w)) (o_node_ids o)), w).
Proof. intros Ho. unfold _ctx_nodes, order_of. run. by rewrite Ho. Qed.
Lemma lookup_all_names s ids :
  (∀ k, k ∈ ids → ∃ n, dget (st_node_instances s) k = Some n ∧ n_id n = k) →
  n_id <$> lookup_all (st_node_instances s) ids = ids.
Proof.
  unfold lookup_all. induction ids as [|k ids IH]; intros H; cbn; [done|].
  destruct (H k) as (n & -> & Hk); [left|]. cbn. rewrite Hk, IH; [done|]. intros x Hx. apply H. by right.
Qed.

(** C36: An operator's rejection at a gate settles the order for good: before the
    reservation it becomes rejected and nothing else changes hands; after it, the
    saga compensates and the order fails with its nodes and racks released. *)
Theorem reject_at_gate a `{!AdapterFrame a} `{!AdapterHttp a} oid reason w o :
  ready oid (o_node_ids o) w → dget (st_orders (w_store w)) oid = Some o →
  (∀ k, k ∈ o_node_ids o → ∃ n, dget (st_node_instances (w_store w)) k = Some n ∧ n_id n = k) →
  o_approval_mode o = true → truthy (o_pending_stage o) = true →
  order_allowed (o_state o) OS_compensating = true ∨ o_state o = OS_received →
  ∃ o' w', Orders.reject_fulfillment oid a reason w = (Ok o', w')
    ∧ (if bool_decide (o_state o = OS_received) || bool_decide (o_state o = OS_validated)
       then o_state o' = OS_rejected
       else compensated oid (o_node_ids o) (o_allocation_ids o) ("운영자 거절: " +:+ reason) w' o').
Proof.
  intros Hw Ho Hn Hmode Hpend Hall. unfold Orders.reject_fulfillment.
  assert (Orders.pending_order oid w = (Ok (o, default EmptyString (o_pending_stage o)), w)) as Ep.
  { unfold Orders.pending_order. run. by rewrite Ho, Hmode, Hpend. }
  rewrite (bind_ok _ _ _ _ _ Ep).
  destruct (order_mut_run oid (o_node_ids o) (λ o, o <| o_pending_stage := None |>) w o Hw Ho)
    as (w1 & E1 & Hw1 & Ho1 & Ea1 & En1); [by intros []|].
  rewrite (bind_ok _ _ _ _ _ E1).
  rewrite (bind_ok (emit "Operator" "NeoCloudOS.M1" "internal" "운영자 거절" (Some oid) None)
             _ w1 tt _ eq_refl).
  set (w2 := (emit "Operator" "NeoCloudOS.M1" "internal" "운영자 거절" (Some oid) None w1).2).
  change (w_store w1) with (w_store w2) in *.
  assert (ready oid (o_node_ids o) w2) as Hw2 by (destruct Hw1; by split).
  destruct (bool_decide (o_state o = OS_received) || bool_decide (o_state o = OS_validated)) eqn:Eb.
  - assert (order_allowed (o_state o) OS_rejected = true) as Hr.
    { by apply orb_true_iff in Eb as [->%bool_decide_eq_true| ->%bool_decide_eq_true]. }
    destruct (advance_order_run oid OS_rejected ("운영자 거절: " +:+ reason) w2 _ Ho1 Hr)
      as (w3 & ev & E3 & Ho3 & _).
    unfold reject, order_mut, order_of. rewrite (bind_ok _ _ w2 tt
      (order_mut oid (λ o, o <| o_error := ev_detail <$> last (o_history o) |>) w3).2);
      [|by rewrite (bind_ok _ _ _ _ _ E3)].
    run. cbn. rewrite dget_dupd_eq, Ho3. cbn. by eexists _, _.
  - rewrite (bind_ok _ _ _ _ _ (ctx_nodes_run oid w2 _ Ho1)). cbn [o_node_ids].
    rewrite lookup_all_names by (intros k Hk; by rewrite En1; apply Hn).
    destruct Hall as [Ha|Hr]; [|by rewrite Hr in Eb].
    by apply (compensate_run a oid (o_node_ids o) ("운영자 거절: " +:+ reason) w2 _ Hw2 Ho1).
Qed.

(** The gates can be resumed: the pending stage is stored by its string value,
    and reading a stored value back gives the stage; so an approval never fails to
    recognise the stage that an earlier request left pending. *)
Theorem pending_stage_roundtrip st : OrderState_of (OrderState_value st) = Some st.
Proof. by destruct st. Qed.

(** No node is lost to the pool for good, except by RMA: from every other
    lifecycle state some path of the transition table leads back to pool_ready,
    and RMA is final; every order can still reach closed, rejected or failed. *)
Theorem lifecycle_has_no_dead_ends :
  (∀ s, s ≠ NS_rma → rtc node_step s NS_pool_ready) ∧ (∀ s, ¬ node_step NS_rma s)
  ∧ ∀ s, ∃ t, rtc order_step s t ∧ Lifecycle.final_order t = true.
Proof.
  assert (Hn : ∀ s t u, node_step s t → rtc node_step t u → rtc node_step s u) by (intros; by eapply rtc_l).
  assert (Ho : ∀ s t u, order_step s t → rtc order_step t u → rtc order_step s u) by (intros; by eapply rtc_l).
  assert (rtc node_step NS_releasing NS_pool_ready) as Hrel.
  { apply (Hn _ NS_sanitizing); [done|]. by apply (Hn _ NS_pool_ready). }
  assert (rtc node_step NS_draining NS_pool_ready) as Hdr by by apply (Hn _ NS_releasing).
  assert (rtc node_step NS_validating NS_pool_ready) as Hval by by apply (Hn _ NS_pool_ready).
  assert (rtc order_step OS_compensating OS_failed) as Hc by by apply (Ho _ OS_failed).
  split_and!.
  - intros s Hs. destruct s; try done.
    + by apply (Hn _ NS_validating).
    + by apply (Hn _ NS_validating).
    + by apply (Hn _ NS_pool_ready).
    + by apply (Hn _ NS_releasing).
    + by apply (Hn _ NS_releasing).
    + by apply (Hn _ NS_draining).
    + by apply (Hn _ NS_draining).
    + by apply (Hn _ NS_pool_ready).
  - intros s. by destruct s.
  - intros s. destruct s;
      try (exists OS_failed; split; [by apply (Ho _ OS_compensating)|done]).
    + exists OS_rejected. split; [by apply (Ho _ OS_rejected)|done].
    + exists OS_closed. split; [by apply (Ho _ OS_closed)|done].
    + exists OS_closed. split; [by apply (Ho _ OS_closed)|done].
    + exists OS_closed. split; [reflexivity|done].
    + exists OS_rejected. split; [reflexivity|done].
    + by exists OS_failed.
    + exists OS_failed. split; [reflexivity|done].
Qed.

(** ** On the concrete site *)
Definition cpus_check (s : Store) : bool :=
  allb (λ c, match int_suffix (cn_id c) with inl _ => true | inr _ => false end) (dvalues (st_cpu_nodes s)).
Lemma cpus_check_ok s : cpus_check s = true → cpus_ok s.
Proof.
  unfold cpus_check. rewrite allb_spec. intros H c Hc. specialize (H c Hc).
  destruct (int_suffix _) as [z|]; [by exists z|done].
Qed.
Lemma after_sane {A} (m : IO A) w :
  Steps (on_store sane) m → sane (w_store w) (w_store (Demo.world_after m w)).
Proof. intros H. apply H. Qed.
Lemma reserved_sane : sane (w_store Demo.with_tenants) (w_store Demo.reserved).
Proof.
  transitivity (w_store Demo.gated).
  { exact (after_sane _ _ (handler_run_new sane LocalNicoAdapter _)). }
  transitivity (w_store (Demo.approved "ord-1" Demo.gated)).
  - exact (after_sane _ _ (handler_approve sane LocalNicoAdapter "ord-1")).
  - exact (after_sane _ _ (handler_approve sane LocalNicoAdapter "ord-1")).
Qed.
Definition reserved_order : ServiceOrder :=
  default Lifecycle.order_dummy (dget (st_orders (w_store Demo.reserved)) "ord-1").
Lemma reserved_order_eq : dget (st_orders (w_store Demo.reserved)) "ord-1" = Some reserved_order.
Proof. vm_compute. reflexivity. Qed.
Lemma reserved_facts :
  o_state reserved_order = OS_reserved
  ∧ o_node_ids reserved_order = ["ni-su-1-rack-00-tray-00"; "ni-su-1-rack-01-tray-00"]
  ∧ o_approval_mode reserved_order = true ∧ truthy (o_pending_stage reserved_order) = true.
Proof. vm_compute. split_and!; reflexivity. Qed.
Lemma reserved_node_1 : n_id <$> dget (st_node_instances (w_store Demo.reserved)) "ni-su-1-rack-00-tray-00"
  = Some "ni-su-1-rack-00-tray-00".
Proof. vm_compute. reflexivity. Qed.
Lemma reserved_node_2 : n_id <$> dget (st_node_instances (w_store Demo.reserved)) "ni-su-1-rack-01-tray-00"
  = Some "ni-su-1-rack-01-tray-00".
Proof. vm_compute. reflexivity. Qed.
Lemma reserved_named k : k ∈ o_node_ids reserved_order →
  ∃ n, dget (st_node_instances (w_store Demo.reserved)) k = Some n ∧ n_id n = k.
Proof.
  rewrite (proj1 (proj2 reserved_facts)).
  intros [->|[->|[]%elem_of_nil]%elem_of_cons]%elem_of_cons.
  - destruct (proj1 (fmap_Some _ _ _) reserved_node_1) as (n & Hn & E). exists n. split; [exact Hn|exact (eq_sym E)].
  - destruct (proj1 (fmap_Some _ _ _) reserved_node_2) as (n & Hn & E). exists n. split; [exact Hn|exact (eq_sym E)].
Qed.
Lemma reserved_ready : ready "ord-1" (o_node_ids reserved_order) Demo.reserved.
Proof.
  destruct reserved_sane as (Hi & Hl & Hc). split.
  - apply Hi, Isolation.tenants_isolated.
  - apply Hl, Lifecycle.booted_numbered.
  - apply Hc, cpus_check_ok. vm_compute. reflexivity.
  - rewrite reserved_order_eq. by eexists.
  - intros nid Hin. destruct (reserved_named nid Hin) as (n & -> & _). by eexists.
Qed.
Lemma compensate_completes_witness :
  ∃ o' w', _compensate "ord-1" (o_node_ids reserved_order) LocalNicoAdapter "test" Demo.reserved = (Ok o', w')
           ∧ o_state o' = OS_failed.
Proof.
  destruct (compensate_completes LocalNicoAdapter "ord-1" (o_node_ids reserved_order) "test" Demo.reserved
              reserved_order reserved_ready reserved_order_eq) as (o' & w' & E & H).
  - rewrite (proj1 reserved_facts). reflexivity.
  - exists o', w'. split; [exact E|exact (cm_state _ _ _ _ _ _ H)].
Defined.
Lemma reject_at_gate_witness :
  ∃ o' w', Orders.reject_fulfillment "ord-1" LocalNicoAdapter "no" Demo.reserved = (Ok o', w').
Proof.
  destruct (reject_at_gate LocalNicoAdapter "ord-1" "no" Demo.reserved reserved_order reserved_ready
              reserved_order_eq reserved_named (proj1 (proj2 (proj2 reserved_facts)))
              (proj2 (proj2 (proj2 reserved_facts)))) as (o' & w' & E & _).
  - left. rewrite (proj1 reserved_facts). reflexivity.
  - exists o', w'. exact E.
Defined.
End SagaThms.
