(* ===== verification/PlacementThms.v ===== *)
(** * Placement: the theorems

    An order is placed exactly when a single site has enough free racks for it,
    and the racks chosen are distinct, sellable and of one site. *)
From Stdlib Require Import QArith.
From stdpp Require Import strings base decidable option numbers list relations.
From S2P Require Import Prelude PyLib Models World StoreOps Tenancy Binding Placement Demo.
From S2P Require Import TenancyThms.
Local Open Scope string_scope.
Local Open Scope list_scope.
Local Open Scope py_scope.
Import Tenancy Placement.

Module Placed.

Lemma submseteq_NoDup {A} (l k : list A) : l ⊆+ k → NoDup k → NoDup l.
Proof.
  intros (l2 & Hp & Hs)%submseteq_sublist_r Hk. rewrite Hp. by eapply sublist_NoDup.
Qed.
Lemma concat_fmap_submseteq {A B C} (f : A → list B) (g : A → list C) (h : B → C) l :
  (∀ x, x ∈ l → h <$> f x ⊆+ g x) → h <$> concat (f <$> l) ⊆+ concat (g <$> l).
Proof.
  induction l as [|x l IH]; intros H; cbn; [done|]. rewrite fmap_app.
  apply submseteq_app; [apply H; left|]. apply IH. intros y Hy. apply H. by right.
Qed.
Lemma concat_perm {A} (l k : list (list A)) : l ≡ₚ k → concat l ≡ₚ concat k.
Proof.
  induction 1 as [|x l k H IH|x y l|]; cbn; [done|by rewrite IH| |by etrans].
  by rewrite !app_assoc, (Permutation_app_comm x).
Qed.
Lemma concat_sublist {A B} (f : A → list B) l k :
  l `sublist_of` k → concat (f <$> l) `sublist_of` concat (f <$> k).
Proof.
  induction 1 as [|x l k H IH|x l k H IH]; cbn; [done| |].
  - by apply sublist_app.
  - by apply sublist_inserts_l.
Qed.
Lemma filterb_sublist {A} (p : A → bool) l : filterb p l `sublist_of` l.
Proof. induction l as [|x l IH]; cbn; [done|]. destruct (p x); by constructor. Qed.

(** ** Counting *)
Lemma len_app {A} (l k : list A) : len_z (l ++ k) = (len_z l + len_z k)%Z.
Proof. unfold len_z. rewrite length_app. lia. Qed.
Lemma len_take {A} (z : Z) (l : list A) : (0 ≤ z)%Z → len_z (take_n z l) = Z.min z (len_z l).
Proof.
  intros Hz. unfold take_n, len_z. destruct (z <? 0)%Z eqn:E; [lia|]. rewrite length_take. lia.
Qed.
Lemma take_n_sublist {A} (z : Z) (l : list A) : take_n z l `sublist_of` l.
Proof. unfold take_n. destruct (z <? 0)%Z; apply sublist_take. Qed.
Lemma total_free_concat frees : total_free frees = len_z (concat frees).
Proof. induction frees as [|f l IH]; cbn; [done|]. by rewrite len_app, <-IH. Qed.

(** ** Filling from a list of pools *)
Lemma fill_spec count frees selected :
  (len_z selected < count)%Z → (count ≤ len_z selected + total_free frees)%Z →
  ∃ rs, fill count frees selected = Some rs ∧ len_z rs = count
        ∧ rs `sublist_of` selected ++ concat frees.
Proof.
  revert selected. induction frees as [|f frees IH]; intros sel Hlt Hle; cbn in *; [lia|].
  fold (total_free frees) in Hle.
  assert (Hs : sel ++ take_n (count - len_z sel) f `sublist_of` sel ++ f)
    by (apply sublist_app; [done|apply take_n_sublist]).
  destruct (_ =? count)%Z eqn:E; [apply Z.eqb_eq in E|apply Z.eqb_neq in E].
  - eexists. split_and!; [done|lia|]. rewrite app_assoc. by apply sublist_inserts_r.
  - rewrite len_app, len_take in E by lia.
    destruct (IH (sel ++ take_n (count - len_z sel) f)) as (rs & Hf & Hl & Hsub);
      [rewrite len_app, len_take; lia..|].
    exists rs. split_and!; [done|done|]. etrans; [exact Hsub|]. rewrite app_assoc.
    by apply sublist_app.
Qed.
(** ** Grouping by site *)
Definition at_site (site : string) (pools : list Pool) : list Pool :=
  filterb (λ p, String.eqb (pl_site p) site) pools.
Lemma group_acc pools d site :
  default [] (dget (foldl (λ d p, dset d (pl_site p) (default [] (dget d (pl_site p)) ++ [pl_free p]))
                      d pools) site)
  = default [] (dget d site) ++ (pl_free <$> at_site site pools).
Proof.
  revert d. induction pools as [|p pools IH]; intros d; cbn; [by rewrite app_nil_r|].
  rewrite IH, dget_dset, String.eqb_sym. destruct (String.eqb_spec (pl_site p) site) as [->|]; cbn.
  - by rewrite <-app_assoc.
  - done.
Qed.
Lemma group_wf pools d :
  dict_wf d →
  dict_wf (foldl (λ d p, dset d (pl_site p) (default [] (dget d (pl_site p)) ++ [pl_free p])) d pools).
Proof. revert d. induction pools as [|p pools IH]; intros d Hd; cbn; [done|]. by apply IH, dict_wf_dset. Qed.
Lemma group_spec pools site : default [] (dget (group_by_site pools) site) = pl_free <$> at_site site pools.
Proof. unfold group_by_site. by rewrite group_acc. Qed.

(** The free racks of a site, over the SUs that fit the order *)
Definition site_racks (pools : list Pool) (site : string) : list Rack :=
  concat (pl_free <$> at_site site pools).

Lemma spill_spec pools count :
  (0 < count)%Z →
  match spill pools count with
  | Some rs => len_z rs = count
      ∧ ∃ site l, l ≡ₚ site_racks pools site ∧ rs `sublist_of` l
  | None => ∀ site, (len_z (site_racks pools site) < count)%Z
  end.
Proof.
  intros Hc. unfold spill. set (cands := filterb _ _).
  assert (Hin : ∀ t site, (t, site) ∈ cands →
    t = len_z (site_racks pools site) ∧ (count ≤ t)%Z).
  { intros t site [((fid & frees) & [= -> ->] & Hf)%list_elem_of_fmap Hle]%elem_of_filterb.
    apply in_dget in Hf; [|by apply group_wf, dict_wf_nil].
    pose proof (group_spec pools fid) as Hg. rewrite Hf in Hg. cbn in Hg, Hle.
    rewrite Hg in *. rewrite total_free_concat in *. split; [done|lia]. }
  destruct (min_by cand_lt cands) as [[t site]|] eqn:Hm.
  - apply min_by_in, Hin in Hm as [-> Hle]. rewrite group_spec.
    set (l := sorted _ _). assert (l ≡ₚ pl_free <$> at_site site pools) as Hp by apply sorted_perm.
    destruct (fill_spec count l []) as (rs & -> & Hl & Hs).
    { done. }
    { rewrite total_free_concat. unfold len_z. rewrite (concat_perm _ _ Hp). exact Hle. }
    split; [done|]. exists site, (concat l). split; [by apply concat_perm|exact Hs].
  - apply min_by_None in Hm. intros site. destruct (decide (len_z (site_racks pools site) < count)%Z) as [|Hge]; [done|].
    exfalso. pose proof (group_spec pools site) as Hg.
    destruct (dget (group_by_site pools) site) as [frees|] eqn:Hd.
    + assert ((total_free frees, site) ∈ cands) as Hx.
      { apply elem_of_filterb. cbn in Hg |- *. rewrite total_free_concat, Hg. split.
        - apply list_elem_of_fmap. exists (site, frees). split; [by rewrite total_free_concat, Hg|].
          by apply dget_Some_in.
        - unfold site_racks in Hge. lia. }
      rewrite Hm in Hx. by apply elem_of_nil in Hx.
    + cbn in Hg. unfold site_racks in Hge. rewrite <-Hg in Hge. by destruct Hge.
Qed.

(** ** The racks of the pools *)
(** Each SU and each rack is stored under its id, and no rack is in two SUs. *)
Record racks_partitioned (s : Store) : Prop := {
  rp_sus : dict_wf (st_sus s);
  rp_su_id k su : dget (st_sus s) k = Some su → su_id su = k;
  rp_rack_id k r : dget (st_racks s) k = Some r → rk_id r = k;
  rp_disjoint : NoDup (concat (su_rack_ids <$> dvalues (st_sus s)))
}.
(** What a tenant may be sold: unbound, ready, and every tray mirrored by a node in
    the pool *)
Record sellable (s : Store) (r : Rack) : Prop := {
  sl_unbound : rk_tenant_id r = None;
  sl_ready : rk_state r = HW_ready;
  sl_mirrored : length (nodes_of_rack s (rk_id r)) = length (rk_tray_ids r);
  sl_pool n : n ∈ nodes_of_rack s (rk_id r) → n_state n = NS_pool_ready
}.
Lemma sellable_spec s r : _rack_sellable s r = true ↔ sellable s r.
Proof.
  unfold _rack_sellable. rewrite !andb_true_iff, !bool_decide_eq_true, Nat.eqb_eq, allb_spec.
  setoid_rewrite bool_decide_eq_true. split; [by intros [[? ?] [? ?]]|by intros []].
Qed.
Lemma lookup_all_ids s ids :
  (∀ k r, dget (st_racks s) k = Some r → rk_id r = k) →
  rk_id <$> lookup_all (st_racks s) ids `sublist_of` ids.
Proof.
  intros Hk. unfold lookup_all. induction ids as [|k ids IH]; cbn; [done|].
  destruct (dget _ k) as [r|] eqn:E; cbn; [|by constructor]. rewrite (Hk k r E). by constructor.
Qed.

Section selection.
Context (s : Store) (key : string) (tenant : option Tenant).
Local Abbreviation pools := (pools_for s key tenant).
Lemma pool_spec p : p ∈ pools →
  pl_su p ∈ dvalues (st_sus s) ∧ su_fits s key tenant (pl_su p) = true
  ∧ pl_free p = free_racks s (pl_su p) ∧ pl_site p = site_id s (pl_su p).
Proof.
  unfold pools_for. intros (su & -> & [Hin Hf]%elem_of_filterb)%list_elem_of_fmap.
  apply elem_of_sorted in Hin. done.
Qed.
Lemma site_racks_spec site r :
  r ∈ site_racks pools site ↔
  ∃ su, su ∈ dvalues (st_sus s) ∧ su_fits s key tenant su = true ∧ site_id s su = site
        ∧ r ∈ racks_of_su s (su_id su) ∧ sellable s r.
Proof.
  unfold site_racks. rewrite elem_of_concat_map. split.
  - intros (p & [Hp <-%String.eqb_eq]%elem_of_filterb & Hr).
    destruct (pool_spec p Hp) as (? & ? & Ef & Es). rewrite Ef in Hr.
    apply elem_of_filterb in Hr as [Hr Hs]. exists (pl_su p).
    split_and!; [done|done|done|done|by apply sellable_spec].
  - intros (su & Hsu & Hf & Hsite & Hr & Hs).
    exists (mkPool su (free_racks s su) (site_id s su)). split.
    + apply elem_of_filterb. split; [|by apply String.eqb_eq]. apply list_elem_of_fmap. exists su.
      split; [done|]. apply elem_of_filterb. split; [by apply elem_of_sorted|done].
    + apply elem_of_filterb. split; [done|by apply sellable_spec].
Qed.
Lemma site_racks_NoDup site :
  racks_partitioned s → NoDup (rk_id <$> site_racks pools site).
Proof.
  intros []. eapply submseteq_NoDup; [|exact rp_disjoint0]. unfold site_racks.
  transitivity (concat (su_rack_ids <$> (pl_su <$> at_site site pools))).
  - rewrite <-list_fmap_compose. apply concat_fmap_submseteq.
    intros p [Hp _]%elem_of_filterb. destruct (pool_spec p Hp) as (Hsu & _ & -> & _).
    apply dvalues_dget in Hsu as [k Hk]; [|done]. pose proof (rp_su_id0 k _ Hk) as Eid.
    transitivity (rk_id <$> racks_of_su s (su_id (pl_su p))).
    { apply sublist_submseteq, fmap_sublist, filterb_sublist. }
    unfold racks_of_su. rewrite Eid, Hk. by apply sublist_submseteq, lookup_all_ids.
  - transitivity (concat (su_rack_ids <$> (pl_su <$> pools))).
    { apply sublist_submseteq, concat_sublist, fmap_sublist, filterb_sublist. }
    assert (pl_su <$> pools = filterb (su_fits s key tenant)
              (sorted (λ a b, String.leb (su_id a) (su_id b)) (dvalues (st_sus s)))) as ->.
    { unfold pools_for. etrans; [symmetry; apply list_fmap_compose|apply list_fmap_id]. }
    transitivity (concat (su_rack_ids <$> sorted (λ a b, String.leb (su_id a) (su_id b)) (dvalues (st_sus s)))).
    { apply sublist_submseteq, concat_sublist, filterb_sublist. }
    apply Permutation_submseteq, concat_perm, fmap_Permutation, sorted_perm.
Qed.
Lemma select_racks_cases count :
  (0 < count)%Z →
  match select_racks s key count tenant with
  | Some rs => len_z rs = count ∧ ∃ site l, l ≡ₚ site_racks pools site ∧ rs `sublist_of` l
  | None => ∀ site, (len_z (site_racks pools site) < count)%Z
  end.
Proof.
  intros Hc. unfold select_racks. destruct (min_by _ _) as [p|] eqn:Hm; [|by apply spill_spec].
  apply min_by_in, elem_of_filterb in Hm as [Hp Hle]. split; [rewrite len_take; lia|].
  exists (pl_site p), (site_racks pools (pl_site p)). split; [done|].
  assert (p ∈ at_site (pl_site p) pools) as (l1 & l2 & E)%list_elem_of_split.
  { apply elem_of_filterb. split; [done|by apply String.eqb_eq]. }
  unfold site_racks. rewrite E, fmap_app, fmap_cons, concat_app. cbn.
  apply sublist_inserts_l, sublist_inserts_r, take_n_sublist.
Qed.
End selection.

(** ** What an order may be offered *)
(** An SU may serve a tenant unless it would be shared across a bare-metal-dedicated
    boundary: with another tenant, when either side is dedicated. *)
Definition dedicated (t : Tenant) : Prop := tn_isolation_tier t = IT_bare_metal_dedicated.
Definition may_share (s : Store) (su : ScalableUnit) (t : Tenant) : Prop :=
  ∀ r o, r ∈ racks_of_su s (su_id su) → rk_tenant_id r = Some o → o ≠ EmptyString → o ≠ tn_id t →
    ¬ dedicated t ∧ ∀ t', dget (st_tenants s) o = Some t' → ¬ dedicated t'.
Lemma owners_spec s su tid o :
  o ∈ su_owners s su tid ↔
  ∃ r, r ∈ racks_of_su s (su_id su) ∧ rk_tenant_id r = Some o ∧ o ≠ EmptyString ∧ o ≠ tid.
Proof.
  unfold su_owners. rewrite list_elem_of_omap. split; intros (r & Hr & H); exists r.
  - destruct (rk_tenant_id r) as [x|]; [|done]. destruct (truthy_str x) eqn:Hx; [|done]. cbn in H.
    destruct (String.eqb_spec x tid); [done|]. injection H as <-. split_and!; try done. by intros ->.
  - destruct H as (-> & He & Hne). split; [done|]. apply String.eqb_neq in Hne. rewrite Hne.
    by destruct o.
Qed.
Lemma allowed_spec s su t : _su_allowed_for s su (Some t) = true ↔ may_share s su t.
Proof.
  unfold _su_allowed_for, may_share.
  assert (Hdef : (∀ r o, r ∈ racks_of_su s (su_id su) → rk_tenant_id r = Some o → o ≠ EmptyString →
      o ≠ tn_id t → ¬ dedicated t ∧ ∀ t', dget (st_tenants s) o = Some t' → ¬ dedicated t')
    ↔ ∀ o, o ∈ su_owners s su (tn_id t) → ¬ dedicated t ∧ ∀ t', dget (st_tenants s) o = Some t' → ¬ dedicated t').
  { split; [intros H o (r & ? & ? & ? & ?)%owners_spec; by eapply H|].
    intros H r o ????. apply H, owners_spec. eauto. }
  rewrite Hdef. clear Hdef. destruct (su_owners s su (tn_id t)) as [|o l] eqn:E.
  { split; [|done]. intros _ o Ho. by apply elem_of_nil in Ho. }
  rewrite <-E. unfold dedicated. destruct (bool_decide (tn_isolation_tier t = _)) eqn:Hd;
    [apply bool_decide_eq_true in Hd|apply bool_decide_eq_false in Hd].
  - split; [done|]. intros H. by destruct (H o ltac:(rewrite E; left)) as [[] _].
  - rewrite negb_true_iff, anyb_false. unfold owner_dedicated. split; intros H x Hx; specialize (H x Hx).
    + split; [done|]. intros t' Ht'. rewrite Ht' in H. by apply bool_decide_eq_false in H.
    + destruct (dget (st_tenants s) x) as [t'|]; [|done]. apply bool_decide_eq_false. by apply H.
Qed.

Record offer (s : Store) (key : string) (t : Tenant) (count : Z) (rs : list Rack) : Prop := {
  of_count : len_z rs = count;
  of_distinct : NoDup (rk_id <$> rs);
  of_site : ∃ site, ∀ r, r ∈ rs → sellable s r
    ∧ ∃ su, su ∈ dvalues (st_sus s) ∧ r ∈ racks_of_su s (su_id su) ∧ su_blueprint_key su = key
            ∧ may_share s su t ∧ site_id s su = site
}.

Lemma select_racks_run s key t count :
  racks_partitioned s → (0 < count)%Z →
  match select_racks s key count (Some t) with
  | Some rs => offer s key t count rs
  | None => ∀ rs, ¬ offer s key t count rs
  end.
Proof.
  intros Hs Hc. pose proof (select_racks_cases s key (Some t) count Hc) as H.
  assert (Hsite : ∀ site r, r ∈ site_racks (pools_for s key (Some t)) site ↔ sellable s r
    ∧ ∃ su, su ∈ dvalues (st_sus s) ∧ r ∈ racks_of_su s (su_id su) ∧ su_blueprint_key su = key
            ∧ may_share s su t ∧ site_id s su = site).
  { intros site r. rewrite site_racks_spec. unfold su_fits.
    setoid_rewrite andb_true_iff. setoid_rewrite String.eqb_eq. setoid_rewrite allowed_spec.
    naive_solver. }
  destruct (select_racks _ _ _ _) as [rs|].
  - destruct H as (Hl & site & l & Hp & Hsub). split; [done| |].
    + eapply submseteq_NoDup; [|by apply (site_racks_NoDup s key (Some t) site)].
      rewrite <-Hp. by apply sublist_submseteq, fmap_sublist.
    + exists site. intros r Hr. apply Hsite. rewrite <-Hp. by eapply elem_of_sublist.
  - intros rs [Hl Hd [site Hr]]. specialize (H site).
    assert (rs ⊆+ site_racks (pools_for s key (Some t)) site) as Hsub%submseteq_length.
    { apply NoDup_submseteq; [by eapply NoDup_fmap_1|]. intros r Hin. by apply Hsite, Hr. }
    unfold len_z in *. lia.
Qed.

(** C5: Placement is sound and complete: for a tenant, a blueprint and a positive
    count it returns distinct racks that are all sellable, of that blueprint, of
    one site, and in scalable units that the tenant may share; and it fails only
    when no such choice of racks exists. *)
Theorem select_racks_spec s key t count :
  racks_partitioned s → (0 < count)%Z →
  match select_racks s key count (Some t) with
  | Some rs => offer s key t count rs
  | None => ∀ rs, ¬ offer s key t count rs
  end.
Proof. apply select_racks_run. Qed.

(** C24: What placement offers, the tenancy service admits: the racks of an offer
    that lie in one scalable unit may be allocated to the tenant as a rack set
    (none is in an allocation, and the SU is not divided against a dedicated
    tenant), so the isolation stage of an order never meets a conflict that
    placement could have seen. *)
Theorem offer_is_admitted s key t count rs su rids :
  binding s → racks_partitioned s →
  (∀ k r, dget (st_racks s) k = Some r → rk_tenant_id r ≠ Some EmptyString) →
  (∀ k r, r ∈ racks_of_su s k → rk_su_id r = k) →
  dget (st_tenants s) (tn_id t) = Some t → dget (st_sus s) (su_id su) = Some su →
  offer s key t count rs → rids ≠ [] →
  (∀ rid, rid ∈ rids → ∃ r, r ∈ rs ∧ rk_id r = rid ∧ rk_su_id r = su_id su) →
  may_allocate s (mkAllocCreate (tn_id t) SC_rack_set (su_id su) (Some rids) None) t su rids.
Proof.
  intros Hb Hp Hne Hwired Ht Hsu [_ _ [site Hoff]] Hrids Hin.
  assert (Hrack : ∀ rid, rid ∈ rids → ∃ r, rk_id r = rid ∧ dget (st_racks s) rid = Some r
      ∧ rk_su_id r = su_id su ∧ rk_tenant_id r = None ∧ may_share s su t).
  { intros rid (r & Hr & <- & Hrs)%Hin. destruct (Hoff r Hr) as (Hsell & su' & Hsu' & Hr' & _ & Hshare & _).
    exists r. split_and!; [done|by eapply racks_of_su_in|done|apply Hsell|].
    pose proof (Hwired _ _ Hr') as E. rewrite Hrs in E.
    apply dvalues_dget in Hsu' as [k Hk]; [|apply Hp]. pose proof (rp_su_id _ Hp _ _ Hk) as Ek.
    rewrite <-Ek, <-E, Hsu in Hk. by injection Hk as ->. }
  split; [exact Ht|exact Hsu| | |].
  - split_and!; [done|done|]. intros rid (r & _ & ? & ? & _)%Hrack. by exists r.
  - intros rid (r & _ & Hr & _ & Hn & _)%Hrack. apply in_allocation_for_rack. intros a Ha Hra.
    apply dvalues_dget in Ha as [k Hk]; [|apply Hb].
    assert (rk_tenant_id r = Some (al_tenant_id a)) as E; [|congruence].
    apply (b_tenant _ Hb _ _ _ Hr). exists k, a. done.
  - intros Hd r o Hr _ Ho. destruct rids as [|rid rids]; [done|].
    destruct (Hrack rid (list_elem_of_here _ _)) as (_ & _ & _ & _ & _ & Hshare).
    destruct (decide (o = tn_id t)) as [|Hno]; [done|]. exfalso.
    refine (proj1 (Hshare r o Hr Ho _ Hno) Hd). intros ->.
    by eapply (Hne _ r), Ho; eapply racks_of_su_in.
Qed.

(** ** On the concrete site *)
Definition partitioned_check (s : Store) : bool :=
  bool_decide (NoDup (dkeys (st_sus s)))
  && allb (λ '(k, su), String.eqb (su_id su) k) (st_sus s)
  && allb (λ '(k, r), String.eqb (rk_id r) k) (st_racks s)
  && bool_decide (NoDup (concat (su_rack_ids <$> dvalues (st_sus s)))).
Lemma partitioned_check_ok s : partitioned_check s = true → racks_partitioned s.
Proof.
  unfold partitioned_check. rewrite !andb_true_iff, !bool_decide_eq_true, !allb_spec.
  intros [[[Hd Hs] Hr] Hc]. split; [done| | |done].
  - intros k su Hk%dget_Some_in. specialize (Hs (k, su) Hk). by apply String.eqb_eq in Hs.
  - intros k r Hk%dget_Some_in. specialize (Hr (k, r) Hk). by apply String.eqb_eq in Hr.
Qed.
Lemma demo_racks_partitioned : racks_partitioned (w_store Demo.with_tenants).
Proof. apply partitioned_check_ok. vm_compute. reflexivity. Qed.
Definition demo_tenant : Tenant := mkTenant "tnt-acme" "Acme" IT_bare_metal_dedicated "gold" None.
Definition demo_choice : list Rack :=
  default [] (select_racks (w_store Demo.with_tenants) "vr-nvl72" 3 (Some demo_tenant)).
Lemma demo_choice_eq :
  select_racks (w_store Demo.with_tenants) "vr-nvl72" 3 (Some demo_tenant) = Some demo_choice.
Proof. vm_compute. reflexivity. Qed.
(** Three racks spill over the two SUs of the site. *)
Lemma select_racks_spec_witness :
  offer (w_store Demo.with_tenants) "vr-nvl72" demo_tenant 3 demo_choice.
Proof.
  pose proof (select_racks_spec (w_store Demo.with_tenants) "vr-nvl72" demo_tenant 3
                demo_racks_partitioned eq_refl) as H.
  rewrite demo_choice_eq in H. exact H.
Defined.

Definition wired_check (s : Store) : bool :=
  allb (λ '(k, r), negb (bool_decide (rk_tenant_id r = Some EmptyString))) (st_racks s)
  && allb (λ '(k, su), allb (λ r, String.eqb (rk_su_id r) k) (racks_of_su s k)) (st_sus s).
Lemma wired_check_ok s : wired_check s = true →
  (∀ k r, dget (st_racks s) k = Some r → rk_tenant_id r ≠ Some EmptyString)
  ∧ (∀ k r, r ∈ racks_of_su s k → rk_su_id r = k).
Proof.
  unfold wired_check. rewrite andb_true_iff, !allb_spec. intros [H1 H2]. split.
  - intros k r Hk%dget_Some_in. specialize (H1 (k, r) Hk). by apply negb_true_iff, bool_decide_eq_false in H1.
  - intros k r Hr. unfold racks_of_su in Hr. destruct (dget (st_sus s) k) as [su|] eqn:E;
      [|by apply elem_of_nil in Hr].
    specialize (H2 (k, su) (dget_Some_in _ _ _ E)). cbn in H2. rewrite allb_spec in H2.
    apply String.eqb_eq, H2. unfold racks_of_su. by rewrite E.
Qed.
Lemma demo_wired : wired_check (w_store Demo.with_tenants) = true.
Proof. vm_compute. reflexivity. Qed.
Definition demo_su : ScalableUnit :=
  mkSU "su-1" (Some "du-1") 1 "hac-1" "vr-nvl72" ["su-1-rack-00"; "su-1-rack-01"] 2 HW_ready.
Lemma demo_su_eq : dget (st_sus (w_store Demo.with_tenants)) "su-1" = Some demo_su.
Proof. vm_compute. reflexivity. Qed.
Lemma placed_tenant_eq : dget (st_tenants (w_store Demo.with_tenants)) "tnt-acme" = Some demo_tenant.
Proof. vm_compute. reflexivity. Qed.
Lemma demo_choice_ids :
  (λ r, (rk_id r, rk_su_id r)) <$> demo_choice
  = [("su-1-rack-00", "su-1"); ("su-1-rack-01", "su-1"); ("su-2-rack-00", "su-2")].
Proof. vm_compute. reflexivity. Qed.
Lemma demo_choice_in rid :
  rid ∈ ["su-1-rack-00"; "su-1-rack-01"] →
  ∃ r, r ∈ demo_choice ∧ rk_id r = rid ∧ rk_su_id r = "su-1".
Proof.
  intros Hin. assert ((rid, "su-1") ∈ (λ r, (rk_id r, rk_su_id r)) <$> demo_choice) as H.
  { rewrite demo_choice_ids. clear -Hin. set_solver. }
  apply list_elem_of_fmap in H as (r & [= -> E] & Hr). exists r. by rewrite E.
Qed.
Lemma demo_offer : offer (w_store Demo.with_tenants) "vr-nvl72" demo_tenant 3 demo_choice.
Proof.
  pose proof (select_racks_run (w_store Demo.with_tenants) "vr-nvl72" demo_tenant 3
                demo_racks_partitioned eq_refl) as H.
  rewrite demo_choice_eq in H. exact H.
Qed.
Lemma offer_is_admitted_witness :
  may_allocate (w_store Demo.with_tenants)
    (mkAllocCreate "tnt-acme" SC_rack_set "su-1" (Some ["su-1-rack-00"; "su-1-rack-01"]) None)
    demo_tenant demo_su ["su-1-rack-00"; "su-1-rack-01"].
Proof.
  destruct (wired_check_ok _ demo_wired) as [Hne Hwired].
  exact (offer_is_admitted (w_store Demo.with_tenants) "vr-nvl72" demo_tenant 3 demo_choice demo_su
    ["su-1-rack-00"; "su-1-rack-01"] (proj1 Isolation.tenants_isolated) demo_racks_partitioned
    Hne Hwired placed_tenant_eq demo_su_eq demo_offer ltac:(discriminate) demo_choice_in).
Defined.
End Placed.
