(* ===== verification/ReconcileThms.v ===== *)
(** * Reconciliation: the theorems

    Reconciliation always produces a report; the report classifies every node and
    every host; and the only node it moves is one whose host has vanished. *)
From Stdlib Require Import QArith.
From stdpp Require Import strings base decidable option numbers list relations.
From S2P Require Import Prelude PyLib Models World NicoSim StoreOps Adapters StateMachine Placement.
From S2P Require Import Reconcile Demo.
Local Open Scope string_scope.
Local Open Scope list_scope.
Local Open Scope py_scope.
Import Placement Reconcile.

Module Reconciled.

(** What the report says of a node, given the hosts that NICo lists *)
Definition classify (hosts : dict NicoHost) (n : NodeInstance) : list ReconcileFinding :=
  match dget hosts (n_nico_host_id n) with
  | None => [orphan_finding n]
  | Some h => if mirrors (h_state h) (n_state n) then [] else [mismatch_finding n h]
  end.
Definition is_orphan (hosts : dict NicoHost) (n : NodeInstance) : bool :=
  negb (dmem hosts (n_nico_host_id n)).
(** The state of a node afterwards: an orphan is cordoned if it may be. *)
Definition state_after (hosts : dict NicoHost) (n : NodeInstance) : NodeLifecycleState :=
  if is_orphan hosts n && negb (bool_decide (n_state n = NS_rma)) && node_allowed (n_state n) NS_cordoned
  then NS_cordoned else n_state n.
Definition matched (hosts : dict NicoHost) (ns : list NodeInstance) : dict NicoHost :=
  foldl (λ d n, ddel d (n_nico_host_id n)) hosts ns.

Definition nodes_of (w : World) : dict NodeInstance := st_node_instances (w_store w).
(** A node after the visit of the loop *)
Definition visited (hosts : dict NicoHost) (n n' : NodeInstance) : Prop :=
  n_state n' = state_after hosts n ∧ n_tenant_id n' = n_tenant_id n
  ∧ n_nico_host_id n' = n_nico_host_id n.

(** One entry of the node table changes. *)
Definition one_entry (d d' : dict NodeInstance) (k : string) (n' : NodeInstance) : Prop :=
  dget d' k = Some n' ∧ (∀ k', k' ≠ k → dget d' k' = dget d k') ∧ dkeys d' = dkeys d.
Lemma one_entry_refl d k n : dget d k = Some n → one_entry d d k n.
Proof. by intros. Qed.
Lemma one_entry_dupd d d' k n f : one_entry d d' k n → one_entry d (dupd d' k f) k (f n).
Proof.
  intros (H & Hk & E). split_and!.
  - by rewrite dget_dupd_eq, H.
  - intros k' Hne. rewrite dget_dupd_ne by done. by apply Hk.
  - by rewrite dkeys_dupd.
Qed.
Lemma orphan_node_run k n w :
  dget (nodes_of w) k = Some n →
  ∃ n' w', orphan_node k w = (Ok tt, w') ∧ one_entry (nodes_of w) (nodes_of w') k n'
    ∧ n_state n' = (if negb (bool_decide (n_state n = NS_rma)) && node_allowed (n_state n) NS_cordoned
                    then NS_cordoned else n_state n)
    ∧ n_tenant_id n' = n_tenant_id n ∧ n_nico_host_id n' = n_nico_host_id n.
Proof.
  unfold nodes_of. intros Hn. pose proof (one_entry_refl _ _ _ Hn) as Hone.
  unfold orphan_node. run. rewrite Hn. cbn.
  destruct (bool_decide (n_state n = NS_rma)) eqn:Er; cbn.
  { exists n, w. by split_and!. }
  destruct (bool_decide (n_state n = NS_cordoned)) eqn:Ec; cbn.
  { apply bool_decide_eq_true in Ec. exists n, w. split_and!; try done. by rewrite Ec. }
  destruct (node_allowed (n_state n) NS_cordoned) eqn:Ea;
    unfold advance_node, node_log, node_mut; run; rewrite ?Hn; cbn; rewrite ?Ea.
  - eexists _, _. split; [done|]. split; [cbn; by do 2 apply one_entry_dupd|]. by split_and!.
  - eexists _, _. split; [done|]. split; [cbn; by apply one_entry_dupd|]. by split_and!.
Qed.

(** ** The loop over the nodes *)
Lemma unseen_host d k n : n_nico_host_id n ≠ k →
  classify (ddel d k) n = classify d n ∧ is_orphan (ddel d k) n = is_orphan d n
  ∧ state_after (ddel d k) n = state_after d n.
Proof.
  intros Hne. unfold classify, state_after, is_orphan, dmem. by rewrite dget_ddel_ne.
Qed.
Lemma check_nodes_run ks acc w :
  NoDup ks → NoDup (n_nico_host_id <$> lookup_all (nodes_of w) ks) →
  (∀ k, k ∈ ks → is_Some (dget (nodes_of w) k)) →
  let ns := lookup_all (nodes_of w) ks in
  ∃ acc' w', fold_m check_node acc ks w = (Ok acc', w')
    ∧ ra_findings acc' = ra_findings acc ++ concat (classify (ra_hosts acc) <$> ns)
    ∧ ra_orphans acc' = (ra_orphans acc + len_z (filterb (is_orphan (ra_hosts acc)) ns))%Z
    ∧ ra_ghosts acc' = ra_ghosts acc
    ∧ ra_hosts acc' = matched (ra_hosts acc) ns
    ∧ dkeys (nodes_of w') = dkeys (nodes_of w)
    ∧ (∀ k, k ∉ ks → dget (nodes_of w') k = dget (nodes_of w) k)
    ∧ (∀ k n, k ∈ ks → dget (nodes_of w) k = Some n →
         ∃ n', dget (nodes_of w') k = Some n' ∧ visited (ra_hosts acc) n n').
Proof.
  revert acc w. induction ks as [|k ks IH]; intros acc w Hd Hh Hex ns; subst ns; cbn [fold_m].
  { cbn. exists acc, w. rewrite app_nil_r. split_and!; try done; [unfold len_z; cbn; lia|].
    intros k n Hin. by apply elem_of_nil in Hin. }
  destruct (Hex k (list_elem_of_here _ _)) as [n Hn].
  apply NoDup_cons in Hd as [Hk Hd].
  assert (Els : lookup_all (nodes_of w) (k :: ks) = n :: lookup_all (nodes_of w) ks)
    by (unfold lookup_all; cbn; by rewrite Hn).
  rewrite Els in *. apply NoDup_cons in Hh as [Hkn Hh].
  (* the visit of [k] *)
  set (acc1 := acc <| ra_hosts ::= λ d, ddel d (n_nico_host_id n) |>
                   <| ra_findings ::= λ l, l ++ classify (ra_hosts acc) n |>
                   <| ra_orphans ::= λ z, (z + if is_orphan (ra_hosts acc) n then 1 else 0)%Z |>).
  assert (∃ acc' w' n', check_node acc k w = (Ok acc', w')
    ∧ one_entry (nodes_of w) (nodes_of w') k n' ∧ visited (ra_hosts acc) n n'
    ∧ ra_hosts acc' = ra_hosts acc1 ∧ ra_findings acc' = ra_findings acc1
    ∧ ra_orphans acc' = ra_orphans acc1 ∧ ra_ghosts acc' = ra_ghosts acc)
    as (acc' & w' & n' & E & (Hn' & Hother & Hkeys) & Hvis & Eh & Ef & Eo & Eg).
  { pose proof (orphan_node_run k n w Hn) as (n' & w' & Eo & Hone & Hs & Ht & Hid).
    pose proof (one_entry_refl _ _ _ Hn) as Hone0.
    subst acc1. unfold check_node, visited, state_after, is_orphan, classify, dmem, nodes_of in *.
    run. rewrite Hn. cbn.
    destruct (dget (ra_hosts acc) (n_nico_host_id n)) as [h|] eqn:Hhost; cbn.
    - destruct (mirrors _ _); eexists _, w, n; (split; [done|]); cbn;
        rewrite ?app_nil_r, ?Z.add_0_r; by split_and!.
    - rewrite Eo. cbn. eexists _, w', n'. split; [done|]. cbn. by split_and!. }
  assert (Elook : lookup_all (nodes_of w') ks = lookup_all (nodes_of w) ks).
  { apply lookup_all_ext. intros x Hx. apply Hother. by intros ->. }
  destruct (IH acc' w') as (acc2 & w2 & E2 & Ef2 & Eo2 & Eg2 & Eh2 & Ek2 & Hout & Hin).
  { done. } { by rewrite Elook. }
  { intros x Hx. rewrite Hother; [by apply Hex; right|]. by intros ->. }
  rewrite Elook, Eh in *. subst acc1. cbn in *.
  assert (Hun : ∀ m, m ∈ lookup_all (nodes_of w) ks → n_nico_host_id m ≠ n_nico_host_id n).
  { intros m Hm E3. apply Hkn. rewrite <-E3. apply list_elem_of_fmap. by exists m. }
  assert (Hcls : classify (ddel (ra_hosts acc) (n_nico_host_id n)) <$> lookup_all (nodes_of w) ks
                 = classify (ra_hosts acc) <$> lookup_all (nodes_of w) ks).
  { apply list_fmap_ext. intros i m Hm. apply unseen_host, Hun. by eapply list_elem_of_lookup_2. }
  assert (Horp : filterb (is_orphan (ddel (ra_hosts acc) (n_nico_host_id n))) (lookup_all (nodes_of w) ks)
                 = filterb (is_orphan (ra_hosts acc)) (lookup_all (nodes_of w) ks)).
  { apply List.filter_ext_in. intros m Hm%list_elem_of_In. by apply unseen_host, Hun. }
  exists acc2, w2. split; [unfold mbind, M_bind; by rewrite E|]. split_and!.
  - rewrite Ef2, Ef, Hcls. cbn. by rewrite <-app_assoc.
  - rewrite Eo2, Eo, Horp. cbn [filterb List.filter]. unfold filterb, len_z.
    destruct (is_orphan (ra_hosts acc) n); cbn [length]; lia.
  - by rewrite Eg2.
  - done.
  - by rewrite Ek2.
  - intros x [Hne Hx]%not_elem_of_cons. rewrite Hout by done. by apply Hother.
  - intros x m [->|Hx]%elem_of_cons Hm.
    + exists n'. split; [by rewrite Hout|]. assert (m = n) as -> by congruence. done.
    + assert (x ≠ k) as Hne by (by intros ->).
      destruct (Hin x m Hx) as (m' & Hm' & Hs & Hr); [by rewrite Hother|].
      exists m'. split; [done|]. split; [|done]. rewrite Hs.
      apply unseen_host, Hun, elem_of_lookup_all. by exists x.
Qed.

(** ** The hosts that no node mirrors *)
Definition unmatched (hosts : dict NicoHost) (ns : list NodeInstance) : list NicoHost :=
  dvalues (filterb (λ kh, negb (memb kh.1 (n_nico_host_id <$> ns))) hosts).
Lemma ddel_filter {V} (d : dict V) k :
  dict_wf d → ddel d k = filterb (λ kv, negb (String.eqb k kv.1)) d.
Proof.
  unfold dict_wf, dkeys, filterb. induction d as [|[k1 v1] d IH]; [done|].
  rewrite fmap_cons. intros [Hn Hd]%NoDup_cons. cbn [List.filter fst].
  change (ddel ((k1, v1) :: d) k) with (if String.eqb k k1 then d else (k1, v1) :: ddel d k). destruct (String.eqb_spec k k1) as [->|Hne]; cbn.
  - symmetry. apply List.forallb_filter_id, List.forallb_forall.
    intros [k2 v2] Hin%list_elem_of_In. cbn. apply negb_true_iff, String.eqb_neq. intros ->.
    apply Hn, list_elem_of_fmap. by exists (k2, v2).
  - f_equal. by apply IH.
Qed.
Lemma filterb_filterb {A} (p q : A → bool) l : filterb p (filterb q l) = filterb (λ x, q x && p x) l.
Proof. unfold filterb. induction l as [|x l IH]; cbn; [done|]. destruct (q x); cbn; by rewrite IH. Qed.
Lemma matched_values hosts ns : dict_wf hosts → dvalues (matched hosts ns) = unmatched hosts ns.
Proof.
  unfold unmatched, matched. revert hosts. induction ns as [|n ns IH]; intros hosts Hw; cbn [foldl].
  - f_equal. symmetry. apply List.forallb_filter_id, List.forallb_forall. done.
  - rewrite IH by by apply dict_wf_ddel. rewrite (ddel_filter _ _ Hw), filterb_filterb.
    f_equal. apply List.filter_ext. intros [k h]. unfold memb. cbn. rewrite negb_orb, (String.eqb_sym k).
    done.
Qed.
Lemma foldl_inv {A B} (P : A → Prop) (f : A → B → A) l x :
  P x → (∀ a b, P a → P (f a b)) → P (foldl f x l).
Proof. revert x. induction l as [|b l IH]; intros x Hx Hf; cbn; [done|]. by apply IH; [apply Hf|]. Qed.
Definition listed_hosts (s : Store) (hs : list NicoHost) : dict NicoHost :=
  drop_cpu_hosts (dvalues (st_cpu_nodes s)) (foldl (λ d h, dset d (h_id h) h) [] hs).
Lemma listed_hosts_wf s hs : dict_wf (listed_hosts s hs).
Proof.
  unfold listed_hosts, drop_cpu_hosts. apply (foldl_inv dict_wf).
  - apply (foldl_inv dict_wf); [apply dict_wf_nil|]. intros. by apply dict_wf_dset.
  - intros d cn Hd. destruct (truthy _); [by apply dict_wf_ddel|done].
Qed.

(** ** The loop over the ghosts *)
Definition registered (h : NicoHost) (k : string) (n : NodeInstance) : Prop :=
  k = ghost_id h ∧ n_state n = NS_discovered ∧ n_tenant_id n = None ∧ n_nico_host_id n = h_id h.
(** The node table gains an entry for each ghost that has none, and no other. *)
Definition gains (hs : list NicoHost) (d d' : dict NodeInstance) : Prop :=
  (∀ k n, dget d k = Some n → dget d' k = Some n)
  ∧ (∀ k n, dget d' k = Some n → dget d k = None → ∃ h, h ∈ hs ∧ registered h k n)
  ∧ ∀ h, h ∈ hs → is_Some (dget d' (ghost_id h)).
Lemma register_ghost_run h acc w :
  ∃ w', register_ghost acc h w
      = (Ok (acc <| ra_ghosts ::= λ z, (z + 1)%Z |> <| ra_findings ::= λ l, l ++ [ghost_finding h] |>), w')
    ∧ gains [h] (nodes_of w) (nodes_of w').
Proof.
  unfold register_ghost, nodes_of. run. destruct (dmem _ _) eqn:Hm.
  - exists w. split; [done|]. split_and!; [done|congruence|]. intros h' ->%list_elem_of_singleton. by apply dmem_spec.
  - apply dmem_false in Hm. eexists. split; [done|]. cbn. split_and!.
    + intros k n Hk. rewrite dget_dset_ne; [done|congruence].
    + intros k n. rewrite dget_dset. destruct (String.eqb_spec k (ghost_id h)) as [->|]; [|congruence].
      intros [= <-] _. exists h. split; [by left|by split_and!].
    + intros h' ->%list_elem_of_singleton. rewrite dget_dset_eq. by eexists.
Qed.
Lemma register_ghosts_run hs acc w :
  ∃ acc' w', fold_m register_ghost acc hs w = (Ok acc', w')
    ∧ ra_findings acc' = ra_findings acc ++ (ghost_finding <$> hs)
    ∧ ra_ghosts acc' = (ra_ghosts acc + len_z hs)%Z
    ∧ ra_orphans acc' = ra_orphans acc
    ∧ gains hs (nodes_of w) (nodes_of w').
Proof.
  revert acc w. induction hs as [|h hs IH]; intros acc w; cbn [fold_m].
  { exists acc, w. cbn. rewrite app_nil_r, Z.add_0_r. split_and!; try done. split_and!; [done|congruence|].
    by intros h Hh%elem_of_nil. }
  destruct (register_ghost_run h acc w) as (w1 & E & Hk1 & Hf1 & Hs1).
  destruct (IH (acc <| ra_ghosts ::= λ z, (z + 1)%Z |> <| ra_findings ::= λ l, l ++ [ghost_finding h] |>) w1)
    as (acc' & w' & E' & Ef & Eg & Eo & Hk & Hf & Hs). exists acc', w'.
  split; [by rewrite (bind_ok _ _ _ _ _ E)|]. split_and!.
  - rewrite Ef. cbn. by rewrite <-app_assoc.
  - rewrite Eg. unfold len_z. cbn. lia.
  - by rewrite Eo.
  - split_and!; [auto|..].
    + intros k n En Hnone. destruct (dget (nodes_of w1) k) as [n1|] eqn:E1.
      * assert (n1 = n) as -> by (apply Hk in E1; congruence).
        destruct (Hf1 k n E1 Hnone) as (h' & ->%list_elem_of_singleton & Hr). exists h. split; [by left|done].
      * destruct (Hf k n En E1) as (h' & Hin & Hr). exists h'. split; [by right|done].
    + intros h' [->|Hin]%elem_of_cons; [|by apply Hs]. destruct (Hs1 h) as [n En]; [by left|]. exists n. by apply Hk.
Qed.

Lemma reconcile_run a `{!AdapterFrame a} w hs :
  (a_list_hosts a w).1 = Ok hs → dict_wf (nodes_of w) →
  NoDup (n_nico_host_id <$> dvalues (nodes_of w)) →
  let hosts := listed_hosts (w_store w) hs in
  let nodes := dvalues (nodes_of w) in
  ∃ rep w', reconcile a w = (Ok rep, w')
    ∧ rr_findings rep = concat (classify hosts <$> nodes) ++ (ghost_finding <$> unmatched hosts nodes)
    ∧ rr_orphans_cordoned rep = len_z (filterb (is_orphan hosts) nodes)
    ∧ rr_ghosts_registered rep = len_z (unmatched hosts nodes)
    ∧ (rr_ok rep = true ↔ ∀ f, f ∈ rr_findings rep → rf_severity f ≠ "critical")
    ∧ (∀ k n, dget (nodes_of w) k = Some n →
        ∃ n', dget (nodes_of w') k = Some n' ∧ visited hosts n n')
    ∧ (∀ k n, dget (nodes_of w') k = Some n → dget (nodes_of w) k = None →
        ∃ h, h ∈ unmatched hosts nodes ∧ registered h k n)
    ∧ (∀ h, h ∈ unmatched hosts nodes → is_Some (dget (nodes_of w') (ghost_id h)))
    ∧ rr_checked_hosts rep = len_z (foldl (λ d h, dset d (h_id h) h) [] hs)
    ∧ rr_checked_nodes rep = len_z (nodes_of w').
Proof.
  intros Hl Hw Hd hosts nodes. pose proof (steps_cplane_store _ af_list_hosts w) as Hs.
  unfold reconcile. rewrite (bind_ok _ _ _ _ _ (ok_run _ _ _ Hl)). set (w1 := (a_list_hosts a w).2) in *.
  assert (w_store w1 = w_store w) as Es by exact Hs.
  assert (nodes_of w1 = nodes_of w) as En by (unfold nodes_of; by rewrite Es).
  do 2 (erewrite bind_ok; [|reflexivity]). cbv zeta.
  rewrite Es. fold (listed_hosts (w_store w) hs). fold hosts. fold (nodes_of w).
  destruct (check_nodes_run (dkeys (nodes_of w)) (mkAcc hosts [] 0 0 0) w1)
    as (acc & w2 & E2 & Ef & Eo & Eg & Eh & Ek & _ & Hin).
  { exact Hw. } { by rewrite En, lookup_all_keys. }
  { intros k Hk. rewrite En. by apply dget_is_Some_in. }
  rewrite En, (lookup_all_keys _ Hw) in Ef, Eo, Eh. cbn in Ef, Eo, Eg, Eh.
  fold nodes in Ef, Eo, Eh. rewrite (bind_ok _ _ _ _ _ E2).
  destruct (register_ghosts_run (dvalues (ra_hosts acc)) acc w2) as (acc' & w3 & E3 & Ef3 & Eg3 & Eo3 & Hn3 & Hf3 & Hs3).
  rewrite (bind_ok _ _ _ _ _ E3). rewrite Eh, matched_values in * by apply listed_hosts_wf. eexists _, w3.
  split; [done|]. cbn. split_and!.
  - by rewrite Ef3, Ef.
  - by rewrite Eo3, Eo.
  - by rewrite Eg3, Eg.
  - rewrite negb_true_iff, anyb_false. setoid_rewrite String.eqb_neq. done.
  - intros k n Hk. destruct (Hin k n) as (n' & Hn' & Hv).
    + apply dget_is_Some_in. by exists n.
    + by rewrite En.
    + exists n'. split; [by apply Hn3|done].
  - intros k n Hk Hnone. apply Hf3; [done|]. apply dget_None_notin. apply dget_None_notin in Hnone. by rewrite Ek, En.
  - done.
  - done.
  - done.
Qed.

(** ** The counters of the report *)
Definition of_kind (kind : string) (fs : list ReconcileFinding) : Z :=
  len_z (filterb (λ f, String.eqb (rf_kind f) kind) fs).
Definition counted (acc : Acc) : Prop :=
  ra_orphans acc = of_kind "ORPHAN" (ra_findings acc)
  ∧ ra_mismatches acc = of_kind "STATE_MISMATCH" (ra_findings acc)
  ∧ ra_ghosts acc = of_kind "GHOST" (ra_findings acc).
Lemma of_kind_snoc kind fs f :
  of_kind kind (fs ++ [f]) = (of_kind kind fs + if String.eqb (rf_kind f) kind then 1 else 0)%Z.
Proof.
  unfold of_kind, filterb, len_z. rewrite List.filter_app, length_app. cbn. destruct (String.eqb _ _); cbn; lia.
Qed.
Lemma check_counted acc nid : counted acc → Returns counted (check_node acc nid).
Proof.
  intros (Ho & Hm & Hg). unfold check_node. apply returns_bind. intros n. cbv zeta.
  destruct (dget (ra_hosts acc) _) as [h|].
  - destruct (mirrors _ _); intros w; unfold counted; cbn; rewrite ?of_kind_snoc; cbn; lia.
  - apply returns_bind. intros _ w. unfold counted. cbn. rewrite !of_kind_snoc. cbn. lia.
Qed.
Lemma ghost_counted acc h : counted acc → Returns counted (register_ghost acc h).
Proof.
  intros (Ho & Hm & Hg). unfold register_ghost. cbv zeta. do 2 (apply returns_bind; intros ?).
  intros w. unfold counted. cbn. rewrite !of_kind_snoc. cbn. lia.
Qed.
Lemma returns_run {A B} (Q : A → Prop) (m : IO A) (f : A → IO B) P :
  Returns Q m → (∀ a, Q a → Returns P (f a)) → Returns P (m ≫= f).
Proof. intros Hm Hf w. specialize (Hm w). unfold mbind, M_bind. destruct (m w) as [[x|] w']; [by apply Hf|done]. Qed.
Lemma reconcile_counts a :
  Returns (λ rep, rr_orphans_cordoned rep = of_kind "ORPHAN" (rr_findings rep)
    ∧ rr_mismatches rep = of_kind "STATE_MISMATCH" (rr_findings rep)
    ∧ rr_ghosts_registered rep = of_kind "GHOST" (rr_findings rep)) (reconcile a).
Proof.
  unfold reconcile. do 3 (apply returns_bind; intros ?). cbv zeta.
  apply (returns_run counted).
  { apply (returns_fold _ (λ acc _, counted acc)); [intros; by apply check_counted|done]. }
  intros acc Hacc. apply (returns_run counted).
  { apply (returns_fold _ (λ acc _, counted acc)); [intros; by apply ghost_counted|done]. }
  intros acc' Hacc'. apply returns_bind. intros s w. exact Hacc'.
Qed.

(** ** The same, said without the code's tables

    The hosts of the compute pool: what NICo lists, less the hosts of CPU nodes *)
Definition compute_hosts (s : Store) (hs : list NicoHost) : list NicoHost :=
  filterb (λ h, negb (anyb (λ c, bool_decide (cn_nico_host_id c = Some (h_id h))) (dvalues (st_cpu_nodes s)))) hs.
Definition host_of (hosts : list NicoHost) (n : NodeInstance) : option NicoHost :=
  find_first (λ h, String.eqb (h_id h) (n_nico_host_id n)) hosts.
Definition one_of {A} `{!EqDecision A} (x : A) (l : list A) : bool := anyb (λ y, bool_decide (x = y)) l.
(** The host states that a node's state may go with *)
Definition expected_hosts (st : NodeLifecycleState) : list NicoHostState :=
  match st with
  | NS_discovered | NS_validating => [HS_discovered; HS_pool_ready]
  | NS_quarantined => [HS_quarantined]
  | NS_pool_ready => [HS_pool_ready]
  | NS_reserved => [HS_reserved]
  | NS_provisioning => [HS_provisioning; HS_provisioned]
  | NS_allocated | NS_in_service | NS_cordoned | NS_draining => [HS_allocated]
  | NS_releasing => [HS_released]
  | NS_sanitizing => [HS_sanitizing]
  | NS_rma => [HS_quarantined; HS_rma]
  end.
(** A finding's kind and severity, the node and the host it names *)
Definition told (f : ReconcileFinding) := (rf_kind f, rf_severity f, rf_node_id f, rf_nico_host_id f).
Definition verdict (hosts : list NicoHost) (n : NodeInstance) :=
  match host_of hosts n with
  | None => [("ORPHAN", "critical", Some (n_id n), Some (n_nico_host_id n))]
  | Some h =>
      if one_of (h_state h) (expected_hosts (n_state n)) then []
      else [("STATE_MISMATCH",
             if one_of (n_state n) [NS_in_service] && one_of (h_state h) [HS_pool_ready; HS_released]
             then "critical" else "major", Some (n_id n), Some (n_nico_host_id n))]
  end.
Definition strangers (hosts : list NicoHost) (nodes : list NodeInstance) : list NicoHost :=
  filterb (λ h, negb (memb (h_id h) (n_nico_host_id <$> nodes))) hosts.
Definition ghost_name (h : NicoHost) : string :=
  "ni-" +:+ (if String.eqb (h_tray_id h) EmptyString then h_id h else h_tray_id h).
Definition ghost_verdict (h : NicoHost) := ("GHOST", "info", Some (ghost_name h), Some (h_id h)).
Definition cordoned_from : list NodeLifecycleState := [NS_pool_ready; NS_reserved; NS_in_service].
Definition settled_state (hosts : list NicoHost) (n : NodeInstance) : NodeLifecycleState :=
  if negb (match host_of hosts n with Some _ => true | None => false end) && one_of (n_state n) cordoned_from then NS_cordoned else n_state n.

Lemma mirrors_expected h n : mirrors h n = one_of h (expected_hosts n).
Proof. by destruct h, n. Qed.
Lemma ghost_name_eq h : ghost_id h = ghost_name h.
Proof. unfold ghost_id, ghost_name, str_or, truthy_str. by destruct (String.eqb _ _). Qed.
Definition paired (hs : list NicoHost) : dict NicoHost := (λ h, (h_id h, h)) <$> hs.
Lemma paired_listed hs d :
  NoDup (dkeys d ++ (h_id <$> hs)) → foldl (λ d h, dset d (h_id h) h) d hs = d ++ paired hs.
Proof.
  revert d. induction hs as [|h hs IH]; intros d Hd; cbn; [by rewrite app_nil_r|].
  assert (dget d (h_id h) = None) as Hnone.
  { apply dget_None_notin. intros Hin. apply NoDup_app in Hd as (_ & Hd & _). apply (Hd _ Hin). by left. }
  rewrite dset_app, IH, <- app_assoc; [done| |done].
  unfold dkeys in *. rewrite fmap_app, <- app_assoc. exact Hd.
Qed.
Lemma paired_filter p hs : filterb p (paired hs) = paired (filterb (λ h, p (h_id h, h)) hs).
Proof. unfold paired, filterb. induction hs as [|h hs IH]; cbn; [done|]. destruct (p _); cbn; by rewrite IH. Qed.
Lemma paired_values hs : dvalues (paired hs) = hs.
Proof. unfold dvalues, paired. rewrite <- list_fmap_compose. apply list_fmap_id. Qed.
Lemma paired_get hs k : dget (paired hs) k = find_first (λ h, String.eqb (h_id h) k) hs.
Proof.
  unfold find_first. induction hs as [|h hs IH]; cbn; [done|].
  rewrite (String.eqb_sym (h_id h)), <- IH. reflexivity.
Qed.
Lemma drop_filter cns d :
  dict_wf d → drop_cpu_hosts cns d
  = filterb (λ kh, negb (anyb (λ c, truthy (cn_nico_host_id c) && String.eqb (default EmptyString (cn_nico_host_id c)) kh.1) cns)) d.
Proof.
  unfold drop_cpu_hosts. revert d. induction cns as [|c cns IH]; intros d Hd; cbn [foldl].
  { symmetry. by apply List.forallb_filter_id, List.forallb_forall. }
  rewrite IH by (destruct (truthy _); [by apply dict_wf_ddel|done]). cbn [anyb List.existsb].
  destruct (truthy (cn_nico_host_id c)) eqn:Et; cbn [andb orb].
  - rewrite ddel_filter, filterb_filterb by done. apply List.filter_ext. intros [k h]. by rewrite negb_orb.
  - done.
Qed.
Lemma listed_paired s hs :
  NoDup (EmptyString :: (h_id <$> hs)) → listed_hosts s hs = paired (compute_hosts s hs).
Proof.
  intros [Hne Hd]%NoDup_cons. unfold listed_hosts. rewrite (paired_listed hs []) by done. cbn.
  rewrite drop_filter, paired_filter.
  2: { unfold dict_wf, dkeys, paired. by rewrite <- list_fmap_compose. }
  f_equal. unfold compute_hosts. apply List.filter_ext_in. intros h Hh%list_elem_of_In. f_equal. cbn.
  unfold anyb. induction (dvalues (st_cpu_nodes s)) as [|c cns IH]; [done|]. cbn [List.existsb]. rewrite IH. f_equal.
  destruct (cn_nico_host_id c) as [x|]; cbn; [|by rewrite bool_decide_eq_false_2].
  unfold truthy_str. destruct (String.eqb_spec x (h_id h)) as [->|Hx].
  - rewrite bool_decide_eq_true_2 by done. rewrite andb_true_r, negb_true_iff, String.eqb_neq.
    intros E. apply Hne. rewrite <- E. by apply list_elem_of_fmap_2.
  - rewrite andb_false_r, bool_decide_eq_false_2; [done|congruence].
Qed.
Lemma verdict_told hs n : told <$> classify (paired hs) n = verdict hs n.
Proof.
  unfold classify, verdict, host_of. rewrite paired_get. destruct (find_first _ hs) as [h|] eqn:Eh; [|done].
  apply find_first_Some in Eh as [_ Eid%String.eqb_eq]. rewrite mirrors_expected. destruct (one_of _ (expected_hosts _)); [done|].
  cbn. unfold told, mismatch_finding, mismatch_severity. cbn. rewrite Eid. do 4 f_equal.
  by destruct (n_state n), (h_state h).
Qed.
Lemma state_settled hs n : state_after (paired hs) n = settled_state hs n.
Proof.
  unfold state_after, settled_state, is_orphan, dmem, host_of. rewrite paired_get.
  destruct (find_first _ hs) as [h|]; cbn.
  - done.
  - by destruct (n_state n).
Qed.

(** C22: When the site controller lists its hosts (under distinct, non-empty ids),
    reconciliation returns a report.  Of the listed hosts, those of CPU nodes are
    left out.  The report holds, in order: for every node without a listed host a
    critical ORPHAN; for every node whose host is in a state that does not go with
    its own a STATE_MISMATCH, critical for a node in service with a pool_ready or
    released host, else major; and for every listed host that no node names a GHOST
    of severity info.  The counters are the numbers of these findings, and the
    report is ok exactly when none is critical.  Every node stays with its tenant
    and its host; only an orphan that is pool_ready, reserved or in service changes
    state, to cordoned; and exactly the ghosts without an entry are registered, as
    discovered nodes without a tenant. *)
Theorem reconcile_spec a `{!AdapterFrame a} w hs :
  (a_list_hosts a w).1 = Ok hs → NoDup (EmptyString :: (h_id <$> hs)) →
  dict_wf (nodes_of w) → NoDup (n_nico_host_id <$> dvalues (nodes_of w)) →
  let hosts := compute_hosts (w_store w) hs in
  let nodes := dvalues (nodes_of w) in
  let ghosts := strangers hosts nodes in
  ∃ rep w', reconcile a w = (Ok rep, w')
    ∧ told <$> rr_findings rep = concat (verdict hosts <$> nodes) ++ (ghost_verdict <$> ghosts)
    ∧ rr_checked_hosts rep = len_z hs ∧ rr_checked_nodes rep = len_z (nodes_of w')
    ∧ rr_orphans_cordoned rep = of_kind "ORPHAN" (rr_findings rep)
    ∧ rr_mismatches rep = of_kind "STATE_MISMATCH" (rr_findings rep)
    ∧ rr_ghosts_registered rep = of_kind "GHOST" (rr_findings rep)
    ∧ (rr_ok rep = true ↔ ∀ f, f ∈ rr_findings rep → rf_severity f ≠ "critical")
    ∧ (∀ k n, dget (nodes_of w) k = Some n →
        ∃ n', dget (nodes_of w') k = Some n' ∧ n_state n' = settled_state hosts n
          ∧ n_tenant_id n' = n_tenant_id n ∧ n_nico_host_id n' = n_nico_host_id n)
    ∧ (∀ k n', dget (nodes_of w') k = Some n' → dget (nodes_of w) k = None →
        ∃ h, h ∈ ghosts ∧ k = ghost_name h ∧ n_state n' = NS_discovered
          ∧ n_tenant_id n' = None ∧ n_nico_host_id n' = h_id h)
    ∧ ∀ h, h ∈ ghosts → is_Some (dget (nodes_of w') (ghost_name h)).
Proof.
  intros Hl Hids Hw Hd hosts nodes ghosts.
  destruct (reconcile_run a w hs Hl Hw Hd) as (rep & w' & E & Ef & _ & _ & Hok & Hk & Hf & Hs & Hch & Hcn).
  pose proof (reconcile_counts a w) as Hc. rewrite E in Hc. destruct Hc as (Ho & Hm & Hg).
  rewrite (listed_paired _ _ Hids) in *. fold hosts nodes in Ef, Hk, Hf, Hs.
  assert (unmatched (paired hosts) nodes = ghosts) as Eu.
  { unfold unmatched. by rewrite paired_filter, paired_values. }
  rewrite Eu in *. exists rep, w'. split_and!; try done.
  - rewrite Ef, fmap_app. f_equal.
    + clear. induction nodes as [|n ns IH]; cbn; [done|]. by rewrite fmap_app, verdict_told, IH.
    + rewrite <- list_fmap_compose. apply list_fmap_ext. intros i h _. cbn. unfold told. cbn. by rewrite ghost_name_eq.
  - rewrite Hch, (paired_listed hs []) by (by apply NoDup_cons in Hids as [_ ?]). unfold len_z, paired. by rewrite length_app, length_fmap.
  - intros k n Hn. destruct (Hk k n Hn) as (n' & Hn' & Hv & Hr). exists n'. by rewrite <- state_settled.
  - intros k n Hn Hnone. destruct (Hf k n Hn Hnone) as (h & Hh & -> & Hr). exists h. by rewrite <- ghost_name_eq.
  - intros h Hh. rewrite <- ghost_name_eq. by apply Hs.
Qed.

(** On the concrete site, with the simulator as it stands after an order *)
Lemma local_list w : (a_list_hosts LocalNicoAdapter w).1 = Ok (dvalues (nc_hosts (w_nico w))).
Proof. reflexivity. Qed.
Lemma demo_nodes_wf : dict_wf (nodes_of Demo.delivered).
Proof. apply (bool_decide_eq_true_1 (NoDup _)). vm_compute. reflexivity. Qed.
Lemma demo_nodes_hosts : NoDup (n_nico_host_id <$> dvalues (nodes_of Demo.delivered)).
Proof. apply (bool_decide_eq_true_1 (NoDup _)). vm_compute. reflexivity. Qed.
Lemma demo_hosts : NoDup (EmptyString :: (h_id <$> dvalues (nc_hosts (w_nico Demo.delivered)))).
Proof. apply (bool_decide_eq_true_1 (NoDup _)). vm_compute. reflexivity. Qed.
Lemma reconcile_spec_witness :
  ∃ rep w', reconcile LocalNicoAdapter Demo.delivered = (Ok rep, w')
    ∧ rr_mismatches rep = of_kind "STATE_MISMATCH" (rr_findings rep).
Proof.
  destruct (reconcile_spec LocalNicoAdapter Demo.delivered _ (local_list _) demo_hosts demo_nodes_wf
              demo_nodes_hosts) as (rep & w' & E & _ & _ & _ & _ & Hm & _).
  exists rep, w'. split; [exact E|exact Hm].
Defined.
End Reconciled.
