(* ===== verification/TraceThms.v ===== *)
(** * Trace bus and audit log: the theorems *)
From stdpp Require Import strings base decidable option numbers list relations.
From S2P Require Import Prelude PyLib Models World Trace SharedSvc Demo.
Local Open Scope string_scope.
Local Open Scope list_scope.
Local Open Scope py_scope.
Import Trace.

Module Logs.

(** What an emission says *)
Record message := mkMessage {
  ms_src : string; ms_dst : string; ms_channel : string; ms_op : string;
  ms_order : option string; ms_host : option string
}.
Definition message_of (e : TraceEvent) : message :=
  mkMessage (te_src e) (te_dst e) (te_channel e) (te_op e) (te_order_id e) (te_host_id e).
Definition send (m : message) : IO unit :=
  emit (ms_src m) (ms_dst m) (ms_channel m) (ms_op m) (ms_order m) (ms_host m).
(** Consecutive sequence numbers, the last one [z] *)
Definition numbered_to (z : Z) (evs : list TraceEvent) : Prop :=
  te_seq <$> evs = (λ i, z - Z.of_nat (length evs) + Z.of_nat i + 1)%Z <$> seq 0 (length evs).
Lemma numbered_snoc z evs e :
  numbered_to z evs → te_seq e = (z + 1)%Z → numbered_to (z + 1) (evs ++ [e]).
Proof.
  unfold numbered_to. intros H He. rewrite length_app, seq_app, !fmap_app, H. cbn. f_equal.
  - apply list_fmap_ext. intros i x _. lia.
  - by rewrite He; f_equal; lia.
Qed.
Lemma numbered_drop z l evs : numbered_to z (l ++ evs) → numbered_to z evs.
Proof.
  unfold numbered_to. rewrite length_app, seq_app, !fmap_app. intros H. apply app_inj_1 in H as [_ ->].
  - replace (0 + length l)%nat with (length l + 0)%nat by lia. rewrite <- fmap_add_seq, <- list_fmap_compose. apply list_fmap_ext. intros i x _. cbn. lia.
  - by rewrite !length_fmap, length_seq.
Qed.
(** [kept] is what a bus of 25000 places holds of the events [all]. *)
Definition latest (all kept : list TraceEvent) : Prop :=
  ∃ dropped, all = dropped ++ kept ∧ N.of_nat (length kept) = N.min 25000 (N.of_nat (length all)).

Lemma send_run m w all :
  latest all (tr_events (w_tracer w)) →
  ∃ e w', send m w = (Ok tt, w') ∧ message_of e = m ∧ te_seq e = (tr_seq (w_tracer w) + 1)%Z
    ∧ tr_seq (w_tracer w') = (tr_seq (w_tracer w) + 1)%Z
    ∧ latest (all ++ [e]) (tr_events (w_tracer w')).
Proof.
  intros (old & -> & Hl). destruct m as [src dst ch op o h]. unfold send, emit. run. cbn.
  set (e := mkTrace _ _ _ _ _ _ _ _).
  exists e. eexists. do 4 (split; [done|]). cbn. rewrite length_app in *. cbn [length]. unfold latest.
  destruct (N.ltb_spec trace_capacity (N.of_nat (length (tr_events (w_tracer w)) + 1))) as [Hlt|Hge];
    unfold trace_capacity in *.
  - destruct (tr_events (w_tracer w)) as [|x evs]; cbn in *; [lia|]. exists (old ++ [x]).
    rewrite <- !app_assoc. split; [done|]. rewrite ?length_app in *. cbn in *. rewrite ?length_app in *. cbn in *. lia.
  - exists old. rewrite <- app_assoc. split; [done|]. rewrite ?length_app in *. cbn in *. lia.
Qed.

(** C40: The trace bus is a bounded, ordered window on what was emitted.  From a
    bus of at most 25000 consecutively numbered events, any sequence of messages is
    emitted in order, each with its parties, channel and operation; of all events,
    the old ones and the new, the bus then holds exactly the latest 25000 (all of
    them when they are fewer), and their numbers are consecutive up to the counter. *)
Theorem trace_window ms w :
  (N.of_nat (length (tr_events (w_tracer w))) ≤ 25000)%N →
  numbered_to (tr_seq (w_tracer w)) (tr_events (w_tracer w)) →
  ∃ evs w', for_each ms send w = (Ok tt, w') ∧ message_of <$> evs = ms
    ∧ tr_seq (w_tracer w') = (tr_seq (w_tracer w) + Z.of_nat (length ms))%Z
    ∧ latest (tr_events (w_tracer w) ++ evs) (tr_events (w_tracer w'))
    ∧ numbered_to (tr_seq (w_tracer w')) (tr_events (w_tracer w) ++ evs)
    ∧ numbered_to (tr_seq (w_tracer w')) (tr_events (w_tracer w')).
Proof.
  intros Hl Hn. set (old := tr_events (w_tracer w)) in *.
  assert (latest old (tr_events (w_tracer w))) as Hk by (exists []; split; [done|subst old; lia]).
  clearbody old. clear Hl. revert old w Hk Hn. induction ms as [|m ms IH]; intros old w Hk Hn; cbn [for_each].
  { exists [], w. rewrite app_nil_r. split_and!; try done; [cbn; lia|]. destruct Hk as (l & -> & _). by eapply numbered_drop. }
  destruct (send_run m w old Hk) as (e & w1 & E & Hm & He & Hs & Hk1).
  destruct (IH (old ++ [e]) w1 Hk1) as (evs & w2 & E2 & Hms & Hs2 & Hk2 & Hn2 & Hn2').
  { rewrite Hs. by apply numbered_snoc. }
  rewrite <- app_assoc in Hk2, Hn2. exists (e :: evs), w2. split_and!; try done.
  - by rewrite (bind_ok _ _ _ _ _ E).
  - cbn. by rewrite Hm, Hms.
  - rewrite Hs2, Hs. cbn [length]. lia.
Qed.

(** A trace query returns the most recent [limit] of the events that match all
    its filters, in order, and leaves the bus alone. *)
Theorem query_spec order_id channel q since limit w :
  (0 < limit)%Z →
  let matching := filterb (event_matches order_id channel q since) (tr_events (w_tracer w)) in
  ∃ r older, query order_id channel q since limit w = (Ok r, w)
    ∧ matching = older ++ r ∧ length r = Nat.min (Z.to_nat limit) (length matching).
Proof.
  intros Hl matching. unfold query. run. fold matching. unfold last_n.
  destruct (limit =? 0)%Z eqn:E0; [lia|]. destruct (0 <? limit)%Z eqn:E1; [|lia].
  eexists _, (take (length matching - Z.to_nat limit) matching). split; [done|].
  split; [by rewrite take_drop|]. rewrite length_drop. lia.
Qed.

(** The audit log is bounded and keeps the most recent entries: an entry is
    appended last under the next sequence number; at most 2000 entries are kept,
    and when the bound is passed exactly the 200 oldest are dropped. *)
Theorem audit_bounded actor action target result tenant w :
  let log := sh_audit_log (w_shared w) in
  (N.of_nat (length log) ≤ Shared.audit_capacity)%N →
  ∃ e w', Shared.audit actor action target result tenant w = (Ok tt, w')
    ∧ au_actor e = actor ∧ au_action e = action ∧ au_target e = target ∧ au_result e = result
    ∧ au_tenant_ref e = tenant ∧ au_seq e = (sh_seq (w_shared w) + 1)%Z
    ∧ sh_seq (w_shared w') = (sh_seq (w_shared w) + 1)%Z
    ∧ (sh_audit_log (w_shared w') = log ++ [e]
       ∨ N.of_nat (length log) = Shared.audit_capacity
         ∧ sh_audit_log (w_shared w') = drop 200 log ++ [e])
    ∧ (N.of_nat (length (sh_audit_log (w_shared w'))) ≤ Shared.audit_capacity)%N.
Proof.
  intros log Hl. unfold Shared.audit, Shared.next_shared_seq, Shared.x_get, upd_shared. run.
  eexists (mkAudit _ _ actor action target result tenant), _. split; [done|]. cbn.
  split_and!; try done; fold log; destruct (N.ltb_spec Shared.audit_capacity
    (N.of_nat (length (log ++ [mkAudit (sh_seq (w_shared w) + 1) (env_clock (w_env w) (w_ticks w))
       actor action target result tenant])))) as [Hlt|Hge].
  - right. rewrite length_app in Hlt. cbn in Hlt. split; [lia|]. apply drop_app_le.
    unfold Shared.audit_capacity in *. lia.
  - by left.
  - rewrite length_drop, length_app in *. cbn in *. unfold Shared.audit_capacity in *. lia.
  - done.
Qed.

Lemma trace_window_witness :
  ∃ evs w', for_each [mkMessage "a" "b" "REST" "op" None None] send Demo.delivered = (Ok tt, w')
    ∧ latest (tr_events (w_tracer Demo.delivered) ++ evs) (tr_events (w_tracer w')).
Proof.
  destruct (trace_window [mkMessage "a" "b" "REST" "op" None None] Demo.delivered)
    as (evs & w' & E & _ & _ & H & _).
  - apply N.leb_le. vm_compute. reflexivity.
  - vm_compute. reflexivity.
  - exists evs, w'. split; [exact E|exact H].
Defined.
Lemma query_spec_witness :
  ∃ r older, query (Some "ord-1") None None 0 10 Demo.delivered = (Ok r, Demo.delivered)
    ∧ filterb (event_matches (Some "ord-1") None None 0) (tr_events (w_tracer Demo.delivered)) = older ++ r.
Proof.
  destruct (query_spec (Some "ord-1") None None 0 10 Demo.delivered eq_refl) as (r & older & E & H & _).
  exists r, older. split; [exact E|exact H].
Defined.
Lemma audit_bounded_witness :
  ∃ w', Shared.audit "a" "b" "c" "success" None Demo.delivered = (Ok tt, w').
Proof.
  destruct (audit_bounded "a" "b" "c" "success" None Demo.delivered) as (e & w' & E & _).
  - apply N.leb_le. vm_compute. reflexivity.
  - exists w'. exact E.
Defined.
End Logs.
