(* ===== verification/SharedThms.v ===== *)
(** * Shared services: theorems

    What the revocation of an order's credentials takes away, and what it leaves. *)
From stdpp Require Import strings base decidable option numbers list relations.
From S2P Require Import Prelude PyLib Models World SharedSvc Demo.
Local Open Scope string_scope.
Local Open Scope list_scope.
Local Open Scope py_scope.

Module SharedThms.
Import Shared.

(** Realms and secrets, which the audit trail and the trace bus leave alone *)
Definition vault (w : World) : dict IamRealm * dict SecretEntry :=
  (sh_realms (w_shared w), sh_secrets (w_shared w)).
Lemma vault_audit a c t r n : Steps (same vault) (audit a c t r n).
Proof. by intros w. Qed.
Lemma vault_emit a b c d e f : Steps (same vault) (emit a b c d e f).
Proof. by intros w. Qed.
#[local] Hint Resolve vault_audit vault_emit : steps.
Lemma audit_total a c t r n : Total (audit a c t r n).
Proof. unfold audit, next_shared_seq, x_get. solve_raises. Qed.

(** Deleting a list of keys *)
Definition purge (ps : list string) (d : dict SecretEntry) : dict SecretEntry := foldl ddel d ps.
Lemma purge_wf ps d : dict_wf d → dict_wf (purge ps d).
Proof. revert d. induction ps as [|p ps IH]; intros d Hd; [done|]. apply IH. by apply dict_wf_ddel. Qed.
Lemma dget_purge ps d k e : dict_wf d → dget (purge ps d) k = Some e ↔ dget d k = Some e ∧ k ∉ ps.
Proof.
  revert d. induction ps as [|p ps IH]; intros d Hd; [split; [split; [done|apply not_elem_of_nil]|by intros []]|].
  change (purge (p :: ps) d) with (purge ps (ddel d p)).
  rewrite IH by by apply dict_wf_ddel. rewrite not_elem_of_cons. destruct (decide (k = p)) as [->|Hne].
  - rewrite dget_ddel_eq by done. naive_solver.
  - rewrite dget_ddel_ne by done. naive_solver.
Qed.
Lemma purge_run ps w :
  ∃ w', for_each ps (λ p, upd_shared (λ s, s <| sh_secrets ::= λ d, ddel d p |>)) w = (Ok tt, w')
    ∧ vault w' = (sh_realms (w_shared w), purge ps (sh_secrets (w_shared w))).
Proof.
  revert w. induction ps as [|p ps IH]; intros w; [by exists w|]. cbn [for_each].
  destruct (IH (w <| w_shared ::= λ s, s <| sh_secrets ::= λ d, ddel d p |> |>)) as (w' & E & H).
  exists w'. split; [exact E|exact H].
Qed.
Definition revoke_client (src : string) (c : OidcClient) : OidcClient :=
  if revocable src c then c <| cl_state := "revoked" |> else c.
Definition order_secrets (src : string) (d : dict SecretEntry) : list string :=
  fst <$> filterb (λ pe, bool_decide (se_order_id pe.2 = Some src)) d.
Definition order_clients (src : string) (r : option IamRealm) : list string :=
  match r with Some r => cl_client_id <$> filterb (revocable src) (rm_clients r) | None => [] end.
Lemma revoke_run tid src rc w :
  let '(realms, secrets) := vault w in
  let purged := order_secrets src secrets in
  ∃ w', revoke_order_credentials tid src rc w = (Ok (order_clients src (dget realms tid), purged), w')
    ∧ vault w' = (dupd realms tid (λ r, r <| rm_clients ::= fmap (revoke_client src) |>), purge purged secrets).
Proof.
  cbn [vault]. set (purged := order_secrets src _). unfold revoke_order_credentials.
  erewrite bind_ok by reflexivity. erewrite bind_ok by reflexivity. erewrite bind_ok by reflexivity. cbv beta.
  set (f := λ r : IamRealm, r <| rm_clients ::= fmap (revoke_client src) |>).
  destruct (purge_run purged (realm_mut tid f w).2) as (w2 & E & Hv).
  rewrite (bind_ok _ _ _ _ _ E). set (tail := when _ _).
  assert (Steps (same vault) tail) as Hs by (unfold tail; solve_steps).
  assert (Total tail) as Ht by (unfold tail; pose proof audit_total; solve_raises).
  destruct (total_run tail w2 Ht) as [[] E2]. exists (tail w2).2. rewrite (bind_ok _ _ _ _ _ E2).
  split; [done|]. rewrite (Hs w2). exact Hv.
Qed.

(** A client id names one client. *)
Definition clients_unique (d : dict IamRealm) : Prop :=
  ∀ k k' r r' c c', dget d k = Some r → dget d k' = Some r' → c ∈ rm_clients r → c' ∈ rm_clients r' →
    cl_client_id c = cl_client_id c' → k = k' ∧ c = c'.
Lemma find_client_in_spec cid rs r c :
  find_client_in cid rs = Some (r, c) → r ∈ rs ∧ c ∈ rm_clients r ∧ cl_client_id c = cid.
Proof.
  induction rs as [|r1 rs IH]; cbn; [done|]. unfold has_client. destruct (find_first _ _) as [c1|] eqn:E.
  - apply find_first_Some in E as [Hc ->%String.eqb_eq%symmetry]. intros [= <- <-]. split_and!; [left|done|done].
  - intros H. destruct (IH H) as (? & ? & ?). split_and!; [by right|done|done].
Qed.
Lemma denied cid actor oid w :
  (∀ r c, find_client_in cid (dvalues (sh_realms (w_shared w))) = Some (r, c) → cl_state c ≠ "active") →
  ∃ w', issue_token cid actor oid w
    = (Raised (HTTPException 403 ("iam: client '" +:+ cid +:+ "' not active")), w').
Proof.
  intros H. unfold issue_token. erewrite bind_ok by reflexivity.
  destruct (find_client_in _ _) as [[r c]|]; [|by eexists].
  specialize (H r c eq_refl). destruct (String.eqb_spec (cl_state c) "active"); [done|by eexists].
Qed.
Lemma revoke_client_id src c : cl_client_id (revoke_client src c) = cl_client_id c.
Proof. unfold revoke_client. by destruct (revocable src c). Qed.
Lemma revoke_client_order src c : cl_order_id (revoke_client src c) = cl_order_id c.
Proof. unfold revoke_client. by destruct (revocable src c). Qed.
Lemma revoked_inactive src c : cl_order_id (revoke_client src c) = Some src → cl_state (revoke_client src c) ≠ "active".
Proof.
  rewrite revoke_client_order. unfold revoke_client, revocable. intros ->. rewrite bool_decide_eq_true_2 by done. cbn.
  by destruct (String.eqb_spec (cl_state c) "active").
Qed.
Lemma elem_of_order_clients src realm cid :
  cid ∈ order_clients src realm ↔ ∃ r c, realm = Some r ∧ c ∈ rm_clients r ∧ revocable src c = true ∧ cl_client_id c = cid.
Proof.
  destruct realm as [r|]; cbn; [|split; [by intros ?%elem_of_nil|naive_solver]].
  rewrite list_elem_of_fmap. setoid_rewrite elem_of_filterb. naive_solver.
Qed.
Lemma elem_of_order_secrets src d p :
  dict_wf d → p ∈ order_secrets src d ↔ ∃ e, dget d p = Some e ∧ se_order_id e = Some src.
Proof.
  intros Hd. unfold order_secrets. rewrite list_elem_of_fmap. setoid_rewrite elem_of_filterb.
  setoid_rewrite bool_decide_eq_true. split.
  - intros ([p' e] & -> & Hin & Ho). exists e. split; [by apply in_dget|done].
  - intros (e & He & Ho). exists (p, e). split_and!; [done|by apply dget_Some_in|done].
Qed.
(** After the rollback no list names anything. *)
Lemma no_elements (l : list string) : (∀ x, x ∉ l) → l = [].
Proof. destruct l as [|x l]; [done|]. intros H. destruct (H x). by left. Qed.

(** C26: Revoking an order's credentials.  [revoke_order_credentials] always
    returns; afterwards no client of the order is active in the tenant's realm and
    no secret of the order exists; the clients of other orders, the other realms
    and the other secrets are as before; what it reports is exactly what it
    revoked and purged; a revoked client is refused a token with 403; and
    revoking again finds nothing. *)
Theorem credentials_revoked tid src rc w :
  let realms := sh_realms (w_shared w) in
  let secrets := sh_secrets (w_shared w) in
  dict_wf realms → dict_wf secrets → clients_unique realms →
  ∃ revoked purged w', revoke_order_credentials tid src rc w = (Ok (revoked, purged), w')
    ∧ (∀ r c, dget (sh_realms (w_shared w')) tid = Some r → c ∈ rm_clients r →
         cl_order_id c = Some src → cl_state c ≠ "active")
    ∧ (∀ p e, dget (sh_secrets (w_shared w')) p = Some e ↔ dget secrets p = Some e ∧ se_order_id e ≠ Some src)
    ∧ (∀ k, k ≠ tid → dget (sh_realms (w_shared w')) k = dget realms k)
    ∧ (∀ r c, dget realms tid = Some r → c ∈ rm_clients r → cl_order_id c ≠ Some src →
         ∃ r', dget (sh_realms (w_shared w')) tid = Some r' ∧ c ∈ rm_clients r')
    ∧ (∀ cid, cid ∈ revoked ↔ ∃ r c, dget realms tid = Some r ∧ c ∈ rm_clients r
         ∧ cl_order_id c = Some src ∧ cl_state c = "active" ∧ cl_client_id c = cid)
    ∧ (∀ p, p ∈ purged ↔ ∃ e, dget secrets p = Some e ∧ se_order_id e = Some src)
    ∧ (∀ cid actor oid, cid ∈ revoked →
         ∃ w'', issue_token cid actor oid w' = (Raised (HTTPException 403 ("iam: client '" +:+ cid +:+ "' not active")), w''))
    ∧ ∀ rc', ∃ w'', revoke_order_credentials tid src rc' w' = (Ok ([], []), w'').
Proof.
  intros realms secrets Hwr Hd Hu. destruct (revoke_run tid src rc w) as (w' & E & Hv). fold realms secrets in E, Hv.
  unfold vault in Hv. injection Hv as Hr Hsec. exists (order_clients src (dget realms tid)), (order_secrets src secrets), w'.
  assert (Hrev : ∀ r c, dget (sh_realms (w_shared w')) tid = Some r → c ∈ rm_clients r →
            ∃ r0 c0, dget realms tid = Some r0 ∧ c0 ∈ rm_clients r0 ∧ c = revoke_client src c0).
  { intros r c. rewrite Hr, dget_dupd_eq. destruct (dget realms tid) as [r0|]; [|done]. intros [= <-]. cbn.
    intros (c0 & -> & Hc0)%list_elem_of_fmap. eauto. }
  assert (Hoff : ∀ r c, dget (sh_realms (w_shared w')) tid = Some r → c ∈ rm_clients r →
            cl_order_id c = Some src → cl_state c ≠ "active").
  { intros r c H1 H2. destruct (Hrev r c H1 H2) as (r0 & c0 & _ & _ & ->). apply revoked_inactive. }
  assert (Hkeep : ∀ p e, dget (sh_secrets (w_shared w')) p = Some e ↔ dget secrets p = Some e ∧ se_order_id e ≠ Some src).
  { intros p e. rewrite Hsec, dget_purge, elem_of_order_secrets by done. naive_solver. }
  split_and!; [exact E|exact Hoff|exact Hkeep|..].
  - intros k Hk. by rewrite Hr, dget_dupd_ne.
  - intros r c Hc Hin Ho. rewrite Hr, dget_dupd_eq, Hc. eexists. split; [done|]. cbn. apply list_elem_of_fmap.
    exists c. split; [|done]. unfold revoke_client, revocable. by rewrite bool_decide_eq_false_2.
  - intros cid. rewrite elem_of_order_clients. unfold revocable. setoid_rewrite andb_true_iff.
    setoid_rewrite bool_decide_eq_true. setoid_rewrite String.eqb_eq. naive_solver.
  - intros p. by apply elem_of_order_secrets.
  - intros cid actor oid (r0 & c0 & H0 & Hc0 & Hrv & <-)%elem_of_order_clients. apply denied.
    intros r c (Hin & Hc & Hid)%find_client_in_spec. apply dvalues_dget in Hin as [k Hk]; [|rewrite Hr; by apply dict_wf_dupd].
    destruct (decide (k = tid)) as [->|Hne].
    + destruct (Hrev r c Hk Hc) as (r1 & c1 & H1 & Hc1 & ->). rewrite revoke_client_id in Hid.
      destruct (Hu tid tid r1 r0 c1 c0 H1 H0 Hc1 Hc0 Hid) as [_ ->]. apply revoked_inactive. rewrite revoke_client_order.
      unfold revocable in Hrv. by apply andb_true_iff in Hrv as [?%bool_decide_eq_true _].
    + rewrite Hr, dget_dupd_ne in Hk by done. by destruct (Hu k tid r r0 c c0 Hk H0 Hc Hc0 Hid).
  - intros rc'. destruct (revoke_run tid src rc' w') as (w'' & E' & _). exists w''.
    rewrite (no_elements (order_clients _ _)), (no_elements (order_secrets _ _)) in E'; [exact E'|..].
    + intros p. rewrite elem_of_order_secrets by (rewrite Hsec; by apply purge_wf).
      intros (e & He & Ho). by apply Hkeep in He as [_ He].
    + intros cid (r & c & H1 & H2 & Hrv & _)%elem_of_order_clients. unfold revocable in Hrv.
      apply andb_true_iff in Hrv as [Ho%bool_decide_eq_true Ha%String.eqb_eq]. by apply (Hoff r c H1 H2 Ho).
Qed.

(** ** On the delivered site *)
#[export] Instance OidcClient_eq_dec : EqDecision OidcClient.
Proof. solve_decision. Defined.
Definition unique_check (d : dict IamRealm) : bool :=
  allb (λ kr, allb (λ kr', allb (λ c, allb (λ c',
    negb (String.eqb (cl_client_id c) (cl_client_id c')) || String.eqb kr.1 kr'.1 && bool_decide (c = c'))
    (rm_clients kr'.2)) (rm_clients kr.2)) d) d.
Lemma unique_check_ok d : unique_check d = true → clients_unique d.
Proof.
  intros H k k' r r' c c' Hk%dget_Some_in Hk'%dget_Some_in Hc Hc' Hid. unfold unique_check in H.
  apply (proj1 (allb_spec _ _) H) in Hk. apply (proj1 (allb_spec _ _) Hk) in Hk'.
  apply (proj1 (allb_spec _ _) Hk') in Hc. apply (proj1 (allb_spec _ _) Hc) in Hc'. cbn in Hc'.
  rewrite Hid, String.eqb_refl in Hc'. cbn in Hc'. apply andb_true_iff in Hc' as [?%String.eqb_eq ?%bool_decide_eq_true]. done.
Qed.
Lemma delivered_realms_wf : dict_wf (sh_realms (w_shared Demo.delivered)).
Proof. apply (bool_decide_unpack _). vm_compute. exact I. Qed.
Lemma delivered_secrets_wf : dict_wf (sh_secrets (w_shared Demo.delivered)).
Proof. apply (bool_decide_unpack _). vm_compute. exact I. Qed.
Lemma delivered_clients_unique : clients_unique (sh_realms (w_shared Demo.delivered)).
Proof. apply unique_check_ok. vm_compute. reflexivity. Qed.
Lemma delivered_client : ∃ r c, dget (sh_realms (w_shared Demo.delivered)) "tnt-acme" = Some r ∧ c ∈ rm_clients r
  ∧ cl_order_id c = Some "ord-1" ∧ cl_state c = "active" ∧ cl_client_id c = "sa-ord-1".
Proof. eexists _, _. split; [vm_compute; reflexivity|]. split; [right; left|]. split_and!; reflexivity. Qed.
Lemma token_before : (issue_token "sa-ord-1" "api" None Demo.delivered).1 = Ok "eyJ.fake.tok5".
Proof. vm_compute. reflexivity. Qed.
Lemma credentials_revoked_witness :
  (issue_token "sa-ord-1" "api" None Demo.delivered).1 = Ok "eyJ.fake.tok5"
  ∧ ∃ revoked purged w', revoke_order_credentials "tnt-acme" "ord-1" "ord-9" Demo.delivered = (Ok (revoked, purged), w')
    ∧ (∃ w'', issue_token "sa-ord-1" "api" None w'
         = (Raised (HTTPException 403 ("iam: client '" +:+ "sa-ord-1" +:+ "' not active")), w''))
    ∧ ∀ rc, ∃ w'', revoke_order_credentials "tnt-acme" "ord-1" rc w' = (Ok ([], []), w'').
Proof.
  destruct (credentials_revoked "tnt-acme" "ord-1" "ord-9" Demo.delivered delivered_realms_wf delivered_secrets_wf
    delivered_clients_unique) as (revoked & purged & w' & Er & _ & _ & _ & _ & Hrev & _ & Hdeny & Hagain).
  split; [exact token_before|]. exists revoked, purged, w'. split; [exact Er|]. split; [|exact Hagain].
  apply Hdeny, Hrev, delivered_client.
Defined.
End SharedThms.
