(* ===== verification/MetricsThms.v ===== *)
(** * Request metrics: the theorem

    The sliding windows, which each reading trims in place, give the rates that
    one would compute from the complete log of requests. *)
From Stdlib Require Import QArith Sorted.
From stdpp Require Import strings base decidable option numbers list sorting.
From S2P Require Import Prelude PyLib Metrics.
Local Open Scope string_scope.
Local Open Scope list_scope.
Local Open Scope py_scope.

Module MetricsThms.
Import Metrics.

(** ** The history of a collector: requests and readings, with their times *)
Inductive op := Record_ (path : string) (t : Q) | Read_ (t : Q).
Definition op_time (o : op) : Q := match o with Record_ _ t | Read_ t => t end.
Definition apply (c : Collector) (o : op) : Collector :=
  match o with Record_ p t => record p t c | Read_ t => (snapshot t c).1 end.
Definition run (ops : list op) : Collector := foldl apply empty_collector ops.

(** ** The reference: everything from the log *)
Definition grand_log (ops : list op) : list Q :=
  omap (λ o, match o with Record_ _ t => Some t | Read_ _ => None end) ops.
Definition module_log (m : string) (ops : list op) : list Q :=
  omap (λ o, match o with
             | Record_ p t => if memb m (modules_for_path p) then Some t else None
             | Read_ _ => None
             end) ops.
Definition recent (now : Q) (log : list Q) : list Q := filterb (Qle_bool (now - WINDOW_S)) log.
Definition rate (now : Q) (log : list Q) : Q :=
  round_q 1000 (inject_Z (Z.of_nat (length (recent now log))) / WINDOW_S).
Definition len (l : list Q) : Z := Z.of_nat (length l).
Definition stat_of (now : Q) (ops : list op) (m : string) : ModuleStat :=
  let log := module_log m ops in
  mkStat m (len log) (rate now log) ((λ t, round_q 10 (now - t)) <$> last log).
(** Times do not run backwards. *)
Definition in_order (ops : list op) (now : Q) : Prop := StronglySorted Qle ((op_time <$> ops) ++ [now]).

(** ** A trimmed window *)
Lemma expire_filter cut l :
  StronglySorted Qle l → expire cut l = filterb (Qle_bool cut) l.
Proof.
  induction 1 as [|t l Hs IH Hall]; cbn; [done|]. destruct (Qle_bool cut t) eqn:E; [|done].
  f_equal. clear IH. induction l as [|u l IHl]; cbn; [done|].
  apply Forall_cons in Hall as [Hu Hall]. apply Qle_bool_iff in E.
  rewrite (proj2 (Qle_bool_iff cut u)) by (eapply Qle_trans; eauto).
  f_equal. apply IHl; [by apply StronglySorted_inv in Hs as []|done].
Qed.
Lemma filter_filter_le c1 c2 l :
  (c1 <= c2)%Q → filterb (Qle_bool c2) (filterb (Qle_bool c1) l) = filterb (Qle_bool c2) l.
Proof.
  intros Hc. unfold filterb. induction l as [|t l IH]; cbn; [done|].
  destruct (Qle_bool c1 t) eqn:E1; cbn; [by rewrite IH|].
  destruct (Qle_bool c2 t) eqn:E2; [|done]. apply Qle_bool_iff in E2.
  assert ((c1 <= t)%Q) as H by (eapply Qle_trans; eauto). apply Qle_bool_iff in H. congruence.
Qed.

(** [win] is [log] without some entries older than the window at [T]. *)
Definition trimmed (T : Q) (log win : list Q) : Prop :=
  ∃ cut, (cut <= T - WINDOW_S)%Q ∧ win = filterb (Qle_bool cut) log.
Lemma trimmed_nil T : trimmed T [] [].
Proof. exists (T - WINDOW_S)%Q. split; [apply Qle_refl|done]. Qed.
Lemma trimmed_later T T' log win : (T <= T')%Q → trimmed T log win → trimmed T' log win.
Proof.
  intros HT (cut & Hc & ->). exists cut. split; [|done].
  eapply Qle_trans; [exact Hc|]. by apply Qplus_le_compat; [|apply Qle_refl].
Qed.
Lemma trimmed_snoc T log win : trimmed T log win → trimmed T (log ++ [T]) (win ++ [T]).
Proof.
  intros (cut & Hc & ->). exists cut. split; [done|]. unfold filterb. rewrite List.filter_app. f_equal.
  cbn. rewrite (proj2 (Qle_bool_iff cut T)); [done|]. eapply Qle_trans; [exact Hc|].
  unfold Qminus. rewrite <-(Qplus_0_r T) at 2. apply Qplus_le_compat; [apply Qle_refl|done].
Qed.
Lemma trimmed_expire T log win :
  StronglySorted Qle log → trimmed T log win → expire (T - WINDOW_S) win = recent T log.
Proof.
  intros Hs (cut & Hc & ->). unfold recent. rewrite <-(filter_filter_le cut (T - WINDOW_S)) by done.
  apply expire_filter. clear Hc. induction Hs as [|t l Hs IH Hall]; cbn; [constructor|].
  unfold filterb in *. cbn. destruct (Qle_bool cut t); [|done]. constructor; [done|].
  apply Forall_forall. intros x Hx. rewrite Forall_forall in Hall. apply Hall.
  apply list_elem_of_In in Hx. apply List.filter_In in Hx as [Hx _]. by apply list_elem_of_In.
Qed.
Lemma trimmed_recent T log : trimmed T log (recent T log).
Proof. exists (T - WINDOW_S)%Q. split; [apply Qle_refl|done]. Qed.

(** ** The folds over modules *)
Lemma record_fold t ms c :
  NoDup ms →
  let c' := foldl (record_module t) c ms in
  mc_grand_total c' = mc_grand_total c ∧ mc_grand_win c' = mc_grand_win c
  ∧ ∀ m, let b := memb m ms in
    default 0%Z (dget (mc_total c') m) = (default 0%Z (dget (mc_total c) m) + if b then 1 else 0)%Z
    ∧ default [] (dget (mc_win c') m) = default [] (dget (mc_win c) m) ++ (if b then [t] else [])
    ∧ dget (mc_last c') m = if b then Some t else dget (mc_last c) m.
Proof.
  revert c. induction ms as [|x ms IH]; intros c Hn; cbn zeta.
  - cbn. split_and!; [done..|]. intros m. rewrite app_nil_r. split_and!; [lia|done..].
  - apply NoDup_cons in Hn as [Hx Hn]. cbn [foldl]. destruct (IH (record_module t c x) Hn) as (H1 & H2 & H3).
    split_and!; [by rewrite H1|by rewrite H2|]. intros m. destruct (H3 m) as (A & B & C).
    rewrite A, B, C, memb_cons. destruct (memb m ms) eqn:E; unfold record_module; cbn; rewrite !dget_dset;
      destruct (String.eqb_spec m x) as [->|Hne]; cbn; split_and!; rewrite ?app_nil_r; try done; try lia.
    all: by apply memb_spec in E.
Qed.

Lemma modules_NoDup p : NoDup (modules_for_path p).
Proof.
  unfold modules_for_path. repeat case_match; refine (bool_decide_unpack _ _); vm_compute; exact I.
Qed.
Lemma snapshot_fold now ms c out :
  NoDup ms →
  let '(c', out') := foldl (snapshot_module now) (c, out) ms in
  mc_grand_total c' = mc_grand_total c ∧ mc_grand_win c' = mc_grand_win c
  ∧ mc_total c' = mc_total c ∧ mc_last c' = mc_last c
  ∧ (∀ m, default [] (dget (mc_win c') m)
          = if memb m ms then expire (now - WINDOW_S) (default [] (dget (mc_win c) m))
            else default [] (dget (mc_win c) m))
  ∧ out' = out ++ ((λ m, mkStat m (default 0%Z (dget (mc_total c) m))
                     (_eps (default [] (dget (mc_win c) m)) now).2
                     ((λ t, round_q 10 (now - t)) <$> dget (mc_last c) m)) <$> ms).
Proof.
  intros Hn. revert c out Hn. induction ms as [|x ms IH]; intros c out Hn; cbn [foldl].
  { rewrite app_nil_r. split_and!; done. }
  apply NoDup_cons in Hn as [Hx Hn].
  specialize (IH (c <| mc_win ::= λ d, dset d x (expire (now - WINDOW_S) (default [] (dget (mc_win c) x))) |>)
    (out ++ [mkStat x (default 0%Z (dget (mc_total c) x))
      (_eps (default [] (dget (mc_win c) x)) now).2
      ((λ t, round_q 10 (now - t)) <$> dget (mc_last c) x)]) Hn).
  change (snapshot_module now (c, out) x) with
    (c <| mc_win ::= λ d, dset d x (expire (now - WINDOW_S) (default [] (dget (mc_win c) x))) |>,
     out ++ [mkStat x (default 0%Z (dget (mc_total c) x))
      (_eps (default [] (dget (mc_win c) x)) now).2
      ((λ t, round_q 10 (now - t)) <$> dget (mc_last c) x)]).
  destruct (foldl _ _ ms) as [c' out'] eqn:E. cbn [mc_grand_total mc_grand_win mc_total mc_last mc_win] in IH.
  destruct IH as (H1 & H2 & H3 & H4 & H5 & H6).
  split_and!; [done..| |].
  - intros m. rewrite H5, memb_cons. cbn -[memb dget dset]. rewrite dget_dset. destruct (String.eqb_spec m x) as [->|Hne]; cbn -[memb]; [|done].
    by rewrite (proj2 (memb_false x ms) Hx).
  - rewrite H6, fmap_cons, <-app_assoc. cbn [app]. f_equal. f_equal. apply list_fmap_ext.
    intros i m Him. cbn. rewrite dget_dset. destruct (String.eqb_spec m x) as [->|]; [|done].
    exfalso. apply Hx. by eapply list_elem_of_lookup_2.
Qed.

(** ** The invariant *)
Record exact (T : Q) (ops : list op) (c : Collector) : Prop := {
  ex_total : mc_grand_total c = len (grand_log ops);
  ex_win : trimmed T (grand_log ops) (mc_grand_win c);
  ex_calls m : default 0%Z (dget (mc_total c) m) = len (module_log m ops);
  ex_wins m : trimmed T (module_log m ops) (default [] (dget (mc_win c) m));
  ex_last m : dget (mc_last c) m = last (module_log m ops)
}.
Lemma log_sorted {B} (f : op → option Q) (ops : list op) (T : B) :
  (∀ o t, f o = Some t → op_time o = t) → StronglySorted Qle (op_time <$> ops) →
  StronglySorted Qle (omap f ops).
Proof.
  intros Hf. induction ops as [|o ops IH]; intros Hs; cbn; [constructor|].
  apply StronglySorted_inv in Hs as [Hs Hall]. destruct (f o) as [t|] eqn:E; [|by apply IH].
  constructor; [by apply IH|]. rewrite Forall_forall in Hall. apply Forall_forall.
  intros x (o' & Ho' & Ex)%list_elem_of_omap. rewrite <-(Hf _ _ E), <-(Hf _ _ Ex).
  apply Hall, list_elem_of_fmap. by exists o'.
Qed.
Lemma len_snoc l t : len (l ++ [t]) = (len l + 1)%Z.
Proof. unfold len. rewrite length_app. cbn. lia. Qed.
Lemma exact_record T t p ops c :
  (T <= t)%Q → exact T ops c → exact t (ops ++ [Record_ p t]) (record p t c).
Proof.
  intros HT [H1 H2 H3 H4 H5].
  pose proof (record_fold t (modules_for_path p)
    (c <| mc_grand_total ::= λ z, (z + 1)%Z |> <| mc_grand_win ::= λ l, l ++ [t] |>) (modules_NoDup p))
    as (A & B & C). unfold record. cbv zeta in A, B, C.
  split.
  - rewrite A. cbn. unfold grand_log. rewrite omap_app. cbn. rewrite len_snoc. by f_equal.
  - rewrite B. cbn. unfold grand_log. rewrite omap_app. cbn. by apply trimmed_snoc, (trimmed_later T).
  - intros m. destruct (C m) as (-> & _ & _). cbn. rewrite H3. unfold module_log. rewrite omap_app. cbn.
    destruct (memb m (modules_for_path p)); [by rewrite len_snoc|]. rewrite app_nil_r. lia.
  - intros m. destruct (C m) as (_ & -> & _). cbn. unfold module_log. rewrite omap_app. cbn.
    destruct (memb m (modules_for_path p)); rewrite ?app_nil_r; [apply trimmed_snoc|];
      (apply (trimmed_later T); [done|apply H4]).
  - intros m. destruct (C m) as (_ & _ & ->). cbn. unfold module_log. rewrite omap_app. cbn.
    destruct (memb m (modules_for_path p)); [by rewrite last_snoc|]. rewrite app_nil_r. apply H5.
Qed.
Lemma MODULES_NoDup : NoDup MODULES.
Proof. refine (bool_decide_unpack _ _). vm_compute. exact I. Qed.
Lemma read_log ops t : grand_log (ops ++ [Read_ t]) = grand_log ops.
Proof. unfold grand_log. rewrite omap_app. apply app_nil_r. Qed.
Lemma read_module_log m ops t : module_log m (ops ++ [Read_ t]) = module_log m ops.
Proof. unfold module_log. rewrite omap_app. apply app_nil_r. Qed.
(** A reading at [T], after operations that are not later *)
Lemma snapshot_exact T ops c :
  StronglySorted Qle (op_time <$> ops) → exact T ops c →
  exact T (ops ++ [Read_ T]) (snapshot T c).1
  ∧ (snapshot T c).2 = (stat_of T ops <$> MODULES, len (grand_log ops), rate T (grand_log ops)).
Proof.
  intros Hs [H1 H2 H3 H4 H5]. unfold snapshot.
  pose proof (snapshot_fold T MODULES c [] MODULES_NoDup) as H.
  destruct (foldl _ _ MODULES) as [c' out]. destruct H as (A & B & C & D & E & ->).
  assert (StronglySorted Qle (grand_log ops)) as Hg.
  { apply (log_sorted _ _ tt); [|done]. intros [] ?; cbn; congruence. }
  assert (∀ m, StronglySorted Qle (module_log m ops)) as Hm.
  { intros m. apply (log_sorted _ _ tt); [|done]. intros [] ?; cbn; [|done]. case_match; congruence. }
  unfold _eps. rewrite B, (trimmed_expire T _ _ Hg H2). split.
  - split; cbn; rewrite ?read_log; try done.
    + by rewrite A.
    + apply trimmed_recent.
    + intros m. rewrite read_module_log, C. apply H3.
    + intros m. rewrite read_module_log, E. destruct (memb m MODULES); [|apply H4].
      rewrite (trimmed_expire T _ _ (Hm m) (H4 m)). apply trimmed_recent.
    + intros m. by rewrite read_module_log, D.
  - cbn [app snd]. rewrite A, H1. do 2 f_equal.
    apply list_fmap_ext. intros i m _. unfold stat_of. rewrite H3, H5, (trimmed_expire T _ _ (Hm m) (H4 m)).
    done.
Qed.
Lemma run_exact ops now : in_order ops now → exact now ops (run ops).
Proof.
  unfold in_order, run. revert now. induction ops as [|o ops IH] using rev_ind; intros now Hs.
  - split; cbn; intros; try done; apply trimmed_nil.
  - rewrite foldl_app. cbn [foldl]. rewrite fmap_app in Hs. cbn in Hs.
    assert (in_order ops (op_time o) ∧ (op_time o <= now)%Q) as [Ho Hle].
    { unfold in_order. clear IH. rewrite <-app_assoc in Hs. cbn in Hs.
      induction (op_time <$> ops) as [|x l IHl]; cbn in *.
      - apply StronglySorted_inv in Hs as [_ Hs]. apply Forall_cons in Hs as [Hs _].
        split; [repeat constructor|done].
      - apply StronglySorted_inv in Hs as [Hs Hall]. destruct (IHl Hs) as [H1 H2]. split; [|done].
        constructor; [done|]. rewrite Forall_forall in Hall. apply Forall_forall. intros y Hy.
        apply Hall. apply elem_of_app. apply elem_of_app in Hy as [Hy|Hy]; [by left|right].
        apply list_elem_of_singleton in Hy as ->. left. }
    specialize (IH _ Ho). assert (exact (op_time o) (ops ++ [o]) (apply (foldl apply empty_collector ops) o)) as [].
    { destruct o as [p t|t]; cbn in *.
      - by apply (exact_record t); [apply Qle_refl|].
      - apply snapshot_exact; [|done]. unfold in_order in Ho. clear -Ho.
        induction (op_time <$> ops) as [|x l IHl]; cbn in *; [constructor|].
        apply StronglySorted_inv in Ho as [Ho Hall]. constructor; [by apply IHl|].
        by apply Forall_app in Hall as [? _]. }
    split; try done; intros; by eapply trimmed_later.
Qed.

(** C31: The request metrics are exact: after any history of requests and readings
    whose times do not run backwards, a reading at [now] reports for every module
    the number of its requests, the rate over the requests of the last 60 seconds
    and the time since its last one, and the same totals over all requests, just as
    computed from the complete log, although every reading trims the windows. *)
Theorem metrics_exact ops now :
  in_order ops now →
  (snapshot now (run ops)).2 = (stat_of now ops <$> MODULES, len (grand_log ops), rate now (grand_log ops)).
Proof.
  intros Hs. apply snapshot_exact; [|by apply run_exact]. unfold in_order in Hs.
  induction (op_time <$> ops) as [|x l IHl]; cbn in *; [constructor|].
  apply StronglySorted_inv in Hs as [Hs Hall]. constructor; [by apply IHl|].
  by apply Forall_app in Hall as [? _].
Qed.

(** ** Witness *)
Definition demo_ops : list op :=
  [Record_ "/api/v1/orders" 0; Record_ "/fake-nico/hosts" 30; Read_ 50; Record_ "/api/v1/orders/ord-1/approve" 70;
   Read_ 80].
Lemma metrics_exact_witness :
  in_order demo_ops 90 ∧
  (snapshot 90 (run demo_ops)).2
    = (stat_of 90 demo_ops <$> MODULES, len (grand_log demo_ops), rate 90 (grand_log demo_ops)).
Proof.
  assert (in_order demo_ops 90) as H.
  { unfold in_order, demo_ops. cbn. repeat constructor; unfold Qle; cbn; lia. }
  split; [exact H|]. exact (metrics_exact demo_ops 90 H).
Defined.

End MetricsThms.
