(* ===== verification/GuardThms.v ===== *)
(** * The customer plane's gate: theorems

    Which requests the gate refuses, and that the lists it lets through hold
    exactly what the tenant owns, whatever the client asked for. *)
From Stdlib Require Import QArith Ascii.
From stdpp Require Import strings base decidable option numbers list.
From S2P Require Import Prelude PyLib Models PortalModels World TenancyGuard Business NicoSim VastSim.
From S2P Require Import Tenancy Orders Views K8sApi Demo.
Local Open Scope string_scope.
Local Open Scope list_scope.
Local Open Scope py_scope.

Module GuardThms.
Import Guard.

(** ** Paths *)
(** A path segment: not empty and without a slash *)
Definition is_segment (s : string) : Prop := s ≠ EmptyString ∧ has_char "/" s = false.
(** What may follow a segment *)
Definition path_end (s : string) : Prop := s = EmptyString ∨ ∃ s', s = String "/" s'.
Lemma app_cons c s t : String c s +:+ t = String c (s +:+ t).
Proof. done. Qed.
Lemma strip_prefix_spec p s r : strip_prefix p s = Some r ↔ s = p +:+ r.
Proof.
  revert s. induction p as [|a p IH]; intros s; cbn; [split; [by intros [= ->]|by intros ->]|].
  destruct s as [|b s]; [done|]. destruct (Ascii.eqb_spec a b) as [->|Hne].
  - rewrite IH. split; [by intros ->|]. by intros [= ->].
  - split; [done|]. by intros [= ? _].
Qed.
Lemma segment_app g r : has_char "/" g = false → path_end r → segment (g +:+ r) = g.
Proof.
  intros Hg [->|[r' ->]]; induction g as [|c g IH]; cbn [segment has_char String.append] in *; try done.
  all: rewrite ?app_cons; cbn [segment]; apply orb_false_iff in Hg as [Hc Hg]; rewrite Ascii.eqb_sym, Hc; by rewrite IH.
Qed.
Lemma segment_split s : ∃ r, s = segment s +:+ r ∧ has_char "/" (segment s) = false ∧ path_end r.
Proof.
  induction s as [|c s (r & E & H1 & H2)]; cbn [segment]; [by exists EmptyString; split_and!; [..|left]|].
  destruct (Ascii.eqb_spec c "/") as [->|Hne].
  - exists (String "/" s). cbn [String.append]. split_and!; [done..|right; by eexists].
  - exists r. cbn [has_char]. rewrite app_cons. split_and!; [by f_equal| |done]. rewrite H1.
    apply Ascii.eqb_neq in Hne. by rewrite Ascii.eqb_sym, Hne.
Qed.
Lemma path_id_spec p s g :
  path_id p s = Some g ↔ is_segment g ∧ ∃ r, s = p +:+ g +:+ r ∧ path_end r.
Proof.
  unfold path_id. split.
  - destruct (strip_prefix p s) as [t|] eqn:E; [|done]. apply strip_prefix_spec in E as ->.
    destruct (truthy_str (segment t)) eqn:Ht; [|done]. intros [= <-].
    destruct (segment_split t) as (r & E & H1 & H2). split.
    + split; [|done]. intros E'. by rewrite E' in Ht.
    + exists r. split; [|done]. by rewrite <-E.
  - intros ([Hne Hs] & r & -> & Hr). rewrite (proj2 (strip_prefix_spec p _ (g +:+ r)) eq_refl).
    rewrite (segment_app g r Hs Hr). by destruct g.
Qed.

(** ** The decision, said without the gate's tables *)
(** The requests that the gate looks at: they name a tenant, and their path is
    neither outside the API nor public. *)
Definition customer (rq : Request) (tid : string) : Prop :=
  rq_tenant rq = Some tid ∧ tid ≠ EmptyString
  ∧ starts_with "/api/" (rq_path rq) || starts_with "/fake-" (rq_path rq) = true
  ∧ starts_with "/api/v1/status" (rq_path rq) = false ∧ starts_with "/api/v1/public/" (rq_path rq) = false
  ∧ starts_with "/api/v1/spec" (rq_path rq) = false.
Lemma customer_exempt rq tid : customer rq tid ↔ rq_tenant rq = Some tid ∧ exempt rq = false.
Proof.
  unfold customer, exempt, _PUBLIC_PREFIXES, truthy, truthy_str. cbn [anyb List.existsb].
  rewrite <- (String.eqb_neq tid). split.
  - intros (-> & -> & -> & -> & -> & ->). done.
  - intros [-> H]. rewrite negb_involutive, !orb_false_r in H. apply orb_false_iff in H as [[H1 H2]%orb_false_iff H3].
    apply orb_false_iff in H3 as [H3 [H4 H5]%orb_false_iff]. apply negb_false_iff in H2. by split_and!.
Qed.
Definition reads : list string := ["GET"; "HEAD"; "OPTIONS"].
Definition viewer (rq : Request) : Prop := ∃ x, rq_role rq = Some x ∧ lower (py_strip x) = "viewer".
Definition claims_other (tid : string) (rq : Request) : Prop :=
  ∃ d j, rq_body rq = B_json (J_dict d) ∧ dget d "tenant_id" = Some j ∧ j ≠ J_str tid.
(** The requests of tenant [tid] that must not reach the application *)
Inductive refused (s : Store) (tid : string) (rq : Request) : Prop :=
  | rf_admin : starts_with "/api/v1/admin" (rq_path rq) = true → refused s tid rq
  | rf_tenant t r :
      rq_path rq = "/api/v1/tenants/" +:+ t +:+ r → is_segment t → path_end r → t ≠ tid → refused s tid rq
  | rf_order id o r :
      rq_path rq = "/api/v1/orders/" +:+ id +:+ r → is_segment id → path_end r →
      dget (st_orders s) id = Some o → o_tenant_id o ≠ tid → refused s tid rq
  | rf_cluster id c r :
      rq_path rq = "/api/v1/k8s/clusters/" +:+ id +:+ r → is_segment id → path_end r →
      dget (st_k8s_clusters s) id = Some c → k_tenant_id c ≠ tid → refused s tid rq
  | rf_viewer : viewer rq → rq_method rq ∉ reads → refused s tid rq
  | rf_body : rq_method rq ∉ reads → claims_other tid rq → refused s tid rq.
Lemma viewer_spec rq : role_of rq = "viewer" ↔ viewer rq.
Proof.
  unfold viewer, role_of, str_or. destruct (rq_role rq) as [x|].
  - unfold truthy_str. destruct (String.eqb_spec x EmptyString) as [->|]; cbn [negb].
    + split; [intros H; vm_compute in H; discriminate H|]. intros (y & [= <-] & H). vm_compute in H. discriminate H.
    + split; [by exists x|]. by intros (y & [= <-] & ?).
  - split; [intros H; vm_compute in H; discriminate H|by intros (? & ? & _)].
Qed.

Lemma json_is_str_false j t : json_is_str j t = false ↔ j ≠ J_str t.
Proof.
  destruct j; cbn; try (split; [congruence|done]). rewrite String.eqb_neq. split; congruence.
Qed.
Lemma owned_elsewhere_spec {V} (d : dict V) owner p path tid :
  owned_elsewhere d owner (path_id p path) tid = true ↔
  ∃ id v r, path = p +:+ id +:+ r ∧ is_segment id ∧ path_end r ∧ dget d id = Some v ∧ owner v ≠ tid.
Proof.
  unfold owned_elsewhere. split.
  - destruct (path_id p path) as [id|] eqn:E; [|done]. apply path_id_spec in E as (Hs & r & -> & Hr).
    destruct (dget d id) as [v|] eqn:E; [|done]. rewrite negb_true_iff, String.eqb_neq.
    intros Hv. by exists id, v, r.
  - intros (id & v & r & -> & Hs & Hr & Ev & Hv).
    rewrite (proj2 (path_id_spec p _ id) (conj Hs (ex_intro _ r (conj eq_refl Hr)))), Ev.
    by rewrite negb_true_iff, String.eqb_neq.
Qed.
Lemma tenant_path_spec path tid :
  match path_id _TENANT_PATH path with Some t => negb (String.eqb t tid) | None => false end = true ↔
  ∃ t r, path = _TENANT_PATH +:+ t +:+ r ∧ is_segment t ∧ path_end r ∧ t ≠ tid.
Proof.
  split.
  - destruct (path_id _ path) as [id|] eqn:E; [|done]. apply path_id_spec in E as (Hs & r & -> & Hr).
    rewrite negb_true_iff, String.eqb_neq. intros Hv. by exists id, r.
  - intros (t & r & -> & Hs & Hr & Hv).
    rewrite (proj2 (path_id_spec _ _ t) (conj Hs (ex_intro _ r (conj eq_refl Hr)))).
    by rewrite negb_true_iff, String.eqb_neq.
Qed.
Lemma body_mismatch_spec rq tid :
  _body_tenant_mismatch rq tid = true ↔
  rq_method rq ∉ reads ∧ claims_other tid rq.
Proof.
  unfold _body_tenant_mismatch, claims_other. destruct (memb (rq_method rq) _READ_METHODS) eqn:Em.
  { apply memb_spec in Em. split; [done|]. by intros []. }
  apply memb_false in Em. split.
  - destruct (rq_body rq) as [| |j]; try done. destruct j as [| | | | |d]; try done.
    unfold dmem, jget. destruct (dget d "tenant_id") as [j|] eqn:E; [|done]. cbn.
    rewrite negb_true_iff, json_is_str_false. intros Hj. split; [done|]. by exists d, j.
  - intros (_ & d & j & -> & E & Hj). unfold dmem, jget. rewrite E. cbn.
    by rewrite negb_true_iff, json_is_str_false.
Qed.
(** The decision of the gate, as one test *)
Definition refuses (s : Store) (tid : string) (rq : Request) : bool :=
  starts_with "/api/v1/admin" (rq_path rq) || _scope_violation s (rq_path rq) tid
  || (String.eqb (role_of rq) "viewer" && negb (memb (rq_method rq) _READ_METHODS))
  || _body_tenant_mismatch rq tid.
Lemma refuses_spec s tid rq : refuses s tid rq = true ↔ refused s tid rq.
Proof.
  unfold refuses, _scope_violation.
  rewrite !orb_true_iff, andb_true_iff, negb_true_iff, memb_false, String.eqb_eq, viewer_spec, body_mismatch_spec,
    tenant_path_spec, !owned_elsewhere_spec. split.
  - intros [[[Ha|[[(t & r & ? & ? & ? & ?)|(id & v & r & ? & ? & ? & ? & ?)]|(id & v & r & ? & ? & ? & ? & ?)]]|[]]
      |[? ?]]; by econstructor.
  - intros []; naive_solver.
Qed.

(** What the application sees of an admitted request: on the lists that filter by
    query, the last value of each parameter with the tenant put in *)
Definition scoped_request (rq : Request) (tid : string) : Request :=
  if String.eqb (rq_method rq) "GET"
     && memb (rq_path rq) ["/api/v1/orders"; "/api/v1/k8s/clusters"; "/api/v1/k8s/installs"; "/api/v1/tickets";
          "/api/v1/billing/usage"; "/api/v1/nodes"; "/api/v1/cpu-nodes"; "/api/v1/nvlink-partitions"]
  then rq <| rq_query := dset (foldl (λ d '(k, v), dset d k v) [] (rq_query rq)) "tenant_id" tid |> else rq.
(** ... and what the client sees of its answer: of a list in a 200, the tenant's entries *)
Definition own_item (key tid : string) (x : json) : bool :=
  match x with
  | J_dict d => match dget d key with Some (J_str t) => String.eqb t tid | _ => false end
  | _ => false
  end.
Definition own_entries (key tid : string) (r : Response) : Response :=
  match rs_body r with
  | B_json (J_list l) =>
      if (rs_status r =? 200)%Z then r <| rs_body := B_json (J_list (filterb (own_item key tid) l)) |> else r
  | _ => r
  end.
Definition scoped_response (rq : Request) (tid : string) (r : Response) : Response :=
  if negb (String.eqb (rq_method rq) "GET") then r
  else if String.eqb (rq_path rq) "/api/v1/tenants" then own_entries "id" tid r
  else if String.eqb (rq_path rq) "/fake-vast/views" then own_entries "tenant_ref" tid r
  else if String.eqb (rq_path rq) "/fake-nico/hosts" then own_entries "tenant_ref" tid r
  else r.
Lemma own_entries_eq r key tid : _filter_json_list r key tid = own_entries key tid r.
Proof.
  unfold _filter_json_list, own_entries. destruct (rs_status r =? 200)%Z; cbn [negb]; [|by repeat case_match].
  destruct (rs_body r) as [| |[]]; try done. assert (filterb (item_of key tid) l = filterb (own_item key tid) l) as ->; [|done].
  apply List.filter_ext. intros x. unfold item_of, own_item, jget.
  destruct x as [| | | | |d']; try done. destruct (dget d' key) as [[]|]; done.
Qed.
Lemma scoped_request_eq rq tid :
  scoped_request rq tid
  = if String.eqb (rq_method rq) "GET" && memb (rq_path rq) _QUERY_SCOPED_LISTS then _force_tenant_query rq tid else rq.
Proof. done. Qed.
Lemma scoped_response_eq rq tid r :
  scoped_response rq tid r
  = match dget _RESPONSE_FILTERED_LISTS (rq_path rq) with
    | Some key => if String.eqb (rq_method rq) "GET" then _filter_json_list r key tid else r
    | None => r
    end.
Proof.
  unfold scoped_response, _RESPONSE_FILTERED_LISTS, dget. rewrite <- !own_entries_eq.
  destruct (String.eqb (rq_method rq) "GET"); cbn [negb]; by repeat destruct (String.eqb (rq_path rq) _).
Qed.

Lemma dispatch_cases rq tid w :
  customer rq tid →
  if refuses (w_store w) tid rq
  then ∃ d, ∀ next, dispatch next rq w = (Ok (_forbidden d), w)
  else ∀ next, dispatch next rq w = (next (scoped_request rq tid) ≫= λ r, mret (scoped_response rq tid r)) w.
Proof.
  intros [Ht He]%customer_exempt. unfold refuses, dispatch. rewrite Ht, He, scoped_request_eq. change (default EmptyString (Some tid)) with tid.
  destruct (starts_with "/api/v1/admin" (rq_path rq)); [by eexists|].
  destruct (_scope_violation (w_store w) (rq_path rq) tid) eqn:E1; cbn [orb].
  { eexists. intros next. unfold store, gets, mbind, M_bind. cbv beta iota zeta. by rewrite E1. }
  destruct (String.eqb (role_of rq) "viewer" && negb (memb (rq_method rq) _READ_METHODS)) eqn:E2; cbn [orb].
  { eexists. intros next. unfold store, gets, mbind, M_bind. cbv beta iota zeta. by rewrite E1. }
  destruct (_body_tenant_mismatch rq tid) eqn:E3.
  { eexists. intros next. unfold store, gets, mbind, M_bind. cbv beta iota zeta. by rewrite E1. }
  intros next. unfold store, gets, mbind, M_bind. cbv beta iota zeta. rewrite E1.
  destruct (next _ w) as [[r|e] w']; [|done]. unfold mret, M_ret. by rewrite scoped_response_eq.
Qed.

Lemma dispatch_exempt rq w : (∀ tid, ¬ customer rq tid) → ∀ next, dispatch next rq w = next rq w.
Proof.
  intros Hn next. unfold dispatch. destruct (exempt rq) eqn:He; [done|]. destruct (rq_tenant rq) as [tid|] eqn:Et.
  - destruct (Hn tid). by apply customer_exempt.
  - unfold exempt in He. by rewrite Et in He.
Qed.
(** C8: What the gate of the customer plane decides, for every request.  A request
    that names no tenant, or whose path is outside [/api/] and [/fake-] or public,
    is forwarded as it is.  Any other is refused with 403, without running the
    application or touching the world, exactly when its path lies in the admin
    surface, or names another tenant directly under [/api/v1/tenants/] or an order
    or cluster of another tenant directly under [/api/v1/orders/] or
    [/api/v1/k8s/clusters/], or it writes for a viewer, or it writes with a JSON
    object whose [tenant_id] is another's.  Every other request is forwarded, other
    paths among them; eight lists get the tenant as their query parameter, and of
    three lists the answer keeps the tenant's own entries only. *)
Theorem guard_decides rq w :
  ((∀ tid, ¬ customer rq tid) → ∀ next, dispatch next rq w = next rq w)
  ∧ ∀ tid, customer rq tid →
      (refused (w_store w) tid rq → ∃ d, ∀ next, dispatch next rq w = (Ok (_forbidden d), w))
      ∧ (¬ refused (w_store w) tid rq →
           ∀ next, dispatch next rq w = (next (scoped_request rq tid) ≫= λ r, mret (scoped_response rq tid r)) w).
Proof.
  split; [apply dispatch_exempt|].
  intros tid Hc. pose proof (dispatch_cases rq tid w Hc) as H. rewrite <- refuses_spec.
  by destruct (refuses (w_store w) tid rq).
Qed.

(** ** The lists behind the gate *)
(** How the answers are written, and what the gate relies on *)
Record Encoders := mkEncoders {
  en_order : ServiceOrder → json; en_cluster : K8sCluster → json; en_install : K8sInstall → json;
  en_ticket : Ticket → json; en_node : NodeInstance → json; en_cpu : CpuNode → json;
  en_part : NVLinkPartition → json; en_tenant : Tenant → json; en_view : VastView → json;
  en_host : NicoHost → json
}.
Definition text (o : option string) : json := match o with Some s => J_str s | None => J_null end.
Record encodes (E : Encoders) : Prop := {
  en_tenant_id t : ∃ d, en_tenant E t = J_dict d ∧ dget d "id" = Some (J_str (tn_id t));
  en_view_ref v : ∃ d, en_view E v = J_dict d ∧ dget d "tenant_ref" = Some (J_str (vv_tenant_ref v));
  en_host_ref h : ∃ d, en_host E h = J_dict d ∧ dget d "tenant_ref" = Some (text (h_tenant_ref h))
}.

Section lists.
Context (E : Encoders).

(** A query parameter: the last one of its name *)
Definition param (q : list (string * string)) (k : string) : option string := dget (dict_of_pairs q) k.
Definition written {A} (f : A → json) (m : IO (list A)) : IO (list json) := l ← m; mret (f <$> l).
(** The list routes, by path *)
Definition list_route (path : string) (q : list (string * string)) : option (IO (list json)) :=
  let tenant_id := param q "tenant_id" in
  dget
    [("/api/v1/orders", written (en_order E) (Orders.list_orders tenant_id));
     ("/api/v1/k8s/clusters", written (en_cluster E) (Views.list_k8s_clusters tenant_id));
     ("/api/v1/k8s/installs", written (en_install E) (K8sApi.list_k8s_installs tenant_id));
     ("/api/v1/tickets", written (en_ticket E)
        (Business.list_tickets tenant_id (param q "status") (param q "type") (param q "routed_to")));
     ("/api/v1/nodes", written (en_node E) (Orders.list_nodes (param q "state") tenant_id));
     ("/api/v1/cpu-nodes", written (en_cpu E) (Views.list_cpu_nodes tenant_id));
     ("/api/v1/nvlink-partitions", written (en_part E) (Tenancy.list_partitions (param q "rack_id") tenant_id));
     ("/api/v1/tenants", written (en_tenant E) Tenancy.list_tenants);
     ("/fake-vast/views", written (en_view E) Vast.list_views);
     ("/fake-nico/hosts", written (en_host E) Nico.list_hosts)] path.
Definition serve (rq : Request) : IO Response :=
  match list_route (rq_path rq) (rq_query rq) with
  | Some m => l ← m; mret (mkResponse 200 (B_json (J_list l)))
  | None => mret (mkResponse 404 B_empty)
  end.

(** ** The reference: the whole list, each entry with its owner *)
Definition owned {A} (owner : A → option string) (f : A → json) (l : list A) : list (option string * json) :=
  (λ x, (owner x, f x)) <$> l.
Definition reference (w : World) (path : string) (q : list (string * string))
    : option (list (option string * json)) :=
  let s := w_store w in
  dget
    [("/api/v1/orders", owned (λ o, Some (o_tenant_id o)) (en_order E) (dvalues (st_orders s)));
     ("/api/v1/k8s/clusters", owned (λ c, Some (k_tenant_id c)) (en_cluster E) (dvalues (st_k8s_clusters s)));
     ("/api/v1/k8s/installs", owned (λ i, Some (ki_tenant_id i)) (en_install E)
        (Business.sorted_rev ki_install_id (dvalues (st_k8s_installs s))));
     ("/api/v1/tickets", owned (λ t, Some (tk_tenant_id t)) (en_ticket E)
        (Business.sorted_rev tk_id
          (Business.filter_by (param q "routed_to") tk_routed_to
            (Business.filter_by (param q "type") tk_type
              (Business.filter_by (param q "status") tk_status (dvalues (st_tickets s)))))));
     ("/api/v1/nodes", owned n_tenant_id (en_node E)
        (Business.filter_by (param q "state") (λ n, NodeLifecycleState_value (n_state n))
          (dvalues (st_node_instances s))));
     ("/api/v1/cpu-nodes", owned cn_tenant_id (en_cpu E)
        (sorted (λ a b, String.leb (cn_id a) (cn_id b)) (dvalues (st_cpu_nodes s))));
     ("/api/v1/nvlink-partitions", owned (λ p, Some (p_tenant_id p)) (en_part E)
        (Business.filter_by (param q "rack_id") p_rack_id (dvalues (st_partitions s))));
     ("/api/v1/tenants", owned (λ t, Some (tn_id t)) (en_tenant E) (dvalues (st_tenants s)));
     ("/fake-vast/views", owned (λ v, Some (vv_tenant_ref v)) (en_view E) (dvalues (va_views (w_vast w))));
     ("/fake-nico/hosts", owned h_tenant_ref (en_host E) (dvalues (nc_hosts (w_nico w))))] path.
Definition mine (tid : string) (l : list (option string * json)) : list json :=
  snd <$> filterb (λ x, bool_decide (x.1 = Some tid)) l.

Lemma mine_owned {A} tid (owner : A → option string) f l :
  mine tid (owned owner f l) = f <$> filterb (λ x, bool_decide (owner x = Some tid)) l.
Proof.
  unfold mine, owned, filterb. induction l as [|x l IH]; cbn; [done|].
  destruct (bool_decide (owner x = Some tid)); cbn; by rewrite IH.
Qed.
Lemma filter_by_some {A} (f : A → string) (t : string) l :
  truthy_str t = true →
  Business.filter_by (Some t) f l = filterb (λ x, bool_decide (Some (f x) = Some t)) l.
Proof. intros Ht. unfold Business.filter_by. cbn. by rewrite Ht. Qed.
Lemma filter_by_comm {A} q (f : A → string) p l :
  filterb p (Business.filter_by q f l) = Business.filter_by q f (filterb p l).
Proof. unfold Business.filter_by. destruct (truthy q); [apply filterb_comm|done]. Qed.
Lemma filter_sorted_rev {A} (k : A → string) p l :
  filterb p (Business.sorted_rev k l) = Business.sorted_rev k (filterb p l).
Proof.
  apply filter_sorted; [intros; apply String.leb_total|]. intros x y z H1 H2. by eapply string_leb_trans.
Qed.
Lemma filter_sorted_key {A} (k : A → string) p l :
  filterb p (sorted (λ a b, String.leb (k a) (k b)) l) = sorted (λ a b, String.leb (k a) (k b)) (filterb p l).
Proof.
  apply filter_sorted; [intros; apply String.leb_total|]. intros x y z. apply string_leb_trans.
Qed.
(** The query the gate forwards has the tenant of the header, and the client's
    other parameters. *)
Lemma dict_of_pairs_wf q : dict_wf (dict_of_pairs q).
Proof.
  unfold dict_of_pairs. assert (∀ d : dict string, dict_wf d → dict_wf (foldl (λ d '(k, v), dset d k v) d q)) as H.
  { induction q as [|[k v] q IH]; intros d Hd; cbn; [done|]. auto. }
  apply H. constructor.
Qed.
Lemma dget_dict_of_pairs (d : dict string) k : dict_wf d → param d k = dget d k.
Proof.
  intros Hd. unfold param, dict_of_pairs.
  assert (∀ d0 : dict string, dget (foldl (λ d '(k, v), dset d k v) d0 d) k
    = match dget d k with Some v => Some v | None => dget d0 k end) as ->; [|by destruct (dget d k)].
  unfold dict_wf in Hd. induction d as [|[k1 v1] d IH]; intros d0; cbn; [done|].
  apply NoDup_cons in Hd as [Hk Hd]. rewrite (IH Hd), dget_dset.
  change (dget ((k1, v1) :: d) k) with (if String.eqb k k1 then Some v1 else dget d k). destruct (String.eqb_spec k k1) as [->|]; [|done]. apply dget_None_notin in Hk. cbn in Hk. by rewrite Hk.
Qed.
Lemma forced_param rq tid k :
  param (rq_query (_force_tenant_query rq tid)) k
  = if String.eqb k "tenant_id" then Some tid else param (rq_query rq) k.
Proof.
  change (rq_query (_force_tenant_query rq tid)) with (dset (dict_of_pairs (rq_query rq)) "tenant_id" tid).
  rewrite dget_dict_of_pairs by apply dict_wf_dset, dict_of_pairs_wf.
  by rewrite dget_dset.
Qed.

(** One list route: it lists the reference, and behind the gate what is the tenant's. *)
Definition lists_mine (rq : Request) (tid : string) (w : World) (l : list (option string * json)) : Prop :=
  dispatch serve rq w = (Ok (mkResponse 200 (B_json (J_list (mine tid l)))), w)
  ∧ ∀ rq0, rq_path rq0 = rq_path rq → param (rq_query rq0) "tenant_id" = None →
      (∀ k, k ≠ "tenant_id" → param (rq_query rq0) k = param (rq_query rq) k) →
      serve rq0 w = (Ok (mkResponse 200 (B_json (J_list (snd <$> l)))), w).
Lemma customer_truthy rq tid : customer rq tid → truthy_str tid = true.
Proof.
  intros (_ & Hne & _). unfold truthy_str. by rewrite (proj2 (String.eqb_neq _ _) Hne).
Qed.
Lemma reader_admitted rq tid s :
  rq_method rq = "GET" →
  refuses s tid rq = starts_with "/api/v1/admin" (rq_path rq) || _scope_violation s (rq_path rq) tid.
Proof.
  intros Hm. unfold refuses, _body_tenant_mismatch. rewrite Hm.
  change (memb "GET" _READ_METHODS) with true. by rewrite andb_false_r, !orb_false_r.
Qed.
Lemma all_owned {A} (owner : A → option string) (f : A → json) l : snd <$> owned owner f l = f <$> l.
Proof. unfold owned. by rewrite <-list_fmap_compose. Qed.

(** A route that filters by the query of the gate *)
Lemma query_scoped rq tid w l (m : list (string * string) → IO (list json)) :
  customer rq tid → rq_method rq = "GET" →
  refuses (w_store w) tid rq = false → memb (rq_path rq) _QUERY_SCOPED_LISTS = true →
  dget _RESPONSE_FILTERED_LISTS (rq_path rq) = None →
  (∀ q, list_route (rq_path rq) q = Some (m q)) →
  m (rq_query (_force_tenant_query rq tid)) w = (Ok (mine tid l), w) →
  (∀ rq0, param (rq_query rq0) "tenant_id" = None →
     (∀ k, k ≠ "tenant_id" → param (rq_query rq0) k = param (rq_query rq) k) →
     m (rq_query rq0) w = (Ok (snd <$> l), w)) →
  lists_mine rq tid w l.
Proof.
  intros Hc Hm Hr Hq Hf Hroute Hmine Hall. pose proof (dispatch_cases rq tid w Hc) as H. rewrite Hr in H.
  split.
  - rewrite H.
    assert (scoped_request rq tid = _force_tenant_query rq tid) as ->.
    { rewrite scoped_request_eq. by rewrite Hm, Hq. }
    unfold serve. change (rq_path (_force_tenant_query rq tid)) with (rq_path rq). rewrite Hroute.
    unfold mbind, M_bind. rewrite Hmine. unfold mret, M_ret. by rewrite scoped_response_eq, Hf.
  - intros rq0 Hp Hn Hk. unfold serve. rewrite Hp, Hroute. unfold mbind, M_bind. by rewrite Hall.
Qed.
(** A route whose answer the gate filters *)
Lemma filter_mine {A} (owner : A → option string) (f : A → json) key tid l :
  (∀ x, ∃ d, f x = J_dict d ∧ dget d key = Some (text (owner x))) →
  filterb (item_of key tid) (f <$> l) = mine tid (owned owner f l).
Proof.
  intros Hf. rewrite mine_owned. unfold filterb. induction l as [|x l IH]; cbn; [done|].
  destruct (Hf x) as (d & E' & Ed).
  assert (item_of key tid (f x) = bool_decide (owner x = Some tid)) as ->; [|by destruct (bool_decide _); cbn; rewrite IH].
  rewrite E'. cbn. unfold jget. rewrite Ed. cbn. destruct (owner x) as [t|]; cbn.
  - destruct (String.eqb_spec t tid) as [->|]; [by rewrite bool_decide_eq_true_2|].
    rewrite bool_decide_eq_false_2; congruence.
  - by rewrite bool_decide_eq_false_2.
Qed.
Lemma answer_filtered {A} rq tid w (owner : A → option string) f key (m : IO (list A)) l :
  customer rq tid → rq_method rq = "GET" →
  refuses (w_store w) tid rq = false → memb (rq_path rq) _QUERY_SCOPED_LISTS = false →
  dget _RESPONSE_FILTERED_LISTS (rq_path rq) = Some key →
  (∀ q, list_route (rq_path rq) q = Some (written f m)) →
  (∀ x, ∃ d, f x = J_dict d ∧ dget d key = Some (text (owner x))) →
  m w = (Ok l, w) →
  lists_mine rq tid w (owned owner f l).
Proof.
  intros Hc Hm Hr Hq Hf Hroute Henc Hl. pose proof (dispatch_cases rq tid w Hc) as H. rewrite Hr in H.
  split.
  - rewrite H.
    assert (scoped_request rq tid = rq) as ->.
    { rewrite scoped_request_eq. by rewrite Hq, andb_false_r. }
    unfold serve. rewrite Hroute. unfold written, mbind, M_bind. rewrite Hl. unfold mret, M_ret.
    rewrite scoped_response_eq, Hf, Hm. cbn. unfold _filter_json_list. cbn.
    by rewrite <-(filter_mine owner f key tid l Henc).
  - intros rq0 Hp _ _. unfold serve. rewrite Hp, Hroute. unfold written, mbind, M_bind. rewrite Hl. cbn.
    by rewrite all_owned.
Qed.

Lemma dget_cons {V} k k' (v : V) d : dget ((k', v) :: d) k = if String.eqb k k' then Some v else dget d k.
Proof. done. Qed.
(** The list handlers, behind the gate ([tid] non-empty) and without a tenant *)
Lemma owner_filter {A} (owner : A → option string) (o : option string) (l : list A) :
  (if truthy o then filterb (λ x, bool_decide (owner x = o)) l else l)
  = match o with
    | Some t => if truthy_str t then filterb (λ x, bool_decide (owner x = Some t)) l else l
    | None => l
    end.
Proof. by destruct o. Qed.
Ltac at_path Hl Ep :=
  injection Hl as <-;
  match goal with
  | Hm : rq_method ?rq = "GET" |- lists_mine ?rq ?tid ?w _ =>
      assert (refuses (w_store w) tid rq = false) as Hr
        by (rewrite (reader_admitted rq tid _ Hm), Ep; reflexivity)
  end.
Ltac by_query Hc Hm Ep :=
  eapply query_scoped; [exact Hc|exact Hm|assumption|by rewrite Ep|by rewrite Ep
    |intros q; rewrite Ep; reflexivity| |]; cbv beta;
  [rewrite !forced_param, mine_owned
  |intros rq0 Hn Hk; rewrite all_owned, Hn, ?Hk by done];
  repeat match goal with
  | |- context [String.eqb ?a ?b] =>
      let r := eval vm_compute in (String.eqb a b) in change (String.eqb a b) with r
  end;
  unfold written, mbind, M_bind; cbn.

(** C17: The ten lists that the gate scopes: orders, clusters, installs, tickets,
    nodes, CPU nodes, partitions and tenants under [/api/v1], the views of
    [/fake-vast] and the hosts of [/fake-nico].  Behind the gate each of them answers
    a tenant with exactly its own entries of the full listing, in the listing's
    order, whatever tenant the client asks for and with its other filters in
    effect.  (Other lists, such as the instances, segments and leases of
    [/fake-nico] and the realms of [/fake-shared], are not scoped.) *)
Theorem guarded_lists rq tid w l :
  encodes E → customer rq tid → rq_method rq = "GET" →
  reference w (rq_path rq) (rq_query rq) = Some l →
  lists_mine rq tid w l.
Proof.
  intros HE Hc Hm. pose proof (customer_truthy rq tid Hc) as Ht. unfold reference. rewrite !dget_cons.
  repeat match goal with
  | |- (if String.eqb ?p ?s then _ else _) = _ → _ =>
      destruct (String.eqb_spec p s) as [Ep|_]; [intros Hl; at_path Hl Ep|]
  end; [..|intros Hl; discriminate Hl].
  1-7: by_query Hc Hm Ep; try reflexivity.
  1-7: rewrite ?filter_sorted_rev, ?filter_sorted_key, ?filter_by_comm, ?filter_by_comm, ?filter_by_comm.
  1-7: unfold Orders.list_orders, Views.list_k8s_clusters, K8sApi.list_k8s_installs, Business.list_tickets,
    Orders.list_nodes, Views.list_cpu_nodes, Tenancy.list_partitions, s_values, gets, mbind, M_bind;
    cbv beta iota zeta; cbn [truthy]; rewrite ?Ht, ?filter_by_some by done; try reflexivity.
  1-2: rewrite <-filter_by_comm; reflexivity.
  - eapply answer_filtered; [exact Hc|exact Hm|exact Hr|by rewrite Ep|by rewrite Ep|intros q; rewrite Ep; reflexivity
      |exact (en_tenant_id E HE)|reflexivity].
  - eapply answer_filtered; [exact Hc|exact Hm|exact Hr|by rewrite Ep|by rewrite Ep|intros q; rewrite Ep; reflexivity
      |exact (en_view_ref E HE)|reflexivity].
  - eapply answer_filtered; [exact Hc|exact Hm|exact Hr|by rewrite Ep|by rewrite Ep|intros q; rewrite Ep; reflexivity
      |exact (en_host_ref E HE)|reflexivity].
Qed.
End lists.

(** ** Witnesses *)
(** A viewer of Beta asks for the flow of Acme's order. *)
Definition demo_read : Request :=
  mkRequest "GET" "/api/v1/orders/ord-1/flow" (Some "tnt-beta-labs") (Some " Viewer") [] B_empty.
Lemma guard_decides_witness :
  customer demo_read "tnt-beta-labs" ∧ refused (w_store Demo.delivered) "tnt-beta-labs" demo_read
  ∧ ∃ d, ∀ next, dispatch next demo_read Demo.delivered = (Ok (_forbidden d), Demo.delivered).
Proof.
  assert (customer demo_read "tnt-beta-labs") as H by (split_and!; [reflexivity|discriminate|vm_compute; reflexivity..]).
  assert (refused (w_store Demo.delivered) "tnt-beta-labs" demo_read) as Hr by (apply refuses_spec; vm_compute; reflexivity).
  split_and!; [exact H|exact Hr|].
  exact (proj1 (proj2 (guard_decides demo_read Demo.delivered) "tnt-beta-labs" H) Hr).
Defined.
(** Beta asks for Acme's orders. *)
Definition demo_list : Request :=
  mkRequest "GET" "/api/v1/orders" (Some "tnt-beta-labs") None [("tenant_id", "tnt-acme")] B_empty.
Definition demo_enc : Encoders :=
  mkEncoders (λ o, J_str (o_id o)) (λ c, J_str (k_id c)) (λ i, J_str (ki_install_id i)) (λ t, J_str (tk_id t))
    (λ n, J_str (n_id n)) (λ c, J_str (cn_id c)) (λ p, J_str (p_id p))
    (λ t, J_dict [("id", J_str (tn_id t))]) (λ v, J_dict [("tenant_ref", J_str (vv_tenant_ref v))])
    (λ h, J_dict [("host_id", J_str (h_id h)); ("tenant_ref", text (h_tenant_ref h))]).
Definition demo_all : list (option string * json) :=
  default [] (reference demo_enc Demo.delivered "/api/v1/orders" (rq_query demo_list)).
Lemma guarded_lists_witness :
  encodes demo_enc ∧ customer demo_list "tnt-beta-labs"
  ∧ reference demo_enc Demo.delivered "/api/v1/orders" (rq_query demo_list) = Some demo_all
  ∧ lists_mine demo_enc demo_list "tnt-beta-labs" Demo.delivered demo_all.
Proof.
  assert (encodes demo_enc) as HE by (split; intros; eexists; split; reflexivity).
  assert (customer demo_list "tnt-beta-labs") as Hc by (split_and!; [reflexivity|discriminate|vm_compute; reflexivity..]).
  assert (reference demo_enc Demo.delivered "/api/v1/orders" (rq_query demo_list) = Some demo_all) as Hr
    by (vm_compute; reflexivity).
  split_and!; [exact HE|exact Hc|exact Hr|].
  exact (guarded_lists demo_enc demo_list "tnt-beta-labs" Demo.delivered demo_all HE Hc eq_refl Hr).
Defined.
End GuardThms.
