(* ===== verification/CustomerThms.v ===== *)
(** * Customer operations: theorems

    Tenants do not interfere through the customer plane, and what is not a
    tenant's own is not found. *)
From Stdlib Require Import QArith Ascii.
From stdpp Require Import strings base decidable option numbers list relations.
From S2P Require Import Prelude PyLib Models PortalModels World NicoSim Adapters CustomerOps Demo.
Local Open Scope string_scope.
Local Open Scope list_scope.
Local Open Scope py_scope.

Module CustomerThms.
Import Customer.

(** ** Identifiers *)
Lemma zeros_inj a b s s' :
  no_lead_zero s → no_lead_zero s' → zeros a +:+ s = zeros b +:+ s' → s = s'.
Proof.
  intros Hs Hs'. revert b. induction a as [|a IH]; intros [|b] E; [done| | |].
  - change (s = String "0" (zeros b +:+ s')) in E. by subst s.
  - change (String "0" (zeros a +:+ s) = s') in E. by subst s'.
  - injection E as E. by apply (IH b).
Qed.
Lemma id04_inj p n m : (0 < n)%Z → (0 < m)%Z → id04 p n = id04 p m → n = m.
Proof.
  intros Hn Hm E. unfold id04, zfill in E. apply str_app_inj in E.
  apply zeros_inj in E; [by apply str_of_Z_inj|by apply str_of_Z_lead..].
Qed.

(** ** One table: its entries carry numbered names and an owner *)
Section table.
Context {V : Type} (prefix : string) (owner : V → string).
Implicit Types d : dict V.

(** Every name is [prefix] with a number that the counter has passed. *)
Definition numbered (n : Z) (d : dict V) : Prop :=
  (0 ≤ n)%Z ∧ dict_wf d ∧ ∀ k, k ∈ dkeys d → ∃ i, (0 < i ≤ n)%Z ∧ k = id04 prefix i.
Definition entries (t : string) (d : dict V) : dict V := filterb (λ kv, String.eqb (owner kv.2) t) d.
(** From counter [n] and table [d] to [n'] and [d'] nothing of [t] changes. *)
Definition spared (t : string) (n n' : Z) (d d' : dict V) : Prop :=
  numbered n d → numbered n' d' ∧ entries t d' = entries t d.

Lemma spared_same t n n' d : (n ≤ n')%Z → spared t n n' d d.
Proof.
  intros Hn (H0 & Hw & Hk). split; [|done]. split_and!; [lia|done|].
  intros k Hd. destruct (Hk k Hd) as (i & Hi & ->). exists i. split; [lia|done].
Qed.
Lemma spared_trans t n1 n2 n3 d1 d2 d3 : spared t n1 n2 d1 d2 → spared t n2 n3 d2 d3 → spared t n1 n3 d1 d3.
Proof. intros H1 H2 H. destruct (H1 H) as [H' E1]. destruct (H2 H') as [? E2]. split; [done|]. by rewrite E2. Qed.
Lemma dset_fresh d k v : k ∉ dkeys d → dset d k v = d ++ [(k, v)].
Proof.
  unfold dkeys. induction d as [|[k1 v1] d IH]; [done|]. cbn [fmap list_fmap fst]. intros [Hne Hd]%not_elem_of_cons.
  change (dset ((k1, v1) :: d) k v) with (if String.eqb k k1 then (k1, v) :: d else (k1, v1) :: dset d k v).
  destruct (String.eqb_spec k k1); [done|]. by rewrite IH.
Qed.
Lemma spared_create t n d v : owner v ≠ t → spared t n (n + 1) d (dset d (id04 prefix (n + 1)) v).
Proof.
  intros Hv (H0 & Hw & Hk).
  assert (id04 prefix (n + 1) ∉ dkeys d) as Hfresh.
  { intros Hd. destruct (Hk _ Hd) as (i & Hi & E). apply id04_inj in E; lia. }
  split.
  - split_and!; [lia|by apply dict_wf_dset|]. rewrite dset_fresh by done. intros k.
    unfold dkeys. rewrite fmap_app, elem_of_app. intros [Hd|Hd].
    + destruct (Hk _ Hd) as (i & Hi & ->). exists i. split; [lia|done].
    + apply list_elem_of_singleton in Hd as ->. exists (n + 1)%Z. split; [lia|done].
  - unfold entries, filterb. rewrite dset_fresh, List.filter_app by done. cbn.
    apply String.eqb_neq in Hv. by rewrite Hv, app_nil_r.
Qed.
Lemma entries_dset t d k v v' :
  dget d k = Some v → owner v ≠ t → owner v' ≠ t → entries t (dset d k v') = entries t d.
Proof.
  intros Ek Hv Hv'. apply String.eqb_neq in Hv, Hv'. revert Ek. unfold entries, filterb.
  induction d as [|[k1 v1] d IH]; [done|].
  change (dget ((k1, v1) :: d) k) with (if String.eqb k k1 then Some v1 else dget d k).
  change (dset ((k1, v1) :: d) k v') with (if String.eqb k k1 then (k1, v') :: d else (k1, v1) :: dset d k v').
  destruct (String.eqb k k1); cbn.
  - intros [= ->]. by rewrite Hv, Hv'.
  - intros E. destruct (String.eqb (owner v1) t); [f_equal|]; by apply IH.
Qed.
Lemma spared_mut t n d k v f :
  dget d k = Some v → owner v ≠ t → (∀ x, owner (f x) = owner x) → spared t n n d (dupd d k f).
Proof.
  intros Ek Hv Hf (H0 & Hw & Hk). split.
  - split_and!; [done|by apply dict_wf_dupd|]. intros k'. rewrite dkeys_dupd. apply Hk.
  - unfold dupd. rewrite Ek. by apply (entries_dset _ _ _ v); rewrite ?Hf.
Qed.
Lemma spared_del t n d k v : dget d k = Some v → owner v ≠ t → spared t n n d (ddel d k).
Proof.
  intros Ek Hv (H0 & Hw & Hk). split.
  - split_and!; [done|by apply dict_wf_ddel|]. intros k' Hk'. apply Hk.
    apply dget_is_Some_in in Hk' as [v' E]. apply dget_ddel_Some in E as [_ E]; [|done].
    apply dget_is_Some_in. by exists v'.
  - clear Hk Hw. revert Ek. unfold entries, filterb. induction d as [|[k1 v1] d IH]; cbn; [done|].
    change (dget ((k1, v1) :: d) k) with (if String.eqb k k1 then Some v1 else dget d k).
    change (ddel ((k1, v1) :: d) k) with (if String.eqb k k1 then d else (k1, v1) :: ddel d k).
    destruct (String.eqb k k1); cbn.
    + intros [= ->]. apply String.eqb_neq in Hv. by rewrite Hv.
    + intros E. destruct (String.eqb (owner v1) t); [f_equal|]; by apply IH.
Qed.
Lemma entries_values t d : dvalues (entries t d) = filterb (λ v, String.eqb (owner v) t) (dvalues d).
Proof.
  unfold entries, filterb, dvalues. induction d as [|[k v] d IH]; cbn; [done|].
  destruct (String.eqb (owner v) t); cbn; by rewrite IH.
Qed.
Lemma entries_get t d k v :
  dict_wf d → dget (entries t d) k = Some v ↔ dget d k = Some v ∧ owner v = t.
Proof.
  unfold dict_wf, dkeys, entries, filterb. induction d as [|[k1 v1] d IH]; cbn; [by split; [|intros []]|].
  intros [Hk Hd]%NoDup_cons. specialize (IH Hd).
  change (dget ((k1, v1) :: d) k) with (if String.eqb k k1 then Some v1 else dget d k).
  destruct (String.eqb_spec (owner v1) t) as [Ho|Ho].
  - change (dget ((k1, v1) :: ?l) k) with (if String.eqb k k1 then Some v1 else dget l k).
    destruct (String.eqb k k1); [|done]. split; [by intros [= <-]|by intros [[= <-] _]].
  - rewrite IH. destruct (String.eqb_spec k k1) as [->|]; [|done].
    apply (dget_None_notin d) in Hk. rewrite Hk. split; [by intros []|]. by intros [[= <-] ?].
Qed.
(** The own entries of a changed table *)
Lemma own_get t d k :
  dict_wf d →
  dmem (entries t d) k = match dget d k with Some v => String.eqb (owner v) t | None => false end.
Proof.
  intros Hw. unfold dmem. destruct (dget (entries t d) k) as [v|] eqn:E.
  - apply entries_get in E as [-> <-]; [|done]. by rewrite String.eqb_refl.
  - destruct (dget d k) as [v|] eqn:E'; [|done]. symmetry. apply String.eqb_neq. intros Hv.
    assert (dget (entries t d) k = Some v) by (by apply entries_get). congruence.
Qed.
Lemma own_mut t d k v f :
  dget d k = Some v → owner v = t → owner (f v) = t → entries t (dupd d k f) = dupd (entries t d) k f.
Proof.
  intros Ek Hv Hf. unfold dupd at 1. rewrite Ek. unfold dupd.
  assert (dget (entries t d) k = Some v ∧ entries t (dset d k (f v)) = dset (entries t d) k (f v)) as [-> ->]; [|done].
  revert Ek. unfold entries, filterb. induction d as [|[k1 v1] d IH]; [done|].
  change (dget ((k1, v1) :: d) k) with (if String.eqb k k1 then Some v1 else dget d k).
  change (dset ((k1, v1) :: d) k (f v)) with (if String.eqb k k1 then (k1, f v) :: d else (k1, v1) :: dset d k (f v)).
  destruct (String.eqb k k1) eqn:Ekk; cbn [List.filter snd].
  - intros [= ->]. rewrite Hv, Hf, String.eqb_refl.
    change (dget ((k1, v) :: ?l) k) with (if String.eqb k k1 then Some v else dget l k).
    change (dset ((k1, v) :: ?l) k (f v)) with (if String.eqb k k1 then (k1, f v) :: l else (k1, v) :: dset l k (f v)).
    by rewrite Ekk.
  - intros E. destruct (IH E) as [H1 H2]. destruct (String.eqb (owner v1) t); [|done].
    change (dget ((k1, v1) :: ?l) k) with (if String.eqb k k1 then Some v1 else dget l k).
    change (dset ((k1, v1) :: ?l) k (f v)) with (if String.eqb k k1 then (k1, f v) :: l else (k1, v1) :: dset l k (f v)).
    rewrite Ekk. split; [done|by f_equal].
Qed.
Lemma own_del t d k v : dget d k = Some v → owner v = t → entries t (ddel d k) = ddel (entries t d) k.
Proof.
  intros Ek Hv. revert Ek. unfold entries, filterb. induction d as [|[k1 v1] d IH]; [done|].
  change (dget ((k1, v1) :: d) k) with (if String.eqb k k1 then Some v1 else dget d k).
  change (ddel ((k1, v1) :: d) k) with (if String.eqb k k1 then d else (k1, v1) :: ddel d k).
  destruct (String.eqb k k1) eqn:Ekk; cbn [List.filter snd].
  - intros [= ->]. rewrite Hv, String.eqb_refl.
    change (ddel ((k1, v) :: ?l) k) with (if String.eqb k k1 then l else (k1, v) :: ddel l k). by rewrite Ekk.
  - intros E. destruct (String.eqb (owner v1) t); [|by apply IH].
    change (ddel ((k1, v1) :: ?l) k) with (if String.eqb k k1 then l else (k1, v1) :: ddel l k).
    rewrite Ekk. f_equal. by apply IH.
Qed.
End table.

(** ** The four tables of the customer plane *)
Definition count (cs : dict Z) (c : string) : Z := default 0%Z (dget cs c).
Definition bump (cs : dict Z) (c : string) : dict Z := dset cs c (count cs c + 1)%Z.
Definition numbered_store (s : Store) : Prop :=
  numbered "vol-" (count (st_counters s) "vol") (st_storage_volumes s)
  ∧ numbered "snap-" (count (st_counters s) "snap") (st_storage_snapshots s)
  ∧ numbered "key-" (count (st_counters s) "apikey") (st_api_keys s)
  ∧ numbered "mbr-" (count (st_counters s) "member") (st_members s).
(** What belongs to tenant [t] *)
Record Holdings := mkHoldings {
  ho_volumes : dict Volume; ho_snapshots : dict Snapshot; ho_api_keys : dict ApiKey; ho_members : dict Member
}.
Definition holdings (t : string) (s : Store) : Holdings :=
  mkHoldings (entries vo_tenant_id t (st_storage_volumes s)) (entries sn_tenant_id t (st_storage_snapshots s))
    (entries ap_tenant_id t (st_api_keys s)) (entries mb_tenant_id t (st_members s)).
(** Nothing of [t] changes from [s] to [s']. *)
Definition spares (t : string) (s s' : Store) : Prop :=
  let c := count (st_counters s) in let c' := count (st_counters s') in
  spared "vol-" vo_tenant_id t (c "vol") (c' "vol") (st_storage_volumes s) (st_storage_volumes s')
  ∧ spared "snap-" sn_tenant_id t (c "snap") (c' "snap") (st_storage_snapshots s) (st_storage_snapshots s')
  ∧ spared "key-" ap_tenant_id t (c "apikey") (c' "apikey") (st_api_keys s) (st_api_keys s')
  ∧ spared "mbr-" mb_tenant_id t (c "member") (c' "member") (st_members s) (st_members s').
#[export] Instance spares_preorder t : PreOrder (spares t).
Proof.
  split.
  - intros s. split_and!; by apply spared_same.
  - intros s1 s2 s3 (A1 & B1 & C1 & D1) (A2 & B2 & C2 & D2). split_and!; by eapply spared_trans.
Qed.
Lemma spares_holdings t s s' :
  spares t s s' → numbered_store s → numbered_store s' ∧ holdings t s' = holdings t s.
Proof.
  intros (A & B & C & D) (HA & HB & HC & HD). unfold numbered_store, holdings.
  destruct (A HA) as [? ->], (B HB) as [? ->], (C HC) as [? ->], (D HD) as [? ->]. done.
Qed.

(** Numbering a new entry *)
Lemma count_bump cs c c' : count (bump cs c) c' = if String.eqb c' c then (count cs c + 1)%Z else count cs c'.
Proof. unfold count, bump. rewrite dget_dset. by destruct (String.eqb c' c). Qed.
Lemma count_le cs c c' : (count cs c' ≤ count (bump cs c) c')%Z.
Proof. rewrite count_bump. destruct (String.eqb_spec c' c) as [->|]; lia. Qed.
Lemma spared_count {V} prefix (owner : V → string) t cs c c' d :
  spared prefix owner t (count cs c') (count (bump cs c) c') d d.
Proof. apply spared_same, count_le. Qed.
Lemma spared_new {V} prefix (owner : V → string) t cs c d v :
  owner v ≠ t →
  spared prefix owner t (count cs c) (count (bump cs c) c) d (dset d (id04 prefix (count cs c + 1)) v).
Proof. intros Hv. rewrite count_bump, String.eqb_refl. by apply spared_create. Qed.

Section ops.
Context (http_adapter : string → ComputeAdapter) `{!∀ url, AdapterFrame (http_adapter url)}.
Context (ai_get : string → IO (option json)) (ai_post : string → IO json).
(** The emulator is another process. *)
Context (get_frame : ∀ p, Steps (same w_store) (ai_get p)) (post_frame : ∀ p, Steps (same w_store) (ai_post p)).
Context (h : option string) (t : string) (Hh : h ≠ Some t).
Notation spare := (Steps (on_store (spares t))).

Lemma header_ne : truthy h = true → default EmptyString h ≠ t.
Proof. destruct h as [x|]; [|done]. intros _ E. by apply Hh, (f_equal Some). Qed.
(** Run an operation of the tenant in the header; nothing happens without one. *)
Ltac by_header :=
  intros w; unfold _tenant; run; destruct (truthy h) eqn:Et; run; [|reflexivity];
  pose proof (header_ne Et) as Hne.

Lemma spare_create_volume b : spare (create_volume b h).
Proof. unfold create_volume. by_header. split_and!; cbn; [by apply spared_new|by apply spared_count..]. Qed.
Lemma spare_create_api_key b : spare (create_api_key b h).
Proof.
  unfold create_api_key. by_header.
  split_and!; cbn; [eapply spared_trans; by apply spared_count..| |eapply spared_trans; by apply spared_count].
  eapply spared_trans; [|by apply spared_count]. by apply spared_new.
Qed.
Lemma spare_invite_member b : spare (invite_member b h).
Proof.
  unfold invite_member. by_header. destruct (negb _); run; [reflexivity|].
  split_and!; cbn; [by apply spared_count..|by apply spared_new].
Qed.
Lemma spare_create_snapshot b : spare (create_snapshot b h).
Proof.
  unfold create_snapshot, own_volume. by_header.
  destruct (dget _ _) as [v|]; run; [|reflexivity]. destruct (String.eqb _ _); run; [|reflexivity].
  destruct (vo_used_tb v); run; try (split_and!; cbn; by apply spared_count).
  all: split_and!; cbn; [by apply spared_count|by apply spared_new|by apply spared_count..].
Qed.
Lemma spare_set_qos vid b : spare (set_qos vid b h).
Proof.
  unfold set_qos, own_volume. by_header.
  destruct (dget _ _) as [v|] eqn:Ev; run; [|reflexivity].
  destruct (String.eqb_spec (vo_tenant_id v) (default EmptyString h)) as [Eo|]; run; [|reflexivity].
  split_and!; cbn; [|by apply spared_same..]. eapply spared_mut; [exact Ev|congruence|done].
Qed.
Lemma spare_delete_volume vid : spare (delete_volume vid h).
Proof.
  unfold delete_volume, own_volume. by_header.
  destruct (dget _ _) as [v|] eqn:Ev; run; [|reflexivity].
  destruct (String.eqb_spec (vo_tenant_id v) (default EmptyString h)) as [Eo|]; run; [|reflexivity].
  split_and!; cbn; [|by apply spared_same..]. eapply spared_del; [exact Ev|congruence].
Qed.
Lemma spare_revoke_api_key kid : spare (revoke_api_key kid h).
Proof.
  unfold revoke_api_key. by_header.
  destruct (dget _ _) as [v|] eqn:Ev; run; [|reflexivity].
  destruct (String.eqb_spec (ap_tenant_id v) (default EmptyString h)) as [Eo|]; run; [|reflexivity].
  split_and!; cbn; [by apply spared_same..| |by apply spared_same]. eapply spared_del; [exact Ev|congruence].
Qed.
Lemma spare_update_member mid b : spare (update_member mid b h).
Proof.
  unfold update_member, own_member. by_header.
  destruct (dget _ _) as [v|] eqn:Ev; run; [|reflexivity].
  destruct (String.eqb_spec (mb_tenant_id v) (default EmptyString h)) as [Eo|]; run; [|reflexivity].
  split_and!; cbn; [by apply spared_same..|]. eapply spared_mut; [exact Ev|congruence|done].
Qed.
Lemma spare_remove_member mid : spare (remove_member mid h).
Proof.
  unfold remove_member, own_member. by_header.
  destruct (dget _ _) as [v|] eqn:Ev; run; [|reflexivity].
  destruct (String.eqb_spec (mb_tenant_id v) (default EmptyString h)) as [Eo|]; run; [|reflexivity].
  split_and!; cbn; [by apply spared_same..|]. eapply spared_del; [exact Ev|congruence].
Qed.
Lemma spare_seed_volume tid v : tid ≠ t → spare (seed_volume tid v).
Proof.
  intros Hne w. unfold seed_volume. destruct v; run; try reflexivity.
  destruct (negb _); run; [reflexivity|].
  split_and!; cbn; [by apply spared_new|by apply spared_count..].
Qed.
Lemma steps_get p : spare (ai_get p).
Proof. apply steps_store_frame; [typeclasses eauto|apply get_frame]. Qed.
Lemma spare_seed_volumes tid : tid ≠ t → spare (_seed_volumes ai_get tid).
Proof.
  intros Hne. pose proof (λ v, spare_seed_volume tid v Hne) as Hs. unfold _seed_volumes.
  apply steps_bind; [apply _|eauto with steps|]. intros s.
  destruct (volumes_of s tid); [|apply steps_ret; apply _].
  apply steps_bind; [apply _|apply steps_get|]. intros r. cbv zeta.
  match goal with |- Steps _ (match ?x with _ => _ end) => destruct x end;
    try (apply steps_raise; apply _); apply steps_for_each; try apply _; intros; apply Hs.
Qed.
(** An operation after its header check *)
Lemma spare_header {A} (f : string → IO A) :
  (∀ tid, tid ≠ t → spare (f tid)) → spare (_tenant h ≫= f).
Proof.
  intros Hf w. unfold _tenant. destruct (truthy h) eqn:Et; [|reflexivity].
  exact (Hf _ (header_ne Et) w).
Qed.
Lemma spare_list_volumes : spare (list_volumes ai_get h).
Proof.
  apply spare_header. intros tid Hne. apply steps_bind; [apply _|by apply spare_seed_volumes|]. solve_steps.
Qed.
Lemma frame_owns_node node tid : Steps (same w_store) (_owns_node http_adapter node tid).
Proof.
  unfold _owns_node. apply steps_bind; [apply _| |solve_steps].
  apply steps_try_any; [apply _| |solve_steps]. apply with_adapter; [done|]. intros a Ha. solve_steps.
Qed.
Lemma spare_node_action action node : spare (node_action http_adapter ai_post action node h).
Proof.
  apply spare_header. intros tid Hne.
  apply steps_bind; [apply _|apply steps_store_frame; [typeclasses eauto|apply frame_owns_node]|].
  intros []; cbn; [|apply steps_raise; apply _].
  apply steps_bind; [apply _|apply steps_store_frame; [typeclasses eauto|apply post_frame]|].
  intros op. destruct op; try (apply steps_raise; apply _).
  apply steps_bind; [apply _| |solve_steps].
  destruct (json_hashable _); [|apply steps_raise; apply _].
  apply steps_upd_store. intros s. split_and!; by apply spared_same.
Qed.
End ops.

(** ** Histories of the customer plane *)
Inductive Op :=
  | list_volumes_ | create_volume_ (b : VolumeBody) | set_qos_ (vid : string) (b : QosBody)
  | delete_volume_ (vid : string) | list_snapshots_ | create_snapshot_ (b : SnapBody)
  | list_api_keys_ | create_api_key_ (b : ApiKeyBody) | revoke_api_key_ (kid : string)
  | list_members_ | invite_member_ (b : MemberBody) | update_member_ (mid : string) (b : MemberBody)
  | remove_member_ (mid : string) | node_reboot_ (node : string) | node_replace_ (node : string).

Section histories.
Context (http_adapter : string → ComputeAdapter) `{!∀ url, AdapterFrame (http_adapter url)}.
Context (ai_get : string → IO (option json)) (ai_post : string → IO json).
Context (get_frame : ∀ p, Steps (same w_store) (ai_get p)) (post_frame : ∀ p, Steps (same w_store) (ai_post p)).

Definition exec (h : option string) (o : Op) : IO unit :=
  match o with
  | list_volumes_ => list_volumes ai_get h ≫= λ _, mret tt
  | create_volume_ b => create_volume b h ≫= λ _, mret tt
  | set_qos_ vid b => set_qos vid b h ≫= λ _, mret tt
  | delete_volume_ vid => delete_volume vid h
  | list_snapshots_ => list_snapshots h ≫= λ _, mret tt
  | create_snapshot_ b => create_snapshot b h ≫= λ _, mret tt
  | list_api_keys_ => list_api_keys h ≫= λ _, mret tt
  | create_api_key_ b => create_api_key b h ≫= λ _, mret tt
  | revoke_api_key_ kid => revoke_api_key kid h
  | list_members_ => list_members h ≫= λ _, mret tt
  | invite_member_ b => invite_member b h ≫= λ _, mret tt
  | update_member_ mid b => update_member mid b h ≫= λ _, mret tt
  | remove_member_ mid => remove_member mid h
  | node_reboot_ n => node_reboot http_adapter ai_post n h ≫= λ _, mret tt
  | node_replace_ n => node_replace http_adapter ai_post n h ≫= λ _, mret tt
  end.
Definition run (hist : list (option string * Op)) (w : World) : World :=
  foldl (λ w ho, (exec ho.1 ho.2 w).2) w hist.

Lemma exec_spares h o t : h ≠ Some t → Steps (on_store (spares t)) (exec h o).
Proof.
  intros Hh. destruct o; unfold exec, node_reboot, node_replace;
    eauto using spare_delete_volume, spare_revoke_api_key, spare_remove_member;
    (apply steps_bind; [apply _| |intros; apply steps_ret; apply _]);
    eauto using spare_list_volumes, spare_create_volume, spare_set_qos, spare_create_snapshot,
      spare_create_api_key, spare_invite_member, spare_update_member, spare_node_action.
  all: apply steps_store_frame; [typeclasses eauto|].
  all: unfold list_snapshots, list_api_keys, list_members, _tenant; solve_steps.
Qed.
Lemma run_spares hist t w :
  (∀ h o, (h, o) ∈ hist → h ≠ Some t) → spares t (w_store w) (w_store (run hist w)).
Proof.
  unfold run. revert w. induction hist as [|[h o] hist IH]; intros w Hh; cbn; [reflexivity|].
  etransitivity; [apply (exec_spares h o t); apply (Hh h o); left|]. apply IH. intros h' o' Hin.
  apply (Hh h' o'). by right.
Qed.

(** C16: Tenants do not interfere: whatever sequence of operations other tenants
    (or callers without a tenant) perform on volumes, snapshots, API keys, members
    and nodes, the holdings of a tenant stay as they are, entry for entry. *)
Theorem tenants_do_not_interfere t hist w :
  numbered_store (w_store w) → (∀ h o, (h, o) ∈ hist → h ≠ Some t) →
  numbered_store (w_store (run hist w)) ∧ holdings t (w_store (run hist w)) = holdings t (w_store w).
Proof. intros Hn Hh. eapply spares_holdings; [by apply run_spares|done]. Qed.

(** ** Operations on an entry by its name *)
(** Which entry an operation is about, and the answer when there is none *)
Definition target (o : Op) (own : Holdings) : option (bool * string) :=
  match o with
  | set_qos_ vid _ | delete_volume_ vid => Some (dmem (ho_volumes own) vid, "volume not found")
  | revoke_api_key_ kid => Some (dmem (ho_api_keys own) kid, "api key not found")
  | update_member_ mid _ | remove_member_ mid => Some (dmem (ho_members own) mid, "member not found")
  | _ => None
  end.
(** What it does to the holdings *)
Definition effect (o : Op) (own : Holdings) : Holdings :=
  let '(mkHoldings vs ss ks ms) := own in
  match o with
  | set_qos_ vid b =>
      mkHoldings (dupd vs vid (λ v, v <| vo_qos := qos_json (qb_bw_gbps b) (qb_iops_k b) |>)) ss ks ms
  | delete_volume_ vid => mkHoldings (ddel vs vid) ss ks ms
  | revoke_api_key_ kid => mkHoldings vs ss (ddel ks kid) ms
  | update_member_ mid b => mkHoldings vs ss ks (dupd ms mid (λ m, m <| mb_role := mb_new_role b |>))
  | remove_member_ mid => mkHoldings vs ss ks (ddel ms mid)
  | _ => own
  end.

(** C35: An operation on a volume, an API key or a member by its name answers 404
    and does nothing when the entry is not the caller's own, whether it exists or
    not; otherwise it succeeds, and changes the caller's holdings as told. *)
Theorem only_own_entries u o w found msg :
  truthy_str u = true → numbered_store (w_store w) →
  target o (holdings u (w_store w)) = Some (found, msg) →
  if found
  then (exec (Some u) o w).1 = Ok tt
       ∧ holdings u (w_store (exec (Some u) o w).2) = effect o (holdings u (w_store w))
  else exec (Some u) o w = (Raised (HTTPException 404 msg), w).
Proof.
  intros Hu ((_ & Hv & _) & _ & (_ & Hk & _) & (_ & Hm & _)).
  destruct o; try done; cbn [target holdings ho_volumes ho_api_keys ho_members]; rewrite own_get by assumption;
    intros [= <- <-]; unfold exec, set_qos, delete_volume, revoke_api_key, update_member, remove_member,
      own_volume, own_member, _tenant; run; cbn [truthy]; rewrite Hu; run;
    change (default EmptyString (Some u)) with u;
    (destruct (dget _ _) as [x|] eqn:Ex; run; [|done]);
    match goal with |- context [String.eqb ?a ?b] => destruct (String.eqb_spec a b) as [Eo|]; run; [|done] end;
    (split; [done|]);
    unfold holdings, effect; cbn; f_equal;
    first [by eapply own_mut|by eapply own_del].
Qed.
End histories.

(** ** Witnesses *)
(** An emulator that has nothing to tell *)
Definition no_get (p : string) : IO (option json) := mret None.
Definition no_post (p : string) : IO json := mret (J_dict []).
Definition local (url : string) : ComputeAdapter := LocalNicoAdapter.
Lemma no_get_frame p : Steps (same w_store) (no_get p).
Proof. intros w. reflexivity. Qed.
Lemma no_post_frame p : Steps (same w_store) (no_post p).
Proof. intros w. reflexivity. Qed.
Lemma numbered_cold : numbered_store (w_store Demo.with_tenants).
Proof.
  assert (∀ V prefix (d : dict V), d = [] → numbered prefix 0 d) as H.
  { intros V prefix d ->. split_and!; [done|constructor|]. intros k Hk. by apply elem_of_nil in Hk. }
  split_and!; apply H; vm_compute; reflexivity.
Qed.
(** Acme has a volume and an API key. *)
Definition acme_ops : list (option string * Op) :=
  [(Some "tnt-acme", create_volume_ (mkVolumeBody "data" 100 "NFS" 1000 200));
   (Some "tnt-acme", create_api_key_ (mkApiKeyBody "ci" "read-write"))].
Definition acme : World := run local no_get no_post acme_ops Demo.with_tenants.
Lemma acme_numbered : numbered_store (w_store acme).
Proof.
  assert (spares "tnt-beta-labs" (w_store Demo.with_tenants) (w_store acme)) as H.
  { apply (run_spares local no_get no_post no_get_frame no_post_frame). intros h o Hin.
    unfold acme_ops in Hin. rewrite !elem_of_cons, elem_of_nil in Hin. naive_solver. }
  by apply (spares_holdings _ _ _ H), numbered_cold.
Qed.
(** Beta tries to delete Acme's volume and API key, and makes one of its own. *)
Definition beta_ops : list (option string * Op) :=
  [(Some "tnt-beta-labs", delete_volume_ "vol-0001"); (Some "tnt-beta-labs", revoke_api_key_ "key-0001");
   (None, set_qos_ "vol-0001" (mkQosBody 1 1));
   (Some "tnt-beta-labs", create_volume_ (mkVolumeBody "beta" 5 "NFS" 1 1))].
Lemma beta_not_acme h o : (h, o) ∈ beta_ops → h ≠ Some "tnt-acme".
Proof. unfold beta_ops. rewrite !elem_of_cons, elem_of_nil. naive_solver. Qed.
Lemma tenants_do_not_interfere_witness :
  numbered_store (w_store acme)
  ∧ numbered_store (w_store (run local no_get no_post beta_ops acme))
  ∧ holdings "tnt-acme" (w_store (run local no_get no_post beta_ops acme)) = holdings "tnt-acme" (w_store acme).
Proof.
  split; [exact acme_numbered|].
  exact (tenants_do_not_interfere local no_get no_post no_get_frame no_post_frame "tnt-acme" beta_ops acme
    acme_numbered beta_not_acme).
Defined.
Lemma only_own_entries_witness :
  target (delete_volume_ "vol-0001") (holdings "tnt-beta-labs" (w_store acme)) = Some (false, "volume not found")
  ∧ exec local no_get no_post (Some "tnt-beta-labs") (delete_volume_ "vol-0001") acme
    = (Raised (HTTPException 404 "volume not found"), acme).
Proof.
  assert (target (delete_volume_ "vol-0001") (holdings "tnt-beta-labs" (w_store acme))
          = Some (false, "volume not found")) as H by (vm_compute; reflexivity).
  split; [exact H|].
  exact (only_own_entries local no_get no_post "tnt-beta-labs" (delete_volume_ "vol-0001") acme
    false "volume not found" eq_refl acme_numbered H).
Defined.
End CustomerThms.
