(* ===== verification/BusinessThms.v ===== *)
(** * Tickets and billing: theorems

    Every ticket is well-formed whatever requests are made, and a tenant's bill is
    its part of the operator's bill. *)
From Stdlib Require Import QArith.
From stdpp Require Import strings base decidable option numbers list relations.
From S2P Require Import Prelude PyLib Models PortalModels World Business Demo.
Local Open Scope string_scope.
Local Open Scope list_scope.
Local Open Scope py_scope.

Module BusinessThms.
Import Business.

(** ** Tickets *)
(** What a ticket may look like: values from the tables, routed by its type, a
    scope exactly on changes, and the dispute policy exactly on billing disputes *)
Definition ticket_ok (t : Ticket) : Prop :=
  tk_severity t ∈ TICKET_SEVERITIES ∧ tk_status t ∈ TICKET_STATUSES ∧ tk_type t ∈ TICKET_TYPES
  ∧ dget TICKET_ROUTING (tk_type t) = Some (tk_routed_to t)
  ∧ (if String.eqb (tk_type t) "change" then ∃ sc, tk_change_scope t = Some sc ∧ sc ∈ CHANGE_SCOPES
     else tk_change_scope t = None)
  ∧ tk_policy t = (if String.eqb (tk_type t) "billing_dispute" then Some BILLING_DISPUTE_POLICY else None).
Definition ticket_no (n : Z) : string := "tck-" +:+ str_of_Z n.
Definition issued (s : Store) : Z := default 0%Z (dget (st_counters s) "ticket").
(** A store whose tickets are well-formed, under names the counter has passed *)
Definition tickets_ok (s : Store) : Prop :=
  (0 ≤ issued s)%Z
  ∧ dict_all ticket_ok (st_tickets s)
  ∧ ∀ k t, dget (st_tickets s) k = Some t → tk_id t = k ∧ ∃ n, (0 < n ≤ issued s)%Z ∧ k = ticket_no n.
(** A ticket keeps who raised it, what about and where it goes; comments are
    only added. *)
Definition same_ticket (t t' : Ticket) : Prop :=
  tk_id t' = tk_id t ∧ tk_tenant_id t' = tk_tenant_id t ∧ tk_subject t' = tk_subject t
  ∧ tk_body t' = tk_body t ∧ tk_severity t' = tk_severity t ∧ tk_type t' = tk_type t
  ∧ tk_routed_to t' = tk_routed_to t ∧ tk_created_at t' = tk_created_at t
  ∧ tk_comments t `prefix_of` tk_comments t'.
#[export] Instance same_ticket_preorder : PreOrder same_ticket.
Proof.
  split; unfold same_ticket; [done|]. intros t1 t2 t3 H1 H2. destruct_and!. split_and!; try congruence.
  by etransitivity.
Qed.
Definition tickets_move (s s' : Store) : Prop :=
  tickets_ok s →
  tickets_ok s' ∧ ∀ k t, dget (st_tickets s) k = Some t → ∃ t', dget (st_tickets s') k = Some t' ∧ same_ticket t t'.
#[export] Instance tickets_move_preorder : PreOrder tickets_move.
Proof.
  split.
  - intros s Hs. split; [done|]. intros k t E. by exists t.
  - intros s1 s2 s3 H12 H23 H1. destruct (H12 H1) as [H2 E2]. destruct (H23 H2) as [H3 E3]. split; [done|].
    intros k t E. destruct (E2 k t E) as (t2 & E' & Ht). destruct (E3 k t2 E') as (t3 & E'' & Ht').
    exists t3. split; [done|]. by etransitivity.
Qed.

(** An update of a ticket that keeps it well-formed *)
Lemma ticket_mut k f :
  (∀ t, ticket_ok t → ticket_ok (f t)) → (∀ t, same_ticket t (f t)) →
  Steps (on_store tickets_move) (s_mut st_tickets k f).
Proof.
  intros Hok Hsame. apply steps_upd_store. intros s (H0 & Hall & Hk).
  change (st_tickets (s <| st_tickets ::= λ d, dupd d k f |>)) with (dupd (st_tickets s) k f).
  split; [split_and!|].
  - exact H0.
  - apply dict_all_dupd; [done|]. intros v _. apply Hok.
  - intros k' t. change (st_tickets (s <| st_tickets ::= λ d, dupd d k f |>)) with (dupd (st_tickets s) k f).
    rewrite dget_dupd. destruct (String.eqb_spec k' k) as [->|]; [|apply Hk].
    destruct (dget (st_tickets s) k) as [t0|] eqn:E; [|done]. intros [= <-].
    destruct (Hsame t0) as [-> _]. by apply Hk.
  - intros k' t E. rewrite dget_dupd. destruct (String.eqb_spec k' k) as [->|]; [|by exists t].
    rewrite E. cbn. exists (f t). split; [done|apply Hsame].
Qed.
(** A new ticket *)
Lemma ticket_new s t :
  ticket_ok t → tk_id t = ticket_no (issued s + 1) →
  tickets_move s
    (s <| st_counters ::= λ d, dset d "ticket" (issued s + 1)%Z |>
       <| st_tickets ::= λ d, dset d (ticket_no (issued s + 1)) t |>).
Proof.
  intros Ht Hid (H0 & Hall & Hk). set (s' := _ <| st_tickets ::= _ |>).
  assert (st_tickets s' = dset (st_tickets s) (ticket_no (issued s + 1)) t) as Es by done.
  assert (issued s' = issued s + 1)%Z as Ei.
  { unfold issued. change (st_counters s') with (dset (st_counters s) "ticket" (issued s + 1)%Z).
    by rewrite dget_dset_eq. }
  assert (dget (st_tickets s) (ticket_no (issued s + 1)) = None) as Hfresh.
  { destruct (dget _ _) as [t0|] eqn:E; [|done]. destruct (Hk _ _ E) as (_ & n & Hn & En).
    unfold ticket_no in En. apply str_app_inj, str_of_Z_inj in En. lia. }
  unfold tickets_ok. rewrite Es, Ei. split; [split_and!|].
  - lia.
  - by apply dict_all_dset.
  - intros k t'. rewrite dget_dset. destruct (String.eqb_spec k (ticket_no (issued s + 1))) as [->|].
    + intros [= <-]. split; [done|]. exists (issued s + 1)%Z. split; [lia|done].
    + intros E. destruct (Hk _ _ E) as (? & m & Hn & ->). split; [done|]. exists m. split; [lia|done].
  - intros k t' E. exists t'. split; [|done]. rewrite dget_dset_ne; [done|]. congruence.
Qed.

Lemma move_create b : Steps (on_store tickets_move) (create_ticket b).
Proof.
  intros w. unfold create_ticket. run. destruct (negb _); run; [reflexivity|].
  destruct (ticket_error b) eqn:Ee; run; [reflexivity|].
  destruct (dget TICKET_ROUTING (tb_type b)) as [r|] eqn:Er; run.
  - apply ticket_new; [|done]. revert Ee. unfold ticket_error.
    destruct (memb (tb_severity b) TICKET_SEVERITIES) eqn:Es; [|done].
    destruct (memb (tb_type b) TICKET_TYPES) eqn:Et; [|done]. apply memb_spec in Es, Et. cbn [negb].
    intros Ec. split_and!; cbn; try done.
    + left.
    + destruct (tb_change_scope b) as [sc|].
      * destruct (String.eqb (tb_type b) "change") eqn:Ety; [|done]. cbn [negb] in Ec.
        destruct (memb sc CHANGE_SCOPES) eqn:Esc; [|discriminate Ec]. apply memb_spec in Esc. cbn.
        destruct (truthy_str sc); [by exists sc|]. exists "in_contract". split; [done|left].
      * destruct (String.eqb (tb_type b) "change"); cbn; [|done]. exists "in_contract". split; [done|left].
  - exfalso. revert Ee Er. unfold ticket_error. destruct (memb (tb_severity b) _); [|done].
    destruct (memb (tb_type b) TICKET_TYPES) eqn:Et; [|done]. apply memb_spec in Et. intros _.
    unfold TICKET_TYPES in Et. rewrite !elem_of_cons, elem_of_nil in Et. by destruct Et as [->|[->|[->|[]]]].
Qed.
Lemma move_update id b : Steps (on_store tickets_move) (update_ticket id b).
Proof.
  unfold update_ticket. apply steps_bind; [apply _|eauto with steps|]. intros [t|]; [|solve_steps].
  apply steps_bind; [apply _| |intros _; apply steps_bind; [apply _| |intros _]].
  - destruct (truthy (tu_status b)); [|solve_steps]. cbv zeta. destruct (memb _ _) eqn:Em; cbn [negb]; [|solve_steps].
    apply memb_spec in Em. apply ticket_mut; [|done]. intros x Hx. unfold ticket_ok in *. cbn. naive_solver.
  - destruct (truthy (tu_comment b)); [|solve_steps]. apply steps_bind; [apply _|eauto with steps|].
    intros at_. apply ticket_mut; [done|]. intros x. unfold same_ticket. cbn. split_and!; try done.
    by apply prefix_app_r.
  - apply steps_bind; [apply _|eauto with steps|]. intros at_.
    apply steps_bind; [apply _|by apply ticket_mut|]. solve_steps.
Qed.

(** ** Histories *)
Inductive TicketOp := create_ (b : TicketCreate) | update_ (id : string) (b : TicketUpdate).
Definition exec (o : TicketOp) : IO Ticket :=
  match o with create_ b => create_ticket b | update_ id b => update_ticket id b end.
Definition run_tickets (ops : list TicketOp) (w : World) : World := foldl (λ w o, (exec o w).2) w ops.

(** Every ticket is well-formed after any sequence of requests, accepted or
    refused: severity, status and type are from their tables, it is routed by its
    type, it has a change scope exactly when it is a change and the dispute policy
    exactly when it is a billing dispute.  No ticket is lost, and a ticket keeps
    its tenant, subject, severity, type and comments. *)
Theorem tickets_well_formed ops w :
  tickets_ok (w_store w) →
  tickets_ok (w_store (run_tickets ops w))
  ∧ ∀ k t, dget (st_tickets (w_store w)) k = Some t →
      ∃ t', dget (st_tickets (w_store (run_tickets ops w))) k = Some t' ∧ same_ticket t t'.
Proof.
  assert (tickets_move (w_store w) (w_store (run_tickets ops w))) as H; [|exact H].
  unfold run_tickets. revert w. induction ops as [|o ops IH]; intros w; cbn; [reflexivity|].
  etransitivity; [|apply IH]. destruct o; [apply move_create|apply move_update].
Qed.

(** ** Billing *)
Definition bill_of (lines : list BillingLine) : list BillingLine * Q * Q * Q :=
  (lines, round_q 10000 (sum_q bl_rack_hours lines), round_q 100 (sum_q bl_amount_usd lines),
   round_q 100 (sum_q bl_projected_monthly_usd lines)).
(** A line only reads the world. *)
Lemma fromiso_pure x w : (fromiso x w).2 = w.
Proof. unfold fromiso. run. by destruct (env_fromiso _ _). Qed.
Lemma billing_line_pure ends q o w : (billing_line ends q o w).2 = w.
Proof.
  assert (Steps eq (billing_line ends q o)) as H; [|by rewrite <-(H w)].
  assert (∀ x, Steps eq (fromiso x)) as Hf by (intros x w'; by rewrite fromiso_pure).
  unfold billing_line. solve_steps. all: try apply Hf. all: intros w'; reflexivity.
Qed.
Lemma billing_line_tenant ends q o w l w' :
  billing_line ends q o w = (Ok (Some l), w') → bl_tenant_id l = o_tenant_id o.
Proof.
  unfold billing_line. destruct (delivered_at o) as [start|]; [|done].
  destruct (negb _); [done|]. cbv zeta. unfold mbind, M_bind. intros H.
  repeat match type of H with (let (_, _) := ?m in _) = _ => destruct m as [[?|?] ?] end; try done. by injection H as <- _.
Qed.
(** The lines of some of the orders *)
Lemma lines_filter {A B} (f : A → IO (option B)) (p : A → bool) (p' : B → bool) w :
  (∀ x, (f x w).2 = w) → (∀ x y w', f x w = (Ok (Some y), w') → p' y = p x) →
  ∀ l ys w', map_m f l w = (Ok ys, w') →
  w' = w ∧ ∃ ys', map_m f (filterb p l) w = (Ok ys', w) ∧ omap id ys' = filterb p' (omap id ys).
Proof.
  intros Hpure Hp. induction l as [|x l IH]; intros ys w'; cbn.
  { intros [= <- <-]. split; [done|]. by exists []. }
  unfold mbind, M_bind. specialize (Hpure x). destruct (f x w) as [[y|e] w1] eqn:Ex; [|done]. cbn in Hpure. subst w1.
  destruct (map_m f l w) as [[zs|e] w2] eqn:El; [|done]. intros [= <- <-].
  destruct (IH _ _ eq_refl) as (-> & ys' & E' & Ef). split; [done|]. unfold filterb in *.
  destruct (p x) eqn:Epx; cbn.
  - unfold mbind, M_bind. rewrite Ex, E'. eexists. split; [done|]. cbn. rewrite Ef.
    destruct y as [y|]; cbn; [|done]. by rewrite (Hp _ _ _ Ex), Epx.
  - exists ys'. split; [done|]. rewrite Ef. destruct y as [y|]; cbn; [|done]. by rewrite (Hp _ _ _ Ex), Epx.
Qed.
Lemma billable_of tid l :
  truthy_str tid = true →
  filterb (billable (Some tid)) l
  = filterb (λ o, String.eqb (o_tenant_id o) tid) (filterb (billable None) l).
Proof.
  intros Ht. unfold filterb. induction l as [|o l IH]; cbn; [done|].
  assert (billable (Some tid) o = billable None o && String.eqb (o_tenant_id o) tid) as ->.
  { unfold billable. cbn. rewrite Ht. cbn. rewrite andb_true_r. f_equal.
    destruct (String.eqb_spec (o_tenant_id o) tid) as [->|]; [by rewrite bool_decide_eq_true_2|].
    rewrite bool_decide_eq_false_2; congruence. }
  destruct (billable None o); cbn; [|done]. destruct (String.eqb _ _); by rewrite IH.
Qed.

(** C32: A tenant's bill is its part of the operator's bill at the same time: the
    same lines in the same order, with the totals of these lines. *)
Theorem tenant_bill tid w lines rack_hours amount monthly w' :
  truthy_str tid = true →
  billing_usage None w = (Ok (lines, rack_hours, amount, monthly), w') →
  billing_usage (Some tid) w = (Ok (bill_of (filterb (λ l, String.eqb (bl_tenant_id l) tid) lines)), w').
Proof.
  intros Ht. unfold billing_usage, mbind, M_bind, now, store, gets.
  destruct (fromiso _ _) as [[q|e] w1]; [|done]. rewrite (billable_of tid) by done.
  set (ls := sorted _ _). set (f := billing_line _ _).
  destruct (map_m f (filterb (billable None) ls) w1) as [[ys|e] w2] eqn:E; [|done].
  intros H. injection H as <- _ _ _ <-.
  destruct (lines_filter f (λ o, String.eqb (o_tenant_id o) tid) (λ l, String.eqb (bl_tenant_id l) tid) w1) with
    (l := filterb (billable None) ls) (ys := ys) (w' := w2) as (-> & ys' & E' & Ef); [..|done|].
  - intros x. apply billing_line_pure.
  - intros x y w3 Ex. by rewrite (billing_line_tenant _ _ _ _ _ _ Ex).
  - rewrite E'. cbn. unfold bill_of. by rewrite <-Ef.
Qed.

(** ** Witnesses *)
Definition demo_ops : list TicketOp :=
  [create_ (mkTicketCreate "tnt-acme" "one more rack" "" "low" "change" None None);
   create_ (mkTicketCreate "tnt-acme" "bill" "" "low" "tech" (Some "in_contract") None);
   update_ "tck-1" (mkTicketUpdate (Some "resolved") (Some "done") "ops");
   update_ "tck-1" (mkTicketUpdate (Some "closed") None "ops")].
Lemma demo_tickets_ok : tickets_ok (w_store Demo.with_tenants).
Proof.
  assert (st_tickets (w_store Demo.with_tenants) = []) as E by (vm_compute; reflexivity).
  unfold tickets_ok. rewrite E. split_and!; [vm_compute; discriminate|by intros k t|by intros k t].
Qed.
Lemma tickets_well_formed_witness :
  tickets_ok (w_store Demo.with_tenants)
  ∧ tickets_ok (w_store (run_tickets demo_ops Demo.with_tenants))
  ∧ ∀ k t, dget (st_tickets (w_store Demo.with_tenants)) k = Some t →
      ∃ t', dget (st_tickets (w_store (run_tickets demo_ops Demo.with_tenants))) k = Some t' ∧ same_ticket t t'.
Proof.
  split; [exact demo_tickets_ok|]. exact (tickets_well_formed demo_ops Demo.with_tenants demo_tickets_ok).
Defined.
Definition demo_bill : list BillingLine * Q * Q * Q :=
  match (billing_usage None Demo.delivered).1 with Ok b => b | Raised _ => ([], 0, 0, 0)%Q end.
Lemma tenant_bill_witness :
  billing_usage None Demo.delivered
    = (Ok (demo_bill.1.1.1, demo_bill.1.1.2, demo_bill.1.2, demo_bill.2), (billing_usage None Demo.delivered).2)
  ∧ billing_usage (Some "tnt-acme") Demo.delivered
    = (Ok (bill_of (filterb (λ l, String.eqb (bl_tenant_id l) "tnt-acme") demo_bill.1.1.1)),
       (billing_usage None Demo.delivered).2).
Proof.
  assert (billing_usage None Demo.delivered
    = (Ok (demo_bill.1.1.1, demo_bill.1.1.2, demo_bill.1.2, demo_bill.2), (billing_usage None Demo.delivered).2)) as H
    by (vm_compute; reflexivity).
  split; [exact H|].
  exact (tenant_bill "tnt-acme" Demo.delivered demo_bill.1.1.1 demo_bill.1.1.2 demo_bill.1.2 demo_bill.2
    (billing_usage None Demo.delivered).2 eq_refl H).
Defined.
End BusinessThms.
