(* ===== verification/UpgradeThms.v ===== *)
(** * Rolling upgrades: theorems

    The upgrade threads interleave, lock by lock, with requests and with the rest
    of the control plane.  Whatever the interleaving, a cluster has at most one
    upgrade under way, its version never goes down, and every upgrade can finish,
    after which it has taken each node through its four steps in order. *)
From Stdlib Require Import QArith.
From stdpp Require Import strings base decidable option numbers list relations.
From S2P Require Import Prelude PyLib Models PortalModels World Placement Saga K8s K8sApi Demo.
Local Open Scope string_scope.
Local Open Scope list_scope.
Local Open Scope py_scope.

Module UpgradeThms.
Import Saga K8s K8sApi.

(** ** One piece of an upgrade *)
Definition versions_kept (s s' : Store) : Prop :=
  ∀ cid c, dget (st_k8s_clusters s) cid = Some c →
    ∃ c', dget (st_k8s_clusters s') cid = Some c' ∧ k_version c' = k_version c.
(** What a piece does to the upgrade record, at time [at_] *)
Definition after (a : UpAction) (at_ : string) (u : K8sUpgrade) : K8sUpgrade :=
  match a with
  | UA_node name => u <| ku_current_node := Some name |>
  | UA_step name step => u <| ku_events ::= λ l, l ++ [mkUpEvent at_ name step] |>
  | UA_done name => u <| ku_done ::= λ z, (z + 1)%Z |>
  | UA_finish => u <| ku_state := "succeeded" |> <| ku_current_node := None |>
  end.
(** ... and to the version of a cluster *)
Definition version_after (a : UpAction) (u : K8sUpgrade) (cid v : string) : string :=
  match a with
  | UA_finish => if String.eqb cid (ku_cluster_id u) then ku_target_version u else v
  | _ => v
  end.
Lemma tick_spec uid a ts u w :
  pop_action uid (w_upgrades w) = Some (a, ts) → dget (st_k8s_upgrades (w_store w)) uid = Some u →
  let w' := (upgrade_tick uid w).2 in
  w_upgrades w' = ts
  ∧ (∃ at_, st_k8s_upgrades (w_store w') = dset (st_k8s_upgrades (w_store w)) uid (after a at_ u))
  ∧ st_counters (w_store w') = st_counters (w_store w)
  ∧ ∀ cid c, dget (st_k8s_clusters (w_store w)) cid = Some c →
      ∃ c', dget (st_k8s_clusters (w_store w')) cid = Some c'
            ∧ k_version c' = version_after a u cid (k_version c).
Proof.
  intros Hp Hu. unfold upgrade_tick, upgrade_action, upgrade_mut, cluster_mut, cluster_log. run. rewrite Hp. run.
  cbn. rewrite Hu. run. destruct a as [name|name step|name|]; unfold emit; run; cbn; unfold st_k8s_upgrades in *; cbn.
  - unfold dupd. rewrite Hu. split_and!; [done|by exists ""|done|]. intros cid c E. by exists c.
  - unfold dupd. rewrite Hu. split_and!; [done|by eexists|done|]. intros cid c E. by exists c.
  - unfold dupd at 1. rewrite Hu. split_and!; [done|by exists ""|done|]. intros cid c E.
    rewrite dget_dupd. destruct (String.eqb_spec cid (ku_cluster_id u)) as [->|]; [|by exists c].
    rewrite E. cbn. by eexists.
  - destruct (dget (st_k8s_clusters (w_store w)) (ku_cluster_id u)) as [c0|] eqn:Ec; run; cbn.
    + unfold dupd at 1. rewrite Hu. split_and!; [done|by exists ""|done|]. intros cid c E.
      rewrite !dget_dupd. destruct (String.eqb_spec cid (ku_cluster_id u)) as [->|]; [|by exists c].
      rewrite String.eqb_refl, E. cbn. by eexists.
    + unfold dupd at 1. rewrite Hu. split_and!; [done|by exists ""|done|]. intros cid c E.
      destruct (String.eqb_spec cid (ku_cluster_id u)) as [->|]; [congruence|by exists c].
Qed.

(** ** The plan of an upgrade *)
(** Every node through the four steps, in order *)
Definition plan (names : list string) : list (string * string) :=
  concat ((λ n, pair n <$> UPGRADE_STEPS) <$> names).
Definition taken (u : K8sUpgrade) : list (string * string) := (λ e, (ue_node e, ue_step e)) <$> ku_events u.
Definition steps_left (acts : list UpAction) : list (string * string) :=
  omap (λ a, match a with UA_step n s => Some (n, s) | _ => None end) acts.
Definition nodes_left (acts : list UpAction) : Z :=
  Z.of_nat (length (omap (λ a, match a with UA_done n => Some n | _ => None end) acts)).
(** An upgrade with [acts] left to do, and one that is through *)
Record going (u : K8sUpgrade) (acts : list UpAction) : Prop := {
  go_state : ku_state u = "running";
  go_end : ∃ pre, acts = pre ++ [UA_finish] ∧ UA_finish ∉ pre;
  go_plan : ∃ names, ku_total u = Placement.len_z names ∧ taken u ++ steps_left acts = plan names;
  go_done : (ku_done u + nodes_left acts = ku_total u)%Z
}.
Record finished (u : K8sUpgrade) : Prop := {
  fi_state : ku_state u = "succeeded";
  fi_plan : ∃ names, ku_total u = Placement.len_z names ∧ taken u = plan names;
  fi_done : ku_done u = ku_total u
}.

Lemma going_next u a rest at_ :
  going u (a :: rest) → rest ≠ [] → going (after a at_ u) rest.
Proof.
  intros [Hs (pre & E & Hn) (names & Ht & Hp) Hd] Hr.
  destruct pre as [|a' pre]; [by injection E as -> ->|]. injection E as <- ->.
  apply not_elem_of_cons in Hn as [Ha Hn].
  destruct a as [name|name step|name|]; [| | |done]; split; cbn; eauto.
  - exists names. split; [done|]. unfold taken in *. cbn. rewrite fmap_app, <-app_assoc. exact Hp.
  - unfold nodes_left in *. cbn in Hd. lia.
Qed.
Lemma going_last u a at_ : going u [a] → a = UA_finish ∧ finished (after a at_ u).
Proof.
  intros [Hs (pre & E & Hn) (names & Ht & Hp) Hd].
  destruct pre as [|a' [|? pre]]; [|done|done]. injection E as ->. split; [done|].
  split; [done| |].
  - exists names. split; [done|]. cbn in Hp. by rewrite app_nil_r in Hp.
  - unfold nodes_left in Hd. cbn in *. lia.
Qed.
Lemma going_not_finish u a rest : going u (a :: rest) → rest ≠ [] → a ≠ UA_finish.
Proof.
  intros [_ (pre & E & Hn) _ _] Hr. destruct pre as [|a' pre]; [by injection E as -> ->|].
  injection E as <- ->. by apply not_elem_of_cons in Hn as [? _].
Qed.
Lemma plan_actions names :
  steps_left (upgrade_actions names) = plan names
  ∧ nodes_left (upgrade_actions names) = Placement.len_z names
  ∧ UA_finish ∉ concat (node_actions <$> names).
Proof.
  unfold steps_left, nodes_left, upgrade_actions, plan, Placement.len_z.
  induction names as [|n names (H1 & H2 & H3)]; [by split_and!; [..|apply not_elem_of_nil]|].
  cbn [fmap list_fmap concat]. rewrite <-app_assoc. split_and!.
  - by rewrite omap_app, H1.
  - rewrite omap_app, length_app. cbn [length]. rewrite Nat2Z.inj_add, H2. cbn. lia.
  - rewrite not_elem_of_app. split; [|done]. unfold node_actions, UPGRADE_STEPS. cbn.
    rewrite !elem_of_cons, elem_of_nil. naive_solver.
Qed.
Lemma going_start u names :
  ku_state u = "running" → ku_total u = Placement.len_z names → ku_done u = 0%Z → ku_events u = [] →
  going u (upgrade_actions names).
Proof.
  intros Hs Ht Hd He. destruct (plan_actions names) as (H1 & H2 & H3). split; [done| | |].
  - by eexists.
  - exists names. split; [done|]. unfold taken. by rewrite He.
  - rewrite H2. lia.
Qed.

(** ** The list of threads *)
Lemma pop_action_spec uid ts a ts' :
  NoDup ts.*1 → pop_action uid ts = Some (a, ts') →
  ∃ rest, (uid, a :: rest) ∈ ts ∧ NoDup ts'.*1
  ∧ ∀ v acts, (v, acts) ∈ ts' ↔ (v ≠ uid ∧ (v, acts) ∈ ts) ∨ (v = uid ∧ rest ≠ [] ∧ acts = rest).
Proof.
  revert a ts'. induction ts as [|[v0 acts0] ts IH]; intros a ts' Hn; cbn; [done|].
  cbn in Hn. apply NoDup_cons in Hn as [Hv0 Hn].
  assert (∀ acts, (v0, acts) ∉ ts) as Hv0' by (intros acts Hin; apply Hv0, list_elem_of_fmap; by eexists (_, _)).
  destruct (String.eqb_spec v0 uid) as [->|Hne].
  - destruct acts0 as [|a0 rest]; [done|]. intros [= <- <-]. exists rest. split; [left|].
    destruct rest as [|a1 rest].
    + split; [done|]. intros v acts. rewrite elem_of_cons. naive_solver.
    + split; [by apply NoDup_cons|]. intros v acts. rewrite !elem_of_cons. naive_solver.
  - destruct (pop_action uid ts) as [[b ts1]|] eqn:E; [|done]. intros [= <- <-].
    destruct (IH _ _ Hn eq_refl) as (rest & Hin & Hn1 & Hiff). exists rest. split; [by right|]. split.
    + cbn. apply NoDup_cons. split; [|done]. intros ([v acts] & -> & Hv)%list_elem_of_fmap.
      apply Hiff in Hv as [[_ Hv]|[? _]]; [by eapply Hv0'|done].
    + intros v acts. rewrite !elem_of_cons, Hiff. naive_solver.
Qed.
Lemma pop_action_some uid ts a rest :
  NoDup ts.*1 → (uid, a :: rest) ∈ ts → ∃ ts', pop_action uid ts = Some (a, ts').
Proof.
  induction ts as [|[v0 acts0] ts IH]; intros Hn Hin; [by apply elem_of_nil in Hin|].
  cbn in Hn. apply NoDup_cons in Hn as [Hv0 Hn]. cbn.
  destruct (String.eqb_spec v0 uid) as [->|Hne].
  - apply elem_of_cons in Hin as [[= <-]|Hin]; [by eexists|].
    exfalso. apply Hv0, list_elem_of_fmap. by eexists (_, _).
  - apply elem_of_cons in Hin as [[= <- _]|Hin]; [done|]. destruct (IH Hn Hin) as [ts' ->]. by eexists.
Qed.

(** ** Versions *)
(** Supported versions count from 1 in their order; any other version is below. *)
Definition rank (v : string) : nat := match version_index v with Some i => S i | None => O end.
Lemma version_index_inj v v' i : version_index v = Some i → version_index v' = Some i → v = v'.
Proof.
  unfold version_index. intros H H'.
  destruct (list_find (λ x, x = v) _) as [[j x]|] eqn:E; [|done]. injection H as ->.
  destruct (list_find (λ x, x = v') _) as [[j' x']|] eqn:E'; [|done]. injection H' as ->.
  apply list_find_Some in E as (E & -> & _), E' as (E' & -> & _). congruence.
Qed.
Lemma version_index_supported v : memb v K8S_SUPPORTED_VERSIONS = true → is_Some (version_index v).
Proof.
  intros Hv. apply memb_spec in Hv. unfold version_index.
  destruct (list_find (λ x, x = v) K8S_SUPPORTED_VERSIONS) as [[i x]|] eqn:E; [by eexists|].
  apply list_find_None in E. rewrite Forall_forall in E. by apply E in Hv.
Qed.
Lemma rank_up from to :
  memb to K8S_SUPPORTED_VERSIONS = true → to ≠ from → downgrade from to = false → (rank from < rank to)%nat.
Proof.
  intros Hs Hne Hd. apply version_index_supported in Hs as [j Hj]. unfold downgrade, rank in *. rewrite Hj in *.
  destruct (version_index from) as [i|] eqn:Hi; [|lia]. apply Nat.ltb_ge in Hd.
  destruct (decide (i = j)) as [->|]; [|lia]. by destruct Hne; eapply version_index_inj.
Qed.

(** ** The invariant *)
Definition upgrade_no (n : Z) : string := "k8u-" +:+ str_of_Z n.
Definition started (s : Store) : Z := default 0%Z (dget (st_counters s) "k8s_upgrade").
Definition ups (w : World) : dict K8sUpgrade := st_k8s_upgrades (w_store w).
Definition cluster (w : World) (cid : string) : option K8sCluster := dget (st_k8s_clusters (w_store w)) cid.
Record upgrades_ok (w : World) : Prop := {
  uo_names : (0 ≤ started (w_store w))%Z
    ∧ ∀ k u, dget (ups w) k = Some u → ku_id u = k ∧ ∃ n, (0 < n ≤ started (w_store w))%Z ∧ k = upgrade_no n;
  (** one thread for each upgrade under way, with what is left of its plan *)
  uo_threads : NoDup (w_upgrades w).*1;
  uo_going uid acts : (uid, acts) ∈ w_upgrades w →
    ∃ u c, dget (ups w) uid = Some u ∧ going u acts
           ∧ cluster w (ku_cluster_id u) = Some c ∧ k_version c = ku_from_version u
           ∧ (rank (ku_from_version u) < rank (ku_target_version u))%nat;
  (** the other upgrades are through *)
  uo_rest uid u : dget (ups w) uid = Some u → (∃ acts, (uid, acts) ∈ w_upgrades w) ∨ finished u;
  (** one upgrade at a time in a cluster *)
  uo_one k1 k2 u1 u2 : dget (ups w) k1 = Some u1 → dget (ups w) k2 = Some u2 →
    ku_state u1 = "running" → ku_state u2 = "running" → ku_cluster_id u1 = ku_cluster_id u2 → k1 = k2
}.
(** No cluster is lost, and no version goes down. *)
Definition versions_rise (w w' : World) : Prop :=
  ∀ cid c, cluster w cid = Some c → ∃ c', cluster w' cid = Some c' ∧ (rank (k_version c) ≤ rank (k_version c'))%nat.
#[export] Instance versions_rise_preorder : PreOrder versions_rise.
Proof.
  split; [intros w cid c E; by exists c|]. intros w1 w2 w3 H12 H23 cid c E.
  destruct (H12 _ _ E) as (c2 & E2 & H2). destruct (H23 _ _ E2) as (c3 & E3 & H3). exists c3. split; [done|lia].
Qed.

(** ** Interleavings *)
(** What the rest of the control plane may do meanwhile: anything but touch the
    upgrade records and threads, drop a cluster or change its version *)
Definition rely (w w' : World) : Prop :=
  ups w' = ups w ∧ w_upgrades w' = w_upgrades w ∧ started (w_store w') = started (w_store w)
  ∧ versions_kept (w_store w) (w_store w').
Inductive step : World → World → Prop :=
  | step_start cid tv w : step w (start_upgrade cid tv w).2
  | step_tick uid w : step w (upgrade_tick uid w).2
  | step_other w w' : rely w w' → step w w'.

Lemma rely_ok w w' : rely w w' → upgrades_ok w → upgrades_ok w' ∧ versions_rise w w'.
Proof.
  intros (Eu & Et & En & Hv) [H1 H2 H3 H4 H5]. split; [split|].
  - by rewrite En, Eu.
  - by rewrite Et.
  - intros uid acts. rewrite Et, Eu. intros Hin. destruct (H3 _ _ Hin) as (u & c & ? & ? & Hc & Hf & ?).
    destruct (Hv _ _ Hc) as (c' & Hc' & Ev). exists u, c'. split_and!; try done. congruence.
  - intros uid u. rewrite Et, Eu. apply H4.
  - rewrite Eu. apply H5.
  - intros cid c E. destruct (Hv _ _ E) as (c' & E' & Ev). exists c'. split; [done|]. by rewrite Ev.
Qed.

Lemma after_keeps a at_ u :
  ku_id (after a at_ u) = ku_id u ∧ ku_cluster_id (after a at_ u) = ku_cluster_id u
  ∧ ku_from_version (after a at_ u) = ku_from_version u ∧ ku_target_version (after a at_ u) = ku_target_version u.
Proof. by destruct a. Qed.
Lemma tick_ok uid w : upgrades_ok w → upgrades_ok (upgrade_tick uid w).2 ∧ versions_rise w (upgrade_tick uid w).2.
Proof.
  intros Hok. destruct (pop_action uid (w_upgrades w)) as [[a ts]|] eqn:Ep.
  2: { assert ((upgrade_tick uid w).2 = w) as ->; [|done]. unfold upgrade_tick. run. by rewrite Ep. }
  destruct (pop_action_spec _ _ _ _ (uo_threads w Hok) Ep) as (rest & Hin & Hn & Hts).
  destruct (uo_going w Hok _ _ Hin) as (u & c & Hu & Hg & Hc & Hf & Hr).
  pose proof (tick_spec uid a ts u w Ep Hu) as H. cbv zeta in H.
  set (w' := (upgrade_tick uid w).2) in *. destruct H as (Et & (at_ & Eu) & En & Hv).
  fold (ups w') in Eu. fold (ups w) in Eu. destruct (after_keeps a at_ u) as (Ki & Kc & Kf & Kt).
  assert (∀ k v, dget (ups w') k = Some v →
    (k = uid ∧ v = after a at_ u) ∨ (k ≠ uid ∧ dget (ups w) k = Some v)) as Hget.
  { intros k v. rewrite Eu, dget_dset. destruct (String.eqb_spec k uid); [|by right]. intros [= <-]. by left. }
  assert (started (w_store w') = started (w_store w)) as Es by (unfold started; by rewrite En).
  assert (versions_rise w w') as Hrise.
  { intros cid c0 E0. destruct (Hv _ _ E0) as (c' & E' & Ev). exists c'. split; [done|]. rewrite Ev.
    unfold version_after. destruct a; try done. destruct (String.eqb_spec cid (ku_cluster_id u)) as [->|]; [|done].
    unfold cluster in *. assert (c0 = c) as -> by congruence. rewrite Hf. lia. }
  split; [|exact Hrise]. split.
  - rewrite Es. destruct (uo_names w Hok) as [H0 Hk]. split; [done|]. intros k v Hkv.
    destruct (Hget _ _ Hkv) as [[-> ->]|[_ Hkv']]; [rewrite Ki|]; by apply Hk.
  - by rewrite Et.
  - intros v acts. rewrite Et, Hts. intros [[Hne Hv']|(-> & Hrest & ->)].
    + destruct (uo_going w Hok _ _ Hv') as (u' & c' & Hu' & Hg' & Hc' & Hf' & Hr').
      destruct (Hv _ _ Hc') as (c'' & Hc'' & Ev). exists u', c''. split_and!; try done.
      * by rewrite Eu, dget_dset_ne.
      * rewrite Ev. unfold version_after. destruct a; try done.
        destruct (String.eqb_spec (ku_cluster_id u') (ku_cluster_id u)) as [Ec|]; [|done].
        destruct Hne. apply (uo_one w Hok _ _ u' u); [done..|apply Hg'|apply Hg|done].
    + destruct (Hv _ _ Hc) as (c'' & Hc'' & Ev). exists (after a at_ u), c''. rewrite Kc, Kf, Kt. split_and!; try done.
      * by rewrite Eu, dget_dset_eq.
      * by apply going_next.
      * rewrite Ev. unfold version_after. pose proof (going_not_finish _ _ _ Hg Hrest). by destruct a.
  - intros k v Hkv. rewrite Et. destruct (Hget _ _ Hkv) as [[-> ->]|[Hne Hkv']].
    + destruct rest as [|a1 rest]; [right; by apply (going_last u)|]. left. exists (a1 :: rest). apply Hts. by right.
    + destruct (uo_rest w Hok _ _ Hkv') as [[acts Ha]|]; [|by right]. left. exists acts. apply Hts. by left.
  - assert (∀ v, dget (ups w') uid = Some v → ku_cluster_id v = ku_cluster_id u) as Hcl.
    { intros v Hkv. destruct (Hget _ _ Hkv) as [[_ ->]|[? _]]; [by rewrite Kc|done]. }
    intros k1 k2 u1 u2 E1 E2 R1 R2 Ec.
    destruct (decide (k1 = uid)) as [->|N1], (decide (k2 = uid)) as [->|N2]; [done|..].
    + destruct (Hget _ _ E2) as [[? _]|[_ E2']]; [done|]. symmetry.
      apply (uo_one w Hok _ _ u2 u); [done..|apply Hg|]. rewrite <-Ec. by apply Hcl.
    + destruct (Hget _ _ E1) as [[? _]|[_ E1']]; [done|].
      apply (uo_one w Hok _ _ u1 u); [done..|apply Hg|]. rewrite Ec. by apply Hcl.
    + destruct (Hget _ _ E1) as [[? _]|[_ E1']]; [done|]. destruct (Hget _ _ E2) as [[? _]|[_ E2']]; [done|].
      by apply (uo_one w Hok _ _ u1 u2).
Qed.

(** The nodes of a cluster: its control plane, then the trays of its workers *)
Definition fleet (s : Store) (c : K8sCluster) : list string :=
  k_cp_node_ids c ++ omap (λ nid, n_tray_id <$> dget (st_node_instances s) nid) (k_worker_node_ids c).
Lemma fleet_trays s c : k_cp_node_ids c ++ _worker_trays s c = fleet s c.
Proof.
  unfold fleet, _worker_trays. f_equal. induction (k_worker_node_ids c) as [|n l IH]; cbn; [done|].
  destruct (dget _ n); cbn; [by f_equal|done].
Qed.
(** A start is refused without effect, or adds one upgrade with its whole plan. *)
Lemma start_cases cid tv w :
  ((∃ e, (start_upgrade cid tv w).1 = Raised e) ∧ (start_upgrade cid tv w).2 = w)
  ∨ ∃ c u names at_, let w' := (start_upgrade cid tv w).2 in
      names = fleet (w_store w) c ∧ (start_upgrade cid tv w).1 = Ok u ∧ cluster w cid = Some c ∧ u = mkUpgrade (upgrade_no (started (w_store w) + 1)) cid (k_tenant_id c)
        (k_version c) tv "running" None 0 (Placement.len_z names) [] at_
      ∧ (rank (k_version c) < rank tv)%nat
      ∧ (∀ k v, dget (ups w) k = Some v → ku_cluster_id v = cid → ku_state v ≠ "running")
      ∧ ups w' = dset (ups w) (ku_id u) u
      ∧ w_upgrades w' = w_upgrades w ++ [(ku_id u, upgrade_actions names)]
      ∧ started (w_store w') = (started (w_store w) + 1)%Z
      ∧ st_k8s_clusters (w_store w') = st_k8s_clusters (w_store w).
Proof.
  unfold start_upgrade, running_cluster, _cluster_or_404. run.
  destruct (dget (st_k8s_clusters (w_store w)) cid) as [c|] eqn:Ec; run; [|left; split; [by eexists|done]].
  destruct (String.eqb (k_state c) "running"); run; [|left; split; [by eexists|done]].
  destruct (memb tv K8S_SUPPORTED_VERSIONS) eqn:Es; cbn [negb]; [|left; split; [by eexists|done]].
  destruct (String.eqb_spec tv (k_version c)) as [|Hne]; [left; split; [by eexists|done]|].
  destruct (downgrade (k_version c) tv) eqn:Ed; [left; split; [by eexists|done]|].
  destruct (anyb _ _) eqn:Ea; [left; split; [by eexists|done]|]. right.
  rewrite fleet_trays. set (names := fleet (w_store w) c). unfold emit. run.
  eexists c, _, names, _. split_and!; [done|reflexivity|done|reflexivity|by apply rank_up| |done|done| |done].
  - intros k v Hk Hc Hr. assert (anyb (λ u, String.eqb (ku_cluster_id u) cid && String.eqb (ku_state u) "running")
      (dvalues (st_k8s_upgrades (w_store w))) = true) as Hb; [|congruence].
    apply anyb_spec. exists v. split; [by eapply dget_dvalues|]. by rewrite Hc, Hr, !String.eqb_refl.
  - unfold started. cbn. by rewrite dget_dset_eq.
Qed.
Lemma fresh_upgrade w : upgrades_ok w → dget (ups w) (upgrade_no (started (w_store w) + 1)) = None.
Proof.
  intros Hok. destruct (uo_names w Hok) as [H0 Hk]. destruct (dget (ups w) _) as [v|] eqn:E; [|done].
  destruct (Hk _ _ E) as (_ & n & Hn & En'). unfold upgrade_no in En'. apply str_app_inj, str_of_Z_inj in En'. lia.
Qed.
Lemma start_ok cid tv w :
  upgrades_ok w → upgrades_ok (start_upgrade cid tv w).2 ∧ versions_rise w (start_upgrade cid tv w).2.
Proof.
  intros Hok. destruct (start_cases cid tv w) as [[_ ->]|(c & u & names & at_ & H)]; [done|]. cbv zeta in H.
  set (w' := (start_upgrade cid tv w).2) in *.
  destruct H as (_ & _ & Hc & Eu & Hr & Hnone & Eups & Et & En & Ecl).
  assert (∀ k, cluster w' k = cluster w k) as Hcl by (intros k; unfold cluster; by rewrite Ecl).
  assert (ku_id u = upgrade_no (started (w_store w) + 1)) as Eid by by rewrite Eu.
  destruct (uo_names w Hok) as [H0 Hk].
  pose proof (fresh_upgrade w Hok) as Hfresh. rewrite <- Eid in Hfresh.
  assert (∀ acts, (ku_id u, acts) ∉ w_upgrades w) as Hnt.
  { intros acts Hin. destruct (uo_going w Hok _ _ Hin) as (? & ? & ? & _). congruence. }
  split; [|intros k c0 E; exists c0; split; [by rewrite Hcl|done]]. split.
  - rewrite En, Eups. split; [lia|]. intros k v. rewrite dget_dset.
    destruct (String.eqb_spec k (ku_id u)) as [->|].
    + intros [= <-]. split; [done|]. exists (started (w_store w) + 1)%Z. split; [lia|done].
    + intros E. destruct (Hk _ _ E) as (? & m & Hm & ->). split; [done|]. exists m. split; [lia|done].
  - rewrite Et, fmap_app. apply NoDup_app. split_and!; [apply Hok| |apply NoDup_singleton].
    intros k ([v acts] & -> & Hin)%list_elem_of_fmap. cbn. rewrite list_elem_of_singleton. intros ->.
    by eapply Hnt.
  - intros k acts. rewrite Et, elem_of_app, list_elem_of_singleton. intros [Hin|[= -> ->]].
    + destruct (uo_going w Hok _ _ Hin) as (v & c' & Ev & ?). exists v, c'.
      rewrite Hcl, Eups, dget_dset_ne; [done|]. congruence.
    + exists u, c. rewrite Hcl, Eups, dget_dset_eq, Eu. cbn. split_and!; try done. by apply going_start.
  - intros k v. rewrite Eups, dget_dset, Et. setoid_rewrite elem_of_app.
    destruct (String.eqb_spec k (ku_id u)) as [->|].
    + intros _. left. eexists. right. by left.
    + intros E. destruct (uo_rest w Hok _ _ E) as [[acts ?]|]; [left; eexists; by left|by right].
  - assert (ku_cluster_id u = cid) as Ecid by by rewrite Eu.
    intros k1 k2 u1 u2. rewrite Eups, !dget_dset.
    destruct (String.eqb_spec k1 (ku_id u)) as [->|], (String.eqb_spec k2 (ku_id u)) as [->|]; [done|..].
    + intros [= <-] E2 _ R2 Ec2. by destruct (Hnone _ _ E2); congruence.
    + intros E1 [= <-] R1 _ Ec1. by destruct (Hnone _ _ E1); congruence.
    + apply (uo_one w Hok).
Qed.
Lemma step_ok w w' : step w w' → upgrades_ok w → upgrades_ok w' ∧ versions_rise w w'.
Proof. intros [cid tv|uid|]; [apply start_ok|apply tick_ok|by apply rely_ok]. Qed.
Lemma steps_ok w w' : rtc step w w' → upgrades_ok w → upgrades_ok w' ∧ versions_rise w w'.
Proof.
  induction 1 as [w|w1 w2 w3 H _ IH]; intros Hok; [done|].
  destruct (step_ok _ _ H Hok) as [Hok2 H12]. destruct (IH Hok2) as [? H23]. split; [done|by etransitivity].
Qed.

(** C15: Whatever the interleaving of upgrade requests, of the pieces of the
    upgrade threads and of the rest of the control plane, a cluster has at most one
    upgrade under way, each upgrade under way is going to a higher version and has
    exactly the rest of its plan left, every other one went through its whole plan,
    and no cluster's version ever goes down. *)
Theorem upgrades_safe w w' :
  upgrades_ok w → rtc step w w' → upgrades_ok w' ∧ versions_rise w w'.
Proof. intros Hok H. by apply steps_ok. Qed.

(** ** Completion

    Meanwhile the rest of the control plane also leaves the nodes' versions alone. *)
Definition nodes_kept (w w' : World) : Prop :=
  ∀ cid c, cluster w cid = Some c → ∃ c', cluster w' cid = Some c' ∧ k_node_versions c' = k_node_versions c.
Inductive undisturbed : World → World → Prop :=
  | und_start cid tv w : undisturbed w (start_upgrade cid tv w).2
  | und_tick uid w : undisturbed w (upgrade_tick uid w).2
  | und_other w w' : rely w w' → nodes_kept w w' → undisturbed w w'.
Lemma undisturbed_step w w' : undisturbed w w' → step w w'.
Proof. intros []; by constructor. Qed.

(** The node versions of a cluster after a piece of an upgrade *)
Definition nodes_after (a : UpAction) (u : K8sUpgrade) (cid : string) (d : dict string) : dict string :=
  match a with
  | UA_done n => if String.eqb cid (ku_cluster_id u) then dset d n (ku_target_version u) else d
  | _ => d
  end.
Lemma tick_nodes uid a ts u w :
  pop_action uid (w_upgrades w) = Some (a, ts) → dget (ups w) uid = Some u →
  ∀ cid c, cluster w cid = Some c →
    ∃ c', cluster (upgrade_tick uid w).2 cid = Some c' ∧ k_node_versions c' = nodes_after a u cid (k_node_versions c).
Proof.
  intros Hp Hu. unfold upgrade_tick, upgrade_action, upgrade_mut, cluster_mut, cluster_log, cluster. run. rewrite Hp. run.
  cbn. unfold ups in Hu. rewrite Hu. run. intros cid c E.
  destruct a as [name|name step|name|]; unfold emit; run; cbn; try by exists c.
  - rewrite dget_dupd. destruct (String.eqb_spec cid (ku_cluster_id u)) as [->|]; [|by exists c].
    rewrite E. cbn. by eexists.
  - destruct (dget (st_k8s_clusters (w_store w)) (ku_cluster_id u)) as [c0|] eqn:Ec; run; cbn; [|by exists c].
    rewrite !dget_dupd. destruct (String.eqb_spec cid (ku_cluster_id u)) as [->|]; [|by exists c].
    rewrite String.eqb_refl, E. cbn. by eexists.
Qed.

(** Every node of [names] through the four steps, one after the other *)
Definition rolling (names : list string) : list (string * string) :=
  concat ((λ n, [(n, "cordon"); (n, "drain"); (n, "upgrade"); (n, "uncordon")]) <$> names).
(** The upgrade [uid] of [cid] to [tv] over the nodes [names], with [acts] left *)
Definition on_course (uid cid tv : string) (names : list string) (w : World) (acts : list UpAction) : Prop :=
  ∃ u c, dget (ups w) uid = Some u ∧ ku_cluster_id u = cid ∧ ku_target_version u = tv
    ∧ ku_total u = Z.of_nat (length names) ∧ taken u ++ steps_left acts = rolling names
    ∧ cluster w cid = Some c
    ∧ (∀ n, n ∈ names → UA_done n ∈ acts ∨ dget (k_node_versions c) n = Some tv)
    ∧ (length acts ≤ 6 * length names + 1)%nat.
Lemma course_tick uid cid tv names w a rest ts :
  pop_action uid (w_upgrades w) = Some (a, ts) →
  on_course uid cid tv names w (a :: rest) → on_course uid cid tv names (upgrade_tick uid w).2 rest.
Proof.
  intros Hp (u & c & Hu & Ec & Et & Htot & Hpl & Hc & Hn & Hlen).
  pose proof (tick_spec uid a ts u w Hp Hu) as H. cbv zeta in H.
  destruct (tick_nodes uid a ts u w Hp Hu _ _ Hc) as (c' & Hc' & En).
  destruct H as (_ & (at_ & Eu) & _). fold (ups w) in Eu. fold (ups (upgrade_tick uid w).2) in Eu.
  destruct (after_keeps a at_ u) as (Ki & Kc & Kf & Kt).
  exists (after a at_ u), c'. rewrite Eu, dget_dset_eq, Kc, Kt. split_and!; try done.
  - by destruct a.
  - rewrite <- Hpl. unfold taken. destruct a; cbn; try done. by rewrite fmap_app, <- app_assoc.
  - intros n Hin. rewrite En. destruct (Hn n Hin) as [[<-|Hr]%elem_of_cons|Hv]; [..|right].
    + right. cbn. by rewrite Ec, String.eqb_refl, dget_dset_eq, Et.
    + by left.
    + destruct a as [| |m|]; cbn; try done. destruct (String.eqb _ _); [|done]. rewrite dget_dset, Et.
      by destruct (String.eqb n m).
  - cbn in Hlen. lia.
Qed.

(** Whatever happens meanwhile, what is left of the thread finishes the job. *)
Definition in_hand (uid cid tv : string) (names : list string) (w : World) : Prop :=
  is_Some (dget (ups w) uid) ∧ ∀ acts, (uid, acts) ∈ w_upgrades w → on_course uid cid tv names w acts.
Lemma course_frame uid cid tv names w w' acts :
  (∀ u, dget (ups w) uid = Some u → dget (ups w') uid = Some u) →
  (∀ c, cluster w cid = Some c → ∃ c', cluster w' cid = Some c' ∧ k_node_versions c' = k_node_versions c) →
  on_course uid cid tv names w acts → on_course uid cid tv names w' acts.
Proof.
  intros Hu Hc (u & c & Eu & Ecid & Et & Htot & Hpl & Ec & Hn & Hlen). destruct (Hc _ Ec) as (c' & Ec' & Ev).
  exists u, c'. rewrite Ev. split_and!; auto.
Qed.
Lemma in_hand_step uid cid tv names w w' :
  undisturbed w w' → upgrades_ok w → in_hand uid cid tv names w → in_hand uid cid tv names w'.
Proof.
  intros Hs Hok [[u Hu] Hin]. destruct Hs as [cid' tv' w|uid' w|w w' (Eu & Et & _) Hk].
  - destruct (start_cases cid' tv' w) as [[_ ->]|(c & v & ns & at_ & H)]; [by split; [eexists|]|]. cbv zeta in H.
    destruct H as (_ & _ & _ & Ev & _ & _ & Eups & Et & _ & Ecl).
    assert (ku_id v ≠ uid) as Hne.
    { intros <-. pose proof (fresh_upgrade w Hok) as Hf. rewrite Ev in Hu. cbn in Hu. congruence. }
    split; [rewrite Eups, dget_dset_ne by done; by eexists|]. intros acts.
    rewrite Et, elem_of_app, list_elem_of_singleton. intros [Ha|[= E _]]; [|by destruct Hne].
    apply (course_frame _ _ _ _ w); [|intros c0 E0; exists c0; split; [unfold cluster in *; by rewrite Ecl|done]|by apply Hin].
    intros u0 E0. by rewrite Eups, dget_dset_ne.
  - destruct (pop_action uid' (w_upgrades w)) as [[a ts]|] eqn:Ep.
    2: { assert ((upgrade_tick uid' w).2 = w) as ->; [|by split; [eexists|]]. unfold upgrade_tick. run. by rewrite Ep. }
    destruct (pop_action_spec _ _ _ _ (uo_threads w Hok) Ep) as (rest & Hr & _ & Hts).
    destruct (uo_going w Hok _ _ Hr) as (u' & c' & Hu' & Hg' & _).
    pose proof (tick_spec uid' a ts u' w Ep Hu') as H. cbv zeta in H. destruct H as (Et & (at_ & Eu) & _).
    fold (ups w) in Eu. fold (ups (upgrade_tick uid' w).2) in Eu.
    split; [rewrite Eu, dget_dset; destruct (String.eqb uid uid'); by eexists|].
    intros acts. rewrite Et, Hts. intros [[Hne Ha]|(-> & _ & ->)]; [|by eapply course_tick; [|apply Hin]].
    destruct (uo_going w Hok _ _ Ha) as (u2 & c2 & Hu2 & Hg2 & _). pose proof (Hin _ Ha) as Hco.
    apply (course_frame _ _ _ _ w); [|intros c0 E0|done].
    + intros u0 E0. by rewrite Eu, dget_dset_ne.
    + destruct (tick_nodes uid' a ts u' w Ep Hu' _ _ E0) as (c3 & E3 & Ev). exists c3. split; [done|]. rewrite Ev.
      destruct a as [| |m|]; try done. cbn. destruct (String.eqb_spec cid (ku_cluster_id u')) as [E|]; [|done].
      destruct Hne. destruct Hco as (u3 & _ & Hu3 & Ec3 & _). assert (u3 = u2) as -> by congruence.
      apply (uo_one w Hok _ _ u2 u'); [done..|apply Hg2|apply Hg'|congruence].
  - split; [rewrite Eu; by eexists|]. intros acts. rewrite Et. intros Ha.
    apply (course_frame _ _ _ _ w); [by rewrite Eu|apply Hk|by apply Hin].
Qed.
Lemma in_hand_steps uid cid tv names w w' :
  rtc undisturbed w w' → upgrades_ok w → in_hand uid cid tv names w → upgrades_ok w' ∧ in_hand uid cid tv names w'.
Proof.
  induction 1 as [w|w1 w2 w3 H _ IH]; intros Hok Hh; [done|]. apply IH.
  - by apply (step_ok _ _ (undisturbed_step _ _ H)).
  - by eapply in_hand_step.
Qed.

Lemma thread_unique (L : list (string * list UpAction)) uid l l' :
  NoDup L.*1 → (uid, l) ∈ L → (uid, l') ∈ L → l = l'.
Proof.
  induction L as [|[v k] L IH]; intros Hnd Hin Hin'; [by apply elem_of_nil in Hin|].
  cbn in Hnd. apply NoDup_cons in Hnd as [Hv Hnd]. rewrite elem_of_cons in Hin, Hin'.
  assert (∀ l', (v, l') ∉ L) as HL by (intros k' Hl; apply Hv, list_elem_of_fmap; by eexists (_, _)).
  destruct Hin as [[= -> <-]|Hin], Hin' as [[= ?]|Hin']; naive_solver.
Qed.
Definition ticks (uid : string) (n : nat) (w : World) : World := Nat.iter n (λ w, (upgrade_tick uid w).2) w.
Lemma ticks_done uid cid tv names acts w :
  upgrades_ok w → (uid, acts) ∈ w_upgrades w → on_course uid cid tv names w acts →
  let w' := ticks uid (length acts) w in
  ∃ u c, dget (ups w') uid = Some u ∧ ku_state u = "succeeded" ∧ ku_current_node u = None
    ∧ taken u = rolling names ∧ ku_done u = Z.of_nat (length names)
    ∧ cluster w' cid = Some c ∧ k_version c = tv ∧ (∀ n, n ∈ names → dget (k_node_versions c) n = Some tv)
    ∧ ∀ acts', (uid, acts') ∉ w_upgrades w'.
Proof.
  unfold ticks. revert w. induction acts as [|a rest IH]; intros w Hok Hin Hco.
  { destruct (uo_going w Hok _ _ Hin) as (u & c & _ & [_ (pre & E & _) _ _] & _). by destruct pre. }
  destruct (uo_going w Hok _ _ Hin) as (u & c & Hu & Hg & Hc & _).
  destruct (pop_action_some _ _ _ _ (uo_threads w Hok) Hin) as [ts Ep].
  destruct (pop_action_spec _ _ _ _ (uo_threads w Hok) Ep) as (rest' & Hin' & Hn & Hts).
  assert (rest' = rest) as -> by (by pose proof (thread_unique _ _ _ _ (uo_threads w Hok) Hin Hin') as [= ->]).
  pose proof (tick_spec uid a ts u w Ep Hu) as H. cbv zeta in H. pose proof (course_tick _ _ _ _ _ _ _ _ Ep Hco) as Hco'.
  destruct (tick_ok uid w Hok) as [Hok' _]. cbn [length]. rewrite Nat.iter_succ_r. cbv beta.
  set (w1 := (upgrade_tick uid w).2) in *. destruct H as (Et & (at_ & Eu) & _ & Hv).
  destruct rest as [|a1 rest]; [|by apply IH; [|rewrite Et; apply Hts; by right|]].
  change (Nat.iter (length []) ?f ?x) with x. fold (ups w1) in Eu. fold (ups w) in Eu.
  destruct (going_last u a at_ Hg) as [-> Hfin]. destruct Hco as (u0 & _ & Hu0 & Ecid & Etv & _).
  assert (u0 = u) as -> by congruence. rewrite Ecid in Hc. destruct (Hv _ _ Hc) as (c' & Hc' & Ev).
  destruct Hco' as (u2 & c2 & Hu2 & _ & _ & Etot & Epl & Hc2 & Hns & _). rewrite Eu, dget_dset_eq in Hu2. injection Hu2 as <-.
  assert (c2 = c') as -> by (unfold cluster in *; congruence).
  exists (after UA_finish at_ u), c'. rewrite Eu, dget_dset_eq. split_and!; try done.
  - by rewrite app_nil_r in Epl.
  - pose proof (fi_done _ Hfin) as Hd. by rewrite Hd.
  - rewrite Ev. cbn. by rewrite Ecid, String.eqb_refl.
  - intros n Hnm. destruct (Hns n Hnm) as [Hx|]; [by apply elem_of_nil in Hx|done].
  - intros acts'. rewrite Et, Hts. naive_solver.
Qed.
Lemma upgrade_length names : length (upgrade_actions names) = (6 * length names + 1)%nat.
Proof.
  unfold upgrade_actions. rewrite length_app. cbn [length]. f_equal.
  induction names as [|n l IH]; [done|]. rewrite fmap_cons. cbn [concat length]. rewrite length_app, IH.
  change (length (node_actions n)) with 6%nat. lia.
Qed.
Lemma course_start cid tv w up :
  upgrades_ok w → (start_upgrade cid tv w).1 = Ok up →
  ∃ c, cluster w cid = Some c ∧ in_hand (ku_id up) cid tv (fleet (w_store w) c) (start_upgrade cid tv w).2.
Proof.
  intros Hok E. destruct (start_cases cid tv w) as [[[e Ee] _]|(c & u & names & at_ & H)]; [congruence|]. cbv zeta in H.
  destruct H as (-> & Er & Hc & Eu & _ & _ & Eups & Et & _ & Ecl). assert (u = up) as -> by congruence.
  exists c. split; [done|]. split; [rewrite Eups, dget_dset_eq; by eexists|]. intros acts Ha.
  destruct (start_ok cid tv w Hok) as [Hok' _].
  assert (acts = upgrade_actions (fleet (w_store w) c)) as ->.
  { apply (thread_unique _ _ _ _ (uo_threads _ Hok') Ha). rewrite Et. apply elem_of_app. right. by left. }
  exists up, c. rewrite Eups, dget_dset_eq. split_and!; try (by rewrite Eu).
  - rewrite Eu. unfold taken. cbn. by rewrite (proj1 (plan_actions _)).
  - unfold cluster in *. by rewrite Ecl.
  - intros n Hn. left. unfold upgrade_actions. apply elem_of_app. left. apply elem_of_concat.
    exists (node_actions n). split; [by apply list_elem_of_fmap_2|]. unfold node_actions. right. apply elem_of_app. right. by left.
  - by rewrite upgrade_length.
Qed.

(** C30: An accepted upgrade can always be finished.  After the start, let any
    interleaving of upgrade requests, of pieces of upgrade threads and of other
    work that leaves upgrades and versions alone go by; whatever the thread then
    has left, at most six pieces a node and one, running that many pieces ends it:
    the upgrade has succeeded and names no current node; its events take every node
    of the cluster at the start, first the control plane and then the trays of the
    workers, through cordon, drain, upgrade and uncordon, one node after the other;
    all nodes are counted, each is recorded at the target version, and so is the
    cluster; and the thread is gone. *)
Theorem upgrade_completes cid tv w0 up w acts :
  upgrades_ok w0 → (start_upgrade cid tv w0).1 = Ok up →
  rtc undisturbed (start_upgrade cid tv w0).2 w → (ku_id up, acts) ∈ w_upgrades w →
  let w' := ticks (ku_id up) (length acts) w in
  ∃ c0 u c, cluster w0 cid = Some c0 ∧ (length acts ≤ 6 * length (fleet (w_store w0) c0) + 1)%nat
    ∧ dget (ups w') (ku_id up) = Some u ∧ ku_state u = "succeeded" ∧ ku_current_node u = None
    ∧ taken u = rolling (fleet (w_store w0) c0) ∧ ku_done u = Z.of_nat (length (fleet (w_store w0) c0))
    ∧ cluster w' cid = Some c ∧ k_version c = tv
    ∧ (∀ n, n ∈ fleet (w_store w0) c0 → dget (k_node_versions c) n = Some tv)
    ∧ ∀ acts', (ku_id up, acts') ∉ w_upgrades w'.
Proof.
  intros Hok Es Hs Hin w'. destruct (course_start cid tv w0 up Hok Es) as (c0 & Hc0 & Hh).
  destruct (start_ok cid tv w0 Hok) as [Hok1 _].
  destruct (in_hand_steps _ _ _ _ _ _ Hs Hok1 Hh) as [Hokw [_ Hco]]. specialize (Hco _ Hin).
  destruct (ticks_done _ _ _ _ _ _ Hokw Hin Hco) as (u & c & Hu).
  destruct Hco as (_ & _ & _ & _ & _ & _ & _ & _ & _ & Hlen). by exists c0, u, c.
Qed.

(** ** Witnesses *)
Lemma ok_empty w : ups w = [] → w_upgrades w = [] → started (w_store w) = 0%Z → upgrades_ok w.
Proof.
  intros E1 E2 E3. split; rewrite ?E1, ?E2, ?E3; [|constructor|..]; try done.
  intros uid acts Hin. by apply elem_of_nil in Hin.
Qed.
Lemma demo_ok : upgrades_ok Demo.delivered.
Proof. apply ok_empty; vm_compute; reflexivity. Qed.
(** An upgrade of the delivered cluster begins; its first piece runs, and a second
    request meanwhile is refused. *)
Definition busy (cid tv uid : string) (w : World) : World :=
  (start_upgrade cid tv (upgrade_tick uid (start_upgrade cid tv w).2).2).2.
Lemma busy_steps cid tv uid w : rtc step w (busy cid tv uid w).
Proof. eapply rtc_l; [apply step_start|]. eapply rtc_l; [apply step_tick|]. apply rtc_once, step_start. Qed.
Definition demo_busy : World := busy "k8s-1" "v1.33.2" "k8u-1" Demo.delivered.
Lemma demo_steps : rtc step Demo.delivered demo_busy.
Proof. exact (busy_steps "k8s-1" "v1.33.2" "k8u-1" Demo.delivered). Qed.
Lemma upgrades_safe_witness :
  upgrades_ok Demo.delivered ∧ rtc step Demo.delivered demo_busy
  ∧ upgrades_ok demo_busy ∧ versions_rise Demo.delivered demo_busy.
Proof.
  split; [exact demo_ok|]. split; [exact demo_steps|].
  exact (upgrades_safe Demo.delivered demo_busy demo_ok demo_steps).
Defined.
(** The delivered cluster is upgraded; one piece has run and a second request was
    refused when the rest is run. *)
Definition demo_up : K8sUpgrade := match (start_upgrade "k8s-1" "v1.33.2" Demo.delivered).1 with
                                   | Ok u => u | Raised _ => mkUpgrade "" "" "" "" "" "" None 0 0 [] "" end.
Lemma demo_started : (start_upgrade "k8s-1" "v1.33.2" Demo.delivered).1 = Ok demo_up.
Proof. vm_compute. reflexivity. Qed.
Lemma demo_undisturbed : rtc undisturbed (start_upgrade "k8s-1" "v1.33.2" Demo.delivered).2 demo_busy.
Proof. eapply rtc_l; [apply und_tick|]. apply rtc_once, und_start. Qed.
Definition demo_left : list UpAction := default [] (snd <$> head (w_upgrades demo_busy)).
Lemma demo_thread : (ku_id demo_up, demo_left) ∈ w_upgrades demo_busy.
Proof.
  assert (w_upgrades demo_busy = [(ku_id demo_up, demo_left)]) as -> by (vm_compute; reflexivity). left.
Qed.
Lemma upgrade_completes_witness :
  upgrades_ok Demo.delivered ∧ (start_upgrade "k8s-1" "v1.33.2" Demo.delivered).1 = Ok demo_up
  ∧ ∃ c, cluster (ticks (ku_id demo_up) (length demo_left) demo_busy) "k8s-1" = Some c ∧ k_version c = "v1.33.2".
Proof.
  split; [exact demo_ok|]. split; [exact demo_started|].
  destruct (upgrade_completes "k8s-1" "v1.33.2" Demo.delivered demo_up demo_busy demo_left demo_ok demo_started
              demo_undisturbed demo_thread) as (c0 & u & c & _ & _ & _ & _ & _ & _ & _ & Hc & Hv & _).
  exists c. split; [exact Hc|exact Hv].
Defined.
End UpgradeThms.
