(* ===== verification/SeedThms.v ===== *)
(** * Seeding and provisioning: theorems

    The inventory is a well-formed tree of scalable units, racks, trays, GPUs and
    DPUs whose identifiers agree with its edges; seeding builds such a tree and
    provisioning a scalable unit keeps it. *)
From Stdlib Require Import QArith Ascii.
From stdpp Require Import strings base decidable option numbers list.
From S2P Require Import Prelude PyLib Models PortalModels World Spec Seed StoreOps Topology CustomerThms Demo.
Local Open Scope string_scope.
Local Open Scope list_scope.
Local Open Scope py_scope.

Module SeedThms.
Import Spec Seed.

(** ** Names *)
Lemma pad_inj x y : (0 ≤ x)%Z → (0 ≤ y)%Z → _pad x = _pad y → x = y.
Proof. unfold _pad. intros Hx Hy E%pad2_inj. lia. Qed.
Lemma rack_name_inj su su' r r' :
  (0 ≤ r)%Z → (0 ≤ r')%Z → rack_name su r = rack_name su' r' → su = su' ∧ r = r'.
Proof.
  intros Hr Hr' E. unfold rack_name in E.
  destruct (name_inj su su' "-rack" (_pad r) (_pad r')) as [-> E']; [apply no_dash_pad2..|exact E|].
  split; [done|by apply pad_inj].
Qed.
Lemma tray_name_inj rk rk' t t' :
  (0 ≤ t)%Z → (0 ≤ t')%Z → tray_name rk t = tray_name rk' t' → rk = rk' ∧ t = t'.
Proof.
  intros Ht Ht' E. unfold tray_name in E.
  destruct (name_inj rk rk' "-tray" (_pad t) (_pad t')) as [-> E']; [apply no_dash_pad2..|exact E|].
  split; [done|by apply pad_inj].
Qed.
Lemma gpu_name_inj tr tr' g g' :
  (0 ≤ g)%Z → (0 ≤ g')%Z → gpu_name tr g = gpu_name tr' g' → tr = tr' ∧ g = g'.
Proof.
  intros Hg Hg' E. unfold gpu_name in E.
  destruct (name_inj tr tr' "-gpu" (str_of_Z g) (str_of_Z g')) as [-> E']; [by apply no_dash_str_of_Z..|exact E|].
  split; [done|by apply str_of_Z_inj].
Qed.
Lemma dpu_name_inj tr tr' : dpu_name tr = dpu_name tr' → tr = tr'.
Proof. apply str_app_inj_r. Qed.
Lemma su_name_inj i i' : su_name i = su_name i' → i = i'.
Proof. intros E%str_app_inj. by apply str_of_Z_inj. Qed.

(** ** Assigning a list of entries *)
Section puts.
Context {V : Type}.
Implicit Types (d : dict V) (l : dict V).
Definition puts l d : dict V := foldl (λ d kv, dset d kv.1 kv.2) d l.
Lemma puts_cons k v l d : puts ((k, v) :: l) d = puts l (dset d k v).
Proof. done. Qed.
Lemma puts_app l l' d : puts (l ++ l') d = puts l' (puts l d).
Proof. apply foldl_app. Qed.
Lemma puts_other l d k : k ∉ l.*1 → dget (puts l d) k = dget d k.
Proof.
  revert d. induction l as [|[k1 v1] l IH]; intros d; [done|]. intros [Hne Hk]%not_elem_of_cons.
  rewrite puts_cons, IH by done. by apply dget_dset_ne, not_eq_sym.
Qed.
Lemma puts_key l d k : k ∈ l.*1 → ∃ v, dget (puts l d) k = Some v ∧ (k, v) ∈ l.
Proof.
  revert d. induction l as [|[k1 v1] l IH]; intros d; [by intros ?%elem_of_nil|]. rewrite puts_cons.
  destruct (decide (k ∈ l.*1)) as [Hl|Hl].
  - intros _. destruct (IH (dset d k1 v1) Hl) as (v & E & Hv). exists v. split; [done|by right].
  - cbn. intros [->|?]%elem_of_cons; [|done]. rewrite (puts_other l) by done. exists v1.
    split; [by rewrite dget_dset_eq|left].
Qed.
Lemma puts_inv l d k v : dget (puts l d) k = Some v → (k, v) ∈ l ∨ (k ∉ l.*1 ∧ dget d k = Some v).
Proof.
  intros E. destruct (decide (k ∈ l.*1)) as [Hk|Hk].
  - destruct (puts_key l d k Hk) as (v' & E' & Hv). left. congruence.
  - right. split; [done|]. by rewrite puts_other in E.
Qed.
Lemma puts_wf l d : dict_wf d → dict_wf (puts l d).
Proof. revert d. induction l as [|[k v] l IH]; intros d Hd; [done|]. rewrite puts_cons. auto. Qed.
End puts.
#[global] Arguments puts : simpl never.

(** What a piece of equipment adds to the inventory *)
Record Parts := mkParts {
  pa_gpus : dict GPU; pa_cpus : dict CPU; pa_dpus : dict BlueFieldDPU; pa_trays : dict ComputeTray;
  pa_nvlink : dict NVLinkSwitchTray; pa_racks : dict Rack
}.
Definition install (p : Parts) (s : Store) : Store :=
  mkStore (st_factories s) (st_blocks s) (st_dus s) (st_sus s) (puts (pa_racks p) (st_racks s))
    (puts (pa_trays p) (st_trays s)) (puts (pa_nvlink p) (st_nvlink_trays s)) (puts (pa_gpus p) (st_gpus s))
    (puts (pa_cpus p) (st_cpus s)) (puts (pa_dpus p) (st_dpus s)) (st_tenants s) (st_allocations s)
    (st_partitions s) (st_netiso s) (st_node_instances s) (st_orders s) (st_storage_allocs s)
    (st_cpu_nodes s) (st_k8s_clusters s) (st_k8s_installs s) (st_counters s) (st_portal s).
Definition no_parts : Parts := mkParts [] [] [] [] [] [].
Definition join_parts (p q : Parts) : Parts :=
  mkParts (pa_gpus p ++ pa_gpus q) (pa_cpus p ++ pa_cpus q) (pa_dpus p ++ pa_dpus q)
    (pa_trays p ++ pa_trays q) (pa_nvlink p ++ pa_nvlink q) (pa_racks p ++ pa_racks q).
Definition parts_of {A} (f : A → Parts) (l : list A) : Parts := foldr (λ x p, join_parts (f x) p) no_parts l.
Lemma install_none s : install no_parts s = s.
Proof. by destruct s. Qed.
Lemma install_join p q s : install (join_parts p q) s = install q (install p s).
Proof.
  unfold install at 1. unfold join_parts.
  cbn [pa_gpus pa_cpus pa_dpus pa_trays pa_nvlink pa_racks]. by rewrite !puts_app.
Qed.

Definition set_world (p : Parts) (w : World) : World :=
  mkWorld (w_env w) (w_ticks w) (w_draws w) (install p (w_store w)) (w_nico w) (w_vast w) (w_shared w)
    (w_tracer w) (w_bg_orders w) (w_threads w) (w_upgrades w) (w_wipes w)
    (w_emu w).
(** [m] always returns and installs [p]. *)
Definition installs (p : Parts) (m : IO unit) : Prop := ∀ w, m w = (Ok tt, set_world p w).
Lemma installs_none : installs no_parts (mret tt).
Proof. intros w. unfold set_world. rewrite install_none. by destruct w. Qed.
Lemma installs_then p q m m' : installs p m → installs q m' → installs (join_parts p q) (m ;; m').
Proof.
  intros Hm Hm' w. unfold mbind, M_bind. rewrite Hm, Hm'. unfold set_world at 1 3. by rewrite install_join.
Qed.
Lemma installs_each {A} (f : A → Parts) body (l : list A) :
  (∀ x, installs (f x) (body x)) → installs (parts_of f l) (for_each l body).
Proof. intros Hb. induction l as [|x l IH]; [apply installs_none|]. by apply installs_then. Qed.

(** ** The parts of a scalable unit *)
Definition gpu_part (bp : RackBlueprint) (tray : string) (g : Z) : Parts :=
  mkParts [(gpu_name tray g, new_gpu bp tray g)] [] [] [] [] [].
Definition cpu_part (bp : RackBlueprint) (tray : string) (c : Z) : Parts :=
  mkParts [] [(cpu_name tray c, new_cpu bp tray c)] [] [] [] [].
Definition new_dpu (bp : RackBlueprint) (tray : string) : BlueFieldDPU :=
  mkDPU (dpu_name tray) tray (dpu_sku bp) (dpu_bw_gbps bp) DPU_dpu None.
Definition dpu_part (bp : RackBlueprint) (tray : string) : Parts :=
  mkParts [] [] (if has_dpu bp then [(dpu_name tray, new_dpu bp tray)] else []) [] [] [].
Definition tray_part (bp : RackBlueprint) (rack : string) (t : Z) : Parts :=
  mkParts [] [] [] [(tray_name rack t, new_tray bp rack t)] [] [].
Definition tray_parts (bp : RackBlueprint) (rack : string) (t : Z) : Parts :=
  let tray := tray_name rack t in
  join_parts (parts_of (gpu_part bp tray) (range (gpu_per_tray bp)))
    (join_parts (parts_of (cpu_part bp tray) (range (cpu_per_tray bp)))
       (join_parts (dpu_part bp tray) (tray_part bp rack t))).
Definition nvlink_part (bp : RackBlueprint) (rack : string) (n : Z) : Parts :=
  mkParts [] [] [] [] [(nvsw_name rack n, mkNVTray (nvsw_name rack n) rack n (nvswitch_asics_per_tray bp))] [].
Definition rack_part (bp : RackBlueprint) (cap : Z) (su : string) (r : Z) : Parts :=
  mkParts [] [] [] [] [] [(rack_name su r, new_rack bp cap su r)].
Definition rack_parts (bp : RackBlueprint) (cap : Z) (su : string) (r : Z) : Parts :=
  let rack := rack_name su r in
  join_parts (parts_of (tray_parts bp rack) (range (compute_trays bp)))
    (join_parts (parts_of (nvlink_part bp rack) (range (nvlink_switch_trays bp))) (rack_part bp cap su r)).

Lemma installs_tray bp rack t : installs (tray_parts bp rack t) (add_tray bp rack t).
Proof.
  unfold add_tray. apply installs_then; [|apply installs_then; [|apply installs_then]].
  - by apply installs_each.
  - by apply installs_each.
  - unfold dpu_part, when. destruct (has_dpu bp); [done|apply installs_none].
  - done.
Qed.
Lemma installs_rack bp cap su r : installs (rack_parts bp cap su r) (add_rack bp cap su r).
Proof.
  unfold add_rack. apply installs_then; [|apply installs_then; [|done]].
  - apply installs_each. intros t. apply installs_tray.
  - by apply installs_each.
Qed.
Definition su_parts (bp : RackBlueprint) (cap : Z) (su : string) (n : Z) : Parts :=
  parts_of (rack_parts bp cap su) (range n).
Lemma installs_racks bp cap su n : installs (su_parts bp cap su n) (for_each (range n) (add_rack bp cap su)).
Proof. apply installs_each. intros r. apply installs_rack. Qed.

(** Which entries there are *)
Lemma elem_of_range x n : x ∈ range n ↔ (0 ≤ x < n)%Z.
Proof. unfold range. rewrite elem_of_seqZ. lia. Qed.
Lemma parts_elem {A B} (pr : Parts → list B) (f : A → Parts) (l : list A) e :
  pr no_parts = [] → (∀ p q, pr (join_parts p q) = pr p ++ pr q) →
  e ∈ pr (parts_of f l) ↔ ∃ x, x ∈ l ∧ e ∈ pr (f x).
Proof.
  intros H0 Hj. induction l as [|x l IH]; cbn.
  - rewrite H0. split; [by intros ?%elem_of_nil|]. by intros (? & ?%elem_of_nil & _).
  - rewrite Hj, elem_of_app, IH. split.
    + intros [H|(y & Hy & H)]; [exists x; split; [left|done]|exists y; split; [by right|done]].
    + intros (y & [->|Hy]%elem_of_cons & H); [by left|right; by exists y].
Qed.
Lemma parts_nil {A B} (pr : Parts → list B) (f : A → Parts) (l : list A) :
  pr no_parts = [] → (∀ p q, pr (join_parts p q) = pr p ++ pr q) → (∀ x, pr (f x) = []) → pr (parts_of f l) = [].
Proof. intros H0 Hj Hf. unfold parts_of. induction l as [|x l IH]; cbn; [done|]. by rewrite Hj, Hf, IH. Qed.
Section parts.
Context (bp : RackBlueprint) (cap : Z) (su : string) (n : Z).
Notation tray r t := (tray_name (rack_name su r) t).
(** The places of the new racks, trays and GPUs *)
Definition rack_at (r : Z) : Prop := (0 ≤ r < n)%Z.
Definition tray_at (r t : Z) : Prop := rack_at r ∧ (0 ≤ t < compute_trays bp)%Z.
Definition gpu_at (r t g : Z) : Prop := tray_at r t ∧ (0 ≤ g < gpu_per_tray bp)%Z.

(** What each level adds of each kind *)
Lemma tray_racks rack t : pa_racks (tray_parts bp rack t) = [].
Proof. unfold tray_parts. cbn [join_parts pa_racks]. by rewrite !(parts_nil pa_racks). Qed.
Lemma tray_trays rack t : pa_trays (tray_parts bp rack t) = [(tray_name rack t, new_tray bp rack t)].
Proof. unfold tray_parts. cbn [join_parts pa_trays]. by rewrite !(parts_nil pa_trays). Qed.
Lemma tray_dpus rack t : pa_dpus (tray_parts bp rack t) = pa_dpus (dpu_part bp (tray_name rack t)).
Proof. unfold tray_parts. cbn [join_parts pa_dpus]. rewrite !(parts_nil pa_dpus) by done. apply app_nil_r. Qed.
Lemma tray_gpus rack t :
  pa_gpus (tray_parts bp rack t) = pa_gpus (parts_of (gpu_part bp (tray_name rack t)) (range (gpu_per_tray bp))).
Proof. unfold tray_parts. cbn [join_parts pa_gpus]. by rewrite (parts_nil pa_gpus (cpu_part _ _)), app_nil_r by done. Qed.

Lemma new_racks k v :
  (k, v) ∈ pa_racks (su_parts bp cap su n) ↔ ∃ r, rack_at r ∧ k = rack_name su r ∧ v = new_rack bp cap su r.
Proof.
  unfold su_parts. rewrite (parts_elem pa_racks) by done. setoid_rewrite elem_of_range.
  split; intros (r & Hr & H); exists r; (split; [done|]); revert H;
    unfold rack_parts; cbn [join_parts pa_racks];
    rewrite (parts_nil pa_racks (tray_parts _ _)), (parts_nil pa_racks (nvlink_part _ _)) by (done || apply tray_racks);
    cbn; rewrite list_elem_of_singleton; [by intros [= -> ->]|by intros [-> ->]].
Qed.
Lemma new_trays k v :
  (k, v) ∈ pa_trays (su_parts bp cap su n)
  ↔ ∃ r t, tray_at r t ∧ k = tray r t ∧ v = new_tray bp (rack_name su r) t.
Proof.
  unfold su_parts. rewrite (parts_elem pa_trays) by done. setoid_rewrite elem_of_range. unfold rack_parts.
  cbn [join_parts pa_trays]. setoid_rewrite elem_of_app. setoid_rewrite (parts_elem pa_trays); [|done..].
  setoid_rewrite elem_of_range. setoid_rewrite tray_trays. setoid_rewrite (parts_nil pa_trays (nvlink_part _ _)); [|done..].
  setoid_rewrite list_elem_of_singleton. setoid_rewrite elem_of_nil. unfold tray_at, rack_at.
  split; [intros (r & Hr & [(t & Ht & [= -> ->])|[]]); by exists r, t|].
  intros (r & t & [Hr Ht] & -> & ->). exists r. split; [done|]. left. by exists t.
Qed.
Lemma new_gpus k v :
  (k, v) ∈ pa_gpus (su_parts bp cap su n)
  ↔ ∃ r t g, gpu_at r t g ∧ k = gpu_name (tray r t) g ∧ v = new_gpu bp (tray r t) g.
Proof.
  unfold su_parts. rewrite (parts_elem pa_gpus) by done. setoid_rewrite elem_of_range. unfold rack_parts.
  cbn [join_parts pa_gpus]. setoid_rewrite elem_of_app. setoid_rewrite (parts_elem pa_gpus (tray_parts _ _)); [|done..].
  setoid_rewrite elem_of_range. setoid_rewrite tray_gpus. setoid_rewrite (parts_elem pa_gpus (gpu_part _ _)); [|done..].
  setoid_rewrite elem_of_range. setoid_rewrite (parts_nil pa_gpus (nvlink_part _ _)); [|done..].
  cbn. setoid_rewrite list_elem_of_singleton. setoid_rewrite elem_of_nil. unfold gpu_at, tray_at, rack_at.
  split; [intros (r & Hr & [(t & Ht & g & Hg & [= -> ->])|[]]); by exists r, t, g|].
  intros (r & t & g & [[Hr Ht] Hg] & -> & ->). exists r. split; [done|]. left. exists t. split; [done|]. by exists g.
Qed.
Lemma new_dpus k v :
  (k, v) ∈ pa_dpus (su_parts bp cap su n)
  ↔ has_dpu bp = true ∧ ∃ r t, tray_at r t ∧ k = dpu_name (tray r t) ∧ v = new_dpu bp (tray r t).
Proof.
  unfold su_parts. rewrite (parts_elem pa_dpus) by done. setoid_rewrite elem_of_range. unfold rack_parts.
  cbn [join_parts pa_dpus]. setoid_rewrite elem_of_app. setoid_rewrite (parts_elem pa_dpus); [|done..].
  setoid_rewrite elem_of_range. setoid_rewrite tray_dpus. setoid_rewrite (parts_nil pa_dpus (nvlink_part _ _)); [|done..].
  unfold dpu_part. cbn. destruct (has_dpu bp).
  - setoid_rewrite list_elem_of_singleton. setoid_rewrite elem_of_nil. unfold tray_at, rack_at.
    split; [intros (r & Hr & [(t & Ht & [= -> ->])|[]]); split; [done|]; by exists r, t|].
    intros (_ & r & t & [Hr Ht] & -> & ->). exists r. split; [done|]. left. by exists t.
  - setoid_rewrite elem_of_nil. split; [by intros (r & Hr & [(t & Ht & [])|[]])|]. by intros [? _].
Qed.
End parts.

(** ** The tree *)
Record inventory_wf (s : Store) : Prop := {
  iw_dicts : dict_wf (st_sus s) ∧ dict_wf (st_racks s) ∧ dict_wf (st_trays s) ∧ dict_wf (st_gpus s)
    ∧ dict_wf (st_dpus s);
  (** a scalable unit has its racks, numbered from 0, of its blueprint *)
  iw_su k su : dget (st_sus s) k = Some su →
    su_id su = k ∧ k = su_name (su_index su) ∧ is_Some (dget BLUEPRINTS (su_blueprint_key su))
    ∧ ∃ n, su_rack_ids su = rack_name k <$> range n
      ∧ ∀ x, (0 ≤ x < n)%Z → ∃ r, dget (st_racks s) (rack_name k x) = Some r ∧ rk_su_id r = k
                                  ∧ rk_blueprint_key r = su_blueprint_key su;
  (** a rack is one of its scalable unit's, and has the trays of its blueprint *)
  iw_rack k r : dget (st_racks s) k = Some r →
    rk_id r = k ∧ k = rack_name (rk_su_id r) (rk_index r) ∧ (0 ≤ rk_index r)%Z
    ∧ (∃ su, dget (st_sus s) (rk_su_id r) = Some su ∧ k ∈ su_rack_ids su)
    ∧ ∃ bp, dget BLUEPRINTS (rk_blueprint_key r) = Some bp
      ∧ rk_tray_ids r = tray_name k <$> range (compute_trays bp)
      ∧ ∀ x, (0 ≤ x < compute_trays bp)%Z → ∃ t, dget (st_trays s) (tray_name k x) = Some t ∧ t_rack_id t = k;
  (** a tray is one of its rack's, and has the GPUs of its blueprint *)
  iw_tray k t : dget (st_trays s) k = Some t →
    t_id t = k ∧ k = tray_name (t_rack_id t) (t_index t) ∧ (0 ≤ t_index t)%Z
    ∧ (∃ r bp, dget (st_racks s) (t_rack_id t) = Some r ∧ k ∈ rk_tray_ids r
         ∧ dget BLUEPRINTS (rk_blueprint_key r) = Some bp
         ∧ t_gpu_ids t = gpu_name k <$> range (gpu_per_tray bp)
         ∧ ∀ x, (0 ≤ x < gpu_per_tray bp)%Z →
             ∃ g, dget (st_gpus s) (gpu_name k x) = Some g ∧ g_tray_id g = k)
    ∧ ∀ d, t_dpu_id t = Some d → ∃ u, dget (st_dpus s) d = Some u ∧ d_tray_id u = k;
  (** a GPU and a DPU are in their tray *)
  iw_gpu k g : dget (st_gpus s) k = Some g →
    g_id g = k ∧ k = gpu_name (g_tray_id g) (g_index g) ∧ (0 ≤ g_index g)%Z
    ∧ ∃ t, dget (st_trays s) (g_tray_id g) = Some t ∧ k ∈ t_gpu_ids t;
  iw_dpu k d : dget (st_dpus s) k = Some d →
    d_id d = k ∧ k = dpu_name (d_tray_id d) ∧ ∃ t, dget (st_trays s) (d_tray_id d) = Some t ∧ t_dpu_id t = Some k
}.

(** Names under a scalable unit that does not exist are free. *)
Section fresh.
Context (s : Store) (Hwf : inventory_wf s) (su : string) (Hsu : dget (st_sus s) su = None).
Lemma fresh_rack r : (0 ≤ r)%Z → dget (st_racks s) (rack_name su r) = None.
Proof.
  intros Hr. destruct (dget (st_racks s) _) as [rk|] eqn:E; [|done].
  destruct (iw_rack s Hwf _ _ E) as (_ & En & Hi & (u & Eu & _) & _).
  apply rack_name_inj in En as [En _]; [|done..]. congruence.
Qed.
Lemma fresh_tray r t : (0 ≤ r)%Z → (0 ≤ t)%Z → dget (st_trays s) (tray_name (rack_name su r) t) = None.
Proof.
  intros Hr Ht. destruct (dget (st_trays s) _) as [tr|] eqn:E; [|done].
  destruct (iw_tray s Hwf _ _ E) as (_ & En & Hi & (rk & bp & Er & _) & _).
  apply tray_name_inj in En as [En _]; [|done..]. by rewrite <-En, fresh_rack in Er.
Qed.
Lemma fresh_gpu r t g :
  (0 ≤ r)%Z → (0 ≤ t)%Z → (0 ≤ g)%Z → dget (st_gpus s) (gpu_name (tray_name (rack_name su r) t) g) = None.
Proof.
  intros Hr Ht Hg. destruct (dget (st_gpus s) _) as [u|] eqn:E; [|done].
  destruct (iw_gpu s Hwf _ _ E) as (_ & En & Hi & tr & Et & _).
  apply gpu_name_inj in En as [En _]; [|done..]. by rewrite <-En, fresh_tray in Et.
Qed.
Lemma fresh_dpu r t :
  (0 ≤ r)%Z → (0 ≤ t)%Z → dget (st_dpus s) (dpu_name (tray_name (rack_name su r) t)) = None.
Proof.
  intros Hr Ht. destruct (dget (st_dpus s) _) as [u|] eqn:E; [|done].
  destruct (iw_dpu s Hwf _ _ E) as (_ & En & tr & Et & _).
  apply dpu_name_inj in En. by rewrite <-En, fresh_tray in Et.
Qed.
End fresh.

(** ** A store with one more scalable unit *)
Section grown.
Context (bp : RackBlueprint) (cap : Z) (du : option string) (idx n : Z) (s s' : Store).
Notation su := (su_name idx).
Notation parts := (su_parts bp cap su n).
Context (Hbp : dget BLUEPRINTS (key bp) = Some bp).
Context (Hwf : inventory_wf s) (Hsu : dget (st_sus s) su = None).
Context (Es : st_sus s' = dset (st_sus s) su (new_su bp du idx n)).
Context (Er : st_racks s' = puts (pa_racks parts) (st_racks s)).
Context (Et : st_trays s' = puts (pa_trays parts) (st_trays s)).
Context (Eg : st_gpus s' = puts (pa_gpus parts) (st_gpus s)).
Context (Ed : st_dpus s' = puts (pa_dpus parts) (st_dpus s)).

(** The old entries are untouched, the new ones are there, and there are no others. *)
Lemma key_in {V} (l : dict V) k v : (k, v) ∈ l → k ∈ l.*1.
Proof. intros H. apply list_elem_of_fmap. by exists (k, v). Qed.
Lemma in_key {V} (l : dict V) k : k ∈ l.*1 → ∃ v, (k, v) ∈ l.
Proof. intros ([k' v] & -> & H)%list_elem_of_fmap. by exists v. Qed.
Lemma old_su k u : dget (st_sus s) k = Some u → dget (st_sus s') k = Some u.
Proof. intros E. rewrite Es, dget_dset_ne; [done|]. congruence. Qed.
Lemma old_rack k r : dget (st_racks s) k = Some r → dget (st_racks s') k = Some r.
Proof.
  intros E. rewrite Er, puts_other; [done|]. intros (v & Hv)%in_key.
  apply new_racks in Hv as (i & [? _] & -> & _). by rewrite (fresh_rack s Hwf _ Hsu) in E.
Qed.
Lemma old_tray k t : dget (st_trays s) k = Some t → dget (st_trays s') k = Some t.
Proof.
  intros E. rewrite Et, puts_other; [done|]. intros (v & Hv)%in_key.
  apply new_trays in Hv as (i & j & [[? _] [? _]] & -> & _). by rewrite (fresh_tray s Hwf _ Hsu) in E.
Qed.
Lemma old_gpu k g : dget (st_gpus s) k = Some g → dget (st_gpus s') k = Some g.
Proof.
  intros E. rewrite Eg, puts_other; [done|]. intros (v & Hv)%in_key.
  apply new_gpus in Hv as (i & j & x & [[[? _] [? _]] [? _]] & -> & _). by rewrite (fresh_gpu s Hwf _ Hsu) in E.
Qed.
Lemma old_dpu k d : dget (st_dpus s) k = Some d → dget (st_dpus s') k = Some d.
Proof.
  intros E. rewrite Ed, puts_other; [done|]. intros (v & Hv)%in_key.
  apply new_dpus in Hv as (_ & i & j & [[? _] [? _]] & -> & _). by rewrite (fresh_dpu s Hwf _ Hsu) in E.
Qed.
Lemma get_rack r : rack_at n r → dget (st_racks s') (rack_name su r) = Some (new_rack bp cap su r).
Proof.
  intros Hr. rewrite Er.
  destruct (puts_key (pa_racks parts) (st_racks s) (rack_name su r)) as (v & E & Hv).
  { eapply key_in, new_racks. by exists r. }
  apply new_racks in Hv as (i & Hi & En & ->). destruct Hr, Hi. by apply rack_name_inj in En as [_ <-].
Qed.
Lemma get_tray r t : tray_at bp n r t →
  dget (st_trays s') (tray_name (rack_name su r) t) = Some (new_tray bp (rack_name su r) t).
Proof.
  intros Hr. rewrite Et.
  destruct (puts_key (pa_trays parts) (st_trays s) (tray_name (rack_name su r) t)) as (v & E & Hv).
  { eapply key_in, new_trays. by exists r, t. }
  apply new_trays in Hv as (i & j & [[] []] & En & ->). destruct Hr as [[] []].
  apply tray_name_inj in En as [En <-]; [|done..]. by rewrite E, En.
Qed.
Lemma get_gpu r t g : gpu_at bp n r t g →
  dget (st_gpus s') (gpu_name (tray_name (rack_name su r) t) g) = Some (new_gpu bp (tray_name (rack_name su r) t) g).
Proof.
  intros Hr. rewrite Eg.
  destruct (puts_key (pa_gpus parts) (st_gpus s) (gpu_name (tray_name (rack_name su r) t) g)) as (v & E & Hv).
  { eapply key_in, new_gpus. by exists r, t, g. }
  apply new_gpus in Hv as (i & j & x & [[[] []] []] & En & ->). destruct Hr as [[[] []] []].
  apply gpu_name_inj in En as [En <-]; [|done..]. by rewrite E, En.
Qed.
Lemma get_dpu r t : has_dpu bp = true → tray_at bp n r t →
  dget (st_dpus s') (dpu_name (tray_name (rack_name su r) t)) = Some (new_dpu bp (tray_name (rack_name su r) t)).
Proof.
  intros Hd Hr. rewrite Ed.
  destruct (puts_key (pa_dpus parts) (st_dpus s) (dpu_name (tray_name (rack_name su r) t))) as (v & E & Hv).
  { eapply key_in, new_dpus. split; [done|]. by exists r, t. }
  apply new_dpus in Hv as (_ & i & j & [[] []] & En & ->). apply dpu_name_inj in En. by rewrite E, En.
Qed.
Lemma elem_of_names {A} (f : Z → A) m x : (0 ≤ x < m)%Z → f x ∈ f <$> range m.
Proof. intros Hx. apply list_elem_of_fmap. exists x. split; [done|]. by apply elem_of_range. Qed.

Lemma grown_wf : inventory_wf s'.
Proof.
  destruct (iw_dicts s Hwf) as (D1 & D2 & D3 & D4 & D5). split.
  - rewrite Es, Er, Et, Eg, Ed. split_and!; eauto using puts_wf.
  - intros k u. rewrite Es, dget_dset. destruct (String.eqb_spec k su) as [->|Hne].
    + intros [= <-]. split_and!; [done|done|cbn; by rewrite Hbp|]. exists n. split; [done|].
      intros x Hx. eexists. split; [by apply get_rack|done].
    + intros E. destruct (iw_su s Hwf _ _ E) as (? & ? & ? & m & ? & Hm). split_and!; try done. exists m.
      split; [done|]. intros x Hx. destruct (Hm x Hx) as (r & E' & ?). exists r. split; [by apply old_rack|done].
  - intros k r E. rewrite Er in E. apply puts_inv in E as [E|[_ E]].
    + apply new_racks in E as (x & Hx & -> & ->). cbn. split_and!; [done..|apply Hx| |].
      * eexists. split; [by rewrite Es, dget_dset_eq|]. cbn. by apply elem_of_names.
      * exists bp. split_and!; [done..|]. intros t Ht. eexists. split; [by apply get_tray|done].
    + destruct (iw_rack s Hwf _ _ E) as (? & ? & ? & (u & Eu & Hu) & bp' & ? & ? & Hts). split_and!; try done.
      * exists u. split; [by apply old_su|done].
      * exists bp'. split_and!; [done..|]. intros x Hx. destruct (Hts x Hx) as (t & E' & ?). exists t.
        split; [by apply old_tray|done].
  - intros k t E. rewrite Et in E. apply puts_inv in E as [E|[_ E]].
    + apply new_trays in E as (x & y & Hx & -> & ->). cbn. split_and!; [done..|apply Hx| |].
      * eexists _, bp. split; [apply get_rack, Hx|]. cbn. split_and!; [apply elem_of_names, Hx|done..|].
        intros g Hg. eexists. split; [by apply get_gpu|done].
      * intros d. destruct (has_dpu bp) eqn:Eh; [|done]. intros [= <-]. eexists. split; [by apply get_dpu|done].
    + destruct (iw_tray s Hwf _ _ E) as (? & ? & ? & (r & bp' & E' & ? & ? & ? & Hgs) & Hd). split_and!; try done.
      * exists r, bp'. split_and!; [by apply old_rack|done..|]. intros g Hg. destruct (Hgs g Hg) as (u & E'' & ?).
        exists u. split; [by apply old_gpu|done].
      * intros d Ed'. destruct (Hd d Ed') as (u & E'' & ?). exists u. split; [by apply old_dpu|done].
  - intros k g E. rewrite Eg in E. apply puts_inv in E as [E|[_ E]].
    + apply new_gpus in E as (x & y & z & Hx & -> & ->). cbn. split_and!; [done..|apply Hx|].
      eexists. split; [apply get_tray, Hx|]. cbn. apply elem_of_names, Hx.
    + destruct (iw_gpu s Hwf _ _ E) as (? & ? & ? & t & E' & ?). split_and!; try done. exists t.
      split; [by apply old_tray|done].
  - intros k d E. rewrite Ed in E. apply puts_inv in E as [E|[_ E]].
    + apply new_dpus in E as (Hd & x & y & Hx & -> & ->). cbn. split_and!; [done..|].
      eexists. split; [by apply get_tray|]. cbn. by rewrite Hd.
    + destruct (iw_dpu s Hwf _ _ E) as (? & ? & t & E' & ?). split_and!; try done. exists t.
      split; [by apply old_tray|done].
Qed.
End grown.

(** ** Provisioning *)
Lemma blueprint_key k bp : dget BLUEPRINTS k = Some bp → key bp = k.
Proof.
  intros E. apply dget_Some_in in E. unfold BLUEPRINTS in E. rewrite !elem_of_cons, elem_of_nil in E.
  by destruct E as [[= -> ->]|[[= -> ->]|[[= -> ->]|[]]]].
Qed.
Definition racks_asked (bp : RackBlueprint) (racks : option Z) : Z :=
  match racks with Some n => if (n =? 0)%Z then racks_per_su bp else n | None => racks_per_su bp end.
Definition su_free (i : Z) (s : Store) : Prop := dget (st_sus s) (su_name i) = None.
Lemma provision_run f d idx bk pol racks w bp :
  dget BLUEPRINTS bk = Some bp → inventory_wf (w_store w) → su_free idx (w_store w) →
  ∃ w', provision_scalable_unit f d idx bk pol racks w = (Ok (new_su bp d idx (racks_asked bp racks)), w')
  ∧ inventory_wf (w_store w')
  ∧ st_sus (w_store w') = dset (st_sus (w_store w)) (su_name idx) (new_su bp d idx (racks_asked bp racks))
  ∧ st_factories (w_store w') = st_factories (w_store w).
Proof.
  intros Hbp Hwf Hfree. unfold provision_scalable_unit, get_blueprint. rewrite Hbp. fold (racks_asked bp racks).
  set (cap := if String.eqb pol "maxq" then maxq_rack_kw bp else maxp_rack_kw bp).
  set (n := racks_asked bp racks). cbn [su_id new_su]. run. rewrite installs_racks.
  fold (racks_asked bp racks). fold n. fold cap.
  set (w1 := (set_world _ w) <| w_store ::= _ |>).
  assert (inventory_wf (w_store w1)) as H1.
  { apply (grown_wf bp cap d idx n (w_store w)); try done. by rewrite (blueprint_key bk bp Hbp). }
  match goal with |- context [(match d with Some _ => _ | None => _ end) w1] =>
    set (m := match d with Some _ => _ | None => _ end) end.
  assert (∃ w2, m w1 = (Ok tt, w2) ∧ (inventory_wf (w_store w1) → inventory_wf (w_store w2))
          ∧ st_sus (w_store w2) = st_sus (w_store w1) ∧ st_factories (w_store w2) = st_factories (w_store w1))
    as (w2 & -> & H2 & Es & Ef).
  { unfold m. destruct d as [x|]; [|by eexists]. destruct (truthy_str x); [|by eexists].
    eexists. split; [reflexivity|]. split; [|done]. intros []. by split. }
  eexists. split; [reflexivity|]. rewrite Es, Ef. split_and!; [by apply H2|done..].
Qed.

(** ** Seeding *)
(** How many racks each scalable unit has, in order *)
Definition rack_counts (s : Store) : list nat := (λ su, length (su_rack_ids su)) <$> dvalues (st_sus s).
(** A loop each of whose rounds appends scalable units *)
Lemma fold_adds {A B} (I : B → World → Prop) (g : A → list nat) (f : B → A → IO B) l acc w :
  I acc w →
  (∀ b x w, x ∈ l → I b w → ∃ b' w', f b x w = (Ok b', w') ∧ I b' w'
     ∧ rack_counts (w_store w') = rack_counts (w_store w) ++ g x) →
  ∃ b' w', fold_m f acc l w = (Ok b', w') ∧ I b' w'
    ∧ rack_counts (w_store w') = rack_counts (w_store w) ++ concat (g <$> l).
Proof.
  revert acc w. induction l as [|x l IH]; intros acc w Hw Hf; [exists acc, w; by rewrite app_nil_r|].
  destruct (Hf acc x w (list_elem_of_here _ _) Hw) as (b & w1 & E & H1 & Hg). cbn [fold_m].
  rewrite (bind_ok _ _ _ _ _ E). destruct (IH b w1 H1) as (b' & w' & E' & H' & Hg').
  { intros b' y w' Hy. apply Hf. by right. }
  exists b', w'. split_and!; [done..|]. cbn. by rewrite Hg', Hg, app_assoc.
Qed.
(** The first [i] indices are taken, and no others. *)
Definition seeded (i : Z) (s : Store) : Prop :=
  inventory_wf s ∧ (0 ≤ i)%Z ∧ dkeys (st_sus s) = su_name <$> seqZ 1 i.
Lemma seeded_free i s : seeded i s → su_free (i + 1) s.
Proof.
  intros (_ & Hi & Hk). apply dget_None_notin. rewrite Hk. intros (x & E & Hx)%list_elem_of_fmap.
  apply su_name_inj in E as <-. apply elem_of_seqZ in Hx. lia.
Qed.
Lemma seed_next f d i bk pol racks w bp :
  dget BLUEPRINTS bk = Some bp → seeded i (w_store w) →
  ∃ su w', provision_scalable_unit f d (i + 1) bk pol racks w = (Ok su, w') ∧ seeded (i + 1) (w_store w')
    ∧ rack_counts (w_store w') = rack_counts (w_store w) ++ [Z.to_nat (racks_asked bp racks)].
Proof.
  intros Hbp Hs. pose proof (seeded_free _ _ Hs) as Hfree. destruct Hs as (Hwf & Hi & Hk).
  destruct (provision_run f d (i + 1) bk pol racks w bp Hbp Hwf Hfree) as (w' & E & Hwf' & Es & _).
  eexists _, w'. split; [exact E|]. split; [split_and!; [done|lia|]|].
  - rewrite Es, dkeys_dset. unfold dmem. rewrite Hfree, Hk, seqZ_app by lia. rewrite fmap_app. f_equal.
    cbn. by rewrite (Z.add_comm 1 i).
  - unfold rack_counts. rewrite Es, dvalues_dset_fresh, fmap_app by done. f_equal. cbn. f_equal.
    unfold range. by rewrite length_fmap, length_seqZ.
Qed.
(** Updates of the places above the scalable units, and of other tables *)
Lemma seeded_frame i s s' :
  seeded i s → st_sus s' = st_sus s → st_racks s' = st_racks s → st_trays s' = st_trays s →
  st_gpus s' = st_gpus s → st_dpus s' = st_dpus s → seeded i s'.
Proof.
  intros ([] & Hi & Hk) E1 E2 E3 E4 E5. split_and!; [split|done|]; by rewrite ?E1, ?E2, ?E3, ?E4, ?E5.
Qed.
Lemma seeded_empty : seeded 0 empty_store.
Proof. split_and!; [split|done|done]; try done. Qed.

Definition racks_of (k : string) : nat := match dget BLUEPRINTS k with Some bp => Z.to_nat (racks_per_su bp) | None => 0 end.
Lemma seed_blueprints_ok l w :
  (∀ k, k ∈ l → is_Some (dget BLUEPRINTS k)) → seeded 0 (w_store w) →
  ∃ w', seed_blueprints l w = (Ok tt, w') ∧ (∃ i, seeded i (w_store w'))
    ∧ rack_counts (w_store w') = rack_counts (w_store w) ++ concat ((λ k, [racks_of k]) <$> l).
Proof.
  intros Hl Hs. unfold seed_blueprints. cbv [mbind M_bind mret M_ret s_set upd_store modify].
  edestruct (fold_adds (λ i w, seeded (i - 1) (w_store w)) (λ k, [racks_of k])
    (λ i bp_key, provision_scalable_unit "aif-skt-01" (Some "du-1") i bp_key "maxq" None ≫= λ _, mret (i + 1)%Z)
    l 1%Z) as (i & w' & E & Hw & Hc).
  2: { intros i bk w1 Hin Hw1. destruct (Hl _ Hin) as [bp Hbp].
       destruct (seed_next "aif-skt-01" (Some "du-1") (i - 1) bk "maxq" None w1 bp Hbp Hw1) as (su & w2 & E & H2 & Hc).
       rewrite Z.sub_add in E, H2. eexists _, w2. split; [by rewrite (bind_ok _ _ _ _ _ E)|].
       split; [by replace (i + 1 - 1)%Z with i by lia|]. rewrite Hc. unfold racks_of. by rewrite Hbp. }
  2: { cbv [mbind M_bind mret M_ret] in E. rewrite E. eexists. split; [done|]. split; [by exists (i - 1)%Z|exact Hc]. }
  by eapply seeded_frame.
Qed.
Definition vr_asked (x : Z) : nat := if (x =? 0)%Z then racks_of "vr-nvl72" else Z.to_nat x.
Lemma seed_sus_ok f d sizes i w :
  seeded i (w_store w) →
  ∃ j w', seed_sus f d i sizes w = (Ok j, w') ∧ seeded j (w_store w')
    ∧ rack_counts (w_store w') = rack_counts (w_store w) ++ concat ((λ x, [vr_asked x]) <$> sizes).
Proof.
  intros Hs. unfold seed_sus. apply (fold_adds (λ i w, seeded i (w_store w))); [done|].
  intros b x w1 _ H1. destruct (dget BLUEPRINTS "vr-nvl72") as [bp|] eqn:Hbp; [|done].
  destruct (seed_next f (Some d) b "vr-nvl72" "maxq" (Some x) w1 bp Hbp H1) as (su & w2 & E & H2 & Hc).
  eexists _, w2. rewrite (bind_ok _ _ _ _ _ E). split; [done|]. split; [done|]. rewrite Hc. unfold vr_asked, racks_of, racks_asked.
  rewrite Hbp. by destruct (x =? 0)%Z.
Qed.

(** The racks of a floor are cut into full scalable units and a last one. *)
Definition sum (l : list Z) : Z := foldr Z.add 0%Z l.
Lemma su_sizes_loop_ok fuel racks per :
  (0 < per)%Z → (0 ≤ racks)%Z → (Z.to_nat racks < fuel)%nat →
  ∃ k last, su_sizes_loop fuel racks per = Some (replicate k per ++ [last])
            ∧ (Z.of_nat k * per + last = racks)%Z ∧ (0 ≤ last ≤ per)%Z ∧ ((0 < racks)%Z → (0 < last)%Z).
Proof.
  intros Hp. revert racks. induction fuel as [|fuel IH]; intros racks Hr Hf; [lia|]. cbn.
  destruct (Z.ltb_spec per racks) as [Hlt|Hge].
  - destruct (IH (racks - per)%Z) as (k & last & -> & E & Hl & Hpos); [lia..|].
    exists (S k), last. split_and!; [done|lia..].
  - exists 0%nat, racks. split_and!; [done|lia..].
Qed.
Lemma vr_blueprint : ∃ vr, racks_per_su vr = 16%Z ∧ ∀ w, get_blueprint "vr-nvl72" w = (Ok vr, w).
Proof. eexists. split; [|intros w; reflexivity]. reflexivity. Qed.
Lemma phase1_floor_ok site floor :
  site ∈ PHASE1_SITES → floor ∈ si_floors site → is_Some (_su_sizes (fl_racks floor) 16).
Proof.
  intros Hs Hf. destruct (su_sizes_loop_ok (S (Z.to_nat (fl_racks floor))) (fl_racks floor) 16) as (k & l & E & _); [lia| |lia|].
  - unfold PHASE1_SITES in Hs. rewrite !elem_of_cons, elem_of_nil in Hs.
    destruct Hs as [->|[->|[]]]; cbn in Hf; rewrite !elem_of_cons, elem_of_nil in Hf; by destruct Hf as [->|[->|[]]].
  - by eexists.
Qed.
Definition floor_counts (fl : Floor) : list nat := concat ((λ x, [vr_asked x]) <$> default [] (_su_sizes (fl_racks fl) 16)).
Definition site_counts (site : Site) : list nat := concat (floor_counts <$> si_floors site).
Lemma seed_floor_ok site floor acc w :
  site ∈ PHASE1_SITES → floor ∈ si_floors site → seeded acc.2 (w_store w) →
  ∃ acc' w', seed_floor site acc floor w = (Ok acc', w') ∧ seeded acc'.2 (w_store w')
    ∧ rack_counts (w_store w') = rack_counts (w_store w) ++ floor_counts floor.
Proof.
  intros Hs Hf Hw. destruct acc as [[fl blk] i]. unfold seed_floor, floor_counts.
  destruct (phase1_floor_ok site floor Hs Hf) as [sizes Hsz].
  destruct vr_blueprint as (vr & Hvr & Eget).
  cbv [mbind M_bind mret M_ret s_set s_mut upd_store modify]. rewrite Eget, Hvr, Hsz. cbv [or_raise mret M_ret].
  match goal with |- context [seed_sus ?f ?d ?i ?l ?w1] =>
    destruct (seed_sus_ok f d l i w1) as (j & w' & -> & Hj & Hc); [by eapply seeded_frame|] end.
  by eexists _, w'.
Qed.
Lemma seed_site_ok site acc w :
  site ∈ PHASE1_SITES → seeded acc.2 (w_store w) →
  ∃ acc' w', seed_site acc site w = (Ok acc', w') ∧ seeded acc'.2 (w_store w')
    ∧ rack_counts (w_store w') = rack_counts (w_store w) ++ site_counts site.
Proof.
  intros Hs Hw. destruct acc as [blk i]. unfold seed_site. cbv [s_set upd_store modify mbind M_bind mret M_ret].
  match goal with |- context [fold_m ?f ?a ?l ?w1] =>
    destruct (fold_adds (λ acc w, seeded acc.2 (w_store w)) floor_counts f l a w1) as ([[fl blk'] j] & w' & -> & Hj & Hc) end.
  - by eapply seeded_frame.
  - intros acc floor w1 Hf H1. by apply seed_floor_ok.
  - by eexists _, w'.
Qed.
Lemma cpu_nodes_ok i w : seeded i (w_store w) →
  ∃ w', seed_cpu_nodes w = (Ok tt, w') ∧ seeded i (w_store w') ∧ rack_counts (w_store w') = rack_counts (w_store w).
Proof.
  unfold seed_cpu_nodes. generalize (seqZ 1 60) as l. intros l. revert w.
  induction l as [|n l IH]; intros w Hw; [by eexists|]. cbn.
  cbv [s_set upd_store modify mbind M_bind].
  match goal with |- context [for_each l _ ?w1] => destruct (IH w1) as (w' & E & H & Hc); [by eapply seeded_frame|] end.
  by exists w'.
Qed.

(** The racks per scalable unit that a seed asks for *)
Definition asked (blueprints : option (list string)) : list nat :=
  match blueprints with
  | Some ((_ :: _) as l) => concat ((λ k, [racks_of k]) <$> l)
  | _ => concat (site_counts <$> PHASE1_SITES)
  end.
Lemma seed_tree blueprints w :
  (∀ l k, blueprints = Some l → k ∈ l → is_Some (dget BLUEPRINTS k)) →
  ∃ w', seed_default blueprints w = (Ok tt, w') ∧ inventory_wf (w_store w')
        ∧ ∃ i, (0 ≤ i)%Z ∧ dkeys (st_sus (w_store w')) = su_name <$> seqZ 1 i
        ∧ rack_counts (w_store w') = asked blueprints.
Proof.
  intros Hl. unfold seed_default, store_reset.
  cbv [upd_store modify mbind M_bind mret M_ret]. cbn [w_store].
  set (w0 := w <| w_store ::= _ |>). assert (seeded 0 (w_store w0)) as H0 by apply seeded_empty.
  assert (∃ w1, (match blueprints with
                 | Some ((_ :: _) as l) => seed_blueprints l
                 | _ => fold_m seed_site (0%Z, 0%Z) PHASE1_SITES ≫= λ _, mret tt
                 end) w0 = (Ok tt, w1) ∧ (∃ i, seeded i (w_store w1)) ∧ rack_counts (w_store w1) = asked blueprints) as (w1 & E & [i H1] & Hc).
  { assert (∃ w1, (fold_m seed_site (0%Z, 0%Z) PHASE1_SITES ≫= λ _, mret tt) w0 = (Ok tt, w1)
                  ∧ (∃ i, seeded i (w_store w1)) ∧ rack_counts (w_store w1) = concat (site_counts <$> PHASE1_SITES)) as Hphase.
    { destruct (fold_adds (λ acc w, seeded acc.2 (w_store w)) site_counts seed_site PHASE1_SITES (0%Z, 0%Z) w0 H0)
        as (acc & w1 & E & H1 & Hc).
      - intros acc site w1 Hs H1. by apply seed_site_ok.
      - exists w1. rewrite (bind_ok _ _ _ _ _ E). split; [done|]. split; [by eexists|exact Hc]. }
    destruct blueprints as [[|k l]|]; [exact Hphase| |exact Hphase].
    apply seed_blueprints_ok; [|done]. intros k' Hk. by apply (Hl (k :: l)). }
  cbv [mbind M_bind mret M_ret] in E. rewrite E.
  destruct (cpu_nodes_ok i w1 H1) as (w' & -> & (Hwf & Hi & Hk) & Hc'). exists w'. split_and!; [done..|]. exists i. split_and!; [done..|congruence].
Qed.
(** C28: Seeding always succeeds on known blueprints, from any state, and builds a
    well-formed inventory: scalable units numbered without gap from 1, each with
    its racks, each rack with the trays of its blueprint, each tray with its GPUs
    and its DPU, and every identifier naming the place of its equipment.  Each unit
    has the racks its blueprint asks for, and on the four floors of phase 1 there
    are eleven units of at most sixteen racks, 140 in all. *)
Theorem seed_builds_tree blueprints w :
  (∀ l k, blueprints = Some l → k ∈ l → is_Some (dget BLUEPRINTS k)) →
  ∃ w', seed_default blueprints w = (Ok tt, w') ∧ inventory_wf (w_store w')
        ∧ (∃ i, (0 ≤ i)%Z ∧ dkeys (st_sus (w_store w')) = su_name <$> seqZ 1 i)
        ∧ rack_counts (w_store w') = match blueprints with
                                     | Some ((_ :: _) as l) => racks_of <$> l
                                     | _ => [16; 8; 12; 16; 16; 16; 6; 16; 16; 16; 2]
                                     end.
Proof.
  intros Hl. destruct (seed_tree blueprints w Hl) as (w' & E & Hwf & i & Hi & Hk & Hc). exists w'.
  split_and!; [done..|by exists i|]. rewrite Hc. destruct blueprints as [[|k l]|]; [reflexivity| |reflexivity].
  cbn [asked]. generalize (k :: l) as ks. intros ks. induction ks as [|x ks IH]; [done|]. cbn. by f_equal.
Qed.

(** ** Provisioning one more scalable unit *)
(** The draw ends with the first index above the counter that is not in use. *)
Definition drawn (w : World) : Z := default 0%Z (dget (st_counters (w_store w)) "su_index_provisioned").
Definition above (c : Z) (l : list Z) : nat := length (filter (λ x, (c < x)%Z) l).
Lemma above_next c l : (c + 1)%Z ∈ l → (above (c + 1) l < above c l)%nat.
Proof.
  unfold above. induction l as [|x l IH]; [by intros ?%elem_of_nil|]. rewrite !filter_cons.
  assert (length (filter (λ x, (c + 1 < x)%Z) l) ≤ length (filter (λ x, (c < x)%Z) l))%nat as Hle.
  { clear. induction l as [|y l IH]; [done|]. rewrite !filter_cons. repeat case_decide; cbn; lia. }
  intros [<-|Hin]%elem_of_cons.
  - rewrite decide_False, decide_True by lia. cbn. lia.
  - specialize (IH Hin). repeat case_decide; cbn; lia.
Qed.
Lemma fresh_index_ok fuel existing w :
  (above (drawn w) existing < fuel)%nat →
  ∃ idx w', Topology.fresh_index fuel existing w = (Ok idx, w') ∧ idx ∉ existing ∧ (drawn w < idx)%Z
  ∧ (∀ x, (drawn w < x < idx)%Z → x ∈ existing)
  ∧ w_store w' = (w_store w) <| st_counters := st_counters (w_store w') |>.
Proof.
  revert w. induction fuel as [|fuel IH]; intros w Hf; [lia|]. cbn [Topology.fresh_index]. run.
  fold (drawn w). case_bool_decide as Hin.
  - set (w1 := w <| w_store ::= _ |>).
    assert (drawn w1 = drawn w + 1)%Z as E1 by (unfold drawn; cbn; by rewrite dget_dset_eq).
    destruct (IH w1) as (idx & w' & E & Hn & Hlt & Hall & Ew).
    { rewrite E1. pose proof (above_next _ _ Hin). lia. }
    exists idx, w'. split_and!; [done..|lia| |by rewrite Ew].
    intros x Hx. destruct (decide (x = drawn w + 1)%Z) as [->|]; [done|]. apply Hall. lia.
  - eexists _, _. split_and!; [done..|lia| |done]. intros x Hx. lia.
Qed.
Lemma wf_counters s c : inventory_wf s → inventory_wf (s <| st_counters := c |>).
Proof. intros []. by split. Qed.
Lemma wf_free s idx : inventory_wf s → idx ∉ su_index <$> dvalues (st_sus s) → su_free idx s.
Proof.
  intros Hwf Hn. unfold su_free. destruct (dget (st_sus s) (su_name idx)) as [su|] eqn:E; [|done].
  destruct (iw_su s Hwf _ _ E) as (_ & En & _). apply su_name_inj in En. destruct Hn. rewrite En.
  apply list_elem_of_fmap. exists su. split; [done|]. by eapply dget_dvalues.
Qed.

(** C29: Provisioning a scalable unit ends for every state of the counters: on a
    known site and blueprint it draws the first index above the counter that no
    scalable unit has, adds one scalable unit of that index with the racks of its
    blueprint, and keeps the inventory well-formed; otherwise it answers with an
    HTTP error and does nothing. *)
Theorem provision_su_spec bk f d w :
  inventory_wf (w_store w) →
  let existing := su_index <$> dvalues (st_sus (w_store w)) in
  if dmem (st_factories (w_store w)) f && dmem BLUEPRINTS bk then
    ∃ idx bp w', dget BLUEPRINTS bk = Some bp
      ∧ Topology.provision_su bk f d w = (Ok (su_name idx, model bp, gpu_per_su bp), w')
      ∧ idx ∉ existing ∧ (drawn w < idx)%Z ∧ (∀ x, (drawn w < x < idx)%Z → x ∈ existing)
      ∧ inventory_wf (w_store w')
      ∧ st_sus (w_store w') = st_sus (w_store w) ++ [(su_name idx, new_su bp (Some d) idx (racks_per_su bp))]
  else ∃ c detail, Topology.provision_su bk f d w = (Raised (HTTPException c detail), w).
Proof.
  intros Hwf existing. unfold Topology.provision_su. run.
  destruct (dmem (st_factories (w_store w)) f); cbn [negb andb]; [|by eexists _, _].
  destruct (dmem BLUEPRINTS bk) eqn:Hm; cbn [negb]; [|by eexists _, _].
  unfold dmem in Hm. destruct (dget BLUEPRINTS bk) as [bp|] eqn:Hbp; [|done].
  fold existing.
  destruct (fresh_index_ok (S (length existing)) existing w) as (idx & w1 & E & Hn & Hlt & Hall & Ew).
  { unfold above. pose proof (length_filter (λ x, (drawn w < x)%Z) existing). lia. }
  rewrite E. assert (inventory_wf (w_store w1)) as H1 by (rewrite Ew; by apply wf_counters).
  assert (su_free idx (w_store w1)) as Hfree by (rewrite Ew; exact (wf_free _ _ Hwf Hn)).
  destruct (provision_run f (Some d) idx bk "maxq" None w1 bp Hbp H1 Hfree) as (w2 & E2 & H2 & Es & _).
  rewrite E2. unfold get_blueprint. rewrite Hbp. run. exists idx, bp, w2. split_and!; try done.
  rewrite Es. assert (st_sus (w_store w1) = st_sus (w_store w)) as <- by by rewrite Ew.
  by apply CustomerThms.dset_fresh, dget_None_notin.
Qed.

(** ** Witnesses *)
Lemma known_blueprints l k :
  Some ["vr-nvl72"; "gb200-nvl72"] = Some l → k ∈ l → is_Some (dget BLUEPRINTS k).
Proof. intros [= <-]. rewrite !elem_of_cons, elem_of_nil. by intros [->|[->|[]]]; eexists. Qed.
Lemma seed_builds_tree_witness :
  (∀ l k, Some ["vr-nvl72"; "gb200-nvl72"] = Some l → k ∈ l → is_Some (dget BLUEPRINTS k))
  ∧ ∃ w', seed_default (Some ["vr-nvl72"; "gb200-nvl72"]) Demo.cold = (Ok tt, w') ∧ inventory_wf (w_store w')
        ∧ rack_counts (w_store w') = [16; 14].
Proof.
  split; [exact known_blueprints|].
  destruct (seed_builds_tree _ Demo.cold known_blueprints) as (w' & E & Hwf & _ & Hc). exists w'.
  split; [exact E|]. split; [exact Hwf|exact Hc].
Defined.
(** A site without equipment *)
Definition bare : World :=
  Demo.cold <| w_store := empty_store <| st_factories := [("aif-1", mkFactory "aif-1" "S" "s" 1%Q [])] |> |>.
Lemma bare_wf : inventory_wf (w_store bare).
Proof. assert (seeded 0 (w_store bare)) as [H _]; [|exact H]. by eapply (seeded_frame 0 empty_store); [apply seeded_empty|..]. Qed.
Lemma provision_su_spec_witness :
  inventory_wf (w_store bare)
  ∧ ∃ idx bp w', dget BLUEPRINTS "vr-nvl72" = Some bp
      ∧ Topology.provision_su "vr-nvl72" "aif-1" "du-1" bare = (Ok (su_name idx, model bp, gpu_per_su bp), w')
      ∧ idx ∉ su_index <$> dvalues (st_sus (w_store bare)) ∧ (drawn bare < idx)%Z
      ∧ (∀ x, (drawn bare < x < idx)%Z → x ∈ su_index <$> dvalues (st_sus (w_store bare)))
      ∧ inventory_wf (w_store w')
      ∧ st_sus (w_store w')
        = st_sus (w_store bare) ++ [(su_name idx, new_su bp (Some "du-1") idx (racks_per_su bp))].
Proof. split; [exact bare_wf|]. exact (provision_su_spec "vr-nvl72" "aif-1" "du-1" bare bare_wf). Defined.
End SeedThms.
