(* ===== verification/PortalFrame.v ===== *)
(** * What the order pipeline leaves to the customer plane

    The pipeline, the site controllers and the threads behind them never touch the
    records of the customer plane (acceptances, terminations, tickets, volumes,
    keys, members), and never turn a counter back. *)
From Stdlib Require Import QArith.
From stdpp Require Import strings base decidable option numbers list relations.
From S2P Require Import Prelude PyLib Models PortalModels World NicoSim VastSim SharedSvc Adapters Tenancy StateMachine.
From S2P Require Import Saga K8s Orders Handlers Reclaim Scenario.
Local Open Scope string_scope.
Local Open Scope list_scope.
Local Open Scope py_scope.

Module PortalFrame.
Import Tenancy Saga K8s Orders Scenario.

Definition count (name : string) (s : Store) : Z := default 0%Z (dget (st_counters s) name).
Definition portal_kept (s s' : Store) : Prop :=
  st_portal s' = st_portal s ∧ ∀ name, (count name s ≤ count name s')%Z.
#[export] Instance portal_kept_preorder : PreOrder portal_kept.
Proof.
  split; [by intros s|]. intros s1 s2 s3 [E1 H1] [E2 H2]. split; [congruence|].
  intros name. specialize (H1 name). specialize (H2 name). lia.
Qed.
Lemma portal_kept_view s s' :
  st_portal s' = st_portal s → st_counters s' = st_counters s → portal_kept s s'.
Proof. intros E1 E2. split; [done|]. intros name. unfold count. by rewrite E2. Qed.
Ltac portal_frame := apply steps_upd_store; intros ?; apply portal_kept_view; reflexivity.
#[export] Hint Extern 2 (Steps (on_store portal_kept) (s_mut _ _ _)) => portal_frame : steps.
#[export] Hint Extern 2 (Steps (on_store portal_kept) (s_set _ _ _)) => portal_frame : steps.
#[export] Hint Extern 2 (Steps (on_store portal_kept) (s_del _ _)) => portal_frame : steps.
Lemma next_seq_portal name : Steps (on_store portal_kept) (next_seq name).
Proof.
  intros w. unfold on_store. run. cbn. split; [done|]. intros name'. unfold count. cbn.
  rewrite dget_dset. destruct (String.eqb_spec name' name) as [->|]; cbn; lia.
Qed.
#[export] Hint Resolve next_seq_portal : steps.
Lemma node_log_portal nid st d : Steps (on_store portal_kept) (node_log nid st d).
Proof. unfold node_log, node_mut. solve_steps. Qed.
Lemma set_rack_portal rid t st m : Steps (on_store portal_kept) (set_rack rid t st m).
Proof. unfold set_rack. solve_steps. Qed.
#[export] Hint Resolve node_log_portal set_rack_portal : steps.
#[export] Instance portal_rel : StoreRel portal_kept.
Proof.
  split; [apply _|..]; intros; try by solve_steps.
  - unfold create_tenant, _alloc_vni. solve_steps.
  - unfold create_allocation, resolve_racks, check_conflicts, check_dedicated, _bind_rack. solve_steps.
  - unfold delete_allocation, drop_partitions, _release_rack. solve_steps.
  - unfold create_partition. solve_steps.
  - unfold advance_node, node_mut. solve_steps.
  - unfold advance_order, order_log, order_mut. solve_steps.
  - unfold open_order. solve_steps.
Qed.

(** ** The pipeline leaves the termination and upgrade threads alone too *)
Definition queues (w : World) := (w_upgrades w, w_wipes w).
Lemma queues_cplane {A} (m : IO A) : Steps (same cplane) m → Steps (same queues) m.
Proof. exact (steps_same_compose cplane (λ c, (cp_upgrades c, cp_wipes c)) m). Qed.
Ltac queue_frame := intros ?; reflexivity.
#[export] Hint Extern 2 (Steps (same queues) (s_mut _ _ _)) => queue_frame : steps.
#[export] Hint Extern 2 (Steps (same queues) (s_set _ _ _)) => queue_frame : steps.
#[export] Hint Extern 2 (Steps (same queues) (s_del _ _)) => queue_frame : steps.
#[export] Hint Extern 2 (Steps (same queues) (next_seq _)) => queue_frame : steps.
#[export] Hint Extern 2 (Steps (same queues) (upd_shared _)) => queue_frame : steps.
#[export] Hint Extern 2 (Steps (same queues) (upd_vast _)) => queue_frame : steps.
#[export] Hint Extern 2 (Steps (same queues) token) => queue_frame : steps.
#[export] Hint Extern 2 (Steps (same queues) (s_get _ _)) => queue_frame : steps.
#[export] Hint Extern 2 (Steps (same queues) (s_values _)) => queue_frame : steps.
#[export] Hint Extern 3 (Steps (same queues) _) => apply queues_cplane : steps.
Section queues.
Context (a : ComputeAdapter) `{!AdapterFrame a}.
Local Abbreviation Quiet := (Steps (same queues)).
Lemma queues_advance_order o t d : Quiet (advance_order o t d).
Proof. unfold advance_order, order_log, order_of, order_mut, s_idx. solve_steps. Qed.
Lemma queues_advance_node o t d : Quiet (advance_node o t d).
Proof. unfold advance_node, node_log, node_mut, s_idx. solve_steps. Qed.
Lemma queues_delete aid : Quiet (delete_allocation aid).
Proof. unfold delete_allocation, drop_partitions, _release_rack, set_rack, s_idx. solve_steps. Qed.
#[local] Hint Resolve queues_advance_order queues_advance_node queues_delete : steps.
Lemma queues_announce o t al : Quiet (Reclaim.announce_teardown o t al).
Proof. unfold Reclaim.announce_teardown. solve_steps. Qed.
Lemma queues_reclaim_node n : Quiet (Reclaim.reclaim_node a n).
Proof. unfold Reclaim.reclaim_node, node_of, node_mut, s_idx. solve_steps. Qed.
#[local] Hint Resolve queues_announce queues_reclaim_node : steps.
Lemma queues_reclaim_step o acc n : Quiet (Reclaim.reclaim_step o a acc n).
Proof. unfold Reclaim.reclaim_step, node_of, node_log, node_mut, s_idx. solve_steps. Qed.
Lemma queues_release_cp o c : Quiet (Reclaim.release_cp o a c).
Proof. unfold Reclaim.release_cp, cpu_of, cpu_mut, s_idx. solve_steps. Qed.
#[local] Hint Resolve queues_reclaim_step queues_release_cp : steps.
Lemma queues_audit x1 x2 x3 x4 t : Quiet (Shared.audit x1 x2 x3 x4 t).
Proof. intros w. reflexivity. Qed.
#[local] Hint Resolve queues_audit : steps.
Lemma queues_teardown_cluster o t al k : Quiet (Reclaim.teardown_cluster o t al a k).
Proof. unfold Reclaim.teardown_cluster, cluster_log, cluster_mut, order_mut, s_idx. solve_steps. Qed.
Lemma queues_teardown o sids seg : Quiet (_teardown_storage_and_segment o sids seg a).
Proof. unfold _teardown_storage_and_segment. simpl. unfold Vast.delete_view, Vast.v_get. solve_steps. Qed.
Lemma queues_sync t : Quiet (_sync_cpu_nodes t None).
Proof. unfold _sync_cpu_nodes, bind_cpu, cpu_mut. solve_steps. Qed.
Lemma queues_close o r s : Quiet (Reclaim.close_reclaim o r s).
Proof. unfold Reclaim.close_reclaim, order_mut. solve_steps. Qed.
Lemma queues_revoke t o b : Quiet (Shared.revoke_order_credentials t o b).
Proof. unfold Shared.revoke_order_credentials, Shared.realm_mut, Shared.x_get. solve_steps. Qed.
#[local] Hint Resolve queues_teardown_cluster queues_teardown queues_sync queues_close queues_revoke : steps.
Lemma queues_run_terminate b : Quiet (Reclaim.run_terminate_order b a).
Proof.
  unfold Reclaim.run_terminate_order, Reclaim.reclaim_allocation, open_order, reject, order_of, order_mut, s_idx.
  solve_steps.
Qed.
End queues.

(** ** Delivery, for any relation the pipeline respects *)
Section delivery.
Context (a : ComputeAdapter) `{!AdapterFrame a}.
#[local] Hint Resolve handler_order_of handler_node_of : steps.
Lemma approve_all_steps R `{!StoreRel R} fuel oid : Steps (on_store R) (approve_all fuel oid a).
Proof.
  induction fuel as [|fuel IH]; cbn; (apply steps_bind; [apply _|solve_steps|intros o]).
  - destruct (_ && _); solve_steps.
  - destruct (_ && _); [|solve_steps]. apply steps_bind; [apply _|by apply (handler_approve R a)|intros _; solve_steps].
Qed.
Lemma finalize_steps R `{!StoreRel R} oid : Steps (on_store R) (_finalize_delivery oid a).
Proof.
  pose proof (approve_all_steps R 9 oid). pose proof (handler_access R oid).
  unfold _finalize_delivery. solve_steps.
Qed.
End delivery.
End PortalFrame.
