(* ===== verification/ApprovalThms.v ===== *)
(** * The gates of an order: theorems

    The stages of an order never open a gate, so an approval either settles the
    order or leaves it waiting at a later gate, and the loop that approves the
    remaining gates ends. *)
From Stdlib Require Import QArith.
From stdpp Require Import strings base decidable option numbers list relations.
From S2P Require Import Prelude PyLib Models PortalModels World NicoSim StoreOps Adapters Tenancy StateMachine Saga K8s.
From S2P Require Import Orders Handlers Lawful Scenario Demo.
Local Open Scope string_scope.
Local Open Scope list_scope.
Local Open Scope py_scope.

Module Gates.
Import Tenancy Saga K8s Orders Scenario.

(** ** What the stages leave alone *)
Definition orders (w : World) : dict ServiceOrder := st_orders (w_store w).
#[local] Hint Extern 2 (Steps (same orders) (s_mut _ _ _)) => intros ?; reflexivity : steps.
#[local] Hint Extern 2 (Steps (same orders) (s_set _ _ _)) => intros ?; reflexivity : steps.
#[local] Hint Extern 2 (Steps (same orders) (s_del _ _)) => intros ?; reflexivity : steps.
Lemma orders_get {V} (p : Store → dict V) k : Steps (same orders) (s_get p k).
Proof. by intros w. Qed.
Lemma orders_idx {V} (p : Store → dict V) k : Steps (same orders) (s_idx p k).
Proof. intros w. unfold s_idx. run. by destruct (dget _ k). Qed.
Lemma orders_values {V} (p : Store → dict V) : Steps (same orders) (s_values p).
Proof. by intros w. Qed.
#[local] Hint Resolve @orders_get @orders_idx @orders_values : steps.
Lemma orders_store {A} (m : IO A) : Steps (same w_store) m → Steps (same orders) m.
Proof. intros H w. unfold same, orders. by rewrite (H w). Qed.
#[local] Hint Extern 4 (Steps (same orders) _) => apply orders_store : steps.
Lemma orders_next_seq name : Steps (same orders) (next_seq name).
Proof. by intros w. Qed.
Lemma orders_set_rack rid t st m : Steps (same orders) (set_rack rid t st m).
Proof. unfold set_rack. solve_steps. Qed.
#[local] Hint Resolve orders_next_seq orders_set_rack : steps.

(** An order that waits at no gate goes on waiting at none. *)
Definition gate_kept (o o' : ServiceOrder) : Prop := o_pending_stage o = None → o_pending_stage o' = None.
#[export] Instance gate_kept_preorder : PreOrder gate_kept.
Proof. split; [by intros o ?|]. intros o1 o2 o3 H1 H2 E. by apply H2, H1. Qed.
Definition ungated (s s' : Store) : Prop :=
  lawful s s' ∧ (orders_numbered s → entries gate_kept (st_orders s) (st_orders s')).
#[export] Instance ungated_preorder : PreOrder ungated.
Proof.
  split; [intros s; split; [done|]; intros _; reflexivity|].
  intros s1 s2 s3 [L1 G1] [L2 G2]. split; [by etransitivity|]. intros H1.
  etransitivity; [by apply G1|]. apply G2. by apply L1.
Qed.
Lemma steps_ungated {A} (m : IO A) :
  Steps (on_store lawful) m → Steps (same orders) m → Steps (on_store ungated) m.
Proof.
  intros HL HO w. split; [apply HL|]. intros _. unfold same, orders in HO. rewrite (HO w). reflexivity.
Qed.
Lemma ungated_order_mut oid f :
  Steps (on_store lawful) (order_mut oid f) → (∀ o, gate_kept o (f o)) → Steps (on_store ungated) (order_mut oid f).
Proof. intros HL Hf w. split; [apply HL|]. intros _. by apply entries_dupd; [apply _|]. Qed.
Lemma ungated_advance oid to d : Steps (on_store ungated) (advance_order oid to d).
Proof.
  intros w. split; [apply sr_advance_order|]. intros _. unfold advance_order, order_log, order_mut. run.
  destruct (dget _ oid); [|reflexivity]. destruct (order_allowed _ _); [|reflexivity].
  cbn. etransitivity; [|apply entries_dupd; [apply _|by intros ??]]. apply entries_dupd; [apply _|by intros ??].
Qed.
Lemma ungated_open mk : (∀ oid at_, o_id (mk oid at_) = oid) → Steps (on_store ungated) (open_order mk).
Proof.
  intros Hmk w. split; [by apply sr_open_order|]. intros [_ Hn]. unfold open_order. run. cbn.
  apply entries_dset_fresh; [apply _|]. apply Hn. unfold order_count. lia.
Qed.
#[export] Instance gate_rel : StoreRelOn quiet_order ungated.
Proof.
  split; [apply _|..]; intros.
  - apply steps_ungated; [apply sr_create_tenant|unfold create_tenant, _alloc_vni; solve_steps].
  - apply steps_ungated; [apply sr_create_allocation|].
    unfold create_allocation, resolve_racks, check_conflicts, check_dedicated, _bind_rack. solve_steps.
  - apply steps_ungated; [apply sr_delete_allocation|]. unfold delete_allocation, drop_partitions, _release_rack. solve_steps.
  - apply steps_ungated; [apply sr_create_partition|]. unfold create_partition. solve_steps.
  - apply steps_ungated; [apply sr_pkey|solve_steps].
  - apply steps_ungated; [by apply sr_next_seq|solve_steps].
  - apply steps_ungated; [by apply sr_cpu|]. unfold cpu_mut. solve_steps.
  - apply steps_ungated; [apply sr_cluster|]. unfold cluster_mut. solve_steps.
  - apply steps_ungated; [apply sr_cluster_set|solve_steps].
  - apply steps_ungated; [apply sr_install|]. unfold install_mut. solve_steps.
  - apply steps_ungated; [apply sr_install_set|solve_steps].
  - apply steps_ungated; [apply sr_storage|solve_steps].
  - apply steps_ungated; [apply sr_storage_set|solve_steps].
  - apply steps_ungated; [apply sr_advance_node|]. unfold advance_node, node_log, node_mut. solve_steps.
  - apply ungated_advance.
  - apply steps_ungated; [by apply sr_node|]. unfold node_mut. solve_steps.
  - destruct H as [H Hp]. apply ungated_order_mut; [by apply sr_order|]. intros o. unfold gate_kept. by rewrite Hp.
  - by apply ungated_open.
  - split; [by apply (sr_node_log (R := lawful))|]. intros _. unfold node_log, node_mut. reflexivity.
  - split; [by apply (sr_node_new (R := lawful))|]. intros _. reflexivity.
Qed.

(** ** One approval *)
(** The gates in the order of the stage lists *)
Definition rank (st : OrderState) : nat :=
  match st with
  | OS_validated => 1 | OS_reserved => 2 | OS_provisioning => 3 | OS_isolating => 4
  | OS_storage_binding => 5 | OS_acceptance => 6 | OS_k8s_installing => 7 | OS_delivered => 8
  | _ => 0
  end.
Lemma rank_le st : (rank st ≤ 8)%nat.
Proof. destruct st; cbn; lia. Qed.
Lemma rank_next m i x y :
  stages_for m !! i = Some x → stages_for m !! S i = Some y → (rank x.1 < rank y.1)%nat.
Proof.
  destruct m; (do 8 (destruct i as [|i]; [cbn; intros [= <-]; first [intros [= <-]; cbn; lia|done]|])); done.
Qed.
Lemma value_of p st : OrderState_of p = Some st → p = OrderState_value st.
Proof. unfold OrderState_of. by intros [_ ->%String.eqb_eq%symmetry]%find_first_Some. Qed.
Lemma of_value st : OrderState_of (OrderState_value st) = Some st.
Proof. by destruct st. Qed.
(** What waits after an approval that returned *)
Definition advanced (o o' : ServiceOrder) : Prop :=
  o_pending_stage o' = None
  ∨ ∃ st st', o_pending_stage o = Some (OrderState_value st) ∧ o_pending_stage o' = Some (OrderState_value st')
      ∧ (rank st < rank st')%nat.
Lemma pending_order_ok oid w o p w' :
  pending_order oid w = (Ok (o, p), w') →
  w' = w ∧ dget (orders w) oid = Some o ∧ o_pending_stage o = Some p.
Proof.
  unfold pending_order. run. fold (orders w). destruct (dget (orders w) oid) as [o0|]; [|done].
  destruct (o_pending_stage o0) as [p0|] eqn:Ep; rewrite ?orb_true_r; [|done].
  destruct (_ || _); [done|]. cbn. by intros [= <- <- <-].
Qed.
Definition next_gate (oid : string) (stages : list Stage) (stage : OrderState) : IO ServiceOrder :=
  o ← order_of oid;
  (if is_terminal (o_state o) then mret tt
   else
     idx ← or_raise (stage_index stages stage) (ValueError (OrderState_value stage));
     next ← or_raise (stages !! S idx) IndexError;
     order_mut oid (λ o, o <| o_pending_stage := Some (OrderState_value next.1) |>)) ;;
  order_of oid.
Section approval.
Context (a : ComputeAdapter) `{!AdapterFrame a}.

(** Up to the stage's function: the gate is taken down. *)
Lemma approve_opens oid w r w' o :
  orders_numbered (w_store w) → dget (orders w) oid = Some o → approve_next_stage oid a w = (Ok r, w') →
  ∃ stage w1 w2, stage ∈ stages_for (o_managed_k8s o) ∧ o_pending_stage o = Some (OrderState_value stage.1)
    ∧ orders_numbered (w_store w1) ∧ dget (orders w1) oid = Some (o <| o_pending_stage := None |>)
    ∧ stage.2 oid a w1 = (Ok tt, w2) ∧ next_gate oid (stages_for (o_managed_k8s o)) stage.1 w2 = (Ok r, w').
Proof.
  intros Hn Ho H. unfold approve_next_stage in H.
  apply bind_inv in H as ([o0 p] & w0 & (-> & Ho0 & Hp)%pending_order_ok & H).
  rewrite Ho in Ho0. injection Ho0 as <-.
  apply bind_inv in H as (stage & w1 & Hst & H).
  destruct (OrderState_of p) as [st|] eqn:Est; [|done]. injection Hst as <- <-.
  apply value_of in Est as ->.
  apply bind_inv in H as ([] & w1 & Hem & H). cbn in Hem.
  assert (w_store w1 = w_store w) as Hs1 by (by injection Hem as <-). clear Hem.
  apply bind_inv in H as ([] & w2 & Hmut & H).
  apply bind_inv in H as (fn & w3 & Hfn & H).
  destruct (find_first _ _) as [stage|] eqn:Ef; [|done]. injection Hfn as <- <-.
  apply find_first_Some in Ef as [Hin Est]. apply bool_decide_eq_true in Est as <-.
  apply bind_inv in H as ([] & w3 & Hfn & H).
  exists stage, w2, w3. injection Hmut as <-. split_and!; try done.
  - apply (orders_numbered_keys (w_store w1)); [done|apply dkeys_dupd|by rewrite Hs1].
  - unfold orders in *. cbn. by rewrite Hs1, dget_dupd_eq, Ho.
Qed.
(** After it: the next gate, if the order goes on *)
Lemma next_gate_ok oid m stage w r w' o :
  dget (orders w) oid = Some o → o_pending_stage o = None → next_gate oid (stages_for m) stage w = (Ok r, w') →
  ∃ o', dget (orders w') oid = Some o'
    ∧ (o_pending_stage o' = None
       ∨ ∃ y, o_pending_stage o' = Some (OrderState_value y) ∧ (rank stage < rank y)%nat).
Proof.
  intros Ho Hp H. unfold next_gate in H. unfold orders in *.
  apply bind_inv in H as (o1 & w1 & E & H). unfold order_of in E. run_in E. rewrite Ho in E. injection E as <- <-.
  apply bind_inv in H as ([] & w1 & Hgate & H). unfold order_of in H. run_in H.
  assert (w' = w1) as -> by (by cbn in H; destruct (dget (st_orders (w_store w1)) oid); injection H).
  destruct (is_terminal (o_state o)).
  { injection Hgate as <-. exists o. split; [done|by left]. }
  apply bind_inv in Hgate as (i & w5 & Ei & Hgate). apply bind_inv in Hgate as (y & w6 & Ey & Hgate).
  destruct (stage_index _ _) as [i'|] eqn:Ex; [|done]. injection Ei as <- <-.
  destruct (stages_for _ !! S i') as [y'|] eqn:Ey'; [|done]. injection Ey as <- <-.
  injection Hgate as <-. eexists. cbn. rewrite dget_dupd_eq, Ho.
  split; [done|]. right. exists y'.1. split; [done|].
  unfold stage_index in Ex. apply fmap_Some in Ex as ([j x] & (Hx & <- & _)%list_find_Some & ->).
  by eapply rank_next.
Qed.
Lemma approve_advances oid w r w' o :
  orders_numbered (w_store w) → dget (orders w) oid = Some o → approve_next_stage oid a w = (Ok r, w') →
  orders_numbered (w_store w') ∧ ∃ o', dget (orders w') oid = Some o' ∧ advanced o o'.
Proof.
  intros Hn Ho H. split; [pose proof (handler_approve lawful a oid w Hn) as [Hn' _]; by rewrite H in Hn'|].
  destruct (approve_opens _ _ _ _ _ Hn Ho H) as (stage & w1 & w2 & Hin & Hp & Hn1 & Ho1 & Hfn & Hgate).
  pose proof (handler_stages ungated a _ _ Hin oid w1) as [_ Hu].
  apply (f_equal snd) in Hfn. cbn [snd] in Hfn. subst w2.
  destruct (Hu Hn1 oid _ Ho1) as (o2 & Ho2 & Hp2).
  destruct (next_gate_ok _ _ _ _ _ _ _ Ho2 (Hp2 eq_refl) Hgate) as (o' & Ho' & [Hw|(y & Hy & Hlt)]);
    exists o'; (split; [done|]); [by left|right; by exists stage.1, y].
Qed.

(** ** The loop over the remaining gates *)
(** [while order.pending_stage and order.state not in (...)], as it runs *)
Definition waits (o : ServiceOrder) : bool := truthy (o_pending_stage o) && negb (settled (o_state o)).
Inductive Approves (oid : string) : World → outcome unit → World → Prop :=
  | ap_gone w e w1 : order_of oid w = (Raised e, w1) → Approves oid w (Raised e) w1
  | ap_stop w o w1 : order_of oid w = (Ok o, w1) → waits o = false → Approves oid w (Ok tt) w1
  | ap_raise w o w1 e w2 :
      order_of oid w = (Ok o, w1) → waits o = true →
      approve_next_stage oid a w1 = (Raised e, w2) → Approves oid w (Raised e) w2
  | ap_round w o w1 r w2 v w3 :
      order_of oid w = (Ok o, w1) → waits o = true →
      approve_next_stage oid a w1 = (Ok r, w2) → Approves oid w2 v w3 → Approves oid w v w3.
Lemma approves_det oid w v w' v' w'' : Approves oid w v w' → Approves oid w v' w'' → v = v' ∧ w' = w''.
Proof.
  intros H. revert v' w''.
  induction H; intros v' w'' H'; inversion H'; subst; try congruence; try (split; congruence).
  apply IHApproves. replace w1 with w4 in * by congruence. by replace w2 with w5 in * by congruence.
Qed.
(** The approvals an order may still take *)
Definition need (o : ServiceOrder) : nat :=
  match o_pending_stage o with
  | Some p => 9 - match OrderState_of p with Some st => rank st | None => 0 end
  | None => 0
  end.
Lemma waits_need o : waits o = true → (0 < need o)%nat.
Proof.
  unfold waits, need. intros [H _]%andb_prop. destruct (o_pending_stage o) as [p|]; [|done].
  destruct (OrderState_of p) as [st|]; [|lia]. pose proof (rank_le st). lia.
Qed.
Lemma advanced_need o o' : waits o = true → advanced o o' → (need o' < need o)%nat.
Proof.
  intros Hw [E|(st & st' & E & E' & Hlt)]; [unfold need at 1; rewrite E; by apply waits_need|].
  unfold need. rewrite E, E', !of_value. pose proof (rank_le st'). lia.
Qed.
Lemma need_le o : (need o ≤ 9)%nat.
Proof. unfold need. destruct (o_pending_stage o); [|lia]. destruct (OrderState_of _); lia. Qed.

Lemma approve_all_step fuel oid w :
  approve_all fuel oid a w =
    match order_of oid w with
    | (Raised e, w1) => (Raised e, w1)
    | (Ok o, w1) =>
        if waits o then
          match fuel with
          | O => (Raised (ValueError "does not return"), w1)
          | S fuel' =>
              match approve_next_stage oid a w1 with
              | (Ok _, w2) => approve_all fuel' oid a w2
              | (Raised e, w2) => (Raised e, w2)
              end
          end
        else (Ok tt, w1)
    end.
Proof.
  destruct fuel; cbn [approve_all]; unfold mbind, M_bind, waits; destruct (order_of oid w) as [[o|e] w1];
    [by destruct (_ && _)|done|by destruct (_ && _)|done].
Qed.
Lemma approve_all_runs fuel oid w :
  orders_numbered (w_store w) → (∀ o, dget (orders w) oid = Some o → (need o ≤ fuel)%nat) →
  Approves oid w (approve_all fuel oid a w).1 (approve_all fuel oid a w).2.
Proof.
  revert w. induction fuel as [|fuel IH]; intros w Hn Hf; rewrite approve_all_step;
    (destruct (order_of oid w) as [[o|e] w1] eqn:Eo; [|by apply ap_gone]);
    (destruct (waits o) eqn:Hw; [|by eapply ap_stop]); pose proof (waits_need _ Hw).
  all: pose proof Eo as E; unfold order_of in E; run_in E; fold (orders w) in E.
  all: destruct (dget (orders w) oid) as [o1|] eqn:Ho; [|done]; injection E as -> <-; specialize (Hf _ eq_refl).
  { lia. }
  destruct (approve_next_stage oid a w) as [[r|e] w2] eqn:Ea; [|by eapply ap_raise].
  eapply ap_round; [done..|].
  destruct (approve_advances _ _ _ _ _ Hn Ho Ea) as (Hn2 & o' & Ho' & Hadv).
  apply IH; [done|]. intros o2 Ho2. rewrite Ho' in Ho2. injection Ho2 as <-.
  pose proof (advanced_need _ _ Hw Hadv). lia.
Qed.
(** A loop that returns leaves the order at no gate or settled. *)
Lemma approves_settles oid w v w' :
  Approves oid w v w' → v = Ok tt → ∃ o, dget (orders w') oid = Some o ∧ waits o = false.
Proof.
  induction 1 as [|w o w1 E Hw|w o w1 e w2 E Hw Ea|w o w1 r w2 v w3 E Hw Ea Hs IH]; [done| |done|exact IH].
  intros _. unfold order_of in E. run_in E. fold (orders w) in E.
  destruct (dget (orders w) oid) eqn:Ho; [|done]. injection E as -> <-. by exists o.
Qed.
End approval.
(** C38: The loop that passes the remaining gates of an order
    ([while] in [_finalize_delivery]) ends for every order in every state of the
    fleet and for every site controller that keeps to its frame: it has exactly one
    outcome, which nine rounds, or any larger number, compute; and when
    it returns, the order waits at no gate or is settled. *)
Theorem approvals_end a oid w :
  AdapterFrame a → orders_numbered (w_store w) →
  ∃ v w', Approves a oid w v w'
    ∧ (∀ u w2, Approves a oid w u w2 → u = v ∧ w2 = w')
    ∧ (∀ fuel, (9 ≤ fuel)%nat → approve_all fuel oid a w = (v, w'))
    ∧ (v = Ok tt → ∃ o, dget (orders w') oid = Some o ∧ waits o = false).
Proof.
  intros Ha Hn. assert (∀ fuel, (9 ≤ fuel)%nat →
    Approves a oid w (approve_all fuel oid a w).1 (approve_all fuel oid a w).2) as Hr.
  { intros fuel Hf. apply approve_all_runs; [done..|]. intros o _. pose proof (need_le o). lia. }
  eexists _, _. split; [by apply (Hr 9%nat)|]. split_and!.
  - intros u w2 H. by apply (approves_det a oid w); [|apply Hr].
  - intros fuel Hf. destruct (approves_det _ _ _ _ _ _ _ (Hr fuel Hf) (Hr 9%nat (le_n 9))) as [E1 E2].
    by rewrite <-E1, <-E2, <-surjective_pairing.
  - by apply (approves_settles a oid w), Hr.
Qed.

(** A gated order of two racks: one approval of the customer passes all its gates. *)
Lemma gated_numbered : orders_numbered (w_store Demo.gated).
Proof.
  unfold Demo.gated, Demo.world_after.
  apply (handler_run_new lawful LocalNicoAdapter (Demo.order_body "tnt-acme" 2 false true) Demo.with_tenants).
  split; [vm_compute; discriminate|]. intros n _. reflexivity.
Qed.
Example gated_delivers :
  (approve_all 9 "ord-1" LocalNicoAdapter Demo.gated).1 = Ok tt
  ∧ ((λ o, (o_state o, o_pending_stage o)) <$>
      dget (orders (approve_all 9 "ord-1" LocalNicoAdapter Demo.gated).2) "ord-1") = Some (OS_delivered, None).
Proof. vm_compute. done. Qed.
Lemma approvals_end_witness :
  orders_numbered (w_store Demo.gated)
  ∧ ∃ v w', Approves LocalNicoAdapter "ord-1" Demo.gated v w'
    ∧ (∀ u w2, Approves LocalNicoAdapter "ord-1" Demo.gated u w2 → u = v ∧ w2 = w')
    ∧ (∀ fuel, (9 ≤ fuel)%nat → approve_all fuel "ord-1" LocalNicoAdapter Demo.gated = (v, w'))
    ∧ (v = Ok tt → ∃ o, dget (orders w') "ord-1" = Some o ∧ waits o = false).
Proof.
  split; [exact gated_numbered|].
  apply (approvals_end LocalNicoAdapter "ord-1" Demo.gated); [apply _|exact gated_numbered].
Defined.
End Gates.
