(* ===== verification/AcceptanceThms.v ===== *)
(** * Customer acceptance: theorems

    Billing starts exactly with acceptance, by the customer or by the lapse of the
    deadline, and an acceptance is final. *)
From Stdlib Require Import QArith.
From stdpp Require Import strings base decidable option numbers list relations.
From S2P Require Import Prelude PyLib Models PortalModels World NicoSim Adapters Tenancy StateMachine.
From S2P Require Import Saga K8s Orders Handlers Api Scenario Business Demo PortalFrame.
Local Open Scope string_scope.
Local Open Scope list_scope.
Local Open Scope py_scope.

Module AcceptanceThms.
Import Tenancy Saga K8s Orders Scenario.
Import PortalFrame.

(** ** The records *)
Definition awaiting (r : AcceptanceRec) : Prop := ar_status r = "pending" ∨ ar_status r = "rejected".
(** What each status means for the rest of the record *)
Inductive acc_ok (r : AcceptanceRec) : Prop :=
  | ok_pending : ar_status r = "pending" → ar_billing_start_date r = None → ar_decided_by r = None →
      ar_reject_reason r = None → acc_ok r
  | ok_rejected : ar_status r = "rejected" → ar_billing_start_date r = None →
      ar_decided_by r = Some "customer" → blank (ar_reject_reason r) = false → acc_ok r
  | ok_approved at_ : ar_status r = "approved" → ar_billing_start_date r = Some at_ →
      ar_decided_at r = Some at_ → ar_decided_by r = Some "customer" → acc_ok r
  | ok_deemed : ar_status r = "deemed" → ar_billing_start_date r = Some (ar_deemed_deadline r) →
      ar_decided_by r = Some "deemed" → acc_ok r.
Definition acceptance (w : World) (oid : string) : option AcceptanceRec :=
  dget (st_acceptances (w_store w)) oid.

(** A record that waits for a decision may change; one that is decided stays. *)
Definition owner (r : AcceptanceRec) : string * string := (ar_order_id r, ar_tenant_id r).
Definition move (r r' : option AcceptanceRec) : Prop :=
  r' = r ∨ ∃ y, r' = Some y ∧ acc_ok y ∧ ∀ x, r = Some x → awaiting x ∧ owner y = owner x.
Definition moves (s s' : Store) : Prop :=
  ∀ oid, move (dget (st_acceptances s) oid) (dget (st_acceptances s') oid).
#[export] Instance moves_preorder : PreOrder moves.
Proof.
  split; [intros s oid; by left|]. intros s1 s2 s3 H1 H2 oid.
  destruct (H1 oid) as [E1|(y & Ey & Oy & Hy)], (H2 oid) as [E2|(z & Ez & Oz & Hz)].
  - left. congruence.
  - right. exists z. split_and!; [done..|]. intros x Hx. apply Hz. congruence.
  - right. exists y. split_and!; [congruence|done..].
  - right. exists z. split_and!; [done..|]. intros x Hx. destruct (Hz y Ey), (Hy x Hx). split; [done|congruence].
Qed.
Lemma kept_moves s s' : portal_kept s s' → moves s s'.
Proof. intros [E _] oid. left. unfold st_acceptances. by rewrite E. Qed.
Lemma keep_moves {A} (m : IO A) : Steps (on_store portal_kept) m → Steps (on_store moves) m.
Proof. apply steps_weaken. intros w w'. apply kept_moves. Qed.

(** ** Programs that start in a known state of the records *)
Definition UnderA {A} (P : dict AcceptanceRec → Prop) (m : IO A) : Prop :=
  Under (λ w, P (st_acceptances (w_store w))) (on_store moves) m.
Lemma acc_steps {A} P (m : IO A) : Steps (on_store moves) m → UnderA P m.
Proof. apply under_steps. Qed.
Lemma acc_keep {A B} P (m : IO A) (f : A → IO B) :
  Steps (on_store portal_kept) m → (∀ a, UnderA P (f a)) → UnderA P (m ≫= f).
Proof.
  apply (under_keep (on_store moves)); [intros w w'; apply kept_moves|].
  intros w w' [E _]. unfold st_acceptances. by rewrite E.
Qed.
Lemma acc_last {A B} P (m : IO A) (f : A → IO B) :
  UnderA P m → (∀ a, Steps (on_store moves) (f a)) → UnderA P (m ≫= f).
Proof. apply (under_last (on_store moves)). Qed.
Lemma acc_get {B} oid (f : option AcceptanceRec → IO B) :
  (∀ r, UnderA (λ d, dget d oid = r) (f r)) → Steps (on_store moves) (s_get st_acceptances oid ≫= f).
Proof. intros Hf w. by apply Hf. Qed.
Lemma acc_mut P oid f :
  (∀ d, P d → ∃ r, dget d oid = Some r ∧ awaiting r ∧ acc_ok (f r) ∧ owner (f r) = owner r) → UnderA P (acceptance_mut oid f).
Proof.
  intros HP w Hw oid'. unfold acceptance_mut. cbn. unfold st_acceptances. cbn. rewrite dget_dupd.
  destruct (String.eqb_spec oid' oid) as [->|]; [|by left].
  destruct (HP _ Hw) as (r & Er & Ha & Ho & Hi). right. unfold st_acceptances in Er. rewrite Er.
  eexists. split_and!; [done..|]. by intros ? [= <-].
Qed.

(** ** The operations *)
Local Abbreviation Keeps := (Steps (on_store portal_kept)).
Lemma keeps_order_or_404 oid : Keeps (order_or_404 oid).
Proof. unfold order_or_404. solve_steps. Qed.
Lemma keeps_report o ts : Keeps (_build_acceptance_report o ts).
Proof. unfold _build_acceptance_report. solve_steps. Qed.
Lemma keeps_fromiso ts : Keeps (Business.fromiso ts).
Proof. unfold Business.fromiso. solve_steps. Qed.
#[local] Hint Resolve keeps_order_or_404 keeps_report keeps_fromiso : steps.
Lemma keeps_iso_plus ts d : Keeps (_iso_plus ts d).
Proof. unfold _iso_plus. solve_steps. Qed.
Lemma keeps_days : Keeps _deemed_days.
Proof. unfold _deemed_days. solve_steps. Qed.
Lemma keeps_append oid st d t : Keeps (append_event oid st d t).
Proof. unfold append_event, order_mut. solve_steps. Qed.
#[local] Hint Resolve keeps_iso_plus keeps_days keeps_append : steps.

(** The record is there once the report is asked for. *)
Lemma ensure_steps o : Steps (on_store moves) (_ensure_acceptance o).
Proof.
  unfold _ensure_acceptance. destruct (negb _); [solve_steps|]. apply acc_get. intros [r|]; [by apply acc_steps; solve_steps|].
  destruct (find_first _ _) as [ev|]; [|by apply acc_steps; solve_steps].
  apply acc_keep; [solve_steps|]. intros report. apply acc_keep; [solve_steps|]. intros days.
  apply acc_keep; [solve_steps|]. intros deadline. cbv zeta.
  apply acc_last; [|intros; solve_steps]. intros w Hw oid'. cbn. unfold st_acceptances. cbn.
  rewrite dget_dset. destruct (String.eqb_spec oid' (o_id o)) as [->|]; [|by left].
  right. eexists. split_and!; [done|by apply ok_pending|]. intros x E. unfold st_acceptances in Hw. congruence.
Qed.
Lemma ensure_result o w r w' :
  _ensure_acceptance o w = (Ok (Some r), w') → dget (st_acceptances (w_store w')) (o_id o) = Some r.
Proof.
  unfold _ensure_acceptance. destruct (negb _); [done|]. run.
  destruct (dget (st_acceptances (w_store w)) (o_id o)) as [r0|] eqn:E; run; [by intros [= -> <-]|].
  destruct (find_first _ _) as [ev|]; [|done].
  destruct (_build_acceptance_report _ _ w) as [[report|] w1]; [|done].
  destruct (_deemed_days w1) as [[days|] w2]; [|done].
  destruct (_iso_plus _ _ w2) as [[deadline|] w3]; [|done]. cbn. intros [= <- <-].
  unfold st_acceptances. cbn. by rewrite dget_dset_eq.
Qed.

Section operations.
Context (a : ComputeAdapter) `{!AdapterFrame a}.
#[local] Hint Resolve handler_order_of handler_node_of : steps.
Lemma keeps_finalize oid : Keeps (_finalize_delivery oid a).
Proof. by apply finalize_steps, _. Qed.
#[local] Hint Resolve keeps_finalize : steps.

Lemma deem_steps oid : Steps (on_store moves) (_maybe_deem oid a).
Proof.
  unfold _maybe_deem. apply acc_get. intros [r|]; [|by apply acc_steps; solve_steps].
  destruct (memb (ar_status r) ["pending"; "rejected"]) eqn:Em; cbn [negb]; [|by apply acc_steps; solve_steps].
  assert (awaiting r) as Ha.
  { apply memb_spec in Em. rewrite !elem_of_cons, elem_of_nil in Em. unfold awaiting. naive_solver. }
  apply acc_keep; [solve_steps|]. intros o. destruct (negb _); [by apply acc_steps; solve_steps|].
  do 3 (apply acc_keep; [solve_steps|]; intros ?). destruct (negb _); [by apply acc_steps; solve_steps|].
  apply acc_keep; [solve_steps|]. intros _. apply acc_keep; [solve_steps|]. intros at_.
  apply acc_last; [|intros; apply keep_moves; solve_steps]. apply acc_mut. intros d Hd. exists r. split_and!; [done|done| |done].
  by apply ok_deemed.
Qed.
Lemma report_steps oid : Steps (on_store moves) (acceptance_report a oid).
Proof.
  unfold acceptance_report. apply steps_bind; [apply _|by apply keep_moves, keeps_order_or_404|]. intros o.
  apply steps_bind; [apply _|apply ensure_steps|]. intros rec.
  apply steps_bind; [apply _|destruct rec; [apply deem_steps|solve_steps]|]. intros. solve_steps.
Qed.
End operations.

(** *** The decision *)
Definition fine (d : dict AcceptanceRec) : Prop := ∀ oid r, dget d oid = Some r → acc_ok r.
Lemma fine_moves s s' : moves s s' → fine (st_acceptances s) → fine (st_acceptances s').
Proof.
  intros Hm Hf oid r E. destruct (Hm oid) as [E'|(y & Ey & Hy & _)]; [|congruence].
  apply (Hf oid). congruence.
Qed.
Lemma awaiting_of r : acc_ok r → memb (ar_status r) ["approved"; "deemed"] = false → awaiting r.
Proof. intros [Es|Es|? Es|Es] E; unfold awaiting; rewrite Es in *; auto; by vm_compute in E. Qed.
Definition named (s : Store) : Prop := ∀ k o, dget (st_orders s) k = Some o → o_id o = k.
Lemma guards_result oid d reason w r w' :
  named (w_store w) → fine (st_acceptances (w_store w)) →
  acceptance_guards oid d reason w = (Ok r, w') →
  acceptance w' oid = Some r ∧ awaiting r ∧ (String.eqb d "approve" = false → blank reason = false).
Proof.
  intros Hn Hf. unfold acceptance_guards, order_or_404. run.
  destruct (dget (st_orders (w_store w)) oid) as [o|] eqn:Eo; run; [|done].
  destruct (memb d _) eqn:Ed; cbn [negb]; run; [|done]. destruct (_ && _) eqn:Er; run; [done|].
  destruct (undecidable _); run; [done|].
  pose proof (fine_moves _ _ (ensure_steps o w) Hf) as Hf'. pose proof (ensure_result o w) as Hr.
  destruct (_ensure_acceptance o w) as [[[r0|]|e] w1]; run; [|done..].
  destruct (memb (ar_status r0) _) eqn:Es; run; [done|]. intros [= -> <-]. specialize (Hr r w1 eq_refl).
  rewrite (Hn _ _ Eo) in Hr. split; [done|]. split; [by eapply awaiting_of; [eapply Hf'|]|].
  intros Ea. cbn in Ed. rewrite Ea in Ed. cbn in Ed. rewrite orb_false_r in Ed. by rewrite Ed in Er.
Qed.
Lemma guards_steps oid d reason : Steps (on_store moves) (acceptance_guards oid d reason).
Proof.
  unfold acceptance_guards. apply steps_bind; [apply _|by apply keep_moves, keeps_order_or_404|]. intros o.
  repeat (case_match; [solve_steps|]). apply steps_bind; [apply _|apply ensure_steps|]. intros r. solve_steps.
Qed.
Lemma accept_under a `{!AdapterFrame a} oid r :
  awaiting r → UnderA (λ d, dget d oid = Some r) (accept oid a).
Proof.
  intros Ha. pose proof (keeps_finalize a oid). unfold accept.
  apply acc_keep; [done|]. intros _. apply acc_keep; [solve_steps|]. intros at_.
  apply acc_last.
  - apply acc_mut. intros d Hd. exists r. split_and!; [done..| |done]. by eapply ok_approved.
  - intros []. apply steps_bind; [apply _|apply keep_moves; by apply handler_order_of, _|].
    intros o. apply keep_moves. solve_steps.
Qed.
Lemma decline_under oid reason r :
  awaiting r → blank reason = false → UnderA (λ d, dget d oid = Some r) (decline oid reason).
Proof.
  intros Ha Hb. unfold decline.
  assert (∀ f, Keeps (order_mut oid f)) as Hm by (intros f; unfold order_mut; solve_steps).
  assert (Keeps (order_of oid)) as Ho by (unfold order_of; solve_steps).
  do 9 (apply acc_keep; [solve_steps|intros ?]). apply acc_last.
  - apply acc_mut. intros d Hd. exists r. split_and!; [done..| |done]. by apply ok_rejected.
  - intros []. apply keep_moves. solve_steps.
Qed.
Lemma decide_moves a `{!AdapterFrame a} oid d reason w :
  named (w_store w) → fine (st_acceptances (w_store w)) →
  on_store moves w (decide_acceptance a oid d reason w).2.
Proof.
  intros Hn Hf. pose proof (guards_steps oid d reason w) as Hs.
  pose proof (guards_result oid d reason w) as Hr. unfold decide_acceptance, mbind, M_bind.
  destruct (acceptance_guards oid d reason w) as [[r|e] w']; [|done].
  destruct (Hr r w' Hn Hf eq_refl) as (Er & Ha & Hb). transitivity w'; [done|].
  destruct (String.eqb d "approve"); [by eapply accept_under|]. eapply decline_under; eauto.
Qed.

(** ** Orders stay under their own numbers *)
Definition keeps_named (s s' : Store) : Prop := named s → named s'.
#[export] Instance keeps_named_preorder : PreOrder keeps_named.
Proof. unfold keeps_named. split; [by intros s|intros s1 s2 s3; tauto]. Qed.
Lemma keeps_named_view s s' : st_orders s' = st_orders s → keeps_named s s'.
Proof. unfold keeps_named, named. by intros ->. Qed.
Ltac named_frame := apply steps_upd_store; intros ?; apply keeps_named_view; reflexivity.
#[local] Hint Extern 3 (Steps (on_store keeps_named) (s_mut _ _ _)) => named_frame : steps.
#[local] Hint Extern 3 (Steps (on_store keeps_named) (s_set _ _ _)) => named_frame : steps.
#[local] Hint Extern 3 (Steps (on_store keeps_named) (s_del _ _)) => named_frame : steps.
Lemma order_mut_named oid f : (∀ o, o_id (f o) = o_id o) → Steps (on_store keeps_named) (order_mut oid f).
Proof.
  intros Hf. apply steps_upd_store. intros s Hs k o. cbn. rewrite dget_dupd.
  destruct (String.eqb_spec k oid) as [->|]; [|by apply Hs].
  destruct (dget (st_orders s) oid) as [o'|] eqn:E; [|done]. cbn. intros [= <-]. rewrite Hf. by apply Hs.
Qed.
#[local] Hint Extern 2 (Steps (on_store keeps_named) (order_mut _ _)) =>
  apply order_mut_named; intros []; reflexivity : steps.
Lemma next_seq_named name : Steps (on_store keeps_named) (next_seq name).
Proof. intros w. by apply keeps_named_view. Qed.
#[local] Hint Resolve next_seq_named : steps.
Lemma node_log_named nid st d : Steps (on_store keeps_named) (node_log nid st d).
Proof. unfold node_log, node_mut. solve_steps. Qed.
Lemma set_rack_named rid t st m : Steps (on_store keeps_named) (set_rack rid t st m).
Proof. unfold set_rack. solve_steps. Qed.
#[local] Hint Resolve node_log_named set_rack_named : steps.
#[export] Instance named_rel : StoreRel keeps_named.
Proof.
  split; [apply _|..]; intros; try by solve_steps.
  - unfold create_tenant, _alloc_vni. solve_steps.
  - unfold create_allocation, resolve_racks, check_conflicts, check_dedicated, _bind_rack. solve_steps.
  - unfold delete_allocation, drop_partitions, _release_rack. solve_steps.
  - unfold create_partition. solve_steps.
  - unfold cpu_mut. solve_steps.
  - unfold cluster_mut. solve_steps.
  - unfold install_mut. solve_steps.
  - unfold advance_node, node_mut. solve_steps.
  - unfold advance_order, order_log. solve_steps.
  - unfold node_mut. solve_steps.
  - apply order_mut_named. intros o. by destruct (H o) as (-> & _).
  - intros w Hs k o. unfold open_order. run. cbn. rewrite dget_dset.
    destruct (String.eqb_spec k (("ord-" +:+ str_of_Z (default 0%Z (dget (st_counters (w_store w)) "order") + 1)))) as [->|];
      [intros [= <-]; apply H|apply Hs].
  - apply node_log_named.
  - by apply keeps_named_view.
Qed.
Section named.
Context (a : ComputeAdapter) `{!AdapterFrame a}.
Local Abbreviation Named := (Steps (on_store keeps_named)).
#[local] Hint Resolve handler_order_of : steps.
Lemma named_ensure o : Named (_ensure_acceptance o).
Proof. unfold _ensure_acceptance, _build_acceptance_report, _deemed_days, _iso_plus, Business.fromiso. solve_steps. Qed.
Lemma named_report oid : Named (acceptance_report a oid).
Proof.
  pose proof (finalize_steps a keeps_named). pose proof named_ensure.
  unfold acceptance_report, order_or_404, _maybe_deem, acceptance_mut, append_event, Business.fromiso. solve_steps.
Qed.
Lemma named_decide oid d reason : Named (decide_acceptance a oid d reason).
Proof.
  pose proof (finalize_steps a keeps_named). pose proof named_ensure.
  unfold decide_acceptance, acceptance_guards, accept, decline, order_or_404, acceptance_mut, append_event,
    _build_acceptance_report, _deemed_days, _iso_plus, Business.fromiso. solve_steps.
Qed.
End named.

(** ** Where a decision comes from

    [no_new P]: no record gets a status that [P] rules out for its order. *)
Definition no_new (P : string → string → Prop) (s s' : Store) : Prop :=
  ∀ oid r, dget (st_acceptances s') oid = Some r → P oid (ar_status r) → dget (st_acceptances s) oid = Some r.
#[export] Instance no_new_preorder P : PreOrder (no_new P).
Proof. unfold no_new. split; [by intros s|]. intros s1 s2 s3 H1 H2 oid r E Hp. auto. Qed.
Lemma kept_no_new P {A} (m : IO A) : Steps (on_store portal_kept) m → Steps (on_store (no_new P)) m.
Proof. apply steps_weaken. intros w w' [E _] oid r. unfold st_acceptances. by rewrite E. Qed.
Lemma mut_no_new P oid f :
  (∀ r, ¬ P oid (ar_status (f r))) → Steps (on_store (no_new P)) (acceptance_mut oid f).
Proof.
  intros Hf. apply steps_upd_store. intros s oid' r. cbn. unfold st_acceptances. cbn. rewrite dget_dupd.
  destruct (String.eqb_spec oid' oid) as [->|]; [|done].
  destruct (dget _ oid) as [r0|]; [|done]. cbn. intros [= <-] Hp. by destruct (Hf r0).
Qed.
Lemma set_no_new P oid x :
  ¬ P oid (ar_status x) → Steps (on_store (no_new P)) (s_set st_acceptances oid x).
Proof.
  intros Hx. apply steps_upd_store. intros s oid' r. cbn. unfold st_acceptances. cbn. rewrite dget_dset.
  destruct (String.eqb_spec oid' oid) as [->|]; [|done]. by intros [= <-].
Qed.
Lemma ensure_no_new P o : ¬ P (o_id o) "pending" → Steps (on_store (no_new P)) (_ensure_acceptance o).
Proof.
  intros HP. pose proof (set_no_new P (o_id o)).
  unfold _ensure_acceptance. destruct (negb _); [solve_steps|]. apply steps_bind; [apply _|solve_steps|].
  intros [r|]; [solve_steps|]. destruct (find_first _ _) as [ev|]; [|solve_steps].
  do 3 (apply steps_bind; [apply _|apply kept_no_new; solve_steps|intros ?]). cbv zeta.
  apply steps_bind; [apply _|by apply H|intros; solve_steps].
Qed.
Section sources.
Context (a : ComputeAdapter) `{!AdapterFrame a}.
#[local] Hint Resolve handler_order_of handler_node_of keeps_finalize : steps.
Local Ltac kept := apply steps_bind; [apply _|apply kept_no_new; solve_steps|intros ?].

(** A decision settles the record of its order only, and only as it says. *)
Lemma decide_no_new oid d reason :
  Steps (on_store (no_new (λ o st, st = "deemed" ∨ st = "approved" ∧ (o ≠ oid ∨ d ≠ "approve"))))
        (decide_acceptance a oid d reason).
Proof.
  set (P := λ o st : string, _). unfold decide_acceptance. apply steps_bind; [apply _| |intros _].
  - unfold acceptance_guards. kept. repeat (case_match; [solve_steps|]). apply steps_bind; [apply _| |intros; solve_steps].
    apply ensure_no_new. subst P. cbn. naive_solver.
  - destruct (String.eqb_spec d "approve") as [->|].
    + unfold accept. do 2 kept. apply steps_bind; [apply _| |intros _; do 3 kept; solve_steps].
      apply mut_no_new. intros r'. subst P. cbn. naive_solver.
    + unfold decline, order_mut. do 9 kept. apply steps_bind; [apply _| |intros _; kept; solve_steps].
      apply mut_no_new. intros r'. subst P. cbn. naive_solver.
Qed.
(** A report can only deem its own order ... *)
Lemma deem_no_new oid :
  Steps (on_store (no_new (λ o st, st = "approved" ∨ st = "deemed" ∧ o ≠ oid))) (_maybe_deem oid a).
Proof.
  set (P := λ o st : string, _). unfold _maybe_deem. kept. case_match; [|solve_steps].
  case_match; [solve_steps|]. kept. case_match; [solve_steps|]. do 3 kept. case_match; [solve_steps|]. do 2 kept.
  apply steps_bind; [apply _| |intros _; do 2 kept; apply kept_no_new; solve_steps].
  apply mut_no_new. intros r'. subst P. cbn. naive_solver.
Qed.
Lemma report_no_new oid :
  Steps (on_store (no_new (λ o st, st = "approved" ∨ st = "deemed" ∧ o ≠ oid))) (acceptance_report a oid).
Proof.
  unfold acceptance_report. kept. apply steps_bind; [apply _| |intros rec; apply steps_bind; [apply _| |intros; solve_steps]].
  - apply ensure_no_new. naive_solver.
  - destruct rec; [apply deem_no_new|solve_steps].
Qed.

(** ... and only when the deadline has passed on the clock it reads. *)
Definition clock (w : World) : string := env_clock (w_env w) (w_ticks w).
Definition lapsed (w : World) (r : AcceptanceRec) : Prop :=
  ∃ deadline t, env_fromiso (w_env w) (ar_deemed_deadline r) = Some deadline
    ∧ env_fromiso (w_env w) (clock w) = Some t ∧ Qle deadline t.
Definition due (oid : string) (w : World) : option string := ar_deemed_deadline <$> acceptance w oid.
Lemma kept_due oid {A} (m : IO A) : Steps (on_store portal_kept) m → Steps (same (due oid)) m.
Proof. apply steps_weaken. intros w w' [E _]. unfold same, due, acceptance, st_acceptances. by rewrite E. Qed.
Lemma deem_lapse oid w r :
  acceptance w oid = Some r →
  acceptance (_maybe_deem oid a w).2 oid = Some r
  ∨ lapsed w r ∧ due oid (_maybe_deem oid a w).2 = due oid w.
Proof.
  intros E. pose proof E as Er. unfold acceptance in Er. unfold _maybe_deem.
  rewrite (bind_ok (s_get st_acceptances oid) _ w (Some r) w) by (by run; rewrite Er). cbv beta iota.
  destruct (negb _); [by left|]. unfold order_of, s_idx.
  destruct (dget (st_orders (w_store w)) oid) as [o|] eqn:Eo; [|left; run; by rewrite Eo].
  rewrite (bind_ok _ _ w o w) by (run; by rewrite Eo). cbv beta.
  destruct (negb _); [by left|]. rewrite (bind_ok now _ w (clock w) (w <| w_ticks ::= S |>)) by done. cbv beta.
  unfold Business.fromiso. set (w1 := w <| w_ticks ::= S |>).
  change (env_fromiso (w_env w)) with (env_fromiso (w_env w1)).
  destruct (env_fromiso (w_env w1) (clock w)) as [t|] eqn:Et; [|left; run; by rewrite Et].
  rewrite (bind_ok _ _ w1 t w1) by (run; by rewrite Et). cbv beta.
  destruct (env_fromiso (w_env w1) (ar_deemed_deadline r)) as [d|] eqn:Ed; [|left; run; by rewrite Ed].
  rewrite (bind_ok _ _ w1 d w1) by (run; by rewrite Ed). cbv beta.
  destruct (Qle_bool d t) eqn:El; cbn [negb]; [|by left].
  right. split; [exists d, t; split_and!; [done..|by apply Qle_bool_iff]|].
  change (due oid w) with (due oid w1). match goal with |- due oid (?m w1).2 = _ => cut (Steps (same (due oid)) m) end.
  { intros Hm. apply Hm. }
  do 2 (apply steps_bind; [apply _|apply kept_due; solve_steps|intros ?]).
  apply steps_bind; [apply _| |intros _; apply kept_due; solve_steps].
  intros w2. unfold same, due, acceptance, acceptance_mut, st_acceptances. cbn. rewrite dget_dupd_eq.
  by destruct (dget (pt_acceptances (st_portal (w_store w2))) oid).
Qed.
Lemma ensure_clock o : Steps (same (λ w, (w_env w, w_ticks w))) (_ensure_acceptance o).
Proof.
  assert (∀ ts, Steps (same (λ w, (w_env w, w_ticks w))) (Business.fromiso ts)) as Hf.
  { intros ts. unfold Business.fromiso. solve_steps. }
  assert (∀ q, Steps (same (λ w, (w_env w, w_ticks w))) (float_str q)) as Hs by (intros q w; reflexivity).
  unfold _ensure_acceptance, _build_acceptance_report, _deemed_days, _iso_plus, getenv, parse_float, s_get, s_set, upd_store, store.
  solve_steps; intros ?; reflexivity.
Qed.
Lemma report_lapse oid w r' :
  named (w_store w) → acceptance (acceptance_report a oid w).2 oid = Some r' → ar_status r' = "deemed" →
  acceptance w oid = Some r' ∨ lapsed w r'.
Proof.
  intros Hn E Hd. unfold acceptance_report, order_or_404 in E. revert E. run.
  destruct (dget (st_orders (w_store w)) oid) as [o|] eqn:Eo; run; [|by left].
  pose proof (ensure_no_new (λ _ st, st = "deemed") o ltac:(done) w) as Hold. pose proof (ensure_result o w) as Hr.
  pose proof (ensure_clock o w) as Hc. unfold no_new, on_store in Hold. rewrite (Hn _ _ Eo) in Hr.
  destruct (_ensure_acceptance o w) as [[[r|]|e] w1]; run; [|intros E; left; by apply Hold..].
  specialize (Hr r w1 eq_refl). pose proof (deem_lapse oid w1 r Hr) as Hl.
  assert (∀ x, lapsed w1 x → lapsed w x) as Hlap.
  { unfold same in Hc. injection Hc as E1 E2. unfold lapsed, clock. cbn in E1, E2. by rewrite E1, E2. }
  destruct (_maybe_deem oid a w1) as [[[]|e] w2]; cbn in *; intros E;
    (destruct Hl as [E'|[Hl Eq]]; [left; apply Hold; [unfold acceptance in *; congruence|done]|]; right; apply Hlap;
     unfold due in Eq; unfold acceptance in Eq, E; rewrite E in Eq; rewrite Hr in Eq; injection Eq as Eq; unfold lapsed in *; by rewrite Eq).
Qed.
End sources.

(** ** The acceptance machine: the customer's requests and every other one *)
Section machine.
Context (http_adapter : string → ComputeAdapter) `{!∀ url, AdapterFrame (http_adapter url)}.
Inductive action :=
  | Report (oid : string)
  | Decide (oid decision : string) (reason : option string)
  | Serve (r : Api.request).
Inductive step : action → World → World → Prop :=
  | step_report a oid w : AdapterFrame a → step (Report oid) w (acceptance_report a oid w).2
  | step_decide a oid d reason w : AdapterFrame a → step (Decide oid d reason) w (decide_acceptance a oid d reason w).2
  | step_request r w : step (Serve r) w (Api.serve http_adapter r w).2.
Definition any_step (w w' : World) : Prop := ∃ act, step act w w'.
Definition accounted (w : World) : Prop := named (w_store w) ∧ fine (st_acceptances (w_store w)).
Lemma step_moves act w w' : step act w w' → accounted w → accounted w' ∧ on_store moves w w'.
Proof.
  intros Hs [Hn Hf]. assert (named (w_store w') ∧ on_store moves w w') as [Hn' Hm].
  { destruct Hs.
    - split; [by apply named_report|by apply report_steps].
    - split; [by apply named_decide|by apply decide_moves].
    - split; [by apply (Api.serve_steps http_adapter keeps_named)|].
      by apply keep_moves, (Api.serve_steps http_adapter portal_kept). }
  split; [|done]. split; [done|]. by eapply fine_moves.
Qed.
Lemma run_moves w w' : rtc any_step w w' → accounted w → accounted w' ∧ on_store moves w w'.
Proof.
  intros Hs. induction Hs as [w|w1 w2 w3 [act Hstep] _ IH]; [by split|]. intros Ha.
  destruct (step_moves _ _ _ Hstep Ha) as [Ha2 H12]. destruct (IH Ha2). split; [done|by transitivity w2].
Qed.

(** The step that decided a record *)
Definition settles (w1 : World) (oid : string) (r : AcceptanceRec) (act : action) : Prop :=
  (∃ reason, act = Decide oid "approve" reason ∧ ar_status r = "approved")
  ∨ act = Report oid ∧ ar_status r = "deemed" ∧ lapsed w1 r.
Lemma step_settles act w w' oid r :
  step act w w' → named (w_store w) → acceptance w' oid = Some r →
  ar_status r = "approved" ∨ ar_status r = "deemed" → acceptance w oid = Some r ∨ settles w oid r act.
Proof.
  intros Hs Hn E Hd. destruct Hs as [a oid' w Ha|a oid' d reason w Ha|rq w].
  - destruct (decide (ar_status r = "deemed" ∧ oid = oid')) as [[Es ->]|Hne].
    + destruct (report_lapse a oid' w r Hn E Es); [by left|right; right; by split_and!].
    + left. apply (report_no_new a oid' w); [done|]. destruct Hd; [by left|]. right. split; [done|]. intros ->. by apply Hne.
  - destruct (decide (ar_status r = "approved" ∧ oid = oid' ∧ d = "approve")) as [(Es & -> & ->)|Hne].
    + right. left. by exists reason.
    + left. apply (decide_no_new a oid' d reason w); [done|]. destruct Hd as [Es|Es]; [right|by left].
      split; [done|]. destruct (decide (oid = oid')) as [->|]; [|by left]. right. intros ->. by apply Hne.
  - left. pose proof (Api.serve_steps http_adapter portal_kept rq w) as [Ep _].
    unfold acceptance, st_acceptances in *. by rewrite <- Ep.
Qed.

End machine.

(** On the delivered order: a rejection, the customer's approval, and an attempt
    to take it back *)
Definition demo_oid : string := "ord-1".
Definition rejected_once : World := (decide_acceptance LocalNicoAdapter demo_oid "reject" (Some "slow") Demo.delivered).2.
Definition approved_then : World := (decide_acceptance LocalNicoAdapter demo_oid "approve" None rejected_once).2.
Definition taken_back : World := (decide_acceptance LocalNicoAdapter demo_oid "reject" (Some "late") approved_then).2.
Lemma demo_accounted : accounted Demo.delivered.
Proof.
  split.
  - unfold Demo.delivered, Demo.world_after.
    apply (handler_run_new keeps_named LocalNicoAdapter (Demo.order_body "tnt-acme" 2 true false) Demo.with_tenants).
    assert (st_orders (w_store Demo.with_tenants) = []) as E by (vm_compute; reflexivity).
    intros k o. by rewrite E.
  - assert (st_acceptances (w_store Demo.delivered) = []) as E by (vm_compute; reflexivity).
    intros oid r. by rewrite E.
Qed.
Lemma demo_rtc : rtc (any_step Lifecycle.demo_http) Demo.delivered taken_back.
Proof.
  eapply rtc_l; [eexists; by apply (step_decide _ LocalNicoAdapter demo_oid "reject" (Some "slow")); apply _|].
  eapply rtc_l; [eexists; by apply (step_decide _ LocalNicoAdapter demo_oid "approve" None); apply _|].
  apply rtc_once. eexists. by apply (step_decide _ LocalNicoAdapter demo_oid "reject" (Some "late")); apply _.
Qed.
End AcceptanceThms.
