(* ===== verification/TerminationThms.v ===== *)
(** * The termination workflow: theorems

    Nothing is erased before the customer confirmed the whole checklist, a Secure
    Wipe certificate exists exactly for the workflows that were wiped, and it never
    changes. *)
From Stdlib Require Import QArith.
From stdpp Require Import strings base decidable option numbers list relations.
From S2P Require Import Prelude PyLib Models PortalModels World NicoSim Adapters StateMachine Saga.
From S2P Require Import Handlers Reclaim Scenario Business Demo PortalFrame.
Local Open Scope string_scope.
Local Open Scope list_scope.
Local Open Scope py_scope.

Module TerminationThms.
Import Saga Scenario PortalFrame.

(** ** The record of a workflow *)
Definition all_checked (r : TerminationRec) : Prop := ∀ x, x ∈ tm_checklist r → x.2 = true.
Definition certifies (c : WipeCert) (r : TerminationRec) : Prop :=
  wb_tenant_id (wc_body c) = tm_tenant_id r ∧ wb_termination_id (wc_body c) = tm_id r
  ∧ wb_erase_method (wc_body c) = ERASE_METHOD ∧ wb_erase_steps (wc_body c) = Nico.SANITIZE_STEPS
  ∧ ca_allocation_id <$> wb_allocations (wc_body c) = tm_allocations r.
(** What each state means for the rest of the record *)
Inductive term_ok (r : TerminationRec) : nat → Prop :=
  | ok_awaiting : tm_state r = "awaiting_backup" → tm_backup_confirmed_at r = None →
      tm_wipe_certificate r = None → tm_closed_at r = None → term_ok r 0
  | ok_erasing : tm_state r = "erasing" → is_Some (tm_backup_confirmed_at r) → all_checked r →
      tm_wipe_certificate r = None → tm_closed_at r = None → term_ok r 1
  | ok_wiped c : tm_state r = "wiped" → is_Some (tm_backup_confirmed_at r) → all_checked r →
      tm_wipe_certificate r = Some c → certifies c r → tm_closed_at r = None → term_ok r 2
  | ok_closed c : tm_state r = "closed" → is_Some (tm_backup_confirmed_at r) → all_checked r →
      tm_wipe_certificate r = Some c → certifies c r → is_Some (tm_closed_at r) → term_ok r 3.

Definition workflows (w : World) : dict TerminationRec := st_terminations (w_store w).
(** The three items a customer has to confirm *)
Definition CHECKS : list string :=
  ["테넌트 데이터 추출(export) 완료"; "외부 스토리지 이관(migration) 완료"; "최종 백업본 확인 완료"].
Definition owner (r : TerminationRec) : string * string * string * list string :=
  (tm_id r, tm_tenant_id r, tm_requested_at r, fst <$> tm_checklist r).
(** A workflow only goes forward, and keeps its certificate. *)
Definition forward (r : TerminationRec) (n : nat) (r' : TerminationRec) : Prop :=
  ∃ m, term_ok r' m ∧ (n ≤ m)%nat ∧ owner r' = owner r
    ∧ ∀ c, tm_wipe_certificate r = Some c → tm_wipe_certificate r' = Some c.
Record moves (w w' : World) : Prop := {
  mv_old k r n : dget (workflows w) k = Some r → term_ok r n →
    ∃ r', dget (workflows w') k = Some r' ∧ forward r n r';
  mv_new k : dget (workflows w) k = None →
    dget (workflows w') k = None ∨ ∃ r' m, dget (workflows w') k = Some r' ∧ term_ok r' m ∧ tm_id r' = k ∧ fst <$> tm_checklist r' = CHECKS;
  mv_wf : dict_wf (workflows w) → dict_wf (workflows w');
  mv_count : (count "termination" (w_store w) ≤ count "termination" (w_store w'))%Z
}.
Lemma forward_trans r1 n r2 m r3 : forward r1 n r2 → term_ok r2 m → forward r2 m r3 → forward r1 n r3.
Proof.
  intros (m' & H2 & Hn & Ho & Hc) Hm (k & H3 & Hk & Ho' & Hc').
  assert (m' = m) as -> by (destruct H2, Hm; congruence).
  exists k. split_and!; [done|lia|congruence|eauto].
Qed.
Lemma forward_refl r n : term_ok r n → forward r n r.
Proof. intros H. by exists n. Qed.
#[export] Instance moves_preorder : PreOrder moves.
Proof.
  split.
  - intros w. split; [|by left|done|done]. intros k r n E H. exists r. split; [done|by apply forward_refl].
  - intros w1 w2 w3 [A1 B1 W1 C1] [A2 B2 W2 C2]. split; [| |tauto|lia].
    + intros k r n E H. destruct (A1 _ _ _ E H) as (r2 & E2 & m & H2 & ?).
      destruct (A2 _ _ _ E2 H2) as (r3 & E3 & ?). exists r3. split; [done|]. eapply forward_trans; [by exists m| |]; done.
    + intros k E. destruct (B1 k E) as [E2|(r2 & m & E2 & H2 & Hi & Hl)]; [by apply B2|]. right.
      destruct (A2 _ _ _ E2 H2) as (r3 & E3 & m3 & H3 & _ & Ho & _). exists r3, m3.
      injection Ho as Ho1 _ _ Ho2. split_and!; congruence.
Qed.
Lemma portal_moves w w' : on_store portal_kept w w' → moves w w'.
Proof.
  intros [E Hc]. assert (workflows w' = workflows w) as Ew by (unfold workflows, st_terminations; by rewrite E).
  split; [| |by rewrite Ew|apply Hc].
  - intros k r n Er H. exists r. rewrite Ew. split; [done|by apply forward_refl].
  - intros k Ek. left. by rewrite Ew.
Qed.
Lemma store_moves w w' : w_store w' = w_store w → moves w w'.
Proof. intros E. apply portal_moves. unfold on_store. by rewrite E. Qed.
Lemma pipeline_moves {A} (m : IO A) : Steps (on_store portal_kept) m → Steps moves m.
Proof. apply steps_weaken, portal_moves. Qed.
#[export] Hint Extern 4 (Steps moves _) => apply pipeline_moves : steps.

(** A change of one record that is within its state *)
Lemma mut_moves id f w :
  (∀ r n, dget (workflows w) id = Some r → term_ok r n → forward r n (f r)) →
  moves w (termination_mut id f w).2.
Proof.
  intros Hf. split; [| |by apply dict_wf_dupd|done].
  - intros k r n E H. unfold workflows, st_terminations. cbn. rewrite dget_dupd.
    destruct (String.eqb_spec k id) as [->|]; [|exists r; split; [done|by apply forward_refl]].
    unfold workflows, st_terminations in E. rewrite E. cbn. eexists. split; [done|]. by apply Hf.
  - intros k E. left. unfold workflows, st_terminations in *. cbn. rewrite dget_dupd.
    destruct (String.eqb_spec k id) as [->|]; [by rewrite E|done].
Qed.
(** Progress reports do not move the workflow. *)
Lemma progress_forward r n r' :
  owner r' = owner r → tm_state r' = tm_state r → tm_backup_confirmed_at r' = tm_backup_confirmed_at r →
  tm_checklist r' = tm_checklist r → tm_wipe_certificate r' = tm_wipe_certificate r →
  tm_closed_at r' = tm_closed_at r → ((2 ≤ n)%nat → tm_allocations r' = tm_allocations r) →
  term_ok r n → forward r n r'.
Proof.
  intros Ho E1 E2 E3 E4 E5 Ha H. exists n. split_and!; [|done|done|by rewrite E4].
  injection Ho as Hi Ht _ _. assert (∀ c, (2 ≤ n)%nat → certifies c r → certifies c r') as Hc.
  { intros c Hn. unfold certifies. by rewrite Hi, Ht, Ha. }
  assert (all_checked r → all_checked r') as Hk by (unfold all_checked; by rewrite E3).
  destruct H as [| |c|c]; [apply ok_awaiting|apply ok_erasing|apply (ok_wiped _ c)|apply (ok_closed _ c)];
    rewrite ?E1, ?E2, ?E4, ?E5; auto.
Qed.
Lemma progress_moves id st d t : Steps moves (_term_progress id st d t).
Proof. intros w. apply mut_moves. intros r n _. by apply progress_forward. Qed.
#[export] Hint Resolve progress_moves : steps.

(** ** The saga *)
Section saga.
Context (a : ComputeAdapter) `{!AdapterFrame a} (id tenant : string).
(** The workflow is erasing, with these allocations. *)
Definition erasing (L : list string → Prop) (w : World) : Prop :=
  ∃ r, dget (workflows w) id = Some r ∧ term_ok r 1 ∧ tm_tenant_id r = tenant ∧ tm_id r = id
    ∧ L (tm_allocations r).
Definition within (L : list string → Prop) (w w' : World) : Prop := moves w w' ∧ (erasing L w → erasing L w').
#[local] Instance within_preorder L : PreOrder (within L).
Proof.
  unfold within. split; [intros w; split; [reflexivity|done]|].
  intros w1 w2 w3 [] []. split; [by transitivity w2|tauto].
Qed.
Lemma within_keep L {A} (m : IO A) : Steps (on_store portal_kept) m → Steps (within L) m.
Proof.
  apply steps_weaken. intros w w' H. split; [by apply portal_moves|]. destruct H as [E _].
  unfold erasing, workflows, st_terminations. by rewrite E.
Qed.
#[local] Hint Extern 4 (Steps (within _) _) => apply within_keep : steps.
Lemma within_progress L f :
  (∀ r, owner (f r) = owner r ∧ tm_state (f r) = tm_state r
    ∧ tm_backup_confirmed_at (f r) = tm_backup_confirmed_at r ∧ tm_checklist (f r) = tm_checklist r
    ∧ tm_wipe_certificate (f r) = tm_wipe_certificate r ∧ tm_closed_at (f r) = tm_closed_at r
    ∧ tm_allocations (f r) = tm_allocations r) →
  Steps (within L) (termination_mut id f).
Proof.
  intros Hf w. assert (∀ r n, term_ok r n → forward r n (f r)) as Hw.
  { intros r n Hn. destruct (Hf r) as (?&?&?&?&?&?&?). by apply progress_forward. }
  split; [by apply mut_moves; eauto|]. intros (r & E & Ho & Ht & Hi & HL). exists (f r).
  unfold workflows, st_terminations in *. cbn. rewrite dget_dupd_eq, E.
  destruct (Hf r) as (Hi'&Es&_&_&_&_&Ea). injection Hi' as E1 E2 _ _. split_and!; [done| |congruence..|by rewrite Ea].
  destruct (Hw r 1 Ho) as (m & Hm & _).
  inversion Ho. destruct Hm; try congruence. by apply ok_erasing.
Qed.
#[local] Hint Extern 2 (Steps (within _) (termination_mut _ _)) => apply within_progress; intros; by split_and! : steps.
Lemma within_erase L total acc aid : Steps (within L) (erase_allocation id tenant a total acc aid).
Proof.
  pose proof (handler_run_terminate portal_kept a). unfold erase_allocation, _term_progress. solve_steps.
Qed.
(** Its certificate lists the allocations in order. *)
Lemma erase_returns total (L : list string) :
  Returns (λ b : Z * list CertAlloc, ca_allocation_id <$> b.2 = L)
    (fold_m (erase_allocation id tenant a total) (0%Z, []) L).
Proof.
  set (P := λ (b : Z * list CertAlloc) l', (ca_allocation_id <$> b.2) ++ l' = L).
  assert (Returns (λ b, P b []) (fold_m (erase_allocation id tenant a total) (0%Z, []) L)) as H.
  { apply returns_fold; [|done]. intros acc aid l' HP. unfold erase_allocation.
    apply returns_bind. intros s. apply returns_bind. intros done. do 3 (apply returns_bind; intros ?).
    intros w. cbn. unfold P in *. cbn. by rewrite fmap_app, <-app_assoc. }
  intros w. specialize (H w). destruct (fold_m _ _ _ w) as [[acc|e] w']; [|done].
  unfold P in H. cbn in *. by rewrite app_nil_r in H.
Qed.
Lemma set_allocations L w :
  erasing (λ _, True) w →
  let w' := (termination_mut id (λ r, r <| tm_allocations := L |>) w).2 in moves w w' ∧ erasing (eq L) w'.
Proof.
  intros (r & E & Ho & Ht & Hi & _) w'. split.
  - apply mut_moves. intros r' n E'. assert (r' = r) as -> by congruence. intros Hn.
    assert (n = 1%nat) as -> by (inversion Ho; destruct Hn; congruence). apply progress_forward; try done. lia.
  - exists (r <| tm_allocations := L |>). unfold w', workflows, st_terminations in *. cbn.
    rewrite dget_dupd_eq, E. split_and!; try done. inversion Ho. by apply ok_erasing.
Qed.
Lemma set_wiped L cert :
  certifies cert (mkTermination id tenant EmptyString EmptyString [] None EmptyString 0 L [] None None) →
  Under (erasing (eq L)) moves
    (termination_mut id (λ r, r <| tm_wipe_certificate := Some cert |> <| tm_state := "wiped" |>)).
Proof.
  intros Hc w (r & E & Ho & Ht & Hi & HL). apply mut_moves. intros r' n E'.
  assert (r' = r) as -> by congruence. intros Hn.
  assert (n = 1%nat) as -> by (inversion Ho; destruct Hn; congruence). inversion Ho.
  exists 2%nat. split_and!; [|lia|done|cbn; congruence].
  eapply ok_wiped; try done. unfold certifies in *. cbn in *. by rewrite Ht, Hi, <-HL.
Qed.
Lemma saga_moves : Under (erasing (λ _, True)) moves (_run_termination_saga id a).
Proof.
  intros w Hw. pose proof Hw as (r & E & _ & Ht & _). unfold _run_termination_saga.
  rewrite (bind_ok (s_idx st_terminations id) _ w r w).
  2: { unfold workflows in E. run. by rewrite E. }
  cbv beta zeta. rewrite Ht. rewrite (bind_ok store _ w (w_store w) w) by done. cbv beta.
  set (L := tenant_allocations (w_store w) tenant). destruct (set_allocations L w Hw) as [Hm Hs].
  rewrite (bind_ok _ _ w tt (termination_mut id (λ r, r <| tm_allocations := L |>) w).2) by done. cbv beta.
  etransitivity; [exact Hm|]. revert Hs. generalize (termination_mut id (λ r, r <| tm_allocations := L |>) w).2.
  match goal with |- ∀ w, _ → moves w (?m w).2 => change (Under (erasing (eq L)) moves m) end.
  assert (subrelation (within (eq L)) moves) as Hsub by (intros ? ? []; done).
  assert (∀ w w', within (eq L) w w' → erasing (eq L) w → erasing (eq L) w') as Hkeep by (intros ? ? []; done).
  eapply under_keep_value; [apply _|exact Hsub|exact Hkeep| |apply erase_returns|].
  { apply steps_fold_m; [apply _|]. intros. apply within_erase. }
  intros [d certs] Hids. cbn in Hids.
  do 3 (eapply under_keep; [apply _|exact Hsub|exact Hkeep|solve_steps|intros ?]). cbv zeta.
  apply under_last; [apply _|by apply set_wiped|]. intros. solve_steps.
Qed.
End saga.
(** *** What it leaves alone: the other workflows and the threads *)
Definition only (id : string) (w w' : World) : Prop :=
  queues w' = queues w ∧ ∀ k, k ≠ id → dget (workflows w') k = dget (workflows w) k.
#[export] Instance only_preorder id : PreOrder (only id).
Proof.
  split; [by intros w|]. intros w1 w2 w3 [E1 H1] [E2 H2]. split; [congruence|].
  intros k Hk. by rewrite H2, H1.
Qed.
Lemma only_keep {A} id (m : IO A) :
  Steps (on_store portal_kept) m → Steps (same queues) m → Steps (only id) m.
Proof.
  intros Hs Hq w. split; [apply Hq|]. intros k _. destruct (Hs w) as [E _].
  unfold workflows, st_terminations. by rewrite E.
Qed.
Lemma only_mut id f : Steps (only id) (termination_mut id f).
Proof.
  intros w. split; [done|]. intros k Hk. unfold workflows, st_terminations. cbn. by rewrite dget_dupd_ne.
Qed.
#[export] Hint Resolve only_mut : steps.
#[export] Hint Extern 4 (Steps (only _) _) => apply only_keep : steps.
#[export] Hint Extern 2 (Steps (same queues) (gets _)) => intros ?; reflexivity : steps.
#[export] Hint Extern 2 (Steps (same queues) (s_idx _ _)) => unfold s_idx; solve_steps : steps.
Lemma saga_only a `{!AdapterFrame a} id : Steps (only id) (_run_termination_saga id a).
Proof.
  pose proof (handler_run_terminate portal_kept a). pose proof (queues_run_terminate a).
  unfold _run_termination_saga, erase_allocation, _term_progress. solve_steps.
Qed.

(** ** The machine of the workflows *)
(** Workflows are numbered from a counter; each wipe thread has a workflow to erase. *)
Record accounted (w : World) : Prop := {
  ac_wf : dict_wf (workflows w);
  ac_fine k r : dget (workflows w) k = Some r → tm_id r = k ∧ ∃ n, term_ok r n;
  ac_items k r : dget (workflows w) k = Some r → fst <$> tm_checklist r = CHECKS;
  ac_numbered n : (count "termination" (w_store w) < n)%Z → dget (workflows w) ("term-" +:+ str_of_Z n) = None;
  ac_threads id : id ∈ w_wipes w → ∃ r, dget (workflows w) id = Some r ∧ term_ok r 1
}.
(** What may happen; [Other] is whatever leaves the customer plane alone *)
Inductive action :=
  | Request (tid : string)
  | Confirm (a : ComputeAdapter) (tid : string) (checklist : list (string * bool))
  | Thread (a : ComputeAdapter) (id : string)
  | Certificate (tid : string)
  | Other.
Inductive step : action → World → World → Prop :=
  | step_request tid w : step (Request tid) w (request_termination tid w).2
  | step_confirm a tid checklist w : AdapterFrame a → step (Confirm a tid checklist) w (confirm_backup a tid checklist w).2
  | step_thread a id w : AdapterFrame a → step (Thread a id) w (wipe_thread id a w).2
  | step_certificate tid w : step (Certificate tid) w (get_wipe_certificate tid w).2
  | step_other w w' : on_store portal_kept w w' → w_wipes w' = w_wipes w → step Other w w'.
Inductive run_of : list action → World → World → Prop :=
  | run_nil w : run_of [] w w
  | run_cons act l w w1 w2 : step act w w1 → run_of l w1 w2 → run_of (act :: l) w w2.
Lemma latest_in tid w r :
  accounted w → _latest_termination (w_store w) tid = Some r →
  dget (workflows w) (tm_id r) = Some r ∧ tm_tenant_id r = tid.
Proof.
  intros Ha Hr%min_by_in%elem_of_filterb. destruct Hr as [Hr Ht%String.eqb_eq].
  apply dvalues_dget in Hr as [k Hk]; [|apply Ha]. destruct (ac_fine _ Ha _ _ Hk) as [-> _]. done.
Qed.
(** A step that opens no workflow and starts no thread keeps the account. *)
Lemma moves_fine w w' :
  accounted w → moves w w' → dict_wf (workflows w')
  ∧ (∀ k r, dget (workflows w') k = Some r → tm_id r = k ∧ ∃ n, term_ok r n)
  ∧ ∀ k r, dget (workflows w') k = Some r → fst <$> tm_checklist r = CHECKS.
Proof.
  intros Ha Hm. split; [apply Hm, Ha|].
  assert (∀ k r, dget (workflows w') k = Some r → (tm_id r = k ∧ ∃ n, term_ok r n) ∧ fst <$> tm_checklist r = CHECKS)
    as H; [|by split; intros k r E; apply (H k r E)].
  intros k r E. destruct (dget (workflows w) k) as [r0|] eqn:E0.
  - pose proof (ac_items _ Ha _ _ E0) as Hl.
    destruct (ac_fine _ Ha _ _ E0) as (<- & n & Hn). destruct (mv_old _ _ Hm _ _ _ E0 Hn) as (r' & E' & m & H' & _ & Ho & _).
    rewrite E in E'. injection E' as ->. injection Ho as Ho1 _ _ Ho2. split; [split; [done|by exists m]|congruence].
  - destruct (mv_new _ _ Hm _ E0) as [E'|(r' & m & E' & Hr' & Hi & Hl)]; [congruence|].
    rewrite E in E'. injection E' as ->. split; [split; [done|by exists m]|done].
Qed.
Lemma only_accounted w w' id :
  accounted w → moves w w' → is_Some (dget (workflows w) id) →
  (∀ k, k ≠ id → dget (workflows w') k = dget (workflows w) k) →
  (∀ k, k ∈ w_wipes w' → k ≠ id ∧ k ∈ w_wipes w ∨ k = id ∧ ∃ r, dget (workflows w') id = Some r ∧ term_ok r 1) →
  accounted w'.
Proof.
  intros Ha Hm Hid Hk Ht. destruct (moves_fine w w' Ha Hm) as (Hwf & Hf & Hl). split; [done|done|done|..].
  - intros n Hn. pose proof (mv_count _ _ Hm). assert (dget (workflows w) ("term-" +:+ str_of_Z n) = None) as E.
    { apply Ha. lia. }
    rewrite Hk; [done|]. intros <-. destruct Hid. congruence.
  - intros k [[Hne Hin]|[-> ?]]%Ht; [|done]. rewrite Hk by done. by apply Ha.
Qed.
Lemma request_step tid w : accounted w → accounted (request_termination tid w).2 ∧ moves w (request_termination tid w).2.
Proof.
  intros Ha. unfold request_termination. run. destruct (negb _); run; [by split|].
  destruct (match _latest_termination _ _ with Some _ => _ | None => _ end); run; [by split|].
  set (n := (default 0%Z (dget (st_counters (w_store w)) "termination") + 1)%Z). unfold emit. run. cbn.
  match goal with |- accounted ?x ∧ _ => set (w' := x) end.
  match eval cbn in (workflows w') with dset _ ?k ?r => set (key := k); set (rec := r) end.
  assert (workflows w' = dset (workflows w) key rec) as Ew by reflexivity.
  assert (count "termination" (w_store w) < n)%Z as Hn by (unfold n, count; lia).
  assert (count "termination" (w_store w') = n) as En.
  { unfold count, w'. cbn. by rewrite dget_dset_eq. }
  assert (dget (workflows w) key = None) as Hk by by apply Ha.
  assert (moves w w') as Hm.
  { split; [| |rewrite Ew; by apply dict_wf_dset|rewrite En; unfold count; lia].
    - intros k r m E Hr. exists r. rewrite Ew, dget_dset_ne by congruence. split; [done|by apply forward_refl].
    - intros k E. rewrite Ew, dget_dset. destruct (String.eqb_spec k key) as [->|]; [right|by left].
      exists rec, 0%nat. split_and!; [done|by apply ok_awaiting|done|done]. }
  split; [|done]. destruct (moves_fine w w' Ha Hm) as (Hwf & Hf & Hl). split; [done|done|done|..].
  - intros m Hlt. rewrite En in Hlt. rewrite Ew, dget_dset_ne; [apply Ha; lia|].
    intros E%str_app_inj%str_of_Z_inj. fold n in E. lia.
  - intros id (r & E & Hr)%(ac_threads _ Ha). exists r. rewrite Ew, dget_dset_ne by congruence. done.
Qed.
Lemma latest_or_404_run tid w :
  latest_or_404 tid w = (match _latest_termination (w_store w) tid with
    | Some r => Ok r
    | None => Raised (HTTPException 404 ("tenant '" +:+ tid +:+ "'의 종료 워크플로우 없음")) end, w).
Proof. unfold latest_or_404. run. by destruct (_latest_termination _ _). Qed.
Lemma thread_step a `{!AdapterFrame a} id w :
  accounted w → accounted (wipe_thread id a w).2 ∧ moves w (wipe_thread id a w).2.
Proof.
  intros Ha. unfold wipe_thread. run. destruct (memb id (w_wipes w)) eqn:Em; [|by split].
  apply memb_spec in Em. destruct (ac_threads _ Ha _ Em) as (r & E & Hr).
  destruct (ac_fine _ Ha _ _ E) as [Hi _]. run.
  set (w1 := w <| w_wipes ::= _ |>). assert (erasing id (tm_tenant_id r) (λ _, True) w1) as He by (by exists r).
  pose proof (saga_moves a id (tm_tenant_id r) w1 He) as Hm. destruct (saga_only a id w1) as [Hq Hk].
  set (w' := (_run_termination_saga id a w1).2) in *. injection Hq as _ Hq.
  assert (moves w w') as Hm' by (destruct Hm; by split).
  split; [|done]. apply (only_accounted w w' id); [done|done|by exists r|done|].
  intros k. rewrite Hq. cbn. intros [Hin Hne]%elem_of_filterb. apply negb_true_iff, String.eqb_neq in Hne. by left.
Qed.
(** The confirmation itself *)
Definition confirmed (at_ : string) (r : TerminationRec) : TerminationRec :=
  r <| tm_checklist ::= fmap (λ '(i, _), (i, true)) |> <| tm_backup_confirmed_at := Some at_ |>
    <| tm_state := "erasing" |>.
Lemma confirmed_items_kept (l : list (string * bool)) : fst <$> ((λ '(i, _), (i, true)) <$> l) = fst <$> l.
Proof. induction l as [|[i b] l IH]; [done|]. cbn. by f_equal. Qed.
Lemma confirmed_moves id r at_ w :
  dget (workflows w) id = Some r → term_ok r 0 → tm_id r = id →
  let w' := (termination_mut id (confirmed at_) w).2 in
  moves w w' ∧ erasing id (tm_tenant_id r) (λ _, True) w'.
Proof.
  intros E Ho Hi w'. assert (term_ok (confirmed at_ r) 1) as Ho'.
  { inversion Ho. apply ok_erasing; try done. intros [i b] Hin. cbn in Hin.
    apply list_elem_of_fmap in Hin as ([? ?] & [= -> ->] & _). done. }
  split.
  - apply mut_moves. intros r' n E'. assert (r' = r) as -> by congruence. intros Hn.
    assert (n = 0%nat) as -> by (inversion Ho; destruct Hn; congruence).
    exists 1%nat. split_and!; [done|lia|unfold owner; cbn; by rewrite confirmed_items_kept|done].
  - exists (confirmed at_ r). unfold w', workflows, st_terminations in *. cbn.
    by rewrite dget_dupd_eq, E.
Qed.
(** From the confirmation to the choice between erasing at once and a thread *)
Lemma keeps_delay : Steps (on_store portal_kept) _termination_stage_delay.
Proof. unfold _termination_stage_delay. solve_steps. Qed.
Lemma queues_delay : Steps (same queues) _termination_stage_delay.
Proof. intros w. unfold _termination_stage_delay, getenv, parse_float. run. repeat case_match; done. Qed.
Definition announce (id tid : string) : IO Q :=
  _term_progress id "erasing" 0 1 ;;
  emit "CustomerPortal" "NeoCloudOS.M1" "REST" ("POST /tenants/" +:+ tid +:+ "/termination/backup-confirm") None None ;;
  _termination_stage_delay.
Lemma announce_within id tenant tid L : Steps (within id tenant L) (announce id tid).
Proof.
  intros w. pose proof (within_preorder id tenant L). pose proof (within_keep id tenant L _ keeps_delay).
  revert w. change (Steps (within id tenant L) (announce id tid)).
  unfold announce, _term_progress. apply steps_bind; [done|by apply within_progress|intros _].
  apply steps_bind; [done|apply within_keep; solve_steps|done].
Qed.
Lemma announce_only id tid : Steps (only id) (announce id tid).
Proof. pose proof keeps_delay. pose proof queues_delay. unfold announce, _term_progress. solve_steps. Qed.
Definition erase (a : ComputeAdapter) (id : string) (delay : Q) : IO unit :=
  if Qle_bool delay 0 then _run_termination_saga id a
  else modify (λ w, w <| w_wipes ::= λ l, l ++ [id] |>).
Lemma confirm_backup_eq a tid checklist w r :
  _latest_termination (w_store w) tid = Some r → tm_state r = "awaiting_backup" → missing_items r checklist = [] →
  (confirm_backup a tid checklist w).2 =
    ((at_ ← now; termination_mut (tm_id r) (confirmed at_) ;; delay ← announce (tm_id r) tid;
      erase a (tm_id r) delay ;; s_get st_terminations (tm_id r)) w).2.
Proof.
  intros El Es Em. unfold confirm_backup. rewrite (bind_ok _ _ w r w) by by rewrite latest_or_404_run, El.
  cbv beta zeta. rewrite Es, Em. cbn [negb]. unfold announce, erase, mbind, M_bind. cbn [negb].
  change (negb (String.eqb "awaiting_backup" "awaiting_backup")) with false. cbv iota.
  cbv beta. destruct (now w) as [[t|e] w1]; [|done]. fold (confirmed t).
  destruct (termination_mut _ _ w1) as [[[]|e] w2]; [|done].
  destruct (_term_progress _ _ _ _ w2) as [[[]|e] w3]; [|done].
  destruct (emit _ _ _ _ _ _ w3) as [[[]|e] w4]; [|done].
  by destruct (_termination_stage_delay w4) as [[d|e] w5].
Qed.
(** The workflow [id] is confirmed; it is erased at once, or its thread starts. *)
Lemma erase_step a `{!AdapterFrame a} id tenant d w w2 :
  accounted w → is_Some (dget (workflows w) id) → id ∉ w_wipes w → moves w w2 →
  erasing id tenant (λ _, True) w2 → w_wipes w2 = w_wipes w →
  (∀ k, k ≠ id → dget (workflows w2) k = dget (workflows w) k) →
  accounted (erase a id d w2).2 ∧ moves w (erase a id d w2).2.
Proof.
  intros Ha Hid Hnid Hm He2 Hq Hk2.
  unfold erase. destruct (Qle_bool d 0).
  - pose proof (saga_moves a id tenant w2 He2) as Hm3. destruct (saga_only a id w2) as [Hq3 Ho3].
    set (w3 := (_run_termination_saga id a w2).2) in *. injection Hq3 as _ Hq3.
    assert (moves w w3) by (by transitivity w2).
    split; [|done]. apply (only_accounted w w3 id); [done..|done|intros k Hk; rewrite Ho3; auto|].
    intros k. rewrite Hq3, Hq. intros Hin. left. split; [congruence|done].
  - cbn. match goal with |- accounted ?x ∧ _ => set (w3 := x) end.
    assert (moves w w3) by (transitivity w2; [done|by apply store_moves]).
    split; [|done]. apply (only_accounted w w3 id); [done..|done|exact Hk2|].
    intros k. unfold w3. cbn. rewrite Hq, elem_of_app, list_elem_of_singleton. intros [Hin| ->].
    + left. split; [congruence|done].
    + right. split; [done|]. destruct He2 as (r2 & E2 & Hr2 & _). by exists r2.
Qed.
Lemma confirm_step a `{!AdapterFrame a} tid checklist w :
  accounted w → accounted (confirm_backup a tid checklist w).2 ∧ moves w (confirm_backup a tid checklist w).2.
Proof.
  intros Ha. destruct (_latest_termination (w_store w) tid) as [r|] eqn:El.
  2: { unfold confirm_backup, mbind, M_bind. by rewrite latest_or_404_run, El. }
  destruct (String.eqb_spec (tm_state r) "awaiting_backup") as [Es|Hne]; cycle 1.
  { unfold confirm_backup. rewrite (bind_ok _ _ w r w) by by rewrite latest_or_404_run, El.
    cbv beta zeta. apply String.eqb_neq in Hne. by rewrite Hne. }
  destruct (missing_items r checklist) as [|i l] eqn:Em; cycle 1.
  { unfold confirm_backup. rewrite (bind_ok _ _ w r w) by by rewrite latest_or_404_run, El.
    cbv beta zeta. by rewrite Es, Em. }
  rewrite (confirm_backup_eq _ _ _ _ _ El Es Em). destruct (latest_in _ _ _ Ha El) as [E _].
  set (id := tm_id r) in *. destruct (ac_fine _ Ha _ _ E) as (_ & n & Hn).
  assert (n = 0%nat) as -> by (destruct Hn; congruence).
  set (at_ := env_clock (w_env w) (w_ticks w)). set (w0 := w <| w_ticks ::= S |>).
  rewrite (bind_ok now _ w at_ w0) by done. cbv beta.
  destruct (confirmed_moves id r at_ w0 E Hn eq_refl) as [Hm1 He1].
  destruct (only_mut id (confirmed at_) w0) as [Hq1 Ho1].
  rewrite (bind_ok _ _ w0 tt (termination_mut id (confirmed at_) w0).2) by done. cbv beta.
  set (w1 := (termination_mut id (confirmed at_) w0).2) in *.
  destruct (announce_within id (tm_tenant_id r) tid (λ _, True) w1) as [Hm2 He2]. specialize (He2 He1).
  destruct (announce_only id tid w1) as [Hq2 Ho2].
  assert (id ∉ w_wipes w) as Hnid.
  { intros (r' & E' & Hr')%(ac_threads _ Ha). assert (r' = r) as -> by congruence.
    inversion Hn; inversion Hr'; congruence. }
  assert (moves w w1) as Hm01 by (transitivity w0; [by apply store_moves|done]).
  assert (∀ k, k ≠ id → dget (workflows w1) k = dget (workflows w) k) as Ho01 by (intros k Hk; by rewrite Ho1).
  assert (w_wipes w1 = w_wipes w) as Hw1 by reflexivity. unfold mbind, M_bind.
  destruct (announce id tid w1) as [[d|e] w2]; cbn [snd] in *; injection Hq2 as _ Hq2;
    (assert (w_wipes w2 = w_wipes w) as Hq by (rewrite Hq2; exact Hw1));
    (assert (∀ k, k ≠ id → dget (workflows w2) k = dget (workflows w) k) as Hk2 by (intros k Hk; rewrite Ho2; auto));
    (assert (moves w w2) as Hm by (by transitivity w1)).
  2: { split; [|done]. apply (only_accounted w w2 id); [done..|by exists r|done|].
       intros k. rewrite Hq. intros Hin. left. split; [congruence|done]. }
  pose proof (erase_step a id (tm_tenant_id r) d w w2 Ha (ex_intro _ r E) Hnid Hm He2 Hq Hk2) as H.
  by destruct (erase a id d w2) as [[[]|] w3].
Qed.
(** *** Receiving the certificate closes the workflow *)
Definition close (at_ : string) (r : TerminationRec) : TerminationRec :=
  r <| tm_state := "closed" |> <| tm_closed_at := Some at_ |>.
Lemma close_moves id r at_ w :
  dget (workflows w) id = Some r → term_ok r 2 →
  moves w (termination_mut id (close at_) w).2.
Proof.
  intros E Ho. apply mut_moves. intros r' n E'. assert (r' = r) as -> by congruence. intros Hn.
  assert (n = 2%nat) as -> by (inversion Ho; destruct Hn; congruence). inversion Ho as [| |c ? ? ? ? [] |].
  exists 3%nat. split_and!; [by apply (ok_closed _ c)|lia|done|done].
Qed.
Lemma certificate_eq tid w r :
  _latest_termination (w_store w) tid = Some r →
  get_wipe_certificate tid w =
    ((if negb (memb (tm_state r) ["wiped"; "closed"])
      then http 409 ("소거 미완료 (state=" +:+ tm_state r +:+ ") — 증명서는 wiped 이후 수령 가능")
      else
        (if String.eqb (tm_state r) "wiped" then
           at_ ← now; termination_mut (tm_id r) (close at_) ;; _term_progress (tm_id r) "closed" 1 1 ;;
           cert ← or_raise (tm_wipe_certificate r) (TypeError "certificate");
           emit "NeoCloudOS.M1" "BizPortal" "internal" ("termination:closed → " +:+ tm_id r) None None
         else mret tt) ;; mret (tm_id r, "closed", tm_wipe_certificate r)) : IO (string * string * option WipeCert)) w.
Proof.
  intros El. unfold get_wipe_certificate. by rewrite (bind_ok _ _ w r w) by by rewrite latest_or_404_run, El.
Qed.
Lemma certificate_wiped tid w r c :
  _latest_termination (w_store w) tid = Some r → tm_state r = "wiped" → tm_wipe_certificate r = Some c →
  ∃ at_ w1 w4, get_wipe_certificate tid w = (Ok (tm_id r, "closed", Some c), w4)
    ∧ w_store w1 = w_store w ∧ w_wipes w4 = w_wipes w
    ∧ w_store w4 = w_store (_term_progress (tm_id r) "closed" 1 1 (termination_mut (tm_id r) (close at_) w1).2).2.
Proof.
  intros El Es Ec. rewrite (certificate_eq _ _ _ El), Es, Ec.
  exists (env_clock (w_env w) (w_ticks w)), (w <| w_ticks ::= S |>). eexists. by split_and!.
Qed.
(** What [get_wipe_certificate] answers, and what it does *)
Lemma certificate_run tid w r :
  accounted w → _latest_termination (w_store w) tid = Some r →
  let w' := (get_wipe_certificate tid w).2 in
  moves w w' ∧ w_wipes w' = w_wipes w
  ∧ (∀ k, k ≠ tm_id r → dget (workflows w') k = dget (workflows w) k)
  ∧ if memb (tm_state r) ["wiped"; "closed"] then
      ∃ c r', (get_wipe_certificate tid w).1 = Ok (tm_id r, "closed", Some c) ∧ certifies c r
        ∧ dget (workflows w') (tm_id r) = Some r' ∧ term_ok r' 3 ∧ tm_wipe_certificate r' = Some c
    else w' = w ∧ ∃ d, (get_wipe_certificate tid w).1 = Raised (HTTPException 409 d).
Proof.
  intros Ha El. destruct (latest_in _ _ _ Ha El) as [E _]. destruct (ac_fine _ Ha _ _ E) as (_ & n & Hn).
  destruct (memb (tm_state r) ["wiped"; "closed"]) eqn:Em; cycle 1.
  { rewrite (certificate_eq _ _ _ El), Em. split_and!; [reflexivity|done|done|done|]. by eexists. }
  destruct (String.eqb_spec (tm_state r) "wiped") as [Es|Hne].
  - assert (n = 2%nat) as -> by (destruct Hn; congruence).
    inversion Hn as [| |c _ Hb Hk Ec Hcc Hcl|].
    destruct (certificate_wiped _ _ _ _ El Es Ec) as (at_ & w1 & w4 & -> & E1 & Eq & E4). cbn [fst snd].
    set (w2 := (termination_mut (tm_id r) (close at_) w1).2) in *.
    set (w3 := (_term_progress (tm_id r) "closed" 1 1 w2).2) in *.
    assert (moves w w4) as Hm.
    { transitivity w1; [by apply store_moves|]. transitivity w2; [apply close_moves with r; unfold workflows in *; by rewrite ?E1|].
      transitivity w3; [apply progress_moves|by apply store_moves]. }
    split; [done|]. split; [done|]. split.
    + intros k Hk'. unfold workflows at 1. rewrite E4. unfold w3, w2, workflows, st_terminations. cbn.
      by rewrite !dget_dupd_ne, E1.
    + destruct (mv_old _ _ Hm _ _ _ E Hn) as (r' & E' & m & Hr' & Hle & Ho & Hc').
      exists c, r'. split_and!; [done..| |by apply Hc'].
      assert (tm_state <$> dget (workflows w4) (tm_id r) = Some "closed") as Hs.
      { unfold workflows at 1. rewrite E4. unfold w3, w2, workflows, st_terminations in *. cbn.
        by rewrite !dget_dupd_eq, E1, E. }
      rewrite E' in Hs. injection Hs as Hs. destruct Hr'; try congruence. by eapply ok_closed.
  - rewrite (certificate_eq _ _ _ El), Em. apply String.eqb_neq in Hne as Hne'. rewrite Hne'. cbn.
    assert (n = 3%nat) as ->.
    { apply memb_spec in Em. rewrite !elem_of_cons, elem_of_nil in Em. destruct Hn; naive_solver congruence. }
    inversion Hn as [| | |c _ Hb Hk Ec Hcc Hcl]. rewrite Ec.
    split_and!; [reflexivity|done|done|]. exists c, r. by split_and!.
Qed.
Lemma certificate_step tid w :
  accounted w → accounted (get_wipe_certificate tid w).2 ∧ moves w (get_wipe_certificate tid w).2.
Proof.
  intros Ha. destruct (_latest_termination (w_store w) tid) as [r|] eqn:El.
  2: { unfold get_wipe_certificate, mbind, M_bind. by rewrite latest_or_404_run, El. }
  destruct (latest_in _ _ _ Ha El) as [E _]. destruct (certificate_run _ _ _ Ha El) as (Hm & Hq & Hk & Hc).
  set (w' := (get_wipe_certificate tid w).2) in *. split; [|done].
  apply (only_accounted w w' (tm_id r)); [done..|by exists r|done|].
  intros k. rewrite Hq. intros Hin. destruct (decide (k = tm_id r)) as [->|]; [right|by left]. split; [done|].
  destruct (ac_threads _ Ha _ Hin) as (r' & E' & Hr'). assert (r' = r) as -> by congruence.
  inversion Hr' as [|Es _ _ _ _| |]. rewrite Es in Hc. change (memb "erasing" ["wiped"; "closed"]) with false in Hc.
  destruct Hc as [-> _]. by exists r.
Qed.
Lemma other_step w w' :
  on_store portal_kept w w' → w_wipes w' = w_wipes w → accounted w → accounted w' ∧ moves w w'.
Proof.
  intros Hk Hq Ha. pose proof (portal_moves _ _ Hk) as Hm. split; [|done].
  assert (workflows w' = workflows w) as Ew by (destruct Hk as [E _]; unfold workflows, st_terminations; by rewrite E).
  destruct (moves_fine _ _ Ha Hm) as (Hwf & Hf & Hl). split; [done|done|done|..].
  - intros n Hn. rewrite Ew. apply Ha. pose proof (mv_count _ _ Hm). lia.
  - intros id. rewrite Hq, Ew. apply Ha.
Qed.

(** ** Who confirmed *)
(** The request names every item as confirmed. *)
Definition confirms_all (checklist : list (string * bool)) : Prop := ∀ i, i ∈ CHECKS → (i, true) ∈ checklist.
Lemma confirmed_items_in checklist i b : dget (confirmed_items checklist) i = Some b → (i, b) ∈ checklist.
Proof.
  unfold confirmed_items. induction checklist as [|[k v] l IH] using rev_ind; [done|].
  rewrite foldl_snoc, dget_dset, elem_of_app, list_elem_of_singleton.
  destruct (String.eqb_spec i k) as [->|]; [intros [= ->]; by right|left; by apply IH].
Qed.
Lemma missing_none r checklist :
  fst <$> tm_checklist r = CHECKS → missing_items r checklist = [] → confirms_all checklist.
Proof.
  intros E Em i Hi. rewrite <-E in Hi. apply list_elem_of_fmap in Hi as ([k b] & -> & Hin). cbn.
  apply confirmed_items_in. destruct (dget (confirmed_items checklist) k) as [[]|] eqn:Ed; [done|exfalso..].
  all: assert (k ∈ missing_items r checklist) as H; [|rewrite Em in H; by apply elem_of_nil in H].
  all: unfold missing_items; apply list_elem_of_fmap; exists (k, b); split; [done|].
  all: apply elem_of_filterb; by rewrite Ed.
Qed.
(** A confirmation that is not complete, or comes at another time, changes nothing. *)
Lemma confirm_open a tid checklist w :
  accounted w →
  (∃ r, _latest_termination (w_store w) tid = Some r ∧ tm_state r = "awaiting_backup"
        ∧ missing_items r checklist = [] ∧ confirms_all checklist)
  ∨ (confirm_backup a tid checklist w).2 = w.
Proof.
  intros Ha. unfold confirm_backup. destruct (_latest_termination (w_store w) tid) as [r|] eqn:El.
  2: { right. unfold mbind, M_bind. by rewrite latest_or_404_run, El. }
  rewrite (bind_ok _ _ w r w) by by rewrite latest_or_404_run, El. cbv beta zeta.
  destruct (String.eqb_spec (tm_state r) "awaiting_backup") as [Es|]; [|by right].
  destruct (missing_items r checklist) as [|i l] eqn:Em; [left|by right].
  exists r. split_and!; [done..|]. eapply missing_none; [|done]. apply (ac_items w Ha (tm_id r)).
  by apply (latest_in tid w r Ha El).
Qed.
Definition others (id : string) (w w' : World) : Prop := ∀ k, k ≠ id → dget (workflows w') k = dget (workflows w) k.
#[export] Instance others_preorder id : PreOrder (others id).
Proof. split; [by intros w k|]. intros w1 w2 w3 H1 H2 k Hk. by rewrite H2, H1. Qed.
Lemma only_others {A} id (m : IO A) : Steps (only id) m → Steps (others id) m.
Proof. apply steps_weaken. by intros w w' [_ H]. Qed.
Lemma confirm_others a `{!AdapterFrame a} tid checklist w r :
  _latest_termination (w_store w) tid = Some r → tm_state r = "awaiting_backup" → missing_items r checklist = [] →
  others (tm_id r) w (confirm_backup a tid checklist w).2.
Proof.
  intros El Es Em. rewrite (confirm_backup_eq _ _ _ _ _ El Es Em). set (id := tm_id r).
  match goal with |- others _ w (?m w).2 => change (others id w (m w).2); revert w El end. intros w _. revert w.
  match goal with |- ∀ w, others _ w (?m w).2 => change (Steps (others id) m) end.
  assert (∀ A (m : IO A), Steps (only id) m → Steps (others id) m) as Ho by (intros; by apply only_others).
  apply steps_bind; [apply _|by intros w|intros t]. apply steps_bind; [apply _|apply Ho, only_mut|intros _].
  apply steps_bind; [apply _|apply Ho, announce_only|intros d].
  apply steps_bind; [apply _| |intros _; by intros w].
  unfold erase. destruct (Qle_bool d 0); [by apply Ho, saga_only|by intros w].
Qed.
(** The workflow [k], if there is one, waits for the confirmation. *)
Definition waiting (k : string) (w : World) : Prop :=
  ∀ r, dget (workflows w) k = Some r → tm_state r = "awaiting_backup".
Lemma others_waiting id k w w' : others id w w' → k ≠ id → waiting k w → waiting k w'.
Proof. intros H Hk Hw r E. apply Hw. by rewrite <-H. Qed.
Lemma request_waiting tid k w : waiting k w → waiting k (request_termination tid w).2.
Proof.
  intros Hw. unfold request_termination. run. destruct (negb _); run; [done|].
  destruct (match _latest_termination _ _ with Some _ => _ | None => _ end); run; [done|].
  intros r. unfold workflows, st_terminations, emit. run. cbn. rewrite dget_dset.
  destruct (String.eqb k _); [by intros [= <-]|apply Hw].
Qed.
Lemma step_waiting act k w w' :
  accounted w → step act w w' → waiting k w →
  waiting k w' ∨ ∃ a r checklist, act = Confirm a (tm_tenant_id r) checklist ∧ confirms_all checklist
                                ∧ dget (workflows w) k = Some r.
Proof.
  intros Ha Hs Hw. destruct Hs as [tid w|a tid checklist w Haf|a id w Haf|tid w|w w' Hk _].
  - left. by apply request_waiting.
  - destruct (confirm_open a tid checklist w Ha) as [(r & El & Es & Em & Hc)| ->]; [|by left].
    destruct (latest_in _ _ _ Ha El) as [E Et]. destruct (decide (k = tm_id r)) as [->|Hne].
    + right. exists a, r, checklist. by rewrite Et.
    + left. eapply others_waiting; [by apply confirm_others|done|done].
  - left. destruct (memb id (w_wipes w)) eqn:Em; [|unfold wipe_thread; run; by rewrite Em].
    apply memb_spec in Em as (r & E & Hr)%(ac_threads _ Ha).
    apply (others_waiting id k w); [|intros ->; specialize (Hw _ E); inversion Hr; congruence|done].
    unfold wipe_thread. run. destruct (memb id _); [|done]. run.
    intros k' Hk'. exact (proj2 (saga_only a id (w <| w_wipes ::= filterb (λ t, negb (String.eqb t id)) |>)) k' Hk').
  - left. destruct (_latest_termination (w_store w) tid) as [r|] eqn:El.
    2: { unfold get_wipe_certificate, mbind, M_bind. by rewrite latest_or_404_run, El. }
    destruct (latest_in _ _ _ Ha El) as [E _]. destruct (certificate_run _ _ _ Ha El) as (_ & _ & Ho & Hc).
    destruct (decide (k = tm_id r)) as [->|Hne]; [|by apply (others_waiting (tm_id r) k w)].
    specialize (Hw _ E). rewrite Hw in Hc. change (memb "awaiting_backup" ["wiped"; "closed"]) with false in Hc.
    destruct Hc as [-> _]. intros r' E'. congruence.
  - left. destruct Hk as [E _]. intros r. unfold workflows, st_terminations. rewrite E. apply Hw.
Qed.
(** ** Nothing is released before *)
(** What an erasure would touch: the allocations, the nodes, the orders and the
    site controller *)
Definition estate (w : World) :=
  (st_allocations (w_store w), st_node_instances (w_store w), st_orders (w_store w), w_nico w).
#[local] Hint Extern 2 (Steps (same estate) (s_mut st_terminations _ _)) => intros ?; reflexivity : steps.
#[local] Hint Extern 2 (Steps (same estate) (s_set st_terminations _ _)) => intros ?; reflexivity : steps.
Lemma estate_reads : (∀ n, Steps (same estate) (next_seq n)) ∧ Steps (same estate) store ∧ Steps (same estate) now
  ∧ ∀ a b c d e f, Steps (same estate) (emit a b c d e f).
Proof. split_and!; intros; intros w; reflexivity. Qed.
Lemma request_estate tid : Steps (same estate) (request_termination tid).
Proof. destruct estate_reads as (? & ? & ? & ?). unfold request_termination. solve_steps. Qed.
Lemma certificate_estate tid : Steps (same estate) (get_wipe_certificate tid).
Proof.
  destruct estate_reads as (? & ? & ? & ?).
  unfold get_wipe_certificate, latest_or_404, _term_progress, termination_mut. solve_steps.
Qed.
Lemma quiet_step act w w' :
  accounted w → step act w w' → w_wipes w = [] → act ≠ Other →
  (∀ a tid checklist, act = Confirm a tid checklist → ¬ confirms_all checklist) →
  w_wipes w' = [] ∧ estate w' = estate w.
Proof.
  intros Ha Hs Hq Ho Hc. destruct Hs as [tid w|a tid checklist w Haf|a id w Haf|tid w|w w' _ _].
  - split; [|apply request_estate]. rewrite <-Hq. unfold request_termination. run. destruct (negb _); run; [done|].
    by destruct (match _latest_termination _ _ with Some _ => _ | None => _ end); run.
  - destruct (confirm_open a tid checklist w Ha) as [(r & _ & _ & _ & H)| ->]; [by destruct (Hc a tid checklist eq_refl)|done].
  - unfold wipe_thread. run. rewrite Hq. done.
  - split; [|apply certificate_estate].
    destruct (_latest_termination (w_store w) tid) as [r|] eqn:El.
    + destruct (certificate_run _ _ _ Ha El) as (_ & -> & _). done.
    + unfold get_wipe_certificate, mbind, M_bind. by rewrite latest_or_404_run, El.
  - done.
Qed.
Lemma step_accounted act w w' : accounted w → step act w w' → accounted w' ∧ moves w w'.
Proof.
  intros Ha Hs. destruct Hs; [by apply request_step|by apply confirm_step|by apply thread_step|by apply certificate_step|by apply other_step].
Qed.
Lemma run_accounted l w w' : accounted w → run_of l w w' → accounted w' ∧ moves w w'.
Proof.
  intros Ha Hr. induction Hr as [w|act l w w1 w2 Hs _ IH]; [by split|].
  destruct (step_accounted _ _ _ Ha Hs) as [Ha1 Hm]. destruct (IH Ha1). split; [done|by transitivity w1].
Qed.
Lemma run_waiting l w w' k r' :
  accounted w → run_of l w w' → waiting k w → dget (workflows w') k = Some r' → tm_state r' ≠ "awaiting_backup" →
  ∃ a checklist, Confirm a (tm_tenant_id r') checklist ∈ l ∧ confirms_all checklist.
Proof.
  intros Ha Hr. induction Hr as [w|act l w w1 w2 Hs Hr IH]; intros Hw E Hne; [by destruct Hne; apply Hw|].
  destruct (step_accounted _ _ _ Ha Hs) as [Ha1 Hm].
  destruct (step_waiting _ k _ _ Ha Hs Hw) as [Hw1|(a & r & checklist & -> & Hc & Er)].
  - destruct (IH Ha1 Hw1 E Hne) as (a & checklist & Hin & Hc). exists a, checklist. split; [by right|done].
  - exists a, checklist. split; [|done]. destruct (ac_fine _ Ha _ _ Er) as (_ & n & Hn).
    destruct (mv_old _ _ (proj2 (run_accounted _ _ _ Ha (run_cons _ _ _ _ _ Hs Hr))) _ _ _ Er Hn) as (r2 & E2 & _ & _ & _ & Ho & _).
    rewrite E in E2. injection E2 as <-. injection Ho as _ Ho _ _. rewrite Ho. left.
Qed.
Lemma run_quiet l w w' :
  accounted w → run_of l w w' → w_wipes w = [] → Other ∉ l →
  (∀ a tid checklist, Confirm a tid checklist ∈ l → ¬ confirms_all checklist) → estate w' = estate w.
Proof.
  intros Ha Hr. induction Hr as [w|act l w w1 w2 Hs _ IH]; [done|]. intros Hq Ho Hc.
  destruct (step_accounted _ _ _ Ha Hs) as [Ha1 _]. apply not_elem_of_cons in Ho as [Ho1 Ho2].
  destruct (quiet_step act w w1 Ha Hs Hq) as [Hq1 E]; [done|intros a tid checklist ->; apply (Hc a tid); left|].
  rewrite (IH Ha1 Hq1 Ho2), E; [done|]. intros a tid checklist Hin. apply (Hc a tid). by right.
Qed.

(** C10: Erasure waits for the customer's confirmation.  Whatever sequence of
    termination requests, confirmations, wipe threads, certificate requests and
    other work runs, every workflow only goes forward through awaiting backup,
    erasing, wiped and closed; it has a certificate exactly when it was wiped, for
    its own tenant and allocations, and the certificate never changes; and every
    wipe thread under way belongs to a workflow that is erasing.  A workflow that
    is past awaiting backup at the end, and was not at the start, was confirmed on
    the way, by a request for its tenant that names each of the three items of the
    checklist as confirmed.  And while nothing but the workflow's own requests and
    threads runs, no thread was under way and no such confirmation comes, no
    allocation, node or order and nothing on the site controller changes. *)
Theorem erasure_waits_for_confirmation l w w' :
  accounted w → run_of l w w' →
  accounted w' ∧ moves w w'
  ∧ (∀ k r', waiting k w → dget (workflows w') k = Some r' → tm_state r' ≠ "awaiting_backup" →
       ∃ a checklist, Confirm a (tm_tenant_id r') checklist ∈ l ∧ confirms_all checklist)
  ∧ (w_wipes w = [] → Other ∉ l →
       (∀ a tid checklist, Confirm a tid checklist ∈ l → ¬ confirms_all checklist) → estate w' = estate w).
Proof.
  intros Ha Hr. destruct (run_accounted l w w' Ha Hr). split_and!; [done|done|..].
  - intros k r' Hw E Hne. by apply (run_waiting l w w' k).
  - intros Hq Ho Hc. by apply (run_quiet l).
Qed.

(** The gates of the workflow.  Without a confirmation of every item of the
    checklist, or outside the backup stage, a confirmation is refused and changes
    nothing; the certificate is refused, and nothing changed, unless the workflow
    is wiped or closed; and if it is, the certificate is handed out, is the
    workflow's own, and closes it. *)
Theorem termination_gates a tid checklist w :
  accounted w →
  match _latest_termination (w_store w) tid with
  | None => (∃ d, (confirm_backup a tid checklist w) = (Raised (HTTPException 404 d), w))
            ∧ ∃ d, (get_wipe_certificate tid w) = (Raised (HTTPException 404 d), w)
  | Some r =>
      (tm_state r ≠ "awaiting_backup" ∨ (∃ i b, (i, b) ∈ tm_checklist r ∧
          dget (confirmed_items checklist) i ≠ Some true) →
        ∃ d, confirm_backup a tid checklist w = (Raised (HTTPException 409 d), w))
      ∧ if memb (tm_state r) ["wiped"; "closed"] then
          ∃ c w' r', get_wipe_certificate tid w = (Ok (tm_id r, "closed", Some c), w') ∧ certifies c r
            ∧ dget (workflows w') (tm_id r) = Some r' ∧ term_ok r' 3 ∧ tm_wipe_certificate r' = Some c
        else ∃ d, get_wipe_certificate tid w = (Raised (HTTPException 409 d), w)
  end.
Proof.
  intros Ha. destruct (_latest_termination (w_store w) tid) as [r|] eqn:El.
  2: { split; eexists; unfold confirm_backup, get_wipe_certificate, mbind, M_bind;
       by rewrite latest_or_404_run, El. }
  split.
  - intros Hg. unfold confirm_backup. rewrite (bind_ok _ _ w r w) by by rewrite latest_or_404_run, El.
    cbv beta zeta. destruct (String.eqb_spec (tm_state r) "awaiting_backup") as [Es|]; cbn [negb]; [|by eexists].
    destruct Hg as [|(i & b & Hin & Hi)]; [done|].
    assert (i ∈ missing_items r checklist) as Hmi.
    { unfold missing_items. apply list_elem_of_fmap. exists (i, b). split; [done|].
      apply elem_of_filterb. split; [done|]. by destruct (dget _ i) as [[]|]. }
    destruct (missing_items r checklist); [by apply elem_of_nil in Hmi|by eexists].
  - destruct (certificate_run _ _ _ Ha El) as (_ & _ & _ & Hc). destruct (get_wipe_certificate tid w) as [res w'].
    destruct (memb _ _); cbn in Hc.
    + destruct Hc as (c & r' & -> & ?). by exists c, w', r'.
    + destruct Hc as (-> & d & ->). by eexists.
Qed.

(** ** On the delivered site: the tenant leaves *)
Definition all_confirmed : list (string * bool) := (λ i, (i, true)) <$> TERMINATION_CHECKLIST.
Definition asked : World := (request_termination "tnt-acme" Demo.delivered).2.
Definition wiped_out : World := (confirm_backup LocalNicoAdapter "tnt-acme" all_confirmed asked).2.
Definition departed : World := (get_wipe_certificate "tnt-acme" wiped_out).2.
Lemma accounted_empty w :
  workflows w = [] → w_wipes w = [] → accounted w.
Proof. intros E1 E2. split; rewrite ?E1, ?E2; try done. intros id Hin. by apply elem_of_nil in Hin. Qed.
Lemma site_accounted : accounted Demo.delivered.
Proof. apply accounted_empty; vm_compute; reflexivity. Qed.
Lemma departure_run a `{!AdapterFrame a} tid checklist w :
  run_of [Request tid; Confirm a tid checklist; Certificate tid] w
    (get_wipe_certificate tid (confirm_backup a tid checklist (request_termination tid w).2).2).2.
Proof.
  eapply run_cons; [apply step_request|]. eapply run_cons; [by apply (step_confirm a)|].
  eapply run_cons; [apply step_certificate|apply run_nil].
Qed.
Definition demo_departure : list action :=
  [Request "tnt-acme"; Confirm LocalNicoAdapter "tnt-acme" all_confirmed; Certificate "tnt-acme"].
Lemma tenant_departs : run_of demo_departure Demo.delivered departed.
Proof. exact (departure_run LocalNicoAdapter "tnt-acme" all_confirmed Demo.delivered). Qed.
Lemma erasure_waits_for_confirmation_witness :
  accounted Demo.delivered ∧ run_of demo_departure Demo.delivered departed
  ∧ (tm_state <$> dget (workflows departed) "term-1") = Some "closed"
  ∧ accounted departed ∧ moves Demo.delivered departed
  ∧ (∀ k r', waiting k Demo.delivered → dget (workflows departed) k = Some r' → tm_state r' ≠ "awaiting_backup" →
       ∃ a checklist, Confirm a (tm_tenant_id r') checklist ∈ demo_departure ∧ confirms_all checklist).
Proof.
  split; [exact site_accounted|]. split; [exact tenant_departs|]. split; [vm_compute; reflexivity|].
  destruct (erasure_waits_for_confirmation demo_departure Demo.delivered departed site_accounted tenant_departs)
    as (H1 & H2 & H3 & _). split; [exact H1|]. split; [exact H2|exact H3].
Defined.
Lemma asked_accounted : accounted asked.
Proof. exact (proj1 (request_step "tnt-acme" Demo.delivered site_accounted)). Qed.
(** A confirmation that leaves an item open is refused. *)
Lemma termination_gates_witness :
  accounted asked
  ∧ ∃ r, _latest_termination (w_store asked) "tnt-acme" = Some r ∧ tm_state r = "awaiting_backup"
    ∧ ∃ d, confirm_backup LocalNicoAdapter "tnt-acme" (take 2 all_confirmed) asked = (Raised (HTTPException 409 d), asked).
Proof.
  split; [exact asked_accounted|].
  pose proof (termination_gates LocalNicoAdapter "tnt-acme" (take 2 all_confirmed) asked asked_accounted) as H.
  destruct (_latest_termination (w_store asked) "tnt-acme") as [r|] eqn:E; [|vm_compute in E; discriminate].
  exists r. split; [reflexivity|].
  assert (tm_state r = "awaiting_backup" ∧ ("최종 백업본 확인 완료", false) ∈ tm_checklist r) as [Hs Hin].
  { vm_compute in E. injection E as <-. split; [reflexivity|]. cbn. right. right. left. }
  split; [exact Hs|]. apply H. right. exists "최종 백업본 확인 완료", false. split; [exact Hin|]. vm_compute. discriminate.
Defined.
End TerminationThms.
