(* ===== verification/IncidentThms.v ===== *)
(** * Incidents, root-cause reports and service credits: theorems

    One incident per fault, one root-cause report per resolved major incident,
    one service credit per tenant and month, whatever is polled and how often; and
    what one poll of the fault feed does to the incidents. *)
From Stdlib Require Import QArith Lqa.
From stdpp Require Import strings base decidable option numbers list relations sets.
From S2P Require Import Prelude PyLib Models PortalModels EmuModels World Adapters Business TrayEmu Incidents.
From S2P Require Import Demo Api PortalFrame.
Local Open Scope string_scope.
Local Open Scope list_scope.
Local Open Scope py_scope.

Module IncidentThms.
Import Incidents PortalFrame.

(** ** The records *)
Definition incident_of (s : Store) (k : string) : option Incident := dget (st_incidents s) k.
Definition rca_of (s : Store) (k : string) : option Rca := dget (st_rcas s) k.
Definition settled (i : Incident) : Prop :=
  resolved i = true ∧ is_Some (in_resolved_at i) ∧ is_Some (in_mttr_min i).
Definition pending (i : Incident) : Prop :=
  resolved i = false ∧ in_resolved_at i = None ∧ in_mttr_min i = None.
Record incidents_ok (s : Store) : Prop := {
  io_wf : dict_wf (st_incidents s);
  io_id k i : incident_of s k = Some i → in_id i = k;
  io_fresh n : (count "incident" s < n)%Z → incident_of s ("inc-" +:+ str_of_Z n) = None;
  io_key k1 k2 i1 i2 : incident_of s k1 = Some i1 → incident_of s k2 = Some i2 →
    in_key i1 = in_key i2 → k1 = k2;
  io_state k i : incident_of s k = Some i → settled i ∨ pending i
}.
Record rcas_ok (s : Store) : Prop := {
  ro_wf : dict_wf (st_rcas s);
  ro_fresh n : (count "rca" s < n)%Z → rca_of s ("rca-" +:+ str_of_Z n) = None;
  ro_of k r : rca_of s k = Some r →
    ∃ i, incident_of s (rc_incident_id r) = Some i ∧ settled i ∧ major i = true
         ∧ rc_severity r = in_severity i ∧ rc_tenant_id r = in_tenant_id i ∧ rc_mttr_min r = in_mttr_min i;
  ro_one k1 k2 r1 r2 : rca_of s k1 = Some r1 → rca_of s k2 = Some r2 →
    rc_incident_id r1 = rc_incident_id r2 → k1 = k2;
  ro_all k i : incident_of s k = Some i → settled i → major i = true →
    ∃ k' r, rca_of s k' = Some r ∧ rc_incident_id r = k
}.
Definition plane_ok (s : Store) : Prop := incidents_ok s ∧ rcas_ok s.

(** What stays of an incident, and of a report *)
Definition origin (i : Incident) := (in_id i, in_key i, in_severity i, in_component i, in_title i, in_started_at i, in_tenant_id i).
Record moves (s s' : Store) : Prop := {
  mv_incident k i : incident_of s k = Some i →
    ∃ i', incident_of s' k = Some i' ∧ origin i' = origin i ∧ (resolved i = true → i' = i);
  mv_rca k r : rca_of s k = Some r → rca_of s' k = Some r
}.
#[export] Instance moves_preorder : PreOrder moves.
Proof.
  split; [intros s; split; eauto|]. intros s1 s2 s3 [A1 B1] [A2 B2]. split; [|eauto].
  intros k i E. destruct (A1 k i E) as (i2 & E2 & O2 & R2). destruct (A2 k i2 E2) as (i3 & E3 & O3 & R3).
  exists i3. split_and!; [done|congruence|]. intros Hr. pose proof (R2 Hr). subst i2. auto.
Qed.

(** ** What a fault is reported as *)
Definition severity_of (f : Fault) : string :=
  let told x := match fa_severity f with Some y => String.eqb y x | None => false end in
  if told "critical" || told "P0" then "P0"
  else if told "major" || told "P1" then "P1"
  else match fa_xid f with X_num n => if (n =? 79)%Z || (n =? 48)%Z then "P1" else "P2" | X_label _ => "P2" end.
Definition component_of (f : Fault) : string :=
  let kind x := match fa_kind f with Some y => String.eqb x y | None => false end in
  if kind "fabric" then "GPU Fabric" else if kind "storage" then "Storage"
  else if kind "network" then "Network" else "Compute".
(** The incident that a fault opens, whatever became of it since *)
Record opened (f : Fault) (started : string) (i : Incident) : Prop := {
  op_key : in_key i = fault_key f started;
  op_started : in_started_at i = started;
  op_tenant : in_tenant_id i = fa_tenant_id f;
  op_severity : in_severity i = severity_of f;
  op_component : in_component i = component_of f
}.
Lemma severity_eq f : _fault_severity f = severity_of f.
Proof.
  unfold _fault_severity, severity_of. destruct (fa_severity f) as [x|]; cbn [default].
  2: { cbn. by destruct (fa_xid f) as [n|]; [destruct ((n =? 79)%Z || (n =? 48)%Z)|]. }
  change (id x) with x. cbv zeta beta iota. rewrite !memb_cons. change (memb x []) with false. rewrite !orb_false_r.
  destruct (String.eqb x "critical" || String.eqb x "P0"); [done|].
  destruct (String.eqb x "major" || String.eqb x "P1"); [by rewrite orb_true_r|]. rewrite orb_false_r.
  by destruct (fa_xid f).
Qed.
Lemma component_eq f : _fault_component f = component_of f.
Proof.
  unfold _fault_component, component_of, str_or. destruct (fa_kind f) as [x|]; [|done].
  unfold truthy_str. destruct (String.eqb_spec x EmptyString) as [->|]; [done|]. cbn [negb default].
  unfold _KIND_COMPONENT, dget.
  repeat match goal with |- context [String.eqb x ?k] => destruct (String.eqb_spec x k) as [->|]; [reflexivity|] end.
  repeat match goal with |- context [String.eqb ?k x] => destruct (String.eqb_spec k x) as [<-|]; [done|] end.
  reflexivity.
Qed.
Lemma opened_origin f st i i' : origin i' = origin i → opened f st i → opened f st i'.
Proof. intros [= _ E1 E2 E3 _ E4 E5] [H1 H2 H3 H4 H5]. split; congruence. Qed.

(** ** A new incident *)
Lemma key_fresh (c : Z) p n : (c < n)%Z → p +:+ str_of_Z n ≠ p +:+ str_of_Z (c + 1) ∨ n = (c + 1)%Z.
Proof. intros H. destruct (decide (n = (c + 1)%Z)); [by right|left]. by intros ?%str_app_inj%str_of_Z_inj. Qed.
(** The store with an incident more *)
Lemma add_incident s s' i :
  incidents_ok s → (∀ k j, incident_of s k = Some j → in_key j ≠ in_key i) → settled i ∨ pending i →
  in_id i = "inc-" +:+ str_of_Z (count "incident" s + 1) →
  st_incidents s' = dset (st_incidents s) (in_id i) i → count "incident" s' = (count "incident" s + 1)%Z →
  incidents_ok s' ∧ incident_of s (in_id i) = None.
Proof.
  intros [Hwf Hid Hfr Hkey Hst] Hnew Hi Eid Es' Ec'.
  assert (incident_of s (in_id i) = None) as Hnone by (rewrite Eid; apply Hfr; lia). split; [|done].
  assert (∀ k j, incident_of s' k = Some j → k = in_id i ∧ j = i ∨ k ≠ in_id i ∧ incident_of s k = Some j) as Hinv.
  { intros k j. unfold incident_of. rewrite Es', dget_dset. destruct (String.eqb_spec k (in_id i)) as [->|]; [|auto].
    intros [= <-]. auto. }
  split.
  - rewrite Es'. by apply dict_wf_dset.
  - intros k j [[-> ->]|[_ E]]%Hinv; [done|by apply Hid].
  - intros n Hn. rewrite Ec' in Hn. unfold incident_of. rewrite Es', dget_dset_ne; [apply Hfr; lia|].
    rewrite Eid. intros ?%str_app_inj%str_of_Z_inj. lia.
  - intros k1 k2 i1 i2 [[-> ->]|[_ E1]]%Hinv [[-> ->]|[_ E2]]%Hinv Ek; [done| | |by eapply Hkey].
    + by destruct (Hnew _ _ E2).
    + by destruct (Hnew _ _ E1).
  - intros k j [[-> ->]|[_ E]]%Hinv; [done|by apply (Hst k)].
Qed.
(** ... and with an incident changed in what may change *)
Lemma change_incident s s' k i i' :
  incidents_ok s → incident_of s k = Some i → origin i' = origin i → settled i' →
  st_incidents s' = dset (st_incidents s) k i' → count "incident" s' = count "incident" s →
  incidents_ok s'.
Proof.
  intros [Hwf Hid Hfr Hkey Hst] E Ho Hi Es' Ec'. injection Ho as Oid Okey _ _ _ _ _.
  assert (∀ k2 j, incident_of s' k2 = Some j →
    k2 = k ∧ j = i' ∨ k2 ≠ k ∧ incident_of s k2 = Some j) as Hinv.
  { intros k2 j. unfold incident_of. rewrite Es', dget_dset. destruct (String.eqb_spec k2 k) as [->|]; [|auto].
    intros [= <-]. auto. }
  split.
  - rewrite Es'. by apply dict_wf_dset.
  - intros k2 j [[-> ->]|[_ E2]]%Hinv; [rewrite Oid; by apply Hid|by apply Hid].
  - intros n Hn. rewrite Ec' in Hn. unfold incident_of. rewrite Es', dget_dset_ne; [by apply Hfr|].
    intros ->. rewrite Hfr in E; [done|lia].
  - intros k1 k2 i1 i2 [[-> ->]|[_ E1]]%Hinv [[-> ->]|[_ E2]]%Hinv Ek; [done|..].
    + eapply Hkey; [exact E|exact E2|congruence].
    + eapply Hkey; [exact E1|exact E|congruence].
    + by eapply Hkey.
  - intros k2 j [[-> ->]|[_ E2]]%Hinv; [by left|by apply (Hst k2)].
Qed.

(** ** The reports *)
Definition reports (r : Rca) (k : string) (i : Incident) : Prop :=
  rc_incident_id r = k ∧ rc_severity r = in_severity i ∧ rc_tenant_id r = in_tenant_id i
  ∧ rc_mttr_min r = in_mttr_min i.
(** A report is published for a major incident that is settled, and only then. *)
Definition published (s s' : Store) (k : string) (i : Incident) : Prop :=
  if major i then ∃ r, let name := "rca-" +:+ str_of_Z (count "rca" s + 1) in
    st_rcas s' = dset (st_rcas s) name r ∧ count "rca" s' = (count "rca" s + 1)%Z ∧ reports r k i
  else st_rcas s' = st_rcas s ∧ count "rca" s' = count "rca" s.
Lemma pending_settled i : pending i → settled i → False.
Proof. intros [E _] [E' _]. congruence. Qed.
Lemma rcas_keep s s' :
  rcas_ok s → st_rcas s' = st_rcas s → count "rca" s' = count "rca" s →
  (∀ k i, incident_of s k = Some i → incident_of s' k = Some i) →
  (∀ k i, incident_of s' k = Some i → incident_of s k = Some i ∨ pending i) → rcas_ok s'.
Proof.
  intros [Hwf Hf Ho H1 Ha] Er Ec Hin Hout. assert (∀ k, rca_of s' k = rca_of s k) as E by (intros k; unfold rca_of; by rewrite Er).
  split.
  - by rewrite Er.
  - intros n Hn. rewrite E. apply Hf. lia.
  - intros k r Hk. rewrite E in Hk. destruct (Ho k r Hk) as (i & Ei & ?). exists i. eauto.
  - intros k1 k2 r1 r2. rewrite !E. apply H1.
  - intros k i Hi Hs Hm. destruct (Hout k i Hi) as [Ei|Hp]; [|by destruct (pending_settled i)].
    destruct (Ha k i Ei Hs Hm) as (k' & r & ? & ?). exists k', r. by rewrite E.
Qed.
Lemma rcas_put s s' k i :
  rcas_ok s → (∀ j, incident_of s k = Some j → pending j) →
  (∀ k', k' ≠ k → incident_of s' k' = incident_of s k') → incident_of s' k = Some i → settled i →
  published s s' k i → rcas_ok s' ∧ ∀ k' r, rca_of s k' = Some r → rca_of s' k' = Some r.
Proof.
  intros [Hwf Hf Ho H1 Ha] Hp Hk Ei Hi Hpub.
  assert (∀ k' r, rca_of s k' = Some r → rc_incident_id r ≠ k) as Hno.
  { intros k' r E <-. destruct (Ho _ _ E) as (j & Ej & Hj & _). by apply (pending_settled j); [apply Hp|]. }
  unfold published in Hpub. destruct (major i) eqn:Hm.
  - destruct Hpub as (r & Er & Ec & Hri & Hrs & Hrt & Hrm). set (name := "rca-" +:+ str_of_Z (count "rca" s + 1)) in *.
    assert (rca_of s name = None) as Hn by (apply Hf; lia).
    assert (∀ k' q, rca_of s' k' = Some q → k' = name ∧ q = r ∨ k' ≠ name ∧ rca_of s k' = Some q) as Hinv.
    { intros k' q. unfold rca_of. rewrite Er, dget_dset. destruct (String.eqb_spec k' name) as [->|]; [|auto].
      intros [= <-]. auto. }
    assert (∀ k' q, rca_of s k' = Some q → rca_of s' k' = Some q) as Hold.
    { intros k' q E. unfold rca_of. rewrite Er, dget_dset_ne; [done|congruence]. }
    assert (rca_of s' name = Some r) as Hnew by (unfold rca_of; by rewrite Er, dget_dset_eq).
    split; [|done]. split.
    + rewrite Er. by apply dict_wf_dset.
    + intros n Hn'. rewrite Ec in Hn'. unfold rca_of. rewrite Er, dget_dset_ne; [apply Hf; lia|].
      unfold name. intros ?%str_app_inj%str_of_Z_inj. lia.
    + intros k' q [[-> ->]|[_ E]]%Hinv; [exists i; by rewrite Hri|].
      destruct (Ho _ _ E) as (j & Ej & ?). exists j. by rewrite Hk by eauto.
    + intros k1 k2 r1 r2 [[-> ->]|[_ E1]]%Hinv [[-> ->]|[_ E2]]%Hinv Eq; [done|..|by eapply H1].
      * destruct (Hno _ _ E2). congruence.
      * destruct (Hno _ _ E1). congruence.
    + intros k' j Ej Hj Hmj. destruct (decide (k' = k)) as [->|Hne]; [by exists name, r|].
      rewrite Hk in Ej by done. destruct (Ha k' j Ej Hj Hmj) as (k2 & q & ? & ?). eauto.
  - destruct Hpub as [Er Ec]. assert (∀ k', rca_of s' k' = rca_of s k') as E by (intros ?; unfold rca_of; by rewrite Er).
    split; [|intros ??; by rewrite E]. split.
    + by rewrite Er.
    + intros n Hn. rewrite E. apply Hf. lia.
    + intros k' q. rewrite E. intros Eq. destruct (Ho _ _ Eq) as (j & Ej & ?). exists j. by rewrite Hk by eauto.
    + intros k1 k2 r1 r2. rewrite !E. apply H1.
    + intros k' j Ej Hj Hmj. destruct (decide (k' = k)) as [->|Hne]; [congruence|].
      rewrite Hk in Ej by done. destruct (Ha k' j Ej Hj Hmj) as (k2 & q & ? & ?). exists k2, q. by rewrite E.
Qed.

(** ** The operations *)
Definition indexed (d : dict string) (s : Store) : Prop :=
  ∀ key iid, dget d key = Some iid ↔ ∃ i, incident_of s iid = Some i ∧ in_key i = key.
Lemma publish_run inc w :
  dict_wf (st_rcas (w_store w)) →
  (∀ k r, rca_of (w_store w) k = Some r → rc_incident_id r ≠ in_id inc) → major inc = true →
  ∃ w', _publish_rca inc w = (Ok tt, w') ∧ st_incidents (w_store w') = st_incidents (w_store w)
    ∧ count "incident" (w_store w') = count "incident" (w_store w)
    ∧ published (w_store w) (w_store w') (in_id inc) inc.
Proof.
  intros Hwf Hno Hm. unfold _publish_rca. run.
  destruct (anyb _ (dvalues (st_rcas (w_store w)))) eqn:E.
  { apply anyb_spec in E as (r & Hr & Er%String.eqb_eq). apply dvalues_dget in Hr as [k Hk]; [|done].
    by destruct (Hno k r Hk). }
  eexists. split; [reflexivity|]. split; [reflexivity|]. split.
  { unfold count. cbn. by rewrite dget_dset_ne. }
  unfold published. rewrite Hm. eexists.
  split; [reflexivity|]. split; [|by split_and!]. unfold count. cbn. by rewrite dget_dset_eq.
Qed.
Lemma locate_run bk f started w :
  plane_ok (w_store w) → indexed bk (w_store w) →
  ∃ iid bk' i w', locate bk f started w = (Ok (iid, bk'), w')
    ∧ plane_ok (w_store w') ∧ moves (w_store w) (w_store w') ∧ indexed bk' (w_store w')
    ∧ incident_of (w_store w') iid = Some i ∧ in_key i = fault_key f started
    ∧ ∀ k j, incident_of (w_store w') k = Some j →
        incident_of (w_store w) k = Some j ∨ opened f started j ∧ resolved j = false.
Proof.
  intros [Hi Hr] Hb. unfold locate. destruct (dget bk (fault_key f started)) as [iid|] eqn:E; run.
  { pose proof E as (i & Ei & Ek)%Hb. exists iid, bk, i, w. split_and!; try done. intros k j Ej. by left. }
  match goal with |- ∃ iid bk' i w', (Ok (?x, ?y), ?z) = _ ∧ _ => set (iid := x); set (w' := z) end.
  set (i := new_incident iid (fault_key f started) started f).
  assert (st_incidents (w_store w') = dset (st_incidents (w_store w)) iid i) as Es by reflexivity.
  assert (count "incident" (w_store w') = (count "incident" (w_store w) + 1)%Z) as Ec.
  { unfold count. cbn. by rewrite dget_dset_eq. }
  assert (∀ k j, incident_of (w_store w) k = Some j → in_key j ≠ in_key i) as Hnew.
  { intros k j Ej Ek. cbn in Ek. assert (dget bk (fault_key f started) = Some k) as Eb; [|congruence].
    apply Hb. by exists j. }
  destruct (add_incident (w_store w) (w_store w') i Hi Hnew) as [Hi' Hnone]; [by right|reflexivity|done|done|].
  change (incident_of (w_store w) iid = None) in Hnone.
  exists iid, (dset bk (fault_key f started) iid), i, w'. split; [reflexivity|].
  assert (∀ k j, incident_of (w_store w) k = Some j → incident_of (w_store w') k = Some j) as Hold.
  { intros k j Ej. unfold incident_of. rewrite Es, dget_dset_ne; [done|]. congruence. }
  assert (incident_of (w_store w') iid = Some i) as Hin by (unfold incident_of; by rewrite Es, dget_dset_eq).
  split_and!; [split; [done|]| | |done|done|].
  - apply (rcas_keep (w_store w)); [done|done| |done|].
    + unfold count. cbn. by rewrite dget_dset_ne.
    + intros k j. unfold incident_of. rewrite Es, dget_dset. destruct (String.eqb k iid); [|by left].
      intros [= <-]. by right.
  - split; [|done]. intros k j Ej. exists j. auto.
  - intros key k. rewrite dget_dset. destruct (String.eqb_spec key (fault_key f started)) as [->|Hne].
    + split; [intros [= <-]; by exists i|]. intros (j & Ej & Ek).
      by rewrite (io_key _ Hi' _ _ _ _ Ej Hin).
    + rewrite (Hb key k). unfold incident_of. rewrite Es, dget_dset. split; intros (j & Ej & Ek); exists j.
      * split; [|done]. destruct (String.eqb_spec k iid) as [->|]; [|done].
        unfold incident_of in Hnone. congruence.
      * destruct (String.eqb k iid); [|done]. injection Ej as <-. by destruct Hne.
  - intros k j. unfold incident_of. rewrite Es, dget_dset. destruct (String.eqb k iid); [|by left].
    intros [= <-]. right. split; [|done]. by split; rewrite <- ?severity_eq, <- ?component_eq.
Qed.
(** *** Settling *)
Definition same_keys (s s' : Store) : Prop :=
  ∀ k, in_key <$> incident_of s' k = in_key <$> incident_of s k.
Lemma indexed_same d s s' : same_keys s s' → indexed d s → indexed d s'.
Proof.
  intros Hk Hd key iid. rewrite (Hd key iid). specialize (Hk iid).
  split; intros (i & Ei & Ek); rewrite Ei in Hk; cbn in Hk; [|symmetry in Hk];
    apply fmap_Some in Hk as (j & Ej & Hj); exists j; (split; [done|congruence]).
Qed.
Lemma resolve_settled at_ m i : settled (resolve_incident at_ m i).
Proof. split_and!; [reflexivity|by eexists|by eexists]. Qed.
(** The store in which the pending incident [k] is resolved and reported *)
Lemma resolved_store s s' k i at_ m :
  plane_ok s → incident_of s k = Some i → pending i →
  st_incidents s' = dset (st_incidents s) k (resolve_incident at_ m i) →
  count "incident" s' = count "incident" s → published s s' k (resolve_incident at_ m i) →
  plane_ok s' ∧ moves s s' ∧ same_keys s s'.
Proof.
  intros [Hi Hr] E Hp Es Ec Hpub. set (i' := resolve_incident at_ m i) in *.
  assert (∀ k', k' ≠ k → incident_of s' k' = incident_of s k') as Hne.
  { intros k' Hne. unfold incident_of. by rewrite Es, dget_dset_ne. }
  assert (incident_of s' k = Some i') as Ek by (unfold incident_of; by rewrite Es, dget_dset_eq).
  destruct (rcas_put s s' k i' Hr) as [Hr' Hold]; [|done|done|by apply resolve_settled|done|].
  { intros j Ej. congruence. }
  split_and!; [split; [|done]|split; [|done]|].
  - by apply (change_incident s s' k i i'); [..|apply resolve_settled| |].
  - intros k' j Ej. destruct (decide (k' = k)) as [->|Hk]; [|exists j; rewrite Hne by done; auto].
    assert (j = i) as -> by congruence. exists i'. split_and!; [done|done|]. intros Hres. destruct Hp. congruence.
  - intros k'. destruct (decide (k' = k)) as [->|Hk]; [by rewrite Ek, E|by rewrite Hne].
Qed.
Lemma settle_run f started iid i w :
  plane_ok (w_store w) → incident_of (w_store w) iid = Some i →
  ∃ i' w', settle f started iid w = (Ok tt, w')
    ∧ plane_ok (w_store w') ∧ moves (w_store w) (w_store w') ∧ same_keys (w_store w) (w_store w')
    ∧ incident_of (w_store w') iid = Some i' ∧ (fault_over f = true → resolved i' = true)
    ∧ (resolved i' = true → resolved i = true ∨ fault_over f = true)
    ∧ ∀ k, k ≠ iid → incident_of (w_store w') k = incident_of (w_store w) k.
Proof.
  intros Hok E. unfold settle. rewrite (bind_ok (s_idx st_incidents iid) _ w i w).
  2: { unfold incident_of in E. run. by rewrite E. }
  cbv beta. destruct (fault_over f && negb (resolved i)) eqn:Eb.
  2: { exists i, w. split_and!; try done; [|by left]. intros Hf. rewrite Hf in Eb. by destruct (resolved i). }
  apply andb_true_iff in Eb as [Hf Hres%negb_true_iff].
  assert (pending i) as Hp by (destruct (io_state _ (proj1 Hok) _ _ E) as [[]|]; [congruence|done]).
  assert (∃ at_ w1, over_at f w = (Ok at_, w1) ∧ w_store w1 = w_store w) as (at_ & w1 & E1 & Hs1).
  { unfold over_at. destruct (truthy _); eexists _, _; by split. }
  assert (∃ m, mttr_of f started at_ w1 = (Ok m, w1)) as [m E2].
  { unfold mttr_of. destruct (fa_ttr_s f); [by eexists|]. run. by eexists. }
  unfold when. rewrite (bind_ok _ _ _ _ _ E1). cbv beta. rewrite (bind_ok _ _ _ _ _ E2). cbv beta.
  set (w2 := (incident_mut iid (resolve_incident at_ m) w1).2).
  rewrite (bind_ok (incident_mut iid (resolve_incident at_ m)) _ w1 tt w2) by done. cbv beta.
  assert (st_incidents (w_store w2) = dset (st_incidents (w_store w)) iid (resolve_incident at_ m i)) as Es.
  { unfold w2. unfold incident_of in E. cbn. unfold dupd, st_incidents in *. rewrite Hs1, E. done. }
  assert (st_rcas (w_store w2) = st_rcas (w_store w) ∧ st_counters (w_store w2) = st_counters (w_store w)) as [Er Ec].
  { unfold w2, st_rcas. cbn. by rewrite Hs1. }
  assert (∀ name, count name (w_store w2) = count name (w_store w)) as Ecn by (intros n; unfold count; by rewrite Ec).
  destruct (major i) eqn:Hm.
  - destruct (publish_run (resolve_incident at_ m i) w2) as (w3 & E3 & Es3 & Ec3 & Hpub).
    + rewrite Er. apply (proj2 Hok).
    + intros k r Ek. unfold rca_of in Ek. rewrite Er in Ek. cbn. intros Eid.
      destruct (ro_of _ (proj2 Hok) k r Ek) as (j & Ej & Hj & _). rewrite Eid in Ej.
      rewrite (io_id _ (proj1 Hok) _ _ E), E in Ej. injection Ej as <-. by eapply pending_settled.
    + exact Hm.
    + exists (resolve_incident at_ m i), w3. split; [exact E3|].
      destruct (resolved_store (w_store w) (w_store w3) iid i at_ m) as (H1 & H2 & H3); try done.
      * by rewrite Es3.
      * by rewrite Ec3, Ecn.
      * unfold published in *. cbn [major] in *. destruct (major (resolve_incident at_ m i)); [|by rewrite Er, Ecn in Hpub].
        rewrite Er, Ecn in Hpub. cbn in Hpub. by rewrite (io_id _ (proj1 Hok) _ _ E) in Hpub.
      * split_and!; try done; [|by right|intros k Hk]; unfold incident_of; rewrite Es3, Es; [apply dget_dset_eq|].
        by rewrite dget_dset_ne.
  - exists (resolve_incident at_ m i), w2. split; [done|].
    destruct (resolved_store (w_store w) (w_store w2) iid i at_ m) as (H1 & H2 & H3); try done.
    + unfold published. change (major (resolve_incident at_ m i)) with (major i). rewrite Hm. by rewrite Er, Ecn.
    + split_and!; try done; [|by right|intros k Hk]; unfold incident_of; rewrite Es; [apply dget_dset_eq|].
      by rewrite dget_dset_ne.
Qed.

(** ** The feed *)
(** Every incident was there before or is as some fault of the feed opens it. *)
Definition sprung (feed : list Fault) (s s' : Store) : Prop :=
  ∀ k i, incident_of s' k = Some i →
    is_Some (incident_of s k) ∨ ∃ f started, f ∈ feed ∧ opened f started i.
(** Every resolved incident was so before, or its fault is over. *)
Definition healed (feed : list Fault) (s s' : Store) : Prop :=
  ∀ k i, incident_of s' k = Some i → resolved i = true →
    (∃ j, incident_of s k = Some j ∧ resolved j = true)
    ∨ ∃ f started, f ∈ feed ∧ fault_over f = true ∧ in_key i = fault_key f started.
Lemma sprung_trans f feed s1 s2 s3 :
  moves s2 s3 → sprung [f] s1 s2 → sprung feed s2 s3 → sprung (f :: feed) s1 s3.
Proof.
  intros Hm H1 H2 k i Ei. destruct (H2 k i Ei) as [[j Ej]|(g & st & Hg & Ek)]; [|right; exists g, st; split; [by right|done]].
  destruct (H1 k j Ej) as [Hs|(g & st & ->%list_elem_of_singleton & Ek)]; [by left|right].
  exists f, st. split; [left|]. destruct (mv_incident _ _ Hm k j Ej) as (i' & Ei' & Ho & _).
  assert (i' = i) as -> by congruence. by eapply opened_origin.
Qed.
Lemma healed_trans f feed s1 s2 s3 :
  moves s2 s3 → healed [f] s1 s2 → healed feed s2 s3 → healed (f :: feed) s1 s3.
Proof.
  intros Hm H1 H2 k i Ei Hr. destruct (H2 k i Ei Hr) as [(j & Ej & Hj)|(g & st & Hg & ?)].
  2: { right. exists g, st. split; [by right|done]. }
  destruct (H1 k j Ej Hj) as [Hs|(g & st & ->%list_elem_of_singleton & Ho & Ek)]; [by left|right].
  exists f, st. split_and!; [left|done|]. destruct (mv_incident _ _ Hm k j Ej) as (i' & Ei' & _ & Hres).
  assert (i' = i) as -> by congruence. by rewrite (Hres Hj).
Qed.
(** The store has the incident of a fault, resolved if the fault is over. *)
Definition tracks (s : Store) (f : Fault) : Prop :=
  ∃ started iid i, (truthy (fa_started_at f) = true → fa_started_at f = Some started)
    ∧ incident_of s iid = Some i ∧ in_key i = fault_key f started
    ∧ (fault_over f = true → resolved i = true).
Lemma tracks_moves s s' f : moves s s' → tracks s f → tracks s' f.
Proof.
  intros Hm (started & iid & i & Hs & Ei & Ek & Hr).
  destruct (mv_incident _ _ Hm iid i Ei) as (i' & Ei' & [= _ Ho _ _ _ _ _] & Hres).
  exists started, iid, i'. split_and!; [done|done|congruence|]. intros Hf. specialize (Hr Hf).
  by rewrite (Hres Hr).
Qed.
Lemma started_of_run f w :
  ∃ started w', started_of f w = (Ok started, w') ∧ w_store w' = w_store w
    ∧ (truthy (fa_started_at f) = true → fa_started_at f = Some started ∧ w' = w).
Proof.
  unfold started_of. destruct (truthy (fa_started_at f)) eqn:E.
  - destruct (fa_started_at f) as [t|]; [|done]. by exists t, w.
  - destruct (truthy (fa_at f)); eexists _, _; by split_and!.
Qed.
Lemma sync_fault_run bk f w :
  plane_ok (w_store w) → indexed bk (w_store w) →
  ∃ bk' w', sync_fault bk f w = (Ok bk', w')
    ∧ plane_ok (w_store w') ∧ moves (w_store w) (w_store w') ∧ indexed bk' (w_store w')
    ∧ tracks (w_store w') f ∧ sprung [f] (w_store w) (w_store w') ∧ healed [f] (w_store w) (w_store w').
Proof.
  intros Hok Hb. unfold sync_fault. destruct (started_of_run f w) as (started & w0 & E0 & Es0 & Hst).
  rewrite (bind_ok _ _ _ _ _ E0). cbv beta. rewrite <- Es0 in *.
  destruct (locate_run bk f started w0) as (iid & bk' & i & w1 & E1 & Hok1 & Hm1 & Hb1 & Ei & Ek & Hs1); [done..|].
  rewrite (bind_ok _ _ _ _ _ E1). cbv beta iota.
  destruct (settle_run f started iid i w1) as (i' & w2 & E2 & Hok2 & Hm2 & Hk2 & Ei2 & Hr2 & Hh2 & Hne2); [done..|].
  rewrite (bind_ok _ _ _ _ _ E2). cbv beta. exists bk', w2. split_and!; try done.
  - by etrans.
  - by eapply indexed_same.
  - exists started, iid, i'. split_and!; [by intros []%Hst|done| |done].
    specialize (Hk2 iid). rewrite Ei, Ei2 in Hk2. cbn in Hk2. congruence.
  - intros k j Ej. specialize (Hk2 k). rewrite Ej in Hk2. cbn in Hk2. symmetry in Hk2.
    apply fmap_Some in Hk2 as (j' & Ej' & _). destruct (Hs1 k j' Ej') as [E|[Ho _]]; [left; by eexists|right].
    exists f, started. split; [left|]. destruct (mv_incident _ _ Hm2 k j' Ej') as (j2 & Ej2 & Ho2 & _).
    assert (j2 = j) as -> by congruence. by eapply opened_origin.
  - intros k j Ej Hj. destruct (decide (k = iid)) as [->|Hne].
    + assert (j = i') as -> by congruence. destruct (Hh2 Hj) as [Hi|Hf].
      * left. exists i. split; [|done]. destruct (Hs1 iid i Ei) as [|[_ ?]]; [done|congruence].
      * right. exists f, started. split_and!; [left|done|]. specialize (Hk2 iid). rewrite Ei, Ei2 in Hk2. cbn in Hk2. congruence.
    + rewrite Hne2 in Ej by done. left. exists j. split; [|done].
      destruct (Hs1 k j Ej) as [|[_ ?]]; [done|congruence].
Qed.
Lemma sync_faults_run feed bk w :
  plane_ok (w_store w) → indexed bk (w_store w) →
  ∃ bk' w', fold_m sync_fault bk feed w = (Ok bk', w')
    ∧ plane_ok (w_store w') ∧ moves (w_store w) (w_store w') ∧ Forall (tracks (w_store w')) feed
    ∧ sprung feed (w_store w) (w_store w') ∧ healed feed (w_store w) (w_store w').
Proof.
  revert bk w. induction feed as [|f feed IH]; intros bk w Hok Hb.
  { exists bk, w. split_and!; try done; intros k i E; left; by eexists. }
  cbn [fold_m]. destruct (sync_fault_run bk f w) as (bk1 & w1 & E1 & Hok1 & Hm1 & Hb1 & Ht & Hs1 & Hh1); [done..|].
  rewrite (bind_ok _ _ _ _ _ E1). cbv beta.
  destruct (IH bk1 w1) as (bk2 & w2 & E2 & Hok2 & Hm2 & Hf & Hs2 & Hh2); [done..|].
  exists bk2, w2. split_and!; [done|done|by etrans|constructor; [|done]|by eapply sprung_trans|by eapply healed_trans].
  by eapply tracks_moves.
Qed.
(** A tracked feed changes nothing. *)
Lemma sync_fault_same bk f w :
  incidents_ok (w_store w) → indexed bk (w_store w) → truthy (fa_started_at f) = true → tracks (w_store w) f →
  sync_fault bk f w = (Ok bk, w).
Proof.
  intros Hok Hb Ht (started & iid & i & Hs & Ei & Ek & Hr). unfold sync_fault.
  destruct (started_of_run f w) as (s' & w' & E & _ & Hst). destruct (Hst Ht) as [Es ->].
  rewrite (Hs Ht) in Es. injection Es as <-. rewrite (bind_ok _ _ _ _ _ E). cbv beta.
  assert (locate bk f started w = (Ok (iid, bk), w)) as El.
  { unfold locate. assert (dget bk (fault_key f started) = Some iid) as ->; [|done]. apply Hb. by exists i. }
  rewrite (bind_ok _ _ _ _ _ El). cbv beta iota.
  assert (settle f started iid w = (Ok tt, w)) as Est.
  { unfold settle. unfold incident_of in Ei. run. rewrite Ei. cbn.
    destruct (fault_over f); [|done]. by rewrite (Hr eq_refl). }
  by rewrite (bind_ok _ _ _ _ _ Est).
Qed.
Lemma sync_faults_same feed bk w :
  incidents_ok (w_store w) → indexed bk (w_store w) → Forall (λ f, truthy (fa_started_at f) = true) feed →
  Forall (tracks (w_store w)) feed → fold_m sync_fault bk feed w = (Ok bk, w).
Proof.
  intros Hok Hb Ht Hf. induction feed as [|f feed IH]; [done|]. inversion Ht; inversion Hf; subst.
  cbn [fold_m]. rewrite (bind_ok _ _ w bk w) by (by apply sync_fault_same). cbv beta. by apply IH.
Qed.
(** The index built at the start of a poll *)
Lemma known_fold d key iid l :
  (∀ i j, i ∈ l → j ∈ l → in_key i = in_key j → in_id i = in_id j) →
  dget (foldl (λ d i, dset d (in_key i) (in_id i)) d l) key = Some iid ↔
  (∃ i, i ∈ l ∧ in_key i = key ∧ in_id i = iid) ∨ ((∀ i, i ∈ l → in_key i ≠ key) ∧ dget d key = Some iid).
Proof.
  revert d. induction l as [|a l IH]; intros d Hu; cbn.
  { split; [intros E; right; split; [by intros i Hi%elem_of_nil|done]|intros [(i & Hi%elem_of_nil & _)|[_ E]]; done]. }
  rewrite IH by (intros i j Hi Hj; apply Hu; by right). clear IH. rewrite dget_dset.
  assert (a ∈ a :: l) as Ha by by left. split.
  - intros [(i & Hi & E1 & E2)|[Hno E]]; [left; exists i; split; [by right|done]|].
    destruct (String.eqb_spec key (in_key a)) as [->|Hne]; [left; exists a; split_and!; [done|done|congruence]|].
    right. split; [|done]. intros i [->|Hi]%elem_of_cons; [done|by apply Hno].
  - intros [(i & Hi & <- & <-)|[Hno E]].
    + destruct (decide (Exists (λ j, in_key j = in_key i) l)) as [Hex|Hno].
      * left. apply Exists_exists in Hex as (j & Hj & Ej). exists j. split_and!; [done|done|].
        apply Hu; [by right|done|done].
      * right. rewrite <- Forall_Exists_neg, Forall_forall in Hno. split; [done|].
        apply elem_of_cons in Hi as [->|Hi]; [by rewrite String.eqb_refl|by destruct (Hno i Hi)].
    + right. split; [intros i Hi; apply Hno; by right|].
      destruct (String.eqb_spec key (in_key a)) as [->|]; [by destruct (Hno a Ha)|done].
Qed.
Lemma known_indexed s : incidents_ok s → indexed (known_faults s) s.
Proof.
  intros Hok key iid. unfold known_faults. pose proof (io_wf _ Hok) as Hwf. rewrite known_fold.
  - split.
    + intros [(i & [k Hk]%dvalues_dget & E1 & <-)|[_ [=]]]; [|done].
      exists i. by rewrite (io_id _ Hok k i Hk).
    + intros (i & Ei & Ek). left. exists i. split_and!; [by eapply dget_dvalues|done|by apply (io_id _ Hok)].
  - intros i j [k Hk]%dvalues_dget [k' Hk']%dvalues_dget E; [|done..].
    rewrite (io_id _ Hok _ _ Hk), (io_id _ Hok _ _ Hk'). by eapply (io_key _ Hok).
Qed.

(** ** What a poll may do to the ledgers *)
Definition advances (s s' : Store) : Prop := plane_ok s → plane_ok s' ∧ moves s s'.
#[export] Instance advances_preorder : PreOrder advances.
Proof.
  split; [by intros s|]. intros s1 s2 s3 H1 H2 Ho. destruct (H1 Ho) as [Ho2 M1].
  destruct (H2 Ho2) as [Ho3 M2]. split; [done|by etrans].
Qed.
(** Steps that leave the incidents and the reports alone *)
Lemma advances_view s s' :
  st_incidents s' = st_incidents s → st_rcas s' = st_rcas s →
  (∀ name, (count name s ≤ count name s')%Z) → advances s s'.
Proof.
  intros Ei Er Hc [Hi Hr]. assert (∀ k, incident_of s' k = incident_of s k) as E1 by (intros; unfold incident_of; by rewrite Ei).
  assert (∀ k, rca_of s' k = rca_of s k) as E2 by (intros; unfold rca_of; by rewrite Er).
  pose proof (Hc "incident"). pose proof (Hc "rca"). split; [split|].
  - destruct Hi as [Hwf Hid Hfr Hkey Hst]. split; rewrite ?Ei; try done; intros; rewrite ?E1 in *; eauto.
    apply Hfr. lia.
  - destruct Hr as [Hwf Hf Ho H1 Ha]. split; rewrite ?Er; try done.
    + intros n Hn. rewrite E2. apply Hf. lia.
    + intros k r. rewrite E2. intros (i & ? & ?)%Ho. exists i. by rewrite E1.
    + intros k1 k2 r1 r2. rewrite !E2. apply H1.
    + intros k i. rewrite E1. intros E Hs Hm. destruct (Ha k i E Hs Hm) as (k' & r & ? & ?).
      exists k', r. by rewrite E2.
  - split; [intros k i E; exists i; by rewrite E1|intros k r; by rewrite E2].
Qed.
Lemma kept_advances s s' : portal_kept s s' → advances s s'.
Proof.
  intros [E Hc]. apply advances_view; [..|done]; unfold st_incidents, st_rcas; by rewrite E.
Qed.
Lemma next_seq_advances name : Steps (on_store advances) (next_seq name).
Proof. intros w. apply kept_advances, next_seq_portal. Qed.
Lemma quiet_advances {A} (m : IO A) : Steps (same w_store) m → Steps (on_store advances) m.
Proof. apply steps_weaken. intros w w' E. unfold on_store. by rewrite E. Qed.
Lemma set_credit_advances k c : Steps (on_store advances) (s_set st_sla_credits k c).
Proof. intros w. by apply advances_view. Qed.
#[local] Hint Resolve next_seq_advances set_credit_advances : steps.
Lemma quiet_fromiso ts : Steps (same w_store) (Business.fromiso ts).
Proof. unfold Business.fromiso. solve_steps. Qed.
Lemma quiet_now : Steps (same w_store) now.
Proof. intros w. reflexivity. Qed.
#[local] Hint Resolve quiet_fromiso quiet_now : steps.
Lemma quiet_downtime i : Steps (same w_store) (downtime i).
Proof. unfold downtime. solve_steps. Qed.
Lemma quiet_known_tenant tid : Steps (same w_store) (known_tenant tid).
Proof. unfold known_tenant, store. solve_steps. Qed.
#[local] Hint Resolve quiet_downtime quiet_known_tenant : steps.

Lemma next_seq_count name w n :
  count n (w_store (next_seq name w).2) = if String.eqb n name then (count name (w_store w) + 1)%Z else count n (w_store w).
Proof. unfold count, next_seq. run. cbn. rewrite dget_dset. destruct (String.eqb_spec n name) as [->|]; done. Qed.
(** An incident that is recorded as settled, with its report *)
Lemma add_settled s s' i :
  plane_ok s → (∀ k j, incident_of s k = Some j → in_key j ≠ in_key i) → settled i →
  in_id i = "inc-" +:+ str_of_Z (count "incident" s + 1) →
  st_incidents s' = dset (st_incidents s) (in_id i) i → count "incident" s' = (count "incident" s + 1)%Z →
  published s s' (in_id i) i → plane_ok s' ∧ moves s s'.
Proof.
  intros [Hi Hr] Hnew Hs Eid Es Ec Hpub.
  destruct (add_incident s s' i) as [Hi' Hnone]; [done|done|by left|done..|].
  assert (∀ k, k ≠ in_id i → incident_of s' k = incident_of s k) as Hne.
  { intros k Hk. unfold incident_of. rewrite Es. apply dget_dset_ne. congruence. }
  destruct (rcas_put s s' (in_id i) i Hr) as [Hr' Hold]; [congruence|done| |done|done|].
  { unfold incident_of. rewrite Es. apply dget_dset_eq. }
  split; [done|split; [|done]]. intros k j Ej. exists j. split; [|done]. rewrite Hne; [done|congruence].
Qed.
(** *** The synthetic violation *)
Lemma synthesize_advances tid month y m : Steps (on_store advances) (synthesize tid month y m).
Proof.
  intros w. unfold synthesize. rewrite (bind_ok store _ w (w_store w) w) by done. cbv beta zeta.
  destruct (anyb _ _) eqn:Ek; [reflexivity|].
  set (n := (count "incident" (w_store w) + 1)%Z). set (w1 := (next_seq "incident" w).2).
  rewrite (bind_ok (next_seq "incident") _ w n w1) by done. cbv beta.
  pose proof (next_seq_advances "incident" w) as H1. fold w1 in H1.
  pose proof (quiet_fromiso (synthetic_start y m) w1) as Hq. unfold mbind at 1, M_bind.
  destruct (Business.fromiso _ w1) as [[q|e] w'] eqn:Eq; [|cbn in Hq |- *; unfold on_store; by rewrite Hq].
  cbn [snd] in Hq. rewrite (bind_ok (gets _) _ w' (env_toiso (w_env w') (q + SYNTHETIC_MTTR * 60)%Q) w') by done.
  cbv beta. set (inc := mkIncident _ _ _ _ _ _ _ _ _ _ _).
  set (w2 := (s_set st_incidents ("inc-" +:+ str_of_Z n) inc w').2).
  rewrite (bind_ok (s_set _ _ _) _ w' tt w2) by done. cbv beta.
  assert (st_incidents (w_store w2) = dset (st_incidents (w_store w)) (in_id inc) inc) as Es.
  { unfold w2. cbn -[str_of_Z]. by rewrite Hq. }
  assert (st_rcas (w_store w2) = st_rcas (w_store w)) as Er by (unfold w2, st_rcas; cbn -[str_of_Z]; by rewrite Hq).
  assert (∀ name, count name (w_store w2) = count name (w_store w1)) as Ecn.
  { intros name. unfold w2, count. cbn -[str_of_Z w1]. by rewrite Hq. }
  assert (∀ name, count name (w_store w2) = if String.eqb name "incident" then n else count name (w_store w)) as Ecw.
  { intros name. rewrite Ecn. unfold w1. rewrite next_seq_count. by destruct (String.eqb_spec name "incident") as [->|]. }
  intros Hok. assert (dict_wf (st_rcas (w_store w2))) as Hwf2 by (rewrite Er; apply (proj2 Hok)).
  destruct (publish_run inc w2 Hwf2) as (w3 & E3 & Es3 & Ec3 & Hpub); [|done|].
  { intros k r E Eid. unfold rca_of in E. rewrite Er in E. destruct (ro_of _ (proj2 Hok) k r E) as (i & Ei & _).
    rewrite Eid in Ei. assert (incident_of (w_store w) (in_id inc) = None); [|congruence].
    apply (io_fresh _ (proj1 Hok)). lia. }
  rewrite E3. cbn [snd]. unfold published in Hpub. rewrite Er, Ecw in Hpub.
  apply (add_settled _ _ inc); [done| |split_and!; [done|by eexists|by eexists]|done|by rewrite Es3|by rewrite Ec3, Ecw|exact Hpub].
  intros k j Ej E. rewrite anyb_false in Ek. specialize (Ek j). cbn in E.
  rewrite E, String.eqb_refl in Ek. discriminate Ek. by eapply dget_dvalues.
Qed.

(** ** The credits *)
Definition credit_of (s : Store) (k : string) : option SlaCredit := dget (st_sla_credits s) k.
Record credits_ok (s : Store) : Prop := {
  co_wf : dict_wf (st_sla_credits s);
  co_fresh n : (count "sla_credit" s < n)%Z → credit_of s ("crd-" +:+ str_of_Z n) = None;
  co_one k1 k2 c1 c2 : credit_of s k1 = Some c1 → credit_of s k2 = Some c2 → cr_key c1 = cr_key c2 → k1 = k2;
  co_of k c : credit_of s k = Some c →
    cr_id c = k ∧ cr_key c = cr_tenant_id c +:+ "|" +:+ cr_month c
    ∧ cr_pct_of_monthly c ∈ [50; 25; 10]%Z ∧ cr_status c = "calculated"
}.
Definition credits_kept (s s' : Store) : Prop := ∀ k c, credit_of s k = Some c → credit_of s' k = Some c.
Definition credited (s s' : Store) : Prop := credits_ok s → credits_ok s' ∧ credits_kept s s'.
#[export] Instance credited_preorder : PreOrder credited.
Proof.
  split; [intros s Ho; split; [done|by intros k]|]. intros s1 s2 s3 H1 H2 Ho. destruct (H1 Ho) as [Ho2 M1].
  destruct (H2 Ho2) as [Ho3 M2]. split; [done|]. intros k c E. by apply M2, M1.
Qed.
Lemma credited_view s s' :
  st_sla_credits s' = st_sla_credits s → (∀ name, (count name s ≤ count name s')%Z) → credited s s'.
Proof.
  intros E Hc [Hwf Hf H1 Ho]. assert (∀ k, credit_of s' k = credit_of s k) as E1 by (intros; unfold credit_of; by rewrite E).
  split; [|intros k c; by rewrite E1]. split; rewrite ?E; try done; intros; rewrite ?E1 in *; eauto.
  apply Hf. specialize (Hc "sla_credit"). lia.
Qed.
Lemma kept_credited s s' : portal_kept s s' → credited s s'.
Proof. intros [E Hc]. apply credited_view; [|done]. unfold st_sla_credits. by rewrite E. Qed.
Lemma next_seq_credited name : Steps (on_store credited) (next_seq name).
Proof. intros w. apply kept_credited, next_seq_portal. Qed.
Lemma quiet_credited {A} (m : IO A) : Steps (same w_store) m → Steps (on_store credited) m.
Proof. apply steps_weaken. intros w w' E. unfold on_store. by rewrite E. Qed.
Lemma set_incident_credited k i : Steps (on_store credited) (s_set st_incidents k i).
Proof. intros w. by apply credited_view. Qed.
Lemma mut_incident_credited k f : Steps (on_store credited) (incident_mut k f).
Proof. intros w. by apply credited_view. Qed.
Lemma set_rca_credited k r : Steps (on_store credited) (s_set st_rcas k r).
Proof. intros w. by apply credited_view. Qed.
(** The credit of a violated month is one of the table, never nothing. *)
Lemma violated_pct avail : Qle_bool SLA_TARGET_PCT avail = false → _credit_pct_for avail ∈ [50; 25; 10]%Z.
Proof.
  intros E. unfold _credit_pct_for, SLA_CREDIT_TABLE, find_first. cbn [List.find fst snd]. rewrite E. cbn [negb].
  set_unfold. destruct (negb (Qle_bool 95 avail)); [by left|]. destruct (negb (Qle_bool 99 avail)); [by right; left|].
  by right; right; left.
Qed.
Lemma add_credit s s' n c :
  credits_ok s → n = (count "sla_credit" s + 1)%Z → cr_id c = "crd-" +:+ str_of_Z n →
  cr_key c = cr_tenant_id c +:+ "|" +:+ cr_month c → cr_pct_of_monthly c ∈ [50; 25; 10]%Z → cr_status c = "calculated" →
  (∀ k d, credit_of s k = Some d → cr_key d ≠ cr_key c) →
  st_sla_credits s' = dset (st_sla_credits s) (cr_id c) c → count "sla_credit" s' = n →
  credits_ok s' ∧ credits_kept s s'.
Proof.
  intros [Hwf Hf H1 Ho] -> Eid Hk Hp Hst Hnew Es Ec.
  assert (credit_of s (cr_id c) = None) as Hnone by (rewrite Eid; apply Hf; lia).
  assert (∀ k d, credit_of s' k = Some d → k = cr_id c ∧ d = c ∨ credit_of s k = Some d) as Hinv.
  { intros k d. unfold credit_of. rewrite Es, dget_dset. destruct (String.eqb_spec k (cr_id c)) as [->|]; [|auto].
    intros [= <-]. auto. }
  split; [split|].
  - rewrite Es. by apply dict_wf_dset.
  - intros m Hm. unfold credit_of. rewrite Es, dget_dset_ne; [apply Hf; lia|].
    rewrite Eid. intros ?%str_app_inj%str_of_Z_inj. lia.
  - intros k1 k2 c1 c2 [[-> ->]|E1]%Hinv [[-> ->]|E2]%Hinv Eq; [done|..|by eapply H1].
    + by destruct (Hnew _ _ E2).
    + by destruct (Hnew _ _ E1).
  - intros k d [[-> ->]|E]%Hinv; [by split_and!|by apply Ho].
  - intros k d E. unfold credit_of. rewrite Es, dget_dset_ne; [done|congruence].
Qed.
Lemma credit_credited tid month avail incs :
  Qle_bool SLA_TARGET_PCT avail = false → Steps (on_store credited) (credit_for tid month avail incs).
Proof.
  intros Hv w. unfold credit_for. rewrite (bind_ok store _ w (w_store w) w) by done. cbv beta zeta.
  destruct (find_first _ _) eqn:Ef; [done|].
  set (w1 := (next_seq "sla_credit" w).2). set (n := (count "sla_credit" (w_store w) + 1)%Z).
  rewrite (bind_ok (next_seq "sla_credit") _ w n w1) by done. cbv beta.
  set (c := mkCredit _ _ _ _ _ _ _ _ _). set (w2 := (s_set st_sla_credits ("crd-" +:+ str_of_Z n) c w1).2).
  rewrite (bind_ok (s_set _ _ _) _ w1 tt w2) by done. cbv beta.
  set (w3 := (emit "NeoCloudOS.M7" "BizPortal" "internal" ("service-credit:calculated → " +:+ "crd-" +:+ str_of_Z n) None None w2).2).
  rewrite (bind_ok (emit _ _ _ _ _ _) _ w2 tt w3) by done. change (credited (w_store w) (w_store w2)).
  intros Hok. apply (add_credit _ _ n c Hok); try done.
  - apply (violated_pct _ Hv).
  - intros k d Ek Eq. pose proof (proj1 (find_first_None _ _) Ef d (dget_dvalues _ _ _ Ek)) as Hd. cbn in Hd, Eq.
    by rewrite Eq, String.eqb_refl in Hd.
  - unfold w2, w1. exact (next_seq_count "sla_credit" w "sla_credit").
Qed.

(** *** The routes, for a twin that answers without touching the store *)
Section feed.
Context (twin : Z → IO (option (list TwinFault))).
Context (twin_answers : ∀ n, Total (twin n)) (twin_quiet : ∀ n, Steps (same w_store) (twin n)).
#[local] Hint Resolve twin_quiet : steps.
#[local] Hint Resolve twin_answers : raises.
Lemma total_faults t l : Total (Emu.faults t l).
Proof. unfold Emu.faults, store, Emu.emu. solve_raises. Qed.
Lemma quiet_faults t l : Steps (same w_store) (Emu.faults t l).
Proof. unfold Emu.faults, store, Emu.emu. solve_steps. Qed.
Lemma total_twin_faults l : Total (Emu._emulator_reprov_faults twin l).
Proof. unfold Emu._emulator_reprov_faults, getenv. solve_raises. Qed.
Lemma quiet_twin_faults l : Steps (same w_store) (Emu._emulator_reprov_faults twin l).
Proof. unfold Emu._emulator_reprov_faults, getenv. solve_steps. Qed.
#[local] Hint Resolve quiet_faults quiet_twin_faults : steps.
#[local] Hint Resolve total_faults total_twin_faults : raises.
Lemma feed_run w : ∃ feed w', fault_feed twin w = (Ok feed, w') ∧ w_store w' = w_store w.
Proof.
  assert (Total (fault_feed twin)) as Ht by (unfold fault_feed; solve_raises).
  assert (Steps (same w_store) (fault_feed twin)) as Hs by (unfold fault_feed; solve_steps).
  destruct (total_run _ w Ht) as [feed E]. exists feed, (fault_feed twin w).2. split; [done|apply Hs].
Qed.
Lemma sync_run w :
  plane_ok (w_store w) →
  ∃ feed w' w1, fault_feed twin w = (Ok feed, w1) ∧ _sync_incidents twin w = (Ok tt, w')
    ∧ plane_ok (w_store w') ∧ moves (w_store w) (w_store w') ∧ Forall (tracks (w_store w')) feed
    ∧ sprung feed (w_store w) (w_store w') ∧ healed feed (w_store w) (w_store w').
Proof.
  intros Hok. destruct (feed_run w) as (feed & w1 & E1 & Es1). unfold _sync_incidents.
  rewrite (bind_ok _ _ _ _ _ E1). cbv beta. rewrite (bind_ok store _ w1 (w_store w1) w1) by done. cbv beta.
  rewrite <- Es1 in *.
  destruct (sync_faults_run feed (known_faults (w_store w1)) w1) as (bk & w2 & E2 & H2);
    [done|by apply known_indexed, Hok|].
  rewrite (bind_ok _ _ _ _ _ E2). by exists feed, w2, w1.
Qed.
Lemma sync_advances : Steps (on_store advances) (_sync_incidents twin).
Proof. intros w Hok. by destruct (sync_run w Hok) as (feed & w' & w1 & _ & -> & ? & ? & _). Qed.
#[local] Hint Resolve sync_advances synthesize_advances : steps.
#[local] Hint Extern 4 (Steps (on_store advances) _) => apply quiet_advances : steps.
Lemma status_advances : Steps (on_store advances) (status_page twin).
Proof. unfold status_page, store. solve_steps. Qed.
Lemma rca_advances tid : Steps (on_store advances) (rca_reports twin tid).
Proof. unfold rca_reports, s_values. solve_steps. Qed.
Lemma credit_advances tid month avail incs : Steps (on_store advances) (credit_for tid month avail incs).
Proof. unfold credit_for, store. solve_steps. Qed.
#[local] Hint Resolve credit_advances : steps.
Lemma sla_advances tid month v : Steps (on_store advances) (sla_report twin tid month v).
Proof. unfold sla_report, store. solve_steps. Qed.
#[local] Hint Resolve next_seq_credited set_incident_credited mut_incident_credited set_rca_credited : steps.
#[local] Hint Extern 4 (Steps (on_store credited) _) => apply quiet_credited : steps.
Lemma publish_credited i : Steps (on_store credited) (_publish_rca i).
Proof. unfold _publish_rca, store. solve_steps. Qed.
#[local] Hint Resolve publish_credited : steps.
Lemma quiet_mttr f a b : Steps (same w_store) (mttr_of f a b).
Proof. unfold mttr_of. solve_steps. Qed.
Lemma quiet_over f : Steps (same w_store) (over_at f).
Proof. unfold over_at. solve_steps. Qed.
Lemma quiet_started f : Steps (same w_store) (started_of f).
Proof. unfold started_of. solve_steps. Qed.
Lemma quiet_feed : Steps (same w_store) (fault_feed twin).
Proof. unfold fault_feed. solve_steps. Qed.
#[local] Hint Resolve quiet_mttr quiet_over quiet_started quiet_feed : steps.
Lemma sync_credited : Steps (on_store credited) (_sync_incidents twin).
Proof. unfold _sync_incidents, sync_fault, locate, settle, s_idx, store. solve_steps. Qed.
Lemma synthesize_credited tid month y m : Steps (on_store credited) (synthesize tid month y m).
Proof. unfold synthesize, store. solve_steps. Qed.
#[local] Hint Resolve sync_credited synthesize_credited : steps.
Lemma status_credited : Steps (on_store credited) (status_page twin).
Proof. unfold status_page, store. solve_steps. Qed.
Lemma rca_credited tid : Steps (on_store credited) (rca_reports twin tid).
Proof. unfold rca_reports, s_values. solve_steps. Qed.
Lemma month_credited tid month avail incs :
  Steps (on_store credited) (if negb (Qle_bool SLA_TARGET_PCT avail)
    then c ← credit_for tid month avail incs; mret [c] else mret []).
Proof.
  destruct (Qle_bool SLA_TARGET_PCT avail) eqn:E; cbn [negb]; [solve_steps|].
  apply steps_bind; [apply _|by apply credit_credited|solve_steps].
Qed.
#[local] Hint Resolve month_credited : steps.
Lemma sla_credited tid month v : Steps (on_store credited) (sla_report twin tid month v).
Proof. unfold sla_report, store. solve_steps. Qed.
End feed.

(** ** The emulator leaves the store alone *)
Lemma quiet_upd_emu f : Steps (same w_store) (upd_emu f).
Proof. by intros w. Qed.
Lemma quiet_random : Steps (same w_store) random.
Proof. by intros w. Qed.
Lemma quiet_uniform a b : Steps (same w_store) (uniform a b).
Proof. by intros w. Qed.
#[local] Hint Resolve quiet_upd_emu quiet_random quiet_uniform : steps.
Lemma quiet_choice {A} (l : list A) : Steps (same w_store) (random_choice l).
Proof. by intros w. Qed.
#[local] Hint Resolve quiet_choice : steps.
Lemma quiet_gpu rt b q g : Steps (same w_store) (Emu.advance_gpu rt b q g).
Proof.
  unfold Emu.advance_gpu, Emu.recover_gpu, Emu.run_gpu, Emu.random_fault, Emu._random_faults_enabled,
    Emu.log_fault, Emu.emu, getenv. solve_steps.
Qed.
#[local] Hint Resolve quiet_gpu : steps.
Lemma quiet_tick n : Steps (same w_store) (Emu.tick n).
Proof.
  unfold Emu.tick, Emu.sync_from_store, Emu.tick_once, Emu.advance_tray, Emu._record_locked, Emu._advance,
    Emu.run_tray, Emu.rest_tray, Emu.rest_gpu, Emu.emu, store. solve_steps.
Qed.
Lemma quiet_inject t g x ttl : Steps (same w_store) (Emu.inject_fault t g x ttl).
Proof. unfold Emu.inject_fault, Emu.sync_from_store, Emu.log_fault, Emu.emu, store. solve_steps. Qed.

(** ** The ledgers under every sequence of operations *)
Definition books_ok (s : Store) : Prop := plane_ok s ∧ credits_ok s.
Section machine.
Context (http_adapter : string → ComputeAdapter) `{!∀ url, AdapterFrame (http_adapter url)}.
Context (twin : Z → IO (option (list TwinFault))).
Inductive step : World → World → Prop :=
  | step_status w : step w (status_page twin w).2
  | step_rca tid w : step w (rca_reports twin tid w).2
  | step_sla tid month v w : step w (sla_report twin tid month v w).2
  | step_tick n w : step w (Emu.tick n w).2
  | step_inject t g x ttl w : step w (Emu.inject_fault t g x ttl w).2
  | step_request r w : step w (Api.serve http_adapter r w).2.
Context (twin_answers : ∀ n, Total (twin n)) (twin_quiet : ∀ n, Steps (same w_store) (twin n)).
Lemma step_books w w' :
  step w w' → on_store advances w w' ∧ on_store credited w w'.
Proof.
  intros Hst. destruct Hst.
  - split; [by apply status_advances|by apply status_credited].
  - split; [by apply rca_advances|by apply rca_credited].
  - split; [by apply sla_advances|by apply sla_credited].
  - split; [apply quiet_advances, quiet_tick|apply quiet_credited, quiet_tick].
  - split; [apply quiet_advances, quiet_inject|apply quiet_credited, quiet_inject].
  - pose proof (Api.serve_steps http_adapter portal_kept r w) as Hk.
    split; [by apply kept_advances|by apply kept_credited].
Qed.

Lemma run_books w w' :
  rtc step w w' → books_ok (w_store w) →
  books_ok (w_store w') ∧ moves (w_store w) (w_store w') ∧ credits_kept (w_store w) (w_store w').
Proof.
  intros Hs Hok. assert (on_store advances w w' ∧ on_store credited w w') as [Ha Hc].
  { clear Hok. induction Hs as [w|w1 w2 w3 Hst _ [IHa IHc]]; [by split|].
    apply step_books in Hst as [H1 H2]. split; by etrans. }
  destruct (Ha (proj1 Hok)). destruct (Hc (proj2 Hok)). by split_and!.
Qed.
(** C12: The incident books.  Whatever sequence of status pages, report and SLA
    requests, emulator ticks, injected faults and order requests runs: an incident
    is never lost, keeps its fault, severity, tenant and start, and once resolved
    never changes; no two incidents stand for one fault; an incident has an end and
    a duration exactly when it is resolved; there is exactly one root-cause report
    for each resolved P0 or P1 incident and none for any other, and it never
    changes; and a tenant is credited at most once for a month, by a percentage of
    the table, and a credit never changes. *)
Theorem incident_books w w' :
  books_ok (w_store w) → rtc step w w' →
  books_ok (w_store w') ∧ moves (w_store w) (w_store w') ∧ credits_kept (w_store w) (w_store w').
Proof. intros Hok Hs. by apply run_books. Qed.
End machine.

(** C18: Polling converges.  Let the physical twin answer, and leave the store alone.
    From books in order, a synchronisation always succeeds, after which every
    fault of the feed has its incident, resolved if the fault is over; every
    incident that was not there has the key, start, tenant, severity and component
    of a fault of the feed; and every incident that has become resolved is of a
    fault of the feed that is over.  Synchronising again with the same feed, if its
    faults know when they started, changes nothing. *)
Theorem sync_converges twin w :
  (∀ n, Total (twin n)) → (∀ n, Steps (same w_store) (twin n)) → books_ok (w_store w) →
  ∃ feed w1 w', fault_feed twin w = (Ok feed, w1) ∧ _sync_incidents twin w = (Ok tt, w')
    ∧ Forall (tracks (w_store w')) feed
    ∧ sprung feed (w_store w) (w_store w') ∧ healed feed (w_store w) (w_store w')
    ∧ ∀ w2 w3, w_store w2 = w_store w' → fault_feed twin w2 = (Ok feed, w3) →
        Forall (λ f, truthy (fa_started_at f) = true) feed → _sync_incidents twin w2 = (Ok tt, w3).
Proof.
  intros Ht Hq [Hp _]. destruct (sync_run twin Ht Hq w Hp) as (feed & w' & w1 & Ef & Es & Hp' & _ & Htr & Hsp & Hhe).
  exists feed, w1, w'. split_and!; [done..|]. intros w2 w3 E2 E3 Hst.
  assert (w_store w3 = w_store w') as Es3.
  { rewrite <- E2. pose proof (quiet_feed twin Hq w2) as H. by rewrite E3 in H. }
  unfold _sync_incidents. rewrite (bind_ok _ _ _ _ _ E3). cbv beta.
  rewrite (bind_ok store _ w3 (w_store w3) w3) by done. cbv beta.
  rewrite (bind_ok _ _ w3 (known_faults (w_store w3)) w3); [done|].
  apply sync_faults_same; rewrite ?Es3; [apply Hp'|apply known_indexed, Hp'|done|done].
Qed.

(** ** On the delivered site: a fault, its recovery, and the month's report *)
Definition no_twin (limit : Z) : IO (option (list TwinFault)) := mret None.
Lemma no_twin_answers n : Total (no_twin n).
Proof. intros w. exact I. Qed.
Lemma no_twin_quiet n : Steps (same w_store) (no_twin n).
Proof. intros w. reflexivity. Qed.
Definition site : World := Demo.delivered <| w_env ::= λ e,
  mkEnv (env_clock e) (env_token e) (env_var e) (env_float_str e) (env_parse_float e) (λ _, Some 0%Q)
    (env_toiso e) (env_digest e) (env_random e) (env_randbelow e) |>.
Definition faulty : World := (Emu.inject_fault (Demo.tray_id 1 0) 0 79 2 site).2.
Definition polled : World := (status_page no_twin faulty).2.
Definition recovered : World := (Emu.tick 2 polled).2.
Definition settled_site : World := (status_page no_twin recovered).2.
Definition charged : World := (sla_report no_twin "tnt-acme" (Some "2026-07") true settled_site).2.
Definition view (w : World) := ((λ i, (in_id i, in_severity i, in_state i)) <$> dvalues (st_incidents (w_store w)),
  (λ r, (rc_id r, rc_incident_id r)) <$> dvalues (st_rcas (w_store w)),
  (λ c, (cr_id c, cr_key c, cr_pct_of_monthly c)) <$> dvalues (st_sla_credits (w_store w))).
Lemma books_empty s :
  st_incidents s = [] → st_rcas s = [] → st_sla_credits s = [] → books_ok s.
Proof.
  intros E1 E2 E3. split; [split|]; split; unfold incident_of, rca_of, credit_of; rewrite ?E1, ?E2, ?E3; done.
Qed.
Lemma site_books : books_ok (w_store site).
Proof. apply books_empty; vm_compute; reflexivity. Qed.
Lemma recovery_rtc http twin t g x ttl n w :
  rtc (step http twin) w
    (status_page twin (Emu.tick n (status_page twin (Emu.inject_fault t g x ttl w).2).2).2).2.
Proof.
  eapply rtc_l; [apply step_inject|]. eapply rtc_l; [apply step_status|]. eapply rtc_l; [apply step_tick|].
  apply rtc_once, step_status.
Qed.
Lemma day_rtc http twin t g x ttl n tid month w :
  rtc (step http twin) w
    (sla_report twin tid month true (status_page twin (Emu.tick n (status_page twin
       (Emu.inject_fault t g x ttl w).2).2).2).2).2.
Proof.
  eapply rtc_r; [apply recovery_rtc|apply step_sla].
Qed.
Lemma site_rtc : rtc (step Lifecycle.demo_http no_twin) site charged.
Proof. exact (day_rtc Lifecycle.demo_http no_twin (Demo.tray_id 1 0) 0 79 2 2 "tnt-acme" (Some "2026-07") site). Qed.
Lemma incident_books_witness :
  view polled = ([("inc-1", "P1", "investigating")], [], [])
  ∧ view settled_site = ([("inc-1", "P1", "resolved")], [("rca-1", "inc-1")], [])
  ∧ view charged = ([("inc-1", "P1", "resolved"); ("inc-2", "P1", "resolved")],
      [("rca-1", "inc-1"); ("rca-2", "inc-2")], [("crd-1", "tnt-acme|2026-07", 10%Z)])
  ∧ books_ok (w_store charged) ∧ moves (w_store site) (w_store charged)
  ∧ credits_kept (w_store site) (w_store charged).
Proof.
  split_and!; [vm_compute; reflexivity..| | |];
    apply (incident_books Lifecycle.demo_http no_twin no_twin_answers no_twin_quiet site charged site_books site_rtc).
Defined.
(** Before the poll the feed has the injected fault, after it its incident. *)
Lemma sync_converges_witness :
  books_ok (w_store faulty)
  ∧ ∃ feed w1 w', fault_feed no_twin faulty = (Ok feed, w1) ∧ _sync_incidents no_twin faulty = (Ok tt, w')
    ∧ length feed = 1 ∧ length (st_incidents (w_store w')) = 1 ∧ Forall (tracks (w_store w')) feed.
Proof.
  assert (books_ok (w_store faulty)) as Hok by (apply books_empty; vm_compute; reflexivity). split; [exact Hok|].
  destruct (sync_converges no_twin faulty no_twin_answers no_twin_quiet Hok)
    as (feed & w1 & w' & Ef & Es & Ht & _). exists feed, w1, w'. split; [exact Ef|]. split; [exact Es|].
  split; [apply (f_equal (λ r, match r.1 with Ok l => length l | _ => 0 end)) in Ef; vm_compute in Ef; symmetry; exact Ef|].
  split; [|exact Ht]. apply (f_equal (λ r, length (st_incidents (w_store r.2)))) in Es. vm_compute in Es.
  symmetry. exact Es.
Defined.
End IncidentThms.
