(* ===== verification/SlaThms.v ===== *)
(** * The monthly SLA report: theorems

    What a report says of its month, said again without the code's tables: the
    incidents it lists, how long each lasted, the availability, and the credit. *)
From Stdlib Require Import QArith Ascii.
From stdpp Require Import strings base decidable option numbers list relations.
From S2P Require Import Prelude PyLib Models PortalModels EmuModels World Adapters Business TrayEmu Incidents.
From S2P Require Import Demo Api PortalFrame IncidentThms.
Local Open Scope string_scope.
Local Open Scope list_scope.
Local Open Scope py_scope.

Module SlaThms.
Import Incidents PortalFrame IncidentThms.

(** ** Months *)
(** The text of a month: four digits, a dash, one or two digits *)
Definition month_text (m : string) (y mo : Z) : Prop :=
  ∃ ys ms, m = ys +:+ "-" +:+ ms ∧ String.length ys = 4 ∧ (String.length ms ≤ 2)%nat
    ∧ parse_int ys = Some y ∧ parse_int ms = Some mo ∧ (1 ≤ y ∧ 1 ≤ mo ≤ 12)%Z.
Lemma parse_month_text m y mo : parse_month m = Some (y, mo) ↔ month_text m y mo.
Proof.
  split.
  - unfold parse_month. destruct m as [|a [|b [|c [|d [|e r]]]]]; try done.
    destruct (decide (e = "-"%char)) as [->|]; [|by repeat case_match].
    cbn -[parse_int]. destruct (parse_int (String a _)) as [y'|] eqn:Ey; [|done]. cbn -[parse_int].
    destruct (String.length r <=? 2)%nat eqn:El; [|done]. destruct (parse_int r) as [mo'|] eqn:Em; [|done].
    cbn -[parse_int]. destruct (_ && _) eqn:Eb; [|done]. intros [= <- <-]. apply andb_true_iff in Eb as [Eb%andb_true_iff ?].
    exists (String a (String b (String c (String d EmptyString)))), r. apply Nat.leb_le in El.
    split_and!; try done; lia.
  - intros (ys & ms & -> & Hl & Hm & Ey & Em & H). destruct ys as [|a [|b [|c [|d [|]]]]]; try done.
    change (_ +:+ _) with (String a (String b (String c (String d (String "-" ms))))).
    unfold parse_month. rewrite Ey. cbn -[parse_int]. rewrite (proj2 (Nat.leb_le _ _) Hm), Em. cbn -[parse_int].
    replace ((1 <=? y) && (1 <=? mo) && (mo <=? 12))%Z with true by lia. done.
Qed.
Definition civil_days (y mo : Z) : Z :=
  if (mo =? 2)%Z then if ((y mod 4 =? 0) && negb (y mod 100 =? 0) || (y mod 400 =? 0))%Z then 29 else 28
  else if ((mo =? 4) || (mo =? 6) || (mo =? 9) || (mo =? 11))%Z then 30 else 31.
Lemma civil_days_eq y mo : (1 ≤ mo ≤ 12)%Z → days_in_month y mo = civil_days y mo.
Proof.
  intros H. assert (mo ∈ [1; 2; 3; 4; 5; 6; 7; 8; 9; 10; 11; 12]%Z) as Hin by (rewrite !elem_of_cons; lia).
  unfold days_in_month, civil_days, leap. rewrite !elem_of_cons, elem_of_nil in Hin.
  destruct Hin as [->|[->|[->|[->|[->|[->|[->|[->|[->|[->|[->|[->|[]]]]]]]]]]]]]; try reflexivity.
  cbn. assert (y mod 400 = 0 → y mod 4 = 0)%Z as H4.
  { intros E. apply Z.mod_divide in E as [k ->]; [|done]. apply Z.mod_divide; [done|]. exists (k * 100)%Z. lia. }
  destruct (Z.eqb_spec (y mod 4) 0), (Z.eqb_spec (y mod 100) 0), (Z.eqb_spec (y mod 400) 0); naive_solver.
Qed.

(** ** What a report is measured on *)
(** The tenant's incidents whose start has the month's text in front *)
Definition of_month (tid mo : string) (i : Incident) : bool :=
  match in_tenant_id i with Some t => String.eqb t tid | None => false end
  && String.eqb (String.substring 0 7 (in_started_at i)) mo.
Definition at_least_0 (q : Q) : Q := if Qle_bool q 0 then 0%Q else q.
(** How long an incident lasted, or has lasted so far on the clock of [w] *)
Definition lasted (w : World) (i : Incident) (d : Q) : Prop :=
  if String.eqb (in_state i) "resolved" then d = default 0%Q (in_mttr_min i)
  else ∃ n start t, (n < w_ticks w)%nat ∧ env_fromiso (w_env w) (in_started_at i) = Some start
         ∧ env_fromiso (w_env w) (env_clock (w_env w) n) = Some t ∧ d = at_least_0 ((t - start) / 60)%Q.
Definition line_of (i : Incident) (d : Q) : SlaLine := mkSlaLine (in_id i) (in_severity i) (round_q 100 d) (in_mttr_min i).
Definition measured (down : list Q) (y mo : Z) : Q :=
  round_q 10000 (at_least_0 (100 - foldr Qplus 0%Q down / inject_Z (civil_days y mo * 1440) * 100)%Q).
(** The monthly charge for the tenant's delivered orders *)
Definition hourly (blueprint : option string) : Q :=
  let k := default EmptyString blueprint in
  if String.eqb k "vr-nvl72" then 980%Q else if String.eqb k "gb300-nvl72" then 720%Q
  else if String.eqb k "gb200-nvl72" then 560%Q else 600%Q.
Definition charged_order (tid : string) (o : ServiceOrder) : bool :=
  String.eqb (o_tenant_id o) tid && match o_kind o with OK_new => true | _ => false end
  && match o_state o with OS_delivered => true | _ => false end.
Definition monthly_charge (s : Store) (tid : string) : Q :=
  round_q 100 (foldr (λ o q, (inject_Z (o_racks o) * hourly (o_blueprint_key o) * 720 + q)%Q) 0%Q
                 (filterb (charged_order tid) (dvalues (st_orders s)))).
(** The percentage of the charge that is credited *)
Definition credit_pct (avail : Q) : Z :=
  if Qle_bool 95 avail then if Qle_bool 99 avail then if Qle_bool (999 # 10) avail then 0%Z else 10%Z else 25%Z else 50%Z.
Definition mttr (i : Incident) : Q := default 0%Q (in_mttr_min i).
(** An incident that took longest to repair *)
Definition worst_of (incs : list Incident) (o : option string) : Prop :=
  match o with
  | None => incs = []
  | Some k => ∃ i, i ∈ incs ∧ in_id i = k ∧ ∀ j, j ∈ incs → Qle (mttr j) (mttr i)
  end.
(** A credit as it is first given *)
Record given (tid mo : string) (avail charge : Q) (incs : list Incident) (c : SlaCredit) : Prop := {
  gi_tenant : cr_tenant_id c = tid ∧ cr_month c = mo;
  gi_pct : cr_pct_of_monthly c = credit_pct avail;
  gi_amount : cr_amount_usd c = round_q 100 (charge * inject_Z (credit_pct avail) / 100)%Q;
  gi_incident : worst_of incs (cr_incident_id c);
  gi_status : cr_status c = "calculated" ∧ cr_applied_invoice c = None
}.
Definition credit_key (tid mo : string) : string := tid +:+ "|" +:+ mo.

Lemma substring_take n x : String.substring 0 n x = take_str n x.
Proof. revert x. induction n as [|n IH]; intros [|c x]; cbn; [done..|]. by rewrite IH. Qed.
Lemma of_month_eq tid mo i : in_month tid mo i = of_month tid mo i.
Proof.
  unfold in_month, of_month. rewrite substring_take. f_equal. destruct (in_tenant_id i) as [t|]; [|done].
  destruct (String.eqb_spec t tid) as [->|]; [by apply bool_decide_eq_true_2|]. apply bool_decide_eq_false_2. congruence.
Qed.
Lemma hourly_eq k : Business.rate_of k = hourly k.
Proof.
  unfold Business.rate_of, hourly. assert (str_or k EmptyString = default EmptyString k) as ->.
  { destruct k as [x|]; [|done]. cbn. unfold truthy_str. by destruct x. }
  generalize (default EmptyString k). intros x. unfold Business.RACK_HOUR_RATE_USD, dget.
  destruct (String.eqb x "vr-nvl72"), (String.eqb x "gb300-nvl72"), (String.eqb x "gb200-nvl72"); reflexivity.
Qed.
Lemma monthly_charge_eq s tid : _tenant_monthly_usd s tid = monthly_charge s tid.
Proof.
  unfold _tenant_monthly_usd, monthly_charge, Business.sum_q. f_equal.
  assert (∀ o, (String.eqb (o_tenant_id o) tid && bool_decide (o_kind o = OK_new) && bool_decide (o_state o = OS_delivered))
               = charged_order tid o) as Hc.
  { intros o. unfold charged_order. f_equal; [f_equal|]; [by destruct (o_kind o)|by destruct (o_state o)]. }
  unfold filterb. rewrite (List.filter_ext _ _ Hc). clear Hc.
  induction (List.filter _ _) as [|o l IH]; cbn [foldr]; [done|]. by rewrite IH, hourly_eq.
Qed.
Lemma credit_pct_eq avail : _credit_pct_for avail = credit_pct avail.
Proof.
  unfold _credit_pct_for, credit_pct, SLA_CREDIT_TABLE, SLA_TARGET_PCT, find_first. cbn [List.find fst snd].
  by destruct (Qle_bool 95 avail), (Qle_bool 99 avail), (Qle_bool (999 # 10) avail).
Qed.
Lemma worst_from (best : Incident) l x :
  x ∈ best :: l → Qle (mttr x) (mttr (min_by_from (λ a b, negb (Qle_bool (mttr a) (mttr b))) best l)).
Proof.
  revert best x. induction l as [|y l IH]; intros best x; cbn [min_by_from].
  { intros ->%list_elem_of_singleton. apply Qle_refl. }
  set (best' := if negb _ then y else best).
  assert (Qle (mttr best) (mttr best') ∧ Qle (mttr y) (mttr best')) as [H1 H2].
  { subst best'. destruct (Qle_bool (mttr y) (mttr best)) eqn:E; cbn [negb].
    - split; [apply Qle_refl|by apply Qle_bool_iff].
    - split; [|apply Qle_refl]. apply Qlt_le_weak, Qnot_le_lt. intros H%Qle_bool_iff. congruence. }
  rewrite !elem_of_cons. intros [->|[->|Hx]].
  - eapply Qle_trans; [exact H1|]. apply IH. left.
  - eapply Qle_trans; [exact H2|]. apply IH. left.
  - apply IH. by right.
Qed.
Lemma worst_spec incs : worst_of incs (in_id <$> worst incs).
Proof.
  unfold worst. destruct incs as [|i incs]; cbn; [done|]. eexists. split_and!; [apply min_by_from_in|done|].
  intros j Hj. by apply worst_from.
Qed.

(** ** The downtime *)
Definition ticking (w w' : World) : Prop := w_env w' = w_env w ∧ (w_ticks w ≤ w_ticks w')%nat.
#[export] Instance ticking_preorder : PreOrder ticking.
Proof. split; [by intros w|]. intros w1 w2 w3 [E1 H1] [E2 H2]. split; [congruence|lia]. Qed.
Lemma lasted_ticking w w' i d : ticking w w' → lasted w i d → lasted w' i d.
Proof.
  intros [E H]. unfold lasted. destruct (String.eqb _ _); [done|]. intros (n & st & t & Hn & ?).
  exists n, st, t. rewrite E. split; [lia|done].
Qed.
Lemma downtime_run i w d w' :
  downtime i w = (Ok d, w') → lasted w' i d ∧ ticking w w' ∧ w_store w' = w_store w.
Proof.
  unfold downtime, lasted, resolved. destruct (String.eqb (in_state i) "resolved"); [by intros [= <- <-]|].
  unfold Business.fromiso. run. cbn [w_env].
  destruct (env_fromiso _ (env_clock (w_env w) (w_ticks w))) as [t|] eqn:Et; run; [|done].
  destruct (env_fromiso _ (in_started_at i)) as [st|] eqn:Es; run; [|done]. intros [= <- <-]. cbn in *.
  split; [|split; [split; [done|cbn; lia]|done]]. exists (w_ticks w), st, t. split_and!; [lia|done..].
Qed.
Lemma downtimes_run incs w down w' :
  map_m downtime incs w = (Ok down, w') → Forall2 (lasted w') incs down ∧ ticking w w' ∧ w_store w' = w_store w.
Proof.
  revert w down. induction incs as [|i incs IH]; intros w down; cbn [map_m]; [by intros [= <- <-]|].
  intros (d & w1 & E1 & (ds & w2 & E2 & [= <- <-])%bind_inv)%bind_inv.
  destruct (downtime_run _ _ _ _ E1) as (H1 & K1 & S1). destruct (IH _ _ E2) as (H2 & K2 & S2).
  split_and!; [constructor; [by eapply lasted_ticking|done]|by transitivity w1|congruence].
Qed.

(** ** The credits do not depend on the feed *)
Section sla.
Context (twin : Z → IO (option (list TwinFault))) (twin_quiet : ∀ n, Steps (same w_store) (twin n)).
Definition credit_table (w : World) : dict SlaCredit := st_sla_credits (w_store w).
Local Abbreviation NoCredit := (Steps (same credit_table)).
Lemma quiet_nocredit {A} (m : IO A) : Steps (same w_store) m → NoCredit m.
Proof. apply steps_weaken. intros w w' E. unfold same, credit_table in *. by rewrite E. Qed.
#[local] Hint Extern 2 (NoCredit (s_mut _ _ _)) => by intros ? : steps.
#[local] Hint Extern 2 (NoCredit (s_set _ _ _)) => by intros ? : steps.
#[local] Hint Extern 2 (NoCredit (next_seq _)) => by intros ? : steps.
#[local] Hint Extern 4 (NoCredit _) => apply quiet_nocredit : steps.
#[local] Hint Resolve quiet_mttr quiet_over quiet_started quiet_feed quiet_fromiso quiet_now quiet_downtime quiet_known_tenant : steps.
Lemma nocredit_publish i : NoCredit (_publish_rca i).
Proof. unfold _publish_rca, store. solve_steps. Qed.
#[local] Hint Resolve nocredit_publish : steps.
Lemma nocredit_sync : NoCredit (_sync_incidents twin).
Proof. unfold _sync_incidents, sync_fault, locate, settle, incident_mut, s_idx, store. solve_steps. Qed.
Lemma nocredit_synthesize tid month y m : NoCredit (synthesize tid month y m).
Proof. unfold synthesize, store. solve_steps. Qed.
#[local] Hint Resolve nocredit_sync nocredit_synthesize : steps.
Lemma steps_ran {A} R (m : IO A) w x w' : Steps R m → m w = (x, w') → R w w'.
Proof. intros Hm E. specialize (Hm w). by rewrite E in Hm. Qed.
End sla.

(** ** The credit *)
Lemma credit_run tid mo avail incs w :
  credits_ok (w_store w) →
  ∃ c w', credit_for tid mo avail incs w = (Ok c, w') ∧ ticking w w'
    ∧ st_incidents (w_store w') = st_incidents (w_store w) ∧ st_orders (w_store w') = st_orders (w_store w)
    ∧ cr_key c = credit_key tid mo ∧ credit_of (w_store w') (cr_id c) = Some c
    ∧ (credit_of (w_store w) (cr_id c) = Some c ∧ st_sla_credits (w_store w') = st_sla_credits (w_store w)
       ∨ (∀ k d, credit_of (w_store w) k = Some d → cr_key d ≠ credit_key tid mo)
         ∧ st_sla_credits (w_store w') = dset (st_sla_credits (w_store w)) (cr_id c) c
         ∧ credit_of (w_store w) (cr_id c) = None
         ∧ given tid mo avail (monthly_charge (w_store w) tid) incs c).
Proof.
  intros Hok. unfold credit_for. rewrite (bind_ok store _ w (w_store w) w) by done. cbv beta zeta. fold (credit_key tid mo).
  destruct (find_first _ _) as [c|] eqn:Ef.
  { apply find_first_Some in Ef as [Hc Hk%String.eqb_eq]. apply dvalues_dget in Hc as [k Ek]; [|apply Hok].
    destruct (co_of _ Hok k c Ek) as (Eid & _). exists c, w. rewrite Eid. split_and!; try done. by left. }
  set (w1 := (next_seq "sla_credit" w).2). set (n := (count "sla_credit" (w_store w) + 1)%Z).
  rewrite (bind_ok (next_seq "sla_credit") _ w n w1) by done. cbv beta.
  set (c := mkCredit _ _ _ _ _ _ _ _ _). set (w2 := (s_set st_sla_credits ("crd-" +:+ str_of_Z n) c w1).2).
  rewrite (bind_ok (s_set _ _ _) _ w1 tt w2) by done. cbv beta.
  set (w3 := (emit "NeoCloudOS.M7" "BizPortal" "internal" ("service-credit:calculated → " +:+ "crd-" +:+ str_of_Z n) None None w2).2).
  rewrite (bind_ok (emit _ _ _ _ _ _) _ w2 tt w3) by done. exists c, w3. split_and!; [done| |done|done|done|..].
  - split; [done|]. change (w_ticks w3) with (S (w_ticks w)). lia.
  - change (dget (dset (st_sla_credits (w_store w)) (cr_id c) c) (cr_id c) = Some c). apply dget_dset_eq.
  - right. split_and!; try done.
    + intros k d Ek Eq. pose proof (proj1 (find_first_None _ _) Ef d (dget_dvalues _ _ _ Ek)) as Hd. cbn in Hd.
      by rewrite Eq, String.eqb_refl in Hd.
    + apply (co_fresh _ Hok). unfold n. lia.
    + split; try done; [by subst c; cbn; rewrite credit_pct_eq| |apply worst_spec].
      subst c. cbn. by rewrite credit_pct_eq, monthly_charge_eq.
Qed.
(** What becomes of the month's credit *)
Definition month_credit (tid : string) (avail : Q) (incs : list Incident) (s s' : Store) (r : SlaReport) : Prop :=
  if Qle_bool (999 # 10) avail then sr_credits r = [] ∧ st_sla_credits s' = st_sla_credits s
  else ∃ c, sr_credits r = [c] ∧ cr_key c = credit_key tid (sr_month r)
         ∧ (∀ k d, credit_of s' k = Some d → cr_key d = credit_key tid (sr_month r) ↔ k = cr_id c ∧ d = c)
         ∧ (credit_of s (cr_id c) = Some c ∧ st_sla_credits s' = st_sla_credits s
            ∨ (∀ k d, credit_of s k = Some d → cr_key d ≠ credit_key tid (sr_month r))
              ∧ st_sla_credits s' = dset (st_sla_credits s) (cr_id c) c ∧ credit_of s (cr_id c) = None
              ∧ given tid (sr_month r) avail (monthly_charge s' tid) incs c).

Section report.
Context (twin : Z → IO (option (list TwinFault))) (twin_quiet : ∀ n, Steps (same w_store) (twin n)).
(** What a report returns, of the state it leaves *)
Definition reported (tid mo : string) (y m : Z) (w w' : World) (r : SlaReport) : Prop :=
  let incs := filterb (of_month tid mo) (dvalues (st_incidents (w_store w'))) in
  ∃ down, Forall2 (lasted w') incs down
    ∧ sr_tenant r = tid ∧ sr_month r = mo
    ∧ sr_incidents r = zip_with line_of incs down
    ∧ sr_availability_pct r = measured down y m
    ∧ sr_violated r = negb (Qle_bool (999 # 10) (measured down y m))
    ∧ sr_monthly_amount_usd r = monthly_charge (w_store w') tid
    ∧ month_credit tid (measured down y m) incs (w_store w) (w_store w') r.

Lemma month_credit_run tid avail incs mo w cs w' r :
  credits_ok (w_store w) →
  (if negb (Qle_bool SLA_TARGET_PCT avail) then c ← credit_for tid mo avail incs; mret [c] else mret []) w = (Ok cs, w') →
  sr_credits r = cs → sr_month r = mo →
  ticking w w' ∧ st_incidents (w_store w') = st_incidents (w_store w) ∧ st_orders (w_store w') = st_orders (w_store w)
  ∧ month_credit tid avail incs (w_store w) (w_store w') r.
Proof.
  intros Hok E Er Em. unfold month_credit. change SLA_TARGET_PCT with (999 # 10) in E. rewrite Er, Em. clear Er Em r.
  destruct (Qle_bool (999 # 10) avail); cbn [negb] in E; [by injection E as <- <-|].
  destruct (credit_run tid mo avail incs w Hok) as (c & w2 & E2 & Ht & Ei & Eo & Ek & Ec & Hor).
  rewrite (bind_ok _ _ _ _ _ E2) in E. injection E as <- <-. split_and!; [done..|]. exists c. split_and!; [done|done| |].
  - intros k d Ed. split; [|by intros [-> ->]]. intros Hd. destruct Hor as [[Hc Es]|(Hnew & Es & _ & _)].
    + unfold credit_of in Ed, Ec. rewrite Es in Ed, Ec.
      assert (k = cr_id c) as -> by (eapply (co_one _ Hok); [exact Ed|exact Ec|congruence]). split; [done|congruence].
    + unfold credit_of in Ed. rewrite Es, dget_dset in Ed. destruct (String.eqb_spec k (cr_id c)) as [->|].
      * injection Ed as <-. done.
      * by destruct (Hnew _ _ Ed).
  - destruct Hor as [?|(? & ? & ? & Hg)]; [by left|right]. split_and!; try done.
    unfold monthly_charge in *. by rewrite Eo.
Qed.
Definition chosen_month (month : option string) (w : World) : string :=
  let x := default EmptyString month in
  if String.eqb x EmptyString then String.substring 0 7 (env_clock (w_env w) (w_ticks w)) else x.
Lemma chosen_run month w :
  ∃ w', (if truthy month then mret (default EmptyString month) else t ← now; mret (take_str 7 t)) w
    = (Ok (chosen_month month w), w') ∧ w_store w' = w_store w.
Proof.
  unfold chosen_month. destruct month as [x|]; cbn [truthy default].
  - unfold truthy_str. destruct (String.eqb_spec x EmptyString) as [->|]; cbn [negb].
    + eexists. split; [run; by rewrite substring_take|done].
    + rewrite (proj2 (String.eqb_neq _ _)) by done. by exists w.
  - eexists. split; [run; by rewrite substring_take|done].
Qed.
Lemma report_run tid month v w r w' :
  books_ok (w_store w) → sla_report twin tid month v w = (Ok r, w') →
  ∃ y m, month_text (chosen_month month w) y m ∧ reported tid (chosen_month month w) y m w w' r.
Proof.
  intros [_ Hc] E. unfold sla_report in E.
  apply bind_inv in E as (u1 & w1 & E1 & E).
  assert (w1 = w) as -> by (revert E1; unfold known_tenant; run; destruct (dmem _ _); by intros [= <-]). clear E1.
  destruct (chosen_run month w) as (w2 & E2 & Es2). rewrite (bind_ok _ _ _ _ _ E2) in E. clear E2.
  set (mo := chosen_month month w) in *. destruct (parse_month mo) as [[y m]|] eqn:Ep; [|done].
  rewrite (bind_ok (mret (y, m)) _ w2 (y, m) w2) in E by done. cbv beta iota in E.
  apply parse_month_text in Ep. exists y, m. split; [done|].
  apply bind_inv in E as (u4 & w4 & E4 & (u5 & w5 & E5 & E)%bind_inv).
  assert (credit_table w5 = credit_table w) as Ec5.
  { apply (steps_ran _ _ _ _ _ (nocredit_sync twin twin_quiet)) in E4.
    assert (Steps (same credit_table) (when v (synthesize tid mo y m))) as Hs by (apply steps_when; [apply _|apply nocredit_synthesize]).
    apply (steps_ran _ _ _ _ _ Hs) in E5. unfold same, credit_table in *. congruence. }
  assert (credits_ok (w_store w5)) as Hc5.
  { assert (Steps (on_store credited) (when v (synthesize tid mo y m))) as Hs by (apply steps_when; [apply _|apply synthesize_credited]).
    apply (steps_ran _ _ _ _ _ Hs) in E5. apply (steps_ran _ _ _ _ _ (sync_credited twin twin_quiet)) in E4.
    unfold on_store in *. rewrite Es2 in E4. by apply E5, E4. }
  apply bind_inv in E as (s & w6 & [= <- <-] & E). cbv zeta in E.
  apply bind_inv in E as (down & w7 & E7 & E). destruct (downtimes_run _ _ _ _ E7) as (Hd & Ht7 & Es7). clear E7.
  destruct (_ && _) in E; [done|]. cbv zeta in E. apply bind_inv in E as (cs & w8 & E8 & E). injection E as <- <-.
  assert (credits_ok (w_store w7)) as Hc7 by by rewrite Es7.
  assert (∀ x, days_in_month y m = x → availability (Business.sum_q id down) (x * 1440) = measured down y m) as Hav.
  { intros x <-. unfold availability, measured. rewrite civil_days_eq; [done|]. destruct Ep as (ys & ms & _ & _ & _ & _ & _ & ? & ?). lia. }
  rewrite (Hav _ eq_refl) in *. clear Hav. set (avail := measured down y m) in *.
  set (r := mkSlaReport _ _ _ _ _ _ _).
  destruct (month_credit_run tid avail _ mo w7 cs w8 r Hc7 E8 eq_refl eq_refl) as (Ht8 & Ei8 & Eo8 & Hcr).
  assert (filterb (in_month tid mo) (dvalues (st_incidents (w_store w5)))
          = filterb (of_month tid mo) (dvalues (st_incidents (w_store w8)))) as Hincs.
  { rewrite Ei8, Es7. apply List.filter_ext. intros i. apply of_month_eq. }
  rewrite Hincs in *. exists down. cbn zeta. split_and!; try done.
  - eapply Forall2_impl; [exact Hd|]. intros i d Hi. by eapply lasted_ticking.
  - change (sr_incidents r) with (zip_with line_of (filterb (in_month tid mo) (dvalues (st_incidents (w_store w5)))) down).
    by rewrite Hincs.
  - change (sr_monthly_amount_usd r) with (_tenant_monthly_usd (w_store w5) tid). rewrite monthly_charge_eq. unfold monthly_charge. by rewrite Eo8, Es7.
  - rewrite Es7 in Hcr. unfold month_credit, credit_of, credit_table in *. by rewrite Ec5 in Hcr.
Qed.

(** ** When a report fails *)
(** [m] fails only at a text that is no time, and at [e] if at all *)
Definition Unread {A} (e : option exn) (m : IO A) : Prop :=
  ∀ w, match m w with
       | (Raised x, w') => Some x = e ∨ ∃ s, x = ValueError s ∧ env_fromiso (w_env w') s = None
       | _ => True
       end.
Lemma unread_total {A} e (m : IO A) : Total m → Unread e m.
Proof. intros Hm w. specialize (Hm w). destruct (m w) as [[a|x] w']; [done|]. cbn in Hm. naive_solver. Qed.
Lemma unread_bind {A B} e (m : IO A) (f : A → IO B) : Unread e m → (∀ a, Unread e (f a)) → Unread e (m ≫= f).
Proof.
  intros Hm Hf w. specialize (Hm w). unfold mbind, M_bind. destruct (m w) as [[a|x] w']; [apply Hf|exact Hm].
Qed.
Lemma unread_fromiso e s : Unread e (Business.fromiso s).
Proof. intros w. unfold Business.fromiso. run. destruct (env_fromiso _ _) eqn:E; [done|]. right. by exists s. Qed.
Lemma unread_map_m {A B} e (f : A → IO B) l : (∀ x, Unread e (f x)) → Unread e (map_m f l).
Proof.
  intros Hf. induction l as [|x l IH]; cbn [map_m]; [done|].
  apply unread_bind; [done|]. intros y. by apply unread_bind.
Qed.
Lemma unread_downtime e i : Unread e (downtime i).
Proof.
  unfold downtime. destruct (resolved i); [done|]. apply unread_bind; [done|]. intros t.
  apply unread_bind; [apply unread_fromiso|]. intros q. by apply unread_bind; [apply unread_fromiso|].
Qed.
Lemma unread_synthesize e tid mo y m : Unread e (synthesize tid mo y m).
Proof.
  unfold synthesize. apply unread_bind; [done|]. intros s. destruct (anyb _ _); [done|].
  apply unread_bind; [done|]. intros n. apply unread_bind; [apply unread_fromiso|]. intros q.
  apply unread_bind; [done|]. intros d. apply unread_bind; [done|]. intros [].
  apply unread_total. unfold _publish_rca, store. solve_raises.
Qed.
Lemma total_credit tid mo avail incs : Total (credit_for tid mo avail incs).
Proof. unfold credit_for, store. solve_raises. Qed.
Context (twin_answers : ∀ n, Total (twin n)).
(** Only a time that does not parse, or the end of the calendar, stops the report of a month. *)
Lemma report_returns tid month v w y m :
  books_ok (w_store w) → dmem (st_tenants (w_store w)) tid = true → month_text (chosen_month month w) y m →
  match sla_report twin tid month v w with
  | (Ok _, _) => True
  | (Raised x, w') => (x = ValueError "year 10000 is out of range" ∧ (y, m) = (9999, 12)%Z)
                      ∨ ∃ s, x = ValueError s ∧ env_fromiso (w_env w') s = None
  end.
Proof.
  intros [Hp _] Et Em. unfold sla_report.
  rewrite (bind_ok (known_tenant tid) _ w tt w) by (unfold known_tenant; run; by rewrite Et).
  destruct (chosen_run month w) as (w2 & E2 & Es2). rewrite (bind_ok _ _ _ _ _ E2).
  apply parse_month_text in Em. rewrite Em.
  rewrite (bind_ok (mret (y, m)) _ w2 (y, m) w2) by done. cbv beta iota.
  destruct (sync_run twin twin_answers twin_quiet w2) as (feed & w3 & w4 & _ & E3 & _); [by rewrite Es2|].
  rewrite (bind_ok _ _ _ _ _ E3). cbv beta.
  set (e := if ((y =? 9999) && (m =? 12))%Z then Some (ValueError "year 10000 is out of range") else None).
  enough (∀ k : IO SlaReport, Unread e k → match k w3 with
    | (Ok _, _) => True
    | (Raised x, w') => (x = ValueError "year 10000 is out of range" ∧ (y, m) = (9999, 12)%Z)
                        ∨ ∃ s, x = ValueError s ∧ env_fromiso (w_env w') s = None end) as Hk.
  { apply Hk. apply unread_bind; [destruct v; [apply unread_synthesize|done]|]. intros _.
    apply unread_bind; [done|]. intros s. cbv zeta. apply unread_bind; [by apply unread_map_m, unread_downtime|].
    intros down. subst e. destruct (_ && _)%Z; [intros ?; by left|]. apply unread_total.
    apply raises_bind; [|intros ?; apply raises_ret]. destruct (negb _); [|apply raises_ret].
    apply raises_bind; [apply total_credit|intros ?; apply raises_ret]. }
  intros k Hk. specialize (Hk w3). destruct (k w3) as [[r|x] w']; [done|]. destruct Hk as [Hx|?]; [left|by right].
  subst e. destruct (Z.eqb_spec y 9999), (Z.eqb_spec m 12); cbn in Hx; [|done..]. split; congruence.
Qed.

(** C34: The monthly SLA report.  An unknown tenant is refused with 404 and a text
    that is no month (four digits, a dash and one or two digits for 1 to 12) with
    422, both without effect.  Otherwise the report is given, unless a time text
    does not parse or the month is December 9999.  A report is about the month asked for, or the current
    one.  It has a line for each of the tenant's incidents whose start has exactly
    that text as its first seven characters, with its duration: the repair time of a
    resolved one, the time so far of an open one.  The availability is 100 less the
    percentage these durations take of the calendar month's minutes, rounded to four
    digits; the month is violated exactly below 99.9.  The monthly amount is that of
    the tenant's own delivered orders.  A month that is not violated gives no credit
    and leaves the credits alone; for a violated one there is exactly one credit:
    the one given before if there was one, and else a new one of 50, 25 or 10
    percent of the monthly amount, for an availability below 95, 99 or 99.9, that
    names an incident of the month that took longest to repair. *)
Theorem sla_report_spec tid month v w :
  books_ok (w_store w) →
  (dmem (st_tenants (w_store w)) tid = false →
     ∃ d, sla_report twin tid month v w = (Raised (HTTPException 404 d), w))
  ∧ (∀ m, month = Some m → m ≠ EmptyString → (∀ y mo, ¬ month_text m y mo) → dmem (st_tenants (w_store w)) tid = true →
       ∃ d, sla_report twin tid month v w = (Raised (HTTPException 422 d), w))
  ∧ (∀ y m, month_text (chosen_month month w) y m → dmem (st_tenants (w_store w)) tid = true →
       (∃ r w', sla_report twin tid month v w = (Ok r, w'))
       ∨ ∃ s w', sla_report twin tid month v w = (Raised (ValueError s), w')
           ∧ ((y, m) = (9999, 12)%Z ∨ env_fromiso (w_env w') s = None))
  ∧ ∀ r w', sla_report twin tid month v w = (Ok r, w') →
      ∃ y m, month_text (chosen_month month w) y m ∧ reported tid (chosen_month month w) y m w w' r.
Proof.
  intros Hok. split_and!.
  - intros Et. unfold sla_report, known_tenant. run. rewrite Et. by eexists.
  - intros m -> Hm Hp Et. unfold sla_report, known_tenant. run. rewrite Et. cbn [truthy].
    unfold truthy_str. rewrite (proj2 (String.eqb_neq _ _)) by done. cbn.
    destruct (parse_month m) as [[y mo]|] eqn:Ep; [by apply parse_month_text, Hp in Ep|]. by eexists.
  - intros y m Em Et. pose proof (report_returns tid month v w y m Hok Et Em) as H.
    destruct (sla_report _ _ _ _ _) as [[r|x] w']; [left; eauto|right].
    destruct H as [[-> ?]|(s & -> & ?)]; eauto.
  - intros r w' E. by apply (report_run tid month v).
Qed.
End report.

(** On the delivered site: a fault, its recovery, and the month's report *)
Definition month_view (r : SlaReport) :=
  (sr_month r, length (sr_incidents r), sr_violated r, (λ c, (cr_id c, cr_pct_of_monthly c)) <$> sr_credits r).
Lemma report_view :
  match (sla_report no_twin "tnt-acme" (Some "2026-07") true settled_site).1 with
  | Ok r => Some (month_view r) | Raised _ => None
  end = Some ("2026-07", 1, true, [("crd-1", 10%Z)]).
Proof. vm_compute. reflexivity. Qed.
Lemma sla_report_spec_witness :
  books_ok (w_store settled_site)
  ∧ ∃ r w', sla_report no_twin "tnt-acme" (Some "2026-07") true settled_site = (Ok r, w')
    ∧ month_view r = ("2026-07", 1, true, [("crd-1", 10%Z)])
    ∧ ∃ y m, reported "tnt-acme" "2026-07" y m settled_site w' r.
Proof.
  assert (books_ok (w_store settled_site)) as Hok.
  { apply (run_books Lifecycle.demo_http no_twin no_twin_answers no_twin_quiet site settled_site); [|exact site_books].
    exact (recovery_rtc Lifecycle.demo_http no_twin (Demo.tray_id 1 0) 0 79 2 2 site). }
  split; [exact Hok|].
  destruct (sla_report no_twin "tnt-acme" (Some "2026-07") true settled_site) as [[r|e] w'] eqn:E.
  2: { apply (f_equal (λ r, match r.1 with Ok _ => true | _ => false end)) in E. vm_compute in E. discriminate E. }
  exists r, w'. split; [reflexivity|]. split.
  { pose proof report_view as Hv. rewrite E in Hv. cbn [fst] in Hv. congruence. }
  destruct (proj2 (proj2 (proj2 (sla_report_spec no_twin no_twin_quiet no_twin_answers "tnt-acme" (Some "2026-07") true settled_site Hok))) r w' E)
    as (y & m & _ & Hr).
  exists y, m. exact Hr.
Defined.
End SlaThms.
