(* ===== verification/EmuThms.v ===== *)
(** * The compute-tray emulator: theorems

    The emulator mirrors the store's bindings, and its telemetry and logs stay
    within their bounds, whatever is drawn at random and in whatever order ticks,
    injections and profile changes come. *)
From Stdlib Require Import QArith Lqa.
From stdpp Require Import strings base decidable option numbers list relations.
From S2P Require Import Prelude PyLib Models EmuModels World TrayEmu Demo.
Local Open Scope string_scope.
Local Open Scope list_scope.
Local Open Scope py_scope.

Module EmuThms.
Import Emu.

(** ** Programs that always return, within an invariant

    [Runs I Q m]: from a state in [I], [m] returns a value in [Q] and stays in [I]. *)
Definition Runs {W A} (I : W → Prop) (Q : A → Prop) (m : M W A) : Prop :=
  ∀ w, I w → ∃ a w', m w = (Ok a, w') ∧ I w' ∧ Q a.
Section runs.
Context {W : Type} (I : W → Prop).
Lemma runs_ret {A} (Q : A → Prop) a : Q a → Runs I Q (mret a).
Proof. intros H w Hw. by exists a, w. Qed.
Lemma runs_bind {A B} (P : A → Prop) (Q : B → Prop) (m : M W A) (f : A → M W B) :
  Runs I P m → (∀ a, P a → Runs I Q (f a)) → Runs I Q (m ≫= f).
Proof.
  intros Hm Hf w Hw. destruct (Hm w Hw) as (a & w1 & E & H1 & Ha). rewrite (bind_ok _ _ _ _ _ E). by apply Hf.
Qed.
(** A step whose value does not matter *)
Lemma runs_step {A B} (Q : B → Prop) (m : M W A) (f : A → M W B) :
  Runs I (λ _, True) m → (∀ a, Runs I Q (f a)) → Runs I Q (m ≫= f).
Proof. intros Hm Hf. by apply (runs_bind (λ _, True)). Qed.
Lemma runs_gets {A B} (Q : B → Prop) (g : W → A) (f : A → M W B) :
  (∀ w, I w → Runs I Q (f (g w))) → Runs I Q (gets g ≫= f).
Proof. intros Hf w Hw. by apply (Hf w Hw w). Qed.
Lemma runs_weaken {A} (P Q : A → Prop) (m : M W A) : (∀ a, P a → Q a) → Runs I P m → Runs I Q m.
Proof. intros H Hm w Hw. destruct (Hm w Hw) as (a & w' & ? & ? & ?). exists a, w'. auto. Qed.
Lemma runs_map {A B} (P : A → Prop) (R : A → B → Prop) (f : A → M W B) l :
  (∀ x, P x → Runs I (R x) (f x)) → Forall P l → Runs I (Forall2 R l) (map_m f l).
Proof.
  intros Hf. induction 1 as [|x l Hx _ IH]; [by apply runs_ret|]. cbn [map_m].
  apply (runs_bind (R x)); [by apply Hf|]. intros y Hy. apply (runs_bind (Forall2 R l)); [done|].
  intros ys Hys. apply runs_ret. by constructor.
Qed.
End runs.

(** ** Telemetry *)
Record gpu_ok (g : GpuTelemetry) : Prop := {
  go_util : (0 <= gt_util_pct g)%Q ∧ (gt_util_pct g <= 100)%Q;
  go_ttl : (0 ≤ gt_fault_ttl g ≤ 300)%Z;
  go_state : gt_state g ∈ ["idle"; "active"; "throttled"; "fault"]
}.
Record tray_ok (rt : TrayRuntime) : Prop := {
  to_gpus : Forall gpu_ok (rt_gpus rt);
  to_cpu : (rt_cpu_util_pct rt <= 100)%Q
}.
Lemma q_min_r a b : (q_min a b <= a)%Q.
Proof. unfold q_min. destruct (Qle_bool a b) eqn:E; [apply Qle_refl|]. apply Qnot_lt_le. intros H. apply Qlt_le_weak, Qle_bool_iff in H. congruence. Qed.
Lemma q_max_l a b : (a <= q_max a b)%Q.
Proof. unfold q_max. destruct (Qle_bool a b) eqn:E; [by apply Qle_bool_iff|apply Qle_refl]. Qed.
Lemma clamped_util x : (0 <= round_q 10 (q_min 100 (q_max 0 x)))%Q ∧ (round_q 10 (q_min 100 (q_max 0 x)) <= 100)%Q.
Proof.
  split; [|apply (round_q_le 10 100), q_min_r]. apply (round_q_ge 10 0). unfold q_min.
  destruct (Qle_bool 100 _); [easy|apply q_max_l].
Qed.
(** The updates of a GPU, for any values within the bounds *)
Lemma gpu_running g u st t pw hbm :
  gpu_ok g → (0 <= u)%Q ∧ (u <= 100)%Q → st ∈ ["idle"; "active"; "throttled"; "fault"] →
  gpu_ok (g <| gt_util_pct := u |> <| gt_state := st |> <| gt_temp_c := t |> <| gt_power_w := pw |> <| gt_hbm_used_gb := hbm |>).
Proof. by intros [_ Ht _] Hu Hs. Qed.
Lemma gpu_ecc g f : gpu_ok g → gpu_ok (g <| gt_ecc_corrected ::= f |>).
Proof. by intros []. Qed.
Lemma gpu_resting g t pw : gpu_ok g →
  gpu_ok (g <| gt_state := "idle" |> <| gt_util_pct := 0%Q |> <| gt_temp_c := t |> <| gt_power_w := pw |>).
Proof. intros [_ Ht _]. split; [by split; apply Qle_bool_iff|exact Ht|left]. Qed.
Lemma gpu_faulted g f ttl : gpu_ok g → (0 ≤ ttl ≤ 300)%Z →
  gpu_ok (g <| gt_xid_events ::= f |> <| gt_state := "fault" |> <| gt_fault_ttl := ttl |>).
Proof. intros [Hu _ _] Ht. split; [exact Hu|exact Ht|set_solver]. Qed.
Lemma gpu_drawn g f ttl : gpu_ok g → (0 ≤ ttl ≤ 300)%Z →
  gpu_ok (g <| gt_xid_events ::= f |> <| gt_fault_ttl := ttl |> <| gt_state := "fault" |>).
Proof. intros [Hu _ _] Ht. split; [exact Hu|exact Ht|set_solver]. Qed.
Lemma gpu_recovering g pw f : gpu_ok g → (0 < gt_fault_ttl g)%Z →
  gpu_ok (g <| gt_fault_ttl ::= λ t, (t - 1)%Z |> <| gt_state := "fault" |> <| gt_util_pct := 0%Q |>
            <| gt_power_w := pw |> <| gt_temp_c ::= f |>).
Proof.
  intros [_ Ht _] H. split; [by split; apply Qle_bool_iff|cbn; lia|set_solver].
Qed.
Lemma running_state (a b : bool) :
  (if a then "throttled" else if b then "active" else "idle") ∈ ["idle"; "active"; "throttled"; "fault"].
Proof. destruct a, b; set_solver. Qed.
(** What a tick of its tray does to a GPU of a running tray *)
Definition cooled (calm : bool) (g g' : GpuTelemetry) : Prop :=
  gpu_ok g' ∧ (calm = true → gt_fault_ttl g' = Z.max 0 (gt_fault_ttl g - 1)
                 ∧ (gt_fault_ttl g = 0%Z → gt_state g' ≠ "fault")).
Lemma running_calm (a b : bool) : (if a then "throttled" else if b then "active" else "idle") ≠ "fault".
Proof. by destruct a, b. Qed.

(** ** The emulator *)
Record emu_ok (e : TrayEmulator) : Prop := {
  eo_wf : dict_wf (em_trays e);
  eo_trays id rt : dget (em_trays e) id = Some rt → tray_ok rt ∧ rt_tray_id rt = id;
  eo_profiles t p : dget (em_cluster_profile e) t = Some p → p ∈ dkeys PROFILES;
  eo_log : (length (em_fault_log e) ≤ FAULT_LOG_LEN)%nat;
  eo_global : (length (em_history_global e) ≤ HISTORY_LEN)%nat;
  eo_tenants t l : dget (em_history_tenants e) t = Some l → (length l ≤ HISTORY_LEN)%nat
}.
(** The emulator's trays are the store's, each for the tenant it is bound to. *)
Record mirrors (s : Store) (e : TrayEmulator) : Prop := {
  mi_live id : is_Some (dget (em_trays e) id) ↔ ∃ t, t ∈ dvalues (st_trays s) ∧ t_id t = id;
  mi_tenant id rt : dget (em_trays e) id = Some rt → rt_tenant_id rt = fst <$> bound_to s id;
  mi_workload id rt : dget (em_trays e) id = Some rt →
    rt_workload rt = "standby" ↔ rt_tenant_id rt = None
}.
(** The draws of [random.randrange], and whether faults occur by themselves *)
Definition draws_ok (env : Env) : Prop := ∀ k n, (0 < n → 0 ≤ env_randbelow env k n < n)%Z.
Definition calm (env : Env) : bool := negb (String.eqb (default EmptyString (env_var env "NOCP_RANDOM_FAULTS")) "1").

Section runs_emu.
Context (s : Store) (env : Env) (Hdraws : draws_ok env).
(** [J] is any further property of the emulator that the logs do not matter for. *)
Context (J : TrayEmulator → Prop).
Context (J_log : ∀ e f, J e → J (e <| em_fault_log ::= f |>)).
Definition I (w : World) : Prop := w_env w = env ∧ w_store w = s ∧ emu_ok (w_emu w) ∧ J (w_emu w).
Local Abbreviation Ran := (Runs I (λ _, True)).
Lemma ran_now : Ran now.
Proof. intros w Hw. by eexists _, _. Qed.
Lemma ran_random : Ran (random : IO Q).
Proof. intros w Hw. by eexists _, _. Qed.
Lemma ran_uniform a b : Ran (uniform a b).
Proof. intros w Hw. by eexists _, _. Qed.
Lemma ran_emit a1 a2 a3 a4 a5 a6 : Ran (emit a1 a2 a3 a4 a5 a6).
Proof. intros w Hw. by eexists _, _. Qed.
Lemma ran_choice : Ran (random_choice XID_POOL).
Proof.
  intros w Hw. unfold random_choice. destruct Hw as (Ee & Hw). rewrite Ee.
  pose proof (Hdraws (w_draws w) 3%Z ltac:(lia)) as Hd. change (Z.of_nat (length XID_POOL)) with 3%Z.
  destruct (lookup_lt_is_Some_2 XID_POOL (Z.to_nat (env_randbelow env (w_draws w) 3%Z))) as [x Ex]; [cbn; lia|].
  rewrite Ex. eexists _, _. split; [done|]. split; [|done]. by split.
Qed.
(** The log is a bounded window. *)
Lemma length_push {A} n (x : A) l : (length (push n x l) ≤ n)%nat.
Proof. unfold push. rewrite length_drop, length_app. cbn. lia. Qed.
Lemma length_update_first {A} p (f : A → A) l : length (update_first p f l) = length l.
Proof. induction l as [|x l IH]; cbn; [done|]. destruct (p x); cbn; congruence. Qed.
Lemma length_update_last {A} p (f : A → A) l : length (update_last p f l) = length l.
Proof. unfold update_last. by rewrite length_reverse, length_update_first, length_reverse. Qed.
Lemma ran_log (f : TrayEmulator → list Episode → list Episode) :
  (∀ e l, (length l ≤ FAULT_LOG_LEN)%nat → (length (f e l) ≤ FAULT_LOG_LEN)%nat) →
  Ran (upd_emu (λ e, e <| em_fault_log ::= f e |>)).
Proof.
  intros Hf w (Ee & Es & [] & HJ). eexists _, _. split; [done|]. split; [|done]. split_and!; [done|done| |by apply J_log].
  split; try done. by apply Hf.
Qed.
Lemma ran_log_fault ep : Ran (log_fault ep).
Proof. apply (ran_log (λ _, push FAULT_LOG_LEN ep)). intros e l _. apply length_push. Qed.
Lemma runs_random_fault rt g : gpu_ok g → Runs I gpu_ok (random_fault rt g).
Proof.
  intros Hg. unfold random_fault. apply runs_step; [apply ran_choice|intros xid].
  apply runs_gets. intros w _. apply runs_step; [apply ran_now|intros at_].
  apply runs_step; [apply ran_log_fault|intros _]. apply runs_step; [apply ran_emit|intros _].
  apply runs_ret. by apply gpu_drawn.
Qed.
Lemma runs_recover rt g : gpu_ok g → (0 < gt_fault_ttl g)%Z → Runs I (cooled (calm env) g) (recover_gpu rt g).
Proof.
  intros Hg Ht. unfold recover_gpu. cbv zeta. apply runs_step.
  - destruct (_ =? _)%Z; [|by apply runs_ret]. apply runs_gets. intros w _.
    destruct (anyb _ _); [|by apply runs_ret]. apply runs_step; [apply ran_now|intros at_].
    apply (ran_log (λ e, update_last _ (close_episode at_ (em_step e)))). intros e l. by rewrite length_update_last.
  - intros _. apply runs_ret. split; [by apply gpu_recovering|]. intros _. cbn. split; lia.
Qed.
Lemma runs_gpu rt b q g : gpu_ok g → Runs I (cooled (calm env) g) (advance_gpu rt b q g).
Proof.
  intros Hg. unfold advance_gpu. destruct (Z.ltb_spec 0 (gt_fault_ttl g)) as [|Ht]; [by apply runs_recover|].
  assert (gt_fault_ttl g = 0)%Z as Ht0 by (destruct (go_ttl _ Hg); lia).
  unfold run_gpu. apply runs_step; [apply ran_uniform|intros noise].
  apply runs_step; [apply ran_uniform|intros drift]. cbv zeta.
  apply runs_step; [apply ran_random|intros ecc]. set (g2 := if Qle_bool (2 # 1000) ecc then _ else _).
  assert (gpu_ok g2 ∧ gt_fault_ttl g2 = 0%Z ∧ gt_state g2 ≠ "fault") as (Hg2 & Ht2 & Hs2).
  { unfold g2. clear g2. destruct (Qle_bool (2 # 1000) ecc); (split; [|split; [exact Ht0|apply running_calm]]);
      [|apply gpu_ecc]; (apply gpu_running; [exact Hg|apply clamped_util|apply running_state]). }
  clearbody g2. unfold _random_faults_enabled.
  apply (runs_bind I (λ en, en = negb (calm env))).
  { intros w Hw. eexists _, w. split; [done|]. split; [done|]. destruct Hw as [<- _]. unfold calm. by rewrite negb_involutive. }
  intros en ->. destruct (calm env) eqn:Ec; cbn [negb].
  - apply runs_ret. split; [done|]. intros _. rewrite Ht0, Ht2. by split.
  - apply runs_step; [apply ran_random|intros r]. destruct (Qle_bool _ _); [by apply runs_ret|].
    eapply runs_weaken; [|by apply runs_random_fault]. intros g' Hg'. by split.
Qed.
Lemma runs_rest g : gpu_ok g → Runs I gpu_ok (rest_gpu g).
Proof. intros Hg. unfold rest_gpu. apply runs_step; [apply ran_uniform|intros t]. apply runs_ret. by apply gpu_resting. Qed.
(** *** One tray *)
Definition busy (rt : TrayRuntime) : Prop := rt_tenant_id rt ≠ None ∧ rt_workload rt ≠ "standby".
Definition advanced (c : bool) (rt rt' : TrayRuntime) : Prop :=
  tray_ok rt' ∧ rt_tray_id rt' = rt_tray_id rt ∧ rt_tenant_id rt' = rt_tenant_id rt
  ∧ (rt_workload rt' = "standby" ↔ rt_workload rt = "standby")
  ∧ (busy rt → Forall2 (cooled c) (rt_gpus rt) (rt_gpus rt')).
Lemma forall2_r {A B} (R : A → B → Prop) (P : B → Prop) l k :
  (∀ x y, R x y → P y) → Forall2 R l k → Forall P k.
Proof. intros H. induction 1; constructor; eauto. Qed.
Lemma forall2_mono {A B} (P : A → Prop) (R : A → B → Prop) (Q : B → Prop) l k :
  Forall P l → Forall2 R l k → (∀ x y, P x → R x y → Q y) → Forall Q k.
Proof. intros Hl H HQ. revert Hl. induction H; intros Hl; inversion Hl; subst; constructor; eauto. Qed.
Lemma rest_cpu u : (q_max (1 # 2) (q_min 4 u) <= 100)%Q.
Proof.
  unfold q_max. destruct (Qle_bool _ _); [|by apply Qle_bool_iff].
  apply (Qle_trans _ 4); [apply q_min_r|by apply Qle_bool_iff].
Qed.
Lemma runs_rest_tray rt : tray_ok rt → ¬ busy rt → Runs I (advanced (calm env) rt) (rest_tray rt).
Proof.
  intros [Hg Hc] Hb. unfold rest_tray. apply runs_step; [apply ran_uniform|intros d].
  apply (runs_bind I (Forall2 (λ _, gpu_ok) (rt_gpus rt))).
  { apply (runs_map I gpu_ok); [intros g Hg'; by apply runs_rest|done]. }
  intros gpus Hgs. apply runs_ret. split_and!; [|done..|done].
  split; [by apply (forall2_r (λ _, gpu_ok) gpu_ok) in Hgs|apply rest_cpu].
Qed.
Lemma runs_run_tray rt p step : tray_ok rt → p ∈ dkeys PROFILES → rt_workload rt ≠ "standby" →
  Runs I (advanced (calm env) rt) (run_tray rt p step).
Proof.
  intros [Hg Hc] Hp Hw. unfold run_tray. apply dget_is_Some_in in Hp as [prof Ep].
  rewrite Ep. cbn [or_raise]. apply runs_step; [by apply runs_ret|intros prof'].
  set (rt1 := rt <| rt_workload := _ |>).
  assert (rt_gpus rt1 = rt_gpus rt ∧ rt_tray_id rt1 = rt_tray_id rt ∧ rt_tenant_id rt1 = rt_tenant_id rt
    ∧ rt_workload rt1 ≠ "standby") as (E1 & E2 & E3 & E4).
  { split_and!; [done..|]. unfold rt1. cbn -[PROFILES]. destruct (_ && _); [done|].
    intros ->. vm_compute in Ep. discriminate Ep. }
  clearbody rt1. apply runs_step.
  { destruct (_ && _); apply ran_uniform. }
  intros target. apply (runs_bind I (Forall2 (cooled (calm env)) (rt_gpus rt))).
  { rewrite E1. apply (runs_map I gpu_ok); [intros g Hg'; by apply runs_gpu|done]. }
  intros gpus Hgs. do 3 (apply runs_step; [apply ran_uniform|intros ?]). apply runs_ret.
  split_and!; [|done..| |done].
  - split; [by apply (forall2_r (cooled (calm env)) gpu_ok _ _ (λ _ _ H, proj1 H) Hgs)|].
    apply (round_q_le 10 100), q_min_r.
  - split; [|done]. intros E. by destruct E4.
Qed.
Lemma runs_advance rt :
  (∀ w t, I w → default "training" (dget (em_cluster_profile (w_emu w)) t) ∈ dkeys PROFILES) →
  tray_ok rt → Runs I (advanced (calm env) rt) (_advance rt).
Proof.
  intros Hp Hok. unfold _advance. apply runs_gets. intros w Hw. cbv zeta.
  set (rt1 := rt <| rt_step := em_step (w_emu w) |>).
  assert (tray_ok rt1) as Hok1 by (destruct Hok; by split).
  change (advanced (calm env) rt) with (advanced (calm env) rt1).
  destruct (rt_tenant_id rt1) as [t|] eqn:Et; [|apply runs_rest_tray; [done|intros []; congruence]].
  destruct (String.eqb_spec (rt_workload rt1) "standby") as [E|E].
  - apply runs_rest_tray; [done|by intros []].
  - apply runs_run_tray; [done|by apply Hp|done].
Qed.
End runs_emu.

(** *** All trays *)
Definition kept_world (w w' : World) : Prop := w_env w' = w_env w ∧ w_store w' = w_store w.
Lemma advance_tray_run id w rt :
  draws_ok (w_env w) → emu_ok (w_emu w) → dget (em_trays (w_emu w)) id = Some rt →
  ∃ rt' w', advance_tray id w = (Ok tt, w') ∧ kept_world w w' ∧ emu_ok (w_emu w')
    ∧ em_cluster_profile (w_emu w') = em_cluster_profile (w_emu w)
    ∧ em_trays (w_emu w') = dset (em_trays (w_emu w)) id rt' ∧ advanced (calm (w_env w)) rt rt'.
Proof.
  intros Hd Hok E. unfold advance_tray. rewrite (bind_ok emu _ w (w_emu w) w) by done. cbv beta.
  rewrite E. cbn [or_raise]. rewrite (bind_ok (mret rt) _ w rt w) by done. cbv beta.
  destruct (eo_trays _ Hok id rt E) as [Hrt Hid].
  destruct (runs_advance (w_store w) (w_env w) Hd
    (λ e, em_trays e = em_trays (w_emu w) ∧ em_cluster_profile e = em_cluster_profile (w_emu w)) (λ _ _ H, H) rt)
    with w as (rt' & w1 & E1 & (Ee & Es & Hok1 & Et & Ep) & Ha); [|done|by split_and!|].
  { intros w2 t (_ & _ & Hok2 & _). destruct (dget _ t) as [p|] eqn:Ep; [by eapply eo_profiles|by left]. }
  rewrite (bind_ok _ _ _ _ _ E1). cbv beta.
  exists rt', (w1 <| w_emu ::= λ e, e <| em_trays ::= λ d, dset d id rt' |> |>).
  split; [done|]. split_and!; [by split| |done|by rewrite <- Et|done].
  destruct Hok1. destruct Ha as (Hrt' & Hid' & _). split; try done.
  - by apply dict_wf_dset.
  - intros k r. cbn. rewrite dget_dset. destruct (String.eqb_spec k id) as [->|]; [|by apply eo_trays0].
    intros [= <-]. split; [done|congruence].
Qed.
Definition advanced_on (c : bool) (l : list string) (d d' : dict TrayRuntime) : Prop :=
  ∀ id, match dget d id with
        | Some rt => ∃ rt', dget d' id = Some rt' ∧ if decide (id ∈ l) then advanced c rt rt' else rt' = rt
        | None => dget d' id = None
        end.
Lemma advance_trays_run l w :
  NoDup l → (∀ id, id ∈ l → is_Some (dget (em_trays (w_emu w)) id)) →
  draws_ok (w_env w) → emu_ok (w_emu w) →
  ∃ w', for_each l advance_tray w = (Ok tt, w') ∧ kept_world w w' ∧ emu_ok (w_emu w')
    ∧ em_cluster_profile (w_emu w') = em_cluster_profile (w_emu w)
    ∧ advanced_on (calm (w_env w)) l (em_trays (w_emu w)) (em_trays (w_emu w')).
Proof.
  revert w. induction l as [|id l IH]; intros w Hnd Hin Hd Hok.
  { exists w. split_and!; try done. intros id. destruct (dget _ id) as [rt|] eqn:E; [|done]. exists rt.
    split; [done|]. destruct (decide _) as [Hl|]; [by apply elem_of_nil in Hl|done]. }
  apply NoDup_cons in Hnd as [Hnid Hnd]. destruct (Hin id) as [rt E]; [left|].
  destruct (advance_tray_run id w rt Hd Hok E) as (rt' & w1 & E1 & [Ee1 Es1] & Hok1 & Ep1 & Et1 & Ha).
  destruct (IH w1) as (w2 & E2 & [Ee2 Es2] & Hok2 & Ep2 & Hl); [done| |by rewrite Ee1|done|].
  { intros k Hk. rewrite Et1, dget_dset. destruct (String.eqb k id); [by eexists|]. apply Hin. by right. }
  exists w2. cbn [for_each]. rewrite (bind_ok _ _ _ _ _ E1).
  split_and!; [done|split; congruence|done|congruence|]. rewrite Et1, Ee1 in Hl.
  intros k. specialize (Hl k). rewrite dget_dset in Hl. destruct (String.eqb_spec k id) as [Ek|Hne].
  - rewrite Ek in *. rewrite E. destruct Hl as (rt2 & Er2 & Hr2). exists rt2. split; [done|].
    rewrite decide_False in Hr2 by done. subst rt2. rewrite decide_True by left. done.
  - destruct (dget (em_trays (w_emu w)) k) as [r|]; [|done]. destruct Hl as (r' & Er & Hr). exists r'. split; [done|].
    destruct (decide (k ∈ l)) as [Hk|Hk]; [rewrite decide_True by (by right); done|].
    rewrite decide_False; [done|]. intros [Ek|Hk']%elem_of_cons; done.
Qed.
(** *** History *)
Lemma dget_filter_key {V} (p : string → bool) (d : dict V) k :
  dget (filterb (λ kv, p kv.1) d) k = if p k then dget d k else None.
Proof.
  unfold filterb, dget. induction d as [|[k1 v1] d IH]; cbn; [by destruct (p k)|].
  destruct (p k1) eqn:E1; cbn; rewrite IH; destruct (String.eqb_spec k k1) as [->|]; by rewrite ?E1.
Qed.
Lemma dict_wf_filter_key {V} (p : string → bool) (d : dict V) : dict_wf d → dict_wf (filterb (λ kv, p kv.1) d).
Proof.
  unfold dict_wf, dkeys, filterb. induction d as [|[k1 v1] d IH]; cbn; [done|]. intros [Hn Hd]%NoDup_cons.
  destruct (p k1); cbn; [|by apply IH]. apply NoDup_cons. split; [|by apply IH].
  intros ([k v] & -> & [H _]%(elem_of_filterb (λ kv, p kv.1)))%list_elem_of_fmap. apply Hn, list_elem_of_fmap. by exists (k, v).
Qed.
Lemma dget_filter_memb {V} l (d : dict V) k :
  dget (filterb (λ kv, memb kv.1 l) d) k = if memb k l then dget d k else None.
Proof. exact (dget_filter_key (λ k, memb k l) d k). Qed.
Lemma record_points_bounded at_ step l d :
  (∀ t p, dget d t = Some p → (length p ≤ HISTORY_LEN)%nat) →
  ∀ t p, dget (foldl (record_point at_ step) d l) t = Some p → (length p ≤ HISTORY_LEN)%nat.
Proof.
  revert d. induction l as [|c l IH]; intros d Hd; [done|]. cbn. apply IH. intros t p. unfold record_point.
  rewrite dget_dset. destruct (String.eqb _ _); [|by apply Hd]. intros [= <-]. apply length_push.
Qed.
Lemma record_run w :
  emu_ok (w_emu w) →
  ∃ w', _record_locked w = (Ok tt, w') ∧ kept_world w w' ∧ emu_ok (w_emu w')
    ∧ em_cluster_profile (w_emu w') = em_cluster_profile (w_emu w) ∧ em_trays (w_emu w') = em_trays (w_emu w).
Proof.
  intros []. unfold _record_locked. eexists. split; [reflexivity|]. split_and!; [by split| |done..]. split; try done.
  - apply length_push.
  - intros t l. cbn -[record_point filterb memb]. rewrite dget_filter_memb. destruct (memb _ _); [|done].
    by apply record_points_bounded.
Qed.
Lemma tick_once_run w :
  draws_ok (w_env w) → emu_ok (w_emu w) →
  ∃ w', tick_once w = (Ok tt, w') ∧ kept_world w w' ∧ emu_ok (w_emu w')
    ∧ em_cluster_profile (w_emu w') = em_cluster_profile (w_emu w)
    ∧ ∀ id, match dget (em_trays (w_emu w)) id with
            | Some rt => ∃ rt', dget (em_trays (w_emu w')) id = Some rt' ∧ advanced (calm (w_env w)) rt rt'
            | None => dget (em_trays (w_emu w')) id = None
            end.
Proof.
  intros Hd Hok. unfold tick_once. set (w1 := w <| w_emu ::= λ e, e <| em_step ::= λ z, (z + 1)%Z |> |>).
  rewrite (bind_ok (upd_emu _) _ w tt w1) by done. cbv beta.
  assert (emu_ok (w_emu w1)) as Hok1 by (destruct Hok; by split).
  rewrite (bind_ok emu _ w1 (w_emu w1) w1) by done. cbv beta.
  destruct (advance_trays_run (dkeys (em_trays (w_emu w1))) w1) as (w2 & E2 & [Ee2 Es2] & Hok2 & Ep2 & Hl);
    [apply Hok|intros id; by rewrite dget_is_Some_in|done|done|].
  rewrite (bind_ok _ _ _ _ _ E2). cbv beta.
  destruct (record_run w2 Hok2) as (w3 & E3 & [Ee3 Es3] & Hok3 & Ep3 & Et3).
  exists w3. rewrite E3. split; [done|]. split; [split; [by rewrite Ee3, Ee2|by rewrite Es3, Es2]|].
  split; [done|]. split; [by rewrite Ep3, Ep2|].
  intros id. specialize (Hl id). rewrite Et3. change (em_trays (w_emu w1)) with (em_trays (w_emu w)) in Hl.
  change (w_env w1) with (w_env w) in Hl. destruct (dget (em_trays (w_emu w)) id) as [rt|] eqn:E; [|done].
  destruct Hl as (rt' & Er & Hr). exists rt'. rewrite decide_True in Hr; [done|]. apply dget_is_Some_in. by eexists.
Qed.

(** *** Following the store *)
Definition good (s : Store) (id : string) (rt : TrayRuntime) : Prop :=
  rt_tenant_id rt = fst <$> bound_to s id ∧ (rt_workload rt = "standby" ↔ rt_tenant_id rt = None).
Lemma new_runtime_ok s t : tray_ok (new_runtime s t) ∧ rt_tray_id (new_runtime s t) = t_id t.
Proof.
  split; [|done]. split; [|by apply Qle_bool_iff].
  apply Forall_fmap, Forall_forall. intros i _. split; cbn; [split; by apply Qle_bool_iff|lia|set_solver].
Qed.
Lemma cleared_ok g : gpu_ok g → gpu_ok (cleared g).
Proof. intros [_ Ht _]. split; cbn; [split; by apply Qle_bool_iff|done|set_solver]. Qed.
Lemma profile_running p : p ∈ dkeys PROFILES → p ≠ "standby".
Proof. intros Hp ->. apply dget_is_Some_in in Hp as [x [=]]. Qed.
Lemma set_default_known d t : (∀ u p, dget d u = Some p → p ∈ dkeys PROFILES) →
  ∀ u p, dget (set_default d t "training") u = Some p → p ∈ dkeys PROFILES.
Proof.
  intros Hd u p. unfold set_default. destruct (dmem d t); [by apply Hd|]. rewrite dget_dset.
  destruct (String.eqb u t); [|by apply Hd]. intros [= <-]. by left.
Qed.
Lemma put_tray e id rt profile :
  emu_ok e → tray_ok rt → rt_tray_id rt = id → (∀ u p, dget profile u = Some p → p ∈ dkeys PROFILES) →
  emu_ok (e <| em_cluster_profile := profile |> <| em_trays ::= λ d, dset d id rt |>).
Proof.
  intros [] Hrt Hid Hp. split; try done.
  - by apply dict_wf_dset.
  - intros k r. cbn. rewrite dget_dset. destruct (String.eqb_spec k id) as [->|]; [|by apply eo_trays0].
    by intros [= <-].
Qed.
Lemma sync_tray_run s e t :
  emu_ok e →
  emu_ok (sync_tray s e t) ∧ ∃ rt, em_trays (sync_tray s e t) = dset (em_trays e) (t_id t) rt ∧ good s (t_id t) rt.
Proof.
  intros Hok. unfold sync_tray. set (rt := default (new_runtime s t) (dget (em_trays e) (t_id t))).
  assert (tray_ok rt ∧ rt_tray_id rt = t_id t) as [[Hg Hc] Hid].
  { unfold rt. destruct (dget _ _) eqn:E; [by eapply eo_trays|apply new_runtime_ok]. }
  clearbody rt. destruct (bound_to s (t_id t)) as [[tenant order]|] eqn:Eb; cbv zeta.
  - set (profile := if negb _ then _ else _). set (rt' := if negb _ then _ else rt).
    assert (∀ u p, dget profile u = Some p → p ∈ dkeys PROFILES) as Hp.
    { unfold profile. destruct (negb _); [apply set_default_known|]; apply Hok. }
    assert (tray_ok rt' ∧ rt_tray_id rt' = t_id t ∧ rt_tenant_id rt' = Some tenant) as (Hrt & Hid' & Ht).
    { unfold rt'. destruct (bool_decide_reflect (rt_tenant_id rt = Some tenant)); by split_and!. }
    clearbody profile rt'. split; [apply put_tray; [done|by destruct Hrt|done|done]|].
    eexists. split; [reflexivity|]. split; [by rewrite Eb|]. cbn. rewrite Ht. split; [|done]. intros E.
    destruct (dget profile tenant) as [p|] eqn:Ep; [|done]. by destruct (profile_running p (Hp _ _ Ep) E).
  - set (rt' := match rt_tenant_id rt with Some _ => _ | None => rt end).
    assert (tray_ok rt' ∧ rt_tray_id rt' = t_id t ∧ rt_tenant_id rt' = None) as (Hrt & Hid' & Ht).
    { unfold rt'. destruct (rt_tenant_id rt) eqn:Et; [|by split_and!]. split_and!; [|done..]. split; [|done].
      apply Forall_fmap. by eapply Forall_impl; [|apply cleared_ok]. }
    clearbody rt'. split.
    + apply (put_tray e (t_id t) (rt' <| rt_workload := "standby" |>) (em_cluster_profile e)); [done|by destruct Hrt|done|apply Hok].
    + eexists. split; [reflexivity|]. split; [by rewrite Eb|done].
Qed.
Lemma sync_trays_run s l e :
  emu_ok e →
  let e' := foldl (sync_tray s) e l in
  emu_ok e' ∧ (∀ id rt, dget (em_trays e') id = Some rt → good s id rt ∨ id ∉ t_id <$> l ∧ dget (em_trays e) id = Some rt)
  ∧ (∀ t, t ∈ l → is_Some (dget (em_trays e') (t_id t))) ∧ (∀ id, is_Some (dget (em_trays e) id) → is_Some (dget (em_trays e') id)).
Proof.
  revert e. induction l as [|t l IH]; intros e Hok; cbn.
  { split_and!; [done| |by intros t Ht%elem_of_nil|done]. intros id rt E. right. split; [|done]. by intros ?%elem_of_nil. }
  destruct (sync_tray_run s e t Hok) as (Hok1 & rt1 & E1 & Hg1). destruct (IH _ Hok1) as (H1 & H2 & H3 & H4).
  assert (∀ id, is_Some (dget (em_trays e) id) ∨ id = t_id t → is_Some (dget (em_trays (sync_tray s e t)) id)) as Hk.
  { intros id Hid. rewrite E1, dget_dset. destruct (String.eqb_spec id (t_id t)); [by eexists|]. by destruct Hid. }
  split_and!; [done|..].
  - intros id rt E. destruct (H2 id rt E) as [|[Hn E2]]; [by left|]. rewrite E1, dget_dset in E2.
    destruct (String.eqb_spec id (t_id t)) as [->|Hne]; [left; congruence|right].
    split; [|done]. by intros [?|?]%elem_of_cons.
  - intros t' [->|Ht]%elem_of_cons; [|by apply H3]. apply H4, Hk. by right.
  - intros id Hid. apply H4, Hk. by left.
Qed.
Lemma follow_run s e : emu_ok e → emu_ok (sync_with s e) ∧ mirrors s (sync_with s e).
Proof.
  intros Hok. unfold sync_with. destruct (sync_trays_run s (dvalues (st_trays s)) e Hok) as (H1 & H2 & H3 & _).
  set (e1 := foldl _ _ _) in *. cbv zeta. set (live := t_id <$> dvalues (st_trays s)) in *.
  assert (∀ id, memb id live = true ↔ ∃ t, t ∈ dvalues (st_trays s) ∧ t_id t = id) as Hl.
  { intros id. rewrite memb_spec. unfold live. rewrite list_elem_of_fmap. naive_solver. }
  split.
  - destruct H1. split; try done.
    + by apply (dict_wf_filter_key (λ k, memb k live)).
    + intros id rt. cbn -[filterb memb]. rewrite dget_filter_memb. destruct (memb id live); [by apply eo_trays0|done].
    + intros t p. cbn -[filterb memb PROFILES]. rewrite dget_filter_memb.
      destruct (memb t _); [by apply eo_profiles0|done].
  - assert (∀ id, dget (filterb (λ kv, memb kv.1 live) (em_trays e1)) id = if memb id live then dget (em_trays e1) id else None) as Ef
      by (intros; apply dget_filter_memb).
    assert (∀ id rt, dget (filterb (λ kv, memb kv.1 live) (em_trays e1)) id = Some rt → good s id rt) as Hg.
    { intros id rt. rewrite Ef. destruct (memb id live) eqn:El; [|done]. intros [|[Hn _]]%H2; [done|].
      apply memb_spec in El. by destruct Hn. }
    split; [|intros id rt E; by apply Hg in E as []|intros id rt E; by apply Hg in E as []].
    intros id. change (is_Some (dget (filterb (λ kv, memb kv.1 live) (em_trays e1)) id) ↔ ∃ t, t ∈ dvalues (st_trays s) ∧ t_id t = id).
    rewrite Ef, <- Hl. destruct (memb id live) eqn:El.
    + split; [done|]. intros _. apply Hl in El as (t & Ht & <-). by apply H3.
    + split; [by intros []|done].
Qed.

(** ** Ticks *)
Lemma mirrors_advanced c s e e' :
  (∀ id, match dget (em_trays e) id with
         | Some rt => ∃ rt', dget (em_trays e') id = Some rt' ∧ advanced c rt rt'
         | None => dget (em_trays e') id = None
         end) → mirrors s e → mirrors s e'.
Proof.
  intros Hl [H1 H2 H3]. assert (∀ id rt', dget (em_trays e') id = Some rt' →
    ∃ rt, dget (em_trays e) id = Some rt ∧ advanced c rt rt') as Hinv.
  { intros id rt' E. specialize (Hl id). destruct (dget (em_trays e) id) as [rt|]; [|congruence].
    destruct Hl as (rt2 & E2 & Ha). exists rt. split; [done|congruence]. }
  split.
  - intros id. rewrite <- H1. specialize (Hl id). destruct (dget (em_trays e) id) as [rt|].
    + destruct Hl as (rt' & -> & _). split; intros _; by eexists.
    + rewrite Hl. done.
  - intros id rt' E. destruct (Hinv id rt' E) as (rt & E0 & _ & _ & Et & _). rewrite Et. by apply H2.
  - intros id rt' E. destruct (Hinv id rt' E) as (rt & E0 & _ & _ & Et & Hw & _). rewrite Et, Hw. by eapply H3.
Qed.
(** What [k] ticks do to a GPU of a running tray *)
Definition cooled_by (c : bool) (k : nat) (g g' : GpuTelemetry) : Prop :=
  c = true → gt_fault_ttl g' = Z.max 0 (gt_fault_ttl g - Z.of_nat k)
             ∧ ((gt_fault_ttl g < Z.of_nat k)%Z → gt_state g' ≠ "fault").
Lemma cooled_more c k l1 l2 l3 :
  Forall gpu_ok l2 → Forall2 (cooled_by c k) l1 l2 → Forall2 (cooled c) l2 l3 → Forall2 (cooled_by c (S k)) l1 l3.
Proof.
  intros Hok H. revert l3. induction H as [|g1 g2 l1 l2 Hc _ IH]; intros l3 H3; inversion H3 as [|? g3 ? l3' Hk H3']; subst.
  { constructor. }
  apply Forall_cons in Hok as [Hg Hok]. constructor; [|by apply IH]. intros ->.
  destruct Hk as [_ [Ht Hs]%(λ H, H eq_refl)]. destruct Hc as [Hc _]; [done|]. destruct (go_ttl _ Hg).
  split; [lia|]. intros Hlt. apply Hs. lia.
Qed.
Record ticked (e e' : TrayEmulator) (c : bool) (k : nat) : Prop := {
  tk_ok : emu_ok e';
  tk_trays id rt : dget (em_trays e) id = Some rt →
    ∃ rt', dget (em_trays e') id = Some rt' ∧ (busy rt → busy rt' ∧ Forall2 (cooled_by c k) (rt_gpus rt) (rt_gpus rt'))
}.
Lemma ticked_0 e c : emu_ok e → ticked e e c 0.
Proof.
  intros Hok. split; [done|]. intros id rt E. exists rt. split; [done|]. intros Hb. split; [done|].
  destruct (eo_trays _ Hok id rt E) as [[Hg _] _]. clear E Hb. induction Hg as [|g l Hg _ IH]; constructor; [|done].
  intros _. destruct (go_ttl _ Hg). split; [lia|]. lia.
Qed.
Lemma ticks_run (l : list nat) w e0 k :
  draws_ok (w_env w) → mirrors (w_store w) (w_emu w) → ticked e0 (w_emu w) (calm (w_env w)) k →
  ∃ w', for_each l (λ _, tick_once) w = (Ok tt, w') ∧ kept_world w w'
    ∧ mirrors (w_store w) (w_emu w') ∧ ticked e0 (w_emu w') (calm (w_env w)) (length l + k).
Proof.
  revert w k. induction l as [|x l IH]; intros w k Hd Hm Ht; [by exists w|].
  destruct (tick_once_run w Hd (tk_ok _ _ _ _ Ht)) as (w1 & E1 & [Ee1 Es1] & Hok1 & _ & Ha).
  destruct (IH w1 (S k)) as (w2 & E2 & [Ee2 Es2] & Hm2 & Ht2).
  - by rewrite Ee1.
  - rewrite Es1. by eapply mirrors_advanced.
  - rewrite Ee1. split; [done|]. intros id rt E. destruct (tk_trays _ _ _ _ Ht id rt E) as (rt1 & Er1 & Hb).
    specialize (Ha id). rewrite Er1 in Ha. destruct Ha as (rt2 & Er2 & _ & _ & Et & Hw & Hg). exists rt2.
    split; [done|]. intros [[Hn Hs] Hc]%Hb. split; [split; [by rewrite Et|by rewrite Hw]|].
    apply (cooled_more _ _ _ (rt_gpus rt1)); [|done|by apply Hg].
    by apply (eo_trays _ (tk_ok _ _ _ _ Ht) id rt1).
  - exists w2. cbn [for_each]. rewrite (bind_ok _ _ _ _ _ E1). rewrite Es1, Ee1 in *. cbn [length].
    rewrite <- plus_n_Sm in Ht2. split_and!; [done|split; congruence|done|done].
Qed.
(** A tick of the emulator: it follows the store, then advances every tray. *)
Lemma tick_run n w :
  draws_ok (w_env w) → emu_ok (w_emu w) →
  ∃ w', tick n w = (Ok (em_step (w_emu w')), w') ∧ kept_world w w'
    ∧ mirrors (w_store w) (w_emu w') ∧ ticked (sync_with (w_store w) (w_emu w)) (w_emu w') (calm (w_env w)) n.
Proof.
  intros Hd Hok. destruct (follow_run (w_store w) (w_emu w) Hok) as [Hok1 Hm1].
  unfold tick. set (w1 := w <| w_emu ::= sync_with (w_store w) |>).
  rewrite (bind_ok sync_from_store _ w tt w1) by done. cbv beta.
  destruct (ticks_run (seq 0 n) w1 (w_emu w1) 0) as (w2 & E2 & [Ee2 Es2] & Hm2 & Ht2);
    [done|done|by apply ticked_0|].
  rewrite (bind_ok _ _ _ _ _ E2). cbv beta. exists w2. split; [done|]. rewrite length_seq, Nat.add_0_r in Ht2.
  by split_and!.
Qed.

(** ** The other operations *)
Definition within (w w' : World) : Prop := w_env w' = w_env w ∧ (emu_ok (w_emu w) → emu_ok (w_emu w')).
#[export] Instance within_preorder : PreOrder within.
Proof.
  split; [by intros w|]. intros w1 w2 w3 [E1 H1] [E2 H2]. split; [congruence|auto].
Qed.
Lemma within_upd f : (∀ e, emu_ok e → emu_ok (f e)) → Steps within (upd_emu f).
Proof. intros Hf w. split; [done|apply Hf]. Qed.
Lemma within_sync : Steps within sync_from_store.
Proof. intros w. split; [done|]. apply (follow_run (w_store w)). Qed.
Lemma within_log ep : Steps within (log_fault ep).
Proof. apply within_upd. intros e []. split; try done. apply length_push. Qed.
Lemma within_now : Steps within now.
Proof. by intros w. Qed.
Lemma within_emit a1 a2 a3 a4 a5 a6 : Steps within (emit a1 a2 a3 a4 a5 a6).
Proof. by intros w. Qed.
#[local] Hint Resolve within_sync within_log within_now within_emit : steps.
Lemma within_reset : Steps within reset.
Proof. apply within_upd. intros e _. split; try done; try (cbn; lia). Qed.
Lemma within_set_profile t p : Steps within (set_profile t p).
Proof.
  unfold set_profile. destruct (negb (dmem PROFILES p)) eqn:Ep; [solve_steps|].
  apply steps_bind; [apply _|apply within_sync|intros _]. apply steps_bind; [apply _|apply steps_gets, _|intros e].
  destruct (negb (dmem (em_cluster_profile e) t)); [solve_steps|]. apply within_upd. intros e' []. split; try done.
  intros u q. cbn -[PROFILES]. rewrite dget_dset. destruct (String.eqb u t); [|by apply eo_profiles0].
  intros [= <-]. apply dget_is_Some_in. unfold dmem in Ep. destruct (dget PROFILES p); [by eexists|done].
Qed.
Lemma within_workload t p : Steps within (set_workload t p).
Proof. unfold set_workload. pose proof (within_set_profile t p). solve_steps. Qed.
Lemma within_samples : Steps within seed_sample_faults.
Proof. unfold seed_sample_faults, store, emu. solve_steps. Qed.
Lemma put_fault e id rt n g g' :
  emu_ok e → dget (em_trays e) id = Some rt → rt_gpus rt !! n = Some g → gpu_ok g' →
  emu_ok (e <| em_trays ::= λ d, dset d id (rt <| rt_gpus ::= <[n := g']> |>) |>).
Proof.
  intros [] E En Hg'. destruct (eo_trays0 id rt E) as [[Hg Hc] Hid]. split; try done.
  - by apply dict_wf_dset.
  - intros k r. cbn. rewrite dget_dset. destruct (String.eqb_spec k id) as [->|]; [|by apply eo_trays0].
    intros [= <-]. split; [|done]. split; [|done]. by apply Forall_insert.
Qed.
Lemma within_inject t gpu xid ttl : Steps within (inject_fault t gpu xid ttl).
Proof.
  unfold inject_fault. apply steps_bind; [apply _|apply within_sync|intros _]. intros w.
  rewrite (bind_ok emu _ w (w_emu w) w) by done. cbv beta.
  destruct (dget (em_trays (w_emu w)) t) as [rt|] eqn:E; [|done]. destruct (negb _); [done|].
  destruct (rt_gpus rt !! Z.to_nat gpu) as [g|] eqn:En; [|done]. cbn [or_raise].
  rewrite (bind_ok (mret g) _ w g w) by done. cbv beta.
  set (w1 := (now w).2). rewrite (bind_ok now _ w (env_clock (w_env w) (w_ticks w)) w1) by done. cbv beta zeta.
  set (g' := g <| gt_xid_events ::= _ |> <| gt_state := "fault" |> <| gt_fault_ttl := _ |>).
  set (w2 := (upd_emu (λ e, e <| em_trays ::= λ d, dset d t (rt <| rt_gpus ::= <[Z.to_nat gpu := g']> |>) |>) w1).2).
  rewrite (bind_ok (upd_emu _) _ w1 tt w2) by done. cbv beta. transitivity w2.
  - split; [done|]. intros Hok. apply (put_fault (w_emu w) t rt _ g); [done..|].
    destruct (eo_trays _ Hok t rt E) as [[Hg _] _]. rewrite Forall_lookup in Hg.
    apply gpu_faulted; [by eapply Hg|lia].
  - generalize w2. intros w3. match goal with |- within _ (?m _).2 => assert (Steps within m) as Hm by solve_steps end. apply Hm.
Qed.

(** ** The emulator beside the rest of the program *)
Inductive step : World → World → Prop :=
  | step_tick n w : step w (tick n w).2
  | step_inject t gpu xid ttl w : step w (inject_fault t gpu xid ttl w).2
  | step_workload t p w : step w (set_workload t p w).2
  | step_reset w : step w (reset w).2
  | step_samples w : step w (seed_sample_faults w).2
  | step_other w w' : w_env w' = w_env w → w_emu w' = w_emu w → step w w'.
Lemma step_within w w' : draws_ok (w_env w) → emu_ok (w_emu w) → step w w' → w_env w' = w_env w ∧ emu_ok (w_emu w').
Proof.
  intros Hd Hok Hs. assert (within w w' ∨ w_env w' = w_env w ∧ emu_ok (w_emu w')) as [[He Hw]|]; [|by auto|done].
  destruct Hs as [n w|t gpu xid ttl w|t p w|w|w|w w' Ee Em].
  - right. destruct (tick_run n w Hd Hok) as (w' & -> & [Ee _] & _ & Ht). split; [done|]. by apply Ht.
  - left. apply within_inject.
  - left. apply within_workload.
  - left. apply within_reset.
  - left. apply within_samples.
  - right. by rewrite Em.
Qed.
Lemma run_within w w' :
  draws_ok (w_env w) → emu_ok (w_emu w) → rtc step w w' → draws_ok (w_env w') ∧ emu_ok (w_emu w').
Proof.
  intros Hd Hok Hs. induction Hs as [w|w1 w2 w3 H _ IH]; [done|].
  destruct (step_within w1 w2 Hd Hok H) as [Ee Hok2]. apply IH; [by rewrite Ee|done].
Qed.

(** C13: The emulator follows the control plane within its bounds.  After any
    sequence of ticks, injected faults, workload changes, resets and anything else
    that happens to the store: utilisations are percentages, recovery countdowns
    at most 300, states and profiles known ones, the fault log holds at most 500
    episodes and every history at most 240 points; and a further call of [tick]
    never fails, leaves the store alone, and its trays are then exactly the store's,
    each running for the tenant of its node in service and standing by otherwise. *)
Theorem emulator_mirrors w w' :
  draws_ok (w_env w) → emu_ok (w_emu w) → rtc step w w' →
  emu_ok (w_emu w')
  ∧ ∀ n, ∃ k w2, tick n w' = (Ok k, w2) ∧ w_store w2 = w_store w' ∧ emu_ok (w_emu w2) ∧ mirrors (w_store w') (w_emu w2).
Proof.
  intros Hd Hok Hs. destruct (run_within w w' Hd Hok Hs) as [Hd' Hok']. split; [done|]. intros n.
  destruct (tick_run n w' Hd' Hok') as (w2 & E & [_ Es] & Hm & Ht). exists (em_step (w_emu w2)), w2.
  split_and!; [done..|apply Ht|done].
Qed.

(** C14: Faults recover.  While faults do not occur by themselves, a call of
    [tick] with more steps than a GPU's recovery countdown brings each GPU of a
    tray in service back: its countdown is over and it is no longer in the fault
    state; and 301 steps are enough for all of them. *)
Theorem faults_recover w id n :
  draws_ok (w_env w) → emu_ok (w_emu w) → calm (w_env w) = true →
  (∃ t, t ∈ dvalues (st_trays (w_store w)) ∧ t_id t = id) → is_Some (bound_to (w_store w) id) →
  ∃ rt k w' rt', dget (em_trays (sync_with (w_store w) (w_emu w))) id = Some rt
    ∧ tick n w = (Ok k, w') ∧ dget (em_trays (w_emu w')) id = Some rt'
    ∧ Forall2 (λ g g', (gt_fault_ttl g < Z.of_nat n)%Z → gt_fault_ttl g' = 0%Z ∧ gt_state g' ≠ "fault") (rt_gpus rt) (rt_gpus rt')
    ∧ ((300 < n)%nat → Forall (λ g', gt_fault_ttl g' = 0%Z ∧ gt_state g' ≠ "fault") (rt_gpus rt')).
Proof.
  intros Hd Hok Hc Ht [[tenant o] Hb]. destruct (follow_run (w_store w) (w_emu w) Hok) as [Hok1 Hm1].
  destruct (proj2 (mi_live _ _ Hm1 id) Ht) as [rt E]. destruct (tick_run n w Hd Hok) as (w' & Et & _ & _ & Htk).
  destruct (tk_trays _ _ _ _ Htk id rt E) as (rt' & E' & Hbusy).
  assert (busy rt) as Hrt.
  { pose proof (mi_tenant _ _ Hm1 id rt E) as Hten. rewrite Hb in Hten. cbn in Hten.
    split; [congruence|]. intros Hw%(mi_workload _ _ Hm1 id rt E). congruence. }
  destruct (Hbusy Hrt) as [_ Hg]. rewrite Hc in Hg.
  assert (Forall2 (λ g g', (gt_fault_ttl g < Z.of_nat n)%Z → gt_fault_ttl g' = 0%Z ∧ gt_state g' ≠ "fault") (rt_gpus rt) (rt_gpus rt')) as Hrec.
  { eapply Forall2_impl; [exact Hg|]. intros g g' [Hk Hs]%(λ H, H eq_refl) Hlt. split; [lia|auto]. }
  exists rt, (em_step (w_emu w')), w', rt'. split_and!; [done..|]. intros Hn.
  destruct (eo_trays _ Hok1 id rt E) as [[Hgs _] _]. apply (forall2_mono _ _ _ _ _ Hgs Hrec).
  intros g g' Hg' H. apply H. destruct (go_ttl _ Hg'). lia.
Qed.

(** ** On the delivered site *)
Lemma demo_draws : draws_ok Demo.env.
Proof. intros k n Hn. apply Z.mod_pos_bound. exact Hn. Qed.
Lemma emu_ok_empty : emu_ok empty_emulator.
Proof. split; try done; try (cbn; lia). Qed.
Definition faulty_site : World := (inject_fault (Demo.tray_id 1 0) 2 79 40 (tick 3 Demo.delivered).2).2.
Lemma faulty_rtc n t gpu xid ttl w : rtc step w (inject_fault t gpu xid ttl (tick n w).2).2.
Proof. eapply rtc_l; [apply step_tick|]. apply rtc_once, step_inject. Qed.
Lemma faulty_ok : draws_ok (w_env faulty_site) ∧ emu_ok (w_emu faulty_site).
Proof.
  apply (run_within Demo.delivered); [exact demo_draws| |apply faulty_rtc].
  assert (w_emu Demo.delivered = empty_emulator) as -> by (vm_compute; reflexivity). apply emu_ok_empty.
Qed.
Lemma emulator_mirrors_witness :
  emu_ok (w_emu faulty_site)
  ∧ (∃ k w2, tick 2 faulty_site = (Ok k, w2) ∧ mirrors (w_store faulty_site) (w_emu w2) ∧ length (em_trays (w_emu w2)) = 4).
Proof.
  assert (emu_ok (w_emu Demo.delivered)) as Hok.
  { assert (w_emu Demo.delivered = empty_emulator) as -> by (vm_compute; reflexivity). apply emu_ok_empty. }
  destruct (emulator_mirrors Demo.delivered faulty_site demo_draws Hok (faulty_rtc 3 (Demo.tray_id 1 0) 2 79 40 _)) as [H1 H2].
  split; [exact H1|]. destruct (H2 2) as (k & w2 & E & _ & _ & Hm). exists k, w2. split; [exact E|]. split; [exact Hm|].
  apply (f_equal (λ r, length (em_trays (w_emu r.2)))) in E. vm_compute in E. symmetry. exact E.
Defined.
Definition gpu_states (w : World) (id : string) : list (string * Z) :=
  match dget (em_trays (w_emu w)) id with
  | Some rt => (λ g, (gt_state g, gt_fault_ttl g)) <$> rt_gpus rt
  | None => []
  end.
(** A GPU with a fault of forty ticks works again after forty-one. *)
Lemma faults_recover_witness :
  gpu_states faulty_site (Demo.tray_id 1 0) = [("active", 0%Z); ("active", 0%Z); ("fault", 40%Z); ("active", 0%Z)]
  ∧ ∃ k w' rt', tick 301 faulty_site = (Ok k, w')
    ∧ dget (em_trays (w_emu w')) (Demo.tray_id 1 0) = Some rt'
    ∧ Forall (λ g', gt_fault_ttl g' = 0%Z ∧ gt_state g' ≠ "fault") (rt_gpus rt').
Proof.
  split; [vm_compute; reflexivity|]. destruct faulty_ok as [Hd Hok].
  assert (calm (w_env faulty_site) = true) as Hc by (vm_compute; reflexivity).
  assert (∃ t, t ∈ dvalues (st_trays (w_store faulty_site)) ∧ t_id t = Demo.tray_id 1 0) as Ht.
  { destruct (find_first (λ t, String.eqb (t_id t) (Demo.tray_id 1 0)) (dvalues (st_trays (w_store faulty_site)))) as [t|] eqn:E;
      [|vm_compute in E; discriminate E].
    apply find_first_Some in E as [Hin Hid%String.eqb_eq]. exists t. split; [exact Hin|exact Hid]. }
  assert (is_Some (bound_to (w_store faulty_site) (Demo.tray_id 1 0))) as Hb.
  { exists ("tnt-acme", Some "ord-1"). vm_compute. reflexivity. }
  destruct (faults_recover faulty_site (Demo.tray_id 1 0) 301 Hd Hok Hc Ht Hb) as (rt & k & w' & rt' & _ & E & E' & _ & Hf).
  exists k, w', rt'. split; [exact E|]. split; [exact E'|]. apply Hf. lia.
Defined.
End EmuThms.
