(* ===== verification/App.v ===== *)
(** * The whole application: every route that changes state

    [App.route] has one constructor per state-changing route of the program (the
    order pipeline of Api.v, the customer plane, the Managed K8s API, tickets, the
    equipment states, the tray emulator, the REST surfaces of the site controller and
    of the shared services) and per step of a background thread; growth of the
    inventory and starting over are in SeedThms.v and AssemblyThms.v.  [PlaneRel] adds to [StoreRel] what a relation
    on the store must satisfy at the updates of the customer plane; every route
    then moves along it, on every outcome. *)
From Stdlib Require Import QArith.
From stdpp Require Import strings base decidable option numbers list relations.
From S2P Require Import Prelude PyLib Models PortalModels EmuModels World Trace NicoSim NicoMachine VastSim SharedSvc Spec StoreOps Adapters.
From S2P Require Import Tenancy Binding Partition StateMachine Saga K8s Orders Handlers Reclaim Lawful Isolation.
From S2P Require Import Business TrayEmu CustomerOps K8sApi Topology Incidents Scenario Demo Api PortalFrame CustomerThms IncidentThms TenancyThms.
Local Open Scope string_scope.
Local Open Scope list_scope.
Local Open Scope py_scope.

(** What the customer plane and the operators do to the store, beyond [StoreRel] *)
Class PlaneRel (R : relation Store) : Prop := {
  pr_store :: StoreRel R;
  pr_portal f s : R s (s <| st_portal ::= f |>);
  pr_reopen oid w : (∀ o, dget (st_orders (w_store w)) oid = Some o → o_state o = OS_delivered) →
    on_store R w (order_mut oid (λ o, o <| o_state := OS_acceptance |>) w).2;
  pr_event oid st d t : Steps (on_store R) (Scenario.append_event oid st d t);
  pr_rack k st : Steps (on_store R) (s_mut st_racks k (λ r, r <| rk_state := st |>));
  pr_power k kw : Steps (on_store R) (s_mut st_racks k (λ r, r <| rk_power_cap_kw := kw |>));
  pr_tray k st : Steps (on_store R) (s_mut st_trays k (λ t, t <| t_state := st |>));
  pr_gpu k st : Steps (on_store R) (s_mut st_gpus k (λ g, g <| g_state := st |>))
}.
#[export] Hint Resolve pr_event pr_rack pr_power pr_tray pr_gpu : steps.
Ltac portal_update := intros ?; apply pr_portal.
#[export] Hint Extern 3 (Steps (on_store _) (s_mut _ _ _)) => portal_update : steps.
#[export] Hint Extern 3 (Steps (on_store _) (s_set _ _ _)) => portal_update : steps.
#[export] Hint Extern 3 (Steps (on_store _) (s_del _ _)) => portal_update : steps.
#[export] Hint Extern 3 (Steps (on_store _) (upd_store _)) => portal_update : steps.

Module App.
Import Api(ignore, ignore_steps).

(** ** The routes *)
Inductive route :=
  | Core (r : Api.request)
  | Acceptance_report (oid : string) | Acceptance_decide (oid decision : string) (reason : option string)
  | Termination_request (tid : string) | Termination_confirm (tid : string) (checklist : list (string * bool))
  | Termination_thread (id : string) | Wipe_certificate (tid : string)
  | Inquiry (company name email gpu_scale message : string)
  | Status | Rca_reports (tid : string) | Sla (tid : string) (month : option string) (synthesize : bool)
  | Ticket_create (b : TicketCreate) | Ticket_update (id : string) (b : TicketUpdate)
  | Node_reboot (node : string) (x : option string) | Node_replace (node : string) (x : option string)
  | Volume_list (x : option string) | Volume_create (b : Customer.VolumeBody) (x : option string)
  | Volume_qos (vid : string) (b : Customer.QosBody) (x : option string) | Volume_delete (vid : string) (x : option string)
  | Snapshot_create (b : Customer.SnapBody) (x : option string)
  | Key_create (b : Customer.ApiKeyBody) (x : option string) | Key_revoke (kid : string) (x : option string)
  | Member_invite (b : Customer.MemberBody) (x : option string) | Member_update (mid : string) (b : Customer.MemberBody) (x : option string)
  | Member_remove (mid : string) (x : option string)
  | Cluster_nodes (cid : string) | Cluster_health (cid : string) | Addon (cid name : string)
  | Kubeconfig_issue (cid role : string) (ttl : Z) | Kubeconfig_revoke (cid kid : string)
  | Upgrade_start (cid version : string) | Upgrade_thread (uid : string)
  | Equipment (b : Topology.EquipmentStateUpdate) | Power (rid policy : string)
  | Emu_tick (n : Z) | Emu_inject (tray : string) (gpu xid ttl : Z) | Emu_workload (tid profile : string) | Emu_reset
  | Nico_failure (host op : string) | Nico_force (host : string) (st : NicoHostState)
  | Nico_ghost (host sku : string) | Nico_delete (host : string) | Nico_latency (n : Z)
  | Nico_rest (r : NicoMachine.request) | Iam_token (client : string)
  | Pam_open (operator target reason : string) (ttl : Z) | Pam_close (session : string) | Trace_clear.

Section serve.
Context (http_adapter : string → ComputeAdapter).
(** The REST surfaces of the twin and of the storage console *)
Context (twin infra : Z → IO (option (list TwinFault))).
Context (ai_get : string → IO (option json)) (ai_post : string → IO json).
Local Abbreviation adapted f := (a ← get_adapter http_adapter; ignore (f a)).
Definition serve (r : route) : IO unit :=
  match r with
  | Core r => Api.serve http_adapter r
  | Acceptance_report oid => adapted (λ a, Scenario.acceptance_report a oid)
  | Acceptance_decide oid d reason => adapted (λ a, Scenario.decide_acceptance a oid d reason)
  | Termination_request tid => ignore (Scenario.request_termination tid)
  | Termination_confirm tid l => adapted (λ a, Scenario.confirm_backup a tid l)
  | Termination_thread id => adapted (λ a, Scenario.wipe_thread id a)
  | Wipe_certificate tid => ignore (Scenario.get_wipe_certificate tid)
  | Inquiry c n e g m => ignore (Scenario.create_inquiry c n e g m)
  | Status => ignore (Incidents.status_page twin)
  | Rca_reports tid => ignore (Incidents.rca_reports twin tid)
  | Sla tid month v => ignore (Incidents.sla_report twin tid month v)
  | Ticket_create b => ignore (Business.create_ticket b)
  | Ticket_update id b => ignore (Business.update_ticket id b)
  | Node_reboot n x => ignore (Customer.node_reboot http_adapter ai_post n x)
  | Node_replace n x => ignore (Customer.node_replace http_adapter ai_post n x)
  | Volume_list x => ignore (Customer.list_volumes ai_get x)
  | Volume_create b x => ignore (Customer.create_volume b x)
  | Volume_qos v b x => ignore (Customer.set_qos v b x)
  | Volume_delete v x => Customer.delete_volume v x
  | Snapshot_create b x => ignore (Customer.create_snapshot b x)
  | Key_create b x => ignore (Customer.create_api_key b x)
  | Key_revoke k x => Customer.revoke_api_key k x
  | Member_invite b x => ignore (Customer.invite_member b x)
  | Member_update m b x => ignore (Customer.update_member m b x)
  | Member_remove m x => Customer.remove_member m x
  | Cluster_nodes c => ignore (K8sApi.cluster_nodes infra c)
  | Cluster_health c => ignore (K8sApi.cluster_health_events infra c)
  | Addon c n => ignore (K8sApi.add_cluster_addon c n)
  | Kubeconfig_issue c role ttl => ignore (K8sApi.issue_kubeconfig c role ttl)
  | Kubeconfig_revoke c k => ignore (K8sApi.revoke_kubeconfig c k)
  | Upgrade_start c v => ignore (K8sApi.start_upgrade c v)
  | Upgrade_thread u => K8sApi.upgrade_tick u
  | Equipment b => ignore (Topology.set_equipment_state b)
  | Power r p => ignore (Topology.set_power_policy r p)
  | Emu_tick n => ignore (Emu.post_tick n)
  | Emu_inject t g x ttl => ignore (Emu.inject_fault t g x ttl)
  | Emu_workload t p => Emu.set_workload t p
  | Emu_reset => Emu.reset
  | Nico_failure h op => Nico.inject_failure h op
  | Nico_force h st => ignore (Nico.force_state h st)
  | Nico_ghost h sku => ignore (Nico.add_ghost h sku)
  | Nico_delete h => Nico.delete_host h
  | Nico_latency n => ignore (Nico.set_config n)
  | Nico_rest r => NicoMachine.serve r
  | Iam_token c => ignore (Shared.token_route c)
  | Pam_open o t r n => ignore (Shared.pam_open o t r n)
  | Pam_close i => ignore (Shared.pam_close i)
  | Trace_clear => Trace.clear
  end.
Definition serve_all (rs : list route) (w : World) : World := foldl (λ w r, (serve r w).2) w rs.

(** ** Every route moves along what its primitive updates respect *)
Context `{!∀ url, AdapterFrame (http_adapter url)}.
Context (twin_quiet : ∀ n, Steps (same w_store) (twin n)) (infra_quiet : ∀ n, Steps (same w_store) (infra n)).
Context (get_quiet : ∀ p, Steps (same w_store) (ai_get p)) (post_quiet : ∀ p, Steps (same w_store) (ai_post p)).
Section relation.
Context (R : relation Store) `{!PlaneRel R}.
Local Abbreviation Moves := (Steps (on_store R)).
Lemma moves_quiet {A} (m : IO A) : Steps (same w_store) m → Moves m.
Proof. apply steps_weaken. intros w w' E. unfold on_store. by rewrite E. Qed.
Lemma moves_modify f : (∀ w, w_store (f w) = w_store w) → Moves (modify f).
Proof. intros Hf w. unfold on_store. cbn. by rewrite Hf. Qed.
#[local] Hint Extern 2 (Steps (on_store R) (modify _)) => apply moves_modify; reflexivity : steps.
#[local] Hint Resolve twin_quiet infra_quiet get_quiet post_quiet : steps.
#[local] Hint Extern 4 (Steps (on_store R) _) => apply moves_quiet : steps.
Lemma quiet_iso ts : Steps (same w_store) (Business.fromiso ts).
Proof. unfold Business.fromiso. solve_steps. Qed.
#[local] Hint Resolve quiet_iso : steps.

(** *** Acceptance and termination *)
Section adapter.
Context (a : ComputeAdapter) `{!AdapterFrame a}.
#[local] Hint Resolve handler_order_of handler_node_of : steps.
Lemma moves_ensure o : Moves (Scenario._ensure_acceptance o).
Proof. unfold Scenario._ensure_acceptance, Scenario._build_acceptance_report, Scenario._deemed_days, Scenario._iso_plus. solve_steps. Qed.
Lemma moves_deem oid : Moves (Scenario._maybe_deem oid a).
Proof.
  pose proof (PortalFrame.finalize_steps a R oid). unfold Scenario._maybe_deem, Scenario.acceptance_mut. solve_steps.
Qed.
#[local] Hint Resolve moves_ensure moves_deem : steps.
Lemma moves_report oid : Moves (Scenario.acceptance_report a oid).
Proof. unfold Scenario.acceptance_report, Scenario.order_or_404. solve_steps. Qed.
(** A declined order is reopened only from delivered. *)
Lemma moves_reopen {B} oid (k : IO B) :
  Moves k → Moves (o ← Saga.order_of oid;
    when (bool_decide (o_state o = OS_delivered)) (order_mut oid (λ o, o <| o_state := OS_acceptance |>)) ;; k).
Proof.
  intros Hk w. unfold Saga.order_of, s_idx. run. destruct (dget (st_orders (w_store w)) oid) as [o|] eqn:E; [|reflexivity].
  cbn [fst snd]. destruct (bool_decide_reflect (o_state o = OS_delivered)) as [Hd|]; [|apply Hk].
  unfold when. set (w1 := (order_mut oid (λ o, o <| o_state := OS_acceptance |>) w).2).
  change (on_store R w (k w1).2). transitivity w1; [apply pr_reopen; congruence|apply Hk].
Qed.
Lemma moves_decline oid reason : Moves (Scenario.decline oid reason).
Proof.
  unfold Scenario.decline. apply steps_bind; [apply _|solve_steps|intros at_]. apply moves_reopen.
  unfold Scenario.acceptance_mut, Scenario._build_acceptance_report, Scenario._deemed_days, Scenario._iso_plus. solve_steps.
Qed.
#[local] Hint Resolve moves_decline : steps.
Lemma moves_decide oid d reason : Moves (Scenario.decide_acceptance a oid d reason).
Proof.
  pose proof (PortalFrame.finalize_steps a R oid).
  unfold Scenario.decide_acceptance, Scenario.acceptance_guards, Scenario.accept,
    Scenario.order_or_404, Scenario.acceptance_mut.
  solve_steps.
Qed.
Lemma moves_erase id tenant total acc aid : Moves (Scenario.erase_allocation id tenant a total acc aid).
Proof.
  unfold Scenario.erase_allocation, Scenario._term_progress, Scenario.termination_mut.
  pose proof (handler_run_terminate R a). solve_steps.
Qed.
#[local] Hint Resolve moves_erase : steps.
Lemma moves_saga id : Moves (Scenario._run_termination_saga id a).
Proof. unfold Scenario._run_termination_saga, Scenario._term_progress, Scenario.termination_mut. solve_steps. Qed.
#[local] Hint Resolve moves_saga : steps.
Lemma moves_confirm tid l : Moves (Scenario.confirm_backup a tid l).
Proof.
  unfold Scenario.confirm_backup, Scenario.latest_or_404, Scenario._term_progress, Scenario.termination_mut,
    Scenario._termination_stage_delay. solve_steps.
Qed.
Lemma moves_thread id : Moves (Scenario.wipe_thread id a).
Proof. unfold Scenario.wipe_thread. solve_steps. Qed.
End adapter.
Lemma moves_request tid : Moves (Scenario.request_termination tid).
Proof. unfold Scenario.request_termination. solve_steps. Qed.
Lemma moves_certificate tid : Moves (Scenario.get_wipe_certificate tid).
Proof. unfold Scenario.get_wipe_certificate, Scenario.latest_or_404, Scenario._term_progress, Scenario.termination_mut. solve_steps. Qed.
Lemma moves_inquiry c n e g m : Moves (Scenario.create_inquiry c n e g m).
Proof. unfold Scenario.create_inquiry. solve_steps. Qed.

(** *** Incidents and tickets *)
Lemma quiet_emulator_feed n : Steps (same w_store) (Emu._emulator_reprov_faults twin n).
Proof. unfold Emu._emulator_reprov_faults, getenv. solve_steps. Qed.
Lemma quiet_emulator_faults t n : Steps (same w_store) (Emu.faults t n).
Proof. unfold Emu.faults, store, Emu.emu. solve_steps. Qed.
#[local] Hint Resolve quiet_emulator_feed quiet_emulator_faults : steps.
Lemma moves_publish i : Moves (Incidents._publish_rca i).
Proof. unfold Incidents._publish_rca, store. solve_steps. Qed.
#[local] Hint Resolve moves_publish : steps.
Lemma moves_sync : Moves (Incidents._sync_incidents twin).
Proof.
  unfold Incidents._sync_incidents, Incidents.fault_feed, Incidents.sync_fault, Incidents.started_of, Incidents.locate,
    Incidents.settle, Incidents.over_at, Incidents.mttr_of, Incidents.incident_mut, s_idx, store. solve_steps.
Qed.
Lemma moves_synthesize tid month y m : Moves (Incidents.synthesize tid month y m).
Proof. unfold Incidents.synthesize, store. solve_steps. Qed.
Lemma quiet_lasting i : Steps (same w_store) (Incidents.downtime i).
Proof. unfold Incidents.downtime. solve_steps. Qed.
Lemma moves_credit tid month av l : Moves (Incidents.credit_for tid month av l).
Proof. unfold Incidents.credit_for, store. solve_steps. Qed.
#[local] Hint Resolve moves_sync moves_synthesize quiet_lasting moves_credit : steps.
Lemma moves_status : Moves (Incidents.status_page twin).
Proof. unfold Incidents.status_page, store. solve_steps. Qed.
Lemma moves_rcas tid : Moves (Incidents.rca_reports twin tid).
Proof. unfold Incidents.rca_reports, Incidents.known_tenant, s_values, store. solve_steps. Qed.
Lemma moves_sla tid month v : Moves (Incidents.sla_report twin tid month v).
Proof. unfold Incidents.sla_report, Incidents.known_tenant, store. solve_steps. Qed.
Lemma moves_ticket b : Moves (Business.create_ticket b).
Proof. unfold Business.create_ticket, store. solve_steps. Qed.
Lemma moves_ticket_update id b : Moves (Business.update_ticket id b).
Proof. unfold Business.update_ticket, s_idx. solve_steps. Qed.

(** *** Customer operations *)
Lemma moves_node_action action n x : Moves (Customer.node_action http_adapter ai_post action n x).
Proof. unfold Customer.node_action, Customer._tenant. pose proof (CustomerThms.frame_owns_node http_adapter). solve_steps. Qed.
Lemma moves_volumes x : Moves (Customer.list_volumes ai_get x).
Proof. unfold Customer.list_volumes, Customer._tenant, Customer._seed_volumes, Customer.seed_volume, store. solve_steps. Qed.
Lemma moves_own_volume v t : Moves (Customer.own_volume v t).
Proof. unfold Customer.own_volume, s_idx. solve_steps. Qed.
Lemma moves_own_member v t : Moves (Customer.own_member v t).
Proof. unfold Customer.own_member. solve_steps. Qed.
#[local] Hint Resolve moves_own_volume moves_own_member : steps.
Lemma moves_volume b x : Moves (Customer.create_volume b x).
Proof. unfold Customer.create_volume, Customer._tenant. solve_steps. Qed.
Lemma moves_qos v b x : Moves (Customer.set_qos v b x).
Proof. unfold Customer.set_qos, Customer._tenant, s_idx. solve_steps. Qed.
Lemma moves_delete v x : Moves (Customer.delete_volume v x).
Proof. unfold Customer.delete_volume, Customer._tenant. solve_steps. Qed.
Lemma moves_snapshot b x : Moves (Customer.create_snapshot b x).
Proof. unfold Customer.create_snapshot, Customer._tenant, Customer.json_round1. solve_steps. Qed.
Lemma moves_key b x : Moves (Customer.create_api_key b x).
Proof. unfold Customer.create_api_key, Customer._tenant. solve_steps. Qed.
Lemma moves_revoke k x : Moves (Customer.revoke_api_key k x).
Proof. unfold Customer.revoke_api_key, Customer._tenant. solve_steps. Qed.
Lemma moves_invite b x : Moves (Customer.invite_member b x).
Proof. unfold Customer.invite_member, Customer._tenant. solve_steps. Qed.
Lemma moves_member m b x : Moves (Customer.update_member m b x).
Proof. unfold Customer.update_member, Customer._tenant, s_idx. solve_steps. Qed.
Lemma moves_remove m x : Moves (Customer.remove_member m x).
Proof. unfold Customer.remove_member, Customer._tenant. solve_steps. Qed.

(** *** Managed K8s and the equipment *)
Lemma quiet_scan d : Steps (same w_store) (K8sApi._scan_health infra d).
Proof. unfold K8sApi._scan_health, K8sApi._ai_infra_faults, getenv. solve_steps. Qed.
#[local] Hint Resolve quiet_scan : steps.
Lemma moves_nodes c : Moves (K8sApi.cluster_nodes infra c).
Proof. unfold K8sApi.cluster_nodes, K8sApi._cluster_or_404, store. solve_steps. Qed.
Lemma moves_health c : Moves (K8sApi.cluster_health_events infra c).
Proof. unfold K8sApi.cluster_health_events, K8sApi._cluster_or_404, store. solve_steps. Qed.
Lemma moves_cluster_log c st d : Moves (K8s.cluster_log c st d).
Proof. apply (handler_cluster_log R). Qed.
#[local] Hint Resolve moves_cluster_log : steps.
Lemma moves_addon c n : Moves (K8sApi.add_cluster_addon c n).
Proof. unfold K8sApi.add_cluster_addon, K8sApi.running_cluster, K8sApi._cluster_or_404, s_idx. solve_steps. Qed.
Lemma moves_kubeconfig c role ttl : Moves (K8sApi.issue_kubeconfig c role ttl).
Proof. unfold K8sApi.issue_kubeconfig, K8sApi.running_cluster, K8sApi._cluster_or_404. solve_steps. Qed.
Lemma moves_kube_revoke c k : Moves (K8sApi.revoke_kubeconfig c k).
Proof. unfold K8sApi.revoke_kubeconfig, K8sApi._cluster_or_404, s_idx. solve_steps. Qed.
Lemma moves_upgrade c v : Moves (K8sApi.start_upgrade c v).
Proof. unfold K8sApi.start_upgrade, K8sApi.running_cluster, K8sApi._cluster_or_404, store. solve_steps. Qed.
Lemma moves_upgrade_thread u : Moves (K8sApi.upgrade_tick u).
Proof.
  unfold K8sApi.upgrade_tick, K8sApi.upgrade_action, K8sApi.upgrade_mut, s_idx. solve_steps.
Qed.
Lemma moves_equipment b : Moves (Topology.set_equipment_state b).
Proof. unfold Topology.set_equipment_state, store. solve_steps. Qed.
Lemma moves_power r p : Moves (Topology.set_power_policy r p).
Proof. unfold Topology.set_power_policy, Spec.get_blueprint. solve_steps. Qed.

(** *** The emulator and the site controller's demo endpoints leave the store alone. *)
Lemma quiet_workload t p : Steps (same w_store) (Emu.set_workload t p).
Proof. unfold Emu.set_workload, Emu.set_profile, Emu.sync_from_store, Emu.emu, store. pose proof IncidentThms.quiet_upd_emu. solve_steps. Qed.
Lemma quiet_nico_config n : Steps (same w_store) (Nico.set_config n).
Proof. by intros w. Qed.

Lemma moves_nico_failure h op : Moves (Nico.inject_failure h op).
Proof. apply moves_quiet. unfold Nico.inject_failure. solve_steps. Qed.
Lemma moves_nico_force h st : Moves (Nico.force_state h st).
Proof.
  apply moves_quiet, steps_cplane_store.
  unfold Nico.force_state. pose proof Nico.cplane_host_mut. pose proof Nico.cplane_host. solve_steps.
Qed.
Lemma moves_nico_ghost h sku : Moves (Nico.add_ghost h sku).
Proof. apply moves_quiet. unfold Nico.add_ghost. solve_steps. Qed.
Lemma moves_nico_delete h : Moves (Nico.delete_host h).
Proof. apply moves_quiet, steps_cplane_store. unfold Nico.delete_host. pose proof @Nico.cplane_n_get. solve_steps. Qed.
Lemma moves_nico_rest r : Moves (NicoMachine.serve r).
Proof.
  apply moves_quiet, steps_cplane_store. unfold NicoMachine.serve, NicoMachine.run_quietly, Nico.validate, Nico.inject_failure.
  pose proof Nico.cplane_host_mut. pose proof Nico.cplane_host. pose proof Nico.cplane_require. destruct r; solve_steps.
Qed.
Lemma moves_ignore {A} (m : IO A) : Moves m → Moves (ignore m).
Proof. apply ignore_steps, _. Qed.
Lemma moves_adapted {A} (f : ComputeAdapter → IO A) :
  (∀ a, AdapterFrame a → Moves (f a)) → Moves (a ← get_adapter http_adapter; ignore (f a)).
Proof. intros Hf. apply with_adapter; [assumption|]. intros a Ha. by apply moves_ignore, Hf. Qed.
Lemma route_steps r : Moves (serve r).
Proof.
  destruct r; cbn [serve].
  - apply (Api.serve_steps http_adapter R).
  - apply moves_adapted. intros a Ha. apply (moves_report a).
  - apply moves_adapted. intros a Ha. apply (moves_decide a).
  - apply moves_ignore, moves_request.
  - apply moves_adapted. intros a Ha. apply (moves_confirm a).
  - apply moves_adapted. intros a Ha. apply (moves_thread a).
  - apply moves_ignore, moves_certificate.
  - apply moves_ignore, moves_inquiry.
  - apply moves_ignore, moves_status.
  - apply moves_ignore, moves_rcas.
  - apply moves_ignore, moves_sla.
  - apply moves_ignore, moves_ticket.
  - apply moves_ignore, moves_ticket_update.
  - apply moves_ignore, moves_node_action.
  - apply moves_ignore, moves_node_action.
  - apply moves_ignore, moves_volumes.
  - apply moves_ignore, moves_volume.
  - apply moves_ignore, moves_qos.
  - apply moves_delete.
  - apply moves_ignore, moves_snapshot.
  - apply moves_ignore, moves_key.
  - apply moves_revoke.
  - apply moves_ignore, moves_invite.
  - apply moves_ignore, moves_member.
  - apply moves_remove.
  - apply moves_ignore, moves_nodes.
  - apply moves_ignore, moves_health.
  - apply moves_ignore, moves_addon.
  - apply moves_ignore, moves_kubeconfig.
  - apply moves_ignore, moves_kube_revoke.
  - apply moves_ignore, moves_upgrade.
  - apply moves_upgrade_thread.
  - apply moves_ignore, moves_equipment.
  - apply moves_ignore, moves_power.
  - apply moves_ignore, moves_quiet, IncidentThms.quiet_tick.
  - apply moves_ignore, moves_quiet, IncidentThms.quiet_inject.
  - apply moves_quiet, quiet_workload.
  - apply moves_quiet, IncidentThms.quiet_upd_emu.
  - apply moves_nico_failure.
  - apply moves_ignore, moves_nico_force.
  - apply moves_ignore, moves_nico_ghost.
  - apply moves_nico_delete.
  - apply moves_ignore, moves_quiet, quiet_nico_config.
  - apply moves_nico_rest.
  - apply moves_ignore, moves_quiet, Shared.store_issue_token.
  - apply moves_ignore, moves_quiet, Shared.store_pam_open.
  - apply moves_ignore, moves_quiet, Shared.store_pam_close.
  - by apply moves_modify.
Qed.
Lemma routes_rel rs w : R (w_store w) (w_store (serve_all rs w)).
Proof.
  revert w. induction rs as [|r rs IH]; intros w; cbn; [reflexivity|].
  etransitivity; [apply (route_steps r w)|apply IH].
Qed.
End relation.
End serve.

(** ** The relations *)
(** A rack that keeps its name, its tenant and its trays *)
Lemma rack_attr_isolated k f :
  (∀ r, rk_id (f r) = rk_id r ∧ rk_tenant_id (f r) = rk_tenant_id r ∧ rk_tray_ids (f r) = rk_tray_ids r) →
  Steps (on_store keeps_isolated) (s_mut st_racks k f).
Proof.
  intros Hf. apply steps_upd_store. intros s [Hb Hp]. set (s' := s <| st_racks ::= λ d, dupd d k f |>).
  assert (∀ k', (∃ r, dget (st_racks s') k' = Some r) ↔ ∃ r, dget (st_racks s) k' = Some r) as Hdom.
  { intros k'. cbn. rewrite dget_dupd. destruct (String.eqb_spec k' k) as [->|]; [|done].
    destruct (dget (st_racks s) k); split; intros [? E]; try discriminate E; by eexists. }
  assert (∀ k' r', dget (st_racks s') k' = Some r' → ∃ r, dget (st_racks s) k' = Some r
    ∧ rk_id r' = rk_id r ∧ rk_tenant_id r' = rk_tenant_id r ∧ rk_tray_ids r' = rk_tray_ids r) as Hinv.
  { intros k' r'. cbn. rewrite dget_dupd. destruct (String.eqb_spec k' k) as [->|]; [|by exists r'].
    destruct (dget (st_racks s) k) as [r|]; [|done]. cbn. intros [= <-]. exists r. split; [done|apply Hf]. }
  split.
  - destruct Hb as [H1 H2 H3 H4 H5 H6 H7 H8 H9]. split; try done.
    + intros rid r' (r & E & -> & _)%Hinv. by apply H5.
    + intros k' su rid E Hin. destruct (H6 k' su rid E Hin) as [r Er]. by apply Hdom; exists r.
    + intros k' rid t H. destruct (H7 k' rid t H) as [r Er]. by apply Hdom; exists r.
    + intros rid r' t (r & E & _ & -> & _)%Hinv. by apply H9.
  - apply (partitioned_view s); [done| |done]. intros k' r E. cbn. rewrite dget_dupd.
    destruct (String.eqb_spec k' k) as [->|]; [|by exists r]. rewrite E. exists (f r). destruct (Hf r) as (_ & Ht & Htr).
    split_and!; [done|done|]. by rewrite Ht.
Qed.
#[export] Instance isolated_plane : PlaneRel keeps_isolated.
Proof.
  split; [apply _|..]; intros.
  - by apply keeps_isolated_view.
  - by apply keeps_isolated_view.
  - unfold Scenario.append_event, order_mut. solve_steps.
  - by apply rack_attr_isolated.
  - by apply rack_attr_isolated.
  - solve_steps.
  - solve_steps.
Qed.
#[export] Instance vnis_plane : PlaneRel keeps_vnis.
Proof.
  split; [apply _|..]; intros; try solve_steps; try (by apply keeps_vnis_view).
  unfold Scenario.append_event, order_mut. solve_steps.
Qed.
(** What the customer's decision may do to an order, besides its transitions *)
Definition app_order_step (a b : OrderState) : Prop := order_step a b ∨ a = OS_delivered ∧ b = OS_acceptance.
Record order_tracked (o o' : ServiceOrder) : Prop := {
  ot_id : o_id o' = o_id o;
  ot_tenant : o_tenant_id o' = o_tenant_id o;
  ot_kind : o_kind o' = o_kind o;
  ot_history : ∃ l, states_of (o_history o') = states_of (o_history o) ++ l;
  ot_state : rtc app_order_step (o_state o) (o_state o')
}.
#[export] Instance order_tracked_preorder : PreOrder order_tracked.
Proof.
  split; [intros o; split; try done; by exists []; rewrite app_nil_r|].
  intros o1 o2 o3 [? ? ? (l & E) ?] [? ? ? (l' & E') ?]. split; try congruence; [|by etrans].
  exists (l ++ l'). by rewrite E', E, app_assoc.
Qed.
Lemma evolves_tracked o o' : order_evolves o o' → order_tracked o o'.
Proof.
  intros [H1 H2 H3 (l & E & Hp)]. split; [done..|by exists l|].
  apply hist_path_rtc in Hp. eapply rtc_subrel; [|exact Hp]. intros a b H. by left.
Qed.
Definition tracked (s s' : Store) : Prop :=
  orders_numbered s →
  orders_numbered s'
  ∧ entries node_evolves (st_node_instances s) (st_node_instances s')
  ∧ entries order_tracked (st_orders s) (st_orders s').
#[export] Instance tracked_preorder : PreOrder tracked.
Proof.
  split; [by intros s Hs|]. intros s1 s2 s3 H12 H23 H1. destruct (H12 H1) as (H2 & ? & ?).
  destruct (H23 H2) as (? & ? & ?). split_and!; [done|by etrans|by etrans].
Qed.
Lemma lawful_tracked s s' : lawful s s' → tracked s s'.
Proof.
  intros H Hs. destruct (H Hs) as (? & ? & He). split_and!; [done|done|]. intros k o E.
  destruct (He k o E) as (o' & ? & ?). exists o'. split; [done|by apply evolves_tracked].
Qed.
Lemma steps_tracked {A} (m : IO A) : Steps (on_store lawful) m → Steps (on_store tracked) m.
Proof. apply steps_weaken. intros w w'. apply lawful_tracked. Qed.
#[export] Instance tracked_rel : StoreRel tracked.
Proof.
  split; [apply _|..]; intros; try match goal with |- Steps _ _ => apply steps_tracked end; try solve [eauto with steps typeclass_instances].
  - by apply sr_next_seq.
  - by apply sr_cpu.
  - by apply sr_node.
  - by apply sr_order.
  - by apply sr_open_order.
  - exact (lawful_tracked _ _ (sr_node_log (R := lawful) nid st detail w H)).
  - exact (lawful_tracked _ _ (sr_node_new (R := lawful) nid v s H)).
Qed.
Lemma tracked_order_mut oid f w :
  (∀ o, dget (st_orders (w_store w)) oid = Some o → order_tracked o (f o)) →
  on_store tracked w (order_mut oid f w).2.
Proof.
  intros Hf Hs. split_and!; [|reflexivity|].
  - by apply (orders_numbered_keys (w_store w)); [|apply dkeys_dupd|].
  - intros k o E. cbn. rewrite dget_dupd. destruct (String.eqb_spec k oid) as [->|]; [|by exists o].
    rewrite E. exists (f o). split; [done|]. by apply Hf.
Qed.
#[export] Instance tracked_plane : PlaneRel tracked.
Proof.
  split; [apply _|..]; intros; try match goal with |- Steps _ (s_mut _ _ _) => apply steps_tracked; solve_steps end.
  - apply lawful_tracked. by apply lawful_frame.
  - apply tracked_order_mut. intros o E. split; try done; [by exists []; rewrite app_nil_r|].
    apply rtc_once. right. split; [by eapply H|done].
  - intros w. apply tracked_order_mut. intros o E. split; try done. cbn. unfold states_of. rewrite fmap_app. by eexists.
Qed.

Lemma final_stays a b : Lifecycle.final_order a = true → rtc app_order_step a b → b = a.
Proof.
  intros Hf H. inversion H as [|? c ? [Hs|[-> _]] _]; subst; [done| |done].
  by destruct (Lifecycle.final_stuck a c Hf Hs).
Qed.

(** ** The application's invariants *)
Section application.
Context (http_adapter : string → ComputeAdapter) `{!∀ url, AdapterFrame (http_adapter url)}.
Context (twin infra : Z → IO (option (list TwinFault))).
Context (ai_get : string → IO (option json)) (ai_post : string → IO json).
Context (twin_quiet : ∀ n, Steps (same w_store) (twin n)) (infra_quiet : ∀ n, Steps (same w_store) (infra n)).
Context (get_quiet : ∀ p, Steps (same w_store) (ai_get p)) (post_quiet : ∀ p, Steps (same w_store) (ai_post p)).

(** C1: The whole application keeps its invariants.  Whatever sequence of the
    application's routes and threads is served, with whatever outcome, site
    controller and remote consoles: racks stay exclusive and carry the tenant of
    their allocation, partitions stay within their tenant's racks and trays, no
    VNI belongs to two tenants; no node or order is lost or renamed, nodes move
    only along their transition table and their histories record it, orders only
    along theirs or, when a customer rejects a delivery, from delivered back to
    acceptance, and their histories only grow. *)
Theorem application_invariants rs w :
  isolated (w_store w) → vnis_ok (w_store w) → orders_numbered (w_store w) →
  let w' := serve_all http_adapter twin infra ai_get ai_post rs w in
  isolated (w_store w') ∧ vnis_ok (w_store w') ∧ orders_numbered (w_store w')
  ∧ entries node_evolves (Lifecycle.nodes_in w) (Lifecycle.nodes_in w')
  ∧ entries order_tracked (Lifecycle.orders_in w) (Lifecycle.orders_in w')
  ∧ ∀ oid o, dget (Lifecycle.orders_in w) oid = Some o → Lifecycle.final_order (o_state o) = true →
      ∃ o', dget (Lifecycle.orders_in w') oid = Some o' ∧ o_state o' = o_state o.
Proof.
  intros Hi Hv Hn. cbv zeta.
  pose proof (routes_rel http_adapter twin infra ai_get ai_post twin_quiet infra_quiet get_quiet post_quiet tracked rs w Hn) as (Hn' & He & Ho).
  split_and!; [|..|done|done|done|].
  - by apply (routes_rel http_adapter twin infra ai_get ai_post twin_quiet infra_quiet get_quiet post_quiet keeps_isolated).
  - by apply (routes_rel http_adapter twin infra ai_get ai_post twin_quiet infra_quiet get_quiet post_quiet keeps_vnis).
  - intros oid o E Hf. destruct (Ho oid o E) as (o' & E' & Ht). exists o'. split; [done|]. by apply final_stays; [|apply Ht].
Qed.
End application.

(** ** On the delivered site: a day of customers and operators *)
Definition no_view (path : string) : IO (option json) := mret None.
Definition no_op (path : string) : IO json := mret J_null.
Lemma no_view_quiet p : Steps (same w_store) (no_view p).
Proof. by intros w. Qed.
Lemma no_op_quiet p : Steps (same w_store) (no_op p).
Proof. by intros w. Qed.
Definition day : list route :=
  [Acceptance_report "ord-1"; Acceptance_decide "ord-1" "reject" (Some "slow"); Acceptance_decide "ord-1" "approve" None;
   Volume_create (Customer.mkVolumeBody "scratch" 10 "NFS" 100 20) (Some "tnt-acme"); Emu_inject (Demo.tray_id 1 0) 0 79 2; Status;
   Equipment (Topology.mkEquip "rack" "su-1-rack-01" "maintenance"); Termination_request "tnt-acme";
   Nico_rest (NicoMachine.R_cordon "nh-su-1-rack-00-tray-00" "fan"); Pam_open "ops" "nico" "fan" 900; Trace_clear;
   Termination_confirm "tnt-acme" ((λ i, (i, true)) <$> Scenario.TERMINATION_CHECKLIST); Core Api.R_reconcile].
Definition evening : World := serve_all Lifecycle.demo_http IncidentThms.no_twin IncidentThms.no_twin no_view no_op day Demo.delivered.
Lemma application_invariants_witness :
  o_state <$> dvalues (Lifecycle.orders_in evening) = [OS_delivered; OS_closed]
  ∧ length (st_allocations (w_store evening)) = 0 ∧ length (st_incidents (w_store evening)) = 1
  ∧ isolated (w_store evening) ∧ vnis_ok (w_store evening)
  ∧ entries node_evolves (Lifecycle.nodes_in Demo.delivered) (Lifecycle.nodes_in evening).
Proof.
  split; [vm_compute; reflexivity|]. split; [vm_compute; reflexivity|]. split; [vm_compute; reflexivity|].
  destruct (application_invariants Lifecycle.demo_http IncidentThms.no_twin IncidentThms.no_twin no_view no_op
    IncidentThms.no_twin_quiet IncidentThms.no_twin_quiet no_view_quiet no_op_quiet day Demo.delivered
    TenancyThms.Isolation.delivered_isolated TenancyThms.Isolation.delivered_vnis Lifecycle.delivered_numbered) as (Hi & Hv & _ & Hn & _).
  split; [exact Hi|]. split; [exact Hv|exact Hn].
Defined.
End App.
