(* ===== verification/Assembly.v ===== *)
(** * Process start and reset (app/main.py, the samples of app/seed.py)

    [lifespan] is what the process does before it serves its first request,
    [reseed] and [reset_all] are the administrator's routes that start over, and
    [count_api_calls] is the middleware that counts requests.  The metrics
    collector is its own object, so a [Process] is a world with a collector. *)
From Stdlib Require Import QArith Ascii.
From stdpp Require Import strings base decidable option numbers list.
From S2P Require Import Prelude PyLib Models PortalModels EmuModels World Trace NicoSim VastSim SharedSvc Spec Seed.
From S2P Require Import Adapters StateMachine Metrics TrayEmu.
Local Open Scope string_scope.
Local Open Scope list_scope.
Local Open Scope py_scope.

Module Assembly.
Import Seed.

(** ** The sample data of a demo seed *)
Record Sample := mkSample { sa_subject : string; sa_severity : string; sa_status : string; sa_body : string }.
Definition SAMPLES : list Sample :=
  [mkSample "GPU 노드 상태 점검 요청" "critical" "open"
     "training job 중 XID 79 알림 수신 — 해당 트레이 점검 요청 (sample)";
   mkSample "스토리지 마운트 지연 문의" "medium" "resolved"
     "VAST view 마운트 지연 문의 — 재시도 후 정상 확인 (sample)"].
Definition sample_ticket (tid at_ : string) (s : Sample) : Ticket :=
  mkTicket tid "tnt-fin-corp" (sa_subject s) (sa_body s) (sa_severity s) (sa_status s)
    "tech" "ops" None None None at_ at_ [].
Definition add_sample (at_ : string) (s : Sample) : IO unit :=
  n ← next_seq "ticket";
  let tid := "tck-" +:+ str_of_Z n in
  s_set st_tickets tid (sample_ticket tid at_ s).
(** [if not store.tickets] *)
Definition no_tickets : IO bool := gets (λ w, bool_decide (dkeys (st_tickets (w_store w)) = [])).
Definition seed_demo_samples : IO unit :=
  Emu.seed_sample_faults ;;
  empty ← no_tickets;
  if empty : bool then (at_ ← now; for_each SAMPLES (add_sample at_)) else mret tt.

(** ** Start and reseed *)
Section start.
Context (http_adapter : string → ComputeAdapter).
Definition bootstrap : IO unit :=
  a ← get_adapter http_adapter; bootstrap_nodes a ≫= λ _, mret tt.
Definition restart_emulator : IO unit := Emu.reset ;; Emu.sync_from_store.

(** [[b.strip() for b in blueprints.split(",")]] *)
Fixpoint split_on (c : ascii) (s : string) : list string :=
  match s with
  | EmptyString => [EmptyString]
  | String a s' =>
      if Ascii.eqb a c then EmptyString :: split_on c s'
      else match split_on c s' with
           | x :: l => String a x :: l
           | [] => [String a EmptyString]
           end
  end.
Definition blueprint_list (blueprints : option string) : option (list string) :=
  match blueprints with
  | Some s => if truthy_str s then Some (py_strip <$> split_on "," s) else None
  | None => None
  end.

Record ReseedReport := mkReseed { rs_scalable_units : Z; rs_gpus : Z; rs_nodes : Z }.
(** What follows the seeding *)
Definition realign : IO unit :=
  Nico.seed_from_store ;;
  Vast.reset ;;
  Shared.reset ;;
  Trace.clear ;;
  bootstrap ;;
  restart_emulator.
Definition reseed (blueprints : option string) : IO ReseedReport :=
  let bps := blueprint_list blueprints in
  seed_default bps ;;
  realign ;;
  (match bps with None => seed_demo_samples | Some _ => mret tt end) ;;
  s ← store;
  mret (mkReseed (Z.of_nat (length (st_sus s))) (Z.of_nat (length (st_gpus s)))
          (Z.of_nat (length (st_node_instances s)))).
Definition health : IO Z := gets (λ w, Z.of_nat (length (st_sus (w_store w)))).

(** ** The process: the world and the metrics collector *)
Record Process := mkProcess { p_world : World; p_metrics : Metrics.Collector }.
Definition on_world {A} (m : IO A) : M Process A :=
  λ p, let '(r, w) := m (p_world p) in (r, mkProcess w (p_metrics p)).
Definition on_metrics (f : Metrics.Collector → Metrics.Collector) : M Process unit :=
  modify (λ p, mkProcess (p_world p) (f (p_metrics p))).
(** [lifespan] up to its [yield]; the ticker it starts is [Emu.tick]. *)
Definition lifespan : M Process unit :=
  fresh ← gets (λ p, bool_decide (dkeys (st_factories (w_store (p_world p))) = []));
  when fresh (on_world (seed_default None)) ;;
  on_world Nico.seed_from_store ;;
  on_world Vast.reset ;;
  on_world Shared.reset ;;
  on_world Trace.clear ;;
  on_metrics Metrics.reset ;;
  on_world bootstrap ;;
  on_world restart_emulator ;;
  when fresh (on_world seed_demo_samples).
(** [count_api_calls]: the request is counted, then served. *)
Definition count_api_calls {A} (path : string) (at_ : Q) (call_next : IO A) : M Process A :=
  on_metrics (Metrics.record path at_) ;; on_world call_next.

(** ** Resetting every layer

    [http_post url] is the answer of another process: its status and JSON object,
    if it has a body, or the text of the exception. *)
Context (http_post : string → IO (string + Z * option (dict json))).
Definition _post_json (url : string) : IO (dict json) :=
  r ← http_post url;
  mret match r with
       | inr (code, body) =>
           if (400 <=? code)%Z then [("status", J_str "error"); ("detail", J_str ("HTTP " +:+ str_of_Z code))]
           else foldl (λ d kv, dset d kv.1 kv.2) [("status", J_str "reset")] (default [] body)
       | inl exc => [("status", J_str "unreachable"); ("detail", J_str (String.substring 0 160 exc))]
       end.
Definition _emu_urls : IO (string * string) :=
  nico ← getenv "NICO_EMULATOR_URL";
  ai ← getenv "AI_INFRA_URL";
  mret (default "http://127.0.0.1:9000" nico, default "http://127.0.0.1:9100" ai).
Definition reset_nico : IO (dict json) :=
  '(nico, _) ← _emu_urls; _post_json (nico +:+ "/emulator/v1/reset").
Definition reset_ai_infra : IO (dict json) :=
  '(_, ai) ← _emu_urls; _post_json (ai +:+ "/emulator/v1/reset").
(** [not ai or ai.get("status") != "reset"] *)
Definition ai_missed (ai : option json) : IO bool :=
  match ai with
  | None => mret true
  | Some j =>
      if negb (json_truthy j) then mret true
      else match j with
           | J_dict d => mret (negb (json_is_str (jget d "status") "reset"))
           | _ => raise (AttributeError "get")
           end
  end.
Definition reset_all (blueprints : option string) : IO (ReseedReport * dict json * json) :=
  nocp ← reseed blueprints;
  '(nico_url, ai_url) ← _emu_urls;
  nico ← _post_json (nico_url +:+ "/emulator/v1/reset?cascade=true");
  missed ← ai_missed (dget nico "ai_infra");
  ai ← (if missed : bool then d ← _post_json (ai_url +:+ "/emulator/v1/reset"); mret (J_dict d)
        else mret (default J_null (dget nico "ai_infra")));
  mret (nocp, ddel nico "ai_infra", ai).
End start.
End Assembly.
