(* ===== verification/AssemblyThms.v ===== *)
(** * Process start: theorems

    A fresh start and a reseed always succeed and leave a process in which every
    layer mirrors the new inventory and every invariant of the application holds;
    from there on the routes keep them. *)
From Stdlib Require Import QArith Ascii.
From stdpp Require Import strings base decidable option numbers list relations.
From S2P Require Import Prelude PyLib Models PortalModels EmuModels World Trace NicoSim NicoMachine VastSim SharedSvc Spec Seed.
From S2P Require Import StoreOps Adapters Reconcile ReconcileThms Binding Partition StateMachine Handlers Lawful Isolation Demo Metrics TrayEmu Api TenancyThms.
From S2P Require Import CustomerThms SeedThms IncidentThms EmuThms App Assembly.
Local Open Scope string_scope.
Local Open Scope list_scope.
Local Open Scope py_scope.

Module AssemblyThms.
Import App Seed SeedThms Assembly NicoMachine EmuThms.
Local Abbreviation books_ok := IncidentThms.books_ok.

(** ** What seeding leaves empty *)
(** Everything of the world but the GPU inventory *)
Definition outside (w : World) : World :=
  w <| w_store ::= λ s, s <| st_factories := [] |> <| st_blocks := [] |> <| st_dus := [] |> <| st_sus := [] |>
         <| st_racks := [] |> <| st_trays := [] |> <| st_nvlink_trays := [] |> <| st_gpus := [] |>
         <| st_cpus := [] |> <| st_dpus := [] |> |>.
Lemma outside_upd f :
  (∀ w, outside (w <| w_store ::= f |>) = outside w) → Steps (same outside) (upd_store f).
Proof. intros Hf w. apply Hf. Qed.
Ltac inventory_only := apply outside_upd; intros ?; reflexivity.
#[local] Hint Extern 2 (Steps (same outside) (s_set _ _ _)) => inventory_only : steps.
#[local] Hint Extern 2 (Steps (same outside) (s_mut _ _ _)) => inventory_only : steps.
Lemma outside_blueprint k : Steps (same outside) (Spec.get_blueprint k).
Proof. unfold Spec.get_blueprint. solve_steps. Qed.
Lemma outside_tray bp rack t : Steps (same outside) (add_tray bp rack t).
Proof. unfold add_tray. solve_steps. Qed.
#[local] Hint Resolve outside_blueprint outside_tray : steps.
Lemma outside_rack bp cap su r : Steps (same outside) (add_rack bp cap su r).
Proof. unfold add_rack. solve_steps. Qed.
#[local] Hint Resolve outside_rack : steps.
Lemma outside_provision f d i bk pol racks : Steps (same outside) (provision_scalable_unit f d i bk pol racks).
Proof. unfold provision_scalable_unit. solve_steps. Qed.
#[local] Hint Resolve outside_provision : steps.
Lemma outside_site acc site : Steps (same outside) (seed_site acc site).
Proof. unfold seed_site, seed_floor, seed_sus. solve_steps. Qed.
#[local] Hint Resolve outside_site : steps.
(** [seed_default] between the reset of the store and the CPU nodes *)
Definition seed_sites (blueprints : option (list string)) : IO unit :=
  match blueprints with
  | Some ((_ :: _) as l) => seed_blueprints l
  | _ => fold_m seed_site (0%Z, 0%Z) PHASE1_SITES ≫= λ _, mret tt
  end.
Lemma outside_sites blueprints : Steps (same outside) (seed_sites blueprints).
Proof. unfold seed_sites, seed_blueprints. solve_steps. Qed.

(** ** The equipment of a new site is free *)
Definition unleased (s : Store) : Prop := ∀ k r, dget (st_racks s) k = Some r → rk_tenant_id r = None.
Lemma unleased_frame f : (∀ s, st_racks (f s) = st_racks s) → Steps (keeps w_store unleased) (upd_store f).
Proof. intros Hf. apply steps_modify. intros w H k r. cbn. rewrite Hf. apply H. Qed.

Local Abbreviation Frees := (Steps (keeps w_store unleased)).
Ltac no_rack := apply unleased_frame; intros ?; reflexivity.
#[local] Hint Extern 3 (Steps (keeps w_store unleased) (s_set _ _ _)) => no_rack : steps.
#[local] Hint Extern 3 (Steps (keeps w_store unleased) (s_mut _ _ _)) => no_rack : steps.
#[local] Hint Extern 4 (Steps (keeps w_store unleased) _) => apply steps_same_keeps : steps.
Lemma unleased_rack bp cap su r : Steps (keeps w_store unleased) (s_set st_racks (rack_name su r) (new_rack bp cap su r)).
Proof.
  apply steps_modify. intros w H k r'. cbn. rewrite dget_dset. destruct (String.eqb _ _); [by intros [= <-]|apply H].
Qed.
#[local] Hint Resolve unleased_rack : steps.
Lemma quiet_blueprint k : Steps (same w_store) (Spec.get_blueprint k).
Proof. unfold Spec.get_blueprint. solve_steps. Qed.
#[local] Hint Resolve quiet_blueprint : steps.
Lemma unleased_provision f d i bk pol racks : Frees (provision_scalable_unit f d i bk pol racks).
Proof. unfold provision_scalable_unit, add_rack, add_tray. solve_steps. Qed.
#[local] Hint Resolve unleased_provision : steps.
Lemma unleased_sites blueprints : Frees (seed_sites blueprints).
Proof. unfold seed_sites, seed_blueprints, seed_site, seed_floor, seed_sus. solve_steps. Qed.

(** ** The tree above the scalable units: what [su_site] walks through *)
Definition sites_wf (s : Store) : Prop := ∀ f b, f ∈ dvalues (st_factories s) → b ∈ f_block_ids f →
  ∃ bk, dget (st_blocks s) b = Some bk ∧ ∀ d, d ∈ bk_du_ids bk → is_Some (dget (st_dus s) d).
Lemma sites_frame f : (∀ s, st_factories (f s) = st_factories s) → (∀ s, st_blocks (f s) = st_blocks s) →
  (∀ s d, is_Some (dget (st_dus s) d) → is_Some (dget (st_dus (f s)) d)) →
  Steps (keeps w_store sites_wf) (upd_store f).
Proof.
  intros Hf Hb Hd. apply steps_modify. intros w H fa b. cbn. rewrite Hf, Hb. intros E Hin.
  destruct (H fa b E Hin) as (bk & Eb & Hds). exists bk. split; [done|]. intros d Hd'. by apply Hd, Hds.
Qed.
Ltac below_sites := apply sites_frame; [reflexivity|reflexivity|done].
#[local] Hint Extern 3 (Steps (keeps w_store sites_wf) (s_set _ _ _)) => below_sites : steps.
#[local] Hint Extern 4 (Steps (keeps w_store sites_wf) _) => apply steps_same_keeps : steps.
Lemma sites_du_mut d f : Steps (keeps w_store sites_wf) (s_mut st_dus d f).
Proof.
  apply sites_frame; [reflexivity|reflexivity|]. intros s k [v E]. cbn. rewrite dget_dupd.
  destruct (String.eqb_spec k d) as [->|]; [rewrite E|]; by eexists.
Qed.
#[local] Hint Resolve sites_du_mut : steps.
Lemma sites_provision f d i bk pol racks : Steps (keeps w_store sites_wf) (provision_scalable_unit f d i bk pol racks).
Proof. unfold provision_scalable_unit, add_rack, add_tray. solve_steps. Qed.
#[local] Hint Resolve sites_provision : steps.
(** A floor: a block with its unit, entered at its factory *)
Lemma sites_floor (s : Store) site block bk du u :
  sites_wf s → bk_du_ids bk = [du] →
  sites_wf (s <| st_blocks ::= λ d, dset d block bk |>
              <| st_factories ::= λ d, dupd d site (λ f, f <| f_block_ids ::= λ l, l ++ [block] |>) |>
              <| st_dus ::= λ d, dset d du u |>).
Proof.
  intros H Ebk f b. cbn. rewrite dget_dset. intros E Hin.
  assert (b = block ∨ ∃ f', f' ∈ dvalues (st_factories s) ∧ b ∈ f_block_ids f') as Hb.
  { apply dvalues_dupd in E as [E|(f' & E & ->)]; [right; by exists f|]. cbn in Hin.
    apply elem_of_app in Hin as [?| ->%list_elem_of_singleton]; [|by left]. right. by exists f'. }
  destruct (String.eqb_spec b block) as [->|Hne].
  { exists bk. split; [done|]. intros d. rewrite Ebk, list_elem_of_singleton. intros ->. rewrite dget_dset_eq. by eexists. }
  destruct Hb as [|(f' & E' & Hin')]; [done|]. destruct (H f' b E' Hin') as (bk' & Eb & Hd).
  exists bk'. split; [done|]. intros d Hdu. rewrite dget_dset. destruct (String.eqb d du); [by eexists|by apply Hd].
Qed.
Lemma sites_seed_floor site acc fl : Steps (keeps w_store sites_wf) (seed_floor site acc fl).
Proof.
  destruct acc as [[n blk] i]. intros w. unfold seed_floor. cbv zeta.
  set (block := si_id site +:+ "-f" +:+ str_of_Z n). set (du := "du-" +:+ str_of_Z (blk + 1)).
  match goal with |- keeps _ _ _ ((s_set _ _ ?bk ;; _ ;; s_set _ _ ?u ;; ?m) w).2 =>
    set (w3 := w <| w_store ::= λ s, s <| st_blocks ::= λ d, dset d block bk |>
       <| st_factories ::= λ d, dupd d (si_id site) (λ f, f <| f_block_ids ::= λ l, l ++ [block] |>) |>
       <| st_dus ::= λ d, dset d du u |> |>);
    assert (Steps (keeps w_store sites_wf) m) as Hm by (unfold seed_sus; solve_steps)
  end.
  intros Hw. apply (Hm w3). by apply sites_floor.
Qed.
#[local] Hint Resolve sites_seed_floor : steps.

Lemma sites_factory k f : f_block_ids f = [] → Steps (keeps w_store sites_wf) (s_set st_factories k f).
Proof.
  intros Ef. apply steps_modify. intros w H f' b. cbn. intros [?| ->]%dvalues_dset; [by apply H|]. rewrite Ef. by intros ?%elem_of_nil.
Qed.
Lemma sites_seed_site acc site : Steps (keeps w_store sites_wf) (seed_site acc site).
Proof. unfold seed_site. pose proof (λ k f, sites_factory k f). destruct acc. apply steps_bind; [apply _|by apply sites_factory|]. solve_steps. Qed.
#[local] Hint Resolve sites_seed_site : steps.
Lemma sites_one (s : Store) site f block bk du u :
  sites_wf s → f_block_ids f = [block] → bk_du_ids bk = [du] →
  sites_wf (s <| st_factories ::= λ d, dset d site f |> <| st_blocks ::= λ d, dset d block bk |>
              <| st_dus ::= λ d, dset d du u |>).
Proof.
  intros H Ef Ebk f' b. cbn. intros E Hin. rewrite dget_dset.
  destruct (String.eqb_spec b block) as [->|Hne].
  { exists bk. split; [done|]. intros d. rewrite Ebk, list_elem_of_singleton. intros ->. rewrite dget_dset_eq. by eexists. }
  apply dvalues_dset in E as [E| ->]; [|rewrite Ef in Hin; by apply list_elem_of_singleton in Hin].
  destruct (H f' b E Hin) as (bk' & Eb & Hd). exists bk'. split; [done|]. intros d Hdu. rewrite dget_dset.
  destruct (String.eqb d du); [by eexists|by apply Hd].
Qed.
Lemma sites_sites blueprints : Steps (keeps w_store sites_wf) (seed_sites blueprints).
Proof.
  unfold seed_sites. destruct blueprints as [[|k l]|]; [solve_steps| |solve_steps].
  unfold seed_blueprints. intros w.
  match goal with |- keeps _ _ _ ((s_set _ _ ?f ;; s_set _ _ ?bk ;; s_set _ _ ?u ;; ?m) w).2 =>
    set (w3 := w <| w_store ::= λ s, s <| st_factories ::= λ d, dset d "aif-skt-01" f |>
       <| st_blocks ::= λ d, dset d "block-1" bk |> <| st_dus ::= λ d, dset d "du-1" u |> |>);
    assert (Steps (keeps w_store sites_wf) m) as Hm by solve_steps
  end.
  intros Hw. apply (Hm w3). by apply sites_one.
Qed.

(** ** The CPU nodes *)
Definition cpu_pool : dict CpuNode := (λ n, (cpu_node_name n, new_cpu_node n)) <$> seqZ 1 60.
Lemma cpu_pool_fresh : puts cpu_pool [] = cpu_pool.
Proof. vm_compute. reflexivity. Qed.
Lemma seed_cpu_run w :
  seed_cpu_nodes w = (Ok tt, w <| w_store ::= λ s, s <| st_cpu_nodes ::= puts cpu_pool |> |>).
Proof.
  unfold seed_cpu_nodes, cpu_pool. generalize (seqZ 1 60) as l. intros l. revert w.
  induction l as [|n l IH]; intros w; [by destruct w as [??? []]|]. cbn [for_each].
  rewrite (bind_ok _ _ _ _ _ (eq_refl : s_set st_cpu_nodes _ (new_cpu_node n) w = _)). rewrite IH. done.
Qed.

(** ** A seeded world *)
Definition rest (w : World) : World := (outside w) <| w_store ::= λ s, s <| st_cpu_nodes := [] |> |>.
Record seeded_site (blueprints : option (list string)) (w w' : World) : Prop := {
  ss_tree : inventory_wf (w_store w');
  ss_numbers : ∃ i, (0 ≤ i)%Z ∧ dkeys (st_sus (w_store w')) = su_name <$> seqZ 1 i;
  ss_racks : rack_counts (w_store w') = asked blueprints;
  ss_unleased : unleased (w_store w');
  ss_sites : sites_wf (w_store w');
  ss_cpus : st_cpu_nodes (w_store w') = cpu_pool;
  ss_rest : rest w' = w <| w_store := empty_store |>
}.
Lemma seed_run blueprints w :
  (∀ l k, blueprints = Some l → k ∈ l → is_Some (dget Spec.BLUEPRINTS k)) →
  ∃ w', seed_default blueprints w = (Ok tt, w') ∧ seeded_site blueprints w w'.
Proof.
  intros Hl. destruct (seed_tree blueprints w Hl) as (w' & E & Hwf & i & Hi & Hk & Hrc). exists w'. split; [done|].
  unfold seed_default in E. fold (seed_sites blueprints) in E.
  set (w0 := w <| w_store := empty_store |>). rewrite (bind_ok store_reset _ w tt w0) in E by done.
  apply bind_inv in E as ([] & w1 & E1 & E). rewrite seed_cpu_run in E. injection E as <-.
  assert (outside w1 = w0) as Eo by (pose proof (outside_sites blueprints w0) as H; rewrite E1 in H; exact H).
  split; [done|by exists i|done|..].
  - pose proof (unleased_sites blueprints w0) as H. rewrite E1 in H. by apply H.
  - pose proof (sites_sites blueprints w0) as H. rewrite E1 in H. apply H. by intros f b ?%elem_of_nil.
  - assert (st_cpu_nodes (w_store w1) = []) as E2 by exact (f_equal (λ w, st_cpu_nodes (w_store w)) Eo).
    cbn. by rewrite E2, cpu_pool_fresh.
  - transitivity (rest w1); [by destruct w1 as [??? []]|]. unfold rest. rewrite Eo. by destruct w.
Qed.

(** ** The site controller mirrors the store *)
Definition pure_at {A} (m : IO A) (w : World) (a : A) : Prop := m w = (Ok a, w).
Lemma fold_pure {A B} (f : B → A → IO B) l acc w :
  (∀ b x, x ∈ l → ∃ b', f b x w = (Ok b', w)) → ∃ b', fold_m f acc l w = (Ok b', w).
Proof.
  revert acc. induction l as [|x l IH]; intros acc Hf; [by exists acc|]. cbn.
  destruct (Hf acc x) as [b E]; [left|]. rewrite (bind_ok _ _ _ _ _ E). apply IH.
  intros b' y Hy. apply Hf. by right.
Qed.
Lemma idx_ok {V} (p : Store → dict V) k v w : dget (p (w_store w)) k = Some v → s_idx p k w = (Ok v, w).
Proof. intros E. unfold s_idx, s_get. run. by rewrite E. Qed.
Lemma su_site_ok w : sites_wf (w_store w) → ∃ site, Nico.su_site w = (Ok site, w).
Proof.
  intros H. unfold Nico.su_site. rewrite (bind_ok (s_values st_factories) _ w (dvalues (st_factories (w_store w))) w) by done.
  apply fold_pure. intros acc f Hf. apply fold_pure. intros acc' b Hb.
  destruct (H f b Hf Hb) as (bk & E & Hd). rewrite (bind_ok _ _ _ _ _ (idx_ok st_blocks _ _ w E)).
  apply fold_pure. intros acc'' d Hdu. destruct (Hd d Hdu) as [du Edu].
  rewrite (bind_ok _ _ _ _ _ (idx_ok st_dus _ _ w Edu)). by eexists.
Qed.
(** The host of a tray and of a CPU node *)
Definition tray_host (s : Store) (site : dict string) (t : ComputeTray) : string * NicoHost :=
  let ips := Nico.ips_for_tray (t_id t) in
  ("nh-" +:+ t_id t,
   mkHost ("nh-" +:+ t_id t) (t_id t)
     match dget (st_racks s) (t_rack_id t) with Some r => rk_blueprint_key r | None => EmptyString end
     (default EmptyString (dget site (before_last "-rack-" (t_rack_id t)))) HS_pool_ready true true false None None None
     match ips with Some i => Nico.ip_bmc i | None => EmptyString end
     match ips with Some i => Nico.ip_dpu i | None => EmptyString end EmptyString None).
Definition set_hosts (f : dict NicoHost → dict NicoHost) (w : World) : World :=
  w <| w_nico ::= λ n, n <| nc_hosts ::= f |> |>.
Lemma seed_hosts_run site l w :
  for_each l (Nico.seed_host site) w = (Ok tt, set_hosts (puts (tray_host (w_store w) site <$> l)) w).
Proof.
  revert w. induction l as [|t l IH]; intros w; [by destruct w as [???? []]|]. cbn [for_each].
  rewrite (bind_ok _ _ w tt (set_hosts (puts [tray_host (w_store w) site t]) w)) by done. rewrite IH. done.
Qed.
Definition cpu_idx (cn : CpuNode) : Z := match int_suffix (cn_id cn) with inl i => i | inr _ => 0%Z end.
Definition cpu_host (cn : CpuNode) : string * NicoHost :=
  ("nh-" +:+ cn_id cn,
   mkHost ("nh-" +:+ cn_id cn) (cn_id cn) "cpu-epyc" EmptyString HS_pool_ready true true false None None None
     ("10.254.1." +:+ str_of_Z (cpu_idx cn)) ("10.255.1." +:+ str_of_Z (cpu_idx cn)) EmptyString None).
Lemma cpu_hosts_run l w :
  l ⊆ dvalues cpu_pool → for_each l Nico.seed_cpu_host w = (Ok tt, set_hosts (puts (cpu_host <$> l)) w).
Proof.
  revert w. induction l as [|c l IH]; intros w Hl; [by destruct w as [???? []]|]. cbn [for_each].
  assert (c ∈ dvalues cpu_pool) as Hc by (apply Hl; left).
  assert (Nico.seed_cpu_host c w = (Ok tt, set_hosts (puts [cpu_host c]) w)) as E.
  { assert (∃ n, c = new_cpu_node n ∧ ∃ i, int_suffix (cpu_node_name n) = inl i) as (n & -> & i & Ei).
    { unfold dvalues, cpu_pool in Hc. rewrite <- list_fmap_compose in Hc.
      apply list_elem_of_fmap in Hc as (n & -> & Hn). exists n. split; [done|].
      assert (allb (λ n, match int_suffix (cpu_node_name n) with inl _ => true | inr _ => false end) (seqZ 1 60) = true) as Hall
        by (vm_compute; reflexivity).
      rewrite allb_spec in Hall. specialize (Hall n Hn). destruct (int_suffix _) as [i|]; [by eexists|done]. }
    unfold Nico.seed_cpu_host, cpu_host, cpu_idx. cbn -[cpu_node_name int_suffix]. by rewrite Ei. }
  rewrite (bind_ok _ _ _ _ _ E), IH; [done|]. intros x Hx. apply Hl. by right.
Qed.

Lemma puts_fresh {V} (l d : dict V) : NoDup l.*1 → (∀ k, k ∈ l.*1 → k ∉ dkeys d) → puts l d = (d ++ l)%list.
Proof.
  revert d. induction l as [|[k v] l IH]; intros d Hn Hd; [by rewrite app_nil_r|].
  apply NoDup_cons in Hn as [Hk Hn]. rewrite puts_cons, CustomerThms.dset_fresh by (apply Hd; left).
  rewrite IH; [by rewrite <- app_assoc|done|]. intros k' Hk'. unfold dkeys. rewrite fmap_app, elem_of_app.
  intros [H| ->%list_elem_of_singleton]; [|done]. apply (Hd k'); [by right|done].
Qed.
Section tree.
Context (s : Store) (Hwf : inventory_wf s).
Lemma tray_ids : t_id <$> dvalues (st_trays s) = dkeys (st_trays s).
Proof.
  unfold dvalues, dkeys. rewrite <- list_fmap_compose. apply list_fmap_ext. intros i [k t] Hi.
  apply list_elem_of_lookup_2 in Hi. cbn.
  apply (iw_tray s Hwf k t), in_dget; [apply (iw_dicts s Hwf)|done].
Qed.
Lemma tray_by_id t : t ∈ dvalues (st_trays s) → dget (st_trays s) (t_id t) = Some t.
Proof.
  intros (k & E)%dvalues_dget; [|apply (iw_dicts s Hwf)]. destruct (iw_tray s Hwf k t E) as [-> _]. done.
Qed.
(** Equipment of a scalable unit is named after it. *)
Lemma tray_prefix k : k ∈ dkeys (st_trays s) → ∃ x, k = "su-" +:+ x.
Proof.
  intros [t E]%dget_is_Some_in. destruct (iw_tray s Hwf k t E) as (_ & -> & _ & (r & _ & Er & _) & _).
  destruct (iw_rack s Hwf _ _ Er) as (_ & -> & _ & (su & Es & _) & _).
  destruct (iw_su s Hwf _ _ Es) as (_ & -> & _). unfold tray_name, rack_name, su_name. rewrite !str_app_assoc. by eexists.
Qed.
Lemma tray_nodup : NoDup (dkeys (st_trays s)).
Proof. apply (iw_dicts s Hwf). Qed.
End tree.
Definition hosts_of (s : Store) (site : dict string) : dict NicoHost :=
  (tray_host s site <$> dvalues (st_trays s)) ++ (cpu_host <$> dvalues cpu_pool).
Lemma host_keys s site : inventory_wf s →
  dkeys (hosts_of s site) = ((λ k, "nh-" +:+ k) <$> dkeys (st_trays s)) ++ ((λ k, "nh-" +:+ k) <$> dkeys cpu_pool).
Proof.
  intros Hwf. unfold hosts_of, dkeys at 1. rewrite fmap_app, <- !list_fmap_compose. f_equal.
  rewrite <- (tray_ids s Hwf), <- list_fmap_compose. done.
Qed.
Lemma host_keys_nodup s site : inventory_wf s → NoDup (dkeys (hosts_of s site)).
Proof.
  intros Hwf. rewrite (host_keys s site Hwf), <- fmap_app. apply NoDup_fmap_2; [intros x y; apply str_app_inj|].
  apply NoDup_app. split_and!.
  - by apply tray_nodup.
  - intros k [x ->]%tray_prefix Hc; [|done]. unfold dkeys, cpu_pool in Hc. rewrite <- list_fmap_compose in Hc.
    apply list_elem_of_fmap in Hc as (n & [=] & _).
  - apply (bool_decide_eq_true_1 (NoDup (dkeys cpu_pool))). vm_compute. reflexivity.
Qed.
Lemma seed_nico_run w :
  inventory_wf (w_store w) → sites_wf (w_store w) → st_cpu_nodes (w_store w) = cpu_pool →
  ∃ site, Nico.seed_from_store w
    = (Ok tt, w <| w_nico ::= λ n, mkNico (hosts_of (w_store w) site) [] [] [] (nc_job_latency n) [] 0 |>).
Proof.
  intros Hwf Hs Hc. unfold Nico.seed_from_store.
  set (w1 := w <| w_nico ::= λ n, mkNico [] [] [] [] (nc_job_latency n) [] 0 |>).
  rewrite (bind_ok _ _ w tt w1) by done. destruct (su_site_ok w1 Hs) as [site E]. exists site.
  rewrite (bind_ok _ _ _ _ _ E). cbv beta.
  rewrite (bind_ok (s_values st_trays) _ w1 (dvalues (st_trays (w_store w))) w1) by done. cbv beta.
  rewrite (bind_ok _ _ _ _ _ (seed_hosts_run site _ w1)). cbv beta.
  set (w2 := set_hosts _ w1).
  rewrite (bind_ok (s_values st_cpu_nodes) _ w2 (dvalues cpu_pool) w2) by (unfold s_values, gets; cbn; by rewrite Hc).
  cbv beta. rewrite (cpu_hosts_run _ w2 (reflexivity _)). f_equal. unfold w2, w1, set_hosts. cbn.
  assert (puts (cpu_host <$> dvalues cpu_pool) (puts (tray_host (w_store w) site <$> dvalues (st_trays (w_store w))) [])
          = hosts_of (w_store w) site) as Eh.
  { rewrite <- puts_app. apply (puts_fresh _ []); [by apply (host_keys_nodup (w_store w) site)|by intros ? _ ?%elem_of_nil]. }
  destruct w as [? ? ? ? []]. cbn in *. by rewrite <- Eh.
Qed.

(** ** The nodes mirror the trays *)
Definition node_name (t : ComputeTray) : string := "ni-" +:+ t_id t.
Definition new_node (t : ComputeTray) (r : Rack) (h : NicoHost) (at_ : string) : NodeInstance :=
  mkNode (node_name t) (t_id t) (rk_id r) (rk_su_id r) (rk_blueprint_key r) (h_id h) None None None NS_pool_ready
    [mkEvent "pool_ready" "bootstrap: NICo Day-0 mirror" at_].
(** [n] is the node that bootstrapping gives to a tray, for host [h]. *)
Definition mirrored (s : Store) (h : NicoHost) (nid : string) (n : NodeInstance) : Prop :=
  ∃ t r at_, dget (st_trays s) (h_tray_id h) = Some t ∧ dget (st_racks s) (t_rack_id t) = Some r
    ∧ nid = node_name t ∧ n = new_node t r h at_.
Definition with_nodes (n : nat) (d : dict NodeInstance) (w : World) : World :=
  w <| w_ticks := n |> <| w_store ::= λ s, s <| st_node_instances := d |> |>.
Definition racked (s : Store) : Prop :=
  ∀ k t, dget (st_trays s) k = Some t → is_Some (dget (st_racks s) (t_rack_id t)).
Lemma bootstrap_host_run c h w :
  racked (w_store w) →
  ∃ c' n ext, bootstrap_host c h w = (Ok c', with_nodes n (st_node_instances (w_store w) ++ ext) w)
  ∧ Forall (λ kv, mirrored (w_store w) h kv.1 kv.2) ext
  ∧ (∀ t, dget (st_trays (w_store w)) (h_tray_id h) = Some t → dmem (st_node_instances (w_store w)) (node_name t) = false →
       ext.*1 = [node_name t])
  ∧ (dget (st_trays (w_store w)) (h_tray_id h) = None → ext = []).
Proof.
  intros Hr. unfold bootstrap_host. run. fold (node_name).
  assert (∀ w, w = with_nodes (w_ticks w) (st_node_instances (w_store w) ++ []) w) as Eid.
  { intros w'. unfold with_nodes. rewrite app_nil_r. by destruct w' as [? ? ? []]. }
  destruct (dget (st_trays (w_store w)) (h_tray_id h)) as [t|] eqn:Et.
  2: { exists c, (w_ticks w), []. split_and!; [by rewrite <- Eid|constructor|done|done]. }
  change ("ni-" +:+ t_id t) with (node_name t).
  destruct (dmem (st_node_instances (w_store w)) (node_name t)) eqn:Em.
  { exists c, (w_ticks w), []. split_and!; [by rewrite <- Eid|constructor| |done]. intros t' [= <-]. congruence. }
  destruct (Hr _ t Et) as [r Er]. rewrite Er. set (at_ := env_clock (w_env w) (w_ticks w)).
  eexists _, (S (w_ticks w)), [(node_name t, new_node t r h at_)]. split; [|split; [|split]].
  - unfold with_nodes. rewrite <- CustomerThms.dset_fresh by (by apply dget_None_notin, dmem_false). reflexivity.
  - apply Forall_singleton. by exists t, r, at_.
  - intros t' [= <-] _. reflexivity.
  - done.
Qed.

Definition trays_behind (s : Store) (l : list NicoHost) : list ComputeTray := omap (λ h, dget (st_trays s) (h_tray_id h)) l.
Definition mirrors_of (s : Store) (l : list NicoHost) (ext : dict NodeInstance) : Prop :=
  Forall (λ kv, ∃ h, h ∈ l ∧ mirrored s h kv.1 kv.2) ext.
Lemma bootstrap_fold l c w :
  racked (w_store w) →
  let names := node_name <$> trays_behind (w_store w) l in
  ∃ c' n ext, fold_m bootstrap_host c l w = (Ok c', with_nodes n (st_node_instances (w_store w) ++ ext) w)
  ∧ mirrors_of (w_store w) l ext
  ∧ (NoDup names → (∀ k, k ∈ names → k ∉ dkeys (st_node_instances (w_store w))) → dkeys ext = names).
Proof.
  revert c w. induction l as [|h l IH]; intros c w Hr; cbv zeta.
  { exists c, (w_ticks w), []. split; [|split; [by constructor|done]]. unfold with_nodes. rewrite app_nil_r.
    by destruct w as [? ? ? []]. }
  destruct (bootstrap_host_run c h w Hr) as (c1 & n1 & e1 & E1 & Hm1 & Hnew & Hnone).
  set (w1 := with_nodes n1 (st_node_instances (w_store w) ++ e1) w) in *.
  destruct (IH c1 w1 Hr) as (c2 & n2 & e2 & E2 & Hm2 & Hk2).
  exists c2, n2, (e1 ++ e2). cbn [fold_m]. rewrite (bind_ok _ _ _ _ _ E1), E2. split; [|split].
  - by rewrite app_assoc.
  - apply Forall_app. split; (eapply Forall_impl; [eassumption|]).
    + intros kv H. exists h. split; [left|done].
    + intros kv (h' & Hin & H). exists h'. split; [by right|done].
  - unfold trays_behind. cbn [omap list_omap]. unfold dkeys in *. rewrite fmap_app.
    destruct (dget (st_trays (w_store w)) (h_tray_id h)) as [t|]; 
      [|intros Hn Hfresh; rewrite Hnone by done; apply Hk2; [done|]; cbn; by rewrite Hnone, app_nil_r].
    cbn [fmap list_fmap]. intros [Hn Hnd]%NoDup_cons Hfresh.
    assert (e1.*1 = [node_name t]) as Ee1.
    { apply (Hnew t); [done|]. apply dmem_false, dget_None_notin, Hfresh. left. }
    rewrite Ee1. cbn. f_equal. apply Hk2; [done|]. intros k Hk. cbn. rewrite fmap_app, elem_of_app, Ee1.
    intros [H| ->%list_elem_of_singleton]; [|by apply Hn]. apply (Hfresh k); [by right|done].
Qed.

(** The hosts of the site controller lead back to the trays. *)
Lemma tree_racked s : inventory_wf s → racked s.
Proof. intros Hwf k t E. destruct (iw_tray s Hwf k t E) as (_ & _ & _ & (r & _ & Er & _) & _). by exists r. Qed.
Lemma hosts_lead_back s s' site :
  inventory_wf s → st_trays s' = st_trays s → trays_behind s' (dvalues (hosts_of s site)) = dvalues (st_trays s).
Proof.
  intros Hwf Es. unfold trays_behind, hosts_of, dvalues at 1. rewrite Es, fmap_app, omap_app.
  assert (omap (λ h, dget (st_trays s) (h_tray_id h)) (cpu_host <$> dvalues cpu_pool).*2 = []) as ->.
  { assert (∀ l : list CpuNode, l ⊆ dvalues cpu_pool → omap (λ h, dget (st_trays s) (h_tray_id h)) (cpu_host <$> l).*2 = []) as H; [|by apply H].
    induction l as [|c l IH]; intros Hl; [done|]. cbn.
    destruct (dget (st_trays s) (cn_id c)) as [t|] eqn:E; [exfalso|apply IH; intros x Hx; apply Hl; by right].
    destruct (tray_prefix s Hwf (cn_id c)) as [x Hx]; [apply dget_is_Some_in; by eexists|].
    assert (c ∈ dvalues cpu_pool) as Hc by (apply Hl; left). unfold dvalues, cpu_pool in Hc.
    rewrite <- list_fmap_compose in Hc. apply list_elem_of_fmap in Hc as (n & -> & _). discriminate Hx. }
  rewrite app_nil_r. assert (∀ l, l ⊆ dvalues (st_trays s) →
    omap (λ h, dget (st_trays s) (h_tray_id h)) (tray_host s site <$> l).*2 = l) as H; [|by apply H].
  induction l as [|t l IH]; intros Hl; [done|]. cbn. rewrite (tray_by_id s Hwf t) by (apply Hl; left).
  f_equal. apply IH. intros x Hx. apply Hl. by right.
Qed.
Lemma node_names s : inventory_wf s →
  node_name <$> dvalues (st_trays s) = (λ k, "ni-" +:+ k) <$> dkeys (st_trays s).
Proof. intros Hwf. rewrite <- (tray_ids s Hwf), <- list_fmap_compose. done. Qed.

(** There are trays as soon as a scalable unit has racks. *)
Lemma trays_exist s c : inventory_wf s → c ∈ rack_counts s → c ≠ 0 → st_trays s ≠ [].
Proof.
  intros Hwf Hin Hc. unfold rack_counts in Hin. apply list_elem_of_fmap in Hin as (su & -> & Hin).
  apply dvalues_dget in Hin as [k E]; [|apply (iw_dicts s Hwf)].
  destruct (iw_su s Hwf k su E) as (_ & _ & _ & n & Er & Hr). rewrite Er, length_fmap in Hc. unfold range in Hc.
  rewrite length_seqZ in Hc. destruct (Hr 0%Z) as (r & Erk & _); [lia|].
  destruct (iw_rack s Hwf _ r Erk) as (_ & _ & _ & _ & bp & Ebp & _ & Ht).
  assert (0 < Spec.compute_trays bp)%Z as Hbp.
  { apply dget_Some_in in Ebp. unfold Spec.BLUEPRINTS in Ebp. rewrite !elem_of_cons, elem_of_nil in Ebp.
    by destruct Ebp as [[= _ ->]|[[= _ ->]|[[= _ ->]|[]]]]. }
  destruct (Ht 0%Z) as (t & Et & _); [lia|]. intros E0. by rewrite E0 in Et.
Qed.
(** ** The samples *)
Definition sampled (s : Store) (at_ : string) : Store :=
  s <| st_counters := [("ticket", 2%Z)] |>
    <| st_tickets := (λ '(tid, x), (tid, sample_ticket tid at_ x)) <$> zip ["tck-1"; "tck-2"] SAMPLES |>.
Lemma sample_faults_run w :
  ∃ n l, Emu.seed_sample_faults w = (Ok tt, w <| w_ticks := n |> <| w_emu ::= λ e, e <| em_fault_log := l |> |>)
  ∧ (emu_ok (w_emu w) → emu_ok ((w_emu w) <| em_fault_log := l |>))
  ∧ (em_fault_log (w_emu w) = [] → st_trays (w_store w) ≠ [] →
     (λ e, (ep_state e, dmem (st_trays (w_store w)) (ep_tray_id e))) <$> l = [("resolved", true); ("open", true)]).
Proof.
  assert (∀ n l, Emu.seed_sample_faults w = (Ok tt, w <| w_ticks := n |> <| w_emu ::= λ e, e <| em_fault_log := l |> |>) →
    emu_ok (w_emu w) → emu_ok ((w_emu w) <| em_fault_log := l |>)) as Hok.
  { intros n l E. pose proof (within_samples w) as H. rewrite E in H. apply H. }
  assert (∀ P : list Episode → Prop, (∃ n l, Emu.seed_sample_faults w
    = (Ok tt, w <| w_ticks := n |> <| w_emu ::= λ e, e <| em_fault_log := l |> |>) ∧ P l) →
    ∃ n l, Emu.seed_sample_faults w = (Ok tt, w <| w_ticks := n |> <| w_emu ::= λ e, e <| em_fault_log := l |> |>)
    ∧ (emu_ok (w_emu w) → emu_ok ((w_emu w) <| em_fault_log := l |>)) ∧ P l) as Hadd.
  { intros P (n & l & E & HP). exists n, l. split_and!; [done|by eapply Hok|done]. }
  apply Hadd. clear Hadd Hok. unfold Emu.seed_sample_faults. rewrite (bind_ok store _ w (w_store w) w) by done. cbv beta zeta.
  assert (∀ x, x ∈ sorted String.leb (dkeys (st_trays (w_store w))) → dmem (st_trays (w_store w)) x = true) as Hin.
  { intros x Hx. apply elem_of_sorted, dget_is_Some_in, dmem_spec in Hx. done. }
  assert (length (sorted String.leb (dkeys (st_trays (w_store w)))) = length (st_trays (w_store w))) as Hlen.
  { rewrite sorted_perm. unfold dkeys. apply length_fmap. }
  set (ids := sorted String.leb (dkeys (st_trays (w_store w)))) in *. clearbody ids. destruct ids as [|t ids].
  - exists (w_ticks w), (em_fault_log (w_emu w)). split; [by destruct w as [? ? ? ? ? ? ? ? ? ? ? ? []]|].
    intros _ Hne. by destruct (st_trays (w_store w)).
  - destruct (lookup_lt_is_Some_2 (t :: ids) (1 mod length (t :: ids))) as [t' Et].
    { apply Nat.mod_upper_bound. done. }
    rewrite (bind_ok now _ w (env_clock (w_env w) (w_ticks w)) (w <| w_ticks ::= S |>)) by done. cbv beta.
    set (w1 := w <| w_ticks ::= S |>). rewrite (bind_ok Emu.emu _ w1 (w_emu w1) w1) by done. cbv beta. rewrite Et. cbn [or_raise].
    rewrite (bind_ok (mret t') _ w1 t' w1) by done. cbv beta. eexists (S (w_ticks w)), _. split; [reflexivity|].
    intros Hl _. cbn. rewrite Hl. cbn. rewrite (Hin t), (Hin t'); [done|by eapply list_elem_of_lookup_2|left].
Qed.
Lemma samples_run w :
  st_tickets (w_store w) = [] → st_counters (w_store w) = [] →
  ∃ n at_ l, seed_demo_samples w
    = (Ok tt, w <| w_ticks := n |> <| w_store ::= λ s, sampled s at_ |> <| w_emu ::= λ e, e <| em_fault_log := l |> |>)
  ∧ (emu_ok (w_emu w) → emu_ok ((w_emu w) <| em_fault_log := l |>))
  ∧ (em_fault_log (w_emu w) = [] → st_trays (w_store w) ≠ [] →
     (λ e, (ep_state e, dmem (st_trays (w_store w)) (ep_tray_id e))) <$> l = [("resolved", true); ("open", true)]).
Proof.
  intros Ht Hc. destruct (sample_faults_run w) as (n & l & E & Hok & Hl). unfold seed_demo_samples.
  rewrite (bind_ok _ _ _ _ _ E). cbv beta. set (w1 := w <| w_ticks := n |> <| w_emu ::= _ |>) in *.
  assert (no_tickets w1 = (Ok true, w1)) as E1 by (unfold no_tickets, gets; cbn; by rewrite Ht).
  rewrite (bind_ok _ _ _ _ _ E1). cbv beta iota.
  exists (S n), (env_clock (w_env w) n), l. split; [|by split]. unfold w1, add_sample, SAMPLES, sampled.
  clear - Ht Hc. destruct w as [? ? ? [? ? ? ? ? ? ? ? ? ? ? ? ? ? ? ? ? ? ? ? counters []]]. cbn in Ht, Hc. subst. reflexivity.
Qed.

Section starting.
Context (http_adapter : string → ComputeAdapter) `{!∀ url, AdapterFrame (http_adapter url)}.
(** The in-process simulator is the site controller. *)
Definition in_process (env : Env) : Prop := match env_var env "NOCP_NICO_URL" with Some u => truthy_str u = false | None => True end.
Lemma bootstrap_run w :
  racked (w_store w) →
  ∃ l w1 n ext, bootstrap http_adapter w = (Ok tt, with_nodes n (st_node_instances (w_store w) ++ ext) w1)
  ∧ cplane w1 = cplane w ∧ mirrors_of (w_store w) l ext
  ∧ (in_process (w_env w) → w1 = w ∧ l = dvalues (nc_hosts (w_nico w))
     ∧ (NoDup (node_name <$> trays_behind (w_store w) l) → st_node_instances (w_store w) = [] →
        dkeys ext = node_name <$> trays_behind (w_store w) l)).
Proof.
  intros Hr. unfold bootstrap, get_adapter, getenv, in_process. run.
  set (a := match env_var (w_env w) "NOCP_NICO_URL" with Some _ => _ | None => _ end).
  assert (AdapterFrame a) as Ha by (unfold a; destruct (env_var _ _) as [u|]; [destruct (truthy_str u)|]; apply _).
  assert ((match env_var (w_env w) "NOCP_NICO_URL" with Some u => truthy_str u = false | None => True end) → a = LocalNicoAdapter) as Hloc.
  { unfold a. destruct (env_var _ _) as [u|]; [by intros ->|done]. }
  clearbody a. unfold bootstrap_nodes, try_any. run.
  destruct (a_list_hosts a w) as [[hs|e] w1] eqn:El.
  - assert (cplane w1 = cplane w) as Ec.
    { pose proof (af_list_hosts w) as Hl. rewrite El in Hl. exact Hl. }
    assert (w_store w1 = w_store w) as Es by exact (f_equal cp_store Ec).
    assert (racked (w_store w1)) as Hr1 by by rewrite Es.
    destruct (bootstrap_fold hs 0 w1 Hr1) as (c & n & ext & -> & Hm & Hk). rewrite Es in *.
    exists hs, w1, n, ext. split_and!; [done..|]. intros Hin. rewrite (Hloc Hin) in El. injection El as <- <-.
    split; [done|]. split; [done|]. intros Hn E0. apply Hk; [done|]. rewrite E0. intros k _. by apply not_elem_of_nil.
  - assert (cplane w1 = cplane w) as Ec.
    { pose proof (af_list_hosts w) as Hl. rewrite El in Hl. exact Hl. }
    exists [], w1, (w_ticks w1), []. split_and!; [|done|by constructor|].
    + rewrite app_nil_r. rewrite <- (f_equal cp_store Ec : w_store w1 = w_store w). unfold with_nodes. by destruct w1 as [? ? ? []].
    + intros Hin. by rewrite (Hloc Hin) in El.
Qed.
(** A node in the pool, of the host of its own tray *)
Definition pooled_node (nid : string) (n : NodeInstance) : Prop :=
  nid = "ni-" +:+ n_tray_id n ∧ n_nico_host_id n = "nh-" +:+ n_tray_id n ∧ n_state n = NS_pool_ready.
Lemma mirrored_pooled s site l ext nid n :
  inventory_wf s → l ⊆ dvalues (hosts_of s site) → mirrors_of s l ext → dget ext nid = Some n → pooled_node nid n.
Proof.
  intros Hwf Hl Hm E%dget_Some_in. unfold mirrors_of in Hm. rewrite Forall_forall in Hm.
  destruct (Hm _ E) as (h & Hh & t & r & at_ & Et & _ & E1 & E2). cbn in E1, E2. subst nid n.
  split_and!; [done| |done]. cbn.
  destruct (iw_tray s Hwf _ _ Et) as [-> _]. apply Hl in Hh. apply list_elem_of_fmap in Hh as ([k h'] & -> & Hin). revert Hin.
  unfold hosts_of. rewrite elem_of_app. by intros [(? & [= -> ->] & _)%list_elem_of_fmap|(? & [= -> ->] & _)%list_elem_of_fmap].
Qed.
(** ** What follows the seeding always succeeds. *)
Record aligned (w0 w : World) : Prop := {
  al_env : w_env w = w_env w0;
  al_store : ∃ ext, w_store w = (w_store w0) <| st_node_instances := ext |> ∧ ∃ l, mirrors_of (w_store w0) l ext;
  al_emu : w_emu w = Emu.sync_with (w_store w) empty_emulator;
  al_vast : w_vast w = mkVast [] 0;
  al_shared : w_shared w = mkShared [] [] [] [] [] 0;
  al_local : in_process (w_env w0) →
    dkeys (st_node_instances (w_store w)) = (λ k, "ni-" +:+ k) <$> dkeys (st_trays (w_store w0))
    ∧ (∀ nid n, dget (st_node_instances (w_store w)) nid = Some n → pooled_node nid n)
    ∧ ∃ site, w_nico w = mkNico (hosts_of (w_store w0) site) [] [] [] (nc_job_latency (w_nico w0)) [] 0
}.
Lemma realign_run w0 :
  inventory_wf (w_store w0) → sites_wf (w_store w0) → st_cpu_nodes (w_store w0) = cpu_pool →
  st_node_instances (w_store w0) = [] →
  ∃ w, realign http_adapter w0 = (Ok tt, w) ∧ aligned w0 w
       ∧ w_bg_orders w = w_bg_orders w0 ∧ w_threads w = w_threads w0.
Proof.
  intros Hwf Hs Hc Hn. unfold realign. destruct (seed_nico_run w0 Hwf Hs Hc) as [site E].
  rewrite (bind_ok _ _ _ _ _ E). clear E.
  set (w1 := w0 <| w_nico ::= λ n, mkNico (hosts_of (w_store w0) site) [] [] [] (nc_job_latency n) [] 0 |>
                <| w_vast := mkVast [] 0 |> <| w_shared := mkShared [] [] [] [] [] 0 |> <| w_tracer := mkTracer [] 0 |>).
  destruct (bootstrap_run w1 (tree_racked _ Hwf)) as (l & w2 & n & ext & E & Ec & Hm & Hloc).
  match goal with |- context [?m _] => 
    change (∃ w, (bootstrap http_adapter ;; restart_emulator) w1 = (Ok tt, w) ∧ aligned w0 w
                 ∧ w_bg_orders w = w_bg_orders w0 ∧ w_threads w = w_threads w0) end.
  rewrite (bind_ok _ _ _ _ _ E). clear E. change (w_store w1) with (w_store w0) in *. rewrite Hn in *. cbn [app] in *.
  assert (w_store w2 = w_store w0) as Es by exact (f_equal cp_store Ec).
  eexists. split; [reflexivity|].
  split; [|split; [exact (f_equal cp_bg Ec)|exact (f_equal cp_threads Ec)]]. split; cbn.
  - exact (f_equal cp_env Ec).
  - exists ext. rewrite Es. split; [done|]. by exists l.
  - done.
  - exact (f_equal cp_vast Ec).
  - exact (f_equal cp_shared Ec).
  - intros Hin. destruct (Hloc Hin) as (-> & -> & Hk). clear Hloc Ec.
    assert (trays_behind (w_store w0) (dvalues (nc_hosts (w_nico w1))) = dvalues (st_trays (w_store w0))) as Et
      by by apply (hosts_lead_back (w_store w0) _ site).
    rewrite Et in Hk.
    rewrite (node_names _ Hwf) in Hk. split; [|split; [|by exists site]].
    2: { intros nid n'. by apply (mirrored_pooled (w_store w0) site (dvalues (nc_hosts (w_nico w1)))). }
    apply Hk; [|done].
    apply NoDup_fmap_2; [intros x y; apply str_app_inj|by apply tray_nodup].
Qed.
Lemma hosts_pooled s site k h : (k, h) ∈ hosts_of s site →
  h_id h = k ∧ h_state h = HS_pool_ready ∧ h_instance_id h = None ∧ h_tenant_ref h = None.
Proof. unfold hosts_of. rewrite elem_of_app. by intros [(? & [= -> ->] & _)%list_elem_of_fmap|(? & [= -> ->] & _)%list_elem_of_fmap]. Qed.
Lemma seeded_nico_ok s site lat : inventory_wf s → (lat ≤ 0)%Z → nico_ok (mkNico (hosts_of s site) [] [] [] lat [] 0).
Proof.
  intros Hwf Hlat.
  assert (∀ k i v, hv (mkNico (hosts_of s site) [] [] [] lat [] 0) k = Some (i, v) → i = k ∧ v = mkView HS_pool_ready None None) as Hv.
  { intros k i v. unfold hv. cbn [nc_hosts]. destruct (dget (hosts_of s site) k) as [h|] eqn:E; [|intros [=]].
    apply dget_Some_in, hosts_pooled in E as (E1 & E2 & E3 & E4). cbn. unfold view_of. rewrite E1, E2, E3, E4. by intros [= <- <-]. }
  split.
  - by split.
  - by apply host_keys_nodup.
  - by intros k i v [-> _]%Hv.
  - by intros k i v [_ ->]%Hv.
  - by intros k i v x [_ ->]%Hv.
  - by intros k k' i i' v v' x [_ ->]%Hv.
Qed.
Lemma free_site s :
  inventory_wf s → unleased s → st_allocations s = [] → st_partitions s = [] → st_netiso s = [] → st_orders s = [] →
  st_incidents s = [] ∧ st_rcas s = [] ∧ st_sla_credits s = [] → alloc_count s = 0%Z ∧ order_count s = 0%Z → isolated s ∧ vnis_ok s ∧ orders_numbered s ∧ books_ok s.
Proof.
  intros Hwf Hu Ha Hp Hn Ho (Hi1 & Hi2 & Hi3) [Hc1 Hc2]. destruct (TenancyThms.Isolation.unbound_site_ok s) as [Hi Hv].
  { unfold TenancyThms.Isolation.unbound_site. rewrite Ha, Hp, Hn, Hc1, !andb_true_iff. split_and!; try done; apply allb_spec.
    - intros [k r] E%in_dget; [|apply (iw_dicts s Hwf)]. destruct (iw_rack s Hwf k r E) as [-> _].
      by rewrite String.eqb_refl, (Hu k r E).
    - intros [k su] E%in_dget; [|apply (iw_dicts s Hwf)]. apply allb_spec. intros rid Hin.
      destruct (iw_su s Hwf k su E) as (_ & _ & _ & n & Er & Hr). rewrite Er in Hin.
      apply list_elem_of_fmap in Hin as (x & -> & Hx). apply dmem_spec.
      destruct (Hr x) as (r & E' & _); [by apply elem_of_range|by exists r]. }
  split_and!; [done|done| |].
  - split; [by rewrite Hc2|]. intros n _. by rewrite Ho.
  - by apply IncidentThms.books_empty.
Qed.
(** Tickets, other counters and the emulator's log do not matter to any of it. *)
Record decorated (w w' : World) : Prop := {
  de_env : w_env w' = w_env w ∧ w_nico w' = w_nico w ∧ w_vast w' = w_vast w ∧ w_shared w' = w_shared w;
  de_store : ∃ c tk, w_store w' = (w_store w) <| st_counters := c |> <| st_tickets := tk |>
             ∧ dget c "alloc" = None ∧ dget c "order" = None;
  de_emu : em_trays (w_emu w') = em_trays (w_emu w) ∧ (emu_ok (w_emu w) → emu_ok (w_emu w'))
}.
Lemma decorated_mirrors w w' : decorated w w' → mirrors (w_store w) (w_emu w) → mirrors (w_store w') (w_emu w').
Proof. intros [_ (c & tk & Es & _) [Et _]] []. rewrite Es. split; rewrite Et; done. Qed.
(** *** The nodes and the hosts agree *)
Lemma hosts_listed s site : inventory_wf s → foldl (λ d h, dset d (h_id h) h) [] (dvalues (hosts_of s site)) = hosts_of s site.
Proof.
  intros Hwf. transitivity (puts ((λ h, (h_id h, h)) <$> dvalues (hosts_of s site)) []).
  - generalize (@nil (string * NicoHost)) as d. induction (dvalues (hosts_of s site)) as [|h l IH]; intros d; [done|].
    cbn [foldl fmap list_fmap]. rewrite IH. done.
  - assert ((λ h, (h_id h, h)) <$> dvalues (hosts_of s site) = hosts_of s site) as ->.
    { unfold dvalues. rewrite <- list_fmap_compose. rewrite <- (list_fmap_id (hosts_of s site)) at 2. apply list_fmap_ext.
      intros i [k h] Hi%list_elem_of_lookup_2. cbn. by destruct (hosts_pooled _ _ _ _ Hi) as [-> _]. }
    apply (puts_fresh _ []); [by apply (host_keys_nodup s site)|by intros k _ ?%elem_of_nil].
Qed.
Definition dropped (cns : list CpuNode) (k : string) : bool :=
  anyb (λ cn, truthy (cn_nico_host_id cn) && String.eqb k (default EmptyString (cn_nico_host_id cn))) cns.
Lemma drop_get cns d k : dict_wf d → dget (Reconcile.drop_cpu_hosts cns d) k = if dropped cns k then None else dget d k.
Proof.
  unfold Reconcile.drop_cpu_hosts. revert d. induction cns as [|c cns IH]; intros d Hd; [done|]. cbn [foldl].
  unfold dropped. cbn [anyb List.existsb]. destruct (truthy (cn_nico_host_id c)); [|by rewrite IH].
  rewrite IH by by apply dict_wf_ddel. fold (dropped cns k). cbn. destruct (String.eqb_spec k (default EmptyString (cn_nico_host_id c))) as [->|Hne].
  - rewrite dget_ddel_eq by done. by destruct (dropped _ _).
  - by rewrite dget_ddel_ne by congruence.
Qed.
Lemma pool_dropped k : k ∈ dkeys cpu_pool → dropped (dvalues cpu_pool) ("nh-" +:+ k) = true.
Proof.
  intros Hk. apply anyb_spec. apply dget_is_Some_in in Hk as [cn E%dget_Some_in]. exists cn. split.
  { apply list_elem_of_fmap. by exists (k, cn). }
  unfold cpu_pool in E. apply list_elem_of_fmap in E as (n & [= -> ->] & _). cbn. by rewrite String.eqb_refl.
Qed.
Lemma tray_not_dropped s k : inventory_wf s → k ∈ dkeys (st_trays s) → dropped (dvalues cpu_pool) ("nh-" +:+ k) = false.
Proof.
  intros Hwf Hk. apply anyb_false. intros cn Hcn. destruct (tray_prefix s Hwf k Hk) as [x ->].
  unfold dvalues, cpu_pool in Hcn. rewrite <- list_fmap_compose in Hcn. apply list_elem_of_fmap in Hcn as (n & -> & _). done.
Qed.
Lemma listed_hosts_spec s site k : inventory_wf s → st_cpu_nodes s = cpu_pool →
  dget (Reconciled.listed_hosts s (dvalues (hosts_of s site))) k
  = if dropped (dvalues cpu_pool) k then None else dget (hosts_of s site) k.
Proof.
  intros Hwf Hc. unfold Reconciled.listed_hosts. rewrite (hosts_listed s site Hwf), Hc. apply drop_get.
  by apply (host_keys_nodup s site).
Qed.
Definition agrees (w : World) : Prop :=
  ∃ rep w', Reconcile.reconcile LocalNicoAdapter w = (Ok rep, w') ∧ rr_findings rep = [] ∧ rr_ok rep = true.
Lemma pooled_agrees w site :
  inventory_wf (w_store w) → st_cpu_nodes (w_store w) = cpu_pool → nc_hosts (w_nico w) = hosts_of (w_store w) site →
  dkeys (st_node_instances (w_store w)) = (λ k, "ni-" +:+ k) <$> dkeys (st_trays (w_store w)) →
  (∀ nid n, dget (st_node_instances (w_store w)) nid = Some n → pooled_node nid n) → agrees w.
Proof.
  intros Hwf Hc Hh Hk Hp. set (nodes := st_node_instances (w_store w)) in *.
  assert (dict_wf nodes) as Hw.
  { unfold dict_wf. rewrite Hk. apply NoDup_fmap_2; [intros x y; apply str_app_inj|by apply tray_nodup]. }
  assert (n_nico_host_id <$> dvalues nodes = (λ k, "nh-" +:+ k) <$> dkeys (st_trays (w_store w))) as Ehosts.
  { assert (∀ l : dict NodeInstance, l ⊆ nodes → ∀ ks, dkeys l = (λ k, "ni-" +:+ k) <$> ks →
      n_nico_host_id <$> dvalues l = (λ k, "nh-" +:+ k) <$> ks) as Hall; [|by apply (Hall nodes)].
    induction l as [|[nid n] l IH]; intros Hl [|k ks] E; try done. injection E as E1 E2.
    assert (n_nico_host_id n = "nh-" +:+ k) as Ehd.
    { destruct (Hp nid n) as (E3 & -> & _); [apply in_dget; [done|apply Hl; left]|].
      rewrite E1 in E3. by apply str_app_inj in E3 as ->. }
    change (n_nico_host_id n :: (n_nico_host_id <$> dvalues l) = ("nh-" +:+ k) :: ((λ k, "nh-" +:+ k) <$> ks)).
    rewrite Ehd. f_equal. apply IH; [|done]. intros x Hx. apply Hl. by right. }
  destruct (Reconciled.reconcile_run LocalNicoAdapter w _ (Reconciled.local_list w) Hw) as (rep & w' & E & Hf & _ & _ & Hok & _).
  { unfold Reconciled.nodes_of. fold nodes. rewrite Ehosts. apply NoDup_fmap_2; [intros x y; apply str_app_inj|by apply tray_nodup]. }
  unfold Reconciled.nodes_of in Hf. fold nodes in Hf. rewrite Hh in Hf.
  set (hosts := Reconciled.listed_hosts (w_store w) (dvalues (hosts_of (w_store w) site))) in *.
  assert (rr_findings rep = []) as Hnil; [|exists rep, w'; split; [done|]; split; [done|]; apply Hok; rewrite Hnil; by intros f ?%elem_of_nil].
  rewrite Hf. apply app_nil. split.
  - assert (∀ l, l ⊆ dvalues nodes → concat (Reconciled.classify hosts <$> l) = []) as Hall; [|by apply Hall].
    induction l as [|n l IH]; intros Hl; [done|]. cbn. rewrite IH by (intros x Hx; apply Hl; by right). rewrite app_nil_r.
    destruct (proj1 (dvalues_dget nodes n Hw)) as [nid En]; [apply Hl; left|]. destruct (Hp nid n En) as (Hid & Hhid & Hst).
    assert (n_tray_id n ∈ dkeys (st_trays (w_store w))) as Htr.
    { assert (nid ∈ dkeys nodes) as Hnid by (apply dget_is_Some_in; by eexists). rewrite Hk in Hnid.
      apply list_elem_of_fmap in Hnid as (k & -> & Hin). by apply str_app_inj in Hid as <-. }
    unfold Reconciled.classify. rewrite Hhid. unfold hosts. rewrite listed_hosts_spec, (tray_not_dropped (w_store w)) by done.
    destruct (dget (hosts_of (w_store w) site) ("nh-" +:+ n_tray_id n)) as [h|] eqn:Eh.
    + apply dget_Some_in, hosts_pooled in Eh as (_ & -> & _). by rewrite Hst.
    + exfalso. apply dget_None_notin in Eh. apply Eh. rewrite (host_keys _ _ Hwf). apply elem_of_app. left.
      apply list_elem_of_fmap. by exists (n_tray_id n).
  - unfold Reconciled.unmatched. rewrite Ehosts.
    assert (filterb (λ kh : string * NicoHost, negb (memb kh.1 ((λ k, "nh-" +:+ k) <$> dkeys (st_trays (w_store w))))) hosts = []) as ->; [|done].
    destruct (filterb _ hosts) as [|[x h] l] eqn:El; [done|]. exfalso.
    assert ((x, h) ∈ filterb (λ kh : string * NicoHost, negb (memb kh.1 ((λ k, "nh-" +:+ k) <$> dkeys (st_trays (w_store w))))) hosts)
      as [Hin Hm]%elem_of_filterb by (rewrite El; left).
    apply in_dget in Hin; [|apply Reconciled.listed_hosts_wf]. unfold hosts in Hin. rewrite listed_hosts_spec in Hin by done.
    destruct (dropped (dvalues cpu_pool) x) eqn:Ed; [done|]. assert (x ∈ dkeys (hosts_of (w_store w) site)) as Hx by (apply dget_is_Some_in; by eexists).
    rewrite (host_keys _ _ Hwf), elem_of_app in Hx. apply negb_true_iff, memb_false in Hm. destruct Hx as [Hx|Hx]; [done|].
    apply list_elem_of_fmap in Hx as (k & -> & Hkp). by rewrite pool_dropped in Ed.
Qed.
(** ** A process that is ready to serve *)
Record ready (w : World) : Prop := {
  (** the inventory is a well-formed tree with gapless scalable units, and the CPU nodes *)
  rd_tree : inventory_wf (w_store w);
  rd_numbers : ∃ i, (0 ≤ i)%Z ∧ dkeys (st_sus (w_store w)) = su_name <$> seqZ 1 i;
  rd_cpus : st_cpu_nodes (w_store w) = cpu_pool;
  (** nothing is sold *)
  rd_clean : st_tenants (w_store w) = [] ∧ st_allocations (w_store w) = [] ∧ st_orders (w_store w) = []
             ∧ st_k8s_clusters (w_store w) = [];
  (** the invariants of the application hold *)
  rd_isolated : isolated (w_store w) ∧ vnis_ok (w_store w) ∧ orders_numbered (w_store w) ∧ books_ok (w_store w);
  (** every node is in the pool and mirrors a tray that a host of the site controller serves *)
  rd_nodes nid n : dget (st_node_instances (w_store w)) nid = Some n → ∃ h, mirrored (w_store w) h nid n;
  (** the emulator mirrors the trays, the other services are empty *)
  rd_emu : emu_ok (w_emu w) ∧ mirrors (w_store w) (w_emu w);
  rd_services : w_vast w = mkVast [] 0 ∧ w_shared w = mkShared [] [] [] [] [] 0;
  (** the in-process site controller has one host per tray and CPU node, all in
      the pool, and the nodes are those of the trays *)
  rd_local : in_process (w_env w) →
    dkeys (st_node_instances (w_store w)) = (λ k, "ni-" +:+ k) <$> dkeys (st_trays (w_store w))
    ∧ dkeys (nc_hosts (w_nico w)) = (λ k, "nh-" +:+ k) <$> (dkeys (st_trays (w_store w)) ++ dkeys cpu_pool)
    ∧ (∀ nid n, dget (st_node_instances (w_store w)) nid = Some n → pooled_node nid n)
    ∧ ((nc_job_latency (w_nico w) ≤ 0)%Z → nico_ok (w_nico w))
    ∧ agrees w
}.
Lemma aligned_ready blueprints w w0 w1 w2 : seeded_site blueprints w w0 → aligned w0 w1 → decorated w1 w2 → ready w2.
Proof.
  intros Hs Ha Hd. destruct (al_store _ _ Ha) as (ext & Es1 & l & Hm). pose proof (ss_tree _ _ _ Hs) as Hwf.
  destruct (de_store _ _ Hd) as (c & tk & Es & Hc1 & Hc2). rewrite Es1 in Es.
  destruct (de_env _ _ Hd) as (Ee & En & Ev & Esh).
  pose proof (λ (T : Type) (f : World → T), f_equal f (ss_rest _ _ _ Hs)) as He.
  assert (inventory_wf (w_store w2)) as Hwf2 by (rewrite Es; destruct Hwf; by split).
  destruct (follow_run (w_store w1) empty_emulator emu_ok_empty) as [Hok Hmir]. rewrite <- (al_emu _ _ Ha) in Hok, Hmir.
  split.
  - done.
  - rewrite Es. apply (ss_numbers _ _ _ Hs).
  - rewrite Es. apply (ss_cpus _ _ _ Hs).
  - rewrite Es. split_and!.
    + exact (He _ (λ w, st_tenants (w_store w))).
    + exact (He _ (λ w, st_allocations (w_store w))).
    + exact (He _ (λ w, st_orders (w_store w))).
    + exact (He _ (λ w, st_k8s_clusters (w_store w))).
  - apply free_site; [done|..]; rewrite Es.
    + intros k r. apply (ss_unleased _ _ _ Hs).
    + exact (He _ (λ w, st_allocations (w_store w))).
    + exact (He _ (λ w, st_partitions (w_store w))).
    + exact (He _ (λ w, st_netiso (w_store w))).
    + exact (He _ (λ w, st_orders (w_store w))).
    + split_and!; [exact (He _ (λ w, st_incidents (w_store w)))|exact (He _ (λ w, st_rcas (w_store w)))
                  |exact (He _ (λ w, st_sla_credits (w_store w)))].
    + unfold alloc_count, order_count. cbn. by rewrite Hc1, Hc2.
  - rewrite Es. intros nid n E%dget_Some_in. cbn in E. unfold mirrors_of in Hm. rewrite Forall_forall in Hm.
    destruct (Hm _ E) as (h & _ & H'). by exists h.
  - split; [by apply (de_emu _ _ Hd)|by apply (decorated_mirrors w1)].
  - rewrite Ev, Esh. split; [apply (al_vast _ _ Ha)|apply (al_shared _ _ Ha)].
  - rewrite Ee, (al_env _ _ Ha). intros Hin. destruct (al_local _ _ Ha Hin) as (Hk & Hp & site & En1).
    assert (st_trays (w_store w2) = st_trays (w_store w0)) as Et by by rewrite Es.
    assert (st_node_instances (w_store w2) = st_node_instances (w_store w1)) as Eni by by rewrite Es, Es1.
    assert (hosts_of (w_store w2) = hosts_of (w_store w0)) as Eh by by rewrite Es.
    rewrite Et, En, En1, Eni. split_and!; [done| |done|intros Hlat; by apply seeded_nico_ok|].
    + cbn [nc_hosts]. by rewrite (host_keys _ _ Hwf), fmap_app.
    + apply (pooled_agrees w2 site); [done|rewrite Es; apply (ss_cpus _ _ _ Hs)|by rewrite En, En1, Eh|by rewrite Eni, Et|by rewrite Eni].
Qed.
Lemma sync_keeps_log s l e : em_fault_log (foldl (Emu.sync_tray s) e l) = em_fault_log e.
Proof.
  revert e. induction l as [|t l IH]; intros e; [done|]. cbn. rewrite IH. unfold Emu.sync_tray.
  by destruct (Emu.bound_to s (t_id t)) as [[]|].
Qed.
Lemma decorated_self w : dget (st_counters (w_store w)) "alloc" = None → dget (st_counters (w_store w)) "order" = None → decorated w w.
Proof.
  intros H1 H2. split; [done| |done]. exists (st_counters (w_store w)), (st_tickets (w_store w)).
  split; [|done]. by destruct w as [? ? ? [? ? ? ? ? ? ? ? ? ? ? ? ? ? ? ? ? ? ? ? ? []]].
Qed.
(** Seeding, realigning and, on a demo seed, the samples always succeed. *)
Definition samples_of (w : World) : Prop :=
  dkeys (st_tickets (w_store w)) = ["tck-1"; "tck-2"]
  ∧ (λ e, (ep_state e, dmem (st_trays (w_store w)) (ep_tray_id e))) <$> em_fault_log (w_emu w) = [("resolved", true); ("open", true)].
Record started (demo : bool) (w w' : World) : Prop := {
  sd_ready : ready w';
  sd_samples : if demo then samples_of w' else st_tickets (w_store w') = [];
  sd_env : w_env w' = w_env w;
  (** what a reseed leaves as it was *)
  sd_threads : w_bg_orders w' = w_bg_orders w ∧ w_threads w' = w_threads w
}.
Definition demo_samples (demo : bool) : IO unit := if demo then seed_demo_samples else mret tt.
Lemma asked_positive blueprints :
  (∀ l k, blueprints = Some l → k ∈ l → is_Some (dget Spec.BLUEPRINTS k)) → ∃ c, c ∈ asked blueprints ∧ c ≠ 0.
Proof.
  intros Hl. destruct blueprints as [[|k l]|]; [exists 16; split; [left|done]| |exists 16; split; [left|done]].
  exists (racks_of k). split; [left|]. destruct (Hl _ k eq_refl) as [bp E]; [left|]. unfold racks_of. rewrite E.
  apply dget_Some_in in E. unfold Spec.BLUEPRINTS in E. rewrite !elem_of_cons, elem_of_nil in E.
  by destruct E as [[= _ ->]|[[= _ ->]|[[= _ ->]|[]]]].
Qed.
Lemma start_run blueprints demo w :
  (∀ l k, blueprints = Some l → k ∈ l → is_Some (dget Spec.BLUEPRINTS k)) →
  ∃ w0 w1 w2, seed_default blueprints w = (Ok tt, w0) ∧ realign http_adapter w0 = (Ok tt, w1)
    ∧ demo_samples demo w1 = (Ok tt, w2) ∧ started demo w w2.
Proof.
  intros Hl. destruct (seed_run blueprints w Hl) as (w0 & E0 & Hs).
  pose proof (λ (T : Type) (f : World → T), f_equal f (ss_rest _ _ _ Hs)) as He.
  destruct (realign_run w0) as (w1 & E1 & Ha & Hth); [apply (ss_tree _ _ _ Hs)|apply (ss_sites _ _ _ Hs)|apply (ss_cpus _ _ _ Hs)| |].
  { exact (He _ (λ w, st_node_instances (w_store w))). }
  destruct (al_store _ _ Ha) as (ext & Es & _).
  assert (st_counters (w_store w1) = [] ∧ st_tickets (w_store w1) = []) as [Hc Ht].
  { rewrite Es. split; [exact (He _ (λ w, st_counters (w_store w)))|exact (He _ (λ w, st_tickets (w_store w)))]. }
  assert (em_fault_log (w_emu w1) = []) as Elog.
  { rewrite (al_emu _ _ Ha). unfold Emu.sync_with. cbn. by rewrite sync_keeps_log. }
  assert (w_bg_orders w1 = w_bg_orders w ∧ w_threads w1 = w_threads w) as Hth1.
  { destruct Hth as [-> ->]. split; [exact (He _ w_bg_orders)|exact (He _ w_threads)]. }
  assert (w_env w1 = w_env w) as Ee by (rewrite (al_env _ _ Ha); exact (He _ w_env)).
  exists w0, w1. destruct demo; cbn [demo_samples].
  - destruct (samples_run w1 Ht Hc) as (n & at_ & l & E2 & Hok & Hlog). eexists. split_and!; [done..|].
    assert (decorated w1 (w1 <| w_ticks := n |> <| w_store ::= λ s, sampled s at_ |> <| w_emu ::= λ e, e <| em_fault_log := l |> |>)) as Hd.
    { split; [done| |by split]. eexists _, _. by split_and!. }
    split; [by eapply aligned_ready| |done|done]. split; [done|]. apply Hlog; [done|].
    destruct (asked_positive blueprints Hl) as (c & Hc1 & Hc2). rewrite <- (ss_racks _ _ _ Hs) in Hc1.
    apply (trays_exist _ c (ss_tree _ _ _ Hs)) in Hc1; [|done]. by rewrite Es.
  - exists w1. split_and!; [done..|]. split; [|done..].
    eapply aligned_ready; [done..|]. by apply decorated_self; rewrite Hc.
Qed.
Lemma on_world_ok {A B} (m : IO A) (f : A → M Process B) w c a w' :
  m w = (Ok a, w') → (on_world m ≫= f) (mkProcess w c) = f a (mkProcess w' c).
Proof. intros E. unfold on_world, mbind, M_bind. cbn. by rewrite E. Qed.
Ltac served E := rewrite (on_world_ok _ _ _ _ _ _ E); cbv beta.
Lemma lifespan_run p w0 w1 w2 :
  st_factories (w_store (p_world p)) = [] → seed_default None (p_world p) = (Ok tt, w0) →
  realign http_adapter w0 = (Ok tt, w1) → seed_demo_samples w1 = (Ok tt, w2) →
  lifespan http_adapter p = (Ok tt, mkProcess w2 Metrics.empty_collector).
Proof.
  destruct p as [w c]. cbn [p_world]. intros Hf E0 E1 E2. unfold lifespan.
  rewrite (bind_ok (gets _) _ _ true (mkProcess w c)) by (unfold gets; cbn; by rewrite Hf). cbv beta. cbn [when].
  served E0. unfold realign in E1. do 4 (apply bind_inv in E1 as ([] & ? & F & E1); served F; clear F).
  apply bind_inv in E1 as ([] & ? & F & E1).
  rewrite (bind_ok (on_metrics Metrics.reset) _ _ tt (mkProcess _ Metrics.empty_collector)) by done. cbv beta.
  served F. served E1.
  unfold on_world. cbn [p_world p_metrics]. by rewrite E2.
Qed.

(** C2: A fresh process is ready.  Whatever the clock, the environment and the
    site controller, the start of a process with an empty store never fails: the
    inventory is seeded as a well-formed tree, every node mirrors a tray, the
    emulator mirrors the trays, the request counters are zero, the demo tickets and
    faults are there, nothing is sold, and tenants are isolated, VNIs distinct,
    orders numbered and the incident books in order.  When the site controller is in
    the process (NOCP_NICO_URL is not set), it has one host per tray and CPU node,
    keeps its invariant if jobs end at once, and reconciling with it finds nothing.
    After any sequence of the application's routes and threads tenants are still
    isolated, VNIs distinct and orders numbered, and every node is still there,
    having moved along its table (nothing is said there of the site controller, the
    emulator or the books). *)
Theorem startup_ready p :
  st_factories (w_store (p_world p)) = [] →
  ∃ w, lifespan http_adapter p = (Ok tt, mkProcess w Metrics.empty_collector) ∧ ready w ∧ samples_of w
  ∧ ∀ twin infra ai_get ai_post rs,
      (∀ n, Steps (same w_store) (twin n)) → (∀ n, Steps (same w_store) (infra n)) →
      (∀ u, Steps (same w_store) (ai_get u)) → (∀ u, Steps (same w_store) (ai_post u)) →
      let w' := App.serve_all http_adapter twin infra ai_get ai_post rs w in
      isolated (w_store w') ∧ vnis_ok (w_store w') ∧ orders_numbered (w_store w')
      ∧ entries node_evolves (st_node_instances (w_store w)) (st_node_instances (w_store w')).
Proof.
  intros Hf. destruct (start_run None true (p_world p)) as (w0 & w1 & w & E0 & E1 & E2 & Hs); [done|].
  exists w. split; [by eapply lifespan_run|]. split; [apply Hs|]. split; [apply Hs|].
  intros twin infra ai_get ai_post rs H1 H2 H3 H4 w'.
  destruct (rd_isolated w (sd_ready _ _ _ Hs)) as (Hi & Hv & Hn & _).
  destruct (App.routes_rel http_adapter twin infra ai_get ai_post H1 H2 H3 H4 App.tracked rs w Hn) as (Hn' & He & _).
  split_and!; [..|done|done].
  - by apply (App.routes_rel http_adapter twin infra ai_get ai_post H1 H2 H3 H4 keeps_isolated).
  - by apply (App.routes_rel http_adapter twin infra ai_get ai_post H1 H2 H3 H4 keeps_vnis).
Qed.

(** C25: A reseed starts over from any state: on blueprints that exist (or none, for
    the demo sites) it never fails, reports the scalable units, GPUs and nodes it
    built, and leaves the same ready state a fresh process has, with the samples
    only on a demo seed.  What it does not start over is the background threads
    and their order ids, which stay as they were. *)
Theorem reseed_ready blueprints w :
  (∀ l k, blueprint_list blueprints = Some l → k ∈ l → is_Some (dget Spec.BLUEPRINTS k)) →
  ∃ r w', reseed http_adapter blueprints w = (Ok r, w')
  ∧ started (bool_decide (blueprint_list blueprints = None)) w w'
  ∧ rs_scalable_units r = Z.of_nat (length (st_sus (w_store w')))
  ∧ rs_gpus r = Z.of_nat (length (st_gpus (w_store w')))
  ∧ (in_process (w_env w) → rs_nodes r = Z.of_nat (length (st_trays (w_store w')))).
Proof.
  intros Hl. set (demo := bool_decide (blueprint_list blueprints = None)).
  destruct (start_run (blueprint_list blueprints) demo w Hl) as (w0 & w1 & w' & E0 & E1 & E2 & Hs).
  set (report := mkReseed (Z.of_nat (length (st_sus (w_store w')))) (Z.of_nat (length (st_gpus (w_store w'))))
    (Z.of_nat (length (st_node_instances (w_store w'))))).
  exists report, w'. split_and!; [|done|done|done|].
  - unfold reseed. rewrite (bind_ok _ _ _ _ _ E0), (bind_ok _ _ _ _ _ E1).
    rewrite (bind_ok _ _ w1 tt w'); [reflexivity|]. revert E2. unfold demo.
    by destruct (blueprint_list blueprints).
  - intros Hin. cbn. f_equal. rewrite <- (sd_env _ _ _ Hs) in Hin.
    destruct (rd_local w' (sd_ready _ _ _ Hs) Hin) as [Hk _]. apply (f_equal length) in Hk.
    unfold dkeys in Hk. by rewrite !length_fmap in Hk.
Qed.
(** ** A reseed that fails *)
Lemma provision_known f d i bk pol racks w su w' :
  provision_scalable_unit f d i bk pol racks w = (Ok su, w') → is_Some (dget Spec.BLUEPRINTS bk).
Proof.
  unfold provision_scalable_unit. intros (bp & w1 & E & _)%bind_inv. unfold Spec.get_blueprint in E.
  destruct (dget Spec.BLUEPRINTS bk); [by eexists|done].
Qed.
Lemma seed_blueprints_known l w w' : seed_blueprints l w = (Ok tt, w') → ∀ k, k ∈ l → is_Some (dget Spec.BLUEPRINTS k).
Proof.
  unfold seed_blueprints. intros (_ & w1 & _ & (_ & w2 & _ & (_ & w3 & _ & (j & w4 & E & _)%bind_inv)%bind_inv)%bind_inv)%bind_inv.
  revert E. generalize 1%Z at 2 as i. revert w3 w4. induction l as [|bk l IH]; intros w3 w4 i E k Hk; [by apply elem_of_nil in Hk|].
  cbn [fold_m] in E. apply bind_inv in E as (b & w5 & (su & w6 & E1 & _)%bind_inv & E2).
  apply elem_of_cons in Hk as [->|Hk]; [by eapply provision_known|exact (IH _ _ _ E2 k Hk)].
Qed.
(** A reseed with an unknown blueprint fails half-way: the store has lost every
    tenant, order, allocation and node, while the site controller, the storage, the
    shared services, the trace and the emulator keep serving what was sold before. *)
Theorem reseed_unknown_blueprint blueprints l k w :
  blueprint_list blueprints = Some l → k ∈ l → dget Spec.BLUEPRINTS k = None →
  ∃ e w', reseed http_adapter blueprints w = (Raised e, w')
  ∧ st_tenants (w_store w') = [] ∧ st_orders (w_store w') = [] ∧ st_allocations (w_store w') = []
  ∧ st_node_instances (w_store w') = []
  ∧ w_nico w' = w_nico w ∧ w_vast w' = w_vast w ∧ w_shared w' = w_shared w ∧ w_tracer w' = w_tracer w
  ∧ w_emu w' = w_emu w.
Proof.
  intros El Hk Hno. destruct l as [|k0 l]; [by apply elem_of_nil in Hk|]. unfold reseed. rewrite El.
  set (w0 := w <| w_store := empty_store |>). pose proof (outside_sites (Some (k0 :: l)) w0) as Ho.
  destruct (seed_sites (Some (k0 :: l)) w0) as [[[]|e] w1] eqn:E; cbn [snd] in Ho.
  - destruct (seed_blueprints_known _ _ _ E k Hk) as [bp Ebp]. rewrite Hno in Ebp. discriminate Ebp.
  - assert (seed_default (Some (k0 :: l)) w = (Raised e, w1)) as E1.
    { unfold seed_default. fold (seed_sites (Some (k0 :: l))). rewrite (bind_ok store_reset _ w tt w0) by done.
      unfold mbind at 1, M_bind. by rewrite E. }
    exists e, w1. split; [unfold mbind at 1, M_bind; by rewrite E1|].
    pose proof (λ (T : Type) (f : World → T), f_equal f Ho) as He.
    split_and!; [exact (He _ (λ w, st_tenants (w_store w)))|exact (He _ (λ w, st_orders (w_store w)))
      |exact (He _ (λ w, st_allocations (w_store w)))|exact (He _ (λ w, st_node_instances (w_store w)))
      |exact (He _ w_nico)|exact (He _ w_vast)|exact (He _ w_shared)|exact (He _ w_tracer)|exact (He _ w_emu)].
Qed.
End starting.

(** ** A concrete start *)
Definition demo_http : string → ComputeAdapter := Lifecycle.demo_http.
Definition off : Process := mkProcess (Demo.cold <| w_store := empty_store |>) Metrics.empty_collector.
Lemma startup_ready_witness :
  st_factories (w_store (p_world off)) = []
  ∧ ∃ w, lifespan demo_http off = (Ok tt, mkProcess w Metrics.empty_collector) ∧ ready w ∧ samples_of w.
Proof.
  split; [reflexivity|].
  destruct (startup_ready demo_http off (reflexivity _)) as (w & E & Hr & Hs & _). exists w. split; [exact E|]. split; [exact Hr|exact Hs].
Defined.
(** A reseed after a day of business *)
Lemma two_known l k :
  blueprint_list (Some " gb200-nvl72,vr-nvl72 ") = Some l → k ∈ l → is_Some (dget Spec.BLUEPRINTS k).
Proof.
  assert (blueprint_list (Some " gb200-nvl72,vr-nvl72 ") = Some ["gb200-nvl72"; "vr-nvl72"]) as -> by (vm_compute; reflexivity).
  intros [= <-]. rewrite !elem_of_cons, elem_of_nil. by intros [->|[->|[]]]; eexists.
Qed.
Lemma reseed_ready_witness :
  length (st_orders (w_store Demo.reclaimed)) = 2
  ∧ ∃ r w', reseed demo_http (Some " gb200-nvl72,vr-nvl72 ") Demo.reclaimed = (Ok r, w') ∧ ready w'
    ∧ st_tickets (w_store w') = [] ∧ rs_nodes r = Z.of_nat (length (st_trays (w_store w'))).
Proof.
  split; [vm_compute; reflexivity|].
  destruct (reseed_ready demo_http (Some " gb200-nvl72,vr-nvl72 ") Demo.reclaimed two_known) as (r & w' & E & Hs & _ & _ & Hn).
  exists r, w'. split; [exact E|]. split; [apply Hs|]. split; [exact (sd_samples _ _ _ Hs)|]. apply Hn. vm_compute. constructor.
Defined.
Lemma reseed_unknown_blueprint_witness :
  (length (st_orders (w_store Demo.delivered)) = 1 ∧ length (va_views (w_vast Demo.delivered)) = 1)
  ∧ ∃ e w', reseed demo_http (Some "vr-nvl72,gb300") Demo.delivered = (Raised e, w')
    ∧ st_orders (w_store w') = [] ∧ w_vast w' = w_vast Demo.delivered.
Proof.
  split; [split; vm_compute; reflexivity|].
  assert (blueprint_list (Some "vr-nvl72,gb300") = Some ["vr-nvl72"; "gb300"]) as El by (vm_compute; reflexivity).
  destruct (reseed_unknown_blueprint demo_http (Some "vr-nvl72,gb300") _ "gb300" Demo.delivered El) as (e & w' & E & _ & Ho & _ & _ & _ & Hv & _).
  - right. left.
  - vm_compute. reflexivity.
  - exists e, w'. split; [exact E|]. split; [exact Ho|exact Hv].
Defined.
End AssemblyThms.
