(* ===== verification/Routes.v ===== *)
(** * The routes of the application and the layers in front of them (app/main.py)

    The table of the routes, module by module in the order of [include_router];
    the path a route serves for given parameters; and the stack of middlewares a
    request passes before FastAPI calls the function of its route.  How FastAPI
    picks the route ([Dispatches]), what it makes of the function's answer, and
    the CORS layer are parameters. *)
From Stdlib Require Import QArith Ascii.
From stdpp Require Import strings base decidable option numbers list.
From S2P Require Import Prelude PyLib Models PortalModels World TenancyGuard Metrics Assembly.
Local Open Scope string_scope.
Local Open Scope list_scope.
Local Open Scope py_scope.

Module Routes.

(** ** Patterns *)
Inductive Part :=
  | Lit (s : string)      (** a fixed segment *)
  | Par (name : string)   (** [{name}]: one segment *)
  | Rest (name : string). (** [{name:path}]: whatever is left *)
Inductive Method := GET | POST | PATCH | DELETE.
#[export] Instance method_eq_dec : EqDecision Method.
Proof. solve_decision. Defined.
Definition method_text (m : Method) : string :=
  match m with GET => "GET" | POST => "POST" | PATCH => "PATCH" | DELETE => "DELETE" end.
Record Route := mkRoute { rt_method : Method; rt_path : string; rt_endpoint : string }.

(** A segment of a pattern, as written in the decorator *)
Definition part_of (s : string) : Part :=
  match strip_prefix "{" s with
  | Some r =>
      let name := String.substring 0 (String.length r - 1) r in
      match Assembly.split_on ":" name with
      | [n; "path"] => Rest n
      | _ => Par name
      end
  | None => Lit s
  end.
Definition parts (r : Route) : list Part := part_of <$> Assembly.split_on "/" (rt_path r).

(** The path a route serves, for values of its parameters *)
Definition value_in (ρ : string → string) (p : Part) : string :=
  match p with Lit s => s | Par n | Rest n => ρ n end.
Definition render (r : Route) (ρ : string → string) : string := join "/" (value_in ρ <$> parts r).
Definition parameters (r : Route) : list string :=
  omap (λ p, match p with Lit _ => None | Par n | Rest n => Some n end) (parts r).
Definition arguments (r : Route) (ρ : string → string) : dict string := (λ n, (n, ρ n)) <$> parameters r.

(** ** The routers *)
Definition router (module prefix : string) (l : list (Method * string * string)) : list Route :=
  (λ '(m, path, name), mkRoute m (prefix +:+ path) (module +:+ "." +:+ name)) <$> l.
Definition topology_router : list Route := router "topology" "/api/v1"
  [(GET, "/inventory/summary", "inventory_summary"); (GET, "/topology/tree", "topology_tree");
   (GET, "/topology/su-composition", "su_composition"); (GET, "/inventory/sites", "inventory_sites");
   (GET, "/health/equipment", "equipment_health"); (PATCH, "/equipment/state", "set_equipment_state");
   (GET, "/factories", "list_factories"); (GET, "/scalable-units", "list_sus");
   (GET, "/scalable-units/{su_id}", "get_su"); (GET, "/racks", "list_racks");
   (GET, "/racks/{rack_id}", "get_rack"); (GET, "/racks/{rack_id}/gpus", "get_rack_gpus");
   (GET, "/trays/{tray_id}", "get_tray"); (POST, "/scalable-units", "provision_su");
   (POST, "/racks/{rack_id}/power-policy", "set_power_policy");
   (GET, "/blueprints", "list_blueprints"); (GET, "/spec", "get_spec")].
Definition tenancy_router : list Route := router "tenancy" "/api/v1"
  [(POST, "/tenants", "create_tenant"); (GET, "/tenants", "list_tenants");
   (GET, "/tenants/{tenant_id}", "get_tenant"); (POST, "/allocations", "create_allocation");
   (DELETE, "/allocations/{alloc_id}", "delete_allocation");
   (POST, "/nvlink-partitions", "create_partition"); (GET, "/nvlink-partitions", "list_partitions");
   (GET, "/network/vni-map", "vni_map"); (GET, "/tenants/{tenant_id}/isolation", "isolation_report")].
Definition lifecycle_router : list Route := router "lifecycle" "/api/v1"
  [(POST, "/orders", "create_order"); (POST, "/orders/{order_id}/approve", "approve_order");
   (POST, "/orders/{order_id}/reject", "reject_order"); (GET, "/orders", "list_orders");
   (GET, "/orders/{order_id}", "get_order"); (GET, "/orders/{order_id}/flow", "get_order_flow");
   (GET, "/nodes", "list_nodes"); (POST, "/k8s/installs", "install_k8s_addon");
   (GET, "/k8s/clusters", "list_k8s_clusters"); (GET, "/k8s/clusters/{cluster_id}", "get_k8s_cluster");
   (GET, "/k8s/spec", "k8s_spec"); (GET, "/cpu-nodes", "list_cpu_nodes");
   (GET, "/nodes/summary", "nodes_summary"); (GET, "/nodes/{node_id}", "get_node");
   (POST, "/reconcile/run", "run_reconcile")].
Definition k8s_api_router : list Route := router "k8s_api" "/api/v1"
  [(GET, "/k8s/overview", "k8s_overview"); (GET, "/k8s/installs", "list_k8s_installs");
   (GET, "/k8s/clusters/{cluster_id}/nodes", "cluster_nodes");
   (GET, "/k8s/clusters/{cluster_id}/acceptance", "cluster_acceptance");
   (GET, "/k8s/clusters/{cluster_id}/nodepools", "cluster_nodepools");
   (GET, "/k8s/clusters/{cluster_id}/addons", "cluster_addons");
   (POST, "/k8s/clusters/{cluster_id}/addons", "add_cluster_addon");
   (GET, "/k8s/clusters/{cluster_id}/services", "cluster_services");
   (GET, "/k8s/clusters/{cluster_id}/kubeconfigs", "list_kubeconfigs");
   (POST, "/k8s/clusters/{cluster_id}/kubeconfigs", "issue_kubeconfig");
   (DELETE, "/k8s/clusters/{cluster_id}/kubeconfigs/{kubeconfig_id}", "revoke_kubeconfig");
   (GET, "/k8s/rbac-templates", "rbac_templates");
   (POST, "/k8s/clusters/{cluster_id}/upgrades", "start_upgrade");
   (GET, "/k8s/clusters/{cluster_id}/upgrades", "list_upgrades"); (GET, "/k8s/cves", "list_cves");
   (GET, "/k8s/clusters/{cluster_id}/health-events", "cluster_health_events");
   (GET, "/k8s/clusters/{cluster_id}/storage", "cluster_storage");
   (GET, "/k8s/clusters/{cluster_id}/metrics", "cluster_metrics")].
Definition trace_router : list Route := router "trace" "/api/v1"
  [(GET, "/trace", "get_trace"); (DELETE, "/trace", "clear_trace")].
Definition business_router : list Route := router "business" "/api/v1"
  [(POST, "/tickets", "create_ticket"); (GET, "/tickets", "list_tickets");
   (PATCH, "/tickets/{ticket_id}", "update_ticket"); (GET, "/billing/rates", "billing_rates");
   (GET, "/billing/usage", "billing_usage")].
Definition scenario_api_router : list Route := router "scenario_api" "/api/v1"
  [(GET, "/orders/{order_id}/acceptance-report", "acceptance_report");
   (POST, "/orders/{order_id}/acceptance", "decide_acceptance");
   (POST, "/tenants/{tenant_id}/termination", "request_termination");
   (POST, "/tenants/{tenant_id}/termination/backup-confirm", "confirm_backup");
   (GET, "/tenants/{tenant_id}/termination", "get_termination");
   (GET, "/tenants/{tenant_id}/termination/wipe-certificate", "get_wipe_certificate");
   (GET, "/status", "status_page"); (GET, "/tenants/{tenant_id}/rca-reports", "rca_reports");
   (GET, "/tenants/{tenant_id}/sla-report", "sla_report");
   (POST, "/public/inquiries", "create_inquiry"); (GET, "/public/inquiries", "list_inquiries")].
Definition customer_ops_router : list Route := router "customer_ops" "/api/v1"
  [(POST, "/nodes/{node_id}/reboot", "node_reboot");
   (POST, "/nodes/{node_id}/replace", "node_replace");
   (GET, "/nodes/{node_id}/lifecycle", "node_lifecycle"); (GET, "/storage/volumes", "list_volumes");
   (POST, "/storage/volumes", "create_volume"); (PATCH, "/storage/volumes/{vid}/qos", "set_qos");
   (DELETE, "/storage/volumes/{vid}", "delete_volume"); (GET, "/storage/snapshots", "list_snapshots");
   (POST, "/storage/snapshots", "create_snapshot"); (GET, "/api-keys", "list_api_keys");
   (POST, "/api-keys", "create_api_key"); (DELETE, "/api-keys/{kid}", "revoke_api_key");
   (GET, "/members", "list_members"); (POST, "/members", "invite_member");
   (PATCH, "/members/{mid}", "update_member"); (DELETE, "/members/{mid}", "remove_member")].
Definition fabric_router : list Route := router "fabric" "/api/v1"
  [(GET, "/fabric/ib", "ib_fabric")].
Definition tray_emu_router : list Route := router "tray_emu" "/api/v1/emu"
  [(GET, "/faults", "faults"); (POST, "/faults", "inject_fault"); (GET, "/status", "status");
   (GET, "/clusters", "clusters"); (GET, "/history", "history"); (GET, "/trays", "trays");
   (GET, "/trays/{tray_id:path}", "tray_detail"); (POST, "/tick", "tick");
   (POST, "/clusters/{tenant_id}/workload", "set_workload")].
Definition nico_fake_router : list Route := router "nico_fake" "/fake-nico"
  [(GET, "/hosts", "list_hosts"); (GET, "/hosts/{host_id}", "get_host");
   (POST, "/hosts/{host_id}/reserve", "reserve"); (POST, "/hosts/{host_id}/unreserve", "unreserve");
   (POST, "/hosts/{host_id}/provision", "provision"); (POST, "/instances", "allocate");
   (DELETE, "/instances/{instance_id}", "release");
   (POST, "/hosts/{host_id}/abort-provision", "abort_provision");
   (POST, "/hosts/{host_id}/cordon", "cordon"); (POST, "/hosts/{host_id}/sanitize", "sanitize");
   (GET, "/hosts/{host_id}/sanitize-report", "sanitize_report"); (GET, "/jobs/{job_id}", "get_job");
   (GET, "/segments", "list_segments"); (POST, "/segments", "create_segment");
   (DELETE, "/segments/{segment_id}", "delete_segment");
   (PATCH, "/segments/{segment_id}/hosts", "attach_hosts");
   (POST, "/hosts/{host_id}/inject", "inject"); (GET, "/site", "site_info");
   (GET, "/instance-types", "instance_types"); (GET, "/instances", "list_instances");
   (GET, "/jobs", "list_jobs"); (GET, "/dhcp/leases", "dhcp_leases");
   (GET, "/hosts/{host_id}/hardware", "host_hardware"); (GET, "/health", "bulk_health");
   (GET, "/hosts/{host_id}/health", "host_health");
   (GET, "/hosts/{host_id}/attestation", "host_attestation");
   (GET, "/sanitize-reports", "sanitize_reports"); (POST, "/hosts/ghost", "create_ghost");
   (DELETE, "/hosts/{host_id}", "delete_host"); (PATCH, "/hosts/{host_id}/state", "force_state");
   (PATCH, "/config", "set_config")].
Definition vast_fake_router : list Route := router "vast_fake" "/fake-vast"
  [(GET, "/views", "list_views")].
Definition integration_router : list Route := router "integration" "/api/v1/integration"
  [(GET, "/nico", "nico_status"); (GET, "/topology", "topology"); (GET, "/consistency", "consistency");
   (GET, "/module-stats", "module_stats")].
Definition shared_services_router : list Route := router "shared_services" "/fake-shared"
  [(GET, "/iam/realms", "list_realms"); (GET, "/iam/realms/{tenant_id}", "get_realm");
   (POST, "/iam/token", "issue_token"); (GET, "/secrets", "list_secrets");
   (GET, "/pam/sessions", "list_pam_sessions"); (POST, "/pam/sessions", "open_pam_session");
   (POST, "/pam/sessions/{session_id}/close", "close_pam_session"); (GET, "/audit", "audit_trail")].
Definition main_routes : list Route := router "main" ""
  [(GET, "/health", "health"); (POST, "/api/v1/admin/reseed", "reseed");
   (POST, "/api/v1/admin/reset/nico", "reset_nico");
   (POST, "/api/v1/admin/reset/ai-infra", "reset_ai_infra");
   (POST, "/api/v1/admin/reset-all", "reset_all"); (GET, "/", "dashboard");
   (GET, "/flow", "flow_console"); (GET, "/nico", "nico_dashboard");
   (GET, "/arch", "architecture_flow"); (GET, "/ops", "operator_portal");
   (GET, "/customer", "customer_portal"); (GET, "/biz", "business_portal")].

(** [app.include_router], in its order, then the routes of [main] *)
Definition app_routes : list Route :=
  topology_router
  ++ tenancy_router
  ++ lifecycle_router
  ++ k8s_api_router
  ++ trace_router
  ++ business_router
  ++ scenario_api_router
  ++ customer_ops_router
  ++ fabric_router
  ++ tray_emu_router
  ++ nico_fake_router
  ++ vast_fake_router
  ++ integration_router
  ++ shared_services_router
  ++ main_routes.

(** ** Which path belongs to which route *)
Definition newline : ascii := "010".
Definition plain (s : string) : bool := negb (has_char newline s).
Definition plain_segment (s : string) : bool := truthy_str s && negb (has_char "/" s) && plain s.
(** Values that a route's parameters can have *)
Definition admissible (ρ : string → string) (p : Part) : bool :=
  match p with Lit _ => true | Par n => plain_segment (ρ n) | Rest n => plain (ρ n) end.
Definition fits (r : Route) (ρ : string → string) : Prop := allb (admissible ρ) (parts r) = true.
Definition serves (r : Route) (path : string) : Prop := ∃ ρ, fits r ρ ∧ path = render r ρ.
Fixpoint rest_last (ps : list Part) : bool :=
  match ps with
  | [] => true
  | [Rest _] => true
  | Rest _ :: _ => false
  | _ :: ps' => rest_last ps'
  end.

(** What FastAPI documents of routing: the routes are tried in their order; a
    parameter takes one segment, a [path] parameter the rest; the function gets
    their values. *)
Definition Dispatcher : Type := list Route → string → string → option (Route * dict string).
Class Dispatches (dispatcher : Dispatcher) : Prop :=
  dispatches_first l r l' ρ :
    rest_last (parts r) = true → fits r ρ →
    (∀ r', r' ∈ l → rt_method r' = rt_method r → ¬ serves r' (render r ρ)) →
    dispatcher (l ++ r :: l') (method_text (rt_method r)) (render r ρ) = Some (r, arguments r ρ).

(** ** The layers, outermost last in the order they are added *)
Section stack.
Context (dispatcher : Dispatcher).
(** FastAPI calls the function of a route, or answers that there is none *)
Context (call : Route → dict string → Guard.Request → IO Guard.Response).
Context (no_route : Guard.Request → IO Guard.Response).
(** [CORSMiddleware] *)
Context (cors : (Guard.Request → IO Guard.Response) → Guard.Request → IO Guard.Response).
(** The headers Starlette writes for an answer, by their lower-case names *)
Context (headers_of : Guard.Response → dict string).

Definition route (rq : Guard.Request) : IO Guard.Response :=
  match dispatcher app_routes (Guard.rq_method rq) (Guard.rq_path rq) with
  | Some (r, args) => call r args rq
  | None => no_route rq
  end.
(** [sub in s] *)
Fixpoint contains (sub s : string) : bool :=
  starts_with sub s || match s with EmptyString => false | String _ s' => contains sub s' end.
(** [no_cache_pages] on the headers of the answer *)
Definition volatile (ctype : string) : bool :=
  contains "text/html" ctype || contains "javascript" ctype || contains "text/css" ctype.
Definition uncached (headers : dict string) : dict string :=
  let ctype := default EmptyString (dget headers "content-type") in
  if volatile ctype then dset headers "cache-control" "no-cache, must-revalidate" else headers.
Definition no_cache_pages (call_next : Guard.Request → M Assembly.Process Guard.Response)
    (rq : Guard.Request) : M Assembly.Process (Guard.Response * dict string) :=
  response ← call_next rq;
  mret (response, uncached (headers_of response)).
(** A request at time [at_] *)
Definition handle_request (at_ : Q) : Guard.Request → M Assembly.Process (Guard.Response * dict string) :=
  no_cache_pages (λ rq,
    Assembly.count_api_calls (Guard.rq_path rq) at_ (cors (Guard.dispatch route) rq)).
End stack.

End Routes.
