(* ===== verification/RoutesThms.v ===== *)
(** * The routes of the application: theorems

    No route hides another, the gate of the customer plane judges every request by
    the parameter its function will get, and what a request meets on its way from
    the outermost layer to the function of its route. *)
From Stdlib Require Import QArith Ascii.
From stdpp Require Import strings base decidable option numbers list.
From S2P Require Import Prelude PyLib Models PortalModels World TenancyGuard Metrics Assembly GuardThms Demo Routes.
Local Open Scope string_scope.
Local Open Scope list_scope.
Local Open Scope py_scope.

Module RoutesThms.
Import Routes Guard GuardThms.
Abbreviation split := (Assembly.split_on "/").

(** ** Splitting a path *)
Lemma split_cons c s : ∃ x l, Assembly.split_on c s = x :: l.
Proof.
  induction s as [|a s (x & l & E)]; cbn; [by eexists _, _|].
  rewrite E. destruct (Ascii.eqb a c); by eexists _, _.
Qed.
Lemma split_app x y : split (x +:+ String "/" y) = split x ++ split y.
Proof.
  induction x as [|a x IH]; [done|]. rewrite app_cons.
  change (split (String a (x +:+ String "/" y))) with
    (if Ascii.eqb a "/" then EmptyString :: split (x +:+ String "/" y)
     else match split (x +:+ String "/" y) with z :: l => String a z :: l | [] => [String a EmptyString] end).
  change (split (String a x)) with
    (if Ascii.eqb a "/" then EmptyString :: split x
     else match split x with z :: l => String a z :: l | [] => [String a EmptyString] end).
  rewrite IH. destruct (Ascii.eqb a "/"); [done|]. by destruct (split_cons "/" x) as (z & l & ->).
Qed.
Lemma split_free x : has_char "/" x = false → split x = [x].
Proof.
  induction x as [|a x IH]; [done|]. cbn [has_char]. intros [Ha Hx]%orb_false_iff.
  cbn [Assembly.split_on]. by rewrite Ascii.eqb_sym, Ha, IH.
Qed.
Lemma split_join l : l ≠ [] → split (join "/" l) = concat (split <$> l).
Proof.
  induction l as [|x l IH]; [done|]. intros _. destruct l as [|y l]; [by cbn; rewrite app_nil_r|].
  change (join "/" (x :: y :: l)) with (x +:+ String "/" (join "/" (y :: l))).
  rewrite split_app, IH by done. done.
Qed.
Lemma split_elem x s : x ∈ split s → has_char "/" x = false.
Proof.
  revert x. induction s as [|a s IH]; intros x; [by intros ->%list_elem_of_singleton|].
  cbn [Assembly.split_on]. destruct (Ascii.eqb_spec a "/") as [->|Hne].
  - intros [->|H]%elem_of_cons; [done|by apply IH].
  - destruct (split_cons "/" s) as (y & l & E). rewrite E in *. intros [->|H]%elem_of_cons.
    + cbn [has_char]. rewrite (IH y) by left. apply Ascii.eqb_neq in Hne. by rewrite Ascii.eqb_sym, Hne.
    + apply IH. by right.
Qed.

(** ** The segments of a rendered path *)
Definition segs (ρ : string → string) (p : Part) : list string := split (value_in ρ p).
Definition lit_ok (p : Part) : Prop := match p with Lit s => has_char "/" s = false | _ => True end.
Lemma parts_lit_ok r p : p ∈ parts r → lit_ok p.
Proof.
  unfold parts. intros (s & -> & Hs)%list_elem_of_fmap. apply split_elem in Hs. unfold part_of.
  destruct (strip_prefix "{" s); [|done].
  repeat case_match; done.
Qed.
Lemma parts_nonempty r : parts r ≠ [].
Proof. unfold parts. by destruct (split_cons "/" (rt_path r)) as (x & l & ->). Qed.
Lemma split_render r ρ : split (render r ρ) = concat (segs ρ <$> parts r).
Proof.
  unfold render. rewrite split_join, <-list_fmap_compose; [done|].
  intros E%fmap_nil_inv. by apply parts_nonempty in E.
Qed.
Lemma segs_lit ρ s : lit_ok (Lit s) → segs ρ (Lit s) = [s].
Proof. apply split_free. Qed.
Lemma plain_segment_spec s :
  plain_segment s = true ↔ s ≠ EmptyString ∧ has_char "/" s = false ∧ plain s = true.
Proof.
  unfold plain_segment. rewrite !andb_true_iff, negb_true_iff. unfold truthy_str. rewrite negb_true_iff, String.eqb_neq.
  tauto.
Qed.
Lemma segs_par ρ n : admissible ρ (Par n) = true → segs ρ (Par n) = [ρ n].
Proof. intros (_ & H & _)%plain_segment_spec. by apply split_free. Qed.
Lemma segs_nonempty ρ p : segs ρ p ≠ [].
Proof. unfold segs. by destruct (split_cons "/" (value_in ρ p)) as (x & l & ->). Qed.

(** Could some path belong to both patterns? *)
Fixpoint clash (p q : list Part) : bool :=
  match p, q with
  | [], [] => true
  | Rest _ :: _, _ :: _ | _ :: _, Rest _ :: _ => true
  | Lit a :: p', Lit b :: q' => String.eqb a b && clash p' q'
  | Lit a :: p', Par _ :: q' | Par _ :: p', Lit a :: q' => truthy_str a && clash p' q'
  | Par _ :: p', Par _ :: q' => clash p' q'
  | _, _ => false
  end.
Definition ok_parts (ρ : string → string) (p : list Part) : Prop := ∀ x, x ∈ p → lit_ok x ∧ admissible ρ x = true.
Lemma ok_parts_cons ρ x p : ok_parts ρ (x :: p) → (lit_ok x ∧ admissible ρ x = true) ∧ ok_parts ρ p.
Proof. intros H. split; [apply H; left|]. intros y Hy. apply H. by right. Qed.
Lemma clash_sound ρ ρ' p q :
  ok_parts ρ p → ok_parts ρ' q → concat (segs ρ <$> p) = concat (segs ρ' <$> q) → clash p q = true.
Proof.
  revert q. induction p as [|x p IH]; intros [|y q] Hp Hq E; [done| | |].
  - cbn in E. by destruct (segs ρ' y) eqn:Es; [apply segs_nonempty in Es|].
  - cbn in E. by destruct (segs ρ x) eqn:Es; [apply segs_nonempty in Es|].
  - apply ok_parts_cons in Hp as [[Lx Ax] Hp]. apply ok_parts_cons in Hq as [[Ly Ay] Hq].
    cbn [fmap list_fmap concat] in E. specialize (IH q Hp Hq).
    assert (∀ n, plain_segment n = true → truthy_str n = true) as Ht.
    { intros n (H & _)%plain_segment_spec. unfold truthy_str. by apply negb_true_iff, String.eqb_neq. }
    destruct x as [a|n|n], y as [b|m|m]; cbn [clash]; try done;
      rewrite ?segs_lit, ?segs_par in E by done; injection E as E1 E2; rewrite IH by done; subst;
      cbn [value_in admissible] in *; rewrite ?String.eqb_refl, ?Ht by done; done.
Qed.
Lemma fits_parts r ρ : fits r ρ → ok_parts ρ (parts r).
Proof.
  intros H x Hx. split; [by eapply parts_lit_ok|]. unfold fits, allb in H.
  rewrite List.forallb_forall in H. by apply H, list_elem_of_In.
Qed.
Lemma serves_clash r r' ρ : fits r ρ → serves r' (render r ρ) → clash (parts r') (parts r) = true.
Proof.
  intros Hr (ρ' & Hr' & E). apply (clash_sound ρ' ρ); [by apply fits_parts..|]. by rewrite <-!split_render, E.
Qed.

(** ** No route hides another *)
#[export] Instance part_eq_dec : EqDecision Part.
Proof. solve_decision. Defined.
Definition same_endpoint (r : Route) (name : string) : bool := String.eqb (rt_endpoint r) name.
(** [/nodes/summary] comes before [/nodes/{node_id}]. *)
Definition summary_pair (r' r : Route) : bool :=
  same_endpoint r' "lifecycle.nodes_summary" && same_endpoint r "lifecycle.get_node".
Definition compatible (r' r : Route) : bool :=
  negb (bool_decide (rt_method r' = rt_method r)) || negb (clash (parts r') (parts r)) || summary_pair r' r.
Fixpoint unhidden (before routes : list Route) : bool :=
  match routes with
  | [] => true
  | r :: rest => allb (λ r', compatible r' r) before && unhidden (r :: before) rest
  end.
Lemma unhidden_spec before l r l' r' :
  unhidden before (l ++ r :: l') = true → r' ∈ before ∨ r' ∈ l → compatible r' r = true.
Proof.
  revert before. induction l as [|x l IH]; intros before; cbn [app unhidden]; intros [H1 H2]%andb_true_iff Hin.
  - destruct Hin as [Hin|Hin]; [|by apply elem_of_nil in Hin].
    unfold allb in H1. rewrite List.forallb_forall in H1. by apply H1, list_elem_of_In.
  - apply (IH (x :: before)); [done|]. destruct Hin as [Hin|[->|Hin]%elem_of_cons];
      [left; by right|left; by left|by right].
Qed.
Lemma app_unhidden : unhidden [] app_routes = true.
Proof. vm_compute. reflexivity. Qed.
Lemma app_rest_last : allb (λ r, rest_last (parts r)) app_routes = true.
Proof. vm_compute. reflexivity. Qed.
Lemma all_routes (f : Route → bool) r : allb f app_routes = true → r ∈ app_routes → f r = true.
Proof. unfold allb. rewrite List.forallb_forall. intros H Hr. by apply H, list_elem_of_In. Qed.

Definition not_summary (r : Route) (ρ : string → string) : Prop :=
  rt_endpoint r = "lifecycle.get_node" → ρ "node_id" ≠ "summary".
Definition node_parts : list Part := [Lit ""; Lit "api"; Lit "v1"; Lit "nodes"].
Lemma summary_parts :
  allb (λ r, negb (same_endpoint r "lifecycle.nodes_summary")
             || bool_decide (parts r = node_parts ++ [Lit "summary"])) app_routes = true
  ∧ allb (λ r, negb (same_endpoint r "lifecycle.get_node")
             || bool_decide (parts r = node_parts ++ [Par "node_id"])) app_routes = true.
Proof. split; vm_compute; reflexivity. Qed.
Lemma summary_served r' r ρ :
  r' ∈ app_routes → r ∈ app_routes → summary_pair r' r = true → fits r ρ → serves r' (render r ρ) →
  ρ "node_id" = "summary".
Proof.
  intros Hr' Hr [E' E]%andb_prop Hf (ρ' & Hf' & Ep). destruct summary_parts as [H' H].
  apply (all_routes _ _ H') in Hr'. apply (all_routes _ _ H) in Hr. rewrite E' in Hr'. rewrite E in Hr.
  cbn [negb orb] in Hr, Hr'. apply bool_decide_eq_true in Hr, Hr'.
  apply (f_equal (λ s, split s)) in Ep. rewrite !split_render, Hr, Hr' in Ep.
  assert (admissible ρ (Par "node_id") = true) as Ha.
  { apply (fits_parts r ρ Hf). rewrite Hr. apply elem_of_app. right. left. }
  rewrite !fmap_app, !concat_app in Ep. cbn [node_parts fmap list_fmap concat] in Ep. rewrite segs_par in Ep by done.
  cbn in Ep. by injection Ep.
Qed.
Lemma route_found dispatcher `{!Dispatches dispatcher} r ρ :
  r ∈ app_routes → fits r ρ → not_summary r ρ →
  dispatcher app_routes (method_text (rt_method r)) (render r ρ) = Some (r, arguments r ρ).
Proof.
  intros Hr Hf Hs. pose proof Hr as (l & l' & E)%list_elem_of_split.
  assert (∀ r', r' ∈ l → r' ∈ app_routes) as Hl by (intros r' H; rewrite E; apply elem_of_app; by left).
  pose proof app_unhidden as Hu. rewrite E in Hu |- * at 1. apply dispatches_first; [|done|].
  - apply (all_routes _ _ app_rest_last Hr).
  - intros r' Hr' Em Hserve. pose proof (unhidden_spec [] l r l' r' Hu (or_intror Hr')) as Hc.
    unfold compatible in Hc. rewrite (bool_decide_eq_true_2 _ Em), (serves_clash r r' ρ Hf Hserve) in Hc.
    cbn in Hc. apply Hs; [by apply andb_prop in Hc as [_ Hc%String.eqb_eq]|].
    by apply (summary_served r' r); auto.
Qed.

(** ** The gate sees the parameter of the route *)
Fixpoint under (pre : list string) (ps : list Part) : option string :=
  match pre, ps with
  | [], Par n :: _ => Some n
  | x :: pre', Lit s :: ps' => if String.eqb x s then under pre' ps' else None
  | _, _ => None
  end.
Fixpoint off (pre : list string) (ps : list Part) : bool :=
  match pre, ps with
  | [], [] => true
  | _ :: _, [] => true
  | x :: pre', Lit s :: ps' => negb (String.eqb x s) || off pre' ps'
  | _, _ => false
  end.
Definition prefix_text (pre : list string) : string := join "/" pre +:+ "/".
Definition free (pre : list string) : Prop := allb (λ x, negb (has_char "/" x)) pre = true.
Lemma free_cons x pre : free (x :: pre) → has_char "/" x = false ∧ free pre.
Proof. intros [H1%negb_true_iff H2]%andb_prop. done. Qed.
Lemma prefix_cons x y pre : prefix_text (x :: y :: pre) = x +:+ String "/" (prefix_text (y :: pre)).
Proof.
  unfold prefix_text. change (join "/" (x :: y :: pre)) with (x +:+ "/" +:+ join "/" (y :: pre)).
  rewrite !str_app_assoc. done.
Qed.
Lemma split_prefix pre t : pre ≠ [] → free pre → split (prefix_text pre +:+ t) = pre ++ split t.
Proof.
  induction pre as [|x pre IH]; [done|]. intros _ [Hx Hf]%free_cons. destruct pre as [|y pre].
  - unfold prefix_text. cbn [join]. rewrite str_app_assoc. change ("/" +:+ t) with (String "/" t).
    by rewrite split_app, split_free.
  - rewrite prefix_cons, str_app_assoc, app_cons, split_app, split_free, IH by done. done.
Qed.
Lemma join_app_cons x l : ∃ t, join "/" (x :: l) = x +:+ t ∧ path_end t.
Proof.
  destruct l as [|y l]; [exists EmptyString|exists (String "/" (join "/" (y :: l)))].
  - split; [|by left]. cbn. clear. induction x as [|a x IH]; [done|]. rewrite app_cons. by rewrite <-IH.
  - split; [done|right; by eexists].
Qed.
Lemma join_pre pre l : pre ≠ [] → l ≠ [] → join "/" (pre ++ l) = prefix_text pre +:+ join "/" l.
Proof.
  induction pre as [|x pre IH]; [done|]. intros _ Hl. destruct pre as [|y pre].
  - destruct l as [|z l]; [done|]. unfold prefix_text. cbn [join app]. by rewrite str_app_assoc.
  - rewrite prefix_cons, str_app_assoc, app_cons, <-IH by done. done.
Qed.
Lemma under_spec pre ps n : under pre ps = Some n → ∃ rest : list Part, ps = (Lit <$> pre) ++ Par n :: rest.
Proof.
  revert ps. induction pre as [|x pre IH]; intros [|[s|m|m] ps]; cbn; try done; [by intros [= <-]; exists ps|].
  destruct (String.eqb_spec x s) as [->|]; [|done]. intros (rest & ->)%IH. by exists rest.
Qed.
Lemma values_lits ρ (pre : list string) : value_in ρ <$> (Lit <$> pre) = pre.
Proof. induction pre as [|x pre IH]; cbn; [done|by rewrite IH]. Qed.
Lemma path_id_under pre r ρ n :
  pre ≠ [] → fits r ρ → under pre (parts r) = Some n → path_id (prefix_text pre) (render r ρ) = Some (ρ n).
Proof.
  intros Hp Hf (rest & E)%under_spec. apply path_id_spec.
  assert (admissible ρ (Par n) = true) as Ha.
  { apply (fits_parts r ρ Hf). rewrite E. apply elem_of_app. right. left. }
  apply plain_segment_spec in Ha as (H1 & H2 & _). split; [done|].
  unfold render. rewrite E, fmap_app, values_lits, fmap_cons.
  destruct (join_app_cons (ρ n) (value_in ρ <$> rest)) as (t & Et & Ht). exists t. split; [|done].
  rewrite join_pre by done. cbn [value_in]. by rewrite Et.
Qed.
Lemma off_sound ρ pre ps x l :
  ok_parts ρ ps → off pre ps = true → concat (segs ρ <$> ps) = pre ++ x :: l → False.
Proof.
  revert ps. induction pre as [|y pre IH]; intros [|[s|m|m] ps] Hok; cbn [off]; try done.
  apply ok_parts_cons in Hok as [[Hs _] Hok]. cbn [fmap list_fmap concat]. rewrite segs_lit by done.
  intros [H%negb_true_iff%String.eqb_neq|H]%orb_prop [= E1 E2]; [by subst|by apply (IH ps)].
Qed.
Lemma path_id_off pre r ρ :
  pre ≠ [] → free pre → fits r ρ → off pre (parts r) = true → path_id (prefix_text pre) (render r ρ) = None.
Proof.
  intros Hp Hfree Hf Ho. destruct (path_id _ _) as [g|] eqn:E; [|done]. exfalso.
  apply path_id_spec in E as (_ & t & E & _). apply (f_equal (λ s, split s)) in E.
  rewrite split_render, split_prefix in E by done. destruct (split_cons "/" (g +:+ t)) as (x & l & El).
  rewrite El in E. by apply (off_sound ρ pre (parts r) x l (fits_parts r ρ Hf) Ho).
Qed.

(** Whose the thing is that a path names *)
Inductive Owner := By_tenant | By_order | By_cluster.
Definition collection (o : Owner) : list string :=
  match o with
  | By_tenant => [""; "api"; "v1"; "tenants"]
  | By_order => [""; "api"; "v1"; "orders"]
  | By_cluster => [""; "api"; "v1"; "k8s"; "clusters"]
  end.
Definition subject (r : Route) : option (Owner * string) :=
  match under (collection By_tenant) (parts r) with
  | Some n => Some (By_tenant, n)
  | None =>
      match under (collection By_order) (parts r) with
      | Some n => Some (By_order, n)
      | None => (λ n, (By_cluster, n)) <$> under (collection By_cluster) (parts r)
      end
  end.
Definition foreign (s : Store) (tid : string) (r : Route) (ρ : string → string) : bool :=
  match subject r with
  | Some (By_tenant, n) => negb (String.eqb (ρ n) tid)
  | Some (By_order, n) => owned_elsewhere (st_orders s) o_tenant_id (Some (ρ n)) tid
  | Some (By_cluster, n) => owned_elsewhere (st_k8s_clusters s) k_tenant_id (Some (ρ n)) tid
  | None => false
  end.
Definition decided (r : Route) (o : Owner) : bool :=
  match under (collection o) (parts r) with Some _ => true | None => off (collection o) (parts r) end.
Definition named_once (r : Route) : bool :=
  match under (collection By_tenant) (parts r), under (collection By_order) (parts r),
        under (collection By_cluster) (parts r) with
  | Some _, Some _, _ | Some _, _, Some _ | _, Some _, Some _ => false
  | _, _, _ => true
  end.
Lemma app_decided :
  allb (λ r, decided r By_tenant && decided r By_order && decided r By_cluster && named_once r) app_routes = true.
Proof. vm_compute. reflexivity. Qed.
Lemma path_id_route r ρ o :
  decided r o = true → fits r ρ →
  path_id (prefix_text (collection o)) (render r ρ) = ρ <$> under (collection o) (parts r).
Proof.
  intros Hd Hf. unfold decided in Hd. destruct (under _ _) as [n|] eqn:E.
  - by apply path_id_under; [destruct o|..].
  - by apply path_id_off; [by destruct o..| |].
Qed.
Lemma scope_of_route s tid r ρ :
  r ∈ app_routes → fits r ρ → _scope_violation s (render r ρ) tid = foreign s tid r ρ.
Proof.
  intros Hr Hf. apply (all_routes _ _ app_decided) in Hr.
  apply andb_prop in Hr as [[[Ht Ho]%andb_prop Hc]%andb_prop Hn].
  unfold _scope_violation. change _TENANT_PATH with (prefix_text (collection By_tenant)).
  change _ORDER_PATH with (prefix_text (collection By_order)).
  change _CLUSTER_PATH with (prefix_text (collection By_cluster)).
  rewrite !path_id_route by done. unfold foreign, subject, named_once in *.
  destruct (under (collection By_tenant) _), (under (collection By_order) _), (under (collection By_cluster) _);
    try done; cbn [fmap option_fmap option_map owned_elsewhere]; by rewrite ?orb_false_r.
Qed.

(** The administrator's surface *)
Fixpoint lead (ps : list Part) : string :=
  match ps with
  | [] => EmptyString
  | [Lit s] => s
  | Lit s :: ps' => s +:+ "/" +:+ lead ps'
  | _ => EmptyString
  end.
Fixpoint conflict (p x : string) : bool :=
  match p, x with
  | String a p', String b x' => negb (Ascii.eqb a b) || conflict p' x'
  | _, _ => false
  end.
Lemma conflict_prefix p x y : conflict p x = true → starts_with p (x +:+ y) = false.
Proof.
  unfold starts_with. revert x. induction p as [|a p IH]; intros [|b x]; try done. rewrite app_cons. cbn [conflict strip_prefix].
  destruct (Ascii.eqb a b); [|done]. cbn. apply IH.
Qed.
Lemma starts_with_app p x y : starts_with p x = true → starts_with p (x +:+ y) = true.
Proof.
  unfold starts_with. revert x. induction p as [|a p IH]; intros [|b x]; try done. rewrite app_cons. cbn [strip_prefix].
  destruct (Ascii.eqb a b); [|done]. apply IH.
Qed.
Lemma render_lead ρ ps : ∃ t, join "/" (value_in ρ <$> ps) = lead ps +:+ t.
Proof.
  induction ps as [|p ps [t IH]]; [by exists EmptyString|]. destruct p as [s|n|n]; [|by eexists..].
  destruct ps as [|q ps]; [exists EmptyString|exists t].
  - cbn. clear. induction s as [|a s IH]; [done|]. by rewrite app_cons, <-IH.
  - change (join "/" (value_in ρ <$> Lit s :: q :: ps)) with (s +:+ "/" +:+ join "/" (value_in ρ <$> q :: ps)).
    rewrite IH. cbn [lead]. by rewrite !str_app_assoc.
Qed.
Definition _ADMIN : string := "/api/v1/admin".
Definition admin (r : Route) : bool := starts_with _ADMIN (rt_path r).
Definition all_lit (ps : list Part) : bool := allb (λ p, match p with Lit _ => true | _ => false end) ps.
Lemma app_admin :
  allb (λ r, if all_lit (parts r) then String.eqb (render r id) (rt_path r)
             else if admin r then starts_with _ADMIN (lead (parts r)) else conflict _ADMIN (lead (parts r)))
       app_routes = true.
Proof. vm_compute. reflexivity. Qed.
Lemma all_lit_render r ρ : all_lit (parts r) = true → render r ρ = render r id.
Proof.
  unfold render, all_lit, allb. intros H. f_equal. apply list_fmap_ext. intros i p Hp.
  rewrite List.forallb_forall in H. specialize (H p (proj1 (list_elem_of_In _ _) (list_elem_of_lookup_2 _ _ _ Hp))).
  by destruct p.
Qed.
Lemma admin_route r ρ : r ∈ app_routes → starts_with _ADMIN (render r ρ) = admin r.
Proof.
  intros Hr. apply (all_routes _ _ app_admin) in Hr. cbn beta in Hr. destruct (all_lit (parts r)) eqn:El.
  - apply String.eqb_eq in Hr. unfold admin. by rewrite (all_lit_render r ρ El), Hr.
  - destruct (render_lead ρ (parts r)) as [t Et]. unfold render. rewrite Et.
    destruct (admin r); [by apply starts_with_app|by apply conflict_prefix].
Qed.

(** ** From the outermost layer to the function of the route *)
Definition rejects (s : Store) (tid : string) (r : Route) (ρ : string → string) (rq : Request) : bool :=
  admin r || foreign s tid r ρ
  || (String.eqb (role_of rq) "viewer" && negb (memb (method_text (rt_method r)) _READ_METHODS))
  || _body_tenant_mismatch rq tid.
(** The tenant, order or cluster that the route's own parameter names is another tenant's. *)
Definition names_other (s : Store) (tid : string) (r : Route) (ρ : string → string) : Prop :=
  match subject r with
  | Some (By_tenant, n) => ρ n ≠ tid
  | Some (By_order, n) => ∃ o, dget (st_orders s) (ρ n) = Some o ∧ o_tenant_id o ≠ tid
  | Some (By_cluster, n) => ∃ c, dget (st_k8s_clusters s) (ρ n) = Some c ∧ k_tenant_id c ≠ tid
  | None => False
  end.
Definition writes (r : Route) : Prop := method_text (rt_method r) ∉ reads.
Definition turned_away (s : Store) (tid : string) (r : Route) (ρ : string → string) (rq : Request) : Prop :=
  starts_with "/api/v1/admin" (rt_path r) = true ∨ names_other s tid r ρ
  ∨ (writes r ∧ (viewer rq ∨ claims_other tid rq)).
Lemma elsewhere_spec {V} (d : dict V) owner k tid :
  owned_elsewhere d owner (Some k) tid = true ↔ ∃ v, dget d k = Some v ∧ owner v ≠ tid.
Proof.
  unfold owned_elsewhere. destruct (dget d k) as [v|]; [rewrite negb_true_iff, String.eqb_neq; naive_solver|naive_solver].
Qed.
Lemma foreign_spec s tid r ρ : foreign s tid r ρ = true ↔ names_other s tid r ρ.
Proof.
  unfold foreign, names_other. destruct (subject r) as [[[] n]|]; [|apply elsewhere_spec..|done].
  by rewrite negb_true_iff, String.eqb_neq.
Qed.
Lemma rejects_spec s tid r ρ rq :
  rq_method rq = method_text (rt_method r) → rejects s tid r ρ rq = true ↔ turned_away s tid r ρ rq.
Proof.
  intros Em. unfold rejects, turned_away, writes.
  rewrite !orb_true_iff, andb_true_iff, negb_true_iff, memb_false, String.eqb_eq, viewer_spec, body_mismatch_spec, foreign_spec, Em.
  unfold admin. change _READ_METHODS with reads. change _ADMIN with "/api/v1/admin". tauto.
Qed.
Definition dressed (headers_of : Response → dict string) (a : Response) : Response * dict string :=
  (a, uncached (headers_of a)).
Lemma refuses_route s tid r ρ rq :
  r ∈ app_routes → fits r ρ → rq_method rq = method_text (rt_method r) → rq_path rq = render r ρ →
  refuses s tid rq = rejects s tid r ρ rq.
Proof.
  intros Hr Hf Em Ep. unfold refuses, rejects. change "/api/v1/admin" with _ADMIN.
  by rewrite Ep, Em, admin_route, scope_of_route by done.
Qed.
Lemma scoped_line rq tid :
  rq_method (scoped_request rq tid) = rq_method rq ∧ rq_path (scoped_request rq tid) = rq_path rq.
Proof. unfold scoped_request. by destruct (_ && _). Qed.

(** C9: What a request meets, for every route of the application and all values of
    its parameters (with the one exception that the node summary takes the name of a
    node called summary).  The request is counted.  When it does not concern the gate
    (no tenant, or a public path), the function of just this route runs with just
    these parameters.  A tenant's request is refused with 403, the world untouched,
    exactly when the route is the administrator's; when its parameter directly under
    [/api/v1/tenants], [/api/v1/orders] or [/api/v1/k8s/clusters] is another tenant or
    an order or cluster of another one (parameters elsewhere are not judged); or when
    it writes for a viewer or with a body that claims another tenant.  Otherwise the
    function of just this route runs with just these parameters, on the request
    scoped to the tenant, and its answer goes out filtered for the tenant, with
    caching switched off for pages. *)
Theorem front_door dispatcher call no_route cors headers_of r ρ rq at_ p :
  Dispatches dispatcher → (∀ next, cors next rq = next rq) →
  r ∈ app_routes → fits r ρ → not_summary r ρ →
  rq_method rq = method_text (rt_method r) → rq_path rq = render r ρ →
  let counted w := Assembly.mkProcess w (Metrics.record (rq_path rq) at_ (Assembly.p_metrics p)) in
  let served := handle_request dispatcher call no_route cors headers_of at_ rq p in
  let runs rq' shown := match call r (arguments r ρ) rq' (Assembly.p_world p) with
                        | (Ok a, w) => (Ok (dressed headers_of (shown a)), counted w)
                        | (Raised e, w) => (Raised e, counted w)
                        end in
  ((∀ tid, ¬ customer rq tid) → served = runs rq id)
  ∧ ∀ tid, customer rq tid →
      (turned_away (w_store (Assembly.p_world p)) tid r ρ rq →
         ∃ d, served = (Ok (dressed headers_of (_forbidden d)), counted (Assembly.p_world p)))
      ∧ (¬ turned_away (w_store (Assembly.p_world p)) tid r ρ rq →
           served = runs (scoped_request rq tid) (scoped_response rq tid)).
Proof.
  intros HD Hcors Hr Hf Hs Em Ep counted served runs. subst served counted runs.
  unfold handle_request, no_cache_pages, Assembly.count_api_calls, Assembly.on_metrics, Assembly.on_world.
  unfold mbind, M_bind, mret, M_ret, modify. cbn [Assembly.p_world Assembly.p_metrics]. rewrite Hcors. split.
  - intros Hn. rewrite (dispatch_exempt rq _ Hn). unfold route at 1.
    rewrite Em, Ep, route_found by done. by destruct (call _ _ _ _) as [[a|e] w].
  - intros tid Hc. pose proof (dispatch_cases rq tid (Assembly.p_world p) Hc) as H.
    rewrite <- rejects_spec, <- (refuses_route _ _ _ _ _ Hr Hf Em Ep) by done.
    destruct (refuses _ tid rq); (split; [intros Ht|intros Ht]); try done.
    + destruct H as [d H]. exists d. by rewrite H.
    + rewrite H. unfold mbind, M_bind, mret, M_ret. unfold route at 1. destruct (scoped_line rq tid) as [-> ->].
      rewrite Em, Ep, route_found by done. by destruct (call _ _ _ _) as [[a|e] w].
Qed.

(** ** A dispatcher *)
Fixpoint match_parts (ps : list Part) (xs : list string) : option (dict string) :=
  match ps, xs with
  | [], [] => Some []
  | Lit s :: ps', x :: xs' => if String.eqb s x then match_parts ps' xs' else None
  | Par n :: ps', x :: xs' => ((n, x) ::.) <$> match_parts ps' xs'
  | [Rest n], _ :: _ => Some [(n, join "/" xs)]
  | _, _ => None
  end.
Definition values (args : dict string) (n : string) : string := default EmptyString (dget args n).
Definition match_route (r : Route) (path : string) : option (dict string) :=
  args ← match_parts (parts r) (split path);
  if allb (admissible (values args)) (parts r) && String.eqb path (render r (values args)) then Some args else None.
Fixpoint first_match (rs : list Route) (m path : string) : option (Route * dict string) :=
  match rs with
  | [] => None
  | r :: rs' =>
      match (if String.eqb (method_text (rt_method r)) m then match_route r path else None) with
      | Some args => Some (r, args)
      | None => first_match rs' m path
      end
  end.
Lemma match_route_sound r path args : match_route r path = Some args → serves r path.
Proof.
  unfold match_route. destruct (match_parts _ _) as [a|]; [|done]. cbn.
  destruct (_ && _) eqn:E; [|done]. apply andb_prop in E as [E1 E2%String.eqb_eq]. intros _. by exists (values a).
Qed.
Lemma join_split s : join "/" (split s) = s.
Proof.
  induction s as [|a s IH]; [done|]. cbn [Assembly.split_on].
  destruct (split_cons "/" s) as (x & l & E). rewrite E in *.
  destruct (Ascii.eqb_spec a "/") as [->|]; [by change (String "/" (join "/" (x :: l)) = String "/" s); rewrite IH|].
  destruct l as [|y l]; [by cbn in *; rewrite IH|].
  change (String a (join "/" (x :: y :: l)) = String a s). by rewrite IH.
Qed.
Definition args_of (ρ : string → string) (ps : list Part) : dict string :=
  (λ n, (n, ρ n)) <$> omap (λ p, match p with Lit _ => None | Par n | Rest n => Some n end) ps.
Lemma match_parts_complete ρ ps :
  rest_last ps = true → ok_parts ρ ps → match_parts ps (concat (segs ρ <$> ps)) = Some (args_of ρ ps).
Proof.
  induction ps as [|p ps IH]; [done|]. intros Hl [[Lp Ap] Hok]%ok_parts_cons. cbn [fmap list_fmap concat].
  destruct p as [s|n|n].
  - rewrite segs_lit by done. cbn [app match_parts]. rewrite String.eqb_refl. by apply IH.
  - rewrite segs_par by done. cbn [app match_parts]. rewrite IH by done. done.
  - destruct ps; [|done]. cbn [fmap list_fmap concat]. rewrite app_nil_r. unfold segs. cbn [value_in].
    destruct (split_cons "/" (ρ n)) as (x & l & E). rewrite E. cbn [match_parts]. by rewrite <-E, join_split.
Qed.
Lemma values_args ρ ps p : p ∈ ps → value_in (values (args_of ρ ps)) p = value_in ρ p.
Proof.
  assert (∀ l n, n ∈ l → values ((λ n, (n, ρ n)) <$> l) n = ρ n) as Hv.
  { induction l as [|m l IH]; intros n Hn; [by apply elem_of_nil in Hn|]. unfold values in *.
    change (default EmptyString (if String.eqb n m then Some (ρ m) else dget ((λ n, (n, ρ n)) <$> l) n) = ρ n).
    destruct (String.eqb_spec n m) as [->|Hne]; [done|]. apply IH. by apply elem_of_cons in Hn as [Hn|Hn]. }
  intros Hp. destruct p as [s|n|n]; [done|..]; cbn; apply Hv; apply list_elem_of_omap; by eexists.
Qed.
Lemma match_route_complete r ρ :
  rest_last (parts r) = true → fits r ρ → match_route r (render r ρ) = Some (arguments r ρ).
Proof.
  intros Hl Hf. unfold match_route. rewrite split_render, match_parts_complete by (done || by apply fits_parts).
  cbn. change (arguments r ρ) with (args_of ρ (parts r)).
  assert (render r (values (args_of ρ (parts r))) = render r ρ) as ->.
  { unfold render. f_equal. apply list_fmap_ext. intros i p Hp. by apply values_args, (list_elem_of_lookup_2 _ i). }
  rewrite String.eqb_refl, andb_true_r. replace (allb _ _) with true; [done|]. symmetry.
  unfold allb. apply List.forallb_forall. intros p Hp%list_elem_of_In.
  pose proof (proj2 (fits_parts r ρ Hf p Hp)) as Ha. pose proof (values_args ρ _ _ Hp) as Hv.
  destruct p as [s|n|n]; [done|..]; cbn in *; by rewrite Hv.
Qed.
#[export] Instance first_match_dispatches : Dispatches first_match.
Proof.
  intros l r l' ρ Hl Hf Hn. induction l as [|x l IH]; cbn [app first_match].
  - by rewrite String.eqb_refl, match_route_complete.
  - destruct (String.eqb_spec (method_text (rt_method x)) (method_text (rt_method r))) as [E|].
    + destruct (match_route x _) as [args|] eqn:Em; [|apply IH; intros; apply Hn; [by right|done]].
      exfalso. apply (Hn x); [by left|by destruct (rt_method x), (rt_method r)|]. by eapply match_route_sound.
    + apply IH. intros; apply Hn; [by right|done].
Qed.

(** ** What the gate does not judge *)
Definition owner_named (r : Route) : bool :=
  anyb (λ n, memb n ["tenant_id"; "order_id"; "cluster_id"]) (parameters r).
(** Two routes name a tenant in their path where the gate does not look. *)
Example not_judged :
  rt_endpoint <$> filterb (λ r, owner_named r && bool_decide (subject r = None)) app_routes
  = ["tray_emu.set_workload"; "shared_services.get_realm"].
Proof. vm_compute. reflexivity. Qed.

(** ** Witness: Beta asks for the flow of Acme's order. *)
Definition demo_route : Route := mkRoute GET "/api/v1/orders/{order_id}/flow" "lifecycle.get_order_flow".
Definition demo_call (_ : Route) (_ : dict string) (_ : Request) : IO Response := mret (mkResponse 200 B_empty).
Definition demo_process : Assembly.Process := Assembly.mkProcess Demo.delivered Metrics.empty_collector.
Definition demo_headers (_ : Response) : dict string := [("content-type", "application/json")].
Definition demo_args (_ : string) : string := "ord-1".
Lemma demo_refused : turned_away (w_store Demo.delivered) "tnt-beta-labs" demo_route demo_args demo_read.
Proof. apply rejects_spec; [reflexivity|]. vm_compute. reflexivity. Qed.
Lemma front_door_witness :
  let served := handle_request first_match demo_call (λ rq, demo_call demo_route [] rq) (λ next, next)
                  demo_headers 0 demo_read demo_process in
  let counted w := Assembly.mkProcess w (Metrics.record (rq_path demo_read) 0 (Assembly.p_metrics demo_process)) in
  demo_route ∈ app_routes ∧ fits demo_route demo_args ∧ customer demo_read "tnt-beta-labs"
  ∧ ∃ d, served = (Ok (dressed demo_headers (_forbidden d)), counted (Assembly.p_world demo_process)).
Proof.
  assert (demo_route ∈ app_routes) as Hr by (apply (list_elem_of_lookup_2 _ 31); vm_compute; reflexivity).
  assert (fits demo_route demo_args) as Hf by (vm_compute; reflexivity).
  assert (not_summary demo_route demo_args) as Hs by (intros H; discriminate H).
  assert (rq_method demo_read = method_text (rt_method demo_route)) as Em by reflexivity.
  assert (rq_path demo_read = render demo_route demo_args) as Ep by (vm_compute; reflexivity).
  assert (customer demo_read "tnt-beta-labs") as Hc by (split_and!; [reflexivity|discriminate|vm_compute; reflexivity..]).
  intros served counted. split; [exact Hr|]. split; [exact Hf|]. split; [exact Hc|].
  exact (proj1 (proj2 (front_door first_match demo_call (λ rq, demo_call demo_route [] rq) (λ next, next) demo_headers demo_route
           demo_args demo_read 0 demo_process first_match_dispatches (λ next, eq_refl) Hr Hf Hs Em Ep) "tnt-beta-labs" Hc) demo_refused).
Defined.
End RoutesThms.
