(* ===== verification/Integration.v ===== *)
(** * Integration status (app/integration.py)

    The wiring to the other processes as the verification console sees it: the
    status of the NICo emulator, the connection graph, the comparison of the
    tenants that each layer knows, and the activity of the control plane's own
    modules.  The answers of the other processes are parameters: JSON values, in
    which the names of tenants are strings and counts are numbers, as those
    processes document them.  The prose of details, labels and links is left out. *)
From Stdlib Require Import QArith Ascii.
From stdpp Require Import strings base decidable option numbers list.
From S2P Require Import Prelude PyLib Models PortalModels World Trace Metrics Assembly.
Local Open Scope string_scope.
Local Open Scope list_scope.
Local Open Scope py_scope.

Module Integration.
Import Assembly.

(** ** Reading JSON; what is not an object has no [get] *)
Definition as_dict (j : json) : IO (dict json) :=
  match j with J_dict d => mret d | _ => raise (AttributeError "get") end.
(** [j or {}], [j or []] and [j or 0] *)
Definition or_dict (j : json) : IO (dict json) := if json_truthy j then as_dict j else mret [].
Definition jiter (j : json) : IO (list json) :=
  match j with
  | J_list l => mret l
  | J_dict d => mret (J_str <$> dkeys d)
  | J_str s => mret ((λ c, J_str (String c EmptyString)) <$> String.list_ascii_of_string s)
  | _ => raise (TypeError "not iterable")
  end.
Definition or_list (j : json) : IO (list json) := if json_truthy j then jiter j else mret [].
Definition as_num (j : json) : IO Q := match j with J_num q => mret q | _ => raise (TypeError "number") end.
Definition or_num (j : json) (q : Q) : IO Q := if json_truthy j then as_num j else mret q.
Definition as_str (j : json) : IO string := match j with J_str s => mret s | _ => raise (TypeError "str") end.
(** [sorted({...})] of strings *)
Definition sorted_set (l : list string) : list string := sorted String.leb (remove_dups l).
Definition q_sum (l : list Q) : Q := foldr Qplus 0%Q l.

(** ** Where the other processes are *)
Definition env_url : IO string := u ← getenv "NOCP_NICO_URL"; mret (default EmptyString u).
Definition NICO_BASE : IO string :=
  u ← env_url;
  if truthy_str u then mret (before_last "/nico-bridge" u)
  else n ← getenv "NICO_EMULATOR_URL"; mret (default "http://127.0.0.1:9000" n).
Definition AI_INFRA_BASE : IO string := u ← getenv "AI_INFRA_URL"; mret (default "http://127.0.0.1:9100" u).
Definition CONSOLE_BASE : IO string := u ← getenv "NC_CONSOLE_URL"; mret (default "http://127.0.0.1:8090" u).
Definition _adapter_mode : IO string := u ← env_url; mret (if truthy_str u then "http" else "local").

(** The result of [_probe]; [pr_body] is null when there is no JSON body *)
Record Probe := mkProbe { pr_reachable : bool; pr_latency_ms : Q; pr_body : json }.
Record NicoStatus := mkNicoStatus {
  ns_adapter_mode : string; ns_adapter_active : bool; ns_nico_url : string; ns_bridge_url : string;
  ns_reachable : bool; ns_latency_ms : Q; ns_version : json; ns_sites : list json; ns_managed_hosts : Q;
  ns_active_jobs : Q; ns_tenants : list string; ns_rack : json; ns_compute_trays : json;
  ns_gpus : option Q; ns_dpus : json; ns_ai_infra_reachable : bool
}.

Section remote.
Context (probe : string → IO Probe).

(** ** [nico_status] *)
Definition nico_status : IO NicoStatus :=
  base ← NICO_BASE;
  health ← probe (base +:+ "/healthz");
  hb ← or_dict (pr_body health);
  ai ← or_dict (jget hb "ai_infra");
  sites ← (if pr_reachable health then p ← probe (base +:+ "/emulator/v1/sites"); or_dict (pr_body p)
           else mret []);
  sb ← or_list (jget sites "sites");
  orch ← map_m (λ s, d ← as_dict s; or_dict (jget d "orchestration")) sb;
  served ← map_m (λ o, l ← or_list (jget o "tenants_served"); map_m as_str l) orch;
  let trays := jget ai "compute_trays" in
  mode ← _adapter_mode;
  url ← env_url;
  ids ← map_m (λ s, d ← as_dict s; mret (jget d "site_id")) sb;
  hosts ← map_m (λ o, or_num (jget o "managed_hosts") 0) orch;
  jobs ← map_m (λ o, or_num (jget o "active_jobs") 0) orch;
  gpus ← (if json_truthy trays then n ← as_num trays; mret (Some (n * 4)%Q) else mret None);
  mret (mkNicoStatus mode (String.eqb mode "http") base
          (if truthy_str url then url else base +:+ "/nico-bridge") (pr_reachable health)
          (pr_latency_ms health) (jget hb "version") ids (q_sum hosts) (q_sum jobs)
          (sorted_set (concat served)) (jget ai "rack") trays gpus (jget ai "dpus")
          (json_truthy (jget ai "reachable"))).

(** ** The planes behind the twin

    [describe] is the status that a plane's answer means; [None] when reading the
    answer fails, which is caught. *)
Definition dict_of (j : json) : option (dict json) := match j with J_dict d => Some d | _ => None end.
Definition sized (j : json) : bool := match j with J_list _ | J_dict _ | J_str _ => true | _ => false end.
Definition describe_ufm (b : json) : option string :=
  d ← dict_of b;
  let st := if json_truthy (jget d "links_degraded") || json_truthy (jget d "links_down") then "unknown" else "up" in
  sw ← dget d "switches" ≫= dict_of;
  _ ← dget sw "total";
  _ ← dget d "links_active";
  _ ← dget d "links_total";
  Some st.
Definition describe_netq (b : json) : option string :=
  d ← dict_of b;
  s ← dget d "summary" ≫= dict_of;
  Some (if json_truthy (jget s "fail") || json_truthy (jget s "warn") then "unknown" else "up").
Definition describe_dlc (b : json) : option string :=
  match b with
  | J_list l =>
      alarms ← mapM (λ c, (λ d, jget d "alarms") <$> dict_of c) l;
      if allb (λ a, negb (json_truthy a) || sized a) alarms
      then Some (if anyb json_truthy alarms then "unknown" else "up") else None
  | J_dict [] | J_str EmptyString => Some "up"
  | _ => None
  end.
Definition describe_vast (b : json) : option string :=
  d ← dict_of b;
  let c := jget_or d "clusters" b in
  if negb (json_truthy c) || sized c then Some "up" else None.
Definition describe_converged (b : json) : option string := Some "up".
Definition PLANES : list (string * string * (json → option string)) :=
  [("ufm", "/ufm/v1/fabric/health", describe_ufm); ("netq", "/netq/v1/validation", describe_netq);
   ("dlc", "/emulator/v1/obs/dlc/cdus", describe_dlc); ("vast", "/vast/v1/clusters", describe_vast);
   ("converged", "/converged/v1/overview", describe_converged)].
Definition plane_status (up : bool) (path : string) (describe : json → option string) : IO string :=
  if up then
    ai ← AI_INFRA_BASE;
    p ← probe (ai +:+ path);
    mret (if pr_reachable p then default "unknown" (describe (pr_body p)) else "down")
  else mret "down".
Definition _component_nodes (up : bool) : IO (dict string) :=
  map_m (λ '(cid, path, describe), st ← plane_status up path describe; mret (cid, st)) PLANES.

(** ** [topology]: the nodes with their status, and the edges *)
Record Edge := mkEdge { ed_from : string; ed_to : string; ed_status : string }.
Definition twin_state (up : bool) (ob : dict json) : IO string :=
  let racks_off := jget ob "racks_off" in
  let alerts := jget ob "alerts_open" in
  if up && (json_truthy racks_off || json_truthy alerts) then
    off ← or_num racks_off 0;
    racks ← or_num (jget ob "racks") 140;
    mret (if Qle_bool racks off then "down" else "unknown")
  else mret (if up then "up" else "unknown").
Definition edge_status (st : string) : string := if String.eqb st "unknown" then "up" else st.
Definition plane_edge : list (string * string) :=
  [("ufm", "twin"); ("netq", "twin"); ("dlc", "twin"); ("converged", "vast")].
Definition topology : IO (dict string * list Edge * NicoStatus) :=
  nico ← nico_status;
  let up := ns_reachable nico in
  ai ← AI_INFRA_BASE;
  ob ← (if up then p ← probe (ai +:+ "/emulator/v1/obs/summary"); or_dict (pr_body p) else mret []);
  _ ← or_dict (jget ob "gpus");
  _ ← (if up then as_dict (jget_or ob "cooling" (J_dict [])) else mret []);
  twin ← twin_state up ob;
  console ← CONSOLE_BASE;
  con ← probe (console +:+ "/ops/");
  let con_st := if pr_reachable con then "up" else "down" in
  let up_st := if up then "up" else "down" in
  comps ← _component_nodes up;
  let plane cid := edge_status (default "down" (dget comps cid)) in
  let nodes := [("twin", twin); ("nico", up_st); ("cp", "up"); ("customer", con_st); ("ops", con_st); ("biz", con_st)]
               ++ comps in
  let edges := [mkEdge "cp" "nico" (if ns_adapter_active nico then up_st else "local");
                mkEdge "customer" "cp" con_st; mkEdge "ops" "cp" con_st; mkEdge "biz" "cp" con_st;
                mkEdge "nico" "twin" up_st]
               ++ ((λ '(cid, dst), mkEdge cid dst (plane cid)) <$> plane_edge)
               ++ [mkEdge "twin" "converged" (plane "converged")] in
  mret (nodes, edges, nico).
End remote.

(** ** [consistency]: the tenants of each layer

    [get url] is the JSON of an answer below 400, [None] for anything else. *)
Record Finding := mkFinding { fi_severity : string; fi_kind : string; fi_layer : string; fi_tenants : list string }.
Record Consistency := mkConsistency {
  cs_ok : bool; cs_adapter : string; cs_nocp : list string; cs_nico : option (list string);
  cs_ai : option (list string); cs_findings : list Finding; cs_generated_at : string
}.
Definition holders (s : Store) : list string :=
  sorted_set ((al_tenant_id <$> dvalues (st_allocations s))
              ++ filterb truthy_str (omap cn_tenant_id (dvalues (st_cpu_nodes s)))).
Definition compare (adapter : string) (nocp : list string) (name : string) (remote : option (list string)) : list Finding :=
  match remote with
  | None => [mkFinding "warn" "UNREACHABLE" name []]
  | Some remote =>
      let orphan := filterb (λ t, negb (memb t nocp)) remote in
      let missing := filterb (λ t, negb (memb t remote)) nocp in
      (match orphan with [] => [] | _ => [mkFinding "fail" "ORPHAN_TENANT" name orphan] end)
      ++ (match missing with
          | [] => []
          | _ => if String.eqb adapter "http" then [mkFinding "warn" "MISSING_TENANT" name missing] else []
          end)
  end.
Section consistency.
Context (get : string → IO (option json)).
Definition segment_tenants (j : json) : IO (list string) :=
  match j with
  | J_list segs =>
      refs ← map_m (λ s, d ← as_dict s; mret (jget d "tenant_ref")) segs;
      names ← map_m as_str (filterb json_truthy refs);
      mret (sorted_set names)
  | _ => mret []
  end.
Definition is_list (j : json) : bool := match j with J_list _ => true | _ => false end.
Definition consistency : IO Consistency :=
  s ← store;
  let nocp := holders s in
  url ← env_url;
  nico_base ← NICO_BASE;
  ai_base ← AI_INFRA_BASE;
  let adapter := if truthy_str url then "http" else "local" in
  segs ← get (nico_base +:+ "/nico-bridge/segments");
  nico ← (match segs with
          | Some j => if is_list j then l ← segment_tenants j; mret (Some l) else mret None
          | None => mret None
          end);
  twin ← get (ai_base +:+ "/emulator/v1/twin");
  ai ← (match twin with
        | Some (J_dict d) => l ← or_list (jget d "tenants"); names ← map_m as_str l;
                             mret (Some (sorted String.leb names))
        | _ => mret None
        end);
  let findings := (if String.eqb adapter "local" then [mkFinding "info" "ADAPTER_LOCAL" EmptyString []] else [])
                  ++ compare adapter nocp "nico_emulator" nico ++ compare adapter nocp "ai_infra" ai in
  at_ ← now;
  mret (mkConsistency (negb (anyb (λ f, String.eqb (fi_severity f) "fail") findings)) adapter nocp nico ai findings at_).
End consistency.

(** ** [module_stats]: the activity of the control plane's modules *)
(** The cache of [_twin_summary]: when it was filled, and with what *)
Record TwinCache := mkTwinCache { tc_at : Q; tc_data : option (dict json) }.
Definition empty_cache : TwinCache := mkTwinCache 0 None.
Section stats.
Context (probe : string → IO Probe).
Definition _twin_summary (cache : TwinCache) (now : Q) : IO TwinCache :=
  if negb (Qle_bool 5 (now - tc_at cache)) then mret cache
  else
    ai ← AI_INFRA_BASE;
    p ← probe (ai +:+ "/emulator/v1/obs/summary");
    mret (mkTwinCache now
            (match pr_reachable p, pr_body p with
             | true, J_dict b => Some ((λ k, (k, jget b k)) <$> ["alerts_open"; "racks_off"; "racks"; "tenants"])
             | _, _ => None
             end)).
(** One event of [_trace_supplement]; a time stamp that does not parse is skipped. *)
Definition supplement_event (parse : string → option Q) (acc : dict Z * dict Q) (ev : TraceEvent) : dict Z * dict Q :=
  let '(counts, last) := acc in
  match Metrics.module_for_trace_src (te_src ev) with
  | None => acc
  | Some mid =>
      (dset counts mid (default 0%Z (dget counts mid) + 1)%Z,
       match parse (te_at ev) with Some t => dset last mid t | None => last end)
  end.
Definition _trace_supplement : IO (dict Z * dict Q) :=
  evs ← Trace.query None None None 0 2000;
  gets (λ w, foldl (supplement_event (env_fromiso (w_env w))) ([], []) evs).
Definition module_row (now : Q) (sup : dict Z * dict Q) (d : Metrics.ModuleStat) : Metrics.ModuleStat :=
  let mid := Metrics.ms_id d in
  let last_s := match dget sup.2 mid with
                | Some st => let sup_s := round_q 10 (now - st) in
                             Some (match Metrics.ms_last_active_s d with
                                   | Some l => if Qle_bool l sup_s then l else sup_s
                                   | None => sup_s
                                   end)
                | None => Metrics.ms_last_active_s d
                end in
  Metrics.mkStat mid (Metrics.ms_calls d + default 0%Z (dget sup.1 mid)) (Metrics.ms_eps d) last_s.
Definition terminal : list OrderState := [OS_delivered; OS_closed; OS_rejected; OS_failed].
Definition inflight : list OrderState := [OS_provisioning; OS_isolating; OS_storage_binding; OS_k8s_installing].
Definition in_set (l : list OrderState) (o : ServiceOrder) : bool := bool_decide (o_state o ∈ l).
Record Totals := mkTotals {
  to_calls : Z; to_eps : Q; to_active_orders : Z; to_active_jobs : Z; to_tenants : Z; to_pipeline_events : Z
}.
Record ModuleStats := mkModuleStats { mo_modules : list Metrics.ModuleStat; mo_totals : Totals; mo_twin : option (dict json) }.
Definition read_snapshot (now : Q) : M Process (list Metrics.ModuleStat * Z * Q) :=
  λ p, let '(c, r) := Metrics.snapshot now (p_metrics p) in (Ok r, mkProcess (p_world p) c).
Definition module_stats (cache : TwinCache) (now : Q) : M Process (ModuleStats * TwinCache) :=
  '(snap, grand_total, grand_eps) ← read_snapshot now;
  sup ← on_world _trace_supplement;
  s ← on_world store;
  events ← on_world Trace.count;
  cache ← on_world (_twin_summary cache now);
  let orders := dvalues (st_orders s) in
  mret (mkModuleStats (module_row now sup <$> snap)
          (mkTotals grand_total grand_eps
             (Z.of_nat (length (filterb (λ o, negb (in_set terminal o)) orders)))
             (Z.of_nat (length (filterb (in_set inflight) orders)))
             (Z.of_nat (length (holders s))) (Z.of_nat events)) (tc_data cache), cache).
End stats.
End Integration.
