(* ===== verification/IntegrationThms.v ===== *)
(** * Integration status: theorems

    The comparison of the layers reports exactly the tenants that a layer and the
    control plane do not agree on, and the module statistics count every event. *)
From Stdlib Require Import QArith Ascii.
From stdpp Require Import strings base decidable option numbers list relations.
From S2P Require Import Prelude PyLib Models PortalModels World Trace Metrics Demo Assembly Integration.
Local Open Scope string_scope.
Local Open Scope list_scope.
Local Open Scope py_scope.

Module IntegrationThms.
Import Metrics Assembly Integration.

Lemma elem_of_sorted_set x l : x ∈ sorted_set l ↔ x ∈ l.
Proof. unfold sorted_set. by rewrite elem_of_sorted, elem_of_remove_dups. Qed.
Lemma sorted_set_nodup l : NoDup (sorted_set l).
Proof. unfold sorted_set. rewrite sorted_perm. apply NoDup_remove_dups. Qed.
(** A tenant that holds a rack or a CPU node *)
Definition holds_something (s : Store) (t : string) : Prop :=
  (∃ a, a ∈ dvalues (st_allocations s) ∧ al_tenant_id a = t)
  ∨ (t ≠ EmptyString ∧ ∃ c, c ∈ dvalues (st_cpu_nodes s) ∧ cn_tenant_id c = Some t).
Lemma truthy_nonempty t : truthy_str t = true ↔ t ≠ EmptyString.
Proof. unfold truthy_str. by destruct t. Qed.
Lemma elem_of_holders s t : t ∈ holders s ↔ holds_something s t.
Proof.
  unfold holders, holds_something. rewrite elem_of_sorted_set, elem_of_app, elem_of_filterb, truthy_nonempty.
  rewrite list_elem_of_fmap, list_elem_of_omap. naive_solver.
Qed.

(** ** What one layer contributes *)
Definition orphans (nocp l : list string) : list string := filterb (λ t, negb (memb t nocp)) l.
Lemma orphans_nil nocp l : orphans nocp l = [] ↔ l ⊆ nocp.
Proof.
  unfold orphans. split.
  - intros E t Ht. destruct (memb t nocp) eqn:Em; [by apply memb_spec|].
    assert (t ∈ filterb (λ t, negb (memb t nocp)) l) as H by (apply elem_of_filterb; by rewrite Em).
    rewrite E in H. by apply elem_of_nil in H.
  - intros Hs. destruct (filterb _ l) as [|t k] eqn:E; [done|]. exfalso.
    assert (t ∈ filterb (λ t, negb (memb t nocp)) l) as [Ht Hm]%elem_of_filterb by (rewrite E; left).
    apply Hs, memb_spec in Ht. by rewrite Ht in Hm.
Qed.
Definition failing (f : Finding) : bool := String.eqb (fi_severity f) "fail".
Lemma compare_fails adapter nocp name remote :
  anyb failing (compare adapter nocp name remote) = false ↔ ∀ l, remote = Some l → l ⊆ nocp.
Proof.
  destruct remote as [l|]; cbn [compare]; [|split; [by intros _ l|done]].
  fold (orphans nocp l). transitivity (orphans nocp l = []).
  - destruct (orphans nocp l) as [|t k]; [|done].
    destruct (filterb _ nocp); [done|]. by destruct (String.eqb adapter "http").
  - rewrite orphans_nil. split; [by intros H l' [= <-]|]. intros H. by apply H.
Qed.
Lemma anyb_app {A} (p : A → bool) l k : anyb p (l ++ k) = anyb p l || anyb p k.
Proof. apply eq_iff_eq_true. rewrite orb_true_iff, !anyb_spec. setoid_rewrite elem_of_app. naive_solver. Qed.

(** *** A layer as its process answers, and what the report says of it *)
Record layer_reported (fs : list Finding) (name : string) (http answered : Prop) (knows holds : string → Prop) : Prop := {
  lr_unreachable : (∃ f, f ∈ fs ∧ fi_layer f = name ∧ fi_kind f = "UNREACHABLE") ↔ ¬ answered;
  lr_orphans t : (∃ f, f ∈ fs ∧ fi_layer f = name ∧ fi_kind f = "ORPHAN_TENANT" ∧ fi_severity f = "fail" ∧ t ∈ fi_tenants f)
                 ↔ knows t ∧ ¬ holds t;
  lr_missing t : (∃ f, f ∈ fs ∧ fi_layer f = name ∧ fi_kind f = "MISSING_TENANT" ∧ fi_severity f = "warn" ∧ t ∈ fi_tenants f)
                 ↔ http ∧ answered ∧ holds t ∧ ¬ knows t
}.
Lemma compare_layer adapter nocp name remote f : f ∈ compare adapter nocp name remote → fi_layer f = name.
Proof.
  destruct remote as [l|]; cbn [compare]; [|by intros ->%list_elem_of_singleton].
  intros [H|H]%elem_of_app; repeat case_match; first [by apply elem_of_nil in H|by apply list_elem_of_singleton in H as ->].
Qed.
(** The one finding of a part of the comparison, when its list is not empty *)
Definition part (P : bool) sev kind name (l : list string) : list Finding :=
  if P then match l with [] => [] | _ => [mkFinding sev kind name l] end else [].
Lemma elem_of_part P sev kind name l f : f ∈ part P sev kind name l ↔ P = true ∧ l ≠ [] ∧ f = mkFinding sev kind name l.
Proof.
  unfold part. destruct P; [|by split; [intros ?%elem_of_nil|intros (? & _)]].
  destruct l as [|x l]; [by split; [intros ?%elem_of_nil|naive_solver]|]. rewrite list_elem_of_singleton. naive_solver.
Qed.
Lemma compare_parts adapter nocp name l :
  compare adapter nocp name (Some l)
  = part true "fail" "ORPHAN_TENANT" name (orphans nocp l)
    ++ part (String.eqb adapter "http") "warn" "MISSING_TENANT" name (orphans l nocp).
Proof.
  cbn [compare part]. unfold orphans. f_equal. destruct (filterb _ nocp); [by destruct (String.eqb _ _)|].
  by destruct (String.eqb _ _).
Qed.
Lemma part_member P sev kind name l t :
  (∃ f, f ∈ part P sev kind name l ∧ t ∈ fi_tenants f) ↔ P = true ∧ t ∈ l.
Proof.
  setoid_rewrite elem_of_part. split; [by intros (f & (? & _ & ->) & ?)|]. intros [-> Ht].
  exists (mkFinding sev kind name l). split; [|done]. split_and!; try done. intros ->. by apply elem_of_nil in Ht.
Qed.
Lemma elem_of_orphans nocp l t : t ∈ orphans nocp l ↔ t ∈ l ∧ t ∉ nocp.
Proof. unfold orphans. by rewrite elem_of_filterb, negb_true_iff, memb_false. Qed.
Section compare.
Context (adapter : string) (nocp : list string) (name : string) (remote : option (list string)).
Local Abbreviation found := (compare adapter nocp name remote).
Lemma compare_unreachable : (∃ f, f ∈ found ∧ fi_kind f = "UNREACHABLE") ↔ remote = None.
Proof.
  destruct remote as [l|].
  - split; [|done]. rewrite compare_parts. by intros (f & [(_ & _ & ->)%elem_of_part|(_ & _ & ->)%elem_of_part]%elem_of_app & ?).
  - split; [done|]. intros _. exists (mkFinding "warn" "UNREACHABLE" name []). split; [left|done].
Qed.
Lemma compare_orphan t :
  (∃ f, f ∈ found ∧ fi_kind f = "ORPHAN_TENANT" ∧ fi_severity f = "fail" ∧ t ∈ fi_tenants f)
  ↔ ∃ l, remote = Some l ∧ t ∈ l ∧ t ∉ nocp.
Proof.
  destruct remote as [l|].
  - rewrite compare_parts. split.
    + intros (f & [(_ & _ & ->)%elem_of_part|(_ & _ & ->)%elem_of_part]%elem_of_app & Hk & _ & Ht); [|done].
      exists l. by apply elem_of_orphans in Ht.
    + intros (? & [= <-] & Ht%elem_of_orphans).
      destruct (proj2 (part_member true "fail" "ORPHAN_TENANT" name (orphans nocp l) t)) as (f & Hf & Hm); [done|].
      exists f. split; [apply elem_of_app; by left|]. by apply elem_of_part in Hf as (_ & _ & ->).
  - split; [|by intros (? & ? & _)]. by intros (f & ->%list_elem_of_singleton & ? & _).
Qed.
Lemma compare_missing t :
  (∃ f, f ∈ found ∧ fi_kind f = "MISSING_TENANT" ∧ fi_severity f = "warn" ∧ t ∈ fi_tenants f)
  ↔ adapter = "http" ∧ ∃ l, remote = Some l ∧ t ∈ nocp ∧ t ∉ l.
Proof.
  destruct remote as [l|].
  - rewrite compare_parts. split.
    + intros (f & [(_ & _ & ->)%elem_of_part|(E & _ & ->)%elem_of_part]%elem_of_app & Hk & _ & Ht); [done|].
      apply String.eqb_eq in E. apply elem_of_orphans in Ht. eauto.
    + intros (E%String.eqb_eq & ? & [= <-] & Ht%elem_of_orphans).
      destruct (proj2 (part_member (String.eqb adapter "http") "warn" "MISSING_TENANT" name (orphans l nocp) t)) as (f & Hf & Hm); [done|].
      exists f. split; [apply elem_of_app; by right|]. by apply elem_of_part in Hf as (_ & _ & ->).
  - split; [|by intros (_ & ? & ? & _)]. by intros (f & ->%list_elem_of_singleton & ? & _).
Qed.
Lemma compare_reported fs (http answered : Prop) knows holds :
  (adapter = "http" ↔ http) →
  (∀ f, fi_layer f = name → f ∈ fs ↔ f ∈ found) →
  (is_Some remote ↔ answered) → (∀ l, remote = Some l → ∀ t, t ∈ l ↔ knows t) → (∀ t, knows t → answered) →
  (∀ t, t ∈ nocp ↔ holds t) →
  layer_reported fs name http answered knows holds.
Proof.
  intros Hhttp Hfs Ha Hk Hka Hh.
  assert (∀ Q : Finding → Prop, (∃ f, f ∈ fs ∧ fi_layer f = name ∧ Q f) ↔ ∃ f, f ∈ found ∧ Q f) as Hall.
  { intros Q. split; intros (f & Hf & Hq).
    - exists f. destruct Hq as [Hl Hq]. split; [by apply Hfs|done].
    - pose proof (compare_layer _ _ _ _ _ Hf). exists f. split_and!; [by apply Hfs|done..]. }
  split; [|intros t..]; rewrite Hall.
  - rewrite compare_unreachable, <- Ha. destruct remote; [|by split; [intros _ []|]]. split; [done|]. intros []. by eexists.
  - rewrite compare_orphan, <- Hh. split.
    + intros (l & E & Ht & Hn). split; [by apply (Hk l)|done].
    + intros [Hkt Hn]. destruct (proj2 Ha (Hka _ Hkt)) as [l E]. exists l. by rewrite (Hk l E).
  - rewrite compare_missing, <- Hh, <- Ha, Hhttp. split.
    + intros (? & l & E & Ht & Hn). rewrite <- (Hk l E). split_and!; try done; by exists l.
    + intros (? & [l E] & Ht & Hn). split; [done|]. exists l. by rewrite (Hk l E).
Qed.
End compare.

(** *** What the processes answer

    The segments of the NICo emulator name their tenants in [tenant_ref], which may
    be missing or null; the twin lists the tenants of its attachments. *)
Definition setting (w : World) (name dflt : string) : string := default dflt (env_var (w_env w) name).
Definition segments_url (w : World) : string :=
  (if String.eqb (setting w "NOCP_NICO_URL" "") "" then setting w "NICO_EMULATOR_URL" "http://127.0.0.1:9000"
   else before_last "/nico-bridge" (setting w "NOCP_NICO_URL" "")) +:+ "/nico-bridge/segments".
Definition twin_url (w : World) : string := setting w "AI_INFRA_URL" "http://127.0.0.1:9100" +:+ "/emulator/v1/twin".
Definition nico_answered (ans : option json) : Prop := ∃ segs, ans = Some (J_list segs).
Definition nico_knows (ans : option json) (t : string) : Prop :=
  ∃ segs d, ans = Some (J_list segs) ∧ J_dict d ∈ segs ∧ dget d "tenant_ref" = Some (J_str t) ∧ t ≠ "".
Definition twin_answered (ans : option json) : Prop := ∃ d, ans = Some (J_dict d).
Definition twin_knows (ans : option json) (t : string) : Prop :=
  ∃ d ts, ans = Some (J_dict d) ∧ dget d "tenants" = Some (J_list ts) ∧ J_str t ∈ ts.
(** The documents have the types their processes give them. *)
Definition segment_typed (j : json) : Prop :=
  ∃ d, j = J_dict d ∧ (jget d "tenant_ref" = J_null ∨ ∃ t, dget d "tenant_ref" = Some (J_str t)).
Definition nico_typed (ans : option json) : Prop :=
  ∀ segs, ans = Some (J_list segs) → ∀ j, j ∈ segs → segment_typed j.
Definition twin_typed (ans : option json) : Prop :=
  ∀ d, ans = Some (J_dict d) → jget d "tenants" = J_null ∨ ∃ ts : list string, dget d "tenants" = Some (J_list (J_str <$> ts)).

Definition str_of (j : json) : string := match j with J_str s => s | _ => EmptyString end.
Definition ref_of (j : json) : json := match j with J_dict d => jget d "tenant_ref" | _ => J_null end.
Lemma ref_typed segs j :
  (∀ s, s ∈ segs → segment_typed s) → j ∈ filterb json_truthy (ref_of <$> segs) →
  ∃ d t, J_dict d ∈ segs ∧ dget d "tenant_ref" = Some (J_str t) ∧ t ≠ "" ∧ j = J_str t.
Proof.
  intros Ht [(x & -> & Hx)%list_elem_of_fmap Hj]%elem_of_filterb.
  destruct (Ht x Hx) as (d & -> & [E|[t E]]); cbn in Hj.
  - by rewrite E in Hj.
  - unfold jget in Hj. rewrite E in Hj. cbn in Hj. exists d, t. split_and!; try done; [by apply truthy_nonempty|].
    cbn. unfold jget. by rewrite E.
Qed.
Lemma segment_tenants_run segs w :
  (∀ s, s ∈ segs → segment_typed s) →
  ∃ l, segment_tenants (J_list segs) w = (Ok l, w) ∧ ∀ t, t ∈ l ↔ nico_knows (Some (J_list segs)) t.
Proof.
  intros Ht. unfold segment_tenants.
  erewrite bind_ok; [|apply (map_m_pure _ ref_of); intros x Hx; by destruct (Ht x Hx) as (d & -> & _)]. cbv beta.
  erewrite bind_ok; [|apply (map_m_pure as_str str_of); intros x Hx; by destruct (ref_typed _ _ Ht Hx) as (d & t & _ & _ & _ & ->)].
  eexists. split; [done|]. intros t. rewrite elem_of_sorted_set, list_elem_of_fmap. split.
  - intros (j & -> & Hj). destruct (ref_typed _ _ Ht Hj) as (d & t & Hd & E & Hne & ->). by exists segs, d.
  - intros (segs' & d & [= <-] & Hd & E & Hne). exists (J_str t). split; [done|]. apply elem_of_filterb.
    split; [|by apply truthy_nonempty]. apply list_elem_of_fmap. exists (J_dict d). cbn. unfold jget. by rewrite E.
Qed.
Lemma twin_tenants_run d w :
  twin_typed (Some (J_dict d)) →
  ∃ l, (l ← or_list (jget d "tenants"); map_m as_str l) w = (Ok l, w) ∧ ∀ t, t ∈ l ↔ twin_knows (Some (J_dict d)) t.
Proof.
  intros Ht. destruct (Ht d eq_refl) as [E|[ts E]].
  - rewrite E. exists []. split; [done|]. intros t. split; [by intros ?%elem_of_nil|].
    intros (d' & ts & [= <-] & E' & _). unfold jget in E. by rewrite E' in E.
  - unfold jget. rewrite E. cbn [default]. exists ts. split.
    + unfold or_list. destruct ts as [|t ts]; [done|]. cbn [json_truthy fmap list_fmap].
      change (map_m as_str (J_str <$> t :: ts) w = (Ok (t :: ts), w)).
      rewrite (map_m_pure as_str str_of); [|by intros ? (x & -> & _)%list_elem_of_fmap].
      by rewrite <- list_fmap_compose, list_fmap_id.
    + intros t. split.
      * intros Hin. exists d, (J_str <$> ts). split_and!; [done|done|]. by apply list_elem_of_fmap_2.
      * intros (d' & ts' & [= <-] & E' & Hin). rewrite E in E'. injection E' as <-.
        by apply list_elem_of_fmap in Hin as (x & [= ->] & Hx).
Qed.
Definition nico_side (ans : option json) : IO (option (list string)) :=
  match ans with
  | Some j => if is_list j then l ← segment_tenants j; mret (Some l) else mret None
  | None => mret None
  end.
Definition twin_side (ans : option json) : IO (option (list string)) :=
  match ans with
  | Some (J_dict d) => l ← or_list (jget d "tenants"); names ← map_m as_str l; mret (Some (sorted String.leb names))
  | _ => mret None
  end.
Lemma nico_side_run ans w :
  nico_typed ans →
  ∃ side, nico_side ans w = (Ok side, w) ∧ (is_Some side ↔ nico_answered ans)
    ∧ ∀ l, side = Some l → ∀ t, t ∈ l ↔ nico_knows ans t.
Proof.
  intros Ht. destruct ans as [[]|]; try by (exists None; split_and!; [done|split; [intros []|intros [? ?]]; done|done]).
  destruct (segment_tenants_run l w (Ht l eq_refl)) as (k & E & Hk). exists (Some k).
  cbn [nico_side is_list]. rewrite (bind_ok _ _ _ _ _ E). split_and!; [done|..].
  - split; [intros _; by exists l|intros _; by eexists].
  - by intros ? [= <-].
Qed.
Lemma twin_side_run ans w :
  twin_typed ans →
  ∃ side, twin_side ans w = (Ok side, w) ∧ (is_Some side ↔ twin_answered ans)
    ∧ ∀ l, side = Some l → ∀ t, t ∈ l ↔ twin_knows ans t.
Proof.
  intros Ht. destruct ans as [[]|]; try by (exists None; split_and!; [done|split; [intros []|intros [? ?]]; done|done]).
  destruct (twin_tenants_run d w Ht) as (k & E & Hk). exists (Some (sorted String.leb k)). split_and!.
  - apply bind_inv in E as (l & w1 & E1 & E2). cbn [twin_side]. rewrite (bind_ok _ _ _ _ _ E1). cbv beta.
    by rewrite (bind_ok _ _ _ _ _ E2).
  - split; [intros _; by exists d|intros _; by eexists].
  - intros ? [= <-] t. rewrite elem_of_sorted. apply Hk.
Qed.

Section consistency.
Context (get : string → IO (option json)) (get_quiet : ∀ u, Steps (same w_store) (get u)).
Context (answers : string → option json) (get_answers : ∀ u w, (get u w).1 = Ok (answers u)).
(** C27: The consistency panel tells the truth.  Let the NICo emulator and the AI
    twin answer with documents of their types, or not at all.  Then the panel
    returns and changes nothing.  The control plane's side is, without repetition,
    the tenants that hold a rack or a CPU node; a layer's side is exactly the
    tenants that some segment, or the twin's list, names.  It is ok exactly when
    every tenant that a layer knows holds something; and for each layer it reports,
    as unreachable, that the layer did not answer; as orphans exactly the tenants of
    the layer that hold nothing; and as missing, in HTTP mode only, exactly the
    holders that a layer which answered does not know. *)
Theorem consistency_spec w :
  let nico := answers (segments_url w) in
  let twin := answers (twin_url w) in
  let holds := holds_something (w_store w) in
  let http := setting w "NOCP_NICO_URL" "" ≠ "" in
  nico_typed nico → twin_typed twin →
  ∃ r w', consistency get w = (Ok r, w') ∧ w_store w' = w_store w
  ∧ NoDup (cs_nocp r) ∧ (∀ t, t ∈ cs_nocp r ↔ holds t)
  ∧ (is_Some (cs_nico r) ↔ nico_answered nico) ∧ (∀ l, cs_nico r = Some l → ∀ t, t ∈ l ↔ nico_knows nico t)
  ∧ (is_Some (cs_ai r) ↔ twin_answered twin) ∧ (∀ l, cs_ai r = Some l → ∀ t, t ∈ l ↔ twin_knows twin t)
  ∧ (cs_ok r = true ↔ ∀ t, nico_knows nico t ∨ twin_knows twin t → holds t)
  ∧ layer_reported (cs_findings r) "nico_emulator" http (nico_answered nico) (nico_knows nico) holds
  ∧ layer_reported (cs_findings r) "ai_infra" http (twin_answered twin) (twin_knows twin) holds.
Proof.
  intros nico twin holds http Hnt Htt.
  assert (∀ t, t ∈ holders (w_store w) ↔ holds t) as Hh by (intros; apply elem_of_holders).
  unfold consistency. erewrite (bind_ok store); [|reflexivity]. cbv beta zeta.
  erewrite (bind_ok env_url); [|reflexivity].
  assert (∃ b, NICO_BASE w = (Ok b, w) ∧ b +:+ "/nico-bridge/segments" = segments_url w) as (nb & Enb & Esu).
  { unfold NICO_BASE, env_url, segments_url, setting, getenv. run. cbv beta.
    destruct (truthy_str (default EmptyString (env_var (w_env w) "NOCP_NICO_URL"))) eqn:Eu.
    - apply truthy_nonempty, String.eqb_neq in Eu. rewrite Eu. by eexists.
    - unfold truthy_str in Eu. apply negb_false_iff in Eu. rewrite Eu. by eexists. }
  rewrite (bind_ok _ _ _ _ _ Enb). erewrite (bind_ok AI_INFRA_BASE); [|reflexivity]. cbv beta zeta. rewrite Esu.
  change (default _ (env_var (w_env w) "AI_INFRA_URL") +:+ _) with (twin_url w).
  rewrite (bind_ok _ _ _ _ _ (ok_run _ _ _ (get_answers (segments_url w) w))). fold nico. set (w1 := (get (segments_url w) w).2).
  destruct (nico_side_run nico w1 Hnt) as (ns & En & Han & Hn). unfold nico_side in En. rewrite (bind_ok _ _ _ _ _ En). cbv beta.
  rewrite (bind_ok _ _ _ _ _ (ok_run _ _ _ (get_answers (twin_url w) w1))). fold twin. set (w2 := (get (twin_url w) w1).2).
  destruct (twin_side_run twin w2 Htt) as (ts & Et & Hat & Ht). unfold twin_side in Et. rewrite (bind_ok _ _ _ _ _ Et). cbv beta.
  set (adapter := if truthy_str _ then "http" else "local").
  assert (adapter = "http" ↔ http) as Hhttp.
  { unfold adapter, http, setting. destruct (truthy_str _) eqn:Eu.
    - apply truthy_nonempty in Eu. by split.
    - unfold truthy_str in Eu. apply negb_false_iff, String.eqb_eq in Eu. rewrite Eu. by split. }
  set (head := if String.eqb adapter "local" then [_] else []).
  assert (∀ f, f ∈ head → fi_layer f = "" ∧ failing f = false) as Hhead.
  { intros f. unfold head. destruct (String.eqb adapter "local"); [by intros ->%list_elem_of_singleton|by intros ?%elem_of_nil]. }
  eexists _, _. split; [reflexivity|]. cbn [cs_nocp cs_ok cs_nico cs_ai cs_findings]. split_and!; try done.
  - pose proof (get_quiet (segments_url w) w) as Q1. pose proof (get_quiet (twin_url w) w1) as Q2. unfold same in *.
    cbn. subst w1 w2. congruence.
  - apply sorted_set_nodup.
  - fold failing. rewrite negb_true_iff, !anyb_app, !orb_false_iff, !compare_fails.
    assert (anyb failing head = false) as -> by (apply anyb_false; intros f Hf; by apply Hhead).
    split.
    + intros (_ & H1 & H2) t [Hk|Hk]; apply Hh.
      * destruct (proj2 Han) as [l E]; [destruct Hk as (segs & _ & -> & _); by exists segs|]. apply (H1 l E), (Hn l E), Hk.
      * destruct (proj2 Hat) as [l E]; [destruct Hk as (d & _ & -> & _); by exists d|]. apply (H2 l E), (Ht l E), Hk.
    + intros Hall. split_and!; [done|..]; intros l El t Hin; apply Hh, Hall; [left; by apply (Hn l El)|right; by apply (Ht l El)].
  - apply (compare_reported adapter (holders (w_store w)) _ ns); try done.
    + intros f Hf. rewrite !elem_of_app. split; [|by auto]. intros [Hin|[Hin|Hin]]; [|done|].
      * apply Hhead in Hin as [E _]. by rewrite Hf in E.
      * apply compare_layer in Hin. by rewrite Hf in Hin.
    + by intros t (segs & _ & -> & _); exists segs.
  - apply (compare_reported adapter (holders (w_store w)) _ ts); try done.
    + intros f Hf. rewrite !elem_of_app. split; [|by auto]. intros [Hin|[Hin|Hin]]; [| |done].
      * apply Hhead in Hin as [E _]. by rewrite Hf in E.
      * apply compare_layer in Hin. by rewrite Hf in Hin.
    + by intros t (d & _ & -> & _); exists d.
Qed.
End consistency.

(** ** The statistics of the modules *)
Lemma snapshot_calls ms now c out :
  let r := foldl (Metrics.snapshot_module now) (c, out) ms in
  Metrics.mc_total r.1 = Metrics.mc_total c
  ∧ (λ d, (Metrics.ms_id d, Metrics.ms_calls d)) <$> r.2
    = ((λ d, (Metrics.ms_id d, Metrics.ms_calls d)) <$> out) ++ ((λ m, (m, default 0%Z (dget (Metrics.mc_total c) m))) <$> ms).
Proof.
  revert c out. induction ms as [|m ms IH]; intros c out; cbv zeta; [by rewrite app_nil_r|]. cbn [foldl].
  destruct (Metrics.snapshot_module now (c, out) m) as [c1 out1] eqn:E.
  unfold Metrics.snapshot_module in E. destruct (Metrics._eps _ now) as [win eps]. injection E as <- <-.
  destruct (IH (c <| Metrics.mc_win ::= λ d, dset d m win |>) (out ++ [Metrics.mkStat m (default 0%Z (dget (Metrics.mc_total c) m)) eps
             ((λ last, round_q 10 (now - last)) <$> dget (Metrics.mc_last c) m)])) as [H1 H2].
  split; [exact H1|]. rewrite H2, fmap_app, <- app_assoc. done.
Qed.
Definition from_module (mid : string) (ev : TraceEvent) : bool :=
  bool_decide (Metrics.module_for_trace_src (te_src ev) = Some mid).
Lemma supplement_counts parse evs acc mid :
  default 0%Z (dget (foldl (supplement_event parse) acc evs).1 mid)
  = (default 0%Z (dget acc.1 mid) + Z.of_nat (count (from_module mid) evs))%Z.
Proof.
  revert acc. induction evs as [|ev evs IH]; intros acc; [by rewrite Z.add_0_r|]. cbn [foldl]. rewrite IH. clear IH.
  unfold count, filterb. cbn [List.filter]. unfold from_module at 2, supplement_event. destruct acc as [counts last].
  destruct (Metrics.module_for_trace_src (te_src ev)) as [m|]; [|by rewrite bool_decide_eq_false_2 by done].
  cbn [fst]. rewrite dget_dset. destruct (String.eqb_spec mid m) as [->|Hne].
  - rewrite bool_decide_eq_true_2 by done. cbn [length default from_option]. unfold from_option, id. lia.
  - rewrite bool_decide_eq_false_2 by congruence. done.
Qed.
Lemma count_mono {A} (p q : A → bool) l : (∀ x, p x = true → q x = true) → (count p l ≤ count q l)%nat.
Proof.
  intros H. unfold count, filterb. induction l as [|x l IH]; cbn; [done|].
  specialize (H x). destruct (p x); [rewrite H by done; cbn; lia|]. destruct (q x); cbn; lia.
Qed.
Lemma working_active o : in_set inflight o = true → negb (in_set terminal o) = true.
Proof.
  unfold in_set, inflight, terminal. intros Hi%bool_decide_eq_true. apply negb_true_iff, bool_decide_eq_false. revert Hi.
  rewrite !elem_of_cons, !elem_of_nil. by intros [->|[->|[->|[->|[]]]]] [H|[H|[H|[H|[]]]]].
Qed.
(** The recent events of a module in the trace *)
Definition traced (w : World) (mid : string) : Z :=
  Z.of_nat (count (from_module mid) (Trace.last_n 2000 (filterb (Trace.event_matches None None None 0) (tr_events (w_tracer w))))).

Section stats.
Context (probe : string → IO Probe) (probe_total : ∀ u, Raises (λ _, False) (probe u)).
(** The module statistics count everything once.  Reading them always succeeds;
    they list the fourteen modules in order, each with its counted requests plus its
    events among the last 2000 of the trace; the orders at work are among the active
    ones, and the tenants are those that hold a rack or a CPU node. *)
Theorem module_stats_spec cache now p :
  ∃ r cache' p', module_stats probe cache now p = (Ok (r, cache'), p')
  ∧ (λ d, (Metrics.ms_id d, Metrics.ms_calls d)) <$> mo_modules r
    = (λ m, (m, (default 0 (dget (Metrics.mc_total (p_metrics p)) m) + traced (p_world p) m)%Z)) <$> Metrics.MODULES
  ∧ to_calls (mo_totals r) = Metrics.mc_grand_total (p_metrics p)
  ∧ (to_active_jobs (mo_totals r) ≤ to_active_orders (mo_totals r) ≤ Z.of_nat (length (st_orders (w_store (p_world p)))))%Z
  ∧ ∃ l, NoDup l ∧ (∀ t, t ∈ l ↔ holds_something (w_store (p_world p)) t) ∧ to_tenants (mo_totals r) = Z.of_nat (length l).
Proof.
  destruct p as [w c]. cbn [p_world p_metrics]. unfold module_stats.
  pose proof (snapshot_calls Metrics.MODULES now c []) as [_ Hrows]. unfold read_snapshot, Metrics.snapshot. cbn [p_metrics p_world].
  unfold mbind at 1, M_bind. cbn [p_metrics].
  destruct (foldl (Metrics.snapshot_module now) (c, []) Metrics.MODULES) as [c1 rows] eqn:Ef. cbn [snd] in Hrows.
  assert (mc_grand_total c1 = mc_grand_total c) as Eg.
  { clear Hrows. revert Ef. generalize (@nil ModuleStat) as out. generalize Metrics.MODULES as ms. intros ms. revert c.
    induction ms as [|m ms IH]; intros c out; cbn [foldl]; [by intros [= <- _]|].
    unfold snapshot_module at 2. destruct (_eps _ now) as [win eps]. by intros ->%IH. }
  destruct (_eps (mc_grand_win c1) now) as [win eps]. cbn [p_world].
  set (p1 := mkProcess w _). set (evs := Trace.last_n 2000 (filterb (Trace.event_matches None None None 0) (tr_events (w_tracer w)))).
  set (sup := foldl (supplement_event (env_fromiso (w_env w))) ([], []) evs).
  rewrite (bind_ok (on_world _trace_supplement) _ p1 sup p1) by done. cbv beta.
  rewrite (bind_ok (on_world store) _ p1 (w_store w) p1) by done. cbv beta.
  rewrite (bind_ok (on_world Trace.count) _ p1 (length (tr_events (w_tracer w))) p1) by done. cbv beta.
  assert (∃ cache' w', _twin_summary probe cache now w = (Ok cache', w')) as (cache' & w' & Et).
  { unfold _twin_summary. destruct (negb _); [by eexists _, _|]. rewrite (bind_ok AI_INFRA_BASE _ w _ w) by reflexivity. cbv beta.
    match goal with |- context [probe ?u] => pose proof (probe_total u w) as Hp; destruct (probe u w) as [[x|] w1] eqn:Ep end; [|done].
    rewrite (bind_ok _ _ _ _ _ Ep). by eexists _, _. }
  set (p2 := mkProcess w' (p_metrics p1)).
  rewrite (bind_ok (on_world _) _ p1 cache' p2) by (unfold on_world; cbn [p_world p1]; by rewrite Et). cbv beta zeta.
  eexists _, cache', p2. split; [reflexivity|]. cbn [mo_modules mo_totals to_calls to_active_jobs to_active_orders to_tenants].
  split_and!.
  - rewrite <- list_fmap_compose. unfold module_row, compose. cbn [ms_id ms_calls].
    transitivity ((λ '(m, n), (m, (n + traced w m)%Z)) <$> ((λ d, (ms_id d, ms_calls d)) <$> rows)).
    + rewrite <- list_fmap_compose. apply list_fmap_ext. intros i d _. unfold compose. f_equal. f_equal.
      unfold sup. rewrite supplement_counts. done.
    + rewrite Hrows. done.
  - exact Eg.
  - apply Nat2Z.inj_le. apply (count_mono (in_set inflight) (λ o, negb (in_set terminal o))). apply working_active.
  - unfold filterb. apply Nat2Z.inj_le. etransitivity; [apply List.filter_length_le|]. unfold dvalues. by rewrite length_fmap.
  - exists (holders (w_store w)). split_and!; [apply sorted_set_nodup|intros t; apply elem_of_holders|done].
Qed.
End stats.

(** ** A layer with a tenant that the control plane does not know *)
Definition ghost_answer (url : string) : option json :=
  if String.eqb url "http://127.0.0.1:9000/nico-bridge/segments"
  then Some (J_list ((λ t, J_dict [("tenant_ref", J_str t)]) <$> ["tnt-acme"; "tnt-ghost"; EmptyString]))
  else if String.eqb url "http://127.0.0.1:9100/emulator/v1/twin"
  then Some (J_dict [("tenants", J_list [J_str "tnt-lost"; J_str "tnt-acme"])]) else None.
Definition ghost_get (url : string) : IO (option json) := mret (ghost_answer url).
Lemma ghost_quiet u : Steps (same w_store) (ghost_get u).
Proof. by intros w. Qed.
Lemma ghost_nico : nico_typed (ghost_answer (segments_url Demo.delivered)).
Proof.
  change (ghost_answer (segments_url Demo.delivered)) with (ghost_answer "http://127.0.0.1:9000/nico-bridge/segments").
  intros segs [= <-] j. rewrite !elem_of_cons, elem_of_nil. intros [->|[->|[->|[]]]]; eexists; split; eauto.
Qed.
Lemma ghost_twin : twin_typed (ghost_answer (twin_url Demo.delivered)).
Proof.
  change (ghost_answer (twin_url Demo.delivered)) with (ghost_answer "http://127.0.0.1:9100/emulator/v1/twin").
  intros d [= <-]. right. by exists ["tnt-lost"; "tnt-acme"].
Qed.
Local Abbreviation panel := (consistency ghost_get Demo.delivered).
Definition panel_view (r : Consistency) : bool * list string * list (string * list string) :=
  (cs_ok r, cs_nocp r, (λ f, (fi_kind f, fi_tenants f)) <$> cs_findings r).
Lemma panel_run :
  match panel.1 with Ok r => Some (panel_view r) | Raised _ => None end
  = Some (false, ["tnt-acme"], [("ADAPTER_LOCAL", []); ("ORPHAN_TENANT", ["tnt-ghost"]); ("ORPHAN_TENANT", ["tnt-lost"])]).
Proof. vm_compute. reflexivity. Qed.
Lemma consistency_spec_witness :
  ∃ r w', panel = (Ok r, w')
  ∧ panel_view r = (false, ["tnt-acme"], [("ADAPTER_LOCAL", []); ("ORPHAN_TENANT", ["tnt-ghost"]); ("ORPHAN_TENANT", ["tnt-lost"])])
  ∧ ∀ t, t ∈ cs_nocp r ↔ holds_something (w_store Demo.delivered) t.
Proof.
  destruct (consistency_spec ghost_get ghost_quiet ghost_answer (λ u w, eq_refl) Demo.delivered ghost_nico ghost_twin)
    as (r & w' & E & _ & _ & Hn & _).
  exists r, w'. split; [exact E|]. split; [|exact Hn].
  pose proof panel_run as H. rewrite E in H. injection H as H1 H2 H3. unfold panel_view. by rewrite H1, H2, H3.
Defined.
Definition no_probe (url : string) : IO Probe := mret (mkProbe false 0 J_null).
Lemma no_probe_total u : Raises (λ _, False) (no_probe u).
Proof. by intros w. Qed.
Definition counted : Process := mkProcess Demo.delivered (Metrics.record "/api/v1/orders" 5 Metrics.empty_collector).
Lemma module_stats_spec_witness :
  ∃ r cache' p', module_stats no_probe empty_cache 10 counted = (Ok (r, cache'), p')
  ∧ to_calls (mo_totals r) = 1%Z
  ∧ dget ((λ d, (ms_id d, ms_calls d)) <$> mo_modules r) "cp-fulfill" = Some (1 + traced Demo.delivered "cp-fulfill")%Z.
Proof.
  destruct (module_stats_spec no_probe no_probe_total empty_cache 10 counted) as (r & cache' & p' & E & Hm & Hc & _).
  exists r, cache', p'. split; [exact E|]. split; [exact Hc|]. rewrite Hm. reflexivity.
Defined.
End IntegrationThms.
