(* ===== verification/Findings.v ===== *)
(** * What the model showed about the code

    Behaviours of the code that differ from what it means to do, each proved on
    the definitions. *)
From Stdlib Require Import QArith.
From stdpp Require Import strings base decidable option numbers list relations.
From S2P Require Import Prelude PyLib Models World NicoSim NicoMachine Adapters Polling Tenancy.
From S2P Require Import Orders Reclaim Demo.
Local Open Scope string_scope.
Local Open Scope list_scope.
Local Open Scope py_scope.

Module Findings.

Definition allocate_rack (tid rack : string) : AllocationCreate :=
  mkAllocCreate tid SC_rack_set "su-1" (Some [rack]) None.
Definition dedicated_first : World :=
  Demo.world_after (Tenancy.create_allocation (allocate_rack "tnt-acme" "su-1-rack-00")) Demo.with_tenants.
Definition shared_after : World :=
  Demo.world_after (Tenancy.create_allocation (allocate_rack "tnt-beta-labs" "su-1-rack-01")) dedicated_first.
Definition ok_of {A} (m : IO A) (w : World) : bool :=
  match (m w).1 with Ok _ => true | Raised _ => false end.
Definition report_ok (tid : string) (w : World) : option bool :=
  match (Tenancy.isolation_report tid w).1 with Ok r => Some (ir_ok r) | Raised _ => None end.

(** A scalable unit in which a bare-metal-dedicated tenant holds a rack can be
    entered by another tenant through [POST /allocations]: only the newcomer's tier
    is checked.  The dedicated tenant's isolation report then fails. *)
Lemma dedicated_su_can_be_shared :
  report_ok "tnt-acme" dedicated_first = Some true
  ∧ ok_of (Tenancy.create_allocation (allocate_rack "tnt-beta-labs" "su-1-rack-01")) dedicated_first = true
  ∧ report_ok "tnt-acme" shared_after = Some false.
Proof. vm_compute. split_and!; reflexivity. Qed.

Definition terminated_early : World :=
  Demo.world_after
    (Reclaim.run_terminate_order (Demo.terminate_body "tnt-acme" "alloc-1") LocalNicoAdapter)
    Demo.isolated_only.
(** Terminating an allocation that is not delivered yet closes the terminate order
    without error and deletes the allocation, but the nodes stay allocated on both
    sides, without a tenant. *)
Lemma early_termination_strands_nodes :
  Demo.order_states terminated_early = [("ord-1", OS_isolating, None); ("ord-2", OS_closed, None)]
  ∧ st_allocations (w_store terminated_early) = []
  ∧ take 2 (Demo.node_states terminated_early)
    = [("ni-su-1-rack-00-tray-00", NS_allocated, None); ("ni-su-1-rack-01-tray-00", NS_allocated, None)]
  ∧ take 2 (Demo.host_states terminated_early)
    = [("nh-su-1-rack-00-tray-00", HS_allocated); ("nh-su-1-rack-01-tray-00", HS_allocated)].
Proof. vm_compute. split_and!; reflexivity. Qed.

(** The last poll of a job that its order has given up on overwrites the state of
    the host, whatever has become of the host since: a host that is back in the pool
    becomes provisioned again, without a reservation. *)
Lemma stale_job_overwrites_host n j h :
  Polling.pending n j h 1 → h_state h = HS_pool_ready → j_op j = "provision" →
  j_detail j = EmptyString →
  NicoMachine.triple n (Nico.get_job (j_id j)) (λ _ n',
    h_state <$> dget (nc_hosts n') (j_host_id j) = Some HS_provisioned).
Proof.
  intros Hp _ Hop Hd. eapply NicoMachine.triple_mono; [eapply Polling.poll_last; [exact Hp|done]|].
  intros r n' (j' & -> & Hs). rewrite (Polling.st_host _ _ _ _ Hs), Hop, Hd. done.
Qed.
End Findings.
